(* ===== verification/_CoqProject ===== *)
-Q . S2P
Prelude.v
PyFloat.v
Schema.v
PyText.v
RateLimit.v
RateLimitProperties.v
Models.v
SessionLayer.v
RequestLayer.v
SerializableRetry.v
Samples.v
AgentRpc.v
Protocol.v
AuditService.v
NotificationService.v
ReservationService.v
ReservationLifecycle.v
BookingProperties.v
ScriptLifecycleService.v
ReservationsApi.v
AlertService.v
AgentPolicyService.v
SyncServices.v
AgentConfig.v
AgentConfigProperties.v
AgentCaches.v
ProcessKiller.v
AuthorizedKeys.v
HostAccounts.v
ScriptRunner.v
ScriptRunnerProperties.v
AgentHandlers.v
WsClient.v
WsClientProperties.v
SyncProperties.v
ComplianceIngest.v
ModifyProperties.v
LifecycleProperties.v
TelemetryService.v
ServerService.v
PhysicalAccountService.v
SshKeyService.v
AccountLinkService.v
AccountLinkProperties.v
AccountLinkRequestService.v
AuthDependencies.v
AuthService.v
UserService.v
LabUrlService.v
AddressFlow.v
SetupService.v
AccountLinksApi.v
AccountLinkRequestsApi.v
AccountLinkRequestProperties.v
ChallengeProperties.v
PhysicalAccountsApi.v
AccountRegistryProperties.v
OnboardingProperties.v
KeyReadback.v
UsageService.v
UsageProperties.v
ScheduleRecommender.v
RecommenderProperties.v
UserProperties.v
UsersApi.v
SetupProperties.v
AuthProperties.v
AuthorityProperties.v
ComplianceMonitor.v
MonitorProperties.v
UserHub.v
AgentWs.v
ScriptFlow.v
AgentWsProperties.v
ServerProperties.v
ReservationScheduler.v
SchedulerProperties.v
GroupProperties.v
History.v
