(* ===== verification/Prelude.v ===== *)
(** * CoreLab: a verification library for the control plane

    CoreLab books GPUs on shared lab servers.  A backend
    ([src/backend/corelab_backend]) keeps the bookings in a MySQL database,
    answers browsers over HTTP and talks over websockets to an agent on every
    server, which runs the users' scripts, watches the cards and reports what
    it sees.  This library models the core of the backend, the protocol
    between the two and the agent's own decisions, and proves what makes them
    correct.

    ** The parts and how they interact

    A request opens a session, a handler calls services, the services read
    and write rows, append audit entries and notifications, and the session
    is committed or rolled back.  Every five seconds the scheduler promotes,
    closes and dispatches reservations in one retried transaction and sends
    RPCs to agents.  Agents answer RPCs and report script and violation
    events over their socket.  All of it meets in the [reservation] table.

    In the other direction the backend pushes to each agent its policies, its
    capability switches and the links and bookings of its accounts.  The
    agent caches them, compares what its cards run with them once a minute,
    and logs, reports or kills as the policy of the finding says.

    Data and effects:
    - [Prelude]: result, state-and-error programs ([prog]) with their
      weakest precondition [wp] and the tactic [run_step], record update,
      Python strings, JSON, list and map lemmas.
    - [Models]: the rows of [models/*.py], the CHECK constraints and column
      widths of [reservation] as executable tests, the exceptions, the
      database [Db].
    - [SessionLayer]: [db.py] and the part of SQLAlchemy the services rely on
      (identity map, no autoflush, flush, commit, [get_session]).
    - [Schema]: pydantic's reading of a JSON document by a class of typed
      fields, and its JSON dump.
    - [PyText]: Python's text methods on code points, and UTF-8.
    - [PyFloat]: binary64 arithmetic and [round] as the services use them.
    - [RequestLayer]: handlers that use Redis beside the session.
    - [Protocol]: [corelab_protocol/frames.py]: every frame class, the type
      tables, the envelope, [parse_envelope].
    - [Samples]: concrete databases for the witnesses.

    Components, each with its operations as in the source:
    - [AgentRpc]: [services/agent_hub.py] and [agent_rpc.py]: pool, pending
      calls, correlation, timeout, bounded table of optional acks.
    - [AuditService]: [services/audit_service.py]: writer and scoped reader.
    - [NotificationService]: [services/notification_service.py].
    - [ReservationService], [ReservationLifecycle]:
      [services/reservation_service.py]: validation, conflict matrix, preview
      and batch creation; cancel, group cancel, edit, the status and
      script-status machines, the log tail.
    - [ScriptLifecycleService]: [services/script_lifecycle_service.py]: the
      agent's script events, the registry of pending kills, and the cancel
      that waits for the agent.
    - [ReservationScheduler]: [services/reservation_scheduler.py]: the tick.
    - [SerializableRetry]: [services/_serializable_retry.py].
    - [ReservationsApi]: [api/v1/reservations.py], [schemas/reservation.py].
    - [AlertService]: [services/alert_service.py], [api/v1/alerts.py].
    - [ComplianceIngest]: [services/compliance_ingest_service.py].
    - [TelemetryService]: [services/telemetry_service.py]: authentication,
      enrolment, heartbeat, the telemetry upsert.
    - [ServerService]: [services/server_service.py]: servers, their switches,
      administrators and enrolment secrets.
    - [PhysicalAccountService]: [services/physical_account_service.py].
    - [RateLimit]: [middleware/rate_limit.py], [cache.py], and the Redis
      commands the backend uses as an interface ([Redis]) with their
      documented effect ([RedisLaws]) and an instance.
    - [PhysicalAccountsApi]: [api/v1/physical_accounts.py], its schemas.
    - [UsageService]: [services/usage_service.py], and the card and laboratory
      pages [api/v1/gpus.py], [lab_overview.py].
    - [SetupService]: [services/setup_service.py], [api/v1/setup.py]: the
      first run, with its staged addresses.
    - [AuthDependencies]: [auth_dependencies.py] and the tokens of
      [security.py]; [AuthService], [UserService]: [services/auth_service.py],
      [services/user_service.py]; [UsersApi]: [api/v1/users.py],
      [api/v1/auth.py], the activation endpoints of [api/v1/setup.py].
    - [SshKeyService], [AccountLinkService], [AccountLinkRequestService]: the
      services of these names and [ssh_key_helpers.py]; [AccountLinksApi],
      [AccountLinkRequestsApi]: [services/ssh_challenge.py] and the endpoints
      of [api/v1/account_links.py], [account_link_requests.py].
    - [LabUrlService]: [services/lab_url_service.py], [lab_url_scheduler.py],
      [agent_url_broadcast.py], [api/v1/public_urls.py], [tunnel.py].
    - [ScheduleRecommender]: [services/schedule_recommender.py], its endpoint.
    - [UserHub]: [api/ws_user.py], [services/gpu_broker.py].
    - [AgentWs]: [api/agent_ws.py].
    - [AgentPolicyService]: [services/agent_policy_service.py].
    - [SyncServices]: [policy_sync_service.py], [capability_sync_service.py],
      [link_cache_sync_service.py] under [services/].

    On the agent ([src/agent/corelab_agent]):
    - [AgentCaches]: [policy_cache.py], [reverse_cache.py],
      [capabilities.py], [grace_tracker.py]; their globals are one record.
    - [AgentHandlers]: the receive loop of [ws_client.py] and the handlers
      that work on the caches.
    - [ComplianceMonitor]: [compliance_monitor.py], [violations.py],
      [policy_handlers.py] and the callbacks of [ws_client.py] that
      [__main__.py] wires to it.
    - [ProcessKiller]: [process_killer.py].
    - [AuthorizedKeys]: [authorized_keys.py]: editing users' key files.
    - [HostAccounts]: [linux_users.py], [pam_handler.py], [ssh_verifier.py],
      [account_scanner.py]: the host's accounts.
    - [ScriptRunner]: [script_runner.py]: scripts as child processes, by the
      steps of the runner's tasks between their awaits.
    - [AgentConfig]: [config.py], and the rewriting of the address list in
      [agent.toml].
    - [WsClient]: the rest of [ws_client.py]: addresses, delays, the other
      handlers, a session and the loop around the sessions.

    ** Correspondence

    A definition has the name of the function it models.  A Python coroutine
    is a [prog Session exn A]: it may read and write the session and raise.
    An HTTP handler is run by [SessionLayer.get_session] on a durable [Db];
    a websocket event by [AgentWs.run_in] or [SessionLayer.transaction].  An
    RPC's outcome is an argument ([reply]); what happens elsewhere while a
    coroutine awaits is an argument too ([world]), arbitrary unless a theorem
    says otherwise.  Instants are naive UTC microseconds, the resolution of
    the [DATETIME(6)] columns; the clock and [uuid4] are fields of the
    session.  On the agent the globals of the modules are the fields of
    [AgentCaches.AgentState], and what the kernel and [sudo] answer is a
    [ProcessKiller.host].  Text is a list of code points where its UTF-8 length matters
    (scripts and logs), a string elsewhere.  SQL queries are filters over the
    table; an ORDER BY is written out ([order_by]), and without one the order
    is the map's own, on which no theorem may rely.

    ** What the theorems show

    - The life of a reservation ([History]).  [step] is one durable change:
      any modelled request or event on any input, a tick, or any step of the
      services that are not modelled, constrained only to leave reservations,
      and the audit entries already written, alone.  Along every history the
      table stays well formed; bookings are never deleted or renumbered;
      status and script status move along the transition tables; a started
      booking's plan is frozen; a finished one keeps its verdict; a tick never
      gets stuck.
    - Booking ([BookingProperties]).  The capacity of a card is stated per
      instant, without windows; a batch whose items do not meet on a card
      keeps it.  Acceptance is characterised exactly, refusal and a row that
      breaks a constraint of the table change nothing, preview agrees with
      creation.
    - Edits ([ModifyProperties]) and group cancels ([GroupProperties]):
      exact acceptance, one row and one audit entry, and what a refused PATCH
      leaves pending and durable.
    - Scripts ([LifecycleProperties]): started, output and finished events on
      every branch; the stored tail is the end of the stream; a running script
      is only cancelled after its own call's event was set, whatever happens
      meanwhile.
    - The tick ([SchedulerProperties]) refines the per-row function
      [tick_row]; the retried transaction refines an atomic tick; a tick is
      idempotent and leaves nothing overdue.
    - Agents ([AgentRpc], [AgentWsProperties]): RPC outcomes, authentication,
      enrolment, the approval gate, and, along every interleaving of connects
      (suspended while they close the previous socket), failures, frames and
      drops, whose socket the pool has: two registered handlers of a server
      that were neither closed nor overtaken are the same.
    - Servers ([ServerProperties]): creation, approval, switches and secrets on
      every branch, an invariant of their tables, and which secrets an agent
      can enrol with afterwards, in terms of what authentication accepts.
    - Key files ([AuthorizedKeys]): push, revoke and read on every branch
      against a host that obeys the commands; revoking undoes pushing.
    - Accounts ([UserProperties], [AuthProperties], [AuthDependencies]): a
      lab that has an enabled administrator keeps one along every history;
      disabling takes all access away; the verdict on a sign-in; setup links
      and invitations are good once; a token is worth what the row says.
    - The first run and the account pages ([SetupProperties],
      [AuthorityProperties]): every name gets a usable slug, one laboratory
      along every history of requests that do not overlap, the outcome of a
      setup on every branch; and which request may change what of whose
      account.
    - Links to Linux accounts ([AccountLinkProperties],
      [AccountLinkRequestProperties], [ChallengeProperties]): invariants of
      both tables along every history, the gate of acting as a Linux user,
      approvals and verifications on every branch, what one challenge is good
      for: once, in time, its user and its account.
    - The registry of Linux accounts ([AccountRegistryProperties],
      [OnboardingProperties], [KeyReadback]): its invariant along every
      history of its endpoints, in which order creating an account acts on
      the host and on the tables, and what a key that was pushed to a host is
      read back as, across agent and backend.
    - Usage ([UsageProperties]): a month's GPU hours per user and card as the
      measure of the bookings' overlap, and what the pages show of it.
    - Budgets and locks ([RateLimitProperties]): both stores refine an
      unbounded log of requests; when a subject is locked.
    - Recommendations ([RecommenderProperties]): for bookings that stay apart,
      the sweep finds the earliest window with enough free cards at every
      instant, but for the windows in which one booking hands over to another;
      what the user is told, and when it can be booked.
    - Audit, notifications, alerts, compliance, telemetry, account scans:
      exact effects, scope and paging, dedup spacing.
    - The protocol ([Protocol]): whatever arrives, a parsed frame has exactly
      the declared fields at their types; what is dumped is parsed back.
    - Policies ([AgentPolicyService]): switching a profile and editing a
      policy on every branch, with the table's invariant.
    - What a push achieves ([SyncProperties], [MonitorProperties]), end
      to end: the frame composed from the tables is written, parsed and
      applied, and afterwards the agent's lookups answer as the tables do;
      so the agent's test for a rightful process is a statement about the
      backend's rows.
    - A script on its host ([ScriptRunnerProperties], [ScriptFlow]): along
      every interleaving of the runner's tasks between their awaits the events
      of a reservation are runs in order, each with at most one report, a
      cancelled script is reported as killed; and the backend's row, fed with
      the events of one run, is what they say after every frame, as long as
      output and numbers fit their columns.
    - The agent's connection ([AgentConfigProperties], [WsClientProperties],
      [AddressFlow]): delays, the address that is reached, what a switched-off
      capability stops, the ledger of addresses, and the way of an address
      list from the backend into the agent's connections and its configuration
      file.
    - When an agent kills ([MonitorProperties]): along every history of pushes
      and ticks, only for preemption, with policy, switch and grace in order;
      who holds a card is stated on the cached tables.
    - Some theorems pin down behaviour that looks unintended:
      [rejected_patch_is_committed], [batch_may_double_book],
      [lone_booking_may_exceed_memory], [forbidden_cancel_kills_script],
      [stale_disconnect_marks_offline], [grace_ignores_gaps],
      [memory_limit_rounds_down], [owner_reported], [hidden_key_activated],
      [redis_lock_overcounts], [lock_evaded], [second_approval_fails],
      [probe_undoes_a_removal], [touching_counts_as_free],
      [relay_names_a_booked_card], [rewrite_leaves_continuation],
      [quotation_mark_breaks_config], [fallback_kills_successor],
      [late_cancel_unconfirmed], [refused_kill_forgets_script],
      [split_character_lost], [userdel_any_account],
      [upcoming_hours_negative], [next_month_negative], [year_zero_raises],
      [refusal_accepted], [duplicate_after_useradd],
      [retry_restores_removed_key], [silent_agent_is_recorded],
      [unexpected_answer_loses_rows], [bad_seed_spent], [concurrent_setups],
      [taken_address_is_a_server_error], [huge_log_unreported],
      [overtaken_socket_stays_open], [torn_socket_stays_in_pool],
      [zoned_trigger_is_a_server_error], [offset_is_dropped],
      [handover_is_skipped], [own_booking_is_preempted],
      [mock_header_after_report], [second_cancel_takes_event],
      the bound case of [regenerate_enrollment_token_spec], the refusing branches of
      [script_output_chunk_spec] and of [link_push_applied].

    ** Fuel and bounds

    [retry_loop] counts the attempts [with_serializable_retry] allows (five
    for the tick), and its theorem says it returns within them.  The agent's
    endless loop is [WsClient.run] for a number of turns, which its theorems
    quantify over; a turn is a recursion over the addresses.  Everything else is structural
    recursion or a fold over a table.  Column widths that a service can
    exceed are checked where the flush checks them: [TEXT] (65,535 bytes)
    for script and log tail, unsigned columns and the CHECK constraints of
    [reservation].

    ** Not modelled

    MySQL's locking and isolation (a request is one atomic step, apart from
    the two awaits of the running-script cancel and the retried tick, whose
    deadlocks are arguments); widths of VARCHAR columns; the failure of an
    audit insert; response shaping; the loops around the tick and the
    monitor; the agent's version on connect.  A clock does not move within
    one tick.  Left out as parts: the endpoints of servers and policies
    ([api/v1/servers.py], [policies.py]), start-up, configuration and logging
    of both programs, the reading of the cards ([gpu_collector.py]), the
    migrations, the deployment scripts and the web front end.  Requests that
    overlap during the first run are only in [concurrent_setups].

    Library code is a parameter with its law where a theorem needs one:
    password hashing, pydantic's conversion of scalars ([ScalarLaws]),
    [datetime.isoformat] and its parser, [int(str)], SHA-256, [json.dumps].
    A datetime in a document is its instant, without a zone, but for the
    trigger and the bounds of an edit, which may have one
    ([ReservationLifecycle.datetime]); the times of a new booking are UTC.
    Floats are
    binary64 ([SpecFloat]) where the monitor computes with them.

    On the agent: reading the cards is the operating system's; commands, PAM,
    [ssh-keygen] and child processes are arguments that answer.  TOML is read
    as far as [agent.toml] uses it.  Not modelled of [ws_client.py] and
    [script_runner.py]: the periodic heartbeat and telemetry, and the runner's
    shutdown. *)

From stdpp Require Export base gmap sets list sorting strings numbers pretty.
From Stdlib Require Export Lia.

#[global] Open Scope Z_scope.

(** * Record update

    Python objects are mutated attribute by attribute; the model is a pure
    record with a functional update [r <| field := v |>].  A record opts in
    with an [Eta] instance, the setters are then derived on demand. *)

Class Eta (R : Type) := eta_expand : R → R.

Class Setter {R E : Type} (proj : R → E) := set_field : (E → E) → R → R.
Arguments set_field {R E} proj {_} f r /.

Ltac derive_setter proj :=
  lazymatch type of proj with
  | ?R → ?E =>
      let inst := constr:(_ : Eta R) in
      let inst := eval unfold eta_expand in inst in
      let inst := eval hnf in inst in
      exact (fun (f : E → E) (r : R) =>
               ltac:(let b := eval cbv beta in (inst r) in
                     lazymatch b with
                     | context C [proj r] =>
                         let t := context C [f (proj r)] in exact t
                     end))
  end.

#[global] Hint Extern 1 (Setter ?p) => derive_setter p : typeclass_instances.

Declare Scope update_scope.
Notation "r <| p := v |>" := (set_field p (λ _, v) r)
  (at level 12, left associativity, p at level 9, v at level 99,
   format "r  <| p  :=  v |>") : update_scope.
#[global] Open Scope update_scope.

(** * Effects: state and exceptions

    A service call runs against a state [S] (the SQLAlchemy session, an
    agent's module globals) and either returns or raises.  A raise keeps the
    state reached so far, as Python does: what is then committed or rolled
    back is decided by the caller ([SessionLayer]). *)

Inductive result (E A : Type) : Type :=
| Ok (a : A)
| Raise (e : E).
Arguments Ok {E A} a.
Arguments Raise {E A} e.

#[global] Instance result_eq_dec {E A} `{EqDecision E, EqDecision A} :
  EqDecision (result E A).
Proof. solve_decision. Defined.

Definition is_ok {E A} (r : result E A) : bool :=
  match r with Ok _ => true | Raise _ => false end.

Definition prog (S E A : Type) : Type := S → result E A * S.

#[global] Instance prog_ret S E : MRet (prog S E) := λ A a s, (Ok a, s).
#[global] Instance prog_bind S E : MBind (prog S E) := λ A B f m s,
  match m s with
  | (Ok a, s') => f a s'
  | (Raise e, s') => (Raise e, s')
  end.

Section effects.
Context {S E : Type}.

Definition raise {A} (e : E) : prog S E A := λ s, (Raise e, s).
Definition get_state : prog S E S := λ s, (Ok s, s).
Definition gets {A} (f : S → A) : prog S E A := λ s, (Ok (f s), s).
Definition update (f : S → S) : prog S E unit := λ s, (Ok tt, f s).
Definition skip : prog S E unit := mret tt.

(** [if cond: raise e] *)
Definition raise_if (b : bool) (e : E) : prog S E unit :=
  if b then raise e else skip.

(** [if cond: m] *)
Definition when (b : bool) (m : prog S E unit) : prog S E unit :=
  if b then m else skip.

(** [try: m except e: h e] *)
Definition try_except {A} (m : prog S E A) (h : E → prog S E A) : prog S E A :=
  λ s, match m s with
       | (Ok a, s') => (Ok a, s')
       | (Raise e, s') => h e s'
       end.

(** [try: m finally: f] *)
Definition try_finally {A} (m : prog S E A) (f : prog S E unit) : prog S E A :=
  λ s, match m s with
       | (r, s') => match f s' with
                    | (Ok _, s'') => (r, s'')
                    | (Raise e, s'') => (Raise e, s'')
                    end
       end.

(** [x = e; if x is None: raise exn] *)
Definition some_or_raise {A} (o : option A) (e : E) : prog S E A :=
  match o with Some a => mret a | None => raise e end.

(** [for x in l: f x] *)
Fixpoint for_each {A} (l : list A) (f : A → prog S E unit) : prog S E unit :=
  match l with
  | [] => skip
  | x :: l' => f x ;; for_each l' f
  end.

(** [for x in l: acc = f acc x] *)
Fixpoint fold_prog {A B} (f : B → A → prog S E B) (acc : B) (l : list A) : prog S E B :=
  match l with
  | [] => mret acc
  | x :: l' => acc' ← f acc x ; fold_prog f acc' l'
  end.

(** Total-correctness predicate transformer: the result and the state
    reached satisfy [Q]. *)
Definition wp {A} (m : prog S E A) (Q : result E A → S → Prop) (s : S) : Prop :=
  Q (m s).1 (m s).2.
End effects.

#[global] Arguments wp : simpl never.

(** * Time: naive UTC instants in microseconds *)

Definition seconds (n : Z) : Z := n * 1000000.
Definition minutes (n : Z) : Z := seconds (60 * n).
Definition hours (n : Z) : Z := seconds (3600 * n).
Definition days (n : Z) : Z := hours (24 * n).

(** * Text

    A Python [str] whose length or encoding matters is a list of code
    points; identifiers and f-strings are [string]. *)

Definition pystr := list N.

Definition utf8_bytes (c : N) : Z :=
  if (c <? 128)%N then 1 else if (c <? 2048)%N then 2 else if (c <? 65536)%N then 3 else 4.

(** [len(s.encode("utf-8"))] *)
Definition utf8_length (s : pystr) : Z := foldr (λ c n, utf8_bytes c + n) 0 s.

(** JSON documents, as stored in the [payload] columns. *)
Inductive json : Type :=
| JNull
| JBool (b : bool)
| JInt (z : Z)
| JFloat (m e : Z)                (* the binary64 number m * 2^e *)
| JTime (z : Z)
| JStr (s : string)
| JList (l : list json)
| JObj (l : list (string * json)).

Definition jopt {A} (f : A → json) (o : option A) : json :=
  match o with Some a => f a | None => JNull end.

(** * Tables and sums *)

(** All rows of a table keyed by primary key.  A [SELECT] without
    [ORDER BY] has no defined order; no theorem depends on the one used. *)
Definition rows {V} (t : gmap Z V) : list V := (map_to_list t).*2.

(** [ORDER BY key] and [ORDER BY key DESC]. *)
Definition keyed_le {V} (key : V → Z) (a b : V) : Prop := key a <= key b.
#[export] Instance keyed_le_dec {V} (key : V → Z) : RelDecision (keyed_le key).
Proof. intros a b. unfold keyed_le. apply _. Defined.
Definition order_by {V} (key : V → Z) (l : list V) : list V := merge_sort (keyed_le key) l.
Definition order_by_desc {V} (key : V → Z) (l : list V) : list V := merge_sort (flip (keyed_le key)) l.

(** Text by code points. *)
Definition text_le (a b : string) : Prop := String.leb a b = true.
#[export] Instance text_le_dec : RelDecision text_le.
Proof. intros a b. unfold text_le. apply _. Defined.

Lemma order_by_perm {V} (key : V → Z) l : order_by key l ≡ₚ l.
Proof. apply merge_sort_Permutation. Qed.

Lemma order_by_elem {V} (key : V → Z) l x : x ∈ order_by key l ↔ x ∈ l.
Proof. by rewrite order_by_perm. Qed.

Definition Zsum (l : list Z) : Z := foldr Z.add 0 l.

(** [sum(w(r) for r in table)] *)
Definition msum {V} (w : V → Z) (t : gmap Z V) : Z := Zsum (w <$> rows t).

(** Python truthiness of an optional integer column: [x or 0]. *)
Definition or0 (o : option Z) : Z := default 0 o.

(** [x is not None] *)
Definition is_some {A} (o : option A) : bool :=
  match o with Some _ => true | None => false end.

(** Python truthiness of an [Optional[str]]. *)
Definition str_truthy (o : option string) : bool :=
  match o with Some s => negb (bool_decide (s = ""%string)) | None => false end.

(** ** Lemmas on programs *)

Section effect_lemmas.
Context {S E : Type}.

Lemma wp_run {A} (m : prog S E A) Q s r s' : m s = (r, s') → Q r s' → wp m Q s.
Proof. unfold wp. by intros ->. Qed.

Lemma wp_bind {A B} (m : prog S E A) (f : A → prog S E B) Q s :
  wp m (λ r s', match r with Ok a => wp (f a) Q s' | Raise e => Q (Raise e) s' end) s →
  wp (m ≫= f) Q s.
Proof. unfold wp, mbind, prog_bind. by destruct (m s) as [[a|e] s']. Qed.

Lemma wp_mono {A} (m : prog S E A) (Q Q' : result E A → S → Prop) s :
  wp m Q s → (∀ r s', Q r s' → Q' r s') → wp m Q' s.
Proof. unfold wp. auto. Qed.

Lemma wp_ret {A} (a : A) (Q : result E A → S → Prop) s : Q (Ok a) s → wp (mret a) Q s.
Proof. done. Qed.

Lemma wp_raise {A} (e : E) (Q : result E A → S → Prop) s :
  Q (Raise e) s → wp (raise e) Q s.
Proof. done. Qed.

Lemma wp_gets {A} (f : S → A) (Q : result E A → S → Prop) s : Q (Ok (f s)) s → wp (gets f) Q s.
Proof. done. Qed.

Lemma wp_update (f : S → S) (Q : result E unit → S → Prop) s : Q (Ok tt) (f s) → wp (update f) Q s.
Proof. done. Qed.

Lemma wp_raise_if b (e : E) (Q : result E unit → S → Prop) s :
  (b = true → Q (Raise e) s) → (b = false → Q (Ok tt) s) → wp (raise_if b e) Q s.
Proof. destruct b; unfold wp; simpl; auto. Qed.

Lemma wp_some_or_raise {A} (o : option A) (e : E) (Q : result E A → S → Prop) s :
  (o = None → Q (Raise e) s) → (∀ a, o = Some a → Q (Ok a) s) →
  wp (some_or_raise o e) Q s.
Proof. destruct o; unfold wp; simpl; auto. Qed.

Lemma wp_when b (m : prog S E unit) Q s :
  (b = true → wp m Q s) → (b = false → Q (Ok tt) s) → wp (when b m) Q s.
Proof. destruct b; unfold wp; simpl; auto. Qed.

Lemma wp_for_each {A} (I : S → Prop) (QE : E → S → Prop) (l : list A) f s :
  I s →
  (∀ x s, x ∈ l → I s →
     wp (f x) (λ r s', match r with Ok _ => I s' | Raise e => QE e s' end) s) →
  wp (for_each l f) (λ r s', match r with Ok _ => I s' | Raise e => QE e s' end) s.
Proof.
  revert s. induction l as [|x l IH]; intros s HI Hf; simpl.
  { by apply wp_ret. }
  apply wp_bind. eapply wp_mono; [apply Hf; [left|done]|].
  intros [[]|e] s' H; [|done].
  apply IH; [done|]. intros y s1 Hy. apply Hf. by right.
Qed.

Lemma wp_fold_prog {A B} (I : B → S → Prop) (QE : E → S → Prop)
    (f : B → A → prog S E B) (l : list A) b s :
  I b s →
  (∀ b x s, x ∈ l → I b s →
     wp (f b x) (λ r s', match r with Ok b' => I b' s' | Raise e => QE e s' end) s) →
  wp (fold_prog f b l) (λ r s', match r with Ok b' => I b' s' | Raise e => QE e s' end) s.
Proof.
  revert b s. induction l as [|x l IH]; intros b s HI Hf; simpl.
  { by apply wp_ret. }
  apply wp_bind. eapply wp_mono; [apply Hf; [left|done]|].
  intros [b'|e] s' H; [|done].
  apply IH; [done|]. intros b1 y s1 Hy. apply Hf. by right.
Qed.

Lemma bind_Ok {A B} (m : prog S E A) (f : A → prog S E B) s b s' :
  (m ≫= f) s = (Ok b, s') ↔ ∃ a s1, m s = (Ok a, s1) ∧ f a s1 = (Ok b, s').
Proof.
  unfold mbind, prog_bind. destruct (m s) as [[a|e] s1]; naive_solver.
Qed.

Lemma bind_Raise {A B} (m : prog S E A) (f : A → prog S E B) s e s' :
  (m ≫= f) s = (Raise e, s') ↔
  m s = (Raise e, s') ∨ ∃ a s1, m s = (Ok a, s1) ∧ f a s1 = (Raise e, s').
Proof.
  unfold mbind, prog_bind. destruct (m s) as [[a|e1] s1]; naive_solver.
Qed.

Lemma bind_run {A B} (m : prog S E A) (f : A → prog S E B) s a s1 :
  m s = (Ok a, s1) → (m ≫= f) s = f a s1.
Proof. unfold mbind, prog_bind. by intros ->. Qed.

Lemma bind_run_raise {A B} (m : prog S E A) (f : A → prog S E B) s e s1 :
  m s = (Raise e, s1) → (m ≫= f) s = (Raise e, s1).
Proof. unfold mbind, prog_bind. by intros ->. Qed.

Lemma ret_run {A} (a : A) (s : S) r s' :
  (mret a : prog S E A) s = (r, s') ↔ r = Ok a ∧ s' = s.
Proof. unfold mret, prog_ret. naive_solver. Qed.

Lemma raise_run {A} (e : E) (s : S) (r : result E A) s' :
  raise e s = (r, s') ↔ r = Raise e ∧ s' = s.
Proof. unfold raise. naive_solver. Qed.

Lemma gets_run {A} (f : S → A) (s : S) (r : result E A) s' :
  gets f s = (r, s') ↔ r = Ok (f s) ∧ s' = s.
Proof. unfold gets. naive_solver. Qed.

Lemma raise_if_Ok b (e : E) (s : S) a s' :
  raise_if b e s = (Ok a, s') ↔ b = false ∧ s' = s.
Proof.
  unfold raise_if, raise, skip, mret, prog_ret. destruct b, a; naive_solver.
Qed.

Lemma raise_if_Raise b (e : E) (s : S) e' s' :
  raise_if b e s = (Raise e', s') ↔ b = true ∧ e' = e ∧ s' = s.
Proof. unfold raise_if, raise, skip, mret, prog_ret. destruct b; naive_solver. Qed.

Lemma raise_if_false b (e : E) (s : S) : b = false → raise_if b e s = (Ok tt, s).
Proof. by intros ->. Qed.

Lemma some_or_raise_Ok {A} (o : option A) (e : E) (s : S) a s' :
  some_or_raise o e s = (Ok a, s') ↔ o = Some a ∧ s' = s.
Proof. unfold some_or_raise, raise, mret, prog_ret. destruct o; naive_solver. Qed.

Lemma some_or_raise_Raise {A} (o : option A) (e : E) (s : S) e' s' :
  some_or_raise o e s = (Raise e', s') ↔ o = None ∧ e' = e ∧ s' = s.
Proof. unfold some_or_raise, raise, mret, prog_ret. destruct o; naive_solver. Qed.

Lemma try_finally_run {A} (m : prog S E A) (f : prog S E unit) s r s1 s2 :
  m s = (r, s1) → f s1 = (Ok tt, s2) → try_finally m f s = (r, s2).
Proof. unfold try_finally. by intros -> ->. Qed.

Lemma for_each_Ok_pure {A} (l : list A) (f : A → prog S E unit) s u s' :
  (∀ x s1 u s2, x ∈ l → f x s1 = (Ok u, s2) → s2 = s1) →
  for_each l f s = (Ok u, s') → s' = s ∧ ∀ x, x ∈ l → ∃ u, f x s = (Ok u, s).
Proof.
  revert s. induction l as [|x l IH]; intros s Hf H; simpl in H.
  { apply ret_run in H as [_ ->]. split; [done|]. intros x Hx. by apply elem_of_nil in Hx. }
  apply bind_Ok in H as (u1 & s1 & Hx & H).
  assert (s1 = s) as -> by (eapply Hf; [left|done]).
  apply IH in H as [-> Hl]; [|intros; eapply Hf; [by right|done]].
  split; [done|]. intros y [->|Hy]%elem_of_cons; eauto.
Qed.

Lemma for_each_run_pure {A} (l : list A) (f : A → prog S E unit) s :
  (∀ x, x ∈ l → f x s = (Ok tt, s)) → for_each l f s = (Ok tt, s).
Proof.
  induction l as [|x l IH]; intros H; simpl; [done|].
  rewrite (bind_run _ _ s tt s) by (apply H; left). apply IH. intros; apply H; by right.
Qed.
End effect_lemmas.

(** ** Programs that only read *)

Definition reader {S E A} (m : prog S E A) : Prop := ∀ s, (m s).2 = s.

Section readers.
Context {S E : Type}.

Lemma reader_ret {A} (a : A) : reader (mret a : prog S E A).
Proof. done. Qed.
Lemma reader_raise {A} (e : E) : reader (raise e : prog S E A).
Proof. done. Qed.
Lemma reader_gets {A} (f : S → A) : reader (gets f : prog S E A).
Proof. done. Qed.
Lemma reader_skip : reader (skip : prog S E unit).
Proof. done. Qed.
Lemma reader_raise_if b (e : E) : reader (raise_if b e : prog S E unit).
Proof. by destruct b. Qed.
Lemma reader_some_or_raise {A} (o : option A) (e : E) : reader (some_or_raise o e : prog S E A).
Proof. by destruct o. Qed.
Lemma reader_bind {A B} (m : prog S E A) (f : A → prog S E B) :
  reader m → (∀ a, reader (f a)) → reader (m ≫= f).
Proof.
  intros Hm Hf s. unfold mbind, prog_bind. specialize (Hm s).
  destruct (m s) as [[a|e] s1]; simpl in *; subst; [apply Hf|done].
Qed.
Lemma reader_for_each {A} (l : list A) (f : A → prog S E unit) :
  (∀ x, reader (f x)) → reader (for_each l f).
Proof.
  intros Hf. induction l as [|x l IH]; [done|].
  apply reader_bind; [apply Hf|intros _; apply IH].
Qed.
Lemma reader_fold {A B} (f : B → A → prog S E B) b (l : list A) :
  (∀ b x, reader (f b x)) → reader (fold_prog f b l).
Proof.
  intros Hf. revert b. induction l as [|x l IH]; intros b; [done|].
  apply reader_bind; [apply Hf|intros; apply IH].
Qed.
Lemma reader_run {A} (m : prog S E A) s r s' : reader m → m s = (r, s') → s' = s.
Proof. intros H Hr. specialize (H s). by rewrite Hr in H. Qed.
End readers.

Create HintDb reader.
#[export] Hint Resolve reader_ret reader_raise reader_gets reader_skip reader_raise_if
  reader_some_or_raise reader_for_each reader_fold : reader.

(** Proves that a program built from reads, guards and case analysis leaves
    the state unchanged. *)
Ltac solve_reader :=
  cbv zeta;
  repeat first
    [ solve [eauto with reader]
    | apply reader_bind; [|intros]
    | apply reader_for_each; intros
    | apply reader_fold; intros
    | lazymatch goal with
      | |- reader (match ?x with _ => _ end) => destruct x
      end ].

(** Turns boolean tests in the hypotheses into propositions. *)
Ltac simpl_bools :=
  repeat match goal with
  | H : negb _ = true |- _ => apply negb_true_iff in H
  | H : negb _ = false |- _ => apply negb_false_iff in H
  | H : bool_decide _ = true |- _ => apply bool_decide_eq_true_1 in H
  | H : bool_decide _ = false |- _ => apply bool_decide_eq_false_1 in H
  | H : (_ && _)%bool = true |- _ => apply andb_true_iff in H as [? ?]
  | H : (_ || _)%bool = false |- _ => apply orb_false_iff in H as [? ?]
  end.

(** Inverts the hypotheses that say how a program ran. *)
Ltac inv_prog :=
  repeat match goal with
  | H : mbind _ _ _ = (Ok _, _) |- _ =>
      let a := fresh "a" in let s := fresh "s" in let Hm := fresh "Hm" in
      apply bind_Ok in H as (a & s & Hm & H)
  | H : raise_if _ _ _ = (Ok _, _) |- _ => apply raise_if_Ok in H as [H ->]
  | H : raise_if _ _ _ = (Raise _, _) |- _ => apply raise_if_Raise in H as (H & -> & ->)
  | H : some_or_raise _ _ _ = (Ok _, _) |- _ => apply some_or_raise_Ok in H as [H ->]
  | H : some_or_raise _ _ _ = (Raise _, _) |- _ => apply some_or_raise_Raise in H as (H & -> & ->)
  | H : mret _ _ = (_, _) |- _ => apply ret_run in H as [H ->]; try (injection H as H; subst)
  | H : raise _ _ = (_, _) |- _ => apply raise_run in H as [H ->]
  | H : gets _ _ = (_, _) |- _ => apply gets_run in H as [H ->]
  | H : Ok _ = Raise _ |- _ => discriminate H
  | H : Raise _ = Ok _ |- _ => discriminate H
  | H : Ok _ = Ok _ |- _ => injection H as H
  | H : Raise _ = Raise _ |- _ => injection H as H
  end.

Create HintDb corelab.

(** ** Lemmas on sums and tables *)

Lemma Zsum_cons z l : Zsum (z :: l) = z + Zsum l.
Proof. done. Qed.

Lemma fmap_filter {A B} (f : A → B) (P : B → Prop) `{∀ x, Decision (P x)} (l : list A) :
  f <$> filter (λ x, P (f x)) l = filter P (f <$> l).
Proof. induction l as [|x l IH]; [done|]. rewrite fmap_cons, !filter_cons. by case_decide; rewrite ?fmap_cons, IH. Qed.

Lemma Zsum_app l k : Zsum (l ++ k) = Zsum l + Zsum k.
Proof. induction l; simpl; lia. Qed.

Lemma Zsum_Permutation l k : l ≡ₚ k → Zsum l = Zsum k.
Proof. induction 1; simpl; lia. Qed.

#[global] Instance Zsum_Proper : Proper ((≡ₚ) ==> (=)) Zsum.
Proof. intros l k. apply Zsum_Permutation. Qed.

Lemma Zsum_nonneg l : Forall (λ z, 0 <= z) l → 0 <= Zsum l.
Proof. induction 1; simpl; lia. Qed.

Lemma Zsum_le {A} (f g : A → Z) (l : list A) :
  (∀ x, x ∈ l → f x <= g x) → Zsum (f <$> l) <= Zsum (g <$> l).
Proof.
  induction l as [|x l IH]; intros H; [done|].
  rewrite !fmap_cons, !Zsum_cons.
  assert (f x <= g x) by (apply H; left).
  assert (Zsum (f <$> l) <= Zsum (g <$> l)) by (apply IH; intros; apply H; by right).
  lia.
Qed.

Lemma Zsum_filter {A} (P : A → Prop) `{∀ x, Decision (P x)} (f : A → Z) (l : list A) :
  Zsum (f <$> filter P l) = Zsum ((λ x, if decide (P x) then f x else 0) <$> l).
Proof.
  induction l as [|x l IH]; [done|].
  rewrite filter_cons, fmap_cons, Zsum_cons, <- IH.
  destruct (decide (P x)); [by rewrite fmap_cons, Zsum_cons | done].
Qed.

Section tables.
Context {V : Type}.
Implicit Types (t : gmap Z V) (w : V → Z).

Lemma elem_of_rows t v : v ∈ rows t ↔ ∃ k, t !! k = Some v.
Proof.
  unfold rows. rewrite list_elem_of_fmap. split.
  - intros [[k v'] [-> Hin]]. exists k. by apply elem_of_map_to_list.
  - intros [k Hk]. exists (k, v). split; [done|]. by apply elem_of_map_to_list.
Qed.

(** The first row with a property. *)
Lemma head_filter_unique {A} (P : A → Prop) `{∀ x, Decision (P x)} (l : list A) x :
  x ∈ l → P x → (∀ y, y ∈ l → P y → y = x) → head (filter P l) = Some x.
Proof.
  intros Hx HP Hu. destruct (filter P l) as [|y k] eqn:Hf.
  - assert (Hin : x ∈ filter P l) by by apply list_elem_of_filter. rewrite Hf in Hin.
    by apply elem_of_nil in Hin.
  - assert (Hin : y ∈ filter P l) by (rewrite Hf; left).
    apply list_elem_of_filter in Hin as [??]. simpl. f_equal. by apply Hu.
Qed.

Lemma head_filter_None {A} (P : A → Prop) `{∀ x, Decision (P x)} (l : list A) :
  head (filter P l) = None ↔ ∀ x, x ∈ l → ¬ P x.
Proof.
  split.
  - intros Hn x Hx HP. assert (Hin : x ∈ filter P l) by by apply list_elem_of_filter.
    destruct (filter P l); [by apply elem_of_nil in Hin|done].
  - intros Hn. destruct (filter P l) as [|y k] eqn:Hf; [done|].
    assert (Hin : y ∈ filter P l) by (rewrite Hf; left).
    apply list_elem_of_filter in Hin as [HP Hy]. by destruct (Hn y Hy).
Qed.

Lemma head_filter_elem {A} (P : A → Prop) `{∀ x, Decision (P x)} (l : list A) x :
  head (filter P l) = Some x → x ∈ l ∧ P x.
Proof.
  intros Hh. assert (Hin : x ∈ filter P l).
  { destruct (filter P l); [done|]. injection Hh as ->. left. }
  by apply list_elem_of_filter in Hin as [??].
Qed.

Lemma sublist_fmap {A B} (f : A → B) (l k : list A) : sublist l k → sublist (f <$> l) (f <$> k).
Proof. induction 1; simpl; by constructor. Qed.

(** A table keyed by the rows' ids has every id once. *)
Lemma rows_ids_NoDup (id : V → Z) (m : gmap Z V) :
  (∀ k v, m !! k = Some v → id v = k) → NoDup (id <$> rows m).
Proof.
  intros Hid. unfold rows. rewrite <- list_fmap_compose.
  rewrite (list_fmap_ext _ fst); [apply NoDup_fst_map_to_list|].
  intros i [k v] Hin. apply list_elem_of_lookup_2, elem_of_map_to_list in Hin. simpl. by apply Hid.
Qed.

Lemma rows_lookup t k v : t !! k = Some v → v ∈ rows t.
Proof. rewrite elem_of_rows. eauto. Qed.

Lemma rows_insert_fresh t k v : t !! k = None → rows (<[k:=v]> t) ≡ₚ v :: rows t.
Proof. intros H. unfold rows. by rewrite map_to_list_insert. Qed.

Lemma rows_insert_existing t k v v0 :
  t !! k = Some v0 →
  ∃ l, rows t ≡ₚ v0 :: l ∧ rows (<[k:=v]> t) ≡ₚ v :: l.
Proof.
  intros H. exists (rows (delete k t)). split.
  - unfold rows. by rewrite <- (map_to_list_delete t k v0).
  - rewrite <- insert_delete_eq. apply rows_insert_fresh. apply lookup_delete_eq.
Qed.

Lemma msum_insert_fresh w t k v :
  t !! k = None → msum w (<[k:=v]> t) = w v + msum w t.
Proof. intros H. unfold msum. by rewrite (rows_insert_fresh t k v H). Qed.

Lemma msum_insert_existing w t k v v0 :
  t !! k = Some v0 → msum w (<[k:=v]> t) = w v - w v0 + msum w t.
Proof.
  intros H. destruct (rows_insert_existing t k v v0 H) as (l & H1 & H2).
  unfold msum. rewrite H1, H2. simpl. lia.
Qed.

Lemma msum_le w w' t : (∀ k v, t !! k = Some v → w v <= w' v) → msum w t <= msum w' t.
Proof.
  intros H. apply Zsum_le. intros x [k Hk]%elem_of_rows. eauto.
Qed.

Lemma msum_nonneg w t : (∀ k v, t !! k = Some v → 0 <= w v) → 0 <= msum w t.
Proof.
  intros H. apply Zsum_nonneg, Forall_fmap, Forall_forall.
  intros x [k Hk]%elem_of_rows. simpl. eauto.
Qed.
End tables.

(** Events about the same thing are more than [w] seconds apart. *)
Definition spaced_by {A} (same : A → A → Prop) (time : A → Z) (w : Z) (l : list A) : Prop :=
  ∀ i j a b, (i < j)%nat → l !! i = Some a → l !! j = Some b → same a b →
    time a + seconds w < time b.

Lemma spaced_by_snoc {A} (same : A → A → Prop) time w l b :
  spaced_by same time w l → (∀ a, a ∈ l → same a b → time a + seconds w < time b) →
  spaced_by same time w (l ++ [b]).
Proof.
  intros Hsp Hb i j x y Hij Hx Hy Hxy. apply lookup_app_Some in Hy as [Hy|[Hl Hy]].
  - apply (Hsp i j x y Hij); [|done..]. apply lookup_lt_Some in Hy.
    by rewrite lookup_app_l in Hx by lia.
  - apply list_lookup_singleton_Some in Hy as [Hj <-].
    rewrite lookup_app_l in Hx by lia. eapply Hb; eauto using list_elem_of_lookup_2.
Qed.
