(* ===== verification/PyFloat.v ===== *)
(** Python's floats: the binary64 numbers of [SpecFloat], what the program
    does with them, and rounding to so many decimals. *)

From S2P Require Import Prelude.
From Stdlib Require Export SpecFloat.

(** [float(z)], for an int in range. *)
Definition float_of_int (z : Z) : spec_float := binary_normalize 53 1024 z 0 false.

(** [a / b] *)
Definition float_div (a b : spec_float) : spec_float := SFdiv 53 1024 a b.

(** [n / d] to the nearest integer, halves to the even one. *)
Definition round_half_even (n d : Z) : Z :=
  let q := n / d in
  match (2 * (n - q * d)) ?= d with
  | Lt => q
  | Gt => q + 1
  | Eq => if Z.even q then q else q + 1
  end.

(** [round(f, digits)]: the decimal nearest to the exact value of [f], read
    back as a float; exact while the decimal has less than 2^53 units. *)
Definition py_round (digits : Z) (f : spec_float) : spec_float :=
  match f with
  | S754_finite s m e =>
      if 0 <=? e then f
      else
        let units := round_half_even (Z.pos m * 10 ^ digits) (2 ^ (- e)) in
        let r := float_div (float_of_int units) (float_of_int (10 ^ digits)) in
        if s then SFopp r else r
  | _ => f
  end.

Example round_down : py_round 2 (float_div (float_of_int 1) (float_of_int 3)) =
  float_div (float_of_int 33) (float_of_int 100).
Proof. by vm_compute. Qed.

(** 0.125 is a tie and goes to 0.12; 2.675 is a float below 2.675. *)
Example round_tie : py_round 2 (float_div (float_of_int 1) (float_of_int 8)) =
  float_div (float_of_int 12) (float_of_int 100).
Proof. by vm_compute. Qed.
Example round_below : py_round 2 (float_div (float_of_int 2675) (float_of_int 1000)) =
  float_div (float_of_int 267) (float_of_int 100).
Proof. by vm_compute. Qed.
