(* ===== verification/Schema.v ===== *)
(** Pydantic's reading of a frame class.

    [shared/protocol/frames.py] declares its frames as pydantic models with
    [extra="forbid"].  A field type is an [ftype], a class is a [TModel], and
    [validate] reads a JSON document the way pydantic documents it: unknown
    keys are refused, a missing field takes its default or is an error, the
    fields of a validated frame are those of its class, in order.  What
    pydantic converts a single scalar to is a parameter, with three documented
    laws: the result has the declared type, a value written to the wire is
    read back, and [null] is no scalar. *)

From S2P Require Import Prelude.
From Stdlib Require Import DecimalString DecimalPos DecimalZ.

#[export] Instance JNull_dec (j : json) : Decision (j = JNull).
Proof. destruct j; (by left) || (by right). Defined.

Inductive scalar : Type := KInt | KStr | KBool | KFloat | KDatetime.

Inductive default_of : Type :=
| Required
| Default (v : json)
| Now                          (* default_factory=_now *)
| Uuid.                        (* default_factory=_uuid *)

(** The arguments of [Field]: [ge]/[le] on numbers, [min_length]/[max_length]
    on text. *)
Inductive ftype : Type :=
| TScalar (k : scalar)
| TInt (ge le : option Z)
| TStr (min_length max_length : option Z)
| TLiteral (values : list string)
| TAny
| TOptional (t : ftype)
| TList (t : ftype) (max_length : option Z)
| TDict (t : ftype)
| TClass (forbid : bool) (fields : list (string * ftype * default_of)).

(** A class with [extra="forbid"]; pydantic's default is to drop what it
    does not know. *)
Abbreviation TModel := (TClass true).

Abbreviation field := (string * ftype * default_of)%type.
Definition field_name (f : field) : string := f.1.1.
Definition field_type (f : field) : ftype := f.1.2.
Definition field_default (f : field) : default_of := f.2.

Section ftype_induction.
Context (P : ftype → Prop)
  (HScalar : ∀ k, P (TScalar k)) (HInt : ∀ ge le, P (TInt ge le))
  (HStr : ∀ a b, P (TStr a b)) (HLiteral : ∀ vs, P (TLiteral vs)) (HAny : P TAny)
  (HOptional : ∀ t, P t → P (TOptional t)) (HList : ∀ t n, P t → P (TList t n))
  (HDict : ∀ t, P t → P (TDict t))
  (HClass : ∀ b fs, Forall (λ f, P (field_type f)) fs → P (TClass b fs)).

Fixpoint ftype_ind' (t : ftype) : P t :=
  match t with
  | TScalar k => HScalar k
  | TInt ge le => HInt ge le
  | TStr a b => HStr a b
  | TLiteral vs => HLiteral vs
  | TAny => HAny
  | TOptional t => HOptional t (ftype_ind' t)
  | TList t n => HList t n (ftype_ind' t)
  | TDict t => HDict t (ftype_ind' t)
  | TClass b fs => HClass b fs ((fix go fs : Forall (λ f, P (field_type f)) fs :=
      match fs with
      | [] => Forall_nil_2 _
      | f :: fs => Forall_cons_2 _ f fs (ftype_ind' (field_type f)) (go fs)
      end) fs)
  end.
End ftype_induction.

(** ** Documents *)

(** [d.get(k)] on a decoded object. *)
Definition assoc {A} (k : string) (d : list (string * A)) : option A :=
  snd <$> head (filter (λ p, p.1 = k) d).

(** [len(s)] of a string held in UTF-8: its code points. *)
Fixpoint str_len (s : string) : Z :=
  match s with
  | EmptyString => 0
  | String c s => (if (128 <=? Ascii.N_of_ascii c)%N && (Ascii.N_of_ascii c <? 192)%N then 0 else 1)
                  + str_len s
  end.

Definition at_least (o : option Z) (z : Z) : bool :=
  match o with Some lo => bool_decide (lo <= z) | None => true end.
Definition at_most (o : option Z) (z : Z) : bool :=
  match o with Some hi => bool_decide (z <= hi) | None => true end.

(** A document as [json.loads] returns it: no datetime, keys distinct. *)
Fixpoint plain (j : json) : bool :=
  match j with
  | JTime _ => false
  | JList l => forallb plain l
  | JObj o => bool_decide (NoDup o.*1) && forallb (λ p, plain p.2) o
  | _ => true
  end.

(** Python's [==] on decoded documents: numbers by value, [True] being 1;
    dicts whatever their order. *)
Definition number (j : json) : option (Z * Z) :=
  match j with
  | JBool b => Some (Z.b2z b, 0)
  | JInt z => Some (z, 0)
  | JFloat m e => Some (m, e)
  | _ => None
  end.

Definition number_eq (x y : Z * Z) : bool :=
  let e := Z.min x.2 y.2 in
  bool_decide (x.1 * 2 ^ (x.2 - e) = y.1 * 2 ^ (y.2 - e)).

Fixpoint py_eq (a b : json) : bool :=
  match a, b with
  | JNull, JNull => true
  | JTime x, JTime y => bool_decide (x = y)
  | JStr x, JStr y => bool_decide (x = y)
  | JList k, JList l =>
      (fix go (k l : list json) : bool :=
         match k, l with
         | [], [] => true
         | x :: k, y :: l => py_eq x y && go k l
         | _, _ => false
         end) k l
  | JObj k, JObj l =>
      bool_decide (length k = length l) &&
      forallb (λ p, match assoc p.1 l with Some y => py_eq p.2 y | None => false end) k
  | _, _ => match number a, number b with Some x, Some y => number_eq x y | _, _ => false end
  end.

(** The same on values that may be [None]. *)
Definition py_eq_opt (a b : option json) : bool := py_eq (default JNull a) (default JNull b).

Section interpretation.
(** [coerce] is pydantic's lax conversion of one scalar; [isoformat] is how a
    datetime is written in JSON; the clock and the fresh id feed the default
    factories. *)
Context (coerce : scalar → json → option json) (isoformat : Z → string).

Record factories : Type := mkFactories { fresh_now : Z ; fresh_uuid : string }.

Definition default_value (env : factories) (d : default_of) : option json :=
  match d with
  | Required => None
  | Default v => Some v
  | Now => Some (JTime (fresh_now env))
  | Uuid => Some (JStr (fresh_uuid env))
  end.

Definition known (fs : list field) (o : list (string * json)) : bool :=
  forallb (λ p : string * json, bool_decide (p.1 ∈ field_name <$> fs)) o.

(** [cls.model_validate(j)], the result given by its [model_dump()];
    [None] is a [ValidationError]. *)
Fixpoint validate (env : factories) (t : ftype) (j : json) : option json :=
  match t with
  | TScalar k => coerce k j
  | TInt ge le =>
      v ← coerce KInt j ;
      match v with JInt z => if at_least ge z && at_most le z then Some v else None | _ => None end
  | TStr lo hi =>
      v ← coerce KStr j ;
      match v with
      | JStr s => if at_least lo (str_len s) && at_most hi (str_len s) then Some v else None
      | _ => None
      end
  | TLiteral vs => match j with JStr s => if bool_decide (s ∈ vs) then Some j else None | _ => None end
  | TAny => Some j
  | TOptional t => match j with JNull => Some JNull | _ => validate env t j end
  | TList t hi =>
      match j with
      | JList l => if at_most hi (Z.of_nat (length l)) then JList <$> mapM (validate env t) l else None
      | _ => None
      end
  | TDict t =>
      match j with
      | JObj o => JObj <$> mapM (λ p, v ← validate env t p.2 ; Some (p.1, v)) o
      | _ => None
      end
  | TClass forbid fs =>
      match j with
      | JObj o =>
          if negb forbid || known fs o then
            JObj <$> (fix go (fs : list field) : option (list (string * json)) :=
              match fs with
              | [] => Some []
              | (n, t, d) :: fs =>
                  v ← match assoc n o with
                      | Some j => validate env t j
                      | None => default_value env d
                      end ;
                  vs ← go fs ;
                  Some ((n, v) :: vs)
              end) fs
          else None
      | _ => None
      end
  end.

(** The fields of a class, read from an object. *)
Definition read_field (env : factories) (o : list (string * json)) (f : field) :
    option (string * json) :=
  v ← match assoc (field_name f) o with
      | Some j => validate env (field_type f) j
      | None => default_value env (field_default f)
      end ;
  Some (field_name f, v).

(** [model_dump(mode="json")] of a validated document. *)
Fixpoint to_wire (v : json) : json :=
  match v with
  | JTime z => JStr (isoformat z)
  | JList l => JList (to_wire <$> l)
  | JObj o => JObj ((λ p, (p.1, to_wire p.2)) <$> o)
  | _ => v
  end.
End interpretation.

(** ** What a validated document looks like *)

Definition scalar_typed (k : scalar) (v : json) : bool :=
  match k, v with
  | KInt, JInt _ | KStr, JStr _ | KBool, JBool _ | KFloat, JFloat _ _ | KDatetime, JTime _ => true
  | _, _ => false
  end.

Definition same_keys (fs : list field) (o : list (string * json)) : bool :=
  bool_decide (o.*1 = field_name <$> fs).

Fixpoint typed (t : ftype) (v : json) : bool :=
  match t with
  | TScalar k => scalar_typed k v
  | TInt ge le => match v with JInt z => at_least ge z && at_most le z | _ => false end
  | TStr lo hi =>
      match v with JStr s => at_least lo (str_len s) && at_most hi (str_len s) | _ => false end
  | TLiteral vs => match v with JStr s => bool_decide (s ∈ vs) | _ => false end
  | TAny => plain v
  | TOptional t => match v with JNull => true | _ => typed t v end
  | TList t hi => match v with JList l => at_most hi (Z.of_nat (length l)) && forallb (typed t) l | _ => false end
  | TDict t =>
      match v with
      | JObj o => bool_decide (NoDup o.*1) && forallb (λ p, typed t p.2) o
      | _ => false
      end
  | TClass _ fs =>
      match v with
      | JObj o =>
          same_keys fs o &&
          (fix go (fs : list field) (o : list (string * json)) : bool :=
             match fs, o with
             | f :: fs, p :: o => typed (f.1.2) p.2 && go fs o
             | _, _ => true
             end) fs o
      | _ => false
      end
  end.

(** A class as pydantic accepts it: distinct field names, defaults of the
    field's type. *)
Fixpoint class_ok (t : ftype) : bool :=
  match t with
  | TOptional t | TList t _ | TDict t => class_ok t
  | TClass _ fs =>
      bool_decide (NoDup (field_name <$> fs)) &&
      (fix go (fs : list field) : bool :=
         match fs with
         | [] => true
         | (_, t, d) :: fs =>
             class_ok t &&
             match d with
             | Required => true
             | Default v => typed t v
             | Now => match t with TScalar KDatetime => true | _ => false end
             | Uuid => match t with TScalar KStr => true | _ => false end
             end && go fs
         end) fs
  | _ => true
  end.

(** ** Lemmas *)

Lemma Forall2_elem_r {A B} (R : A → B → Prop) l k y :
  Forall2 R l k → y ∈ k → ∃ x, x ∈ l ∧ R x y.
Proof.
  intros HR (i & Hy)%list_elem_of_lookup. destruct (Forall2_lookup_r _ _ _ _ _ HR Hy) as (x & Hx & H).
  eauto using list_elem_of_lookup_2.
Qed.

Lemma forallb_elem {A} (f : A → bool) l : forallb f l = true ↔ ∀ x, x ∈ l → f x = true.
Proof. rewrite forallb_forall. by setoid_rewrite list_elem_of_In. Qed.

Lemma assoc_cons {A} k (p : string * A) o :
  assoc k (p :: o) = if decide (p.1 = k) then Some p.2 else assoc k o.
Proof. unfold assoc. rewrite filter_cons. by case_decide. Qed.

Lemma assoc_elem {A} k (o : list (string * A)) v : assoc k o = Some v → (k, v) ∈ o.
Proof.
  induction o as [|[k' v'] o IH]; [done|]. rewrite assoc_cons. simpl.
  case_decide as Hk; [intros [= ->]; subst; left|right; auto].
Qed.

Lemma assoc_lookup {A} k (o : list (string * A)) v :
  NoDup o.*1 → (k, v) ∈ o → assoc k o = Some v.
Proof.
  induction o as [|[k' v'] o IH]; simpl; [by intros _ ?%elem_of_nil|].
  intros [Hk Hn]%NoDup_cons [[= -> ->]|Hin]%elem_of_cons; rewrite assoc_cons; simpl.
  - by rewrite decide_True.
  - rewrite decide_False; [auto|]. intros ->. apply Hk, list_elem_of_fmap. by exists (k, v).
Qed.

Lemma assoc_fmap {A B} (f : A → B) k (o : list (string * A)) :
  assoc k ((λ p, (p.1, f p.2)) <$> o) = f <$> assoc k o.
Proof.
  induction o as [|p o IH]; [done|]. rewrite fmap_cons, !assoc_cons. simpl. by case_decide.
Qed.

Lemma keys_fmap {A B} (f : A → B) (o : list (string * A)) :
  ((λ p, (p.1, f p.2)) <$> o).*1 = o.*1.
Proof. rewrite <- list_fmap_compose. by apply list_fmap_ext. Qed.

Lemma typed_model b fs o :
  typed (TClass b fs) (JObj o) = true ↔
  o.*1 = field_name <$> fs ∧ Forall2 (λ f p, typed (field_type f) p.2 = true) fs o.
Proof.
  simpl. unfold same_keys. rewrite andb_true_iff, bool_decide_eq_true.
  enough (∀ o, o.*1 = field_name <$> fs →
    (fix go (fs : list field) (o : list (string * json)) : bool :=
             match fs, o with
             | f :: fs, p :: o => typed (f.1.2) p.2 && go fs o
             | _, _ => true
             end) fs o = true ↔ Forall2 (λ f p, typed (field_type f) p.2 = true) fs o) as H.
  { specialize (H o). naive_solver. }
  clear o. induction fs as [|f fs IH]; intros [|p o] Hk; try discriminate; [by split|].
  injection Hk as Hp Hk. rewrite andb_true_iff, Forall2_cons, (IH _ Hk). done.
Qed.

Lemma class_ok_model b fs :
  class_ok (TClass b fs) = true →
  NoDup (field_name <$> fs) ∧
  Forall (λ f, class_ok (field_type f) = true ∧
    match field_default f with
    | Required => True
    | Default v => typed (field_type f) v = true
    | Now => field_type f = TScalar KDatetime
    | Uuid => field_type f = TScalar KStr
    end) fs.
Proof.
  simpl. rewrite andb_true_iff, bool_decide_eq_true. intros [Hn Hc]. split; [done|]. clear Hn.
  induction fs as [|[[n t] d] fs IH]; [done|]. rewrite !andb_true_iff in Hc.
  destruct Hc as [[Ht Hd] Hc]. constructor; [|by apply IH]. simpl. split; [done|].
  destruct d; [done|done|destruct t as [[]| | | | | | | |]; done..].
Qed.

Lemma plain_to_wire isoformat v : plain v = true → to_wire isoformat v = v.
Proof.
  revert v. fix IH 1. intros [| | | | | |l|o]; simpl; try done; intros Hp; f_equal.
  - induction l as [|v l IHl]; [done|]. simpl in *. apply andb_true_iff in Hp as [Hv Hl].
    f_equal; [by apply IH|by apply IHl].
  - apply andb_true_iff in Hp as [_ Hp].
    induction o as [|[k v] o IHo]; [done|]. simpl in *. apply andb_true_iff in Hp as [Hv Ho].
    f_equal; [by rewrite IH|by apply IHo].
Qed.

Lemma plain_obj_to_wire isoformat o :
  NoDup o.*1 → Forall (λ p, plain (to_wire isoformat p.2) = true) o →
  plain (to_wire isoformat (JObj o)) = true.
Proof.
  intros Hn Ho. cbn [to_wire plain]. rewrite (keys_fmap (to_wire isoformat)).
  rewrite bool_decide_eq_true_2 by done. apply forallb_elem.
  intros q (p & -> & Hp)%list_elem_of_fmap. simpl. by eapply Forall_forall in Ho.
Qed.

(** What goes on the wire is a plain document. *)
Lemma typed_to_wire_plain isoformat t v :
  class_ok t = true → typed t v = true → plain (to_wire isoformat v) = true.
Proof.
  revert t v. refine (ftype_ind' _ _ _ _ _ _ _ _ _ _).
  - intros [] [] _; done.
  - intros ge le [] _; done.
  - intros lo hi [] _; done.
  - intros vs [] _; done.
  - intros v _ Hv. simpl in Hv. by rewrite plain_to_wire.
  - intros t IH v Hc Ht. destruct v; [done|by apply IH..].
  - intros t n IH v Hc Ht. destruct v as [| | | | | |l|]; try done.
    apply andb_true_iff in Ht as [_ Ht]. cbn [to_wire plain]. apply forallb_elem.
    intros w (v & -> & Hv)%list_elem_of_fmap. apply IH; [done|].
    exact (proj1 (forallb_elem _ _) Ht _ Hv).
  - intros t IH v Hc Ht. destruct v as [| | | | | | |o]; try done.
    apply andb_true_iff in Ht as [Hn Ht]. apply bool_decide_eq_true_1 in Hn.
    apply plain_obj_to_wire; [done|]. apply Forall_forall. intros p Hp. apply IH; [done|].
    exact (proj1 (forallb_elem _ _) Ht _ Hp).
  - intros b fs IH v Hc Ht. destruct v as [| | | | | | |o]; try done.
    apply typed_model in Ht as [Hk Ht]. apply class_ok_model in Hc as [Hn Hc].
    rewrite <- Hk in Hn. apply plain_obj_to_wire; [done|]. clear Hk Hn.
    induction Ht as [|f p fs o Hf Ht IHt]; [done|].
    apply Forall_cons in IH as [IHf IH], Hc as [[Hcf _] Hc]. constructor; auto.
Qed.

(** No datetime anywhere in the type. *)
Fixpoint timeless (t : ftype) : bool :=
  match t with
  | TScalar KDatetime => false
  | TOptional t | TList t _ | TDict t => timeless t
  | TClass _ fs =>
      (fix go (fs : list field) : bool :=
         match fs with [] => true | (_, t, _) :: fs => timeless t && go fs end) fs
  | _ => true
  end.

Lemma timeless_class b fs :
  timeless (TClass b fs) = true → Forall (λ f, timeless (field_type f) = true) fs.
Proof.
  simpl. induction fs as [|[[n t] d] fs IH]; [done|]. intros [Ht H]%andb_true_iff.
  constructor; [done|by apply IH].
Qed.

Lemma to_wire_list (isoformat : Z → string) l :
  Forall (λ v, to_wire isoformat v = v) l → to_wire isoformat (JList l) = JList l.
Proof. intros H. simpl. f_equal. induction H as [|v l Hv Hl IH]; [done|]. by rewrite fmap_cons, Hv, IH. Qed.

Lemma to_wire_obj (isoformat : Z → string) o :
  Forall (λ p, to_wire isoformat p.2 = p.2) o → to_wire isoformat (JObj o) = JObj o.
Proof.
  intros H. simpl. f_equal. induction H as [|[k v] o Hv Ho IH]; [done|].
  rewrite fmap_cons, IH. simpl in *. by rewrite Hv.
Qed.

Lemma typed_timeless (isoformat : Z → string) t v :
  timeless t = true → typed t v = true → to_wire isoformat v = v.
Proof.
  revert t v. refine (ftype_ind' _ _ _ _ _ _ _ _ _ _).
  - intros [] []; done.
  - intros ge le []; done.
  - intros lo hi []; done.
  - intros vs []; done.
  - intros v _ Hv. by apply plain_to_wire.
  - intros t IH v Hc Ht. destruct v; [done|by apply IH..].
  - intros t n IH v Hc Ht. destruct v as [| | | | | |l|]; try done.
    apply andb_true_iff in Ht as [_ Ht]. apply to_wire_list, Forall_forall.
    intros v Hv. apply IH; [done|]. exact (proj1 (forallb_elem _ _) Ht _ Hv).
  - intros t IH v Hc Ht. destruct v as [| | | | | | |o]; try done.
    apply andb_true_iff in Ht as [_ Ht]. apply to_wire_obj, Forall_forall.
    intros p Hp. apply IH; [done|]. exact (proj1 (forallb_elem _ _) Ht _ Hp).
  - intros b fs IH v Hc Ht. destruct v as [| | | | | | |o]; try done.
    apply typed_model in Ht as [_ Ht]. apply timeless_class in Hc. apply to_wire_obj.
    induction Ht as [|f p fs o Hf Ht IHt]; [done|].
    apply Forall_cons in IH as [IHf IH], Hc as [Hcf Hc]. constructor; auto.
Qed.

Lemma typed_plain (isoformat : Z → string) t v :
  timeless t = true → class_ok t = true → typed t v = true → plain v = true.
Proof.
  intros Ht Hc Hv. rewrite <- (typed_timeless isoformat t v) by done. by eapply typed_to_wire_plain.
Qed.

Lemma plain_assoc o n v : plain (JObj o) = true → assoc n o = Some v → plain v = true.
Proof.
  simpl. rewrite andb_true_iff, forallb_elem. intros [_ H] Hv.
  by apply assoc_elem, H in Hv.
Qed.

Lemma mapM_fmap_inverse {A B} {g : B → option A} {f : A → B} (l : list A) :
  (∀ x, x ∈ l → g (f x) = Some x) → mapM g (f <$> l) = Some l.
Proof.
  intros H. apply mapM_Some, Forall2_fmap_l, Forall_Forall2_diag, Forall_forall. auto.
Qed.

(** What the theorems rely on: the documented behaviour of pydantic on one
    scalar, for this conversion and this way of writing datetimes. *)
Class ScalarLaws (coerce : scalar → json → option json) (isoformat : Z → string) : Prop := {
  coerce_typed k j v : coerce k j = Some v → scalar_typed k v = true ;
  coerce_wire k v : scalar_typed k v = true → coerce k (to_wire isoformat v) = Some v ;
  coerce_null k : coerce k JNull = None }.

Section validation.
Context {coerce : scalar → json → option json} {isoformat : Z → string}.
Context `{!ScalarLaws coerce isoformat} (env : factories).

Lemma validate_model b fs o :
  validate coerce env (TClass b fs) (JObj o) =
    if negb b || known fs o then JObj <$> mapM (read_field coerce env o) fs else None.
Proof using Type.
  simpl. destruct (negb b || known fs o); [|done]. f_equal.
  induction fs as [|[[n t] d] fs IH]; [done|]. simpl. rewrite IH. unfold read_field at 3.
  unfold field_name, field_type, field_default. simpl.
  by destruct (match assoc n o with Some _ => _ | None => _ end).
Qed.

Lemma validate_model_typed b fs j v :
  class_ok (TClass b fs) = true →
  Forall (λ f, ∀ j v, class_ok (field_type f) = true → plain j = true →
    validate coerce env (field_type f) j = Some v → typed (field_type f) v = true) fs →
  plain j = true → validate coerce env (TClass b fs) j = Some v → typed (TClass b fs) v = true.
Proof using Type.
  intros [_ Hc]%class_ok_model IH Hp. destruct j as [| | | | | | |o]; [done..|].
  rewrite validate_model. destruct (negb b || known fs o); [|done].
  intros (vs & Hm & ->)%fmap_Some. apply mapM_Some in Hm. apply typed_model.
  induction Hm as [|f [n v] fs vs Hr Hm IHm]; [done|].
  apply Forall_cons in IH as [IHf IH], Hc as [[Hf Hd] Hc].
  destruct (IHm Hc IH) as [Hk Ht]. clear IHm.
  unfold read_field in Hr. apply bind_Some in Hr as (v' & Hv & [= <- ->]).
  rewrite !fmap_cons. split; [by f_equal|]. constructor; [|done]. simpl.
  destruct (assoc (field_name f) o) as [j|] eqn:Ha; [apply (IHf j); [done|by eapply plain_assoc|done]|].
  destruct (field_default f); simpl in Hv; simplify_eq; [done|by rewrite Hd..].
Qed.

Lemma validate_typed t j v :
  class_ok t = true → plain j = true → validate coerce env t j = Some v → typed t v = true.
Proof using All.
  revert t j v. refine (ftype_ind' _ _ _ _ _ _ _ _ _ _).
  - intros k j v _ _ H. by apply (coerce_typed k j).
  - intros ge le j v _ _. simpl. intros (w & _ & H)%bind_Some.
    destruct w; try done. destruct (_ && _) eqn:E; by simplify_eq.
  - intros lo hi j v _ _. simpl. intros (w & _ & H)%bind_Some.
    destruct w; try done. destruct (_ && _) eqn:E; by simplify_eq.
  - intros vs j v _ _. simpl. destruct j; try done. case_bool_decide; intros [= <-].
    simpl. by apply bool_decide_eq_true.
  - intros j v _ Hp [= <-]. done.
  - intros t IH j v Hc Hp. 
    assert (j = JNull ∨ validate coerce env (TOptional t) j = validate coerce env t j) as [->| ->]
      by (destruct j; auto).
    { intros [= <-]. done. }
    intros H. apply IH in H; [|done..]. by destruct v.
  - intros t n IH j v Hc Hp. simpl. destruct j as [| | | | | |l|]; try done.
    destruct (at_most n _) eqn:Hn; [|done]. intros (vs & Hm & ->)%fmap_Some.
    apply mapM_Some in Hm. rewrite (Forall2_length _ _ _ Hm) in Hn. rewrite Hn. simpl.
    apply forallb_elem. intros v (j & Hj & Hv)%(Forall2_elem_r _ _ _ _ Hm).
    apply (IH j); [done| |done]. simpl in Hp. by eapply forallb_elem in Hp.
  - intros t IH j v Hc Hp. simpl. destruct j as [| | | | | | |o]; try done.
    intros (vs & Hm & ->)%fmap_Some. apply mapM_Some in Hm.
    apply andb_true_iff in Hp as [Hp Hpl]. apply bool_decide_eq_true in Hp.
    assert (vs.*1 = o.*1) as Hk.
    { clear -Hm. induction Hm as [|p q o vs Hq]; [done|]. rewrite !fmap_cons. f_equal; [|done].
      by apply bind_Some in Hq as (? & _ & [= <-]). }
    rewrite Hk, bool_decide_eq_true_2 by done. apply forallb_elem.
    intros q (p & Hq & H)%(Forall2_elem_r _ _ _ _ Hm).
    apply bind_Some in H as (w & Hw & [= <-]). apply (IH p.2); [done| |done].
    by eapply forallb_elem in Hpl.
  - intros b fs IH j v Hc Hp. by apply validate_model_typed.
Qed.

(** A part that is refused makes the whole refused. *)
Lemma mapM_None_elem {A B} (f : A → option B) l x : x ∈ l → f x = None → mapM f l = None.
Proof using Type.
  intros Hx Hf. destruct (mapM f l) as [k|] eqn:Hm; [|done].
  apply mapM_Some in Hm. apply list_elem_of_lookup in Hx as [i Hi].
  destruct (Forall2_lookup_l _ _ _ _ _ Hm Hi) as (y & _ & Hy). congruence.
Qed.

Lemma validate_list_None t n l x :
  x ∈ l → validate coerce env t x = None → validate coerce env (TList t n) (JList l) = None.
Proof using Type.
  intros Hx Hv. simpl. destruct (at_most n _); [|done]. by rewrite (mapM_None_elem _ _ x).
Qed.

Lemma validate_dict_None t o p :
  p ∈ o → validate coerce env t p.2 = None → validate coerce env (TDict t) (JObj o) = None.
Proof using Type.
  intros Hx Hv. simpl. rewrite (mapM_None_elem _ _ p); [done|done|]. by rewrite Hv.
Qed.

Lemma validate_field_None b fs o f j :
  f ∈ fs → assoc (field_name f) o = Some j → validate coerce env (field_type f) j = None →
  validate coerce env (TClass b fs) (JObj o) = None.
Proof using Type.
  intros Hf Ha Hv. rewrite validate_model. destruct (negb b || known fs o); [|done].
  rewrite (mapM_None_elem _ _ f); [done|done|]. unfold read_field. by rewrite Ha, Hv.
Qed.

Lemma known_wire fs o : o.*1 = field_name <$> fs →
  known fs ((λ p, (p.1, to_wire isoformat p.2)) <$> o) = true.
Proof using Type.
  intros Hk. unfold known. apply forallb_elem. intros p Hp. apply bool_decide_eq_true.
  rewrite <- Hk, <- (keys_fmap (to_wire isoformat)). by apply list_elem_of_fmap_2.
Qed.

Lemma validate_wire t v :
  class_ok t = true → typed t v = true → validate coerce env t (to_wire isoformat v) = Some v.
Proof using All.
  revert t v. refine (ftype_ind' _ _ _ _ _ _ _ _ _ _).
  - intros k v _ H. simpl. by apply coerce_wire.
  - intros ge le v _ Ht. simpl in *. destruct v; try done.
    rewrite (coerce_wire KInt) by done. simpl. by rewrite Ht.
  - intros lo hi v _ Ht. simpl in *. destruct v; try done.
    rewrite (coerce_wire KStr) by done. simpl. by rewrite Ht.
  - intros vs v _ Ht. simpl in *. destruct v; try done. simpl. by rewrite Ht.
  - intros v _ Ht. simpl in *. by rewrite plain_to_wire.
  - intros t IH v Hc Ht. 
    destruct (decide (v = JNull)) as [->|Hn]; [done|].
    assert (typed t v = true) as Hv by (by destruct v).
    rewrite <- (IH v) by done. by destruct v.
  - intros t n IH v Hc Ht. simpl in *. destruct v as [| | | | | |l|]; try done. simpl.
    apply andb_true_iff in Ht as [Hn Ht]. rewrite length_fmap, Hn.
    rewrite (mapM_fmap_inverse l); [done|]. intros v Hv. apply IH; [done|].
    by eapply forallb_elem in Ht.
  - intros t IH v Hc Ht. simpl in *. destruct v as [| | | | | | |o]; try done. simpl.
    apply andb_true_iff in Ht as [_ Ht].
    rewrite (mapM_fmap_inverse o); [done|]. intros [k v] Hv. simpl.
    rewrite IH; [done..|]. eapply forallb_elem in Ht; [|done]. done.
  - intros b fs IH v Hc Ht. destruct v as [| | | | | | |o]; try done.
    apply typed_model in Ht as [Hk Ht]. apply class_ok_model in Hc as [Hn Hc].
    simpl to_wire. rewrite validate_model, known_wire, orb_true_r by done.
    enough (mapM (read_field coerce env ((λ p, (p.1, to_wire isoformat p.2)) <$> o)) fs = Some o)
      as -> by done.
    apply mapM_Some. rewrite <- Hk in Hn. apply Forall2_same_length_lookup.
    split; [by rewrite <- (length_fmap fst o), Hk, length_fmap|]. intros i f p Hf Hp.
    assert (p.1 = field_name f) as Hpk.
    { assert (o.*1 !! i = (field_name <$> fs) !! i) as H by by rewrite Hk.
      rewrite !list_lookup_fmap, Hf, Hp in H. by injection H. }
    unfold read_field. rewrite assoc_fmap, <- Hpk.
    rewrite (assoc_lookup p.1 o p.2) by (destruct p; eauto using list_elem_of_lookup_2).
    simpl. eapply Forall_lookup_1 in IH, Hc; [|done..].
    rewrite IH; [by destruct p|apply Hc|]. by eapply Forall2_lookup_lr in Ht.
Qed.
End validation.

(** A concrete reading of scalars: exact types, datetimes written as the
    decimal count of microseconds. *)
Definition exact_scalars (k : scalar) (j : json) : option json :=
  match k, j with
  | KDatetime, JStr s => JTime ∘ Z.of_int <$> NilZero.int_of_string s
  | KDatetime, _ => None
  | _, _ => if scalar_typed k j then Some j else None
  end.

Definition decimal_isoformat (z : Z) : string := NilZero.string_of_int (Z.to_int z).

#[export] Instance exact_scalars_laws : ScalarLaws exact_scalars decimal_isoformat.
Proof.
  split.
  - intros [] []; simpl; intros v H; simplify_eq; try done.
    by destruct (NilZero.int_of_string s); simplify_eq/=.
  - intros [] []; try done. intros _. simpl. unfold decimal_isoformat.
    rewrite NilZero.isi; simpl; [by rewrite DecimalZ.of_to|..];
      destruct z; try done; intros [= H]; by apply DecimalPos.Unsigned.to_uint_nonnil in H.
  - by intros [].
Qed.
