(* ===== verification/PyText.v ===== *)
(** Python's text methods on code points ([str.strip], [str.split],
    [str.splitlines], [str.startswith], [str.join]), as far as the agent uses
    them on files and command output. *)

From S2P Require Import Prelude.

#[local] Open Scope N_scope.

(** ASCII text as code points. *)
Fixpoint u (s : string) : pystr :=
  match s with
  | EmptyString => []
  | String c s => Ascii.N_of_ascii c :: u s
  end.

(** [str.isspace] on one character. *)
Definition is_space (c : N) : bool :=
  (9 <=? c) && (c <=? 13) || (28 <=? c) && (c <=? 32) ||
  bool_decide (c ∈ [133; 160; 5760; 8232; 8233; 8239; 8287; 12288]) ||
  (8192 <=? c) && (c <=? 8202).

(** What [str.splitlines] splits at. *)
Definition is_linebreak (c : N) : bool :=
  (10 <=? c) && (c <=? 13) || (28 <=? c) && (c <=? 30) || bool_decide (c ∈ [133; 8232; 8233]).

Fixpoint lstrip (s : pystr) : pystr :=
  match s with
  | [] => []
  | c :: s' => if is_space c then lstrip s' else s
  end.

Definition rstrip (s : pystr) : pystr := rev (lstrip (rev s)).

(** [s.strip()] *)
Definition strip (s : pystr) : pystr := rstrip (lstrip s).

Fixpoint startswith (s prefix : pystr) : bool :=
  match prefix, s with
  | [], _ => true
  | p :: prefix, c :: s => bool_decide (p = c) && startswith s prefix
  | _, _ => false
  end.

(** [s.rstrip("/")] *)
Definition rstrip_slash (s : pystr) : pystr :=
  rev ((fix go (s : pystr) : pystr := match s with c :: s' => if c =? 47 then go s' else s | [] => [] end) (rev s)).

Definition endswith (s suffix : pystr) : bool := startswith (rev s) (rev suffix).

(** [p in s] *)
Fixpoint contains (s p : pystr) : bool :=
  startswith s p || match s with [] => false | _ :: s => contains s p end.

(** [s.split()] *)
Fixpoint words_go (cur s : pystr) : list pystr :=
  match s with
  | [] => match cur with [] => [] | _ => [cur] end
  | c :: s =>
      if is_space c then match cur with [] => words_go [] s | _ => cur :: words_go [] s end
      else words_go (cur ++ [c]) s
  end.

Definition split (s : pystr) : list pystr := words_go [] s.

(** [s.splitlines()] *)
Fixpoint lines_go (cur s : pystr) : list pystr :=
  match s with
  | [] => match cur with [] => [] | _ => [cur] end
  | c :: s1 =>
      if c =? 13 then cur :: match s1 with
                             | d :: s2 => if d =? 10 then lines_go [] s2 else lines_go [] s1
                             | [] => []
                             end
      else if is_linebreak c then cur :: lines_go [] s1
      else lines_go (cur ++ [c]) s1
  end.

Definition splitlines (s : pystr) : list pystr := lines_go [] s.

(** [sep.join(l)] *)
Fixpoint join (sep : pystr) (l : list pystr) : pystr :=
  match l with
  | [] => []
  | [x] => x
  | x :: l => x ++ sep ++ join sep l
  end.

(** [s.lower()], on ASCII. *)
Definition lower (s : pystr) : pystr := (λ c, if (65 <=? c) && (c <=? 90) then c + 32 else c) <$> s.

(** [s.encode("utf-8")], held in a string. *)
Definition utf8_char (c : N) : list N :=
  if c <? 128 then [c]
  else if c <? 2048 then [192 + c / 64; 128 + c mod 64]
  else if c <? 65536 then [224 + c / 4096; 128 + c / 64 mod 64; 128 + c mod 64]
  else [240 + c / 262144; 128 + c / 4096 mod 64; 128 + c / 64 mod 64; 128 + c mod 64].

Definition utf8 (s : pystr) : string :=
  foldr (λ b r, String (Ascii.ascii_of_N b) r) EmptyString (flat_map utf8_char s).

(** [b.decode("utf-8", errors="replace")]: an ill-formed sequence gives one
    U+FFFD for as many bytes as could still begin a character. *)
Definition between (lo hi b : N) : bool := (lo <=? b) && (b <=? hi).
Definition continuation (b : N) : bool := between 128 191 b.

(** The second byte of a character of three, of four bytes. *)
Definition second_of_three (b0 b1 : N) : bool :=
  (b0 =? 224) && between 160 191 b1 || between 225 236 b0 && continuation b1 ||
  (b0 =? 237) && between 128 159 b1 || between 238 239 b0 && continuation b1.
Definition second_of_four (b0 b1 : N) : bool :=
  (b0 =? 240) && between 144 191 b1 || between 241 243 b0 && continuation b1 ||
  (b0 =? 244) && between 128 143 b1.

Definition REPLACEMENT : N := 65533.

Fixpoint decode (bs : list N) : pystr :=
  match bs with
  | [] => []
  | b0 :: r0 =>
      if b0 <? 128 then b0 :: decode r0
      else match r0 with
           | [] => [REPLACEMENT]
           | b1 :: r1 =>
               if between 194 223 b0 && continuation b1 then ((b0 - 192) * 64 + (b1 - 128)) :: decode r1
               else if second_of_three b0 b1 then
                 match r1 with
                 | [] => [REPLACEMENT]
                 | b2 :: r2 =>
                     if continuation b2
                     then ((b0 - 224) * 4096 + (b1 - 128) * 64 + (b2 - 128)) :: decode r2
                     else REPLACEMENT :: decode r1
                 end
               else if second_of_four b0 b1 then
                 match r1 with
                 | [] => [REPLACEMENT]
                 | b2 :: r2 =>
                     if continuation b2 then
                       match r2 with
                       | [] => [REPLACEMENT]
                       | b3 :: r3 =>
                           if continuation b3
                           then ((b0 - 240) * 262144 + (b1 - 128) * 4096 + (b2 - 128) * 64 + (b3 - 128)) :: decode r3
                           else REPLACEMENT :: decode r2
                       end
                     else REPLACEMENT :: decode r1
                 end
               else REPLACEMENT :: decode r0
           end
  end.

(** The text a string of the model holds in UTF-8. *)
Definition text_of (s : string) : pystr := decode (u s).

(** ** Lemmas *)

(** *** UTF-8 *)

(** A Unicode scalar value: not a surrogate. *)
Definition scalar_value (c : N) : bool := (c <? 55296) || between 57344 1114111 c.

Lemma scalar_value_iff c : scalar_value c = true ↔ c < 55296 ∨ 57344 <= c <= 1114111.
Proof.
  unfold scalar_value, between. by rewrite orb_true_iff, andb_true_iff, N.ltb_lt, !N.leb_le.
Qed.

Lemma between_iff lo hi b : between lo hi b = true ↔ lo <= b <= hi.
Proof. unfold between. by rewrite andb_true_iff, !N.leb_le. Qed.

Lemma second_of_three_iff b0 b1 :
  second_of_three b0 b1 = true ↔
  b0 = 224 ∧ 160 <= b1 <= 191 ∨ 225 <= b0 <= 236 ∧ 128 <= b1 <= 191 ∨
  b0 = 237 ∧ 128 <= b1 <= 159 ∨ 238 <= b0 <= 239 ∧ 128 <= b1 <= 191.
Proof.
  unfold second_of_three, continuation. rewrite !orb_true_iff, !andb_true_iff, !between_iff, !N.eqb_eq. tauto.
Qed.

Lemma second_of_four_iff b0 b1 :
  second_of_four b0 b1 = true ↔
  b0 = 240 ∧ 144 <= b1 <= 191 ∨ 241 <= b0 <= 243 ∧ 128 <= b1 <= 191 ∨ b0 = 244 ∧ 128 <= b1 <= 143.
Proof.
  unfold second_of_four, continuation. rewrite !orb_true_iff, !andb_true_iff, !between_iff, !N.eqb_eq. tauto.
Qed.

(** The characters that take two, three and four bytes. *)
Lemma decode_two q m bs :
  2 <= q < 32 → m < 64 → decode (192 + q :: 128 + m :: bs) = (q * 64 + m) :: decode bs.
Proof.
  intros Hq Hm. cbn [decode].
  rewrite (proj2 (N.ltb_ge (192 + q) 128)) by lia.
  rewrite (proj2 (between_iff 194 223 (192 + q))) by lia.
  unfold continuation. rewrite (proj2 (between_iff 128 191 (128 + m))) by lia. cbn [andb]. f_equal. lia.
Qed.

Lemma decode_three p m1 m bs :
  p < 16 → m1 < 64 → m < 64 → 2048 <= p * 4096 + m1 * 64 →
  (p * 4096 + m1 * 64 < 55296 ∨ 57344 <= p * 4096 + m1 * 64) →
  decode (224 + p :: 128 + m1 :: 128 + m :: bs) = (p * 4096 + m1 * 64 + m) :: decode bs.
Proof.
  intros Hp Hm1 Hm Hlo Hs. cbn [decode].
  rewrite (proj2 (N.ltb_ge (224 + p) 128)) by lia.
  assert (between 194 223 (224 + p) = false) as ->.
  { apply not_true_iff_false. rewrite between_iff. lia. }
  rewrite (proj2 (second_of_three_iff (224 + p) (128 + m1))) by lia.
  unfold continuation. rewrite (proj2 (between_iff 128 191 (128 + m))) by lia. cbn [andb]. f_equal. lia.
Qed.

Lemma decode_four o m2 m1 m bs :
  o < 5 → m2 < 64 → m1 < 64 → m < 64 → 16 <= o * 64 + m2 → o * 64 + m2 <= 271 →
  decode (240 + o :: 128 + m2 :: 128 + m1 :: 128 + m :: bs) =
  (o * 262144 + m2 * 4096 + m1 * 64 + m) :: decode bs.
Proof.
  intros Ho Hm2 Hm1 Hm Hlo Hhi. cbn [decode].
  rewrite (proj2 (N.ltb_ge (240 + o) 128)) by lia.
  assert (between 194 223 (240 + o) = false) as ->.
  { apply not_true_iff_false. rewrite between_iff. lia. }
  assert (second_of_three (240 + o) (128 + m2) = false) as ->.
  { apply not_true_iff_false. rewrite second_of_three_iff. lia. }
  rewrite (proj2 (second_of_four_iff (240 + o) (128 + m2))) by lia.
  unfold continuation. rewrite !(proj2 (between_iff 128 191 _)) by lia. cbn [andb]. f_equal. lia.
Qed.

Lemma decode_char c bs : scalar_value c = true → decode (utf8_char c ++ bs) = c :: decode bs.
Proof.
  intros Hc%scalar_value_iff. unfold utf8_char.
  pose proof (N.div_mod c 64 ltac:(done)) as H64. pose proof (N.mod_lt c 64 ltac:(done)).
  pose proof (N.div_mod (c / 64) 64 ltac:(done)) as Hq. pose proof (N.mod_lt (c / 64) 64 ltac:(done)).
  pose proof (N.div_mod (c / 64 / 64) 64 ltac:(done)) as Hp. pose proof (N.mod_lt (c / 64 / 64) 64 ltac:(done)).
  assert (c / 4096 = c / 64 / 64) as -> by (rewrite N.Div0.div_div; done).
  assert (c / 262144 = c / 64 / 64 / 64) as -> by (rewrite !N.Div0.div_div; done).
  revert H64 Hq Hp H H0 H1.
  generalize (c mod 64) (c / 64). intros m q. generalize (q mod 64) (q / 64). intros m1 p.
  generalize (p mod 64) (p / 64). intros m2 o -> -> -> ???.
  destruct (N.ltb_spec (64 * (64 * (64 * o + m2) + m1) + m) 128) as [Hlt|Hge].
  { cbn [app decode]. by rewrite (proj2 (N.ltb_lt _ _) Hlt). }
  destruct (N.ltb_spec (64 * (64 * (64 * o + m2) + m1) + m) 2048);
    [|destruct (N.ltb_spec (64 * (64 * (64 * o + m2) + m1) + m) 65536)]; cbn [app].
  - rewrite decode_two by lia. f_equal. lia.
  - rewrite decode_three by lia. f_equal. lia.
  - rewrite decode_four by lia. f_equal. lia.
Qed.

Lemma decode_not_nil bs : bs ≠ [] → decode bs ≠ [].
Proof.
  destruct bs as [|b0 [|b1 [|b2 [|b3 bs]]]]; cbn [decode]; [done|..]; intros _;
    repeat match goal with |- context [if ?b then _ else _] => destruct b end; done.
Qed.

Lemma utf8_char_bytes c : scalar_value c = true → Forall (λ b, b < 256) (utf8_char c).
Proof.
  intros Hc%scalar_value_iff. unfold utf8_char.
  pose proof (N.mod_lt c 64 ltac:(done)). pose proof (N.mod_lt (c / 64) 64 ltac:(done)).
  pose proof (N.mod_lt (c / 4096) 64 ltac:(done)).
  destruct (N.ltb_spec c 128); [|destruct (N.ltb_spec c 2048); [|destruct (N.ltb_spec c 65536)]];
    repeat (apply Forall_cons; split); try apply Forall_nil_2; try lia.
  - pose proof (N.Div0.div_lt_upper_bound c 64 32). lia.
  - pose proof (N.Div0.div_lt_upper_bound c 4096 16). lia.
  - pose proof (N.Div0.div_lt_upper_bound c 262144 5). lia.
Qed.

Lemma u_utf8 s : Forall (λ c, scalar_value c = true) s → u (utf8 s) = flat_map utf8_char s.
Proof.
  intros H. unfold utf8.
  assert (Hb : Forall (λ b, b < 256) (flat_map utf8_char s)).
  { induction H as [|c s Hc _ IH]; [by apply Forall_nil_2|]. simpl. apply Forall_app.
    split; [by apply utf8_char_bytes|done]. }
  induction Hb as [|b bs Hb _ IH]; [done|]. simpl. by rewrite IH, Ascii.N_ascii_embedding.
Qed.

(** What is encoded is decoded. *)
Lemma text_of_utf8 s : Forall (λ c, scalar_value c = true) s → text_of (utf8 s) = s.
Proof.
  intros H. unfold text_of. rewrite u_utf8 by done.
  induction H as [|c s Hc _ IH]; [done|]. simpl. by rewrite decode_char, IH.
Qed.

(** Well-formed text before it does not change how bytes are read. *)
Lemma decode_app s bs :
  Forall (λ c, scalar_value c = true) s → decode (flat_map utf8_char s ++ bs) = s ++ decode bs.
Proof.
  induction 1 as [|c s Hc _ IH]; [done|]. simpl. by rewrite <- app_assoc, decode_char, IH.
Qed.

Lemma startswith_nil s : startswith s [] = true.
Proof. by destruct s. Qed.

Lemma words_go_spaces cur ws : Forall (λ c, is_space c = true) ws → words_go cur ws = words_go cur [].
Proof.
  revert cur. induction ws as [|c ws IH]; intros cur H; [done|].
  apply Forall_cons in H as [Hc H]. simpl. rewrite Hc. destruct cur; rewrite IH by done; done.
Qed.

Lemma words_go_app_spaces cur s ws :
  Forall (λ c, is_space c = true) ws → words_go cur (s ++ ws) = words_go cur s.
Proof.
  intros H. revert cur. induction s as [|c s IH]; intros cur; simpl; [by apply words_go_spaces|].
  by destruct (is_space c), cur; rewrite ?IH.
Qed.

Lemma lstrip_decomp s : ∃ ws, Forall (λ c, is_space c = true) ws ∧ s = ws ++ lstrip s.
Proof.
  induction s as [|c s (ws & Hw & Hs)]; [by exists []|]. simpl.
  destruct (is_space c) eqn:Hc; [|by exists []].
  exists (c :: ws). split; [by constructor|]. simpl. by f_equal.
Qed.

Lemma rstrip_decomp s : ∃ ws, Forall (λ c, is_space c = true) ws ∧ s = rstrip s ++ ws.
Proof.
  destruct (lstrip_decomp (rev s)) as (ws & Hw & Hs). exists (rev ws). split.
  - by apply Forall_rev.
  - unfold rstrip. rewrite <- rev_app_distr, <- Hs. by rewrite rev_involutive.
Qed.

Lemma strip_length s : (length (strip s) <= length s)%nat.
Proof.
  destruct (lstrip_decomp s) as (ws & _ & Hl), (rstrip_decomp (lstrip s)) as (ws' & _ & Hr).
  apply (f_equal length) in Hl, Hr. rewrite length_app in Hl, Hr. unfold strip. lia.
Qed.

Lemma split_strip s : split (strip s) = split s.
Proof.
  unfold strip, split. transitivity (words_go [] (lstrip s)).
  - destruct (rstrip_decomp (lstrip s)) as (ws & Hw & Hs).
    rewrite Hs at 2. by rewrite words_go_app_spaces.
  - induction s as [|c s IH]; [done|]. simpl. by destruct (is_space c) eqn:Hc; simpl; rewrite ?Hc.
Qed.

Lemma words_go_space_app cur a c b :
  is_space c = true → words_go cur (a ++ c :: b) = words_go cur a ++ words_go [] b.
Proof.
  intros Hc. revert cur. induction a as [|d a IH]; intros cur; simpl.
  - rewrite Hc. by destruct cur.
  - destruct (is_space d), cur; rewrite ?IH; done.
Qed.

Lemma split_app a c b : is_space c = true → split (a ++ c :: b) = split a ++ split b.
Proof. apply words_go_space_app. Qed.

Lemma lstrip_head s c s' : lstrip s = c :: s' → is_space c = false.
Proof.
  induction s as [|d s IH]; simpl; [done|]. destruct (is_space d) eqn:Hd; [done|]. by intros [= -> _].
Qed.

(** A first character that is no space survives [strip]. *)
Lemma strip_head s c s' : lstrip s = c :: s' → ∃ s'', strip s = c :: s''.
Proof.
  intros Hs. unfold strip. rewrite Hs.
  pose proof (lstrip_head _ _ _ Hs) as Hc.
  destruct (rstrip_decomp (c :: s')) as (ws & Hw & Hr).
  destruct (rstrip (c :: s')) as [|d r]; [|simpl in Hr; injection Hr as -> _; eauto].
  exfalso. simpl in Hr. subst ws. apply Forall_cons in Hw as [Hw _]. congruence.
Qed.

Lemma strip_cons s : strip s ≠ [] → ∃ c s', strip s = c :: s' ∧ is_space c = false.
Proof.
  intros H. destruct (lstrip s) as [|c s'] eqn:Hs; [unfold strip in H; by rewrite Hs in H|].
  destruct (strip_head _ _ _ Hs) as [s'' Hs'']. exists c, s''. split; [done|]. by eapply lstrip_head.
Qed.

Lemma contains_app a b p : contains b p = true → contains (a ++ b) p = true.
Proof.
  induction a as [|c a IH]; intros H; [done|]. simpl. rewrite (IH H). by rewrite orb_true_r.
Qed.

Lemma lower_app a b : lower (a ++ b) = lower a ++ lower b.
Proof. apply fmap_app. Qed.

(** *** Lines *)

Definition unbroken (s : pystr) : Prop := Forall (λ c, is_linebreak c = false) s.
#[export] Instance unbroken_dec s : Decision (unbroken s).
Proof. unfold unbroken. apply _. Defined.

Lemma lines_go_unbroken s cur : unbroken cur → Forall unbroken (lines_go cur s).
Proof.
  assert (H : ∀ n s, (length s < n)%nat → ∀ cur, unbroken cur → Forall unbroken (lines_go cur s)).
  2:{ intros Hc. by apply (H (S (length s))); [lia|]. }
  clear. induction n as [|n IH]; intros s Hn cur Hc; [lia|].
  destruct s as [|c s]; simpl in *.
  { destruct cur; [by apply Forall_nil_2|by apply Forall_singleton]. }
  assert (Hnil : unbroken []) by by apply Forall_nil_2.
  destruct (c =? 13) eqn:H13.
  - apply Forall_cons. split; [done|]. destruct s as [|d s]; [by apply Forall_nil_2|].
    simpl in Hn. destruct (d =? 10); apply IH; simpl; try done; lia.
  - destruct (is_linebreak c) eqn:Hb.
    + apply Forall_cons. split; [done|]. apply IH; [lia|done].
    + apply IH; [lia|]. apply Forall_app. split; [done|]. by apply Forall_singleton.
Qed.

Lemma splitlines_unbroken s : Forall unbroken (splitlines s).
Proof. apply lines_go_unbroken. by apply Forall_nil_2. Qed.

Lemma is_linebreak_13 c : is_linebreak c = false → (c =? 13) = false.
Proof. destruct (N.eqb_spec c 13) as [->|]; [by vm_compute|done]. Qed.

Lemma lines_go_line cur l s :
  unbroken l → lines_go cur (l ++ 10 :: s) = (cur ++ l) :: lines_go [] s.
Proof.
  revert cur. induction l as [|c l IH]; intros cur H; simpl.
  - by rewrite app_nil_r.
  - apply Forall_cons in H as [Hc H]. rewrite (is_linebreak_13 c Hc), Hc, IH by done.
    by rewrite <- app_assoc.
Qed.

(** The lines of a text written line by line. *)
Lemma splitlines_lines ls :
  Forall unbroken ls → splitlines (concat ((λ l : pystr, l ++ [10]) <$> ls)) = ls.
Proof.
  unfold splitlines. induction 1 as [|l ls Hl _ IH]; [done|].
  rewrite fmap_cons. cbn [concat]. rewrite <- app_assoc. cbn [app].
  rewrite lines_go_line by done. by f_equal.
Qed.

Lemma join_lines (ls : list pystr) :
  ls ≠ [] → join [10] ls ++ [10] = concat ((λ l : pystr, l ++ [10]) <$> ls).
Proof.
  induction ls as [|l ls IH]; [done|]. intros _. destruct ls as [|l' ls]; [by simpl; rewrite app_nil_r|].
  change (join [10] (l :: l' :: ls)) with (l ++ [10] ++ join [10] (l' :: ls)).
  rewrite fmap_cons. cbn [concat]. rewrite <- IH by done. by rewrite <- !app_assoc.
Qed.

Lemma lines_go_end cur l :
  unbroken l → lines_go cur l = match cur ++ l with [] => [] | x => [x] end.
Proof.
  revert cur. induction l as [|c l IH]; intros cur H; simpl.
  - rewrite app_nil_r. by destruct cur.
  - apply Forall_cons in H as [Hc H]. rewrite (is_linebreak_13 c Hc), Hc, IH by done. by rewrite <- app_assoc.
Qed.

Lemma splitlines_app_lines ls x :
  Forall unbroken ls → splitlines (concat ((λ l : pystr, l ++ [10]) <$> ls) ++ x) = ls ++ splitlines x.
Proof.
  unfold splitlines. induction 1 as [|l ls Hl _ IH]; [done|].
  rewrite fmap_cons. cbn [concat]. rewrite <- !app_assoc. cbn [app].
  rewrite lines_go_line by done. simpl. by rewrite IH.
Qed.

Lemma join_snoc ls x : join [10] (ls ++ [x]) = concat ((λ l : pystr, l ++ [10]) <$> ls) ++ x.
Proof.
  induction ls as [|l ls IH]; [done|].
  assert (join [10] ((l :: ls) ++ [x]) = l ++ [10] ++ join [10] (ls ++ [x])) as -> by by destruct ls.
  rewrite IH, fmap_cons. cbn [concat]. by rewrite <- !app_assoc.
Qed.

(** Lines joined, with or without a final break, are those lines; a last one
    that is empty may be lost. *)
Lemma splitlines_join ls t :
  Forall unbroken ls → ls ≠ [] → t = [] ∨ t = [10] →
  splitlines (join [10] ls ++ t) = ls ∨ ls = splitlines (join [10] ls ++ t) ++ [[]].
Proof.
  intros H Hn [-> | ->]; [|left; rewrite join_lines by done; by apply splitlines_lines].
  rewrite app_nil_r. destruct ls as [|x l _] using rev_ind; [done|].
  apply Forall_app in H as [Hl [Hx _]%Forall_cons]. rewrite join_snoc, splitlines_app_lines by done.
  unfold splitlines. rewrite lines_go_end by done. simpl. destruct x as [|c x]; [right|left]; simpl; [|done].
  by rewrite app_nil_r.
Qed.

Lemma join_chars (P : N → Prop) ls : P 10 → Forall (Forall P) ls → Forall P (join [10] ls).
Proof.
  intros Hb H. induction H as [|l ls Hl H IH]; [by apply Forall_nil_2|]. destruct H as [|l' ls]; [done|].
  change (Forall P (l ++ [10] ++ join [10] (l' :: ls))). apply Forall_app. split; [done|].
  by apply Forall_cons.
Qed.
