(* ===== verification/RateLimit.v ===== *)
(** Redis, request budgets and failure locks
    ([backend/corelab_backend/cache.py], [middleware/rate_limit.py]).

    The clock of the middleware is [int(time.time() * 1000)].  Redis is an
    interface; whether a call reaches it is an argument, because every use
    falls back on an exception.  A pipeline is one transaction. *)

From S2P Require Import Prelude PyText.

(** * The store

    What the backend relies on from Redis ([backend/corelab_backend/cache.py],
    a client of the third-party service): an interface of commands with the
    laws the Redis reference documents for them, and a reference instance
    that satisfies the laws.

    Time is the server's clock in milliseconds and only moves forward.  A key
    whose time to live is over is absent.  A command on a key of the wrong
    type is an error the laws say nothing about. *)

Inductive redis_value : Type :=
| zset (members : gmap string Z)   (* member and score *)
| counter (n : Z)
| text (s : string).

(** A value and when it expires. *)
Abbreviation entry := (redis_value * option Z)%type.

(** What is left of an entry at an instant. *)
Definition live (t : Z) (o : option entry) : option entry :=
  match o with
  | Some (_, Some e) => if bool_decide (e <= t) then None else o
  | _ => o
  end.

Definition members_of (o : option entry) : gmap string Z :=
  match o with Some (zset m, _) => m | _ => ∅ end.
Definition deadline (o : option entry) : option Z := o ≫= snd.
Definition count_of (o : option entry) : Z := match o with Some (counter n, _) => n | _ => 0 end.
Definition text_of (o : option entry) : option string :=
  match o with Some (text s, _) => Some s | _ => None end.

(** Sorted sets without members do not exist. *)
Definition zset_entry (m : gmap string Z) (e : option Z) : option entry :=
  if bool_decide (m = ∅) then None else Some (zset m, e).

Definition is_zset (o : option entry) : bool :=
  match o with Some (zset _, _) | None => true | _ => false end.
Definition is_counter (o : option entry) : bool :=
  match o with Some (counter _, _) | None => true | _ => false end.
Definition is_text (o : option entry) : bool :=
  match o with Some (text _, _) | None => true | _ => false end.

(** Each command gets the instant at which the server runs it. *)
Class Redis (R : Type) := {
  peek : Z → R → string → option entry ;   (* what a command would find *)
  zremrangebyscore (now : Z) (key : string) (lo hi : Z) : R → R ;
  zadd (now : Z) (key member : string) (score : Z) : R → R ;
  zcard (now : Z) (key : string) : R → Z ;
  expire (now : Z) (key : string) (secs : Z) : R → R ;
  incr (now : Z) (key : string) : R → R * Z ;
  setex (now : Z) (key : string) (secs : Z) (value : string) : R → R ;
  exists_key (now : Z) (key : string) : R → bool ;
  getdel (now : Z) (key : string) : R → R * option string ;
  delete_key (now : Z) (key : string) : R → R }.

(** [r'] is [r] but for one key. *)
Definition only_key `{Redis R} (now : Z) (key : string) (o : option entry) (r r' : R) : Prop :=
  peek now r' key = o ∧ ∀ key', key' ≠ key → peek now r' key' = peek now r key'.

Class RedisLaws (R : Type) `{Redis R} : Prop := {
  peek_later t t' r key : t <= t' → peek t' r key = live t' (peek t r key) ;
  zrem_law now key lo hi r : is_zset (peek now r key) = true →
    only_key now key
      (zset_entry (filter (λ ms, ¬ (lo <= ms.2 ∧ ms.2 <= hi)) (members_of (peek now r key)))
         (deadline (peek now r key))) r (zremrangebyscore now key lo hi r) ;
  zadd_law now key m score r : is_zset (peek now r key) = true →
    only_key now key
      (Some (zset (<[m := score]> (members_of (peek now r key))), deadline (peek now r key)))
      r (zadd now key m score r) ;
  zcard_law now key r : is_zset (peek now r key) = true →
    zcard now key r = Z.of_nat (size (members_of (peek now r key))) ;
  expire_law now key secs r : 0 < secs →
    only_key now key ((λ v, (v.1, Some (now + secs * 1000))) <$> peek now r key) r (expire now key secs r) ;
  incr_law now key r : is_counter (peek now r key) = true →
    only_key now key (Some (counter (count_of (peek now r key) + 1), deadline (peek now r key)))
      r (incr now key r).1 ∧
    (incr now key r).2 = count_of (peek now r key) + 1 ;
  setex_law now key secs value r : 0 < secs →
    only_key now key (Some (text value, Some (now + secs * 1000))) r (setex now key secs value r) ;
  exists_law now key r : exists_key now key r = is_some (peek now r key) ;
  getdel_law now key r : is_text (peek now r key) = true →
    only_key now key None r (getdel now key r).1 ∧ (getdel now key r).2 = text_of (peek now r key) ;
  delete_law now key r : only_key now key None r (delete_key now key r) }.

(** ** A store that satisfies the laws *)

Abbreviation Store := (gmap string entry).

Definition put (key : string) (o : option entry) (r : Store) : Store :=
  partial_alter (λ _, o) key r.

#[export] Instance store_redis : Redis Store := {
  peek t r key := live t (r !! key) ;
  zremrangebyscore now key lo hi r :=
    let o := live now (r !! key) in
    put key (zset_entry (filter (λ ms, ¬ (lo <= ms.2 ∧ ms.2 <= hi)) (members_of o)) (deadline o)) r ;
  zadd now key m score r :=
    let o := live now (r !! key) in put key (Some (zset (<[m := score]> (members_of o)), deadline o)) r ;
  zcard now key r := Z.of_nat (size (members_of (live now (r !! key)))) ;
  expire now key secs r := put key ((λ v, (v.1, Some (now + secs * 1000))) <$> live now (r !! key)) r ;
  incr now key r :=
    let o := live now (r !! key) in
    (put key (Some (counter (count_of o + 1), deadline o)) r, count_of o + 1) ;
  setex now key secs value r := put key (Some (text value, Some (now + secs * 1000))) r ;
  exists_key now key r := is_some (live now (r !! key)) ;
  getdel now key r := (put key None r, text_of (live now (r !! key))) ;
  delete_key now key r := put key None r }.

Lemma live_live t t' o : t <= t' → live t' (live t o) = live t' o.
Proof.
  intros Hle. destruct o as [[v [e|]]|]; simpl; try done.
  destruct (bool_decide_reflect (e <= t)); simpl; [|done]. by rewrite bool_decide_eq_true_2 by lia.
Qed.

Lemma live_deadline t o v e : live t o = Some (v, Some e) → t < e.
Proof.
  destruct o as [[v' [e'|]]|]; simpl; try done. destruct (bool_decide_reflect (e' <= t)); [done|].
  intros [= -> ->]. lia.
Qed.

(** An entry whose deadline is not over stays. *)
Lemma live_keeps t o v : live t (Some (v, deadline (live t o))) = Some (v, deadline (live t o)).
Proof.
  destruct o as [[v' [e|]]|]; simpl; try done. destruct (bool_decide_reflect (e <= t)) as [|Hlt]; simpl; [done|].
  by rewrite bool_decide_eq_false_2.
Qed.

Lemma put_only now key o (r : Store) : live now o = o → only_key now key o r (put key o r).
Proof.
  intros Ho. split; simpl; unfold put.
  - by rewrite lookup_partial_alter_eq.
  - intros key' Hne. by rewrite lookup_partial_alter_ne.
Qed.

Lemma live_fresh now secs v : 0 < secs → live now (Some (v, Some (now + secs * 1000))) = Some (v, Some (now + secs * 1000)).
Proof. intros Hs. simpl. by rewrite bool_decide_eq_false_2 by lia. Qed.

#[export] Instance store_laws : RedisLaws Store.
Proof.
  split; simpl.
  - intros t t' r key Hle. by rewrite live_live.
  - intros now key lo hi r _. apply put_only. unfold zset_entry. case_bool_decide; [done|]. apply live_keeps.
  - intros now key m score r _. apply put_only, live_keeps.
  - done.
  - intros now key secs r Hs. apply put_only. destruct (live now (r !! key)) as [v|]; [|done].
    by apply live_fresh.
  - intros now key r _. split; [|done]. apply put_only, live_keeps.
  - intros now key secs value r Hs. by apply put_only, live_fresh.
  - done.
  - intros now key r _. split; [|done]. by apply put_only.
  - intros now key r. by apply put_only.
Qed.

Definition DEFAULT_READ_PER_MINUTE : Z := 600.
Definition DEFAULT_WRITE_PER_MINUTE : Z := 60.
Definition WINDOW_SECONDS : Z := 60.
Definition LOGIN_FAILURE_THRESHOLD : Z := 3.
Definition LOGIN_LOCK_SECONDS : Z := 300.
Definition LOGIN_FAILURE_WINDOW_SECONDS : Z := 300.

Definition _EXEMPT_PATH_PREFIXES : list pystr :=
  u <$> ["/healthz"; "/readyz"; "/openapi.json"; "/docs"; "/ws/"; "/api/v1/auth/login"]%string.
Definition _WRITE_METHODS : list string := ["POST"; "PUT"; "PATCH"; "DELETE"]%string.

(** ** The process's own store *)

(** [_InProcessSlidingWindow] *)
Record InProcess : Type := mkInProcess {
  _buckets : gmap string (list Z) ;
  _locks_until_ms : gmap string Z }.
#[export] Instance eta_InProcess : Eta InProcess := λ p, mkInProcess (_buckets p) (_locks_until_ms p).

Definition _bucket_count_after_hit (now_ms : Z) (key : string) (window_seconds : Z) (p : InProcess) :
    InProcess * Z :=
  let cutoff_ms := now_ms - window_seconds * 1000 in
  let bucket := filter (λ ts, cutoff_ms < ts) (default [] (_buckets p !! key)) ++ [now_ms] in
  (p <| _buckets := <[key := bucket]> (_buckets p) |>, Z.of_nat (length bucket)).

Definition hit (now_ms : Z) (key : string) (max_requests window_seconds : Z) (p : InProcess) :
    InProcess * (bool * Z) :=
  let '(p, count) := _bucket_count_after_hit now_ms key window_seconds p in
  (p, (bool_decide (count <= max_requests), Z.max 0 (max_requests - count))).

Definition failure_hit (now_ms : Z) (count_key lock_key : string)
    (threshold window_seconds lock_seconds : Z) (p : InProcess) : InProcess * bool :=
  let '(p, count) := _bucket_count_after_hit now_ms count_key window_seconds p in
  if bool_decide (threshold <= count)
  then (p <| _locks_until_ms := <[lock_key := now_ms + lock_seconds * 1000]> (_locks_until_ms p) |>, true)
  else (p, false).

Definition locked (now_ms : Z) (key : string) (p : InProcess) : InProcess * bool :=
  match _locks_until_ms p !! key with
  | None => (p, false)
  | Some expires_at =>
      if bool_decide (expires_at <= now_ms)
      then (p <| _locks_until_ms := delete key (_locks_until_ms p) |>, false)
      else (p, true)
  end.

Definition clear_failure (count_key lock_key : string) (p : InProcess) : InProcess :=
  p <| _buckets := delete count_key (_buckets p) |>
    <| _locks_until_ms := delete lock_key (_locks_until_ms p) |>.

(** ** Redis, or the process *)

Section client.
Context {R : Type} `{RedisLaws R}.

(** [get_redis_client()] is [None] when no URL is configured. *)
Record Limiter : Type := mkLimiter { _in_process : InProcess ; client : option R }.

#[global] Instance eta_Limiter : Eta Limiter := λ l, mkLimiter (_in_process l) (client l).

Definition in_process {A} (f : InProcess → InProcess * A) (l : Limiter) : Limiter * A :=
  let '(p, a) := f (_in_process l) in (l <| _in_process := p |>, a).

(** The pipeline of [_sliding_window_hit]: its third reply. *)
Definition window_pipeline (now_ms : Z) (uuid4 key : string) (window_seconds : Z) (r : R) : R * Z :=
  let window_start_ms := now_ms - window_seconds * 1000 in
  let r := zremrangebyscore now_ms key 0 window_start_ms r in
  let r := zadd now_ms key uuid4 now_ms r in
  let count := zcard now_ms key r in
  (expire now_ms key (window_seconds + 60) r, count).

Definition _sliding_window_hit (reachable : bool) (now_ms : Z) (uuid4 key : string)
    (max_requests window_seconds : Z) (l : Limiter) : Limiter * (bool * Z) :=
  match client l with
  | Some r =>
      if reachable then
        let '(r, count) := window_pipeline now_ms uuid4 key window_seconds r in
        (l <| client := Some r |>,
         (bool_decide (count <= max_requests), Z.max 0 (max_requests - count)))
      else in_process (hit now_ms key max_requests window_seconds) l
  | None => in_process (hit now_ms key max_requests window_seconds) l
  end.

(** ** The middleware *)

(** What the middleware reads of a request; [sub] is the subject of a valid
    bearer token ([decode_access_token] is library code). *)
Record Request : Type := mkRequest {
  rq_path : pystr ;
  rq_method : string ;
  rq_authorization : pystr ;
  rq_forwarded_for : pystr ;
  rq_client_host : option string }.

Definition before_comma (s : pystr) : pystr :=
  (fix go (s : pystr) : pystr :=
     match s with [] => [] | c :: s' => if bool_decide (c = 44%N) then [] else c :: go s' end) s.

Definition _request_identity (decode_access_token : pystr → option string) (req : Request) : string :=
  let auth := rq_authorization req in
  let sub := if startswith auth (u "Bearer ") then decode_access_token (strip (drop 7 auth)) else None in
  match sub with
  | Some sub => "user:" +:+ sub
  | None =>
      if bool_decide (rq_forwarded_for req = [])
      then match rq_client_host req with Some h => "ip:" +:+ h | None => "ip:unknown" end
      else "ip:" +:+ utf8 (strip (before_comma (rq_forwarded_for req)))
  end.

(** What the caller gets: the endpoint's answer with the two budget headers,
    or 429. *)
Inductive answer : Type :=
| passed (budget : option (Z * Z))   (* limit and remaining; none for an exempt path *)
| rate_limited (limit : Z).

Definition dispatch (decode_access_token : pystr → option string) (read write : Z) (reachable : bool)
    (now_ms : Z) (uuid4 : string) (req : Request) (l : Limiter) : Limiter * answer :=
  if existsb (startswith (rq_path req)) _EXEMPT_PATH_PREFIXES then (l, passed None)
  else
    let identity := _request_identity decode_access_token req in
    let is_write := bool_decide (rq_method req ∈ _WRITE_METHODS) in
    let limit := if is_write then write else read in
    let key := "ratelimit:" +:+ identity +:+ ":" +:+ (if is_write then "w" else "r") in
    let '(l, (allowed, remaining)) :=
      _sliding_window_hit reachable now_ms uuid4 key limit WINDOW_SECONDS l in
    (l, if (allowed : bool) then passed (Some (limit, remaining)) else rate_limited limit).

(** ** Failure locks *)

(** [_FailureLockManager], with its settings. *)
Record lock_manager : Type := mkManager {
  _key_prefix : string ; _threshold : Z ; _window : Z ; _lock : Z }.

Definition LoginLockManager : lock_manager :=
  mkManager "rate_limit:login" LOGIN_FAILURE_THRESHOLD LOGIN_FAILURE_WINDOW_SECONDS LOGIN_LOCK_SECONDS.
Definition SshChallengeLockManager : lock_manager :=
  mkManager "rate_limit:ssh_challenge" LOGIN_FAILURE_THRESHOLD LOGIN_FAILURE_WINDOW_SECONDS
    LOGIN_LOCK_SECONDS.

Definition _count_key (m : lock_manager) (subject : string) : string := _key_prefix m +:+ ":fails:" +:+ subject.
Definition _lock_key (m : lock_manager) (subject : string) : string := _key_prefix m +:+ ":lock:" +:+ subject.

Definition is_locked (m : lock_manager) (reachable : bool) (now_ms : Z) (subject : string) (l : Limiter) :
    Limiter * bool :=
  match client l with
  | Some r => (l, reachable && exists_key now_ms (_lock_key m subject) r)
  | None => in_process (locked now_ms (_lock_key m subject)) l
  end.

Definition record_failure (m : lock_manager) (reachable : bool) (now_ms : Z) (subject : string) (l : Limiter) :
    Limiter * bool :=
  match client l with
  | Some r =>
      if reachable then
        let '(r, count) := incr now_ms (_count_key m subject) r in
        let r := expire now_ms (_count_key m subject) (_window m) r in
        if bool_decide (_threshold m <= count)
        then (l <| client := Some (setex now_ms (_lock_key m subject) (_lock m) "1" r) |>, true)
        else (l <| client := Some r |>, false)
      else (l, false)
  | None =>
      in_process (failure_hit now_ms (_count_key m subject) (_lock_key m subject) (_threshold m)
                    (_window m) (_lock m)) l
  end.

Definition record_success (m : lock_manager) (reachable : bool) (now_ms : Z) (subject : string) (l : Limiter) :
    Limiter :=
  match client l with
  | Some r =>
      if reachable then
        l <| client := Some (delete_key now_ms (_lock_key m subject)
                               (delete_key now_ms (_count_key m subject) r)) |>
      else l
  | None => (in_process (λ p, (clear_failure (_count_key m subject) (_lock_key m subject) p, tt)) l).1
  end.
End client.
Arguments Limiter : clear implicits.
