(* ===== verification/RateLimitProperties.v ===== *)
(** What the request budget and the failure locks guarantee, on either store
    ([middleware/rate_limit.py]). *)

From S2P Require Import Prelude PyText RateLimit.

(** ** The budget, abstractly

    An attempt is an instant, a key and the fresh identifier the Redis path
    draws for it. *)

Abbreviation event := (Z * string * string)%type.
Definition at_ms (e : event) : Z := e.1.1.
Definition key_of (e : event) : string := e.1.2.
Definition uuid_of (e : event) : string := e.2.

(** The attempts on a key after an instant. *)
Definition attempts (es : list event) (key : string) (t0 : Z) : nat :=
  length (filter (λ e, key_of e = key ∧ t0 < at_ms e) es).

(** The answer to an attempt, from the log of those before it. *)
Definition verdict (max_requests window_seconds : Z) (before : list event) (e : event) : bool * Z :=
  let count := Z.of_nat (attempts (before ++ [e]) (key_of e) (at_ms e - window_seconds * 1000)) in
  (bool_decide (count <= max_requests), Z.max 0 (max_requests - count)).

Fixpoint verdicts (max_requests window_seconds : Z) (before es : list event) : list (bool * Z) :=
  match es with
  | [] => []
  | e :: es => verdict max_requests window_seconds before e ::
               verdicts max_requests window_seconds (before ++ [e]) es
  end.

(** The clock of the attempts never goes back, identifiers are never drawn
    twice. *)
Definition orderly (es : list event) : Prop :=
  StronglySorted (λ a b, at_ms a <= at_ms b) es ∧ NoDup (uuid_of <$> es) ∧
  Forall (λ e, 0 <= at_ms e) es.

Lemma attempts_app es es' key t0 : attempts (es ++ es') key t0 = (attempts es key t0 + attempts es' key t0)%nat.
Proof. unfold attempts. by rewrite filter_app, length_app. Qed.

Lemma attempts_one e key t0 :
  attempts [e] key t0 = if decide (key_of e = key ∧ t0 < at_ms e) then 1%nat else 0%nat.
Proof. unfold attempts. rewrite filter_cons. by case_decide. Qed.

Lemma attempts_none es key t0 : (∀ e, e ∈ es → at_ms e <= t0) → attempts es key t0 = 0%nat.
Proof.
  intros H. induction es as [|e es IH]; [done|]. change (e :: es) with ([e] ++ es).
  rewrite attempts_app, attempts_one, decide_False, IH; [done| |].
  - intros e' He. apply H. by right.
  - intros [_ Hlt]. specialize (H e (list_elem_of_here _ _)). lia.
Qed.

(** ** Both stores keep the log's counts *)

Section stores.
Context {R : Type} `{RedisLaws R}.
Context (max_requests window_seconds : Z) (Hwindow : 0 < window_seconds).
Local Notation W := (window_seconds * 1000).

Definition bucket (p : InProcess) (key : string) : list Z := default [] (_buckets p !! key).

Definition bucket_agrees (before : list event) (t : Z) (p : InProcess) : Prop :=
  ∀ key t0, t - W <= t0 → length (filter (λ ts, t0 < ts) (bucket p key)) = attempts before key t0.

Record zset_agrees (before : list event) (t : Z) (r : R) (key : string) : Prop := {
  za_type : is_zset (peek t r key) = true ;
  za_member m s : members_of (peek t r key) !! m = Some s → m ∈ uuid_of <$> before ∧ 0 <= s <= t ;
  za_deadline v d : peek t r key = Some (v, d) →
    ∃ e, d = Some e ∧ ∀ ev, ev ∈ before → key_of ev = key → at_ms ev + W <= e ;
  za_count t0 : t - W <= t0 →
    size (filter (λ ms, t0 < ms.2) (members_of (peek t r key))) = attempts before key t0 }.

Definition agrees (before : list event) (t : Z) (l : Limiter R) : Prop :=
  match client l with
  | None => bucket_agrees before t (_in_process l)
  | Some r => ∀ key, zset_agrees before t r key
  end.

Lemma zset_agrees_later before t t' r key :
  t <= t' → zset_agrees before t r key → zset_agrees before t' r key.
Proof using Hwindow H0.
  intros Hle [Hty Hm Hd Hc]. pose proof (peek_later t t' r key Hle) as Hp.
  destruct (peek t r key) as [[v d]|] eqn:Hpk; simpl in Hp.
  2:{ split; rewrite Hp; [done|by intros|by intros|].
      intros t0 Ht0. rewrite <- Hc by lia. done. }
  destruct (Hd _ _ eq_refl) as (e & -> & He).
  destruct (bool_decide_reflect (e <= t')) as [Hdead|Hlive].
  - split; rewrite Hp; [done|by intros|by intros|].
    intros t0 Ht0. simpl. rewrite map_filter_empty, map_size_empty.
    assert (Hnone : attempts before key t0 = 0%nat); [|by rewrite Hnone].
    unfold attempts. destruct (filter _ before) as [|ev l] eqn:Hf; [done|].
    assert (Hin : ev ∈ filter (λ e, key_of e = key ∧ t0 < at_ms e) before) by (rewrite Hf; left).
    apply list_elem_of_filter in Hin as [[Hk Hlt] Hin]. specialize (He _ Hin Hk). lia.
  - split; rewrite Hp.
    + done.
    + intros m s Hms. destruct (Hm _ _ Hms). split; [done|lia].
    + intros v' d' [= <- <-]. eauto.
    + intros t0 Ht0. apply Hc. lia.
Qed.

Lemma agrees_later before t t' l : t <= t' → agrees before t l → agrees before t' l.
Proof using Hwindow H0.
  intros Hle Ha. unfold agrees in *. destruct (client l) as [r|].
  - intros key. by apply (zset_agrees_later before t).
  - intros key t0 Ht0. apply Ha. lia.
Qed.

Lemma attempts_now before now key uuid t0 :
  now - W <= t0 →
  attempts (before ++ [(now, key, uuid)]) key t0 =
    (attempts before key t0 + if decide (t0 < now)%Z then 1 else 0)%nat.
Proof using Type.
  intros Ht0. rewrite attempts_app, attempts_one. unfold key_of, at_ms. simpl. f_equal.
  destruct (decide (t0 < now)); [by rewrite decide_True|rewrite decide_False; [done|by intros []]].
Qed.

Lemma attempts_other before now key key' uuid t0 :
  key' ≠ key → attempts (before ++ [(now, key, uuid)]) key' t0 = attempts before key' t0.
Proof using Type.
  intros Hne. rewrite attempts_app, attempts_one, decide_False; [lia|]. unfold key_of. simpl. by intros [-> _].
Qed.

Lemma hit_agrees before now key uuid p :
  bucket_agrees before now p →
  ∃ p', hit now key max_requests window_seconds p =
          (p', verdict max_requests window_seconds before (now, key, uuid)) ∧
        bucket_agrees (before ++ [(now, key, uuid)]) now p'.
Proof using Hwindow.
  intros Ha. unfold hit, _bucket_count_after_hit. cbv zeta. fold (bucket p key).
  set (b := filter (λ ts, now - W < ts) (bucket p key) ++ [now]).
  assert (Hlen : Z.of_nat (length b) =
    Z.of_nat (attempts (before ++ [(now, key, uuid)]) key (now - W))).
  { unfold b. rewrite length_app, Ha, attempts_now, decide_True by lia. done. }
  exists (p <| _buckets := <[key := b]> (_buckets p) |>). split.
  - unfold verdict. cbv zeta. unfold key_of, at_ms. cbn [fst snd]. by rewrite Hlen.
  - intros key' t0 Ht0. unfold bucket. cbn. destruct (decide (key' = key)) as [->|Hne].
    + rewrite lookup_insert_eq. simpl. unfold b. rewrite filter_app, length_app, attempts_now by done. f_equal.
      * rewrite list_filter_filter_l by lia. by apply Ha.
      * rewrite filter_cons. by case_decide.
    + rewrite lookup_insert_ne by done. rewrite attempts_other by done. by apply Ha.
Qed.

Lemma zset_filter_size (m : gmap string Z) uuid now t0 :
  m !! uuid = None →
  size (filter (λ ms, t0 < ms.2) (<[uuid := now]> m)) =
    (size (filter (λ ms : string * Z, t0 < ms.2)%Z m) + if decide (t0 < now)%Z then 1 else 0)%nat.
Proof using Type.
  intros Hn. rewrite map_filter_insert. simpl. destruct (decide (t0 < now)).
  - rewrite map_size_insert_None; [lia|]. apply map_lookup_filter_None. by left.
  - rewrite delete_id by done. lia.
Qed.

Lemma pipeline_agrees before now key uuid r :
  (∀ k, zset_agrees before now r k) → (∀ ev, ev ∈ before → at_ms ev <= now) → 0 <= now →
  uuid ∉ uuid_of <$> before →
  ∃ r' , window_pipeline now uuid key window_seconds r =
           (r', Z.of_nat (attempts (before ++ [(now, key, uuid)]) key (now - W))) ∧
         ∀ k, zset_agrees (before ++ [(now, key, uuid)]) now r' k.
Proof using Hwindow H0.
  intros Ha Hpast Hnow Hfresh. unfold window_pipeline. cbv zeta.
  set (r1 := zremrangebyscore now key 0 (now - W) r).
  set (r2 := zadd now key uuid now r1). set (r3 := expire now key (window_seconds + 60) r2).
  destruct (Ha key) as [Hty Hm _ Hc].
  set (m1 := filter (λ ms, ¬ (0 <= ms.2 ∧ ms.2 <= now - W)) (members_of (peek now r key))).
  destruct (zrem_law now key 0 (now - W) r Hty) as [Hk1 Ho1]. fold r1 m1 in Hk1, Ho1.
  assert (Hm1 : is_zset (peek now r1 key) = true ∧ members_of (peek now r1 key) = m1).
  { rewrite Hk1. unfold zset_entry. case_bool_decide as He; [by rewrite He|done]. }
  destruct (zadd_law now key uuid now r1 (proj1 Hm1)) as [Hk2 Ho2]. fold r2 in Hk2, Ho2.
  rewrite (proj2 Hm1) in Hk2.
  destruct (expire_law now key (window_seconds + 60) r2) as [Hk3 Ho3]; [lia|]. fold r3 in Hk3, Ho3.
  rewrite Hk2 in Hk3. simpl in Hk3.
  assert (Hnew : m1 !! uuid = None).
  { apply map_lookup_filter_None. left. destruct (members_of (peek now r key) !! uuid) as [s|] eqn:Hs; [|done].
    by apply Hm in Hs as [Hs _]. }
  assert (Hcount : ∀ t0, now - W <= t0 →
    size (filter (λ ms, t0 < ms.2) (<[uuid := now]> m1)) = attempts (before ++ [(now, key, uuid)]) key t0).
  { intros t0 Ht0. rewrite zset_filter_size, attempts_now by done. f_equal.
    rewrite <- Hc by done. unfold m1. rewrite map_filter_filter_l; [done|]. intros i x _. simpl. lia. }
  exists r3. split.
  - f_equal. rewrite zcard_law by by rewrite Hk2. rewrite Hk2. simpl. rewrite <- Hcount by lia.
    f_equal. f_equal. symmetry. apply map_filter_id. intros i x Hx. simpl. apply lookup_insert_Some in Hx as [[_ <-]|[_ Hx]]; [lia|].
    apply map_lookup_filter_Some in Hx as [Hx Hp]. simpl in Hp. destruct (Hm _ _ Hx). lia.
  - intros k. destruct (decide (k = key)) as [->|Hne].
    + split; rewrite Hk3; simpl.
      * done.
      * intros m s Hms. rewrite fmap_app. apply lookup_insert_Some in Hms as [[<- <-]|[_ Hms]].
        -- split; [|lia]. apply elem_of_app. right. by left.
        -- apply map_lookup_filter_Some in Hms as [Hms _]. destruct (Hm _ _ Hms). split; [|lia].
           apply elem_of_app. by left.
      * intros v d [= _ <-]. eexists. split; [done|]. intros ev [Hev|Hev%list_elem_of_singleton]%elem_of_app _.
        -- specialize (Hpast _ Hev). lia.
        -- subst ev. unfold at_ms. simpl. lia.
      * exact Hcount.
    + destruct (Ha k) as [Hty' Hm' Hd' Hc'].
      assert (Hpk : peek now r3 k = peek now r k) by by rewrite Ho3, Ho2, Ho1.
      split; rewrite Hpk.
      * done.
      * intros m s Hms. destruct (Hm' _ _ Hms). split; [|lia]. rewrite fmap_app. apply elem_of_app. by left.
      * intros v d Hvd. destruct (Hd' _ _ Hvd) as (e & -> & He). exists e. split; [done|].
        intros ev [Hev|Hev%list_elem_of_singleton]%elem_of_app Hk; [by apply He|].
        subst ev. by rewrite <- Hk in Hne.
      * intros t0 Ht0. rewrite attempts_other by done. by apply Hc'.
Qed.

(** Attempts one after the other; on Redis, while it can be reached. *)
Fixpoint serve (es : list event) (l : Limiter R) : list (bool * Z) :=
  match es with
  | [] => []
  | e :: es =>
      let '(l, a) := _sliding_window_hit true (at_ms e) (uuid_of e) (key_of e) max_requests window_seconds l in
      a :: serve es l
  end.

(** A store without traces of earlier attempts. *)
Definition fresh_limiter (l : Limiter R) : Prop :=
  match client l with
  | None => _buckets (_in_process l) = ∅
  | Some r => ∀ key, peek 0 r key = None
  end.

Lemma fresh_agrees l : fresh_limiter l → agrees [] 0 l.
Proof using Hwindow.
  unfold fresh_limiter, agrees. destruct (client l) as [r|].
  - intros Hf key. split; rewrite Hf; [done|by intros|by intros|]. intros t0 _. done.
  - intros Hf key t0 _. unfold bucket. rewrite Hf. by rewrite lookup_empty.
Qed.

Lemma window_hit_agrees before now key uuid l :
  agrees before now l → (∀ ev, ev ∈ before → at_ms ev <= now) → 0 <= now → uuid ∉ uuid_of <$> before →
  ∃ l', _sliding_window_hit true now uuid key max_requests window_seconds l =
          (l', verdict max_requests window_seconds before (now, key, uuid)) ∧
        agrees (before ++ [(now, key, uuid)]) now l'.
Proof using Hwindow H0.
  intros Ha Hpast Hnow Hfresh. unfold _sliding_window_hit, agrees in *. destruct (client l) as [r|] eqn:Hcl.
  - destruct (pipeline_agrees before now key uuid r Ha Hpast Hnow Hfresh) as (r' & -> & Ha').
    exists (l <| client := Some r' |>). by split.
  - destruct (hit_agrees before now key uuid _ Ha) as (p' & Hhit & Ha').
    exists (l <| _in_process := p' |>). unfold in_process. rewrite Hhit. split; [done|].
    simpl. by rewrite Hcl.
Qed.

Lemma serve_agrees before t es l :
  agrees before t l → (∀ ev, ev ∈ before → at_ms ev <= t) → orderly (before ++ es) →
  (∀ e, e ∈ es → t <= at_ms e) → serve es l = verdicts max_requests window_seconds before es.
Proof using Hwindow H0.
  revert before t l. induction es as [|[[now key] uuid] es IH]; intros before t l Ha Hpast (Hs & Hnd & Hpos) Hnext; [done|].
  assert (Ht : t <= now) by (apply (Hnext _ (list_elem_of_here _ _))).
  assert (Hpast' : ∀ ev, ev ∈ before → at_ms ev <= now) by (intros ev Hev; specialize (Hpast _ Hev); lia).
  destruct (window_hit_agrees before now key uuid l) as (l' & Hhit & Ha'); [|done| | |].
  - by apply (agrees_later before t).
  - apply Forall_app in Hpos as [_ Hpos]. by inversion Hpos.
  - rewrite fmap_app in Hnd. apply NoDup_app in Hnd as (_ & Hnd & _). intros Hin. apply (Hnd _ Hin). by left.
  - simpl. unfold at_ms, uuid_of, key_of. simpl. rewrite Hhit. f_equal. apply (IH _ now); [done| | |].
    + intros ev [Hev|Hev%list_elem_of_singleton]%elem_of_app; [by apply Hpast'|by subst].
    + rewrite <- app_assoc. done.
    + intros e He. apply StronglySorted_app_1_r in Hs. inversion Hs as [|? ? _ Hall]. subst.
      rewrite Forall_forall in Hall. by apply Hall.
Qed.

Lemma serve_verdicts es l :
  orderly es → fresh_limiter l → serve es l = verdicts max_requests window_seconds [] es.
Proof using Hwindow H0.
  intros Ho Hf. apply (serve_agrees [] 0); [by apply fresh_agrees|by intros ? ?%elem_of_nil|done|].
  destruct Ho as (_ & _ & Hpos). intros e He. rewrite Forall_forall in Hpos. by apply Hpos.
Qed.

(** C16: On either store, the answer to every attempt is the one read off the
    plain log of all attempts: it is admitted exactly when, with itself, at
    most [max_requests] attempts on its key, refused ones included, fall in
    the last window, and the remaining budget is what is left of that count;
    other keys have no influence.  So a server with Redis and one without
    answer alike. *)
Theorem budget_refines_log es l :
  orderly es → fresh_limiter l → serve es l = verdicts max_requests window_seconds [] es.
Proof using Hwindow H0. apply serve_verdicts. Qed.

(** The attempts on a key that were admitted within the window ending at [t]. *)
Definition admitted (key : string) (t : Z) (es : list event) (answers : list (bool * Z)) : nat :=
  length (filter (λ ea : event * (bool * Z), ea.2.1 = true ∧ key_of ea.1 = key ∧ t - W < at_ms ea.1 <= t) (zip es answers)).

Lemma verdicts_snoc before es e :
  verdicts max_requests window_seconds before (es ++ [e]) =
    verdicts max_requests window_seconds before es ++ [verdict max_requests window_seconds (before ++ es) e].
Proof using Type.
  revert before. induction es as [|e' es IH]; intros before; simpl; [by rewrite app_nil_r|].
  by rewrite IH, <- app_assoc.
Qed.

Lemma verdicts_length before es : length (verdicts max_requests window_seconds before es) = length es.
Proof using Type. revert before. induction es as [|e es IH]; intros before; simpl; [done|by rewrite IH]. Qed.

(** Admitted attempts are attempts. *)
Lemma admitted_attempts key t es answers t0 :
  t0 <= t - W → (admitted key t es answers <= attempts es key t0)%nat.
Proof using Type.
  intros Ht0. unfold admitted, attempts. revert answers.
  induction es as [|e es IH]; intros [|a answers]; simpl; try lia.
  specialize (IH answers). rewrite !filter_cons. simpl.
  destruct (decide (a.1 = true ∧ key_of e = key ∧ t - W < at_ms e <= t)) as [(_ & Hk & Hw)|_]; simpl;
    [rewrite decide_True by (split; [done|lia]); simpl; lia|].
  case_decide; simpl; lia.
Qed.

Lemma budget_bounded es key t :
  StronglySorted (λ a b, at_ms a <= at_ms b) es →
  Z.of_nat (admitted key t es (verdicts max_requests window_seconds [] es)) <= Z.max 0 max_requests.
Proof using Hwindow.
  induction es as [|e es IH] using rev_ind; intros Hs.
  { unfold admitted. simpl. lia. }
  assert (Hpast : ∀ ev, ev ∈ es → at_ms ev <= at_ms e).
  { intros ev Hev. apply StronglySorted_app in Hs as (Hs & _ & _). apply Hs; [done|by left]. }
  apply StronglySorted_app_1_l in Hs. specialize (IH Hs). rewrite verdicts_snoc. simpl.
  set (answers := verdicts max_requests window_seconds [] es) in *.
  assert (Hlen : length es = length answers) by (unfold answers; by rewrite verdicts_length).
  unfold admitted. rewrite zip_with_app by done. rewrite filter_app, length_app. fold (admitted key t es answers).
  simpl. rewrite filter_cons. case_decide as Hin; simpl; [|rewrite ?filter_nil; simpl; lia].
  destruct Hin as (Hok & Hk & Hlt & Hle). simpl in Hk, Hlt, Hle. unfold verdict in Hok. simpl in Hok. apply bool_decide_eq_true in Hok.
  rewrite attempts_app, attempts_one, decide_True in Hok by (split; [done|lia]).
  rewrite Hk in Hok. rewrite ?filter_nil. simpl.
  pose proof (admitted_attempts key t es answers (at_ms e - W) ltac:(lia)) as Hadm.
  lia.
Qed.

(** Whatever is attempted when, at most [max_requests] requests on a key
    are admitted within any window, on either store. *)
Theorem budget_never_exceeded es l key t :
  orderly es → fresh_limiter l →
  Z.of_nat (admitted key t es (serve es l)) <= Z.max 0 max_requests.
Proof using Hwindow H0.
  intros Ho Hf. rewrite serve_verdicts by done. apply budget_bounded, Ho.
Qed.
End stores.

(** ** Failure locks *)

Lemma string_app_inj_l (a b c : string) : a +:+ b = a +:+ c → b = c.
Proof. induction a as [|x a IH]; simpl; [done|]. intros [= H]. by apply IH. Qed.

Lemma lock_keys_differ m subject : _lock_key m subject ≠ _count_key m subject.
Proof. unfold _lock_key, _count_key. by intros H%string_app_inj_l. Qed.

Section locks.
Context {R : Type} `{RedisLaws R}.
Context (m : lock_manager) (subject : string) (Hwin : 0 < _window m) (Hlock : 0 < _lock m).
Local Notation W := (_window m * 1000).
Local Notation ck := (_count_key m subject).
Local Notation lk := (_lock_key m subject).

(** The failures of the last window. *)
Definition recent (ts : list Z) (t0 : Z) : nat := length (filter (λ ts, t0 < ts) ts).

(** The last failure, and the length of the run of failures that ends with
    it in which none comes later than a window after the one before. *)
Definition streak_step (o : option (Z * Z)) (t : Z) : option (Z * Z) :=
  match o with
  | Some (last, n) => Some (t, if bool_decide (last + W <= t) then 1 else n + 1)
  | None => Some (t, 1)
  end.
Definition streak (ts : list Z) : option (Z * Z) := foldl streak_step None ts.

(** Does the failure at [t] trip the lock? *)
Definition trips (redis : bool) (before : list Z) (t : Z) : bool :=
  if redis
  then match streak (before ++ [t]) with Some (_, n) => bool_decide (_threshold m <= n) | None => false end
  else bool_decide (_threshold m <= Z.of_nat (recent (before ++ [t]) (t - W))).

(** The last failure that tripped the lock. *)
Definition last_trip (redis : bool) (ts : list Z) : option Z :=
  (foldl (λ acc t, (acc.1 ++ [t], if trips redis acc.1 t then Some t else acc.2)) ([], None) ts).2.

Lemma last_trip_log redis ts :
  (foldl (λ acc t, (acc.1 ++ [t], if trips redis acc.1 t then Some t else acc.2)) ([], None) ts).1 = ts.
Proof using Type. induction ts as [|t ts IH] using rev_ind; [done|]. rewrite foldl_app. simpl. by rewrite IH. Qed.

Lemma last_trip_snoc redis ts t :
  last_trip redis (ts ++ [t]) = if trips redis ts t then Some t else last_trip redis ts.
Proof using Type. unfold last_trip. rewrite foldl_app. simpl. by rewrite last_trip_log. Qed.

Definition counter_entry (o : option (Z * Z)) : option entry :=
  (λ ln : Z * Z, (counter ln.2, Some (ln.1 + W))) <$> o.
Definition lock_entry (o : option Z) : option entry :=
  (λ t, (text "1", Some (t + _lock m * 1000))) <$> o.

(** The store agrees with the failures so far. *)
Definition tracks (ts : list Z) (t : Z) (l : Limiter R) : Prop :=
  match client l with
  | Some r => peek t r ck = live t (counter_entry (streak ts)) ∧
              peek t r lk = live t (lock_entry (last_trip true ts))
  | None =>
      (∀ t0, t - W <= t0 →
         length (filter (λ ts, t0 < ts) (default [] (_buckets (_in_process l) !! ck))) = recent ts t0) ∧
      _locks_until_ms (_in_process l) !! lk = (λ t, t + _lock m * 1000) <$> last_trip false ts
  end.

Lemma tracks_later ts t t' l : t <= t' → tracks ts t l → tracks ts t' l.
Proof using Hwin H0.
  intros Hle. unfold tracks. destruct (client l) as [r|].
  - intros [H1 H2]. rewrite !(peek_later t t' r) by done. by rewrite H1, H2, !live_live.
  - intros [H1 H2]. split; [|done]. intros t0 Ht0. apply H1. lia.
Qed.

Definition on_redis (l : Limiter R) : bool := is_some (client l).

Lemma recent_now ts now t0 : now - W <= t0 → recent (ts ++ [now]) t0 = (recent ts t0 + if decide (t0 < now)%Z then 1 else 0)%nat.
Proof using Type.
  intros _. unfold recent. rewrite filter_app, length_app, filter_cons, filter_nil. by case_decide.
Qed.

Lemma live_counter now last n :
  live now (Some (counter n, Some (last + W))) =
    if bool_decide (last + W <= now) then None else Some (counter n, Some (last + W)).
Proof using Type. done. Qed.

Lemma failure_tracks ts now l :
  tracks ts now l →
  ∃ l', record_failure m true now subject l = (l', trips (on_redis l) ts now) ∧
        tracks (ts ++ [now]) now l' ∧ on_redis l' = on_redis l.
Proof using Hwin Hlock H0.
  unfold tracks, record_failure, on_redis. destruct (client l) as [r|] eqn:Hcl; simpl is_some.
  - intros [Hck Hlk].
    assert (Hty : is_counter (peek now r ck) = true).
    { rewrite Hck. destruct (streak ts) as [[last n]|]; [|done]. simpl. by case_bool_decide. }
    destruct (incr_law now ck r Hty) as [[Hi1 Ho1] Hn]. destruct (incr now ck r) as [r1 n]. simpl in Hi1, Ho1, Hn.
    destruct (expire_law now ck (_window m) r1 Hwin) as [Hi2 Ho2]. rewrite Hi1 in Hi2. simpl in Hi2.
    set (r2 := expire now ck (_window m) r1) in *.
    assert (Hst : streak (ts ++ [now]) = Some (now, n)).
    { unfold streak. rewrite foldl_app. fold (streak ts). simpl. rewrite Hn, Hck.
      destruct (streak ts) as [[last k]|]; [|done]. simpl. by case_bool_decide. }
    assert (Hcnt : Some (counter n, Some (now + W)) = live now (counter_entry (streak (ts ++ [now])))).
    { rewrite Hst. simpl. by rewrite bool_decide_eq_false_2 by lia. }
    assert (Htr : trips true ts now = bool_decide (_threshold m <= n)) by (unfold trips; by rewrite Hst).
    rewrite <- Hn in Hi2. pose proof (lock_keys_differ m subject) as Hne. rewrite Htr.
    destruct (bool_decide (_threshold m <= n)).
    + destruct (setex_law now lk (_lock m) "1" r2 Hlock) as [Hi3 Ho3].
      eexists. split; [reflexivity|]. simpl. split; [|done]. split.
      * rewrite Ho3 by done. by rewrite Hi2.
      * rewrite Hi3, last_trip_snoc, Htr. simpl. by rewrite bool_decide_eq_false_2 by lia.
    + eexists. split; [reflexivity|]. simpl. split; [|done]. split; [by rewrite Hi2|].
      rewrite Ho2, Ho1 by done. by rewrite Hlk, last_trip_snoc, Htr.
  - intros [Hb Hl]. unfold in_process, failure_hit, _bucket_count_after_hit. cbv zeta.
    set (b := filter _ _ ++ [now]).
    assert (Hlen : length b = recent (ts ++ [now]) (now - W)).
    { unfold b. rewrite length_app, Hb, recent_now, decide_True by lia. done. }
    assert (Hb' : ∀ t0, now - W <= t0 → length (filter (λ ts, t0 < ts) b) = recent (ts ++ [now]) t0).
    { intros t0 Ht0. unfold b. rewrite filter_app, length_app, recent_now by done. f_equal.
      - rewrite list_filter_filter_l by lia. by apply Hb.
      - rewrite filter_cons, filter_nil. by case_decide. }
    assert (Htr : trips false ts now = bool_decide (_threshold m <= Z.of_nat (length b)))
      by (unfold trips; by rewrite Hlen).
    rewrite Htr. destruct (bool_decide (_threshold m <= Z.of_nat (length b)));
      eexists; (split; [reflexivity|]); simpl; rewrite Hcl; (split; [|done]); split.
    + intros t0 Ht0. rewrite lookup_insert_eq. by apply Hb'.
    + by rewrite lookup_insert_eq, last_trip_snoc, Htr.
    + intros t0 Ht0. rewrite lookup_insert_eq. by apply Hb'.
    + by rewrite Hl, last_trip_snoc, Htr.
Qed.

(** Failures one after the other. *)
Fixpoint fail_all (ts : list Z) (l : Limiter R) : Limiter R * list bool :=
  match ts with
  | [] => (l, [])
  | t :: ts => let '(l, a) := record_failure m true t subject l in
               let '(l, answers) := fail_all ts l in (l, a :: answers)
  end.

Fixpoint trip_answers (redis : bool) (before ts : list Z) : list bool :=
  match ts with
  | [] => []
  | t :: ts => trips redis before t :: trip_answers redis (before ++ [t]) ts
  end.

Definition fresh_lock (l : Limiter R) : Prop :=
  match client l with
  | None => _buckets (_in_process l) !! ck = None ∧ _locks_until_ms (_in_process l) !! lk = None
  | Some r => peek 0 r ck = None ∧ peek 0 r lk = None
  end.

Lemma fresh_tracks l : fresh_lock l → tracks [] 0 l.
Proof using Type.
  unfold fresh_lock, tracks. destruct (client l); [done|]. intros [Hb Hl].
  split; [|done]. intros t0 _. by rewrite Hb.
Qed.

Lemma fail_all_tracks before t ts l :
  tracks before t l → StronglySorted Z.le (t :: ts) →
  ∃ l', fail_all ts l = (l', trip_answers (on_redis l) before ts) ∧
        tracks (before ++ ts) (default t (last ts)) l' ∧ on_redis l' = on_redis l.
Proof using Hwin Hlock H0.
  revert before t l. induction ts as [|t' ts IH]; intros before t l Htr Hs; simpl.
  { exists l. rewrite app_nil_r. done. }
  apply StronglySorted_inv in Hs as [Hs Hall]. apply Forall_cons in Hall as [Hle _].
  destruct (failure_tracks before t' l) as (l1 & -> & Htr1 & Hon1); [by apply (tracks_later before t)|].
  destruct (IH _ _ _ Htr1 Hs) as (l2 & -> & Htr2 & Hon2). rewrite Hon1. exists l2.
  split; [done|]. rewrite <- app_assoc in Htr2. simpl in Htr2. split; [|by rewrite Hon2].
  destruct ts as [|t2 ts]; [done|]. rewrite last_cons_cons.
  destruct (last (t2 :: ts)) eqn:Hl; [done|]. by apply last_None in Hl.
Qed.

Lemma locked_tracks ts t l :
  tracks ts t l →
  (is_locked m true t subject l).2 =
    match last_trip (on_redis l) ts with Some t0 => bool_decide (t < t0 + _lock m * 1000) | None => false end.
Proof using H0.
  unfold tracks, is_locked, on_redis. destruct (client l) as [r|]; simpl.
  - intros [_ Hlk]. rewrite exists_law, Hlk. destruct (last_trip true ts) as [t0|]; [|done]. simpl.
    destruct (bool_decide_reflect (t0 + _lock m * 1000 <= t)); [by rewrite bool_decide_eq_false_2 by lia|].
    by rewrite bool_decide_eq_true_2 by lia.
  - intros [_ Hlk]. unfold in_process, locked. rewrite Hlk. destruct (last_trip false ts) as [t0|]; [|done]. simpl.
    destruct (bool_decide_reflect (t0 + _lock m * 1000 <= t)); [by rewrite bool_decide_eq_false_2 by lia|].
    by rewrite bool_decide_eq_true_2 by lia.
Qed.

(** A success starts over. *)
Lemma success_tracks ts t l : tracks ts t l → tracks [] t (record_success m true t subject l).
Proof using H0.
  unfold tracks, record_success. pose proof (lock_keys_differ m subject) as Hne.
  destruct (client l) as [r|] eqn:Hcl; simpl.
  - intros _. destruct (delete_law t ck r) as [H1 _]. destruct (delete_law t lk (delete_key t ck r)) as [H2 H3].
    split; [by rewrite H3|done].
  - intros _. rewrite Hcl. simpl. rewrite !lookup_delete_eq. split; [|done]. by intros t0 _.
Qed.

(** The failure lock of a subject, on either store, after any failures
    in time order: each answers whether it trips the lock; the subject is
    locked exactly until [_lock] seconds after the last one that did; and a
    success ends the lock and forgets the failures. *)
Theorem failure_lock_spec ts t l :
  StronglySorted Z.le (0 :: ts) → (∀ t', t' ∈ ts → t' <= t) → 0 <= t → fresh_lock l →
  ∃ l', fail_all ts l = (l', trip_answers (on_redis l) [] ts) ∧
    (is_locked m true t subject l').2 =
      match last_trip (on_redis l) ts with
      | Some t0 => bool_decide (t < t0 + _lock m * 1000)
      | None => false
      end ∧
    (is_locked m true t subject (record_success m true t subject l')).2 = false ∧
    tracks [] t (record_success m true t subject l').
Proof using Hwin Hlock H0.
  intros Hs Hle H0t Hf. destruct (fail_all_tracks [] 0 ts l (fresh_tracks _ Hf) Hs) as (l' & Hrun & Htr & Hon).
  exists l'. split; [done|]. simpl in Htr.
  assert (Htr' : tracks ts t l').
  { eapply tracks_later; [|exact Htr]. destruct (last ts) as [t'|] eqn:Hl; [|done]. simpl.
    apply Hle. by apply last_Some_elem_of. }
  pose proof (success_tracks _ _ _ Htr') as Hok. split_and!; [|by rewrite (locked_tracks _ _ _ Hok)|done].
  by rewrite (locked_tracks _ _ _ Htr'), Hon.
Qed.

Lemma recent_mono ts a b : a <= b → (recent ts b <= recent ts a)%nat.
Proof using Type.
  intros Hab. unfold recent. induction ts as [|t ts IH]; [done|]. rewrite !filter_cons.
  repeat case_decide; simpl; lia.
Qed.

Lemma recent_old ts a : (∀ t, t ∈ ts → t <= a) → recent ts a = 0%nat.
Proof using Type.
  intros Hle. unfold recent. induction ts as [|t ts IH]; [done|]. rewrite filter_cons, decide_False.
  - apply IH. intros t' Ht'. apply Hle. by right.
  - specialize (Hle t (list_elem_of_here _ _)). lia.
Qed.

(** The run is at least as long as the window is full. *)
Lemma streak_covers ts :
  StronglySorted Z.le ts → ts ≠ [] →
  ∃ t n, streak ts = Some (t, n) ∧ last ts = Some t ∧ Z.of_nat (recent ts (t - W)) <= n.
Proof using Hwin.
  induction ts as [|t ts IH] using rev_ind; intros Hs Hne; [done|]. clear Hne.
  unfold streak. rewrite foldl_app. fold (streak ts). simpl. rewrite last_snoc.
  apply StronglySorted_app in Hs as (Hle & Hs & _).
  destruct (decide (ts = [])) as [->|Hne].
  { exists t, 1. split; [done|]. split; [done|]. rewrite recent_now, decide_True by lia. done. }
  destruct (IH Hs Hne) as (t' & n & -> & Hlast & Hn). simpl.
  assert (Ht' : ∀ x, x ∈ ts → x <= t').
  { intros x Hx. rewrite last_Some in Hlast. destruct Hlast as [ts' ->].
    apply StronglySorted_app in Hs as (Hs' & _). apply elem_of_app in Hx as [Hx|Hx%list_elem_of_singleton]; [|lia].
    apply Hs'; [done|by left]. }
  assert (Htt : t' <= t) by (apply Hle; [by apply last_Some_elem_of|by left]).
  destruct (bool_decide_reflect (t' + W <= t)).
  - exists t, 1. split; [done|]. split; [done|]. rewrite recent_now, decide_True by lia.
    rewrite recent_old; [done|]. intros x Hx. specialize (Ht' x Hx). lia.
  - exists t, (n + 1). split; [done|]. split; [done|].
    rewrite recent_now, decide_True by lia.
    pose proof (recent_mono ts (t' - W) (t - W) ltac:(lia)). lia.
Qed.

(** A failure that trips the lock on the process's own store, the
    documented "three within the window", trips it on Redis too. *)
Theorem redis_lock_no_weaker before t :
  StronglySorted Z.le (before ++ [t]) → trips false before t = true → trips true before t = true.
Proof using Hwin.
  intros Hs Ht. unfold trips in *. apply bool_decide_eq_true in Ht.
  destruct (streak_covers _ Hs) as (t' & n & -> & Hlast & Hn); [by destruct before|].
  rewrite last_snoc in Hlast. injection Hlast as <-. apply bool_decide_eq_true. lia.
Qed.
End locks.

(** ** Instances *)

(** Two requests allowed in a second; three come. *)
Definition burst : list event := [(0, "k", "a"); (100, "k", "b"); (150, "other", "c"); (999, "k", "d"); (1500, "k", "e")]%string.

Definition stored : Limiter (gmap string entry) := mkLimiter (mkInProcess ∅ ∅) (Some ∅).

Lemma burst_orderly : orderly burst.
Proof.
  split; [|split].
  - repeat (apply SSorted_cons; [|repeat (apply Forall_cons; split; [vm_compute; discriminate|]); apply Forall_nil; done]).
    apply SSorted_nil.
  - apply (bool_decide_eq_true_1 _). vm_compute. reflexivity.
  - apply (bool_decide_eq_true_1 _). vm_compute. reflexivity.
Qed.

Lemma stored_fresh : fresh_limiter stored.
Proof. intros key. simpl. by rewrite lookup_empty. Qed.

Lemma budget_refines_log_witness :
  serve 2 1 burst stored = [(true, 1); (true, 0); (true, 1); (false, 0); (true, 0)].
Proof. rewrite (budget_refines_log 2 1 eq_refl burst stored burst_orderly stored_fresh). reflexivity. Defined.

Lemma budget_never_exceeded_witness :
  Z.of_nat (admitted 1 "k" 1000 burst (serve 2 1 burst stored)) <= 2.
Proof. exact (budget_never_exceeded 2 1 eq_refl burst stored "k" 1000 burst_orderly stored_fresh). Defined.

Definition three_failures : list Z := [1000; 2000; 3000].

Lemma failure_lock_spec_witness :
  ∃ l', fail_all LoginLockManager "u" three_failures stored = (l', [false; false; true]) ∧
    (is_locked LoginLockManager true 302999 "u" l').2 = true.
Proof.
  destruct (failure_lock_spec LoginLockManager "u" eq_refl eq_refl three_failures 302999 stored)
    as (l' & Hrun & Hlocked & _).
  - apply (bool_decide_eq_true_1 _). vm_compute. reflexivity.
  - intros t Ht. unfold three_failures in Ht. rewrite !elem_of_cons, elem_of_nil in Ht. lia.
  - discriminate.
  - split; reflexivity.
  - exists l'. split; [exact Hrun|]. rewrite Hlocked. reflexivity.
Defined.

Lemma redis_lock_no_weaker_witness : trips LoginLockManager true [1000; 2000] 3000 = true.
Proof.
  apply (redis_lock_no_weaker LoginLockManager eq_refl); [|reflexivity].
  apply (bool_decide_eq_true_1 _). vm_compute. reflexivity.
Defined.

(** The converse fails: on Redis every failure renews the counter, so three
    failures in ten minutes, no two closer than 299 seconds, lock a subject
    that the process's own store leaves alone. *)
Theorem redis_lock_overcounts :
  trips LoginLockManager true [0; 299000] 598000 = true ∧
  trips LoginLockManager false [0; 299000] 598000 = false.
Proof. split; reflexivity. Qed.
