(* ===== verification/Models.v ===== *)
(** The data of the control plane: the tables of
    [backend/corelab_backend/models/], the CHECK constraints of [reservation]
    that the services rely on, and the exceptions the services raise.

    Every column a modelled service reads or writes is a field with the
    source's name.  Columns of a closed set of strings (enforced by a CHECK
    constraint) are inductive types; instants are [Z] (naive UTC
    microseconds, the [DATETIME(6)] columns); ids are [Z]. *)

From S2P Require Import Prelude.

(** [ck_res_status] / [ReservationStatus]. *)
Inductive ReservationStatus : Type :=
| STATUS_SCHEDULED
| STATUS_ACTIVE
| STATUS_COMPLETED
| STATUS_CANCELLED
| STATUS_FAILED.
#[export] Instance ReservationStatus_eq_dec : EqDecision ReservationStatus.
Proof. solve_decision. Defined.

(** [ck_res_script_status] / [ScriptStatus]; NULL is [None]. *)
Inductive ScriptStatus : Type :=
| SCRIPT_RUNNING
| SCRIPT_COMPLETED
| SCRIPT_FAILED
| SCRIPT_KILLED.
#[export] Instance ScriptStatus_eq_dec : EqDecision ScriptStatus.
Proof. solve_decision. Defined.

(** [ck_link_source]. *)
Inductive LinkSource : Type :=
| ssh_challenge
| password_pam
| admin_prepared_then_ssh
| admin_declared.
#[export] Instance LinkSource_eq_dec : EqDecision LinkSource.
Proof. solve_decision. Defined.

(** [ck_alr_status]. *)
Inductive RequestStatus : Type :=
| request_pending
| request_approved
| request_denied
| request_withdrawn.
#[export] Instance RequestStatus_eq_dec : EqDecision RequestStatus.
Proof. solve_decision. Defined.

(** The text of a status, as stored in the column and in audit payloads. *)
Definition status_text (s : ReservationStatus) : string :=
  match s with
  | STATUS_SCHEDULED => "scheduled"
  | STATUS_ACTIVE => "active"
  | STATUS_COMPLETED => "completed"
  | STATUS_CANCELLED => "cancelled"
  | STATUS_FAILED => "failed"
  end.

Definition script_status_text (s : ScriptStatus) : string :=
  match s with
  | SCRIPT_RUNNING => "running"
  | SCRIPT_COMPLETED => "completed"
  | SCRIPT_FAILED => "failed"
  | SCRIPT_KILLED => "killed"
  end.

(** The [server] table, less the inventory columns (CPU, OS, kernel). *)
Module Server.
Record t : Type := mk {
  id : Z ;
  lab_id : Z ;
  hostname : string ;
  display_name : option string ;
  agent_token_hash : option string ;
  status : string ;
  last_heartbeat_at : option Z ;
  max_reservation_hours : option Z ;
  is_active : Z ;
  approved_at : option Z ;
  approved_by_user_id : option Z ;
  created_by_user_id : option Z }.
#[global] Instance eta : Eta t := λ r,
  mk (id r) (lab_id r) (hostname r) (display_name r) (agent_token_hash r) (status r)
    (last_heartbeat_at r) (max_reservation_hours r) (is_active r) (approved_at r)
    (approved_by_user_id r) (created_by_user_id r).
End Server.

(** The [gpu] table, less the telemetry columns. *)
Module Gpu.
Record t : Type := mk {
  id : Z ;
  server_id : Z ;
  gpu_index : Z ;
  uuid : option string ;
  model : option string ;
  memory_total_mb : option Z ;
  compute_capability : option string ;
  util_pct : option Z ;
  memory_used_mb : option Z ;
  temperature_c : option Z ;
  power_w : option Z ;
  process_snapshot : json ;
  last_updated_at : option Z ;
  is_active : Z }.
#[global] Instance eta : Eta t := λ r,
  mk (id r) (server_id r) (gpu_index r) (uuid r) (model r) (memory_total_mb r)
    (compute_capability r) (util_pct r) (memory_used_mb r) (temperature_c r) (power_w r)
    (process_snapshot r) (last_updated_at r) (is_active r).
End Gpu.

(** The [user] table, less credentials and timestamps. *)
Module User.
Record t : Type := mk {
  id : Z ;
  lab_id : Z ;
  username : string ;
  display_name : string ;
  role : string ;
  is_active : Z ;
  email : string ;
  password_hash : option string ;
  last_login_at : option Z ;
  created_by_user_id : option Z }.
#[global] Instance eta : Eta t := λ r,
  mk (id r) (lab_id r) (username r) (display_name r) (role r) (is_active r) (email r)
    (password_hash r) (last_login_at r) (created_by_user_id r).
End User.

(** The [setup_token] table: a one-time link to activate an account or to
    choose a new password. *)
Module SetupToken.
Record t : Type := mk {
  id : Z ;
  user_id : Z ;
  token_hash : string ;
  purpose : string ;
  expires_at : Z ;
  used_at : option Z ;
  created_by_user_id : option Z }.
#[global] Instance eta : Eta t := λ r,
  mk (id r) (user_id r) (token_hash r) (purpose r) (expires_at r) (used_at r) (created_by_user_id r).
End SetupToken.

(** The [registration_invite] table: a one-time link to register. *)
Module RegistrationInvite.
Record t : Type := mk {
  id : Z ;
  lab_id : Z ;
  token_hash : string ;
  role : string ;
  expires_at : Z ;
  used_at : option Z ;
  used_by_user_id : option Z ;
  created_by_user_id : option Z }.
#[global] Instance eta : Eta t := λ r,
  mk (id r) (lab_id r) (token_hash r) (role r) (expires_at r) (used_at r) (used_by_user_id r)
    (created_by_user_id r).
End RegistrationInvite.

(** The [lab] table; the entries of [public_urls] are JSON documents. *)
Module Lab.
Record t : Type := mk {
  id : Z ;
  name : string ;
  slug : string ;
  public_urls : list json ;
  tunnel_mode : string ;
  tunnel_token : option string }.
#[global] Instance eta : Eta t := λ r,
  mk (id r) (name r) (slug r) (public_urls r) (tunnel_mode r) (tunnel_token r).
End Lab.

(** The [server_admin_grant] table. *)
Module ServerAdminGrant.
Record t : Type := mk {
  id : Z ;
  user_id : Z ;
  server_id : Z ;
  is_active : Z ;
  granted_by_user_id : Z ;
  notes : option pystr ;
  revoked_by_user_id : option Z ;
  revoked_at : option Z }.
#[global] Instance eta : Eta t := λ r,
  mk (id r) (user_id r) (server_id r) (is_active r) (granted_by_user_id r) (notes r)
    (revoked_by_user_id r) (revoked_at r).
End ServerAdminGrant.

(** The [physical_account] table: a Linux account found on a server. *)
Module PhysicalAccount.
Record t : Type := mk {
  id : Z ;
  server_id : Z ;
  linux_username : string ;
  uid : option Z ;
  gid : option Z ;
  home_directory : option string ;
  default_shell : option string ;
  source : string ;
  is_active : Z ;
  created_by_user_id : option Z ;
  notes : option string ;
  last_seen_at : option Z }.
#[global] Instance eta : Eta t := λ r,
  mk (id r) (server_id r) (linux_username r) (uid r) (gid r) (home_directory r)
    (default_shell r) (source r) (is_active r) (created_by_user_id r) (notes r) (last_seen_at r).
End PhysicalAccount.

(** The [account_link] table: a platform user bound to a Linux account. *)
Module AccountLink.
Record t : Type := mk {
  id : Z ;
  user_id : Z ;
  physical_account_id : Z ;
  source : LinkSource ;
  proof_evidence : json ;
  established_by_user_id : Z ;
  is_active : Z ;
  revoked_by_user_id : option Z ;
  revoked_at : option Z ;
  revoke_reason : option string }.
#[global] Instance eta : Eta t := λ r,
  mk (id r) (user_id r) (physical_account_id r) (source r) (proof_evidence r)
    (established_by_user_id r) (is_active r) (revoked_by_user_id r) (revoked_at r)
    (revoke_reason r).
End AccountLink.

(** The [account_link_request] table. *)
Module AccountLinkRequest.
Record t : Type := mk {
  id : Z ;
  requester_user_id : Z ;
  physical_account_id : Z ;
  status : RequestStatus ;
  request_note : option string ;
  decided_by_user_id : option Z ;
  decided_at : option Z ;
  decision_note : option string }.
#[global] Instance eta : Eta t := λ r,
  mk (id r) (requester_user_id r) (physical_account_id r) (status r) (request_note r)
    (decided_by_user_id r) (decided_at r) (decision_note r).
End AccountLinkRequest.

(** The [ssh_public_key] table. *)
Module SshPublicKey.
Record t : Type := mk {
  id : Z ;
  user_id : Z ;
  public_key : string ;
  fingerprint_sha256 : string ;
  key_type : string ;
  comment : option string ;
  is_active : Z ;
  disabled_at : option Z }.
#[global] Instance eta : Eta t := λ r,
  mk (id r) (user_id r) (public_key r) (fingerprint_sha256 r) (key_type r) (comment r)
    (is_active r) (disabled_at r).
End SshPublicKey.

(** The [authorized_key_entry] table: a key CoreLab installed on a host. *)
Module AuthorizedKeyEntry.
Record t : Type := mk {
  id : Z ;
  physical_account_id : Z ;
  ssh_public_key_id : Z ;
  pushed_by_user_id : Z ;
  pushed_for_user_id : Z ;
  pushed_at : Z ;
  is_active : Z ;
  removed_at : option Z ;
  removed_by_user_id : option Z }.
#[global] Instance eta : Eta t := λ r,
  mk (id r) (physical_account_id r) (ssh_public_key_id r) (pushed_by_user_id r)
    (pushed_for_user_id r) (pushed_at r) (is_active r) (removed_at r)
    (removed_by_user_id r).
End AuthorizedKeyEntry.

(** The [reservation] table. *)
Module Reservation.
Record t : Type := mk {
  id : Z ;
  user_id : Z ;
  server_id : Z ;
  gpu_id : option Z ;
  account_link_id : Z ;
  group_id : option string ;
  start_at : Z ;
  end_at : Z ;
  status : ReservationStatus ;
  gpu_memory_mb : option Z ;
  gpu_compute_share_pct : option Z ;
  script : option pystr ;
  script_scheduled_start_at : option Z ;
  script_max_runtime_seconds : option Z ;
  script_started_at : option Z ;
  script_finished_at : option Z ;
  script_exit_code : option Z ;
  script_output_size_bytes : option Z ;
  script_log_path : option string ;
  script_log_tail_text : option pystr ;
  script_log_tail_truncated : Z ;
  script_status : option ScriptStatus ;
  script_dispatch_started_at : option Z ;
  cancelled_at : option Z ;
  cancelled_by_user_id : option Z ;
  cancellation_reason : option string }.
#[global] Instance eta : Eta t := λ r,
  mk (id r) (user_id r) (server_id r) (gpu_id r) (account_link_id r) (group_id r)
    (start_at r) (end_at r) (status r) (gpu_memory_mb r) (gpu_compute_share_pct r)
    (script r) (script_scheduled_start_at r) (script_max_runtime_seconds r)
    (script_started_at r) (script_finished_at r) (script_exit_code r)
    (script_output_size_bytes r) (script_log_path r) (script_log_tail_text r)
    (script_log_tail_truncated r) (script_status r) (script_dispatch_started_at r)
    (cancelled_at r) (cancelled_by_user_id r) (cancellation_reason r).
#[global] Instance eq_dec : EqDecision t.
Proof. solve_decision. Defined.
End Reservation.

(** The [audit_log] table ([audit_result] is the column [result]). *)
Module AuditLog.
Record t : Type := mk {
  id : Z ;
  lab_id : option Z ;
  actor_user_id : option Z ;
  action : string ;
  target_type : option string ;
  target_id : option Z ;
  target_lab_id : option Z ;
  target_server_id : option Z ;
  payload : option json ;
  ip_address : option string ;
  user_agent : option string ;
  audit_result : string ;
  error_message : option string ;
  created_at : Z }.
#[global] Instance eta : Eta t := λ r,
  mk (id r) (lab_id r) (actor_user_id r) (action r) (target_type r) (target_id r)
    (target_lab_id r) (target_server_id r) (payload r) (ip_address r) (user_agent r)
    (audit_result r) (error_message r) (created_at r).
End AuditLog.

(** The [notification] table ([ntype] is the column [type]). *)
Module Notification.
Record t : Type := mk {
  id : Z ;
  recipient_user_id : Z ;
  ntype : string ;
  severity : string ;
  title : string ;
  body : option string ;
  payload : option (list (string * json)) ;
  cta_url : option string ;
  is_read : Z ;
  created_at : Z }.
#[global] Instance eta : Eta t := λ r,
  mk (id r) (recipient_user_id r) (ntype r) (severity r) (title r) (body r) (payload r)
    (cta_url r) (is_read r) (created_at r).
End Notification.

(** The [alert_event] table. *)
Module AlertEvent.
Record t : Type := mk {
  id : Z ;
  server_id : Z ;
  gpu_id : option Z ;
  reservation_id : option Z ;
  event_type : string ;
  severity : string ;
  payload : option json ;
  notified_user_ids : list Z ;
  is_resolved : Z ;
  resolved_at : option Z ;
  resolved_by_user_id : option Z ;
  resolution_note : option string ;
  created_at : Z }.
#[global] Instance eta : Eta t := λ r,
  mk (id r) (server_id r) (gpu_id r) (reservation_id r) (event_type r) (severity r)
    (payload r) (notified_user_ids r) (is_resolved r) (resolved_at r)
    (resolved_by_user_id r) (resolution_note r) (created_at r).
End AlertEvent.

(** The [enrollment_token] table: a one-time secret for an agent. *)
Module EnrollmentToken.
Record t : Type := mk {
  id : Z ;
  lab_id : Z ;
  token_hash : string ;
  expires_at : Z ;
  used_at : option Z ;
  used_by_server_id : option Z ;
  expected_hostname_pattern : option string ;
  created_by_user_id : Z }.
#[global] Instance eta : Eta t := λ r,
  mk (id r) (lab_id r) (token_hash r) (expires_at r) (used_at r) (used_by_server_id r)
    (expected_hostname_pattern r) (created_by_user_id r).
End EnrollmentToken.

(** The [agent_policy] table: what a server's agent does about a finding. *)
Module AgentPolicy.
Record t : Type := mk {
  id : Z ;
  server_id : Z ;
  policy_key : string ;
  enabled : Z ;
  severity : string ;
  threshold_value : option json ;
  grace_period_seconds : option Z ;
  notify_admin : Z ;
  notes : option string ;
  updated_by_user_id : Z }.
#[global] Instance eta : Eta t := λ r,
  mk (id r) (server_id r) (policy_key r) (enabled r) (severity r) (threshold_value r)
    (grace_period_seconds r) (notify_admin r) (notes r) (updated_by_user_id r).
End AgentPolicy.

(** The [agent_capability] table: what a server's agent may do at all. *)
Module AgentCapability.
Record t : Type := mk {
  id : Z ;
  server_id : Z ;
  capability_key : string ;
  is_enabled : Z ;
  is_dangerous : Z ;
  notes : option pystr ;
  updated_by_user_id : Z }.
#[global] Instance eta : Eta t := λ r,
  mk (id r) (server_id r) (capability_key r) (is_enabled r) (is_dangerous r) (notes r)
    (updated_by_user_id r).
End AgentCapability.

(** The database: one finite map (or, for the append-only tables, one list)
    per table, with the AUTO_INCREMENT counters. *)
Record Db : Type := mkDb {
  servers : gmap Z Server.t ;
  gpus : gmap Z Gpu.t ;
  next_gpu_id : Z ;
  users : gmap Z User.t ;
  server_admin_grants : gmap Z ServerAdminGrant.t ;
  physical_accounts : gmap Z PhysicalAccount.t ;
  next_physical_account_id : Z ;
  account_links : gmap Z AccountLink.t ;
  next_account_link_id : Z ;
  account_link_requests : gmap Z AccountLinkRequest.t ;
  next_account_link_request_id : Z ;
  ssh_public_keys : gmap Z SshPublicKey.t ;
  authorized_key_entries : gmap Z AuthorizedKeyEntry.t ;
  next_authorized_key_entry_id : Z ;
  reservations : gmap Z Reservation.t ;
  next_reservation_id : Z ;
  audit_log : list AuditLog.t ;
  notifications : list Notification.t ;
  alert_events : list AlertEvent.t ;
  enrollment_tokens : gmap Z EnrollmentToken.t ;
  agent_policies : gmap Z AgentPolicy.t ;
  next_agent_policy_id : Z ;
  agent_capabilities : gmap Z AgentCapability.t ;
  next_agent_capability_id : Z ;
  next_server_id : Z ;
  next_server_admin_grant_id : Z ;
  next_enrollment_token_id : Z ;
  next_ssh_public_key_id : Z ;
  next_user_id : Z ;
  setup_tokens : gmap Z SetupToken.t ;
  next_setup_token_id : Z ;
  registration_invites : gmap Z RegistrationInvite.t ;
  next_registration_invite_id : Z ;
  labs : gmap Z Lab.t ;
  next_lab_id : Z }.
#[export] Instance eta_Db : Eta Db := λ d,
  mkDb (servers d) (gpus d) (next_gpu_id d) (users d) (server_admin_grants d) (physical_accounts d)
    (next_physical_account_id d) (account_links d) (next_account_link_id d) (account_link_requests d)
    (next_account_link_request_id d) (ssh_public_keys d) (authorized_key_entries d)
    (next_authorized_key_entry_id d) (reservations d) (next_reservation_id d) (audit_log d)
    (notifications d) (alert_events d) (enrollment_tokens d) (agent_policies d)
    (next_agent_policy_id d) (agent_capabilities d) (next_agent_capability_id d) (next_server_id d)
    (next_server_admin_grant_id d) (next_enrollment_token_id d) (next_ssh_public_key_id d)
    (next_user_id d) (setup_tokens d) (next_setup_token_id d) (registration_invites d)
    (next_registration_invite_id d) (labs d) (next_lab_id d).

(** * Exceptions

    One type for the exceptions that cross service boundaries; messages are
    dropped, the structured attributes the API reads are kept. *)
Inductive exn : Type :=
(* reservation_service *)
| ReservationError
| ReservationOverlapError (conflicting_reservation_ids : list Z)
| ReservationMemoryExceededError (used_mb would_use_mb total_mb : Z)
    (conflicting_reservation_ids : list Z)
| ReservationComputeExceededError (used_pct would_use_pct : Z)
    (conflicting_reservation_ids : list Z)
| ReservationMixExclusiveSharedError (conflicting_reservation_ids : list Z)
| ReservationTooLongError (max_hours : Z) (requested : Z)
| InvalidTimeError
| LinkNotVerifiedError
| NoActiveLinkError
| ScriptTooLargeError
| ReservationNotFoundError
| CancelNotPermittedError
| GroupCancelRunningScriptError (running_reservation_ids : list Z)
| ReservationIllegalTransitionError (current_status attempted_status : string)
(* script_lifecycle_service *)
| AgentUnreachableDuringCancelError
| LifecycleEventTimeoutError
(* agent_rpc *)
| AgentOfflineError
| AgentRpcTimeoutError
| UnexpectedResponseTypeError
| RpcNotYetWiredError
(* telemetry_service *)
| AgentAuthError
(* physical_account_service *)
| InvalidSourceError
| DuplicatePhysicalAccountError
| AuthorizedKeyEntryNotFoundError
(* agent_policy_service *)
| UnknownPolicyKeyError
| UnknownProfileError
| InvalidThresholdError
| AutoKillNotAllowedError
(* server_service *)
| ServerError
| ServerNotFoundError
| DuplicateHostnameError
| DangerousCapabilityWithoutNotesError
(* ssh_key_service *)
| SshKeyError
| DuplicateKeyError
| KeyNotFoundError
(* ssh_challenge *)
| RedisUnavailableError
| ChallengeExpiredOrUsedError
| ActorMismatchError
(* auth_service *)
| AccountLockedError
| InvalidCredentialsError
| AccountDisabledError
| InvalidActivationTokenError (reason : string)
| ActivationProfileConflictError (reason : string)
| ActivationSshKeyError
| RegistrationInviteNotFoundError
| RegistrationInviteNotRevokableError
(* user_service, setup_service *)
| UserError
| UserNotFoundError
| DuplicateUserError
| LastAdminError
| SelfRoleChangeError
| SelfDisableError
| WrongPasswordError
| UserNotActivatedError
| UserAlreadyActivatedError
| SetupError
| AlreadyInitializedError
| MultipleResultsFound
(* sqlalchemy: a session used after a failed flush *)
| PendingRollbackError
(* lab_url_service *)
| LabUrlError
(* account_link_service *)
| AccountLinkError
| SshKeyNotOwnedByUserError
| LinkAlreadyActiveError
| AdminDeclaredCannotActAsError
(* account_link_request_service, physical_account_service *)
| AccountLinkRequestError
| PhysicalAccountNotFoundError
| AlreadyLinkedError
| DuplicatePendingError
| RequestNotFoundError
| InvalidStatusTransitionError
| NoActiveSshKeyError
(* FastAPI, SQLAlchemy, Python *)
| HTTPException (status_code : Z) (code : string)
| IntegrityError (constraint : string)
| DataError (column : string)
| OperationalError (message : string)
| ValueError
| KeyError
| AssertionError
| AttributeError
| TypeError
| ValidationError.

#[export] Instance exn_eq_dec : EqDecision exn.
Proof. solve_decision. Defined.

(** The subclasses of [reservation_service.ReservationError]: what
    [except reservation_service.ReservationError] catches. *)
Definition is_ReservationError (e : exn) : bool :=
  match e with
  | ReservationError | ReservationOverlapError _ | ReservationMemoryExceededError _ _ _ _
  | ReservationComputeExceededError _ _ _ | ReservationMixExclusiveSharedError _
  | ReservationTooLongError _ _ | InvalidTimeError | LinkNotVerifiedError | NoActiveLinkError
  | ScriptTooLargeError | ReservationNotFoundError | CancelNotPermittedError
  | GroupCancelRunningScriptError _ | ReservationIllegalTransitionError _ _ => true
  | _ => false
  end.

(** * Constraints of the [reservation] table *)

(** [mysql.TEXT]: at most 2^16 - 1 bytes; strict mode refuses more. *)
Definition TEXT_MAX_BYTES : Z := 65535.

Definition ck_res_time_order (r : Reservation.t) : bool :=
  bool_decide (Reservation.start_at r < Reservation.end_at r).

Definition ck_res_script_time (r : Reservation.t) : bool :=
  match Reservation.script_scheduled_start_at r with
  | None => true
  | Some t => bool_decide (Reservation.start_at r <= t ∧ t < Reservation.end_at r)
  end.

Definition ck_res_compute_pct (r : Reservation.t) : bool :=
  match Reservation.gpu_compute_share_pct r with
  | None => true
  | Some p => bool_decide (1 <= p ∧ p <= 100)
  end.

Definition text_fits (o : option pystr) : bool :=
  match o with None => true | Some s => bool_decide (utf8_length s <= TEXT_MAX_BYTES) end.

(** [INTEGER(unsigned=True)] *)
Definition unsigned_fits (o : option Z) : bool :=
  match o with None => true | Some z => bool_decide (0 <= z ∧ z < 2 ^ 32) end.

(** [INTEGER()] *)
Definition signed_fits (o : option Z) : bool :=
  match o with None => true | Some z => bool_decide (- 2 ^ 31 <= z ∧ z < 2 ^ 31) end.

(** The first constraint a row breaks, as the error the flush raises.  The
    VARCHAR columns are left out: the schema bounds [cancellation_reason], and
    a group id is a UUID. *)
Definition reservation_row_error (r : Reservation.t) : option exn :=
  if negb (ck_res_time_order r) then Some (IntegrityError "ck_res_time_order")
  else if negb (ck_res_script_time r) then Some (IntegrityError "ck_res_script_time")
  else if negb (ck_res_compute_pct r) then Some (IntegrityError "ck_res_compute_pct")
  else if negb (unsigned_fits (Reservation.gpu_memory_mb r)) then Some (DataError "gpu_memory_mb")
  else if negb (unsigned_fits (Reservation.script_max_runtime_seconds r))
       then Some (DataError "script_max_runtime_seconds")
  else if negb (signed_fits (Reservation.script_exit_code r)) then Some (DataError "script_exit_code")
  else if negb (unsigned_fits (Reservation.script_output_size_bytes r))
       then Some (DataError "script_output_size_bytes")
  else if negb (text_fits (Reservation.script r)) then Some (DataError "script")
  else if negb (text_fits (Reservation.script_log_tail_text r))
       then Some (DataError "script_log_tail_text")
  else None.

(** What every stored row satisfies. *)
Definition reservation_row_ok (r : Reservation.t) : Prop :=
  Reservation.start_at r < Reservation.end_at r ∧
  (∀ t, Reservation.script_scheduled_start_at r = Some t →
        Reservation.start_at r <= t < Reservation.end_at r) ∧
  (∀ p, Reservation.gpu_compute_share_pct r = Some p → 1 <= p <= 100) ∧
  (∀ m, Reservation.gpu_memory_mb r = Some m → 0 <= m < 2 ^ 32) ∧
  (∀ s, Reservation.script r = Some s → utf8_length s <= TEXT_MAX_BYTES) ∧
  (∀ s, Reservation.script_log_tail_text r = Some s → utf8_length s <= TEXT_MAX_BYTES) ∧
  (∀ n, Reservation.script_max_runtime_seconds r = Some n → 0 <= n < 2 ^ 32) ∧
  (∀ c, Reservation.script_exit_code r = Some c → - 2 ^ 31 <= c < 2 ^ 31) ∧
  (∀ n, Reservation.script_output_size_bytes r = Some n → 0 <= n < 2 ^ 32).

Lemma unsigned_fits_true o : unsigned_fits o = true ↔ ∀ n, o = Some n → 0 <= n < 2 ^ 32.
Proof. destruct o as [n|]; simpl; [rewrite bool_decide_eq_true|]; naive_solver. Qed.

Lemma signed_fits_true o : signed_fits o = true ↔ ∀ n, o = Some n → - 2 ^ 31 <= n < 2 ^ 31.
Proof. destruct o as [n|]; simpl; [rewrite bool_decide_eq_true|]; naive_solver. Qed.

Lemma text_fits_true o :
  text_fits o = true ↔ ∀ s, o = Some s → utf8_length s <= TEXT_MAX_BYTES.
Proof.
  destruct o as [s|]; simpl; [rewrite bool_decide_eq_true|]; naive_solver.
Qed.

Lemma reservation_row_error_None r : reservation_row_error r = None ↔ reservation_row_ok r.
Proof.
  unfold reservation_row_error, reservation_row_ok.
  rewrite <- (text_fits_true (Reservation.script r)),
    <- (text_fits_true (Reservation.script_log_tail_text r)),
    <- (unsigned_fits_true (Reservation.gpu_memory_mb r)),
    <- (unsigned_fits_true (Reservation.script_max_runtime_seconds r)),
    <- (unsigned_fits_true (Reservation.script_output_size_bytes r)),
    <- (signed_fits_true (Reservation.script_exit_code r)).
  unfold ck_res_time_order, ck_res_script_time, ck_res_compute_pct.
  destruct (unsigned_fits (Reservation.gpu_memory_mb r)), (unsigned_fits (Reservation.script_max_runtime_seconds r)),
    (unsigned_fits (Reservation.script_output_size_bytes r)), (signed_fits (Reservation.script_exit_code r)),
    (Reservation.script_scheduled_start_at r), (Reservation.gpu_compute_share_pct r),
    (text_fits (Reservation.script r)), (text_fits (Reservation.script_log_tail_text r));
    simpl; repeat case_bool_decide; simpl; naive_solver lia.
Qed.
