(* ===== verification/SessionLayer.v ===== *)
(** The SQLAlchemy session and the request transaction
    ([backend/corelab_backend/db.py]), as far as the services can observe
    them.

    A session keeps the rows as its transaction sees them ([db]) and, apart,
    the attribute changes made on loaded [Reservation] objects that have not
    been flushed ([dirty]).  The factory is built with [autoflush=False], so a
    query is evaluated on [db] alone, while the objects it returns show the
    pending changes (identity map).  [flush] checks the constraints of the
    table and writes the pending rows; [commit] makes the transaction's view
    durable ([committed]); [get_session] decides what a request leaves in the
    database. *)

From S2P Require Import Prelude Models.

(** A frame sent to a browser over [/ws/user]. *)
Record frame : Type := Frame {
  frame_type : string ;
  frame_payload : list (string * json) }.

(** [script_lifecycle_service._PENDING_KILLS], process-wide: the event each
    reservation's cancel waits for.  An event is a number; a new one is
    clear. *)
Record Kills : Type := mkKills {
  waiting : gmap Z Z ;
  fired : gset Z ;      (* the events that are set *)
  next_event : Z }.
#[export] Instance eta_Kills : Eta Kills := λ k, mkKills (waiting k) (fired k) (next_event k).

Definition no_kills : Kills := mkKills ∅ ∅ 0.

(** [_PENDING_KILLS[reservation_id] = asyncio.Event()] *)
Definition new_kill (reservation_id : Z) (k : Kills) : Kills :=
  mkKills (<[reservation_id := next_event k]> (waiting k)) (fired k ∖ {[next_event k]}) (next_event k + 1).

(** [event.set()] of the reservation's event, if there is one. *)
Definition signal_kill (reservation_id : Z) (k : Kills) : Kills :=
  match waiting k !! reservation_id with
  | Some event => k <| fired := {[event]} ∪ fired k |>
  | None => k
  end.

(** [_PENDING_KILLS.pop(reservation_id, None)] *)
Definition drop_kill (reservation_id : Z) (k : Kills) : Kills :=
  k <| waiting := delete reservation_id (waiting k) |>.

Record Session : Type := mkSession {
  committed : Db ;
  db : Db ;
  dirty : gmap Z Reservation.t ;
  pushed : list (Z * frame) ;   (* [ws_user.push_to_user] calls, in order *)
  now : Z ;                     (* [datetime.now(UTC)] *)
  uuid : string ;               (* the next [uuid.uuid4()] *)
  pending_kills : Kills ;
  rpcs : list (Z * string * list (string * json)) }. (* requests sent to agents, in order *)
#[export] Instance eta_Session : Eta Session := λ s,
  mkSession (committed s) (db s) (dirty s) (pushed s) (now s) (uuid s)
    (pending_kills s) (rpcs s).

(** Service code: may read and write the session, may raise. *)
Abbreviation M := (prog Session exn).

(** The caller's address and user agent, copied to the audit log. *)
Record RequestInfo : Type := mkRequestInfo {
  request_ip : option string ;
  user_agent : option string }.

Definition no_request : RequestInfo := mkRequestInfo None None.

Definition utcnow : M Z := gets now.

(** [ws_user.push_to_user]; its failures are swallowed by every caller. *)
Definition push_to_user (user_id : Z) (f : frame) : M unit :=
  update (λ s, s <| pushed := pushed s ++ [(user_id, f)] |>).

(** [agent_rpc.request_response], given the outcome the agent and the network
    produce ([AgentRpc.request_response]): the request is on the wire unless
    the agent is offline. *)
Definition agent_request (server_id : Z) (frame_type : string) (payload : list (string * json))
    (reply : result exn (list (string * json))) : M (list (string * json)) := λ s,
  (reply, match reply with
          | Raise AgentOfflineError => s
          | _ => s <| rpcs := rpcs s ++ [(server_id, frame_type, payload)] |>
          end).

(** ** Reading *)

(** The object the identity map holds for a row: pending changes win. *)
Definition identity (s : Session) (r : Reservation.t) : Reservation.t :=
  default r (dirty s !! Reservation.id r).

(** [session.get(Reservation, id)] *)
Definition get_reservation (id : Z) : M (option Reservation.t) :=
  gets (λ s, identity s <$> reservations (db s) !! id).

(** [select(Reservation).where(P)] *)
Definition select_reservations (P : Reservation.t → bool) : M (list Reservation.t) :=
  gets (λ s, identity s <$> filter (λ r, P r = true) (rows (reservations (db s)))).

(** The same with [execution_options(populate_existing=True)]: the objects
    are refreshed from the rows, which drops their pending changes. *)
Definition select_reservations_populate (P : Reservation.t → bool) : M (list Reservation.t) :=
  λ s,
    let rs := filter (λ r, P r = true) (rows (reservations (db s))) in
    (Ok rs, s <| dirty := foldr (λ r, delete (Reservation.id r)) (dirty s) rs |>).

Definition get_server (id : Z) : M (option Server.t) := gets (λ s, servers (db s) !! id).
Definition get_gpu (id : Z) : M (option Gpu.t) := gets (λ s, gpus (db s) !! id).
Definition get_link (id : Z) : M (option AccountLink.t) := gets (λ s, account_links (db s) !! id).
Definition get_physical_account (id : Z) : M (option PhysicalAccount.t) :=
  gets (λ s, physical_accounts (db s) !! id).

(** ** Writing *)

(** Attribute assignment on a loaded object: [row.a = v; ...]. *)
Definition set_reservation (r : Reservation.t) : M unit :=
  update (λ s, s <| dirty := <[Reservation.id r := r]> (dirty s) |>).

(** The first constraint broken by a pending row. *)
Definition dirty_error (d : gmap Z Reservation.t) : option exn :=
  head (omap reservation_row_error (rows d)).

(** [await session.flush()] *)
Definition flush : M unit := λ s,
  match dirty_error (dirty s) with
  | Some e => (Raise e, s)
  | None =>
      (Ok tt, s <| db := db s <| reservations := dirty s ∪ reservations (db s) |> |>
                <| dirty := ∅ |>)
  end.

(** [await session.commit()] *)
Definition commit : M unit := flush ;; update (λ s, s <| committed := db s |>).

(** [session.add(row)] followed by the flush that inserts it: the table's
    AUTO_INCREMENT counter gives the id, the constraints are checked. *)
Definition add_reservation (mk_row : Z → Reservation.t) : M Reservation.t := λ s,
  let id := next_reservation_id (db s) in
  let row := mk_row id in
  match reservation_row_error row with
  | Some e => (Raise e, s)
  | None =>
      (Ok row, s <| db := db s <| reservations := <[id := row]> (reservations (db s)) |>
                               <| next_reservation_id := id + 1 |> |>)
  end.

(** ** Requests *)

Definition open_session (d : Db) (now : Z) (uuid : string) : Session :=
  mkSession d d ∅ [] now uuid no_kills [].

Definition is_HTTPException (e : exn) : bool :=
  match e with HTTPException _ _ => true | _ => false end.

(** [db.get_session]: a handler that returns, or raises [HTTPException], is
    committed (the commit flushes what is still pending); any other
    exception rolls back. *)
Definition get_session {A} (handler : M A) (d : Db) (now : Z) (uuid : string) :
    result exn A * Db :=
  match handler (open_session d now uuid) with
  | (Ok a, s) =>
      match commit s with
      | (Ok _, s') => (Ok a, committed s')
      | (Raise e, s') => (Raise e, committed s')
      end
  | (Raise e, s) =>
      if is_HTTPException e then
        match commit s with
        | (Ok _, s') => (Raise e, committed s')
        | (Raise e', s') => (Raise e', committed s')
        end
      else (Raise e, committed s)
  end.

(** [async with session.begin()]: commit on return, roll back on any
    exception. *)
Definition transaction {A} (m : M A) (d : Db) (now : Z) : result exn A * Db :=
  match m (open_session d now "") with
  | (Ok a, s) =>
      match commit s with
      | (Ok _, s') => (Ok a, committed s')
      | (Raise e, s') => (Raise e, committed s')
      end
  | (Raise e, s) => (Raise e, committed s)
  end.

(** ** Well-formed databases and sessions *)

(** Keys agree with the [id] column, the counter is ahead of every row and
    every stored row satisfies the table's constraints. *)
Definition db_ok (d : Db) : Prop :=
  ∀ k r, reservations d !! k = Some r →
    Reservation.id r = k ∧ k < next_reservation_id d ∧ reservation_row_ok r.

(** Nothing pending. *)
Definition clean (s : Session) : Prop := dirty s = ∅.

Definition session_ok (s : Session) : Prop := clean s ∧ db_ok (db s).

(** ** Lemmas *)

Lemma db_ok_row d k r : db_ok d → reservations d !! k = Some r → reservation_row_ok r.
Proof. intros H Hr. by apply H in Hr as (_ & _ & ?). Qed.

Lemma db_ok_id d k r : db_ok d → reservations d !! k = Some r → Reservation.id r = k.
Proof. intros H Hr. by apply H in Hr as (? & _). Qed.

Lemma db_ok_lookup_id d k r :
  db_ok d → reservations d !! k = Some r → reservations d !! Reservation.id r = Some r.
Proof. intros H Hr. by rewrite (db_ok_id _ _ _ H Hr). Qed.

Lemma dirty_error_None d :
  dirty_error d = None ↔ ∀ k r, d !! k = Some r → reservation_row_ok r.
Proof.
  unfold dirty_error. split.
  - intros H k r Hk. apply reservation_row_error_None.
    assert (Hin : r ∈ rows d) by eauto using rows_lookup.
    destruct (reservation_row_error r) as [e|] eqn:He; [|done].
    assert (He' : e ∈ omap reservation_row_error (rows d)).
    { apply list_elem_of_omap. eauto. }
    destruct (omap reservation_row_error (rows d)); [by apply elem_of_nil in He'|done].
  - intros H. destruct (omap reservation_row_error (rows d)) as [|e l] eqn:Ho; [done|].
    assert (He : e ∈ omap reservation_row_error (rows d)) by (rewrite Ho; left).
    apply list_elem_of_omap in He as (r & [k Hk]%elem_of_rows & He).
    apply H, reservation_row_error_None in Hk. congruence.
Qed.

Lemma dirty_error_singleton r : dirty_error {[Reservation.id r := r]} = reservation_row_error r.
Proof.
  unfold dirty_error, rows. rewrite map_to_list_singleton. simpl.
  by destruct (reservation_row_error r).
Qed.

Lemma flush_clean s : clean s → flush s = (Ok tt, s).
Proof.
  unfold clean, flush. intros Hd. rewrite Hd.
  assert (dirty_error ∅ = None) as -> by (apply dirty_error_None; intros k r; by rewrite lookup_empty).
  rewrite (left_id_L ∅ (∪)). destruct s as [? [] ?]; simpl in *. by subst.
Qed.

Lemma commit_clean s : clean s → commit s = (Ok tt, s <| committed := db s |>).
Proof. intros H. unfold commit. by rewrite (bind_run _ _ _ _ _ (flush_clean s H)). Qed.

(** Assigning to one object and flushing. *)
Lemma set_flush_run r s :
  clean s →
  (set_reservation r ;; flush) s =
    match reservation_row_error r with
    | None => (Ok tt, s <| db := db s <| reservations :=
                 <[Reservation.id r := r]> (reservations (db s)) |> |>)
    | Some e => (Raise e, s <| dirty := {[Reservation.id r := r]} |>)
    end.
Proof.
  unfold clean. intros Hd.
  unfold set_reservation, mbind, prog_bind, update, flush. simpl. rewrite Hd.
  rewrite insert_empty, dirty_error_singleton.
  destruct (reservation_row_error r); [done|].
  rewrite <- insert_union_singleton_l. destruct s as [? [] ?]; simpl in *. by subst.
Qed.

Lemma identity_clean s r : clean s → identity s r = r.
Proof. unfold clean, identity. intros ->. by rewrite lookup_empty. Qed.

Lemma identity_clean_list s (rs : list Reservation.t) : clean s → identity s <$> rs = rs.
Proof.
  intros H. induction rs as [|r rs IH]; [done|].
  by rewrite fmap_cons, IH, identity_clean.
Qed.

Lemma identity_clean_option s (o : option Reservation.t) : clean s → identity s <$> o = o.
Proof. intros H. destruct o; simpl; [by rewrite identity_clean|done]. Qed.

Lemma session_ok_insert s r :
  session_ok s →
  is_Some (reservations (db s) !! Reservation.id r) →
  reservation_row_ok r →
  session_ok (s <| db := db s <| reservations :=
                 <[Reservation.id r := r]> (reservations (db s)) |> |>).
Proof.
  intros [Hc Hdb] [r0 Hr0] Hok. split; [done|].
  intros k r'. simpl. rewrite lookup_insert. case_decide as Hk; [|apply Hdb].
  intros [= <-]. split_and!; [done| |done]. by apply Hdb in Hr0 as (_ & ? & _); subst.
Qed.

Lemma add_reservation_ok s mk_row :
  session_ok s →
  (∀ id, Reservation.id (mk_row id) = id) →
  wp (add_reservation mk_row)
     (λ res s', match res with
                | Ok r => session_ok s' ∧ r = mk_row (next_reservation_id (db s)) ∧
                          reservations (db s') =
                            <[Reservation.id r := r]> (reservations (db s)) ∧
                          reservations (db s) !! Reservation.id r = None ∧
                          reservation_row_ok r ∧
                          next_reservation_id (db s') = next_reservation_id (db s) + 1
                | Raise _ => s' = s
                end) s.
Proof.
  intros [Hc Hdb] Hid. unfold wp, add_reservation.
  destruct (reservation_row_error _) eqn:He; simpl; [done|].
  apply reservation_row_error_None in He. rewrite !Hid.
  assert (Hfresh : reservations (db s) !! next_reservation_id (db s) = None).
  { destruct (reservations (db s) !! _) eqn:Hl; [|done]. apply Hdb in Hl. lia. }
  split_and!; [|done..]. split; [done|].
  intros k r. simpl. rewrite lookup_insert. case_decide as Hk.
  - intros [= <-]. subst k. rewrite Hid. split_and!; [done|lia|done].
  - intros Hr. apply Hdb in Hr as (? & ? & ?). split_and!; [done|lia|done].
Qed.

(** What a request leaves behind when the handler left nothing pending. *)
Lemma transaction_run {A} (m : M A) d now r s :
  m (open_session d now "") = (r, s) → (is_ok r = true → clean s) →
  transaction m d now = (r, if is_ok r then db s else committed s).
Proof.
  intros Hm Hc. unfold transaction. rewrite Hm. destruct r as [a|e]; [|done].
  by rewrite commit_clean by by apply Hc.
Qed.

Lemma transaction_db {A} (m : M A) d now r s :
  m (open_session d now "") = (r, s) → (is_ok r = true → clean s) →
  (transaction m d now).2 = if is_ok r then db s else committed s.
Proof. intros Hm Hc. by rewrite (transaction_run _ _ _ _ _ Hm Hc). Qed.

Lemma get_session_clean {A} (m : M A) d now uuid r s :
  m (open_session d now uuid) = (r, s) → clean s →
  get_session m d now uuid =
    (r, match r with
        | Ok _ => db s
        | Raise e => if is_HTTPException e then db s else committed s
        end).
Proof.
  intros Hm Hc. unfold get_session. rewrite Hm.
  destruct r as [a|e]; [by rewrite commit_clean|].
  destruct (is_HTTPException e); [by rewrite commit_clean|done].
Qed.

Lemma open_session_ok d now uuid : db_ok d → session_ok (open_session d now uuid).
Proof. done. Qed.

(** Reads on a clean session return the stored rows. *)
Lemma select_clean P s :
  clean s →
  select_reservations P s = (Ok (filter (λ r, P r = true) (rows (reservations (db s)))), s).
Proof. intros H. unfold select_reservations, gets. by rewrite identity_clean_list. Qed.

Lemma select_populate_clean P s :
  clean s →
  select_reservations_populate P s = (Ok (filter (λ r, P r = true) (rows (reservations (db s)))), s).
Proof.
  unfold clean, select_reservations_populate. intros H. f_equal.
  assert (Hd : ∀ l : list Reservation.t,
             foldr (λ r, delete (Reservation.id r)) (∅ : gmap Z Reservation.t) l = ∅).
  { induction l as [|r l IH]; simpl; [done|]. rewrite IH. apply delete_empty. }
  rewrite H, Hd. destruct s; simpl in *. by subst.
Qed.

Lemma get_reservation_clean k s :
  clean s → get_reservation k s = (Ok (reservations (db s) !! k), s).
Proof. intros H. unfold get_reservation, gets. by rewrite identity_clean_option. Qed.

(** Selecting by primary key. *)
Lemma head_filter_id d k :
  db_ok d →
  head (filter (λ r, bool_decide (Reservation.id r = k) = true) (rows (reservations d))) =
    reservations d !! k.
Proof.
  intros Hdb.
  assert (Hin : ∀ r, r ∈ filter (λ r, bool_decide (Reservation.id r = k) = true)
                       (rows (reservations d)) ↔ reservations d !! k = Some r).
  { intros r. rewrite list_elem_of_filter, bool_decide_eq_true, elem_of_rows. split.
    - intros [Hid [k' Hk]]. pose proof (Hdb _ _ Hk) as (? & _). congruence.
    - intros Hk. pose proof (Hdb _ _ Hk) as (? & _). eauto. }
  destruct (filter _ _) as [|r l] eqn:Hf; simpl.
  - destruct (reservations d !! k) as [r|] eqn:Hk; [|done].
    exfalso. by eapply elem_of_nil, Hin.
  - symmetry. apply Hin. left.
Qed.

(** Several rows stored one after the other. *)
Definition store_rows (rs : list Reservation.t) (t : gmap Z Reservation.t) : gmap Z Reservation.t :=
  foldl (λ t r, <[Reservation.id r := r]> t) t rs.

Lemma store_rows_not_in l m k : k ∉ Reservation.id <$> l → store_rows l m !! k = m !! k.
Proof.
  revert m. induction l as [|r l IH]; intros m; [done|]. rewrite fmap_cons, not_elem_of_cons.
  intros [Hne Hl]. simpl. rewrite IH by done. by rewrite lookup_insert_ne by congruence.
Qed.

Lemma store_rows_in l m r :
  NoDup (Reservation.id <$> l) → r ∈ l → store_rows l m !! Reservation.id r = Some r.
Proof.
  revert m. induction l as [|r' l IH]; intros m; [by intros _ ?%elem_of_nil|].
  rewrite fmap_cons. intros [Hr' Hnd]%NoDup_cons [->|Hr]%elem_of_cons; simpl.
  - rewrite store_rows_not_in by done. apply lookup_insert_eq.
  - by apply IH.
Qed.

(** ** Code that keeps the session tidy

    Service code that only reads, writes rows at once and flushes leaves
    nothing pending and never commits; the property composes, so instances
    find it for a whole service function. *)
Class Tidy {A} (m : M A) : Prop :=
  tidy s r s' : clean s → m s = (r, s') → clean s' ∧ committed s' = committed s.

#[export] Instance tidy_ret {A} (a : A) : Tidy (mret a).
Proof. by intros s r s' Hc [-> ->]%ret_run. Qed.

#[export] Instance tidy_raise {A} e : Tidy (raise e : M A).
Proof. intros s r s' Hc [= <- <-]. done. Qed.

#[export] Instance tidy_skip : Tidy (skip : M unit).
Proof. intros s r s' Hc [= <- <-]. done. Qed.

#[export] Instance tidy_gets {A} (f : Session → A) : Tidy (gets f).
Proof. intros s r s' Hc [= <- <-]. done. Qed.

#[export] Instance tidy_bind {A B} (m : M A) (f : A → M B) : Tidy m → (∀ a, Tidy (f a)) → Tidy (m ≫= f).
Proof.
  intros Hm Hf s [b|e] s' Hc H.
  - apply bind_Ok in H as (a & s1 & H1 & H). apply Hm in H1 as [Hc1 <-]; [|done]. by eapply Hf.
  - apply bind_Raise in H as [H|(a & s1 & H1 & H)]; [by eapply Hm|].
    apply Hm in H1 as [Hc1 <-]; [|done]. by eapply Hf.
Qed.

#[export] Instance tidy_raise_if b e : Tidy (raise_if b e : M unit).
Proof. unfold raise_if. destruct b; apply _. Qed.

#[export] Instance tidy_when b (m : M unit) : Tidy m → Tidy (when b m).
Proof. unfold when. destruct b; apply _. Qed.

#[export] Instance tidy_some_or_raise {A} (o : option A) e : Tidy (some_or_raise o e : M A).
Proof. unfold some_or_raise. destruct o; apply _. Qed.

#[export] Instance tidy_utcnow : Tidy utcnow.
Proof. apply tidy_gets. Qed.

#[export] Instance tidy_flush : Tidy flush.
Proof. intros s r s' Hc. rewrite flush_clean by done. by intros [= <- <-]. Qed.

#[export] Instance tidy_try_except {A} (m : M A) h : Tidy m → (∀ e, Tidy (h e)) → Tidy (try_except m h).
Proof.
  intros Hm Hh s r s' Hc. unfold try_except. destruct (m s) as [[a|e] s1] eqn:Hrun.
  - intros [= <- <-]. by eapply Hm.
  - apply Hm in Hrun as [Hc1 Hk]; [|done]. rewrite <- Hk. by apply Hh.
Qed.

#[export] Instance tidy_fold {A B} (f : B → A → M B) acc l : (∀ b a, Tidy (f b a)) → Tidy (fold_prog f acc l).
Proof. intros Hf. revert acc. induction l; simpl; apply _. Qed.

#[export] Instance tidy_for_each {A} (f : A → M unit) l : (∀ a, Tidy (f a)) → Tidy (for_each l f).
Proof. intros Hf. induction l; simpl; apply _. Qed.

#[export] Instance tidy_agent_request sid ft p reply : Tidy (agent_request sid ft p reply).
Proof. intros s r s' Hc. unfold agent_request. intros [= <- <-]. by destruct reply as [|[]]. Qed.

(** A step that only writes tables. *)
Lemma tidy_state {A} (m : M A) :
  (∀ s r s', m s = (r, s') → dirty s' = dirty s ∧ committed s' = committed s) → Tidy m.
Proof. intros Hm s r s' Hc H. destruct (Hm _ _ _ H) as [Hd Hk]. unfold clean in *. by rewrite Hd. Qed.

Ltac solve_tidy_state :=
  apply tidy_state; intros ? ? ?; cbv zeta;
  repeat match goal with |- context [match ?x with _ => _ end] => destruct x end;
  intros [= <- <-]; done.

(** A transaction of tidy code keeps all of what the code wrote, or nothing. *)
Lemma tidy_transaction {A} (m : M A) `{!Tidy m} d now :
  (transaction m d now).2 =
    let '(r, s) := m (open_session d now "") in if is_ok r then db s else d.
Proof.
  destruct (m (open_session d now "")) as [r s] eqn:Hm. 
  assert (Hc0 : clean (open_session d now "")) by done. destruct (Tidy0 _ _ _ Hc0 Hm) as [Hc Hk].
  rewrite (transaction_db _ _ _ _ _ Hm) by done. by rewrite Hk.
Qed.

(** ** Code that moves the database along a relation

    As [Tidy], and the database before and after is related by a preorder,
    whatever the outcome: [eq] for code that only reads, "this table is the
    same" for code about another one, or what an invariant needs of every
    write. *)
Class Moves (R : relation Db) {A} (m : M A) : Prop :=
  moves s r s' : clean s → m s = (r, s') → clean s' ∧ committed s' = committed s ∧ R (db s) (db s').

Lemma moves_mono (R R' : relation Db) {A} (m : M A) : (∀ d d', R d d' → R' d d') → Moves R m → Moves R' m.
Proof. intros HR Hm s r s' Hc H. destruct (Hm s r s' Hc H) as (? & ? & ?). auto. Qed.

Lemma moves_tidy (R : relation Db) {A} (m : M A) : Moves R m → Tidy m.
Proof. intros Hm s r s' Hc H. by destruct (Hm s r s' Hc H) as (? & ? & _). Qed.

(** A leaf: code that leaves the unit of work alone. *)
Lemma moves_state (R : relation Db) {A} (m : M A) :
  (∀ s r s', m s = (r, s') → dirty s' = dirty s ∧ committed s' = committed s ∧ R (db s) (db s')) → Moves R m.
Proof. intros Hm s r s' Hc H. destruct (Hm _ _ _ H) as (Hd & Hk & HR). unfold clean in *. by rewrite Hd. Qed.

Section moves.
Context (R : relation Db) `{!PreOrder R}.

#[export] Instance moves_ret {A} (a : A) : Moves R (mret a).
Proof using Type*. by intros s r s' Hc [-> ->]%ret_run. Qed.

#[export] Instance moves_raise {A} e : Moves R (raise e : M A).
Proof using Type*. by intros s r s' Hc [= <- <-]. Qed.

#[export] Instance moves_skip : Moves R (skip : M unit).
Proof using Type*. by intros s r s' Hc [= <- <-]. Qed.

#[export] Instance moves_gets {A} (f : Session → A) : Moves R (gets f).
Proof using Type*. by intros s r s' Hc [= <- <-]. Qed.

#[export] Instance moves_bind {A B} (m : M A) (f : A → M B) : Moves R m → (∀ a, Moves R (f a)) → Moves R (m ≫= f).
Proof using Type*.
  intros Hm Hf s [b|e] s' Hc H.
  - apply bind_Ok in H as (a & s1 & H1 & H). apply Hm in H1 as (Hc1 & <- & HR1); [|done].
    apply Hf in H as (Hc2 & Hk & HR2); [|done]. split; [done|]. split; [done|]. by etransitivity.
  - apply bind_Raise in H as [H|(a & s1 & H1 & H)]; [by eapply Hm|].
    apply Hm in H1 as (Hc1 & <- & HR1); [|done]. apply Hf in H as (Hc2 & Hk & HR2); [|done].
    split; [done|]. split; [done|]. by etransitivity.
Qed.

#[export] Instance moves_raise_if b e : Moves R (raise_if b e : M unit).
Proof using Type*. unfold raise_if. destruct b; apply _. Qed.

#[export] Instance moves_when b (m : M unit) : Moves R m → Moves R (when b m).
Proof using Type*. unfold when. destruct b; apply _. Qed.

#[export] Instance moves_some_or_raise {A} (o : option A) e : Moves R (some_or_raise o e : M A).
Proof using Type*. unfold some_or_raise. destruct o; apply _. Qed.

#[export] Instance moves_utcnow : Moves R utcnow.
Proof using Type*. apply moves_gets. Qed.

#[export] Instance moves_flush : Moves R flush.
Proof using Type*. intros s r s' Hc. rewrite flush_clean by done. by intros [= <- <-]. Qed.

#[export] Instance moves_push_to_user u f : Moves R (push_to_user u f).
Proof using Type*. by intros s r s' Hc [= <- <-]. Qed.

#[export] Instance moves_try_except {A} (m : M A) h :
  Moves R m → (∀ e, Moves R (h e)) → Moves R (try_except m h).
Proof using Type*.
  intros Hm Hh s r s' Hc. unfold try_except. destruct (m s) as [[a|e] s1] eqn:Hrun.
  - intros [= <- <-]. by eapply Hm.
  - apply Hm in Hrun as (Hc1 & Hk & HR1); [|done]. intros H. apply Hh in H as (Hc2 & Hk2 & HR2); [|done].
    split; [done|]. split; [congruence|]. by etransitivity.
Qed.

#[export] Instance moves_fold {A B} (f : B → A → M B) acc l : (∀ b a, Moves R (f b a)) → Moves R (fold_prog f acc l).
Proof using Type*. intros Hf. revert acc. induction l; simpl; apply _. Qed.

#[export] Instance moves_for_each {A} (f : A → M unit) l : (∀ a, Moves R (f a)) → Moves R (for_each l f).
Proof using Type*. intros Hf. induction l; simpl; apply _. Qed.

#[export] Instance moves_agent_request sid ft p reply : Moves R (agent_request sid ft p reply).
Proof using Type*. intros s r s' Hc. unfold agent_request. intros [= <- <-]. by destruct reply as [|[]]. Qed.

(** The same from one session, for code that relies on what it read. *)
Definition moves_at {A} (m : M A) (s : Session) : Prop :=
  ∀ r s', clean s → m s = (r, s') → clean s' ∧ committed s' = committed s ∧ R (db s) (db s').

Lemma moves_at_all {A} (m : M A) : (∀ s, moves_at m s) → Moves R m.
Proof using Type. intros Hm s r s'. apply Hm. Qed.

Lemma moves_at_of {A} (m : M A) `{Hm : !Moves R m} s : moves_at m s.
Proof using Type. intros r s'. apply Hm. Qed.

Lemma moves_at_bind {A B} (m : M A) (f : A → M B) s :
  moves_at m s → (∀ a s1, clean s → m s = (Ok a, s1) → moves_at (f a) s1) → moves_at (m ≫= f) s.
Proof using Type*.
  intros Hm Hf [b|e] s' Hc H.
  - apply bind_Ok in H as (a & s1 & H1 & H). destruct (Hm _ _ Hc H1) as (Hc1 & Hk1 & HR1).
    destruct (Hf a s1 Hc H1 _ _ Hc1 H) as (Hc2 & Hk2 & HR2). split; [done|]. split; [congruence|]. by etransitivity.
  - apply bind_Raise in H as [H|(a & s1 & H1 & H)]; [by apply (Hm _ _ Hc H)|].
    destruct (Hm _ _ Hc H1) as (Hc1 & Hk1 & HR1).
    destruct (Hf a s1 Hc H1 _ _ Hc1 H) as (Hc2 & Hk2 & HR2). split; [done|]. split; [congruence|]. by etransitivity.
Qed.

(** A step that only reads, whose value is known. *)
Lemma moves_at_read {A B} (m : M A) (f : A → M B) s a : m s = (Ok a, s) → moves_at (f a) s → moves_at (m ≫= f) s.
Proof using Type*.
  intros Hm Hf. apply moves_at_bind.
  - intros r s' Hc H. rewrite Hm in H. by injection H as <- <-.
  - intros a' s1 Hc H. rewrite Hm in H. injection H as <- <-. exact Hf.
Qed.

Lemma moves_at_raise {A} e s : moves_at (raise e : M A) s.
Proof using Type*. by intros r s' Hc [= <- <-]. Qed.

(** A guard: what follows may rely on it. *)
Lemma moves_at_guard {A} b e (m : M A) s : (b = false → moves_at m s) → moves_at (raise_if b e ;; m) s.
Proof using Type*.
  intros Hm. destruct b; [|by apply moves_at_read with tt; [done|apply Hm]].
  intros r s' Hc [= <- <-]. done.
Qed.

(** [x ← some_or_raise o e]. *)
Lemma moves_at_some {A B} (o : option A) e (f : A → M B) s :
  (∀ a, o = Some a → moves_at (f a) s) → moves_at (some_or_raise o e ≫= f) s.
Proof using Type*.
  intros Hf. destruct o as [a|]; [by apply moves_at_read with a; [done|apply Hf]|].
  intros r s' Hc [= <- <-]. done.
Qed.

(** What a request leaves of such code. *)
Lemma moves_at_get_session {A} (m : M A) d now uuid :
  moves_at m (open_session d now uuid) → R d (get_session m d now uuid).2.
Proof using Type*.
  intros Hm. destruct (m (open_session d now uuid)) as [r s] eqn:Hrun.
  assert (Hc0 : clean (open_session d now uuid)) by done.
  destruct (Hm _ _ Hc0 Hrun) as (Hc & Hk & HR).
  rewrite (get_session_clean _ _ _ _ _ _ Hrun Hc). destruct r as [a|e]; [exact HR|]. simpl.
  destruct (is_HTTPException e); [exact HR|]. by rewrite Hk.
Qed.

Lemma moves_get_session {A} (m : M A) `{Hm : !Moves R m} d now uuid : R d (get_session m d now uuid).2.
Proof using Type*. apply moves_at_get_session. by apply moves_at_of. Qed.
End moves.

Arguments moves_at R {A} m s /.

Ltac solve_moves :=
  apply moves_state; intros ? ? ?; cbv zeta;
  repeat match goal with |- context [match ?x with _ => _ end] => destruct x end;
  intros [= <- <-]; done.

(** Code built from steps that move along [R]. *)
Ltac moves :=
  cbv zeta;
  first
    [ apply _
    | progress intros; moves
    | apply moves_bind; [apply _|moves|moves]
    | apply moves_try_except; [apply _|moves|moves]
    | apply moves_fold; [apply _|moves]
    | apply moves_for_each; [apply _|moves]
    | apply moves_when; [apply _|moves]
    | match goal with |- Moves _ (match ?x with _ => _ end) => destruct x; moves end ].
