(* ===== verification/RequestLayer.v ===== *)
(** Handlers that use the rate-limit store beside the database session, and
    the mapping of service errors to answers. *)

From S2P Require Import Prelude Models SessionLayer RateLimit.

(** The session and the store. *)
Definition World (R : Type) : Type := Session * Limiter R.
Abbreviation Handler R := (prog (World R) exn).

Definition in_session {R A} (m : M A) : Handler R A := λ w,
  let '(r, s) := m w.1 in (r, (s, w.2)).

(** Milliseconds, as the store counts. *)
Definition now_ms (s : Session) : Z := now s / 1000.

Definition on_limiter {R A} (f : Z → Limiter R → Limiter R * A) : Handler R A := λ w,
  let '(l, a) := f (now_ms w.1) w.2 in (Ok a, (w.1, l)).

(** [try: m except ...: raise HTTPException]. *)
Definition mapping {A} (m : M A) (f : exn → exn) : M A := try_except m (λ e, raise (f e)).

Lemma mapping_run {A} (m : M A) f s :
  mapping m f s = (match (m s).1 with Ok a => Ok a | Raise e => Raise (f e) end, (m s).2).
Proof. unfold mapping, try_except. by destruct (m s) as [[a|e] s']. Qed.

#[export] Instance moves_mapping (R : relation Db) `{!PreOrder R} {A} (m : M A) f : Moves R m → Moves R (mapping m f).
Proof. intros Hm. unfold mapping. apply _. Qed.

Lemma in_session_run {R A} (m : M A) s (l : Limiter R) :
  in_session m (s, l) = let '(r, s') := m s in (r, (s', l)).
Proof. done. Qed.

(** [db.get_session] around such a handler: the store's changes stay. *)
Definition get_world_session {R A} (handler : Handler R A) (d : Db) (l : Limiter R) (now : Z) (uuid : string) :
    result exn A * Db * Limiter R :=
  let '(r, (s, l)) := handler (open_session d now uuid, l) in
  (get_session (λ _, (r, s)) d now uuid, l).

Lemma get_world_run {R A} (h : Handler R A) d l now uuid r s l' :
  h (open_session d now uuid, l) = (r, (s, l')) → clean s →
  get_world_session h d l now uuid =
    (r, match r with
        | Ok _ => db s
        | Raise e => if is_HTTPException e then db s else committed s
        end, l').
Proof.
  intros Hh Hc. unfold get_world_session. rewrite Hh. by rewrite (get_session_clean (λ _, (r, s)) d now uuid r s eq_refl Hc).
Qed.

Lemma in_session_ok {R A} (m : M A) s a s' (l : Limiter R) :
  m s = (Ok a, s') → in_session m (s, l) = (Ok a, (s', l)).
Proof. intros Hm. unfold in_session. cbn [fst snd]. by rewrite Hm. Qed.

(** ** What such a handler does to the database *)

Section moves.
Context (Q : relation Db) `{!PreOrder Q} {R : Type}.

Definition hmoves_at {A} (h : Handler R A) (w : World R) : Prop :=
  ∀ r w', clean w.1 → h w = (r, w') → clean w'.1 ∧ committed w'.1 = committed w.1 ∧ Q (db w.1) (db w'.1).

Lemma hmoves_at_in_session {A} (m : M A) w : moves_at Q m w.1 → hmoves_at (in_session m) w.
Proof using Type.
  intros Hm r w' Hc H. unfold in_session in H. destruct (m w.1) as [r1 s1] eqn:Hrun. injection H as <- <-.
  by apply (Hm r1 s1).
Qed.

Lemma hmoves_at_bind {A B} (h : Handler R A) (f : A → Handler R B) w :
  hmoves_at h w → (∀ a w1, clean w.1 → h w = (Ok a, w1) → hmoves_at (f a) w1) → hmoves_at (h ≫= f) w.
Proof using Type*.
  intros Hm Hf [b|e] w' Hc H.
  - apply bind_Ok in H as (a & s1 & H1 & H). destruct (Hm _ _ Hc H1) as (Hc1 & Hk1 & HR1).
    destruct (Hf a s1 Hc H1 _ _ Hc1 H) as (Hc2 & Hk2 & HR2). split; [done|]. split; [congruence|]. by etransitivity.
  - apply bind_Raise in H as [H|(a & s1 & H1 & H)]; [by apply (Hm _ _ Hc H)|].
    destruct (Hm _ _ Hc H1) as (Hc1 & Hk1 & HR1).
    destruct (Hf a s1 Hc H1 _ _ Hc1 H) as (Hc2 & Hk2 & HR2). split; [done|]. split; [congruence|]. by etransitivity.
Qed.

Lemma hmoves_at_ret {A} (a : A) w : hmoves_at (mret a) w.
Proof using Type*. intros r w' Hc [-> ->]%ret_run. done. Qed.

Lemma hmoves_at_raise {A} e w : hmoves_at (raise e : Handler R A) w.
Proof using Type*. by intros r w' Hc [= <- <-]. Qed.

Lemma hmoves_at_on_limiter {A} (f : Z → Limiter R → Limiter R * A) w : hmoves_at (on_limiter f) w.
Proof using Type*. intros r w' Hc. unfold on_limiter. destruct (f _ _). by intros [= <- <-]. Qed.

Lemma hmoves_at_guard {A} b e (h : Handler R A) w : hmoves_at h w → hmoves_at (raise_if b e ;; h) w.
Proof using Type*.
  intros Hh. apply hmoves_at_bind; [|intros a w1 Hc Hrun; apply raise_if_Ok in Hrun as [_ ->]; done].
  unfold raise_if. destruct b; [apply hmoves_at_raise|apply hmoves_at_ret].
Qed.

(** The request as a whole: what it leaves is a step too. *)
Lemma hmoves_get_session {A} (h : Handler R A) d l now uuid :
  hmoves_at h (open_session d now uuid, l) → Q d (get_world_session h d l now uuid).1.2.
Proof using Type*.
  intros Hh. unfold get_world_session. destruct (h (open_session d now uuid, l)) as [r [s l']] eqn:Hrun.
  assert (Hc0 : clean (open_session d now uuid)) by done.
  destruct (Hh _ _ Hc0 Hrun) as (Hc & Hk & HQ). simpl.
  rewrite (get_session_clean (λ _, (r, s)) d now uuid r s eq_refl Hc). destruct r as [a|e]; [exact HQ|]. simpl.
  destruct (is_HTTPException e); [exact HQ|]. simpl in Hk. by rewrite Hk.
Qed.
End moves.
