(* ===== verification/SerializableRetry.v ===== *)
(** The deadlock-retry wrapper of the scheduler tick
    ([backend/corelab_backend/services/_serializable_retry.py]).

    The wrapped coroutine is a program over an arbitrary world state [W]:
    every attempt runs it afresh on the state the previous one left (each
    opens and closes its own session).  Sleeps are recorded, in
    milliseconds. *)

From S2P Require Import Prelude Models SessionLayer.

(** [_is_deadlock]: a substring test on the message. *)
Definition contains (sub s : string) : bool :=
  match String.index 0 sub s with Some _ => true | None => false end.

Definition _is_deadlock (message : string) : bool :=
  contains "1213" message || contains "Deadlock found" message.

(** What one attempt at a transaction meets: the instant it reads, what other
    transactions committed before it, and the error MySQL ends it with, if
    any (a deadlock: 1213). *)
Record attempt : Type := mkAttempt {
  a_now : Z ;
  a_world : Db → Db ;
  a_fault : option exn }.

(** One attempt, in a session of its own; the attempts to come are part of
    the world it runs in. *)
Definition run_attempt {A} (m : M A) : prog (Db * list attempt) exn A := λ w,
  match w.2 with
  | [] => (Raise AssertionError, w)
  | a :: rest =>
      let d := a_world a w.1 in
      match a_fault a with
      | Some e => (Raise e, (d, rest))
      | None => let '(r, d') := transaction m d (a_now a) in (r, (d', rest))
      end
  end.

Section retry.
Context {W A : Type} (coro_factory : prog W exn A).

(** The iterations [attempt], [attempt + 1], ... of the loop, [remaining]
    of them. *)
Fixpoint retry_loop (backoff_base : Z) (attempt remaining : nat) (w : W) :
    result exn A * list Z * W :=
  match remaining with
  | O => (Raise AssertionError, [], w)
  | S remaining' =>
      match coro_factory w with
      | (Ok a, w') => (Ok a, [], w')
      | (Raise (OperationalError m as e), w') =>
          if negb (_is_deadlock m) then (Raise e, [], w')
          else if Nat.eqb remaining' 0 then (Raise e, [], w')
          else
            let '(r, sleeps, w'') := retry_loop backoff_base (S attempt) remaining' w' in
            (r, backoff_base * 2 ^ Z.of_nat attempt :: sleeps, w'')
      | (Raise e, w') => (Raise e, [], w')
      end
  end.

Definition with_serializable_retry (max_retries : nat) (backoff_base : Z) (w : W) :
    result exn A * list Z * W :=
  retry_loop backoff_base 0 max_retries w.

(** The state after [n] failed attempts. *)
Fixpoint after_attempts (n : nat) (w : W) : W :=
  match n with O => w | S n' => after_attempts n' (coro_factory w).2 end.

Definition deadlocks (r : result exn A) : bool :=
  match r with Raise (OperationalError m) => _is_deadlock m | _ => false end.

(** ** Lemmas *)

Lemma retry_loop_spec base attempt remaining w :
  (0 < remaining)%nat →
  ∃ n, (n < remaining)%nat ∧
    let r := (coro_factory (after_attempts n w)).1 in
    retry_loop base attempt remaining w =
      (r, (λ i, base * 2 ^ Z.of_nat (attempt + i)) <$> seq 0 n, after_attempts (S n) w) ∧
    (∀ i, (i < n)%nat → deadlocks (coro_factory (after_attempts i w)).1 = true) ∧
    (deadlocks r = false ∨ S n = remaining).
Proof.
  revert attempt w. induction remaining as [|rem IH]; intros attempt w Hrem; [lia|].
  destruct (deadlocks (coro_factory w).1 && negb (Nat.eqb rem 0)) eqn:Hd.
  - apply andb_true_iff in Hd as [Hd Hne%negb_true_iff%Nat.eqb_neq].
    destruct (IH (S attempt) (coro_factory w).2) as (n & Hn & Hloop & Hall & Hend); [lia|].
    exists (S n). split; [lia|]. cbv zeta. split; [|split].
    + simpl retry_loop. destruct (coro_factory w) as [[a|e] w'] eqn:Hc; [done|].
      simpl in Hd. destruct e; try done. rewrite Hd. simpl negb.
      rewrite (proj2 (Nat.eqb_neq rem 0)) by done. simpl in Hloop. rewrite Hloop.
      simpl. rewrite Hc. simpl. f_equal. f_equal. rewrite Nat.add_0_r. f_equal.
      rewrite <- fmap_S_seq, <- list_fmap_compose.
      apply list_fmap_ext. intros i x _. simpl. by rewrite Nat.add_succ_r.
    + intros [|i] Hi; [done|]. apply Hall. lia.
    + destruct Hend as [?| <-]; [by left|by right].
  - exists 0%nat. split; [lia|]. cbv zeta. split; [|split; [lia|]].
    + simpl. destruct (coro_factory w) as [[a|e] w'] eqn:Hc; [done|]. simpl in Hd.
      destruct e; try done. destruct (_is_deadlock message); simpl in *; [|done].
      apply negb_false_iff in Hd. by rewrite Hd.
    + simpl. apply andb_false_iff in Hd as [Hd|Hd%negb_false_iff%Nat.eqb_eq]; [by left|].
      right. lia.
Qed.
End retry.

(** ** Retried transactions *)

(** The database before attempt [n], when the attempts before it were rolled
    back: what the other transactions committed. *)
Definition before (attempts : list attempt) (n : nat) (d : Db) : Db :=
  foldl (λ d a, a_world a d) d (take n attempts).

Definition deadlocked (a : attempt) : bool :=
  match a_fault a with Some (OperationalError m) => _is_deadlock m | _ => false end.

Lemma before_S attempts n a d :
  attempts !! n = Some a → before attempts (S n) d = a_world a (before attempts n d).
Proof. intros Ha. unfold before. by rewrite (take_S_r _ _ _ Ha), foldl_app. Qed.

Lemma after_attempts_last {W A} (coro : prog W exn A) n w :
  after_attempts coro (S n) w = (coro (after_attempts coro n w)).2.
Proof. revert w. induction n as [|n IH]; intros w; [done|]. exact (IH (coro w).2). Qed.

Section retried.
Context {A} (m : M A) (ready : Db → Prop).
(** Code never raises a deadlock of its own: MySQL does. *)
Context (steady : ∀ d now, ready d → deadlocks (transaction m d now).1 = false).

Lemma run_attempt_cons a rest d :
  run_attempt m (d, a :: rest) =
    match a_fault a with
    | Some e => (Raise e, (a_world a d, rest))
    | None => ((transaction m (a_world a d) (a_now a)).1,
               ((transaction m (a_world a d) (a_now a)).2, rest))
    end.
Proof using Type. unfold run_attempt. simpl. destruct (a_fault a); [done|]. by destruct (transaction _ _ _). Qed.

Lemma run_attempt_deadlocks a rest d :
  ready (a_world a d) → deadlocks (run_attempt m (d, a :: rest)).1 = deadlocked a.
Proof using steady.
  intros Hr. rewrite run_attempt_cons. unfold deadlocked. destruct (a_fault a); [done|]. by apply steady.
Qed.

(** Attempts that deadlock leave what the others committed. *)
Lemma after_attempts_before attempts d n :
  (n <= length attempts)%nat → (∀ a d, a ∈ attempts → ready (a_world a d)) →
  (∀ i, (i < n)%nat → deadlocks (run_attempt m (after_attempts (run_attempt m) i (d, attempts))).1 = true) →
  after_attempts (run_attempt m) n (d, attempts) = (before attempts n d, drop n attempts) ∧
  (∀ i a, (i < n)%nat → attempts !! i = Some a → deadlocked a = true).
Proof using steady.
  intros Hn Hready. induction n as [|n IH]; intros Hdead; [by split; [|lia]|].
  destruct IH as [IH Hall]; [lia|intros i Hi; apply Hdead; lia|].
  destruct (lookup_lt_is_Some_2 attempts n ltac:(lia)) as [a Ha].
  pose proof (Hdead n ltac:(lia)) as Hn'. rewrite IH, (drop_S _ _ _ Ha) in Hn'.
  rewrite run_attempt_deadlocks in Hn' by (by eapply Hready, list_elem_of_lookup_2).
  split.
  - rewrite after_attempts_last, IH, (drop_S _ _ _ Ha), run_attempt_cons, (before_S _ _ _ _ Ha).
    unfold deadlocked in Hn'. by destruct (a_fault a).
  - intros i b Hi Hb. destruct (decide (i = n)) as [->|]; [congruence|]. apply (Hall i); [lia|done].
Qed.

(** Exactly one whole transaction takes effect, or none. *)
Lemma retried_atomic attempts budget base d :
  (0 < budget <= length attempts)%nat → (∀ a d, a ∈ attempts → ready (a_world a d)) →
  ∃ n a, (n < budget)%nat ∧ attempts !! n = Some a ∧
    (∀ i b, (i < n)%nat → attempts !! i = Some b → deadlocked b = true) ∧
    ∃ sleeps, with_serializable_retry (run_attempt m) budget base (d, attempts) =
      match a_fault a with
      | Some e => (Raise e, sleeps, (before attempts (S n) d, drop (S n) attempts))
      | None => let r := transaction m (before attempts (S n) d) (a_now a) in
                (r.1, sleeps, (r.2, drop (S n) attempts))
      end ∧ (deadlocked a = true → S n = budget).
Proof using steady.
  intros Hb Hready.
  destruct (retry_loop_spec (run_attempt m) base 0 budget (d, attempts)) as (n & Hn & Hrun & Hdead & Hend); [lia|].
  destruct (after_attempts_before attempts d n) as [Hst Hall]; [lia|done|done|].
  destruct (lookup_lt_is_Some_2 attempts n ltac:(lia)) as [a Ha]. exists n, a. split_and!; [done..|].
  cbv zeta in Hrun. unfold with_serializable_retry. rewrite Hrun, after_attempts_last.
  rewrite Hst, (drop_S _ _ _ Ha) in Hend |- *.
  rewrite run_attempt_deadlocks in Hend by (by eapply Hready, list_elem_of_lookup_2).
  rewrite run_attempt_cons, (before_S _ _ _ _ Ha). eexists. split.
  - by destruct (a_fault a).
  - intros Hd. destruct Hend; [congruence|done].
Qed.
End retried.

(** *** Properties *)

(** C37: with a positive budget the wrapper terminates after
    [n + 1 <= max_retries] runs: the first [n] all deadlocked, the result is
    exactly that of the last one (never an assertion failure or a swallowed
    error), which either did not deadlock or exhausted the budget; and the
    waits between runs double from the base. *)
Theorem with_serializable_retry_spec {W A} (coro : prog W exn A) max_retries base w :
  (0 < max_retries)%nat →
  ∃ n, (n < max_retries)%nat ∧
    let r := (coro (after_attempts coro n w)).1 in
    with_serializable_retry coro max_retries base w =
      (r, (λ i, base * 2 ^ Z.of_nat i) <$> seq 0 n, after_attempts coro (S n) w) ∧
    (∀ i, (i < n)%nat → deadlocks (coro (after_attempts coro i w)).1 = true) ∧
    (deadlocks r = false ∨ S n = max_retries).
Proof. intros H. exact (retry_loop_spec coro base 0 max_retries w H). Qed.

(** Two deadlocks, then success: three runs, waits of 50 and 100 ms. *)
Lemma with_serializable_retry_witness :
  let coro : prog nat exn nat := λ n,
    match n with
    | O | S O => (Raise (OperationalError "(1213, 'Deadlock found')"), S n)
    | _ => (Ok n, S n)
    end in
  (0 < 5)%nat ∧ with_serializable_retry coro 5 50 0%nat = (Ok 2%nat, [50; 100], 3%nat) ∧
  ∃ n, (n < 5)%nat ∧
    let r := (coro (after_attempts coro n 0%nat)).1 in
    with_serializable_retry coro 5 50 0%nat =
      (r, (λ i, 50 * 2 ^ Z.of_nat i) <$> seq 0 n, after_attempts coro (S n) 0%nat) ∧
    (∀ i, (i < n)%nat → deadlocks (coro (after_attempts coro i 0%nat)).1 = true) ∧
    (deadlocks r = false ∨ S n = 5%nat).
Proof.
  intros coro. split; [lia|]. split; [vm_compute; reflexivity|].
  apply (with_serializable_retry_spec coro 5 50 0%nat). lia.
Defined.
