(* ===== verification/Samples.v ===== *)
(** Concrete databases on which the theorems of the development are
    instantiated, and the boolean checks that discharge their hypotheses by
    evaluation. *)

From Stdlib Require Import Ascii.
From S2P Require Import Prelude Models SessionLayer.

(** [db_ok], as a test. *)
Definition db_ok_test (d : Db) : bool :=
  forallb (λ '(k, r), bool_decide (Reservation.id r = k) && bool_decide (k < next_reservation_id d) &&
                      negb (is_some (reservation_row_error r)))
    (map_to_list (reservations d)).

Lemma db_ok_by_test d : db_ok_test d = true → db_ok d.
Proof.
  unfold db_ok_test. rewrite forallb_forall. intros H k r Hk.
  specialize (H (k, r)). simpl in H. rewrite !andb_true_iff, !bool_decide_eq_true in H.
  destruct H as [[H1 H2] H3].
  { by apply list_elem_of_In, elem_of_map_to_list. }
  split_and!; [done..|]. apply reservation_row_error_None.
  by destruct (reservation_row_error r).
Qed.

(** A property of every stored reservation, as a test. *)
Lemma rows_by_test (P : Reservation.t → Prop) (p : Reservation.t → bool) (t : gmap Z Reservation.t) :
  (∀ r, p r = true → P r) → forallb (λ kr, p kr.2) (map_to_list t) = true →
  ∀ k r, t !! k = Some r → P r.
Proof.
  intros Hp. rewrite forallb_forall. intros H k r Hk. apply Hp.
  apply (H (k, r)). by apply list_elem_of_In, elem_of_map_to_list.
Qed.

Lemma lookup_only {A} (m : gmap Z A) i x k y : m = {[i := x]} → m !! k = Some y → k = i ∧ y = x.
Proof. intros ->. by intros [<- <-]%lookup_singleton_Some. Qed.

(** A hash that hides nothing. *)
Definition open_check (p hash : string) : bool := bool_decide (p = hash).
Definition open_hash (p : string) : string := p.

Lemma open_law p : open_check p (open_hash p) = true.
Proof. unfold open_check, open_hash. by rewrite bool_decide_eq_true_2. Qed.

(** [int] on the text of an integer. *)
Fixpoint digits (acc : N) (s : string) : N :=
  match s with
  | EmptyString => acc
  | String c s => digits (10 * acc + (Ascii.N_of_ascii c - 48))%N s
  end.

Definition decimal_int (s : string) : option Z :=
  match s with
  | String c s' =>
      if Ascii.eqb c "-"%char then Some (- Z.of_N (digits 0 s')) else Some (Z.of_N (digits 0 s))
  | EmptyString => None
  end.

Lemma digits_pretty_go x s : digits 0 (pretty_N_go x s) = digits x s.
Proof.
  revert s. induction (N.lt_wf_0 x) as [x _ IH]; intros s.
  destruct (decide (x = 0)%N) as [->|Hx]; [by rewrite pretty_N_go_0|].
  rewrite pretty_N_go_step by lia. rewrite IH by (apply N.div_lt; lia). cbn [digits]. f_equal.
  pose proof (N.Div0.div_mod x 10). pose proof (N.mod_lt x 10 ltac:(lia)).
  assert (Ascii.N_of_ascii (pretty_N_char (x `mod` 10)) - 48 = x `mod` 10)%N as ->; [|lia].
  assert (∃ n, x `mod` 10 = n ∧ n < 10)%N as (n & -> & Hn) by eauto.
  assert (n = 0 ∨ n = 1 ∨ n = 2 ∨ n = 3 ∨ n = 4 ∨ n = 5 ∨ n = 6 ∨ n = 7 ∨ n = 8 ∨ n = 9)%N
    as Hcases by lia.
  by repeat destruct Hcases as [->|Hcases]; [..|subst].
Qed.

Lemma digits_pretty (n : N) : digits 0 (pretty n) = n.
Proof. unfold pretty, pretty_N. case_decide; [by subst|]. by rewrite digits_pretty_go. Qed.

Lemma decimal_int_pretty (z : Z) : decimal_int (pretty z) = Some z.
Proof.
  destruct z as [|p|p]; [done| |].
  - change (pretty (Z.pos p)) with (pretty (N.pos p)).
    destruct (pretty (N.pos p)) as [|c s] eqn:Hs; [by apply (f_equal (digits 0)) in Hs; rewrite digits_pretty in Hs|].
    unfold decimal_int. destruct (Ascii.eqb_spec c "-"%char) as [->|].
    + exfalso. by apply (pretty_N_go_ne_dash (N.pos p) "" s).
    + by rewrite <- Hs, digits_pretty.
  - change (decimal_int (String "-"%char (pretty (N.pos p))) = Some (Z.neg p)).
    cbn [decimal_int Ascii.eqb]. by rewrite digits_pretty.
Qed.

(** Text for anything countable, in binary. *)
Fixpoint binary (p : positive) : string :=
  match p with
  | xH => EmptyString
  | xO p => String (Ascii.ascii_of_nat 48) (binary p)
  | xI p => String (Ascii.ascii_of_nat 49) (binary p)
  end.

Fixpoint of_binary (s : string) : positive :=
  match s with
  | EmptyString => xH
  | String c s => if bool_decide (c = Ascii.ascii_of_nat 48) then xO (of_binary s) else xI (of_binary s)
  end.

Lemma of_binary_binary p : of_binary (binary p) = p.
Proof. induction p as [p IH|p IH|]; simpl; [by rewrite IH..|done]. Qed.

(** One lab, one server with two cards, two users with an account each. *)
Definition sample_server : Server.t :=
  Server.mk 1 1 "gpu-01" None None "online" None (Some 24) 1 None None None.
Definition sample_gpu (id index : Z) : Gpu.t := 
  Gpu.mk id 1 index None None (Some 24000) None None None None None JNull None 1.
Definition sample_user (id : Z) (name : string) : User.t := 
  User.mk id 1 name name "user" 1 (name +:+ "@lab.org") (Some "secret"%string) None None.
Definition sample_account (id : Z) (name : string) : PhysicalAccount.t :=
  PhysicalAccount.mk id 1 name None None None None "agent_created" 1 None None None.
Definition sample_link (id user pa : Z) : AccountLink.t :=
  AccountLink.mk id user pa ssh_challenge (JObj []) user 1 None None None.

Definition sample_db (rs : list Reservation.t) : Db :=
  mkDb {[1 := sample_server]}
    {[1 := sample_gpu 1 0; 2 := sample_gpu 2 1]} 3
    {[10 := sample_user 10 "alice"; 11 := sample_user 11 "bob"]}
    ∅
    {[5 := sample_account 5 "alice"; 6 := sample_account 6 "bob"]} 7
    {[7 := sample_link 7 10 5; 8 := sample_link 8 11 6]} 9
    ∅ 1 ∅ ∅ 1
    (list_to_map ((λ r, (Reservation.id r, r)) <$> rs)) 200 [] [] [] ∅ ∅ 1 ∅ 1 2 1 4 1 12 ∅ 1 ∅ 1 {[1 := Lab.mk 1 "lab" "lab" [] "none" None]} 2.

(** A whole-card booking of alice, scheduled, with an optional script. *)
Definition sample_reservation (id gpu start_at end_at : Z) (script : option pystr) : Reservation.t :=
  Reservation.mk id 10 1 (Some gpu) 7 (Some "g"%string) start_at end_at STATUS_SCHEDULED None None
    script (match script with Some _ => Some start_at | None => None end)
    None None None None None None None 0 None None None None None.

(** "ls" *)
Definition sample_script : pystr := [108; 115]%N.

(** Letters without case, as a case-insensitive collation compares them. *)
Fixpoint no_case (s : string) : string :=
  match s with
  | EmptyString => EmptyString
  | String c s =>
      let n := Ascii.N_of_ascii c in
      String (if bool_decide (65 <= n ∧ n <= 90)%N then Ascii.ascii_of_N (n + 32) else c) (no_case s)
  end.
