(* ===== verification/AgentRpc.v ===== *)
(** Request/response over the agent connections
    ([backend/corelab_backend/services/agent_rpc.py], [agent_hub.py]).

    A request registers a future under its envelope id; the receive loop
    resolves the future of the matching [correlation_id]; the caller waits
    until then or until the timeout and always drops its entry.  What the
    network delivers while a caller waits is the list of incoming frames. *)

From S2P Require Import Prelude Models.

(** [RPC_REQUEST_TO_RESPONSE] of [shared/protocol]. *)
Definition RPC_REQUEST_TO_RESPONSE (frame_type : string) : option string :=
  snd <$> head (filter (λ p : string * string, p.1 = frame_type)
    [("backend.ssh.verify_sig", "agent.ssh.verify_sig.response");
     ("backend.pam.verify", "agent.pam.verify.response");
     ("backend.authorized_key.push", "agent.authorized_key.push.response");
     ("backend.authorized_key.revoke", "agent.authorized_key.revoke.response");
     ("backend.authorized_key.read", "agent.authorized_key.read.response");
     ("backend.script.execute", "agent.script.execute.response");
     ("backend.script.cancel", "agent.script.cancel.response");
     ("backend.policy.sync", "agent.policy.sync.response");
     ("backend.account_link_cache.sync", "agent.account_link_cache.sync.response");
     ("backend.linux.useradd", "agent.linux.useradd.response");
     ("backend.linux.userdel", "agent.linux.userdel.response");
     ("backend.gpu.kill_process", "agent.gpu.kill_process.response");
     ("backend.config.update_urls", "agent.config.update_urls.ack");
     ("backend.capability.sync", "agent.capability.sync.ack")]%string).

(** A decoded JSON payload, and what an RPC call returns. *)
Abbreviation payload := (list (string * json)).
Abbreviation rpc_result := (result exn payload).

(** ** The connection pool: a socket is identified by a number *)

Record AgentConnectionPool : Type := mkPool {
  _connections : gmap Z Z ;
  closed : list Z }.            (* sockets closed with code 1008 *)

(** [register] up to its await: the socket it finds is closed. *)
Definition pool_kick (p : AgentConnectionPool) (server_id ws : Z) : AgentConnectionPool :=
  match _connections p !! server_id with
  | Some existing =>
      if bool_decide (existing = ws) then p else mkPool (_connections p) (closed p ++ [existing])
  | None => p
  end.

(** After it. *)
Definition pool_put (p : AgentConnectionPool) (server_id ws : Z) : AgentConnectionPool :=
  mkPool (<[server_id := ws]> (_connections p)) (closed p).

(** [register], when nothing runs during its await. *)
Definition pool_register (p : AgentConnectionPool) (server_id ws : Z) : AgentConnectionPool :=
  pool_put (pool_kick p server_id ws) server_id ws.

Definition pool_unregister (p : AgentConnectionPool) (server_id ws : Z) : AgentConnectionPool :=
  if bool_decide (_connections p !! server_id = Some ws)
  then mkPool (delete server_id (_connections p)) (closed p) else p.

Definition pool_get (p : AgentConnectionPool) (server_id : Z) : option Z :=
  _connections p !! server_id.

Definition is_online (p : AgentConnectionPool) (server_id : Z) : bool :=
  is_some (_connections p !! server_id).

(** ** Futures and pending calls *)

Inductive future : Type :=
| fut_waiting
| fut_done (r : rpc_result).

Record RpcState : Type := mkRpcState {
  _PENDING : gmap string (string * future) ;
  _OPTIONAL_RESPONSES : list (string * string) }.  (* insertion-ordered dict *)
#[export] Instance eta_RpcState : Eta RpcState := λ s,
  mkRpcState (_PENDING s) (_OPTIONAL_RESPONSES s).

Definition _MAX_OPTIONAL_RESPONSES : nat := 1024.

(** [d[k] = v] on an insertion-ordered dict. *)
Fixpoint dict_set {V} (k : string) (v : V) (d : list (string * V)) : list (string * V) :=
  match d with
  | [] => [(k, v)]
  | (k', v') :: d' => if bool_decide (k = k') then (k, v) :: d' else (k', v') :: dict_set k v d'
  end.

Definition dict_get (k : string) (d : list (string * string)) : option string :=
  snd <$> head (filter (λ p, p.1 = k) d).

Definition dict_pop (k : string) (d : list (string * string)) : list (string * string) :=
  filter (λ p, p.1 ≠ k) d.

(** [expect_optional_response]: the loop drops the oldest entries until the
    bound holds. *)
Definition expect_optional_response (correlation_id frame_type : string) (s : RpcState) :
    bool * RpcState :=
  match RPC_REQUEST_TO_RESPONSE frame_type with
  | None => (false, s)
  | Some expected =>
      let d := dict_set correlation_id expected (_OPTIONAL_RESPONSES s) in
      (true, s <| _OPTIONAL_RESPONSES := drop (length d - _MAX_OPTIONAL_RESPONSES) d |>)
  end.

(** A frame read by the receive loop. *)
Record incoming : Type := mkIncoming {
  in_correlation_id : option string ;
  in_type : string ;
  in_payload : payload }.

(** [deliver_response].  The entry leaves [_PENDING]; the outcome it gives
    the future is returned with the id, since the caller holds the future. *)
Definition deliver_response (f : incoming) (s : RpcState) :
    bool * option (string * rpc_result) * RpcState :=
  match in_correlation_id f with
  | None => (false, None, s)
  | Some cid =>
      match _PENDING s !! cid with
      | None =>
          let expected := dict_get cid (_OPTIONAL_RESPONSES s) in
          (bool_decide (expected = Some (in_type f)), None,
           s <| _OPTIONAL_RESPONSES := dict_pop cid (_OPTIONAL_RESPONSES s) |>)
      | Some (expected_type, fut) =>
          let s' := s <| _PENDING := delete cid (_PENDING s) |> in
          match fut with
          | fut_done _ => (false, None, s')
          | fut_waiting =>
              (true,
               Some (cid, if bool_decide (in_type f = expected_type)
                          then Ok (in_payload f) else Raise UnexpectedResponseTypeError),
               s')
          end
      end
  end.

(** The wait: frames are delivered in order until the caller's future is
    resolved; running out of frames is the timeout. *)
Fixpoint await_response (id : string) (frames : list incoming) (s : RpcState) :
    rpc_result * RpcState :=
  match frames with
  | [] => (Raise AgentRpcTimeoutError, s)
  | f :: frames' =>
      match deliver_response f s with
      | (_, Some (cid, r), s') =>
          if bool_decide (cid = id) then (r, s') else await_response id frames' s'
      | (_, None, s') => await_response id frames' s'
      end
  end.

(** [request_response] *)
Definition request_response (pool : AgentConnectionPool) (server_id : Z) (frame_type : string)
    (id : string) (frames : list incoming) (s : RpcState) : rpc_result * RpcState :=
  match RPC_REQUEST_TO_RESPONSE frame_type with
  | None => (Raise RpcNotYetWiredError, s)
  | Some expected_response =>
      match pool_get pool server_id with
      | None => (Raise AgentOfflineError, s)
      | Some _ =>
          let s1 := s <| _PENDING := <[id := (expected_response, fut_waiting)]> (_PENDING s) |> in
          let '(r, s2) := await_response id frames s1 in
          (r, s2 <| _PENDING := delete id (_PENDING s2) |>)
      end
  end.

(** ** Lemmas *)

Lemma deliver_pending_subset f s b o s' k :
  deliver_response f s = (b, o, s') → _PENDING s !! k = None → _PENDING s' !! k = None.
Proof.
  unfold deliver_response. intros H Hk. destruct (in_correlation_id f) as [cid|]; [|by simplify_eq].
  destruct (_PENDING s !! cid) as [[e [|r]]|] eqn:Hc; simplify_eq; simpl; [| |done];
    rewrite lookup_delete; case_decide; done.
Qed.

Lemma dict_set_length (k v : string) d : (length (dict_set k v d) <= S (length d))%nat.
Proof. induction d as [|[k' v'] d IH]; simpl; [lia|]. case_bool_decide; simpl; lia. Qed.

Lemma dict_set_cases (k v : string) d :
  (is_Some (dict_get k d) ∧ length (dict_set k v d) = length d ∧
     dict_get k (dict_set k v d) = Some v) ∨
  (dict_get k d = None ∧ dict_set k v d = d ++ [(k, v)]).
Proof.
  unfold dict_get. induction d as [|[k' v'] d IH]; [by right|]. simpl.
  rewrite !filter_cons. simpl. destruct (decide (k' = k)) as [->|Hne].
  - left. rewrite bool_decide_eq_true_2 by done. simpl.
    rewrite filter_cons_True by done. split_and!; [by eexists|done|done].
  - rewrite bool_decide_eq_false_2 by done. simpl. rewrite filter_cons_False by done.
    destruct IH as [(H1 & H2 & H3)|[H1 H2]]; [left|right].
    + split_and!; [done|lia|done].
    + by rewrite H2.
Qed.

Lemma dict_get_app_new k v d : dict_get k d = None → dict_get k (d ++ [(k, v)]) = Some v.
Proof.
  unfold dict_get. rewrite filter_app. simpl. rewrite filter_cons_True by done.
  by destruct (filter _ d).
Qed.

Lemma dict_get_drop k d n : dict_get k d = None → dict_get k (drop n d) = None.
Proof.
  unfold dict_get. revert n. induction d as [|p d IH]; intros [|n]; simpl; try done.
  rewrite filter_cons. case_decide; [done|]. apply IH.
Qed.

(** The first frame of the list carrying this correlation id decides. *)
Definition reply_for (id : string) (frames : list incoming) : option incoming :=
  head (filter (λ f, in_correlation_id f = Some id) frames).

Lemma await_response_spec id expected frames s :
  _PENDING s !! id = Some (expected, fut_waiting) →
  (await_response id frames s).1 =
    match reply_for id frames with
    | None => Raise AgentRpcTimeoutError
    | Some f => if bool_decide (in_type f = expected) then Ok (in_payload f)
                else Raise UnexpectedResponseTypeError
    end.
Proof.
  revert s. induction frames as [|f frames IH]; intros s Hp; [done|].
  unfold reply_for. rewrite filter_cons. simpl. unfold deliver_response.
  case_decide as Hf.
  - rewrite Hf, Hp. by rewrite bool_decide_eq_true_2.
  - fold (reply_for id frames). destruct (in_correlation_id f) as [cid|]; [|by apply IH].
    assert (cid ≠ id) by congruence.
    destruct (_PENDING s !! cid) as [[e [|r]]|] eqn:Hc; [| |by apply IH].
    + rewrite bool_decide_eq_false_2 by done. apply IH. simpl. by rewrite lookup_delete_ne.
    + apply IH. simpl. by rewrite lookup_delete_ne.
Qed.

(** *** Properties *)

(** the outcome of an RPC call, on every branch: an unknown
    request type and an offline agent fail before anything is sent; otherwise
    the first frame that carries the call's correlation id decides -- frames
    for other calls never do -- a wrong response type is an error, no such
    frame is a timeout.  The call's own entry is always dropped. *)
Theorem request_response_spec pool sid ty id frames s :
  (request_response pool sid ty id frames s).1 =
    match RPC_REQUEST_TO_RESPONSE ty, pool_get pool sid with
    | None, _ => Raise RpcNotYetWiredError
    | _, None => Raise AgentOfflineError
    | Some expected, Some _ =>
        match reply_for id frames with
        | None => Raise AgentRpcTimeoutError
        | Some f => if bool_decide (in_type f = expected) then Ok (in_payload f)
                    else Raise UnexpectedResponseTypeError
        end
    end ∧
  (_PENDING s !! id = None → _PENDING (request_response pool sid ty id frames s).2 !! id = None).
Proof.
  unfold request_response. destruct (RPC_REQUEST_TO_RESPONSE ty) as [e|]; [|done].
  destruct (pool_get pool sid); [|done].
  destruct (await_response id frames _) as [r s2] eqn:Ha. simpl. split.
  - rewrite <- (await_response_spec id e frames
      (s <| _PENDING := <[id := (e, fut_waiting)]> (_PENDING s) |>)).
    + by rewrite Ha.
    + simpl. apply lookup_insert_eq.
  - intros _. apply lookup_delete_eq.
Qed.

(** however many fire-and-forget frames are registered, the
    table of expected acks never grows beyond its bound, and the newest
    registration is always kept. *)
Theorem optional_responses_bounded cid ty s b s' :
  expect_optional_response cid ty s = (b, s') →
  (length (_OPTIONAL_RESPONSES s) <= _MAX_OPTIONAL_RESPONSES)%nat →
  (length (_OPTIONAL_RESPONSES s') <= _MAX_OPTIONAL_RESPONSES)%nat ∧
  _PENDING s' = _PENDING s ∧ b = is_some (RPC_REQUEST_TO_RESPONSE ty) ∧
  (∀ expected, RPC_REQUEST_TO_RESPONSE ty = Some expected →
     dict_get cid (_OPTIONAL_RESPONSES s') = Some expected).
Proof.
  unfold expect_optional_response. intros H Hl.
  destruct (RPC_REQUEST_TO_RESPONSE ty) as [e|]; simplify_eq; [|naive_solver].
  cbn -[drop length]. set (d := _OPTIONAL_RESPONSES s) in *. split_and!; [|done..|].
  - rewrite length_drop. lia.
  - intros ? [= <-]. destruct (dict_set_cases cid e d) as [(_ & H2 & H3)|[H1 H2]].
    + rewrite H2. replace (length d - _MAX_OPTIONAL_RESPONSES)%nat with 0%nat by lia. done.
    + rewrite H2, length_app, drop_app_le by (simpl; unfold _MAX_OPTIONAL_RESPONSES in *; lia).
      by apply dict_get_app_new, dict_get_drop.
Qed.

Definition bounded_sample : RpcState := mkRpcState ∅ [("a", "agent.config.update_urls.ack")]%string.

Example optional_responses_bounded_witness :
  let s' := (expect_optional_response "b" "backend.capability.sync" bounded_sample).2 in
  (length (_OPTIONAL_RESPONSES s') <= _MAX_OPTIONAL_RESPONSES)%nat ∧
  _PENDING s' = ∅ ∧ true = is_some (RPC_REQUEST_TO_RESPONSE "backend.capability.sync") ∧
  (∀ expected, RPC_REQUEST_TO_RESPONSE "backend.capability.sync" = Some expected →
     dict_get "b" (_OPTIONAL_RESPONSES s') = Some expected).
Proof.
  apply (optional_responses_bounded "b" "backend.capability.sync" bounded_sample true).
  - vm_compute. reflexivity.
  - vm_compute. lia.
Defined.
