(* ===== verification/Protocol.v ===== *)
(** The agent protocol ([src/shared/protocol/corelab_protocol/frames.py]):
    every frame class, the envelope, the tables of message types, and
    [parse_envelope], through which both sides read what they receive.

    A class is a [Schema.ftype] with the fields, bounds and defaults of the
    source; a validated frame is the document its [model_dump()] gives. *)

From S2P Require Import Prelude Schema AgentRpc.

#[local] Open Scope string_scope.

Abbreviation int := (TScalar KInt).
Abbreviation str := (TScalar KStr).
Abbreviation boolean := (TScalar KBool).
Abbreviation float := (TScalar KFloat).
Abbreviation datetime := (TScalar KDatetime).

(** [name: t], [name: t | None = None] and [name: t = v]. *)
Definition req (name : string) (t : ftype) : field := (name, t, Required).
Definition opt (name : string) (t : ftype) : field := (name, TOptional t, Default JNull).
Definition dft (name : string) (t : ftype) (v : json) : field := (name, t, Default v).

(** ** The frame classes *)

Definition AgentHeartbeat : ftype := TModel
  [ req "uptime_seconds" (TInt (Some 0) None) ; opt "agent_version" str ].

Definition GpuProcessSnapshot : ftype := TModel
  [ req "pid" int ; req "linux_username" str ; req "memory_mb" int ].

Definition GpuTelemetryEntry : ftype := TModel
  [ req "gpu_index" (TInt (Some 0) None) ; opt "uuid" str ; opt "model" str ;
    opt "memory_total_mb" int ; opt "compute_capability" str ;
    req "util_pct" (TInt (Some 0) (Some 100)) ; opt "memory_used_mb" int ;
    opt "temperature_c" int ; opt "power_w" int ;
    dft "processes" (TList GpuProcessSnapshot None) (JList []) ].

Definition GpuTelemetry : ftype := TModel
  [ req "gpus" (TList GpuTelemetryEntry None) ].

Definition Pong : ftype := TModel
  [ opt "echo" str ].

Definition ReverseLookupNotify : ftype := TModel
  [ req "server_id" int ; req "linux_username" str ; opt "observed_pid" int ;
    ("observed_at", datetime, Now) ].

Definition AccountScanEntry : ftype := TModel
  [ req "linux_username" (TStr (Some 1) (Some 32)) ; opt "uid" (TInt (Some 0) None) ;
    opt "gid" (TInt (Some 0) None) ; opt "home_directory" (TStr None (Some 255)) ;
    opt "default_shell" (TStr None (Some 100)) ].

Definition AccountScanReport : ftype := TModel
  [ req "entries" (TList AccountScanEntry (Some 4096)) ; dft "mock" boolean (JBool false) ].

Definition BackendPing : ftype := TModel
  [ opt "echo" str ].

Definition BackendAck : ftype := TModel
  [ dft "ok" boolean (JBool true) ; opt "detail" str ].

Definition SshVerifySigRequest : ftype := TModel
  [ req "linux_username" str ; req "nonce" str ; dft "namespace" str (JStr "corelab") ;
    req "signature_armored" str ].

Definition PamVerifyRequest : ftype := TModel
  [ req "linux_username" str ; req "password" str ].

Definition AuthorizedKeyPushRequest : ftype := TModel
  [ req "linux_username" str ; req "public_key" str ; req "label" str ].

Definition AuthorizedKeyRevokeRequest : ftype := TModel
  [ req "linux_username" str ; req "fingerprint" str ].

Definition AuthorizedKeyReadRequest : ftype := TModel
  [ req "linux_username" str ].

Definition ExecuteScriptRequest : ftype := TModel
  [ req "reservation_id" int ; req "linux_username" str ; req "script" str ;
    opt "working_directory" str ; dft "env" (TDict str) (JObj []) ;
    opt "max_runtime_seconds" int ; req "stdout_log_path_hint" str ;
    dft "max_log_size_bytes" int (JInt 4194304) ].

Definition CancelScriptRequest : ftype := TModel
  [ req "reservation_id" int ;
    req "reason" (TLiteral ["user_cancel"; "admin_cancel"; "system_timeout"]) ].

Definition SshVerifySigResponse : ftype := TModel
  [ req "ok" boolean ; opt "signer_fingerprint" str ; opt "error" str ].

Definition PamVerifyResponse : ftype := TModel
  [ req "verify_ok" boolean ; opt "mock_warning" str ; opt "error" str ].

Definition AuthorizedKeyPushResponse : ftype := TModel
  [ req "installed_path" str ; req "fingerprint" str ; opt "mock_warning" str ].

Definition AuthorizedKeyRevokeResponse : ftype := TModel
  [ req "revoked" boolean ; opt "mock_warning" str ].

Definition AuthorizedKeyReadEntry : ftype := TModel
  [ req "line_number" (TInt (Some 1) None) ; req "fingerprint_sha256" str ; opt "key_type" str ;
    opt "comment" str ].

Definition AuthorizedKeyReadResponse : ftype := TModel
  [ req "ok" boolean ; opt "authorized_keys_path" str ;
    dft "line_count" (TInt (Some 0) None) (JInt 0) ;
    dft "invalid_line_count" (TInt (Some 0) None) (JInt 0) ;
    dft "keys" (TList AuthorizedKeyReadEntry None) (JList []) ;
    opt "mock_warning" str ; opt "error" str ].

Definition ExecuteScriptResponse : ftype := TModel
  [ req "ok" boolean ; dft "started" boolean (JBool false) ; opt "pid" int ; opt "log_path" str ;
    opt "error" str ; opt "mock_warning" str ].

Definition CancelScriptResponse : ftype := TModel
  [ req "ok" boolean ; req "cancelled" boolean ; opt "detail" str ; opt "mock_warning" str ].

Definition LinuxUseraddRequest : ftype := TModel
  [ req "linux_username" str ; opt "uid" int ; opt "gid" int ; opt "home_directory" str ;
    opt "default_shell" str ].

Definition LinuxUseraddResponse : ftype := TModel
  [ req "ok" boolean ; opt "uid" int ; opt "gid" int ; opt "home_directory" str ;
    opt "default_shell" str ; opt "error" str ; opt "mock_warning" str ].

Definition LinuxUserdelRequest : ftype := TModel
  [ req "linux_username" str ; dft "remove_home" boolean (JBool false) ].

Definition LinuxUserdelResponse : ftype := TModel
  [ req "ok" boolean ; opt "error" str ; opt "mock_warning" str ].

Definition ScriptStartedEvent : ftype := TModel
  [ req "reservation_id" int ; req "pid" int ; req "started_at" datetime ; opt "log_path" str ].

Definition ScriptOutputChunkEvent : ftype := TModel
  [ req "reservation_id" int ; req "stream" (TLiteral ["stdout"; "stderr"]) ; req "text" str ;
    req "ts" datetime ].

Definition ScriptFinishedEvent : ftype := TModel
  [ req "reservation_id" int ; opt "exit_code" int ; req "started_at" datetime ;
    req "finished_at" datetime ; req "duration_seconds" float ;
    dft "output_size_bytes" int (JInt 0) ; opt "log_path" str ;
    dft "killed_by_corelab" boolean (JBool false) ; opt "killed_reason" str ].

Definition PolicyEntry : ftype := TModel
  [ req "key" str ; req "enabled" boolean ;
    req "severity" (TLiteral ["log_only"; "notify"; "warn"; "auto_kill"]) ;
    opt "threshold_value" (TDict TAny) ; opt "grace_period_seconds" int ;
    dft "notify_admin" boolean (JBool true) ].

Definition PolicySyncRequest : ftype := TModel
  [ req "server_id" int ; req "policies" (TList PolicyEntry None) ; req "etag" str ].

Definition PolicySyncResponse : ftype := TModel
  [ req "ok" boolean ; dft "applied" boolean (JBool false) ; opt "etag_now" str ; opt "error" str ].

Definition ComplianceViolationHolder : ftype := TModel
  [ req "user_id" int ; opt "username" str ; opt "reservation_id" int ].

Definition ComplianceViolationEvent : ftype := TModel
  [ req "server_id" int ; req "gpu_id" int ; req "policy_key" str ;
    req "severity" (TLiteral ["log_only"; "notify"; "warn"; "auto_kill"]) ;
    opt "linux_username" str ; opt "linux_pid" int ;
    dft "linked_platform_user_ids" (TList int None) (JList []) ;
    dft "current_reservation_holders" (TList ComplianceViolationHolder None) (JList []) ;
    dft "action_taken"
      (TLiteral ["log_only"; "notify"; "warn"; "kill";
        "kill_downgraded_to_warn"]) (JStr "notify") ;
    opt "memory_used_mb" int ; opt "memory_declared_mb" int ; opt "util_pct" int ;
    opt "downgraded_from" (TLiteral ["auto_kill"]) ; opt "details" str ;
    dft "applied" boolean (JBool false) ; opt "etag_now" str ; opt "error" str ].

Definition ActiveReservationSnapshot : ftype := TModel
  [ req "reservation_id" int ; req "gpu_id" int ; req "start_at" datetime ;
    req "end_at" datetime ; req "status" (TLiteral ["scheduled"; "active"]) ;
    opt "gpu_memory_mb" int ; opt "gpu_compute_share_pct" int ;
    req "source" (TLiteral ["ssh_challenge"; "password_pam"; "admin_prepared_then_ssh"; "admin_declared"]) ].

Definition AccountLinkCacheEntry : ftype := TModel
  [ req "linux_username" str ; req "user_ids" (TList int None) ;
    dft "active_reservations" (TDict (TList ActiveReservationSnapshot None)) (JObj []) ].

Definition AccountLinkCacheSyncRequest : ftype := TModel
  [ req "server_id" int ; req "mode" (TLiteral ["full"; "incremental"]) ;
    dft "entries" (TList AccountLinkCacheEntry None) (JList []) ;
    dft "removed_linux_usernames" (TList str None) (JList []) ; req "etag" str ].

Definition AccountLinkCacheSyncResponse : ftype := TModel
  [ req "ok" boolean ; dft "applied" boolean (JBool false) ; dft "entries_count" int (JInt 0) ;
    opt "error" str ].

Definition GpuKillProcessRequest : ftype := TModel
  [ req "pid" (TInt (Some 1) None) ; opt "linux_username" str ;
    opt "reason" (TStr None (Some 500)) ].

Definition GpuKillProcessResponse : ftype := TModel
  [ req "ok" boolean ; dft "killed" boolean (JBool false) ; opt "error" str ; opt "mock_warning" str ].

Definition BackendConfigUpdateUrlsRequest : ftype := TModel
  [ req "urls" (TList str None) ].

Definition AgentConfigUpdateUrlsAck : ftype := TModel
  [ req "ok" boolean ; req "applied_urls" (TList str None) ; opt "error" str ].

Definition CapabilityEntry : ftype := TModel
  [ req "key" str ; req "enabled" boolean ].

Definition BackendCapabilitySync : ftype := TModel
  [ req "capabilities" (TList CapabilityEntry None) ].

Definition AgentCapabilitySyncAck : ftype := TModel
  [ req "ok" boolean ; dft "applied_count" int (JInt 0) ; opt "error" str ].

(** ** The envelope *)

Definition MessageType : list string :=
  [ "agent.heartbeat" ; "agent.gpu.telemetry" ; "agent.pong" ; "agent.reverse_lookup.notify" ;
    "agent.account_scan.report" ; "backend.ping" ; "backend.ack" ; "backend.ssh.verify_sig" ;
    "agent.ssh.verify_sig.response" ; "backend.pam.verify" ; "agent.pam.verify.response" ;
    "backend.authorized_key.push" ; "agent.authorized_key.push.response" ;
    "backend.authorized_key.revoke" ; "agent.authorized_key.revoke.response" ;
    "backend.authorized_key.read" ; "agent.authorized_key.read.response" ;
    "backend.script.execute" ; "agent.script.execute.response" ; "backend.script.cancel" ;
    "agent.script.cancel.response" ; "agent.script.started" ; "agent.script.output_chunk" ;
    "agent.script.finished" ; "backend.policy.sync" ; "agent.policy.sync.response" ;
    "backend.account_link_cache.sync" ; "agent.account_link_cache.sync.response" ;
    "agent.compliance.violation" ; "backend.linux.useradd" ; "agent.linux.useradd.response" ;
    "backend.linux.userdel" ; "agent.linux.userdel.response" ; "backend.gpu.kill_process" ;
    "agent.gpu.kill_process.response" ; "backend.config.update_urls" ;
    "agent.config.update_urls.ack" ; "backend.capability.sync" ; "agent.capability.sync.ack" ].

Definition AGENT_TO_BACKEND_TYPES : list string :=
  [ "agent.heartbeat" ; "agent.gpu.telemetry" ; "agent.pong" ; "agent.reverse_lookup.notify" ;
    "agent.account_scan.report" ; "agent.ssh.verify_sig.response" ;
    "agent.pam.verify.response" ; "agent.authorized_key.push.response" ;
    "agent.authorized_key.revoke.response" ; "agent.authorized_key.read.response" ;
    "agent.script.execute.response" ; "agent.script.cancel.response" ; "agent.script.started" ;
    "agent.script.output_chunk" ; "agent.script.finished" ; "agent.policy.sync.response" ;
    "agent.account_link_cache.sync.response" ; "agent.compliance.violation" ;
    "agent.linux.useradd.response" ; "agent.linux.userdel.response" ;
    "agent.gpu.kill_process.response" ; "agent.config.update_urls.ack" ;
    "agent.capability.sync.ack" ].

Definition BACKEND_TO_AGENT_TYPES : list string :=
  [ "backend.ping" ; "backend.ack" ; "backend.ssh.verify_sig" ; "backend.pam.verify" ;
    "backend.authorized_key.push" ; "backend.authorized_key.revoke" ;
    "backend.authorized_key.read" ; "backend.script.execute" ; "backend.script.cancel" ;
    "backend.policy.sync" ; "backend.account_link_cache.sync" ; "backend.linux.useradd" ;
    "backend.linux.userdel" ; "backend.gpu.kill_process" ; "backend.config.update_urls" ;
    "backend.capability.sync" ].

Definition RPC_REQUEST_TYPES : list string :=
  [ "backend.ssh.verify_sig" ; "backend.pam.verify" ; "backend.authorized_key.push" ;
    "backend.authorized_key.revoke" ; "backend.authorized_key.read" ; "backend.script.execute" ;
    "backend.script.cancel" ; "backend.policy.sync" ; "backend.account_link_cache.sync" ;
    "backend.linux.useradd" ; "backend.linux.userdel" ; "backend.gpu.kill_process" ;
    "backend.config.update_urls" ; "backend.capability.sync" ].

Definition RPC_RESPONSE_TYPES : list string :=
  [ "agent.ssh.verify_sig.response" ; "agent.pam.verify.response" ;
    "agent.authorized_key.push.response" ; "agent.authorized_key.revoke.response" ;
    "agent.authorized_key.read.response" ; "agent.script.execute.response" ;
    "agent.script.cancel.response" ; "agent.policy.sync.response" ;
    "agent.account_link_cache.sync.response" ; "agent.linux.useradd.response" ;
    "agent.linux.userdel.response" ; "agent.gpu.kill_process.response" ;
    "agent.config.update_urls.ack" ; "agent.capability.sync.ack" ].

Definition SCRIPT_PUSH_EVENT_TYPES : list string :=
  [ "agent.script.started" ; "agent.script.output_chunk" ; "agent.script.finished" ].

Definition _PAYLOAD_FOR_TYPE : list (string * ftype) :=
  [ ("agent.heartbeat", AgentHeartbeat) ; ("agent.gpu.telemetry", GpuTelemetry) ;
    ("agent.pong", Pong) ; ("agent.reverse_lookup.notify", ReverseLookupNotify) ;
    ("agent.account_scan.report", AccountScanReport) ; ("backend.ping", BackendPing) ;
    ("backend.ack", BackendAck) ; ("backend.ssh.verify_sig", SshVerifySigRequest) ;
    ("agent.ssh.verify_sig.response", SshVerifySigResponse) ;
    ("backend.pam.verify", PamVerifyRequest) ;
    ("agent.pam.verify.response", PamVerifyResponse) ;
    ("backend.authorized_key.push", AuthorizedKeyPushRequest) ;
    ("agent.authorized_key.push.response", AuthorizedKeyPushResponse) ;
    ("backend.authorized_key.revoke", AuthorizedKeyRevokeRequest) ;
    ("agent.authorized_key.revoke.response", AuthorizedKeyRevokeResponse) ;
    ("backend.authorized_key.read", AuthorizedKeyReadRequest) ;
    ("agent.authorized_key.read.response", AuthorizedKeyReadResponse) ;
    ("backend.script.execute", ExecuteScriptRequest) ;
    ("agent.script.execute.response", ExecuteScriptResponse) ;
    ("backend.script.cancel", CancelScriptRequest) ;
    ("agent.script.cancel.response", CancelScriptResponse) ;
    ("agent.script.started", ScriptStartedEvent) ;
    ("agent.script.output_chunk", ScriptOutputChunkEvent) ;
    ("agent.script.finished", ScriptFinishedEvent) ;
    ("backend.policy.sync", PolicySyncRequest) ;
    ("agent.policy.sync.response", PolicySyncResponse) ;
    ("backend.account_link_cache.sync", AccountLinkCacheSyncRequest) ;
    ("agent.account_link_cache.sync.response", AccountLinkCacheSyncResponse) ;
    ("agent.compliance.violation", ComplianceViolationEvent) ;
    ("backend.linux.useradd", LinuxUseraddRequest) ;
    ("agent.linux.useradd.response", LinuxUseraddResponse) ;
    ("backend.linux.userdel", LinuxUserdelRequest) ;
    ("backend.gpu.kill_process", GpuKillProcessRequest) ;
    ("agent.gpu.kill_process.response", GpuKillProcessResponse) ;
    ("agent.linux.userdel.response", LinuxUserdelResponse) ;
    ("backend.config.update_urls", BackendConfigUpdateUrlsRequest) ;
    ("agent.config.update_urls.ack", AgentConfigUpdateUrlsAck) ;
    ("backend.capability.sync", BackendCapabilitySync) ;
    ("agent.capability.sync.ack", AgentCapabilitySyncAck) ].


Definition MessageEnvelope : ftype := TModel
  [ req "type" (TLiteral MessageType) ; ("id", str, Uuid) ; ("ts", datetime, Now) ;
    dft "payload" (TDict TAny) (JObj []) ; opt "correlation_id" str ].

(** What may leave [parse_envelope]: [pydantic.ValidationError], or the
    [KeyError] of the class table. *)
Inductive frame_error : Type := ValidationError | UnknownTypeKeyError.

#[local] Open Scope Z_scope.

(** [envelope.type] and [envelope.payload] *)
Definition get_field (name : string) (v : json) : json :=
  match v with JObj o => default JNull (assoc name o) | _ => JNull end.

Definition envelope_type (envelope : json) : string :=
  match get_field "type" envelope with JStr ty => ty | _ => "" end.

Section parsing.
Context (coerce : scalar → json → option json) (isoformat : Z → string) (env : factories).

Definition parse_envelope (raw : json) : result frame_error (json * json) :=
  match validate coerce env MessageEnvelope raw with
  | None => Raise ValidationError
  | Some envelope =>
      match assoc (envelope_type envelope) _PAYLOAD_FOR_TYPE with
      | None => Raise UnknownTypeKeyError
      | Some payload_cls =>
          match validate coerce env payload_cls (get_field "payload" envelope) with
          | None => Raise ValidationError
          | Some payload => Ok (envelope, payload)
          end
      end
  end.

(** [MessageEnvelope(type=ty, id=id, ts=ts, payload=payload.model_dump(mode="json"),
    correlation_id=cid)] *)
Definition make_envelope (ty id : string) (ts : Z) (payload : json) (cid : option string) : json :=
  JObj [("type", JStr ty); ("id", JStr id); ("ts", JTime ts);
        ("payload", to_wire isoformat payload); ("correlation_id", jopt JStr cid)].
End parsing.

(** ** Lemmas *)

Lemma payload_classes_ok ty cls :
  assoc ty _PAYLOAD_FOR_TYPE = Some cls → class_ok cls = true.
Proof.
  intros Ha%assoc_elem.
  assert (forallb (λ p, class_ok p.2) _PAYLOAD_FOR_TYPE = true) as H by by vm_compute.
  exact (proj1 (forallb_elem _ _) H _ Ha).
Qed.

Lemma MessageType_payload ty : ty ∈ MessageType → ∃ cls, assoc ty _PAYLOAD_FOR_TYPE = Some cls.
Proof.
  intros Ht.
  assert (forallb (λ ty, is_some (assoc ty _PAYLOAD_FOR_TYPE)) MessageType = true) as H
    by by vm_compute.
  apply (proj1 (forallb_elem _ _) H) in Ht.
  clear H. revert Ht. generalize (assoc ty _PAYLOAD_FOR_TYPE). intros [cls|] Ht; [eauto|discriminate].
Qed.

Lemma typed_opt_str v : typed (TOptional str) v = true ↔ ∃ c, v = jopt JStr c.
Proof.
  split; [|intros [[c|] ->]; done].
  destruct v; intros H; try done; [by exists None|]. by eexists (Some _).
Qed.

Lemma envelope_shape e :
  typed MessageEnvelope e = true ↔
  ∃ ty id ts o cid, e = JObj [("type", JStr ty); ("id", JStr id); ("ts", JTime ts);
                              ("payload", JObj o); ("correlation_id", jopt JStr cid)] ∧
    ty ∈ MessageType ∧ typed (TDict TAny) (JObj o) = true.
Proof.
  split.
  - destruct e as [| | | | | | |o]; try done. intros [Hk Ht]%typed_model.
    destruct o as [|[? v1] [|[? v2] [|[? v3] [|[? v4] [|[? v5] [|]]]]]]; try done.
    injection Hk as -> -> -> -> ->.
    apply Forall2_cons in Ht as [H1 Ht]. apply Forall2_cons in Ht as [H2 Ht].
    apply Forall2_cons in Ht as [H3 Ht]. apply Forall2_cons in Ht as [H4 Ht].
    apply Forall2_cons in Ht as [H5 _]. cbn [field_type opt dft req fst snd] in *.
    apply typed_opt_str in H5 as [cid ->].
    destruct v1; try done. destruct v2; try done. destruct v3; try done. destruct v4; try done.
    eexists _, _, _, _, _. split; [done|]. split; [by apply (bool_decide_eq_true_1 _ H1)|done].
  - intros (ty & id & ts & o & cid & -> & Hty & Ho). apply typed_model. split; [done|].
    repeat constructor; simpl; [by apply bool_decide_eq_true_2|done|].
    by apply (typed_opt_str (jopt JStr cid)); eauto.
Qed.

Section frames.
Context {coerce : scalar → json → option json} {isoformat : Z → string}.
Context `{!ScalarLaws coerce isoformat} (env : factories).

Lemma parse_envelope_ok raw e p :
  plain raw = true → parse_envelope coerce env raw = Ok (e, p) →
  ∃ ty id ts o cid cls,
    e = JObj [("type", JStr ty); ("id", JStr id); ("ts", JTime ts);
              ("payload", JObj o); ("correlation_id", jopt JStr cid)]%string ∧
    typed MessageEnvelope e = true ∧ ty ∈ MessageType ∧ assoc ty _PAYLOAD_FOR_TYPE = Some cls ∧
    validate coerce env cls (JObj o) = Some p ∧ typed cls p = true.
Proof using All.
  intros Hp. unfold parse_envelope.
  destruct (validate coerce env MessageEnvelope raw) as [e'|] eqn:He; [|done].
  apply validate_typed in He; [|by vm_compute|done]. pose proof He as Hte.
  apply envelope_shape in He as (ty & id & ts & o & cid & -> & Hty & Ho).
  change (envelope_type _) with ty. change (get_field _ _) with (JObj o).
  destruct (assoc ty _PAYLOAD_FOR_TYPE) as [cls|] eqn:Hc; [|done].
  destruct (validate coerce env cls _) as [p'|] eqn:Hv; [|done]. intros [= <- <-].
  exists ty, id, ts, o, cid, cls. split_and!; [done..|].
  apply (validate_typed env _ (JObj o)); [by eapply payload_classes_ok| |done].
  simpl in Ho |- *. done.
Qed.


Lemma parse_envelope_no_key_error raw :
  plain raw = true → parse_envelope coerce env raw ≠ Raise UnknownTypeKeyError.
Proof using All.
  intros Hp. unfold parse_envelope.
  destruct (validate coerce env MessageEnvelope raw) as [e|] eqn:He; [|done].
  apply validate_typed in He; [|by vm_compute|done].
  apply envelope_shape in He as (ty & id & ts & o & cid & -> & Hty & _).
  change (envelope_type _) with ty.
  destruct (MessageType_payload _ Hty) as [cls ->]. by destruct (validate coerce env cls _).
Qed.

Lemma payload_class_model ty cls : assoc ty _PAYLOAD_FOR_TYPE = Some cls → ∃ fs, cls = TModel fs.
Proof using Type.
  intros Ha%assoc_elem.
  assert (forallb (λ p, match p.2 with TModel _ => true | _ => false end) _PAYLOAD_FOR_TYPE = true)
    as H by by vm_compute.
  pose proof (proj1 (forallb_elem _ _) H _ Ha) as Hm. simpl in Hm.
  destruct cls as [| | | | | | | |[] fs]; try discriminate. eauto.
Qed.

Lemma make_envelope_typed ty cls p id ts cid :
  ty ∈ MessageType → assoc ty _PAYLOAD_FOR_TYPE = Some cls → typed cls p = true →
  ∃ o, to_wire isoformat p = JObj o ∧
       typed MessageEnvelope (make_envelope isoformat ty id ts p cid) = true.
Proof using Type.
  intros Hty Hc Hp. pose proof (payload_classes_ok _ _ Hc) as Hok.
  destruct (payload_class_model _ _ Hc) as [fs ->].
  pose proof (typed_to_wire_plain isoformat _ _ Hok Hp) as Hpl.
  assert (∃ o, to_wire isoformat p = JObj o) as [o Ho] by (destruct p; try done; simpl; eauto).
  exists o. split; [done|]. apply envelope_shape. unfold make_envelope. rewrite Ho in *.
  exists ty, id, ts, o, cid. split_and!; [done..|]. exact Hpl.
Qed.

Lemma parse_made_envelope ty cls p id ts cid :
  ty ∈ MessageType → assoc ty _PAYLOAD_FOR_TYPE = Some cls → typed cls p = true →
  parse_envelope coerce env (to_wire isoformat (make_envelope isoformat ty id ts p cid)) =
    Ok (make_envelope isoformat ty id ts p cid, p).
Proof using All.
  intros Hty Hc Hp. destruct (make_envelope_typed ty cls p id ts cid Hty Hc Hp) as (o & Ho & He).
  unfold parse_envelope. rewrite validate_wire by done.
  change (envelope_type (make_envelope isoformat ty id ts p cid)) with ty. rewrite Hc.
  change (get_field "payload" (make_envelope isoformat ty id ts p cid)) with (to_wire isoformat p).
  by rewrite validate_wire by (done || by eapply payload_classes_ok).
Qed.
End frames.

(** ** Properties *)

(** C34: whatever JSON document arrives, [parse_envelope] either raises
    [ValidationError] (never [KeyError]: every message type has its class)
    or gives an envelope of a declared type and a payload with exactly the
    fields of that type's class, each of its declared type, in bounds, with
    the defaults filled in. *)
Theorem parse_envelope_typed {coerce isoformat} `{!ScalarLaws coerce isoformat} env raw :
  plain raw = true →
  match parse_envelope coerce env raw with
  | Raise e => e = ValidationError
  | Ok (envelope, payload) =>
      typed MessageEnvelope envelope = true ∧
      ∃ cls, assoc (envelope_type envelope) _PAYLOAD_FOR_TYPE = Some cls ∧
             typed cls payload = true ∧
             validate coerce env cls (get_field "payload" envelope) = Some payload
  end.
Proof.
  intros Hp. destruct (parse_envelope coerce env raw) as [[e p]|[]] eqn:He; [|done|].
  - destruct (parse_envelope_ok env _ _ _ Hp He)
      as (ty & id & ts & o & cid & cls & -> & Hte & Hty & Hc & Hv & Ht).
    split; [done|]. by exists cls.
  - by apply parse_envelope_no_key_error in He.
Qed.

(** C35: an envelope around a payload of its type's class, put on the wire
    and parsed at the other end, gives back that envelope and that payload:
    nothing is lost, renamed or defaulted differently. *)
Theorem envelope_roundtrip {coerce isoformat} `{!ScalarLaws coerce isoformat} env
    ty cls payload id ts cid :
  ty ∈ MessageType → assoc ty _PAYLOAD_FOR_TYPE = Some cls → typed cls payload = true →
  let envelope := make_envelope isoformat ty id ts payload cid in
  plain (to_wire isoformat envelope) = true ∧
  parse_envelope coerce env (to_wire isoformat envelope) = Ok (envelope, payload).
Proof.
  intros Hty Hc Hp envelope.
  destruct (make_envelope_typed (isoformat := isoformat) ty cls payload id ts cid Hty Hc Hp)
    as (o & Ho & He).
  split; [by apply (typed_to_wire_plain isoformat MessageEnvelope)|].
  by apply (parse_made_envelope env ty cls).
Qed.

(** the tables agree.  Every message type goes in exactly one direction
    and has a payload class; every request the backend makes is answered by
    exactly one response type, which answers no other request; script events
    and reports are never taken for responses. *)
Theorem protocol_tables :
  NoDup MessageType ∧
  MessageType ≡ₚ AGENT_TO_BACKEND_TYPES ++ BACKEND_TO_AGENT_TYPES ∧
  MessageType ≡ₚ _PAYLOAD_FOR_TYPE.*1 ∧
  BACKEND_TO_AGENT_TYPES ≡ₚ ["backend.ping"; "backend.ack"]%string ++ RPC_REQUEST_TYPES ∧
  AGENT_TO_BACKEND_TYPES ≡ₚ
    ["agent.heartbeat"; "agent.gpu.telemetry"; "agent.pong"; "agent.reverse_lookup.notify";
     "agent.account_scan.report"; "agent.compliance.violation"]%string ++
    SCRIPT_PUSH_EVENT_TYPES ++ RPC_RESPONSE_TYPES ∧
  Some <$> RPC_RESPONSE_TYPES ≡ₚ RPC_REQUEST_TO_RESPONSE <$> RPC_REQUEST_TYPES.
Proof. split_and!; by apply (bool_decide_eq_true_1 _); vm_compute. Qed.

(** ** Witnesses *)

(** A report with a missing [processes], no id and no timestamp. *)
Definition sample_report : json :=
  JObj [("type", JStr "agent.gpu.telemetry");
        ("payload", JObj [("gpus", JList [JObj [("util_pct", JInt 40); ("gpu_index", JInt 0)]])])]%string.

Definition sample_factories : factories := mkFactories 7000000 "f00d".

Lemma parse_envelope_typed_witness :
  ∃ e p, parse_envelope exact_scalars sample_factories sample_report = Ok (e, p) ∧
         typed MessageEnvelope e = true ∧ typed GpuTelemetry p = true.
Proof.
  pose proof (parse_envelope_typed sample_factories sample_report eq_refl) as H.
  destruct (parse_envelope exact_scalars sample_factories sample_report) as [[e p]|] eqn:E;
    [|by vm_compute in E].
  exists e, p. destruct H as (He & cls & Hc & Hp & _). split; [done|]. split; [done|].
  vm_compute in E. injection E as <- <-. vm_compute in Hc. by injection Hc as <-.
Defined.

Definition sample_cancel : json :=
  JObj [("reservation_id", JInt 11); ("reason", JStr "user_cancel")]%string.

Lemma envelope_roundtrip_witness :
  let envelope := make_envelope decimal_isoformat "backend.script.cancel" "f00d" 7000000
                    sample_cancel None in
  plain (to_wire decimal_isoformat envelope) = true ∧
  parse_envelope exact_scalars sample_factories (to_wire decimal_isoformat envelope) =
    Ok (envelope, sample_cancel).
Proof.
  apply (envelope_roundtrip sample_factories _ CancelScriptRequest);
    [by apply (bool_decide_eq_true_1 _); vm_compute|by vm_compute..].
Defined.
