(* ===== verification/AuditService.v ===== *)
(** The audit log writer and its lab-scoped read surface
    ([backend/corelab_backend/services/audit_service.py]). *)

From S2P Require Import Prelude Models SessionLayer Samples.

(** [AuditScope] *)
Inductive AuditScope : Type := scope_all | scope_server_admin | scope_user.

Record AuditAccessContext : Type := mkAuditAccessContext {
  scope : AuditScope ;
  server_ids : list Z ;
  forced_actor_user_id : option Z }.

Record AuditFilters : Type := mkAuditFilters {
  f_actor_user_id : option Z ;
  f_action : option string ;
  f_target_type : option string ;
  f_target_server_id : option Z ;
  f_created_at_from : option Z ;
  f_created_at_to : option Z }.

Definition no_filters : AuditFilters := mkAuditFilters None None None None None None.

(** ** Writing *)

Definition audit_entry (s : Session) (action : string) (actor_user_id lab_id : option Z)
    (target_type : option string) (target_id target_lab_id target_server_id : option Z)
    (payload : json) (req : RequestInfo) (result_ : string) (error_message : option string) :
    AuditLog.t :=
  AuditLog.mk (Z.of_nat (length (audit_log (db s))) + 1) lab_id actor_user_id action
    target_type target_id target_lab_id target_server_id (Some payload)
    (request_ip req) (user_agent req) result_ error_message (now s).

(** [audit_service.write]: add the entry and flush; a failing flush is
    logged and swallowed, the entry is then lost. *)
Definition write_result (action : string) (actor_user_id lab_id : option Z)
    (target_type : option string) (target_id target_lab_id target_server_id : option Z)
    (payload : json) (req : RequestInfo) (result_ : string) (error_message : option string) :
    M unit := λ s,
  let entry := audit_entry s action actor_user_id lab_id target_type target_id
                 target_lab_id target_server_id payload req result_ error_message in
  match flush (s <| db := db s <| audit_log := audit_log (db s) ++ [entry] |> |>) with
  | (Ok _, s') => (Ok tt, s')
  | (Raise _, _) => (Ok tt, s)
  end.

(** The default outcome. *)
Definition write (action : string) (actor_user_id lab_id : option Z)
    (target_type : option string) (target_id target_lab_id target_server_id : option Z)
    (payload : json) (req : RequestInfo) : M unit :=
  write_result action actor_user_id lab_id target_type target_id target_lab_id target_server_id
    payload req "ok" None.

(** ** Reading *)

(** SQL equality with a nullable column: NULL never compares equal. *)
Definition sql_eq {A} `{EqDecision A} (col : option A) (v : A) : bool := bool_decide (col = Some v).

(** [_apply_scope]: the rows a caller may see, as the WHERE clause built on
    top of [stmt].  [scope_user] asserts that the forced actor is set. *)
Definition _apply_scope (d : Db) (stmt : AuditLog.t → bool) (ctx : AuditAccessContext)
    (lab_id : Z) : result exn (AuditLog.t → bool) :=
  let in_lab e :=
    stmt e &&
    (sql_eq (AuditLog.lab_id e) lab_id ||
     match AuditLog.target_server_id e with
     | Some sid =>
         match servers d !! sid with
         | Some srv => bool_decide (Server.lab_id srv = lab_id)
         | None => false
         end
     | None => false
     end) in
  match scope ctx with
  | scope_all => Ok in_lab
  | scope_server_admin =>
      match server_ids ctx with
      | [] => Ok (λ e, in_lab e && bool_decide (AuditLog.id e = -1))
      | ids => Ok (λ e, in_lab e &&
                   match AuditLog.target_server_id e with
                   | Some sid => bool_decide (sid ∈ ids)
                   | None => false
                   end)
      end
  | scope_user =>
      match forced_actor_user_id ctx with
      | None => Raise AssertionError
      | Some u => Ok (λ e, in_lab e && sql_eq (AuditLog.actor_user_id e) u)
      end
  end.

(** [if f.x is not None: stmt = stmt.where(...)] *)
Definition where_opt {A} (f : option A) (P : A → AuditLog.t → bool)
    (stmt : AuditLog.t → bool) : AuditLog.t → bool :=
  match f with None => stmt | Some a => λ e, stmt e && P a e end.

Definition _apply_filters (stmt : AuditLog.t → bool) (f : AuditFilters) : AuditLog.t → bool :=
  where_opt (f_created_at_to f) (λ t e, bool_decide (AuditLog.created_at e <= t))
  (where_opt (f_created_at_from f) (λ t e, bool_decide (t <= AuditLog.created_at e))
  (where_opt (f_target_server_id f) (λ v e, sql_eq (AuditLog.target_server_id e) v)
  (where_opt (f_target_type f) (λ v e, sql_eq (AuditLog.target_type e) v)
  (where_opt (f_action f) (λ v e, bool_decide (AuditLog.action e = v))
  (where_opt (f_actor_user_id f) (λ v e, sql_eq (AuditLog.actor_user_id e) v) stmt))))).

(** [ORDER BY created_at DESC, id DESC] *)
Definition newest_first (a b : AuditLog.t) : Prop :=
  AuditLog.created_at b < AuditLog.created_at a ∨
  (AuditLog.created_at a = AuditLog.created_at b ∧ AuditLog.id b <= AuditLog.id a).
#[export] Instance newest_first_dec : RelDecision newest_first.
Proof. intros a b. unfold newest_first. apply _. Defined.

(** The dict built by [_serialise]. *)
Record AuditItem : Type := mkAuditItem {
  item_id : Z ;
  item_actor : option (Z * option string) ;   (* [{id, username}] *)
  item_action : string ;
  item_target_type : option string ;
  item_target_id : option Z ;
  item_target_server_id : option Z ;
  item_payload : option json ;
  item_ip_address : option string ;
  item_result : string ;
  item_created_at : Z }.

Definition _serialise (row : AuditLog.t) (actor_map : gmap Z User.t) : AuditItem :=
  mkAuditItem (AuditLog.id row)
    ((λ u, (u, User.username <$> actor_map !! u)) <$> AuditLog.actor_user_id row)
    (AuditLog.action row) (AuditLog.target_type row) (AuditLog.target_id row)
    (AuditLog.target_server_id row) (AuditLog.payload row) (AuditLog.ip_address row)
    (AuditLog.audit_result row) (AuditLog.created_at row).

(** [select(User).where(User.id.in_(actor_ids))], keyed by id. *)
Definition actor_map_of (d : Db) (rs : list AuditLog.t) : gmap Z User.t :=
  filter (λ '(k, _), k ∈ omap AuditLog.actor_user_id rs) (users d).

Definition slice {A} (offset limit : Z) (l : list A) : list A :=
  take (Z.to_nat limit) (drop (Z.to_nat offset) l).

(** [list_logs]: one page and the total. *)
Definition list_logs (lab_id : Z) (ctx : AuditAccessContext) (filters : AuditFilters)
    (page size : Z) : M (list AuditItem * Z) := λ s,
  match _apply_scope (db s) (λ _, true) ctx lab_id with
  | Raise e => (Raise e, s)
  | Ok base0 =>
      let base := _apply_filters base0 filters in
      let matching := filter (λ e, base e = true) (audit_log (db s)) in
      let total := Z.of_nat (length matching) in
      let offset := (page - 1) * size in
      let rs := slice offset size (merge_sort newest_first matching) in
      let actor_map := actor_map_of (db s) rs in
      (Ok ((λ r, _serialise r actor_map) <$> rs, total), s)
  end.

(** [get_log] *)
Definition get_log (audit_id lab_id : Z) (ctx : AuditAccessContext) : M (option AuditItem) := λ s,
  match _apply_scope (db s) (λ e, bool_decide (AuditLog.id e = audit_id)) ctx lab_id with
  | Raise e => (Raise e, s)
  | Ok stmt =>
      match head (filter (λ e, stmt e = true) (audit_log (db s))) with
      | None => (Ok None, s)
      | Some row =>
          let actor := AuditLog.actor_user_id row ≫= λ u, users (db s) !! u in
          (Ok (Some (_serialise row
                 (match actor with Some u => {[User.id u := u]} | None => ∅ end))), s)
      end
  end.

(** What a caller is entitled to see (docs/05 section 3.17): a row of the
    caller's lab (by its own lab, or through the target server), narrowed to
    the caller's servers or to the caller's own actions. *)
Definition may_see (d : Db) (ctx : AuditAccessContext) (lab : Z) (e : AuditLog.t) : Prop :=
  (AuditLog.lab_id e = Some lab ∨
   ∃ sid srv, AuditLog.target_server_id e = Some sid ∧ servers d !! sid = Some srv ∧
              Server.lab_id srv = lab) ∧
  match scope ctx with
  | scope_all => True
  | scope_server_admin => ∃ sid, AuditLog.target_server_id e = Some sid ∧ sid ∈ server_ids ctx
  | scope_user => AuditLog.actor_user_id e = forced_actor_user_id ctx
  end.

(** The log only grows. *)
Definition audit_extends (d d' : Db) : Prop :=
  ∃ new, audit_log d' = audit_log d ++ new.

(** ** Lemmas *)

#[export] Instance audit_extends_PreOrder : PreOrder audit_extends.
Proof.
  split.
  - intros d. exists []. by rewrite app_nil_r.
  - intros d1 d2 d3 [n1 H1] [n2 H2]. exists (n1 ++ n2). by rewrite H2, H1, app_assoc.
Qed.

(** On a clean session the write succeeds and touches nothing else. *)
Lemma write_result_run action actor lab tt_ ti tl ts payload req res err s :
  clean s →
  write_result action actor lab tt_ ti tl ts payload req res err s =
    (Ok tt, s <| db := db s <| audit_log := audit_log (db s) ++
       [audit_entry s action actor lab tt_ ti tl ts payload req res err] |> |>).
Proof. intros Hc. unfold write_result. by rewrite flush_clean. Qed.

Lemma write_run action actor lab tt_ ti tl ts payload req s :
  clean s →
  write action actor lab tt_ ti tl ts payload req s =
    (Ok tt, s <| db := db s <| audit_log := audit_log (db s) ++
       [audit_entry s action actor lab tt_ ti tl ts payload req "ok" None] |> |>).
Proof. apply write_result_run. Qed.

(** A relation that does not look at the audit log. *)
Class LogFree (R : relation Db) : Prop := log_free d l : R d (d <| audit_log := l |>).

#[export] Instance moves_write_result (R : relation Db) `{!LogFree R} a b c d e f g p req x y :
  Moves R (write_result a b c d e f g p req x y).
Proof. intros s r s' Hc. rewrite write_result_run by done. intros [= <- <-]. split; [done|]. split; [done|]. apply log_free. Qed.

#[export] Instance moves_write (R : relation Db) `{!LogFree R} a b c d e f g p req :
  Moves R (write a b c d e f g p req).
Proof. apply moves_write_result, _. Qed.

(** The lab restriction every caller gets. *)
Lemma in_lab_spec d lab e :
  (sql_eq (AuditLog.lab_id e) lab ||
   match AuditLog.target_server_id e with
   | Some sid => match servers d !! sid with
                 | Some srv => bool_decide (Server.lab_id srv = lab)
                 | None => false
                 end
   | None => false
   end) = true ↔
  (AuditLog.lab_id e = Some lab ∨
   ∃ sid srv, AuditLog.target_server_id e = Some sid ∧ servers d !! sid = Some srv ∧
              Server.lab_id srv = lab).
Proof.
  unfold sql_eq. rewrite orb_true_iff, bool_decide_eq_true. apply or_iff_compat_l.
  destruct (AuditLog.target_server_id e) as [sid|].
  2:{ split; [done|]. by intros (? & ? & ? & _). }
  destruct (servers d !! sid) as [srv|] eqn:Hs.
  - rewrite bool_decide_eq_true. split; [by eauto|]. intros (? & ? & [= <-] & ? & ?). congruence.
  - split; [done|]. intros (? & ? & [= <-] & ? & _). congruence.
Qed.

Lemma _apply_scope_spec d stmt ctx lab P e :
  _apply_scope d stmt ctx lab = Ok P → AuditLog.id e ≠ -1 →
  P e = true ↔ stmt e = true ∧ may_see d ctx lab e.
Proof.
  intros H Hneg. pose proof (in_lab_spec d lab e) as Hlab. unfold _apply_scope, may_see in *.
  set (il := _ || _) in Hlab. rewrite <- Hlab. clear Hlab. destruct (scope ctx).
  - injection H as <-. fold il. rewrite andb_true_iff. tauto.
  - destruct (server_ids ctx) as [|i ids]; injection H as <-; fold il; rewrite !andb_true_iff.
    + rewrite bool_decide_eq_true. split; [by intros [_ ?]|].
      by intros (_ & _ & ? & _ & ?%elem_of_nil).
    + destruct (AuditLog.target_server_id e) as [sid|].
      * rewrite bool_decide_eq_true. split; [by intros [[? ?] ?]; eauto|].
        intros (? & ? & ? & [= <-] & ?). done.
      * split; [by intros [_ ?]|]. by intros (_ & _ & ? & ? & _).
  - destruct (forced_actor_user_id ctx); [|done]. injection H as <-. fold il.
    unfold sql_eq. rewrite !andb_true_iff, bool_decide_eq_true. tauto.
Qed.

(** What the filters ask for. *)
Definition matches (f : AuditFilters) (e : AuditLog.t) : Prop :=
  (∀ v, f_actor_user_id f = Some v → AuditLog.actor_user_id e = Some v) ∧
  (∀ v, f_action f = Some v → AuditLog.action e = v) ∧
  (∀ v, f_target_type f = Some v → AuditLog.target_type e = Some v) ∧
  (∀ v, f_target_server_id f = Some v → AuditLog.target_server_id e = Some v) ∧
  (∀ t, f_created_at_from f = Some t → t <= AuditLog.created_at e) ∧
  (∀ t, f_created_at_to f = Some t → AuditLog.created_at e <= t).

Lemma where_opt_spec {A} (f : option A) (P : A → AuditLog.t → bool) (Q : A → Prop) stmt e :
  (∀ a, P a e = true ↔ Q a) →
  where_opt f P stmt e = true ↔ stmt e = true ∧ ∀ a, f = Some a → Q a.
Proof.
  intros H. unfold where_opt. destruct f as [a|]; [rewrite andb_true_iff, H|]; naive_solver.
Qed.

Lemma _apply_filters_spec stmt f e :
  _apply_filters stmt f e = true ↔ stmt e = true ∧ matches f e.
Proof.
  unfold _apply_filters, matches, sql_eq.
  repeat (rewrite where_opt_spec by (intros; apply bool_decide_eq_true)). tauto.
Qed.

#[export] Instance newest_first_total : Total newest_first.
Proof. intros a b. unfold newest_first. lia. Qed.

#[export] Instance newest_first_trans : Transitive newest_first.
Proof. intros a b c. unfold newest_first. lia. Qed.

(** A context the endpoints build: a plain user is always pinned to itself. *)
Definition ctx_valid (ctx : AuditAccessContext) : Prop :=
  scope ctx = scope_user → is_Some (forced_actor_user_id ctx).

Lemma _apply_scope_total d stmt ctx lab :
  ctx_valid ctx → ∃ P, _apply_scope d stmt ctx lab = Ok P.
Proof.
  unfold ctx_valid, _apply_scope. destruct (scope ctx); [by eexists|..].
  - destruct (server_ids ctx); by eexists.
  - intros H. destruct (H eq_refl) as [u ->]. by eexists.
Qed.

(** The rows behind all the pages of one listing, newest first. *)
Definition listing (d : Db) (lab : Z) (ctx : AuditAccessContext) (f : AuditFilters)
    (l : list AuditLog.t) : Prop :=
  Sorted newest_first l ∧
  ∃ Q : AuditLog.t → bool, l ≡ₚ filter (λ e, Q e = true) (audit_log d) ∧
    ∀ e, e ∈ audit_log d → Q e = true ↔ may_see d ctx lab e ∧ matches f e.

(** Audit ids come from an AUTO_INCREMENT column. *)
Definition audit_ids_ok (d : Db) : Prop := ∀ e, e ∈ audit_log d → 0 < AuditLog.id e.

Lemma list_logs_run lab ctx f s :
  ctx_valid ctx → audit_ids_ok (db s) →
  ∃ l, listing (db s) lab ctx f l ∧
    ∀ page size, ∃ items, list_logs lab ctx f page size s = (Ok (items, Z.of_nat (length l)), s) ∧
      item_id <$> items = AuditLog.id <$> slice ((page - 1) * size) size l.
Proof.
  intros Hctx Hids. destruct (_apply_scope_total (db s) (λ _, true) ctx lab Hctx) as [P HP].
  set (m := filter (λ e, _apply_filters P f e = true) (audit_log (db s))).
  exists (merge_sort newest_first m). split.
  - split; [apply Sorted_merge_sort; apply _|]. exists (_apply_filters P f).
    split; [apply merge_sort_Permutation|]. intros e He. rewrite _apply_filters_spec.
    rewrite (_apply_scope_spec _ _ _ _ _ e HP); [tauto|]. specialize (Hids e He). lia.
  - intros page size. eexists. unfold list_logs. rewrite HP. fold m. cbv zeta. split.
    + rewrite (Permutation_length (merge_sort_Permutation newest_first m)). reflexivity.
    + rewrite <- list_fmap_compose. by apply list_fmap_ext.
Qed.

Lemma slice_page {A} (l : list A) size n :
  0 <= size → slice (Z.of_nat n * size) size l = take (Z.to_nat size) (drop (n * Z.to_nat size) l).
Proof. intros H. unfold slice. repeat f_equal. lia. Qed.

(** Pages laid end to end. *)
Lemma pages_concat {A} (l : list A) size n :
  0 <= size →
  concat ((λ p, slice (Z.of_nat p * size) size l) <$> seq 0 n) = take (n * Z.to_nat size) l.
Proof.
  intros Hs. induction n as [|n IH]; [done|].
  rewrite seq_S, fmap_app, concat_app, IH. simpl. rewrite app_nil_r, slice_page by done.
  rewrite take_take_drop. f_equal. lia.
Qed.

(** *** Properties *)

(** the audit listing is sound and complete: for every page size the
    pages 1, 2, ... laid end to end are, newest first, exactly the entries the
    caller may see (its lab; a server administrator its servers; a plain user
    its own actions) that match the filters, each once, and every page reports
    their total number. *)
Theorem list_logs_spec lab ctx f s size n :
  ctx_valid ctx → audit_ids_ok (db s) → 0 <= size →
  ∃ l, listing (db s) lab ctx f l ∧
    (∀ page, ∃ items, list_logs lab ctx f page size s = (Ok (items, Z.of_nat (length l)), s)) ∧
    (Z.of_nat (length l) <= Z.of_nat n * size →
     concat ((λ p, match (list_logs lab ctx f (Z.of_nat p + 1) size s).1 with
                   | Ok (items, _) => item_id <$> items
                   | Raise _ => []
                   end) <$> seq 0 n) = AuditLog.id <$> l).
Proof.
  intros Hctx Hids Hsz. destruct (list_logs_run lab ctx f s Hctx Hids) as (l & Hl & Hrun).
  exists l. split; [done|]. split.
  - intros page. destruct (Hrun page size) as (items & H & _). eauto.
  - intros Hn. rewrite (list_fmap_ext _ (λ p, AuditLog.id <$> slice (Z.of_nat p * size) size l)).
    + trans (AuditLog.id <$> concat ((λ p, slice (Z.of_nat p * size) size l) <$> seq 0 n)).
      * trans (concat (fmap AuditLog.id <$> ((λ p, slice (Z.of_nat p * size) size l) <$> seq 0 n))).
        { by rewrite <- list_fmap_compose. }
        symmetry. apply List.concat_map.
      * rewrite pages_concat by done. f_equal. apply take_ge. lia.
    + intros i p _. destruct (Hrun (Z.of_nat p + 1) size) as (items & -> & H). simpl. rewrite H.
      do 2 f_equal. lia.
Qed.

(** a single audit entry is shown exactly when it exists and the caller
    may see it; otherwise the answer is the same as for an unknown id. *)
Theorem get_log_spec audit_id lab ctx s :
  ctx_valid ctx → audit_ids_ok (db s) → NoDup (AuditLog.id <$> audit_log (db s)) →
  ∃ o, get_log audit_id lab ctx s = (Ok o, s) ∧
    (∀ it, o = Some it → item_id it = audit_id) ∧
    (is_Some o ↔ ∃ e, e ∈ audit_log (db s) ∧ AuditLog.id e = audit_id ∧ may_see (db s) ctx lab e).
Proof.
  intros Hctx Hids Hnd.
  destruct (_apply_scope_total (db s) (λ e, bool_decide (AuditLog.id e = audit_id)) ctx lab Hctx) as [P HP].
  assert (Hsel : ∀ e, e ∈ filter (λ e, P e = true) (audit_log (db s)) ↔
    e ∈ audit_log (db s) ∧ AuditLog.id e = audit_id ∧ may_see (db s) ctx lab e).
  { intros e. rewrite list_elem_of_filter. split.
    - intros [HPe He]. rewrite (_apply_scope_spec _ _ _ _ _ e HP), bool_decide_eq_true in HPe by (specialize (Hids e He); lia). tauto.
    - intros (He & Hid & Hsee). split; [|done]. rewrite (_apply_scope_spec _ _ _ _ _ e HP), bool_decide_eq_true by (specialize (Hids e He); lia). tauto. }
  unfold get_log. rewrite HP. destruct (head _) as [e|] eqn:Hh.
  - apply head_Some_elem_of, Hsel in Hh. eexists. split; [reflexivity|]. split.
    + intros it [= <-]. simpl. by destruct Hh as (_ & ? & _).
    + split; [intros _; by exists e|by eexists].
  - eexists. split; [reflexivity|]. split; [done|]. split; [by intros []|].
    intros (e & He). apply Hsel in He. destruct (filter _ _); [by apply elem_of_nil in He|done].
Qed.

(** Three actions, two of them by alice, one on another lab's server. *)
Definition audit_sample : Session :=
  let entry id lab actor t :=
    AuditLog.mk id (Some lab) (Some actor) "reservation.create" (Some "reservation"%string)
      (Some id) (Some lab) (Some 1) None None None "ok" None t in
  open_session (sample_db [] <| audit_log := [entry 1 1 10 5; entry 2 1 11 6; entry 3 1 10 7] |>)
    100 "".

Definition own_actions : AuditAccessContext := mkAuditAccessContext scope_user [] (Some 10).

Example list_logs_spec_witness :
  (∃ l, listing (db audit_sample) 1 own_actions no_filters l ∧
    (∀ page, ∃ items, list_logs 1 own_actions no_filters page 1 audit_sample =
                        (Ok (items, Z.of_nat (length l)), audit_sample)) ∧
    (Z.of_nat (length l) <= Z.of_nat 2 * 1 →
     concat ((λ p, match (list_logs 1 own_actions no_filters (Z.of_nat p + 1) 1 audit_sample).1 with
                   | Ok (items, _) => item_id <$> items
                   | Raise _ => []
                   end) <$> seq 0 2) = AuditLog.id <$> l)) ∧
  (list_logs 1 own_actions no_filters 1 1 audit_sample).1 =
    Ok ([mkAuditItem 3 (Some (10, Some "alice"%string)) "reservation.create"
           (Some "reservation"%string) (Some 3) (Some 1) None None "ok" 7], 2).
Proof.
  split; [|vm_compute; reflexivity].
  apply (list_logs_spec 1 own_actions no_filters audit_sample 1 2).
  - intros _. by eexists.
  - intros e He. repeat (apply elem_of_cons in He as [->|He]; [done|]). by apply elem_of_nil in He.
  - lia.
Defined.

Example get_log_spec_witness :
  ∃ o, get_log 1 1 own_actions audit_sample = (Ok o, audit_sample) ∧
    (∀ it, o = Some it → item_id it = 1) ∧
    (is_Some o ↔ ∃ e, e ∈ audit_log (db audit_sample) ∧ AuditLog.id e = 1 ∧
                      may_see (db audit_sample) own_actions 1 e).
Proof.
  apply (get_log_spec 1 1 own_actions audit_sample).
  - intros _. by eexists.
  - intros e He. repeat (apply elem_of_cons in He as [->|He]; [done|]). by apply elem_of_nil in He.
  - apply (bool_decide_unpack _). vm_compute. exact I.
Defined.
