(* ===== verification/NotificationService.v ===== *)
(** User notifications: dedup, persist, push
    ([backend/corelab_backend/services/notification_service.py]). *)

From S2P Require Import Prelude Models SessionLayer Samples.

Definition DEFAULT_DEDUP_WINDOW_SECONDS : Z := 60.

(** [_DEDUP_PK_KEYS]: the payload key that identifies the entity a
    notification is about; other types are never deduplicated. *)
Definition _DEDUP_PK_KEYS (type_ : string) : option string :=
  if bool_decide (type_ ∈ ["reservation.started"; "reservation.completed"; "reservation.failed";
                           "reservation.cancelled_by_other"; "script.started";
                           "script.completed"; "script.failed"; "script.killed"]%string)
  then Some "reservation_id"%string
  else if bool_decide (type_ = "link.prepared"%string) then Some "account_link_request_id"%string
  else None.

(** [payload[key]] / [key in payload] *)
Definition obj_get (key : string) (o : list (string * json)) : option json :=
  snd <$> head (filter (λ kv, kv.1 = key) o).

(** [json_unquote(json_extract(payload, '$.key'))] on the scalar the
    services store under a dedup key. *)
Definition json_unquote (j : json) : option string :=
  match j with
  | JInt z => Some (pretty z)
  | JStr s => Some s
  | _ => None
  end.

(** The text under a key of a stored payload, if it has one. *)
Definition payload_text (n : Notification.t) (pk_key : string) : option string :=
  match Notification.payload n with
  | Some p => match obj_get pk_key p with Some j => json_unquote j | None => None end
  | None => None
  end.

(** [_dedup_hit]: a notification of the same recipient, type and entity
    created in the last [window_seconds]. *)
Definition _dedup_hit (recipient_user_id : Z) (type_ : string) (payload_pk_value : json)
    (pk_key : string) (window_seconds : Z) : M (option Notification.t) :=
  gets (λ s,
    let cutoff := now s - seconds window_seconds in
    head (filter (λ n,
      Notification.recipient_user_id n = recipient_user_id ∧
      Notification.ntype n = type_ ∧
      cutoff <= Notification.created_at n ∧
      is_some (json_unquote payload_pk_value) = true ∧
      payload_text n pk_key = json_unquote payload_pk_value)
      (notifications (db s)))).

Definition notification_frame (row : Notification.t) : frame :=
  Frame "notification.new"
    [("id", JInt (Notification.id row)); ("type", JStr (Notification.ntype row));
     ("severity", JStr (Notification.severity row)); ("title", JStr (Notification.title row));
     ("body", jopt JStr (Notification.body row));
     ("payload", jopt JObj (Notification.payload row));
     ("cta_url", jopt JStr (Notification.cta_url row));
     ("is_read", JBool (bool_decide (Notification.is_read row ≠ 0)));
     ("created_at", JTime (Notification.created_at row))]%string.

(** [session.add(row); flush()] *)
Definition append_notification (mk_row : Z → Z → Notification.t) : M Notification.t :=
  λ s, let row := mk_row (Z.of_nat (length (notifications (db s))) + 1) (now s) in
       (Ok row, s <| db := db s <| notifications := notifications (db s) ++ [row] |> |>).

Definition insert_notification (mk_row : Z → Z → Notification.t) : M Notification.t :=
  flush ;; append_notification mk_row.

(** [create_notification]: return the recent duplicate if there is one;
    otherwise insert, then push the frame. *)
Definition create_notification (recipient_user_id : Z) (type_ severity title : string)
    (body : option string) (payload : option (list (string * json))) (cta_url : option string)
    (dedup_window_seconds : Z) : M Notification.t :=
  existing ← match _DEDUP_PK_KEYS type_, payload with
             | Some pk_key, Some ((_ :: _) as p) =>
                 match obj_get pk_key p with
                 | Some v => _dedup_hit recipient_user_id type_ v pk_key dedup_window_seconds
                 | None => mret None
                 end
             | _, _ => mret None
             end ;
  match existing with
  | Some n => mret n
  | None =>
      row ← insert_notification (λ id created_at,
              Notification.mk id recipient_user_id type_ severity title body payload cta_url
                0 created_at) ;
      push_to_user recipient_user_id (notification_frame row) ;;
      mret row
  end.

(** ** Lemmas *)

(** The effect of a call on a clean session: the row found, or the row
    inserted and pushed; nothing else changes. *)
Definition notified (s : Session) (row : Notification.t) (s' : Session) : Prop :=
  s' = s ∨
  s' = s <| db := db s <| notifications := notifications (db s) ++ [row] |> |>
         <| pushed := pushed s ++ [(Notification.recipient_user_id row, notification_frame row)] |>.

(** The recent duplicate [create_notification] looks for. *)
Definition recent_duplicate (s : Session) (recipient : Z) (type_ : string)
    (payload : option (list (string * json))) (w : Z) : option Notification.t :=
  match _DEDUP_PK_KEYS type_, payload ≫= obj_get (default "" (_DEDUP_PK_KEYS type_)) with
  | Some k, Some v =>
      head (filter (λ n, Notification.recipient_user_id n = recipient ∧
                         Notification.ntype n = type_ ∧
                         now s - seconds w <= Notification.created_at n ∧
                         is_some (json_unquote v) = true ∧
                         payload_text n k = json_unquote v) (notifications (db s)))
  | _, _ => None
  end.

Lemma create_notification_exact recipient type_ severity title body payload cta w s :
  clean s →
  create_notification recipient type_ severity title body payload cta w s =
    match recent_duplicate s recipient type_ payload w with
    | Some n => (Ok n, s)
    | None =>
        let row := Notification.mk (Z.of_nat (length (notifications (db s))) + 1) recipient type_
                     severity title body payload cta 0 (now s) in
        (Ok row, s <| db := db s <| notifications := notifications (db s) ++ [row] |> |>
                   <| pushed := pushed s ++ [(recipient, notification_frame row)] |>)
    end.
Proof.
  intros Hc. unfold create_notification, recent_duplicate.
  set (look := match _DEDUP_PK_KEYS type_ with Some _ => _ | None => mret None end).
  assert (Hlook : look s = (Ok (recent_duplicate s recipient type_ payload w), s)).
  { unfold look, recent_duplicate. destruct (_DEDUP_PK_KEYS type_) as [k|]; [|done].
    destruct payload as [[|kv p]|]; [done| |done]. simpl default. cbn [mbind option_bind].
    by destruct (obj_get k (kv :: p)). }
  rewrite (bind_run _ _ _ _ _ Hlook). fold (recent_duplicate s recipient type_ payload w).
  destruct (recent_duplicate s recipient type_ payload w) as [n|]; [done|].
  unfold insert_notification.
  by rewrite (bind_run (flush ;; _) _ s _ _ (bind_run _ _ _ _ _ (flush_clean s Hc))).
Qed.

(** A relation that does not look at the notifications. *)
Class NoteFree (R : relation Db) : Prop := note_free d l : R d (d <| notifications := l |>).

#[export] Instance moves_create_notification (R : relation Db) `{!PreOrder R, !NoteFree R} a b c d e f g w :
  Moves R (create_notification a b c d e f g w).
Proof.
  intros s r s' Hc. rewrite create_notification_exact by done.
  destruct (recent_duplicate _ _ _ _ _); intros [= <- <-]; [done|]. split; [done|]. split; [done|]. apply note_free.
Qed.

Lemma create_notification_run recipient type_ severity title body payload cta w s :
  clean s →
  ∃ row s', create_notification recipient type_ severity title body payload cta w s = (Ok row, s') ∧
            notified s row s' ∧ Notification.recipient_user_id row = recipient ∧
            Notification.ntype row = type_.
Proof.
  intros Hc. rewrite create_notification_exact by done.
  destruct (recent_duplicate s recipient type_ payload w) as [n|] eqn:Hd; cbv zeta.
  - exists n, s. split; [done|]. split; [by left|]. unfold recent_duplicate in Hd.
    repeat (case_match; [|done]). apply head_Some_elem_of, list_elem_of_filter in Hd. naive_solver.
  - eexists _, _. split; [reflexivity|]. split_and!; [by right|done..].
Qed.

(** The recipient has the notification, new or a moment old. *)
Lemma create_notification_told recipient type_ severity title body payload cta w s res s' :
  clean s → create_notification recipient type_ severity title body payload cta w s = (res, s') →
  ∃ row, res = Ok row ∧ row ∈ notifications (db s') ∧ Notification.recipient_user_id row = recipient ∧
         Notification.ntype row = type_ ∧ notified s row s'.
Proof.
  intros Hc. rewrite create_notification_exact by done.
  destruct (recent_duplicate s recipient type_ payload w) as [n|] eqn:Hd; cbv zeta; intros [= <- <-].
  - exists n. split; [done|]. unfold recent_duplicate in Hd.
    repeat (case_match; [|done]). apply head_Some_elem_of, list_elem_of_filter in Hd.
    destruct Hd as [(? & ? & _) Hin]. split; [done|]. split; [done|]. split; [done|]. by left.
  - eexists. split; [reflexivity|]. split; [apply elem_of_app; right; left|]. split; [done|]. split; [done|]. by right.
Qed.

(** Two notifications about the same event of the same entity. *)
Definition same_subject (a b : Notification.t) : Prop :=
  Notification.recipient_user_id a = Notification.recipient_user_id b ∧
  Notification.ntype a = Notification.ntype b ∧
  ∃ k v, _DEDUP_PK_KEYS (Notification.ntype b) = Some k ∧
         payload_text a k = Some v ∧ payload_text b k = Some v.

(** They are further apart than the window. *)
Definition spaced : Z → list Notification.t → Prop :=
  spaced_by same_subject Notification.created_at.

Lemma recent_duplicate_spaced s recipient type_ sev title body payload cta w id a :
  recent_duplicate s recipient type_ payload w = None →
  a ∈ notifications (db s) →
  same_subject a (Notification.mk id recipient type_ sev title body payload cta 0 (now s)) →
  Notification.created_at a + seconds w < now s.
Proof.
  unfold recent_duplicate. intros Hnone Ha (Hr & Ht & k & v & Hk & Hav & Hbv). simpl in *.
  rewrite Hk in Hnone. unfold payload_text in Hbv. simpl in Hbv.
  destruct payload as [p|]; [|done]. simpl in Hnone.
  destruct (obj_get k p) as [j|]; [|done].
  destruct (Z.lt_ge_cases (Notification.created_at a + seconds w) (now s)) as [?|Hge]; [done|].
  exfalso. apply head_None in Hnone.
  assert (Hin : a ∈ filter (λ n, Notification.recipient_user_id n = recipient ∧
      Notification.ntype n = type_ ∧ now s - seconds w <= Notification.created_at n ∧
      is_some (json_unquote j) = true ∧ payload_text n k = json_unquote j)
      (notifications (db s))).
  { apply list_elem_of_filter. split; [|done]. rewrite Hbv. split_and!; [done|done|lia|done|done]. }
  rewrite Hnone in Hin. by apply elem_of_nil in Hin.
Qed.

(** *** Properties *)

(** a call either finds a notification of the same
    recipient, type and entity inside the window, and then stores and pushes
    nothing, or stores exactly one unread row and pushes exactly its frame.
    So the stored notifications about one event are always further apart than
    the window, whatever sequence of calls made them. *)
Theorem create_notification_spec recipient type_ severity title body payload cta w s :
  clean s → spaced w (notifications (db s)) →
  wp (create_notification recipient type_ severity title body payload cta w) (λ res s',
    spaced w (notifications (db s')) ∧
    match recent_duplicate s recipient type_ payload w with
    | Some n => res = Ok n ∧ s' = s
    | None =>
        ∃ row, res = Ok row ∧
          row = Notification.mk (Z.of_nat (length (notifications (db s))) + 1) recipient type_
                  severity title body payload cta 0 (now s) ∧
          s' = s <| db := db s <| notifications := notifications (db s) ++ [row] |> |>
                 <| pushed := pushed s ++ [(recipient, notification_frame row)] |>
    end) s.
Proof.
  intros Hc Hsp. unfold wp. rewrite create_notification_exact by done.
  destruct (recent_duplicate s recipient type_ payload w) as [n|] eqn:Hd; [done|].
  cbv zeta. split; [|eauto]. simpl. apply spaced_by_snoc; [done|].
  intros a Ha Hs. by eapply recent_duplicate_spaced.
Qed.

(** One "started" notification, ten seconds old. *)
Definition notify_sample : Session :=
  let n := Notification.mk 1 10 "reservation.started" "info" "started" None
             (Some [("reservation_id"%string, JInt 100)]) None 0 0 in
  open_session (sample_db [] <| notifications := [n] |>) 10000000 "".

Example create_notification_spec_witness :
  wp (create_notification 10 "reservation.started" "info" "again" None
        (Some [("reservation_id"%string, JInt 100)]) None DEFAULT_DEDUP_WINDOW_SECONDS) (λ res s',
    spaced DEFAULT_DEDUP_WINDOW_SECONDS (notifications (db s')) ∧
    ∃ n, res = Ok n ∧ Notification.id n = 1 ∧ s' = notify_sample) notify_sample.
Proof.
  assert (Hsp : spaced DEFAULT_DEDUP_WINDOW_SECONDS (notifications (db notify_sample))).
  { intros i j a b Hij Ha Hb. apply lookup_lt_Some in Hb. simpl in Hb. lia. }
  pose proof (create_notification_spec 10 "reservation.started" "info" "again" None
    (Some [("reservation_id"%string, JInt 100)]) None DEFAULT_DEDUP_WINDOW_SECONDS notify_sample
    eq_refl Hsp) as [H1 [H2 H3]].
  split; [exact H1|]. eexists. split; [exact H2|]. split; [vm_compute; reflexivity|exact H3].
Defined.
