(* ===== verification/ReservationService.v ===== *)
(** Booking: validation, the conflict matrix, preview and creation
    ([backend/corelab_backend/services/reservation_service.py], first half;
    [ReservationLifecycle] has the rest). *)

From S2P Require Import Prelude Models SessionLayer AuditService.

Definition SCRIPT_MAX_BYTES : Z := 4096.
Definition SCRIPT_LOG_TAIL_MAX_CHARS : Z := 65536.

Definition ACTIVE_STATUSES : list ReservationStatus := [STATUS_SCHEDULED; STATUS_ACTIVE].
Definition TERMINAL_STATUSES : list ReservationStatus :=
  [STATUS_COMPLETED; STATUS_CANCELLED; STATUS_FAILED].

(** [_ALLOWED_TRANSITIONS] *)
Definition _ALLOWED_TRANSITIONS (s : ReservationStatus) : list ReservationStatus :=
  match s with
  | STATUS_SCHEDULED => [STATUS_ACTIVE; STATUS_CANCELLED]
  | STATUS_ACTIVE => [STATUS_COMPLETED; STATUS_FAILED; STATUS_CANCELLED]
  | STATUS_COMPLETED => []
  | STATUS_CANCELLED => []
  | STATUS_FAILED => []
  end.

(** [_ALLOWED_SCRIPT_TRANSITIONS]; [None] is "not yet fired". *)
Definition _ALLOWED_SCRIPT_TRANSITIONS (s : option ScriptStatus) : list ScriptStatus :=
  match s with
  | None => [SCRIPT_RUNNING]
  | Some SCRIPT_RUNNING => [SCRIPT_COMPLETED; SCRIPT_FAILED; SCRIPT_KILLED]
  | Some _ => []
  end.

(** [ItemDraft]: one row's worth of input; [gpu_id = None] is a task that
    occupies no GPU.  The datetimes of a booking or preview request are taken
    to be in UTC, all of them with its zone, as the browser writes them: such a
    datetime is its instant.  (Requests that mix zones are left out here; what
    they do to an edit is in [ReservationLifecycle.modify_reservation].) *)
Record ItemDraft : Type := mkItemDraft {
  d_server_id : Z ;
  d_gpu_id : option Z ;
  d_start_at : Z ;
  d_end_at : Z ;
  d_account_link_id : Z ;
  d_gpu_memory_mb : option Z ;
  d_gpu_compute_share_pct : option Z }.

Inductive ConflictType : Type :=
| exclusive_conflict | memory_exceeded | mix_exclusive_shared | compute_exceeded
| time_too_long | invalid_time.
#[export] Instance ConflictType_eq_dec : EqDecision ConflictType.
Proof. solve_decision. Defined.

(** The [memory], [compute] and [time] dicts of a record, as tuples
    (used, would_use, total, exceeds_by), (used, would_use, exceeds_by),
    (max_hours, requested).  A requested duration is kept in microseconds;
    the code divides it by 3600 s into (rounded) hours for display. *)
Record ConflictRecord : Type := mkConflictRecord {
  input_index : Z ;
  ctype : ConflictType ;
  conflicting_reservation_ids : list Z ;
  c_memory : option (Z * Z * Z * Z) ;
  c_compute : option (Z * Z * Z) ;
  c_time : option (option Z * Z) }.
#[export] Instance eta_ConflictRecord : Eta ConflictRecord := λ c,
  mkConflictRecord (input_index c) (ctype c) (conflicting_reservation_ids c)
    (c_memory c) (c_compute c) (c_time c).

Record TimeLimitCheck : Type := mkTimeLimitCheck {
  t_input_index : Z ;
  t_max_hours : option Z ;
  t_requested : Z ;
  t_would_exceed : bool }.

Record PreviewResult : Type := mkPreviewResult {
  conflicts : list ConflictRecord ;
  time_limit_checks : list TimeLimitCheck }.

(** ** Validation *)

Definition _load_link_or_raise (account_link_id user_id : Z) : M AccountLink.t :=
  link ← get_link account_link_id ;
  match link with
  | None => raise NoActiveLinkError
  | Some l =>
      raise_if (negb (bool_decide (AccountLink.is_active l = 1)) ||
                negb (bool_decide (AccountLink.user_id l = user_id))) NoActiveLinkError ;;
      raise_if (bool_decide (AccountLink.source l = admin_declared)) LinkNotVerifiedError ;;
      mret l
  end.

(** Does [end_at - start_at] exceed [max_hours]? *)
Definition exceeds_hours (max_hours : option Z) (requested : Z) : bool :=
  match max_hours with Some h => bool_decide (hours h < requested) | None => false end.

Definition _validate_item_time (item : ItemDraft) (at_ : Z) : M Server.t :=
  raise_if (bool_decide (d_end_at item <= d_start_at item)) InvalidTimeError ;;
  raise_if (bool_decide (d_start_at item < at_ - minutes 5)) InvalidTimeError ;;
  o ← get_server (d_server_id item) ;
  server ← some_or_raise o InvalidTimeError ;
  let requested := d_end_at item - d_start_at item in
  raise_if (exceeds_hours (Server.max_reservation_hours server) requested)
    (ReservationTooLongError (or0 (Server.max_reservation_hours server)) requested) ;;
  mret server.

(** The rows on a GPU that are scheduled or active and overlap
    [[start_at, end_at)]. *)
Definition in_window (gpu_id start_at end_at : Z) (r : Reservation.t) : bool :=
  bool_decide (Reservation.gpu_id r = Some gpu_id) &&
  bool_decide (Reservation.status r ∈ ACTIVE_STATUSES) &&
  bool_decide (Reservation.start_at r < end_at) &&
  bool_decide (start_at < Reservation.end_at r).

Definition _window_active_reservations (gpu_id start_at end_at : Z) : M (list Reservation.t) :=
  select_reservations (in_window gpu_id start_at end_at).

(** [SELECT ... FOR UPDATE] with [populate_existing]. *)
Definition _lock_reservation (reservation_id : Z) : M (option Reservation.t) :=
  rs ← select_reservations_populate (λ r, bool_decide (Reservation.id r = reservation_id)) ;
  mret (head rs).

(** ** The conflict matrix *)

Definition conflict (t : ConflictType) (ids : list Z) : ConflictRecord :=
  mkConflictRecord (-1) t ids None None None.

Definition _classify_conflict (new_item : ItemDraft) (in_window : list Reservation.t)
    (gpu : Gpu.t) : option ConflictRecord :=
  match in_window with
  | [] => None
  | _ =>
    match d_gpu_memory_mb new_item with
    | None =>
        match filter (λ r, is_Some (Reservation.gpu_memory_mb r)) in_window with
        | [] => Some (conflict exclusive_conflict (Reservation.id <$> in_window))
        | shared_rows => Some (conflict mix_exclusive_shared (Reservation.id <$> shared_rows))
        end
    | Some mem =>
        match filter (λ r, Reservation.gpu_memory_mb r = None) in_window with
        | (_ :: _) as exclusive_rows =>
            Some (conflict mix_exclusive_shared (Reservation.id <$> exclusive_rows))
        | [] =>
            let used_mb := Zsum ((λ r, or0 (Reservation.gpu_memory_mb r)) <$> in_window) in
            let total_mb := or0 (Gpu.memory_total_mb gpu) in
            if bool_decide (total_mb ≠ 0 ∧ total_mb < used_mb + mem) then
              Some (conflict memory_exceeded (Reservation.id <$> in_window)
                      <| c_memory := Some (used_mb, mem, total_mb, used_mb + mem - total_mb) |>)
            else
              match d_gpu_compute_share_pct new_item with
              | None => None
              | Some pct =>
                  let used_pct :=
                    Zsum ((λ r, or0 (Reservation.gpu_compute_share_pct r)) <$> in_window) in
                  if bool_decide (100 < used_pct + pct) then
                    Some (conflict compute_exceeded
                            (Reservation.id <$>
                               filter (λ r, is_Some (Reservation.gpu_compute_share_pct r)) in_window)
                            <| c_compute := Some (used_pct, pct, used_pct + pct - 100) |>)
                  else None
              end
        end
    end
  end.

(** ** Browser frames *)

Inductive LifecycleChange : Type := change_created | change_cancelled | change_transition.

Definition change_text (c : LifecycleChange) : string :=
  match c with
  | change_created => "created"
  | change_cancelled => "cancelled"
  | change_transition => "transition"
  end.

Definition _serialize_reservation_for_ws (row : Reservation.t) (change : LifecycleChange) :
    list (string * json) :=
  [("reservation_id", JInt (Reservation.id row));
   ("change", JStr (change_text change));
   ("status", JStr (status_text (Reservation.status row)));
   ("user_id", JInt (Reservation.user_id row));
   ("server_id", JInt (Reservation.server_id row));
   ("gpu_id", jopt JInt (Reservation.gpu_id row));
   ("account_link_id", JInt (Reservation.account_link_id row));
   ("group_id", jopt JStr (Reservation.group_id row));
   ("start_at", JTime (Reservation.start_at row));
   ("end_at", JTime (Reservation.end_at row));
   ("gpu_memory_mb", jopt JInt (Reservation.gpu_memory_mb row));
   ("gpu_compute_share_pct", jopt JInt (Reservation.gpu_compute_share_pct row));
   ("cancelled_at", jopt JTime (Reservation.cancelled_at row));
   ("cancellation_reason", jopt JStr (Reservation.cancellation_reason row))]%string.

Definition lifecycle_frame (row : Reservation.t) (change : LifecycleChange) : frame :=
  Frame "reservation.status_change" (_serialize_reservation_for_ws row change).

Definition _push_reservation_lifecycle (row : Reservation.t) (change : LifecycleChange) : M unit :=
  push_to_user (Reservation.user_id row) (lifecycle_frame row change).

Definition _reservation_cta_url (row : Reservation.t) : M string :=
  link ← get_link (Reservation.account_link_id row) ;
  mret match link with
       | Some l => ("/me/accounts/" +:+ pretty (AccountLink.physical_account_id l) +:+
                    "/reservations?highlight=" +:+ pretty (Reservation.id row))%string
       | None => "/me/all-reservations"%string
       end.

(** ** Preview *)

Definition record_at (idx : Z) (t : ConflictType) : ConflictRecord :=
  mkConflictRecord idx t [] None None None.

(** One iteration of the loop of [preview_conflicts]: the conflicts and the
    time-limit check of input [idx]. *)
Definition preview_item (at_ : Z) (idx : Z) (item : ItemDraft) :
    M (list ConflictRecord * TimeLimitCheck) :=
  let grace := at_ - minutes 5 in
  let invalid := ([record_at idx invalid_time], mkTimeLimitCheck idx None 0 false) in
  if bool_decide (d_end_at item <= d_start_at item ∨ d_start_at item < grace)
  then mret invalid
  else
    o ← get_server (d_server_id item) ;
    match o with
    | None => mret invalid
    | Some server =>
        let requested := d_end_at item - d_start_at item in
        let max_hours := Server.max_reservation_hours server in
        let would_exceed := exceeds_hours max_hours requested in
        let check := mkTimeLimitCheck idx max_hours requested would_exceed in
        let too_long := if would_exceed
                        then [record_at idx time_too_long <| c_time := Some (max_hours, requested) |>]
                        else [] in
        match d_gpu_id item with
        | None => mret (too_long, check)
        | Some gid =>
            g ← get_gpu gid ;
            match g with
            | None => mret (too_long ++ [record_at idx invalid_time], check)
            | Some gpu =>
                w ← _window_active_reservations gid (d_start_at item) (d_end_at item) ;
                mret (too_long ++ match _classify_conflict item w gpu with
                                  | Some c => [c <| input_index := idx |>]
                                  | None => []
                                  end, check)
            end
        end
    end.

Definition preview_conflicts (items : list ItemDraft) (user_id : Z) (at_ : Z) : M PreviewResult :=
  acc ← fold_prog (λ (acc : Z * list ConflictRecord * list TimeLimitCheck) item,
          let '(idx, cs, ts) := acc in
          r ← preview_item at_ idx item ;
          mret (idx + 1, cs ++ r.1, ts ++ [r.2])) (0, [], []) items ;
  let '(_, cs, ts) := acc in
  mret (mkPreviewResult cs ts).

(** ** Creation *)

(** The "gpu_id OR script" rule of the service layer. *)
Definition check_mode (script : option pystr) (item : ItemDraft) : M unit :=
  match d_gpu_id item with
  | Some _ => skip
  | None =>
      raise_if (negb (is_some script)) InvalidTimeError ;;
      raise_if (is_some (d_gpu_memory_mb item) || is_some (d_gpu_compute_share_pct item))
        InvalidTimeError
  end.

(** One item of the pre-pass: time, server, link, script trigger. *)
Definition validate_item (user_id at_ : Z) (script_scheduled_start_at : option Z)
    (item : ItemDraft) : M unit :=
  _validate_item_time item at_ ;;
  _load_link_or_raise (d_account_link_id item) user_id ;;
  match script_scheduled_start_at with
  | Some t => raise_if (negb (bool_decide (d_start_at item <= t ∧ t < d_end_at item)))
                InvalidTimeError
  | None => skip
  end.

(** The typed error of a conflict record. *)
Definition conflict_error (c : ConflictRecord) : option exn :=
  match ctype c with
  | exclusive_conflict => Some (ReservationOverlapError (conflicting_reservation_ids c))
  | mix_exclusive_shared => Some (ReservationMixExclusiveSharedError (conflicting_reservation_ids c))
  | memory_exceeded =>
      let '(used, would, total, _) := default (0, 0, 0, 0) (c_memory c) in
      Some (ReservationMemoryExceededError used would total (conflicting_reservation_ids c))
  | compute_exceeded =>
      let '(used, would, _) := default (0, 0, 0) (c_compute c) in
      Some (ReservationComputeExceededError used would (conflicting_reservation_ids c))
  | time_too_long | invalid_time => None
  end.

(** One item of the conflict pass. *)
Definition check_conflict (item : ItemDraft) : M unit :=
  match d_gpu_id item with
  | None => skip
  | Some gid =>
      o ← get_gpu gid ;
      gpu ← some_or_raise o InvalidTimeError ;
      w ← _window_active_reservations gid (d_start_at item) (d_end_at item) ;
      match _classify_conflict item w gpu ≫= conflict_error with
      | Some e => raise e
      | None => skip
      end
  end.

(** Python truthiness of a script body: [None] and [""] are false. *)
Definition script_truthy (o : option pystr) : bool :=
  match o with Some (_ :: _) => true | _ => false end.

(** The row built for item number [idx]. *)
Definition new_row (user_id : Z) (group_id : string) (script : option pystr)
    (script_scheduled_start_at script_max_runtime_seconds : option Z) (share_script : bool)
    (idx : nat) (item : ItemDraft) (id : Z) : Reservation.t :=
  let carry_script := if share_script || Nat.eqb idx 0 then script else None in
  Reservation.mk id user_id (d_server_id item) (d_gpu_id item) (d_account_link_id item)
    (Some group_id) (d_start_at item) (d_end_at item) STATUS_SCHEDULED
    (d_gpu_memory_mb item) (d_gpu_compute_share_pct item) carry_script
    (if script_truthy carry_script
     then Some (default (d_start_at item) script_scheduled_start_at) else None)
    (if script_truthy carry_script then script_max_runtime_seconds else None)
    None None None None None None 0 None None None None None.

Definition audit_created (user_id lab_id : Z) (req : RequestInfo) (row : Reservation.t) : M unit :=
  write "reservation.create" (Some user_id) (Some lab_id) (Some "reservation"%string)
    (Some (Reservation.id row)) (Some lab_id) (Some (Reservation.server_id row))
    (JObj [("gpu_id", jopt JInt (Reservation.gpu_id row));
           ("start_at", JTime (Reservation.start_at row));
           ("end_at", JTime (Reservation.end_at row));
           ("account_link_id", JInt (Reservation.account_link_id row));
           ("group_id", jopt JStr (Reservation.group_id row));
           ("gpu_memory_mb", jopt JInt (Reservation.gpu_memory_mb row));
           ("gpu_compute_share_pct", jopt JInt (Reservation.gpu_compute_share_pct row));
           ("has_script", JBool (is_some (Reservation.script row)))]%string) req ;;
  _push_reservation_lifecycle row change_created.

(** Insert the rows in input order. *)
Fixpoint add_rows (mk : nat → ItemDraft → Z → Reservation.t) (idx : nat) (items : list ItemDraft) :
    M (list Reservation.t) :=
  match items with
  | [] => mret []
  | item :: items' =>
      row ← add_reservation (mk idx item) ;
      rest ← add_rows mk (S idx) items' ;
      mret (row :: rest)
  end.

Definition create_reservation_batch (items : list ItemDraft) (user_id lab_id : Z)
    (script : option pystr) (script_scheduled_start_at script_max_runtime_seconds : option Z)
    (share_script : bool) (at_ : Z) (req : RequestInfo) : M (string * list Reservation.t) :=
  raise_if (bool_decide (items = [])) InvalidTimeError ;;
  raise_if (match script with
            | Some s => bool_decide (SCRIPT_MAX_BYTES < utf8_length s)
            | None => false
            end) ScriptTooLargeError ;;
  for_each items (check_mode script) ;;
  for_each items (validate_item user_id at_ script_scheduled_start_at) ;;
  for_each items check_conflict ;;
  group_id ← gets uuid ;
  created ← add_rows (new_row user_id group_id script script_scheduled_start_at
                        script_max_runtime_seconds share_script) 0 items ;
  for_each created (audit_created user_id lab_id req) ;;
  mret (group_id, created).

(** ** Listing *)

Definition starts_earlier (a b : Reservation.t) : Prop :=
  Reservation.start_at a <= Reservation.start_at b.
#[export] Instance starts_earlier_dec : RelDecision starts_earlier.
Proof. intros a b. unfold starts_earlier. apply _. Defined.

Definition opt_test {A} (f : option A) (P : A → bool) : bool :=
  match f with None => true | Some a => P a end.

Definition status_test (statuses : list ReservationStatus) (r : Reservation.t) : bool :=
  match statuses with [] => true | _ => bool_decide (Reservation.status r ∈ statuses) end.

Definition list_reservations (server_id gpu_id user_id starts_after ends_before : option Z)
    (statuses : list ReservationStatus) (limit : Z) : M (list Reservation.t) :=
  rs ← select_reservations (λ r,
         opt_test server_id (λ v, bool_decide (Reservation.server_id r = v)) &&
         opt_test gpu_id (λ v, bool_decide (Reservation.gpu_id r = Some v)) &&
         opt_test user_id (λ v, bool_decide (Reservation.user_id r = v)) &&
         opt_test starts_after (λ v, bool_decide (v < Reservation.end_at r)) &&
         opt_test ends_before (λ v, bool_decide (Reservation.start_at r < v)) &&
         status_test statuses r) ;
  mret (take (Z.to_nat limit) (merge_sort starts_earlier rs)).

Definition list_for_link (account_link_id : Z) (statuses : list ReservationStatus) (limit : Z) :
    M (list Reservation.t) :=
  rs ← select_reservations (λ r,
         bool_decide (Reservation.account_link_id r = account_link_id) && status_test statuses r) ;
  mret (take (Z.to_nat limit) (merge_sort (flip starts_earlier) rs)).

(** ** Lemmas: the checks only read *)

Lemma _validate_item_time_reader item at_ : reader (_validate_item_time item at_).
Proof. unfold _validate_item_time, get_server. solve_reader. Qed.
#[export] Hint Resolve _validate_item_time_reader : reader.

Lemma _load_link_or_raise_reader l u : reader (_load_link_or_raise l u).
Proof. unfold _load_link_or_raise, get_link. solve_reader. Qed.
#[export] Hint Resolve _load_link_or_raise_reader : reader.

Lemma check_mode_reader script item : reader (check_mode script item).
Proof. unfold check_mode. solve_reader. Qed.
#[export] Hint Resolve check_mode_reader : reader.

Lemma validate_item_reader u at_ t item : reader (validate_item u at_ t item).
Proof. unfold validate_item. solve_reader. Qed.
#[export] Hint Resolve validate_item_reader : reader.

Lemma check_conflict_reader item : reader (check_conflict item).
Proof.
  unfold check_conflict, get_gpu, _window_active_reservations, select_reservations. solve_reader.
Qed.
#[export] Hint Resolve check_conflict_reader : reader.

Lemma preview_item_reader at_ idx item : reader (preview_item at_ idx item).
Proof.
  unfold preview_item, get_server, get_gpu, _window_active_reservations, select_reservations.
  solve_reader.
Qed.
#[export] Hint Resolve preview_item_reader : reader.

Lemma preview_conflicts_reader items u at_ : reader (preview_conflicts items u at_).
Proof. unfold preview_conflicts. solve_reader. Qed.

Lemma _validate_item_time_Ok item at_ s srv s' :
  _validate_item_time item at_ s = (Ok srv, s') ↔
  s' = s ∧ d_start_at item < d_end_at item ∧ at_ - minutes 5 <= d_start_at item ∧
  servers (db s) !! d_server_id item = Some srv ∧
  exceeds_hours (Server.max_reservation_hours srv) (d_end_at item - d_start_at item) = false.
Proof.
  unfold _validate_item_time, get_server. split.
  - intros H. inv_prog. subst. simpl_bools. split_and!; [done|lia|lia|congruence|done].
  - intros (-> & H1 & H2 & H3 & H4).
    rewrite (bind_run (raise_if _ _) _ s tt s) by (apply raise_if_false, bool_decide_eq_false_2; lia).
    rewrite (bind_run (raise_if _ _) _ s tt s) by (apply raise_if_false, bool_decide_eq_false_2; lia).
    rewrite (bind_run (gets _) _ s _ s) by done. rewrite H3. simpl some_or_raise.
    rewrite (bind_run (mret srv) _ s srv s) by done. cbv zeta.
    by rewrite (bind_run (raise_if _ _) _ s tt s) by (by apply raise_if_false).
Qed.

Lemma _validate_item_time_Raise item at_ s e s' :
  _validate_item_time item at_ s = (Raise e, s') →
  e = InvalidTimeError ∨ ∃ h q, e = ReservationTooLongError h q.
Proof.
  unfold _validate_item_time, get_server. intros H.
  repeat (apply bind_Raise in H as [H|(? & ? & ? & H)]; inv_prog; subst; try (by eauto)).
Qed.
