(* ===== verification/ReservationLifecycle.v ===== *)
(** Cancelling, modifying and driving a reservation through its state
    machine ([backend/corelab_backend/services/reservation_service.py],
    second half) and the PATCH / DELETE endpoints on top of it
    ([backend/corelab_backend/api/v1/reservations.py]). *)

From S2P Require Import Prelude Models SessionLayer Samples AuditService.
From S2P Require Import NotificationService ReservationService.

Definition _assert_transition_allowed (current target : ReservationStatus) : M unit :=
  raise_if (negb (bool_decide (target ∈ _ALLOWED_TRANSITIONS current)))
    (ReservationIllegalTransitionError (status_text current) (status_text target)).

(** ** Cancelling *)

Definition cancelled_row (row : Reservation.t) (at_ actor_user_id : Z) (reason : option string) :
    Reservation.t :=
  row <| Reservation.status := STATUS_CANCELLED |>
      <| Reservation.cancelled_at := Some at_ |>
      <| Reservation.cancelled_by_user_id := Some actor_user_id |>
      <| Reservation.cancellation_reason := reason |>.

Definition notify_cancelled_by_other (row : Reservation.t) (actor_user_id : Z)
    (reason : option string) : M unit :=
  cta ← _reservation_cta_url row ;
  create_notification (Reservation.user_id row) "reservation.cancelled_by_other" "warn"
    ("Your reservation #" +:+ pretty (Reservation.id row) +:+ " was cancelled by admin")
    reason
    (Some [("reservation_id", JInt (Reservation.id row));
           ("actor_user_id", JInt actor_user_id); ("reason", jopt JStr reason)]%string)
    (Some cta) DEFAULT_DEDUP_WINDOW_SECONDS ;;
  skip.

Definition cancel_reservation (reservation_id actor_user_id : Z) (actor_can_admin : bool)
    (reason : option string) (lab_id : Z) (req : RequestInfo) : M Reservation.t :=
  o ← _lock_reservation reservation_id ;
  row ← some_or_raise o ReservationNotFoundError ;
  raise_if (bool_decide (Reservation.status row ∈ TERMINAL_STATUSES)) ReservationError ;;
  raise_if (negb actor_can_admin && negb (bool_decide (Reservation.user_id row = actor_user_id)))
    CancelNotPermittedError ;;
  _assert_transition_allowed (Reservation.status row) STATUS_CANCELLED ;;
  at_ ← utcnow ;
  let by_admin := actor_can_admin && negb (bool_decide (Reservation.user_id row = actor_user_id)) in
  let row := cancelled_row row at_ actor_user_id reason in
  (set_reservation row ;; flush) ;;
  write "reservation.cancel" (Some actor_user_id) (Some lab_id) (Some "reservation"%string)
    (Some (Reservation.id row)) (Some lab_id) (Some (Reservation.server_id row))
    (JObj [("owner_user_id", JInt (Reservation.user_id row)); ("reason", jopt JStr reason);
           ("by_admin", JBool by_admin)]%string) req ;;
  when by_admin (notify_cancelled_by_other row actor_user_id reason) ;;
  _push_reservation_lifecycle row change_cancelled ;;
  mret row.

Definition script_running (row : Reservation.t) : bool :=
  bool_decide (Reservation.status row = STATUS_ACTIVE) &&
  bool_decide (Reservation.script_status row = Some SCRIPT_RUNNING).

Definition cancel_group (group_id : string) (actor_user_id : Z) (actor_can_admin : bool)
    (reason : option string) (lab_id : Z) (req : RequestInfo) : M (list Reservation.t) :=
  rs ← select_reservations_populate (λ r,
         bool_decide (Reservation.group_id r = Some group_id) &&
         bool_decide (Reservation.status r ∈ ACTIVE_STATUSES)) ;
  first ← some_or_raise (head rs) ReservationNotFoundError ;
  let owner_id := Reservation.user_id first in
  raise_if (negb actor_can_admin && negb (bool_decide (owner_id = actor_user_id)))
    CancelNotPermittedError ;;
  let running := Reservation.id <$> filter (λ r, script_running r = true) rs in
  raise_if (negb (bool_decide (running = []))) (GroupCancelRunningScriptError running) ;;
  at_ ← utcnow ;
  let rs' := (λ r, cancelled_row r at_ actor_user_id reason) <$> rs in
  for_each rs' set_reservation ;;
  flush ;;
  write "reservation.cancel.group" (Some actor_user_id) (Some lab_id)
    (Some "reservation_group"%string) None (Some lab_id) (Some (Reservation.server_id first))
    (JObj [("group_id", JStr group_id); ("count", JInt (Z.of_nat (length rs)));
           ("reason", jopt JStr reason); ("owner_user_id", JInt owner_id);
           ("by_admin", JBool (actor_can_admin && negb (bool_decide (owner_id = actor_user_id))))]
      %string) req ;;
  for_each rs' (λ r, _push_reservation_lifecycle r change_cancelled) ;;
  mret rs'.

(** ** Modifying *)

Definition draft_of (row : Reservation.t) : ItemDraft :=
  mkItemDraft (Reservation.server_id row) (Reservation.gpu_id row) (Reservation.start_at row)
    (Reservation.end_at row) (Reservation.account_link_id row) (Reservation.gpu_memory_mb row)
    (Reservation.gpu_compute_share_pct row).

(** Validation of an edited time window: the row carries the new window, its
    own entry is left out of the conflict check. *)
Definition check_modified_window (row : Reservation.t) (at_ : Z) : M unit :=
  let item := draft_of row in
  _validate_item_time item at_ ;;
  match Reservation.gpu_id row with
  | None => skip
  | Some gid =>
      o ← get_gpu gid ;
      gpu ← some_or_raise o InvalidTimeError ;
      w ← _window_active_reservations gid (Reservation.start_at row) (Reservation.end_at row) ;
      let in_window := filter (λ r, Reservation.id r ≠ Reservation.id row) w in
      match _classify_conflict item in_window gpu with
      | Some c => raise (ReservationOverlapError (conflicting_reservation_ids c))
      | None => skip
      end
  end.

Definition edit_script (row : Reservation.t) (new_script : option pystr)
    (new_script_scheduled_start_at : option Z) : M Reservation.t :=
  match new_script with
  | None => mret row
  | Some body =>
      raise_if (bool_decide (SCRIPT_MAX_BYTES < utf8_length body)) ScriptTooLargeError ;;
      let row := row <| Reservation.script := Some body |> in
      let row := if negb (is_some (Reservation.script_scheduled_start_at row)) &&
                    negb (is_some new_script_scheduled_start_at)
                 then row <| Reservation.script_scheduled_start_at :=
                               Some (Reservation.start_at row) |>
                 else row in
      set_reservation row ;;
      mret row
  end.

(** A [datetime] of a request body: with the offset of its zone when the
    client wrote one.  An instant of the database is naive. *)
Inductive datetime : Type :=
| Naive (wall : Z)
| Aware (wall offset : Z).

#[export] Instance datetime_eq_dec : EqDecision datetime.
Proof. solve_decision. Defined.

(** [d.replace(tzinfo=None)], which is also what binding it to a column does. *)
Definition wall_time (d : datetime) : Z := match d with Naive t | Aware t _ => t end.

(** [d.astimezone(UTC).replace(tzinfo=None)] of an aware one. *)
Definition utc_time (d : datetime) : Z := match d with Naive t => t | Aware t offset => t - offset end.

Definition is_aware (d : datetime) : bool := match d with Naive _ => false | Aware _ _ => true end.

Definition given_aware (o : option datetime) : bool := match o with Some d => is_aware d | None => false end.

(** [start <= t < end_]: an aware bound, that this edit has just set, does not
    compare with the naive trigger. *)
Definition edit_script_start (row : Reservation.t) (start_aware end_aware : bool)
    (new_script_scheduled_start_at : option Z) : M Reservation.t :=
  match new_script_scheduled_start_at with
  | None => mret row
  | Some t =>
      raise_if start_aware TypeError ;;
      raise_if (negb (bool_decide (Reservation.start_at row <= t))) InvalidTimeError ;;
      raise_if end_aware TypeError ;;
      raise_if (negb (bool_decide (t < Reservation.end_at row))) InvalidTimeError ;;
      let row := row <| Reservation.script_scheduled_start_at := Some t |> in
      set_reservation row ;;
      mret row
  end.

Definition fields_changed (new_start_at new_end_at : option datetime) (new_script : option pystr)
    (new_script_scheduled_start_at : option datetime) (new_script_max_runtime_seconds : option Z) : list json :=
  omap (λ kv : string * bool, if kv.2 then Some (JStr kv.1) else None)
    [("start_at", is_some new_start_at); ("end_at", is_some new_end_at);
     ("script", is_some new_script);
     ("script_scheduled_start_at", is_some new_script_scheduled_start_at);
     ("script_max_runtime_seconds", is_some new_script_max_runtime_seconds)]%string.

(** The edited window: each bound is replaced when it is given. *)
Definition with_window (row : Reservation.t) (new_start_at new_end_at : option Z) : Reservation.t :=
  row <| Reservation.start_at := default (Reservation.start_at row) new_start_at |>
      <| Reservation.end_at := default (Reservation.end_at row) new_end_at |>.

Definition with_max_runtime (row : Reservation.t) (n : option Z) : Reservation.t :=
  match n with
  | Some n => row <| Reservation.script_max_runtime_seconds := Some n |>
  | None => row
  end.

Definition modify_reservation (reservation_id actor_user_id : Z)
    (new_start_at new_end_at : option datetime) (new_script : option pystr)
    (new_script_scheduled_start_at : option datetime) (new_script_max_runtime_seconds : option Z)
    (lab_id at_ : Z) (req : RequestInfo) : M Reservation.t :=
  o ← _lock_reservation reservation_id ;
  row ← some_or_raise o ReservationNotFoundError ;
  raise_if (negb (bool_decide (Reservation.status row = STATUS_SCHEDULED))) ReservationError ;;
  raise_if (negb (bool_decide (Reservation.user_id row = actor_user_id))) CancelNotPermittedError ;;
  let timing_edit := is_some new_script_scheduled_start_at ||
                     is_some new_script_max_runtime_seconds in
  raise_if (timing_edit && (is_some (Reservation.script_status row) ||
                            is_some (Reservation.script_dispatch_started_at row)))
    ReservationError ;;
  let row := with_window row (wall_time <$> new_start_at) (wall_time <$> new_end_at) in
  when (is_some new_start_at || is_some new_end_at)
    (set_reservation row ;; check_modified_window row at_) ;;
  let trigger := utc_time <$> new_script_scheduled_start_at in
  row ← edit_script row new_script trigger ;
  row ← edit_script_start row (given_aware new_start_at) (given_aware new_end_at) trigger ;
  let row := with_max_runtime row new_script_max_runtime_seconds in
  set_reservation row ;;
  flush ;;
  write "reservation.modify" (Some actor_user_id) (Some lab_id) (Some "reservation"%string)
    (Some (Reservation.id row)) (Some lab_id) (Some (Reservation.server_id row))
    (JObj [("fields_changed", JList (fields_changed new_start_at new_end_at new_script
              new_script_scheduled_start_at new_script_max_runtime_seconds))]%string) req ;;
  mret row.

(** ** Scheduler transitions *)

Definition _write_transition_audit (row : Reservation.t) (from_status to_status : ReservationStatus)
    (trigger : string) (actor_user_id : option Z) (lab_id : Z) (extra_payload : list (string * json))
    (req : RequestInfo) : M unit :=
  write "reservation.transition" actor_user_id (Some lab_id) (Some "reservation"%string)
    (Some (Reservation.id row)) (Some lab_id) (Some (Reservation.server_id row))
    (JObj ([("from", JStr (status_text from_status)); ("to", JStr (status_text to_status));
            ("trigger", JStr trigger); ("gpu_id", jopt JInt (Reservation.gpu_id row))]%string
           ++ extra_payload)) req.

Definition jscript (row : Reservation.t) : json :=
  jopt (λ s, JStr (script_status_text s)) (Reservation.script_status row).

Definition transition_to_active (reservation : Reservation.t) (lab_id : Z) (trigger : string)
    (actor_user_id : option Z) (at_ : Z) : M Reservation.t :=
  let from_status := Reservation.status reservation in
  _assert_transition_allowed from_status STATUS_ACTIVE ;;
  let reservation := reservation <| Reservation.status := STATUS_ACTIVE |> in
  (set_reservation reservation ;; flush) ;;
  _write_transition_audit reservation from_status STATUS_ACTIVE trigger actor_user_id lab_id
    [("at"%string, JTime at_)] no_request ;;
  cta ← _reservation_cta_url reservation ;
  create_notification (Reservation.user_id reservation) "reservation.started" "info"
    ("Your reservation #" +:+ pretty (Reservation.id reservation) +:+ " has started") None
    (Some [("reservation_id", JInt (Reservation.id reservation));
           ("server_id", JInt (Reservation.server_id reservation));
           ("gpu_id", jopt JInt (Reservation.gpu_id reservation))]%string)
    (Some cta) DEFAULT_DEDUP_WINDOW_SECONDS ;;
  _push_reservation_lifecycle reservation change_transition ;;
  mret reservation.

Definition transition_to_completed (reservation : Reservation.t) (lab_id : Z) (trigger : string)
    (actor_user_id : option Z) (at_ : Z) : M Reservation.t :=
  let from_status := Reservation.status reservation in
  _assert_transition_allowed from_status STATUS_COMPLETED ;;
  let reservation := reservation <| Reservation.status := STATUS_COMPLETED |> in
  (set_reservation reservation ;; flush) ;;
  _write_transition_audit reservation from_status STATUS_COMPLETED trigger actor_user_id lab_id
    [("at", JTime at_); ("script_status", jscript reservation)]%string no_request ;;
  cta ← _reservation_cta_url reservation ;
  create_notification (Reservation.user_id reservation) "reservation.completed" "info"
    ("Your reservation #" +:+ pretty (Reservation.id reservation) +:+ " completed") None
    (Some [("reservation_id", JInt (Reservation.id reservation));
           ("script_status", jscript reservation)]%string)
    (Some cta) DEFAULT_DEDUP_WINDOW_SECONDS ;;
  _push_reservation_lifecycle reservation change_transition ;;
  mret reservation.

Definition transition_to_failed (reservation : Reservation.t) (lab_id : Z) (reason trigger : string)
    (actor_user_id : option Z) (at_ : Z) : M Reservation.t :=
  let from_status := Reservation.status reservation in
  _assert_transition_allowed from_status STATUS_FAILED ;;
  let reservation := reservation <| Reservation.status := STATUS_FAILED |> in
  let reservation := if str_truthy (Reservation.cancellation_reason reservation) then reservation
                     else reservation <| Reservation.cancellation_reason := Some reason |> in
  (set_reservation reservation ;; flush) ;;
  _write_transition_audit reservation from_status STATUS_FAILED trigger actor_user_id lab_id
    [("at", JTime at_); ("script_status", jscript reservation); ("reason", JStr reason)]%string
    no_request ;;
  cta ← _reservation_cta_url reservation ;
  create_notification (Reservation.user_id reservation) "reservation.failed" "warn"
    ("Your reservation #" +:+ pretty (Reservation.id reservation) +:+ " failed: " +:+ reason) None
    (Some [("reservation_id", JInt (Reservation.id reservation)); ("reason", JStr reason);
           ("script_status", jscript reservation)]%string)
    (Some cta) DEFAULT_DEDUP_WINDOW_SECONDS ;;
  _push_reservation_lifecycle reservation change_transition ;;
  mret reservation.

(** ** Script lifecycle *)

Definition script_terminal (s : ScriptStatus) : bool :=
  bool_decide (s ∈ [SCRIPT_COMPLETED; SCRIPT_FAILED; SCRIPT_KILLED]).

(** [if v is not None: row.f = v] *)
Definition or_keep {A} (v old : option A) : option A :=
  match v with Some _ => v | None => old end.

Definition update_script_status (reservation : Reservation.t) (new_script_status : ScriptStatus)
    (lab_id : Z) (trigger : string) (exit_code started_at finished_at : option Z)
    (actor_user_id : option Z) : M Reservation.t :=
  let current := Reservation.script_status reservation in
  raise_if (negb (bool_decide (new_script_status ∈ _ALLOWED_SCRIPT_TRANSITIONS current)))
    (ReservationIllegalTransitionError
       (match current with Some c => script_status_text c | None => "null" end)
       (script_status_text new_script_status)) ;;
  let row := reservation <| Reservation.script_status := Some new_script_status |> in
  let row := if bool_decide (new_script_status = SCRIPT_RUNNING)
             then row <| Reservation.script_started_at :=
                           or_keep started_at (Reservation.script_started_at row) |>
             else row in
  let row := if script_terminal new_script_status
             then row <| Reservation.script_finished_at :=
                           or_keep finished_at (Reservation.script_finished_at row) |>
                      <| Reservation.script_exit_code :=
                           or_keep exit_code (Reservation.script_exit_code row) |>
             else row in
  (set_reservation row ;; flush) ;;
  write "reservation.script.lifecycle" actor_user_id (Some lab_id) (Some "reservation"%string)
    (Some (Reservation.id row)) (Some lab_id) (Some (Reservation.server_id row))
    (JObj [("from", jopt (λ c, JStr (script_status_text c)) current);
           ("to", JStr (script_status_text new_script_status)); ("trigger", JStr trigger);
           ("exit_code", jopt JInt exit_code)]%string) no_request ;;
  mret row.

(** [combined[-max_chars:]] for [max_chars > 0] *)
Definition last_chars {A} (n : Z) (l : list A) : list A := drop (length l - Z.to_nat n) l.

Definition appended_tail (row : Reservation.t) (text : pystr) (max_chars : Z) : Reservation.t :=
  let current := default [] (Reservation.script_log_tail_text row) in
  let combined := current ++ text in
  let was_truncated := bool_decide (Reservation.script_log_tail_truncated row ≠ 0) in
  if bool_decide (max_chars < Z.of_nat (length combined))
  then row <| Reservation.script_log_tail_text := Some (last_chars max_chars combined) |>
           <| Reservation.script_log_tail_truncated := 1 |>
  else row <| Reservation.script_log_tail_text := Some combined |>
           <| Reservation.script_log_tail_truncated := if was_truncated then 1 else 0 |>.

Definition append_script_log_tail (reservation : Reservation.t) (text : pystr) (max_chars : Z) :
    M Reservation.t :=
  match text with
  | [] => mret reservation
  | _ =>
      let row := appended_tail reservation text max_chars in
      (set_reservation row ;; flush) ;;
      mret row
  end.

Definition mark_script_dispatched (reservation : Reservation.t) (lab_id at_ : Z)
    (actor_user_id : option Z) : M Reservation.t :=
  raise_if (negb (bool_decide (Reservation.status reservation = STATUS_ACTIVE)))
    (ReservationIllegalTransitionError (status_text (Reservation.status reservation))
       "script.dispatched") ;;
  match Reservation.script_status reservation with
  | Some c => raise (ReservationIllegalTransitionError (script_status_text c)
                       (script_status_text SCRIPT_RUNNING))
  | None =>
      let row := reservation <| Reservation.script_status := Some SCRIPT_RUNNING |>
                             <| Reservation.script_dispatch_started_at := Some at_ |> in
      (set_reservation row ;; flush) ;;
      write "reservation.script.dispatched" actor_user_id (Some lab_id)
        (Some "reservation"%string) (Some (Reservation.id row)) (Some lab_id)
        (Some (Reservation.server_id row))
        (JObj [("trigger", JStr "scheduler_dispatch"); ("dispatch_started_at", JTime at_)]%string)
        no_request ;;
      mret row
  end.

(** ** What identifies a booking

    The columns no operation rewrites. *)
Definition booked (r : Reservation.t) :
    Z * Z * Z * option Z * Z * option string * option Z * option Z :=
  (Reservation.id r, Reservation.user_id r, Reservation.server_id r, Reservation.gpu_id r,
   Reservation.account_link_id r, Reservation.group_id r, Reservation.gpu_memory_mb r,
   Reservation.gpu_compute_share_pct r).

Lemma booked_id r r' : booked r' = booked r → Reservation.id r' = Reservation.id r.
Proof. unfold booked. congruence. Qed.

(** ** Effects of the service calls

    [updated s s' row acts]: exactly one reservation row was rewritten, one
    audit entry per action in [acts] was appended, and notifications may have
    been added; nothing is left pending. *)

Definition saved (d d' : Db) (row : Reservation.t) (acts : list string) : Prop :=
  ∃ entries ns,
    AuditLog.action <$> entries = acts ∧
    d' = d <| reservations := <[Reservation.id row := row]> (reservations d) |>
           <| audit_log := audit_log d ++ entries |>
           <| notifications := notifications d ++ ns |>.

Record updated (s s' : Session) (row : Reservation.t) (acts : list string) : Prop := mkUpdated {
  upd_committed : committed s' = committed s ;
  upd_clean : clean s' ;
  upd_now : now s' = now s ∧ uuid s' = uuid s ;
  upd_db : saved (db s) (db s') row acts }.

(** ** Lemmas *)

Lemma _lock_reservation_run k s :
  session_ok s → _lock_reservation k s = (Ok (reservations (db s) !! k), s).
Proof.
  intros [Hc Hdb]. unfold _lock_reservation.
  rewrite (bind_run _ _ _ _ _ (select_populate_clean _ s Hc)).
  by rewrite (head_filter_id _ _ Hdb).
Qed.

Lemma updated_ok s s' row acts :
  session_ok s → is_Some (reservations (db s) !! Reservation.id row) → reservation_row_ok row →
  updated s s' row acts → session_ok s'.
Proof.
  intros Hs Hrow Hok [_ Hc _ (es & ns & _ & Hdb)]. split; [done|].
  destruct (session_ok_insert _ _ Hs Hrow Hok) as [_ H]. intros k r.
  rewrite Hdb. simpl. apply H.
Qed.

Lemma updated_audit_extends s s' row acts :
  updated s s' row acts → audit_extends (db s) (db s').
Proof. intros [_ _ _ (es & ns & _ & ->)]. by exists es. Qed.

Lemma updated_reservations s s' row acts :
  updated s s' row acts →
  reservations (db s') = <[Reservation.id row := row]> (reservations (db s)).
Proof. by intros [_ _ _ (es & ns & _ & ->)]. Qed.

(** Saving a valid row: the first step of every state change. *)
Lemma save_updated row s :
  clean s → reservation_row_ok row →
  ∃ s1, (set_reservation row ;; flush) s = (Ok tt, s1) ∧ updated s s1 row [].
Proof.
  intros Hc Hok. rewrite set_flush_run by done.
  apply reservation_row_error_None in Hok. rewrite Hok.
  eexists. split; [done|]. split; [done..|]. simpl.
  exists [], []. split; [done|]. rewrite !app_nil_r. by destruct s as [? [] ?].
Qed.

Lemma write_updated action actor lab tt_ ti tl ts payload req s s1 row acts :
  updated s s1 row acts →
  ∃ s2, write action actor lab tt_ ti tl ts payload req s1 = (Ok tt, s2) ∧
        updated s s2 row (acts ++ [action]).
Proof.
  intros [Hcm Hc Hn (es & ns & Hes & Hdb)]. rewrite write_run by done.
  eexists. split; [done|]. split; simpl; [done..|].
  exists (es ++ [audit_entry s1 action actor lab tt_ ti tl ts payload req "ok" None]), ns.
  split; [by rewrite fmap_app, Hes|].
  set (e := audit_entry _ _ _ _ _ _ _ _ _ _ _ _). clearbody e.
  rewrite Hdb. simpl. by rewrite (assoc_L (++)).
Qed.

Lemma push_updated u f s s1 row acts :
  updated s s1 row acts →
  ∃ s2, push_to_user u f s1 = (Ok tt, s2) ∧ updated s s2 row acts.
Proof. intros [Hcm Hc Hn Hdb]. eexists. split; [done|]. by split. Qed.

Lemma notify_updated recipient ty sev title body payload cta w s s1 row acts :
  updated s s1 row acts →
  ∃ n s2, create_notification recipient ty sev title body payload cta w s1 = (Ok n, s2) ∧
          updated s s2 row acts.
Proof.
  intros Hu. pose proof Hu as [Hcm Hc Hn (es & ns & Hes & Hdb)].
  destruct (create_notification_run recipient ty sev title body payload cta w s1 Hc)
    as (n & s2 & Hrun & [->| ->] & _); exists n; eexists; (split; [exact Hrun|]); [done|].
  split; simpl; [done..|]. exists es, (ns ++ [n]). split; [done|].
  rewrite Hdb. simpl. by rewrite (assoc_L (++)).
Qed.

Lemma cta_run row s : ∃ u, _reservation_cta_url row s = (Ok u, s).
Proof. by eexists. Qed.

(** Runs the next step of a service call whose effect so far is described by
    an [updated] hypothesis. *)
Ltac run_step :=
  lazymatch goal with
  | H : updated _ ?s1 _ _ |- context [mbind ?f (write ?a ?b ?c ?d ?e ?g ?h ?i ?j) ?s1] =>
      let s2 := fresh "s" in let Hr := fresh "Hr" in let H2 := fresh "Hu" in
      destruct (write_updated a b c d e g h i j _ _ _ _ H) as (s2 & Hr & H2);
      rewrite (bind_run _ _ _ _ _ Hr); clear Hr H
  | H : updated _ ?s1 _ _ |- context [mbind ?f (create_notification ?a ?b ?c ?d ?e ?g ?h ?i) ?s1] =>
      let n := fresh "n" in
      let s2 := fresh "s" in let Hr := fresh "Hr" in let H2 := fresh "Hu" in
      destruct (notify_updated a b c d e g h i _ _ _ _ H) as (n & s2 & Hr & H2);
      rewrite (bind_run _ _ _ _ _ Hr); clear Hr H
  | H : updated _ ?s1 _ _ |- context [mbind ?f (push_to_user ?a ?b) ?s1] =>
      let s2 := fresh "s" in let Hr := fresh "Hr" in let H2 := fresh "Hu" in
      destruct (push_updated a b _ _ _ _ H) as (s2 & Hr & H2);
      rewrite (bind_run _ _ _ _ _ Hr); clear Hr H
  | H : updated _ ?s1 _ _ |- context [mbind ?f (_reservation_cta_url ?a) ?s1] =>
      let u := fresh "u" in let Hr := fresh "Hr" in
      destruct (cta_run a s1) as (u & Hr); rewrite (bind_run _ _ _ _ _ Hr); clear Hr
  end.

Lemma assert_allowed cur target (s : Session) :
  target ∈ _ALLOWED_TRANSITIONS cur → _assert_transition_allowed cur target s = (Ok tt, s).
Proof. intros H. unfold _assert_transition_allowed. by rewrite bool_decide_eq_true_2. Qed.

(** Starts a service call that saves a valid [row] on a clean session. *)
Ltac run_save Hc row :=
  lazymatch goal with
  | |- context [mbind ?f (mbind ?g (set_reservation _)) ?s] =>
      let s1 := fresh "s" in let Hr := fresh "Hr" in let Hu := fresh "Hu" in
      destruct (save_updated row s Hc) as (s1 & Hr & Hu);
      [|rewrite (bind_run _ _ _ _ _ Hr); clear Hr]
  end.

Lemma transition_to_active_run r lab trigger actor at_ s :
  session_ok s → reservation_row_ok r → Reservation.status r = STATUS_SCHEDULED →
  ∃ s', transition_to_active r lab trigger actor at_ s =
          (Ok (r <| Reservation.status := STATUS_ACTIVE |>), s') ∧
        updated s s' (r <| Reservation.status := STATUS_ACTIVE |>) ["reservation.transition"%string].
Proof.
  intros [Hc Hdb] Hok Hst. unfold transition_to_active, _assert_transition_allowed.
  rewrite Hst, (bind_run _ _ s tt s) by done.
  run_save Hc (r <| Reservation.status := STATUS_ACTIVE |>); [done|].
  unfold _write_transition_audit, _push_reservation_lifecycle. do 4 run_step. eauto.
Qed.

Lemma transition_to_completed_run r lab trigger actor at_ s :
  session_ok s → reservation_row_ok r → Reservation.status r = STATUS_ACTIVE →
  ∃ s', transition_to_completed r lab trigger actor at_ s =
          (Ok (r <| Reservation.status := STATUS_COMPLETED |>), s') ∧
        updated s s' (r <| Reservation.status := STATUS_COMPLETED |>) ["reservation.transition"%string].
Proof.
  intros [Hc Hdb] Hok Hst. unfold transition_to_completed, _assert_transition_allowed.
  rewrite Hst, (bind_run _ _ s tt s) by done.
  run_save Hc (r <| Reservation.status := STATUS_COMPLETED |>); [done|].
  unfold _write_transition_audit, _push_reservation_lifecycle. do 4 run_step. eauto.
Qed.

Definition failed_row (r : Reservation.t) (reason : string) : Reservation.t :=
  let r := r <| Reservation.status := STATUS_FAILED |> in
  if str_truthy (Reservation.cancellation_reason r) then r
  else r <| Reservation.cancellation_reason := Some reason |>.

Lemma transition_to_failed_run r lab reason trigger actor at_ s :
  session_ok s → reservation_row_ok r → Reservation.status r = STATUS_ACTIVE →
  ∃ s', transition_to_failed r lab reason trigger actor at_ s = (Ok (failed_row r reason), s') ∧
        updated s s' (failed_row r reason) ["reservation.transition"%string].
Proof.
  intros [Hc Hdb] Hok Hst. unfold transition_to_failed, _assert_transition_allowed.
  rewrite Hst, (bind_run _ _ s tt s) by done. fold (failed_row r reason). cbv zeta.
  run_save Hc (failed_row r reason).
  { unfold failed_row. by destruct (str_truthy _). }
  unfold _write_transition_audit, _push_reservation_lifecycle. do 4 run_step. eauto.
Qed.

Lemma update_script_status_run r new lab trigger ec sa fa actor s :
  session_ok s → reservation_row_ok r →
  new ∈ _ALLOWED_SCRIPT_TRANSITIONS (Reservation.script_status r) → signed_fits ec = true →
  ∃ row s', update_script_status r new lab trigger ec sa fa actor s = (Ok row, s') ∧
        updated s s' row ["reservation.script.lifecycle"%string] ∧ reservation_row_ok row ∧
        row = r <| Reservation.script_status := Some new |>
                <| Reservation.script_started_at :=
                     if bool_decide (new = SCRIPT_RUNNING)
                     then or_keep sa (Reservation.script_started_at r)
                     else Reservation.script_started_at r |>
                <| Reservation.script_finished_at :=
                     if script_terminal new then or_keep fa (Reservation.script_finished_at r)
                     else Reservation.script_finished_at r |>
                <| Reservation.script_exit_code :=
                     if script_terminal new then or_keep ec (Reservation.script_exit_code r)
                     else Reservation.script_exit_code r |>.
Proof.
  intros [Hc Hdb] Hok Hal Hec. rewrite signed_fits_true in Hec. unfold update_script_status. cbv zeta.
  rewrite (bind_run (raise_if _ _) _ s tt s) by (by rewrite bool_decide_eq_true_2).
  match goal with |- context [set_reservation ?row] => set (row' := row) end.
  assert (Hok' : reservation_row_ok row').
  { pose proof Hok as (H1 & H2 & H3 & H4 & H5 & H6 & H7 & H8 & H9).
    unfold row'. destruct new, ec; split_and!; try done; by intros c [= <-]; apply Hec. }
  assert (Hrow : row' = r <| Reservation.script_status := Some new |>
                <| Reservation.script_started_at :=
                     if bool_decide (new = SCRIPT_RUNNING)
                     then or_keep sa (Reservation.script_started_at r)
                     else Reservation.script_started_at r |>
                <| Reservation.script_finished_at :=
                     if script_terminal new then or_keep fa (Reservation.script_finished_at r)
                     else Reservation.script_finished_at r |>
                <| Reservation.script_exit_code :=
                     if script_terminal new then or_keep ec (Reservation.script_exit_code r)
                     else Reservation.script_exit_code r |>).
  { unfold row'. by destruct new. }
  rewrite <- Hrow. clearbody row'.
  run_save Hc row'; [done|]. run_step. eauto 10.
Qed.

Lemma mark_script_dispatched_run r lab at_ actor s :
  session_ok s → reservation_row_ok r →
  Reservation.status r = STATUS_ACTIVE → Reservation.script_status r = None →
  ∃ s', mark_script_dispatched r lab at_ actor s =
          (Ok (r <| Reservation.script_status := Some SCRIPT_RUNNING |>
                 <| Reservation.script_dispatch_started_at := Some at_ |>), s') ∧
        updated s s' (r <| Reservation.script_status := Some SCRIPT_RUNNING |>
                        <| Reservation.script_dispatch_started_at := Some at_ |>)
          ["reservation.script.dispatched"%string].
Proof.
  intros [Hc Hdb] Hok Hst Hsc. unfold mark_script_dispatched.
  rewrite Hst, Hsc, (bind_run _ _ s tt s) by done. cbv zeta.
  run_save Hc (r <| Reservation.script_status := Some SCRIPT_RUNNING |>
                 <| Reservation.script_dispatch_started_at := Some at_ |>); [done|].
  run_step. eauto.
Qed.

Lemma notify_cancelled_updated b r a reason s s1 row acts :
  updated s s1 row acts →
  ∃ s2, when b (notify_cancelled_by_other r a reason) s1 = (Ok tt, s2) ∧ updated s s2 row acts.
Proof.
  intros Hu. destruct b; simpl; [|by exists s1].
  unfold notify_cancelled_by_other. run_step. run_step. by eexists.
Qed.

(** The whole call. *)
Lemma cancel_run rid actor admin reason lab req s :
  session_ok s →
  wp (cancel_reservation rid actor admin reason lab req) (λ res s',
    match reservations (db s) !! rid with
    | None => res = Raise ReservationNotFoundError ∧ s' = s
    | Some row =>
        if bool_decide (Reservation.status row ∈ TERMINAL_STATUSES)
        then res = Raise ReservationError ∧ s' = s
        else if negb admin && negb (bool_decide (Reservation.user_id row = actor))
        then res = Raise CancelNotPermittedError ∧ s' = s
        else res = Ok (cancelled_row row (now s) actor reason) ∧
             updated s s' (cancelled_row row (now s) actor reason) ["reservation.cancel"%string]
    end) s.
Proof.
  intros Hs. pose proof Hs as [Hc Hdb]. unfold wp, cancel_reservation.
  rewrite (bind_run _ _ _ _ _ (_lock_reservation_run rid s Hs)).
  destruct (reservations (db s) !! rid) as [row|] eqn:Hrow; [|done]. simpl some_or_raise.
  rewrite (bind_run (mret row) _ s row s) by done.
  case_bool_decide as Hterm; [done|]. rewrite (bind_run (raise_if false _) _ s tt s) by done.
  destruct (negb admin && negb _) eqn:Hperm; [done|].
  rewrite (bind_run (raise_if false _) _ s tt s) by done.
  rewrite (bind_run (_assert_transition_allowed _ _) _ s tt s).
  2:{ apply assert_allowed. destruct (Reservation.status row); set_solver. }
  rewrite (bind_run utcnow _ s (now s) s) by done. cbv zeta.
  run_save Hc (cancelled_row row (now s) actor reason).
  { exact (db_ok_row _ _ _ Hdb Hrow). }
  run_step.
  destruct (notify_cancelled_updated
              (admin && negb (bool_decide (Reservation.user_id row = actor)))
              (cancelled_row row (now s) actor reason) actor reason _ _ _ _ Hu0)
    as (s2 & Hr & Hu2).
  rewrite (bind_run _ _ _ _ _ Hr). unfold _push_reservation_lifecycle. run_step. done.
Qed.

(** *** Properties *)

(** cancelling is decided by the stored row, in the code's
    order of checks: unknown id, already terminal, neither owner nor admin
    are refused and change nothing; otherwise the row becomes [cancelled]
    with the actor, instant and reason recorded, exactly one
    [reservation.cancel] audit entry is appended and no other row moves. *)
Theorem cancel_reservation_spec rid actor admin reason lab req s :
  session_ok s →
  wp (cancel_reservation rid actor admin reason lab req) (λ res s',
    match reservations (db s) !! rid with
    | None => res = Raise ReservationNotFoundError ∧ s' = s
    | Some row =>
        if bool_decide (Reservation.status row ∈ TERMINAL_STATUSES)
        then res = Raise ReservationError ∧ s' = s
        else if negb admin && negb (bool_decide (Reservation.user_id row = actor))
        then res = Raise CancelNotPermittedError ∧ s' = s
        else res = Ok (cancelled_row row (now s) actor reason) ∧
             updated s s' (cancelled_row row (now s) actor reason) ["reservation.cancel"%string]
    end) s.
Proof. apply cancel_run. Qed.

Definition cancel_sample : Session :=
  open_session (sample_db [sample_reservation 100 1 3600000000 7200000000 None]) 0 "".

Example cancel_reservation_spec_witness :
  wp (cancel_reservation 100 10 false None 1 no_request) (λ res s',
    res = Ok (cancelled_row (sample_reservation 100 1 3600000000 7200000000 None) 0 10 None) ∧
    updated cancel_sample s'
      (cancelled_row (sample_reservation 100 1 3600000000 7200000000 None) 0 10 None)
      ["reservation.cancel"%string]) cancel_sample.
Proof.
  apply (cancel_reservation_spec 100 10 false None 1 no_request cancel_sample).
  apply open_session_ok, db_ok_by_test. vm_compute. reflexivity.
Defined.

Lemma check_modified_window_reader row at_ : reader (check_modified_window row at_).
Proof.
  unfold check_modified_window, get_gpu, _window_active_reservations, select_reservations.
  solve_reader.
Qed.
#[export] Hint Resolve check_modified_window_reader : reader.
