(* ===== verification/BookingProperties.v ===== *)
(** Booking: what [create_reservation_batch] accepts, what it stores, that
    the capacity invariant survives it, and that preview predicts it. *)

From S2P Require Import Prelude Models SessionLayer Samples AuditService.
From S2P Require Import NotificationService ReservationService ReservationLifecycle.

(** * Capacity

    What booking promises: the capacity invariant of the [reservation]
    table, and that creating, editing and ending reservations preserve it.

    The specification is stated per instant ([covers], [memory_at],
    [compute_at]) and knows nothing of windows; the code decides by summing
    over the rows that overlap the requested window
    ([ReservationService._classify_conflict]).  The lemmas here connect the
    two. *)


(** ** The abstract specification *)

(** A scheduled or active row holds its GPU. *)
Definition holds (r : Reservation.t) : bool :=
  bool_decide (Reservation.status r ∈ ACTIVE_STATUSES).

(** Row [r] occupies GPU [g] at instant [t]. *)
Definition covers (g t : Z) (r : Reservation.t) : bool :=
  bool_decide (Reservation.gpu_id r = Some g) && holds r &&
  bool_decide (Reservation.start_at r <= t) && bool_decide (t < Reservation.end_at r).

Definition memory_at (g t : Z) (table : gmap Z Reservation.t) : Z :=
  msum (λ r, if covers g t r then or0 (Reservation.gpu_memory_mb r) else 0) table.

Definition compute_at (g t : Z) (table : gmap Z Reservation.t) : Z :=
  msum (λ r, if covers g t r then or0 (Reservation.gpu_compute_share_pct r) else 0) table.

(** Two different rows that occupy one GPU at one instant are both shared:
    an exclusive booking is alone on its GPU. *)
Definition no_double_booking (table : gmap Z Reservation.t) : Prop :=
  ∀ g t k1 k2 r1 r2,
    table !! k1 = Some r1 → table !! k2 = Some r2 → k1 ≠ k2 →
    covers g t r1 = true → covers g t r2 = true →
    is_Some (Reservation.gpu_memory_mb r1) ∧ is_Some (Reservation.gpu_memory_mb r2).

(** Bookings that share a card at some instant fit together in its memory
    (when that is known) and in 100% of its compute.  A booking alone on a
    card is not bounded: see [lone_booking_may_exceed_memory]. *)
Definition within_memory (gs : gmap Z Gpu.t) (table : gmap Z Reservation.t) : Prop :=
  ∀ g gpu t k1 k2 r1 r2, gs !! g = Some gpu → or0 (Gpu.memory_total_mb gpu) ≠ 0 →
    table !! k1 = Some r1 → table !! k2 = Some r2 → k1 ≠ k2 →
    covers g t r1 = true → covers g t r2 = true →
    memory_at g t table <= or0 (Gpu.memory_total_mb gpu).

Definition within_compute (table : gmap Z Reservation.t) : Prop :=
  ∀ g t, compute_at g t table <= 100.

Definition booking_ok (gs : gmap Z Gpu.t) (table : gmap Z Reservation.t) : Prop :=
  no_double_booking table ∧ within_memory gs table ∧ within_compute table.

(** When an item may be added next to the rows of its window. *)
Definition compatible (item : ItemDraft) (w : list Reservation.t) (gpu : Gpu.t) : Prop :=
  w = [] ∨
  ∃ mem, d_gpu_memory_mb item = Some mem ∧
    (∀ r, r ∈ w → is_Some (Reservation.gpu_memory_mb r)) ∧
    (or0 (Gpu.memory_total_mb gpu) ≠ 0 →
       Zsum ((λ r, or0 (Reservation.gpu_memory_mb r)) <$> w) + mem <=
         or0 (Gpu.memory_total_mb gpu)) ∧
    (∀ pct, d_gpu_compute_share_pct item = Some pct →
       Zsum ((λ r, or0 (Reservation.gpu_compute_share_pct r)) <$> w) + pct <= 100).

(** ** The conflict matrix meets the specification *)

Lemma shared_of_no_exclusive w :
  filter (λ r, Reservation.gpu_memory_mb r = None) w = [] ↔
  ∀ r, r ∈ w → is_Some (Reservation.gpu_memory_mb r).
Proof.
  split.
  - intros H r Hr. destruct (Reservation.gpu_memory_mb r) eqn:Hm; [by eexists|].
    assert (r ∈ filter (λ r, Reservation.gpu_memory_mb r = None) w) as Hin
      by (by apply list_elem_of_filter).
    rewrite H in Hin. by apply elem_of_nil in Hin.
  - intros H. destruct (filter _ w) as [|r l] eqn:Hf; [done|].
    assert (r ∈ filter (λ r, Reservation.gpu_memory_mb r = None) w) as Hin by (rewrite Hf; left).
    apply list_elem_of_filter in Hin as [Hn Hin]. apply H in Hin as [? ?]. congruence.
Qed.

Lemma classify_None_iff item w gpu :
  _classify_conflict item w gpu = None ↔ compatible item w gpu.
Proof.
  unfold compatible. destruct w as [|r0 w']; [naive_solver|]. set (w := r0 :: w').
  assert (Hw : w ≠ []) by done. unfold _classify_conflict. fold w.
  destruct (d_gpu_memory_mb item) as [mem|].
  2:{ change (match w with [] => None | _ => _ end) with
        (match filter (λ r, is_Some (Reservation.gpu_memory_mb r)) w with
         | [] => Some (conflict exclusive_conflict (Reservation.id <$> w))
         | shared_rows => Some (conflict mix_exclusive_shared (Reservation.id <$> shared_rows))
         end).
      destruct (filter _ w); naive_solver. }
  unfold w at 1.
  pose proof (shared_of_no_exclusive w) as Hsh.
  destruct (filter (λ r, Reservation.gpu_memory_mb r = None) w) as [|e es].
  2:{ split; [done|]. intros [?|(m & _ & H & _)]; [done|]. by apply Hsh in H. }
  cbv zeta. case_bool_decide as Hmem.
  { split; [done|]. intros [?|(m & [= <-] & _ & H & _)]; [done|]. lia. }
  destruct (d_gpu_compute_share_pct item) as [pct|].
  - case_bool_decide as Hpct; split; try done.
    + intros [?|(m & [= <-] & _ & _ & H)]; [done|]. specialize (H _ eq_refl). lia.
    + intros _. right. exists mem. split_and!; [done|by apply Hsh|lia|]. intros ? [= <-]. lia.
  - split; [|done]. intros _. right. exists mem. split_and!; [done|by apply Hsh|lia|done].
Qed.

Lemma classify_error item w gpu c :
  _classify_conflict item w gpu = Some c → is_Some (conflict_error c).
Proof.
  unfold _classify_conflict. destruct w as [|r w]; [done|].
  destruct (d_gpu_memory_mb item).
  - destruct (filter _ _); [|intros [= <-]; by eexists]. cbv zeta.
    case_bool_decide; [intros [= <-]; by eexists|].
    destruct (d_gpu_compute_share_pct item); [|done].
    case_bool_decide; [intros [= <-]; by eexists|done].
  - destruct (filter _ _); intros [= <-]; by eexists.
Qed.

Lemma check_conflict_Ok item s :
  clean s →
  (check_conflict item s = (Ok tt, s) ↔
   match d_gpu_id item with
   | None => True
   | Some g => ∃ gpu, gpus (db s) !! g = Some gpu ∧
       compatible item (filter (λ r, in_window g (d_start_at item) (d_end_at item) r = true)
                          (rows (reservations (db s)))) gpu
   end).
Proof.
  intros Hc. unfold check_conflict. destruct (d_gpu_id item) as [g|]; [|done].
  unfold get_gpu. rewrite (bind_run (gets _) _ s _ s) by done.
  destruct (gpus (db s) !! g) as [gpu|]; simpl some_or_raise.
  2:{ split; [done|]. naive_solver. }
  rewrite (bind_run (mret gpu) _ s gpu s) by done.
  unfold _window_active_reservations. rewrite (bind_run _ _ _ _ _ (select_clean _ s Hc)).
  destruct (_classify_conflict item _ gpu) as [c|] eqn:Hcl; simpl.
  - destruct (classify_error _ _ _ _ Hcl) as [e He]. rewrite He. split; [done|].
    intros (gpu' & [= <-] & H%classify_None_iff). congruence.
  - split; [|done]. intros _. exists gpu. split; [done|]. by apply classify_None_iff.
Qed.

(** ** Instants and windows *)

Lemma covers_spec g t r :
  covers g t r = true ↔
  Reservation.gpu_id r = Some g ∧ Reservation.status r ∈ ACTIVE_STATUSES ∧
  Reservation.start_at r <= t < Reservation.end_at r.
Proof. unfold covers, holds. rewrite !andb_true_iff, !bool_decide_eq_true. tauto. Qed.

Lemma in_window_spec g a b r :
  in_window g a b r = true ↔
  Reservation.gpu_id r = Some g ∧ Reservation.status r ∈ ACTIVE_STATUSES ∧
  Reservation.start_at r < b ∧ a < Reservation.end_at r.
Proof. unfold in_window. rewrite !andb_true_iff, !bool_decide_eq_true. tauto. Qed.

Lemma covers_in_window g t a b r : a <= t < b → covers g t r = true → in_window g a b r = true.
Proof. rewrite covers_spec, in_window_spec. naive_solver lia. Qed.

(** The rows of a GPU's window. *)
Definition window (g a b : Z) (table : gmap Z Reservation.t) : list Reservation.t :=
  filter (λ r, in_window g a b r = true) (rows table).

Lemma elem_of_window g a b table r :
  r ∈ window g a b table ↔ in_window g a b r = true ∧ ∃ k, table !! k = Some r.
Proof. unfold window. by rewrite list_elem_of_filter, elem_of_rows. Qed.

Lemma window_insert_other g a b table k r :
  table !! k = None → in_window g a b r = false →
  window g a b (<[k := r]> table) ≡ₚ window g a b table.
Proof.
  intros Hk Hr. unfold window. rewrite (rows_insert_fresh _ _ _ Hk).
  rewrite filter_cons_False by (by rewrite Hr). done.
Qed.

Lemma compatible_perm item w w' gpu : w ≡ₚ w' → compatible item w gpu → compatible item w' gpu.
Proof.
  intros Hp [->|(m & Hm & Hall & Hmem & Hpct)].
  - left. symmetry in Hp. by apply Permutation_nil_r in Hp.
  - right. exists m. split_and!; [done| | |].
    + intros r Hr. apply Hall. by rewrite Hp.
    + by rewrite <- Hp.
    + intros p Hp'. rewrite <- Hp. by apply Hpct.
Qed.

(** A sum over the instant is at most the sum over a window around it. *)
Lemma at_le_window (f : Reservation.t → Z) g t a b table :
  a <= t < b → (∀ k r, table !! k = Some r → 0 <= f r) →
  msum (λ r, if covers g t r then f r else 0) table <= Zsum (f <$> window g a b table).
Proof.
  intros Ht Hf. unfold window. rewrite Zsum_filter. apply msum_le.
  intros k r Hk. specialize (Hf _ _ Hk).
  destruct (covers g t r) eqn:Hc.
  - rewrite decide_True by (by eapply covers_in_window). lia.
  - case_decide; lia.
Qed.

(** ** Preservation *)

Definition rows_ok (table : gmap Z Reservation.t) : Prop :=
  ∀ k r, table !! k = Some r → reservation_row_ok r.

Lemma row_ok_nonneg r :
  reservation_row_ok r →
  0 <= or0 (Reservation.gpu_memory_mb r) ∧ 0 <= or0 (Reservation.gpu_compute_share_pct r).
Proof.
  intros (_ & _ & Hp & Hm & _).
  destruct (Reservation.gpu_memory_mb r), (Reservation.gpu_compute_share_pct r); simpl;
    repeat match goal with H : ∀ _, Some _ = Some _ → _ |- _ => specialize (H _ eq_refl) end; lia.
Qed.

Lemma memory_at_insert g t k r table :
  table !! k = None →
  memory_at g t (<[k := r]> table) =
    (if covers g t r then or0 (Reservation.gpu_memory_mb r) else 0) + memory_at g t table.
Proof. intros H. unfold memory_at. by rewrite msum_insert_fresh. Qed.

Lemma compute_at_insert g t k r table :
  table !! k = None →
  compute_at g t (<[k := r]> table) =
    (if covers g t r then or0 (Reservation.gpu_compute_share_pct r) else 0) + compute_at g t table.
Proof. intros H. unfold compute_at. by rewrite msum_insert_fresh. Qed.

Section insert.
Context (gs : gmap Z Gpu.t) (table : gmap Z Reservation.t) (k : Z) (r : Reservation.t).
Hypothesis Hok : booking_ok gs table.
Hypothesis Hrows : rows_ok table.
Hypothesis Hr : reservation_row_ok r.
Hypothesis Hk : table !! k = None.
Hypothesis Hcompat : ∀ g, Reservation.gpu_id r = Some g →
  ∃ gpu, gs !! g = Some gpu ∧
    compatible (draft_of r) (window g (Reservation.start_at r) (Reservation.end_at r) table) gpu.

(** A stored row that meets the new one at an instant is in its window. *)
Lemma met_in_window g t k' r' :
  table !! k' = Some r' → covers g t r' = true → covers g t r = true →
  r' ∈ window g (Reservation.start_at r) (Reservation.end_at r) table.
Proof using.
  intros Hk' Hc' (_ & _ & Ht)%covers_spec. apply elem_of_window. split; [|by eexists].
  by eapply covers_in_window.
Qed.

Lemma insert_shared g t k' r' :
  table !! k' = Some r' → covers g t r' = true → covers g t r = true →
  is_Some (Reservation.gpu_memory_mb r') ∧ is_Some (Reservation.gpu_memory_mb r).
Proof using Hcompat.
  intros Hk' Hc' Hc. pose proof (met_in_window _ _ _ _ Hk' Hc' Hc) as Hin.
  apply covers_spec in Hc as (Hg & _). destruct (Hcompat g Hg) as (gpu & _ & [Hn|Hs]).
  - rewrite Hn in Hin. by apply elem_of_nil in Hin.
  - destruct Hs as (m & Hm & Hall & _). split; [by apply Hall|].
    exists m. exact Hm.
Qed.

Lemma no_double_booking_insert : no_double_booking (<[k := r]> table).
Proof using Hok Hcompat.
  intros g t k1 k2 r1 r2 H1 H2 Hne Hc1 Hc2. destruct Hok as (Hd & _).
  rewrite lookup_insert in H1, H2.
  destruct (decide (k = k1)) as [Hk1|], (decide (k = k2)) as [Hk2|]; [congruence| | |].
  - injection H1 as <-. destruct (insert_shared g t k2 r2) as [? ?]; auto.
  - injection H2 as <-. eauto using insert_shared.
  - by apply (Hd g t k1 k2).
Qed.

Lemma nonneg_memory k' r' : table !! k' = Some r' → 0 <= or0 (Reservation.gpu_memory_mb r').
Proof using Hrows. intros H. by apply row_ok_nonneg, (Hrows k'). Qed.

Lemma nonneg_compute k' r' :
  table !! k' = Some r' → 0 <= or0 (Reservation.gpu_compute_share_pct r').
Proof using Hrows. intros H. by apply row_ok_nonneg, (Hrows k'). Qed.

(** Two rows meet at [t] after the insertion and one of them is new: the
    window was not empty, so its sum was checked. *)
Lemma insert_memory_met g gpu t k' r' :
  gs !! g = Some gpu → or0 (Gpu.memory_total_mb gpu) ≠ 0 →
  table !! k' = Some r' → covers g t r' = true → covers g t r = true →
  memory_at g t (<[k := r]> table) <= or0 (Gpu.memory_total_mb gpu).
Proof using Hrows Hk Hcompat.
  intros Hg Hnz Hk' Hc' Hc. rewrite memory_at_insert, Hc by done.
  pose proof (met_in_window _ _ _ _ Hk' Hc' Hc) as Hin.
  apply covers_spec in Hc as (Hgid & _ & Ht).
  destruct (Hcompat g Hgid) as (gpu' & Hg' & Hcp). assert (gpu' = gpu) as -> by congruence.
  pose proof (at_le_window _ g t _ _ table Ht nonneg_memory) as Hle.
  cbv beta in Hle. fold (memory_at g t table) in Hle.
  destruct Hcp as [Hn|(m & Hm & _ & Hcap & _)].
  { rewrite Hn in Hin. by apply elem_of_nil in Hin. }
  specialize (Hcap Hnz). simpl in Hm. rewrite Hm. simpl. lia.
Qed.

Lemma within_memory_insert : within_memory gs (<[k := r]> table).
Proof using Hok Hrows Hk Hcompat.
  intros g gpu t k1 k2 r1 r2 Hg Hnz H1 H2 Hne Hc1 Hc2.
  rewrite lookup_insert in H1, H2.
  destruct (decide (k = k1)) as [Hk1|], (decide (k = k2)) as [Hk2|]; [congruence| | |].
  - injection H1 as <-. eauto using insert_memory_met.
  - injection H2 as <-. eauto using insert_memory_met.
  - destruct (covers g t r) eqn:Hc; [eauto using insert_memory_met|].
    rewrite memory_at_insert, Hc by done.
    destruct Hok as (_ & Hm & _). specialize (Hm g gpu t k1 k2 r1 r2). naive_solver lia.
Qed.

Lemma within_compute_insert : within_compute (<[k := r]> table).
Proof using Hok Hrows Hr Hk Hcompat.
  intros g t. rewrite compute_at_insert by done.
  destruct Hok as (_ & _ & Hp). specialize (Hp g t).
  destruct (covers g t r) eqn:Hc; [|lia].
  apply covers_spec in Hc as (Hgid & _ & Ht). destruct (Hcompat g Hgid) as (gpu & _ & Hcp).
  pose proof (at_le_window _ g t _ _ table Ht nonneg_compute) as Hle.
  cbv beta in Hle. fold (compute_at g t table) in Hle.
  destruct (Reservation.gpu_compute_share_pct r) as [p|] eqn:Hpct; simpl; [|lia].
  destruct Hr as (_ & _ & Hp100 & _). specialize (Hp100 _ Hpct).
  destruct Hcp as [Hn|(_ & _ & _ & _ & Hcap)].
  - rewrite Hn in Hle. change (Zsum _) with 0 in Hle. lia.
  - specialize (Hcap _ Hpct). lia.
Qed.

Lemma booking_ok_insert : booking_ok gs (<[k := r]> table).
Proof using Hok Hrows Hr Hk Hcompat.
  split_and!; [apply no_double_booking_insert|apply within_memory_insert|
               apply within_compute_insert].
Qed.
End insert.

(** Removing a row, or rewriting it so that it holds no more than before,
    keeps the invariant. *)
Lemma memory_at_delete_le g t k table :
  rows_ok table → memory_at g t (delete k table) <= memory_at g t table.
Proof.
  intros Hrows. destruct (table !! k) as [r|] eqn:Hk; [|by rewrite delete_id].
  rewrite <- (insert_delete_id table k r) at 2 by done.
  rewrite memory_at_insert by apply lookup_delete_eq.
  destruct (row_ok_nonneg r (Hrows k r Hk)). destruct (covers g t r); lia.
Qed.

Lemma compute_at_delete_le g t k table :
  rows_ok table → compute_at g t (delete k table) <= compute_at g t table.
Proof.
  intros Hrows. destruct (table !! k) as [r|] eqn:Hk; [|by rewrite delete_id].
  rewrite <- (insert_delete_id table k r) at 2 by done.
  rewrite compute_at_insert by apply lookup_delete_eq.
  destruct (row_ok_nonneg r (Hrows k r Hk)). destruct (covers g t r); lia.
Qed.

Lemma booking_ok_delete gs table k :
  rows_ok table → booking_ok gs table → booking_ok gs (delete k table).
Proof.
  intros Hrows (Hd & Hm & Hp). split_and!.
  - intros g t k1 k2 r1 r2 [_ H1]%lookup_delete_Some [_ H2]%lookup_delete_Some.
    by apply (Hd g t k1 k2).
  - intros g gpu t k1 k2 r1 r2 Hg Hnz [_ H1]%lookup_delete_Some [_ H2]%lookup_delete_Some ???.
    pose proof (memory_at_delete_le g t k table Hrows).
    specialize (Hm g gpu t k1 k2 r1 r2). naive_solver lia.
  - intros g t. pose proof (compute_at_delete_le g t k table Hrows).
    specialize (Hp g t). lia.
Qed.

(** [r'] holds the same slot as [r], or none. *)
Definition same_slot (r r' : Reservation.t) : Prop :=
  Reservation.gpu_id r' = Reservation.gpu_id r ∧
  Reservation.start_at r' = Reservation.start_at r ∧
  Reservation.end_at r' = Reservation.end_at r ∧
  Reservation.gpu_memory_mb r' = Reservation.gpu_memory_mb r ∧
  Reservation.gpu_compute_share_pct r' = Reservation.gpu_compute_share_pct r ∧
  (Reservation.status r' ∈ ACTIVE_STATUSES → Reservation.status r ∈ ACTIVE_STATUSES).

Lemma same_slot_covers r r' g t : same_slot r r' → covers g t r' = true → covers g t r = true.
Proof. intros (H1 & H2 & H3 & _ & _ & H6). rewrite !covers_spec, H1, H2, H3. naive_solver. Qed.

Lemma booking_ok_same_slot gs table k r r' :
  rows_ok table → booking_ok gs table → table !! k = Some r → same_slot r r' →
  booking_ok gs (<[k := r']> table).
Proof.
  intros Hrows (Hd & Hm & Hp) Hk Hs. pose proof Hs as (_ & _ & _ & Hmem & Hpct & _).
  pose proof (row_ok_nonneg r (Hrows _ _ Hk)) as [Hn1 Hn2].
  assert (Hcov := λ g t, same_slot_covers r r' g t Hs).
  assert (Hmle : ∀ g t, memory_at g t (<[k := r']> table) <= memory_at g t table).
  { intros g t. unfold memory_at. rewrite (msum_insert_existing _ _ _ _ _ Hk), Hmem.
    specialize (Hcov g t). destruct (covers g t r'), (covers g t r); try lia; naive_solver. }
  assert (Hple : ∀ g t, compute_at g t (<[k := r']> table) <= compute_at g t table).
  { intros g t. unfold compute_at. rewrite (msum_insert_existing _ _ _ _ _ Hk), Hpct.
    specialize (Hcov g t). destruct (covers g t r'), (covers g t r); try lia; naive_solver. }
  (* every row of the new table stands for a row of the old one *)
  assert (Hold : ∀ g t k1 r1, <[k := r']> table !! k1 = Some r1 → covers g t r1 = true →
            ∃ r0, table !! k1 = Some r0 ∧ covers g t r0 = true ∧
                  Reservation.gpu_memory_mb r0 = Reservation.gpu_memory_mb r1).
  { intros g t k1 r1. rewrite lookup_insert. case_decide; [|by eauto].
    intros [= <-] Hc. subst. exists r. eauto. }
  split_and!.
  - intros g t k1 k2 r1 r2 H1 H2 Hne Hc1 Hc2.
    destruct (Hold _ _ _ _ H1 Hc1) as (r1' & H1' & Hc1' & <-).
    destruct (Hold _ _ _ _ H2 Hc2) as (r2' & H2' & Hc2' & <-). by apply (Hd g t k1 k2).
  - intros g gpu t k1 k2 r1 r2 Hg Hnz H1 H2 Hne Hc1 Hc2.
    destruct (Hold _ _ _ _ H1 Hc1) as (r1' & H1' & Hc1' & _).
    destruct (Hold _ _ _ _ H2 Hc2) as (r2' & H2' & Hc2' & _).
    etrans; [apply Hmle|]. by apply (Hm g gpu t k1 k2 r1' r2').
  - intros g t. etrans; [apply Hple|apply Hp].
Qed.

(** ** The acceptance conditions *)

Definition mode_ok (script : option pystr) (item : ItemDraft) : Prop :=
  d_gpu_id item = None →
  is_Some script ∧ d_gpu_memory_mb item = None ∧ d_gpu_compute_share_pct item = None.

Definition time_ok (d : Db) (at_ : Z) (item : ItemDraft) : Prop :=
  d_start_at item < d_end_at item ∧ at_ - minutes 5 <= d_start_at item ∧
  ∃ srv, servers d !! d_server_id item = Some srv ∧
    (∀ h, Server.max_reservation_hours srv = Some h → d_end_at item - d_start_at item <= hours h).

(** A link the user owns, active, and verified (not merely declared). *)
Definition link_ok (d : Db) (user_id : Z) (item : ItemDraft) : Prop :=
  ∃ l, account_links d !! d_account_link_id item = Some l ∧ AccountLink.is_active l = 1 ∧
       AccountLink.user_id l = user_id ∧ AccountLink.source l ≠ admin_declared.

Definition trigger_ok (script_scheduled_start_at : option Z) (item : ItemDraft) : Prop :=
  ∀ t, script_scheduled_start_at = Some t → d_start_at item <= t < d_end_at item.

(** The card exists and the item fits next to what is booked on it. *)
Definition room_for (d : Db) (item : ItemDraft) : Prop :=
  ∀ g, d_gpu_id item = Some g →
    ∃ gpu, gpus d !! g = Some gpu ∧
      compatible item (window g (d_start_at item) (d_end_at item) (reservations d)) gpu.

Record bookable (d : Db) (at_ user_id : Z) (script : option pystr)
    (script_scheduled_start_at : option Z) (items : list ItemDraft) : Prop := mkBookable {
  b_some : items ≠ [] ;
  b_size : ∀ body, script = Some body → utf8_length body <= SCRIPT_MAX_BYTES ;
  b_mode : ∀ i, i ∈ items → mode_ok script i ;
  b_time : ∀ i, i ∈ items → time_ok d at_ i ;
  b_link : ∀ i, i ∈ items → link_ok d user_id i ;
  b_trigger : ∀ i, i ∈ items → trigger_ok script_scheduled_start_at i ;
  b_room : ∀ i, i ∈ items → room_for d i }.

(** ** Each check decides its condition *)

Lemma for_each_reader {S E A} (l : list A) (f : A → prog S E unit) s s' :
  (∀ x, reader (f x)) →
  for_each l f s = (Ok tt, s') ↔ s' = s ∧ ∀ x, x ∈ l → f x s = (Ok tt, s).
Proof.
  intros Hf. split.
  - intros H. apply for_each_Ok_pure in H as [-> H].
    + split; [done|]. intros x Hx. by destruct (H x Hx) as [[] ?].
    + intros x s1 u s2 _ Hr. by eapply reader_run.
  - intros [-> H]. by apply for_each_run_pure.
Qed.

(** A failed loop of checks raises one of the checks' errors. *)
Lemma for_each_raises {S E A} (P : E → Prop) (l : list A) (f : A → prog S E unit) s e s' :
  (∀ x s e s', f x s = (Raise e, s') → P e) → for_each l f s = (Raise e, s') → P e.
Proof.
  intros Hf. revert s. induction l as [|x l IH]; intros s H; [done|]. simpl in H.
  apply bind_Raise in H as [H|(? & ? & _ & H)]; eauto.
Qed.

Lemma check_mode_Ok script item s :
  check_mode script item s = (Ok tt, s) ↔ mode_ok script item.
Proof.
  unfold check_mode, mode_ok. destruct (d_gpu_id item); [naive_solver|].
  destruct script, (d_gpu_memory_mb item), (d_gpu_compute_share_pct item); simpl; split;
    try done; naive_solver.
Qed.

Lemma exceeds_hours_false h q :
  exceeds_hours h q = false ↔ ∀ n, h = Some n → q <= hours n.
Proof.
  unfold exceeds_hours. destruct h as [n|]; [|done]. rewrite bool_decide_eq_false. split.
  - intros Hn m [= <-]. lia.
  - intros H. specialize (H _ eq_refl). lia.
Qed.

Lemma _validate_item_time_accepts item at_ s :
  (∃ srv, _validate_item_time item at_ s = (Ok srv, s)) ↔ time_ok (db s) at_ item.
Proof.
  unfold time_ok. split.
  - intros (srv & H). apply _validate_item_time_Ok in H as (_ & ? & ? & ? & Hh).
    rewrite exceeds_hours_false in Hh. eauto.
  - intros (? & ? & srv & ? & Hh%exceeds_hours_false). exists srv. by apply _validate_item_time_Ok.
Qed.

Lemma _load_link_accepts link u s :
  (∃ l, _load_link_or_raise link u s = (Ok l, s)) ↔
  ∃ l, account_links (db s) !! link = Some l ∧ AccountLink.is_active l = 1 ∧
       AccountLink.user_id l = u ∧ AccountLink.source l ≠ admin_declared.
Proof.
  unfold _load_link_or_raise, get_link. rewrite (bind_run (gets _) _ s _ s) by reflexivity.
  destruct (account_links (db s) !! link) as [l|]; [|naive_solver]. split.
  - intros [l' H]. inv_prog. simpl_bools. subst. eauto.
  - intros (l' & [= <-] & H1 & H2 & H3). exists l.
    by rewrite (bool_decide_eq_true_2 _ H1), (bool_decide_eq_true_2 _ H2), (bool_decide_eq_false_2 _ H3).
Qed.

Lemma validate_item_Ok u at_ t item s :
  validate_item u at_ t item s = (Ok tt, s) ↔
  time_ok (db s) at_ item ∧ link_ok (db s) u item ∧ trigger_ok t item.
Proof.
  unfold validate_item, link_ok. rewrite <- _validate_item_time_accepts, <- _load_link_accepts.
  split.
  - intros H. inv_prog.
    match goal with H : _validate_item_time _ _ s = (_, ?s1) |- _ =>
      pose proof (reader_run _ _ _ _ (_validate_item_time_reader _ _) H); subst end.
    match goal with H : _load_link_or_raise _ _ s = (_, ?s1) |- _ =>
      pose proof (reader_run _ _ _ _ (_load_link_or_raise_reader _ _) H); subst end.
    split_and!; [by eexists..|]. intros t' ->. apply raise_if_Ok in H as [H _].
    by apply negb_false_iff, bool_decide_eq_true in H.
  - intros ([srv H1] & [l H2] & H3).
    rewrite (bind_run _ _ _ _ _ H1), (bind_run _ _ _ _ _ H2).
    destruct t as [t|]; [|done]. apply raise_if_false.
    rewrite bool_decide_eq_true_2; [done|]. by apply H3.
Qed.

Lemma check_conflict_room item s :
  clean s → (check_conflict item s = (Ok tt, s) ↔ room_for (db s) item).
Proof.
  intros Hc. rewrite check_conflict_Ok by done. unfold room_for, window.
  destruct (d_gpu_id item); naive_solver.
Qed.

(** ** What is stored *)

(** The rows of a batch, as the AUTO_INCREMENT counter numbers them. *)
Fixpoint batch_rows (mk : nat → ItemDraft → Z → Reservation.t) (idx : nat) (items : list ItemDraft)
    (id : Z) : list Reservation.t :=
  match items with
  | [] => []
  | item :: items' => mk idx item id :: batch_rows mk (S idx) items' (id + 1)
  end.

(** Only the reservation table and its counter move. *)
Record stored (rs : list Reservation.t) (s s' : Session) : Prop := mkStored {
  st_committed : committed s' = committed s ;
  st_uuid : uuid s' = uuid s ;
  st_db : db s' = db s <| reservations := store_rows rs (reservations (db s)) |>
                       <| next_reservation_id :=
                            next_reservation_id (db s) + Z.of_nat (length rs) |> }.

Lemma add_rows_spec mk idx items s :
  session_ok s →
  (∀ i it id, Reservation.id (mk i it id) = id) →
  wp (add_rows mk idx items) (λ res s', match res with
    | Ok rs => rs = batch_rows mk idx items (next_reservation_id (db s)) ∧ session_ok s' ∧
               stored rs s s' ∧ Forall reservation_row_ok rs
    | Raise e => committed s' = committed s ∧
        ∃ r, r ∈ batch_rows mk idx items (next_reservation_id (db s)) ∧
             reservation_row_error r = Some e
    end) s.
Proof.
  intros Hs Hid. revert idx s Hs. induction items as [|item items IH]; intros idx s Hs; simpl.
  { apply wp_ret. split_and!; [done|done| |constructor]. split; [done..|]. simpl.
    rewrite Z.add_0_r. by destruct s as [? [] ?]. }
  apply wp_bind. unfold add_reservation at 1, wp at 1. cbv zeta.
  destruct (reservation_row_error (mk idx item (next_reservation_id (db s)))) as [e|] eqn:He.
  { simpl. split; [done|]. exists (mk idx item (next_reservation_id (db s))). split; [left|done]. }
  set (s1 := s <| db := _ |>).
  pose proof (add_reservation_ok s (mk idx item) Hs (Hid idx item)) as Hadd.
  unfold wp, add_reservation in Hadd. rewrite He in Hadd. simpl in Hadd.
  destruct Hadd as (Hs1 & _). simpl. change (session_ok s1) in Hs1.
  apply wp_bind. eapply wp_mono; [by apply IH|]. intros [rs|e] s'; simpl.
  - intros (-> & Hs' & [Hcm Hu Hdb] & Hall). apply wp_ret. split_and!; [done|done| |].
    + split; [done..|]. rewrite Hdb. unfold s1, store_rows. simpl. rewrite Hid.
      f_equal. lia.
    + constructor; [by apply reservation_row_error_None|done].
  - intros (Hcm & r & Hr & Herr). split; [done|]. exists r. split; [by right|done].
Qed.

Lemma audit_created_one u lab req r s :
  clean s →
  ∃ e, audit_created u lab req r s = (Ok tt, s <| db := db s <| audit_log := audit_log (db s) ++ [e] |> |>
         <| pushed := pushed s ++ [(Reservation.user_id r, lifecycle_frame r change_created)] |>) ∧
       AuditLog.action e = "reservation.create"%string ∧
       AuditLog.target_id e = Some (Reservation.id r).
Proof.
  intros Hc. unfold audit_created. eexists.
  rewrite (bind_run _ _ _ _ _ (write_run _ _ _ _ _ _ _ _ _ s Hc)). by split.
Qed.

(** The audit entries and frames of the created rows. *)
Lemma audit_created_run u lab req rs s :
  clean s →
  ∃ s' es, for_each rs (audit_created u lab req) s = (Ok tt, s') ∧ clean s' ∧
    committed s' = committed s ∧ AuditLog.action <$> es = (λ _, "reservation.create"%string) <$> rs ∧
    AuditLog.target_id <$> es = Some ∘ Reservation.id <$> rs ∧
    db s' = db s <| audit_log := audit_log (db s) ++ es |> ∧
    pushed s' = pushed s ++ ((λ r, (Reservation.user_id r, lifecycle_frame r change_created)) <$> rs).
Proof.
  revert s. induction rs as [|r rs IH]; intros s Hc.
  { exists s, []. split_and!; [done..| |by rewrite app_nil_r].
    rewrite app_nil_r. by destruct s as [? [] ?]. }
  simpl. destruct (audit_created_one u lab req r s Hc) as (e & He & Ha & Ht).
  rewrite (bind_run _ _ _ _ _ He).
  match goal with |- context [for_each rs _ ?s1] =>
    destruct (IH s1) as (s' & es & H1 & H2 & H3 & H4 & H5 & H6 & H7) end;
    [done|].
  exists s', (e :: es). split_and!; [exact H1|done|done| | | |].
  - by rewrite !fmap_cons, H4, Ha.
  - by rewrite !fmap_cons, H5, Ht.
  - rewrite H6. simpl. by rewrite <- app_assoc.
  - rewrite H7. simpl. by rewrite <- app_assoc.
Qed.

(** ** The two halves of a creation *)

Section create.
Context (items : list ItemDraft) (user_id lab_id : Z) (script : option pystr)
  (script_scheduled_start_at script_max_runtime_seconds : option Z) (share_script : bool)
  (at_ : Z) (req : RequestInfo).

Definition create_checks : M unit :=
  raise_if (bool_decide (items = [])) InvalidTimeError ;;
  raise_if (match script with
            | Some s => bool_decide (SCRIPT_MAX_BYTES < utf8_length s)
            | None => false
            end) ScriptTooLargeError ;;
  for_each items (check_mode script) ;;
  for_each items (validate_item user_id at_ script_scheduled_start_at) ;;
  for_each items check_conflict.

Definition create_inserts : M (string * list Reservation.t) :=
  group_id ← gets uuid ;
  created ← add_rows (new_row user_id group_id script script_scheduled_start_at
                        script_max_runtime_seconds share_script) 0 items ;
  for_each created (audit_created user_id lab_id req) ;;
  mret (group_id, created).

Lemma create_split s :
  create_reservation_batch items user_id lab_id script script_scheduled_start_at
    script_max_runtime_seconds share_script at_ req s = (create_checks ;; create_inserts) s.
Proof.
  unfold create_reservation_batch, create_checks, create_inserts, mbind, prog_bind.
  repeat match goal with
  | |- context [match ?m s with _ => _ end] => destruct (m s) as [[[]|] ?]; [|done]
  | |- context [match ?m ?s1 with _ => _ end] =>
      lazymatch m with
      | raise_if _ _ => destruct (m s1) as [[[]|] ?]; [|done]
      | for_each _ _ => destruct (m s1) as [[[]|] ?]; [|done]
      end
  end.
  done.
Qed.

Lemma create_checks_reader : reader create_checks.
Proof. unfold create_checks. solve_reader. Qed.

Lemma create_checks_Ok s :
  clean s →
  create_checks s = (Ok tt, s) ↔
    bookable (db s) at_ user_id script script_scheduled_start_at items.
Proof.
  intros Hc. unfold create_checks. split.
  - intros H. inv_prog. simpl_bools.
    repeat match goal with
    | H : for_each _ _ _ = (Ok ?u, _) |- _ =>
        destruct u; apply for_each_reader in H as [? H]; [|intros; eauto with reader]; subst
    end.
    lazymatch goal with Hc : clean ?s1 |- _ =>
      assert (Hv : ∀ i, i ∈ items → time_ok (db s1) at_ i ∧ link_ok (db s1) user_id i ∧
                                    trigger_ok script_scheduled_start_at i) end.
    { intros i Hi. apply validate_item_Ok. eauto. }
    split; [done| | | | | |]; try (intros i Hi; by apply Hv).
    + intros body ->. by simpl_bools; lia.
    + intros i Hi. eapply check_mode_Ok; eauto.
    + intros i Hi. apply check_conflict_room; eauto.
  - intros [H1 H2 H3 H4 H5 H6 H7].
    rewrite (bind_run _ _ s tt s) by (apply raise_if_false; by apply bool_decide_eq_false_2).
    rewrite (bind_run _ _ s tt s).
    2:{ apply raise_if_false. destruct script as [b|]; [|done].
        apply bool_decide_eq_false_2. specialize (H2 b eq_refl). lia. }
    rewrite (bind_run _ _ s tt s).
    2:{ apply for_each_run_pure. intros i Hi. by apply check_mode_Ok, H3. }
    rewrite (bind_run _ _ s tt s).
    2:{ apply for_each_run_pure. intros i Hi. apply validate_item_Ok. auto. }
    apply for_each_run_pure. intros i Hi. apply check_conflict_room; auto.
Qed.
(** A refused check raises a [ReservationError]. *)
Definition refusal (e : exn) : Prop := is_ReservationError e = true.

Lemma check_mode_raises it s e s' : check_mode script it s = (Raise e, s') → refusal e.
Proof.
  unfold check_mode, refusal. destruct (d_gpu_id it); [done|]. intros H.
  apply bind_Raise in H as [H|(? & ? & ? & H)]; inv_prog; by subst.
Qed.

Lemma validate_item_raises it s e s' :
  validate_item user_id at_ script_scheduled_start_at it s = (Raise e, s') → refusal e.
Proof.
  unfold validate_item, refusal. intros H. apply bind_Raise in H as [H|(? & ? & _ & H)].
  { apply _validate_item_time_Raise in H as [->|(? & ? & ->)]; done. }
  apply bind_Raise in H as [H|(? & ? & _ & H)].
  - unfold _load_link_or_raise in H. apply bind_Raise in H as [H|([l|] & ? & ? & H)];
      [done| |by inv_prog; subst].
    apply bind_Raise in H as [H|(? & ? & _ & H)]; [by inv_prog; subst|].
    apply bind_Raise in H as [H|(? & ? & _ & H)]; by inv_prog; subst.
  - destruct script_scheduled_start_at; [by inv_prog; subst|done].
Qed.

Lemma conflict_error_refusal c e : conflict_error c = Some e → refusal e.
Proof.
  unfold conflict_error, refusal. destruct (ctype c); [by intros [= <-]| |by intros [= <-]| |done..].
  - destruct (default _ _) as [[[? ?] ?] ?]. by intros [= <-].
  - destruct (default _ _) as [[? ?] ?]. by intros [= <-].
Qed.

Lemma check_conflict_raises it s e s' : check_conflict it s = (Raise e, s') → refusal e.
Proof.
  unfold check_conflict. destruct (d_gpu_id it); [|done]. intros H.
  apply bind_Raise in H as [H|(o & ? & _ & H)]; [done|].
  apply bind_Raise in H as [H|(gpu & ? & _ & H)]; [by inv_prog; subst|].
  apply bind_Raise in H as [H|(w & ? & _ & H)]; [done|].
  destruct (_classify_conflict it w gpu ≫= conflict_error) as [e'|] eqn:Hc; [|done].
  inv_prog. subst. destruct (_classify_conflict it w gpu) as [c|]; [|done].
  by eapply conflict_error_refusal.
Qed.

Lemma create_checks_raises s e s' : create_checks s = (Raise e, s') → refusal e.
Proof.
  unfold create_checks. intros H.
  apply bind_Raise in H as [H|(? & ? & _ & H)]; [by inv_prog; subst|].
  apply bind_Raise in H as [H|(? & ? & _ & H)]; [by inv_prog; subst|].
  apply bind_Raise in H as [H|(? & ? & _ & H)].
  { eapply for_each_raises, H. apply check_mode_raises. }
  apply bind_Raise in H as [H|(? & ? & _ & H)].
  { eapply for_each_raises, H. apply validate_item_raises. }
  eapply for_each_raises, H. apply check_conflict_raises.
Qed.

(** The rows a session would give the batch. *)
Definition planned_rows (s : Session) : list Reservation.t :=
  batch_rows (new_row user_id (uuid s) script script_scheduled_start_at
                script_max_runtime_seconds share_script) 0 items (next_reservation_id (db s)).

(** The rows are inserted and audited. *)
Definition batch_stored (s s' : Session) : Prop :=
  let rs := planned_rows s in
  Forall reservation_row_ok rs ∧
  reservations (db s') = store_rows rs (reservations (db s)) ∧
  session_ok s' ∧ committed s' = committed s ∧
  (∃ es, db s' = db s <| reservations := store_rows rs (reservations (db s)) |>
                      <| next_reservation_id := next_reservation_id (db s) + Z.of_nat (length rs) |>
                      <| audit_log := audit_log (db s) ++ es |> ∧
         AuditLog.action <$> es = (λ _, "reservation.create"%string) <$> rs ∧
         AuditLog.target_id <$> es = Some ∘ Reservation.id <$> rs).

Lemma create_inserts_run s :
  session_ok s →
  wp create_inserts (λ res s', match res with
    | Ok (g, rs) => g = uuid s ∧ rs = planned_rows s ∧ batch_stored s s'
    | Raise e => committed s' = committed s ∧
                 ∃ r, r ∈ planned_rows s ∧ reservation_row_error r = Some e
    end) s.
Proof.
  intros Hs. unfold create_inserts. apply wp_bind, wp_gets, wp_bind.
  eapply wp_mono; [apply add_rows_spec; [done|by intros]|].
  intros [rs|e] s1; [|done]. intros (-> & Hs1 & [Hcm Hu Hdb] & Hall). fold (planned_rows s) in *.
  destruct (audit_created_run user_id lab_id req (planned_rows s) s1 (proj1 Hs1))
    as (s2 & es & Hr & Hc2 & Hcm2 & Hes & Hts & Hdb2 & _).
  unfold wp. rewrite (bind_run _ _ _ _ _ Hr). simpl. split_and!; [done..|].
  assert (Hr2 : reservations (db s2) = store_rows (planned_rows s) (reservations (db s))).
  { rewrite Hdb2, Hdb. done. }
  split_and!; [done|done| |by rewrite Hcm2|].
  - split; [done|]. destruct Hs1 as [_ Hok]. intros k r Hk.
    specialize (Hok k r). rewrite Hdb2 in *. by apply Hok.
  - exists es. split_and!; [|done..]. by rewrite Hdb2, Hdb.
Qed.
End create.

(** The whole call. *)
Lemma create_checks_inserts items user lab script sst smr share at_ req s :
  session_ok s →
  wp (create_reservation_batch items user lab script sst smr share at_ req) (λ res s', match res with
    | Ok (g, rs) =>
        bookable (db s) at_ user script sst items ∧ g = uuid s ∧
        rs = planned_rows items user script sst smr share s ∧
        batch_stored items user script sst smr share s s'
    | Raise e =>
        (¬ bookable (db s) at_ user script sst items ∧ is_ReservationError e = true ∧ s' = s) ∨
        (bookable (db s) at_ user script sst items ∧ committed s' = committed s ∧
         ∃ r, r ∈ planned_rows items user script sst smr share s ∧ reservation_row_error r = Some e)
    end) s.
Proof.
  intros Hs. unfold wp. rewrite create_split.
  set (cc := create_checks items user script sst at_).
  destruct (cc s) as [[[]|e] s1] eqn:Hc.
  - pose proof (reader_run _ _ _ _ (create_checks_reader _ _ _ _ _) Hc) as ->.
    rewrite (bind_run _ _ _ _ _ Hc).
    apply create_checks_Ok in Hc; [|apply Hs].
    pose proof (create_inserts_run items user lab script sst smr share req s Hs) as Hi.
    unfold wp in Hi. destruct (create_inserts _ _ _ _ _ _ _ _ s) as [[[g rs]|e] s2]; simpl in *.
    + destruct Hi as (? & ? & ?). done.
    + by right.
  - rewrite (bind_run_raise _ _ _ _ _ Hc). left. simpl.
    pose proof (reader_run _ _ _ _ (create_checks_reader _ _ _ _ _) Hc) as ->.
    split_and!; [|by eapply create_checks_raises|done].
    intros Hb. apply (create_checks_Ok items user script sst at_ s) in Hb; [|apply Hs]. unfold cc in *. congruence.
Qed.

(** ** Capacity *)

(** Two items that do not compete for a card. *)
Definition apart (a b : ItemDraft) : Prop :=
  ∀ g, d_gpu_id a = Some g → d_gpu_id b = Some g →
       d_end_at a <= d_start_at b ∨ d_end_at b <= d_start_at a.

Section batch.
Context (gs : gmap Z Gpu.t) (mk : nat → ItemDraft → Z → Reservation.t).
Hypothesis mk_id : ∀ i it id, Reservation.id (mk i it id) = id.
Hypothesis mk_draft : ∀ i it id, draft_of (mk i it id) = it.

Definition fits (t : gmap Z Reservation.t) (it : ItemDraft) : Prop :=
  ∀ g, d_gpu_id it = Some g → ∃ gpu, gs !! g = Some gpu ∧
    compatible it (window g (d_start_at it) (d_end_at it) t) gpu.

(** Storing one item leaves room for those apart from it. *)
Lemma fits_after i it it' id t :
  t !! id = None → apart it it' → fits t it' → fits (<[id := mk i it id]> t) it'.
Proof using mk_draft.
  intros Hid Hap Hf g Hg. destruct (Hf g Hg) as (gpu & Hgpu & Hc). exists gpu. split; [done|].
  eapply compatible_perm; [|exact Hc]. symmetry. apply window_insert_other; [done|].
  apply not_true_iff_false. rewrite in_window_spec. intros (Hg' & _ & H1 & H2).
  pose proof (mk_draft i it id) as Hd.
  rewrite <- Hd in Hap. unfold apart, draft_of in Hap. simpl in Hap. specialize (Hap g Hg' Hg). lia.
Qed.

Lemma store_batch_ok idx items id t :
  rows_ok t → booking_ok gs t → (∀ k, is_Some (t !! k) → k < id) →
  Forall reservation_row_ok (batch_rows mk idx items id) →
  (∀ it, it ∈ items → fits t it) → ForallOrdPairs apart items →
  booking_ok gs (store_rows (batch_rows mk idx items id) t).
Proof using mk_id mk_draft.
  revert idx id t. induction items as [|it items IH]; intros idx id t Hrows Hok Hlt Hall Hfit Hap;
    [done|].
  simpl in *. rewrite mk_id. inversion_clear Hall as [|? ? Hr Hrs]. inversion_clear Hap as [|? ? Ha Hap'].
  assert (Hfresh : t !! id = None).
  { destruct (t !! id) eqn:E; [|done]. assert (id < id) by (apply Hlt; by rewrite E). lia. }
  apply IH.
  - intros k r. rewrite lookup_insert. case_decide; [by intros [= <-]|apply Hrows].
  - apply booking_ok_insert; [done..|]. intros g Hg. pose proof (mk_draft idx it id) as Hd.
    assert (Hgi : d_gpu_id it = Some g) by by rewrite <- Hd.
    destruct (Hfit it ltac:(left) g Hgi) as (gpu & Hgpu & Hc). exists gpu. split; [done|].
    rewrite Hd. by rewrite <- Hd in Hc at 2 3.
  - intros k. rewrite lookup_insert. case_decide; [intros; lia|]. intros Hk. specialize (Hlt k Hk). lia.
  - done.
  - intros it' Hin. apply fits_after; [done| |apply Hfit; by right].
    rewrite List.Forall_forall in Ha. apply Ha. by apply list_elem_of_In.
  - done.
Qed.
End batch.

(** ** Preview *)

Lemma app_nil_iff {A} (l k : list A) : l ++ k = [] ↔ l = [] ∧ k = [].
Proof. destruct l, k; naive_solver. Qed.

Lemma too_long_nil idx srv item :
  (if exceeds_hours (Server.max_reservation_hours srv) (d_end_at item - d_start_at item)
   then [record_at idx time_too_long <| c_time :=
           Some (Server.max_reservation_hours srv, d_end_at item - d_start_at item) |>] else []) = [] ↔
  ∀ h, Server.max_reservation_hours srv = Some h → d_end_at item - d_start_at item <= hours h.
Proof. rewrite <- exceeds_hours_false. by destruct (exceeds_hours _ _). Qed.

(** One input: nothing is reported exactly when the item is acceptable. *)
Lemma preview_item_run at_ idx item s :
  clean s →
  ∃ cs tc, preview_item at_ idx item s = (Ok (cs, tc), s) ∧
    (cs = [] ↔ time_ok (db s) at_ item ∧ room_for (db s) item) ∧
    Forall (λ c, input_index c = idx) cs ∧ t_input_index tc = idx.
Proof.
  intros Hc. unfold preview_item, time_ok, room_for, get_server, get_gpu.
  case_bool_decide as Hw.
  { eexists _, _. split; [reflexivity|]. split_and!; [|by repeat constructor|done].
    split; [done|]. naive_solver lia. }
  rewrite (bind_run (gets _) _ s _ s) by reflexivity.
  destruct (servers (db s) !! d_server_id item) as [srv|].
  2:{ eexists _, _. split; [reflexivity|]. split_and!; [naive_solver|by repeat constructor|done]. }
  cbv zeta. pose proof (too_long_nil idx srv item) as Hlong.
  set (tl := if exceeds_hours _ _ then _ else _) in *.
  assert (Htl : Forall (λ c, input_index c = idx) tl).
  { unfold tl. destruct (exceeds_hours _ _); by repeat constructor. }
  clearbody tl.
  destruct (d_gpu_id item) as [g|].
  2:{ eexists _, _. split; [reflexivity|]. split_and!; [|done|done]. rewrite Hlong. naive_solver lia. }
  rewrite (bind_run (gets _) _ s _ s) by reflexivity.
  destruct (gpus (db s) !! g) as [gpu|] eqn:Hg.
  2:{ eexists _, _. split; [reflexivity|]. split_and!; [|apply Forall_app; split; [done|by repeat constructor]|done].
      rewrite app_nil_iff. naive_solver. }
  unfold _window_active_reservations. rewrite (bind_run _ _ _ _ _ (select_clean _ s Hc)).
  fold (window g (d_start_at item) (d_end_at item) (reservations (db s))).
  pose proof (classify_None_iff item (window g (d_start_at item) (d_end_at item) (reservations (db s))) gpu) as Hcl.
  destruct (_classify_conflict item _ gpu) as [c|];
    eexists _, _; (split; [reflexivity|]); rewrite app_nil_iff, Hlong;
    (split_and!; [|apply Forall_app; split; [done|by repeat constructor]|done]).
  - split; [by intros [_ ?]|]. intros [_ Hr]. destruct (Hr g eq_refl) as (gpu' & Hg' & Hcomp).
    assert (gpu' = gpu) as -> by congruence. by apply Hcl in Hcomp.
  - split.
    + intros [Hl _]. split; [naive_solver lia|]. intros g' [= <-]. exists gpu. split; [done|]. by apply Hcl.
    + intros [(_ & _ & srv' & [= <-] & Hl) _]. done.
Qed.

(** What the loop reports about input [i]. *)
Definition reports_on (i : Z) (cs : list ConflictRecord) : list ConflictRecord :=
  filter (λ c, input_index c = i) cs.

Lemma reports_on_other i j cs : Forall (λ c, input_index c = j) cs → i ≠ j → reports_on i cs = [].
Proof.
  intros H Hne. unfold reports_on. induction H as [|c cs Hc _ IH]; [done|].
  rewrite filter_cons_False by congruence. done.
Qed.

Lemma reports_on_own i cs : Forall (λ c, input_index c = i) cs → reports_on i cs = cs.
Proof.
  intros H. unfold reports_on. induction H as [|c cs Hc _ IH]; [done|].
  by rewrite filter_cons_True, IH.
Qed.

Lemma reports_on_beyond n cs : Forall (λ c, input_index c < n) cs → reports_on n cs = [].
Proof.
  intros H. unfold reports_on. induction H as [|c cs Hc _ IH]; [done|].
  rewrite filter_cons_False by lia. done.
Qed.

Definition preview_step (at_ : Z) (acc : Z * list ConflictRecord * list TimeLimitCheck)
    (item : ItemDraft) : M (Z * list ConflictRecord * list TimeLimitCheck) :=
  let '(idx, cs, ts) := acc in
  r ← preview_item at_ idx item ;
  mret (idx + 1, cs ++ r.1, ts ++ [r.2]).

Lemma preview_loop_run at_ s items idx cs ts :
  clean s → Forall (λ c, input_index c < idx) cs →
  ∃ cs' ts', fold_prog (preview_step at_) (idx, cs, ts) items s =
      (Ok (idx + Z.of_nat (length items), cs ++ cs', ts ++ ts'), s) ∧
    length ts' = length items ∧
    Forall (λ c, idx <= input_index c) cs' ∧
    ∀ i item, items !! i = Some item →
      (reports_on (idx + Z.of_nat i) cs' = [] ↔ time_ok (db s) at_ item ∧ room_for (db s) item).
Proof.
  intros Hc. revert idx cs ts. induction items as [|item items IH]; intros idx cs ts Hcs.
  { exists [], []. simpl. rewrite !app_nil_r, Z.add_0_r. split_and!; [done|done|constructor|done]. }
  simpl. unfold preview_step at 1.
  destruct (preview_item_run at_ idx item s Hc) as (c1 & t1 & Hr & Hiff & Hidx & _).
  rewrite (bind_run (preview_item at_ idx item ≫= _) _ s (idx + 1, cs ++ c1, ts ++ [t1]) s)
    by by rewrite (bind_run _ _ _ _ _ Hr).
  destruct (IH (idx + 1) (cs ++ c1) (ts ++ [t1])) as (cs' & ts' & Hrun & Hlen & Hge & Hall).
  { apply Forall_app. split; (eapply Forall_impl; [eassumption|]); simpl; lia. }
  exists (c1 ++ cs'), (t1 :: ts'). split.
  { etrans; [exact Hrun|]. rewrite <- !app_assoc. 
    by replace (idx + 1 + Z.of_nat (length items)) with (idx + Z.of_nat (S (length items))) by lia. }
  split; [simpl; lia|]. split.
  { apply Forall_app. split; (eapply Forall_impl; [eassumption|]); simpl; lia. }
  intros [|i] it; simpl.
  - intros [= <-]. rewrite Z.add_0_r. unfold reports_on. rewrite filter_app.
    fold (reports_on idx c1). rewrite (reports_on_own idx c1 Hidx). rewrite <- Hiff.
    assert (filter (λ c, input_index c = idx) cs' = []) as ->; [|by rewrite app_nil_r].
    clear -Hge. induction Hge as [|c cs' Hc _ IH]; [done|]. rewrite filter_cons_False by lia. done.
  - intros Hi. unfold reports_on. rewrite filter_app. fold (reports_on (idx + Z.of_nat (S i)) c1).
    rewrite (reports_on_other _ idx c1 Hidx) by lia. simpl.
    replace (idx + Z.of_nat (S i)) with (idx + 1 + Z.of_nat i) by lia. by apply Hall.
Qed.

(** *** Properties *)

(** C4: a batch is accepted exactly when every item meets the
    conditions [bookable] -- a GPU or a script, a sane window within the
    server's limit, an active verified link of the caller, a script trigger
    inside the window, and room on the card -- and no row it plans breaks a
    constraint of the table ([reservation_row_error]); it then stores one
    scheduled row per item, numbered in order under one group id, with one
    audit entry each.  A batch that is not bookable raises a
    [ReservationError] and changes nothing; one that is, with a row that
    breaks a constraint, fails with that row's error and commits nothing. *)
Theorem create_reservation_batch_spec items user lab script sst smr share at_ req s :
  session_ok s →
  wp (create_reservation_batch items user lab script sst smr share at_ req) (λ res s', match res with
    | Ok (g, rs) =>
        bookable (db s) at_ user script sst items ∧ g = uuid s ∧
        rs = planned_rows items user script sst smr share s ∧
        batch_stored items user script sst smr share s s'
    | Raise e =>
        (¬ bookable (db s) at_ user script sst items ∧ is_ReservationError e = true ∧ s' = s) ∨
        (bookable (db s) at_ user script sst items ∧ committed s' = committed s ∧
         ∃ r, r ∈ planned_rows items user script sst smr share s ∧ reservation_row_error r = Some e)
    end) s.
Proof. apply create_checks_inserts. Qed.

(** Alice books the second card while the first is taken. *)
Definition booking_sample : Session :=
  open_session (sample_db [sample_reservation 100 1 (hours 1) (hours 3) None]) 0 "batch".

Definition sample_item (gpu start_at end_at : Z) (mem : option Z) : ItemDraft :=
  mkItemDraft 1 (Some gpu) start_at end_at 7 mem None.

Lemma booking_sample_ok : session_ok booking_sample.
Proof. apply open_session_ok, db_ok_by_test. vm_compute. reflexivity. Qed.

Lemma create_reservation_batch_spec_witness :
  let items := [sample_item 2 (hours 1) (hours 2) None] in
  wp (create_reservation_batch items 10 1 None None None false 0 no_request) (λ res s', match res with
    | Ok (g, rs) =>
        bookable (db booking_sample) 0 10 None None items ∧ g = uuid booking_sample ∧
        rs = planned_rows items 10 None None None false booking_sample ∧
        batch_stored items 10 None None None false booking_sample s'
    | Raise e =>
        (¬ bookable (db booking_sample) 0 10 None None items ∧ is_ReservationError e = true ∧
         s' = booking_sample) ∨
        (bookable (db booking_sample) 0 10 None None items ∧
         committed s' = committed booking_sample ∧
         ∃ r, r ∈ planned_rows items 10 None None None false booking_sample ∧
              reservation_row_error r = Some e)
    end) booking_sample ∧
  is_ok (create_reservation_batch items 10 1 None None None false 0 no_request booking_sample).1 = true ∧
  is_ok (create_reservation_batch [sample_item 1 (hours 2) (hours 4) None] 10 1 None None None false 0
           no_request booking_sample).1 = false.
Proof.
  intros items. split; [|split; vm_compute; reflexivity].
  exact (create_reservation_batch_spec items 10 1 None None None false 0 no_request booking_sample
           booking_sample_ok).
Defined.

(** C17: when the items of a batch do not compete with each other, an
    accepted batch keeps the capacity invariant: no exclusive booking ever
    meets another booking of its card, and bookings that share a card fit
    together in its memory and in 100% of its compute at every instant. *)
Theorem create_preserves_capacity items user lab script sst smr share at_ req s :
  session_ok s → booking_ok (gpus (db s)) (reservations (db s)) → ForallOrdPairs apart items →
  wp (create_reservation_batch items user lab script sst smr share at_ req) (λ res s',
    is_ok res = true → booking_ok (gpus (db s')) (reservations (db s'))) s.
Proof.
  intros Hs Hok Hap.
  pose proof (create_checks_inserts items user lab script sst smr share at_ req s Hs) as H.
  eapply wp_mono; [exact H|]. intros [[g rs]|e] s' Hres; [intros _|done].
  destruct Hres as (Hb & -> & -> & Hall & Ht & _ & _ & es & Hdb & _).
  rewrite Hdb. simpl. pose proof Hs as [_ Hdbok].
  apply store_batch_ok; [done|by intros ? [] ?| |done| |exact Hall| |exact Hap].
  - intros k r Hk. by eapply db_ok_row.
  - intros k [r Hk]. by apply Hdbok in Hk as (_ & ? & _).
  - intros it Hit g Hg. by apply (b_room _ _ _ _ _ _ Hb it Hit).
Qed.

Definition empty_sample : Session := open_session (sample_db []) 0 "batch".

Lemma empty_sample_ok : session_ok empty_sample.
Proof. apply open_session_ok, db_ok_by_test. vm_compute. reflexivity. Qed.

Lemma empty_booking_ok gs : booking_ok gs ∅.
Proof.
  split_and!.
  - intros g t k1 k2 r1 r2 H. by rewrite lookup_empty in H.
  - intros g gpu t k1 k2 r1 r2 _ _ H. by rewrite lookup_empty in H.
  - intros g t. unfold compute_at, msum, rows. rewrite map_to_list_empty. simpl. lia.
Qed.

(** Two bookings of one card, one after the other. *)
Lemma create_preserves_capacity_witness :
  let items := [sample_item 1 (hours 1) (hours 2) None; sample_item 1 (hours 2) (hours 3) (Some 8000)] in
  wp (create_reservation_batch items 10 1 None None None false 0 no_request) (λ res s',
    is_ok res = true → booking_ok (gpus (db s')) (reservations (db s'))) empty_sample ∧
  is_ok (create_reservation_batch items 10 1 None None None false 0 no_request empty_sample).1 = true.
Proof.
  intros items. split; [|vm_compute; reflexivity].
  apply (create_preserves_capacity items 10 1 None None None false 0 no_request empty_sample
           empty_sample_ok).
  - apply empty_booking_ok.
  - unfold items. constructor; [constructor; [|constructor]|constructor; [constructor|constructor]]. intros ? _ _. left. simpl. unfold hours, seconds. lia.
Defined.

(** the preview always answers, changes nothing, gives one
    time-limit check per input, and reports a conflict on input [i] exactly
    when creating would refuse it for its window or for lack of room: it is
    the booking's own check, run ahead of time. *)
Theorem preview_conflicts_spec items user at_ s :
  clean s →
  ∃ res, preview_conflicts items user at_ s = (Ok res, s) ∧
    length (time_limit_checks res) = length items ∧
    ∀ i item, items !! i = Some item →
      (reports_on (Z.of_nat i) (conflicts res) = [] ↔
       time_ok (db s) at_ item ∧ room_for (db s) item).
Proof.
  intros Hc. destruct (preview_loop_run at_ s items 0 [] [] Hc) as (cs & ts & Hrun & Hlen & _ & Hall);
    [constructor|].
  exists (mkPreviewResult cs ts). split; [|done].
  unfold preview_conflicts. exact (bind_run _ _ _ _ _ Hrun).
Qed.

(** The taken card is reported, the free one is not. *)
Lemma preview_conflicts_spec_witness :
  let items := [sample_item 1 (hours 2) (hours 4) None; sample_item 2 (hours 2) (hours 4) None] in
  (∃ res, preview_conflicts items 10 0 booking_sample = (Ok res, booking_sample) ∧
    length (time_limit_checks res) = length items ∧
    ∀ i item, items !! i = Some item →
      (reports_on (Z.of_nat i) (conflicts res) = [] ↔
       time_ok (db booking_sample) 0 item ∧ room_for (db booking_sample) item)) ∧
  (preview_conflicts items 10 0 booking_sample).1 =
    Ok (mkPreviewResult [mkConflictRecord 0 exclusive_conflict [100] None None None]
          [mkTimeLimitCheck 0 (Some 24) (hours 2) false; mkTimeLimitCheck 1 (Some 24) (hours 2) false]).
Proof.
  intros items. split; [|vm_compute; reflexivity].
  apply (preview_conflicts_spec items 10 0 booking_sample). reflexivity.
Defined.

(** *** What the code does not prevent *)

(** the items of one batch are checked against the table, not against each
    other: two exclusive bookings of one card at one time go through. *)
Lemma batch_may_double_book :
  let items := [sample_item 1 (hours 1) (hours 2) None; sample_item 1 (hours 1) (hours 2) None] in
  let r := create_reservation_batch items 10 1 None None None false 0 no_request empty_sample in
  is_ok r.1 = true ∧ booking_ok (gpus (db empty_sample)) (reservations (db empty_sample)) ∧
  ¬ no_double_booking (reservations (db r.2)).
Proof.
  intros items r. split; [vm_compute; reflexivity|]. split; [apply empty_booking_ok|].
  intros H. destruct (H 1 (hours 1) 200 201 (new_row 10 "batch" None None None false 0 (sample_item 1 (hours 1) (hours 2) None) 200)
    (new_row 10 "batch" None None None false 1 (sample_item 1 (hours 1) (hours 2) None) 201)) as [[m Hm] _];
    [vm_compute; reflexivity..|done|vm_compute; reflexivity|vm_compute; reflexivity|].
  discriminate Hm.
Qed.

(** a booking that meets no other is never compared with the card's memory. *)
Lemma lone_booking_may_exceed_memory :
  let items := [sample_item 1 (hours 1) (hours 2) (Some 30000)] in
  let r := create_reservation_batch items 10 1 None None None false 0 no_request empty_sample in
  is_ok r.1 = true ∧ Gpu.memory_total_mb (sample_gpu 1 0) = Some 24000 ∧
  memory_at 1 (hours 1) (reservations (db r.2)) = 30000.
Proof. vm_compute. repeat split. Qed.
