(* ===== verification/ScriptLifecycleService.v ===== *)
(** Agent script events and the cancellation of a reservation whose script
    is still running
    ([backend/corelab_backend/services/script_lifecycle_service.py]).

    While the cancel path awaits the agent, other transactions commit and
    other tasks touch the process-wide registry: a [world] step.  It may
    change the database and the registry arbitrarily; the theorems hold for
    every such step. *)

From S2P Require Import Prelude Models SessionLayer AgentRpc AuditService.
From S2P Require Import NotificationService ReservationService ReservationLifecycle.

(** ** Events ([shared/protocol/corelab_protocol/frames.py]) *)

Record ScriptStartedEvent : Type := mkScriptStartedEvent {
  st_reservation_id : Z ;
  st_pid : Z ;
  st_started_at : Z ;
  st_log_path : option string }.

Record ScriptOutputChunkEvent : Type := mkScriptOutputChunkEvent {
  oc_reservation_id : Z ;
  oc_text : pystr }.

Record ScriptFinishedEvent : Type := mkScriptFinishedEvent {
  fi_reservation_id : Z ;
  fi_exit_code : option Z ;
  fi_finished_at : Z ;
  fi_duration : Z ;                   (* microseconds *)
  fi_output_size_bytes : Z ;
  fi_log_path : option string ;
  fi_killed_by_corelab : bool ;
  fi_killed_reason : option string }.

(** ** Notifications *)

Definition _resolve_pa_id_for_reservation (account_link_id : Z) : M (option Z) :=
  link ← get_link account_link_id ;
  mret (AccountLink.physical_account_id <$> link).

Definition _notify_script_event (row : Reservation.t) (type_ title severity : string)
    (body : option string) (extra : list (string * json)) : M unit :=
  pa_id ← _resolve_pa_id_for_reservation (Reservation.account_link_id row) ;
  let cta_url := match pa_id with
                 | Some pa => "/me/accounts/" +:+ pretty pa +:+ "/scripts#res-" +:+
                              pretty (Reservation.id row)
                 | None => "/me/reservations"
                 end in
  create_notification (Reservation.user_id row) type_ severity title body
    (Some ([("reservation_id", JInt (Reservation.id row));
            ("server_id", JInt (Reservation.server_id row));
            ("gpu_id", jopt JInt (Reservation.gpu_id row))]%string ++ extra))
    (Some cta_url) DEFAULT_DEDUP_WINDOW_SECONDS ;;
  skip.

(** ** The pending-kill registry *)

Definition _register_pending_kill (reservation_id : Z) : M Z := λ s,
  (Ok (next_event (pending_kills s)), s <| pending_kills := new_kill reservation_id (pending_kills s) |>).

Definition _discard_pending_kill (reservation_id : Z) : M unit :=
  update (λ s, s <| pending_kills := drop_kill reservation_id (pending_kills s) |>).

Definition _signal_lifecycle_kill (reservation_id : Z) : M unit :=
  update (λ s, s <| pending_kills := signal_kill reservation_id (pending_kills s) |>).

(** ** Lifecycle handlers *)

(** An f-string shows a NULL id as "None". *)
Definition show_id (o : option Z) : string := match o with Some z => pretty z | None => "None" end.

Definition audit_started (row : Reservation.t) (p : ScriptStartedEvent) (lab_id : Z) : M unit :=
  write "reservation.script.lifecycle.started" None (Some lab_id) (Some "reservation"%string)
    (Some (Reservation.id row)) (Some lab_id) (Some (Reservation.server_id row))
    (JObj [("pid", JInt (st_pid p)); ("log_path", jopt JStr (st_log_path p));
           ("started_at", JTime (st_started_at p));
           ("trigger", JStr "agent.script.started")]%string) no_request.

Definition notify_started (row : Reservation.t) (p : ScriptStartedEvent) : M unit :=
  _notify_script_event row "script.started" "Script started" "info"
    (Some ("#" +:+ pretty (Reservation.id row) +:+ " on server #" +:+
           pretty (Reservation.server_id row) +:+ " GPU #" +:+ show_id (Reservation.gpu_id row)))
    [("pid", JInt (st_pid p)); ("log_path", jopt JStr (st_log_path p));
     ("started_at", JTime (st_started_at p))]%string.

Definition with_log_path (row : Reservation.t) (log_path : option string) : Reservation.t :=
  if str_truthy log_path then row <| Reservation.script_log_path := log_path |> else row.

(** The scheduler path: the row is already [running]; close the dispatch. *)
Definition acked_row (row : Reservation.t) (p : ScriptStartedEvent) : Reservation.t :=
  let row := row <| Reservation.script_dispatch_started_at := None |> in
  let row := match Reservation.script_started_at row with
             | None => row <| Reservation.script_started_at := Some (st_started_at p) |>
             | Some _ => row
             end in
  with_log_path row (st_log_path p).

Definition on_script_started (p : ScriptStartedEvent) (lab_id : Z) : M unit :=
  o ← get_reservation (st_reservation_id p) ;
  match o with
  | None => skip
  | Some row =>
      match Reservation.script_status row with
      | Some SCRIPT_RUNNING =>
          let row := acked_row row p in
          (set_reservation row ;; flush) ;;
          audit_started row p lab_id ;;
          notify_started row p
      | None =>
          row ← update_script_status row SCRIPT_RUNNING lab_id "agent.script.started" None
                  (Some (st_started_at p)) None None ;
          let row := with_log_path row (st_log_path p) in
          (set_reservation row ;; flush) ;;
          audit_started row p lab_id ;;
          notify_started row p
      | Some _ => skip
      end
  end.

Definition on_script_output_chunk (p : ScriptOutputChunkEvent) : M unit :=
  o ← get_reservation (oc_reservation_id p) ;
  match o with
  | None => skip
  | Some row => append_script_log_tail row (oc_text p) SCRIPT_LOG_TAIL_MAX_CHARS ;; skip
  end.

Definition finished_status (p : ScriptFinishedEvent) : ScriptStatus :=
  if fi_killed_by_corelab p then SCRIPT_KILLED
  else if bool_decide (fi_exit_code p = Some 0) then SCRIPT_COMPLETED
  else SCRIPT_FAILED.

(** [f"{x:.0f}"]: round half to even, from microseconds. *)
Definition round_seconds (us : Z) : Z :=
  let q := us / 1000000 in
  let r := us mod 1000000 in
  if bool_decide (r < 500000) then q
  else if bool_decide (500000 < r) then q + 1
  else if Z.even q then q else q + 1.

Definition duration_text (us : Z) : string :=
  if bool_decide (us = 0) then "—" else pretty (round_seconds us) +:+ "s".

(** [_FINISHED_NOTIFICATION_META]: (type, severity, title). *)
Definition _FINISHED_NOTIFICATION_META (s : ScriptStatus) : option (string * string * string) :=
  match s with
  | SCRIPT_COMPLETED => Some ("script.completed", "info", "Script completed")%string
  | SCRIPT_FAILED => Some ("script.failed", "error", "Script failed")%string
  | SCRIPT_KILLED => Some ("script.killed", "warn", "Script killed")%string
  | SCRIPT_RUNNING => None
  end.

Definition finished_body (row : Reservation.t) (p : ScriptFinishedEvent) (s : ScriptStatus) :
    string :=
  match s with
  | SCRIPT_COMPLETED => "#" +:+ pretty (Reservation.id row) +:+ " exit 0 in " +:+
                        duration_text (fi_duration p)
  | SCRIPT_FAILED => "#" +:+ pretty (Reservation.id row) +:+ " exit " +:+
                     show_id (fi_exit_code p) +:+ " after " +:+ duration_text (fi_duration p)
  | _ => "#" +:+ pretty (Reservation.id row) +:+ " killed (" +:+
         (if str_truthy (fi_killed_reason p) then default "" (fi_killed_reason p)
          else "platform") +:+ ") after " +:+ duration_text (fi_duration p)
  end%string.

Definition notify_finished (row : Reservation.t) (p : ScriptFinishedEvent) (s : ScriptStatus) :
    M unit :=
  match _FINISHED_NOTIFICATION_META s with
  | None => skip
  | Some (type_, severity, title) =>
      _notify_script_event row type_ title severity (Some (finished_body row p s))
        [("exit_code", jopt JInt (fi_exit_code p)); ("duration_seconds", JInt (fi_duration p));
         ("log_path", jopt JStr (fi_log_path p));
         ("output_size_bytes", JInt (fi_output_size_bytes p));
         ("killed_by_corelab", JBool (fi_killed_by_corelab p));
         ("killed_reason", jopt JStr (fi_killed_reason p))]%string
  end.

Definition with_output (row : Reservation.t) (p : ScriptFinishedEvent) : Reservation.t :=
  let row := if bool_decide (fi_output_size_bytes p ≠ 0)
             then row <| Reservation.script_output_size_bytes := Some (fi_output_size_bytes p) |>
             else row in
  with_log_path row (fi_log_path p).

Definition on_script_finished (p : ScriptFinishedEvent) (lab_id : Z) : M unit :=
  o ← get_reservation (fi_reservation_id p) ;
  match o with
  | None => skip
  | Some row =>
      let new_status := finished_status p in
      (if bool_decide (Reservation.script_status row = Some SCRIPT_RUNNING) then
         row ← update_script_status row new_status lab_id "agent.script.finished"
                 (fi_exit_code p) None (Some (fi_finished_at p)) None ;
         let row := with_output row p in
         (set_reservation row ;; flush) ;;
         notify_finished row p new_status
       else skip) ;;
      when (fi_killed_by_corelab p) (_signal_lifecycle_kill (fi_reservation_id p))
  end.

(** ** Cancelling while a script runs *)

(** What the rest of the process and the database do while a task awaits:
    committed rows and the registry may change. *)
Abbreviation world := (Db * Kills → Db * Kills).

(** The awaiting transaction has written nothing yet, so its locking reads
    see what the others committed. *)
Definition await (w : world) : M unit := update (λ s,
  let '(d, pk) := w (db s, pending_kills s) in
  s <| committed := d |> <| db := d |> <| pending_kills := pk |>).

Definition audit_attempt_failed (reservation_id server_id actor_user_id lab_id : Z)
    (reason : string) (extra : list (string * json)) (req : RequestInfo) : M unit :=
  write "reservation.cancel.attempt_failed" (Some actor_user_id) (Some lab_id)
    (Some "reservation"%string) (Some reservation_id) (Some lab_id) (Some server_id)
    (JObj (("reason"%string, JStr reason) :: extra)) req.

Definition error_class (e : exn) : string :=
  match e with
  | AgentOfflineError => "AgentOfflineError"
  | AgentRpcTimeoutError => "AgentRpcTimeoutError"
  | UnexpectedResponseTypeError => "UnexpectedResponseTypeError"
  | _ => "Exception"
  end.

(** The RPC and its two expected failures; [w_rpc] is what happens while the
    agent is awaited. *)
Definition cancel_rpc (reply : rpc_result) (w_rpc : world) (reservation_id server_id : Z)
    (actor_user_id lab_id : Z) (cancel_reason_for_agent : string) (req : RequestInfo) : M unit :=
  try_except
    (try_finally
       (agent_request server_id "backend.script.cancel"
          [("reservation_id", JInt reservation_id); ("reason", JStr cancel_reason_for_agent)]%string
          reply)
       (await w_rpc) ;;
     skip)
    (λ e,
     if bool_decide (e = AgentOfflineError ∨ e = AgentRpcTimeoutError) then
       audit_attempt_failed reservation_id server_id actor_user_id lab_id
         "agent_unreachable_during_cancel,kept active"
         [("error_class"%string, JStr (error_class e))] req ;;
       raise AgentUnreachableDuringCancelError
     else raise e).

(** The wait for the call's own event, then the cancel itself; it was set in
    time iff it is set when the wait [w_wait] ends. *)
Definition cancel_confirmed (w_wait : world) (event reservation_id server_id : Z) (actor_user_id : Z)
    (actor_can_admin : bool) (reason : option string) (lab_id : Z) (req : RequestInfo) :
    M Reservation.t :=
  await w_wait ;;
  signalled ← gets (λ s, bool_decide (event ∈ fired (pending_kills s))) ;
  if (signalled : bool) then
    cancel_reservation reservation_id actor_user_id actor_can_admin reason lab_id req
  else
    audit_attempt_failed reservation_id server_id actor_user_id lab_id
      "lifecycle_event_timeout,kept active" [("waited_seconds"%string, JInt 10)] req ;;
    raise LifecycleEventTimeoutError.

(** [cancel_active_with_running_script].  [reply] is the outcome of the
    [backend.script.cancel] RPC, [w_rpc] and [w_wait] what happens during
    the two awaits. *)
Definition cancel_active_with_running_script (reply : rpc_result) (w_rpc w_wait : world)
    (reservation : Reservation.t) (actor_user_id : Z) (actor_can_admin : bool)
    (reason : option string) (lab_id : Z) (cancel_reason_for_agent : string) (req : RequestInfo) :
    M Reservation.t :=
  let reservation_id := Reservation.id reservation in
  let server_id := Reservation.server_id reservation in
  event ← _register_pending_kill reservation_id ;
  try_finally
    (cancel_rpc reply w_rpc reservation_id server_id actor_user_id lab_id cancel_reason_for_agent req ;;
     cancel_confirmed w_wait event reservation_id server_id actor_user_id actor_can_admin reason lab_id req)
    (_discard_pending_kill reservation_id).
