(* ===== verification/ReservationsApi.v ===== *)
(** The reservation endpoints
    ([backend/corelab_backend/api/v1/reservations.py], request schemas of
    [schemas/reservation.py]): authorisation, the mapping of service errors to
    HTTP responses, and -- through [SessionLayer.get_session] -- what a
    request leaves in the database. *)

From S2P Require Import Prelude Models SessionLayer AgentRpc AuditService.
From S2P Require Import NotificationService ReservationService ReservationLifecycle ScriptLifecycleService.

(** [AuthenticatedUser] wraps the user row. *)
Abbreviation AuthenticatedUser := User.t.

(** ** Request bodies, as pydantic validates them *)

Definition SCRIPT_MAX_LEN : nat := 4096.

Definition opt_ge (lo : Z) (o : option Z) : bool :=
  match o with None => true | Some v => bool_decide (lo <= v) end.

Definition ReservationItem_valid (it : ItemDraft) : bool :=
  opt_ge 1 (d_gpu_memory_mb it) && opt_ge 1 (d_gpu_compute_share_pct it) &&
  match d_gpu_compute_share_pct it with None => true | Some v => bool_decide (v <= 100) end.

Definition script_len_valid (o : option pystr) : bool :=
  match o with None => true | Some b => bool_decide (length b <= SCRIPT_MAX_LEN)%nat end.

Record ReservationCreateRequest : Type := mkCreateRequest {
  cr_items : list ItemDraft ;
  cr_script : option pystr ;
  cr_script_scheduled_start_at : option Z ;
  cr_script_max_runtime_seconds : option Z ;
  cr_share_script : bool }.

Definition ReservationCreateRequest_valid (p : ReservationCreateRequest) : bool :=
  bool_decide (1 <= length (cr_items p) ∧ length (cr_items p) <= 64)%nat &&
  forallb ReservationItem_valid (cr_items p) && script_len_valid (cr_script p) &&
  opt_ge 1 (cr_script_max_runtime_seconds p).

Record ModifyRequest : Type := mkModifyRequest {
  m_start_at : option datetime ;
  m_end_at : option datetime ;
  m_script : option pystr ;
  m_script_scheduled_start_at : option datetime ;
  m_script_max_runtime_seconds : option Z }.

Definition ModifyRequest_valid (p : ModifyRequest) : bool :=
  script_len_valid (m_script p) && opt_ge 60 (m_script_max_runtime_seconds p).

(** ** Authorisation *)

Definition is_lab_admin (user : AuthenticatedUser) : bool :=
  bool_decide (User.role user = "lab_admin"%string).

Definition has_grant (d : Db) (user_id server_id : Z) : bool :=
  existsb (λ g, bool_decide (ServerAdminGrant.user_id g = user_id) &&
                bool_decide (ServerAdminGrant.server_id g = server_id) &&
                bool_decide (ServerAdminGrant.is_active g = 1)) (rows (server_admin_grants d)).

Definition _user_can_admin_server (user : AuthenticatedUser) (server_id : Z) : M bool :=
  if is_lab_admin user then mret true
  else gets (λ s, has_grant (db s) (User.id user) server_id).

(** ** Errors *)

Definition _map_service_error (e : exn) : exn :=
  match e with
  | ReservationOverlapError _ => HTTPException 409 "RESERVATION_OVERLAP"
  | ReservationMixExclusiveSharedError _ => HTTPException 409 "RESERVATION_MIX_EXCLUSIVE_SHARED"
  | ReservationMemoryExceededError _ _ _ _ => HTTPException 409 "RESERVATION_MEMORY_EXCEEDED"
  | ReservationComputeExceededError _ _ _ => HTTPException 409 "RESERVATION_COMPUTE_EXCEEDED"
  | ReservationTooLongError _ _ => HTTPException 422 "RESERVATION_TOO_LONG"
  | InvalidTimeError => HTTPException 422 "INVALID_TIME"
  | LinkNotVerifiedError => HTTPException 422 "LINK_NOT_VERIFIED"
  | NoActiveLinkError => HTTPException 422 "NO_ACTIVE_LINK"
  | ScriptTooLargeError => HTTPException 422 "SCRIPT_TOO_LARGE"
  | GroupCancelRunningScriptError _ => HTTPException 409 "GROUP_CANCEL_RUNNING_SCRIPT_UNSUPPORTED"
  | CancelNotPermittedError => HTTPException 403 "CANCEL_NOT_PERMITTED"
  | ReservationNotFoundError => HTTPException 404 "RESERVATION_NOT_FOUND"
  | _ => HTTPException 400 "RESERVATION_ERROR"
  end.

(** [except ReservationError as exc: raise _map_service_error(exc)] *)
Definition mapping_errors {A} (m : M A) : M A :=
  try_except m (λ e, if is_ReservationError e then raise (_map_service_error e) else raise e).

(** ** Endpoints *)

Definition create_reservations (p : ReservationCreateRequest) (current : AuthenticatedUser)
    (req : RequestInfo) : M (string * list Reservation.t) :=
  at_ ← utcnow ;
  mapping_errors (create_reservation_batch (cr_items p) (User.id current) (User.lab_id current)
    (cr_script p) (cr_script_scheduled_start_at p) (cr_script_max_runtime_seconds p)
    (cr_share_script p) at_ req).

Definition preview_conflicts_endpoint (items : list ItemDraft) (current : AuthenticatedUser) :
    M PreviewResult :=
  at_ ← utcnow ;
  preview_conflicts items (User.id current) at_.

Definition get_reservation_endpoint (reservation_id : Z) : M Reservation.t :=
  o ← get_reservation reservation_id ;
  some_or_raise o (HTTPException 404 "reservation_not_found").

Definition _ensure_can_read_script_log (row : Reservation.t) (user : AuthenticatedUser) : M unit :=
  if bool_decide (Reservation.user_id row = User.id user) then skip
  else
    ok ← _user_can_admin_server user (Reservation.server_id row) ;
    raise_if (negb ok) (HTTPException 403 "SCRIPT_LOG_FORBIDDEN").

(** [ReservationScriptLogRead]: text and truncation flag. *)
Definition get_reservation_script_log (reservation_id : Z) (current : AuthenticatedUser) :
    M (pystr * bool) :=
  o ← get_reservation reservation_id ;
  row ← some_or_raise o (HTTPException 404 "reservation_not_found") ;
  _ensure_can_read_script_log row current ;;
  mret (default [] (Reservation.script_log_tail_text row),
        bool_decide (Reservation.script_log_tail_truncated row ≠ 0)).

Definition modify_reservation_endpoint (reservation_id : Z) (p : ModifyRequest)
    (current : AuthenticatedUser) (req : RequestInfo) : M Reservation.t :=
  at_ ← utcnow ;
  mapping_errors (modify_reservation reservation_id (User.id current) (m_start_at p) (m_end_at p)
    (m_script p) (m_script_scheduled_start_at p) (m_script_max_runtime_seconds p)
    (User.lab_id current) at_ req).

(** The errors of the script-aware cancel. *)
Definition mapping_cancel_errors {A} (m : M A) : M A :=
  try_except m (λ e,
    match e with
    | AgentUnreachableDuringCancelError => raise (HTTPException 503 "AGENT_UNREACHABLE_DURING_CANCEL")
    | LifecycleEventTimeoutError => raise (HTTPException 504 "SCRIPT_LIFECYCLE_TIMEOUT")
    | _ => if is_ReservationError e then raise (_map_service_error e) else raise e
    end).

(** [DELETE /reservations/{id}]; the agent's reply and the concurrent
    activity are those of [cancel_active_with_running_script]. *)
Definition cancel_reservation_endpoint (reply : rpc_result) (w_rpc w_wait : world)
    (reservation_id : Z) (reason : option string) (current : AuthenticatedUser)
    (req : RequestInfo) : M Reservation.t :=
  o ← get_reservation reservation_id ;
  row ← some_or_raise o (HTTPException 404 "reservation_not_found") ;
  actor_can_admin ← _user_can_admin_server current (Reservation.server_id row) ;
  if script_running row then
    let agent_reason :=
      if actor_can_admin && negb (bool_decide (Reservation.user_id row = User.id current))
      then "admin_cancel"%string else "user_cancel"%string in
    mapping_cancel_errors
      (cancel_active_with_running_script reply w_rpc w_wait row (User.id current) actor_can_admin
         reason (User.lab_id current) agent_reason req)
  else
    mapping_errors
      (cancel_reservation reservation_id (User.id current) actor_can_admin reason
         (User.lab_id current) req).

(** [DELETE /reservation-groups/{group_id}]: one row of the group decides
    the jurisdiction. *)
Definition cancel_group_endpoint (group_id : string) (reason : option string)
    (current : AuthenticatedUser) (req : RequestInfo) : M (list Reservation.t) :=
  rs ← select_reservations (λ r, bool_decide (Reservation.group_id r = Some group_id)) ;
  actor_can_admin ← match head rs with
                    | Some sample => _user_can_admin_server current (Reservation.server_id sample)
                    | None => mret false
                    end ;
  mapping_errors
    (cancel_group group_id (User.id current) actor_can_admin reason (User.lab_id current) req).

Definition list_my_reservations (status_in : list ReservationStatus) (current : AuthenticatedUser) :
    M (list Reservation.t) :=
  list_reservations None None (Some (User.id current)) None None status_in 500.

(** ** Per-account shims *)

Definition _resolve_link_owned_by (pa_id user_id : Z) : M AccountLink.t :=
  o ← gets (λ s, head (filter (λ l, AccountLink.physical_account_id l = pa_id ∧
                                    AccountLink.user_id l = user_id ∧
                                    AccountLink.is_active l = 1) (rows (account_links (db s))))) ;
  some_or_raise o (HTTPException 404 "no_active_link_for_pa").

Definition list_reservations_for_pa (pa_id : Z) (status_in : list ReservationStatus)
    (current : AuthenticatedUser) : M (list Reservation.t) :=
  link ← _resolve_link_owned_by pa_id (User.id current) ;
  list_for_link (AccountLink.id link) status_in 200.

(** Every item's link is forced to the account's active link. *)
Definition with_link (link : AccountLink.t) (it : ItemDraft) : ItemDraft :=
  mkItemDraft (d_server_id it) (d_gpu_id it) (d_start_at it) (d_end_at it) (AccountLink.id link)
    (d_gpu_memory_mb it) (d_gpu_compute_share_pct it).

Definition create_reservations_for_pa (pa_id : Z) (p : ReservationCreateRequest)
    (current : AuthenticatedUser) (req : RequestInfo) : M (string * list Reservation.t) :=
  link ← _resolve_link_owned_by pa_id (User.id current) ;
  at_ ← utcnow ;
  mapping_errors (create_reservation_batch (with_link link <$> cr_items p) (User.id current)
    (User.lab_id current) (cr_script p) (cr_script_scheduled_start_at p)
    (cr_script_max_runtime_seconds p) (cr_share_script p) at_ req).
