(* ===== verification/AlertService.v ===== *)
(** Alerts: dedup, recipients, persist-then-push
    ([backend/corelab_backend/services/alert_service.py]) and the alert
    endpoints ([api/v1/alerts.py]). *)

From S2P Require Import Prelude Models SessionLayer Samples AgentRpc.
From S2P Require Import AuditService ReservationsApi.

Definition ALERT_DEDUP_WINDOW_SECONDS : Z := 3600.

(** [ORDER BY created_at DESC] *)
Definition alert_newer (a b : AlertEvent.t) : Prop := AlertEvent.created_at b <= AlertEvent.created_at a.
#[export] Instance alert_newer_dec : RelDecision alert_newer.
Proof. intros a b. unfold alert_newer. apply _. Defined.

(** The rows [_dedup_hit] looks for; [gpu_id IS NULL] matches [None]. *)
Definition same_alert (server_id : Z) (gpu_id : option Z) (event_type : string) (a : AlertEvent.t) :
    bool :=
  bool_decide (AlertEvent.server_id a = server_id) &&
  bool_decide (AlertEvent.event_type a = event_type) &&
  bool_decide (AlertEvent.gpu_id a = gpu_id).

Definition _alert_dedup_hit (server_id : Z) (gpu_id : option Z) (event_type : string)
    (window_seconds : Z) : M (option AlertEvent.t) :=
  gets (λ s,
    let cutoff := now s - seconds window_seconds in
    head (merge_sort alert_newer
      (filter (λ a, same_alert server_id gpu_id event_type a = true ∧ cutoff <= AlertEvent.created_at a)
         (alert_events (db s))))).

(** The ids added to the recipient set, in the code's order. *)
Definition granted_admins (d : Db) (server_id : Z) : list Z :=
  ServerAdminGrant.user_id <$>
    filter (λ g, ServerAdminGrant.server_id g = server_id ∧ ServerAdminGrant.is_active g = 1)
      (rows (server_admin_grants d)).

Definition lab_admins (d : Db) (server_id : Z) : list Z :=
  match servers d !! server_id with
  | Some srv =>
      User.id <$> filter (λ u, User.lab_id u = Server.lab_id srv ∧ User.role u = "lab_admin"%string ∧
                               User.is_active u = 1) (rows (users d))
  | None => []
  end.

Definition reservation_owner (d : Db) (reservation_id : option Z) : list Z :=
  match reservation_id with
  | Some rid => match reservations d !! rid with
                | Some r => [Reservation.user_id r]
                | None => []
                end
  | None => []
  end.

(** [_determine_recipients]: [sorted] of the set. *)
Definition _determine_recipients (server_id : Z) (reservation_id : option Z) : M (list Z) :=
  gets (λ s,
    merge_sort Z.le (remove_dups (granted_admins (db s) server_id ++ lab_admins (db s) server_id ++
                                  reservation_owner (db s) reservation_id))).

Definition alert_frame (row : AlertEvent.t) : frame :=
  Frame "alert.new"
    [("alert_event_id", JInt (AlertEvent.id row)); ("server_id", JInt (AlertEvent.server_id row));
     ("gpu_id", jopt JInt (AlertEvent.gpu_id row));
     ("reservation_id", jopt JInt (AlertEvent.reservation_id row));
     ("event_type", JStr (AlertEvent.event_type row)); ("severity", JStr (AlertEvent.severity row));
     ("payload", default JNull (AlertEvent.payload row));
     ("created_at", JTime (AlertEvent.created_at row))]%string.

(** [session.add(row)], made durable by the flush and commit that follow. *)
Definition add_alert (mk_row : Z → Z → AlertEvent.t) : M AlertEvent.t := λ s,
  let row := mk_row (Z.of_nat (length (alert_events (db s))) + 1) (now s) in
  (Ok row, s <| db := db s <| alert_events := alert_events (db s) ++ [row] |> |>).

Definition create_alert (server_id : Z) (event_type severity : string) (gpu_id reservation_id : option Z)
    (payload : option json) (dedup_window_seconds : Z) : M AlertEvent.t :=
  existing ← _alert_dedup_hit server_id gpu_id event_type dedup_window_seconds ;
  match existing with
  | Some row => mret row
  | None =>
      recipients ← _determine_recipients server_id reservation_id ;
      row ← add_alert (λ id created_at,
              AlertEvent.mk id server_id gpu_id reservation_id event_type severity payload recipients
                0 None None None created_at) ;
      flush ;; commit ;;
      for_each recipients (λ user_id, push_to_user user_id (alert_frame row)) ;;
      mret row
  end.

(** ** Resolving *)

Definition get_alert (alert_id : Z) : M (option AlertEvent.t) :=
  gets (λ s, head (filter (λ a, AlertEvent.id a = alert_id) (alert_events (db s)))).

Definition set_alert (row : AlertEvent.t) : M unit := update (λ s,
  s <| db := db s <| alert_events :=
    (λ a, if bool_decide (AlertEvent.id a = AlertEvent.id row) then row else a) <$>
      alert_events (db s) |> |>).

Definition resolved_row (row : AlertEvent.t) (at_ resolver_user_id : Z) (note : option string) :
    AlertEvent.t :=
  row <| AlertEvent.is_resolved := 1 |>
      <| AlertEvent.resolved_at := Some at_ |>
      <| AlertEvent.resolved_by_user_id := Some resolver_user_id |>
      <| AlertEvent.resolution_note := note |>.

Definition resolve_alert (alert_id resolver_user_id : Z) (resolution_note : option string) :
    M (option AlertEvent.t) :=
  o ← get_alert alert_id ;
  match o with
  | None => mret None
  | Some row =>
      if bool_decide (AlertEvent.is_resolved row = 1) then mret (Some row)
      else
        at_ ← utcnow ;
        let row := resolved_row row at_ resolver_user_id resolution_note in
        set_alert row ;; flush ;; mret (Some row)
  end.

(** ** Endpoints *)

(** 404 outside the caller's lab, 403 inside it without the server grant. *)
Definition _load_alert_with_admin_check (alert_id : Z) (current : AuthenticatedUser)
    (forbid_code : string) : M AlertEvent.t :=
  o ← get_alert alert_id ;
  row ← some_or_raise o (HTTPException 404 "ALERT_NOT_FOUND") ;
  srv ← get_server (AlertEvent.server_id row) ;
  raise_if (match srv with
            | None => true
            | Some server => negb (bool_decide (Server.lab_id server = User.lab_id current))
            end) (HTTPException 404 "ALERT_NOT_FOUND") ;;
  granted ← gets (λ s, is_lab_admin current ||
                       has_grant (db s) (User.id current) (AlertEvent.server_id row)) ;
  raise_if (negb granted) (HTTPException 403 forbid_code) ;;
  mret row.

Definition resolve_alert_endpoint (alert_id : Z) (note : option string) (current : AuthenticatedUser) :
    M AlertEvent.t :=
  row ← _load_alert_with_admin_check alert_id current "ALERT_RESOLVE_NOT_PERMITTED" ;
  o ← resolve_alert alert_id (User.id current) note ;
  resolved ← some_or_raise o (HTTPException 404 "ALERT_NOT_FOUND") ;
  write "alert.resolve" (Some (User.id current)) (Some (User.lab_id current))
    (Some "alert_event"%string) (Some alert_id) None (Some (AlertEvent.server_id row))
    (JObj [("event_type", JStr (AlertEvent.event_type row));
           ("resolution_note", jopt JStr note)]%string) no_request ;;
  mret resolved.

(** [payload.get(key)] on the alert's payload, if it is an object. *)
Definition alert_get (row : AlertEvent.t) (key : string) : option json :=
  match AlertEvent.payload row with
  | Some (JObj kvs) => snd <$> head (filter (λ kv, kv.1 = key) kvs)
  | _ => None
  end.

Definition response_get (r : list (string * json)) (key : string) : option json :=
  snd <$> head (filter (λ kv, kv.1 = key) r).

(** [isinstance(pid, int)]: a Python [bool] is an [int]. *)
Definition is_int (o : option json) : option json :=
  match o with
  | Some (JInt z) => Some (JInt z)
  | Some (JBool b) => Some (JBool b)
  | _ => None
  end.

(** [bool(x)] *)
Definition truthy (o : option json) : bool :=
  match o with
  | None | Some JNull => false
  | Some (JBool b) => b
  | Some (JInt z) => negb (bool_decide (z = 0))
  | Some (JFloat m _) => negb (bool_decide (m = 0))
  | Some (JTime _) => true
  | Some (JStr s) => negb (bool_decide (s = ""%string))
  | Some (JList l) => match l with [] => false | _ => true end
  | Some (JObj l) => match l with [] => false | _ => true end
  end.

(** The [error_message] of the audit row: [rpc_error or "kill not confirmed"]. *)
Definition kill_error (response : list (string * json)) : option string :=
  if truthy (response_get response "ok") then None
  else match response_get response "error" with
       | Some (JStr s) => if bool_decide (s = ""%string) then Some "kill not confirmed"%string else Some s
       | _ => Some "kill not confirmed"%string
       end.

Definition kill_reason (alert_id : Z) (reason : option string) : string :=
  if str_truthy reason then default "" reason
  else ("manual kill via alert #" +:+ pretty alert_id)%string.

Definition kill_payload (alert_id : Z) (row : AlertEvent.t) (pid : json) (reason : option string) :
    list (string * json) :=
  [("pid", pid); ("linux_username", default JNull (alert_get row "linux_username"));
   ("reason", JStr (kill_reason alert_id reason))]%string.

(** [kill_process], given the agent's reply; what it answers is the
    response. *)
Definition kill_process (reply : rpc_result) (alert_id : Z) (reason : option string)
    (current : AuthenticatedUser) : M (list (string * json)) :=
  row ← _load_alert_with_admin_check alert_id current "ALERT_KILL_NOT_PERMITTED" ;
  pid ← some_or_raise (is_int (alert_get row "linux_pid")) (HTTPException 409 "ALERT_HAS_NO_PID") ;
  response ← try_except
    (agent_request (AlertEvent.server_id row) "backend.gpu.kill_process"
       (kill_payload alert_id row pid reason) reply)
    (λ e, match e with
          | AgentOfflineError => raise (HTTPException 409 "AGENT_OFFLINE")
          | AgentRpcTimeoutError => raise (HTTPException 504 "AGENT_TIMEOUT")
          | _ => raise e
          end) ;
  let ok := truthy (response_get response "ok") in
  write_result "alert.kill_process" (Some (User.id current)) (Some (User.lab_id current))
    (Some "alert_event"%string) (Some alert_id) None (Some (AlertEvent.server_id row))
    (JObj [("event_type", JStr (AlertEvent.event_type row)); ("linux_pid", pid);
           ("linux_username", default JNull (alert_get row "linux_username"));
           ("killed", JBool (truthy (response_get response "killed"))); ("rpc_ok", JBool ok);
           ("rpc_error", default JNull (response_get response "error"));
           ("reason", jopt JStr reason)]%string) no_request
    (if ok then "ok" else "error") (kill_error response) ;;
  mret response.

(** [list_alerts]: the caller's lab, newest first. *)
Definition alert_in_lab (d : Db) (lab_id : Z) (a : AlertEvent.t) : bool :=
  match servers d !! AlertEvent.server_id a with
  | Some srv => bool_decide (Server.lab_id srv = lab_id)
  | None => false
  end.

Definition list_alerts (since server_id : option Z) (limit : Z) (current : AuthenticatedUser) :
    M (list AlertEvent.t) :=
  gets (λ s, take (Z.to_nat limit) (merge_sort alert_newer (filter (λ a,
    alert_in_lab (db s) (User.lab_id current) a &&
    match since with Some t => bool_decide (t < AlertEvent.created_at a) | None => true end &&
    match server_id with Some v => bool_decide (AlertEvent.server_id a = v) | None => true end = true)
    (alert_events (db s))))).

(** ** Lemmas *)

(** The recent alert about the same thing, if there is one. *)
Definition recent_alert (s : Session) (server_id : Z) (gpu_id : option Z) (event_type : string)
    (w : Z) : option AlertEvent.t :=
  head (merge_sort alert_newer
    (filter (λ a, same_alert server_id gpu_id event_type a = true ∧
                  now s - seconds w <= AlertEvent.created_at a) (alert_events (db s)))).

(** Who must hear about an alert. *)
Definition recipient (d : Db) (server_id : Z) (reservation_id : option Z) (u : Z) : Prop :=
  (∃ k g, server_admin_grants d !! k = Some g ∧ ServerAdminGrant.user_id g = u ∧
          ServerAdminGrant.server_id g = server_id ∧ ServerAdminGrant.is_active g = 1) ∨
  (∃ srv k x, servers d !! server_id = Some srv ∧ users d !! k = Some x ∧ User.id x = u ∧
              User.lab_id x = Server.lab_id srv ∧ User.role x = "lab_admin"%string ∧
              User.is_active x = 1) ∨
  (∃ rid r, reservation_id = Some rid ∧ reservations d !! rid = Some r ∧ Reservation.user_id r = u).

Lemma recipients_spec server_id reservation_id s :
  ∃ l, _determine_recipients server_id reservation_id s = (Ok l, s) ∧ Sorted Z.le l ∧ NoDup l ∧
       ∀ u, u ∈ l ↔ recipient (db s) server_id reservation_id u.
Proof.
  eexists. split; [reflexivity|]. split; [apply Sorted_merge_sort; apply _|].
  split; [rewrite merge_sort_Permutation; apply NoDup_remove_dups|].
  intros u. rewrite merge_sort_Permutation, elem_of_remove_dups, !elem_of_app. unfold recipient.
  assert (H1 : u ∈ granted_admins (db s) server_id ↔
    ∃ k g, server_admin_grants (db s) !! k = Some g ∧ ServerAdminGrant.user_id g = u ∧
           ServerAdminGrant.server_id g = server_id ∧ ServerAdminGrant.is_active g = 1).
  { unfold granted_admins. rewrite list_elem_of_fmap. setoid_rewrite list_elem_of_filter.
    setoid_rewrite elem_of_rows. naive_solver. }
  assert (H2 : u ∈ lab_admins (db s) server_id ↔
    ∃ srv k x, servers (db s) !! server_id = Some srv ∧ users (db s) !! k = Some x ∧ User.id x = u ∧
      User.lab_id x = Server.lab_id srv ∧ User.role x = "lab_admin"%string ∧ User.is_active x = 1).
  { unfold lab_admins. destruct (servers (db s) !! server_id) as [srv|].
    - rewrite list_elem_of_fmap. setoid_rewrite list_elem_of_filter. setoid_rewrite elem_of_rows.
      naive_solver.
    - rewrite elem_of_nil. naive_solver. }
  assert (H3 : u ∈ reservation_owner (db s) reservation_id ↔
    ∃ rid r, reservation_id = Some rid ∧ reservations (db s) !! rid = Some r ∧ Reservation.user_id r = u).
  { unfold reservation_owner. destruct reservation_id as [rid|]; [|rewrite elem_of_nil; naive_solver].
    destruct (reservations (db s) !! rid) as [r|] eqn:Hr.
    - rewrite list_elem_of_singleton. naive_solver.
    - rewrite elem_of_nil. naive_solver. }
  tauto.
Qed.

Lemma push_each_run f l s :
  for_each l (λ u, push_to_user u f) s = (Ok tt, s <| pushed := pushed s ++ ((λ u, (u, f)) <$> l) |>).
Proof.
  revert s. induction l as [|u l IH]; intros s; simpl.
  { rewrite app_nil_r. by destruct s. }
  rewrite (bind_run _ _ s tt (s <| pushed := pushed s ++ [(u, f)] |>)) by reflexivity.
  rewrite IH. simpl. by rewrite <- app_assoc.
Qed.

(** Alerts about one thing are further apart than the window. *)
Definition alerts_spaced : Z → list AlertEvent.t → Prop :=
  spaced_by (λ a b, same_alert (AlertEvent.server_id b) (AlertEvent.gpu_id b) (AlertEvent.event_type b) a = true)
    AlertEvent.created_at.

Lemma no_recent_alert s sid g ty w a :
  recent_alert s sid g ty w = None → a ∈ alert_events (db s) → same_alert sid g ty a = true →
  AlertEvent.created_at a + seconds w < now s.
Proof.
  unfold recent_alert. intros Hn Ha Hs. apply head_None in Hn.
  destruct (Z.lt_ge_cases (AlertEvent.created_at a + seconds w) (now s)) as [?|Hge]; [done|].
  exfalso. assert (Hin : a ∈ merge_sort alert_newer (filter (λ a, same_alert sid g ty a = true ∧
    now s - seconds w <= AlertEvent.created_at a) (alert_events (db s)))).
  { rewrite merge_sort_Permutation. apply list_elem_of_filter. split; [|done]. split; [done|lia]. }
  rewrite Hn in Hin. by apply elem_of_nil in Hin.
Qed.

(** The alert stored when there is no recent one. *)
Definition stored_alert (s : Session) (sid : Z) (ty sev : string) (g rid : option Z)
    (payload : option json) (recipients : list Z) : AlertEvent.t :=
  AlertEvent.mk (Z.of_nat (length (alert_events (db s))) + 1) sid g rid ty sev payload recipients
    0 None None None (now s).

(** The check the administrative endpoints share. *)
Definition may_administer (d : Db) (user : User.t) (a : AlertEvent.t) : bool :=
  is_lab_admin user || has_grant d (User.id user) (AlertEvent.server_id a).

Definition find_alert (d : Db) (alert_id : Z) : option AlertEvent.t :=
  head (filter (λ a, AlertEvent.id a = alert_id) (alert_events d)).

Lemma admin_check_run aid user code s :
  _load_alert_with_admin_check aid user code s =
    (match find_alert (db s) aid with
     | None => Raise (HTTPException 404 "ALERT_NOT_FOUND")
     | Some a => if negb (alert_in_lab (db s) (User.lab_id user) a)
                 then Raise (HTTPException 404 "ALERT_NOT_FOUND")
                 else if negb (may_administer (db s) user a) then Raise (HTTPException 403 code)
                 else Ok a
     end, s).
Proof.
  unfold _load_alert_with_admin_check, get_alert, alert_in_lab, may_administer, get_server.
  rewrite (bind_run (gets _) _ _ _ _) by reflexivity. cbv beta. fold (find_alert (db s) aid).
  destruct (find_alert (db s) aid) as [a|]; [|done]. simpl some_or_raise.
  rewrite (bind_run (mret a) _ s a s), (bind_run (gets _) _ _ _ _) by reflexivity. cbv beta.
  destruct (servers (db s) !! AlertEvent.server_id a) as [srv|]; [|done].
  destruct (bool_decide _); [|done]. cbn [negb].
  rewrite (bind_run (raise_if false _) _ s tt s), (bind_run (gets _) _ _ _ _) by reflexivity. cbv beta.
  by destruct (is_lab_admin user || _).
Qed.

Lemma find_alert_id d aid a : find_alert d aid = Some a → AlertEvent.id a = aid.
Proof. intros H. by apply head_Some_elem_of, list_elem_of_filter in H as [? _]. Qed.

(** One audit entry of the caller about an alert. *)
Definition alert_audit (action : string) (user : User.t) (aid : Z) (a : AlertEvent.t)
    (result_ : string) (error_message : option string) (e : AuditLog.t) : Prop :=
  AuditLog.action e = action ∧ AuditLog.actor_user_id e = Some (User.id user) ∧
  AuditLog.target_type e = Some "alert_event"%string ∧ AuditLog.target_id e = Some aid ∧
  AuditLog.target_server_id e = Some (AlertEvent.server_id a) ∧
  AuditLog.audit_result e = result_ ∧ AuditLog.error_message e = error_message.

Lemma resolve_run aid uid note a s :
  clean s → find_alert (db s) aid = Some a →
  let a' := if bool_decide (AlertEvent.is_resolved a = 1) then a else resolved_row a (now s) uid note in
  ∃ s1, resolve_alert aid uid note s = (Ok (Some a'), s1) ∧ clean s1 ∧ now s1 = now s ∧
    db s1 = db s <| alert_events :=
              (λ x, if bool_decide (AlertEvent.is_resolved a ≠ 1 ∧ AlertEvent.id x = aid) then a' else x) <$>
                alert_events (db s) |>.
Proof.
  intros Hc Hf a'. pose proof (find_alert_id _ _ _ Hf) as Hid. unfold resolve_alert, get_alert.
  rewrite (bind_run (gets _) _ _ _ _) by reflexivity. cbv beta. fold (find_alert (db s) aid). rewrite Hf.
  unfold a'. case_bool_decide as Hres.
  - exists s. split_and!; [done..|].
    rewrite (list_fmap_ext _ id); [by rewrite list_fmap_id; destruct s as [? [] ?]|].
    intros i x _. rewrite bool_decide_eq_false_2; [done|]. by intros [? _].
  - rewrite (bind_run utcnow _ s (now s) s) by reflexivity. cbv zeta.
    set (r := resolved_row a (now s) uid note).
    set (s1 := s <| db := db s <| alert_events :=
      (λ x, if bool_decide (AlertEvent.id x = AlertEvent.id r) then r else x) <$> alert_events (db s) |> |>).
    rewrite (bind_run (set_alert r) _ s tt s1) by reflexivity.
    rewrite (bind_run flush _ s1 tt s1) by by apply flush_clean.
    exists s1. split_and!; [done..|]. unfold s1. simpl.
    rewrite (list_fmap_ext _ (λ x, if bool_decide (AlertEvent.is_resolved a ≠ 1 ∧ AlertEvent.id x = aid)
                                   then r else x)); [done|].
    intros i x _. rewrite Hid. erewrite bool_decide_ext; [done|]. tauto.
Qed.

(** What the caller of the manual kill is told when the agent fails. *)
Definition kill_failure (e : exn) : exn :=
  if bool_decide (e = AgentOfflineError) then HTTPException 409 "AGENT_OFFLINE"
  else if bool_decide (e = AgentRpcTimeoutError) then HTTPException 504 "AGENT_TIMEOUT"
  else e.

(** *** Properties *)

(** raising an alert either finds one about the same server, card and
    kind inside the window, and then stores, commits and pushes nothing, or
    stores one unresolved row, makes it durable, and then pushes one frame to
    each recipient -- exactly the server's active administrators, the active
    lab administrators of its lab and the reservation's owner, each once, in
    order.  Stored alerts about one thing are further apart than the window. *)
Theorem create_alert_spec sid ty sev g rid payload w s :
  clean s → alerts_spaced w (alert_events (db s)) →
  wp (create_alert sid ty sev g rid payload w) (λ res s',
    alerts_spaced w (alert_events (db s')) ∧
    match recent_alert s sid g ty w with
    | Some a => res = Ok a ∧ s' = s
    | None => ∃ recipients, Sorted Z.le recipients ∧ NoDup recipients ∧
        (∀ u, u ∈ recipients ↔ recipient (db s) sid rid u) ∧
        let row := stored_alert s sid ty sev g rid payload recipients in
        res = Ok row ∧ db s' = db s <| alert_events := alert_events (db s) ++ [row] |> ∧
        committed s' = db s' ∧
        pushed s' = pushed s ++ ((λ u, (u, alert_frame row)) <$> recipients)
    end) s.
Proof.
  intros Hc Hsp. unfold wp, create_alert.
  assert (Hd : _alert_dedup_hit sid g ty w s = (Ok (recent_alert s sid g ty w), s)) by reflexivity.
  rewrite (bind_run _ _ _ _ _ Hd). destruct (recent_alert s sid g ty w) as [a|] eqn:Hrec; [done|].
  destruct (recipients_spec sid rid s) as (l & Hl & Hs & Hn & Hin). rewrite (bind_run _ _ _ _ _ Hl).
  set (row := stored_alert s sid ty sev g rid payload l).
  set (s1 := s <| db := db s <| alert_events := alert_events (db s) ++ [row] |> |>).
  rewrite (bind_run (add_alert _) _ s row s1) by reflexivity.
  rewrite (bind_run flush _ s1 tt s1) by by apply flush_clean.
  rewrite (bind_run _ _ _ _ _ (commit_clean s1 Hc)), (bind_run _ _ _ _ _ (push_each_run _ _ _)).
  simpl. split.
  - apply spaced_by_snoc; [done|]. intros a Ha Hsame. by eapply no_recent_alert.
  - by exists l.
Qed.

(** A lab administrator, a member, an alert on the lab's server. *)
Definition alert_row : AlertEvent.t :=
  AlertEvent.mk 1 1 (Some 1) None "compliance.no_reservation" "warn"
    (Some (JObj [("linux_pid", JInt 4242)]%string)) [9] 0 None None None 0.
Definition alert_admin : User.t := User.mk 9 1 "carol" "carol" "lab_admin" 1 "carol@lab" None None None.
Definition alert_db : Db :=
  sample_db [] <| users := {[9 := alert_admin; 10 := sample_user 10 "alice"]} |>
               <| alert_events := [alert_row] |>.
Definition alert_sample : Session := open_session alert_db (hours 2) "".

Lemma create_alert_spec_witness :
  wp (create_alert 1 "compliance.no_reservation" "warn" (Some 1) None None ALERT_DEDUP_WINDOW_SECONDS)
    (λ res s',
      alerts_spaced ALERT_DEDUP_WINDOW_SECONDS (alert_events (db s')) ∧
      ∃ recipients, Sorted Z.le recipients ∧ NoDup recipients ∧
        (∀ u, u ∈ recipients ↔ recipient (db alert_sample) 1 None u) ∧
        let row := stored_alert alert_sample 1 "compliance.no_reservation" "warn" (Some 1) None None recipients in
        res = Ok row ∧ db s' = db alert_sample <| alert_events := alert_events (db alert_sample) ++ [row] |> ∧
        committed s' = db s' ∧
        pushed s' = pushed alert_sample ++ ((λ u, (u, alert_frame row)) <$> recipients)) alert_sample.
Proof.
  apply (create_alert_spec 1 "compliance.no_reservation" "warn" (Some 1) None None
           ALERT_DEDUP_WINDOW_SECONDS alert_sample); [reflexivity|].
  intros i j a b Hij Ha Hb. apply lookup_lt_Some in Hb. simpl in Hb. lia.
Defined.

(** resolving an alert: an unknown alert and one of another lab
    get the same 404, a caller who does not administer the server gets 403,
    and none of them changes anything; otherwise the alert is resolved once --
    the first resolver, instant and note stay -- and every accepted call is
    audited. *)
Theorem resolve_alert_endpoint_spec aid note user s :
  clean s →
  wp (resolve_alert_endpoint aid note user) (λ res s',
    match find_alert (db s) aid with
    | None => res = Raise (HTTPException 404 "ALERT_NOT_FOUND") ∧ s' = s
    | Some a =>
        if negb (alert_in_lab (db s) (User.lab_id user) a)
        then res = Raise (HTTPException 404 "ALERT_NOT_FOUND") ∧ s' = s
        else if negb (may_administer (db s) user a)
        then res = Raise (HTTPException 403 "ALERT_RESOLVE_NOT_PERMITTED") ∧ s' = s
        else
          let a' := if bool_decide (AlertEvent.is_resolved a = 1) then a
                    else resolved_row a (now s) (User.id user) note in
          res = Ok a' ∧
          ∃ e, alert_audit "alert.resolve" user aid a "ok" None e ∧
            db s' = db s <| audit_log := audit_log (db s) ++ [e] |>
                         <| alert_events :=
                              (λ x, if bool_decide (AlertEvent.is_resolved a ≠ 1 ∧ AlertEvent.id x = aid)
                                    then a' else x) <$> alert_events (db s) |>
    end) s.
Proof.
  intros Hc. unfold wp, resolve_alert_endpoint.
  pose proof (admin_check_run aid user "ALERT_RESOLVE_NOT_PERMITTED" s) as Hchk.
  destruct (find_alert (db s) aid) as [a|] eqn:Hf; [|by rewrite (bind_run_raise _ _ _ _ _ Hchk)].
  destruct (alert_in_lab _ _ _); [|by rewrite (bind_run_raise _ _ _ _ _ Hchk)].
  destruct (may_administer _ _ _); [|by rewrite (bind_run_raise _ _ _ _ _ Hchk)].
  rewrite (bind_run _ _ _ _ _ Hchk).
  destruct (resolve_run aid (User.id user) note a s Hc Hf) as (s1 & Hr & Hc1 & _ & Hdb1).
  rewrite (bind_run _ _ _ _ _ Hr). simpl some_or_raise.
  rewrite (bind_run (mret _) _ s1 _ s1) by reflexivity.
  rewrite (bind_run _ _ _ _ _ (write_run _ _ _ _ _ _ _ _ _ s1 Hc1)).
  split; [done|]. eexists. split; [|simpl; rewrite Hdb1; reflexivity]. done.
Qed.

Lemma resolve_alert_endpoint_spec_witness :
  wp (resolve_alert_endpoint 1 (Some "checked"%string) alert_admin) (λ res s',
    let a' := resolved_row alert_row (hours 2) 9 (Some "checked"%string) in
    res = Ok a' ∧
    ∃ e, alert_audit "alert.resolve" alert_admin 1 alert_row "ok" None e ∧
      db s' = db alert_sample <| audit_log := audit_log (db alert_sample) ++ [e] |>
                   <| alert_events :=
                        (λ x, if bool_decide (AlertEvent.is_resolved alert_row ≠ 1 ∧ AlertEvent.id x = 1)
                              then a' else x) <$> alert_events (db alert_sample) |>) alert_sample.
Proof. exact (resolve_alert_endpoint_spec 1 (Some "checked"%string) alert_admin alert_sample eq_refl). Defined.

(** the manual kill: nothing is sent unless the alert is in the caller's
    lab, the caller administers its server and the alert carries a process
    id; the request then names that process; every reply of the agent is
    audited once, with its outcome; an unreachable agent is answered 409 or
    504 and leaves no audit entry. *)
Theorem kill_process_spec reply aid reason user s :
  clean s →
  wp (kill_process reply aid reason user) (λ res s',
    match find_alert (db s) aid with
    | None => res = Raise (HTTPException 404 "ALERT_NOT_FOUND") ∧ s' = s
    | Some a =>
        if negb (alert_in_lab (db s) (User.lab_id user) a)
        then res = Raise (HTTPException 404 "ALERT_NOT_FOUND") ∧ s' = s
        else if negb (may_administer (db s) user a)
        then res = Raise (HTTPException 403 "ALERT_KILL_NOT_PERMITTED") ∧ s' = s
        else match is_int (alert_get a "linux_pid") with
        | None => res = Raise (HTTPException 409 "ALERT_HAS_NO_PID") ∧ s' = s
        | Some pid =>
            let sent := s <| rpcs := rpcs s ++ [(AlertEvent.server_id a, "backend.gpu.kill_process"%string,
                                                 kill_payload aid a pid reason)] |> in
            match reply with
            | Raise e =>
                res = Raise (kill_failure e) ∧ s' = if bool_decide (e = AgentOfflineError) then s else sent
            | Ok response =>
                res = Ok response ∧
                ∃ e, alert_audit "alert.kill_process" user aid a
                       (if truthy (response_get response "ok") then "ok" else "error")
                       (kill_error response) e ∧
                  s' = sent <| db := db s <| audit_log := audit_log (db s) ++ [e] |> |>
            end
        end
    end) s.
Proof.
  intros Hc. unfold wp, kill_process.
  pose proof (admin_check_run aid user "ALERT_KILL_NOT_PERMITTED" s) as Hchk.
  destruct (find_alert (db s) aid) as [a|] eqn:Hf; [|by rewrite (bind_run_raise _ _ _ _ _ Hchk)].
  destruct (alert_in_lab _ _ _); [|by rewrite (bind_run_raise _ _ _ _ _ Hchk)].
  destruct (may_administer _ _ _); [|by rewrite (bind_run_raise _ _ _ _ _ Hchk)].
  rewrite (bind_run _ _ _ _ _ Hchk). cbn [negb].
  destruct (is_int (alert_get a "linux_pid")) as [pid|]; [|done]. simpl some_or_raise.
  rewrite (bind_run (mret pid) _ s pid s) by reflexivity. cbv zeta.
  unfold try_except, agent_request. destruct reply as [response|e].
  - set (sent := s <| rpcs := rpcs s ++ [(AlertEvent.server_id a, "backend.gpu.kill_process"%string,
                                          kill_payload aid a pid reason)] |>).
    rewrite (bind_run (λ _, _) _ s response sent) by reflexivity.
    rewrite (bind_run _ _ _ _ _ (write_result_run _ _ _ _ _ _ _ _ _ _ _ sent Hc)).
    split; [done|]. eexists. split; [|reflexivity]. done.
  - by destruct e.
Qed.

Lemma kill_process_spec_witness :
  wp (kill_process (Raise AgentRpcTimeoutError) 1 None alert_admin) (λ res s',
    res = Raise (HTTPException 504 "AGENT_TIMEOUT") ∧
    s' = alert_sample <| rpcs := [(1, "backend.gpu.kill_process"%string,
                                   kill_payload 1 alert_row (JInt 4242) None)] |>) alert_sample.
Proof. exact (kill_process_spec (Raise AgentRpcTimeoutError) 1 None alert_admin alert_sample eq_refl). Defined.
