(* ===== verification/AgentPolicyService.v ===== *)
(** The policies of a server's agent
    ([backend/corelab_backend/services/agent_policy_service.py]): the eight
    policy keys, their threshold schemas, the three presets, seeding,
    switching and editing. *)

From S2P Require Import Prelude Schema Models SessionLayer Samples.
From S2P Require Import AuditService.

#[local] Open Scope string_scope.

(** ** Threshold schemas *)

Definition _PctThreshold : ftype := TClass false
  [ ("value", TInt (Some 0) (Some 100), Required) ;
    ("unit", TLiteral ["pct"], Default (JStr "pct")) ].

Definition _GpuHangThreshold : ftype := TClass false
  [ ("util_zero_seconds", TInt (Some 10) None, Required) ;
    ("mem_floor_mb", TInt (Some 0) None, Required) ].

Definition _TempThreshold : ftype := TClass false
  [ ("value", TInt (Some 0) (Some 200), Required) ;
    ("unit", TLiteral ["celsius"], Default (JStr "celsius")) ].

(** [None] is [_NoThreshold]. *)
Definition THRESHOLD_SCHEMAS : list (string * option ftype) :=
  [ ("no_reservation_occupy", None) ; ("preempt_others_reservation", None) ;
    ("script_overrun_grace", None) ; ("memory_overuse", Some _PctThreshold) ;
    ("gpu_hang", Some _GpuHangThreshold) ; ("gpu_temp_high", Some _TempThreshold) ;
    ("zombie_process", None) ; ("unlinked_user_occupy", None) ].

Definition POLICY_KEYS : list string :=
  [ "no_reservation_occupy" ; "preempt_others_reservation" ; "script_overrun_grace" ;
    "memory_overuse" ; "gpu_hang" ; "gpu_temp_high" ; "zombie_process" ;
    "unlinked_user_occupy" ].

Definition _AUTO_KILL_CAPABILITY : string := "gpu.kill_process".
Definition _AUTO_KILL_SETTABLE_KEYS : list string :=
  [ "preempt_others_reservation" ; "script_overrun_grace" ].
Definition _AUTO_KILL_CAPABLE_KEYS : list string := [ "preempt_others_reservation" ].

(** ** Presets *)

Record preset_row : Type := _row {
  pr_severity : string ;
  pr_threshold_value : option json ;
  pr_grace_period_seconds : option Z ;
  pr_notify_admin : Z }.

Definition pct (v : Z) : option json := Some (JObj [("value", JInt v); ("unit", JStr "pct")]).
Definition celsius (v : Z) : option json :=
  Some (JObj [("value", JInt v); ("unit", JStr "celsius")]).
Definition hang (s m : Z) : option json :=
  Some (JObj [("util_zero_seconds", JInt s); ("mem_floor_mb", JInt m)]).

Definition _PROFILE_PRESETS : list (string * list (string * preset_row)) :=
  [ ("permissive",
     [ ("no_reservation_occupy", _row "log_only" None (Some 300) 1) ;
       ("preempt_others_reservation", _row "log_only" None (Some 60) 1) ;
       ("script_overrun_grace", _row "auto_kill" None (Some 300) 1) ;
       ("memory_overuse", _row "log_only" (pct 20) (Some 60) 1) ;
       ("gpu_hang", _row "log_only" (hang 600 1024) None 0) ;
       ("gpu_temp_high", _row "log_only" (celsius 85) None 0) ;
       ("zombie_process", _row "log_only" None None 0) ;
       ("unlinked_user_occupy", _row "log_only" None None 0) ]) ;
    ("standard",
     [ ("no_reservation_occupy", _row "notify" None (Some 300) 1) ;
       ("preempt_others_reservation", _row "warn" None (Some 60) 1) ;
       ("script_overrun_grace", _row "auto_kill" None (Some 300) 1) ;
       ("memory_overuse", _row "notify" (pct 20) (Some 60) 1) ;
       ("gpu_hang", _row "notify" (hang 600 1024) None 0) ;
       ("gpu_temp_high", _row "notify" (celsius 85) None 0) ;
       ("zombie_process", _row "notify" None None 0) ;
       ("unlinked_user_occupy", _row "log_only" None None 0) ]) ;
    ("strict",
     [ ("no_reservation_occupy", _row "warn" None (Some 300) 1) ;
       ("preempt_others_reservation", _row "auto_kill" None (Some 60) 1) ;
       ("script_overrun_grace", _row "auto_kill" None (Some 300) 1) ;
       ("memory_overuse", _row "warn" (pct 20) (Some 60) 1) ;
       ("gpu_hang", _row "warn" (hang 600 1024) None 1) ;
       ("gpu_temp_high", _row "warn" (celsius 85) None 1) ;
       ("zombie_process", _row "notify" None None 1) ;
       ("unlinked_user_occupy", _row "notify" None None 1) ]) ].

#[local] Close Scope string_scope.
#[local] Open Scope Z_scope.

Definition profile_preset (name : string) : option (list (string * preset_row)) :=
  assoc name _PROFILE_PRESETS.

Definition all_profile_names : list string := ["permissive"; "standard"; "strict"]%string.

(** ** The table *)

Definition SEVERITIES : list string := ["log_only"; "notify"; "warn"; "auto_kill"]%string.

Definition policy_row_error (r : AgentPolicy.t) : option exn :=
  if negb (bool_decide (AgentPolicy.severity r ∈ SEVERITIES))
  then Some (IntegrityError "ck_policy_severity")
  else if negb (unsigned_fits (AgentPolicy.grace_period_seconds r))
       then Some (DataError "grace_period_seconds")
  else None.

Definition find_policy (d : Db) (server_id : Z) (policy_key : string) : option AgentPolicy.t :=
  head (filter (λ r, AgentPolicy.server_id r = server_id ∧ AgentPolicy.policy_key r = policy_key)
          (rows (agent_policies d))).

(** [session.add(AgentPolicy(...))] and its flush. *)
Definition add_policy (mk_row : Z → AgentPolicy.t) : M AgentPolicy.t := λ s,
  let id := next_agent_policy_id (db s) in
  let row := mk_row id in
  match policy_row_error row with
  | Some e => (Raise e, s)
  | None =>
      if is_some (find_policy (db s) (AgentPolicy.server_id row) (AgentPolicy.policy_key row))
      then (Raise (IntegrityError "uq_policy_server_key"), s)
      else (Ok row, s <| db := db s <| agent_policies := <[id := row]> (agent_policies (db s)) |>
                                    <| next_agent_policy_id := id + 1 |> |>)
  end.

(** Attribute assignments on a loaded row and their flush. *)
Definition set_policy (row : AgentPolicy.t) : M unit := λ s,
  match policy_row_error row with
  | Some e => (Raise e, s)
  | None => (Ok tt, s <| db := db s <| agent_policies :=
                        <[AgentPolicy.id row := row]> (agent_policies (db s)) |> |>)
  end.

(** ** Operations *)

(** [order_by(policy_key)]: MySQL orders these keys as bytes do. *)
Definition key_le (a b : AgentPolicy.t) : Prop :=
  String.leb (AgentPolicy.policy_key a) (AgentPolicy.policy_key b) = true.

#[export] Instance key_le_dec a b : Decision (key_le a b).
Proof. unfold key_le. apply _. Defined.

Definition policies_of (d : Db) (server_id : Z) : list AgentPolicy.t :=
  merge_sort key_le (filter (λ r, AgentPolicy.server_id r = server_id) (rows (agent_policies d))).

Definition list_for_server (server_id : Z) : M (list AgentPolicy.t) :=
  gets (λ s, policies_of (db s) server_id).

Definition get_policy (server_id : Z) (policy_key : string) : M (option AgentPolicy.t) :=
  gets (λ s, find_policy (db s) server_id policy_key).

Definition preset_policy (server_id actor_user_id : Z) (key : string) (p : preset_row) (id : Z) :
    AgentPolicy.t :=
  AgentPolicy.mk id server_id key 1 (pr_severity p) (pr_threshold_value p)
    (pr_grace_period_seconds p) (pr_notify_admin p) None actor_user_id.

(** [seed_default_profile] *)
Definition seed_default_profile (server_id lab_id actor_user_id : Z) (profile : string) : M Z :=
  existing ← list_for_server server_id ;
  match existing with
  | _ :: _ => mret 0
  | [] =>
      preset ← some_or_raise (profile_preset profile) KeyError ;
      inserted ← fold_prog (λ inserted key,
        row_data ← some_or_raise (assoc key preset) KeyError ;
        add_policy (preset_policy server_id actor_user_id key row_data) ;;
        mret (inserted + 1)) 0 POLICY_KEYS ;
      write "agent_policy.profile_set" (Some actor_user_id) (Some lab_id) (Some "server"%string)
        (Some server_id) (Some lab_id) (Some server_id)
        (JObj [("profile", JStr profile); ("seeded", JBool true); ("rows", JInt inserted)]%string)
        no_request ;;
      mret inserted
  end.

(** [before != after] *)
Definition differs_from_preset (row : AgentPolicy.t) (p : preset_row) : bool :=
  negb (bool_decide (AgentPolicy.severity row = pr_severity p) &&
        py_eq_opt (AgentPolicy.threshold_value row) (pr_threshold_value p) &&
        bool_decide (AgentPolicy.grace_period_seconds row = pr_grace_period_seconds p) &&
        bool_decide (AgentPolicy.notify_admin row = pr_notify_admin p)).

Definition take_preset (actor_user_id : Z) (p : preset_row) (row : AgentPolicy.t) : AgentPolicy.t :=
  row <| AgentPolicy.severity := pr_severity p |>
      <| AgentPolicy.threshold_value := pr_threshold_value p |>
      <| AgentPolicy.grace_period_seconds := pr_grace_period_seconds p |>
      <| AgentPolicy.notify_admin := pr_notify_admin p |>
      <| AgentPolicy.updated_by_user_id := actor_user_id |>.

(** The body of the loop over the keys; [existing] is the dict built before. *)
Definition switch_key (server_id actor_user_id : Z) (preset : list (string * preset_row))
    (existing : list AgentPolicy.t) (changes : Z) (key : string) : M Z :=
  row_data ← some_or_raise (assoc key preset) KeyError ;
  match head (filter (λ r, AgentPolicy.policy_key r = key) existing) with
  | None => add_policy (preset_policy server_id actor_user_id key row_data) ;; mret (changes + 1)
  | Some row =>
      if differs_from_preset row row_data
      then set_policy (take_preset actor_user_id row_data row) ;; mret (changes + 1)
      else mret changes
  end.

(** [switch_profile] *)
Definition switch_profile (server_id lab_id actor_user_id : Z) (profile : string) : M Z :=
  preset ← some_or_raise (profile_preset profile) UnknownProfileError ;
  existing ← list_for_server server_id ;
  changes ← fold_prog (switch_key server_id actor_user_id preset existing) 0 POLICY_KEYS ;
  write "agent_policy.profile_set" (Some actor_user_id) (Some lab_id) (Some "server"%string)
    (Some server_id) (Some lab_id) (Some server_id)
    (JObj [("profile", JStr profile); ("rows_changed", JInt changes)]%string) no_request ;;
  mret changes.

(** [auto_kill_capability_warning]: is there a warning? *)
Definition auto_kill_capability_warning (server_id : Z) (policy_key severity : string) : M bool :=
  if negb (bool_decide (severity = "auto_kill"%string)) then mret false
  else if negb (bool_decide (policy_key ∈ _AUTO_KILL_CAPABLE_KEYS)) then mret false
  else
    cap ← gets (λ s, head (filter (λ c, AgentCapability.server_id c = server_id ∧
                                        AgentCapability.capability_key c = _AUTO_KILL_CAPABILITY)
                             (rows (agent_capabilities (db s))))) ;
    mret (match cap with None => true | Some c => bool_decide (AgentCapability.is_enabled c = 0) end).

Definition policy_payload (row : AgentPolicy.t) : json :=
  JObj [("enabled", JInt (AgentPolicy.enabled row)); ("severity", JStr (AgentPolicy.severity row));
        ("threshold_value", default JNull (AgentPolicy.threshold_value row));
        ("grace_period_seconds", jopt JInt (AgentPolicy.grace_period_seconds row));
        ("notify_admin", JInt (AgentPolicy.notify_admin row));
        ("notes", jopt JStr (AgentPolicy.notes row))]%string.

(** The fields of the update: [None] leaves the column. *)
Record policy_update : Type := mkUpdate {
  up_enabled : option bool ;
  up_severity : option string ;
  up_threshold_value : option json ;
  up_grace_period_seconds : option Z ;
  up_notify_admin : option bool ;
  up_notes : option string }.

Section thresholds.
Context (coerce : scalar → json → option json).

(** None of the threshold classes has a default factory. *)
Definition no_factories : factories := mkFactories 0 "".

(** [validate_threshold] *)
Definition validate_threshold (policy_key : string) (threshold_value : option json) :
    result exn (option json) :=
  match assoc policy_key THRESHOLD_SCHEMAS with
  | None => Raise UnknownPolicyKeyError
  | Some None => Ok None
  | Some (Some schema) =>
      match threshold_value with
      | None => Ok None
      | Some v => match validate coerce no_factories schema v with
                  | Some v' => Ok (Some v')
                  | None => Raise InvalidThresholdError
                  end
      end
  end.

(** A function that returns or raises, as a program. *)
Definition of_result {A} (r : result exn A) : M A :=
  match r with Ok a => mret a | Raise e => raise e end.

(** The assignments of [update_one], with the validated threshold. *)
Definition edit_policy (actor_user_id : Z) (u : policy_update) (threshold_value : option json)
    (row : AgentPolicy.t) : AgentPolicy.t :=
  let row := match up_enabled u with Some b => row <| AgentPolicy.enabled := Z.b2z b |> | None => row end in
  let row := match up_severity u with Some v => row <| AgentPolicy.severity := v |> | None => row end in
  let row := match threshold_value with
             | Some v => row <| AgentPolicy.threshold_value := Some v |> | None => row end in
  let row := match up_grace_period_seconds u with
             | Some v => row <| AgentPolicy.grace_period_seconds := Some v |> | None => row end in
  let row := match up_notify_admin u with
             | Some b => row <| AgentPolicy.notify_admin := Z.b2z b |> | None => row end in
  let row := match up_notes u with Some v => row <| AgentPolicy.notes := Some v |> | None => row end in
  row <| AgentPolicy.updated_by_user_id := actor_user_id |>.

(** [update_one] *)
Definition update_one (server_id : Z) (policy_key : string) (lab_id actor_user_id : Z)
    (u : policy_update) : M AgentPolicy.t :=
  raise_if (negb (bool_decide (policy_key ∈ POLICY_KEYS))) UnknownPolicyKeyError ;;
  raise_if (bool_decide (up_severity u = Some "auto_kill"%string) &&
            negb (bool_decide (policy_key ∈ _AUTO_KILL_SETTABLE_KEYS))) AutoKillNotAllowedError ;;
  threshold_value ← match up_threshold_value u with
                    | Some v => of_result (validate_threshold policy_key (Some v))
                    | None => mret None
                    end ;
  found ← get_policy server_id policy_key ;
  row ← match found with
        | Some row => mret row
        | None =>
            standard ← some_or_raise (profile_preset "standard") KeyError ;
            preset ← some_or_raise (assoc policy_key standard) KeyError ;
            add_policy (preset_policy server_id actor_user_id policy_key preset)
        end ;
  let edited := edit_policy actor_user_id u threshold_value row in
  set_policy edited ;;
  write "agent_policy.update" (Some actor_user_id) (Some lab_id) (Some "agent_policy"%string)
    (Some (AgentPolicy.id row)) (Some lab_id) (Some server_id)
    (JObj [("policy_key", JStr policy_key); ("before", policy_payload row);
           ("after", policy_payload edited)]%string) no_request ;;
  mret edited.
End thresholds.

(** ** What the table holds *)

(** The threshold a key may carry. *)
Definition threshold_ok (key : string) (tv : option json) : bool :=
  match assoc key THRESHOLD_SCHEMAS, tv with
  | Some _, None => true
  | Some (Some schema), Some v => typed schema v
  | _, _ => false
  end.

Definition policy_ok (r : AgentPolicy.t) : bool :=
  bool_decide (AgentPolicy.policy_key r ∈ POLICY_KEYS) &&
  bool_decide (policy_row_error r = None) &&
  threshold_ok (AgentPolicy.policy_key r) (AgentPolicy.threshold_value r) &&
  (negb (bool_decide (AgentPolicy.severity r = "auto_kill"%string)) ||
   bool_decide (AgentPolicy.policy_key r ∈ _AUTO_KILL_SETTABLE_KEYS)).

Record policies_ok (d : Db) : Prop := {
  po_row k r : agent_policies d !! k = Some r →
    AgentPolicy.id r = k ∧ k < next_agent_policy_id d ∧ policy_ok r = true ;
  po_unique k k' r r' : agent_policies d !! k = Some r → agent_policies d !! k' = Some r' →
    AgentPolicy.server_id r = AgentPolicy.server_id r' →
    AgentPolicy.policy_key r = AgentPolicy.policy_key r' → k = k' }.

Lemma policy_ok_row_error r : policy_ok r = true → policy_row_error r = None.
Proof. unfold policy_ok. intros H. by simpl_bools. Qed.

Lemma find_policy_Some d sid key r :
  policies_ok d →
  find_policy d sid key = Some r ↔
  agent_policies d !! AgentPolicy.id r = Some r ∧
  AgentPolicy.server_id r = sid ∧ AgentPolicy.policy_key r = key.
Proof.
  intros Hok. unfold find_policy.
  assert (Hin : ∀ r, r ∈ filter (λ r, AgentPolicy.server_id r = sid ∧ AgentPolicy.policy_key r = key)
                       (rows (agent_policies d)) ↔
                     agent_policies d !! AgentPolicy.id r = Some r ∧
                     AgentPolicy.server_id r = sid ∧ AgentPolicy.policy_key r = key).
  { intros x. rewrite list_elem_of_filter, elem_of_rows. split.
    - intros [Hp [k Hk]]. by destruct (po_row _ Hok _ _ Hk) as [-> _].
    - intros [Hk Hp]. eauto. }
  destruct (filter _ _) as [|x l] eqn:Hf; simpl.
  - split; [done|]. intros H. by apply Hin, elem_of_nil in H.
  - rewrite <- Hin. split; [intros [= ->]; left|]. intros [->|Hr]%elem_of_cons; [done|].
    assert (Hx : x ∈ x :: l) by left. apply Hin in Hx as (Hx & <- & <-).
    assert (Hr' : r ∈ x :: l) by by right. apply Hin in Hr' as (Hr' & Hs & Hk').
    pose proof (po_unique _ Hok _ _ _ _ Hx Hr' (eq_sym Hs) (eq_sym Hk')). congruence.
Qed.

Lemma find_policy_ok d sid key r :
  policies_ok d → find_policy d sid key = Some r → policy_ok r = true.
Proof. intros Hok (Hr & _ & _)%find_policy_Some; [|done]. by apply (po_row _ Hok) in Hr as (_ & _ & ?). Qed.

(** The dict [switch_profile] builds agrees with the table. *)
Lemma existing_lookup d sid key :
  policies_ok d →
  head (filter (λ r, AgentPolicy.policy_key r = key) (policies_of d sid)) = find_policy d sid key.
Proof.
  intros Hok. set (l := filter _ (policies_of d sid)).
  assert (Hin : ∀ r, r ∈ l ↔ find_policy d sid key = Some r).
  { intros r. rewrite find_policy_Some by done. unfold l, policies_of.
    rewrite list_elem_of_filter, merge_sort_Permutation, list_elem_of_filter, elem_of_rows. split.
    - intros (? & ? & k & Hk). by destruct (po_row _ Hok _ _ Hk) as [-> _].
    - intros (? & ? & ?). eauto. }
  destruct l as [|r l']; simpl.
  - destruct (find_policy d sid key) as [r|] eqn:Hf; [|done].
    assert (r ∈ @nil AgentPolicy.t) as H%elem_of_nil by by apply Hin. done.
  - symmetry. apply Hin. left.
Qed.

(** Storing one good row: a fresh one, or one that replaces a row of the same
    server and key. *)
Definition store_policy (r : AgentPolicy.t) (next : Z) (d : Db) : Db :=
  d <| agent_policies := <[AgentPolicy.id r := r]> (agent_policies d) |> <| next_agent_policy_id := next |>.

Record storable (r : AgentPolicy.t) (next : Z) (d : Db) : Prop := {
  sb_ok : policy_ok r = true ;
  sb_next : next_agent_policy_id d <= next ;
  sb_id : AgentPolicy.id r < next ;
  sb_slot : match find_policy d (AgentPolicy.server_id r) (AgentPolicy.policy_key r) with
            | Some r0 => AgentPolicy.id r0 = AgentPolicy.id r
            | None => agent_policies d !! AgentPolicy.id r = None
            end }.

Lemma store_policy_ok r next d :
  policies_ok d → storable r next d → policies_ok (store_policy r next d).
Proof.
  intros Hok [Hr Hn Hid Hslot].
  assert (Hother : ∀ k r', agent_policies d !! k = Some r' →
    AgentPolicy.server_id r' = AgentPolicy.server_id r →
    AgentPolicy.policy_key r' = AgentPolicy.policy_key r → k = AgentPolicy.id r).
  { intros k r' Hk Hs Hkey. pose proof (po_row _ Hok _ _ Hk) as [Hk' _].
    assert (find_policy d (AgentPolicy.server_id r) (AgentPolicy.policy_key r) = Some r') as Hf.
    { apply find_policy_Some; [done|]. split_and!; [by rewrite Hk'|done|done]. }
    rewrite Hf in Hslot. congruence. }
  split; simpl.
  - intros k r'. rewrite lookup_insert. case_decide as Hk.
    + intros [= <-]. subst k. by split_and!.
    + intros Hr'. destruct (po_row _ Hok _ _ Hr') as (? & ? & ?). split_and!; [done|lia|done].
  - intros k k' a b. rewrite !lookup_insert. repeat case_decide; subst.
    + done.
    + intros [= <-] Hb Hs Hk. symmetry. by eapply Hother.
    + intros Ha [= <-] Hs Hk. by eapply Hother.
    + by apply (po_unique _ Hok).
Qed.

Lemma find_policy_store r next d sid key :
  policies_ok d → storable r next d →
  find_policy (store_policy r next d) sid key =
    if decide (AgentPolicy.server_id r = sid ∧ AgentPolicy.policy_key r = key) then Some r
    else find_policy d sid key.
Proof.
  intros Hok Hst. pose proof (store_policy_ok _ _ _ Hok Hst) as Hok'.
  case_decide as Hd.
  - apply find_policy_Some; [done|]. split; [by simpl; rewrite lookup_insert_eq|done].
  - apply option_eq. intros r'. rewrite !find_policy_Some by done. simpl.
    rewrite lookup_insert. case_decide as Hid; [|done]. split.
    + intros [[= <-] ?]. by destruct Hd.
    + intros (Hr' & Hs & Hk). destruct Hd. destruct Hst as [_ _ _ Hslot].
      destruct (find_policy d (AgentPolicy.server_id r) _) as [r0|] eqn:Hf; [|congruence].
      apply find_policy_Some in Hf as (Hr0 & Hs0 & Hk0); [|done].
      rewrite Hslot, Hid, Hr' in Hr0. injection Hr0 as ->. by rewrite <- Hs0, <- Hk0.
Qed.

(** ** Presets are good rows *)

Lemma policy_ok_ext r r' :
  AgentPolicy.policy_key r = AgentPolicy.policy_key r' →
  AgentPolicy.severity r = AgentPolicy.severity r' →
  AgentPolicy.threshold_value r = AgentPolicy.threshold_value r' →
  AgentPolicy.grace_period_seconds r = AgentPolicy.grace_period_seconds r' →
  policy_ok r = policy_ok r'.
Proof. unfold policy_ok, policy_row_error. by intros -> -> -> ->. Qed.

Definition preset_good (key : string) (p : preset_row) : bool :=
  policy_ok (preset_policy 0 0 key p 0) &&
  py_eq_opt (pr_threshold_value p) (pr_threshold_value p).

Lemma profile_presets_good profile preset key :
  profile_preset profile = Some preset → key ∈ POLICY_KEYS →
  ∃ p, assoc key preset = Some p ∧ preset_good key p = true.
Proof.
  intros Hp%assoc_elem Hk.
  assert (forallb (λ q, forallb (λ key, match assoc key q.2 with
            | Some p => preset_good key p | None => false end) POLICY_KEYS) _PROFILE_PRESETS = true)
    as H by by vm_compute.
  pose proof (proj1 (forallb_elem _ _) (proj1 (forallb_elem _ _) H _ Hp) _ Hk) as Hg.
  cbn [snd] in Hg. destruct (assoc key preset) as [p|]; [eauto|discriminate].
Qed.

Lemma preset_policy_ok sid actor key p id :
  preset_good key p = true → policy_ok (preset_policy sid actor key p id) = true.
Proof. unfold preset_good. intros [H _]%andb_true_iff. by rewrite <- H. Qed.

Lemma take_preset_ok actor key p row :
  preset_good key p = true → AgentPolicy.policy_key row = key →
  policy_ok (take_preset actor p row) = true ∧ differs_from_preset (take_preset actor p row) p = false.
Proof.
  unfold preset_good, differs_from_preset. intros [H Heq]%andb_true_iff Hk. split.
  - rewrite <- H. by apply policy_ok_ext.
  - simpl. by rewrite !bool_decide_eq_true_2, Heq by done.
Qed.

(** ** Switching *)

(** What a key's row becomes. *)
Definition after_switch (sid actor : Z) (key : string) (p : preset_row) (id : Z)
    (o : option AgentPolicy.t) : AgentPolicy.t :=
  match o with
  | None => preset_policy sid actor key p id
  | Some row => if differs_from_preset row p then take_preset actor p row else row
  end.

Definition is_change (p : preset_row) (o : option AgentPolicy.t) : bool :=
  match o with None => true | Some row => differs_from_preset row p end.

(** Only the policy table differs. *)
Definition policies_only (d d' : Db) : Prop :=
  d' = d <| agent_policies := agent_policies d' |> <| next_agent_policy_id := next_agent_policy_id d' |>.

Lemma policies_only_trans d1 d2 d3 : policies_only d1 d2 → policies_only d2 d3 → policies_only d1 d3.
Proof. unfold policies_only. intros H1 H2. rewrite H2 at 1. rewrite H1 at 1. done. Qed.

Lemma store_policies_only r next d : policies_only d (store_policy r next d).
Proof. done. Qed.

Lemma add_policy_run mk_row s :
  policies_ok (db s) → (∀ id, AgentPolicy.id (mk_row id) = id) →
  let r := mk_row (next_agent_policy_id (db s)) in
  policy_ok r = true →
  find_policy (db s) (AgentPolicy.server_id r) (AgentPolicy.policy_key r) = None →
  add_policy mk_row s =
    (Ok r, s <| db := store_policy r (next_agent_policy_id (db s) + 1) (db s) |>) ∧
  storable r (next_agent_policy_id (db s) + 1) (db s).
Proof.
  intros Hok Hid r Hr Hf. split.
  - unfold add_policy. cbv zeta. fold r. rewrite (policy_ok_row_error _ Hr), Hf. cbv match.
    unfold store_policy, r. by rewrite Hid.
  - split; [done|lia|unfold r; rewrite Hid; lia|]. rewrite Hf. unfold r. rewrite Hid.
    destruct (agent_policies (db s) !! _) as [x|] eqn:Hx; [|done].
    apply (po_row _ Hok) in Hx as (_ & ? & _). lia.
Qed.

Lemma set_policy_run row r0 s :
  policies_ok (db s) → policy_ok row = true →
  find_policy (db s) (AgentPolicy.server_id row) (AgentPolicy.policy_key row) = Some r0 →
  AgentPolicy.id r0 = AgentPolicy.id row →
  set_policy row s =
    (Ok tt, s <| db := store_policy row (next_agent_policy_id (db s)) (db s) |>) ∧
  storable row (next_agent_policy_id (db s)) (db s).
Proof.
  intros Hok Hr Hf Hid. split.
  - unfold set_policy. by rewrite policy_ok_row_error.
  - split; [done|lia| |by rewrite Hf].
    apply find_policy_Some in Hf as (Hr0 & _ & _); [|done].
    rewrite <- Hid. by apply (po_row _ Hok) in Hr0 as (_ & ? & _).
Qed.

Section switching.
Context (sid actor : Z) (preset : list (string * preset_row)).

(** One key: the row is as the preset wants, every other key keeps its row. *)
Lemma switch_key_run existing changes key p s :
  policies_ok (db s) → assoc key preset = Some p → preset_good key p = true →
  head (filter (λ r, AgentPolicy.policy_key r = key) existing) = find_policy (db s) sid key →
  ∃ d' id, switch_key sid actor preset existing changes key s =
             (Ok (changes + Z.b2z (is_change p (find_policy (db s) sid key))), s <| db := d' |>) ∧
    policies_ok d' ∧ policies_only (db s) d' ∧
    (is_change p (find_policy (db s) sid key) = false → d' = db s) ∧
    ∀ sid' key', find_policy d' sid' key' =
      if decide (sid = sid' ∧ key = key')
      then Some (after_switch sid actor key p id (find_policy (db s) sid key))
      else find_policy (db s) sid' key'.
Proof using Type.
  intros Hok Hp Hg Hex. unfold switch_key. rewrite Hp. simpl some_or_raise.
  rewrite (bind_run (mret p) _ s p s) by reflexivity. rewrite Hex.
  destruct (find_policy (db s) sid key) as [row|] eqn:Hf; cbn [is_change after_switch].
  - pose proof Hf as Hf'. apply find_policy_Some in Hf' as (Hrow & Hs & Hk); [|done].
    destruct (differs_from_preset row p) eqn:Hd.
    + destruct (take_preset_ok actor key p row Hg Hk) as [Hgood _].
      destruct (set_policy_run (take_preset actor p row) row s Hok Hgood) as [Hrun Hst];
        [by simpl; rewrite Hs, Hk|done|].
      rewrite (bind_run _ _ _ _ _ Hrun). eexists _, 0. split; [reflexivity|].
      split_and!; [by apply store_policy_ok|done|done|].
      intros sid' key'. rewrite find_policy_store by done. simpl. by rewrite Hs, Hk.
    + exists (db s), 0. split; [rewrite Z.add_0_r; by destruct s|].
      split_and!; [done|by unfold policies_only; destruct (db s)|done|].
      intros sid' key'. case_decide as E; [|done]. destruct E as [<- <-]. done.
  - destruct (add_policy_run (preset_policy sid actor key p) s Hok) as [Hrun Hst];
      [done|by apply preset_policy_ok|done|].
    rewrite (bind_run _ _ _ _ _ Hrun). eexists _, _. split; [reflexivity|].
    split_and!; [by apply store_policy_ok|done|done|].
    intros sid' key'. rewrite find_policy_store by done. simpl. reflexivity.
Qed.

(** How many of the keys change. *)
Definition count_changes (d : Db) (keys : list string) : Z :=
  Zsum ((λ key, match assoc key preset with
                | Some p => Z.b2z (is_change p (find_policy d sid key))
                | None => 0
                end) <$> keys).

Lemma count_changes_ext d d' keys :
  (∀ key, key ∈ keys → find_policy d sid key = find_policy d' sid key) →
  count_changes d keys = count_changes d' keys.
Proof using Type.
  intros H. unfold count_changes. f_equal. apply list_fmap_ext. intros i key Hk.
  rewrite H; [done|]. by eapply list_elem_of_lookup_2.
Qed.

Lemma count_changes_nonneg d keys : 0 <= count_changes d keys.
Proof using Type.
  apply Zsum_nonneg, Forall_fmap, Forall_forall. intros key _. simpl.
  destruct (assoc key preset) as [p|]; [|done]. by destruct (is_change _ _).
Qed.

Lemma switch_keys_run d0 keys changes s :
  policies_ok d0 → policies_ok (db s) → NoDup keys →
  (∀ key, key ∈ keys → (∃ p, assoc key preset = Some p ∧ preset_good key p = true) ∧
                       find_policy (db s) sid key = find_policy d0 sid key) →
  ∃ d', fold_prog (switch_key sid actor preset (policies_of d0 sid)) changes keys s =
          (Ok (changes + count_changes (db s) keys), s <| db := d' |>) ∧
    policies_ok d' ∧ policies_only (db s) d' ∧
    (count_changes (db s) keys = 0 → d' = db s) ∧
    (∀ key, key ∈ keys → ∃ p id, assoc key preset = Some p ∧
       find_policy d' sid key = Some (after_switch sid actor key p id (find_policy d0 sid key))) ∧
    ∀ sid' key, sid' ≠ sid ∨ key ∉ keys → find_policy d' sid' key = find_policy (db s) sid' key.
Proof using Type.
  intros Hok0. revert changes s. induction keys as [|key keys IH]; intros changes s Hok Hnd Hkeys.
  { exists (db s). unfold count_changes. simpl. rewrite Z.add_0_r. split; [by destruct s|].
    split_and!; [done|by unfold policies_only; destruct (db s)|done| |done].
    intros key H. by apply elem_of_nil in H. }
  apply NoDup_cons in Hnd as [Hnew Hnd].
  destruct (Hkeys key) as [(p & Hp & Hg) Hf]; [left|].
  destruct (switch_key_run (policies_of d0 sid) changes key p s) as (d1 & id & Hrun & Hok1 & Honly1 & Hid1 & Hf1);
    [done..|by rewrite existing_lookup|].
  assert (Hsame : ∀ k, k ∈ keys → find_policy d1 sid k = find_policy (db s) sid k).
  { intros k Hk. rewrite Hf1, decide_False; [done|]. intros [_ ->]. done. }
  edestruct (IH (changes + Z.b2z (is_change p (find_policy (db s) sid key))) (s <| db := d1 |>))
    as (d' & Hrun' & Hok' & Honly' & Hid' & Hk' & Ho'); [done|done| |].
  { intros k Hk. destruct (Hkeys k) as [Hpk Hfk]; [by right|]. split; [done|]. simpl.
    by rewrite Hsame. }
  change (db (s <| db := d1 |>)) with d1 in *. exists d'. split.
  { cbn [fold_prog]. rewrite (bind_run _ _ _ _ _ Hrun), Hrun'.
    rewrite (count_changes_ext d1 (db s)) by done. unfold count_changes. simpl. rewrite Hp.
    by rewrite Z.add_assoc. }
  split; [done|]. split; [by eapply policies_only_trans|]. split_and!.
  - assert (Hn : count_changes (db s) (key :: keys) =
                 Z.b2z (is_change p (find_policy (db s) sid key)) + count_changes (db s) keys).
    { unfold count_changes. simpl. by rewrite Hp. }
    rewrite Hn. pose proof (count_changes_nonneg (db s) keys). intros H0.
    destruct (is_change p (find_policy (db s) sid key)) eqn:Hc; simpl in H0; [lia|].
    rewrite Hid'; [by apply Hid1|]. by rewrite (count_changes_ext d1 (db s)).
  - intros k [->|Hk]%elem_of_cons; [|by apply Hk'].
    exists p, id. split; [done|]. rewrite Ho' by by right. rewrite Hf1, decide_True by done.
    by rewrite Hf.
  - intros sid' k Hor. rewrite Ho', Hf1.
    + rewrite decide_False; [done|]. intros [<- <-]. destruct Hor as [?|Hn]; [done|].
      apply Hn. left.
    + destruct Hor as [?|Hn]; [by left|]. right. intros Hk. apply Hn. by right.
Qed.
End switching.

Lemma POLICY_KEYS_NoDup : NoDup POLICY_KEYS.
Proof. by apply (bool_decide_eq_true_1 _); vm_compute. Qed.

(** A stored row carries the preset's values. *)
Lemma after_switch_matches sid actor key p id o :
  preset_good key p = true → (∀ row, o = Some row → AgentPolicy.policy_key row = key) →
  differs_from_preset (after_switch sid actor key p id o) p = false.
Proof.
  intros Hg Hk. destruct o as [row|]; simpl.
  - destruct (differs_from_preset row p) eqn:Hd; [|done]. eapply take_preset_ok; eauto.
  - unfold preset_good in Hg. apply andb_true_iff in Hg as [_ Heq].
    unfold differs_from_preset. simpl. by rewrite !bool_decide_eq_true_2, Heq by done.
Qed.

Lemma count_changes_settled sid preset d keys :
  (∀ key p, key ∈ keys → assoc key preset = Some p →
     is_change p (find_policy d sid key) = false) →
  count_changes sid preset d keys = 0.
Proof.
  intros H. unfold count_changes. induction keys as [|key keys IH]; [done|].
  rewrite fmap_cons, Zsum_cons, IH by (intros; apply H; [by right|done]).
  destruct (assoc key preset) as [p|] eqn:Hp; [|done]. rewrite (H key p); [done|left|done].
Qed.

(** The rows a server has after a switch to [preset], given the rows before. *)
Definition switched_to (sid : Z) (preset : list (string * preset_row)) (d d' : Db) : Prop :=
  (∀ key, key ∈ POLICY_KEYS → ∃ p row, assoc key preset = Some p ∧
     find_policy d' sid key = Some row ∧ differs_from_preset row p = false ∧
     ∀ row0, find_policy d sid key = Some row0 →
       AgentPolicy.id row = AgentPolicy.id row0 ∧ AgentPolicy.enabled row = AgentPolicy.enabled row0 ∧
       AgentPolicy.notes row = AgentPolicy.notes row0) ∧
  ∀ sid' key, sid' ≠ sid ∨ key ∉ POLICY_KEYS → find_policy d' sid' key = find_policy d sid' key.

(** The loop over the keys. *)
Lemma switch_loop_run sid actor profile preset s :
  policies_ok (db s) → profile_preset profile = Some preset →
  ∃ d', fold_prog (switch_key sid actor preset (policies_of (db s) sid)) 0 POLICY_KEYS s =
          (Ok (count_changes sid preset (db s) POLICY_KEYS), s <| db := d' |>) ∧
    policies_ok d' ∧ policies_only (db s) d' ∧ switched_to sid preset (db s) d' ∧
    (count_changes sid preset (db s) POLICY_KEYS = 0 → d' = db s).
Proof.
  intros Hok Hp.
  destruct (switch_keys_run sid actor preset (db s) POLICY_KEYS 0 s Hok Hok POLICY_KEYS_NoDup)
    as (d' & Hrun & Hok' & Honly & Hid & Hkeys & Hother).
  { intros key Hk. split; [by eapply profile_presets_good|done]. }
  exists d'. split_and!; [done|done|done| |done]. split; [|done]. intros key Hk.
  destruct (Hkeys _ Hk) as (p & id & Hap & Hf).
  destruct (profile_presets_good _ _ _ Hp Hk) as (p' & Hap' & Hg). simplify_eq.
  eexists p, _. split_and!; [done|exact Hf| |].
  - apply after_switch_matches; [done|]. by intros row (_ & _ & ?)%find_policy_Some.
  - intros row0 Hr. rewrite Hr. simpl. by destruct (differs_from_preset row0 p).
Qed.

Definition profile_entry (e : AuditLog.t) (sid : Z) : Prop :=
  AuditLog.action e = "agent_policy.profile_set"%string ∧ AuditLog.target_id e = Some sid.

Lemma switch_profile_run sid lab actor profile preset s :
  clean s → policies_ok (db s) → profile_preset profile = Some preset →
  ∃ d' e, switch_profile sid lab actor profile s =
      (Ok (count_changes sid preset (db s) POLICY_KEYS),
       s <| db := d' <| audit_log := audit_log (db s) ++ [e] |> |>) ∧
    policies_ok d' ∧ policies_only (db s) d' ∧ switched_to sid preset (db s) d' ∧
    profile_entry e sid ∧
    (count_changes sid preset (db s) POLICY_KEYS = 0 → d' = db s).
Proof.
  intros Hc Hok Hp. destruct (switch_loop_run sid actor profile preset s Hok Hp)
    as (d' & Hrun & Hok' & Honly & Hsw & Hz).
  unfold switch_profile. rewrite Hp. simpl some_or_raise.
  rewrite (bind_run (mret preset) _ s preset s) by reflexivity.
  rewrite (bind_run (list_for_server sid) _ s (policies_of (db s) sid) s) by reflexivity.
  rewrite (bind_run _ _ _ _ _ Hrun). set (s1 := s <| db := d' |>).
  rewrite (bind_run _ _ _ _ _ (write_run _ _ _ _ _ _ _ _ _ s1 Hc)).
  exists d', (audit_entry s1 "agent_policy.profile_set" (Some actor) (Some lab) (Some "server"%string)
    (Some sid) (Some lab) (Some sid)
    (JObj [("profile", JStr profile);
           ("rows_changed", JInt (count_changes sid preset (db s) POLICY_KEYS))]%string)
    no_request "ok" None).
  split_and!; [|done..|split; reflexivity|done].
  unfold mbind, prog_bind, s1. simpl. rewrite Honly. reflexivity.
Qed.

(** switching a profile on every branch.  An unknown name is refused
    without a trace.  Otherwise each of the eight keys of the server ends with
    the preset's severity, threshold, grace period and notify flag -- rows the
    server lacked are created, existing ones keep their id, their enabled flag
    and their notes -- no other server's policy and nothing else of the
    database changes but one audit entry, the table stays well formed, the
    result counts the keys that differed, and switching again changes
    nothing. *)
Theorem switch_profile_spec sid lab actor profile s :
  clean s → policies_ok (db s) →
  match profile_preset profile with
  | None => switch_profile sid lab actor profile s = (Raise UnknownProfileError, s)
  | Some preset =>
      ∃ d' e, let s' := s <| db := d' <| audit_log := audit_log (db s) ++ [e] |> |> in
        switch_profile sid lab actor profile s =
          (Ok (count_changes sid preset (db s) POLICY_KEYS), s') ∧
        policies_ok (db s') ∧ policies_only (db s) d' ∧ switched_to sid preset (db s) d' ∧
        profile_entry e sid ∧
        ∃ e', switch_profile sid lab actor profile s' =
                (Ok 0, s' <| db := db s' <| audit_log := audit_log (db s') ++ [e'] |> |>)
  end.
Proof.
  intros Hc Hok. destruct (profile_preset profile) as [preset|] eqn:Hp.
  2:{ unfold switch_profile. by rewrite Hp. }
  destruct (switch_profile_run sid lab actor profile preset s Hc Hok Hp)
    as (d' & e & Hrun & Hok' & Honly & Hsw & He & _).
  exists d', e. cbv zeta. set (s' := s <| db := _ |>).
  assert (Hok2 : policies_ok (db s')) by (destruct Hok' as [H1 H2]; by split).
  split_and!; [done..|].
  destruct (switch_profile_run sid lab actor profile preset s') as (d2 & e2 & Hrun2 & _ & _ & _ & _ & Hz);
    [done..|].
  assert (Hn : count_changes sid preset (db s') POLICY_KEYS = 0).
  { apply count_changes_settled. intros key p Hk Hpk.
    destruct (proj1 Hsw key Hk) as (p' & row & Hpk' & Hf & Hd & _). simplify_eq.
    change (find_policy (db s') sid key) with (find_policy d' sid key). by rewrite Hf. }
  exists e2. rewrite Hrun2, Hz, Hn by done. reflexivity.
Qed.

(** ** Seeding *)

Lemma count_changes_fresh sid profile preset d :
  profile_preset profile = Some preset →
  (∀ key, find_policy d sid key = None) → count_changes sid preset d POLICY_KEYS = 8.
Proof.
  intros Hp Hn. transitivity (Zsum ((λ _, 1) <$> POLICY_KEYS)); [|done].
  unfold count_changes. f_equal. apply list_fmap_ext. intros i key Hk.
  destruct (profile_presets_good _ _ key Hp) as (p & -> & _); [by eapply list_elem_of_lookup_2|].
  by rewrite Hn.
Qed.

Lemma no_policies d sid key : policies_ok d → policies_of d sid = [] → find_policy d sid key = None.
Proof. intros Hok Hn. by rewrite <- existing_lookup, Hn. Qed.

(** Seeding writes the preset's eight rows on a server without policies and
    does nothing on any other. *)
Lemma seed_default_profile_run sid lab actor profile preset s :
  clean s → policies_ok (db s) → profile_preset profile = Some preset →
  (policies_of (db s) sid ≠ [] → seed_default_profile sid lab actor profile s = (Ok 0, s)) ∧
  (policies_of (db s) sid = [] →
   ∃ d' e, seed_default_profile sid lab actor profile s =
       (Ok 8, s <| db := d' <| audit_log := audit_log (db s) ++ [e] |> |>) ∧
     policies_ok d' ∧ policies_only (db s) d' ∧ switched_to sid preset (db s) d' ∧
     profile_entry e sid).
Proof.
  intros Hc Hok Hp. unfold seed_default_profile.
  rewrite (bind_run (list_for_server sid) _ s (policies_of (db s) sid) s) by reflexivity.
  split; intros Hl; [by destruct (policies_of (db s) sid)|]. rewrite Hl. rewrite Hp. simpl some_or_raise.
  rewrite (bind_run (mret preset) _ s preset s) by reflexivity.
  destruct (switch_loop_run sid actor profile preset s Hok Hp) as (d' & Hrun & Hok' & Honly & Hsw & _).
  rewrite Hl, (count_changes_fresh sid profile preset) in Hrun by (done || intros; by apply no_policies).
  rewrite (bind_run _ _ _ _ _ Hrun). set (s1 := s <| db := d' |>).
  exists d', (audit_entry s1 "agent_policy.profile_set" (Some actor) (Some lab) (Some "server"%string)
    (Some sid) (Some lab) (Some sid)
    (JObj [("profile", JStr profile); ("seeded", JBool true); ("rows", JInt 8)]%string)
    no_request "ok" None).
  rewrite (bind_run _ _ _ _ _ (write_run _ _ _ _ _ _ _ _ _ s1 Hc)).
  split_and!; [|done..|split; reflexivity].
  unfold s1. simpl. rewrite Honly. reflexivity.
Qed.

(** ** Editing one policy *)

Section editing.
Context (coerce : scalar → json → option json) {isoformat : Z → string}.
Context `{!ScalarLaws coerce isoformat}.

(** Why an edit is refused before anything is read. *)
Definition update_refusal (policy_key : string) (u : policy_update) : option exn :=
  if negb (bool_decide (policy_key ∈ POLICY_KEYS)) then Some UnknownPolicyKeyError
  else if bool_decide (up_severity u = Some "auto_kill"%string) &&
          negb (bool_decide (policy_key ∈ _AUTO_KILL_SETTABLE_KEYS)) then Some AutoKillNotAllowedError
  else match validate_threshold coerce policy_key (up_threshold_value u) with
       | Raise e => Some e
       | Ok _ => None
       end.

Definition new_threshold (policy_key : string) (u : policy_update) : option json :=
  match validate_threshold coerce policy_key (up_threshold_value u) with Ok t => t | Raise _ => None end.

Definition base_row (sid actor : Z) (policy_key : string) (d : Db) : AgentPolicy.t :=
  match find_policy d sid policy_key, profile_preset "standard" ≫= assoc policy_key with
  | Some row, _ => row
  | None, Some p => preset_policy sid actor policy_key p (next_agent_policy_id d)
  | None, None => preset_policy sid actor policy_key (_row "" None None 0) 0
  end.

Lemma validate_threshold_ok key v t :
  key ∈ POLICY_KEYS → match v with Some v => plain v = true | None => True end →
  validate_threshold coerce key v = Ok t → threshold_ok key t = true.
Proof using All.
  unfold validate_threshold, threshold_ok. intros Hk Hpl.
  destruct (assoc key THRESHOLD_SCHEMAS) as [[schema|]|] eqn:Ha; [| |done].
  - destruct v as [v|]; [|by intros [= <-]].
    destruct (validate coerce no_factories schema v) as [v'|] eqn:Hv; [|done]. intros [= <-].
    eapply validate_typed; [|exact Hpl|exact Hv]. apply assoc_elem in Ha.
    assert (forallb (λ p, match p.2 with Some c => class_ok c | None => true end) THRESHOLD_SCHEMAS = true)
      as H by by vm_compute.
    exact (proj1 (forallb_elem _ _) H _ Ha).
  - intros [= <-]. done.
Qed.

Lemma validate_threshold_none key :
  key ∈ POLICY_KEYS → validate_threshold coerce key None = Ok None.
Proof using Type.
  intros Hk. unfold validate_threshold.
  assert (forallb (λ key, is_some (assoc key THRESHOLD_SCHEMAS)) POLICY_KEYS = true) as H
    by by vm_compute.
  pose proof (proj1 (forallb_elem _ _) H _ Hk) as Hs. cbv beta in Hs. clear H.
  revert Hs. generalize (assoc key THRESHOLD_SCHEMAS). by intros [[?|]|].
Qed.

Lemma edit_policy_fields actor u t row :
  let r := edit_policy actor u t row in
  AgentPolicy.id r = AgentPolicy.id row ∧ AgentPolicy.server_id r = AgentPolicy.server_id row ∧
  AgentPolicy.policy_key r = AgentPolicy.policy_key row ∧
  AgentPolicy.severity r = default (AgentPolicy.severity row) (up_severity u) ∧
  AgentPolicy.threshold_value r = match t with Some v => Some v | None => AgentPolicy.threshold_value row end.
Proof using Type. by destruct u as [[] [] ? [] [] []], t. Qed.

Lemma edit_policy_ok actor key u row :
  update_refusal key u = None → policy_ok row = true → AgentPolicy.policy_key row = key →
  match up_threshold_value u with Some v => plain v = true | None => True end →
  policy_row_error (edit_policy actor u (new_threshold key u) row) = None →
  policy_ok (edit_policy actor u (new_threshold key u) row) = true.
Proof using All.
  unfold update_refusal, new_threshold. intros Href Hrow Hkey Hpl Herr.
  destruct (edit_policy_fields actor u (match validate_threshold coerce key (up_threshold_value u) with
    | Ok t => t | Raise _ => None end) row) as (_ & _ & Hk & Hs & Ht).
  unfold policy_ok in *. rewrite Hk, Hs, Ht, Hkey in *. clear Hk Hs Ht.
  apply andb_true_iff in Hrow as [Hrow Hkill]. apply andb_true_iff in Hrow as [Hrow Hth].
  apply andb_true_iff in Hrow as [Hin _]. rewrite Hin in *.
  assert (key ∈ POLICY_KEYS) as Hmem by by apply bool_decide_eq_true_1 in Hin.
  rewrite bool_decide_eq_true_2 by done. simpl negb in Href. cbv iota in Href.
  destruct (_ && negb _) eqn:Hak in Href; [done|].
  destruct (validate_threshold coerce key (up_threshold_value u)) as [t|] eqn:Hv; [|done].
  apply validate_threshold_ok in Hv; [|done..].
  assert (threshold_ok key (match t with Some v => Some v | None => AgentPolicy.threshold_value row end) = true)
    as -> by by destruct t.
  simpl. destruct (up_severity u) as [sev|]; simpl in *; [|done].
  destruct (bool_decide_reflect (sev = "auto_kill"%string)) as [->|]; [|done].
  rewrite bool_decide_eq_true_2 in Hak by done. simpl in Hak. by apply negb_false_iff in Hak.
Qed.

(** Finding the row, or inserting the standard preset's. *)
Lemma base_row_run sid actor key s :
  policies_ok (db s) → key ∈ POLICY_KEYS →
  let row := base_row sid actor key (db s) in
  ∃ d1, (found ← get_policy sid key ;
         match found with
         | Some row => mret row
         | None =>
             standard ← some_or_raise (profile_preset "standard") KeyError ;
             preset ← some_or_raise (assoc key standard) KeyError ;
             add_policy (preset_policy sid actor key preset)
         end) s = (Ok row, s <| db := d1 |>) ∧
    policies_ok d1 ∧ policies_only (db s) d1 ∧ find_policy d1 sid key = Some row ∧
    ∀ sid' key', ¬ (sid = sid' ∧ key = key') → find_policy d1 sid' key' = find_policy (db s) sid' key'.
Proof using Type.
  intros Hok Hk row. rewrite (bind_run (get_policy sid key) _ s (find_policy (db s) sid key) s) by reflexivity.
  unfold row, base_row. destruct (find_policy (db s) sid key) as [r|] eqn:Hf.
  - exists (db s). split_and!; [by destruct s|done|by unfold policies_only; destruct (db s)|done|done].
  - destruct (profile_preset "standard") as [standard|] eqn:Hst; [|done].
    destruct (profile_presets_good _ _ _ Hst Hk) as (p & Hp & Hg).
    simpl some_or_raise. rewrite (bind_run (mret standard) _ s standard s) by reflexivity.
    rewrite Hp. simpl some_or_raise.
    rewrite (bind_run (mret p) _ s p s) by reflexivity.
    destruct (add_policy_run (preset_policy sid actor key p) s Hok) as [Hrun Hsb];
      [done|by apply preset_policy_ok|done|].
    eexists. split; [rewrite Hrun; change (Some standard ≫= assoc key) with (assoc key standard); by rewrite Hp|].
    split_and!; [by apply store_policy_ok|done| |].
    + rewrite find_policy_store by done. rewrite decide_True by done.
      change (Some standard ≫= assoc key) with (assoc key standard). by rewrite Hp.
    + intros sid' key' Hne. rewrite find_policy_store by done. by rewrite decide_False.
Qed.

Lemma update_one_checks sid key lab actor u s :
  update_one coerce sid key lab actor u s =
    match update_refusal key u with
    | Some e => (Raise e, s)
    | None =>
        (row ← (found ← get_policy sid key ;
                match found with
                | Some row => mret row
                | None =>
                    standard ← some_or_raise (profile_preset "standard") KeyError ;
                    preset ← some_or_raise (assoc key standard) KeyError ;
                    add_policy (preset_policy sid actor key preset)
                end) ;
         set_policy (edit_policy actor u (new_threshold key u) row) ;;
         write "agent_policy.update" (Some actor) (Some lab) (Some "agent_policy"%string)
           (Some (AgentPolicy.id row)) (Some lab) (Some sid)
           (JObj [("policy_key", JStr key); ("before", policy_payload row);
                  ("after", policy_payload (edit_policy actor u (new_threshold key u) row))]%string)
           no_request ;;
         mret (edit_policy actor u (new_threshold key u) row)) s
    end.
Proof using Type.
  unfold update_one, update_refusal, new_threshold.
  destruct (bool_decide_reflect (key ∈ POLICY_KEYS)) as [Hk|Hk]; [|done]. simpl negb.
  rewrite (bind_run (raise_if false _) _ s tt s) by reflexivity. cbv iota.
  destruct (_ && negb _); [done|]. rewrite (bind_run (raise_if false _) _ s tt s) by reflexivity.
  assert (Hb : ∀ {A B C} (m : M A) (f : A → M B) (g : B → M C),
    ((m ≫= f) ≫= g) s = (m ≫= (λ x, f x ≫= g)) s).
  { intros A B C m f g. unfold mbind, prog_bind. by destruct (m s) as [[] ?]. }
  rewrite Hb. destruct (up_threshold_value u) as [v|] eqn:Hv.
  - destruct (validate_threshold coerce key (Some v)) as [t|e]; [|done]. simpl of_result.
    by rewrite (bind_run (mret t) _ s t s) by reflexivity.
  - rewrite validate_threshold_none by done.
    by rewrite (bind_run (mret None) _ s None s) by reflexivity.
Qed.

(** editing one policy on every branch.  An unknown key, auto-kill on a
    key that may not have it, or a threshold its schema refuses is refused and
    changes nothing.  Otherwise the server's row for the key -- created from
    the standard preset when it was missing -- takes exactly the given
    fields; a value the column cannot hold fails the flush; on success every
    other policy is as before, one audit entry names the row, and the table
    stays well formed, so auto-kill is only ever stored where it may be. *)
Theorem update_one_spec sid key lab actor u s :
  clean s → policies_ok (db s) →
  match up_threshold_value u with Some v => plain v = true | None => True end →
  match update_refusal key u with
  | Some e => update_one coerce sid key lab actor u s = (Raise e, s)
  | None =>
      let row := base_row sid actor key (db s) in
      let edited := edit_policy actor u (new_threshold key u) row in
      match policy_row_error edited with
      | Some e => (update_one coerce sid key lab actor u s).1 = Raise e
      | None => ∃ d' e,
          update_one coerce sid key lab actor u s =
            (Ok edited, s <| db := d' <| audit_log := audit_log (db s) ++ [e] |> |>) ∧
          AuditLog.action e = "agent_policy.update"%string ∧
          AuditLog.target_id e = Some (AgentPolicy.id row) ∧
          policies_ok d' ∧ policies_only (db s) d' ∧
          ∀ sid' key', find_policy d' sid' key' =
            if decide (sid = sid' ∧ key = key') then Some edited else find_policy (db s) sid' key'
      end
  end.
Proof using All.
  intros Hc Hok Hpl. rewrite update_one_checks.
  destruct (update_refusal key u) as [e|] eqn:Href; [done|]. cbv zeta.
  assert (key ∈ POLICY_KEYS) as Hk.
  { unfold update_refusal in Href. by destruct (bool_decide_reflect (key ∈ POLICY_KEYS)). }
  destruct (base_row_run sid actor key s Hok Hk) as (d1 & Hrun & Hok1 & Honly1 & Hf1 & Ho1).
  set (row := base_row sid actor key (db s)) in *.
  set (edited := edit_policy actor u (new_threshold key u) row).
  rewrite (bind_run _ _ _ _ _ Hrun). set (s1 := s <| db := d1 |>).
  destruct (policy_row_error edited) as [e|] eqn:Herr.
  { rewrite (bind_run_raise _ _ s1 e s1); [done|]. unfold set_policy. fold edited. by rewrite Herr. }
  destruct (edit_policy_fields actor u (new_threshold key u) row) as (Eid & Esid & Ekey & _ & _).
  fold edited in Eid, Esid, Ekey.
  pose proof (proj1 (find_policy_Some _ _ _ _ Hok1) Hf1) as (_ & Hsid & Hkey).
  assert (Hgood : policy_ok edited = true).
  { apply edit_policy_ok; [done|by eapply find_policy_ok|done|done|done]. }
  destruct (set_policy_run edited row s1 Hok1 Hgood) as [Hset Hst]; [|done|].
  { rewrite Esid, Ekey, Hsid, Hkey. done. }
  cbv beta. fold edited. change (db s1) with d1 in Hset, Hst. clearbody edited. clearbody row.
  rewrite (bind_run _ _ _ _ _ Hset).
  set (s2 := s1 <| db := store_policy edited (next_agent_policy_id d1) d1 |>).
  rewrite (bind_run _ _ _ _ _ (write_run _ _ _ _ _ _ _ _ _ s2 Hc)).
  eexists (store_policy edited (next_agent_policy_id d1) d1), (audit_entry s2 _ _ _ _ _ _ _ _ _ _ _).
  split_and!; [|reflexivity|reflexivity| | |].
  - unfold s2, s1. simpl. rewrite Honly1. reflexivity.
  - apply store_policy_ok; [done|exact Hst].
  - by eapply policies_only_trans.
  - intros sid' key'. rewrite find_policy_store; [|done|exact Hst].
    rewrite Esid, Ekey, Hsid, Hkey. case_decide; [done|by apply Ho1].
Qed.
End editing.

(** ** Witnesses *)

Lemma no_policies_ok d : agent_policies d = ∅ → policies_ok d.
Proof. intros H. split; intros *; by rewrite H, lookup_empty. Qed.

Definition policy_session : Session := open_session (sample_db []) 100 "".

Definition strict_preset : list (string * preset_row) :=
  default [] (profile_preset "strict").

Lemma strict_preset_eq : profile_preset "strict" = Some strict_preset.
Proof. reflexivity. Qed.

Lemma switch_profile_spec_witness :
  ∃ d' e, switch_profile 1 1 10 "strict" policy_session =
      (Ok (count_changes 1 strict_preset (db policy_session) POLICY_KEYS),
       policy_session <| db := d' <| audit_log := audit_log (db policy_session) ++ [e] |> |>) ∧
    policies_ok d' ∧ switched_to 1 strict_preset (db policy_session) d'.
Proof.
  pose proof (switch_profile_spec 1 1 10 "strict" policy_session eq_refl
    (no_policies_ok (db policy_session) eq_refl)) as H.
  rewrite strict_preset_eq in H. destruct H as (d' & e & Hrun & Hok & _ & Hsw & _).
  exists d', e. split; [exact Hrun|]. split; [|exact Hsw]. destruct Hok as [H1 H2]. by split.
Defined.

(** The admin raises the memory tolerance to 35%. *)
Definition tolerance_update : policy_update :=
  mkUpdate None (Some "warn"%string) (Some (JObj [("value", JInt 35)]%string)) None None None.

Lemma update_one_spec_witness :
  ∃ d' e row,
    update_one exact_scalars 1 "memory_overuse" 1 10 tolerance_update policy_session =
      (Ok row, policy_session <| db := d' <| audit_log := [e] |> |>) ∧
    AgentPolicy.threshold_value row = pct 35 ∧ AgentPolicy.severity row = "warn"%string ∧
    policies_ok d'.
Proof.
  pose proof (update_one_spec exact_scalars 1 "memory_overuse" 1 10
    tolerance_update policy_session eq_refl (no_policies_ok (db policy_session) eq_refl) eq_refl) as H.
  replace (update_refusal exact_scalars "memory_overuse" tolerance_update) with (@None exn) in H
    by by vm_compute.
  cbv zeta in H.
  match type of H with match policy_row_error ?r with _ => _ end =>
    replace (policy_row_error r) with (@None exn) in H by by vm_compute end.
  destruct H as (d' & e & Hrun & _ & _ & Hok & _). exists d', e. eexists. split; [exact Hrun|].
  split_and!; [by vm_compute|by vm_compute|done].
Defined.
