(* ===== verification/SyncServices.v ===== *)
(** What the backend pushes to an agent: policies
    ([backend/corelab_backend/services/policy_sync_service.py]), capability
    switches ([capability_sync_service.py]) and the reverse-lookup cache
    ([link_cache_sync_service.py]).

    SHA-256 and [json.dumps] of a threshold are arguments; [tm] writes an
    instant into a payload: the code writes ISO text ([_iso]), and the typed
    document the receiver gets back holds the instant itself. *)

From S2P Require Import Prelude Schema Models SessionLayer AgentRpc.
From S2P Require Import AgentPolicyService AlertService.

(** [str(b)], [str(o)] *)
Definition str_bool (b : bool) : string := if b then "True" else "False".
Definition str_opt_int (o : option Z) : string := match o with Some z => pretty z | None => "None" end.

Fixpoint join (sep : string) (l : list string) : string :=
  match l with
  | [] => ""
  | [x] => x
  | x :: l => x +:+ sep +:+ join sep l
  end.

Section sync.
Context (sha256_16 : string → string) (json_dumps : json → string).

(** ** Policies *)

Definition policy_fields (row : AgentPolicy.t) : string :=
  AgentPolicy.policy_key row +:+ ":" +:+
  str_bool (negb (bool_decide (AgentPolicy.enabled row = 0))) +:+ ":" +:+
  AgentPolicy.severity row +:+ ":" +:+
  json_dumps (default JNull (AgentPolicy.threshold_value row)) +:+ ":" +:+
  str_opt_int (AgentPolicy.grace_period_seconds row) +:+ ":" +:+
  str_bool (negb (bool_decide (AgentPolicy.notify_admin row = 0))).

(** [_compute_etag]; the rows already come sorted by key. *)
Definition policy_etag (rs : list AgentPolicy.t) : string :=
  "policy-" +:+ sha256_16 (join "|" (policy_fields <$> merge_sort key_le rs)).

Definition policy_entry (row : AgentPolicy.t) : json :=
  JObj [("key", JStr (AgentPolicy.policy_key row));
        ("enabled", JBool (negb (bool_decide (AgentPolicy.enabled row = 0))));
        ("severity", JStr (AgentPolicy.severity row));
        ("threshold_value", default JNull (AgentPolicy.threshold_value row));
        ("grace_period_seconds", jopt JInt (AgentPolicy.grace_period_seconds row));
        ("notify_admin", JBool (negb (bool_decide (AgentPolicy.notify_admin row = 0))))]%string.

(** [policy_sync_service.compose_payload] *)
Definition compose_policies (d : Db) (server_id : Z) : payload :=
  let rs := policies_of d server_id in
  [("server_id", JInt server_id); ("policies", JList (policy_entry <$> rs));
   ("etag", JStr (policy_etag rs))]%string.

(** ** Capabilities *)

Definition capabilities_of (d : Db) (server_id : Z) : list AgentCapability.t :=
  filter (λ c, AgentCapability.server_id c = server_id) (rows (agent_capabilities d)).

Definition capability_entry (c : AgentCapability.t) : json :=
  JObj [("key", JStr (AgentCapability.capability_key c));
        ("enabled", JBool (negb (bool_decide (AgentCapability.is_enabled c = 0))))]%string.

(** [capability_sync_service.compose_payload] *)
Definition compose_capabilities (d : Db) (server_id : Z) : payload :=
  [("capabilities"%string, JList (capability_entry <$> capabilities_of d server_id))].

(** ** The reverse-lookup cache *)

Definition link_source_text (s : LinkSource) : string :=
  match s with
  | ssh_challenge => "ssh_challenge"
  | password_pam => "password_pam"
  | admin_prepared_then_ssh => "admin_prepared_then_ssh"
  | admin_declared => "admin_declared"
  end.

(** The active links on an account, joined with their user. *)
Definition active_links (d : Db) (pa_id : Z) : list AccountLink.t :=
  filter (λ l, AccountLink.physical_account_id l = pa_id ∧ AccountLink.is_active l = 1 ∧
               is_some (users d !! AccountLink.user_id l) = true) (rows (account_links d)).

(** The bookings a link carries now or later. *)
Definition live_reservations (d : Db) (link_id now : Z) : list Reservation.t :=
  filter (λ r, Reservation.account_link_id r = link_id ∧
               (Reservation.status r = STATUS_SCHEDULED ∨ Reservation.status r = STATUS_ACTIVE) ∧
               now <= Reservation.end_at r) (rows (reservations d)).

(** [d.setdefault(k, []).append(v)] *)
Fixpoint dict_append {A} (k : string) (v : A) (d : list (string * list A)) : list (string * list A) :=
  match d with
  | [] => [(k, [v])]
  | (k', l) :: d' => if bool_decide (k = k') then (k', l ++ [v]) :: d' else (k', l) :: dict_append k v d'
  end.

Section link_cache.
Context (tm : Z → json).

Definition snapshot (link : AccountLink.t) (r : Reservation.t) : json :=
  JObj [("reservation_id", JInt (Reservation.id r)); ("gpu_id", jopt JInt (Reservation.gpu_id r));
        ("start_at", tm (Reservation.start_at r)); ("end_at", tm (Reservation.end_at r));
        ("status", JStr (status_text (Reservation.status r)));
        ("gpu_memory_mb", jopt JInt (Reservation.gpu_memory_mb r));
        ("gpu_compute_share_pct", jopt JInt (Reservation.gpu_compute_share_pct r));
        ("source", JStr (link_source_text (AccountLink.source link)))]%string.

Definition active_reservations_dict (d : Db) (now : Z) (links : list AccountLink.t) :
    list (string * list json) :=
  foldl (λ acc link,
    foldl (λ acc r, dict_append (pretty (AccountLink.user_id link)) (snapshot link r) acc)
      acc (live_reservations d (AccountLink.id link) now)) [] links.

(** [sorted({...})] *)
Definition linked_users (links : list AccountLink.t) : list Z :=
  merge_sort Z.le (remove_dups (AccountLink.user_id <$> links)).

Definition link_entry (d : Db) (now : Z) (pa : PhysicalAccount.t) : option json :=
  match active_links d (PhysicalAccount.id pa) with
  | [] => None
  | links =>
      Some (JObj [("linux_username", JStr (PhysicalAccount.linux_username pa));
                  ("user_ids", JList (JInt <$> linked_users links));
                  ("active_reservations",
                   JObj ((λ p, (p.1, JList p.2)) <$> active_reservations_dict d now links))]%string)
  end.

Definition named (names : option (list string)) (name : string) : bool :=
  match names with Some l => bool_decide (name ∈ l) | None => true end.

(** [_entries_for_linux_users] *)
Definition _entries_for_linux_users (d : Db) (server_id now : Z) (names : option (list string)) :
    list json :=
  omap (link_entry d now)
    (filter (λ pa, PhysicalAccount.server_id pa = server_id ∧ PhysicalAccount.is_active pa = 1 ∧
                   named names (PhysicalAccount.linux_username pa) = true)
       (rows (physical_accounts d))).

(** The text the etag hashes, read off the entries. *)
Definition entry_text (e : json) : string :=
  match e with
  | JObj o =>
      match assoc "linux_username" o, assoc "user_ids" o with
      | Some (JStr name), Some (JList ids) =>
          name +:+ "=" +:+
          join "," (omap (λ j, match j with JInt z => Some (pretty z) | _ => None end) ids)
      | _, _ => ""
      end
  | _ => ""
  end.

Definition links_etag (entries : list json) : string :=
  "links-" +:+ sha256_16 (join "|" (entry_text <$> entries)).

Definition compose_full_payload (d : Db) (server_id now : Z) : payload :=
  let entries := _entries_for_linux_users d server_id now None in
  [("server_id", JInt server_id); ("mode", JStr "full"); ("entries", JList entries);
   ("removed_linux_usernames", JList []); ("etag", JStr (links_etag entries))]%string.

Definition compose_incremental_payload (d : Db) (server_id now : Z)
    (linux_usernames removed_linux_usernames : list string) : payload :=
  let entries := _entries_for_linux_users d server_id now (Some linux_usernames) in
  [("server_id", JInt server_id); ("mode", JStr "incremental"); ("entries", JList entries);
   ("removed_linux_usernames", JList (JStr <$> removed_linux_usernames));
   ("etag", JStr (links_etag entries))]%string.
End link_cache.

(** ** Sending *)

(** The common tail of the [push_*] functions: an absent or silent agent and
    a refusal are [False], any other error leaves. *)
Definition push (server_id : Z) (frame_type : string) (p : payload) (reply : rpc_result) : M bool :=
  try_except
    (r ← agent_request server_id frame_type p reply ; mret (truthy (response_get r "ok")))
    (λ e, match e with
          | AgentOfflineError | AgentRpcTimeoutError => mret false
          | _ => raise e
          end).

Definition push_policies (server_id : Z) (reply : rpc_result) : M bool :=
  p ← gets (λ s, compose_policies (db s) server_id) ;
  push server_id "backend.policy.sync" p reply.

Definition push_capabilities (server_id : Z) (reply : rpc_result) : M bool :=
  p ← gets (λ s, compose_capabilities (db s) server_id) ;
  empty ← gets (λ s, bool_decide (capabilities_of (db s) server_id = [])) ;
  if empty : bool then mret false else push server_id "backend.capability.sync" p reply.

Definition push_full_links (isoformat : Z → string) (server_id : Z) (reply : rpc_result) : M bool :=
  at_ ← utcnow ;
  p ← gets (λ s, compose_full_payload (JStr ∘ isoformat) (db s) server_id at_) ;
  push server_id "backend.account_link_cache.sync" p reply.

Definition push_incremental_links (isoformat : Z → string) (server_id : Z)
    (linux_usernames removed : list string) (reply : rpc_result) : M bool :=
  at_ ← utcnow ;
  p ← gets (λ s, compose_incremental_payload (JStr ∘ isoformat) (db s) server_id at_ linux_usernames removed) ;
  push server_id "backend.account_link_cache.sync" p reply.

(** The frame written to the socket of a connecting agent. *)
Definition connect_frame (isoformat : Z → string) (frame_type frame_id : string) (ts : Z) (p : payload) : json :=
  JObj [("type", JStr frame_type); ("id", JStr frame_id); ("ts", JStr (isoformat ts));
        ("payload", JObj p); ("correlation_id", JNull)]%string.

(** [send_on_connect] of the three services: the optional response is
    registered before the write, which may fail. *)
Definition send_on_connect (isoformat : Z → string) (pool : AgentConnectionPool) (server_id : Z)
    (frame_type frame_id : string) (ts : Z) (nothing : bool) (p : payload) (writes : bool)
    (rpc : RpcState) : bool * option (Z * json) * RpcState :=
  if nothing then (false, None, rpc)
  else match pool_get pool server_id with
       | None => (false, None, rpc)
       | Some ws =>
           let '(_, rpc) := expect_optional_response frame_id frame_type rpc in
           if writes then (true, Some (ws, connect_frame isoformat frame_type frame_id ts p), rpc)
           else (false, None, rpc)
       end.

Definition send_policies_on_connect isoformat pool server_id frame_id ts writes d rpc :=
  send_on_connect isoformat pool server_id "backend.policy.sync" frame_id ts
    (bool_decide (policies_of d server_id = [])) (compose_policies d server_id) writes rpc.

Definition send_capabilities_on_connect isoformat pool server_id frame_id ts writes d rpc :=
  send_on_connect isoformat pool server_id "backend.capability.sync" frame_id ts
    (bool_decide (capabilities_of d server_id = [])) (compose_capabilities d server_id) writes rpc.

Definition send_links_on_connect isoformat pool server_id frame_id ts writes d rpc :=
  send_on_connect isoformat pool server_id "backend.account_link_cache.sync" frame_id ts false
    (compose_full_payload (JStr ∘ isoformat) d server_id ts) writes rpc.
End sync.
