(* ===== verification/AgentConfig.v ===== *)
(** The agent's configuration: the TOML file as [install-agent.sh] and the
    agent write it, its classes ([src/agent/corelab_agent/config.py]), and the
    rewriting of its address list in place
    ([_rewrite_backend_urls_in_toml] of [ws_client.py]).

    [read_toml] is the part of TOML that such a file uses: every line is
    blank, a comment, or one assignment of a string without escapes, a decimal
    integer, a boolean or an array of such strings.  It answers [None] on
    anything else, valid TOML or not, and on a key given twice.  The text is
    the file's, as [read_text] gives it: lines end in [\n]. *)

From S2P Require Import Prelude PyText Schema.
From Stdlib Require Import QArith.
#[local] Open Scope Z_scope.

(** ** TOML *)

Section toml.
Open Scope N_scope.

Definition toml_space (c : N) : bool := (c =? 32) || (c =? 9).

Fixpoint skip_spaces (s : pystr) : pystr :=
  match s with
  | [] => []
  | c :: s' => if toml_space c then skip_spaces s' else s
  end.

Fixpoint span (p : N → bool) (s : pystr) : pystr * pystr :=
  match s with
  | [] => ([], [])
  | c :: s' => if p c then let '(a, b) := span p s' in (c :: a, b) else ([], s)
  end.

Definition digit_char (c : N) : bool := between 48 57 c.
Definition bare_key_char (c : N) : bool :=
  between 97 122 c || between 65 90 c || digit_char c || (c =? 95) || (c =? 45).

(** What a comment may hold, less the characters [str.splitlines] splits at. *)
Definition comment_char (c : N) : bool :=
  ((32 <=? c) || (c =? 9)) && negb (c =? 127) && negb (is_linebreak c).

(** What a basic string may hold unescaped: no quotation mark, no backslash. *)
Definition string_char (c : N) : bool := comment_char c && negb (c =? 34) && negb (c =? 92).

(** The text up to the closing quotation mark, and what follows it. *)
Definition basic_string (s : pystr) : option (pystr * pystr) :=
  match span string_char s with
  | (a, 34 :: rest) => Some (a, rest)
  | _ => None
  end.

(** Inside an array: before a string, in one, after one. *)
Inductive array_state : Type := Want | In (cur : pystr) | After.

Fixpoint array_items (st : array_state) (acc : list pystr) (s : pystr) : option (list pystr * pystr) :=
  match s with
  | [] => None
  | c :: s =>
      match st with
      | Want =>
          if toml_space c then array_items Want acc s
          else if c =? 34 then array_items (In []) acc s
          else if c =? 93 then Some (acc, s) else None
      | In cur =>
          if c =? 34 then array_items After (acc ++ [cur]) s
          else if string_char c then array_items (In (cur ++ [c])) acc s else None
      | After =>
          if toml_space c then array_items After acc s
          else if c =? 44 then array_items Want acc s
          else if c =? 93 then Some (acc, s) else None
      end
  end.

Definition decimal (s : pystr) : option Z :=
  match s with
  | [] => None
  | [c] => if digit_char c then Some (Z.of_N (c - 48)) else None
  | c :: _ =>
      if forallb digit_char s && negb (c =? 48)
      then Some (foldl (λ z c, z * 10 + Z.of_N (c - 48))%Z 0%Z s) else None
  end.

Definition toml_value (s : pystr) : option (json * pystr) :=
  match s with
  | 34 :: s => '(a, rest) ← basic_string s ; Some (JStr (utf8 a), rest)
  | 91 :: s => '(l, rest) ← array_items Want [] s ; Some (JList (JStr ∘ utf8 <$> l), rest)
  | _ =>
      let '(w, rest) := span bare_key_char s in
      if bool_decide (w = u "true") then Some (JBool true, rest)
      else if bool_decide (w = u "false") then Some (JBool false, rest)
      else z ← decimal w ; Some (JInt z, rest)
  end.

(** The end of a line. *)
Definition line_end (s : pystr) : bool :=
  match skip_spaces s with
  | [] => true
  | c :: s => (c =? 35) && forallb comment_char s
  end.

(** A line: an assignment, or none. *)
Definition toml_line (s : pystr) : option (option (string * json)) :=
  if line_end s then Some None
  else
    let '(key, s) := span bare_key_char (skip_spaces s) in
    match key, skip_spaces s with
    | _ :: _, 61 :: s =>
        '(v, s) ← toml_value (skip_spaces s) ;
        if line_end s then Some (Some (utf8 key, v)) else None
    | _, _ => None
    end.

Definition read_toml (text : pystr) : option (list (string * json)) :=
  if negb (forallb (λ c, (c =? 10) || negb (is_linebreak c)) text) then None
  else
    ls ← mapM toml_line (splitlines text) ;
    let doc := omap id ls in
    if bool_decide (NoDup doc.*1) then Some doc else None.

(** ** Rewriting the addresses *)

(** [f'"{u}"'] *)
Definition quoted (a : pystr) : pystr := 34 :: a ++ [34].

Definition urls_line (new_urls : list pystr) : pystr :=
  u "backend_urls = [" ++ join (u ", ") (quoted <$> new_urls) ++ u "]".

(** The lines the rewriting drops or replaces. *)
Definition url_line (line : pystr) : bool :=
  let stripped := lstrip line in
  startswith stripped (u "backend_urls") || startswith stripped (u "backend_url ") ||
  startswith stripped (u "backend_url=").

Fixpoint rewrite_lines (new_urls : list pystr) (written : bool) (lines : list pystr) : list pystr :=
  match lines with
  | [] => if written then [] else [urls_line new_urls]
  | line :: lines =>
      if url_line line
      then (if written then [] else [urls_line new_urls]) ++ rewrite_lines new_urls true lines
      else line :: rewrite_lines new_urls written lines
  end.

Definition _rewrite_backend_urls_in_toml (text : pystr) (new_urls : list pystr) : pystr :=
  join [10] (rewrite_lines new_urls false (splitlines text)) ++
  (if negb (endswith text [10]) then [10] else []).
End toml.

(** ** The classes *)

Abbreviation req n t := (n%string, t, Required).
Abbreviation dft n t v := (n%string, t, Default v).
Abbreviation opt n t := (n%string, TOptional t, Default JNull).
Abbreviation str := (TScalar KStr).
Abbreviation float := (TScalar KFloat).
Abbreviation boolean := (TScalar KBool).

Definition MockGpuSpec : ftype := TModel
  [ req "model" str ; dft "memory_total_mb" (TInt (Some 1) None) (JInt 24576) ;
    dft "compute_capability" str (JStr "8.9") ; dft "base_util" (TInt (Some 0) (Some 100)) (JInt 0) ;
    opt "process_user" str ].

Definition MockAccountSpec : ftype := TModel
  [ req "linux_username" (TStr (Some 1) (Some 32)) ; dft "uid" (TInt (Some 0) None) (JInt 1000) ;
    dft "gid" (TInt (Some 0) None) (JInt 1000) ; opt "home_directory" str ;
    dft "default_shell" (TOptional str) (JStr "/bin/bash") ].

Definition AgentConfig_fields : list field :=
  [ opt "backend_url" str ; dft "backend_urls" (TList str None) (JList []) ;
    opt "enrollment_token" str ; opt "agent_token" str ; opt "server_id" (TInt (Some 1) None) ;
    dft "mock_mode" boolean (JBool false) ; dft "log_level" str (JStr "INFO") ;
    dft "log_json" boolean (JBool true) ; dft "reconnect_initial_seconds" float (JFloat 1 0) ;
    dft "reconnect_max_seconds" float (JFloat 30 0) ;
    dft "account_scan_interval_seconds" float (JFloat 3600 0) ;
    dft "compliance_monitor_enabled" boolean (JBool true) ;
    dft "compliance_monitor_interval_seconds" float (JFloat 60 0) ;
    dft "mock_gpus" (TList MockGpuSpec None) (JList []) ;
    dft "mock_accounts" (TList MockAccountSpec None) (JList []) ].

(** The number [m * 2^e]. *)
Definition float_value (m e : Z) : Q := if 0 <=? e then inject_Z (m * 2 ^ e) else m # Z.to_pos (2 ^ (- e)).

(** The bounds of the float fields. *)
Definition float_bounds : list (string * Q) :=
  [("reconnect_initial_seconds", 3602879701896397 # 36028797018963968); (* the double 0.1 *)
   ("reconnect_max_seconds", 1%Q); ("account_scan_interval_seconds", 10%Q);
   ("compliance_monitor_interval_seconds", 5%Q)]%string.

Record MockAccount : Type := mkMockAccount {
  ma_linux_username : string ;
  ma_uid : Z ;
  ma_gid : Z ;
  ma_home_directory : option string ;
  ma_default_shell : option string }.

(** The addresses are mutable ([object.__setattr__]); [mock_gpus] is left as
    the validated documents. *)
Record AgentConfig : Type := mkConfig {
  backend_url : option string ;
  backend_urls : list string ;
  enrollment_token : option string ;
  agent_token : option string ;
  server_id : option Z ;
  mock_mode : bool ;
  log_level : string ;
  log_json : bool ;
  reconnect_initial_seconds : Q ;
  reconnect_max_seconds : Q ;
  account_scan_interval_seconds : Q ;
  compliance_monitor_enabled : bool ;
  compliance_monitor_interval_seconds : Q ;
  mock_gpus : list json ;
  mock_accounts : list MockAccount }.
#[export] Instance eta_AgentConfig : Eta AgentConfig := λ c,
  mkConfig (backend_url c) (backend_urls c) (enrollment_token c) (agent_token c) (server_id c)
    (mock_mode c) (log_level c) (log_json c) (reconnect_initial_seconds c) (reconnect_max_seconds c)
    (account_scan_interval_seconds c) (compliance_monitor_enabled c)
    (compliance_monitor_interval_seconds c) (mock_gpus c) (mock_accounts c).

(** Reading the fields of a validated document. *)
Section fields.
Context (o : list (string * json)).

Definition str_field (k : string) : option string :=
  match assoc k o with Some (JStr s) => Some s | _ => None end.
Definition int_field (k : string) : option Z :=
  match assoc k o with Some (JInt z) => Some z | _ => None end.
Definition bool_field (k : string) : bool :=
  match assoc k o with Some (JBool b) => b | _ => false end.
Definition float_field (k : string) : Q :=
  match assoc k o with Some (JFloat m e) => float_value m e | _ => 0%Q end.
Definition list_field (k : string) : list json :=
  match assoc k o with Some (JList l) => l | _ => [] end.
End fields.

Definition texts (l : list json) : list string :=
  omap (λ j, match j with JStr s => Some s | _ => None end) l.

Definition read_mock_account (j : json) : MockAccount :=
  let o := match j with JObj o => o | _ => [] end in
  mkMockAccount (default "" (str_field o "linux_username")) (default 0 (int_field o "uid"))
    (default 0 (int_field o "gid")) (str_field o "home_directory") (str_field o "default_shell").

Definition read_config (o : list (string * json)) : AgentConfig :=
  mkConfig (str_field o "backend_url") (texts (list_field o "backend_urls"))
    (str_field o "enrollment_token") (str_field o "agent_token") (int_field o "server_id")
    (bool_field o "mock_mode") (default "" (str_field o "log_level")) (bool_field o "log_json")
    (float_field o "reconnect_initial_seconds") (float_field o "reconnect_max_seconds")
    (float_field o "account_scan_interval_seconds") (bool_field o "compliance_monitor_enabled")
    (float_field o "compliance_monitor_interval_seconds") (list_field o "mock_gpus")
    (read_mock_account <$> list_field o "mock_accounts").

(** The validator; [None] is a [ValidationError]. *)
Definition _coalesce_urls (c : AgentConfig) : option AgentConfig :=
  let c := match backend_urls c, backend_url c with
           | [], Some a => if str_truthy (Some a) then c <| backend_urls := [a] |> else c
           | _, _ => c
           end in
  match backend_urls c with [] => None | _ => Some c end.

Section load.
Context (coerce : scalar → json → option json).

(** [AgentConfig.model_validate(raw)]: the fields have no default factories. *)
Definition model_validate (raw : list (string * json)) : option AgentConfig :=
  v ← validate coerce (mkFactories 0 "") (TModel AgentConfig_fields) (JObj raw) ;
  match v with
  | JObj o =>
      if forallb (λ b : string * Q, Qle_bool b.2 (float_field o b.1)) float_bounds
      then _coalesce_urls (read_config o) else None
  | _ => None
  end.

Definition load_config (text : pystr) : option AgentConfig := raw ← read_toml text ; model_validate raw.
End load.
