(* ===== verification/AgentConfigProperties.v ===== *)
(** The address list an agent writes into its configuration file is what it
    loads when it starts again, with everything else as it was. *)

From S2P Require Import Prelude PyText Schema AgentConfig.

#[local] Open Scope N_scope.

(** A property of every character of a literal. *)
Ltac chars := refine (bool_decide_unpack _ _); by vm_compute.

(** ** Lines *)

Lemma skip_spaces_lstrip s c s' :
  skip_spaces s = c :: s' → is_space c = false → lstrip s = c :: s'.
Proof.
  induction s as [|d s IH]; simpl; [done|]. destruct (toml_space d) eqn:Hd.
  - intros Hs Hc. assert (is_space d = true) as ->; [|auto].
    unfold toml_space in Hd. apply orb_true_iff in Hd as [->%N.eqb_eq | ->%N.eqb_eq]; by vm_compute.
  - intros [= -> ->] Hc. by rewrite Hc.
Qed.

Lemma skip_spaces_nil s : skip_spaces s = [] → lstrip s = [].
Proof.
  induction s as [|d s IH]; simpl; [done|]. destruct (toml_space d) eqn:Hd; [|done]. intros Hs.
  assert (is_space d = true) as ->; [|auto].
  unfold toml_space in Hd. apply orb_true_iff in Hd as [->%N.eqb_eq | ->%N.eqb_eq]; by vm_compute.
Qed.

Lemma bare_key_char_range c :
  bare_key_char c = true → 97 <= c <= 122 ∨ 65 <= c <= 90 ∨ 48 <= c <= 57 ∨ c = 95 ∨ c = 45.
Proof.
  unfold bare_key_char, digit_char. rewrite !orb_true_iff, !between_iff, !N.eqb_eq. tauto.
Qed.

Lemma bare_key_char_ascii c : bare_key_char c = true → scalar_value c = true ∧ is_space c = false.
Proof.
  intros H%bare_key_char_range. split; [apply scalar_value_iff; lia|].
  apply not_true_iff_false. unfold is_space. rewrite !orb_true_iff, !andb_true_iff, !N.leb_le, bool_decide_eq_true.
  set_unfold. lia.
Qed.

Lemma span_app p s a b : span p s = (a, b) → s = a ++ b ∧ Forall (λ c, p c = true) a.
Proof.
  revert a b. induction s as [|c s IH]; simpl; intros a b; [by intros [= <- <-]|].
  destruct (p c) eqn:Hc; [|by intros [= <- <-]].
  destruct (span p s) as [a' b']. intros [= <- <-]. destruct (IH _ _ eq_refl) as [-> H]. auto.
Qed.

Lemma span_stop p a b :
  Forall (λ c, p c = true) a → match b with c :: _ => p c = false | [] => True end → span p (a ++ b) = (a, b).
Proof.
  intros H Hb. induction H as [|c a Hc _ IH]; simpl; [|by rewrite Hc, IH].
  destruct b as [|c b]; simpl; [done|]. by rewrite Hb.
Qed.

(** A prefix of key characters lies in the key. *)
Lemma startswith_app_stop p a b x :
  Forall (λ c, p c = true) x → match b with c :: _ => p c = false | [] => True end →
  startswith (a ++ b) x = startswith a x.
Proof.
  intros Hx Hb. revert a. induction Hx as [|c x Hc _ IH]; intros a; [by rewrite !startswith_nil|].
  destruct a as [|d a]; simpl; [|by rewrite IH].
  destruct b as [|d b]; simpl; [done|]. destruct (bool_decide_reflect (c = d)) as [<-|]; [congruence|done].
Qed.

Lemma startswith_app_same a b x : startswith (a ++ b) (a ++ x) = startswith b x.
Proof. induction a as [|c a IH]; simpl; [done|]. by rewrite bool_decide_eq_true_2, IH. Qed.

(** A prefix that goes one character beyond the key is the key and that
    character. *)
Lemma startswith_whole p a b x c :
  Forall (λ d, p d = true) a → match b with d :: _ => p d = false | [] => True end →
  Forall (λ d, p d = true) x → p c = false → startswith (a ++ b) (x ++ [c]) = true → a = x.
Proof.
  intros Ha Hb. revert x. induction Ha as [|d a Hd _ IH]; intros x Hx Hc Hs; destruct Hx as [|e x He Hx]; simpl in *.
  - done.
  - destruct b as [|d b]; [done|]. apply andb_true_iff in Hs as [->%bool_decide_eq_true _]. congruence.
  - apply andb_true_iff in Hs as [->%bool_decide_eq_true _]. congruence.
  - apply andb_true_iff in Hs as [->%bool_decide_eq_true Hs]. f_equal. by apply IH.
Qed.

(** ** What a line assigns *)

(** A line that assigns a key begins with it. *)
Lemma toml_line_key line k v :
  toml_line line = Some (Some (k, v)) →
  ∃ key rest, lstrip line = key ++ rest ∧ k = utf8 key ∧ key ≠ [] ∧
    Forall (λ c, bare_key_char c = true) key ∧
    match rest with c :: _ => bare_key_char c = false | [] => True end.
Proof.
  unfold toml_line. destruct (line_end line); [done|].
  destruct (span bare_key_char (skip_spaces line)) as [key rest] eqn:Hs.
  destruct key as [|c key]; [done|]. apply span_app in Hs as Hd. destruct Hd as [Hl Hk].
  intros H. assert (k = utf8 (c :: key)) as ->.
  { destruct (skip_spaces rest) as [|[|e] s]; [done..|].
    repeat (destruct e as [e|e|]; try done). destruct (toml_value (skip_spaces s)) as [[w s']|]; [|done].
    simpl in H. destruct (line_end s'); [|done]. by injection H. }
  exists (c :: key), rest. split_and!; try done.
  - apply skip_spaces_lstrip; [done|]. apply Forall_cons in Hk as [Hk _]. by apply bare_key_char_ascii.
  - destruct rest as [|d rest]; [done|]. apply not_true_iff_false. intros Hd.
    revert H. simpl. assert (toml_space d = false) as ->.
    { apply not_true_iff_false. intros Ht. apply bare_key_char_range in Hd. unfold toml_space in Ht.
      apply orb_true_iff in Ht as [->%N.eqb_eq | ->%N.eqb_eq]; lia. }
    assert (d ≠ 61) as Hne by (intros ->; by vm_compute in Hd).
    destruct d as [|d]; [done|]. repeat (destruct d as [d|d|]; try done).
Qed.

Lemma toml_line_blank line : toml_line line = Some None → url_line line = false.
Proof.
  unfold toml_line. destruct (line_end line) eqn:He.
  2:{ destruct (span bare_key_char (skip_spaces line)) as [[|c key] rest]; [done|].
      destruct (skip_spaces rest) as [|[|e] s]; [done..|].
      repeat (destruct e as [e|e|]; try done). destruct (toml_value (skip_spaces s)) as [[w s']|]; [|done].
      simpl. by destruct (line_end s'). }
  intros _. unfold line_end in He. unfold url_line. destruct (skip_spaces line) as [|c s] eqn:Hs.
  - by rewrite (skip_spaces_nil _ Hs).
  - apply andb_true_iff in He as [->%N.eqb_eq _]. by rewrite (skip_spaces_lstrip _ _ _ Hs) by done.
Qed.

(** The keys of the configuration that the rewriting touches. *)
Definition config_key (k : string) : Prop := k ∈ field_name <$> AgentConfig_fields.

Lemma config_keys_plain k x :
  config_key k → startswith (text_of k) (u "backend_urls" ++ x) = true → k = "backend_urls"%string.
Proof.
  unfold config_key. intros Hk Hs.
  assert (startswith (text_of k) (u "backend_urls") = true) as H.
  { revert Hs. generalize (text_of k) (u "backend_urls"). intros a p. revert a.
    induction p as [|c p IH]; intros a; [by rewrite startswith_nil|].
    destruct a as [|d a]; simpl; [done|]. intros [-> H]%andb_true_iff. simpl. eauto. }
  clear Hs. assert (Forall (λ k, startswith (text_of k) (u "backend_urls") = true → k = "backend_urls"%string)
                      (field_name <$> AgentConfig_fields)) as Hall.
  { repeat (apply Forall_cons; split; [intros Hc; first [reflexivity|by vm_compute in Hc]|]). apply Forall_nil_2. }
  rewrite Forall_forall in Hall. auto.
Qed.

Lemma text_of_key key :
  Forall (λ c, bare_key_char c = true) key → text_of (utf8 key) = key.
Proof. intros H. apply text_of_utf8. eapply Forall_impl; [done|]. intros c Hc. by apply bare_key_char_ascii. Qed.

(** A dropped line assigns one of the two keys; the list's line is dropped. *)
Lemma url_line_keys line k v :
  toml_line line = Some (Some (k, v)) → config_key k →
  (url_line line = true → k = "backend_urls" ∨ k = "backend_url")%string ∧
  (url_line line = false → k ≠ "backend_urls")%string.
Proof.
  intros H Hk. destruct (toml_line_key _ _ _ H) as (key & rest & Hl & -> & Hn & Hb & Hr).
  pose proof (text_of_key _ Hb) as Ht. unfold url_line. rewrite Hl.
  assert (Hp : ∀ x, Forall (λ c, bare_key_char c = true) x → startswith (key ++ rest) x = startswith key x)
    by (intros x Hx; by eapply startswith_app_stop).
  assert (Hu : Forall (λ c, bare_key_char c = true) (u "backend_url"))
    by (chars).
  rewrite Hp by (chars). split.
  - rewrite !orb_true_iff. intros [[Hs|Hs]|Hs].
    + left. apply (config_keys_plain _ []); [done|]. by rewrite Ht, app_nil_r.
    + right. assert (key = u "backend_url") as ->; [|done].
      by eapply (startswith_whole _ _ _ (u "backend_url") 32).
    + right. assert (key = u "backend_url") as ->; [|done].
      by eapply (startswith_whole _ _ _ (u "backend_url") 61).
  - rewrite !orb_false_iff. intros [[Hs _] _] Heq. rewrite <- Ht, Heq in Hs. by vm_compute in Hs.
Qed.

(** ** The new line *)

(** An address that needs no escape. *)
Definition clean_url (a : pystr) : Prop := Forall (λ c, string_char c = true) a.
#[export] Instance clean_url_dec a : Decision (clean_url a).
Proof. unfold clean_url. apply _. Defined.

Lemma string_char_quote c : string_char c = true → (c =? 34) = false.
Proof. unfold string_char. destruct (c =? 34); [|done]. by rewrite andb_false_r. Qed.

Lemma array_items_in cur acc a s :
  clean_url a → array_items (In cur) acc (a ++ 34 :: s) = array_items After (acc ++ [cur ++ a]) s.
Proof.
  intros H. revert cur. induction H as [|c a Hc _ IH]; intros cur; simpl; [by rewrite app_nil_r|].
  by rewrite (string_char_quote _ Hc), Hc, IH, <- app_assoc.
Qed.

Lemma array_items_rest acc l s :
  Forall clean_url l →
  array_items After acc (concat ((λ a, u ", " ++ quoted a) <$> l) ++ 93 :: s) = Some (acc ++ l, s).
Proof.
  intros H. revert acc. induction H as [|a l Ha _ IH]; intros acc; [by rewrite app_nil_r|].
  rewrite fmap_cons. cbn [concat]. unfold quoted at 1. rewrite <- !app_assoc. cbn.
  rewrite <- app_assoc. cbn [app]. by rewrite array_items_in, IH, <- app_assoc.
Qed.

Lemma join_quoted a l :
  join (u ", ") (quoted <$> a :: l) = quoted a ++ concat ((λ a, u ", " ++ quoted a) <$> l).
Proof.
  revert a. induction l as [|b l IH]; intros a; [by rewrite app_nil_r|].
  change (join (u ", ") (quoted <$> a :: b :: l)) with (quoted a ++ u ", " ++ join (u ", ") (quoted <$> b :: l)).
  rewrite IH, fmap_cons. cbn [concat]. by rewrite !app_assoc.
Qed.

Lemma urls_line_array l s :
  Forall clean_url l → array_items Want [] (join (u ", ") (quoted <$> l) ++ 93 :: s) = Some (l, s).
Proof.
  destruct l as [|a l]; [done|]. intros [Ha Hl]%Forall_cons.
  rewrite join_quoted, <- app_assoc. unfold quoted at 1. cbn. rewrite <- app_assoc. cbn [app].
  by rewrite array_items_in, array_items_rest.
Qed.

Definition urls_json (new_urls : list pystr) : json := JList (JStr ∘ utf8 <$> new_urls).

Lemma toml_urls_line l :
  Forall clean_url l → toml_line (urls_line l) = Some (Some ("backend_urls"%string, urls_json l)).
Proof.
  intros H. unfold urls_line. change (u "]") with [93].
  pose proof (urls_line_array l [] H) as Ha. revert Ha.
  generalize (join (u ", ") (quoted <$> l) ++ [93]). intros s Ha.
  change (toml_line (u "backend_urls = [" ++ s)) with
    ('(v, s) ← (('(l, rest) ← array_items Want [] s ; Some (JList (JStr ∘ utf8 <$> l), rest))) ;
     if line_end s then Some (Some ("backend_urls"%string, v)) else None).
  by rewrite Ha.
Qed.

Lemma string_char_unbroken c : string_char c = true → is_linebreak c = false.
Proof. unfold string_char, comment_char. destruct (is_linebreak c); [|done]. by rewrite !andb_false_r. Qed.

Lemma urls_line_unbroken l : Forall clean_url l → unbroken (urls_line l).
Proof.
  intros H. unfold urls_line, unbroken. apply Forall_app. split; [chars|].
  apply Forall_app. split; [|chars].
  assert (Hq : ∀ a, clean_url a → Forall (λ c, is_linebreak c = false) (quoted a)).
  { intros a Ha. unfold quoted. apply Forall_cons. split; [done|]. apply Forall_app. split; [|by apply Forall_singleton].
    eapply Forall_impl; [done|]. apply string_char_unbroken. }
  destruct l as [|a l]; [by apply Forall_nil_2|]. rewrite join_quoted. apply Forall_cons in H as [Ha H].
  apply Forall_app. split; [auto|]. induction H as [|b l Hb _ IH]; [by apply Forall_nil_2|].
  rewrite fmap_cons. cbn [concat]. rewrite <- app_assoc. apply Forall_app. split; [chars|].
  apply Forall_app. auto.
Qed.

(** ** The document *)

(** [d'] is [d] with the address list replaced; the list comes later when it
    is not written yet. *)
Record replaced (new : json) (written : bool) (d d' : list (string * json)) : Prop := {
  r_new : written = false → assoc "backend_urls" d' = Some new ;
  r_written : written = true → "backend_urls"%string ∉ d'.*1 ;
  r_legacy : assoc "backend_url" d' = assoc "backend_url" d ∨ assoc "backend_url" d' = None ;
  r_old : ∀ k, k ≠ "backend_urls"%string → k ≠ "backend_url"%string → assoc k d' = assoc k d ;
  r_keys : ∀ k, k ∈ d'.*1 → k ∈ d.*1 ∨ k = "backend_urls"%string ;
  r_nodup : NoDup d'.*1 }.

Lemma assoc_cons_ne {A} k k' (v : A) d : k' ≠ k → assoc k ((k', v) :: d) = assoc k d.
Proof. intros H. rewrite assoc_cons. simpl. by rewrite decide_False. Qed.

Lemma assoc_cons_eq {A} k (v : A) d : assoc k ((k, v) :: d) = Some v.
Proof. rewrite assoc_cons. simpl. by rewrite decide_True. Qed.

Lemma assoc_not_key {A} k (d : list (string * A)) : k ∉ d.*1 → assoc k d = None.
Proof.
  intros H. destruct (assoc k d) as [v|] eqn:Ha; [|done]. destruct H. apply assoc_elem in Ha.
  apply list_elem_of_fmap. by exists (k, v).
Qed.

(** The list is put in front of what is read afterwards. *)
Lemma replaced_insert new d d' :
  replaced new true d d' → replaced new false d (("backend_urls"%string, new) :: d').
Proof.
  intros [_ Hw Hl Ho Hk Hn]. specialize (Hw eq_refl). split; try done.
  - intros k Hk1 Hk2. rewrite assoc_cons_ne by congruence. auto.
  - intros k [->|Hin]%elem_of_cons; auto.
  - by apply NoDup_cons.
Qed.

(** A line dropped. *)
Lemma replaced_drop new w k v d d' :
  (k = "backend_urls" ∨ k = "backend_url")%string → k ∉ d.*1 →
  replaced new w d d' → replaced new w ((k, v) :: d) d'.
Proof.
  intros Hk Hnot [Hn Hw Hl Ho Hks Hnd]. split; try done.
  - destruct Hk as [-> | ->]; [by rewrite assoc_cons_ne|]. right.
    destruct Hl as [-> | ->]; [|done]. by apply assoc_not_key.
  - intros k' Hk1 Hk2. rewrite assoc_cons_ne by (destruct Hk; congruence). auto.
  - intros k' [Hin|]%Hks; [|by right]. left. by right.
Qed.

(** A line kept. *)
Lemma replaced_keep new w k v d d' :
  k ≠ "backend_urls"%string → k ∉ d.*1 →
  replaced new w d d' → replaced new w ((k, v) :: d) ((k, v) :: d').
Proof.
  intros Hk Hnot [Hn Hw Hl Ho Hks Hnd]. split.
  - intros Hf. rewrite assoc_cons_ne by done. auto.
  - intros Hf. specialize (Hw Hf). set_solver.
  - destruct (decide (k = "backend_url"%string)) as [->|]; [by left; rewrite !assoc_cons_eq|].
    by rewrite !assoc_cons_ne.
  - intros k' Hk1 Hk2. rewrite !assoc_cons. case_decide; auto.
  - intros k'. rewrite !fmap_cons, !elem_of_cons. intros [->|[Hin|]%Hks]; simpl; auto.
  - simpl. apply NoDup_cons. split; [|done]. intros [Hin|]%Hks; auto.
Qed.

Lemma rewrite_lines_doc us w ls os :
  Forall clean_url us → mapM toml_line ls = Some os → NoDup (omap id os).*1 →
  Forall config_key (omap id os).*1 →
  ∃ os', mapM toml_line (rewrite_lines us w ls) = Some os' ∧
         replaced (urls_json us) w (omap id os) (omap id os').
Proof.
  intros Hus. assert (Hnil : replaced (urls_json us) true [] []).
  { split; [done|set_solver|by left|done|set_solver|by apply NoDup_nil_2]. }
  revert w os. induction ls as [|line ls IH]; intros w os Hm Hnd Hks; simpl in Hm.
  - injection Hm as <-. destruct w; [by exists []|]. simpl. rewrite toml_urls_line by done. simpl.
    eexists; split; [done|]. by apply (replaced_insert _ [] []).
  - destruct (toml_line line) as [o|] eqn:Hline; [|done]. simpl in Hm.
    destruct (mapM toml_line ls) as [os1|] eqn:Hls; [|done]. injection Hm as <-. simpl.
    destruct o as [[k v]|].
    + simpl in Hnd, Hks. apply NoDup_cons in Hnd as [Hnot Hnd]. apply Forall_cons in Hks as [Hk Hks].
      destruct (url_line_keys _ _ _ Hline Hk) as [Hdrop Hkeep].
      destruct (url_line line) eqn:Hurl.
      * destruct (IH true os1 eq_refl Hnd Hks) as (os2 & Hm & Hr).
        apply (replaced_drop _ true k v) in Hr; [|auto|done].
        destruct w; simpl; [eauto|]. rewrite toml_urls_line by done. simpl. rewrite Hm. simpl.
        eexists; split; [done|]. by apply replaced_insert.
      * destruct (IH w os1 eq_refl Hnd Hks) as (os2 & Hm & Hr). simpl. rewrite Hline, Hm. simpl.
        eexists; split; [done|]. simpl. apply replaced_keep; auto.
    + rewrite (toml_line_blank _ Hline). simpl in Hnd, Hks |- *. rewrite Hline.
      destruct (IH w os1 eq_refl Hnd Hks) as (os2 & Hm & Hr). rewrite Hm. simpl. eauto.
Qed.

(** ** The file *)

Lemma rewrite_lines_unbroken us w ls :
  Forall clean_url us → Forall unbroken ls → Forall unbroken (rewrite_lines us w ls).
Proof.
  intros Hus H. pose proof (urls_line_unbroken _ Hus). revert w. induction H as [|l ls Hl _ IH]; intros w; simpl.
  - destruct w; [by apply Forall_nil_2|by apply Forall_singleton].
  - destruct (url_line l); [apply Forall_app; split; [|auto]|by apply Forall_cons].
    destruct w; [by apply Forall_nil_2|by apply Forall_singleton].
Qed.

Lemma rewrite_lines_not_nil us ls : rewrite_lines us false ls ≠ [].
Proof. destruct ls as [|l ls]; simpl; [done|]. by destruct (url_line l). Qed.

Definition only_newlines (text : pystr) : bool := forallb (λ c, (c =? 10) || negb (is_linebreak c)) text.

Lemma unbroken_only ls :
  Forall unbroken ls → Forall (λ c, (c =? 10) || negb (is_linebreak c) = true) (join [10] ls).
Proof.
  intros H. apply join_chars; [done|]. eapply Forall_impl; [done|]. intros l Hl.
  eapply Forall_impl; [done|]. intros c Hc. simpl in Hc. rewrite Hc. by rewrite orb_true_r.
Qed.

Lemma rewrite_reads text us doc :
  Forall clean_url us → read_toml text = Some doc → Forall config_key doc.*1 →
  ∃ doc', read_toml (_rewrite_backend_urls_in_toml text us) = Some doc' ∧
          replaced (urls_json us) false doc doc'.
Proof.
  intros Hus. unfold read_toml. destruct (negb _); [done|].
  destruct (mapM toml_line (splitlines text)) as [os|] eqn:Hm; [|done]. simpl.
  destruct (bool_decide_reflect (NoDup (omap id os).*1)) as [Hnd|]; [|done]. intros [= <-] Hk.
  destruct (rewrite_lines_doc us false _ _ Hus Hm Hnd Hk) as (os' & Hm' & Hr).
  unfold _rewrite_backend_urls_in_toml.
  set (ls' := rewrite_lines us false (splitlines text)) in *.
  set (t := if negb (endswith text [10]) then [10] else []).
  assert (Hu : Forall unbroken ls') by (apply rewrite_lines_unbroken; [done|]; apply splitlines_unbroken).
  assert (only_newlines (join [10] ls' ++ t) = true) as Hon.
  { unfold only_newlines. rewrite forallb_app. apply andb_true_iff. split; [|by subst t; destruct (negb _)].
    apply forallb_elem, Forall_forall. by apply unbroken_only. }
  unfold only_newlines in Hon. rewrite Hon. cbn [negb].
  assert (Ht : t = [] ∨ t = [10]) by (subst t; destruct (negb _); auto).
  destruct (splitlines_join ls' t Hu (rewrite_lines_not_nil _ _) Ht) as [-> | Hl].
  - rewrite Hm'. simpl. rewrite bool_decide_eq_true_2 by apply Hr. eauto.
  - rewrite Hl in Hm'. apply mapM_Some, Forall2_app_inv_l in Hm' as (os1 & os2 & H1 & H2 & ->).
    apply Forall2_cons_inv_l in H2 as (o & os3 & Ho & H3 & ->). apply Forall2_nil_inv_l in H3 as ->.
    injection Ho as <-. apply mapM_Some in H1. rewrite H1. simpl.
    rewrite omap_app, app_nil_r in Hr. rewrite bool_decide_eq_true_2 by apply Hr. eauto.
Qed.

(** ** Loading it *)

Section load.
Context {coerce : scalar → json → option json} {isoformat : Z → string} `{!ScalarLaws coerce isoformat}.
Abbreviation env := (mkFactories 0%Z "").

Lemma known_keys (fs : list field) o : known fs o = true ↔ Forall (λ k, k ∈ field_name <$> fs) o.*1.
Proof using Type.
  unfold known. rewrite forallb_elem, Forall_forall. setoid_rewrite bool_decide_eq_true. split.
  - intros H k Hk. apply list_elem_of_fmap in Hk as (p & -> & Hp). auto.
  - intros H p Hp. apply H. apply list_elem_of_fmap. eauto.
Qed.

Lemma read_urls o us :
  assoc "backend_urls" o = Some (urls_json us) →
  read_field coerce env o (dft "backend_urls" (TList str None) (JList [])) =
    Some ("backend_urls"%string, urls_json us).
Proof using All.
  intros H. unfold read_field, field_name, field_type. cbn [fst snd]. rewrite H.
  change (validate coerce env (TList str None) (urls_json us)) with
    (JList <$> mapM (validate coerce env str) (JStr ∘ utf8 <$> us)).
  assert (mapM (validate coerce env str) (JStr ∘ utf8 <$> us) = Some (JStr ∘ utf8 <$> us)) as ->; [|done].
  apply mapM_Some, Forall_Forall2_diag, Forall_fmap, Forall_true.
  intros a. by apply (coerce_wire KStr (JStr (utf8 a))).
Qed.

Lemma read_same o o' (f : field) :
  assoc (field_name f) o' = assoc (field_name f) o → read_field coerce env o' f = read_field coerce env o f.
Proof using Type. intros H. unfold read_field. by rewrite H. Qed.

(** The other fields come out as before. *)
Lemma read_rest o o' (fs : list field) :
  (∀ k, k ∈ field_name <$> fs → assoc k o' = assoc k o) →
  mapM (read_field coerce env o') fs = mapM (read_field coerce env o) fs.
Proof using Type.
  intros H. induction fs as [|f fs IH]; [done|]. simpl.
  rewrite (read_same o o' f) by (apply H; by left). rewrite IH; [done|]. intros k Hk. apply H. by right.
Qed.

Lemma texts_urls us : texts (JStr ∘ utf8 <$> us) = utf8 <$> us.
Proof using Type. induction us as [|a us IH]; [done|]. simpl. by f_equal. Qed.

(** The validated fields after the rewriting. *)
Lemma read_config_replaced us (v1 v1' : string * json) v2 o :
  v1.1 = "backend_url"%string → v1'.1 = "backend_url"%string → v2.1 = "backend_urls"%string →
  read_config (v1' :: ("backend_urls"%string, urls_json us) :: o) =
    read_config (v1 :: v2 :: o) <| backend_urls := utf8 <$> us |>
      <| backend_url := str_field [v1'] "backend_url" |>.
Proof using Type.
  destruct v1 as [? j1], v1' as [? j1'], v2 as [? j2]. cbn [fst]. intros -> -> ->.
  set (l' := _ :: _ :: o). set (l := _ :: _ :: o).
  assert (Hs : ∀ k, k ≠ "backend_url"%string → k ≠ "backend_urls"%string → assoc k l' = assoc k l).
  { intros k H1 H2. subst l l'. by rewrite !assoc_cons_ne by congruence. }
  assert (Hu : texts (list_field l' "backend_urls") = utf8 <$> us).
  { unfold list_field, l'. rewrite assoc_cons_ne, assoc_cons_eq by done. apply texts_urls. }
  assert (Hl : str_field l' "backend_url" = str_field [("backend_url"%string, j1')] "backend_url").
  { unfold str_field, l'. by rewrite !assoc_cons_eq. }
  clearbody l l'. unfold read_config. cbn -[texts]. rewrite Hu, Hl.
  f_equal; try done; unfold list_field, int_field, bool_field, float_field, str_field; by rewrite Hs.
Qed.

Lemma model_validate_replaced us doc doc' c :
  us ≠ [] → replaced (urls_json us) false doc doc' → model_validate coerce doc = Some c →
  ∃ legacy, model_validate coerce doc' =
              Some (c <| backend_urls := utf8 <$> us |> <| backend_url := legacy |>).
Proof using All.
  intros Hne [Hnew _ Hlegacy Hold Hkeys _]. unfold model_validate. rewrite !validate_model. cbn [negb orb].
  destruct (known AgentConfig_fields doc) eqn:Hkn; [|done].
  assert (known AgentConfig_fields doc' = true) as ->.
  { apply known_keys in Hkn. apply known_keys, Forall_forall. rewrite Forall_forall in Hkn.
    intros k [Hk| ->]%Hkeys; [auto|]. by apply (bool_decide_unpack _); vm_compute. }
  change AgentConfig_fields with
    (opt "backend_url" str :: dft "backend_urls" (TList str None) (JList []) :: drop 2 AgentConfig_fields).
  cbn [mapM]. rewrite (read_urls _ _ (Hnew eq_refl)).
  rewrite (read_rest doc doc' (drop 2 AgentConfig_fields)).
  2:{ intros k Hk. apply Hold; intros ->; revert Hk; by apply (bool_decide_unpack _); vm_compute. }
  destruct (read_field coerce env doc (opt "backend_url" str)) as [v1|] eqn:H1; [|done].
  destruct (read_field coerce env doc (dft "backend_urls" _ _)) as [v2|] eqn:H2; [|done].
  destruct (mapM (read_field coerce env doc) (drop 2 AgentConfig_fields)) as [o|] eqn:Ho; [|done].
  assert (∃ v1', read_field coerce env doc' (opt "backend_url" str) = Some v1') as [v1' H1'].
  { destruct Hlegacy as [Hl|Hl]; [rewrite (read_same doc) by done; eauto|].
    unfold read_field, field_name. cbn [fst snd]. rewrite Hl. by eexists. }
  rewrite H1'. cbn [mbind option_bind fmap option_fmap option_map mret option_ret].
  assert (Hn : ∀ o f v, read_field coerce env o f = Some v → v.1 = field_name f).
  { intros o0 f v. unfold read_field. by destruct (match assoc _ _ with Some _ => _ | None => _ end); intros [= <-]. }
  apply Hn in H1, H2, H1'. cbn in H1, H2, H1'.
  rewrite (read_config_replaced us v1 v1' v2) by done.
  assert (Hf : ∀ k, k ≠ "backend_url"%string → k ≠ "backend_urls"%string →
    float_field (v1' :: ("backend_urls"%string, urls_json us) :: o) k = float_field (v1 :: v2 :: o) k).
  { intros k Hk1 Hk2. unfold float_field. rewrite !assoc_cons. cbn [fst snd]. rewrite H1, H2, H1'.
    by rewrite !(decide_False (P := _ = k)) by congruence. }
  cbn [float_bounds forallb fst snd]. rewrite !Hf by done.
  destruct (_ && _); [|done]. intros Hc. exists (str_field [v1'] "backend_url").
  assert (∃ l, c = read_config (v1 :: v2 :: o) <| backend_urls := l |>) as [l ->].
  { unfold _coalesce_urls in Hc. revert Hc. generalize (read_config (v1 :: v2 :: o)). intros r Hc.
    destruct (backend_urls r) as [|a l] eqn:Ha.
    - destruct (backend_url r) as [a|]; [destruct (str_truthy (Some a))|]; simpl in Hc; rewrite ?Ha in Hc;
        try done; injection Hc as <-; eauto.
    - rewrite Ha in Hc. injection Hc as <-. exists (backend_urls r). by destruct r. }
  unfold _coalesce_urls. destruct us as [|a us]; [done|]. simpl. done.
Qed.
End load.

Lemma rewritten_loads {coerce isoformat} `{!ScalarLaws coerce isoformat} text new_urls c :
  new_urls ≠ [] → Forall clean_url new_urls → load_config coerce text = Some c →
  ∃ legacy, load_config coerce (_rewrite_backend_urls_in_toml text new_urls) =
              Some (c <| backend_urls := utf8 <$> new_urls |> <| backend_url := legacy |>).
Proof.
  intros Hne Hus. unfold load_config. destruct (read_toml text) as [doc|] eqn:Hr; [|done]. simpl. intros Hc.
  assert (Hk : Forall config_key doc.*1).
  { unfold model_validate in Hc. rewrite validate_model in Hc. cbn [negb orb] in Hc.
    destruct (known AgentConfig_fields doc) eqn:Hkn; [|done]. by apply known_keys in Hkn. }
  destruct (rewrite_reads text new_urls doc Hus Hr Hk) as (doc' & -> & Hd). simpl.
  by eapply model_validate_replaced.
Qed.

(** An address list that the agent writes into its configuration file is
    the one it connects to after a restart: when the file loaded before, and
    the addresses need no escape, the rewritten file loads too, with these
    addresses and every other setting as it was ([backend_url], which is only
    read when there is no list, may be dropped). *)
Theorem persisted_urls_load {coerce isoformat} `{!ScalarLaws coerce isoformat} text new_urls c :
  new_urls ≠ [] → Forall clean_url new_urls → load_config coerce text = Some c →
  ∃ legacy, load_config coerce (_rewrite_backend_urls_in_toml text new_urls) =
              Some (c <| backend_urls := utf8 <$> new_urls |> <| backend_url := legacy |>).
Proof. apply rewritten_loads. Qed.

(** ** Closed instances *)

Definition config_lines (ls : list pystr) : pystr := concat ((λ l : pystr, l ++ [10]) <$> ls).

(** As [install-agent.sh] writes it. *)
Definition installed_config : pystr :=
  config_lines
    [ u "# CoreLab agent config"; [] ;
      u "backend_urls = [" ++ quoted (u "wss://lab.example/ws/agent") ++ u ", " ++
        quoted (u "ws://10.0.0.5/ws/agent") ++ u "]";
      u "server_id = 3"; u "enrollment_token = " ++ quoted (u "abcdefgh"); u "mock_mode = true" ].

Definition new_address : pystr := u "wss://tunnel.example/ws/agent".

Lemma persisted_urls_load_witness :
  ∃ c legacy,
    load_config exact_scalars installed_config = Some c ∧ server_id c = Some 3%Z ∧
    load_config exact_scalars (_rewrite_backend_urls_in_toml installed_config [new_address]) =
      Some (c <| backend_urls := ["wss://tunnel.example/ws/agent"%string] |> <| backend_url := legacy |>).
Proof.
  destruct (load_config exact_scalars installed_config) as [c|] eqn:Hc; [|by vm_compute in Hc].
  destruct (persisted_urls_load (isoformat := decimal_isoformat) installed_config [new_address] c
              ltac:(done) ltac:(refine (bool_decide_unpack _ _); by vm_compute) Hc) as [legacy Hl].
  exists c, legacy. split; [done|]. split; [|exact Hl]. vm_compute in Hc. by injection Hc as <-.
Defined.

(** An array over several lines loses its first line only; an address with a
    quotation mark ends its string early. *)
Definition wrapped_config : pystr :=
  config_lines [ u "backend_urls = ["; u "  " ++ quoted (u "wss://a/ws/agent") ++ u ","; u "]" ].

Example rewrite_leaves_continuation :
  splitlines (_rewrite_backend_urls_in_toml wrapped_config [new_address]) =
    [ urls_line [new_address]; u "  " ++ quoted (u "wss://a/ws/agent") ++ u ","; u "]" ].
Proof. by vm_compute. Qed.

Example quotation_mark_breaks_config :
  is_Some (load_config exact_scalars installed_config) ∧
  load_config exact_scalars
    (_rewrite_backend_urls_in_toml installed_config [u "ws://x/" ++ [34]]) = None.
Proof. split; [|by vm_compute]. apply (bool_decide_unpack _). by vm_compute. Qed.
