(* ===== verification/AgentCaches.v ===== *)
(** What an agent remembers ([src/agent/corelab_agent]): the policies
    ([policy_cache.py]), who owns which Linux account and what they booked
    ([reverse_cache.py]), what it may do ([capabilities.py]), and how long a
    violation has been going on ([grace_tracker.py]).

    The modules' globals are the fields of one record; [time.monotonic()] is
    an argument, in microseconds. *)

From S2P Require Import Prelude Schema Protocol.

(** ** The state of an agent process *)

(** [policy_cache.PolicyEntry] *)
Record PolicyEntry : Type := mkPolicyEntry {
  pe_key : string ;
  pe_enabled : bool ;
  pe_severity : string ;
  pe_threshold_value : option json ;
  pe_grace_period_seconds : option Z ;
  pe_notify_admin : bool }.

(** [reverse_cache.ActiveReservation]; the instants are ISO-8601 text. *)
Record ActiveReservation : Type := mkActiveReservation {
  ar_reservation_id : Z ;
  ar_gpu_id : Z ;
  ar_start_at : string ;
  ar_end_at : string ;
  ar_status : string ;
  ar_gpu_memory_mb : option Z ;
  ar_gpu_compute_share_pct : option Z ;
  ar_source : string }.

(** [reverse_cache.CacheEntry] *)
Record CacheEntry : Type := mkCacheEntry {
  ce_user_ids : list Z ;
  ce_active_reservations : gmap Z (list ActiveReservation) }.

(** [grace_tracker._key] and [_Pending]. *)
Record grace_key : Type := mkGraceKey {
  gk_policy_key : string ;
  gk_server_id : Z ;
  gk_gpu_id : option Z ;
  gk_linux_username : option string ;
  gk_pid : option Z }.
#[export] Instance grace_key_eq_dec : EqDecision grace_key.
Proof. solve_decision. Defined.
#[export] Instance grace_key_countable : Countable grace_key.
Proof.
  refine (inj_countable'
    (λ k, (gk_policy_key k, gk_server_id k, gk_gpu_id k, gk_linux_username k, gk_pid k))
    (λ '(a, b, c, d, e), mkGraceKey a b c d e) _).
  by intros [].
Defined.

Record _Pending : Type := mkPending {
  first_seen_monotonic : Z ;
  last_seen_monotonic : Z }.

Record AgentState : Type := mkAgent {
  policies : gmap (Z * string) PolicyEntry ;
  etag_by_server : gmap Z string ;
  links : gmap (Z * string) CacheEntry ;
  last_full_sync_monotonic : Z ;       (* 0 before the first *)
  capability : gmap string bool ;
  pending : gmap grace_key _Pending ;
  util_zero_since : gmap (Z * Z) Z }.  (* [_GpuTickState] by server and card *)
#[export] Instance eta_AgentState : Eta AgentState := λ s,
  mkAgent (policies s) (etag_by_server s) (links s) (last_full_sync_monotonic s) (capability s)
    (pending s) (util_zero_since s).

Definition fresh_agent : AgentState := mkAgent ∅ ∅ ∅ 0 ∅ ∅ ∅.

(** The entries of one server. *)
Definition slice {A} (server_id : Z) (c : gmap (Z * string) A) : gmap (Z * string) A :=
  filter (λ p, p.1.1 = server_id) c.
Definition without_server {A} (server_id : Z) (c : gmap (Z * string) A) : gmap (Z * string) A :=
  filter (λ p, p.1.1 ≠ server_id) c.
Definition upsert {A} (server_id : Z) (c : gmap (Z * string) A) (entries : list (string * A)) :
    gmap (Z * string) A :=
  foldl (λ c e, <[(server_id, e.1) := e.2]> c) c entries.

(** ** [policy_cache] *)

(** [apply_sync] *)
Definition apply_sync (server_id : Z) (entries : list PolicyEntry) (etag : string) (s : AgentState) :
    Z * AgentState :=
  let cache := upsert server_id (without_server server_id (policies s))
                 ((λ e, (pe_key e, e)) <$> entries) in
  (Z.of_nat (size (slice server_id cache)),
   s <| policies := cache |> <| etag_by_server := <[server_id := etag]> (etag_by_server s) |>).

Definition policy_get (server_id : Z) (policy_key : string) (s : AgentState) : option PolicyEntry :=
  policies s !! (server_id, policy_key).

(** ** [reverse_cache] *)

Definition CACHE_TTL_SECONDS : Z := 300.

Definition apply_full_snapshot (server_id : Z) (entries : list (string * CacheEntry)) (now : Z)
    (s : AgentState) : Z * AgentState :=
  let cache := upsert server_id (without_server server_id (links s)) entries in
  (Z.of_nat (size (slice server_id cache)),
   s <| links := cache |> <| last_full_sync_monotonic := now |>).

Definition apply_incremental (server_id : Z) (entries : list (string * CacheEntry))
    (removed_linux_usernames : list string) (s : AgentState) : Z * AgentState :=
  let cache := foldl (λ c name, delete (server_id, name) c)
                 (upsert server_id (links s) entries) removed_linux_usernames in
  (Z.of_nat (size (slice server_id cache)), s <| links := cache |>).

Definition lookup_user_ids (server_id : Z) (linux_username : string) (s : AgentState) : list Z :=
  match links s !! (server_id, linux_username) with Some e => ce_user_ids e | None => [] end.

Definition lookup_active_reservations (server_id : Z) (linux_username : string) (user_id : Z)
    (s : AgentState) : list ActiveReservation :=
  match links s !! (server_id, linux_username) with
  | Some e => default [] (ce_active_reservations e !! user_id)
  | None => []
  end.

Definition needs_full_sync (now : Z) (s : AgentState) : bool :=
  bool_decide (last_full_sync_monotonic s = 0) ||
  bool_decide (seconds CACHE_TTL_SECONDS < now - last_full_sync_monotonic s).

(** ** [capabilities] *)

Definition is_enabled (key : string) (default_ : bool) (s : AgentState) : bool :=
  default default_ (capability s !! key).

Definition set_enabled (key : string) (enabled : bool) (s : AgentState) : AgentState :=
  s <| capability := <[key := enabled]> (capability s) |>.

(** [backend.capability.sync]: every entry of the push, in order. *)
Definition apply_capabilities (entries : list (string * bool)) (s : AgentState) : AgentState :=
  foldl (λ s e, set_enabled e.1 e.2 s) s entries.

(** ** [grace_tracker] *)

(** [record]: may the caller act? *)
Definition record (k : grace_key) (grace_period_seconds : option Z) (now : Z) (s : AgentState) :
    bool * AgentState :=
  if bool_decide (or0 grace_period_seconds = 0) then (true, s)
  else match pending s !! k with
       | None => (false, s <| pending := <[k := mkPending now now]> (pending s) |>)
       | Some p =>
           (bool_decide (seconds (or0 grace_period_seconds) <= now - first_seen_monotonic p),
            s <| pending := <[k := mkPending (first_seen_monotonic p) now]> (pending s) |>)
       end.

(** [clear]; nothing in the agent calls it. *)
Definition clear (k : grace_key) (s : AgentState) : AgentState :=
  s <| pending := delete k (pending s) |>.

(** ** Lemmas *)

Section caches.
Context {A : Type}.
Implicit Types (c : gmap (Z * string) A).

Lemma lookup_without_server sid c k :
  without_server sid c !! k = if decide (k.1 = sid) then None else c !! k.
Proof.
  unfold without_server. case_decide as Hk.
  - apply map_lookup_filter_None. right. intros x _. simpl. auto.
  - destruct (c !! k) eqn:Hc; [by apply map_lookup_filter_Some_2|].
    apply map_lookup_filter_None. by left.
Qed.

Lemma lookup_upsert sid c entries k :
  upsert sid c entries !! k =
    match (if decide (k.1 = sid) then last (filter (λ e, e.1 = k.2) entries) else None) with
    | Some e => Some e.2
    | None => c !! k
    end.
Proof.
  unfold upsert. induction entries as [|[n v] entries IH] using rev_ind; simpl.
  { by case_decide. }
  rewrite foldl_app. simpl. rewrite lookup_insert, IH, filter_app, filter_cons. simpl.
  destruct k as [sid' n']. simpl. repeat case_decide; simplify_eq/=; try done.
  all: rewrite filter_nil; rewrite ?last_snoc, ?app_nil_r; done.
Qed.
End caches.

(** A policy push replaces the server's policies and nothing else. *)
Lemma apply_sync_get sid entries etag s sid' key :
  NoDup (pe_key <$> entries) →
  (∀ e, policy_get sid' key (apply_sync sid entries etag s).2 = Some e ↔
     if decide (sid' = sid) then e ∈ entries ∧ pe_key e = key
     else policy_get sid' key s = Some e).
Proof.
  intros Hnd e. unfold policy_get, apply_sync. simpl. rewrite lookup_upsert, lookup_without_server.
  simpl. case_decide as Hs; simpl; [|done]. subst sid'.
  assert (Hf : filter (λ e : string * PolicyEntry, e.1 = key) ((λ e, (pe_key e, e)) <$> entries) =
               (λ e, (pe_key e, e)) <$> filter (λ e, pe_key e = key) entries).
  { clear Hnd. induction entries as [|x l IH]; [done|].
    rewrite fmap_cons, !filter_cons. simpl. rewrite IH. by case_decide. }
  rewrite Hf. rewrite fmap_last.
  destruct (last (filter (λ e, pe_key e = key) entries)) as [x|] eqn:Hl; simpl.
  - apply last_Some in Hl as (l' & Hl).
    assert (Hx : x ∈ filter (λ e, pe_key e = key) entries) by (rewrite Hl; set_solver).
    apply list_elem_of_filter in Hx as [Hk Hx]. split; [by intros [= <-]|].
    intros [He Hke]. f_equal.
    apply list_elem_of_lookup in Hx as [i Hi], He as [j Hj].
    assert (i = j) as ->; [|congruence].
    eapply NoDup_lookup; [exact Hnd|rewrite list_lookup_fmap, Hi; reflexivity|].
    rewrite list_lookup_fmap, Hj. simpl. congruence.
  - apply last_None in Hl. split; [done|]. intros [He Hke].
    assert (H : e ∈ filter (λ e, pe_key e = key) entries) by (by apply list_elem_of_filter).
    rewrite Hl in H. by apply elem_of_nil in H.
Qed.

(** A grace period that is set lets nobody act on the first sighting, and
    afterwards exactly from the end of the period on. *)
Lemma record_spec k g now s :
  0 < g →
  record k (Some g) now s =
    match pending s !! k with
    | None => (false, s <| pending := <[k := mkPending now now]> (pending s) |>)
    | Some p => (bool_decide (first_seen_monotonic p + seconds g <= now),
                 s <| pending := <[k := mkPending (first_seen_monotonic p) now]> (pending s) |>)
    end.
Proof.
  intros Hg. unfold record. simpl or0. rewrite bool_decide_eq_false_2 by lia.
  destruct (pending s !! k); [|done]. f_equal. apply bool_decide_ext. lia.
Qed.
