(* ===== verification/ProcessKiller.v ===== *)
(** Killing a GPU process ([src/agent/corelab_agent/process_killer.py]).

    What the operating system answers is an argument: [os.kill], the [sudo]
    fall-back and the liveness probe. *)

From S2P Require Import Prelude AgentCaches.
From Stdlib Require Import Ascii.

Inductive Signal : Type := SIGTERM | SIGKILL.
#[export] Instance Signal_eq_dec : EqDecision Signal.
Proof. solve_decision. Defined.

Definition _KILL_CAPABILITY : string := "gpu.kill_process".

Record KillResult : Type := mkKillResult {
  kr_ok : bool ;
  kr_killed : bool ;
  kr_error : option string ;
  kr_mock_warning : option string }.

Record _SignalAttempt : Type := mkAttempt {
  sa_ok : bool ;
  sa_missing : bool ;
  sa_used_sudo : bool ;
  sa_error : option string }.

(** [os.kill(pid, sig)] *)
Inductive os_answer : Type := delivered | ProcessLookupError | PermissionError (message : string).

(** [subprocess.run([sudo, "-n", kill, ...])]: the binaries are looked up
    first; [output] is [stderr or stdout], stripped. *)
Inductive sudo_answer : Type :=
| sudo_not_found
| kill_binary_not_found
| exited (returncode : Z) (output : string).

Record host : Type := mkHost {
  os_kill : Z → Signal → os_answer ;
  sudo_kill : Z → Signal → sudo_answer ;
  probe : Z → os_answer }.       (* [os.kill(pid, 0)], after the wait *)

(** ** Text *)

(** [c.lower()] on ASCII. *)
Definition lower_ascii (c : ascii) : ascii :=
  let n := N_of_ascii c in
  if (65 <=? n)%N && (n <=? 90)%N then ascii_of_N (n + 32) else c.

Fixpoint lower (s : string) : string :=
  match s with EmptyString => EmptyString | String c s => String (lower_ascii c) (lower s) end.

(** [needle in s] *)
Definition contains (needle s : string) : bool := is_some (String.index 0 needle s).

Definition _looks_missing (message : option string) : bool :=
  str_truthy message &&
  (contains "no such process" (lower (default ""%string message)) ||
   contains "not found" (lower (default ""%string message))).

Definition str_or (a b : string) : string := if bool_decide (a = ""%string) then b else a.

(** ** Signals *)

Definition _sudo_signal (h : host) (pid : Z) (sig : Signal) : _SignalAttempt :=
  match sudo_kill h pid sig with
  | sudo_not_found => mkAttempt false false false (Some "sudo not found"%string)
  | kill_binary_not_found => mkAttempt false false false (Some "kill binary not found"%string)
  | exited returncode output =>
      if bool_decide (returncode = 0) then mkAttempt true false true None
      else
        let error := str_or output ("sudo kill exited " +:+ pretty returncode)%string in
        if _looks_missing (Some error) then mkAttempt true true true (Some error)
        else mkAttempt false false true (Some error)
  end.

Definition _send_signal (h : host) (pid : Z) (sig : Signal) : _SignalAttempt :=
  match os_kill h pid sig with
  | delivered => mkAttempt true false false None
  | ProcessLookupError => mkAttempt true true false None
  | PermissionError message =>
      let sudo_attempt := _sudo_signal h pid sig in
      if sa_ok sudo_attempt then sudo_attempt
      else
        let error := if str_truthy (sa_error sudo_attempt)
                     then default ""%string (sa_error sudo_attempt) else message in
        mkAttempt false false (sa_used_sudo sudo_attempt)
          (Some ("permission denied; sudo fallback failed: " +:+ error)%string)
  end.

Definition _alive (h : host) (pid : Z) : bool :=
  match probe h pid with ProcessLookupError => false | _ => true end.

Definition opt_text (o : option string) : string := default "None"%string o.

(** [kill_pid]: the result and the signals it sent, in order. *)
Definition kill_pid (h : host) (mock_mode : bool) (pid : Z) (s : AgentState) :
    KillResult * list (Z * Signal) :=
  if negb (is_enabled _KILL_CAPABILITY false s)
  then (mkKillResult false false (Some "gpu.kill_process capability is disabled"%string) None, [])
  else if mock_mode
  then (mkKillResult true true None (Some "MOCK-MAC-NO-KILL: no process was signalled"%string), [])
  else
    let term := _send_signal h pid SIGTERM in
    if sa_missing term
    then (mkKillResult true false (Some "process not found (already exited)"%string) None,
          [(pid, SIGTERM)])
    else if negb (sa_ok term)
    then (mkKillResult false false
            (Some ("permission denied signalling pid " +:+ pretty pid +:+ ": " +:+
                   opt_text (sa_error term))%string) None, [(pid, SIGTERM)])
    else if _alive h pid
    then
      let kill := _send_signal h pid SIGKILL in
      if negb (sa_ok kill) && negb (sa_missing kill)
      then (mkKillResult false false
              (Some ("SIGKILL permission denied for pid " +:+ pretty pid +:+ ": " +:+
                     opt_text (sa_error kill))%string) None, [(pid, SIGTERM); (pid, SIGKILL)])
      else (mkKillResult true true None None, [(pid, SIGTERM); (pid, SIGKILL)])
    else (mkKillResult true true None None, [(pid, SIGTERM)]).

(** [WsClient.kill_process_for_policy] *)
Definition kill_process_for_policy (h : host) (mock_mode : bool) (pid : Z) (s : AgentState) :
    bool * list (Z * Signal) :=
  let '(result, signals) := kill_pid h mock_mode pid s in
  (kr_ok result && kr_killed result, signals).

(** ** Properties *)

(** Without the capability, and in mock mode, nothing is ever signalled. *)
Lemma kill_pid_gated h mock pid s :
  is_enabled _KILL_CAPABILITY false s = false ∨ mock = true → (kill_pid h mock pid s).2 = [].
Proof.
  unfold kill_pid. intros [->| ->]; simpl; [done|]. by destruct (negb _).
Qed.

(** Only the asked process is signalled, SIGTERM first. *)
Lemma kill_pid_signals h mock pid s :
  (kill_pid h mock pid s).2 ∈ [[]; [(pid, SIGTERM)]; [(pid, SIGTERM); (pid, SIGKILL)]].
Proof.
  unfold kill_pid. repeat case_match; simpl; set_solver.
Qed.

(** a kill that reports success really ended the process, went through
    SIGTERM and escalated exactly when the process was still alive after the
    wait; with the capability off nothing is signalled and the answer says so,
    whatever the host would answer; a process that is already gone is
    reported as not killed. *)
Theorem kill_pid_spec h mock pid s :
  let '(r, signals) := kill_pid h mock pid s in
  (is_enabled _KILL_CAPABILITY false s = false → kr_ok r = false ∧ signals = []) ∧
  (is_enabled _KILL_CAPABILITY false s = true → mock = true →
     kr_ok r = true ∧ is_Some (kr_mock_warning r) ∧ signals = []) ∧
  (is_enabled _KILL_CAPABILITY false s = true → mock = false →
     kr_mock_warning r = None ∧
     head signals = Some (pid, SIGTERM) ∧
     (kr_killed r = true ↔
        sa_ok (_send_signal h pid SIGTERM) = true ∧ sa_missing (_send_signal h pid SIGTERM) = false ∧
        (_alive h pid = true → sa_ok (_send_signal h pid SIGKILL) = true)) ∧
     ((pid, SIGKILL) ∈ signals ↔
        sa_ok (_send_signal h pid SIGTERM) = true ∧ sa_missing (_send_signal h pid SIGTERM) = false ∧
        _alive h pid = true)).
Proof.
  unfold kill_pid. destruct (is_enabled _ _ _); simpl; [|naive_solver].
  destruct mock; simpl; [naive_solver|].
  assert (Hm : sa_missing (_send_signal h pid SIGKILL) = true → sa_ok (_send_signal h pid SIGKILL) = true).
  { unfold _send_signal, _sudo_signal. repeat (case_match; simpl; try done). }
  destruct (sa_missing (_send_signal h pid SIGTERM)) eqn:E1; simpl; [set_solver|].
  destruct (sa_ok (_send_signal h pid SIGTERM)) eqn:E2; simpl; [|set_solver].
  destruct (_alive h pid) eqn:E3; simpl; [|set_solver].
  destruct (sa_ok (_send_signal h pid SIGKILL)) eqn:E4; simpl; [set_solver|].
  destruct (sa_missing (_send_signal h pid SIGKILL)) eqn:E5; [by specialize (Hm eq_refl)|]. simpl.
  set_solver.
Qed.

(** ** Witness *)

(** A process of another user that ignores SIGTERM: both signals go through
    [sudo]. *)
Definition stubborn_host : host :=
  mkHost (λ _ _, PermissionError "Operation not permitted")
         (λ _ _, exited 0 "") (λ _, PermissionError "Operation not permitted").

Example stubborn_kill :
  kill_pid stubborn_host false 4242 (set_enabled _KILL_CAPABILITY true fresh_agent) =
    (mkKillResult true true None None, [(4242, SIGTERM); (4242, SIGKILL)]).
Proof. reflexivity. Qed.

Example gone_by_sudo :
  _send_signal (mkHost (λ _ _, PermissionError "no") (λ _ _, exited 1 "kill: (7): No such process")
    (λ _, delivered)) 7 SIGTERM = mkAttempt true true true (Some "kill: (7): No such process"%string).
Proof. reflexivity. Qed.
