(* ===== verification/AuthorizedKeys.v ===== *)
(** The agent's editor of [~/.ssh/authorized_keys]
    ([src/agent/corelab_agent/authorized_keys.py]).

    Text is a list of code points.  [body_digest] is the unpadded base64 of
    the SHA-256 of a base64-decoded key body, [None] when the body does not
    decode; the commands run under [sudo] are given to [runner], which also
    carries the host's state. *)

From S2P Require Import Prelude PyText Schema AgentCaches.

Definition PUSH_CAPABILITY_KEY : string := "ssh.push_authorized_key".
Definition REVOKE_CAPABILITY_KEY : string := "ssh.remove_authorized_key".
Definition MOCK_PATH : pystr := u "/dev/null/mock-mac".

Record CommandResult : Type := mkCommandResult {
  returncode : Z ;
  stdout : pystr ;
  stderr : pystr }.

(** [linux_users.UserInfo], less the shell. *)
Record UserInfo : Type := mkUserInfo {
  ui_gid : Z ;
  home_directory : pystr }.

Inductive keys_error : Type :=
| CapabilityDisabledError
| InvalidUsernameError
| InvalidPublicKeyError
| UserNotFoundError
| UnsupportedHomeDirectoryError
| AuthorizedKeysError (detail : pystr).
#[export] Instance keys_error_eq_dec : EqDecision keys_error.
Proof. solve_decision. Defined.

Record PushResult : Type := mkPushResult {
  installed_path : pystr ;
  fingerprint : pystr ;
  push_mocked : bool }.

Record RevokeResult : Type := mkRevokeResult {
  revoked : bool ;
  revoke_mocked : bool }.

Record ReadKeyEntry : Type := mkReadKeyEntry {
  line_number : Z ;
  fingerprint_sha256 : pystr ;
  key_type : pystr ;
  comment : option pystr }.

Record ReadResult : Type := mkReadResult {
  authorized_keys_path : pystr ;
  line_count : Z ;
  invalid_line_count : Z ;
  keys : list ReadKeyEntry ;
  read_mocked : bool }.

(** ** Validation *)

Definition in_range (lo hi c : N) : bool := (lo <=? c)%N && (c <=? hi)%N.
Definition lower_letter (c : N) : bool := in_range 97 122 c.
Definition digit (c : N) : bool := in_range 48 57 c.

(** [^[a-z_][a-z0-9_-]{0,31}$], full match. *)
Definition _validate_username (linux_username : pystr) : bool :=
  match linux_username with
  | [] => false
  | c :: rest =>
      (lower_letter c || bool_decide (c = 95%N)) &&
      forallb (λ c, lower_letter c || digit c || bool_decide (c ∈ [95; 45]%N)) rest &&
      bool_decide (length rest <= 31)%nat
  end.

Definition _validate_single_line (value : pystr) : result keys_error pystr :=
  let stripped := strip value in
  if bool_decide (stripped = []) then Raise InvalidPublicKeyError
  else if bool_decide (10 ∈ stripped ∨ 13 ∈ stripped ∨ 0 ∈ stripped)%N then Raise InvalidPublicKeyError
  else Ok stripped.

Definition _is_key_type (part : pystr) : bool :=
  startswith part (u "ssh-") || startswith part (u "ecdsa-") || startswith part (u "sk-") ||
  startswith part (u "rsa-sha2-").

Section digest.
Context (body_digest : pystr → option pystr).

(** The first key type that is followed by a word: the type, the body and
    what comes after. *)
Fixpoint find_key (parts : list pystr) : option (pystr * pystr * list pystr) :=
  match parts with
  | a :: ((b :: rest) as tail) => if _is_key_type a then Some (a, b, rest) else find_key tail
  | _ => None
  end.

Definition _fingerprint_for_pubkey (public_key : pystr) : option pystr :=
  '(_, body, _) ← find_key (split (strip public_key)) ;
  d ← body_digest body ;
  Some (u "SHA256:" ++ d).

Definition _summarize_authorized_key_line (line : pystr) (line_number : Z) : option ReadKeyEntry :=
  '(ty, _, comment_parts) ← find_key (split (strip line)) ;
  fp ← _fingerprint_for_pubkey line ;
  Some (mkReadKeyEntry line_number fp ty
          (match comment_parts with [] => None | _ => Some (join (u " ") comment_parts) end)).

(** A line that is blank or a comment. *)
Definition skipped (stripped : pystr) : bool :=
  bool_decide (stripped = []) || startswith stripped (u "#").

Fixpoint summarize (line_number : Z) (lines : list pystr) : list ReadKeyEntry * Z * Z :=
  match lines with
  | [] => ([], 0, 0)
  | raw_line :: lines =>
      let '(keys, count, invalid) := summarize (line_number + 1) lines in
      let stripped := strip raw_line in
      if skipped stripped then (keys, count, invalid)
      else match _summarize_authorized_key_line stripped line_number with
           | Some k => (k :: keys, count + 1, invalid)
           | None => (keys, count + 1, invalid + 1)
           end
  end.

Definition _summarize_authorized_keys (text : pystr) : list ReadKeyEntry * Z * Z :=
  summarize 1 (splitlines text).

Definition _authorized_key_line (public_key label : pystr) : result keys_error pystr :=
  match _validate_single_line public_key, _validate_single_line label with
  | Ok key, Ok comment =>
      match _fingerprint_for_pubkey key with
      | Some _ => Ok (key ++ u " " ++ comment)
      | None => Raise InvalidPublicKeyError
      end
  | Raise e, _ => Raise e
  | _, Raise e => Raise e
  end.

Definition _join_authorized_key_lines (lines : list pystr) : pystr :=
  match lines with [] => [] | _ => join [10%N] lines ++ [10%N] end.

(** The key a line of the file holds. *)
Definition line_key (line : pystr) : option pystr :=
  let stripped := strip line in
  if skipped stripped then None else _fingerprint_for_pubkey stripped.

Definition _rewrite_authorized_keys_for_push (existing_text line : pystr) : option pystr :=
  let lines := splitlines existing_text in
  target ← _fingerprint_for_pubkey line ;
  Some (_join_authorized_key_lines
          (if existsb (λ l, bool_decide (line_key l = Some target)) lines
           then lines else lines ++ [line])).

(** [kept[-1].lstrip().startswith("# corelab")] *)
Definition is_marker (line : pystr) : bool := startswith (lstrip line) (u "# corelab").

(** [if kept and ...: kept.pop()] *)
Definition pop_marker (kept : list pystr) : list pystr :=
  match last kept with
  | Some l => if is_marker l then removelast kept else kept
  | None => kept
  end.

Definition revoke_line (fp : pystr) (acc : list pystr * bool) (line : pystr) : list pystr * bool :=
  if bool_decide (line_key line = Some fp) then (pop_marker acc.1, true)
  else (acc.1 ++ [line], acc.2).

Definition _rewrite_authorized_keys_for_revoke (existing_text fp : pystr) : pystr * bool :=
  let '(kept, removed) := foldl (revoke_line fp) ([], false) (splitlines existing_text) in
  (_join_authorized_key_lines kept, removed).

(** ** Paths *)

Fixpoint split_on (sep : N) (cur s : pystr) : list pystr :=
  match s with
  | [] => [cur]
  | c :: s => if (c =? sep)%N then cur :: split_on sep [] s else split_on sep (cur ++ [c]) s
  end.

(** [Path(s).parts] after the root, and [str(Path(s))] of an absolute path. *)
Definition path_parts (s : pystr) : list pystr :=
  filter (λ p, p ≠ [] ∧ p ≠ u ".") (split_on 47 [] s).
Definition path_text (s : pystr) : pystr :=
  (if startswith s (u "//") && negb (startswith s (u "///")) then u "//" else u "/") ++
  join (u "/") (path_parts s).

(** [^/home/[A-Za-z0-9._-]+$], full match. *)
Definition home_ok (text : pystr) : bool :=
  startswith text (u "/home/") &&
  match drop 6 text with
  | [] => false
  | name => forallb (λ c, lower_letter c || in_range 65 90 c || digit c ||
                          bool_decide (c ∈ [46; 95; 45]%N)) name
  end.

Definition _authorized_key_paths (info : UserInfo) : result keys_error (pystr * pystr) :=
  let home := home_directory info in
  let home_text := path_text home in
  if negb (startswith home (u "/")) || bool_decide (u ".." ∈ path_parts home) || negb (home_ok home_text)
  then Raise UnsupportedHomeDirectoryError
  else Ok (home_text ++ u "/.ssh", home_text ++ u "/.ssh/authorized_keys").

(** ** Commands *)

Inductive command : Type :=
| ensure_dir (dir owner group : pystr)           (* sudo -n install -m 700 ... -d dir *)
| cat (path : pystr)                             (* sudo -n cat path *)
| install (content path owner group : pystr).    (* sudo -n install -m 600 ... tmp path *)

Definition _missing_file (r : CommandResult) : bool :=
  contains (lower (stderr r ++ [10%N] ++ stdout r)) (u "no such file").

Definition or_text (a b : pystr) : pystr := match a with [] => b | _ => a end.

Definition _command_error (operation : string) (r : CommandResult) : keys_error :=
  AuthorizedKeysError (or_text (strip (stderr r)) (or_text (strip (stdout r)) (u operation ++ u "_failed"))).

Section host.
Context {S : Type} (runner : command → S → CommandResult * S).

Abbreviation P := (prog S keys_error).

Definition _run (c : command) : P CommandResult := λ s, let '(r, s) := runner c s in (Ok r, s).

Definition of_result {A} (r : result keys_error A) : P A := λ s, (r, s).

Definition _ensure_ssh_dir (ssh_dir linux_username group_name : pystr) : P unit :=
  r ← _run (ensure_dir ssh_dir linux_username group_name) ;
  raise_if (negb (bool_decide (returncode r = 0))) (_command_error "authorized_keys_ensure_dir" r).

Definition _read_authorized_keys (path : pystr) : P pystr :=
  r ← _run (cat path) ;
  if bool_decide (returncode r = 0) then mret (stdout r)
  else if _missing_file r then mret []
  else raise (_command_error "authorized_keys_read" r).

Definition _install_authorized_keys (content path linux_username group_name : pystr) : P unit :=
  r ← _run (install content path linux_username group_name) ;
  raise_if (negb (bool_decide (returncode r = 0))) (_command_error "authorized_keys_install" r).

(** ** Operations *)

Context (lookup_user : pystr → option UserInfo) (group_name_lookup : Z → pystr).

Definition require_enabled (key : string) (agent : AgentState) : P unit :=
  raise_if (negb (is_enabled key true agent)) CapabilityDisabledError.

Definition push (linux_username public_key label : pystr) (mock_mode : bool) (agent : AgentState) :
    P PushResult :=
  require_enabled PUSH_CAPABILITY_KEY agent ;;
  raise_if (negb (_validate_username linux_username)) InvalidUsernameError ;;
  fp ← some_or_raise (_fingerprint_for_pubkey public_key) InvalidPublicKeyError ;
  line ← of_result (_authorized_key_line public_key label) ;
  if mock_mode then mret (mkPushResult MOCK_PATH fp true)
  else
    user_info ← some_or_raise (lookup_user linux_username) UserNotFoundError ;
    let group_name := group_name_lookup (ui_gid user_info) in
    '(ssh_dir, path) ← of_result (_authorized_key_paths user_info) ;
    _ensure_ssh_dir ssh_dir linux_username group_name ;;
    existing ← _read_authorized_keys path ;
    desired ← some_or_raise (_rewrite_authorized_keys_for_push existing line) InvalidPublicKeyError ;
    when (negb (bool_decide (desired = existing)))
      (_install_authorized_keys desired path linux_username group_name) ;;
    mret (mkPushResult path fp false).

Definition revoke (linux_username fp : pystr) (mock_mode : bool) (agent : AgentState) : P RevokeResult :=
  require_enabled REVOKE_CAPABILITY_KEY agent ;;
  raise_if (negb (_validate_username linux_username)) InvalidUsernameError ;;
  if mock_mode then mret (mkRevokeResult true true)
  else
    match lookup_user linux_username with
    | None => mret (mkRevokeResult false false)
    | Some user_info =>
        let group_name := group_name_lookup (ui_gid user_info) in
        '(_, path) ← of_result (_authorized_key_paths user_info) ;
        existing ← _read_authorized_keys path ;
        let '(desired, removed) := _rewrite_authorized_keys_for_revoke existing fp in
        when (removed && negb (bool_decide (desired = existing)))
          (_install_authorized_keys desired path linux_username group_name) ;;
        mret (mkRevokeResult removed false)
    end.

Definition read (linux_username : pystr) (mock_mode : bool) : P ReadResult :=
  raise_if (negb (_validate_username linux_username)) InvalidUsernameError ;;
  if mock_mode then mret (mkReadResult MOCK_PATH 0 0 [] true)
  else
    user_info ← some_or_raise (lookup_user linux_username) UserNotFoundError ;
    '(_, path) ← of_result (_authorized_key_paths user_info) ;
    existing ← _read_authorized_keys path ;
    let '(keys, count, invalid) := _summarize_authorized_keys existing in
    mret (mkReadResult path count invalid keys false).
End host.
End digest.

(** ** Lemmas *)

Lemma startswith_cons s p c : startswith s (c :: p) = true → ∃ s', s = c :: s'.
Proof. destruct s as [|d s]; simpl; [done|]. case_bool_decide; [subst; eauto|done]. Qed.

Lemma join_unbroken ls : Forall unbroken ls → splitlines (_join_authorized_key_lines ls) = ls.
Proof.
  intros H. destruct ls as [|l ls]; [done|]. unfold _join_authorized_key_lines.
  rewrite join_lines by done. by apply splitlines_lines.
Qed.

Section text.
Context (body_digest : pystr → option pystr).

(** The keys of a file, in order. *)
Definition file_keys (text : pystr) : list pystr := omap (line_key body_digest) (splitlines text).

Lemma marker_key l : is_marker l = true → line_key body_digest l = None.
Proof.
  unfold is_marker, line_key, skipped. intros H.
  destruct (lstrip l) as [|c s'] eqn:Hl; [done|].
  apply startswith_cons in H as [s1 [= -> ->]].
  destruct (strip_head _ _ _ Hl) as [s'' ->]. simpl. by rewrite startswith_nil.
Qed.

Lemma fingerprint_split a b :
  split a = split b → _fingerprint_for_pubkey body_digest a = _fingerprint_for_pubkey body_digest b.
Proof. intros H. unfold _fingerprint_for_pubkey. by rewrite !split_strip, H. Qed.

Lemma line_key_fingerprint l fp :
  line_key body_digest l = Some fp → _fingerprint_for_pubkey body_digest l = Some fp.
Proof.
  unfold line_key. destruct (skipped _); [done|]. intros <-. apply fingerprint_split.
  by rewrite split_strip.
Qed.

(** *** Push *)

Lemma existsb_key ls fp :
  existsb (λ l, bool_decide (line_key body_digest l = Some fp)) ls = true ↔
  fp ∈ omap (line_key body_digest) ls.
Proof.
  rewrite existsb_exists, list_elem_of_omap. split; intros (l & Hl & Hk); exists l.
  - split; [by apply list_elem_of_In|]. by apply bool_decide_eq_true in Hk.
  - split; [by apply list_elem_of_In|]. by apply bool_decide_eq_true.
Qed.

Lemma push_lines t line fp :
  line_key body_digest line = Some fp → unbroken line →
  ∃ t', _rewrite_authorized_keys_for_push body_digest t line = Some t' ∧
    splitlines t' = if decide (fp ∈ file_keys t) then splitlines t else splitlines t ++ [line].
Proof.
  intros Hk Hu. unfold _rewrite_authorized_keys_for_push. rewrite (line_key_fingerprint _ _ Hk).
  eexists. split; [reflexivity|].
  pose proof (splitlines_unbroken t) as Ht. unfold file_keys. case_decide as Hin.
  - rewrite (proj2 (existsb_key _ _) Hin). by apply join_unbroken.
  - destruct (existsb _ _) eqn:He; [by apply existsb_key in He|].
    apply join_unbroken, Forall_app. split; [done|]. by apply Forall_singleton.
Qed.

Lemma push_keys t line fp t' :
  line_key body_digest line = Some fp → unbroken line →
  _rewrite_authorized_keys_for_push body_digest t line = Some t' →
  file_keys t' = if decide (fp ∈ file_keys t) then file_keys t else file_keys t ++ [fp].
Proof.
  intros Hk Hu Hp. destruct (push_lines t line fp Hk Hu) as (t2 & Hp2 & Hl).
  rewrite Hp2 in Hp. injection Hp as ->. unfold file_keys at 1. rewrite Hl.
  case_decide; [done|]. rewrite omap_app. simpl. by rewrite Hk.
Qed.

(** *** Revoke *)

(** The lines that are neither the revoked key nor a platform's marker. *)
Definition bystander (fp line : pystr) : bool :=
  negb (bool_decide (line_key body_digest line = Some fp)) && negb (is_marker line).

Lemma pop_marker_omap kept :
  omap (line_key body_digest) (pop_marker kept) = omap (line_key body_digest) kept.
Proof.
  unfold pop_marker. destruct (last kept) as [l|] eqn:Hl; [|done].
  destruct (is_marker l) eqn:Hm; [|done]. apply last_Some in Hl as [k ->].
  rewrite removelast_last, omap_app. simpl. by rewrite marker_key, app_nil_r.
Qed.

Lemma pop_marker_filter fp kept :
  filter (λ l, bystander fp l = true) (pop_marker kept) = filter (λ l, bystander fp l = true) kept.
Proof.
  unfold pop_marker. destruct (last kept) as [l|] eqn:Hl; [|done].
  destruct (is_marker l) eqn:Hm; [|done]. apply last_Some in Hl as [k ->].
  rewrite removelast_last, filter_app, filter_cons, decide_False; [by rewrite app_nil_r|].
  unfold bystander. rewrite Hm. by rewrite andb_false_r.
Qed.

Lemma pop_marker_sublist kept : sublist (pop_marker kept) kept.
Proof.
  unfold pop_marker. destruct (last kept) as [l|] eqn:Hl; [|done].
  destruct (is_marker l); [|done]. apply last_Some in Hl as [k ->].
  rewrite removelast_last. by apply sublist_inserts_r.
Qed.

Record revoked_lines (fp : pystr) (ls kept : list pystr) (removed : bool) : Prop := {
  rl_keys : omap (line_key body_digest) kept =
              filter (λ k, k ≠ fp) (omap (line_key body_digest) ls) ;
  rl_others : filter (λ l, bystander fp l = true) kept = filter (λ l, bystander fp l = true) ls ;
  rl_sub : sublist kept ls ;
  rl_removed : removed = bool_decide (fp ∈ omap (line_key body_digest) ls) ;
  rl_same : removed = false → kept = ls }.

Lemma revoke_fold fp ls :
  let '(kept, removed) := foldl (revoke_line body_digest fp) ([], false) ls in
  revoked_lines fp ls kept removed.
Proof.
  induction ls as [|l ls IH] using rev_ind; [done|].
  rewrite foldl_app. simpl. destruct (foldl _ _ ls) as [kept removed]. destruct IH as [H1 H2 H3 H4 H5].
  unfold revoke_line. cbn [fst snd].
  destruct (bool_decide_reflect (line_key body_digest l = Some fp)) as [Hk|Hk].
  - split.
    + rewrite pop_marker_omap, H1, omap_app. simpl. rewrite Hk, filter_app, filter_cons.
      rewrite decide_False by (intros []; done). by rewrite app_nil_r.
    + rewrite pop_marker_filter, H2, filter_app, filter_cons.
      rewrite decide_False; [by rewrite app_nil_r|]. unfold bystander. by rewrite bool_decide_eq_true_2.
    + etrans; [apply pop_marker_sublist|]. etrans; [exact H3|]. by apply sublist_inserts_r.
    + rewrite omap_app. simpl. rewrite Hk. symmetry. apply bool_decide_eq_true_2.
      apply elem_of_app. right. by left.
    + done.
  - split.
    + rewrite !omap_app, filter_app, H1. simpl. destruct (line_key body_digest l) as [k|]; [|done].
      rewrite filter_cons, decide_True; [done|congruence].
    + by rewrite !filter_app, H2.
    + by apply sublist_app.
    + rewrite H4, omap_app. apply bool_decide_ext. rewrite elem_of_app. simpl.
      destruct (line_key body_digest l) as [k|]; [|set_solver]. split; [auto|].
      intros [?|Hf%list_elem_of_singleton]; [done|]. subst. by destruct Hk.
    + intros Hr. by rewrite H5.
Qed.

Lemma revoke_unbroken fp t kept removed :
  revoked_lines fp (splitlines t) kept removed → Forall unbroken kept.
Proof.
  intros [_ _ Hs _ _]. apply Forall_forall. intros l Hl.
  eapply (Forall_forall unbroken); [apply (splitlines_unbroken t)|]. by eapply elem_of_sublist.
Qed.

Lemma revoke_text t fp :
  let '(t', removed) := _rewrite_authorized_keys_for_revoke body_digest t fp in
  revoked_lines fp (splitlines t) (splitlines t') removed.
Proof.
  unfold _rewrite_authorized_keys_for_revoke. pose proof (revoke_fold fp (splitlines t)) as H.
  destruct (foldl _ _ _) as [kept removed]. rewrite join_unbroken; [done|]. by eapply revoke_unbroken.
Qed.

(** Revoking a key that was just added at the end. *)
Lemma revoke_added t line fp :
  line_key body_digest line = Some fp → fp ∉ file_keys t →
  (∀ l, last (splitlines t) = Some l → is_marker l = false) →
  foldl (revoke_line body_digest fp) ([], false) (splitlines t ++ [line]) = (splitlines t, true).
Proof.
  intros Hk Hnew Hm. rewrite foldl_app. pose proof (revoke_fold fp (splitlines t)) as H.
  destruct (foldl _ _ (splitlines t)) as [kept removed]. destruct H as [_ _ _ H4 H5].
  simpl. unfold revoke_line. rewrite bool_decide_eq_true_2 by done. cbn [fst].
  rewrite H5; [|rewrite H4; by apply bool_decide_eq_false_2].
  unfold pop_marker. destruct (last (splitlines t)) as [l|] eqn:Hl; [|done]. by rewrite (Hm l).
Qed.

(** *** Reading *)

Lemma summarize_key line n :
  skipped (strip line) = false →
  fingerprint_sha256 <$> _summarize_authorized_key_line body_digest (strip line) n = line_key body_digest line.
Proof.
  intros Hs. unfold line_key, _summarize_authorized_key_line. rewrite Hs.
  unfold _fingerprint_for_pubkey.
  destruct (find_key (split (strip (strip line)))) as [[[ty body] rest]|]; [|done].
  simpl. by destruct (body_digest body).
Qed.

Lemma summarize_spec n ls :
  let '(ks, count, invalid) := summarize body_digest n ls in
  fingerprint_sha256 <$> ks = omap (line_key body_digest) ls ∧
  count = Z.of_nat (length ks) + invalid ∧
  count = Z.of_nat (length (filter (λ l, skipped (strip l) = false) ls)).
Proof.
  revert n. induction ls as [|l ls IH]; intros n; [done|]. simpl. specialize (IH (n + 1)).
  destruct (summarize body_digest (n + 1) ls) as [[ks count] invalid]. destruct IH as (H1 & H2 & H3).
  destruct (skipped (strip l)) eqn:Hs.
  - rewrite filter_cons, decide_False by congruence. split_and!; [|done..].
    unfold line_key at 1. by rewrite Hs, H1.
  - pose proof (summarize_key l n Hs) as Hk. rewrite filter_cons, decide_True by done.
    destruct (_summarize_authorized_key_line body_digest (strip l) n) as [k|]; simpl in Hk |- *;
      rewrite <- Hk; split_and!; simpl; try lia; [by f_equal|exact H1].
Qed.
End text.

(** ** A host that does what it is told *)

(** The files below the homes, by path. *)
Abbreviation Files := (gmap pystr pystr).

Definition no_such_file (path : pystr) : pystr :=
  u "cat: " ++ path ++ u ": No such file or directory".

Definition obey (c : command) (files : Files) : CommandResult * Files :=
  match c with
  | ensure_dir _ _ _ => (mkCommandResult 0 [] [], files)
  | cat path =>
      match files !! path with
      | Some text => (mkCommandResult 0 text [], files)
      | None => (mkCommandResult 1 [] (no_such_file path), files)
      end
  | install content path _ _ => (mkCommandResult 0 [] [], <[path := content]> files)
  end.

Definition text_at (path : pystr) (files : Files) : pystr := default [] (files !! path).

(** A key that can be added: one line for every reader of the file, and not
    a comment. *)
Definition clean_key (public_key label : pystr) : Prop :=
  unbroken (strip public_key) ∧ unbroken (strip label) ∧ startswith (strip public_key) (u "#") = false.

Lemma validate_single_line_ok value stripped :
  _validate_single_line value = Ok stripped → stripped = strip value ∧ stripped ≠ [].
Proof. unfold _validate_single_line. repeat case_bool_decide; try done. by intros [= <-]. Qed.

Section managed.
Context (body_digest : pystr → option pystr).

Lemma find_key_app l1 l2 a b rest :
  find_key l1 = Some (a, b, rest) → find_key (l1 ++ l2) = Some (a, b, rest ++ l2).
Proof using Type.
  induction l1 as [|x l1 IH]; [done|]. destruct l1 as [|y l1]; [done|].
  change (find_key ((x :: y :: l1) ++ l2)) with
    (if _is_key_type x then Some (x, y, l1 ++ l2) else find_key ((y :: l1) ++ l2)).
  change (find_key (x :: y :: l1)) with (if _is_key_type x then Some (x, y, l1) else find_key (y :: l1)).
  destruct (_is_key_type x); [by intros [= <- <- <-]|exact IH].
Qed.

Lemma authorized_key_line_key pk label line :
  _authorized_key_line body_digest pk label = Ok line → clean_key pk label →
  line_key body_digest line = _fingerprint_for_pubkey body_digest pk ∧ unbroken line.
Proof using Type.
  unfold _authorized_key_line. intros H (Hu1 & Hu2 & Hc).
  destruct (_validate_single_line pk) as [key|] eqn:Hk; [|done].
  destruct (_validate_single_line label) as [com|] eqn:Hl; [|done].
  apply validate_single_line_ok in Hk as [-> Hne], Hl as [-> _].
  destruct (_fingerprint_for_pubkey body_digest (strip pk)) as [fp|] eqn:Hf; [|done].
  assert (line = strip pk ++ u " " ++ strip label) as -> by by injection H.
  split.
  2:{ apply Forall_app. split; [done|]. by apply Forall_cons. }
  assert (Hpk : _fingerprint_for_pubkey body_digest pk = Some fp).
  { rewrite <- Hf. apply fingerprint_split. by rewrite split_strip. }
  rewrite Hpk. unfold line_key. cbv zeta.
  destruct (strip_cons pk Hne) as (c & s & Hs & Hsp).
  assert (Hskip : skipped (strip (strip pk ++ u " " ++ strip label)) = false).
  { assert (Hls : lstrip (strip pk ++ u " " ++ strip label) = c :: (s ++ u " " ++ strip label)).
    { rewrite Hs. simpl. by rewrite Hsp. }
    destruct (strip_head _ _ _ Hls) as [s'' ->]. unfold skipped. rewrite bool_decide_eq_false_2 by done.
    rewrite Hs in Hc. simpl in Hc |- *. rewrite startswith_nil, andb_true_r in Hc |- *. exact Hc. }
  rewrite Hskip. unfold _fingerprint_for_pubkey in Hf |- *. rewrite !split_strip in Hf |- *.
  change (u " " ++ strip label) with (32%N :: strip label).
  rewrite split_app by done. rewrite !split_strip.
  destruct (find_key (split pk)) as [[[ty body] rest]|] eqn:Hfk; [|done].
  rewrite (find_key_app _ _ _ _ _ Hfk). exact Hf.
Qed.

Context (lookup_user : pystr → option UserInfo) (group_name_lookup : Z → pystr).
Context (agent : AgentState).

Lemma missing_file path : _missing_file (mkCommandResult 1 [] (no_such_file path)) = true.
Proof using Type.
  unfold _missing_file, no_such_file. cbn [stderr stdout]. rewrite app_nil_r, !lower_app, <- !app_assoc.
  apply contains_app, contains_app. done.
Qed.

Lemma read_obey path files :
  _read_authorized_keys obey path files = (Ok (text_at path files), files).
Proof using Type.
  unfold _read_authorized_keys, _run, text_at, mbind, prog_bind. cbn [obey].
  destruct (files !! path) as [t|]; [done|]. cbn [returncode]. rewrite bool_decide_eq_false_2 by done.
  by rewrite missing_file.
Qed.

Lemma install_obey content path name group files :
  _install_authorized_keys obey content path name group files = (Ok tt, <[path := content]> files).
Proof using Type. done. Qed.

(** What a push decides before it touches the host: the file, the line and
    its key. *)
Definition push_plan (linux_username public_key label : pystr) :
    result keys_error (pystr * pystr * pystr) :=
  if negb (is_enabled PUSH_CAPABILITY_KEY true agent) then Raise CapabilityDisabledError
  else if negb (_validate_username linux_username) then Raise InvalidUsernameError
  else match _fingerprint_for_pubkey body_digest public_key with
       | None => Raise InvalidPublicKeyError
       | Some fp =>
           match _authorized_key_line body_digest public_key label with
           | Raise e => Raise e
           | Ok line =>
               match lookup_user linux_username with
               | None => Raise UserNotFoundError
               | Some info =>
                   match _authorized_key_paths info with
                   | Raise e => Raise e
                   | Ok (_, path) => Ok (path, line, fp)
                   end
               end
           end
       end.

Lemma push_obey name pk label files :
  push body_digest obey lookup_user group_name_lookup name pk label false agent files =
    match push_plan name pk label with
    | Raise e => (Raise e, files)
    | Ok (path, line, fp) =>
        match _rewrite_authorized_keys_for_push body_digest (text_at path files) line with
        | None => (Raise InvalidPublicKeyError, files)
        | Some desired =>
            (Ok (mkPushResult path fp false),
             if bool_decide (desired = text_at path files) then files else <[path := desired]> files)
        end
    end.
Proof using Type.
  unfold push, push_plan, require_enabled, mbind, prog_bind.
  destruct (is_enabled _ _ _); [|done]. destruct (_validate_username name); [|done]. cbn [negb raise_if].
  unfold skip, mret, prog_ret.
  destruct (_fingerprint_for_pubkey body_digest pk) as [fp|]; [|done]. cbn [some_or_raise].
  unfold of_result. destruct (_authorized_key_line body_digest pk label) as [line|e]; [|done].
  destruct (lookup_user name) as [info|]; [|done]. cbn [some_or_raise].
  unfold mret, prog_ret. destruct (_authorized_key_paths info) as [[dir path]|e]; [|done].
  change (_ensure_ssh_dir obey dir name _ files) with (@Ok keys_error unit tt, files). cbn iota beta.
  rewrite read_obey. destruct (_rewrite_authorized_keys_for_push _ _ _) as [d|]; [|done].
  cbn [some_or_raise]. unfold mret, prog_ret. destruct (bool_decide (d = text_at path files)); done.
Qed.

Lemma push_plan_line name pk label path line fp :
  push_plan name pk label = Ok (path, line, fp) → clean_key pk label →
  line_key body_digest line = Some fp ∧ unbroken line.
Proof using Type.
  unfold push_plan. intros H Hc. destruct (negb _); [done|]. destruct (negb _); [done|].
  destruct (_fingerprint_for_pubkey body_digest pk) as [fp'|] eqn:Hf; [|done].
  destruct (_authorized_key_line body_digest pk label) as [line'|] eqn:Hl; [|done].
  destruct (lookup_user name) as [info|]; [|done].
  destruct (_authorized_key_paths info) as [[dir path']|]; [|done]. injection H as <- <- <-.
  rewrite <- Hf. by apply authorized_key_line_key with label.
Qed.

Lemma text_at_insert path t files : text_at path (<[path := t]> files) = t.
Proof using Type. unfold text_at. by rewrite lookup_insert_eq. Qed.

(** The host after a file was rewritten, or left when nothing changed. *)
Lemma rewritten path desired files :
  let files' := if bool_decide (desired = text_at path files) then files else <[path := desired]> files in
  text_at path files' = desired ∧ ∀ p, p ≠ path → files' !! p = files !! p.
Proof using Type.
  cbv zeta. case_bool_decide as H; [by rewrite H|]. split; [apply text_at_insert|].
  intros p Hp. by apply lookup_insert_ne.
Qed.

(** A text that was written by the editor is left as it is. *)
Lemma push_stable t line fp t' :
  line_key body_digest line = Some fp → unbroken line →
  _rewrite_authorized_keys_for_push body_digest t line = Some t' →
  _rewrite_authorized_keys_for_push body_digest t' line = Some t'.
Proof using Type.
  intros Hk Hu Hp. destruct (push_lines body_digest t line fp Hk Hu) as (t2 & Hp2 & Hl).
  rewrite Hp2 in Hp. injection Hp as ->.
  assert (Ht' : t' = _join_authorized_key_lines (splitlines t')).
  { unfold _rewrite_authorized_keys_for_push in Hp2. rewrite (line_key_fingerprint _ _ _ Hk) in Hp2.
    injection Hp2 as <-. rewrite join_unbroken; [done|].
    pose proof (splitlines_unbroken t). destruct (existsb _ _); [done|].
    apply Forall_app. split; [done|]. by apply Forall_singleton. }
  assert (Hin : fp ∈ file_keys body_digest t').
  { unfold file_keys. rewrite Hl. case_decide as Hin; [done|].
    rewrite omap_app. simpl. rewrite Hk. apply elem_of_app. right. by left. }
  unfold _rewrite_authorized_keys_for_push. rewrite (line_key_fingerprint _ _ _ Hk).
  cbn [mbind option_bind]. rewrite (proj2 (existsb_key _ _ _) Hin). by f_equal.
Qed.

Lemma revoke_obey name fp files :
  revoke body_digest obey lookup_user group_name_lookup name fp false agent files =
    if negb (is_enabled REVOKE_CAPABILITY_KEY true agent) then (Raise CapabilityDisabledError, files)
    else if negb (_validate_username name) then (Raise InvalidUsernameError, files)
    else match lookup_user name with
         | None => (Ok (mkRevokeResult false false), files)
         | Some info =>
             match _authorized_key_paths info with
             | Raise e => (Raise e, files)
             | Ok (_, path) =>
                 let '(desired, removed) :=
                   _rewrite_authorized_keys_for_revoke body_digest (text_at path files) fp in
                 (Ok (mkRevokeResult removed false),
                  if removed && negb (bool_decide (desired = text_at path files))
                  then <[path := desired]> files else files)
             end
         end.
Proof using Type.
  unfold revoke, require_enabled, mbind, prog_bind.
  destruct (is_enabled _ _ _); [|done]. destruct (_validate_username name); [|done]. cbn [negb raise_if].
  unfold skip, mret, prog_ret. destruct (lookup_user name) as [info|]; [|done].
  unfold of_result. destruct (_authorized_key_paths info) as [[dir path]|e]; [|done].
  rewrite read_obey. destruct (_rewrite_authorized_keys_for_revoke _ _ _) as [d []]; [|done].
  by destruct (bool_decide (d = text_at path files)).
Qed.
End managed.

(** ** Properties *)

(** on a host that does what it is told, pushing a well-formed key
    either raises, and then nothing is written, or installs it: the account's
    file holds the keys it held, in order, followed by the new one unless it
    was there already; every other line is kept, no other file changes, and
    pushing again changes nothing. *)
Theorem authorized_key_push_spec body_digest lookup_user group_name_lookup agent name pk label files :
  clean_key pk label →
  let run := push body_digest obey lookup_user group_name_lookup name pk label false agent in
  match push_plan body_digest lookup_user agent name pk label with
  | Raise e => run files = (Raise e, files)
  | Ok (path, line, fp) =>
      ∃ files', run files = (Ok (mkPushResult path fp false), files') ∧
        (∀ p, p ≠ path → files' !! p = files !! p) ∧
        let old := text_at path files in let new := text_at path files' in
        splitlines new =
          (if decide (fp ∈ file_keys body_digest old) then splitlines old else splitlines old ++ [line]) ∧
        file_keys body_digest new =
          (if decide (fp ∈ file_keys body_digest old) then file_keys body_digest old
           else file_keys body_digest old ++ [fp]) ∧
        run files' = (Ok (mkPushResult path fp false), files')
  end.
Proof.
  intros Hc. cbv zeta. pose proof (λ f, push_obey body_digest lookup_user group_name_lookup agent name pk label f) as Hrun.
  destruct (push_plan _ _ _ _ _ _) as [[[path line] fp]|e] eqn:Hp; [|apply Hrun].
  destruct (push_plan_line _ _ _ _ _ _ _ _ _ Hp Hc) as [Hk Hu].
  destruct (push_lines body_digest (text_at path files) line fp Hk Hu) as (t' & Ht & Hl).
  pose proof (rewritten path t' files) as [Htext Hother].
  pose proof (Hrun files) as Hf. rewrite Ht in Hf.
  eexists. split; [exact Hf|]. split; [exact Hother|]. cbv zeta. rewrite Htext.
  split; [exact Hl|]. split; [by eapply push_keys|].
  rewrite Hrun, Htext, (push_stable _ _ _ _ _ Hk Hu Ht). by rewrite bool_decide_eq_true_2.
Qed.

(** on such a host revoking a fingerprint removes exactly the lines
    that hold that key, and of the other lines at most the platform's own
    comment in front of one: the remaining keys and all bystanding lines stay
    in order, no other file changes, and the answer says whether the key was
    there. *)
Theorem authorized_key_revoke_spec body_digest lookup_user group_name_lookup agent name fp files :
  match revoke body_digest obey lookup_user group_name_lookup name fp false agent files with
  | (Raise _, files') => files' = files
  | (Ok r, files') =>
      match lookup_user name with
      | None => revoked r = false ∧ files' = files
      | Some info => ∃ dir path, _authorized_key_paths info = Ok (dir, path) ∧
          (∀ p, p ≠ path → files' !! p = files !! p) ∧
          let old := text_at path files in let new := text_at path files' in
          revoked r = bool_decide (fp ∈ file_keys body_digest old) ∧
          file_keys body_digest new = filter (λ k, k ≠ fp) (file_keys body_digest old) ∧
          filter (λ l, bystander body_digest fp l = true) (splitlines new) =
            filter (λ l, bystander body_digest fp l = true) (splitlines old) ∧
          sublist (splitlines new) (splitlines old) ∧
          (revoked r = false → files' = files)
      end
  end.
Proof.
  rewrite revoke_obey. destruct (negb _); [done|]. destruct (negb _); [done|].
  destruct (lookup_user name) as [info|]; [|done].
  destruct (_authorized_key_paths info) as [[dir path]|e] eqn:Hpath; [|done].
  pose proof (revoke_text body_digest (text_at path files) fp) as H.
  destruct (_rewrite_authorized_keys_for_revoke _ _ _) as [d removed]. destruct H as [H1 H2 H3 H4 H5].
  exists dir, path. split; [done|].
  pose proof (rewritten path d files) as [Htext Hother]. cbn [revoked]. destruct removed.
  - assert (E : (if true && negb (bool_decide (d = text_at path files)) then <[path:=d]> files else files) =
                if bool_decide (d = text_at path files) then files else <[path:=d]> files)
      by (destruct (bool_decide (d = text_at path files)); reflexivity).
    rewrite E. set (files' := if bool_decide _ then _ else _) in *. clearbody files'. cbv zeta.
    rewrite Htext. split; [exact Hother|]. split_and!; [exact H4|exact H1|exact H2|exact H3|discriminate].
  - simpl. split; [done|]. specialize (H5 eq_refl). rewrite H5 in H1. by split_and!.
Qed.

(** revoking a key right after it was pushed gives the account its
    lines back. *)
Theorem push_revoke_roundtrip body_digest lookup_user group_name_lookup agent name pk label files path line fp :
  clean_key pk label →
  push_plan body_digest lookup_user agent name pk label = Ok (path, line, fp) →
  is_enabled REVOKE_CAPABILITY_KEY true agent = true →
  fp ∉ file_keys body_digest (text_at path files) →
  (∀ l, last (splitlines (text_at path files)) = Some l → is_marker l = false) →
  ∃ files' files'',
    push body_digest obey lookup_user group_name_lookup name pk label false agent files =
      (Ok (mkPushResult path fp false), files') ∧
    revoke body_digest obey lookup_user group_name_lookup name fp false agent files' =
      (Ok (mkRevokeResult true false), files'') ∧
    splitlines (text_at path files'') = splitlines (text_at path files) ∧
    ∀ p, p ≠ path → files'' !! p = files !! p.
Proof.
  intros Hc Hp Hrev Hnew Hm. destruct (push_plan_line _ _ _ _ _ _ _ _ _ Hp Hc) as [Hk Hu].
  destruct (push_lines body_digest (text_at path files) line fp Hk Hu) as (t' & Ht & Hl).
  pose proof (push_obey body_digest lookup_user group_name_lookup agent name pk label files) as Hf.
  rewrite Hp, Ht in Hf. pose proof (rewritten path t' files) as [Htext Hother]. cbv zeta in Htext, Hother.
  set (files' := if bool_decide (t' = text_at path files) then files else _) in *.
  clearbody files'. exists files'. rewrite revoke_obey, Hrev.
  unfold push_plan in Hp. destruct (negb (is_enabled PUSH_CAPABILITY_KEY true agent)); [done|].
  destruct (_validate_username name); [|done]. simpl in Hp |- *.
  destruct (_fingerprint_for_pubkey body_digest pk); [|done].
  destruct (_authorized_key_line _ _ _); [|done]. destruct (lookup_user name) as [info|]; [|done].
  destruct (_authorized_key_paths info) as [[dir path']|]; [|done]. injection Hp as -> -> ->.
  rewrite Htext. unfold _rewrite_authorized_keys_for_revoke. rewrite decide_False in Hl by done.
  rewrite Hl, revoke_added by done.
  set (d := _join_authorized_key_lines (splitlines (text_at path files))).
  assert (Hd : splitlines d = splitlines (text_at path files)) by (apply join_unbroken, splitlines_unbroken).
  assert (Hne : d ≠ t').
  { intros E. rewrite E, Hl in Hd. apply (f_equal length) in Hd. rewrite length_app in Hd. simpl in Hd. lia. }
  rewrite bool_decide_eq_false_2 by done. simpl. eexists. split_and!; [exact Hf|reflexivity| |].
  - by rewrite text_at_insert.
  - intros p Hpp. rewrite lookup_insert_ne by done. by apply Hother.
Qed.

(** reading an account's file changes nothing and lists exactly
    its keys, in order; the counts add up. *)
Theorem authorized_keys_read_spec body_digest lookup_user name files :
  match read body_digest obey lookup_user name false files with
  | (Raise _, files') => files' = files
  | (Ok r, files') => files' = files ∧
      fingerprint_sha256 <$> keys r = file_keys body_digest (text_at (authorized_keys_path r) files) ∧
      line_count r = Z.of_nat (length (keys r)) + invalid_line_count r
  end.
Proof.
  unfold read, mbind, prog_bind. destruct (_validate_username name); [|done]. cbn [negb raise_if].
  unfold skip, mret, prog_ret. destruct (lookup_user name) as [info|]; [|done]. cbn [some_or_raise].
  unfold mret, prog_ret, of_result. destruct (_authorized_key_paths info) as [[dir path]|e]; [|done].
  rewrite read_obey. unfold _summarize_authorized_keys.
  pose proof (summarize_spec body_digest 1 (splitlines (text_at path files))) as H.
  destruct (summarize _ _ _) as [[ks count] invalid]. destruct H as (H1 & H2 & _). done.
Qed.

(** ** Witnesses *)

Definition sample_lookup (name : pystr) : option UserInfo :=
  if bool_decide (name = u "alice") then Some (mkUserInfo 1000 (u "/home/alice/")) else None.

Definition sample_group (gid : Z) : pystr := u "alice".
Definition sample_path : pystr := u "/home/alice/.ssh/authorized_keys".

(** A file with a comment and another key, without a final newline. *)
Definition sample_files : Files :=
  {[sample_path := u "# laptop" ++ [10%N] ++ u "from=host ssh-rsa AAAA me"]}.

Lemma sample_clean : clean_key (u " ssh-ed25519 BBBB alice@pc") (u "corelab-10").
Proof.
  split_and!; [by apply (bool_decide_eq_true_1 _); vm_compute..|by vm_compute].
Qed.

Lemma authorized_key_push_spec_witness :
  ∃ files', push Some obey sample_lookup sample_group (u "alice") (u " ssh-ed25519 BBBB alice@pc")
              (u "corelab-10") false fresh_agent sample_files =
            (Ok (mkPushResult sample_path (u "SHA256:BBBB") false), files') ∧
    file_keys Some (text_at sample_path files') = [u "SHA256:AAAA"; u "SHA256:BBBB"].
Proof.
  pose proof (authorized_key_push_spec Some sample_lookup sample_group fresh_agent (u "alice")
    (u " ssh-ed25519 BBBB alice@pc") (u "corelab-10") sample_files sample_clean) as H.
  replace (push_plan Some sample_lookup fresh_agent (u "alice") (u " ssh-ed25519 BBBB alice@pc") (u "corelab-10"))
    with (@Ok keys_error _ (sample_path, u "ssh-ed25519 BBBB alice@pc corelab-10", u "SHA256:BBBB"))
    in H by by vm_compute.
  destruct H as (files' & Hrun & _ & _ & Hk & _). exists files'. split; [exact Hrun|].
  rewrite Hk. by vm_compute.
Defined.

Lemma push_revoke_roundtrip_witness :
  ∃ files' files'',
    push Some obey sample_lookup sample_group (u "alice") (u " ssh-ed25519 BBBB alice@pc")
      (u "corelab-10") false fresh_agent sample_files =
      (Ok (mkPushResult sample_path (u "SHA256:BBBB") false), files') ∧
    revoke Some obey sample_lookup sample_group (u "alice") (u "SHA256:BBBB") false fresh_agent files' =
      (Ok (mkRevokeResult true false), files'') ∧
    splitlines (text_at sample_path files'') = [u "# laptop"; u "from=host ssh-rsa AAAA me"].
Proof.
  destruct (push_revoke_roundtrip Some sample_lookup sample_group fresh_agent (u "alice")
    (u " ssh-ed25519 BBBB alice@pc") (u "corelab-10") sample_files sample_path
    (u "ssh-ed25519 BBBB alice@pc corelab-10") (u "SHA256:BBBB") sample_clean eq_refl eq_refl)
    as (f1 & f2 & H1 & H2 & H3 & _).
  - by apply (bool_decide_eq_false_1 _); vm_compute.
  - intros l H. vm_compute in H. injection H as <-. by vm_compute.
  - exists f1, f2. split; [exact H1|]. split; [exact H2|]. rewrite H3. by vm_compute.
Defined.

(** [_validate_single_line] forbids a line feed, a carriage return and a
    NUL only, but the editor splits a file at every Unicode line boundary.  A
    key whose comment hides a second key behind U+2028 is pushed as one line,
    on which [sshd] sees the first key alone; revoking that key leaves the
    second one behind, now on a line of its own. *)
Theorem hidden_key_activated :
  let pk := u "ssh-ed25519 AAAA pc" ++ [8232%N] ++ u "ssh-ed25519 EVIL" in
  let pushed := push Some obey sample_lookup sample_group (u "alice") pk (u "bob") false fresh_agent ∅ in
  let revoked := revoke Some obey sample_lookup sample_group (u "alice") (u "SHA256:AAAA") false
                   fresh_agent pushed.2 in
  pushed.1 = Ok (mkPushResult sample_path (u "SHA256:AAAA") false) ∧
  text_at sample_path pushed.2 =
    u "ssh-ed25519 AAAA pc" ++ [8232%N] ++ u "ssh-ed25519 EVIL bob" ++ [10%N] ∧
  revoked.1 = Ok (mkRevokeResult true false) ∧
  text_at sample_path revoked.2 = u "ssh-ed25519 EVIL bob" ++ [10%N].
Proof. by vm_compute. Qed.
