(* ===== verification/HostAccounts.v ===== *)
(** What the agent does with the host's accounts: [linux_users.py],
    [pam_handler.py], [ssh_verifier.py] and [account_scanner.py] under
    [src/agent/corelab_agent].

    The host is a state [S]: [runner] runs a command on it, [lookup_user] is
    [pwd.getpwnam], [which] is [shutil.which].  PAM, [ssh-keygen] and the
    password database answer through arguments. *)

From S2P Require Import Prelude PyText Schema Protocol AgentCaches.
From S2P Require Import AuthorizedKeys AgentConfig.

Inductive account_error : Type :=
| AccountCapabilityDisabled
| InvalidLinuxUserPayloadError
| InvalidAccountName.            (* [InvalidUsernameError] of the two verifiers *)

Definition USERADD_CAPABILITY_KEY : string := "linux.useradd".
Definition USERDEL_CAPABILITY_KEY : string := "linux.userdel".
Definition USERS_MOCK_WARNING : string := "platform=Darwin, no real Linux user mutation".
Definition _MIN_UID : Z := 1000.

(** [linux_users.UserInfo] *)
Record PasswdInfo : Type := mkPasswdInfo {
  pi_uid : Z ;
  pi_gid : Z ;
  pi_home : pystr ;
  pi_shell : pystr }.

Record UseraddResult : Type := mkUseraddResult {
  ua_ok : bool ;
  ua_uid : option Z ;
  ua_gid : option Z ;
  ua_home : option pystr ;
  ua_shell : option pystr ;
  ua_error : option pystr ;
  ua_mock_warning : option string }.

Record UserdelResult : Type := mkUserdelResult {
  ud_ok : bool ;
  ud_error : option pystr ;
  ud_mock_warning : option string }.

(** [^/[A-Za-z0-9._/+:-]+$], full match. *)
Definition path_char (c : N) : bool :=
  lower_letter c || in_range 65 90 c || digit c || bool_decide (c ∈ [46; 95; 47; 43; 58; 45]%N).

Definition abs_path_ok (value : pystr) : bool :=
  match value with
  | 47%N :: ((_ :: _) as rest) => forallb path_char rest
  | _ => false
  end.

(** The validators: [true] is acceptance. *)
Definition _validate_optional_abs_path (value : option pystr) : bool :=
  match value with Some v => abs_path_ok v | None => true end.

Definition _validate_id (value : option Z) : bool :=
  match value with Some z => bool_decide (_MIN_UID <= z) | None => true end.

Definition _result_from_info (info : PasswdInfo) : UseraddResult :=
  mkUseraddResult true (Some (pi_uid info)) (Some (pi_gid info)) (Some (pi_home info)) (Some (pi_shell info))
    None None.

Definition decimal_text (z : Z) : pystr := u (pretty z).

(** [a or b] on optional text. *)
Definition or_else (a : option pystr) (b : pystr) : pystr :=
  match a with Some ((_ :: _) as v) => v | _ => b end.

Definition nonzero (o : option Z) : option Z :=
  match o with Some 0 => None | _ => o end.

Section users.
Context {S : Type} (runner : list pystr → S → CommandResult * S).
Context (lookup_user : S → pystr → option PasswdInfo) (which : string → option pystr).

Abbreviation P := (prog S account_error).

Definition allowed (key : string) (agent : AgentState) : P unit :=
  raise_if (negb (is_enabled key true agent)) AccountCapabilityDisabled.

Definition run_command (cmd : list pystr) : P CommandResult := λ s, let '(r, s) := runner cmd s in (Ok r, s).

Definition failed (r : CommandResult) : bool := negb (bool_decide (returncode r = 0)).

(** [result.stderr.strip() or result.stdout.strip() or fallback] *)
Definition command_error (r : CommandResult) (fallback : string) : pystr :=
  or_text (or_text (strip (stderr r)) (strip (stdout r))) (u fallback).

Definition useradd_command (linux_username : pystr) (uid gid : option Z) (home shell : pystr) : list pystr :=
  [u "sudo"; u "-n"; default (u "/usr/sbin/useradd") (which "useradd"); u "-m"; u "-s"; shell; u "-d"; home] ++
  (match uid with Some z => [u "-u"; decimal_text z] | None => [] end) ++
  (match gid with Some z => [u "-g"; decimal_text z] | None => [] end) ++ [linux_username].

Definition useradd (linux_username : pystr) (uid gid : option Z) (home_directory default_shell : option pystr)
    (mock_mode : bool) (agent : AgentState) : P UseraddResult :=
  allowed USERADD_CAPABILITY_KEY agent ;;
  raise_if (negb (_validate_username linux_username)) InvalidLinuxUserPayloadError ;;
  raise_if (negb (_validate_id uid)) InvalidLinuxUserPayloadError ;;
  raise_if (negb (_validate_id gid)) InvalidLinuxUserPayloadError ;;
  raise_if (negb (_validate_optional_abs_path home_directory)) InvalidLinuxUserPayloadError ;;
  raise_if (negb (_validate_optional_abs_path default_shell)) InvalidLinuxUserPayloadError ;;
  let shell := or_else default_shell (u "/bin/bash") in
  let home := or_else home_directory (u "/home/" ++ linux_username) in
  if mock_mode then
    mret (mkUseraddResult true (Some (default 20000 (nonzero uid)))
            (Some (default (default 20000 (nonzero uid)) (nonzero gid))) (Some home) (Some shell) None
            (Some USERS_MOCK_WARNING))
  else
    existing ← gets (λ s, lookup_user s linux_username) ;
    match existing with
    | Some info => mret (_result_from_info info)
    | None =>
        result ← run_command (useradd_command linux_username uid gid home shell) ;
        if failed result then
          mret (mkUseraddResult false None None None None (Some (command_error result "useradd_failed")) None)
        else
          created ← gets (λ s, lookup_user s linux_username) ;
          match created with
          | None => mret (mkUseraddResult false None None None None
                            (Some (u "useradd_succeeded_but_user_not_found")) None)
          | Some info => mret (_result_from_info info)
          end
    end.

Definition userdel_command (linux_username : pystr) (remove_home : bool) : list pystr :=
  [u "sudo"; u "-n"; default (u "/usr/sbin/userdel") (which "userdel")] ++
  (if remove_home then [u "-r"] else []) ++ [linux_username].

Definition userdel (linux_username : pystr) (remove_home mock_mode : bool) (agent : AgentState) :
    P UserdelResult :=
  allowed USERDEL_CAPABILITY_KEY agent ;;
  raise_if (negb (_validate_username linux_username)) InvalidLinuxUserPayloadError ;;
  if mock_mode then mret (mkUserdelResult true None (Some USERS_MOCK_WARNING))
  else
    existing ← gets (λ s, lookup_user s linux_username) ;
    match existing with
    | None => mret (mkUserdelResult true None None)
    | Some _ =>
        result ← run_command (userdel_command linux_username remove_home) ;
        if failed result
        then mret (mkUserdelResult false (Some (command_error result "userdel_failed")) None)
        else mret (mkUserdelResult true None None)
    end.
End users.

(** ** Password verification *)

Definition PAM_CAPABILITY_KEY : string := "pam.authenticate".
Definition PAM_MOCK_WARNING : pystr :=
  u "platform=Darwin, no real PAM " ++ [8212%N] ++ u " verify_ok faked by mock_mode".

Record PamResult : Type := mkPamResult {
  verify_ok : bool ;
  pam_mock_warning : option pystr ;
  pam_error : option pystr }.

(** [import pamela] and [pamela.authenticate(name, password, service="login")]. *)
Inductive pam_answer : Type :=
| pam_unavailable (message : pystr)
| pam_accepted
| PAMError (message : pystr)
| pam_exception (class_name : pystr).

Definition pam_verify (authenticate : pystr → pystr → pam_answer) (linux_username password : pystr)
    (mock_mode : bool) (agent : AgentState) : result account_error PamResult :=
  if negb (is_enabled PAM_CAPABILITY_KEY true agent) then Raise AccountCapabilityDisabled
  else if negb (_validate_username linux_username) then Raise InvalidAccountName
  else if mock_mode then
    if bool_decide (password = []) then Ok (mkPamResult false None (Some (u "empty_password")))
    else Ok (mkPamResult true (Some PAM_MOCK_WARNING) None)
  else Ok match authenticate linux_username password with
          | pam_unavailable m => mkPamResult false None (Some (u "pamela_unavailable: " ++ m))
          | pam_accepted => mkPamResult true None None
          | PAMError m => mkPamResult false None (Some m)
          | pam_exception c => mkPamResult false None (Some (u "pam_internal: " ++ c))
          end.

(** ** Signature verification *)

Definition SSH_CAPABILITY_KEY : string := "ssh.verify_signature".
Definition MOCK_FINGERPRINT : pystr := u "SHA256:MOCK-MAC-NO-VERIFY".

Record VerifyResult : Type := mkVerifyResult {
  vr_ok : bool ;
  signer_fingerprint : option pystr ;
  vr_error : option pystr }.

(** [SHA256:[A-Za-z0-9+/=]+], the first match. *)
Definition fingerprint_char (c : N) : bool :=
  lower_letter c || in_range 65 90 c || digit c || bool_decide (c ∈ [43; 47; 61]%N).

Fixpoint _parse_fingerprint (text : pystr) : option pystr :=
  match text with
  | [] => None
  | _ :: rest =>
      let fp := (span fingerprint_char (drop 7 text)).1 in
      if startswith text (u "SHA256:") && negb (bool_decide (fp = [])) then Some (u "SHA256:" ++ fp)
      else _parse_fingerprint rest
  end.

(** [ssh-keygen] gets the nonce on its input and the signature in a file;
    [None] with a message is [FileNotFoundError]. *)
Definition verify_command (linux_username namespace sig_file : pystr) : list pystr :=
  [u "sudo"; u "-n"; u "-u"; linux_username; u "ssh-keygen"; u "-Y"; u "verify"; u "-f";
   u "/home/" ++ linux_username ++ u "/.ssh/authorized_keys"; u "-I"; []; u "-n"; namespace; u "-s"; sig_file].

Definition verify_sig (ssh_keygen : list pystr → pystr → pystr → CommandResult + pystr) (sig_file : pystr)
    (linux_username nonce namespace signature_armored : pystr) (mock_mode : bool) (agent : AgentState) :
    result account_error VerifyResult :=
  if negb (is_enabled SSH_CAPABILITY_KEY true agent) then Raise AccountCapabilityDisabled
  else if negb (_validate_username linux_username) then Raise InvalidAccountName
  else if mock_mode then Ok (mkVerifyResult true (Some MOCK_FINGERPRINT) None)
  else Ok match ssh_keygen (verify_command linux_username namespace sig_file) nonce signature_armored with
          | inr message => mkVerifyResult false None (Some message)
          | inl r =>
              if bool_decide (returncode r = 0) then
                mkVerifyResult true
                  (match _parse_fingerprint (stdout r) with
                   | Some fp => Some fp
                   | None => _parse_fingerprint (stderr r)
                   end) None
              else mkVerifyResult false None (Some (or_text (strip (stderr r)) (u "verify_failed")))
          end.

(** ** The scan of the host's accounts *)

Definition _MIN_HUMAN_UID : Z := 1000.
Definition _NOBODY_UID : Z := 65534.
Definition _STUB_SHELLS : list pystr := [u "nologin"; u "false"].

(** [pwd.struct_passwd] *)
Record struct_passwd : Type := mkPasswd {
  pw_name : string ;
  pw_uid : Z ;
  pw_gid : Z ;
  pw_dir : string ;
  pw_shell : string }.

(** [s.rsplit("/", maxsplit=1)[-1]] *)
Definition base_name (s : pystr) : pystr := default [] (last (split_on 47 [] s)).

Definition _is_human (e : struct_passwd) : bool :=
  if bool_decide (pw_uid e < _MIN_HUMAN_UID) || bool_decide (pw_uid e = _NOBODY_UID) then false
  else if bool_decide (pw_name e = ""%string) || bool_decide (32 < str_len (pw_name e)) then false
  else negb (bool_decide (base_name (text_of (pw_shell e)) ∈ _STUB_SHELLS)).

(** [text or None] *)
Definition text_or_none (s : string) : option string := if bool_decide (s = ""%string) then None else Some s.

(** An [AccountScanEntry] by its fields; the class checks them
    ([Protocol.AccountScanEntry]). *)
Definition scan_json (name : string) (uid gid : Z) (home shell : option string) : json :=
  JObj [("linux_username", JStr name); ("uid", JInt uid); ("gid", JInt gid);
        ("home_directory", jopt JStr home); ("default_shell", jopt JStr shell)]%string.

Definition passwd_json (e : struct_passwd) : json :=
  scan_json (pw_name e) (pw_uid e) (pw_gid e) (text_or_none (pw_dir e)) (text_or_none (pw_shell e)).

Definition mock_json (a : MockAccount) : json :=
  scan_json (ma_linux_username a) (ma_uid a) (ma_gid a)
    (Some match ma_home_directory a with
          | Some h => if bool_decide (h = ""%string) then ("/home/" +:+ ma_linux_username a)%string else h
          | None => ("/home/" +:+ ma_linux_username a)%string
          end) (ma_default_shell a).

Definition _MOCK_ENTRIES : list json :=
  [ scan_json "grace" 1001 1001 (Some "/home/grace") (Some "/bin/bash") ;
    scan_json "heidi" 1002 1002 (Some "/home/heidi") (Some "/bin/zsh") ]%string.

Definition report (entries : list json) (mock : bool) : json :=
  JObj [("entries", JList entries); ("mock", JBool mock)]%string.

(** A class is constructed, or a [ValidationError] raised. *)
Definition construct (t : ftype) (v : json) : option json := if typed t v then Some v else None.

(** [getpwall] is the whole password database, [None] when reading it fails.
    The result [None] is a [ValidationError] that leaves [scan]. *)
Definition scan (getpwall : option (list struct_passwd)) (mock_mode : bool) (mock_accounts : list MockAccount) :
    option json :=
  if mock_mode then
    match mock_accounts with
    | [] => construct AccountScanReport (report _MOCK_ENTRIES true)
    | _ =>
        entries ← mapM (construct AccountScanEntry ∘ mock_json) mock_accounts ;
        construct AccountScanReport (report entries true)
    end
  else
    match getpwall with
    | None => construct AccountScanReport (report [] false)
    | Some db =>
        match mapM (construct AccountScanEntry ∘ passwd_json) (filter (λ e, _is_human e = true) db) with
        | None => construct AccountScanReport (report [] false)
        | Some entries => construct AccountScanReport (report entries false)
        end
    end.
