(* ===== verification/ScriptRunner.v ===== *)
(** Running the users' scripts on a host
    ([src/agent/corelab_agent/script_runner.py]).

    The runner's tasks -- the handlers of the two requests, the reader of a
    process's output, the task that waits for its end, the delayed [SIGKILL] --
    run between each other's awaits.  A [label] is what one of them does
    between two awaits, or what a process does; [step] is its effect, [None]
    when the task is not there or not that far.  What the host answers is in
    the label.

    A push puts the event in the connection's queue before it waits, and the
    connection sends in that order: the [started] event is queued before the
    tasks of the script get to run, so that starting a script and pushing
    [started] is one step.  What comes after an await is a step of its own:
    the header that the mock pushes once [started] is out ([push_header]), and
    the push of a chunk once it is in the log ([push_chunk]).  The awaits of
    [_execute_linux] before the entry is there (the log, the process) only
    read what other tasks leave alone.  [pushed] holds every event with
    whether it was sent: without a connection it is dropped. *)

From S2P Require Import Prelude PyText AgentCaches ProcessKiller.

Definition MIN_UID : Z := 1000.
Definition SCRIPT_CAPABILITY : string := "script.execute_as_user".
Definition MOCK_LOG_DIR : string := "/tmp/corelab-agent/script-mock".

Record ExecuteScriptRequest : Type := mkExecute {
  ex_reservation_id : Z ;
  ex_linux_username : string ;
  ex_script : string ;
  ex_working_directory : option string ;
  ex_env : list (string * string) ;
  ex_max_runtime_seconds : option Z ;
  ex_stdout_log_path_hint : string }.

Record ExecuteScriptResponse : Type := mkExecuteResponse {
  er_ok : bool ;
  er_started : bool ;
  er_pid : option Z ;
  er_log_path : option string ;
  er_error : option string ;
  er_mock_warning : option string }.

Record CancelScriptResponse : Type := mkCancelResponse {
  cr_ok : bool ;
  cr_cancelled : bool ;
  cr_detail : option string ;
  cr_mock_warning : option string }.

(** Lifecycle events. *)
Inductive event : Type :=
| Started (reservation_id pid started_at : Z) (log_path : string)
| OutputChunk (reservation_id : Z) (text : pystr) (ts : Z)
| Finished (reservation_id : Z) (exit_code : option Z) (started_at finished_at output_size_bytes : Z)
    (log_path : string) (killed_by_corelab : bool) (killed_reason : option string).

Definition event_reservation (e : event) : Z :=
  match e with Started i _ _ _ | OutputChunk i _ _ | Finished i _ _ _ _ _ _ _ => i end.

(** How far [_await_and_push] is: waiting for the process; waiting for one
    that it killed for running too long; waiting for the reader; past the
    event. *)
Inductive waiter : Type :=
| Waiting
| Overrun
| Draining (exit_code : option Z) (killed : bool)
| Reported.

(** [_RunningEntry], its process (pid and return code; [None] in mock mode)
    and its two tasks. *)
Record Entry : Type := mkEntry {
  request : ExecuteScriptRequest ;
  process : option (Z * option Z) ;
  started_at : Z ;
  log_path : string ;
  killed_reason : option string ;
  reading : bool ;                    (* the output task is not done *)
  held : option (list N) ;            (* the chunk it is about to push *)
  stage : waiter }.
#[export] Instance eta_Entry : Eta Entry := λ e,
  mkEntry (request e) (process e) (started_at e) (log_path e) (killed_reason e) (reading e) (held e)
    (stage e).

Record Runner : Type := mkRunner {
  running : gmap Z Entry ;
  files : gmap string (list N) ;      (* the logs *)
  pushed : list (event * bool) ;
  signals : list (Z * Signal) ;       (* that reached a live process *)
  timers : list Z ;                   (* the delayed kills, by reservation *)
  headers : list (Z * pystr * Z) }.   (* the mock's, to be pushed *)
#[export] Instance eta_Runner : Eta Runner := λ r,
  mkRunner (running r) (files r) (pushed r) (signals r) (timers r) (headers r).

Definition fresh_runner : Runner := mkRunner ∅ ∅ [] [] [] [].

Definition push_event (e : event) (sent : bool) (r : Runner) : Runner := r <| pushed := pushed r ++ [(e, sent)] |>.

Definition set_entry (rid : Z) (e : Entry) (r : Runner) : Runner := r <| running := <[rid := e]> (running r) |>.

(** [_append_bytes] *)
Definition append_bytes (path : string) (data : list N) (r : Runner) : Runner :=
  r <| files := <[path := default [] (files r !! path) ++ data]> (files r) |>.

(** A signal to the entry's process: one that has exited gets none. *)
Definition deliver (e : Entry) (sig : Signal) (answer : os_answer) (r : Runner) : Runner :=
  match process e, answer with
  | Some (pid, None), delivered => r <| signals := signals r ++ [(pid, sig)] |>
  | _, _ => r
  end.

(** ** Starting a script *)

(** An operation of the operating system: an [OSError] is caught, anything
    else is not. *)
Inductive io_answer (A : Type) : Type :=
| io_ok (a : A)
| OSError (message : string)
| other_error.
Arguments io_ok {A} a.
Arguments OSError {A} message.
Arguments other_error {A}.

Record script_host : Type := mkScriptHost {
  uid_of : string → option Z ;        (* pwd.getpwnam *)
  has_sudo : bool ;
  mkdir_log_dir : string → io_answer unit ;
  touch_log : string → io_answer unit ;
  spawn : list string → list (string * string) → option string → io_answer Z }.

Definition refused (error : string) : ExecuteScriptResponse :=
  mkExecuteResponse false false None None (Some error) None.

Definition _resolve_user_or_error (h : script_host) (linux_username : string) : option string :=
  match uid_of h linux_username with
  | None => Some "USER_NOT_FOUND"%string
  | Some uid => if bool_decide (uid < MIN_UID) then Some "UID_BELOW_THRESHOLD"%string else None
  end.

(** [{"PATH": ..., **payload.env}] *)
Definition script_env (p : ExecuteScriptRequest) : list (string * string) :=
  ("PATH"%string, default "/usr/local/bin:/usr/bin:/bin"%string (snd <$> head (filter (λ v, v.1 = "PATH"%string) (ex_env p))))
    :: filter (λ v, v.1 ≠ "PATH"%string) (ex_env p).

Definition script_command (p : ExecuteScriptRequest) : list string :=
  ["sudo"; "-u"; ex_linux_username p; "-i"; "/bin/bash"; "-c"; ex_script p]%string.

(** The answer, [None] when an exception leaves the handler. *)
Definition _execute_linux (h : script_host) (p : ExecuteScriptRequest) (now : Z) (sent : bool) (r : Runner) :
    option ExecuteScriptResponse * Runner :=
  match _resolve_user_or_error h (ex_linux_username p) with
  | Some err => (Some (refused err), r)
  | None =>
      if negb (has_sudo h) then (Some (refused "SUDO_NOT_FOUND"), r)
      else
        let path := ex_stdout_log_path_hint p in
        match mkdir_log_dir h path with
        | other_error => (None, r)
        | OSError m => (Some (refused ("LOG_DIR_MKDIR_FAILED: " +:+ m)), r)
        | io_ok _ =>
            match touch_log h path with
            | other_error => (None, r)
            | OSError m => (Some (refused ("LOG_OPEN_FAILED: " +:+ m)), r)
            | io_ok _ =>
                let r := append_bytes path [] r in
                match spawn h (script_command p) (script_env p) (ex_working_directory p) with
                | other_error => (None, r)
                | OSError m => (Some (refused ("SUBPROCESS_SPAWN_FAILED: " +:+ m)), r)
                | io_ok pid =>
                    let entry := mkEntry p (Some (pid, None)) now path None true None Waiting in
                    (Some (mkExecuteResponse true true (Some pid) (Some path) None None),
                     push_event (Started (ex_reservation_id p) pid now path) sent
                       (set_entry (ex_reservation_id p) entry r))
                end
            end
        end
  end.

Definition newline : string := String (Ascii.ascii_of_N 10) EmptyString.

(** [platform] is [platform.system(), platform.release(), sys.platform]; the
    header is pushed as output once [started] is out. *)
Definition mock_header (platform : string * string * string) (p : ExecuteScriptRequest) : string :=
  ("# corelab-agent MOCK on " +:+ platform.1.1 +:+ " " +:+ platform.1.2 +:+ newline +:+
   "# reservation_id=" +:+ pretty (ex_reservation_id p) +:+ " linux_username=" +:+ ex_linux_username p +:+
   newline +:+ "# (script body redacted from this header " +:+ utf8 [8212%N] +:+
   " see backend audit_log)" +:+ newline)%string.

Definition mock_log_path (p : ExecuteScriptRequest) : string :=
  (MOCK_LOG_DIR +:+ "/reservation-" +:+ pretty (ex_reservation_id p) +:+ ".log")%string.

(** [s.upper()], on ASCII. *)
Fixpoint upper (s : string) : string :=
  match s with
  | EmptyString => EmptyString
  | String c s =>
      let n := Ascii.N_of_ascii c in
      String (if (97 <=? n)%N && (n <=? 122)%N then Ascii.ascii_of_N (n - 32) else c) (upper s)
  end.

Definition _execute_mock (platform : string * string * string) (agent_pid : Z) (h : script_host)
    (p : ExecuteScriptRequest) (now : Z) (sent : bool) (r : Runner) : option ExecuteScriptResponse * Runner :=
  let path := mock_log_path p in
  let header := mock_header platform p in
  match mkdir_log_dir h path, touch_log h path with
  | io_ok _, io_ok _ =>
      let entry := mkEntry p None now path None false None Waiting in
      (Some (mkExecuteResponse true true None (Some path) None
               (Some ("MOCK-" +:+ upper platform.2 +:+ "-NO-SUBPROCESS")%string)),
       push_event (Started (ex_reservation_id p) agent_pid now path) sent
         (set_entry (ex_reservation_id p) entry
            (r <| files := <[path := u header]> (files r) |>
               <| headers := headers r ++ [(ex_reservation_id p, text_of header, now)] |>)))
  | _, _ => (None, r)
  end.

Fixpoint take_header (rid : Z) (hs : list (Z * pystr * Z)) : option (pystr * Z * list (Z * pystr * Z)) :=
  match hs with
  | [] => None
  | (i, text, ts) :: hs =>
      if bool_decide (i = rid) then Some (text, ts, hs)
      else '(t, hs) ← take_header rid hs ; Some (t, (i, text, ts) :: hs)
  end.

(** The second push of [_execute_mock]. *)
Definition push_header (rid : Z) (sent : bool) (r : Runner) : option Runner :=
  match take_header rid (headers r) with
  | None => None
  | Some (text, ts, hs) => Some (push_event (OutputChunk rid text ts) sent (r <| headers := hs |>))
  end.

Definition execute (mock_mode : bool) (platform : string * string * string) (agent_pid : Z) (h : script_host)
    (agent : AgentState) (p : ExecuteScriptRequest) (now : Z) (sent : bool) (r : Runner) :
    option ExecuteScriptResponse * Runner :=
  if negb (is_enabled SCRIPT_CAPABILITY true agent) then (Some (refused "CAPABILITY_DISABLED"), r)
  else if is_some (running r !! ex_reservation_id p) then (Some (refused "ALREADY_RUNNING"), r)
  else if mock_mode then _execute_mock platform agent_pid h p now sent r
  else _execute_linux h p now sent r.

(** ** Cancelling *)

(** [answer] is what [process.terminate()] gets. *)
Definition cancel (rid : Z) (reason : string) (answer : os_answer) (r : Runner) :
    option CancelScriptResponse * Runner :=
  match running r !! rid with
  | None =>
      (Some (mkCancelResponse true false (Some "no live process for this reservation"%string) None), r)
  | Some entry =>
      let entry := entry <| killed_reason := Some reason |> in
      let r := set_entry rid entry r in
      match process entry with
      | None => (Some (mkCancelResponse true true None (Some "MOCK-MAC-NO-PROCESS"%string)), r)
      | Some _ =>
          match answer with
          | ProcessLookupError => (Some (mkCancelResponse true false (Some "already exited"%string) None), r)
          | PermissionError _ => (None, r)
          | delivered =>
              (Some (mkCancelResponse true true None None),
               deliver entry SIGTERM delivered r <| timers := rid :: timers r |>)
          end
      end
  end.

(** ** The tasks *)

(** [_pump_output]: a chunk is read and written to the log, or the output is
    at its end. *)
Definition read_chunk (rid : Z) (chunk : list N) (written : bool) (r : Runner) : option Runner :=
  match running r !! rid with
  | Some entry =>
      if negb (reading entry) || is_some (held entry) then None
      else if bool_decide (chunk = []) then Some (set_entry rid (entry <| reading := false |>) r)
      else
        let r := if written then append_bytes (log_path entry) chunk r else r in
        Some (set_entry rid (entry <| held := Some chunk |>) r)
  | None => None
  end.

(** The chunk is pushed. *)
Definition push_chunk (rid : Z) (sent : bool) (now : Z) (r : Runner) : option Runner :=
  match running r !! rid with
  | Some entry =>
      match held entry with
      | Some chunk =>
          Some (push_event (OutputChunk rid (decode chunk) now) sent
                  (set_entry rid (entry <| held := None |>) r))
      | None => None
      end
  | None => None
  end.

(** The process ends. *)
Definition process_exit (rid code : Z) (r : Runner) : option Runner :=
  match running r !! rid with
  | Some entry =>
      match process entry with
      | Some (pid, None) => Some (set_entry rid (entry <| process := Some (pid, Some code) |>) r)
      | _ => None
      end
  | None => None
  end.

(** [process.wait()] returns, or the mock timer fires. *)
Definition wait_done (rid : Z) (r : Runner) : option Runner :=
  match running r !! rid with
  | Some entry =>
      match stage entry, process entry with
      | Waiting, Some (_, Some code) =>
          Some (set_entry rid (entry <| stage := Draining (Some code) (is_some (killed_reason entry)) |>) r)
      | Waiting, None =>
          let killed := is_some (killed_reason entry) in
          Some (set_entry rid (entry <| stage := Draining (Some (if killed then -15 else 0)) killed |>) r)
      | Overrun, Some (_, Some code) =>
          Some (set_entry rid (entry <| stage := Draining (Some code) true |>) r)
      | _, _ => None
      end
  | None => None
  end.

(** [TimeoutError]: the script has run for [max_runtime_seconds]; [answer] is
    what [process.kill()] gets.  A refusal ends the task: its [finally] gives
    up the reader and the entry. *)
Definition runtime_up (rid : Z) (answer : os_answer) (r : Runner) : option Runner :=
  match running r !! rid with
  | Some entry =>
      match stage entry, process entry, ex_max_runtime_seconds (request entry) with
      | Waiting, Some (_, None), Some _ =>
          let reason := match killed_reason entry with
                        | Some k => if bool_decide (k = ""%string) then "max_runtime"%string else k
                        | None => "max_runtime"%string
                        end in
          match answer with
          | PermissionError _ => Some (r <| running := delete rid (running r) |>)
          | _ =>
              let entry' := entry <| killed_reason := Some reason |> <| stage := Overrun |> in
              Some (deliver entry SIGKILL answer (set_entry rid entry' r))
          end
      | _, _, _ => None
      end
  | None => None
  end.

(** The event, once the reader is done; [log_size] is [None] when the log
    cannot be read. *)
Definition report_finished (rid : Z) (log_readable sent : bool) (now : Z) (r : Runner) : option Runner :=
  match running r !! rid with
  | Some entry =>
      match stage entry with
      | Draining exit_code killed =>
          if reading entry then None
          else
            let log_size := if log_readable
                            then Z.of_nat (length (default [] (files r !! log_path entry))) else 0 in
            Some (push_event (Finished rid exit_code (started_at entry) now log_size (log_path entry) killed
                                (killed_reason entry)) sent
                    (set_entry rid (entry <| stage := Reported |>) r))
      | _ => None
      end
  | None => None
  end.

(** The end of the task: the entry goes. *)
Definition clean_up (rid : Z) (r : Runner) : option Runner :=
  match running r !! rid with
  | Some entry => match stage entry with
                  | Reported => Some (r <| running := delete rid (running r) |>)
                  | _ => None
                  end
  | None => None
  end.

Fixpoint take_timer (rid : Z) (ts : list Z) : option (list Z) :=
  match ts with
  | [] => None
  | i :: ts => if bool_decide (i = rid) then Some ts else (i ::.) <$> take_timer rid ts
  end.

(** [_sigkill_if_overdue], after its sleep; the refusal of a signal ends the
    task only. *)
Definition sigkill_if_overdue (rid : Z) (answer : os_answer) (r : Runner) : option Runner :=
  match take_timer rid (timers r) with
  | None => None
  | Some ts =>
      let r := r <| timers := ts |> in
      Some match running r !! rid with
           | Some entry => deliver entry SIGKILL answer r
           | None => r
           end
  end.

Inductive label : Type :=
| Execute (h : script_host) (agent : AgentState) (p : ExecuteScriptRequest) (now : Z) (sent : bool)
| Cancel (rid : Z) (reason : string) (answer : os_answer)
| PushHeader (rid : Z) (sent : bool)
| ReadChunk (rid : Z) (chunk : list N) (written : bool)
| PushChunk (rid : Z) (sent : bool) (now : Z)
| ProcessExit (rid code : Z)
| WaitDone (rid : Z)
| RuntimeUp (rid : Z) (answer : os_answer)
| Report (rid : Z) (log_readable sent : bool) (now : Z)
| CleanUp (rid : Z)
| Overdue (rid : Z) (answer : os_answer).

Section runner.
Context (mock_mode : bool) (platform : string * string * string) (agent_pid : Z).

Definition step (l : label) (r : Runner) : option Runner :=
  match l with
  | Execute h agent p now sent => Some (execute mock_mode platform agent_pid h agent p now sent r).2
  | Cancel rid reason answer => Some (cancel rid reason answer r).2
  | PushHeader rid sent => push_header rid sent r
  | ReadChunk rid chunk written => read_chunk rid chunk written r
  | PushChunk rid sent now => push_chunk rid sent now r
  | ProcessExit rid code => process_exit rid code r
  | WaitDone rid => wait_done rid r
  | RuntimeUp rid answer => runtime_up rid answer r
  | Report rid log_readable sent now => report_finished rid log_readable sent now r
  | CleanUp rid => clean_up rid r
  | Overdue rid answer => sigkill_if_overdue rid answer r
  end.

Fixpoint steps (ls : list label) (r : Runner) : option Runner :=
  match ls with
  | [] => Some r
  | l :: ls => match step l r with Some r => steps ls r | None => None end
  end.
End runner.
