(* ===== verification/ScriptRunnerProperties.v ===== *)
(** What the script runner promises along every interleaving of its tasks:
    the order of the events of a script, what a report says, and that a script
    whose process ends is reported. *)

From S2P Require Import Prelude PyText AgentCaches ProcessKiller ScriptRunner.

(** ** The events of a reservation *)

Definition events_of (rid : Z) (r : Runner) : list event :=
  filter (λ e, event_reservation e = rid) (pushed r).*1.

(** The start whose end has not been reported: instant and log; and, of a
    mock's starts, how many have their header to come. *)
Definition open_start : Type := option (Z * string).
Definition telling : Type := open_start * nat.

(** The events, in order: output and end belong to the last start, output is
    not empty, the end has an exit code and repeats the start's instant and
    log, a kill has a reason.  The output of a mock is its header, one after
    each start, which may come as late as after the end. *)
Fixpoint story (mock : bool) (st : telling) (evs : list event) : option telling :=
  match evs with
  | [] => Some st
  | Started _ _ t path :: evs => story mock (Some (t, path), if mock then S st.2 else st.2) evs
  | OutputChunk _ text _ :: evs =>
      if (if mock then bool_decide (st.2 ≠ 0%nat) else is_some st.1) && negb (bool_decide (text = []))
      then story mock (st.1, pred st.2) evs else None
  | Finished _ code t _ _ path killed reason :: evs =>
      if bool_decide (st.1 = Some (t, path)) && is_some code && (negb killed || is_some reason)
      then story mock (None, st.2) evs else None
  end.

Lemma story_app mock st a b : story mock st (a ++ b) = (st ← story mock st a ; story mock st b).
Proof.
  revert st. induction a as [|[| |] a IH]; intros st; simpl; [done|apply IH| |].
  - destruct (_ && _); [apply IH|done].
  - destruct (_ && _); [apply IH|done].
Qed.

Lemma events_of_push rid e sent r :
  events_of rid (push_event e sent r) =
    events_of rid r ++ (if bool_decide (event_reservation e = rid) then [e] else []).
Proof.
  unfold events_of, push_event. cbn. rewrite fmap_app, filter_app. f_equal. cbn.
  destruct (bool_decide_reflect (event_reservation e = rid)) as [H|H].
  - by rewrite decide_True.
  - by rewrite decide_False.
Qed.

(** ** The invariant *)

Record entry_ok (mock : bool) (rid : Z) (e : Entry) : Prop := {
  eo_request : ex_reservation_id (request e) = rid ;
  eo_mock : process e = None → reading e = false ;
  eo_idle : mock = true → process e = None ;
  eo_held : ∀ chunk, held e = Some chunk → reading e = true ∧ chunk ≠ [] ;
  eo_stage : match stage e with
             | Waiting => True
             | Overrun => is_Some (killed_reason e) ∧ is_Some (process e)
             | Draining code killed =>
                 is_Some code ∧ (killed = true → is_Some (killed_reason e)) ∧
                 (∀ pid o, process e = Some (pid, o) → o = code)
             | Reported => reading e = false ∧ (∀ pid o, process e = Some (pid, o) → is_Some o)
             end }.

Definition entry_open (e : Entry) : open_start :=
  match stage e with Reported => None | _ => Some (started_at e, log_path e) end.

Lemma new_entry_ok mock p proc now path rd :
  (proc = None → rd = false) → (mock = true → proc = None) →
  entry_ok mock (ex_reservation_id p) (mkEntry p proc now path None rd None Waiting).
Proof. intros H1 H2. by split. Qed.

(** The headers of a reservation that are to be pushed. *)
Definition due (rid : Z) (r : Runner) : list (Z * pystr * Z) := filter (λ h, h.1.1 = rid) (headers r).

Record reservation_ok (mock : bool) (r : Runner) (rid : Z) : Prop := {
  ro_headers : Forall (λ h, h.1.2 ≠ []) (due rid r) ;
  ro_none : mock = false → due rid r = [] ;
  ro_story : ∃ cur, story mock (None, 0%nat) (events_of rid r) = Some (cur, length (due rid r)) ∧
    ∀ e, running r !! rid = Some e → entry_ok mock rid e ∧ cur = entry_open e }.

Definition runner_ok (mock : bool) (r : Runner) : Prop := ∀ rid, reservation_ok mock r rid.

(** What a step does to the others: nothing. *)
Record elsewhere (rid : Z) (r r' : Runner) : Prop := {
  el_running : ∀ i, i ≠ rid → running r' !! i = running r !! i ;
  el_events : ∀ i, i ≠ rid → events_of i r' = events_of i r ;
  el_due : ∀ i, i ≠ rid → due i r' = due i r }.

Lemma same_ok mock rid r r' :
  running r' !! rid = running r !! rid → events_of rid r' = events_of rid r → due rid r' = due rid r →
  reservation_ok mock r rid → reservation_ok mock r' rid.
Proof. intros H1 H2 H3 [R1 R2 R3]. split; by rewrite ?H1, ?H2, ?H3. Qed.

Lemma elsewhere_ok mock rid r r' :
  runner_ok mock r → elsewhere rid r r' → reservation_ok mock r' rid → runner_ok mock r'.
Proof.
  intros Hok [H1 H2 H3] Hr i. destruct (decide (i = rid)) as [->|Hi]; [done|].
  apply (same_ok _ _ r); auto.
Qed.

Lemma files_ok mock f r : runner_ok mock r → runner_ok mock (r <| files := f |>).
Proof. intros Hok rid. apply (same_ok _ _ r); auto. Qed.

Lemma elsewhere_refl rid r : elsewhere rid r r.
Proof. by split. Qed.

Lemma elsewhere_trans rid r1 r2 r3 : elsewhere rid r1 r2 → elsewhere rid r2 r3 → elsewhere rid r1 r3.
Proof. intros [H1 H2 H3] [K1 K2 K3]. split; intros i Hi; [rewrite K1, H1|rewrite K2, H2|rewrite K3, H3]; done. Qed.

Lemma elsewhere_set rid e r : elsewhere rid r (set_entry rid e r).
Proof. split; intros i Hi; [|done..]. cbn. by rewrite lookup_insert_ne. Qed.

Lemma elsewhere_push rid e sent r : event_reservation e = rid → elsewhere rid r (push_event e sent r).
Proof.
  intros He. split; intros i Hi; [done| |done].
  rewrite events_of_push, bool_decide_eq_false_2 by congruence. apply app_nil_r.
Qed.

Lemma elsewhere_files rid f r : elsewhere rid r (r <| files := f |>).
Proof. by split. Qed.

Lemma elsewhere_written rid (b : bool) path chunk r : elsewhere rid r (if b then append_bytes path chunk r else r).
Proof. destruct b; [apply elsewhere_files|apply elsewhere_refl]. Qed.

Lemma elsewhere_deliver rid e sig a r : elsewhere rid r (deliver e sig a r).
Proof. split; intros i Hi; unfold deliver; by destruct (process e) as [[? []]|], a. Qed.

Lemma elsewhere_timers rid ts r : elsewhere rid r (r <| timers := ts |>).
Proof. by split. Qed.

Lemma elsewhere_delete rid r : elsewhere rid r (r <| running := delete rid (running r) |>).
Proof. split; intros i Hi; [|done..]. cbn. by rewrite lookup_delete_ne. Qed.

Lemma due_add i rid text ts r :
  due i (r <| headers := headers r ++ [(rid, text, ts)] |>) =
    due i r ++ (if bool_decide (rid = i) then [(rid, text, ts)] else []).
Proof.
  unfold due. cbn. rewrite filter_app. f_equal. cbn. case_bool_decide; [by rewrite decide_True|by rewrite decide_False].
Qed.

Lemma elsewhere_header rid text ts r : elsewhere rid r (r <| headers := headers r ++ [(rid, text, ts)] |>).
Proof.
  split; intros i Hi; [done|done|]. rewrite due_add, bool_decide_eq_false_2 by congruence. apply app_nil_r.
Qed.

Lemma take_header_due rid hs text ts hs' :
  take_header rid hs = Some (text, ts, hs') →
  filter (λ h, h.1.1 = rid) hs = (rid, text, ts) :: filter (λ h, h.1.1 = rid) hs' ∧
  ∀ i, i ≠ rid → filter (λ h, h.1.1 = i) hs = filter (λ h, h.1.1 = i) hs'.
Proof.
  revert hs'. induction hs as [|[[j t] u] hs IH]; intros hs'; simpl; [done|]. case_bool_decide as Hj.
  - intros [= -> -> ->]. subst j. split; [by rewrite filter_cons_True|].
    intros i Hi. by rewrite filter_cons_False by (cbn; congruence).
  - destruct (take_header rid hs) as [[[t' u'] hs1]|]; [|done]. simpl. intros [= -> -> <-].
    destruct (IH hs1 eq_refl) as [H1 H2]. split.
    + by rewrite !filter_cons_False, H1.
    + intros i Hi. rewrite !filter_cons. cbn [fst]. by rewrite (H2 i Hi).
Qed.

(** Signals, logs and timers are no part of the invariant. *)
Lemma deliver_running e sig a r : running (deliver e sig a r) = running r.
Proof. unfold deliver. by destruct (process e) as [[? []]|], a. Qed.

Lemma deliver_events rid e sig a r : events_of rid (deliver e sig a r) = events_of rid r.
Proof. unfold deliver. by destruct (process e) as [[? []]|], a. Qed.

Lemma deliver_due rid e sig a r : due rid (deliver e sig a r) = due rid r.
Proof. unfold deliver. by destruct (process e) as [[? []]|], a. Qed.

(** A new stage of an entry that is still open. *)
Lemma set_entry_ok mock rid e e' r :
  running r !! rid = Some e → reservation_ok mock r rid → (entry_ok mock rid e → entry_ok mock rid e') →
  entry_open e' = entry_open e → reservation_ok mock (set_entry rid e' r) rid.
Proof.
  intros He [R1 R2 (cur & Hs & Hc)] Hok Ho. split; [done|done|]. exists cur. split; [exact Hs|].
  intros e''. cbn. rewrite lookup_insert_eq. intros [= <-]. destruct (Hc _ He) as [H ->]. split; [auto|done].
Qed.

Lemma delete_ok mock rid r :
  reservation_ok mock r rid → reservation_ok mock (r <| running := delete rid (running r) |>) rid.
Proof.
  intros [R1 R2 (cur & Hs & _)]. split; [done|done|]. exists cur. split; [done|].
  intros e. cbn. by rewrite lookup_delete_eq.
Qed.

(** A start, of a reservation that has none. *)
Lemma start_ok rid pid t path sent e r :
  reservation_ok false r rid → entry_ok false rid e → entry_open e = Some (t, path) →
  reservation_ok false (push_event (Started rid pid t path) sent (set_entry rid e r)) rid.
Proof.
  intros [R1 R2 (cur & Hs & _)] He Ho. split; [done|done|]. exists (Some (t, path)). split.
  - rewrite events_of_push, bool_decide_eq_true_2 by done. rewrite story_app.
    change (events_of rid (set_entry rid e r)) with (events_of rid r). by rewrite Hs.
  - intros e'. cbn. rewrite lookup_insert_eq. intros [= <-]. done.
Qed.

Lemma mock_start_ok rid pid t path sent text ts e r :
  text ≠ [] → reservation_ok true r rid → entry_ok true rid e → entry_open e = Some (t, path) →
  reservation_ok true (push_event (Started rid pid t path) sent
    (set_entry rid e (r <| headers := headers r ++ [(rid, text, ts)] |>))) rid.
Proof.
  intros Ht [R1 R2 (cur & Hs & _)] He Ho. set (r' := push_event _ _ _).
  assert (Hd : due rid r' = due rid r ++ [(rid, text, ts)]).
  { etransitivity; [apply due_add|]. by rewrite bool_decide_eq_true_2. }
  split; rewrite ?Hd; [|done|].
  - apply Forall_app. split; [done|]. by apply Forall_singleton.
  - exists (Some (t, path)). split.
    + unfold r'. rewrite events_of_push, bool_decide_eq_true_2 by done. rewrite story_app.
      change (events_of rid (set_entry rid e _)) with (events_of rid r). rewrite Hs, length_app, Nat.add_comm. done.
    + intros e'. unfold r'. cbn. rewrite lookup_insert_eq. intros [= <-]. done.
Qed.

Lemma chunk_ok rid text ts sent e r :
  text ≠ [] → running r !! rid = Some e → entry_open e ≠ None → reservation_ok false r rid →
  reservation_ok false (push_event (OutputChunk rid text ts) sent r) rid.
Proof.
  intros Ht He Ho [R1 R2 (cur & Hs & Hc)]. split; [done|done|]. exists cur. split; [|done].
  rewrite events_of_push, bool_decide_eq_true_2 by done. rewrite story_app, Hs. simpl.
  rewrite bool_decide_eq_false_2 by done. destruct (Hc _ He) as [_ ->].
  change (due rid (push_event _ _ _)) with (due rid r). rewrite (R2 eq_refl). by destruct (entry_open e).
Qed.

(** ** Every step keeps it *)

#[export] Hint Resolve elsewhere_refl elsewhere_set elsewhere_push elsewhere_deliver elsewhere_delete
  elsewhere_files elsewhere_written elsewhere_timers elsewhere_header elsewhere_trans : runner.

Section steps.
Context (mock_mode : bool) (platform : string * string * string) (agent_pid : Z).

Lemma execute_linux_ok h p now sent r :
  runner_ok false r → runner_ok false (_execute_linux h p now sent r).2.
Proof using Type.
  intros Hok. unfold _execute_linux. destruct (_resolve_user_or_error _ _); [done|].
  destruct (has_sudo h); [|done]. cbn [negb].
  destruct (mkdir_log_dir h _); [|done..]. destruct (touch_log h _); [|done..].
  assert (Hok' : runner_ok false (append_bytes (ex_stdout_log_path_hint p) [] r)) by by apply files_ok.
  destruct (spawn h _ _ _) as [pid| |]; [|done..]. cbn [snd].
  apply (elsewhere_ok _ (ex_reservation_id p) _ _ Hok').
  - eapply elsewhere_trans; [apply elsewhere_set|]. by apply elsewhere_push.
  - apply start_ok; [apply Hok'|by apply new_entry_ok|done].
Qed.

Lemma execute_mock_ok h p now sent r :
  runner_ok true r → runner_ok true (_execute_mock platform agent_pid h p now sent r).2.
Proof using Type.
  intros Hok. unfold _execute_mock. destruct (mkdir_log_dir h _); [|done..]. destruct (touch_log h _); [|done..].
  cbn [snd]. set (e := mkEntry _ _ _ _ _ _ _ _). set (r1 := r <| files := _ |>).
  assert (Hok' : runner_ok true r1) by by apply files_ok. change (headers r) with (headers r1). clearbody r1.
  apply (elsewhere_ok _ (ex_reservation_id p) _ _ Hok').
  - eapply elsewhere_trans; [|by apply elsewhere_push]. eapply elsewhere_trans; [|apply elsewhere_set].
    apply elsewhere_header.
  - apply mock_start_ok; [by apply decode_not_nil|apply Hok'|by apply new_entry_ok|done].
Qed.

Lemma push_header_ok m rid sent r r' : push_header rid sent r = Some r' → runner_ok m r → runner_ok m r'.
Proof using Type.
  unfold push_header. destruct (take_header rid (headers r)) as [[[text ts] hs]|] eqn:Ht; [|done].
  intros [= <-] Hok. destruct (take_header_due _ _ _ _ _ Ht) as [H1 H2]. apply (elsewhere_ok _ rid r); [done| |].
  - eapply elsewhere_trans; [|by apply elsewhere_push]. split; [done..|]. intros i Hi. symmetry. by apply H2.
  - destruct (Hok rid) as [R1 R2 (cur & Hs & Hc)]. unfold due in R1, R2, Hs. rewrite H1 in R1, R2, Hs.
    apply Forall_cons in R1 as [Hne R1]. split.
    + exact R1.
    + intros Hm. by apply R2 in Hm.
    + exists cur. split; [|exact Hc]. rewrite events_of_push, bool_decide_eq_true_2 by done.
      rewrite story_app. change (story m (None, 0%nat) _) with (story m (None, 0%nat) (events_of rid r)).
      rewrite Hs. simpl.
      destruct m; [|by specialize (R2 eq_refl)]. by rewrite bool_decide_eq_false_2.
Qed.

Lemma cancel_ok m rid reason answer r : runner_ok m r → runner_ok m (cancel rid reason answer r).2.
Proof using Type.
  intros Hok. unfold cancel. destruct (running r !! rid) as [e|] eqn:He; [|done].
  set (e' := e <| killed_reason := _ |>). assert (Hset : runner_ok m (set_entry rid e' r)).
  { apply (elsewhere_ok _ rid r); [done|apply elsewhere_set|]. apply (set_entry_ok _ _ e); try done.
    intros [H1 H2 H3 H4 H5]. split; [done..|]. cbn. destruct (stage e); try naive_solver. }
  destruct (process e'); [|done]. destruct answer; [|done..]. cbn [snd].
  apply (elsewhere_ok _ rid (set_entry rid e' r)); [done| |].
  - eapply elsewhere_trans; [apply elsewhere_deliver|apply elsewhere_timers].
  - apply (same_ok _ _ (set_entry rid e' r)); [|apply deliver_events|apply deliver_due|apply Hset]. cbn. by rewrite deliver_running.
Qed.

Lemma reading_open m rid e r :
  running r !! rid = Some e → reading e = true → runner_ok m r → entry_open e ≠ None ∧ m = false.
Proof using Type.
  intros He Hr Hok. destruct (Hok rid) as [_ _ (cur & _ & Hc)].
  destruct (Hc _ He) as [[_ H2 H3 _ H5] _]. split.
  - unfold entry_open. destruct (stage e); try done. destruct H5. congruence.
  - destruct m; [|done]. rewrite (H2 (H3 eq_refl)) in Hr. done.
Qed.

Lemma read_chunk_ok m rid chunk written r r' :
  read_chunk rid chunk written r = Some r' → runner_ok m r → runner_ok m r'.
Proof using Type.
  unfold read_chunk. destruct (running r !! rid) as [e|] eqn:He; [|done].
  destruct (reading e) eqn:Hr; [|done]. destruct (held e) eqn:Hh; [done|]. intros H Hok. cbn [negb orb is_some] in H.
  destruct (bool_decide_reflect (chunk = [])); injection H as <-; apply (elsewhere_ok _ rid r); eauto with runner.
  - apply (set_entry_ok _ _ e); try done. intros [H1 H2 H3 H4 H5]. split; [done..| |].
    + cbn. by rewrite Hh.
    + cbn. destruct (stage e); naive_solver.
  - apply (set_entry_ok _ _ e); [by destruct written| | |done].
    { destruct written; [by apply files_ok|apply Hok]. }
    intros [H1 H2 H3 H4 H5]. split; [done..| |done]. cbn. by intros ? [= <-].
Qed.

Lemma push_chunk_ok m rid sent now r r' :
  push_chunk rid sent now r = Some r' → runner_ok m r → runner_ok m r'.
Proof using Type.
  unfold push_chunk. destruct (running r !! rid) as [e|] eqn:He; [|done].
  destruct (held e) as [chunk|] eqn:Hh; [|done]. intros [= <-] Hok.
  destruct (Hok rid) as [_ _ (cur & _ & Hc)]. destruct (Hc _ He) as [[_ _ _ H4 _] _].
  destruct (H4 _ Hh) as [Hr Hne]. destruct (reading_open _ _ _ _ He Hr Hok) as [Ho ->].
  apply (elsewhere_ok _ rid r); [done|eapply elsewhere_trans; [apply elsewhere_set|by apply elsewhere_push]|].
  apply (chunk_ok _ _ _ _ (e <| held := None |>)); [by apply decode_not_nil|apply lookup_insert_eq|done|].
  apply (set_entry_ok _ _ e); try done. intros [H1 H2 H3 H4' H5]. by split.
Qed.

Lemma process_exit_ok m rid code r r' : process_exit rid code r = Some r' → runner_ok m r → runner_ok m r'.
Proof using Type.
  unfold process_exit. destruct (running r !! rid) as [e|] eqn:He; [|done].
  destruct (process e) as [[pid [o|]]|] eqn:Hp; [done| |done]. intros [= <-] Hok.
  apply (elsewhere_ok _ rid r); auto with runner. apply (set_entry_ok _ _ e); try done.
  intros [H1 H2 H3 H4 H5]. split; [done|done|intros Hm; by rewrite (H3 Hm) in Hp|done|]. cbn. destruct (stage e); try done.
  - naive_solver.
  - destruct H5 as (Hc & Hk & Hpr). specialize (Hpr _ _ Hp). destruct Hc. congruence.
  - destruct H5 as [_ H5]. destruct (H5 _ _ Hp). done.
Qed.

Lemma wait_done_ok m rid r r' : wait_done rid r = Some r' → runner_ok m r → runner_ok m r'.
Proof using Type.
  unfold wait_done. destruct (running r !! rid) as [e|] eqn:He; [|done]. intros H Hok.
  assert (∃ code killed, r' = set_entry rid (e <| stage := Draining (Some code) killed |>) r ∧
            (stage e = Waiting ∧ killed = is_some (killed_reason e) ∨ stage e = Overrun) ∧
            (∀ pid o, process e = Some (pid, o) → o = Some code)) as (code & killed & -> & Hst & Hp).
  { destruct (stage e) eqn:Hst; try done.
    - destruct (process e) as [[pid [o|]]|] eqn:Hp; try done; injection H as <-; naive_solver.
    - destruct (process e) as [[pid [o|]]|] eqn:Hp; try done; injection H as <-; naive_solver. }
  apply (elsewhere_ok _ rid r); auto with runner. apply (set_entry_ok _ _ e); try done.
  - intros [H1 H2 H3 H4 H5]. split; [done..|]. cbn. split; [done|]. split; [|done].
    destruct Hst as [[Hw ->] | Hst]; [by destruct (killed_reason e)|]. rewrite Hst in H5. naive_solver.
  - unfold entry_open. cbn. by destruct Hst as [[-> _] | ->].
Qed.

Lemma runtime_up_ok m rid answer r r' : runtime_up rid answer r = Some r' → runner_ok m r → runner_ok m r'.
Proof using Type.
  unfold runtime_up. destruct (running r !! rid) as [e|] eqn:He; [|done].
  destruct (stage e) eqn:Hst; try done. destruct (process e) as [[pid [o|]]|] eqn:Hp; try done.
  destruct (ex_max_runtime_seconds _); [|done]. set (k := match killed_reason e with Some _ => _ | None => _ end).
  set (e' := e <| killed_reason := Some k |> <| stage := Overrun |>). intros H Hok.
  assert (Hset : runner_ok m (set_entry rid e' r)).
  { apply (elsewhere_ok _ rid r); auto with runner. apply (set_entry_ok _ _ e); try done.
    - intros [H1 H2 H3 H4 H5]. split; [done..|]. cbn. by rewrite Hp.
    - unfold entry_open. by rewrite Hst. }
  destruct answer; injection H as <-.
  - apply (elsewhere_ok _ rid (set_entry rid e' r)); auto with runner.
    apply (same_ok _ _ (set_entry rid e' r)); [by rewrite deliver_running|apply deliver_events|apply deliver_due|apply Hset].
  - apply (elsewhere_ok _ rid (set_entry rid e' r)); auto with runner.
    apply (same_ok _ _ (set_entry rid e' r)); [by rewrite deliver_running|apply deliver_events|apply deliver_due|apply Hset].
  - apply (elsewhere_ok _ rid r); auto with runner. by apply delete_ok.
Qed.

Lemma report_ok m rid readable sent now r r' :
  report_finished rid readable sent now r = Some r' → runner_ok m r → runner_ok m r'.
Proof using Type.
  unfold report_finished. destruct (running r !! rid) as [e|] eqn:He; [|done].
  destruct (stage e) as [| |code killed|] eqn:Hst; try done. destruct (reading e) eqn:Hr; [done|].
  intros [= <-] Hok. apply (elsewhere_ok _ rid r); auto.
  { eapply elsewhere_trans; [apply elsewhere_set|]. by apply elsewhere_push. }
  destruct (Hok rid) as [R1 R2 (cur & Hs & Hc)]. destruct (Hc _ He) as [[H1 H2 H3 H4 H5] ->].
  rewrite Hst in H5. destruct H5 as (Hcode & Hk & Hp). split; [done|done|]. exists None. split.
  - rewrite events_of_push, bool_decide_eq_true_2 by done. rewrite story_app.
    change (events_of rid (set_entry _ _ _)) with (events_of rid r). rewrite Hs. unfold entry_open. rewrite Hst.
    simpl. rewrite bool_decide_eq_true_2 by done. destruct Hcode as [c ->]. destruct killed; [|done].
    destruct (killed_reason e); [done|]. by destruct (Hk eq_refl).
  - intros e'. cbn. rewrite lookup_insert_eq. intros [= <-]. split; [|done]. split; [done..| |].
    { cbn. intros chunk Hh. destruct (H4 _ Hh). congruence. }
    cbn. split; [done|]. intros pid o Ho. by rewrite (Hp _ _ Ho).
Qed.

Lemma clean_up_ok m rid r r' : clean_up rid r = Some r' → runner_ok m r → runner_ok m r'.
Proof using Type.
  unfold clean_up. destruct (running r !! rid) as [e|] eqn:He; [|done]. destruct (stage e); try done.
  intros [= <-] Hok. apply (elsewhere_ok _ rid r); auto with runner. by apply delete_ok.
Qed.

Lemma overdue_ok m rid answer r r' : sigkill_if_overdue rid answer r = Some r' → runner_ok m r → runner_ok m r'.
Proof using Type.
  unfold sigkill_if_overdue. destruct (take_timer rid (timers r)) as [ts|]; [|done]. intros [= <-] Hok.
  destruct (running _ !! rid) as [e|]; [|intros i; by apply (same_ok _ _ r)].
  apply (elsewhere_ok _ rid r); [done| |].
  - eapply elsewhere_trans; [apply elsewhere_timers|apply elsewhere_deliver].
  - apply (same_ok _ _ r); [by rewrite deliver_running|by rewrite deliver_events|by rewrite deliver_due|apply Hok].
Qed.

Lemma step_ok l r r' :
  step mock_mode platform agent_pid l r = Some r' → runner_ok mock_mode r → runner_ok mock_mode r'.
Proof using Type.
  destruct l; simpl.
  - intros [= <-] Hok. unfold execute. destruct (negb _); [done|]. destruct (is_some _); [done|].
    destruct mock_mode; [by apply execute_mock_ok|by apply execute_linux_ok].
  - intros [= <-]. apply cancel_ok.
  - apply push_header_ok.
  - apply read_chunk_ok.
  - apply push_chunk_ok.
  - apply process_exit_ok.
  - apply wait_done_ok.
  - apply runtime_up_ok.
  - apply report_ok.
  - apply clean_up_ok.
  - apply overdue_ok.
Qed.

Lemma fresh_ok : runner_ok mock_mode fresh_runner.
Proof using Type. intros rid. split; [by apply Forall_nil_2|done|]. by exists None. Qed.

Lemma steps_ok ls r r' :
  steps mock_mode platform agent_pid ls r = Some r' → runner_ok mock_mode r → runner_ok mock_mode r'.
Proof using Type.
  revert r. induction ls as [|l ls IH]; intros r; simpl; [by intros [= ->]|].
  destruct (step _ _ _ l r) as [r1|] eqn:Hl; [|done]. intros Hs Hok. eapply IH, step_ok; eauto.
Qed.
End steps.

(** ** A script whose process ends is reported *)

(** What is left for the tasks of an entry to do. *)
Definition finishing (rid code : Z) (sent : bool) (now : Z) (e : Entry) : list label :=
  (match process e with Some (_, None) => [ProcessExit rid code] | _ => [] end) ++
  (if held e then [PushChunk rid sent now] else []) ++
  (if reading e then [ReadChunk rid [] false] else []) ++
  (match stage e with Waiting | Overrun => [WaitDone rid] | _ => [] end) ++
  (match stage e with Reported => [] | _ => [Report rid true sent now] end) ++
  [CleanUp rid].

(** The report it ends with, for an entry that has not sent it. *)
Definition report_of (rid code : Z) (now : Z) (r : Runner) (e : Entry) : event :=
  let final := match process e with
               | Some (_, Some c) => c
               | Some (_, None) => code
               | None => match stage e with
                         | Draining (Some c) _ => c
                         | _ => if is_some (killed_reason e) then -15 else 0
                         end
               end in
  let killed := match stage e with
                | Draining _ k => k
                | Overrun => true
                | _ => is_some (killed_reason e)
                end in
  Finished rid (Some final) (started_at e) now (Z.of_nat (length (default [] (files r !! log_path e))))
    (log_path e) killed (killed_reason e).

Lemma steps_app m pf ap ls1 ls2 r :
  steps m pf ap (ls1 ++ ls2) r = (r1 ← steps m pf ap ls1 r ; steps m pf ap ls2 r1).
Proof. revert r. induction ls1 as [|l ls1 IH]; intros r; simpl; [done|]. by destruct (step _ _ _ l r); simpl. Qed.

Lemma set_entry_twice rid e e' r : set_entry rid e' (set_entry rid e r) = set_entry rid e' r.
Proof. unfold set_entry. cbn. by rewrite insert_insert_eq. Qed.

Lemma lookup_set_entry rid e r : running (set_entry rid e r) !! rid = Some e.
Proof. apply lookup_insert_eq. Qed.

(** The chunk it holds is pushed before. *)
Definition flush_held (rid : Z) (sent : bool) (now : Z) (e : Entry) (r : Runner) : Runner :=
  match held e with Some chunk => push_event (OutputChunk rid (decode chunk) now) sent r | None => r end.

Lemma finishing_run m pf ap rid code sent now r e :
  running r !! rid = Some e → entry_ok m rid e → stage e ≠ Reported →
  steps m pf ap (finishing rid code sent now e) r =
    Some (push_event (report_of rid code now r e) sent (flush_held rid sent now e r)
            <| running := delete rid (running r) |>).
Proof.
  intros He [H1 H2 _ H4 H3] Hst. destruct r as [rn fs ps sg ts hs], e as [p proc t path reason rd hd st].
  unfold flush_held. cbn in *.
  rewrite <- (insert_id rn rid _ He) at 1. clear He.
  unfold finishing, report_of. cbn [process reading stage held].
  assert (Hs : match st, proc with
               | Draining c _, Some (_, o) => ∃ z, o = Some z ∧ c = Some z
               | Draining c _, None => ∃ z, c = Some z
               | Overrun, None | Reported, _ => False
               | _, _ => True
               end) by (destruct st, proc as [[pid o]|]; try done; unfold is_Some in *; naive_solver).
  clear H3. assert (Hh : rd = false → hd = None).
  { intros ->. destruct hd as [c|]; [|done]. by destruct (H4 c eq_refl). }
  clear H4. destruct proc as [[pid [o|]]|]; [| |rewrite (Hh (H2 eq_refl)), (H2 eq_refl)];
    [destruct rd; [destruct hd|rewrite (Hh eq_refl)]|destruct rd; [destruct hd|rewrite (Hh eq_refl)]|]; destruct st as [| |c k|]; try done;
    try (first [destruct Hs as (z & [= ->] & ->) | destruct Hs as (z & ? & _); done | destruct Hs as [z ->]]);
    repeat first [ progress cbn -[insert lookup delete]
                 | progress unfold process_exit, read_chunk, push_chunk, wait_done, report_finished, clean_up, set_entry
                 | rewrite lookup_insert_eq | rewrite insert_insert_eq ];
    by rewrite delete_insert_eq.
Qed.

(** ** A cancelled script says so *)

Lemma cancel_effect rid reason answer r e :
  running r !! rid = Some e →
  (∀ i, events_of i (cancel rid reason answer r).2 = events_of i r) ∧
  running (cancel rid reason answer r).2 = <[rid := e <| killed_reason := Some reason |>]> (running r).
Proof.
  intros He. unfold cancel. rewrite He. set (e' := e <| killed_reason := Some reason |>).
  destruct (process e'); [|done]. destruct answer; [|done..]. cbn [snd]. split.
  - intros i. exact (deliver_events i e' SIGTERM delivered (set_entry rid e' r)).
  - exact (deliver_running e' SIGTERM delivered (set_entry rid e' r)).
Qed.

(** The first event that is no output. *)
Fixpoint first_mark (evs : list event) : option event :=
  match evs with
  | [] => None
  | OutputChunk _ _ _ :: evs => first_mark evs
  | e :: _ => Some e
  end.

Lemma first_mark_app a b : first_mark (a ++ b) = match first_mark a with Some e => Some e | None => first_mark b end.
Proof. induction a as [|[| |] a IH]; simpl; auto. Qed.

Definition kill_reported (e : event) : Prop :=
  match e with Finished _ _ _ _ _ _ killed reason => killed = true ∧ is_Some reason | _ => True end.

(** The entry will be reported as killed. *)
Definition doomed (e : Entry) : Prop :=
  is_Some (killed_reason e) ∧ match stage e with Draining _ killed => killed = true | _ => True end.

(** Since [base], either the script has been reported, as killed, or it will
    be. *)
Definition cancelled_since (rid : Z) (base : list event) (r : Runner) : Prop :=
  ∃ evs, events_of rid r = base ++ evs ∧
    match first_mark evs with
    | Some e => kill_reported e
    | None => ∀ e, running r !! rid = Some e → doomed e
    end.

Lemma cancelled_keep rid base r r' :
  events_of rid r' = events_of rid r →
  (∀ e', running r' !! rid = Some e' → ∃ e, running r !! rid = Some e ∧ (doomed e → doomed e')) →
  cancelled_since rid base r → cancelled_since rid base r'.
Proof.
  intros He Hr (evs & Hev & Hm). exists evs. split; [by rewrite He|].
  destruct (first_mark evs); [done|]. intros e' H'. destruct (Hr _ H') as (e & H & Hd). auto.
Qed.

(** An event more. *)
Lemma cancelled_push rid base r e sent :
  event_reservation e = rid →
  (match e with OutputChunk _ _ _ => True | _ => (∀ x, running r !! rid = Some x → doomed x) → kill_reported e end) →
  cancelled_since rid base r → cancelled_since rid base (push_event e sent r).
Proof.
  intros Hi He (evs & Hev & Hm). exists (evs ++ [e]). split.
  - rewrite events_of_push, bool_decide_eq_true_2 by done. by rewrite Hev, app_assoc.
  - rewrite first_mark_app. destruct (first_mark evs) as [e0|]; [done|].
    destruct e; [done|exact Hm|exact (He Hm)].
Qed.

Lemma cancelled_elsewhere i rid base r r' :
  i ≠ rid → elsewhere i r r' → cancelled_since rid base r → cancelled_since rid base r'.
Proof.
  intros Hi [H1 H2 _]. apply cancelled_keep; [by apply H2|]. rewrite H1 by done. eauto.
Qed.

Section cancelled.
Context (mock_mode : bool) (platform : string * string * string) (agent_pid rid : Z) (base : list event).

(** A step of another reservation's tasks. *)
Lemma step_elsewhere l r r' :
  step mock_mode platform agent_pid l r = Some r' →
  elsewhere (match l with
             | Execute _ _ p _ _ => ex_reservation_id p
             | Cancel i _ _ | PushHeader i _ | ReadChunk i _ _ | PushChunk i _ _ | ProcessExit i _ | WaitDone i | RuntimeUp i _
             | Report i _ _ _ | CleanUp i | Overdue i _ => i
             end) r r'.
Proof using Type.
  destruct l as [h a p now sent|i reason answer|i sent|i chunk written|i sent now|i code|i|i answer|i rd sent now|i|i answer];
    simpl.
  - intros [= <-]. unfold execute. destruct (negb _); [done|]. destruct (is_some _); [done|]. destruct mock_mode.
    + unfold _execute_mock. destruct (mkdir_log_dir h _); [|done..]. destruct (touch_log h _); [|done..].
      cbn [snd]. eapply elsewhere_trans; [|by apply elsewhere_push].
      eapply elsewhere_trans; [|apply elsewhere_set].
      exact (elsewhere_trans _ _ (r <| files := _ |>) _ (elsewhere_files _ _ _) (elsewhere_header _ _ _ _)).
    + unfold _execute_linux. destruct (_resolve_user_or_error _ _); [done|]. destruct (negb _); [done|].
      destruct (mkdir_log_dir h _); [|done..]. destruct (touch_log h _); [|done..].
      destruct (spawn h _ _ _); [|done..]. cbn [snd].
      eapply elsewhere_trans; [|by apply elsewhere_push]. eapply elsewhere_trans; [|apply elsewhere_set].
      apply elsewhere_files.
  - intros [= <-]. unfold cancel. destruct (running r !! i) as [e|]; [|done]. cbn.
    destruct (process e); [|apply elsewhere_set]. destruct answer; [|apply elsewhere_set..]. cbn [snd].
    eapply elsewhere_trans; [apply elsewhere_set|].
    eapply elsewhere_trans; [apply elsewhere_deliver|apply elsewhere_timers].
  - unfold push_header. destruct (take_header i (headers r)) as [[[text ts] hs]|] eqn:Ht; [|done].
    intros [= <-]. destruct (take_header_due _ _ _ _ _ Ht) as [_ H2].
    eapply elsewhere_trans; [|by apply elsewhere_push]. split; [done..|]. intros j Hj. symmetry. by apply H2.
  - unfold read_chunk. destruct (running r !! i) as [e|]; [|done]. destruct (negb _ || _); [done|].
    destruct (bool_decide _); intros [= <-]; [apply elsewhere_set|].
    eapply elsewhere_trans; [|apply elsewhere_set]. apply elsewhere_written.
  - unfold push_chunk. destruct (running r !! i) as [e|]; [|done]. destruct (held e); [|done].
    intros [= <-]. eapply elsewhere_trans; [apply elsewhere_set|]. by apply elsewhere_push.
  - unfold process_exit. destruct (running r !! i) as [e|]; [|done].
    destruct (process e) as [[? []]|]; [done| |done]. intros [= <-]. apply elsewhere_set.
  - unfold wait_done. destruct (running r !! i) as [e|]; [|done].
    destruct (stage e), (process e) as [[? []]|]; try done; intros [= <-]; apply elsewhere_set.
  - unfold runtime_up. destruct (running r !! i) as [e|]; [|done].
    destruct (stage e); try done. destruct (process e) as [[? []]|]; try done.
    destruct (ex_max_runtime_seconds _); [|done]. destruct answer; intros [= <-]; [..|apply elsewhere_delete].
    + eapply elsewhere_trans; [apply elsewhere_set|apply elsewhere_deliver].
    + eapply elsewhere_trans; [apply elsewhere_set|apply elsewhere_deliver].
  - unfold report_finished. destruct (running r !! i) as [e|]; [|done]. destruct (stage e); try done.
    destruct (reading e); [done|]. intros [= <-].
    eapply elsewhere_trans; [apply elsewhere_set|]. by apply elsewhere_push.
  - unfold clean_up. destruct (running r !! i) as [e|]; [|done]. destruct (stage e); try done.
    intros [= <-]. apply elsewhere_delete.
  - unfold sigkill_if_overdue. destruct (take_timer i (timers r)); [|done]. intros [= <-].
    destruct (running _ !! i); [|done]. eapply elsewhere_trans; [apply elsewhere_timers|apply elsewhere_deliver].
Qed.

Abbreviation since := (cancelled_since rid base).

Lemma set_entry_cancelled e e' r :
  running r !! rid = Some e → (doomed e → doomed e') → since r → since (set_entry rid e' r).
Proof using Type.
  intros H Hd. apply cancelled_keep; [done|]. intros e''. rewrite lookup_set_entry. intros [= <-]. eauto.
Qed.

Lemma deliver_cancelled e sig answer r : since r → since (deliver e sig answer r).
Proof using Type. apply cancelled_keep; [apply deliver_events|]. rewrite deliver_running. eauto. Qed.

Lemma delete_cancelled r : since r → since (r <| running := delete rid (running r) |>).
Proof using Type. apply cancelled_keep; [done|]. cbn. intros e. by rewrite lookup_delete_eq. Qed.

Lemma start_cancelled pid t path sent e r :
  since r → since (push_event (Started rid pid t path) sent (set_entry rid e r)).
Proof using Type.
  intros (evs & Hev & Hm). exists (evs ++ [Started rid pid t path]). split.
  - rewrite events_of_push, bool_decide_eq_true_2 by done.
    change (events_of rid (set_entry rid e r)) with (events_of rid r). by rewrite Hev, app_assoc.
  - rewrite first_mark_app. by destruct (first_mark evs).
Qed.

Lemma execute_cancelled h agent p now sent r :
  ex_reservation_id p = rid → since r → since (execute mock_mode platform agent_pid h agent p now sent r).2.
Proof using Type.
  intros Hi Hs. unfold execute. destruct (negb _); [done|]. destruct (is_some _); [done|]. destruct mock_mode.
  - unfold _execute_mock. destruct (mkdir_log_dir h _); [|done..]. destruct (touch_log h _); [|done..].
    cbn [snd]. rewrite Hi. by apply start_cancelled.
  - unfold _execute_linux. destruct (_resolve_user_or_error _ _); [done|]. destruct (negb _); [done|].
    destruct (mkdir_log_dir h _); [|done..]. destruct (touch_log h _); [|done..].
    destruct (spawn h _ _ _); [|done..]. cbn [snd]. rewrite Hi. by apply start_cancelled.
Qed.

Lemma cancel_cancelled reason answer r : since r → since (cancel rid reason answer r).2.
Proof using Type.
  intros Hs. unfold cancel. destruct (running r !! rid) as [e|] eqn:Hr; [|done].
  set (e' := e <| killed_reason := Some reason |>).
  apply (set_entry_cancelled e e') in Hs; [|done|].
  2:{ intros [_ Hd]. split; [by eexists|done]. }
  destruct (process e'); [|done]. destruct answer; [|done..]. exact (deliver_cancelled e' SIGTERM delivered _ Hs).
Qed.

Lemma wait_cancelled r r' : wait_done rid r = Some r' → since r → since r'.
Proof using Type.
  unfold wait_done. destruct (running r !! rid) as [e|] eqn:Hr; [|done]. intros Hl.
  destruct (stage e) eqn:Hst, (process e) as [[? []]|]; try done; injection Hl as <-;
    apply (set_entry_cancelled e); try done; intros [[k Hk] _]; split; cbn; rewrite ?Hk; done.
Qed.

Lemma runtime_cancelled answer r r' : runtime_up rid answer r = Some r' → since r → since r'.
Proof using Type.
  unfold runtime_up. destruct (running r !! rid) as [e|] eqn:Hr; [|done].
  destruct (stage e); try done. destruct (process e) as [[? []]|]; try done.
  destruct (ex_max_runtime_seconds _); [|done]. intros Hl Hs.
  destruct answer; injection Hl as <-; [| |by apply delete_cancelled];
    by apply deliver_cancelled, (set_entry_cancelled e).
Qed.

Lemma report_cancelled readable sent now r r' : report_finished rid readable sent now r = Some r' → since r → since r'.
Proof using Type.
  unfold report_finished. destruct (running r !! rid) as [e|] eqn:Hr; [|done].
  destruct (stage e) as [| |code killed|] eqn:Hst; try done. destruct (reading e); [done|].
  intros [= <-] (evs & Hev & Hm). eexists (evs ++ [_]). split.
  - rewrite events_of_push, bool_decide_eq_true_2 by done.
    change (events_of rid (set_entry _ _ _)) with (events_of rid r). by rewrite Hev, app_assoc.
  - rewrite first_mark_app. destruct (first_mark evs); [done|]. simpl.
    destruct (Hm _ Hr) as [Hk Hd]. by rewrite Hst in Hd.
Qed.

Lemma step_cancelled l r r' : step mock_mode platform agent_pid l r = Some r' → since r → since r'.
Proof using Type.
  intros Hl. pose proof (step_elsewhere _ _ _ Hl) as He.
  destruct l as [h a p now sent|i reason answer|i sent|i chunk written|i sent now|i code|i|i answer|i rd sent now|i|i answer];
    (match type of He with elsewhere ?i _ _ => destruct (decide (i = rid)) as [Hi|Hi];
       [try subst i|by apply (cancelled_elsewhere i)] end); simpl in Hl.
  - injection Hl as <-. by apply execute_cancelled.
  - injection Hl as <-. by apply cancel_cancelled.
  - unfold push_header in Hl. destruct (take_header rid (headers r)) as [[[text ts] hs]|]; [|done].
    injection Hl as <-. intros Hs. by apply cancelled_push.
  - unfold read_chunk in Hl. destruct (running r !! rid) as [e|] eqn:Hr; [|done]. destruct (negb _ || _); [done|].
    destruct (bool_decide _); injection Hl as <-; [by apply (set_entry_cancelled e)|].
    intros Hs. apply (set_entry_cancelled e); [by destruct written|done|by destruct written].
  - unfold push_chunk in Hl. destruct (running r !! rid) as [e|] eqn:Hr; [|done]. destruct (held e); [|done].
    injection Hl as <-. intros Hs. apply cancelled_push; [done|done|]. by apply (set_entry_cancelled e).
  - unfold process_exit in Hl. destruct (running r !! rid) as [e|] eqn:Hr; [|done].
    destruct (process e) as [[? []]|]; [done| |done]. injection Hl as <-. by apply (set_entry_cancelled e).
  - by eapply wait_cancelled.
  - by eapply runtime_cancelled.
  - by eapply report_cancelled.
  - unfold clean_up in Hl. destruct (running r !! rid) as [e|]; [|done]. destruct (stage e); try done.
    injection Hl as <-. apply delete_cancelled.
  - unfold sigkill_if_overdue in Hl. destruct (take_timer rid (timers r)); [|done]. injection Hl as <-.
    destruct (running _ !! rid); [|done]. intros Hs. by apply deliver_cancelled.
Qed.

Lemma steps_cancelled ls r r' : steps mock_mode platform agent_pid ls r = Some r' → since r → since r'.
Proof using Type.
  revert r. induction ls as [|l ls IH]; intros r; simpl; [by intros [= ->]|].
  destruct (step _ _ _ l r) as [r1|] eqn:Hl; [|done]. intros Hs Hc. eapply IH, step_cancelled; eauto.
Qed.
End cancelled.

(** ** Properties *)

(** C20: Whatever the order in which the runner's tasks, its requests and the
    processes move between their awaits, the events it pushes for a
    reservation form a story: the report follows the start it belongs to and
    repeats its instant and log, no start is reported twice, a kill comes with
    its reason, and output comes between a start and its report -- the mock's
    one header, after its start, at the latest once no header is due.  While a
    script is in the runner its start is the open one, until the report is
    pushed. *)
Theorem script_event_order mock_mode platform agent_pid ls r rid :
  steps mock_mode platform agent_pid ls fresh_runner = Some r →
  ∃ cur, story mock_mode (None, 0%nat) (events_of rid r) = Some (cur, length (due rid r)) ∧
    (mock_mode = false → due rid r = []) ∧
    ∀ e, running r !! rid = Some e → cur = entry_open e.
Proof.
  intros Hs. destruct (steps_ok _ _ _ _ _ _ Hs (fresh_ok _) rid) as [_ Hn (cur & Hc & He)].
  exists cur. split; [done|]. split; [done|]. intros e H. by destruct (He e H).
Qed.

(** A script that the runner holds is never lost: from any state it can
    reach, once the process has ended its tasks, run to their ends, push what
    was read of its output, then one report with the exit code, the size of the log and whether the platform
    killed it, and let go of the reservation; nothing else changes. *)
Theorem script_end_reported mock_mode platform agent_pid ls r rid e code sent now :
  steps mock_mode platform agent_pid ls fresh_runner = Some r →
  running r !! rid = Some e → stage e ≠ Reported →
  steps mock_mode platform agent_pid (finishing rid code sent now e) r =
    Some (push_event (report_of rid code now r e) sent (flush_held rid sent now e r)
            <| running := delete rid (running r) |>).
Proof.
  intros Hs He Hst. destruct (steps_ok _ _ _ _ _ _ Hs (fresh_ok _) rid) as [_ _ (cur & _ & Hc)].
  apply finishing_run; [done| |done]. by destruct (Hc e He).
Qed.

(** C21: A cancel that reaches a script before its process was seen to end is
    reported: whatever happens afterwards, the next report of this
    reservation says that the platform killed it, with a reason -- which is
    what the backend's cancel waits for. *)
Theorem cancelled_script_reported mock_mode platform agent_pid rid reason answer r e ls r' evs :
  running r !! rid = Some e → stage e = Waiting ∨ stage e = Overrun →
  steps mock_mode platform agent_pid ls (cancel rid reason answer r).2 = Some r' →
  events_of rid r' = events_of rid r ++ evs →
  match first_mark evs with Some m => kill_reported m | None => True end.
Proof.
  intros He Hst Hs Hev.
  assert (Hc : cancelled_since rid (events_of rid r) (cancel rid reason answer r).2).
  { destruct (cancel_effect rid reason answer r e He) as [H1 H2].
    exists []. rewrite app_nil_r. split; [apply H1|]. cbn [first_mark]. rewrite H2. intros e0.
    rewrite lookup_insert_eq. intros [= <-]. split; [by eexists|]. cbn. by destruct Hst as [-> | ->]. }
  apply (steps_cancelled _ _ _ _ _ _ _ _ Hs) in Hc as (evs' & Hev' & Hm). rewrite Hev in Hev'.
  apply app_inv_head in Hev' as ->. by destruct (first_mark evs').
Qed.

(** ** Closed instances *)

Definition willing_host (pid : Z) : script_host :=
  mkScriptHost (λ _, Some 1001) true (λ _, io_ok tt) (λ _, io_ok tt) (λ _ _ _, io_ok pid).

Definition sample_script_request (max_runtime : option Z) : ExecuteScriptRequest :=
  mkExecute 100 "alice" "python train.py" None [] max_runtime "/home/alice/.corelab/jobs/100.log".

Definition start_script (pid : Z) (max_runtime : option Z) : label :=
  Execute (willing_host pid) fresh_agent (sample_script_request max_runtime) 5 true.

Abbreviation run := (steps false ("Linux", "6.8", "linux")%string 1).

(** A script that prints, is cancelled, and ends. *)
Definition cancelled_run : list label :=
  [ start_script 4242 None; ReadChunk 100 [104; 105]%N true; PushChunk 100 true 6 ;
    Cancel 100 "user_cancel" delivered ;
    ProcessExit 100 (-15); WaitDone 100; ReadChunk 100 [] false; Report 100 true true 8; CleanUp 100 ].

Definition cancelled_events : list event :=
  [ Started 100 4242 5 "/home/alice/.corelab/jobs/100.log"; OutputChunk 100 (u "hi") 6 ;
    Finished 100 (Some (-15)) 5 8 2 "/home/alice/.corelab/jobs/100.log" true (Some "user_cancel"%string) ].

Lemma script_event_order_witness :
  ∃ r cur, run cancelled_run fresh_runner = Some r ∧ events_of 100 r = cancelled_events ∧
    story false (None, 0%nat) cancelled_events = Some (cur, 0%nat).
Proof.
  destruct (run cancelled_run fresh_runner) as [r|] eqn:Hr; [|by vm_compute in Hr].
  destruct (script_event_order _ _ _ _ r 100 Hr) as (cur & Hc & Hn & _). exists r, cur.
  assert (He : events_of 100 r = cancelled_events) by (vm_compute in Hr; by injection Hr as <-).
  rewrite (Hn eq_refl) in Hc. split; [done|]. rewrite He in Hc. done.
Defined.

Lemma script_end_reported_witness :
  ∃ r e, run [start_script 4242 None] fresh_runner = Some r ∧ running r !! 100 = Some e ∧
    steps false ("Linux", "6.8", "linux")%string 1 (finishing 100 3 true 9 e) r =
      Some (push_event (report_of 100 3 9 r e) true (flush_held 100 true 9 e r)
              <| running := delete 100 (running r) |>) ∧
    report_of 100 3 9 r e =
      Finished 100 (Some 3) 5 9 0 "/home/alice/.corelab/jobs/100.log" false None.
Proof.
  destruct (run [start_script 4242 None] fresh_runner) as [r|] eqn:Hr; [|by vm_compute in Hr].
  destruct (running r !! 100) as [e|] eqn:He; [|vm_compute in Hr; injection Hr as <-; by vm_compute in He].
  exists r, e. split; [done|]. split; [done|]. split.
  - apply (script_end_reported _ _ _ _ _ _ _ _ _ _ Hr He). vm_compute in Hr. injection Hr as <-.
    vm_compute in He. by injection He as <-.
  - vm_compute in Hr. injection Hr as <-. vm_compute in He. injection He as <-. by vm_compute.
Defined.

Lemma cancelled_script_reported_witness :
  ∃ r r' evs, run (take 3 cancelled_run) fresh_runner = Some r ∧ run (drop 4 cancelled_run) (cancel 100 "user_cancel" delivered r).2 = Some r' ∧
    events_of 100 r' = events_of 100 r ++ evs ∧
    (match first_mark evs with Some m => kill_reported m | None => True end) ∧
    first_mark evs = last cancelled_events.
Proof.
  destruct (run (take 3 cancelled_run) fresh_runner) as [r|] eqn:Hr; [|by vm_compute in Hr].
  destruct (run (drop 4 cancelled_run) (cancel 100 "user_cancel" delivered r).2) as [r'|] eqn:Hr'.
  2:{ vm_compute in Hr. injection Hr as <-. by vm_compute in Hr'. }
  destruct (running r !! 100) as [e|] eqn:He; [|vm_compute in Hr; injection Hr as <-; by vm_compute in He].
  assert (Hev : events_of 100 r' = events_of 100 r ++ drop 2 cancelled_events).
  { vm_compute in Hr. injection Hr as <-. vm_compute in Hr'. by injection Hr' as <-. }
  exists r, r', (drop 2 cancelled_events). split; [done|]. split; [done|]. split; [done|]. split; [|done].
  assert (Hst : stage e = Waiting).
  { vm_compute in Hr. injection Hr as <-. vm_compute in He. by injection He as <-. }
  exact (cancelled_script_reported _ _ _ _ _ _ _ e _ _ _ He (or_introl Hst) Hr' Hev).
Defined.

(** The mock pushes its header once [started] is out: when the connection is
    slow, its timer reports the end first. *)
Definition mock_run : list label :=
  [ start_script 4242 None; WaitDone 100; Report 100 true true 7; PushHeader 100 true ].

Example mock_header_after_report :
  ∃ r text, steps true ("Darwin", "23", "darwin")%string 77 mock_run fresh_runner = Some r ∧
    events_of 100 r =
      [ Started 100 77 5 "/tmp/corelab-agent/script-mock/reservation-100.log";
        Finished 100 (Some 0) 5 7 144 "/tmp/corelab-agent/script-mock/reservation-100.log" false None;
        OutputChunk 100 text 5 ].
Proof. eexists _, _. split; by vm_compute. Qed.

(** The delayed kill looks its reservation up again: started anew within the
    five seconds, the script's successor gets the [SIGKILL], and no kill is
    reported. *)
Definition restarted_run : list label :=
  cancelled_run ++ [ start_script 4300 None; Overdue 100 delivered; ProcessExit 100 (-9); WaitDone 100 ;
                     ReadChunk 100 [] false; Report 100 true true 10 ].

Example fallback_kills_successor :
  ∃ r, run restarted_run fresh_runner = Some r ∧ signals r = [(4242, SIGTERM); (4300, SIGKILL)] ∧
    last (events_of 100 r) =
      Some (Finished 100 (Some (-9)) 5 10 2 "/home/alice/.corelab/jobs/100.log" false None).
Proof. eexists. split; [by vm_compute|]. by vm_compute. Qed.

(** A cancel that comes when the process has ended but its output has not been
    read to the end is answered as done, and never confirmed. *)
Definition late_run : list label :=
  [ start_script 4242 None; ProcessExit 100 0; WaitDone 100; Cancel 100 "user_cancel" delivered ;
    ReadChunk 100 [] false; Report 100 true true 8 ].

Example late_cancel_unconfirmed :
  ∃ r, run late_run fresh_runner = Some r ∧ signals r = [] ∧
    last (events_of 100 r) =
      Some (Finished 100 (Some 0) 5 8 0 "/home/alice/.corelab/jobs/100.log" false (Some "user_cancel"%string)) ∧
    (match run (take 3 late_run) fresh_runner with
     | Some r3 => (cancel 100 "user_cancel" delivered r3).1
     | None => None
     end) = Some (mkCancelResponse true true None None).
Proof. eexists. split; [by vm_compute|]. by vm_compute. Qed.

(** The signal of an unprivileged agent to a process that [sudo] runs as root
    is refused: the cancel leaves no answer, and a script that overran is
    forgotten while it runs. *)
Example refused_kill_forgets_script :
  ∃ r, run [start_script 4242 (Some 60); RuntimeUp 100 (PermissionError "EPERM")] fresh_runner = Some r ∧
    running r !! 100 = None ∧ signals r = [] ∧
    (pushed r).*1 = [Started 100 4242 5 "/home/alice/.corelab/jobs/100.log"] ∧
    (match run [start_script 4242 None] fresh_runner with
     | Some r1 => (cancel 100 "user_cancel" (PermissionError "EPERM") r1).1
     | None => None
     end) = None.
Proof. eexists. split; [by vm_compute|]. by vm_compute. Qed.

(** Output is decoded chunk by chunk: a character on the border of two reads
    is lost. *)
Example split_character_lost :
  decode [195; 169]%N = [233]%N ∧ decode [195]%N ++ decode [169]%N = [REPLACEMENT; REPLACEMENT].
Proof. by vm_compute. Qed.
