(* ===== verification/AgentHandlers.v ===== *)
(** What an agent does with the frames the backend sends it
    ([src/agent/corelab_agent/ws_client.py], [_maybe_dispatch_rpc] and the
    branches of [_invoke_handler] that work on the agent's caches, and the
    manual kill).

    The readers below take a field of a validated frame; [Protocol] shows
    that the field is there and has its type, so their defaults are never
    used. *)

From S2P Require Import Prelude Schema AgentRpc Protocol AgentCaches.
From S2P Require Import ProcessKiller.

(** ** Fields of a validated frame *)

Definition text (v : json) : string := match v with JStr s => s | _ => "" end.
Definition integer (v : json) : Z := match v with JInt z => z | _ => 0 end.
Definition opt_integer (v : json) : option Z := match v with JInt z => Some z | _ => None end.
Definition boolean_of (v : json) : bool := match v with JBool b => b | _ => false end.
Definition items (v : json) : list json := match v with JList l => l | _ => [] end.
Definition entries (v : json) : list (string * json) := match v with JObj o => o | _ => [] end.
Definition opt_dict (v : json) : option json := match v with JObj _ => Some v | _ => None end.

(** The body of the loop of [policy_cache.apply_sync]. *)
Definition read_policy (entry : json) : PolicyEntry :=
  mkPolicyEntry (text (get_field "key" entry)) (boolean_of (get_field "enabled" entry))
    (text (get_field "severity" entry)) (opt_dict (get_field "threshold_value" entry))
    (opt_integer (get_field "grace_period_seconds" entry))
    (boolean_of (get_field "notify_admin" entry)).

Definition read_reservation (item : json) : ActiveReservation :=
  mkActiveReservation (integer (get_field "reservation_id" item)) (integer (get_field "gpu_id" item))
    (text (get_field "start_at" item)) (text (get_field "end_at" item))
    (text (get_field "status" item)) (opt_integer (get_field "gpu_memory_mb" item))
    (opt_integer (get_field "gpu_compute_share_pct" item)) (text (get_field "source" item)).

Section handlers.
Context (coerce : scalar → json → option json) (isoformat : Z → string).
Context (int_of_str : string → option Z).

(** [_parse_active_reservations] *)
Definition _parse_active_reservations (raw : list (string * json)) : gmap Z (list ActiveReservation) :=
  foldl (λ out p, match int_of_str p.1 with
                  | Some user_id => <[user_id := read_reservation <$> items p.2]> out
                  | None => out
                  end) ∅ raw.

(** One entry of [payload.entries], dumped in JSON mode. *)
Definition read_link_entry (entry : json) : string * CacheEntry :=
  (text (get_field "linux_username" entry),
   mkCacheEntry (integer <$> items (get_field "user_ids" entry))
     (_parse_active_reservations (entries (get_field "active_reservations" entry)))).

(** ** Handlers: the reply and the agent after it *)

Definition reply : Type := string * json.

Definition handle_policy_sync (p : json) (s : AgentState) : reply * AgentState :=
  let '(_, s) := apply_sync (integer (get_field "server_id" p))
                   (read_policy <$> items (get_field "policies" p))
                   (text (get_field "etag" p)) s in
  (("agent.policy.sync.response"%string,
    JObj [("ok", JBool true); ("applied", JBool true); ("etag_now", get_field "etag" p);
          ("error", JNull)]%string), s).

Definition handle_link_sync (p : json) (now : Z) (s : AgentState) : reply * AgentState :=
  let es := read_link_entry ∘ to_wire isoformat <$> items (get_field "entries" p) in
  let sid := integer (get_field "server_id" p) in
  let '(count, s) :=
    if bool_decide (text (get_field "mode" p) = "full"%string)
    then apply_full_snapshot sid es now s
    else apply_incremental sid es (text <$> items (get_field "removed_linux_usernames" p)) s in
  (("agent.account_link_cache.sync.response"%string,
    JObj [("ok", JBool true); ("applied", JBool true); ("entries_count", JInt count);
          ("error", JNull)]%string), s).

Definition handle_capability_sync (p : json) (s : AgentState) : reply * AgentState :=
  let es := items (get_field "capabilities" p) in
  (("agent.capability.sync.ack"%string,
    JObj [("ok", JBool true); ("applied_count", JInt (Z.of_nat (length es))); ("error", JNull)]%string),
   apply_capabilities
     ((λ e, (text (get_field "key" e), boolean_of (get_field "enabled" e))) <$> es) s).

Definition handle_gpu_kill (h : host) (mock : bool) (p : json) (s : AgentState) :
    reply * list (Z * Signal) :=
  let '(r, sent) := kill_pid h mock (integer (get_field "pid" p)) s in
  (("agent.gpu.kill_process.response"%string,
    JObj [("ok", JBool (kr_ok r)); ("killed", JBool (kr_killed r)); ("error", jopt JStr (kr_error r));
          ("mock_warning", jopt JStr (kr_mock_warning r))]%string), sent).

(** ** The receive loop *)

Inductive dispatched : Type :=
| closed_1003                         (* an invalid frame closes the connection *)
| not_rpc                             (* left to [on_message] *)
| answered (frame : json) (sent : list (Z * Signal))
| other_handler.                      (* a request not served from the caches *)

(** [_maybe_dispatch_rpc] on a decoded text; [env] feeds the defaults of the
    request, [reply_id] and [ts] are those of the reply's envelope. *)
Definition _maybe_dispatch_rpc (h : host) (mock : bool) (env : factories) (reply_id : string)
    (ts mono : Z) (raw : json) (s : AgentState) : dispatched * AgentState :=
  match parse_envelope coerce env raw with
  | Raise _ => (closed_1003, s)
  | Ok (envelope, p) =>
      let ty := envelope_type envelope in
      let respond (r : reply * AgentState) (sent : list (Z * Signal)) :=
        (answered (to_wire isoformat
           (make_envelope isoformat r.1.1 reply_id ts r.1.2
              (Some (text (get_field "id" envelope))))) sent, r.2) in
      if negb (bool_decide (ty ∈ RPC_REQUEST_TYPES)) then (not_rpc, s)
      else if bool_decide (ty = "backend.policy.sync"%string) then respond (handle_policy_sync p s) []
      else if bool_decide (ty = "backend.account_link_cache.sync"%string)
      then respond (handle_link_sync p mono s) []
      else if bool_decide (ty = "backend.capability.sync"%string) then respond (handle_capability_sync p s) []
      else if bool_decide (ty = "backend.gpu.kill_process"%string) then
        let '(r, sent) := handle_gpu_kill h mock p s in respond (r, s) sent
      else (other_handler, s)
  end.
End handlers.
