(* ===== verification/WsClient.v ===== *)
(** The agent's side of the connection
    ([src/agent/corelab_agent/ws_client.py]): the addresses it connects to,
    the delays between attempts, the handlers of every request, a session and
    the loop around the sessions.

    The handlers that work on the caches are in [AgentHandlers]; here are the
    others and their composition.  The host is a state [S] with what its
    commands do to it; an exception that leaves a handler ends the session. *)

From S2P Require Import Prelude PyText Schema AgentRpc Protocol.
From S2P Require Import AgentConfig AgentCaches ProcessKiller AuthorizedKeys HostAccounts.
From S2P Require Import AgentHandlers ScriptRunner.
From Stdlib Require Import QArith.
#[local] Open Scope Z_scope.

(** ** Delays *)

Definition DEFAULT_BACKOFF_SCHEDULE : list Q := [1; 2; 5; 15; 30]%Q.

(** [min(a, b)] *)
Definition Q_min (a b : Q) : Q := if Qle_bool a b then a else b.

Definition next_backoff_seconds (attempt : Z) (max_seconds : Q) : Q :=
  if bool_decide (attempt < 1) then 0%Q
  else
    let idx := Z.min (attempt - 1) (Z.of_nat (length DEFAULT_BACKOFF_SCHEDULE) - 1) in
    Q_min (nth (Z.to_nat idx) DEFAULT_BACKOFF_SCHEDULE 0%Q) max_seconds.

(** ** Addresses *)

(** [a or b] *)
Definition token_of (c : AgentConfig) : option string :=
  if str_truthy (agent_token c) then agent_token c else enrollment_token c.

Definition _build_connect_url_from_base (c : AgentConfig) (base : pystr) : pystr :=
  let base := rstrip_slash base in
  let base := if startswith base (u "https://") then u "wss://" ++ drop 8 base
              else if startswith base (u "http://") then u "ws://" ++ drop 7 base else base in
  let path := if endswith base (u "/ws/agent") then [] else u "/ws/agent" in
  let params := (if str_truthy (token_of c) then [u "token=" ++ text_of (default "" (token_of c))] else []) ++
                (match server_id c with Some i => [u "server_id=" ++ decimal_text i] | None => [] end) in
  match params with
  | [] => base ++ path
  | _ => base ++ path ++ u "?" ++ join (u "&") params
  end.

Definition build_connect_urls (c : AgentConfig) : list pystr :=
  _build_connect_url_from_base c ∘ text_of <$> backend_urls c.

(** ** The client *)

Record surroundings (S : Type) : Type := mkSurroundings {
  kill_host : ProcessKiller.host ;
  key_runner : command → S → CommandResult * S ;
  key_user : S → pystr → option UserInfo ;
  group_name : Z → pystr ;
  body_digest : pystr → option pystr ;
  account_runner : list pystr → S → CommandResult * S ;
  account_user : S → pystr → option PasswdInfo ;
  which : string → option pystr ;
  authenticate : pystr → pystr → pam_answer ;
  ssh_keygen : list pystr → pystr → pystr → CommandResult + pystr ;
  sig_file : pystr ;
  scripts : script_host ;
  terminate : Z → os_answer ;
  platform : string * string * string ;
  agent_pid : Z ;
  keys_message : keys_error → string ;          (* [str(exc)] *)
  write_error : option string }.                (* an [OSError] of the write of agent.toml *)
Arguments kill_host {S}.
Arguments key_runner {S}.
Arguments key_user {S}.
Arguments group_name {S}.
Arguments body_digest {S}.
Arguments account_runner {S}.
Arguments account_user {S}.
Arguments which {S}.
Arguments authenticate {S}.
Arguments ssh_keygen {S}.
Arguments sig_file {S}.
Arguments scripts {S}.
Arguments terminate {S}.
Arguments platform {S}.
Arguments agent_pid {S}.
Arguments keys_message {S}.
Arguments write_error {S}.

(** [config_file]: the path of agent.toml is known ([Some]) and holds a
    text, if there is a file. *)
Record Client (S : Type) : Type := mkClient {
  agent : AgentState ;
  config : AgentConfig ;
  config_file : option (option pystr) ;
  last_snapshot : option (list json) ;
  runner : Runner ;
  on_host : S }.
Arguments mkClient {S}.
Arguments agent {S}.
Arguments config {S}.
Arguments config_file {S}.
Arguments last_snapshot {S}.
Arguments runner {S}.
Arguments on_host {S}.
#[export] Instance eta_Client S : Eta (Client S) := λ c,
  mkClient (agent c) (config c) (config_file c) (last_snapshot c) (runner c) (on_host c).

(** Fields of a validated frame, as text. *)
Definition text_field (k : string) (p : json) : pystr := text_of (text (get_field k p)).
Definition opt_text_field (k : string) (p : json) : option pystr :=
  match get_field k p with JStr s => Some (text_of s) | _ => None end.
Definition jtext (s : pystr) : json := JStr (utf8 s).

Section handlers.
Context {S : Type} (h : surroundings S).

(** What a handler leaves: its response, [None] for an exception, and the
    client. *)
Abbreviation handled := (option AgentHandlers.reply * Client S)%type.

Definition response (ty : string) (fields : list (string * json)) : option AgentHandlers.reply :=
  Some (ty, JObj fields).

Definition handle_verify_sig (mock : bool) (p : json) (c : Client S) : handled :=
  match verify_sig (ssh_keygen h) (sig_file h) (text_field "linux_username" p) (text_field "nonce" p)
          (text_field "namespace" p) (text_field "signature_armored" p) mock (agent c) with
  | Raise _ => (None, c)
  | Ok r => (response "agent.ssh.verify_sig.response"
               [("ok", JBool (vr_ok r)); ("signer_fingerprint", jopt jtext (signer_fingerprint r));
                ("error", jopt jtext (vr_error r))]%string, c)
  end.

Definition handle_pam (mock : bool) (p : json) (c : Client S) : handled :=
  match pam_verify (authenticate h) (text_field "linux_username" p) (text_field "password" p) mock (agent c) with
  | Raise _ => (None, c)
  | Ok r => (response "agent.pam.verify.response"
               [("verify_ok", JBool (verify_ok r)); ("mock_warning", jopt jtext (pam_mock_warning r));
                ("error", jopt jtext (pam_error r))]%string, c)
  end.

Definition KEYS_MOCK_WARNING : string := "platform=Darwin, no real authorized_keys mutation".
Definition mocked (b : bool) : json := if b then JStr KEYS_MOCK_WARNING else JNull.

Definition handle_key_push (mock : bool) (p : json) (c : Client S) : handled :=
  let '(r, s) := push (body_digest h) (key_runner h) (key_user h (on_host c)) (group_name h)
                   (text_field "linux_username" p) (text_field "public_key" p) (text_field "label" p)
                   mock (agent c) (on_host c) in
  let c := c <| on_host := s |> in
  match r with
  | Raise _ => (None, c)
  | Ok r => (response "agent.authorized_key.push.response"
               [("installed_path", jtext (installed_path r)); ("fingerprint", jtext (fingerprint r));
                ("mock_warning", mocked (push_mocked r))]%string, c)
  end.

Definition handle_key_revoke (mock : bool) (p : json) (c : Client S) : handled :=
  let '(r, s) := revoke (body_digest h) (key_runner h) (key_user h (on_host c)) (group_name h)
                   (text_field "linux_username" p) (text_field "fingerprint" p) mock (agent c) (on_host c) in
  let c := c <| on_host := s |> in
  match r with
  | Raise _ => (None, c)
  | Ok r => (response "agent.authorized_key.revoke.response"
               [("revoked", JBool (revoked r)); ("mock_warning", mocked (revoke_mocked r))]%string, c)
  end.

Definition key_json (k : ReadKeyEntry) : json :=
  JObj [("line_number", JInt (line_number k)); ("fingerprint_sha256", jtext (fingerprint_sha256 k));
        ("key_type", jtext (key_type k)); ("comment", jopt jtext (comment k))]%string.

(** [AuthorizedKeysError] and its subclasses are answered. *)
Definition handle_key_read (mock : bool) (p : json) (c : Client S) : handled :=
  let '(r, s) := read (body_digest h) (key_runner h) (key_user h (on_host c)) (text_field "linux_username" p) mock
                   (on_host c) in
  let c := c <| on_host := s |> in
  match r with
  | Raise CapabilityDisabledError => (None, c)
  | Raise e => (response "agent.authorized_key.read.response"
                  [("ok", JBool false); ("authorized_keys_path", JNull); ("line_count", JInt 0);
                   ("invalid_line_count", JInt 0); ("keys", JList []); ("mock_warning", JNull);
                   ("error", JStr (keys_message h e))]%string, c)
  | Ok r => (response "agent.authorized_key.read.response"
               [("ok", JBool true); ("authorized_keys_path", jtext (authorized_keys_path r));
                ("line_count", JInt (line_count r)); ("invalid_line_count", JInt (invalid_line_count r));
                ("keys", JList (key_json <$> keys r)); ("mock_warning", mocked (read_mocked r));
                ("error", JNull)]%string, c)
  end.

Definition handle_useradd (mock : bool) (p : json) (c : Client S) : handled :=
  let '(r, s) := useradd (account_runner h) (account_user h) (which h) (text_field "linux_username" p)
                   (opt_integer (get_field "uid" p)) (opt_integer (get_field "gid" p))
                   (opt_text_field "home_directory" p) (opt_text_field "default_shell" p) mock (agent c)
                   (on_host c) in
  let c := c <| on_host := s |> in
  match r with
  | Raise _ => (None, c)
  | Ok r => (response "agent.linux.useradd.response"
               [("ok", JBool (ua_ok r)); ("uid", jopt JInt (ua_uid r)); ("gid", jopt JInt (ua_gid r));
                ("home_directory", jopt jtext (ua_home r)); ("default_shell", jopt jtext (ua_shell r));
                ("error", jopt jtext (ua_error r)); ("mock_warning", jopt JStr (ua_mock_warning r))]%string, c)
  end.

Definition handle_userdel (mock : bool) (p : json) (c : Client S) : handled :=
  let '(r, s) := userdel (account_runner h) (account_user h) (which h) (text_field "linux_username" p)
                   (boolean_of (get_field "remove_home" p)) mock (agent c) (on_host c) in
  let c := c <| on_host := s |> in
  match r with
  | Raise _ => (None, c)
  | Ok r => (response "agent.linux.userdel.response"
               [("ok", JBool (ud_ok r)); ("error", jopt jtext (ud_error r));
                ("mock_warning", jopt JStr (ud_mock_warning r))]%string, c)
  end.

Definition read_execute (p : json) : ExecuteScriptRequest :=
  mkExecute (integer (get_field "reservation_id" p)) (text (get_field "linux_username" p))
    (text (get_field "script" p)) (match get_field "working_directory" p with JStr s => Some s | _ => None end)
    ((λ v, (v.1, text v.2)) <$> entries (get_field "env" p)) (opt_integer (get_field "max_runtime_seconds" p))
    (text (get_field "stdout_log_path_hint" p)).

(** The handler goes on from [started] to the header of the mock, if there is
    one to push. *)
Definition handle_execute (mock sent : bool) (now : Z) (p : json) (c : Client S) : handled :=
  let '(r, rn) := execute mock (platform h) (agent_pid h) (scripts h) (agent c) (read_execute p) now sent (runner c) in
  let rn := match r with
            | Some (mkExecuteResponse _ true _ _ _ (Some _)) =>
                default rn (push_header (ex_reservation_id (read_execute p)) sent rn)
            | _ => rn
            end in
  let c := c <| runner := rn |> in
  match r with
  | None => (None, c)
  | Some r => (response "agent.script.execute.response"
                 [("ok", JBool (er_ok r)); ("started", JBool (er_started r)); ("pid", jopt JInt (er_pid r));
                  ("log_path", jopt JStr (er_log_path r)); ("error", jopt JStr (er_error r));
                  ("mock_warning", jopt JStr (er_mock_warning r))]%string, c)
  end.

Definition handle_cancel (p : json) (c : Client S) : handled :=
  let rid := integer (get_field "reservation_id" p) in
  let '(r, rn) := cancel rid (text (get_field "reason" p)) (terminate h rid) (runner c) in
  let c := c <| runner := rn |> in
  match r with
  | None => (None, c)
  | Some r => (response "agent.script.cancel.response"
                 [("ok", JBool (cr_ok r)); ("cancelled", JBool (cr_cancelled r));
                  ("detail", jopt JStr (cr_detail r)); ("mock_warning", jopt JStr (cr_mock_warning r))]%string, c)
  end.

(** [_persist_backend_urls]: read, rewrite, write beside, rename; an
    [OSError] leaves the file. *)
Definition _persist_backend_urls (new_urls : list string) (file : option pystr) : option pystr + string :=
  match write_error h with
  | Some m => inr m
  | None => inl (Some (_rewrite_backend_urls_in_toml (default [] file) (text_of <$> new_urls)))
  end.

Definition handle_update_urls (p : json) (c : Client S) : handled :=
  let new_urls := text <$> items (get_field "urls" p) in
  let ack (applied : list string) (error : option string) :=
    response "agent.config.update_urls.ack"
      [("ok", JBool (negb (is_some error))); ("applied_urls", JList (JStr <$> applied));
       ("error", jopt JStr error)]%string in
  match new_urls with
  | [] => (ack [] (Some "empty url list"%string), c)
  | _ =>
      let c := c <| config := config c <| backend_urls := new_urls |> |> in
      match config_file c with
      | None => (ack new_urls None, c)
      | Some file =>
          match _persist_backend_urls new_urls file with
          | inr m => (ack [] (Some ("persist failed: " +:+ m)%string), c)
          | inl file => (ack new_urls None, c <| config_file := Some file |>)
          end
      end
  end.

(** [_invoke_handler], the branches that [AgentHandlers] leaves; a request
    without one is a [RuntimeError]. *)
Definition invoke_other (sent : bool) (now : Z) (ty : string) (p : json) (c : Client S) : handled :=
  let mock := mock_mode (config c) in
  if bool_decide (ty = "backend.ssh.verify_sig"%string) then handle_verify_sig mock p c
  else if bool_decide (ty = "backend.pam.verify"%string) then handle_pam mock p c
  else if bool_decide (ty = "backend.authorized_key.push"%string) then handle_key_push mock p c
  else if bool_decide (ty = "backend.authorized_key.revoke"%string) then handle_key_revoke mock p c
  else if bool_decide (ty = "backend.authorized_key.read"%string) then handle_key_read mock p c
  else if bool_decide (ty = "backend.script.execute"%string) then handle_execute mock sent now p c
  else if bool_decide (ty = "backend.script.cancel"%string) then handle_cancel p c
  else if bool_decide (ty = "backend.linux.useradd"%string) then handle_useradd mock p c
  else if bool_decide (ty = "backend.linux.userdel"%string) then handle_userdel mock p c
  else if bool_decide (ty = "backend.config.update_urls"%string) then handle_update_urls p c
  else (None, c).
End handlers.

(** ** The receive loop *)

(** A text that arrived, [None] when it is not JSON, and what the handling of
    it draws: defaults of the request, id and time of the reply, the clocks,
    whether the connection takes what is sent. *)
Record received : Type := mkReceived {
  rx_raw : option json ;
  rx_defaults : factories ;
  rx_reply_id : string ;
  rx_now : Z ;
  rx_mono : Z ;
  rx_sent : bool }.

Inductive turn : Type :=
| closing                           (* closed with 1003 *)
| passed                            (* no request: [on_message], which nothing sets *)
| replied (frame : json) (signals : list (Z * Signal))
| raised.                           (* an exception leaves [_pump] *)

(** What happens on a connection: a frame arrives, or the accounts are
    scanned again. *)
Inductive session_event : Type :=
| Frame (f : received)
| Rescan (getpwall : option (list struct_passwd)) (id : string) (now : Z) (sent : bool).

Inductive session_end : Type := Clean | Broken.

Section client.
Context (coerce : scalar → json → option json) (isoformat : Z → string) (int_of_str : string → option Z).
Context {S : Type} (h : surroundings S).

(** [_maybe_dispatch_rpc]; the reply is lost, and the session with it, when
    the connection does not take it. *)
Definition dispatch (f : received) (c : Client S) : turn * Client S :=
  match rx_raw f with
  | None => (closing, c)
  | Some raw =>
      match AgentHandlers._maybe_dispatch_rpc coerce isoformat int_of_str (kill_host h) (mock_mode (config c))
              (rx_defaults f) (rx_reply_id f) (rx_now f) (rx_mono f) raw (agent c) with
      | (closed_1003, _) => (closing, c)
      | (not_rpc, _) => (passed, c)
      | (answered frame signals, a) =>
          (if rx_sent f then replied frame signals else raised, c <| agent := a |>)
      | (other_handler, _) =>
          match parse_envelope coerce (rx_defaults f) raw with
          | Raise _ => (closing, c)
          | Ok (envelope, p) =>
              match invoke_other h (rx_sent f) (rx_now f) (envelope_type envelope) p c with
              | (None, c) => (raised, c)
              | (Some r, c) =>
                  (if rx_sent f then
                     replied (to_wire isoformat (make_envelope isoformat r.1 (rx_reply_id f) (rx_now f) r.2
                                                   (Some (text (get_field "id" envelope))))) []
                   else raised, c)
              end
          end
      end
  end.

(** [_send_account_scan]: the frame written, if any. *)
Definition _send_account_scan (force : bool) (getpwall : option (list struct_passwd)) (id : string) (now : Z)
    (sent : bool) (c : Client S) : option json * Client S :=
  match scan getpwall (mock_mode (config c)) (mock_accounts (config c)) with
  | None => (None, c)
  | Some rep =>
      let snapshot := items (get_field "entries" rep) in
      if negb force && match last_snapshot c with Some l => py_eq (JList snapshot) (JList l) | None => false end
      then (None, c)
      else if sent then
        (Some (to_wire isoformat (make_envelope isoformat "agent.account_scan.report" id now rep None)),
         c <| last_snapshot := Some snapshot |>)
      else (None, c)
  end.

(** [_connect_once] after the handshake: the scan, then events until the
    connection ends, closed by the other side ([close]) or by an exception. *)
Fixpoint session (evs : list session_event) (close : session_end) (c : Client S) : session_end * Client S :=
  match evs with
  | [] => (close, c)
  | Frame f :: evs =>
      match dispatch f c with
      | (closing, c) | (raised, c) => (Broken, c)
      | (_, c) => session evs close c
      end
  | Rescan getpwall id now sent :: evs => session evs close (_send_account_scan false getpwall id now sent c).2
  end.

(** ** The loop around the sessions *)

(** An attempt: the handshake fails, or a session of which the first event is
    the forced scan. *)
Inductive attempt_outcome : Type :=
| Refused
| Connected (getpwall : option (list struct_passwd)) (id : string) (now : Z) (sent : bool)
    (evs : list session_event) (close : session_end).

Inductive action : Type := Tried (url : pystr) (connected : bool) | Waited (delay : Q).

(** [world] answers the attempts, by their number and address, and says
    whether [request_stop] came meanwhile; [stops] says it of the waits. *)
Context (world : nat → pystr → attempt_outcome * bool) (stops : nat → bool).

Record Loop : Type := mkLoop {
  client : Client S ;
  attempt : Z ;
  stopped : bool ;
  tries : nat ;
  waits : nat ;
  trace : list action }.

(** The result is [any_connected]. *)
Fixpoint try_urls (urls : list pystr) (l : Loop) : bool * Loop :=
  match urls with
  | [] => (false, l)
  | url :: urls =>
      let '(outcome, stop) := world (tries l) url in
      match outcome with
      | Refused =>
          let l := mkLoop (client l) (attempt l) (stopped l || stop) (Datatypes.S (tries l)) (waits l)
                     (trace l ++ [Tried url false]) in
          if stopped l then (false, l) else try_urls urls l
      | Connected getpwall id now sent evs close =>
          let c := (_send_account_scan true getpwall id now sent (client l)).2 in
          let '(e, c) := session evs close c in
          let l := mkLoop c 0 (stopped l || stop) (Datatypes.S (tries l)) (waits l) (trace l ++ [Tried url true]) in
          match e with
          | Clean => (true, l)
          | Broken => if stopped l then (false, l) else try_urls urls l
          end
      end
  end.

Definition wait (attempt : Z) (l : Loop) : Loop :=
  mkLoop (client l) attempt (stopped l || stops (waits l)) (tries l) (Datatypes.S (waits l))
    (trace l ++ [Waited (next_backoff_seconds attempt (reconnect_max_seconds (config (client l))))]).

(** One turn of the outer loop. *)
Definition round (l : Loop) : Loop :=
  let '(any_connected, l) := try_urls (build_connect_urls (config (client l))) l in
  if stopped l then l
  else if any_connected then wait 1 l
  else wait (attempt l + 1) l.

(** [run], for so many turns. *)
Fixpoint run (turns : nat) (l : Loop) : Loop :=
  match turns with
  | O => l
  | Datatypes.S turns => if stopped l then l else run turns (round l)
  end.
End client.
