(* ===== verification/WsClientProperties.v ===== *)
(** What the agent's connection promises: which addresses are tried when, how
    long it waits, what an address list pushed by the backend becomes, and
    what a switched-off capability does to a request. *)

From S2P Require Import Prelude PyText Schema AgentRpc Protocol.
From S2P Require Import AgentConfig AgentCaches ProcessKiller AuthorizedKeys HostAccounts.
From S2P Require Import AgentHandlers ScriptRunner AgentConfigProperties WsClient.
From Stdlib Require Import QArith.
#[local] Open Scope Z_scope.

(** ** The delays *)

Lemma Q_min_le_r a b : (Q_min a b <= b)%Q.
Proof.
  unfold Q_min. destruct (Qle_bool a b) eqn:H; [by apply Qle_bool_iff|apply Qle_refl].
Qed.

Lemma Q_min_mono a a' b : (a <= a' → Q_min a b <= Q_min a' b)%Q.
Proof.
  intros H. unfold Q_min. destruct (Qle_bool a b) eqn:H1, (Qle_bool a' b) eqn:H2.
  - done.
  - by apply Qle_bool_iff.
  - apply Qle_bool_iff in H2. assert (Qle_bool a b = true) by (apply Qle_bool_iff; by eapply Qle_trans). congruence.
  - apply Qle_refl.
Qed.

(** The schedule by cases. *)
Lemma next_backoff_cases a m :
  next_backoff_seconds a m =
    if bool_decide (a < 1) then 0%Q
    else Q_min (if bool_decide (a = 1) then 1%Q else if bool_decide (a = 2) then 2%Q
                else if bool_decide (a = 3) then 5%Q else if bool_decide (a = 4) then 15%Q else 30%Q) m.
Proof.
  unfold next_backoff_seconds. case_bool_decide; [done|]. f_equal. simpl length.
  repeat case_bool_decide; try (subst a; done).
  replace (Z.min (a - 1) (Z.of_nat 5 - 1)) with 4 by lia. done.
Qed.

Lemma next_backoff_mono a a' m : (0 <= m)%Q → a <= a' → (next_backoff_seconds a m <= next_backoff_seconds a' m)%Q.
Proof.
  intros Hm Ha. rewrite !next_backoff_cases. case_bool_decide as H1.
  - case_bool_decide; [apply Qle_refl|]. unfold Q_min. destruct (Qle_bool _ m); [|done].
    repeat case_bool_decide; by apply Qle_bool_iff.
  - rewrite (bool_decide_eq_false_2 (a' < 1)) by lia. apply Q_min_mono, Qle_bool_iff.
    repeat case_bool_decide; try lia; done.
Qed.

Lemma next_backoff_le a m : (0 <= m)%Q → (next_backoff_seconds a m <= m)%Q.
Proof. intros Hm. rewrite next_backoff_cases. case_bool_decide; [done|]. apply Q_min_le_r. Qed.

Section loop.
Context (coerce : scalar → json → option json) (isoformat : Z → string) (int_of_str : string → option Z).
Context {S : Type} (h : surroundings S) (world : nat → pystr → attempt_outcome * bool) (stops : nat → bool).

Abbreviation try_urls := (try_urls coerce isoformat int_of_str h world).
Abbreviation round := (round coerce isoformat int_of_str h world stops).
Abbreviation run := (run coerce isoformat int_of_str h world stops).
Abbreviation urls_of l := (build_connect_urls (config (client l))).

(** ** Every attempt is refused *)

Definition all_refused : Prop := (∀ k url, world k url = (Refused, false)) ∧ ∀ k, stops k = false.

Lemma try_urls_refused urls (l : Loop (S := S)) :
  all_refused → stopped l = false →
  try_urls urls l = (false, mkLoop (client l) (attempt l) false (tries l + length urls)%nat (waits l)
                              (trace l ++ ((λ url, Tried url false) <$> urls))).
Proof using Type.
  intros [Hw _]. revert l. induction urls as [|url urls IH]; intros l Hs; simpl.
  - rewrite Nat.add_0_r, app_nil_r. destruct l. simpl in Hs. by subst.
  - rewrite Hw, Hs. simpl. rewrite IH by done. simpl. rewrite <- app_assoc.
    by rewrite <- plus_n_Sm.
Qed.

(** The delays of so many fruitless turns in a row. *)
Definition fruitless_turn (l : Loop (S := S)) (k : nat) : list action :=
  ((λ url, Tried url false) <$> urls_of l) ++
  [Waited (next_backoff_seconds (attempt l + Z.of_nat k + 1) (reconnect_max_seconds (config (client l))))].

Lemma round_refused l :
  all_refused → stopped l = false →
  round l = mkLoop (client l) (attempt l + 1) false (tries l + length (urls_of l))%nat (Datatypes.S (waits l))
              (trace l ++ fruitless_turn l 0).
Proof using Type.
  intros Hr Hs. unfold WsClient.round. rewrite (try_urls_refused _ _ Hr Hs). cbn [stopped].
  unfold wait. cbn. rewrite (proj2 Hr). f_equal. unfold fruitless_turn. rewrite <- app_assoc. repeat f_equal. lia.
Qed.

Lemma run_refused n l :
  all_refused → stopped l = false →
  stopped (run n l) = false ∧ client (run n l) = client l ∧ attempt (run n l) = attempt l + Z.of_nat n ∧
  trace (run n l) = trace l ++ concat (fruitless_turn l <$> seq 0 n).
Proof using Type.
  intros Hr. revert l. induction n as [|n IH]; intros l Hs.
  { simpl. rewrite app_nil_r. split_and!; [done|done|lia|done]. }
  cbn [WsClient.run]. rewrite Hs, (round_refused l Hr Hs). set (l1 := mkLoop _ _ _ _ _ _).
  destruct (IH l1 eq_refl) as (H1 & H2 & H3 & H4). split; [done|]. split; [done|]. split; [rewrite H3; simpl; lia|].
  rewrite H4. subst l1. cbn [trace]. rewrite <- app_assoc. f_equal. cbn [seq fmap list_fmap concat].
  f_equal. rewrite <- seq_shift. f_equal. rewrite <- list_fmap_compose. apply list_fmap_ext. intros i k _.
  unfold fruitless_turn, compose. cbn [client attempt].
  by replace (attempt l + 1 + Z.of_nat k + 1) with (attempt l + Z.of_nat (Datatypes.S k) + 1) by lia.
Qed.

(** ** One address answers *)

(** Whatever else happens, [good] answers every handshake and nobody asks the
    agent to stop. *)
Definition answers (good : pystr) : Prop :=
  (∀ k, ∃ g i n s evs close, world k good = (Connected g i n s evs close, false)) ∧
  (∀ k url, (world k url).2 = false) ∧ ∀ k, stops k = false.

Lemma try_urls_extends urls l : ∃ acts, trace (try_urls urls l).2 = trace l ++ acts.
Proof using Type.
  revert l. induction urls as [|url urls IH]; intros l; simpl; [exists []; by rewrite app_nil_r|].
  destruct (world (tries l) url) as [[|g i n s evs close] stop]; simpl.
  - destruct (stopped l || stop); simpl; [by eexists|].
    destruct (IH (mkLoop (client l) (attempt l) false (Datatypes.S (tries l)) (waits l) (trace l ++ [Tried url false])))
      as [acts Ha]. rewrite Ha. simpl. rewrite <- app_assoc. by eexists.
  - destruct (session _ _ _ _ _ _ _) as [[] c]; simpl; [by eexists|].
    destruct (stopped l || stop); simpl; [by eexists|].
    destruct (IH (mkLoop c 0 false (Datatypes.S (tries l)) (waits l) (trace l ++ [Tried url true]))) as [acts Ha].
    rewrite Ha. simpl. rewrite <- app_assoc. by eexists.
Qed.

Lemma try_urls_reaches good urls l :
  answers good → good ∈ urls → stopped l = false →
  ∃ missed url acts, trace (try_urls urls l).2 = trace l ++ ((λ u, Tried u false) <$> missed) ++ Tried url true :: acts ∧
    missed ++ [url] `prefix_of` urls ∧ good ∉ missed.
Proof using Type.
  intros (Hg & Hns & Hst). revert l. induction urls as [|url urls IH]; intros l Hin Hs; [by apply elem_of_nil in Hin|].
  simpl. pose proof (Hns (tries l) url) as Hn.
  destruct (world (tries l) url) as [[|g i n s evs close] stop] eqn:Hw; simpl in Hn; subst stop; rewrite Hs; simpl.
  - assert (good ≠ url) as Hne by (intros ->; destruct (Hg (tries l)) as (?&?&?&?&?&?&Hgw); congruence).
    assert (good ∈ urls) as Hin' by by apply elem_of_cons in Hin as [->|].
    destruct (IH (mkLoop (client l) (attempt l) false (Datatypes.S (tries l)) (waits l) (trace l ++ [Tried url false])))
      as (missed & url' & acts & Ht & Hp & Hm); [done|done|].
    exists (url :: missed), url', acts. rewrite Ht. simpl. rewrite <- app_assoc. split; [done|].
    split; [by apply prefix_cons|]. by apply not_elem_of_cons.
  - exists [], url. destruct (session _ _ _ _ _ _ _) as [[] c]; simpl.
    + exists []. split; [done|]. split; [apply prefix_cons, prefix_nil|apply not_elem_of_nil].
    + destruct (try_urls_extends urls (mkLoop c 0 false (Datatypes.S (tries l)) (waits l) (trace l ++ [Tried url true])))
        as [acts Ha]. exists acts. rewrite Ha. simpl. rewrite <- app_assoc. split; [done|].
      split; [apply prefix_cons, prefix_nil|apply not_elem_of_nil].
Qed.

Lemma round_extends l : ∃ acts, trace (round l) = trace (try_urls (urls_of l) l).2 ++ acts.
Proof using Type.
  unfold WsClient.round. destruct (try_urls (urls_of l) l) as [any l1]. cbn [snd].
  destruct (stopped l1); [exists []; by rewrite app_nil_r|]. destruct any; simpl; by eexists.
Qed.
End loop.

(** While no address answers, turn after turn tries all of them in their
    order and then waits, by the schedule 1, 2, 5, 15, 30, 30, ... seconds
    counted from the last success and never more than the configured bound:
    a wait is never shorter than the one before. *)
Theorem reconnect_backoff coerce isoformat int_of_str {S} (h : surroundings S) world stops n l :
  all_refused world stops → stopped l = false → (0 <= reconnect_max_seconds (config (client l)))%Q →
  let delay k := next_backoff_seconds (attempt l + Z.of_nat k + 1) (reconnect_max_seconds (config (client l))) in
  trace (run coerce isoformat int_of_str h world stops n l) =
    trace l ++ concat ((λ k, ((λ url, Tried url false) <$> build_connect_urls (config (client l))) ++ [Waited (delay k)])
                         <$> seq 0 n) ∧
  ∀ k, (delay k <= reconnect_max_seconds (config (client l)))%Q ∧ (delay k <= delay (Datatypes.S k))%Q.
Proof.
  intros Hr Hs Hm delay. split; [by apply run_refused|]. intros k.
  split; [by apply next_backoff_le|]. apply next_backoff_mono; [done|lia].
Qed.

(** An agent that is not told to stop reaches the backend within one turn
    as soon as one of its addresses answers: it tries its addresses in order,
    without a wait in between, up to the first that accepts the connection,
    which comes no later than the one that answers. *)
Theorem reconnect_reaches coerce isoformat int_of_str {S} (h : surroundings S) world stops good l :
  answers world stops good → good ∈ build_connect_urls (config (client l)) → stopped l = false →
  ∃ missed url acts,
    trace (run coerce isoformat int_of_str h world stops 1 l) =
      trace l ++ ((λ u, Tried u false) <$> missed) ++ Tried url true :: acts ∧
    missed ++ [url] `prefix_of` build_connect_urls (config (client l)) ∧ good ∉ missed.
Proof.
  intros Ha Hin Hs. cbn [run]. rewrite Hs.
  destruct (try_urls_reaches coerce isoformat int_of_str h world stops good _ l Ha Hin Hs)
    as (missed & url & acts & Ht & Hp & Hm).
  destruct (round_extends coerce isoformat int_of_str h world stops l) as [acts' Ha'].
  exists missed, url, (acts ++ acts'). rewrite Ha', Ht, <- !app_assoc. done.
Qed.

(** ** Switched-off capabilities *)

(** The capability that a request needs, and whether it is on until the
    backend says otherwise.  Reading the keys of an account, and cancelling a
    script, need none. *)
Definition guards : list (string * (string * bool)) :=
  [ ("backend.ssh.verify_sig", (SSH_CAPABILITY_KEY, true)); ("backend.pam.verify", (PAM_CAPABILITY_KEY, true));
    ("backend.authorized_key.push", (PUSH_CAPABILITY_KEY, true));
    ("backend.authorized_key.revoke", (REVOKE_CAPABILITY_KEY, true));
    ("backend.script.execute", (SCRIPT_CAPABILITY, true)); ("backend.linux.useradd", (USERADD_CAPABILITY_KEY, true));
    ("backend.linux.userdel", (USERDEL_CAPABILITY_KEY, true));
    ("backend.gpu.kill_process", (_KILL_CAPABILITY, false)) ]%string.

(** The two requests that are answered all the same, and how. *)
Definition off_answers : list (string * (string * json)) :=
  [ ("backend.script.execute",
     ("agent.script.execute.response",
      JObj [("ok", JBool false); ("started", JBool false); ("pid", JNull); ("log_path", JNull);
            ("error", JStr "CAPABILITY_DISABLED"); ("mock_warning", JNull)]));
    ("backend.gpu.kill_process",
     ("agent.gpu.kill_process.response",
      JObj [("ok", JBool false); ("killed", JBool false);
            ("error", JStr "gpu.kill_process capability is disabled"); ("mock_warning", JNull)])) ]%string.

Section off.
Context {S : Type} (h : surroundings S).

Lemma invoke_off sent now ty key d p c :
  (ty, (key, d)) ∈ guards → ty ≠ "backend.gpu.kill_process"%string → is_enabled key d (agent c) = false →
  invoke_other h sent now ty p c = (assoc ty off_answers, c).
Proof using Type.
  intros Hg Hty Hoff. destruct c as [ag cf file snap rn st]. cbn [agent] in Hoff.
  unfold guards in Hg. set_unfold in Hg.
  repeat (destruct Hg as [[= -> -> ->]|Hg]; [|]); try done.
  all: unfold invoke_other; repeat (rewrite bool_decide_eq_false_2 by done); rewrite bool_decide_eq_true_2 by done.
  all: unfold handle_verify_sig, handle_pam, handle_key_push, handle_key_revoke, handle_execute, handle_useradd,
         handle_userdel, verify_sig, pam_verify, push, revoke, execute, useradd, userdel, require_enabled, allowed.
  all: cbn [agent]; rewrite Hoff; reflexivity.
Qed.

Context (coerce : scalar → json → option json) (isoformat : Z → string) (int_of_str : string → option Z).

Definition off_turn (f : received) (envelope : json) : turn :=
  match assoc (envelope_type envelope) off_answers with
  | Some r =>
      if rx_sent f then
        replied (to_wire isoformat (make_envelope isoformat r.1 (rx_reply_id f) (rx_now f) r.2
                   (Some (text (get_field "id" envelope))))) []
      else raised
  | None => raised
  end.

Lemma guard_other ty g :
  (ty, g) ∈ guards → ty ≠ "backend.gpu.kill_process"%string →
  ty ∈ RPC_REQUEST_TYPES ∧ ty ∉ ["backend.policy.sync"; "backend.account_link_cache.sync"; "backend.capability.sync";
                                "backend.gpu.kill_process"]%string.
Proof using Type.
  intros Hg Hty. unfold guards in Hg. set_unfold in Hg.
  repeat (destruct Hg as [[= -> ->]|Hg]; [|]); try done.
  all: refine (conj _ _); apply (bool_decide_unpack _); by vm_compute.
Qed.

Lemma dispatch_off f raw envelope p key d c :
  rx_raw f = Some raw → parse_envelope coerce (rx_defaults f) raw = Ok (envelope, p) →
  (envelope_type envelope, (key, d)) ∈ guards → is_enabled key d (agent c) = false →
  dispatch coerce isoformat int_of_str h f c = (off_turn f envelope, c).
Proof using Type.
  intros Hr Hp Hg Hoff. unfold dispatch, AgentHandlers._maybe_dispatch_rpc, off_turn. rewrite Hr, Hp. cbn zeta.
  destruct (decide (envelope_type envelope = "backend.gpu.kill_process"%string)) as [Hk|Hk].
  - rewrite Hk in *. assert (key = _KILL_CAPABILITY ∧ d = false) as [-> ->].
    { unfold guards in Hg. set_unfold in Hg. by destruct_or! Hg; simplify_eq. }
    rewrite bool_decide_eq_true_2 by (apply (bool_decide_unpack _); by vm_compute). cbn [negb].
    repeat (rewrite bool_decide_eq_false_2 by done). rewrite bool_decide_eq_true_2 by done.
    unfold handle_gpu_kill, kill_pid. rewrite Hoff. destruct c. by destruct (rx_sent f).
  - pose proof (invoke_off (rx_sent f) (rx_now f) _ _ d p c Hg Hk Hoff) as Hi.
    destruct (guard_other _ _ Hg Hk) as [Ht Hn]. set_unfold in Hn.
    rewrite bool_decide_eq_true_2 by done. cbn [negb]. repeat (rewrite bool_decide_eq_false_2 by tauto).
    rewrite Hi. destruct (assoc _ off_answers) as [r|]; [|done]. by destruct (rx_sent f).
Qed.
End off.

(** C38: A capability that the backend has switched off is respected by every
    handler that needs it: whatever the request carries, the agent and its
    host stay as they are, no process is signalled, and nothing is asked of
    the host (the outcome is the same on any other).  A script to run and a
    process to kill are refused with an answer that says so; for the others
    the exception ends the session without one. *)
Theorem capability_off coerce isoformat int_of_str {S} (h h' : surroundings S) f raw envelope p key d c :
  rx_raw f = Some raw → parse_envelope coerce (rx_defaults f) raw = Ok (envelope, p) →
  (envelope_type envelope, (key, d)) ∈ guards → is_enabled key d (agent c) = false →
  dispatch coerce isoformat int_of_str h f c = (off_turn isoformat f envelope, c) ∧
  dispatch coerce isoformat int_of_str h' f c = dispatch coerce isoformat int_of_str h f c ∧
  (envelope_type envelope ∉ off_answers.*1 → off_turn isoformat f envelope = raised).
Proof.
  intros Hr Hp Hg Hoff. split; [by eapply dispatch_off|].
  rewrite !(dispatch_off _ _ _ _ _ _ _ _ _ _ _ Hr Hp Hg Hoff). split; [done|].
  intros Hn. unfold off_turn. by rewrite (assoc_not_key _ _ Hn).
Qed.

(** ** Closed instances *)

(** A host on which nothing works. *)
Definition bare_host : surroundings unit :=
  mkSurroundings unit
    (mkHost (λ _ _, ProcessLookupError) (λ _ _, sudo_not_found) (λ _, ProcessLookupError))
    (λ _ s, (mkCommandResult 1 [] [], s)) (λ _ _, None) (λ _, []) (λ _, None)
    (λ _ s, (mkCommandResult 1 [] [], s)) (λ _ _, None) (λ _, None)
    (λ _ _, pam_unavailable []) (λ _ _ _, inr []) []
    (mkScriptHost (λ _, None) false (λ _, OSError "no") (λ _, OSError "no") (λ _ _ _, OSError "no"))
    (λ _, ProcessLookupError) ("Linux", "6.8", "linux")%string 1 (λ _, EmptyString) None.

Definition sample_config (urls : list string) : AgentConfig :=
  mkConfig None urls None (Some "secret"%string) (Some 3) false "INFO" true (1#10) 30 3600 true 60 [] [].

Definition sample_client (urls : list string) : Client unit :=
  mkClient fresh_agent (sample_config urls) (Some None) None fresh_runner tt.

Definition two_urls : list string := ["wss://lab.example/ws/agent"; "http://10.0.0.5/"]%string.

Definition at_start : Loop (S := unit) := mkLoop (sample_client two_urls) 0 false 0 0 [].

Definition dialled : list pystr :=
  [u "wss://lab.example/ws/agent?token=secret&server_id=3"; u "ws://10.0.0.5/ws/agent?token=secret&server_id=3"].

Lemma reconnect_backoff_witness :
  trace (run exact_scalars decimal_isoformat (λ _, None) bare_host (λ _ _, (Refused, false)) (λ _, false) 6 at_start) =
    concat ((λ d : Q, ((λ url, Tried url false) <$> dialled) ++ [Waited d]) <$> [1; 2; 5; 15; 30; 30]%Q).
Proof.
  assert (Hd : build_connect_urls (config (client at_start)) = dialled) by by vm_compute.
  destruct (reconnect_backoff exact_scalars decimal_isoformat (λ _, None) bare_host (λ _ _, (Refused, false))
              (λ _, false) 6 at_start) as [Ht _]; [done|done|by vm_compute|].
  rewrite Ht, Hd. reflexivity.
Defined.

(** The first address is dead, the second one answers. *)
Definition half_dead : nat → pystr → attempt_outcome * bool := λ _ url,
  if bool_decide (url = u "ws://10.0.0.5/ws/agent?token=secret&server_id=3")
  then (Connected None "f00d" 5 true [] Clean, false) else (Refused, false).

Lemma reconnect_reaches_witness :
  ∃ missed url acts,
    trace (run exact_scalars decimal_isoformat (λ _, None) bare_host half_dead (λ _, false) 1 at_start) =
      ((λ u, Tried u false) <$> missed) ++ Tried url true :: acts ∧
    missed ++ [url] `prefix_of` dialled ∧ u "ws://10.0.0.5/ws/agent?token=secret&server_id=3" ∉ missed.
Proof.
  assert (Hd : build_connect_urls (config (client at_start)) = dialled) by by vm_compute.
  rewrite <- Hd.
  refine (reconnect_reaches exact_scalars decimal_isoformat (λ _, None) bare_host half_dead (λ _, false) _ at_start
            _ _ eq_refl).
  - split; [|split; [|done]].
    + intros k. unfold half_dead. rewrite bool_decide_eq_true_2 by done. do 6 eexists. reflexivity.
    + intros k url. unfold half_dead. by case_bool_decide.
  - rewrite Hd. by right; left.
Defined.

(** A password to verify while the capability is off. *)
Definition pam_frame : json :=
  JObj [("type", JStr "backend.pam.verify"); ("id", JStr "f00d"); ("ts", JStr "7");
        ("payload", JObj [("linux_username", JStr "alice"); ("password", JStr "pw")]); ("correlation_id", JNull)]%string.

Definition without_pam : Client unit :=
  sample_client two_urls <| agent := set_enabled "pam.authenticate" false fresh_agent |>.

Definition arrived (raw : json) : received := mkReceived (Some raw) (mkFactories 7 "f00d") "beef" 8 0 true.

Lemma capability_off_witness :
  ∃ envelope p, parse_envelope exact_scalars (mkFactories 7 "f00d") pam_frame = Ok (envelope, p) ∧
    dispatch exact_scalars decimal_isoformat (λ _, None) bare_host (arrived pam_frame) without_pam =
      (raised, without_pam).
Proof.
  destruct (parse_envelope exact_scalars (mkFactories 7 "f00d") pam_frame) as [[envelope p]|] eqn:Hp;
    [|by vm_compute in Hp].
  assert (Hty : envelope_type envelope = "backend.pam.verify"%string) by (vm_compute in Hp; by injection Hp as <- _).
  destruct (capability_off exact_scalars decimal_isoformat (λ _, None) bare_host bare_host (arrived pam_frame) pam_frame
              envelope p PAM_CAPABILITY_KEY true without_pam eq_refl Hp) as (Hd & _ & Hn); [|done|].
  - rewrite Hty. unfold guards. set_solver.
  - exists envelope, p. split; [done|]. rewrite Hd, Hn; [done|]. rewrite Hty.
    apply (bool_decide_unpack _). by vm_compute.
Defined.

(** [useradd] refuses the accounts of the system, [userdel] does not. *)
Example userdel_any_account :
  _validate_id (Some 10) = false ∧
  (userdel (λ c s, (mkCommandResult 0 [] [], s ++ [c])) (λ _ _, Some (mkPasswdInfo 1 1 (u "/usr/sbin") (u "/bin/sh")))
     (λ _, None) (u "daemon") true false fresh_agent []).2 = [[u "sudo"; u "-n"; u "/usr/sbin/userdel"; u "-r"; u "daemon"]].
Proof. split; by vm_compute. Qed.
