(* ===== verification/SyncProperties.v ===== *)
(** What a push achieves, from the backend's tables over the wire into the
    agent's caches. *)

From Stdlib Require Import Ascii.
From S2P Require Import Prelude Schema Models SessionLayer AgentRpc.
From S2P Require Import Protocol AgentPolicyService AlertService SyncServices AgentCaches.
From S2P Require Import ProcessKiller AgentHandlers Samples.

(** ** Policies *)

(** The agent's entry for a row. *)
Definition entry_of (row : AgentPolicy.t) : AgentCaches.PolicyEntry :=
  mkPolicyEntry (AgentPolicy.policy_key row) (negb (bool_decide (AgentPolicy.enabled row = 0)))
    (AgentPolicy.severity row) (AgentPolicy.threshold_value row)
    (AgentPolicy.grace_period_seconds row) (negb (bool_decide (AgentPolicy.notify_admin row = 0))).

Lemma threshold_ok_dict key v :
  threshold_ok key (Some v) = true → ∃ o, v = JObj o ∧ plain v = true.
Proof.
  unfold threshold_ok. destruct (assoc key THRESHOLD_SCHEMAS) as [[schema|]|] eqn:Ha; [|done..].
  intros Ht. apply assoc_elem in Ha.
  assert (forallb (λ p, match p.2 with Some (TClass b fs) => class_ok (TClass b fs) && timeless (TClass b fs)
            | Some _ => false | None => true end) THRESHOLD_SCHEMAS = true) as H by by vm_compute.
  pose proof (proj1 (forallb_elem _ _) H _ Ha) as Hs. cbn [snd] in Hs.
  destruct schema as [| | | | | | | |b fs]; try discriminate. apply andb_true_iff in Hs as [Hc Htl].
  assert (Hp : plain v = true) by (eapply (typed_plain (λ _, "")); eauto).
  destruct v as [| | | | | | |o]; try discriminate. eauto.
Qed.

Lemma policy_ok_parts row :
  policy_ok row = true →
  AgentPolicy.severity row ∈ SEVERITIES ∧
  threshold_ok (AgentPolicy.policy_key row) (AgentPolicy.threshold_value row) = true.
Proof.
  unfold policy_ok. intros H. simpl_bools. split; [|done].
  match goal with H : policy_row_error row = None |- _ => unfold policy_row_error in H end.
  destruct (bool_decide_reflect (AgentPolicy.severity row ∈ SEVERITIES)); [done|discriminate].
Qed.

Lemma policy_entry_typed row : policy_ok row = true → typed Protocol.PolicyEntry (policy_entry row) = true.
Proof.
  intros [Hs Ht]%policy_ok_parts. apply typed_model. split; [done|].
  repeat constructor; cbn [field_type opt dft req fst snd].
  - apply bool_decide_eq_true_2. exact Hs.
  - destruct (AgentPolicy.threshold_value row) as [v|]; [|done].
    apply threshold_ok_dict in Ht as (o & -> & Hp). exact Hp.
  - by destruct (AgentPolicy.grace_period_seconds row).
Qed.

Lemma read_policy_entry row : policy_ok row = true → read_policy (policy_entry row) = entry_of row.
Proof.
  intros [_ Ht]%policy_ok_parts. unfold read_policy, entry_of.
  assert (Hth : opt_dict (default JNull (AgentPolicy.threshold_value row)) = AgentPolicy.threshold_value row).
  { destruct (AgentPolicy.threshold_value row) as [v|]; [|done].
    apply threshold_ok_dict in Ht as (o & -> & _). done. }
  assert (Hg : opt_integer (jopt JInt (AgentPolicy.grace_period_seconds row)) =
               AgentPolicy.grace_period_seconds row) by by destruct (AgentPolicy.grace_period_seconds row).
  rewrite <- Hth, <- Hg. reflexivity.
Qed.

Lemma policies_of_ok d sid row :
  policies_ok d → row ∈ policies_of d sid ↔ find_policy d sid (AgentPolicy.policy_key row) = Some row.
Proof.
  intros Hok. rewrite find_policy_Some by done. unfold policies_of.
  rewrite merge_sort_Permutation, list_elem_of_filter, elem_of_rows. split.
  - intros [Hs [k Hk]]. by destruct (po_row _ Hok _ _ Hk) as [-> _].
  - intros (Hk & Hs & _). eauto.
Qed.

Lemma policies_of_keys d sid : policies_ok d → NoDup (AgentPolicy.policy_key <$> policies_of d sid).
Proof.
  intros Hok. apply NoDup_fmap_2_strong.
  - intros x y Hx Hy Hk. apply policies_of_ok in Hx, Hy; [|done..]. rewrite Hk in Hx. congruence.
  - unfold policies_of. rewrite merge_sort_Permutation. apply NoDup_filter.
    unfold rows. apply NoDup_fmap_2_strong; [|apply NoDup_map_to_list].
    intros [k x] [k' y] Hx%elem_of_map_to_list Hy%elem_of_map_to_list. simpl. intros ->. f_equal.
    destruct (po_row _ Hok _ _ Hx) as [<- _]. by destruct (po_row _ Hok _ _ Hy) as [<- _].
Qed.

Section push.
Context {coerce : scalar → json → option json} {isoformat : Z → string}.
Context `{!ScalarLaws coerce isoformat}.
Context (int_of_str : string → option Z) (sha256_16 : string → string) (json_dumps : json → string).

Lemma compose_policies_typed d sid :
  policies_ok d → typed PolicySyncRequest (JObj (compose_policies sha256_16 json_dumps d sid)) = true.
Proof using Type.
  intros Hok. apply typed_model. split; [done|].
  repeat constructor; cbn [field_type opt dft req fst snd].
  apply andb_true_iff. split; [done|]. apply forallb_elem.
  intros j (row & -> & Hrow)%list_elem_of_fmap. apply policy_entry_typed.
  apply policies_of_ok in Hrow; [|done]. by eapply find_policy_ok.
Qed.

(** A frame of the protocol, as it arrives. *)
Lemma parse_connect_frame env ty cls p id ts :
  ty ∈ MessageType → assoc ty _PAYLOAD_FOR_TYPE = Some cls → typed cls p = true →
  ∃ o, to_wire isoformat p = JObj o ∧
    parse_envelope coerce env (connect_frame isoformat ty id ts o) =
      Ok (make_envelope isoformat ty id ts p None, p).
Proof using ScalarLaws0.
  intros Hty Hc Hp.
  destruct (make_envelope_typed (isoformat := isoformat) ty cls p id ts None Hty Hc Hp) as (o & Ho & He).
  exists o. split; [done|].
  assert (Hpl : plain (JObj o) = true).
  { rewrite <- Ho. eapply typed_to_wire_plain; [by eapply payload_classes_ok|done]. }
  assert (Hw : connect_frame isoformat ty id ts o = to_wire isoformat (make_envelope isoformat ty id ts p None)).
  { unfold connect_frame, make_envelope. rewrite Ho.
    cbn [to_wire]. cbn [fmap list_fmap fst snd jopt]. change (to_wire isoformat (JObj o)) with (to_wire isoformat (JObj o)).
    by rewrite (plain_to_wire isoformat (JObj o) Hpl). }
  rewrite Hw. by apply (parse_made_envelope env ty cls).
Qed.

Lemma dispatch_policy_sync h mock env rid rts mono envelope p raw s :
  parse_envelope coerce env raw = Ok (envelope, p) → envelope_type envelope = "backend.policy.sync"%string →
  _maybe_dispatch_rpc coerce isoformat int_of_str h mock env rid rts mono raw s =
    (answered (to_wire isoformat (make_envelope isoformat "agent.policy.sync.response" rid rts
       (JObj [("ok", JBool true); ("applied", JBool true); ("etag_now", get_field "etag" p);
              ("error", JNull)]%string) (Some (text (get_field "id" envelope))))) [],
     (apply_sync (integer (get_field "server_id" p)) (read_policy <$> items (get_field "policies" p))
        (text (get_field "etag" p)) s).2).
Proof using Type. intros Hp Hty. unfold _maybe_dispatch_rpc. rewrite Hp, Hty. reflexivity. Qed.

(** The agent's policies after applying a server's rows. *)
Lemma applied_policies d sid etag s sid' key :
  policies_ok d →
  policy_get sid' key (apply_sync sid (entry_of <$> policies_of d sid) etag s).2 =
    if decide (sid' = sid) then entry_of <$> find_policy d sid key else policy_get sid' key s.
Proof using Type.
  intros Hok. apply option_eq. intros e. rewrite apply_sync_get.
  - case_decide; [|done]. rewrite list_elem_of_fmap, fmap_Some. split.
    + intros [(row & -> & Hrow) Hk]. exists row. split; [|done].
      apply policies_of_ok in Hrow; [|done]. by rewrite <- Hk.
    + intros (row & Hf & ->). pose proof Hf as Hf'. apply find_policy_Some in Hf' as (_ & _ & Hk); [|done].
      split; [|done]. exists row. split; [done|]. apply policies_of_ok; [done|]. by rewrite Hk.
  - rewrite <- list_fmap_compose. by apply policies_of_keys.
Qed.
End push.

(** C27: the policies of a server reach its agent.  The frame the backend
    writes to a connecting agent is accepted there, whatever the agent knew
    before; afterwards the agent's policy for each key is exactly the row of
    the backend's table, what it knows of other servers, its links, switches
    and timers are untouched, and its answer is a valid success response to
    that frame. *)
Theorem policy_push_applied {coerce isoformat} `{!ScalarLaws coerce isoformat}
    int_of_str sha256_16 json_dumps h mock env env' rid rts mono d sid pool id ts rpc rpc' ws frame s :
  policies_ok d →
  send_policies_on_connect sha256_16 json_dumps isoformat pool sid id ts true d rpc =
    (true, Some (ws, frame), rpc') →
  ∃ answer s', 
    _maybe_dispatch_rpc coerce isoformat int_of_str h mock env rid rts mono frame s =
      (answered answer [], s') ∧
    (∀ sid' key, policy_get sid' key s' =
       if decide (sid' = sid) then entry_of <$> find_policy d sid key else policy_get sid' key s) ∧
    links s' = links s ∧ capability s' = capability s ∧ pending s' = pending s ∧
    ∃ e p, parse_envelope coerce env' answer = Ok (e, p) ∧
      get_field "correlation_id" e = JStr id ∧ get_field "ok" p = JBool true.
Proof.
  intros Hok Hsend.
  set (pl := compose_policies sha256_16 json_dumps d sid).
  pose proof (compose_policies_typed sha256_16 json_dumps d sid Hok) as Hty. fold pl in Hty.
  assert (Hpolicies : "backend.policy.sync"%string ∈ MessageType)
    by (by apply (bool_decide_eq_true_1 _); vm_compute).
  destruct (parse_connect_frame (isoformat := isoformat) env _ PolicySyncRequest (JObj pl) id ts
              Hpolicies eq_refl Hty) as (o & Ho & Hparse).
  assert (o = pl) as ->.
  { rewrite (typed_timeless isoformat PolicySyncRequest) in Ho by done. by injection Ho. }
  assert (frame = connect_frame isoformat "backend.policy.sync" id ts pl) as ->.
  { unfold send_policies_on_connect, send_on_connect in Hsend.
    destruct (bool_decide _); [done|]. destruct (pool_get pool sid); [|done].
    destruct (expect_optional_response _ _ _). by injection Hsend. }
  rewrite (dispatch_policy_sync int_of_str h mock env rid rts mono _ _ _ s Hparse eq_refl).
  eexists _, _. split; [reflexivity|].
  change (integer (get_field "server_id" (JObj pl))) with sid.
  assert (read_policy <$> items (get_field "policies" (JObj pl)) = entry_of <$> policies_of d sid) as ->.
  { change (items (get_field "policies" (JObj pl))) with (policy_entry <$> policies_of d sid).
    rewrite <- list_fmap_compose. apply Forall_fmap_ext_1, Forall_forall.
    intros row Hrow%policies_of_ok; [|done]. apply read_policy_entry. by eapply find_policy_ok. }
  split; [intros; by apply applied_policies|]. split_and!; [done..|].
  set (answer := JObj _). set (etag := get_field "etag" (JObj pl)) in *.
  assert (Hans : typed PolicySyncResponse answer = true).
  { apply typed_model. split; [done|]. by repeat constructor. }
  exists (make_envelope isoformat "agent.policy.sync.response" rid rts answer (Some id)), answer.
  split; [|done].
  apply (parse_made_envelope env' _ PolicySyncResponse); [|done|done].
  by apply (bool_decide_eq_true_1 _); vm_compute.
Qed.

(** ** The reverse-lookup cache *)

(** The columns the payload of a server's links depends on. *)
Definition live_bookings (d : Db) (sid now : Z) (pa : PhysicalAccount.t) (link : AccountLink.t)
    (r : Reservation.t) : Prop :=
  pa ∈ rows (physical_accounts d) ∧ PhysicalAccount.server_id pa = sid ∧
  PhysicalAccount.is_active pa = 1 ∧ link ∈ active_links d (PhysicalAccount.id pa) ∧
  r ∈ live_reservations d (AccountLink.id link) now.

Lemma dict_append_keys {A} k (v : A) dd :
  (dict_append k v dd).*1 = if decide (k ∈ dd.*1) then dd.*1 else dd.*1 ++ [k].
Proof.
  induction dd as [|[k' l] dd IH]; [done|]. cbn [dict_append].
  case_bool_decide as Hk; rewrite !fmap_cons; cbn [fst].
  - subst. rewrite decide_True by left. done.
  - rewrite IH. destruct (decide (k ∈ dd.*1)).
    + by rewrite decide_True by by right.
    + rewrite decide_False; [done|]. by intros [?|?]%elem_of_cons.
Qed.

Lemma dict_append_NoDup {A} k (v : A) dd : NoDup dd.*1 → NoDup (dict_append k v dd).*1.
Proof.
  intros H. rewrite dict_append_keys. case_decide; [done|].
  apply NoDup_app. split_and!; [done| |by apply NoDup_singleton]. set_solver.
Qed.

Lemma dict_append_lookup {A} k k' (v : A) dd :
  default [] (assoc k' (dict_append k v dd)) =
    default [] (assoc k' dd) ++ (if decide (k = k') then [v] else []).
Proof.
  induction dd as [|[k0 l] dd IH]; simpl.
  - rewrite assoc_cons. simpl. by case_decide.
  - case_bool_decide as Hk; rewrite !assoc_cons; simpl; subst.
    + case_decide; [done|]. by rewrite app_nil_r.
    + destruct (decide (k0 = k')) as [->|]; [|by apply IH].
      simpl. by rewrite decide_False, app_nil_r.
Qed.

Section dict.
Context (tm : Z → json) (d : Db) (now : Z).

(** The two loops, as one over (link, booking) pairs. *)
Definition link_bookings (links : list AccountLink.t) : list (AccountLink.t * Reservation.t) :=
  flat_map (λ l, (λ r, (l, r)) <$> live_reservations d (AccountLink.id l) now) links.

Lemma active_dict_pairs links acc :
  foldl (λ acc link,
    foldl (λ acc r, dict_append (pretty (AccountLink.user_id link)) (snapshot tm link r) acc)
      acc (live_reservations d (AccountLink.id link) now)) acc links =
  foldl (λ acc p, dict_append (pretty (AccountLink.user_id p.1)) (snapshot tm p.1 p.2) acc)
    acc (link_bookings links).
Proof using Type.
  unfold link_bookings. revert acc. induction links as [|l links IH]; intros acc; [done|].
  simpl. rewrite foldl_app, IH. f_equal. generalize (live_reservations d (AccountLink.id l) now).
  intros rs. revert acc. clear. induction rs as [|r rs IH]; intros acc; [done|]. simpl. apply IH.
Qed.

Lemma fold_append_spec (ps : list (AccountLink.t * Reservation.t)) (acc : list (string * list json)) :
  NoDup acc.*1 →
  let f := foldl (λ acc p, dict_append (pretty (AccountLink.user_id p.1)) (snapshot tm p.1 p.2) acc) acc ps in
  NoDup f.*1 ∧
  ∀ k, default [] (assoc k f) = default [] (assoc k acc) ++
         ((λ p, snapshot tm p.1 p.2) <$> filter (λ p, pretty (AccountLink.user_id p.1) = k) ps).
Proof using Type.
  revert acc. induction ps as [|p ps IH]; intros acc Hn; simpl.
  { split; [done|]. intros k. by rewrite app_nil_r. }
  destruct (IH (dict_append (pretty (AccountLink.user_id p.1)) (snapshot tm p.1 p.2) acc)) as [H1 H2];
    [by apply dict_append_NoDup|].
  split; [exact H1|]. intros k. rewrite H2, dict_append_lookup, filter_cons.
  case_decide; [by rewrite <- app_assoc|by rewrite app_nil_r].
Qed.

Lemma active_dict_spec links :
  NoDup (active_reservations_dict tm d now links).*1 ∧
  ∀ k, default [] (assoc k (active_reservations_dict tm d now links)) =
    (λ p, snapshot tm p.1 p.2) <$> filter (λ p, pretty (AccountLink.user_id p.1) = k) (link_bookings links).
Proof using Type.
  unfold active_reservations_dict. rewrite active_dict_pairs.
  apply (fold_append_spec (link_bookings links) []). apply NoDup_nil_2.
Qed.

Lemma link_bookings_elem links l r :
  (l, r) ∈ link_bookings links ↔ l ∈ links ∧ r ∈ live_reservations d (AccountLink.id l) now.
Proof using Type.
  unfold link_bookings. rewrite list_elem_of_In, in_flat_map. split.
  - intros (l' & Hl & Hr). apply list_elem_of_In, list_elem_of_fmap in Hr as (r' & [= -> ->] & Hr).
    split; [by apply list_elem_of_In|done].
  - intros [Hl Hr]. exists l. split; [by apply list_elem_of_In|].
    apply list_elem_of_In, list_elem_of_fmap. eauto.
Qed.
End dict.

Definition map_values {A B} (f : A → B) (dd : list (string * list A)) : list (string * list B) :=
  (λ p : string * list A, (p.1, (f <$> p.2) : list B)) <$> dd.

Lemma map_values_cons {A B} (f : A → B) p (dd : list (string * list A)) :
  map_values f (p :: dd) = (p.1, f <$> p.2) :: map_values f dd.
Proof. done. Qed.

Lemma dict_append_map {A B} (f : A → B) k v (dd : list (string * list A)) :
  dict_append k (f v) (map_values f dd) = map_values f (dict_append k v dd).
Proof.
  induction dd as [|[k' l] dd IH]; [done|]. rewrite map_values_cons. cbn [dict_append fst snd].
  case_bool_decide; rewrite map_values_cons; cbn [fst snd]; [by rewrite fmap_app|by rewrite IH].
Qed.

Section links.
Context {coerce : scalar → json → option json} {isoformat : Z → string}.
Context `{!ScalarLaws coerce isoformat}.
Context (int_of_str : string → option Z) (sha256_16 : string → string).

Abbreviation iso := (JStr ∘ isoformat).

Lemma snapshot_wire l r : to_wire isoformat (snapshot JTime l r) = snapshot iso l r.
Proof using Type.
  unfold snapshot. simpl.
  by destruct (Reservation.gpu_id r), (Reservation.gpu_memory_mb r), (Reservation.gpu_compute_share_pct r).
Qed.

Lemma active_dict_wire d now links :
  active_reservations_dict iso d now links =
    map_values (to_wire isoformat) (active_reservations_dict JTime d now links).
Proof using Type.
  unfold active_reservations_dict. rewrite !active_dict_pairs.
  change (@nil (string * list json)) with (map_values (to_wire isoformat) (@nil (string * list json))) at 1.
  generalize (@nil (string * list json)). induction (link_bookings d now links) as [|p ps IH]; intros acc; [done|].
  cbn [foldl]. rewrite <- IH. f_equal. by rewrite <- snapshot_wire, dict_append_map.
Qed.

Lemma wire_ids us : to_wire isoformat (JList (JInt <$> us)) = JList (JInt <$> us).
Proof using Type. apply to_wire_list, Forall_fmap, Forall_forall. done. Qed.

Lemma wire_lists dd :
  to_wire isoformat (JObj ((λ p : string * list json, (p.1, JList p.2)) <$> dd)) =
    JObj ((λ p : string * list json, (p.1, JList p.2)) <$> map_values (to_wire isoformat) dd).
Proof using Type.
  cbn [to_wire]. f_equal. unfold map_values. rewrite <- !list_fmap_compose. by apply list_fmap_ext.
Qed.

Lemma wire_obj3 a b c x y z :
  to_wire isoformat (JObj [(a, x); (b, y); (c, z)]) =
    JObj [(a, to_wire isoformat x); (b, to_wire isoformat y); (c, to_wire isoformat z)].
Proof using Type. done. Qed.

Lemma link_entry_wire d now pa :
  link_entry iso d now pa = to_wire isoformat <$> link_entry JTime d now pa.
Proof using Type.
  unfold link_entry. destruct (active_links d (PhysicalAccount.id pa)) as [|l ls]; [done|].
  set (links := l :: ls). cbn [fmap option_fmap option_map].
  by rewrite wire_obj3, wire_ids, wire_lists, active_dict_wire.
Qed.

Lemma entries_wire d sid now names :
  _entries_for_linux_users iso d sid now names =
    to_wire isoformat <$> _entries_for_linux_users JTime d sid now names.
Proof using Type.
  unfold _entries_for_linux_users. set (pas := filter _ _). clearbody pas.
  induction pas as [|pa pas IH]; [done|]. simpl. rewrite link_entry_wire.
  destruct (link_entry JTime d now pa); simpl; [by f_equal|done].
Qed.

Lemma entry_text_wire d now pa e :
  link_entry JTime d now pa = Some e → entry_text (to_wire isoformat e) = entry_text e.
Proof using Type.
  unfold link_entry. destruct (active_links d (PhysicalAccount.id pa)) as [|l ls]; [done|].
  intros [= <-]. rewrite wire_obj3, wire_ids. reflexivity.
Qed.

Lemma entries_elem tm d sid now e :
  e ∈ _entries_for_linux_users tm d sid now None ↔
  ∃ pa, pa ∈ rows (physical_accounts d) ∧ PhysicalAccount.server_id pa = sid ∧
        PhysicalAccount.is_active pa = 1 ∧ link_entry tm d now pa = Some e.
Proof using Type.
  unfold _entries_for_linux_users. rewrite list_elem_of_omap. setoid_rewrite list_elem_of_filter.
  split; [intros (pa & ((? & ? & _) & ?) & ?); eauto 6|].
  intros (pa & ? & ? & ? & ?). exists pa. split_and!; done.
Qed.

Lemma links_etag_wire d sid now :
  links_etag sha256_16 (to_wire isoformat <$> _entries_for_linux_users JTime d sid now None) =
  links_etag sha256_16 (_entries_for_linux_users JTime d sid now None).
Proof using Type.
  unfold links_etag. do 3 f_equal. rewrite <- list_fmap_compose.
  apply Forall_fmap_ext_1, Forall_forall. intros e (pa & _ & _ & _ & He)%entries_elem.
  by eapply entry_text_wire.
Qed.

Lemma compose_full_wire d sid now :
  to_wire isoformat (JObj (compose_full_payload sha256_16 JTime d sid now)) =
    JObj (compose_full_payload sha256_16 iso d sid now).
Proof using Type.
  unfold compose_full_payload. cbv zeta. rewrite entries_wire, links_etag_wire. reflexivity.
Qed.

(** *** Bookings without a card *)

Definition cpu_booking (d : Db) (sid now : Z) : Prop :=
  ∃ pa link r, live_bookings d sid now pa link r ∧ Reservation.gpu_id r = None.

Lemma status_live r :
  Reservation.status r = STATUS_SCHEDULED ∨ Reservation.status r = STATUS_ACTIVE →
  status_text (Reservation.status r) ∈ ["scheduled"; "active"]%string.
Proof using Type. intros [-> | ->]; simpl; [by left|by right; left]. Qed.

Lemma snapshot_typed l r g :
  Reservation.gpu_id r = Some g →
  Reservation.status r = STATUS_SCHEDULED ∨ Reservation.status r = STATUS_ACTIVE →
  typed ActiveReservationSnapshot (snapshot JTime l r) = true.
Proof using Type.
  intros Hg Hs. apply typed_model. split; [done|].
  repeat constructor; cbn [field_type opt dft req fst snd]; try done.
  - by rewrite Hg.
  - apply bool_decide_eq_true_2. by apply status_live.
  - by destruct (Reservation.gpu_memory_mb r).
  - by destruct (Reservation.gpu_compute_share_pct r).
  - apply bool_decide_eq_true_2. apply (bool_decide_eq_true_1 _); by destruct (AccountLink.source l).
Qed.

Lemma link_entry_typed d sid now pa e :
  ¬ cpu_booking d sid now → pa ∈ rows (physical_accounts d) → PhysicalAccount.server_id pa = sid →
  PhysicalAccount.is_active pa = 1 → link_entry JTime d now pa = Some e →
  typed AccountLinkCacheEntry e = true.
Proof using Type.
  intros Hno Hpa Hsid Hact. unfold link_entry.
  destruct (active_links d (PhysicalAccount.id pa)) as [|l0 ls] eqn:Hl; [done|].
  rewrite <- Hl. intros [= <-]. apply typed_model. split; [done|].
  repeat constructor; cbn [field_type opt dft req fst snd].
  - simpl. apply forallb_elem. by intros j (u & -> & _)%list_elem_of_fmap.
  - destruct (active_dict_spec JTime d now (active_links d (PhysicalAccount.id pa))) as [Hnd Hspec].
    apply andb_true_iff. split.
    { apply bool_decide_eq_true_2. rewrite <- list_fmap_compose. exact Hnd. }
    apply forallb_elem. intros q ([k v] & -> & Hp)%list_elem_of_fmap. cbn [fst snd].
    apply forallb_elem. intros j Hj.
    assert (Hv : v = (λ p, snapshot JTime p.1 p.2) <$> filter (λ p, pretty (AccountLink.user_id p.1) = k)
                       (link_bookings d now (active_links d (PhysicalAccount.id pa)))).
    { rewrite <- Hspec. by rewrite (assoc_lookup k _ v Hnd Hp). }
    rewrite Hv in Hj. apply list_elem_of_fmap in Hj as ([l r] & -> & Hlr).
    apply list_elem_of_filter in Hlr as [_ Hlr]. apply link_bookings_elem in Hlr as [Hl1 Hr1].
    change (typed ActiveReservationSnapshot (snapshot JTime l r) = true).
    destruct (Reservation.gpu_id r) as [g|] eqn:Hg.
    + eapply snapshot_typed; [exact Hg|]. unfold live_reservations in Hr1.
      by apply list_elem_of_filter in Hr1 as [(_ & ? & _) _].
    + destruct Hno. exists pa, l, r. split; [by split_and!|done].
Qed.

Lemma compose_full_typed d sid now :
  ¬ cpu_booking d sid now →
  typed AccountLinkCacheSyncRequest (JObj (compose_full_payload sha256_16 JTime d sid now)) = true.
Proof using Type.
  intros Hno. apply typed_model. split; [done|].
  repeat constructor; cbn [field_type opt dft req fst snd]; try done.
  apply andb_true_iff. split; [done|]. apply forallb_elem.
  intros e (pa & H1 & H2 & H3 & He)%entries_elem. by eapply link_entry_typed.
Qed.

(** One booking without a card spoils the whole payload. *)
Lemma compose_full_refused env d sid now :
  cpu_booking d sid now →
  validate coerce env AccountLinkCacheSyncRequest
    (JObj (compose_full_payload sha256_16 iso d sid now)) = None.
Proof using ScalarLaws0.
  intros (pa & l & r & (Hpa & Hsid & Hact & Hl & Hr) & Hg).
  assert (He : ∃ e, link_entry iso d now pa = Some e).
  { unfold link_entry. destruct (active_links d (PhysicalAccount.id pa)); [by apply elem_of_nil in Hl|eauto]. }
  destruct He as [e He].
  eapply (validate_field_None env true _ _ (dft "entries" (TList AccountLinkCacheEntry None) (JList [])));
    [right; right; left|reflexivity|].
  eapply (validate_list_None env _ _ _ e); [apply entries_elem; eauto 6|].
  unfold link_entry in He.
  destruct (active_links d (PhysicalAccount.id pa)) as [|l0 ls] eqn:Hls; [done|].
  rewrite <- Hls in He. injection He as <-.
  eapply (validate_field_None env true _ _ (dft "active_reservations" (TDict (TList ActiveReservationSnapshot None)) (JObj [])));
    [right; right; left|reflexivity|].
  destruct (active_dict_spec iso d now (active_links d (PhysicalAccount.id pa))) as [Hnd Hspec].
  specialize (Hspec (pretty (AccountLink.user_id l))).
  assert (Hin : snapshot iso l r ∈ default [] (assoc (pretty (AccountLink.user_id l))
            (active_reservations_dict iso d now (active_links d (PhysicalAccount.id pa))))).
  { rewrite Hspec. apply list_elem_of_fmap. exists (l, r). split; [done|].
    apply list_elem_of_filter. split; [done|]. apply link_bookings_elem. by rewrite Hls. }
  destruct (assoc _ _) as [v|] eqn:Ha; [|by apply elem_of_nil in Hin].
  eapply (validate_dict_None env _ _ (pretty (AccountLink.user_id l), JList v)).
  { apply list_elem_of_fmap. exists (pretty (AccountLink.user_id l), v). split; [done|].
    by apply assoc_elem. }
  eapply (validate_list_None env _ _ _ (snapshot iso l r)); [exact Hin|].
  eapply (validate_field_None env true _ _ (req "gpu_id" int)); [right; left|reflexivity|].
  simpl. rewrite Hg. apply coerce_null.
Qed.

(** *** What the agent reads out of an entry *)

Definition reservation_of (l : AccountLink.t) (r : Reservation.t) : ActiveReservation :=
  mkActiveReservation (Reservation.id r) (default 0 (Reservation.gpu_id r))
    (isoformat (Reservation.start_at r)) (isoformat (Reservation.end_at r))
    (status_text (Reservation.status r)) (Reservation.gpu_memory_mb r)
    (Reservation.gpu_compute_share_pct r) (link_source_text (AccountLink.source l)).

Lemma read_snapshot l r : read_reservation (snapshot iso l r) = reservation_of l r.
Proof using Type.
  unfold reservation_of.
  assert (Hz : ∀ o, opt_integer (jopt JInt o) = o) by by intros [].
  rewrite <- (Hz (Reservation.gpu_memory_mb r)), <- (Hz (Reservation.gpu_compute_share_pct r)).
  assert (default 0 (Reservation.gpu_id r) = integer (jopt JInt (Reservation.gpu_id r))) as ->
    by by destruct (Reservation.gpu_id r).
  reflexivity.
Qed.

Lemma active_dict_keys d now links :
  Forall (λ k, ∃ z : Z, k = pretty z) (active_reservations_dict iso d now links).*1.
Proof using Type.
  unfold active_reservations_dict. rewrite active_dict_pairs.
  assert (H : ∀ ps (acc : list (string * list json)), Forall (λ k, ∃ z : Z, k = pretty z) acc.*1 →
    Forall (λ k, ∃ z : Z, k = pretty z)
      (foldl (λ acc p, dict_append (pretty (AccountLink.user_id p.1)) (snapshot iso p.1 p.2) acc) acc ps).*1).
  { induction ps as [|p ps IH]; intros acc Hacc; [done|]. apply IH. rewrite dict_append_keys.
    case_decide; [done|]. apply Forall_app. split; [done|]. apply Forall_singleton. eauto. }
  apply H. by apply Forall_nil.
Qed.

Context (int_of_str_pretty : ∀ z : Z, int_of_str (pretty z) = Some z).

Lemma parse_lookup (raw : list (string * json)) u :
  NoDup raw.*1 → Forall (λ k, ∃ z : Z, k = pretty z) raw.*1 →
  _parse_active_reservations int_of_str raw !! u =
    (λ v, read_reservation <$> items v) <$> assoc (pretty u) raw.
Proof using int_of_str_pretty.
  unfold _parse_active_reservations.
  assert (H : ∀ acc, NoDup raw.*1 → Forall (λ k, ∃ z : Z, k = pretty z) raw.*1 →
    foldl (λ (out : gmap Z (list ActiveReservation)) p, match int_of_str p.1 with
                    | Some user_id => <[user_id := read_reservation <$> items p.2]> out
                    | None => out end) acc raw !! u =
      match assoc (pretty u) raw with
      | Some v => Some (read_reservation <$> items v) | None => acc !! u end).
  { induction raw as [|[k v] raw IH]; intros acc Hn Hk; [done|].
    rewrite fmap_cons in Hn, Hk. apply NoDup_cons in Hn as [Hnk Hn]. apply Forall_cons in Hk as [[z Hz] Hk].
    cbn [foldl fst snd] in *. subst k. rewrite int_of_str_pretty, IH, assoc_cons by done. cbn [fst snd].
    destruct (decide (pretty z = pretty u)) as [Hzu|Hzu].
    - apply (inj pretty) in Hzu as ->. destruct (assoc (pretty u) raw) eqn:Ha; [|by rewrite lookup_insert_eq].
      destruct Hnk. apply list_elem_of_fmap. eexists (_, _). split; [done|]. by apply assoc_elem.
    - destruct (assoc _ raw); [done|]. apply lookup_insert_ne. congruence. }
  intros Hn Hk. rewrite H by done. by destruct (assoc _ raw).
Qed.

(** An account's cache entry, read by the agent: its users, and by user the
    bookings made through the user's links. *)
Definition shown (d : Db) (now : Z) (pa : PhysicalAccount.t) (c : CacheEntry) : Prop :=
  let links := active_links d (PhysicalAccount.id pa) in
  ce_user_ids c = linked_users links ∧
  ∀ u, default [] (ce_active_reservations c !! u) =
    (λ p, reservation_of p.1 p.2) <$> filter (λ p, AccountLink.user_id p.1 = u) (link_bookings d now links).

Lemma read_entry d now pa e :
  link_entry JTime d now pa = Some e →
  let c := read_link_entry int_of_str (to_wire isoformat e) in
  c.1 = PhysicalAccount.linux_username pa ∧ shown d now pa c.2.
Proof using int_of_str_pretty.
  intros He. pose proof (link_entry_wire d now pa) as Hw. rewrite He in Hw. cbn [fmap option_fmap option_map] in Hw.
  cbv zeta. revert Hw. generalize (to_wire isoformat e). intros w Hw. clear e He. unfold link_entry in Hw.
  destruct (active_links d (PhysicalAccount.id pa)) as [|l0 ls] eqn:Hl; [done|].
  rewrite <- Hl in Hw. injection Hw as <-. split; [done|].
  set (links := active_links d (PhysicalAccount.id pa)).
  destruct (active_dict_spec iso d now links) as [Hnd Hspec]. pose proof (active_dict_keys d now links) as Hks.
  split.
  - change (integer <$> (JInt <$> linked_users links) = linked_users links).
    rewrite <- list_fmap_compose. apply list_fmap_id.
  - intros u. specialize (Hspec (pretty u)).
    change (default [] (_parse_active_reservations int_of_str
      ((λ p : string * list json, (p.1, JList p.2)) <$> active_reservations_dict iso d now links) !! u) =
      (λ p, reservation_of p.1 p.2) <$> filter (λ p, AccountLink.user_id p.1 = u) (link_bookings d now links)).
    rewrite parse_lookup, assoc_fmap; [|by rewrite <- list_fmap_compose..].
    transitivity (read_reservation <$> default [] (assoc (pretty u) (active_reservations_dict iso d now links))).
    { by destruct (assoc _ _). }
    rewrite Hspec, <- list_fmap_compose.
    rewrite (list_fmap_ext _ (λ p, reservation_of p.1 p.2)) by (intros; apply read_snapshot).
    f_equal. apply list_filter_iff. intros p. split; [apply (inj pretty)|by intros ->].
Qed.
End links.

Lemma upsert_found {A} (sid : Z) (c : gmap (Z * string) A) es name x :
  (∃ e, e ∈ es ∧ e.1 = name) → (∀ e, e ∈ es → e.1 = name → e.2 = x) →
  upsert sid c es !! (sid, name) = Some x.
Proof.
  intros (e & He & Hn) Hall. rewrite lookup_upsert, decide_True by done. cbn [fst snd].
  assert (Hf : e ∈ filter (λ e, e.1 = name) es) by by apply list_elem_of_filter.
  destruct (last (filter _ es)) as [y|] eqn:Hl.
  - f_equal. apply last_Some in Hl as [l' Hl].
    assert (Hy : y ∈ filter (λ e, e.1 = name) es) by (rewrite Hl; apply elem_of_app; right; by left).
    apply list_elem_of_filter in Hy as [Hy1 Hy2]. by apply Hall.
  - apply last_None in Hl. rewrite Hl in Hf. by apply elem_of_nil in Hf.
Qed.

Lemma upsert_missing {A} (sid : Z) (c : gmap (Z * string) A) es name :
  (∀ e, e ∈ es → e.1 ≠ name) → upsert sid c es !! (sid, name) = c !! (sid, name).
Proof.
  intros Hall. rewrite lookup_upsert, decide_True by done. cbn [fst snd].
  assert (Hf : filter (λ e, e.1 = name) es = []).
  { apply elem_of_nil_inv. intros e [He1 He2]%list_elem_of_filter. by apply (Hall e). }
  by rewrite Hf.
Qed.

Lemma upsert_elsewhere {A} (sid sid' : Z) (c : gmap (Z * string) A) es name :
  sid' ≠ sid → upsert sid c es !! (sid', name) = c !! (sid', name).
Proof. intros. rewrite lookup_upsert. cbn [fst]. by rewrite decide_False. Qed.

(** The schema's unique key on live accounts. *)
Definition names_unique (d : Db) : Prop :=
  ∀ pa pa', pa ∈ rows (physical_accounts d) → pa' ∈ rows (physical_accounts d) →
    PhysicalAccount.server_id pa = PhysicalAccount.server_id pa' →
    PhysicalAccount.is_active pa = 1 → PhysicalAccount.is_active pa' = 1 →
    PhysicalAccount.linux_username pa = PhysicalAccount.linux_username pa' → pa = pa'.

(** The two questions the agent asks its link cache, answered from the
    backend's tables. *)
Definition answers_from (isoformat : Z → string) (d : Db) (sid now : Z) (s : AgentState) : Prop :=
  (∀ pa, pa ∈ rows (physical_accounts d) → PhysicalAccount.server_id pa = sid →
     PhysicalAccount.is_active pa = 1 →
     let links := active_links d (PhysicalAccount.id pa) in
     let name := PhysicalAccount.linux_username pa in
     lookup_user_ids sid name s = linked_users links ∧
     ∀ u, lookup_active_reservations sid name u s =
       (λ p, reservation_of (isoformat := isoformat) p.1 p.2) <$>
         filter (λ p, AccountLink.user_id p.1 = u) (link_bookings d now links)) ∧
  (∀ name,
     (∀ pa, pa ∈ rows (physical_accounts d) → PhysicalAccount.server_id pa = sid →
        PhysicalAccount.is_active pa = 1 → PhysicalAccount.linux_username pa ≠ name) →
     lookup_user_ids sid name s = [] ∧ ∀ u, lookup_active_reservations sid name u s = []).

Section applied.
Context {coerce : scalar → json → option json} {isoformat : Z → string}.
Context `{!ScalarLaws coerce isoformat}.
Context (int_of_str : string → option Z) (int_of_str_pretty : ∀ z : Z, int_of_str (pretty z) = Some z).

Lemma snapshot_answers d sid now at_ s :
  names_unique d →
  answers_from isoformat d sid now
    (apply_full_snapshot sid
       (read_link_entry int_of_str ∘ to_wire isoformat <$> _entries_for_linux_users JTime d sid now None)
       at_ s).2.
Proof using int_of_str_pretty.
  intros Huniq. set (es := _ <$> _entries_for_linux_users JTime d sid now None).
  assert (Hes : ∀ c, c ∈ es → ∃ pa, pa ∈ rows (physical_accounts d) ∧ PhysicalAccount.server_id pa = sid ∧
            PhysicalAccount.is_active pa = 1 ∧ c.1 = PhysicalAccount.linux_username pa ∧ 
            is_some (link_entry JTime d now pa) = true ∧ shown (isoformat := isoformat) d now pa c.2).
  { intros c (e & -> & (pa & H1 & H2 & H3 & He)%entries_elem)%list_elem_of_fmap. exists pa.
    destruct (read_entry (isoformat := isoformat) int_of_str int_of_str_pretty d now pa e He). rewrite He. by split_and!. }
  assert (Hnone : ∀ name, (∀ e, e ∈ es → e.1 ≠ name) →
            links (apply_full_snapshot sid es at_ s).2 !! (sid, name) = None).
  { intros name Hn. cbn [apply_full_snapshot snd links]. 
    change (upsert sid (without_server sid (links s)) es !! (sid, name) = None).
    rewrite upsert_missing by done. rewrite lookup_without_server. by rewrite decide_True. }
  split.
  - intros pa Hpa Hsid Hact ls name. unfold lookup_user_ids, lookup_active_reservations.
    destruct (link_entry JTime d now pa) as [e|] eqn:He.
    + destruct (read_entry (isoformat := isoformat) int_of_str int_of_str_pretty d now pa e He) as [Hname [Hu Hr]].
      change (links (apply_full_snapshot sid es at_ s).2) with (upsert sid (without_server sid (links s)) es).
      rewrite (upsert_found _ _ es name (read_link_entry int_of_str (to_wire isoformat e)).2); [|eexists; split; [|exact Hname]|].
      * split; [exact Hu|exact Hr].
      * apply list_elem_of_fmap. exists e. split; [done|]. apply entries_elem. eauto 6.
      * intros c (e' & -> & (pa' & H1 & H2 & H3 & He')%entries_elem)%list_elem_of_fmap Hc.
        destruct (read_entry (isoformat := isoformat) int_of_str int_of_str_pretty d now pa' e' He') as [Hname' _].
        assert (pa' = pa) as -> by (apply Huniq; try done; [congruence|exact (eq_trans (eq_sym Hname') Hc)]).
        rewrite He in He'. by injection He' as <-.
    + rewrite Hnone.
      * unfold link_entry in He. unfold ls. by destruct (active_links d (PhysicalAccount.id pa)).
      * intros c Hc Hn. apply Hes in Hc as (pa' & H1 & H2 & H3 & H4 & H5 & _).
        assert (pa' = pa) as -> by (apply Huniq; try done; [congruence|exact (eq_trans (eq_sym H4) Hn)]). by rewrite He in H5.
  - intros name Hno. unfold lookup_user_ids, lookup_active_reservations.
    rewrite Hnone; [done|]. intros c Hc Hn. apply Hes in Hc as (pa & H1 & H2 & H3 & H4 & _).
    apply (Hno pa H1 H2 H3). congruence.
Qed.
End applied.

Section connect.
Context {coerce : scalar → json → option json} {isoformat : Z → string}.
Context `{!ScalarLaws coerce isoformat}.
Context (int_of_str : string → option Z) (sha256_16 : string → string).

Lemma dispatch_link_sync h mock env rid rts mono d sid now envelope raw s :
  let p := JObj (compose_full_payload sha256_16 JTime d sid now) in
  parse_envelope coerce env raw = Ok (envelope, p) →
  envelope_type envelope = "backend.account_link_cache.sync"%string →
  ∃ answer, _maybe_dispatch_rpc coerce isoformat int_of_str h mock env rid rts mono raw s =
    (answered answer [],
     (apply_full_snapshot sid
        (read_link_entry int_of_str ∘ to_wire isoformat <$> _entries_for_linux_users JTime d sid now None)
        mono s).2).
Proof using Type.
  cbv zeta. intros Hp Hty. unfold _maybe_dispatch_rpc. rewrite Hp, Hty. eexists. reflexivity.
Qed.

Lemma dispatch_invalid h mock env rid rts mono raw e s :
  parse_envelope coerce env raw = Raise e →
  _maybe_dispatch_rpc coerce isoformat int_of_str h mock env rid rts mono raw s = (closed_1003, s).
Proof using Type. intros Hp. unfold _maybe_dispatch_rpc. by rewrite Hp. Qed.

Lemma send_links_frame pool sid id ts d rpc ws frame rpc' :
  send_links_on_connect sha256_16 isoformat pool sid id ts true d rpc = (true, Some (ws, frame), rpc') →
  frame = connect_frame isoformat "backend.account_link_cache.sync" id ts
            (compose_full_payload sha256_16 (JStr ∘ isoformat) d sid ts).
Proof using Type.
  unfold send_links_on_connect, send_on_connect. destruct (pool_get pool sid); [|done].
  destruct (expect_optional_response _ _ _). by intros [= <- <- <-].
Qed.

(** A frame whose payload does not validate is refused as a whole. *)
Lemma parse_connect_refused env ty cls id ts o :
  ty ∈ MessageType → assoc ty _PAYLOAD_FOR_TYPE = Some cls → plain (JObj o) = true →
  validate coerce env cls (JObj o) = None →
  parse_envelope coerce env (connect_frame isoformat ty id ts o) = Raise ValidationError.
Proof using ScalarLaws0.
  intros Hty Hc Hpl Hv.
  set (e := JObj [("type", JStr ty); ("id", JStr id); ("ts", JTime ts); ("payload", JObj o);
                  ("correlation_id", JNull)]%string).
  assert (He : validate coerce env MessageEnvelope (connect_frame isoformat ty id ts o) = Some e).
  { assert (Hw : connect_frame isoformat ty id ts o = to_wire isoformat e).
    { unfold connect_frame, e. rewrite <- (plain_to_wire isoformat _ Hpl) at 1. reflexivity. }
    rewrite Hw. apply validate_wire; [by vm_compute|]. apply envelope_shape.
    by exists ty, id, ts, o, None. }
  unfold parse_envelope. rewrite He. change (envelope_type e) with ty. rewrite Hc.
  change (get_field "payload" e) with (JObj o). by rewrite Hv.
Qed.

Lemma compose_full_plain d sid now :
  plain (JObj (compose_full_payload sha256_16 (JStr ∘ isoformat) d sid now)) = true.
Proof using Type.
  change (plain (JList (_entries_for_linux_users (JStr ∘ isoformat) d sid now None)) && true = true).
  rewrite andb_true_r. apply forallb_elem. intros e (pa & _ & _ & _ & He)%entries_elem.
  unfold link_entry in He. destruct (active_links d (PhysicalAccount.id pa)) as [|l0 ls] eqn:Hl; [done|].
  rewrite <- Hl in He. injection He as <-. set (links := active_links d _).
  change (plain (JList (JInt <$> linked_users links)) &&
    (plain (JObj ((λ p : string * list json, (p.1, JList p.2)) <$>
                  active_reservations_dict (JStr ∘ isoformat) d now links)) && true) = true).
  rewrite andb_true_r. apply andb_true_iff. split.
  { apply forallb_elem. by intros j (u & -> & _)%list_elem_of_fmap. }
  destruct (active_dict_spec (JStr ∘ isoformat) d now links) as [Hnd Hspec].
  apply andb_true_iff. split.
  { apply bool_decide_eq_true_2. by rewrite <- list_fmap_compose. }
  apply forallb_elem. intros q ([k v] & -> & Hp)%list_elem_of_fmap. cbn [fst snd].
  apply forallb_elem. intros j Hj. specialize (Hspec k). rewrite (assoc_lookup k _ v Hnd Hp) in Hspec.
  cbn [default] in Hspec. change (id v) with v in Hspec. rewrite Hspec in Hj.
  apply list_elem_of_fmap in Hj as ([l r] & -> & _). unfold snapshot. cbn [fst snd].
  by destruct (Reservation.gpu_id r), (Reservation.gpu_memory_mb r), (Reservation.gpu_compute_share_pct r).
Qed.
End connect.

(** C26: the account links of a server reach its agent, unless a booking has
    no card.  When every live booking made through a link on the server names
    a card, the frame a connecting agent is sent is accepted, and from then on
    the agent answers who may use an account, and what each user booked
    through it, exactly as the backend's tables do; the other servers, the
    policies, the switches and the timers are untouched.  A single live
    booking without a card makes the frame invalid: the agent closes the
    connection and keeps what it had. *)
Theorem link_push_applied {coerce isoformat} `{!ScalarLaws coerce isoformat}
    int_of_str sha256_16 h mock env rid rts mono d sid pool id ts rpc rpc' ws frame s :
  (∀ z : Z, int_of_str (pretty z) = Some z) → names_unique d →
  send_links_on_connect sha256_16 isoformat pool sid id ts true d rpc =
    (true, Some (ws, frame), rpc') →
  let r := _maybe_dispatch_rpc coerce isoformat int_of_str h mock env rid rts mono frame s in
  (¬ cpu_booking d sid ts →
     (∃ answer, r.1 = answered answer []) ∧ answers_from isoformat d sid ts r.2 ∧
     (∀ sid' name, sid' ≠ sid → links r.2 !! (sid', name) = links s !! (sid', name)) ∧
     AgentCaches.policies r.2 = AgentCaches.policies s ∧ capability r.2 = capability s ∧
     pending r.2 = pending s) ∧
  (cpu_booking d sid ts → r = (closed_1003, s)).
Proof.
  intros Hint Huniq ->%send_links_frame. cbv zeta.
  set (ty := "backend.account_link_cache.sync"%string).
  assert (Hty : ty ∈ MessageType) by by apply (bool_decide_eq_true_1 _); vm_compute.
  split.
  - intros Hno. pose proof (compose_full_typed sha256_16 d sid ts Hno) as Htyped.
    destruct (parse_connect_frame (isoformat := isoformat) env ty _ _ id ts Hty eq_refl Htyped) as (o & Ho & Hp).
    rewrite (compose_full_wire (isoformat := isoformat) sha256_16 d sid ts) in Ho. injection Ho as <-.
    destruct (dispatch_link_sync (isoformat := isoformat) int_of_str sha256_16 h mock env rid rts mono d sid ts
                _ _ s Hp eq_refl) as [answer ->].
    cbn [fst snd]. split; [by eexists|]. split; [by apply snapshot_answers|].
    split_and!; [|done..]. intros sid' name Hne. 
    change (upsert sid (without_server sid (links s))
      (read_link_entry int_of_str ∘ to_wire isoformat <$> _entries_for_linux_users JTime d sid ts None)
      !! (sid', name) = links s !! (sid', name)).
    rewrite upsert_elsewhere, lookup_without_server by done. by rewrite decide_False.
  - intros Hcpu. eapply dispatch_invalid. apply (parse_connect_refused env ty AccountLinkCacheSyncRequest); [done|reflexivity| |].
    + apply compose_full_plain.
    + by apply compose_full_refused.
Qed.

(** ** Witnesses *)

(** A stored policy row on the sample server. *)
Definition policy_row : AgentPolicy.t :=
  AgentPolicy.mk 1 1 "memory_overuse" 1 "warn" (pct 35) (Some 60) 1 None 10.
Definition policy_db : Db :=
  sample_db [] <| agent_policies := {[1 := policy_row]} |> <| next_agent_policy_id := 2 |>.

Lemma policy_db_ok : policies_ok policy_db.
Proof.
  split; change (agent_policies policy_db) with ({[1 := policy_row]} : gmap Z AgentPolicy.t).
  - intros k r H. apply lookup_singleton_Some in H as [<- <-].
    split; [done|]. split; by vm_compute.
  - intros k k' r r' H H' _ _. by apply lookup_singleton_Some in H as [<- _], H' as [<- _].
Qed.

Definition sample_pool : AgentConnectionPool := mkPool {[1 := 41]} [].

Lemma policy_push_applied_witness :
  ∃ frame rpc' answer s',
    send_policies_on_connect id (λ _, "") decimal_isoformat sample_pool 1 "f00d" 100 true policy_db
      (mkRpcState ∅ []) = (true, Some (41, frame), rpc') ∧
    _maybe_dispatch_rpc exact_scalars decimal_isoformat decimal_int stubborn_host false
      (mkFactories 0 "") "beef" 101 0 frame fresh_agent = (answered answer [], s') ∧
    policy_get 1 "memory_overuse" s' =
      Some (mkPolicyEntry "memory_overuse" true "warn" (pct 35) (Some 60) true).
Proof.
  destruct (send_policies_on_connect id (λ _, ""%string) decimal_isoformat sample_pool 1 "f00d" 100 true
              policy_db (mkRpcState ∅ [])) as [[b o] rpc'] eqn:Hs.
  assert (b = true ∧ ∃ f, o = Some (41, f)) as [-> [frame ->]].
  { vm_compute in Hs. injection Hs as <- <- <-. split; [done|by eexists]. }
  destruct (policy_push_applied (coerce := exact_scalars) (isoformat := decimal_isoformat) decimal_int id
    (λ _, ""%string) stubborn_host false (mkFactories 0 "") (mkFactories 0 "") "beef" 101 0 policy_db 1
    sample_pool "f00d" 100 (mkRpcState ∅ []) rpc' 41 frame fresh_agent policy_db_ok Hs)
    as (answer & s' & Hd & Hg & _).
  exists frame, rpc', answer, s'. split; [reflexivity|]. split; [exact Hd|].
  rewrite Hg. by vm_compute.
Defined.

(** The bookings without a card, as a test. *)
Definition cpu_booking_test (d : Db) (sid now : Z) : bool :=
  existsb (λ pa, bool_decide (PhysicalAccount.server_id pa = sid) &&
                 bool_decide (PhysicalAccount.is_active pa = 1) &&
    existsb (λ l, existsb (λ r, negb (is_some (Reservation.gpu_id r)))
                    (live_reservations d (AccountLink.id l) now))
      (active_links d (PhysicalAccount.id pa))) (rows (physical_accounts d)).

Lemma cpu_booking_by_test d sid now : cpu_booking d sid now ↔ cpu_booking_test d sid now = true.
Proof.
  unfold cpu_booking, cpu_booking_test, live_bookings. rewrite existsb_exists. split.
  - intros (pa & l & r & (H1 & H2 & H3 & H4 & H5) & Hg). exists pa. split; [by apply list_elem_of_In|].
    rewrite !bool_decide_eq_true_2 by done. apply existsb_exists. exists l. split; [by apply list_elem_of_In|].
    apply existsb_exists. exists r. split; [by apply list_elem_of_In|]. by rewrite Hg.
  - intros (pa & H1 & H). rewrite !andb_true_iff, !bool_decide_eq_true, existsb_exists in H.
    destruct H as ([H2 H3] & l & H4 & (r & H5 & Hg)%existsb_exists). exists pa, l, r.
    split; [split_and!; try done; by apply list_elem_of_In|]. by destruct (Reservation.gpu_id r).
Qed.

Definition names_unique_test (d : Db) : bool :=
  bool_decide (NoDup ((λ pa, (PhysicalAccount.server_id pa, PhysicalAccount.linux_username pa)) <$>
    rows (physical_accounts d))).

Lemma names_unique_by_test d : names_unique_test d = true → names_unique d.
Proof.
  intros Hn%(bool_decide_eq_true_1 _) pa pa' [i Hi]%list_elem_of_lookup [j Hj]%list_elem_of_lookup Hs _ _ Hu.
  assert (i = j) as <-; [|congruence].
  eapply NoDup_lookup; [exact Hn|rewrite list_lookup_fmap, Hi; reflexivity|].
  rewrite list_lookup_fmap, Hj. simpl. congruence.
Qed.

(** Alice has booked card 2; in the second database bob booked no card. *)
Definition links_db : Db := sample_db [sample_reservation 50 2 0 900 None].
Definition cpu_db : Db :=
  sample_db [sample_reservation 50 2 0 900 None;
             sample_reservation 51 2 0 900 None <| Reservation.gpu_id := None |>].

Definition links_frame (d : Db) : json :=
  connect_frame decimal_isoformat "backend.account_link_cache.sync" "f00d" 100
    (compose_full_payload id (JStr ∘ decimal_isoformat) d 1 100).

Definition synced (d : Db) : dispatched * AgentState :=
  _maybe_dispatch_rpc exact_scalars decimal_isoformat decimal_int stubborn_host false
    (mkFactories 0 "") "beef" 101 7 (links_frame d) fresh_agent.

Lemma link_push_applied_witness :
  answers_from decimal_isoformat links_db 1 100 (synced links_db).2 ∧
  synced cpu_db = (closed_1003, fresh_agent).
Proof.
  split.
  - refine (proj1 (proj2 (proj1 (link_push_applied (coerce := exact_scalars) (isoformat := decimal_isoformat)
      decimal_int id stubborn_host false (mkFactories 0 "") "beef" 101 7 links_db 1 sample_pool "f00d" 100
      (mkRpcState ∅ []) (expect_optional_response "f00d" "backend.account_link_cache.sync" (mkRpcState ∅ [])).2
      41 (links_frame links_db) fresh_agent decimal_int_pretty
      (names_unique_by_test links_db ltac:(by vm_compute)) eq_refl) _))).
    intros Hc%cpu_booking_by_test. by vm_compute in Hc.
  - refine (proj2 (link_push_applied (coerce := exact_scalars) (isoformat := decimal_isoformat)
      decimal_int id stubborn_host false (mkFactories 0 "") "beef" 101 7 cpu_db 1 sample_pool "f00d" 100
      (mkRpcState ∅ []) (expect_optional_response "f00d" "backend.account_link_cache.sync" (mkRpcState ∅ [])).2
      41 (links_frame cpu_db) fresh_agent decimal_int_pretty
      (names_unique_by_test cpu_db ltac:(by vm_compute)) eq_refl) _).
    apply cpu_booking_by_test. by vm_compute.
Defined.
