(* ===== verification/ComplianceIngest.v ===== *)
(** What the backend records of a compliance violation
    ([backend/corelab_backend/services/compliance_ingest_service.py]). *)

From S2P Require Import Prelude Models SessionLayer Samples AuditService.
From S2P Require Import NotificationService.

(** ** The event ([shared/protocol/corelab_protocol/frames.py]) *)

Record ComplianceViolationHolder : Type := mkHolder {
  ho_user_id : Z ;
  ho_username : option string ;
  ho_reservation_id : option Z }.

Record ComplianceViolationEvent : Type := mkViolation {
  cv_server_id : Z ;
  cv_gpu_id : Z ;
  cv_policy_key : string ;
  cv_severity : string ;
  cv_linux_username : option string ;
  cv_linux_pid : option Z ;
  cv_linked_platform_user_ids : list Z ;
  cv_current_reservation_holders : list ComplianceViolationHolder ;
  cv_action_taken : string ;
  cv_memory_used_mb : option Z ;
  cv_memory_declared_mb : option Z ;
  cv_util_pct : option Z ;
  cv_downgraded_from : option string ;
  cv_details : option string }.

Definition _notify_severity (effective : string) : string :=
  if bool_decide (effective = "auto_kill"%string) then "error"
  else if bool_decide (effective = "warn"%string) then "warn" else "info".

Definition alert_severity_for (effective : string) : string :=
  if bool_decide (effective = "warn"%string) then "warn"
  else if bool_decide (effective = "auto_kill"%string) then "critical" else "info".

Definition _compose_occupier_title (event : ComplianceViolationEvent) : string :=
  "Compliance: " +:+ cv_policy_key event +:+ " on GPU-" +:+ pretty (cv_gpu_id event) +:+ " (" +:+
  cv_action_taken event +:+ ")".

Definition _compose_holder_title (event : ComplianceViolationEvent) (occupier : option string) : string :=
  "GPU-" +:+ pretty (cv_gpu_id event) +:+ " occupied by " +:+
  (if str_truthy occupier then default "" occupier else "an unknown user") +:+ " (your reservation)".

Definition payload_for_logs (event : ComplianceViolationEvent) : list (string * json) :=
  [("policy_key", JStr (cv_policy_key event)); ("severity", JStr (cv_severity event));
   ("linux_username", jopt JStr (cv_linux_username event));
   ("linux_pid", jopt JInt (cv_linux_pid event));
   ("linked_platform_user_ids", JList (JInt <$> cv_linked_platform_user_ids event));
   ("current_reservation_holders",
     JList ((λ h, JObj [("user_id", JInt (ho_user_id h)); ("username", jopt JStr (ho_username h));
                        ("reservation_id", jopt JInt (ho_reservation_id h))]) <$>
              cv_current_reservation_holders event));
   ("action_taken", JStr (cv_action_taken event));
   ("memory_used_mb", jopt JInt (cv_memory_used_mb event));
   ("memory_declared_mb", jopt JInt (cv_memory_declared_mb event));
   ("util_pct", jopt JInt (cv_util_pct event));
   ("downgraded_from", jopt JStr (cv_downgraded_from event));
   ("details", jopt JStr (cv_details event))]%string.

Definition notify_occupier (event : ComplianceViolationEvent) (uid : Z) : M unit :=
  create_notification uid ("compliance." +:+ cv_policy_key event)
    (_notify_severity (cv_severity event)) (_compose_occupier_title event) None
    (Some [("alert_event_id", JNull); ("server_id", JInt (cv_server_id event));
           ("gpu_id", JInt (cv_gpu_id event)); ("policy_key", JStr (cv_policy_key event));
           ("action_taken", JStr (cv_action_taken event))]%string)
    None DEFAULT_DEDUP_WINDOW_SECONDS ;;
  skip.

Definition notify_holder (event : ComplianceViolationEvent) (holder : ComplianceViolationHolder) :
    M unit :=
  create_notification (ho_user_id holder) "compliance.your_gpu_occupied"
    (_notify_severity (cv_severity event)) (_compose_holder_title event (ho_username holder)) None
    (Some [("server_id", JInt (cv_server_id event)); ("gpu_id", JInt (cv_gpu_id event));
           ("reservation_id", jopt JInt (ho_reservation_id holder));
           ("occupier_linux_username", jopt JStr (cv_linux_username event))]%string)
    None DEFAULT_DEDUP_WINDOW_SECONDS ;;
  skip.

(** [handle_violation]: the number of notifications sent. *)
Definition handle_violation (event : ComplianceViolationEvent) (lab_id : Z) : M Z :=
  for_each (cv_linked_platform_user_ids event) (notify_occupier event) ;;
  for_each (cv_current_reservation_holders event) (notify_holder event) ;;
  write "compliance.violation" None (Some lab_id) (Some "gpu"%string) (Some (cv_gpu_id event))
    (Some lab_id) (Some (cv_server_id event)) (JObj (payload_for_logs event)) no_request ;;
  mret (Z.of_nat (length (cv_linked_platform_user_ids event) +
                  length (cv_current_reservation_holders event))).

(** ** Lemmas *)

(** No type of this service is deduplicated. *)
Lemma compliance_not_deduplicated x : _DEDUP_PK_KEYS ("compliance." +:+ x) = None.
Proof.
  unfold _DEDUP_PK_KEYS. rewrite !bool_decide_eq_false_2; [done|discriminate|].
  rewrite !elem_of_cons, elem_of_nil. intros H. by destruct_or! H.
Qed.

(** Notifications of these recipients were stored and pushed, in order. *)
Definition notified_all (recipients : list Z) (s s' : Session) : Prop :=
  clean s' ∧ committed s' = committed s ∧ now s' = now s ∧
  ∃ ns, Notification.recipient_user_id <$> ns = recipients ∧
    db s' = db s <| notifications := notifications (db s) ++ ns |> ∧
    pushed s' = pushed s ++ ((λ n, (Notification.recipient_user_id n, notification_frame n)) <$> ns).

Lemma notified_nil s : clean s → notified_all [] s s.
Proof.
  intros Hc. split_and!; [done..|]. exists []. simpl. rewrite !app_nil_r. by destruct s as [? [] ?].
Qed.

Lemma notified_app l1 l2 s s1 s2 :
  notified_all l1 s s1 → notified_all l2 s1 s2 → notified_all (l1 ++ l2) s s2.
Proof.
  intros (_ & H1 & H2 & ns & Hr & Hd & Hp) (Hc & H1' & H2' & ns' & Hr' & Hd' & Hp').
  split_and!; [done|congruence|congruence|]. exists (ns ++ ns'). split_and!.
  - by rewrite fmap_app, Hr, Hr'.
  - rewrite Hd', Hd. simpl. by rewrite app_assoc.
  - by rewrite Hp', Hp, fmap_app, app_assoc.
Qed.

Lemma notify_compliance_run u x sev title body payload cta w s :
  clean s →
  ∃ n s', create_notification u ("compliance." +:+ x) sev title body payload cta w s = (Ok n, s') ∧
          notified_all [u] s s'.
Proof.
  intros Hc. rewrite create_notification_exact by done. unfold recent_duplicate.
  rewrite compliance_not_deduplicated.
  set (n := Notification.mk (Z.of_nat (length (notifications (db s))) + 1) u ("compliance." +:+ x)
              sev title body payload cta 0 (now s)).
  exists n. eexists. split; [reflexivity|]. split_and!; [done..|]. by exists [n].
Qed.

Lemma notify_each_run {A} (f : A → M unit) (u : A → Z) l s :
  (∀ a s, clean s → ∃ s', f a s = (Ok tt, s') ∧ notified_all [u a] s s') → clean s →
  ∃ s', for_each l f s = (Ok tt, s') ∧ notified_all (u <$> l) s s'.
Proof.
  intros Hf. revert s. induction l as [|a l IH]; intros s Hc; simpl.
  { exists s. split; [done|by apply notified_nil]. }
  destruct (Hf a s Hc) as (s1 & Hr & Hn). rewrite (bind_run _ _ _ _ _ Hr).
  destruct (IH s1) as (s' & Hr' & Hn'); [apply Hn|]. exists s'. split; [done|].
  exact (notified_app [u a] _ _ _ _ Hn Hn').
Qed.

(** *** Properties *)

(** a violation always notifies every linked user and every
    holder of the card, in order, and writes one audit entry about the card;
    nothing is ever suppressed, however recently the same violation was
    reported. *)
Theorem handle_violation_spec event lab s :
  clean s →
  let recipients := cv_linked_platform_user_ids event ++
                    (ho_user_id <$> cv_current_reservation_holders event) in
  ∃ s' e, handle_violation event lab s = (Ok (Z.of_nat (length recipients)), s') ∧
    AuditLog.action e = "compliance.violation"%string ∧
    AuditLog.target_id e = Some (cv_gpu_id event) ∧ AuditLog.lab_id e = Some lab ∧
    ∃ ns, Notification.recipient_user_id <$> ns = recipients ∧
      db s' = db s <| notifications := notifications (db s) ++ ns |>
                   <| audit_log := audit_log (db s) ++ [e] |> ∧
      pushed s' = pushed s ++ ((λ n, (Notification.recipient_user_id n, notification_frame n)) <$> ns) ∧
      clean s' ∧ committed s' = committed s.
Proof.
  intros Hc recipients. unfold handle_violation.
  destruct (notify_each_run (notify_occupier event) id (cv_linked_platform_user_ids event) s)
    as (s1 & Hr1 & Hn1); [|done|].
  { intros u s0 Hc0. unfold notify_occupier.
    match goal with |- context [create_notification u _ ?a ?b ?c ?d ?e ?f] =>
      destruct (notify_compliance_run u (cv_policy_key event) a b c d e f s0 Hc0) as (n & s' & Hr & Hn) end.
    exists s'. by rewrite (bind_run _ _ _ _ _ Hr). }
  destruct (notify_each_run (notify_holder event) ho_user_id (cv_current_reservation_holders event) s1)
    as (s2 & Hr2 & Hn2); [|apply Hn1|].
  { intros h s0 Hc0. unfold notify_holder.
    match goal with |- context [create_notification _ _ ?a ?b ?c ?d ?e ?f] =>
      destruct (notify_compliance_run (ho_user_id h) "your_gpu_occupied" a b c d e f s0 Hc0)
        as (n & s' & Hr & Hn) end.
    exists s'. by rewrite (bind_run _ _ _ _ _ Hr). }
  rewrite list_fmap_id in Hn1. pose proof (notified_app _ _ _ _ _ Hn1 Hn2) as (Hc2 & Hcm & _ & ns & Hr & Hd & Hp).
  rewrite (bind_run _ _ _ _ _ Hr1), (bind_run _ _ _ _ _ Hr2).
  rewrite (bind_run _ _ _ _ _ (write_run _ _ _ _ _ _ _ _ _ s2 Hc2)).
  set (e := audit_entry s2 _ _ _ _ _ _ _ _ _ _ _). eexists _, e.
  split; [unfold recipients; rewrite length_app, length_fmap; reflexivity|].
  split_and!; [done..|]. exists ns. split_and!; [done| |done..]. subst e. simpl. by rewrite Hd.
Qed.

(** A violation that displaces alice, reported a second time. *)
Definition violation_sample : ComplianceViolationEvent :=
  mkViolation 1 1 "no_reservation" "warn" (Some "bob"%string) (Some 4242) [11]
    [mkHolder 10 (Some "alice"%string) (Some 100)] "warn" None None None None None.

Lemma handle_violation_spec_witness :
  let s := (handle_violation violation_sample 1 (open_session (sample_db []) 0 "")).2 in
  (∃ s' e, handle_violation violation_sample 1 s = (Ok 2, s') ∧
    AuditLog.action e = "compliance.violation"%string ∧
    AuditLog.target_id e = Some 1 ∧ AuditLog.lab_id e = Some 1 ∧
    ∃ ns, Notification.recipient_user_id <$> ns = [11; 10] ∧
      db s' = db s <| notifications := notifications (db s) ++ ns |>
                   <| audit_log := audit_log (db s) ++ [e] |> ∧
      pushed s' = pushed s ++ ((λ n, (Notification.recipient_user_id n, notification_frame n)) <$> ns) ∧
      clean s' ∧ committed s' = committed s) ∧
  length (notifications (db s)) = 2%nat.
Proof.
  intros s. split; [|vm_compute; reflexivity].
  apply (handle_violation_spec violation_sample 1 s). vm_compute. reflexivity.
Defined.
