(* ===== verification/ModifyProperties.v ===== *)
(** Editing a reservation ([PATCH /reservations/{id}]): what an accepted edit
    does, that it keeps the capacity invariant, and what a refused edit
    leaves behind. *)

From S2P Require Import Prelude Models SessionLayer Samples AuditService.
From S2P Require Import NotificationService ReservationService ReservationLifecycle BookingProperties.
From S2P Require Import AgentRpc ScriptLifecycleService ReservationsApi.

(** ** The edited row *)

Definition with_script (row : Reservation.t) (new_script : option pystr)
    (new_script_scheduled_start_at : option Z) : Reservation.t :=
  match new_script with
  | None => row
  | Some body =>
      let row := row <| Reservation.script := Some body |> in
      if negb (is_some (Reservation.script_scheduled_start_at row)) &&
         negb (is_some new_script_scheduled_start_at)
      then row <| Reservation.script_scheduled_start_at := Some (Reservation.start_at row) |>
      else row
  end.

Definition with_script_start (row : Reservation.t) (new_script_scheduled_start_at : option Z) :
    Reservation.t :=
  match new_script_scheduled_start_at with
  | None => row
  | Some t => row <| Reservation.script_scheduled_start_at := Some t |>
  end.

(** The new bounds and trigger, as they are stored. *)
Definition new_start (p : ModifyRequest) : option Z := wall_time <$> m_start_at p.
Definition new_end (p : ModifyRequest) : option Z := wall_time <$> m_end_at p.
Definition new_trigger (p : ModifyRequest) : option Z := utc_time <$> m_script_scheduled_start_at p.

(** A trigger is compared with the bounds, and one that the request gives has
    a zone. *)
Definition zones_mixed (p : ModifyRequest) : bool :=
  is_some (m_script_scheduled_start_at p) && (given_aware (m_start_at p) || given_aware (m_end_at p)).

(** The whole edit. *)
Definition edited_row (row : Reservation.t) (p : ModifyRequest) : Reservation.t :=
  with_max_runtime
    (with_script_start
       (with_script (with_window row (new_start p) (new_end p)) (m_script p)
          (new_trigger p))
       (new_trigger p))
    (m_script_max_runtime_seconds p).

Definition window_edit (p : ModifyRequest) : bool := is_some (m_start_at p) || is_some (m_end_at p).

Definition timing_edit (p : ModifyRequest) : bool :=
  is_some (m_script_scheduled_start_at p) || is_some (m_script_max_runtime_seconds p).

(** The other bookings of the row's card in its window. *)
Definition others (d : Db) (row : Reservation.t) : list Reservation.t :=
  match Reservation.gpu_id row with
  | None => []
  | Some g => filter (λ r, Reservation.id r ≠ Reservation.id row)
                (window g (Reservation.start_at row) (Reservation.end_at row) (reservations d))
  end.

Definition window_accepted (d : Db) (at_ : Z) (row : Reservation.t) : Prop :=
  time_ok d at_ (draft_of row) ∧
  ∀ g, Reservation.gpu_id row = Some g →
    ∃ gpu, gpus d !! g = Some gpu ∧ compatible (draft_of row) (others d row) gpu.

(** When an edit of a stored row is accepted. *)
Record editable (d : Db) (at_ actor_user_id : Z) (p : ModifyRequest) (row : Reservation.t) : Prop := mkEditable {
  e_status : Reservation.status row = STATUS_SCHEDULED ;
  e_owner : Reservation.user_id row = actor_user_id ;
  e_undispatched : timing_edit p = true →
    Reservation.script_status row = None ∧ Reservation.script_dispatch_started_at row = None ;
  e_window : window_edit p = true →
    window_accepted d at_ (with_window row (new_start p) (new_end p)) ;
  e_size : ∀ body, m_script p = Some body → utf8_length body <= SCRIPT_MAX_BYTES ;
  e_trigger : ∀ t, new_trigger p = Some t →
    Reservation.start_at (edited_row row p) <= t < Reservation.end_at (edited_row row p) ;
  e_zones : zones_mixed p = false }.

(** ** The session while an edit is pending *)

Definition pend (row : Reservation.t) (s : Session) : Session :=
  s <| dirty := {[Reservation.id row := row]} |>.

(** An edit moves the window and sets fields of the script; it never takes
    the script away. *)
Record only_edited (r r' : Reservation.t) : Prop := mkOnlyEdited {
  oe_booked : booked r' = booked r ;
  oe_status : Reservation.status r' = Reservation.status r ;
  oe_script_status : Reservation.script_status r' = Reservation.script_status r ;
  oe_dispatch : Reservation.script_dispatch_started_at r' =
                Reservation.script_dispatch_started_at r ;
  oe_script : is_Some (Reservation.script r) → is_Some (Reservation.script r') }.

#[export] Instance only_edited_PreOrder : PreOrder only_edited.
Proof.
  split; [by split|]. intros r1 r2 r3 [A1 A2 A3 A4 A5] [B1 B2 B3 B4 B5].
  split; [congruence..|by auto].
Qed.

Lemma only_edited_id r r' : only_edited r r' → Reservation.id r' = Reservation.id r.
Proof. intros [H _ _ _ _]. by apply booked_id. Qed.

(** What an edit by [actor] may leave of [row]: only a scheduled booking of
    the actor is ever touched. *)
Definition part_edited (actor : Z) (row r : Reservation.t) : Prop :=
  Reservation.status row = STATUS_SCHEDULED ∧ Reservation.user_id row = actor ∧ only_edited row r.

(** The states an edit of [row] goes through before its flush. *)
Definition edits (s : Session) (actor : Z) (row : Reservation.t) (st : Session) : Prop :=
  st = s ∨ ∃ r, part_edited actor row r ∧ st = pend r s.

Lemma set_edits s actor st row0 row :
  clean s → edits s actor row0 st → only_edited row0 row → set_reservation row st = (Ok tt, pend row s).
Proof.
  unfold clean, set_reservation, update, pend. intros Hc He Hid%only_edited_id.
  destruct He as [->|(r & (_ & _ & Hr%only_edited_id) & ->)]; simpl.
  - by rewrite Hc, insert_empty.
  - rewrite Hr, <- Hid. by rewrite insert_singleton_eq.
Qed.

Lemma edits_pend s actor row r : part_edited actor row r → edits s actor row (pend r s).
Proof. right. by exists r. Qed.

(** ** The steps only edit *)

Lemma with_window_edited row a b : only_edited row (with_window row a b).
Proof. by split. Qed.

Lemma with_script_edited row o t : only_edited row (with_script row o t).
Proof. unfold with_script. destruct o; [|done]. cbv zeta. by destruct (_ && _). Qed.

Lemma with_script_start_edited row o : only_edited row (with_script_start row o).
Proof. by destruct o. Qed.

Lemma with_max_runtime_edited row o : only_edited row (with_max_runtime row o).
Proof. by destruct o. Qed.

Lemma edited_row_edited row p : only_edited row (edited_row row p).
Proof.
  unfold edited_row. etrans; [|apply with_max_runtime_edited].
  etrans; [|apply with_script_start_edited]. etrans; [|apply with_script_edited].
  apply with_window_edited.
Qed.
#[export] Hint Resolve with_window_edited with_script_edited with_script_start_edited
  edited_row_edited : core.

Lemma filter_identity row s (l : list Reservation.t) :
  clean s →
  filter (λ r, Reservation.id r ≠ Reservation.id row) (identity (pend row s) <$> l) =
  filter (λ r, Reservation.id r ≠ Reservation.id row) l.
Proof.
  intros Hc. induction l as [|r l IH]; [done|]. rewrite fmap_cons, !filter_cons, IH.
  unfold identity, pend. simpl. destruct (decide (Reservation.id r = Reservation.id row)) as [Hid|Hid].
  - rewrite Hid, lookup_singleton_eq. simpl. by rewrite !decide_False by tauto.
  - by rewrite lookup_singleton_ne by congruence.
Qed.

Lemma check_modified_window_run row at_ s :
  clean s →
  (check_modified_window row at_ (pend row s) = (Ok tt, pend row s) ↔ window_accepted (db s) at_ row).
Proof.
  intros Hc. unfold check_modified_window, window_accepted, others. cbv zeta.
  pose proof (_validate_item_time_accepts (draft_of row) at_ (pend row s)) as Hv. simpl in Hv.
  destruct (_validate_item_time (draft_of row) at_ (pend row s)) as [[srv|e] s1] eqn:Ht;
    pose proof (reader_run _ _ _ _ (_validate_item_time_reader _ _) Ht) as ->.
  2:{ rewrite (bind_run_raise _ _ _ _ _ Ht). split; [done|]. intros [[? ?]%Hv _]. congruence. }
  rewrite (bind_run _ _ _ _ _ Ht).
  assert (Htime : time_ok (db s) at_ (draft_of row)) by (apply Hv; eauto).
  destruct (Reservation.gpu_id row) as [g|]; [|by split].
  unfold get_gpu. rewrite (bind_run (gets _) _ _ _ _) by reflexivity.
  change (db (pend row s)) with (db s).
  destruct (gpus (db s) !! g) as [gpu|] eqn:Hg; simpl some_or_raise.
  2:{ split; [done|]. intros [_ H]. destruct (H g eq_refl) as (? & ? & _). congruence. }
  rewrite (bind_run (mret gpu) _ _ gpu _) by reflexivity.
  unfold _window_active_reservations, select_reservations.
  rewrite (bind_run (gets _) _ _ _ _) by reflexivity. cbv beta zeta.
  rewrite (filter_identity row s _ Hc). change (db (pend row s)) with (db s).
  fold (window g (Reservation.start_at row) (Reservation.end_at row) (reservations (db s))).
  set (w := filter _ _). pose proof (classify_None_iff (draft_of row) w gpu) as Hcl.
  destruct (_classify_conflict (draft_of row) w gpu) as [c|].
  2:{ split; [|done]. intros _. split; [done|]. intros g' [= <-]. exists gpu. split; [done|]. by apply Hcl. }
  split; [done|]. intros [_ H]. destruct (H g eq_refl) as (gpu' & Hg' & Hcomp).
  assert (gpu' = gpu) as -> by congruence. by apply Hcl in Hcomp.
Qed.

Lemma check_modified_window_raises row at_ s e s' :
  check_modified_window row at_ s = (Raise e, s') → is_ReservationError e = true.
Proof.
  unfold check_modified_window. cbv zeta. intros H. apply bind_Raise in H as [H|(? & ? & _ & H)].
  { by apply _validate_item_time_Raise in H as [->|(? & ? & ->)]. }
  destruct (Reservation.gpu_id row); [|done].
  apply bind_Raise in H as [H|(? & ? & _ & H)]; [done|].
  apply bind_Raise in H as [H|(? & ? & _ & H)]; [by inv_prog; subst|].
  apply bind_Raise in H as [H|(? & ? & _ & H)]; [done|].
  destruct (_classify_conflict _ _ _); [|done]. by inv_prog; subst.
Qed.

(** ** The steps of an edit *)

Section steps.
Context (s : Session) (actor : Z) (row0 : Reservation.t) (p : ModifyRequest) (at_ : Z).
Hypothesis Hc : clean s.
Hypothesis Hst : Reservation.status row0 = STATUS_SCHEDULED.
Hypothesis Hown : Reservation.user_id row0 = actor.

(** A step that refuses raises a [ReservationError] and may leave the
    edited object pending. *)
Definition refused (e : exn) (st : Session) : Prop :=
  is_ReservationError e = true ∧ edits s actor row0 st.

Lemma window_step st :
  let row := with_window row0 (new_start p) (new_end p) in
  edits s actor row0 st →
  wp (when (window_edit p) (set_reservation row ;; check_modified_window row at_)) (λ r st', match r with
    | Ok _ => edits s actor row0 st' ∧
              (window_edit p = true → window_accepted (db s) at_ row)
    | Raise e => refused e st' ∧ ¬ (window_edit p = true → window_accepted (db s) at_ row)
    end) st.
Proof using Hc Hst Hown.
  intros row He. apply wp_when; [intros Hw|intros Hw; split; [done|congruence]].
  assert (Hoe : only_edited row0 row) by apply with_window_edited.
  apply wp_bind. unfold wp at 1. rewrite (set_edits s actor st row0 row Hc He Hoe). simpl.
  pose proof (check_modified_window_run row at_ s Hc) as Hck. unfold wp.
  destruct (check_modified_window row at_ (pend row s)) as [[[]|e] s1] eqn:E; simpl;
    pose proof (reader_run _ _ _ _ (check_modified_window_reader _ _) E) as ->.
  - split; [by apply edits_pend; split_and!|]. intros _. by apply Hck.
  - split; [split; [by eapply check_modified_window_raises|by apply edits_pend; split_and!]|].
    intros H. apply H, Hck in Hw. congruence.
Qed.

Lemma edit_script_step row st :
  only_edited row0 row → edits s actor row0 st →
  wp (edit_script row (m_script p) (new_trigger p)) (λ r st', match r with
    | Ok row' => row' = with_script row (m_script p) (new_trigger p) ∧
                 edits s actor row0 st' ∧
                 (∀ body, m_script p = Some body → utf8_length body <= SCRIPT_MAX_BYTES)
    | Raise e => refused e st' ∧
                 ¬ (∀ body, m_script p = Some body → utf8_length body <= SCRIPT_MAX_BYTES)
    end) st.
Proof using Hc Hst Hown.
  intros Hoe He. pose proof (with_script_edited row (m_script p) (new_trigger p)) as Hws.
  unfold edit_script, with_script in *.
  destruct (m_script p) as [body|]; [|by apply wp_ret].
  apply wp_bind, wp_raise_if; intros Hsz; simpl_bools.
  - split; [by split|]. intros H. specialize (H body eq_refl). lia.
  - cbv zeta in *. set (row' := if _ && _ then _ else _) in *.
    assert (Hoe' : only_edited row0 row') by by etrans.
    apply wp_bind. unfold wp at 1. rewrite (set_edits s actor st row0 row') by done.
    apply wp_ret. split_and!; [done|by apply edits_pend; split_and!|]. intros b [= <-]. lia.
Qed.

(** A refusal of the trigger: out of the window, or of another zone. *)
Definition trigger_ok (row : Reservation.t) : Prop :=
  (∀ t, new_trigger p = Some t → Reservation.start_at row <= t < Reservation.end_at row) ∧ zones_mixed p = false.

Lemma edit_start_step row st :
  only_edited row0 row → edits s actor row0 st →
  wp (edit_script_start row (given_aware (m_start_at p)) (given_aware (m_end_at p)) (new_trigger p))
    (λ r st', match r with
    | Ok row' => row' = with_script_start row (new_trigger p) ∧ edits s actor row0 st' ∧ trigger_ok row
    | Raise e => (is_ReservationError e = true ∨ e = TypeError ∧ zones_mixed p = true) ∧
                 edits s actor row0 st' ∧ ¬ trigger_ok row
    end) st.
Proof using Hc Hst Hown.
  intros Hoe He. pose proof (with_script_start_edited row (new_trigger p)) as Hws.
  unfold edit_script_start, with_script_start, trigger_ok, zones_mixed, new_trigger in *.
  destruct (m_script_scheduled_start_at p) as [d|]; [|by apply wp_ret]. cbn [fmap option_fmap option_map is_some andb] in *.
  set (t := utc_time d) in *.
  apply wp_bind, wp_raise_if; intros Hz1.
  { rewrite Hz1. split_and!; [by right|done|]. by intros [_ [=]]. }
  apply wp_bind, wp_raise_if; intros Ht1; simpl_bools.
  { split_and!; [by left|done|]. intros [H _]. specialize (H t eq_refl). lia. }
  apply wp_bind, wp_raise_if; intros Hz2.
  { rewrite Hz1, Hz2. split_and!; [by right|done|]. by intros [_ [=]]. }
  apply wp_bind, wp_raise_if; intros Ht2; simpl_bools.
  { split_and!; [by left|done|]. intros [H _]. specialize (H t eq_refl). lia. }
  assert (Hoe' : only_edited row0 (row <| Reservation.script_scheduled_start_at := Some t |>)) by by etrans.
  apply wp_bind. unfold wp at 1. rewrite (set_edits s actor st row0) by done.
  apply wp_ret. rewrite Hz1, Hz2. split_and!; [done|by apply edits_pend; split_and!| |done]. by intros ? [= <-].
Qed.
End steps.

Lemma with_script_window row o t :
  Reservation.start_at (with_script row o t) = Reservation.start_at row ∧
  Reservation.end_at (with_script row o t) = Reservation.end_at row.
Proof. unfold with_script. destruct o; [|done]. by destruct (_ && _). Qed.

(** The script fields do not move the window, nor anything that holds the
    card. *)
Lemma edited_row_slot row p :
  Reservation.id (edited_row row p) = Reservation.id row ∧
  Reservation.gpu_id (edited_row row p) = Reservation.gpu_id row ∧
  Reservation.start_at (edited_row row p) = default (Reservation.start_at row) (new_start p) ∧
  Reservation.end_at (edited_row row p) = default (Reservation.end_at row) (new_end p) ∧
  Reservation.gpu_memory_mb (edited_row row p) = Reservation.gpu_memory_mb row ∧
  Reservation.gpu_compute_share_pct (edited_row row p) = Reservation.gpu_compute_share_pct row ∧
  Reservation.status (edited_row row p) = Reservation.status row ∧
  draft_of (edited_row row p) = draft_of (with_window row (new_start p) (new_end p)).
Proof.
  unfold edited_row, with_max_runtime, with_script_start, with_script.
  destruct (m_script_max_runtime_seconds p), (new_trigger p), (m_script p);
    try by repeat split.
  all: destruct (negb _ && negb _); by repeat split.
Qed.

(** The saving half: flush and audit. *)
Lemma save_edit_run s actor st row0 row lab payload req :
  session_ok s → edits s actor row0 st → only_edited row0 row →
  wp (set_reservation row ;; flush ;;
      write "reservation.modify" (Some actor) (Some lab) (Some "reservation"%string)
        (Some (Reservation.id row)) (Some lab) (Some (Reservation.server_id row)) payload req ;;
      mret row) (λ res s', match res with
    | Ok row' => row' = row ∧ reservation_row_ok row ∧ updated s s' row ["reservation.modify"%string]
    | Raise e => reservation_row_error row = Some e ∧ db s' = db s ∧ committed s' = committed s
    end) st.
Proof.
  intros Hs He Hoe. pose proof Hs as [Hc _]. unfold wp.
  rewrite (bind_run _ _ _ _ _ (set_edits s actor st row0 row Hc He Hoe)).
  assert (Hset : set_reservation row s = (Ok tt, pend row s)).
  { apply (set_edits s actor s row0); [done|by left|done]. }
  pose proof (set_flush_run row s Hc) as Hf. rewrite (bind_run _ _ _ _ _ Hset) in Hf.
  destruct (reservation_row_error row) as [e|] eqn:Herr.
  - by rewrite (bind_run_raise _ _ _ _ _ Hf).
  - apply reservation_row_error_None in Herr.
    destruct (save_updated row s Hc Herr) as (s1 & Hsave & Hu).
    rewrite (bind_run _ _ _ _ _ Hset) in Hsave. rewrite (bind_run _ _ _ _ _ Hsave). run_step. done.
Qed.

(** The whole edit. *)
Lemma modify_run rid actor p lab at_ req s :
  session_ok s →
  wp (modify_reservation rid actor (m_start_at p) (m_end_at p) (m_script p)
        (m_script_scheduled_start_at p) (m_script_max_runtime_seconds p) lab at_ req) (λ res s',
    match reservations (db s) !! rid with
    | None => res = Raise ReservationNotFoundError ∧ s' = s
    | Some row =>
        match res with
        | Ok row' => editable (db s) at_ actor p row ∧ row' = edited_row row p ∧
                     reservation_row_ok row' ∧ updated s s' row' ["reservation.modify"%string]
        | Raise e =>
            (¬ editable (db s) at_ actor p row ∧ edits s actor row s' ∧
             (is_ReservationError e = true ∨ e = TypeError ∧ zones_mixed p = true)) ∨
            (editable (db s) at_ actor p row ∧ reservation_row_error (edited_row row p) = Some e ∧
             db s' = db s ∧ committed s' = committed s)
        end
    end) s.
Proof.
  intros Hs. pose proof Hs as [Hc Hdb]. unfold modify_reservation.
  apply wp_bind. unfold wp at 1. rewrite (_lock_reservation_run rid s Hs). simpl.
  destruct (reservations (db s) !! rid) as [row|] eqn:Hrow; [|by split].
  pose proof (db_ok_id _ _ _ Hdb Hrow) as Hid. apply wp_bind, wp_ret.
  assert (Hself : edits s actor row s) by by left.
  apply wp_bind, wp_raise_if; intros Hst; simpl_bools.
  { left. split_and!; [by intros []|done|by left]. }
  apply wp_bind, wp_raise_if; intros Hown; simpl_bools.
  { left. split_and!; [by intros []|done|by left]. }
  apply wp_bind, wp_raise_if; intros Htim.
  { left. split_and!; [|done|by left]. intros [_ _ H _ _ _ _]. apply andb_true_iff in Htim as [Ht Hd].
    destruct (H Ht) as [H1 H2]. by rewrite H1, H2 in Hd. }
  cbv zeta.
  apply wp_bind.
  eapply wp_mono; [apply (window_step s actor row p at_ Hc Hst Hown s Hself)|]. intros [[]|e] s1 H1.
  2:{ destruct H1 as [[? ?] Hn]. left. split_and!; [|done|by left]. by intros []. }
  destruct H1 as [He1 Hwin]. apply wp_bind.
  eapply wp_mono; [apply (edit_script_step s actor row p Hc Hst Hown (with_window row (new_start p) (new_end p)) s1 (with_window_edited _ _ _) He1)|]. intros [r2|e] s2 H2.
  2:{ destruct H2 as [[? ?] Hn]. left. split_and!; [|done|by left]. by intros []. }
  destruct H2 as (-> & He2 & Hsz). apply wp_bind.
  eapply wp_mono; [apply (edit_start_step s actor row p Hc Hst Hown _ s2);
    [exact (transitivity (with_window_edited _ _ _) (with_script_edited _ _ _))|exact He2]|]. intros [r3|e] s3 H3.
  all: destruct (edited_row_slot row p) as (_ & _ & Hsa & Hea & _).
  all: destruct (with_script_window (with_window row (new_start p) (new_end p)) (m_script p)
         (new_trigger p)) as [Hws Hwe]; unfold trigger_ok in H3; rewrite Hws, Hwe in H3.
  2:{ destruct H3 as (? & ? & Hn). left. split_and!; [|done|done].
      intros [_ _ _ _ _ Ht Hz]. apply Hn. split; [|done]. intros t Htt. specialize (Ht t Htt).
      rewrite Hsa, Hea in Ht. exact Ht. }
  destruct H3 as (-> & He3 & Htr & Hz).
  fold (edited_row row p).
  assert (Hed : editable (db s) at_ actor p row).
  { split; [done|done| |done|done|by rewrite Hsa, Hea|done]. intros Ht. unfold timing_edit in Ht.
    rewrite Ht in Htim. simpl in Htim. apply orb_false_iff in Htim as [H4 H5].
    by destruct (Reservation.script_status row), (Reservation.script_dispatch_started_at row). }
  eapply wp_mono; [exact (save_edit_run s actor s3 row (edited_row row p) _ _ _ Hs He3 (edited_row_edited row p))|].
  intros [r|e] s'; [naive_solver|]. intros (? & ? & ?). by right.
Qed.

(** ** Capacity *)

Lemma window_without_row d k g a b :
  db_ok d → is_Some (reservations d !! k) →
  filter (λ r, Reservation.id r ≠ k) (window g a b (reservations d)) ≡ₚ
  window g a b (delete k (reservations d)).
Proof.
  intros Hdb [r0 Hr0]. unfold window.
  assert (Hp : rows (reservations d) ≡ₚ r0 :: rows (delete k (reservations d))).
  { unfold rows. by rewrite <- (map_to_list_delete _ k r0). }
  assert (Hne : ∀ r, r ∈ rows (delete k (reservations d)) → Reservation.id r ≠ k).
  { intros r [k' [Hk' Hk]%lookup_delete_Some]%elem_of_rows. by rewrite (db_ok_id _ _ _ Hdb Hk). }
  assert (Hid : Reservation.id r0 = k) by by eapply db_ok_id.
  rewrite list_filter_filter. rewrite Hp, filter_cons_False by naive_solver.
  clear -Hne. induction (rows (delete k (reservations d))) as [|r l IH]; [done|].
  assert (Hr : Reservation.id r ≠ k) by (apply Hne; left).
  rewrite !filter_cons. destruct (decide (in_window g a b r = true)) as [H|H].
  - rewrite decide_True by done. rewrite IH; [done|]. intros; apply Hne; by right.
  - rewrite decide_False by tauto. apply IH. intros; apply Hne; by right.
Qed.

Lemma edit_keeps_capacity d at_ actor p row :
  db_ok d → booking_ok (gpus d) (reservations d) →
  reservations d !! Reservation.id row = Some row →
  editable d at_ actor p row → reservation_row_ok (edited_row row p) →
  booking_ok (gpus d) (<[Reservation.id row := edited_row row p]> (reservations d)).
Proof.
  intros Hdb Hok Hrow [Hst _ _ Hwin _ _ _] Hrok.
  destruct (edited_row_slot row p) as (Hid & Hg & Hsa & Hea & Hm & Hp & Hstat & Hdraft).
  assert (Hrows : rows_ok (reservations d)) by (intros k r; by apply db_ok_row).
  destruct (window_edit p) eqn:Hw.
  - rewrite <- insert_delete_eq. destruct (Hwin eq_refl) as [_ Hroom].
    apply booking_ok_insert.
    + by apply booking_ok_delete.
    + intros k r [_ Hk]%lookup_delete_Some. by eapply Hrows.
    + done.
    + apply lookup_delete_eq.
    + intros g Hgid. rewrite Hg in Hgid. destruct (Hroom g Hgid) as (gpu & Hgpu & Hc).
      exists gpu. split; [done|]. rewrite Hdraft, Hsa, Hea.
      eapply compatible_perm; [|exact Hc]. unfold others. simpl. rewrite Hgid.
      apply window_without_row; [done|by eexists].
  - unfold window_edit in Hw. apply orb_false_iff in Hw as [H1 H2].
    unfold new_start, new_end in *. destruct (m_start_at p), (m_end_at p); try done. simpl in *.
    eapply booking_ok_same_slot; [done|done|exact Hrow|].
    split_and!; [done..|]. rewrite Hstat. done.
Qed.

(** ** What a request leaves behind *)

(** Committing a session in which an edit may be pending. *)
Lemma commit_edits s actor row st :
  session_ok s → reservations (db s) !! Reservation.id row = Some row → edits s actor row st →
  match commit st with
  | (Ok _, st') => db_ok (committed st') ∧
      (committed st' = db s ∨
       ∃ r, part_edited actor row r ∧ reservation_row_ok r ∧
            committed st' = db s <| reservations :=
                              <[Reservation.id row := r]> (reservations (db s)) |>)
  | (Raise e, st') => committed st' = committed s ∧
      ∃ r, part_edited actor row r ∧ st = pend r s ∧ reservation_row_error r = Some e
  end.
Proof.
  intros Hs Hk [->|(r & Hr & ->)].
  - rewrite commit_clean by apply Hs. simpl. split; [apply Hs|by left].
  - pose proof (set_flush_run r s (proj1 Hs)) as Hf.
    rewrite (bind_run _ _ _ _ _ (set_edits s actor s r r (proj1 Hs) (or_introl eq_refl) (reflexivity r))) in Hf.
    destruct (reservation_row_error r) as [e|] eqn:He.
    + unfold commit. rewrite (bind_run_raise _ _ _ _ _ Hf). simpl. split; [done|]. by exists r.
    + unfold commit. rewrite (bind_run _ _ _ _ _ Hf). simpl.
      apply reservation_row_error_None in He. pose proof (only_edited_id _ _ (proj2 (proj2 Hr))) as Hid.
      split; [|right; exists r; by rewrite Hid].
      apply (session_ok_insert s r Hs); [by rewrite Hid|done].
Qed.

Lemma mapping_errors_run {A} (m : M A) s :
  mapping_errors m s =
    match m s with
    | (Ok a, s') => (Ok a, s')
    | (Raise e, s') => (Raise (if is_ReservationError e then _map_service_error e else e), s')
    end.
Proof. unfold mapping_errors, try_except. destruct (m s) as [[a|e] s']; [done|]. by destruct (is_ReservationError e). Qed.

Lemma map_service_error_http e : is_HTTPException (_map_service_error e) = true.
Proof. by destruct e. Qed.

Lemma row_error_not_http r e :
  reservation_row_error r = Some e → is_ReservationError e = false ∧ is_HTTPException e = false.
Proof. unfold reservation_row_error. repeat case_match; intros; by simplify_eq. Qed.

(** The request as a whole. *)
Lemma modify_request_run rid p current req d now uuid row :
  db_ok d → reservations d !! rid = Some row →
  let r := get_session (modify_reservation_endpoint rid p current req) d now uuid in
  db_ok r.2 ∧
  match r.1 with
  | Ok row' => editable d now (User.id current) p row ∧ row' = edited_row row p ∧
               saved d r.2 row' ["reservation.modify"%string]
  | Raise e =>
      if is_HTTPException e
      then ¬ editable d now (User.id current) p row ∧
           (r.2 = d ∨ ∃ r', part_edited (User.id current) row r' ∧ reservation_row_ok r' ∧
                      r.2 = d <| reservations := <[rid := r']> (reservations d) |>)
      else r.2 = d
  end.
Proof.
  intros Hdb Hrow. pose proof (db_ok_id _ _ _ Hdb Hrow) as Hid. set (s := open_session d now uuid).
  assert (Hs : session_ok s) by by apply open_session_ok.
  assert (Hk : reservations (db s) !! Reservation.id row = Some row) by by rewrite Hid.
  pose proof (modify_run rid (User.id current) p (User.lab_id current) now req s Hs) as Hm.
  unfold wp in Hm. change (db s) with d in Hm. rewrite Hrow in Hm.
  unfold get_session, modify_reservation_endpoint. fold s.
  rewrite (bind_run utcnow _ s now s) by reflexivity. rewrite mapping_errors_run.
  destruct (modify_reservation _ _ _ _ _ _ _ _ _ _ s) as [[row'|e] s1]; simpl in Hm.
  - destruct Hm as (Hed & -> & Hok & Hu).
    rewrite commit_clean by by apply (upd_clean _ _ _ _ Hu). simpl.
    pose proof (only_edited_id _ _ (edited_row_edited row p)) as Hide.
    split; [|split_and!; [done|done|apply (upd_db _ _ _ _ Hu)]].
    refine (proj2 (updated_ok _ _ _ _ Hs _ Hok Hu)). by rewrite Hide, Hk.
  - destruct Hm as [(Hn & He & [Hre|[-> _]])|(Hed & Hre & Hdb1 & Hcm)].
    + rewrite Hre, map_service_error_http. pose proof (commit_edits s (User.id current) row s1 Hs Hk He) as Hcom.
      rewrite Hid in Hcom. destruct (commit s1) as [[[]|e'] s2]; simpl.
      * rewrite map_service_error_http. by destruct Hcom as [? Hcom].
      * destruct Hcom as (-> & r & _ & _ & [_ ->]%row_error_not_http). by split.
    + simpl. destruct He as [->|(r & _ & ->)]; by split.
    + destruct (row_error_not_http _ _ Hre) as [-> ->]. simpl. rewrite Hcm.
      rewrite (proj2 (row_error_not_http _ _ Hre)). by split.
Qed.

(** *** Properties *)

(** C30: an edit is accepted exactly when the stored row is the
    caller's, still scheduled, not yet dispatched if its timing is edited, the
    new window is valid and free of the other bookings, the script is not too
    long, and its trigger lies in the window and is not given together with a
    bound that has a zone; and when the edited row meets the constraints of its
    table.  Then the row is replaced by [edited_row], with one audit entry, and
    no other row moves.  A refusal raises a [ReservationError] -- or Python's
    [TypeError], for the mixed zones -- before anything is written, but may
    leave the edited object pending in the session.  When the edited row breaks
    a constraint, the flush raises its error and the tables are as they were. *)
Theorem modify_reservation_spec rid actor p lab at_ req s :
  session_ok s →
  wp (modify_reservation rid actor (m_start_at p) (m_end_at p) (m_script p)
        (m_script_scheduled_start_at p) (m_script_max_runtime_seconds p) lab at_ req) (λ res s',
    match reservations (db s) !! rid with
    | None => res = Raise ReservationNotFoundError ∧ s' = s
    | Some row =>
        match res with
        | Ok row' => editable (db s) at_ actor p row ∧ row' = edited_row row p ∧
                     reservation_row_ok row' ∧ updated s s' row' ["reservation.modify"%string]
        | Raise e =>
            (¬ editable (db s) at_ actor p row ∧ edits s actor row s' ∧
             (is_ReservationError e = true ∨ e = TypeError ∧ zones_mixed p = true)) ∨
            (editable (db s) at_ actor p row ∧ reservation_row_error (edited_row row p) = Some e ∧
             db s' = db s ∧ committed s' = committed s)
        end
    end) s.
Proof. apply modify_run. Qed.

(** Two bookings of one card, four hours apart. *)
Definition edit_db : Db :=
  sample_db [sample_reservation 100 1 (hours 1) (hours 3) None;
             sample_reservation 101 1 (hours 4) (hours 6) None].
Definition edit_sample : Session := open_session edit_db 0 "".

Lemma edit_db_ok : db_ok edit_db.
Proof. apply db_ok_by_test. vm_compute. reflexivity. Qed.

Definition move_to (start_at end_at : Z) : ModifyRequest :=
  mkModifyRequest (Some (Naive start_at)) (Some (Naive end_at)) None None None.

Lemma modify_reservation_spec_witness :
  let p := move_to (hours 2) (hours 4) in
  wp (modify_reservation 100 10 (m_start_at p) (m_end_at p) (m_script p)
        (m_script_scheduled_start_at p) (m_script_max_runtime_seconds p) 1 0 no_request) (λ res s',
    match reservations (db edit_sample) !! 100 with
    | None => res = Raise ReservationNotFoundError ∧ s' = edit_sample
    | Some row =>
        match res with
        | Ok row' => editable (db edit_sample) 0 10 p row ∧ row' = edited_row row p ∧
                     reservation_row_ok row' ∧ updated edit_sample s' row' ["reservation.modify"%string]
        | Raise e =>
            (¬ editable (db edit_sample) 0 10 p row ∧ edits edit_sample 10 row s' ∧
             (is_ReservationError e = true ∨ e = TypeError ∧ zones_mixed p = true)) ∨
            (editable (db edit_sample) 0 10 p row ∧ reservation_row_error (edited_row row p) = Some e ∧
             db s' = db edit_sample ∧ committed s' = committed edit_sample)
        end
    end) edit_sample ∧
  is_ok (modify_reservation 100 10 (m_start_at p) (m_end_at p) None None None 1 0 no_request
           edit_sample).1 = true.
Proof.
  intros p. split; [|vm_compute; reflexivity].
  apply (modify_reservation_spec 100 10 p 1 0 no_request edit_sample), open_session_ok, edit_db_ok.
Defined.

(** an accepted edit keeps the capacity invariant, whatever it
    moves: the new window was checked against every other booking of the
    card. *)
Theorem modify_preserves_capacity rid actor p lab at_ req s :
  session_ok s → booking_ok (gpus (db s)) (reservations (db s)) →
  wp (modify_reservation rid actor (m_start_at p) (m_end_at p) (m_script p)
        (m_script_scheduled_start_at p) (m_script_max_runtime_seconds p) lab at_ req) (λ res s',
    is_ok res = true → booking_ok (gpus (db s')) (reservations (db s'))) s.
Proof.
  intros Hs Hok. pose proof Hs as [_ Hdb].
  eapply wp_mono; [apply (modify_run rid actor p lab at_ req s Hs)|].
  intros [row'|e] s' H; [intros _|done].
  destruct (reservations (db s) !! rid) as [row|] eqn:Hrow; [|by destruct H].
  destruct H as (Hed & -> & Hrok & [_ _ _ (es & ns & _ & Hdb')]).
  rewrite Hdb'. simpl. rewrite (proj1 (edited_row_slot row p)).
  eapply edit_keeps_capacity; [done|done|by eapply db_ok_lookup_id|done|done].
Qed.

(** One whole-card booking meets nobody. *)
Lemma lone_booking_ok gs r :
  Reservation.gpu_compute_share_pct r = None → booking_ok gs {[Reservation.id r := r]}.
Proof.
  intros Hp. split_and!.
  - intros g t k1 k2 r1 r2 [<- _]%lookup_singleton_Some [<- _]%lookup_singleton_Some. done.
  - intros g gpu t k1 k2 r1 r2 _ _ [<- _]%lookup_singleton_Some [<- _]%lookup_singleton_Some. done.
  - intros g t. unfold compute_at, msum, rows. rewrite map_to_list_singleton. simpl. rewrite Hp.
    destruct (covers g t r); simpl; lia.
Qed.

Definition lone_db : Db := sample_db [sample_reservation 100 1 (hours 1) (hours 3) None].

Lemma modify_preserves_capacity_witness :
  let p := move_to (hours 2) (hours 4) in
  let s := open_session lone_db 0 "" in
  wp (modify_reservation 100 10 (m_start_at p) (m_end_at p) (m_script p)
        (m_script_scheduled_start_at p) (m_script_max_runtime_seconds p) 1 0 no_request) (λ res s',
    is_ok res = true → booking_ok (gpus (db s')) (reservations (db s'))) s ∧
  is_ok (modify_reservation 100 10 (m_start_at p) (m_end_at p) None None None 1 0 no_request s).1 = true.
Proof.
  intros p s. split; [|vm_compute; reflexivity].
  apply (modify_preserves_capacity 100 10 p 1 0 no_request s).
  - apply open_session_ok, db_ok_by_test. vm_compute. reflexivity.
  - exact (lone_booking_ok _ (sample_reservation 100 1 (hours 1) (hours 3) None) eq_refl).
Defined.

(** what [PATCH] leaves in the database.  An accepted edit stores
    the edited row; an error that is not an HTTP response changes nothing; a
    refusal (4xx) never touches another row, the audit log or the table's
    constraints, but a scheduled booking of the caller may be saved as far as
    it was edited -- its window and script, never what identifies the booking
    or its status -- because the request's session is committed on every HTTP
    error. *)
Theorem modify_request_outcome rid p current req d now uuid row :
  db_ok d → reservations d !! rid = Some row →
  let r := get_session (modify_reservation_endpoint rid p current req) d now uuid in
  db_ok r.2 ∧
  match r.1 with
  | Ok row' => editable d now (User.id current) p row ∧ row' = edited_row row p ∧
               saved d r.2 row' ["reservation.modify"%string]
  | Raise e =>
      if is_HTTPException e
      then ¬ editable d now (User.id current) p row ∧
           (r.2 = d ∨ ∃ r', part_edited (User.id current) row r' ∧ reservation_row_ok r' ∧
                      r.2 = d <| reservations := <[rid := r']> (reservations d) |>)
      else r.2 = d
  end.
Proof. apply modify_request_run. Qed.

Lemma modify_request_outcome_witness :
  let p := move_to (hours 2) (hours 4) in
  let r := get_session (modify_reservation_endpoint 100 p (sample_user 10 "alice") no_request)
             edit_db 0 "" in
  db_ok r.2 ∧
  match r.1 with
  | Ok row' => editable edit_db 0 10 p (sample_reservation 100 1 (hours 1) (hours 3) None) ∧
               row' = edited_row (sample_reservation 100 1 (hours 1) (hours 3) None) p ∧
               saved edit_db r.2 row' ["reservation.modify"%string]
  | Raise e =>
      if is_HTTPException e
      then ¬ editable edit_db 0 10 p (sample_reservation 100 1 (hours 1) (hours 3) None) ∧
           (r.2 = edit_db ∨ ∃ r', part_edited 10 (sample_reservation 100 1 (hours 1) (hours 3) None) r' ∧
                      reservation_row_ok r' ∧
                      r.2 = edit_db <| reservations := <[100 := r']> (reservations edit_db) |>)
      else r.2 = edit_db
  end.
Proof.
  apply (modify_request_outcome 100 (move_to (hours 2) (hours 4)) (sample_user 10 "alice")
           no_request edit_db 0 "" (sample_reservation 100 1 (hours 1) (hours 3) None) edit_db_ok).
  vm_compute. reflexivity.
Defined.

(** *** What the code does not prevent *)

(** the overlap is detected and answered with 409, yet the moved window is
    committed: the card is then double booked. *)
Lemma rejected_patch_is_committed :
  let r := get_session (modify_reservation_endpoint 100 (move_to (hours 4) (hours 5))
             (sample_user 10 "alice") no_request) edit_db 0 "" in
  r.1 = Raise (HTTPException 409 "RESERVATION_OVERLAP") ∧
  (Reservation.start_at <$> reservations r.2 !! 100) = Some (hours 4) ∧
  ¬ no_double_booking (reservations r.2).
Proof.
  intros r. split; [vm_compute; reflexivity|]. split; [vm_compute; reflexivity|].
  intros H. destruct (H 1 (hours 4) 100 101
    (with_window (sample_reservation 100 1 (hours 1) (hours 3) None) (Some (hours 4)) (Some (hours 5)))
    (sample_reservation 101 1 (hours 4) (hours 6) None)) as [[m Hm] _];
    [vm_compute; reflexivity..|done|vm_compute; reflexivity|vm_compute; reflexivity|].
  discriminate Hm.
Qed.

(** A bound and a trigger as a browser writes them, in UTC: the bound stays
    aware, the trigger is made naive, and Python does not compare the two. *)
Definition zoned_trigger : ModifyRequest :=
  mkModifyRequest (Some (Aware (hours 2) 0)) None None (Some (Aware (hours 2) 0)) None.

Example zoned_trigger_is_a_server_error :
  let r := get_session (modify_reservation_endpoint 100 zoned_trigger (sample_user 10 "alice") no_request) edit_db 0 "" in
  r.1 = Raise TypeError ∧ r.2 = edit_db.
Proof. by vm_compute. Qed.

(** A window of 10:00 to 11:00 at two hours east of Greenwich is stored as
    10:00 to 11:00 UTC; the trigger, of the same zone, is converted. *)
Definition zoned_window : ModifyRequest :=
  mkModifyRequest (Some (Aware (hours 10) (hours 2))) (Some (Aware (hours 11) (hours 2))) None None None.

Example offset_is_dropped :
  let r := get_session (modify_reservation_endpoint 100 zoned_window (sample_user 10 "alice") no_request) edit_db 0 "" in
  (Reservation.start_at <$> reservations r.2 !! 100) = Some (hours 10) ∧
  utc_time (Aware (hours 10) (hours 2)) = hours 8.
Proof. by vm_compute. Qed.
