(* ===== verification/LifecycleProperties.v ===== *)
(** The life of a script: agent events, the log tail, and cancelling a
    reservation whose script is still running. *)

From S2P Require Import Prelude Models SessionLayer Samples AgentRpc.
From S2P Require Import AuditService NotificationService ReservationService ReservationLifecycle ScriptLifecycleService.
From S2P Require Import ReservationsApi.

(** ** The log tail *)

Lemma last_chars_app {A} n (l k : list A) :
  last_chars n (last_chars n l ++ k) = last_chars n (l ++ k).
Proof.
  unfold last_chars. destruct (decide (length l <= Z.to_nat n)%nat).
  - by replace (length l - Z.to_nat n)%nat with 0%nat by lia.
  - set (m := (length l - Z.to_nat n)%nat).
    replace (length (l ++ k) - Z.to_nat n)%nat with (m + length k)%nat by (rewrite length_app; lia).
    rewrite <- drop_drop, (drop_app_le l) by lia. f_equal. rewrite length_app, length_drop. lia.
Qed.

Lemma last_chars_all {A} n (l : list A) : (length l <= Z.to_nat n)%nat → last_chars n l = l.
Proof. intros H. unfold last_chars. by replace (length l - Z.to_nat n)%nat with 0%nat by lia. Qed.

Lemma last_chars_length {A} n (l : list A) :
  0 <= n → n < Z.of_nat (length l) → Z.of_nat (length (last_chars n l)) = n.
Proof. intros. unfold last_chars. rewrite length_drop. lia. Qed.

Lemma utf8_length_ge (s : pystr) : Z.of_nat (length s) <= utf8_length s.
Proof.
  induction s as [|c s IH]; [done|]. change (utf8_length (c :: s)) with (utf8_bytes c + utf8_length s).
  assert (1 <= utf8_bytes c); [|simpl length; lia].
  unfold utf8_bytes. destruct (c <? 128)%N; [lia|]. destruct (c <? 2048)%N; [lia|].
  destruct (c <? 65536)%N; lia.
Qed.

Definition tail_of (row : Reservation.t) : pystr := default [] (Reservation.script_log_tail_text row).

(** The tail of a row that has received [out] so far. *)
Definition tails (max_chars : Z) (out : pystr) (row : Reservation.t) : Prop :=
  tail_of row = last_chars max_chars out ∧
  (Reservation.script_log_tail_truncated row ≠ 0 ↔ max_chars < Z.of_nat (length out)).

Lemma appended_tails max_chars out row text :
  0 <= max_chars → tails max_chars out row →
  tails max_chars (out ++ text) (appended_tail row text max_chars).
Proof.
  intros Hm [Ht Hf]. unfold tails, tail_of, appended_tail in *. cbv zeta. rewrite Ht.
  assert (Hshort : Z.of_nat (length out) <= max_chars → last_chars max_chars out = out).
  { intros. apply last_chars_all. lia. }
  assert (Hlong : max_chars < Z.of_nat (length out) →
                  Z.of_nat (length (last_chars max_chars out)) = max_chars).
  { intros. by apply last_chars_length. }
  case_bool_decide as Hover; simpl; rewrite ?length_app in *.
  - split; [apply last_chars_app|]. split; [intros _|done].
    destruct (decide (max_chars < Z.of_nat (length out))); [lia|]. rewrite Hshort in Hover by lia. lia.
  - split.
    + rewrite <- last_chars_app. symmetry. apply last_chars_all. rewrite length_app. lia.
    + destruct (decide (max_chars < Z.of_nat (length out))) as [Hl|Hl].
      * rewrite bool_decide_eq_true_2 by tauto. split; [intros _; lia|done].
      * rewrite bool_decide_eq_false_2 by tauto. rewrite Hshort in Hover by lia. split; [done|lia].
Qed.

(** ** Runs of the event handlers *)

Lemma get_reservation_run k s :
  session_ok s → get_reservation k s = (Ok (reservations (db s) !! k), s).
Proof. intros [Hc _]. by apply get_reservation_clean. Qed.

(** Several saves of one row, one after the other. *)
Lemma updated_trans s s1 s2 r1 r2 acts1 acts2 :
  Reservation.id r2 = Reservation.id r1 →
  updated s s1 r1 acts1 → updated s1 s2 r2 acts2 → updated s s2 r2 (acts1 ++ acts2).
Proof.
  intros Hid [A1 A2 [A3 A3'] (es & ns & Hes & Hdb)] [B1 B2 [B3 B3'] (es' & ns' & Hes' & Hdb')].
  split; [congruence|done|split; congruence|]. exists (es ++ es'), (ns ++ ns').
  split; [by rewrite fmap_app, Hes, Hes'|].
  rewrite Hdb', Hdb. simpl. by rewrite Hid, insert_insert_eq, <- !app_assoc.
Qed.

Lemma save_again row row' s s1 acts :
  updated s s1 row acts → Reservation.id row' = Reservation.id row → reservation_row_ok row' →
  ∃ s2, (set_reservation row' ;; flush) s1 = (Ok tt, s2) ∧ updated s s2 row' acts.
Proof.
  intros Hu Hid Hok. destruct (save_updated row' s1 (upd_clean _ _ _ _ Hu) Hok) as (s2 & Hr & Hu2).
  exists s2. split; [done|]. rewrite <- (app_nil_r acts). by eapply updated_trans.
Qed.

Lemma notify_script_run row ty title sev body extra s s1 r acts :
  updated s s1 r acts →
  ∃ s2, _notify_script_event row ty title sev body extra s1 = (Ok tt, s2) ∧ updated s s2 r acts.
Proof.
  intros Hu. unfold _notify_script_event, _resolve_pa_id_for_reservation, get_link.
  rewrite (bind_run (gets _ ≫= _) _ s1 _ s1) by reflexivity. cbv zeta. run_step. by eexists.
Qed.

Lemma with_log_path_ok row o : reservation_row_ok row → reservation_row_ok (with_log_path row o).
Proof. unfold with_log_path. by destruct (str_truthy o). Qed.

Lemma with_log_path_id row o : Reservation.id (with_log_path row o) = Reservation.id row.
Proof. unfold with_log_path. by destruct (str_truthy o). Qed.

Lemma acked_row_slot row p :
  Reservation.id (acked_row row p) = Reservation.id row ∧
  (reservation_row_ok row → reservation_row_ok (acked_row row p)).
Proof.
  unfold acked_row. cbv zeta. rewrite with_log_path_id.
  split; [by destruct (Reservation.script_started_at _)|]. intros H. apply with_log_path_ok.
  by destruct (Reservation.script_started_at _).
Qed.

(** ** The finished event *)

(** The row after the agent reported the end of its script. *)
Definition finished_row (row : Reservation.t) (p : ScriptFinishedEvent) : Reservation.t :=
  with_output (row <| Reservation.script_status := Some (finished_status p) |>
                   <| Reservation.script_finished_at := Some (fi_finished_at p) |>
                   <| Reservation.script_exit_code :=
                        or_keep (fi_exit_code p) (Reservation.script_exit_code row) |>) p.

(** The numbers of a report fit their columns. *)
Definition finish_fits (p : ScriptFinishedEvent) : bool :=
  signed_fits (fi_exit_code p) && unsigned_fits (Some (fi_output_size_bytes p)).

Lemma with_output_slot row p :
  Reservation.id (with_output row p) = Reservation.id row ∧
  (finish_fits p = true → reservation_row_ok row → reservation_row_ok (with_output row p)).
Proof.
  unfold with_output. cbv zeta. rewrite with_log_path_id.
  destruct (bool_decide _); (split; [done|]); intros [_ Hf]%andb_true_iff H; apply with_log_path_ok; [|done].
  destruct H as (H1 & H2 & H3 & H4 & H5 & H6 & H7 & H8 & H9). split_and!; try done. by apply unsigned_fits_true.
Qed.

Lemma finished_status_terminal p : script_terminal (finished_status p) = true.
Proof. unfold finished_status. destruct (fi_killed_by_corelab p); [done|]. by case_bool_decide. Qed.

Lemma finished_row_slot row p :
  Reservation.id (finished_row row p) = Reservation.id row ∧
  (finish_fits p = true → reservation_row_ok row → reservation_row_ok (finished_row row p)).
Proof.
  unfold finished_row. destruct (with_output_slot (row <| Reservation.script_status := Some (finished_status p) |>
                   <| Reservation.script_finished_at := Some (fi_finished_at p) |>
                   <| Reservation.script_exit_code :=
                        or_keep (fi_exit_code p) (Reservation.script_exit_code row) |>) p) as [H1 H2].
  split; [exact H1|]. intros Hf H. apply H2; [done|]. apply andb_true_iff in Hf as [Hec _]. rewrite signed_fits_true in Hec.
  destruct H as (A1 & A2 & A3 & A4 & A5 & A6 & A7 & A8 & A9). split_and!; try done.
  cbn. destruct (fi_exit_code p); [|done]. intros c [= <-]. by apply Hec.
Qed.

Lemma notify_finished_run row p st s s1 r acts :
  updated s s1 r acts →
  ∃ s2, notify_finished row p st s1 = (Ok tt, s2) ∧ updated s s2 r acts.
Proof.
  intros Hu. unfold notify_finished. destruct (_FINISHED_NOTIFICATION_META st) as [[[? ?] ?]|].
  - by apply notify_script_run.
  - by exists s1.
Qed.

(** The transition a running script makes, before the registry is told. *)
Lemma finish_running_run row p lab s :
  session_ok s → reservations (db s) !! Reservation.id row = Some row →
  Reservation.script_status row = Some SCRIPT_RUNNING → finish_fits p = true →
  ∃ s', (row' ← update_script_status row (finished_status p) lab "agent.script.finished"
                 (fi_exit_code p) None (Some (fi_finished_at p)) None ;
         (set_reservation (with_output row' p) ;; flush) ;;
         notify_finished (with_output row' p) p (finished_status p)) s = (Ok tt, s') ∧
        updated s s' (finished_row row p) ["reservation.script.lifecycle"%string].
Proof.
  intros Hs Hrow Hrun Hfit. pose proof (db_ok_row _ _ _ (proj2 Hs) Hrow) as Hok.
  destruct (update_script_status_run row (finished_status p) lab "agent.script.finished"
    (fi_exit_code p) None (Some (fi_finished_at p)) None s Hs Hok) as (r1 & s1 & Hr1 & Hu1 & Hok1 & Heq).
  { rewrite Hrun. unfold finished_status. destruct (fi_killed_by_corelab p); [set_solver|].
    case_bool_decide; set_solver. }
  { by apply andb_true_iff in Hfit as [? _]. }
  rewrite (bind_run _ _ _ _ _ Hr1).
  assert (Hfin : with_output r1 p = finished_row row p).
  { rewrite Heq, finished_status_terminal. unfold finished_row.
    assert (bool_decide (finished_status p = SCRIPT_RUNNING) = false) as ->.
    { apply bool_decide_eq_false. unfold finished_status.
      destruct (fi_killed_by_corelab p), (bool_decide (fi_exit_code p = Some 0)); discriminate. }
    done. }
  rewrite Hfin.
  assert (Hid : Reservation.id r1 = Reservation.id row) by by rewrite Heq.
  destruct (save_again r1 (finished_row row p) s s1 _ Hu1) as (s2 & Hr2 & Hu2).
  { by rewrite Hid, (proj1 (finished_row_slot row p)). }
  { by apply finished_row_slot. }
  rewrite (bind_run _ _ _ _ _ Hr2). by apply notify_finished_run.
Qed.

(** A row whose numbers do not fit cannot be flushed. *)
Lemma numbers_error row r :
  reservation_row_ok row →
  (ck_res_time_order r, ck_res_script_time r, ck_res_compute_pct r) =
    (ck_res_time_order row, ck_res_script_time row, ck_res_compute_pct row) →
  (Reservation.gpu_memory_mb r, Reservation.script r, Reservation.script_log_tail_text r,
   Reservation.script_max_runtime_seconds r) =
    (Reservation.gpu_memory_mb row, Reservation.script row, Reservation.script_log_tail_text row,
     Reservation.script_max_runtime_seconds row) →
  reservation_row_error r =
    if signed_fits (Reservation.script_exit_code r) then
      if unsigned_fits (Reservation.script_output_size_bytes r) then None
      else Some (DataError "script_output_size_bytes")
    else Some (DataError "script_exit_code").
Proof.
  intros Hok%reservation_row_error_None [= H1 H2 H3] [= H4 H5 H6 H7]. unfold reservation_row_error in *.
  rewrite H1, H2, H3, H4, H5, H6, H7. clear H1 H2 H3 H4 H5 H6 H7.
  destruct (ck_res_time_order row); [|discriminate Hok].
  destruct (ck_res_script_time row); [|discriminate Hok].
  destruct (ck_res_compute_pct row); [|discriminate Hok].
  destruct (unsigned_fits (Reservation.gpu_memory_mb row)); [|discriminate Hok].
  destruct (unsigned_fits (Reservation.script_max_runtime_seconds row)); [|discriminate Hok].
  destruct (signed_fits (Reservation.script_exit_code row)); [|discriminate Hok].
  destruct (unsigned_fits (Reservation.script_output_size_bytes row)); [|discriminate Hok].
  destruct (text_fits (Reservation.script row)); [|discriminate Hok].
  destruct (text_fits (Reservation.script_log_tail_text row)); [|discriminate Hok]. simpl.
  by destruct (signed_fits _), (unsigned_fits _).
Qed.

Lemma finish_unfit_run row p lab s :
  session_ok s → reservations (db s) !! Reservation.id row = Some row →
  Reservation.script_status row = Some SCRIPT_RUNNING → finish_fits p = false →
  ∃ column s', (row' ← update_script_status row (finished_status p) lab "agent.script.finished"
                 (fi_exit_code p) None (Some (fi_finished_at p)) None ;
         (set_reservation (with_output row' p) ;; flush) ;;
         notify_finished (with_output row' p) p (finished_status p)) s = (Raise (DataError column), s') ∧
        committed s' = committed s.
Proof.
  intros Hs Hrow Hrun Hfit. pose proof (db_ok_row _ _ _ (proj2 Hs) Hrow) as Hok.
  assert (Hal : finished_status p ∈ _ALLOWED_SCRIPT_TRANSITIONS (Reservation.script_status row)).
  { rewrite Hrun. unfold finished_status. destruct (fi_killed_by_corelab p); [set_solver|]. case_bool_decide; set_solver. }
  destruct (signed_fits (fi_exit_code p)) eqn:Hec.
  - destruct (update_script_status_run row (finished_status p) lab "agent.script.finished"
      (fi_exit_code p) None (Some (fi_finished_at p)) None s Hs Hok Hal Hec) as (r1 & s1 & Hr1 & Hu1 & Hok1 & _).
    rewrite (bind_run _ _ _ _ _ Hr1). unfold finish_fits in Hfit. rewrite Hec in Hfit. cbn [andb] in Hfit.
    pose proof (set_flush_run (with_output r1 p) s1 (upd_clean _ _ _ _ Hu1)) as Hf.
    assert (He : reservation_row_error (with_output r1 p) = Some (DataError "script_output_size_bytes")).
    { assert (Hsz : Reservation.script_output_size_bytes (with_output r1 p) = Some (fi_output_size_bytes p)).
      { unfold with_output, with_log_path. cbv zeta. rewrite bool_decide_eq_true_2; [by destruct (str_truthy _)|].
        intros H0. by rewrite H0 in Hfit. }
      rewrite (numbers_error r1) by (try done; unfold with_output, with_log_path; cbv zeta;
                                     by destruct (bool_decide _), (str_truthy _)).
      rewrite Hsz, Hfit. replace (Reservation.script_exit_code (with_output r1 p)) with (Reservation.script_exit_code r1)
        by (unfold with_output, with_log_path; cbv zeta; by destruct (bool_decide _), (str_truthy _)).
      destruct Hok1 as (_ & _ & _ & _ & _ & _ & _ & H8 & _). by rewrite (proj2 (signed_fits_true _) H8). }
    rewrite He in Hf. rewrite (bind_run_raise _ _ _ _ _ Hf). eexists _, _. split; [done|]. apply Hu1.
  - unfold update_script_status. cbv zeta.
    match goal with |- context [set_reservation ?r] => set (row' := r) end.
    assert (He : reservation_row_error row' = Some (DataError "script_exit_code")).
    { rewrite (numbers_error row); [|done|unfold row'; by destruct (finished_status p)..].
      assert (Reservation.script_exit_code row' = fi_exit_code p) as ->; [|by rewrite Hec].
      unfold row'. rewrite finished_status_terminal. cbn. by destruct (fi_exit_code p). }
    clearbody row'. pose proof (set_flush_run row' s (proj1 Hs)) as Hf. rewrite He in Hf.
    exists "script_exit_code"%string, (s <| dirty := {[Reservation.id row' := row']} |>).
    split; [|done]. rewrite bool_decide_eq_true_2 by exact Hal. apply bind_run_raise.
    rewrite (bind_run (raise_if _ _) _ s tt s) by done. by rewrite (bind_run_raise _ _ _ _ _ Hf).
Qed.

(** ** The started event *)

Definition started_row (row : Reservation.t) (p : ScriptStartedEvent) : Reservation.t :=
  match Reservation.script_status row with
  | Some SCRIPT_RUNNING => acked_row row p
  | _ => with_log_path (row <| Reservation.script_status := Some SCRIPT_RUNNING |>
                            <| Reservation.script_started_at := Some (st_started_at p) |>) (st_log_path p)
  end.

Lemma started_row_ok row p : reservation_row_ok row → reservation_row_ok (started_row row p).
Proof.
  intros H. unfold started_row.
  destruct (Reservation.script_status row) as [[]|]; try by apply with_log_path_ok.
  by apply acked_row_slot.
Qed.

Lemma started_tail_run row p lab s s1 r acts :
  updated s s1 r acts →
  ∃ s2, (audit_started row p lab ;; notify_started row p) s1 = (Ok tt, s2) ∧
        updated s s2 r (acts ++ ["reservation.script.lifecycle.started"%string]).
Proof.
  intros Hu. unfold audit_started, notify_started. run_step.
  by apply notify_script_run.
Qed.

Lemma start_acked_run row p lab s :
  session_ok s → reservations (db s) !! Reservation.id row = Some row →
  ∃ s', ((set_reservation (acked_row row p) ;; flush) ;; audit_started (acked_row row p) p lab ;;
         notify_started (acked_row row p) p) s = (Ok tt, s') ∧
        updated s s' (acked_row row p) ["reservation.script.lifecycle.started"%string].
Proof.
  intros Hs Hrow. pose proof (db_ok_row _ _ _ (proj2 Hs) Hrow) as Hok.
  destruct (save_updated (acked_row row p) s (proj1 Hs)) as (s1 & Hr1 & Hu1).
  { by apply acked_row_slot. }
  rewrite (bind_run _ _ _ _ _ Hr1). exact (started_tail_run _ p lab _ _ _ _ Hu1).
Qed.

Lemma start_legacy_run row p lab s :
  session_ok s → reservations (db s) !! Reservation.id row = Some row →
  Reservation.script_status row = None →
  ∃ s', (row' ← update_script_status row SCRIPT_RUNNING lab "agent.script.started" None
                  (Some (st_started_at p)) None None ;
         (set_reservation (with_log_path row' (st_log_path p)) ;; flush) ;;
         audit_started (with_log_path row' (st_log_path p)) p lab ;;
         notify_started (with_log_path row' (st_log_path p)) p) s = (Ok tt, s') ∧
        updated s s' (started_row row p)
          ["reservation.script.lifecycle"; "reservation.script.lifecycle.started"]%string.
Proof.
  intros Hs Hrow Hnone. pose proof (db_ok_row _ _ _ (proj2 Hs) Hrow) as Hok.
  destruct (update_script_status_run row SCRIPT_RUNNING lab "agent.script.started" None
    (Some (st_started_at p)) None None s Hs Hok) as (r1 & s1 & Hr1 & Hu1 & Hok1 & Heq).
  { rewrite Hnone. set_solver. } { done. }
  rewrite (bind_run _ _ _ _ _ Hr1).
  assert (Hst : with_log_path r1 (st_log_path p) = started_row row p).
  { rewrite Heq. unfold started_row. by rewrite Hnone. }
  destruct (save_again r1 (with_log_path r1 (st_log_path p)) s s1 _ Hu1) as (s2 & Hr2 & Hu2);
    [apply with_log_path_id|by apply with_log_path_ok|].
  rewrite (bind_run _ _ _ _ _ Hr2), <- Hst. exact (started_tail_run _ p lab _ _ _ _ Hu2).
Qed.

(** The tail that fits is appended whole; the one that does not cannot be
    stored, truncated or not. *)
Lemma appended_tail_short row text max_chars :
  Z.of_nat (length (tail_of row ++ text)) <= max_chars →
  appended_tail row text max_chars =
    row <| Reservation.script_log_tail_text := Some (tail_of row ++ text) |>
        <| Reservation.script_log_tail_truncated :=
             if bool_decide (Reservation.script_log_tail_truncated row ≠ 0) then 1 else 0 |>.
Proof.
  intros H. unfold appended_tail. fold (tail_of row). cbv zeta.
  by rewrite bool_decide_eq_false_2 by lia.
Qed.

Lemma row_error_tail row t f :
  reservation_row_ok row →
  reservation_row_error (row <| Reservation.script_log_tail_text := Some t |>
      <| Reservation.script_log_tail_truncated := f |>) =
    if bool_decide (utf8_length t <= TEXT_MAX_BYTES) then None
    else Some (DataError "script_log_tail_text").
Proof.
  intros Hok%reservation_row_error_None. set (row' := row <| Reservation.script_log_tail_text := _ |> <| Reservation.script_log_tail_truncated := _ |>).
  unfold reservation_row_error in *.
  change (ck_res_time_order row') with (ck_res_time_order row).
  change (ck_res_script_time row') with (ck_res_script_time row).
  change (ck_res_compute_pct row') with (ck_res_compute_pct row).
  change (Reservation.gpu_memory_mb row') with (Reservation.gpu_memory_mb row).
  change (Reservation.script_max_runtime_seconds row') with (Reservation.script_max_runtime_seconds row).
  change (Reservation.script_exit_code row') with (Reservation.script_exit_code row).
  change (Reservation.script_output_size_bytes row') with (Reservation.script_output_size_bytes row).
  change (Reservation.script row') with (Reservation.script row).
  destruct (ck_res_time_order row); [|discriminate Hok].
  destruct (ck_res_script_time row); [|discriminate Hok].
  destruct (ck_res_compute_pct row); [|discriminate Hok].
  destruct (unsigned_fits (Reservation.gpu_memory_mb row)); [|discriminate Hok].
  destruct (unsigned_fits (Reservation.script_max_runtime_seconds row)); [|discriminate Hok].
  destruct (signed_fits (Reservation.script_exit_code row)); [|discriminate Hok].
  destruct (unsigned_fits (Reservation.script_output_size_bytes row)); [|discriminate Hok].
  destruct (text_fits (Reservation.script row)); [|discriminate Hok]. simpl.
  by case_bool_decide.
Qed.

Lemma tail_row_error row text :
  reservation_row_ok row →
  reservation_row_error (appended_tail row text SCRIPT_LOG_TAIL_MAX_CHARS) =
    if bool_decide (utf8_length (tail_of row ++ text) <= TEXT_MAX_BYTES) then None
    else Some (DataError "script_log_tail_text").
Proof.
  intros Hok. pose proof (utf8_length_ge (tail_of row ++ text)) as Hge.
  assert (Hnew : ∀ t f, reservation_row_error (row <| Reservation.script_log_tail_text := Some t |>
      <| Reservation.script_log_tail_truncated := f |>) =
      if bool_decide (utf8_length t <= TEXT_MAX_BYTES) then None
      else Some (DataError "script_log_tail_text")).
  { intros t f. by apply row_error_tail. }
  unfold appended_tail. fold (tail_of row). cbv zeta.
  set (all := tail_of row ++ text) in *.
  case_bool_decide as Hover; rewrite Hnew.
  - pose proof (utf8_length_ge (last_chars SCRIPT_LOG_TAIL_MAX_CHARS all)) as Hge'.
    rewrite last_chars_length in Hge' by (unfold SCRIPT_LOG_TAIL_MAX_CHARS in *; lia).
    rewrite !bool_decide_eq_false_2; [done|..];
      unfold SCRIPT_LOG_TAIL_MAX_CHARS, TEXT_MAX_BYTES in *; lia.
  - done.
Qed.

(** The registry of pending kills is only touched by the signal. *)
Definition keeps_registry {A} (m : M A) : Prop := ∀ s, pending_kills (m s).2 = pending_kills s.

Lemma keeps_bind {A B} (m : M A) (f : A → M B) :
  keeps_registry m → (∀ a, keeps_registry (f a)) → keeps_registry (m ≫= f).
Proof.
  intros Hm Hf s. unfold mbind, prog_bind. specialize (Hm s).
  destruct (m s) as [[a|e] s1]; simpl in *; [|done]. by rewrite Hf.
Qed.

Lemma keeps_reader {A} (m : M A) : reader m → keeps_registry m.
Proof. intros H s. by rewrite H. Qed.

Lemma keeps_flush : keeps_registry flush.
Proof. intros s. unfold flush. by destruct (dirty_error (dirty s)). Qed.

Lemma keeps_write a b c d e f g h i : keeps_registry (write a b c d e f g h i).
Proof.
  intros s. unfold write, write_result. pose proof keeps_flush as H.
  match goal with |- context [flush ?s1] => specialize (H s1); destruct (flush s1) as [[?|?] s2] end; done.
Qed.

Lemma keeps_save r : keeps_registry (set_reservation r ;; flush).
Proof. apply keeps_bind; [done|intros _; apply keeps_flush]. Qed.

Lemma keeps_create a b c d e f g h : keeps_registry (create_notification a b c d e f g h).
Proof.
  unfold create_notification. apply keeps_bind.
  - destruct (_DEDUP_PK_KEYS b); [|done]. destruct f as [[|? ?]|]; [done| |done].
    by destruct (obj_get _ _).
  - intros [n|]; [done|]. apply keeps_bind; [|done].
    apply keeps_bind; [apply keeps_flush|done].
Qed.

Lemma finish_keeps_registry row p lab s u s' :
  (row' ← update_script_status row (finished_status p) lab "agent.script.finished"
            (fi_exit_code p) None (Some (fi_finished_at p)) None ;
   (set_reservation (with_output row' p) ;; flush) ;;
   notify_finished (with_output row' p) p (finished_status p)) s = (Ok u, s') →
  pending_kills s' = pending_kills s.
Proof.
  intros Hr. match type of Hr with ?m s = _ => assert (keeps_registry m) as H end.
  2:{ specialize (H s). by rewrite Hr in H. }
  apply keeps_bind.
  - unfold update_script_status. cbv zeta. apply keeps_bind; [apply keeps_reader; auto with reader|intros _].
    apply keeps_bind; [apply keeps_save|intros _]. apply keeps_bind; [apply keeps_write|done].
  - intros row'. apply keeps_bind; [apply keeps_save|intros _]. unfold notify_finished.
    destruct (_FINISHED_NOTIFICATION_META _) as [[[? ?] ?]|]; [|done].
    unfold _notify_script_event. apply keeps_bind; [done|intros pa]. cbv zeta.
    apply keeps_bind; [apply keeps_create|done].
Qed.

(** ** Cancelling while a script runs *)

(** The session after an await in which others left [d] and [pk]. *)
Definition awaited (s : Session) (d : Db) (pk : Kills) : Session :=
  s <| committed := d |> <| db := d |> <| pending_kills := pk |>.

(** One audit entry is all that was written on top of [d]. *)
Definition only_audited (d : Db) (action : string) (s' : Session) : Prop :=
  clean s' ∧ committed s' = d ∧
  ∃ e, AuditLog.action e = action ∧ db s' = d <| audit_log := audit_log d ++ [e] |>.

Lemma attempt_failed_run rid sid actor lab reason extra req s :
  clean s → committed s = db s →
  ∃ s', audit_attempt_failed rid sid actor lab reason extra req s = (Ok tt, s') ∧
        only_audited (db s) "reservation.cancel.attempt_failed" s'.
Proof.
  intros Hc Hcm. unfold audit_attempt_failed. rewrite write_run by done.
  eexists. split; [reflexivity|]. split_and!; [done|done|]. eexists. split; [|reflexivity]. done.
Qed.

Lemma only_audited_discard d act s' rid :
  only_audited d act s' → only_audited d act (s' <| pending_kills := drop_kill rid (pending_kills s') |>).
Proof. done. Qed.

(** The outcome of the orchestration, given what the agent replied, what the
    others committed during the two awaits ([d1], then [d2]) and whether the
    kill was signalled in time. *)
Definition cancel_outcome (reply : rpc_result) (signalled : bool) (d1 d2 : Db) (rid actor : Z)
    (admin : bool) (reason : option string) (now : Z) (res : result exn Reservation.t)
    (s' : Session) : Prop :=
  match reply with
  | Raise e =>
      if bool_decide (e = AgentOfflineError ∨ e = AgentRpcTimeoutError)
      then res = Raise AgentUnreachableDuringCancelError ∧
           only_audited d1 "reservation.cancel.attempt_failed" s'
      else res = Raise e ∧ db s' = d1 ∧ committed s' = d1 ∧ clean s'
  | Ok _ =>
      if signalled then
        match reservations d2 !! rid with
        | None => res = Raise ReservationNotFoundError ∧ db s' = d2 ∧ committed s' = d2 ∧ clean s'
        | Some row =>
            if bool_decide (Reservation.status row ∈ TERMINAL_STATUSES)
            then res = Raise ReservationError ∧ db s' = d2 ∧ committed s' = d2 ∧ clean s'
            else if negb admin && negb (bool_decide (Reservation.user_id row = actor))
            then res = Raise CancelNotPermittedError ∧ db s' = d2 ∧ committed s' = d2 ∧ clean s'
            else res = Ok (cancelled_row row now actor reason) ∧ committed s' = d2 ∧ clean s' ∧
                 saved d2 (db s') (cancelled_row row now actor reason) ["reservation.cancel"%string]
        end
      else res = Raise LifecycleEventTimeoutError ∧
           only_audited d2 "reservation.cancel.attempt_failed" s'
  end.

Section cancelling.
Context (reply : rpc_result) (w_rpc w_wait : world) (s : Session) (row : Reservation.t)
  (actor : Z) (admin : bool) (reason : option string) (lab : Z) (agent_reason : string)
  (req : RequestInfo).

(** What the two awaits give. *)
Definition seen_rpc : Db * Kills :=
  w_rpc (db s, new_kill (Reservation.id row) (pending_kills s)).
Definition seen_wait : Db * Kills := w_wait seen_rpc.
Definition kill_signalled : bool :=
  bool_decide (next_event (pending_kills s) ∈ fired (snd seen_wait)).

Definition request_on_wire : bool :=
  match reply with Raise AgentOfflineError => false | _ => true end.

Definition kill_request : Z * string * list (string * json) :=
  (Reservation.server_id row, "backend.script.cancel",
   [("reservation_id", JInt (Reservation.id row)); ("reason", JStr agent_reason)])%string.

(** The session in which the reply is handled. *)
Definition after_rpc : Session :=
  awaited (s <| rpcs := if request_on_wire then rpcs s ++ [kill_request] else rpcs s |>)
    (fst seen_rpc) (snd seen_rpc).
Definition after_wait : Session := awaited after_rpc (fst seen_wait) (snd seen_wait).

Lemma rpc_step :
  try_finally
    (agent_request (Reservation.server_id row) "backend.script.cancel"
       [("reservation_id", JInt (Reservation.id row)); ("reason", JStr agent_reason)]%string reply)
    (await w_rpc) (s <| pending_kills := new_kill (Reservation.id row) (pending_kills s) |>) =
  (reply, after_rpc).
Proof.
  unfold try_finally, agent_request, await, update, after_rpc, awaited, seen_rpc, request_on_wire, kill_request.
  destruct reply as [r|e]; [|destruct e]; simpl; destruct (w_rpc _) as [d pk]; try reflexivity.
Qed.

Lemma wait_step : await w_wait after_rpc = (Ok tt, after_wait).
Proof.
  unfold await, update, after_wait, awaited, seen_wait. simpl.
  replace (fst seen_rpc, snd seen_rpc) with seen_rpc by by destruct seen_rpc.
  by destruct (w_wait seen_rpc).
Qed.
End cancelling.

(** The confirmed cancel, on the database the others left. *)
Lemma confirmed_cancel rid actor admin reason lab req s d pk :
  clean s → db_ok d →
  wp (cancel_reservation rid actor admin reason lab req) (λ res s',
    cancel_outcome (Ok []) true d d rid actor admin reason (now s) res s') (awaited s d pk).
Proof.
  intros Hc Hd. eapply wp_mono; [apply cancel_run; by split|]. unfold cancel_outcome. simpl.
  intros res s'. destruct (reservations d !! rid) as [row|] eqn:Hrow; [|by intros [-> ->]].
  case_bool_decide; [by intros [-> ->]|]. destruct (negb admin && _); [by intros [-> ->]|].
  by intros [-> [H1 H2 H3 H4]].
Qed.

Lemma cancel_rpc_run reply w_rpc row actor lab agent_reason req s0 :
  clean s0 →
  let s := s0 <| pending_kills := new_kill (Reservation.id row) (pending_kills s0) |> in
  let s1 := after_rpc reply w_rpc s0 row agent_reason in
  match reply with
  | Ok _ => cancel_rpc reply w_rpc (Reservation.id row) (Reservation.server_id row) actor lab
              agent_reason req s = (Ok tt, s1)
  | Raise e => ∃ e' s2, cancel_rpc reply w_rpc (Reservation.id row) (Reservation.server_id row)
              actor lab agent_reason req s = (Raise e', s2) ∧
      if bool_decide (e = AgentOfflineError ∨ e = AgentRpcTimeoutError)
      then e' = AgentUnreachableDuringCancelError ∧
           only_audited (fst (seen_rpc w_rpc s0 row)) "reservation.cancel.attempt_failed" s2
      else e' = e ∧ s2 = s1
  end.
Proof.
  intros Hc s s1. pose proof (rpc_step reply w_rpc s0 row agent_reason) as Hr. fold s s1 in Hr.
  unfold cancel_rpc, try_except. destruct reply as [r|e].
  - by rewrite (bind_run _ _ _ _ _ Hr).
  - rewrite (bind_run_raise _ _ _ _ _ Hr). case_bool_decide.
    + destruct (attempt_failed_run (Reservation.id row) (Reservation.server_id row) actor lab
        "agent_unreachable_during_cancel,kept active" [("error_class"%string, JStr (error_class e))] req
        s1) as (s2 & Hr2 & Ho); [done|done|].
      rewrite (bind_run _ _ _ _ _ Hr2). by eexists _, s2.
    + by eexists _, s1.
Qed.

Lemma cancel_confirmed_run reply w_rpc w_wait row actor admin reason lab agent_reason req s :
  clean s → db_ok (fst (seen_wait w_rpc w_wait s row)) →
  wp (cancel_confirmed w_wait (next_event (pending_kills s)) (Reservation.id row) (Reservation.server_id row) actor admin reason lab req)
    (λ res s', cancel_outcome (Ok []) (kill_signalled w_rpc w_wait s row)
       (fst (seen_wait w_rpc w_wait s row)) (fst (seen_wait w_rpc w_wait s row))
       (Reservation.id row) actor admin reason (now s) res s')
    (after_rpc reply w_rpc s row agent_reason).
Proof.
  intros Hc H2. unfold cancel_confirmed, wp.
  rewrite (bind_run _ _ _ _ _ (wait_step reply w_rpc w_wait s row agent_reason)).
  rewrite (bind_run (gets _) _ _ _ _) by reflexivity. cbv beta.
  change (pending_kills (after_wait reply w_rpc w_wait s row agent_reason)) with
    (snd (seen_wait w_rpc w_wait s row)).
  fold (kill_signalled w_rpc w_wait s row).
  destruct (kill_signalled w_rpc w_wait s row).
  - exact (confirmed_cancel (Reservation.id row) actor admin reason lab req
      (after_rpc reply w_rpc s row agent_reason) _ _ Hc H2).
  - destruct (attempt_failed_run (Reservation.id row) (Reservation.server_id row) actor lab
      "lifecycle_event_timeout,kept active" [("waited_seconds"%string, JInt 10)] req
      (after_wait reply w_rpc w_wait s row agent_reason)) as (s2 & Hr & Ho); [done|done|].
    by rewrite (bind_run _ _ _ _ _ Hr).
Qed.

Lemma cancel_outcome_discard reply sg d1 d2 rid actor admin reason at_ res s' :
  cancel_outcome reply sg d1 d2 rid actor admin reason at_ res s' →
  cancel_outcome reply sg d1 d2 rid actor admin reason at_ res
    (s' <| pending_kills := drop_kill rid (pending_kills s') |>).
Proof.
  unfold cancel_outcome. destruct reply as [r|e].
  - destruct sg; [|done]. destruct (reservations d2 !! rid); [|done]. by repeat (case_match; [done|]).
  - by case_bool_decide.
Qed.

Lemma cancel_running_run reply w_rpc w_wait row actor admin reason lab agent_reason req s :
  clean s → db_ok (fst (seen_rpc w_rpc s row)) → db_ok (fst (seen_wait w_rpc w_wait s row)) →
  wp (cancel_active_with_running_script reply w_rpc w_wait row actor admin reason lab agent_reason req)
    (λ res s',
      cancel_outcome reply (kill_signalled w_rpc w_wait s row) (fst (seen_rpc w_rpc s row))
        (fst (seen_wait w_rpc w_wait s row)) (Reservation.id row) actor admin reason (now s) res s' ∧
      waiting (pending_kills s') !! Reservation.id row = None) s.
Proof.
  intros Hc H1 H2. unfold wp, cancel_active_with_running_script. cbv zeta.
  rewrite (bind_run (_register_pending_kill _) _ s (next_event (pending_kills s))
    (s <| pending_kills := new_kill (Reservation.id row) (pending_kills s) |>)) by reflexivity.
  assert (Hdone : ∀ (m : M Reservation.t) st,
    (let r := m st in cancel_outcome reply (kill_signalled w_rpc w_wait s row) (fst (seen_rpc w_rpc s row))
       (fst (seen_wait w_rpc w_wait s row)) (Reservation.id row) actor admin reason (now s) r.1 r.2) →
    let r := try_finally m (_discard_pending_kill (Reservation.id row)) st in
    cancel_outcome reply (kill_signalled w_rpc w_wait s row) (fst (seen_rpc w_rpc s row))
      (fst (seen_wait w_rpc w_wait s row)) (Reservation.id row) actor admin reason (now s) r.1 r.2 ∧
    waiting (pending_kills r.2) !! Reservation.id row = None).
  { intros m st Hm. destruct (m st) as [r s1] eqn:E.
    rewrite (try_finally_run _ _ _ r s1 (s1 <| pending_kills := drop_kill (Reservation.id row) (pending_kills s1) |>) E)
      by reflexivity.
    split; [by apply cancel_outcome_discard|apply lookup_delete_eq]. }
  apply Hdone. clear Hdone. pose proof (cancel_rpc_run reply w_rpc row actor lab agent_reason req s Hc) as Hr.
  cbv zeta in *. destruct reply as [r|e].
  - rewrite (bind_run _ _ _ _ _ Hr).
    exact (cancel_confirmed_run (Ok r) w_rpc w_wait row actor admin reason lab agent_reason req s Hc H2).
  - destruct Hr as (e' & s2 & Hr & Ho). rewrite (bind_run_raise _ _ _ _ _ Hr). unfold cancel_outcome.
    simpl. case_bool_decide; [by destruct Ho as [-> ?]|by destruct Ho as [-> ->]].
Qed.

Lemma can_admin_run user sid s : ∃ b, _user_can_admin_server user sid s = (Ok b, s).
Proof. unfold _user_can_admin_server. destruct (is_lab_admin user); by eexists. Qed.

(** The handlers as a whole. *)
Lemma output_chunk_run p row s :
  session_ok s → reservations (db s) !! oc_reservation_id p = Some row → oc_text p ≠ [] →
  wp (on_script_output_chunk p) (λ res s',
    if bool_decide (utf8_length (tail_of row ++ oc_text p) <= TEXT_MAX_BYTES)
    then res = Ok tt ∧
         updated s s' (row <| Reservation.script_log_tail_text := Some (tail_of row ++ oc_text p) |>
                           <| Reservation.script_log_tail_truncated :=
                                if bool_decide (Reservation.script_log_tail_truncated row ≠ 0)
                                then 1 else 0 |>) []
    else res = Raise (DataError "script_log_tail_text") ∧ db s' = db s ∧ committed s' = committed s) s.
Proof.
  intros Hs Hrow Hne. pose proof Hs as [Hc Hdb]. pose proof (db_ok_row _ _ _ Hdb Hrow) as Hok.
  unfold wp, on_script_output_chunk. rewrite (bind_run _ _ _ _ _ (get_reservation_run _ s Hs)), Hrow.
  unfold append_script_log_tail. destruct (oc_text p) as [|c text] eqn:Htext; [done|].
  set (tx := c :: text) in *. cbv zeta. pose proof (utf8_length_ge (tail_of row ++ tx)) as Hge.
  pose proof (tail_row_error row tx Hok) as Herr.
  case_bool_decide as Hfits.
  - rewrite appended_tail_short in * by (unfold TEXT_MAX_BYTES, SCRIPT_LOG_TAIL_MAX_CHARS in *; lia).
    apply reservation_row_error_None in Herr.
    destruct (save_updated _ s Hc Herr) as (s1 & Hr & Hu).
    rewrite (bind_run (_ ≫= _) _ _ _ _ (bind_run _ _ _ _ _ Hr)). done.
  - pose proof (set_flush_run (appended_tail row tx SCRIPT_LOG_TAIL_MAX_CHARS) s Hc) as Hf.
    rewrite Herr in Hf.
    rewrite (bind_run_raise (_ ≫= _) _ _ _ _ (bind_run_raise _ _ _ _ _ Hf)). done.
Qed.

Lemma finished_run p lab row s :
  session_ok s → reservations (db s) !! fi_reservation_id p = Some row →
  (Reservation.script_status row = Some SCRIPT_RUNNING → finish_fits p = true) →
  let signal pk := if fi_killed_by_corelab p
                   then signal_kill (fi_reservation_id p) pk else pk in
  ∃ s', on_script_finished p lab s = (Ok tt, s') ∧
    pending_kills s' = signal (pending_kills s) ∧
    if bool_decide (Reservation.script_status row = Some SCRIPT_RUNNING)
    then updated s (s' <| pending_kills := pending_kills s |>) (finished_row row p)
           ["reservation.script.lifecycle"%string]
    else s' = s <| pending_kills := signal (pending_kills s) |>.
Proof.
  intros Hs Hrow Hfit signal. unfold on_script_finished.
  rewrite (bind_run _ _ _ _ _ (get_reservation_run _ s Hs)), Hrow.
  assert (Hid : Reservation.id row = fi_reservation_id p) by (eapply db_ok_id; [apply Hs|done]).
  assert (Hsig : ∀ st, when (fi_killed_by_corelab p) (_signal_lifecycle_kill (fi_reservation_id p)) st =
                       (Ok tt, st <| pending_kills := signal (pending_kills st) |>)).
  { intros st. unfold when, signal, _signal_lifecycle_kill, update, skip.
    destruct (fi_killed_by_corelab p); [done|by destruct st]. }
  case_bool_decide as Hrun.
  - rewrite <- Hid in Hrow. destruct (finish_running_run row p lab s Hs Hrow Hrun (Hfit Hrun)) as (s1 & Hr & Hu).
    rewrite (bind_run _ _ _ _ _ Hr), Hsig.
    eexists. split; [reflexivity|]. pose proof (finish_keeps_registry _ _ _ _ _ _ Hr) as Hpk.
    simpl. rewrite Hpk. split; [done|].
    destruct Hu as [H1 H2 H3 H4]. by split.
  - rewrite (bind_run skip _ s tt s) by reflexivity. rewrite Hsig. by eexists.
Qed.

(** A report whose numbers do not fit fails the handler. *)
Lemma finished_unfit p lab row s :
  session_ok s → reservations (db s) !! fi_reservation_id p = Some row →
  Reservation.script_status row = Some SCRIPT_RUNNING → finish_fits p = false →
  ∃ column s', on_script_finished p lab s = (Raise (DataError column), s') ∧ committed s' = committed s.
Proof.
  intros Hs Hrow Hrun Hfit. unfold on_script_finished.
  rewrite (bind_run _ _ _ _ _ (get_reservation_run _ s Hs)), Hrow.
  assert (Hid : Reservation.id row = fi_reservation_id p) by (eapply db_ok_id; [apply Hs|done]).
  rewrite <- Hid in Hrow. destruct (finish_unfit_run row p lab s Hs Hrow Hrun Hfit) as (col & s' & Hr & Hcm).
  rewrite bool_decide_eq_true_2 by done. eexists _, _. split; [|exact Hcm]. exact (bind_run_raise _ _ _ _ _ Hr).
Qed.

Lemma started_run p lab s :
  session_ok s →
  ∃ s', on_script_started p lab s = (Ok tt, s') ∧
    match reservations (db s) !! st_reservation_id p with
    | None => s' = s
    | Some row =>
        match Reservation.script_status row with
        | Some SCRIPT_RUNNING =>
            updated s s' (started_row row p) ["reservation.script.lifecycle.started"%string]
        | None =>
            updated s s' (started_row row p)
              ["reservation.script.lifecycle"; "reservation.script.lifecycle.started"]%string
        | Some _ => s' = s
        end
    end.
Proof.
  intros Hs. unfold on_script_started. rewrite (bind_run _ _ _ _ _ (get_reservation_run _ s Hs)).
  destruct (reservations (db s) !! st_reservation_id p) as [row|] eqn:Hrow; [|by eexists].
  pose proof (db_ok_lookup_id _ _ _ (proj2 Hs) Hrow) as Hid.
  destruct (Reservation.script_status row) as [[]|] eqn:Hst; try by eexists.
  - destruct (start_acked_run row p lab s Hs Hid) as (s' & Hr & Hu).
    exists s'. split; [exact Hr|]. unfold started_row. by rewrite Hst.
  - destruct (start_legacy_run row p lab s Hs Hid Hst) as (s' & Hr & Hu). by exists s'.
Qed.

(** *** Properties *)

(** whatever the chunks and the limit, the stored tail is the last
    [max_chars] characters of everything received since it was empty, and it
    is flagged as truncated exactly when something was dropped. *)
Theorem appended_tail_stream max_chars chunks row :
  0 <= max_chars → tail_of row = [] → Reservation.script_log_tail_truncated row = 0 →
  let row' := foldl (λ r text, appended_tail r text max_chars) row chunks in
  tail_of row' = last_chars max_chars (concat chunks) ∧
  (Reservation.script_log_tail_truncated row' ≠ 0 ↔ max_chars < Z.of_nat (length (concat chunks))).
Proof.
  intros Hm Ht Hf. assert (H0 : tails max_chars [] row).
  { unfold tails. rewrite Ht, Hf. simpl. split; [done|]. split; [done|lia]. }
  change (concat chunks) with ([] ++ concat chunks). revert H0. generalize (@nil N). clear Ht Hf.
  revert row. induction chunks as [|c chunks IH]; intros row out H; simpl; [by rewrite app_nil_r|].
  rewrite app_assoc. by apply IH, appended_tails.
Qed.

Lemma appended_tail_stream_witness :
  let row := sample_reservation 100 1 0 1 None in
  let row' := foldl (λ r text, appended_tail r text 3) row [[97; 98]; [99; 100]]%N in
  0 <= 3 ∧ tail_of row' = [98; 99; 100]%N ∧
  (tail_of row' = last_chars 3 (concat [[97; 98]; [99; 100]]%N) ∧
   (Reservation.script_log_tail_truncated row' ≠ 0 ↔
    3 < Z.of_nat (length (concat [[97; 98]; [99; 100]]%N)))).
Proof.
  intros row row'. split; [lia|]. split; [vm_compute; reflexivity|].
  apply (appended_tail_stream 3 [[97; 98]; [99; 100]]%N row); [lia|reflexivity|reflexivity].
Defined.

(** at the service's limit of 65,536 characters a chunk is stored
    exactly when everything kept so far and the chunk together fit the
    column's 65,535 bytes; otherwise the flush fails and nothing changes.  The
    truncation to the last 65,536 characters therefore never takes effect: a
    row whose log outgrows the column is stuck. *)
Theorem script_output_chunk_spec p row s :
  session_ok s → reservations (db s) !! oc_reservation_id p = Some row → oc_text p ≠ [] →
  wp (on_script_output_chunk p) (λ res s',
    if bool_decide (utf8_length (tail_of row ++ oc_text p) <= TEXT_MAX_BYTES)
    then res = Ok tt ∧
         updated s s' (row <| Reservation.script_log_tail_text := Some (tail_of row ++ oc_text p) |>
                           <| Reservation.script_log_tail_truncated :=
                                if bool_decide (Reservation.script_log_tail_truncated row ≠ 0)
                                then 1 else 0 |>) []
    else res = Raise (DataError "script_log_tail_text") ∧ db s' = db s ∧ committed s' = committed s) s.
Proof. apply output_chunk_run. Qed.

(** Alice's reservation, active, its script running. *)
Definition running_row : Reservation.t :=
  sample_reservation 100 1 (hours 1) (hours 3) (Some sample_script)
    <| Reservation.status := STATUS_ACTIVE |>
    <| Reservation.script_status := Some SCRIPT_RUNNING |>.
Definition running_db : Db := sample_db [running_row].
Definition running_sample : Session := open_session running_db (hours 2) "".

Lemma running_db_ok : db_ok running_db.
Proof. apply db_ok_by_test. vm_compute. reflexivity. Qed.

Lemma script_output_chunk_spec_witness :
  let p := mkScriptOutputChunkEvent 100 [104; 105]%N in
  wp (on_script_output_chunk p) (λ res s',
    if bool_decide (utf8_length (tail_of running_row ++ oc_text p) <= TEXT_MAX_BYTES)
    then res = Ok tt ∧
         updated running_sample s'
           (running_row <| Reservation.script_log_tail_text := Some (tail_of running_row ++ oc_text p) |>
              <| Reservation.script_log_tail_truncated :=
                   if bool_decide (Reservation.script_log_tail_truncated running_row ≠ 0) then 1 else 0 |>) []
    else res = Raise (DataError "script_log_tail_text") ∧ db s' = db running_sample ∧
         committed s' = committed running_sample) running_sample.
Proof.
  intros p. apply (script_output_chunk_spec p running_row running_sample).
  - apply open_session_ok, running_db_ok.
  - vm_compute. reflexivity.
  - discriminate.
Defined.

(** the start of a script is recorded on a row that waits for it: a
    dispatched row has its dispatch closed and keeps the first start instant,
    a row never dispatched becomes running; both get their audit entries and
    no other row moves.  A report for an unknown row, or for one whose script
    has ended, changes nothing.  The handler never fails. *)
Theorem script_started_spec p lab s :
  session_ok s →
  ∃ s', on_script_started p lab s = (Ok tt, s') ∧
    match reservations (db s) !! st_reservation_id p with
    | None => s' = s
    | Some row =>
        match Reservation.script_status row with
        | Some SCRIPT_RUNNING =>
            updated s s' (started_row row p) ["reservation.script.lifecycle.started"%string]
        | None =>
            updated s s' (started_row row p)
              ["reservation.script.lifecycle"; "reservation.script.lifecycle.started"]%string
        | Some _ => s' = s
        end
    end.
Proof. apply started_run. Qed.

Lemma script_started_spec_witness :
  let p := mkScriptStartedEvent 100 4242 (hours 2) None in
  (∃ s', on_script_started p 1 running_sample = (Ok tt, s') ∧
    updated running_sample s' (started_row running_row p)
      ["reservation.script.lifecycle.started"%string]) ∧
  Reservation.script_started_at (started_row running_row p) = Some (hours 2).
Proof.
  intros p. split; [|reflexivity].
  apply (script_started_spec p 1 running_sample), open_session_ok, running_db_ok.
Defined.

(** the end of a script is recorded once: a running script becomes
    killed, completed or failed by the agent's report, with exit code, time,
    size and path, one audit entry, and no other row moves; a report for a row
    that is not running changes no row.  In both cases a kill by the platform
    wakes the cancel that waits for it, if there is one.  The handler fails
    only when a number of the report does not fit its column
    ([finished_unfit]). *)
Theorem script_finished_spec p lab row s :
  session_ok s → reservations (db s) !! fi_reservation_id p = Some row →
  (Reservation.script_status row = Some SCRIPT_RUNNING → finish_fits p = true) →
  let signal pk := if fi_killed_by_corelab p
                   then signal_kill (fi_reservation_id p) pk else pk in
  ∃ s', on_script_finished p lab s = (Ok tt, s') ∧
    pending_kills s' = signal (pending_kills s) ∧
    if bool_decide (Reservation.script_status row = Some SCRIPT_RUNNING)
    then updated s (s' <| pending_kills := pending_kills s |>) (finished_row row p)
           ["reservation.script.lifecycle"%string]
    else s' = s <| pending_kills := signal (pending_kills s) |>.
Proof. apply finished_run. Qed.

Lemma script_finished_spec_witness :
  let p := mkScriptFinishedEvent 100 (Some 0) (hours 2) (seconds 5) 10 None false None in
  let signal pk := if fi_killed_by_corelab p
                   then signal_kill (fi_reservation_id p) pk else pk in
  (∃ s', on_script_finished p 1 running_sample = (Ok tt, s') ∧
    pending_kills s' = signal (pending_kills running_sample) ∧
    if bool_decide (Reservation.script_status running_row = Some SCRIPT_RUNNING)
    then updated running_sample (s' <| pending_kills := pending_kills running_sample |>)
           (finished_row running_row p) ["reservation.script.lifecycle"%string]
    else db s' = db running_sample) ∧
  Reservation.script_status (finished_row running_row p) = Some SCRIPT_COMPLETED.
Proof.
  intros p signal. split; [|reflexivity].
  apply (script_finished_spec p 1 running_row running_sample).
  - apply open_session_ok, running_db_ok.
  - vm_compute. reflexivity.
  - by vm_compute.
Defined.

(** C18: cancelling a reservation whose script runs, whatever the
    agent replies and whatever others commit meanwhile ([w_rpc], [w_wait]): an
    unreachable agent or a missing kill confirmation leaves every reservation
    as the others left it, with one [attempt_failed] audit entry; only a
    confirmed kill leads to the cancel, which then decides on the row as it is
    now -- finished by others, or not the caller's to cancel, it is refused.
    The pending-kill registration never outlives the call. *)
Theorem cancel_running_script_spec reply w_rpc w_wait row actor admin reason lab agent_reason req s :
  clean s → db_ok (fst (seen_rpc w_rpc s row)) → db_ok (fst (seen_wait w_rpc w_wait s row)) →
  wp (cancel_active_with_running_script reply w_rpc w_wait row actor admin reason lab agent_reason req)
    (λ res s',
      cancel_outcome reply (kill_signalled w_rpc w_wait s row) (fst (seen_rpc w_rpc s row))
        (fst (seen_wait w_rpc w_wait s row)) (Reservation.id row) actor admin reason (now s) res s' ∧
      waiting (pending_kills s') !! Reservation.id row = None) s.
Proof. apply cancel_running_run. Qed.

(** The agent answers, the kill is confirmed by the finished event that
    another session commits during the wait. *)
Definition kill_confirmed : world := λ '(d, pk),
  (d <| reservations := <[100 := running_row <| Reservation.script_status := Some SCRIPT_KILLED |>]>
          (reservations d) |>,
   signal_kill 100 pk).

Lemma cancel_running_script_spec_witness :
  wp (cancel_active_with_running_script (Ok []) id kill_confirmed running_row 10 false None 1
        "user_cancel" no_request)
    (λ res s',
      cancel_outcome (Ok []) (kill_signalled id kill_confirmed running_sample running_row)
        (fst (seen_rpc id running_sample running_row))
        (fst (seen_wait id kill_confirmed running_sample running_row)) 100 10 false None (hours 2) res s' ∧
      waiting (pending_kills s') !! 100 = None) running_sample ∧
  kill_signalled id kill_confirmed running_sample running_row = true.
Proof.
  split; [|vm_compute; reflexivity].
  apply (cancel_running_script_spec (Ok []) id kill_confirmed running_row 10 false None 1
           "user_cancel" no_request running_sample); [reflexivity| |].
  - apply running_db_ok.
  - apply db_ok_by_test. vm_compute. reflexivity.
Defined.

(** A second cancel of the reservation comes while the first one waits, and
    then the kill is confirmed. *)
Definition joined_by_another : world := λ '(d, pk), kill_confirmed (d, new_kill 100 pk).

(** The second registration replaces the first one's event: the first cancel
    is answered with a timeout although its script was killed in time. *)
Example second_cancel_takes_event :
  let r := cancel_active_with_running_script (Ok []) id joined_by_another running_row 10 false None 1
             "user_cancel" no_request running_sample in
  r.1 = Raise LifecycleEventTimeoutError ∧
  (Reservation.script_status <$> reservations (db r.2) !! 100) = Some (Some SCRIPT_KILLED) ∧
  (Reservation.status <$> reservations (db r.2) !! 100) = Some STATUS_ACTIVE.
Proof. vm_compute. done. Qed.

(** [DELETE] on a reservation whose script runs answers 503 when
    the agent cannot be reached and 504 when it does not confirm the kill;
    either way the request commits its audit entry and nothing else, so the
    reservation keeps the status the others gave it.  A reply of the wrong
    type is an unhandled error: nothing is committed. *)
Theorem cancel_request_keeps_active reply w_rpc w_wait rid reason current req d now uuid row :
  let s := open_session d now uuid in
  let r := get_session (cancel_reservation_endpoint reply w_rpc w_wait rid reason current req) d now uuid in
  let d1 := fst (seen_rpc w_rpc s row) in
  let d2 := fst (seen_wait w_rpc w_wait s row) in
  db_ok d → reservations d !! rid = Some row → script_running row = true → db_ok d1 → db_ok d2 →
  match reply with
  | Raise AgentOfflineError | Raise AgentRpcTimeoutError =>
      r.1 = Raise (HTTPException 503 "AGENT_UNREACHABLE_DURING_CANCEL") ∧
      ∃ e, AuditLog.action e = "reservation.cancel.attempt_failed"%string ∧
           r.2 = d1 <| audit_log := audit_log d1 ++ [e] |>
  | Raise UnexpectedResponseTypeError => r = (Raise UnexpectedResponseTypeError, d1)
  | Raise _ => True
  | Ok _ =>
      kill_signalled w_rpc w_wait s row = false →
      r.1 = Raise (HTTPException 504 "SCRIPT_LIFECYCLE_TIMEOUT") ∧
      ∃ e, AuditLog.action e = "reservation.cancel.attempt_failed"%string ∧
           r.2 = d2 <| audit_log := audit_log d2 ++ [e] |>
  end.
Proof.
  intros s r d1 d2 Hdb Hrow Hrun Hd1 Hd2.
  assert (Hs : session_ok s) by by apply open_session_ok.
  destruct (can_admin_run current (Reservation.server_id row) s) as [admin Hadm].
  set (ar := if admin && negb (bool_decide (Reservation.user_id row = User.id current))
             then "admin_cancel"%string else "user_cancel"%string).
  pose proof (cancel_running_run reply w_rpc w_wait row (User.id current) admin reason
    (User.lab_id current) ar req s (proj1 Hs) Hd1 Hd2) as [Hout _].
  assert (Hend : cancel_reservation_endpoint reply w_rpc w_wait rid reason current req s =
    mapping_cancel_errors (cancel_active_with_running_script reply w_rpc w_wait row (User.id current)
      admin reason (User.lab_id current) ar req) s).
  { unfold cancel_reservation_endpoint. rewrite (bind_run _ _ _ _ _ (get_reservation_run _ s Hs)).
    change (reservations (db s)) with (reservations d). rewrite Hrow. simpl some_or_raise.
    rewrite (bind_run (mret row) _ s row s) by reflexivity.
    by rewrite (bind_run _ _ _ _ _ Hadm), Hrun. }
  unfold r, get_session. fold s. rewrite Hend. unfold mapping_cancel_errors, try_except.
  destruct (cancel_active_with_running_script _ _ _ _ _ _ _ _ _ _ s) as [res s']. simpl in Hout.
  unfold cancel_outcome in Hout. fold d1 d2 in Hout.
  destruct reply as [p|e].
  - intros Hk. rewrite Hk in Hout. destruct Hout as (-> & Hc & _ & e & He & Hdb'). simpl.
    rewrite commit_clean by done. simpl. split; [done|]. exists e. by rewrite Hdb'.
  - destruct e; try exact I; simpl in Hout.
    + destruct Hout as (-> & Hc & _ & e & He & Hdb'). simpl. rewrite commit_clean by done.
      split; [done|]. exists e. simpl. by rewrite Hdb'.
    + destruct Hout as (-> & Hc & _ & e & He & Hdb'). simpl. rewrite commit_clean by done.
      split; [done|]. exists e. simpl. by rewrite Hdb'.
    + destruct Hout as (-> & _ & Hcm & _). simpl. by rewrite Hcm.
Qed.

Lemma cancel_request_keeps_active_witness :
  let s := open_session running_db (hours 2) "" in
  let r := get_session (cancel_reservation_endpoint (Raise AgentOfflineError) id id 100 None
             (sample_user 10 "alice") no_request) running_db (hours 2) "" in
  let d1 := fst (seen_rpc id s running_row) in
  r.1 = Raise (HTTPException 503 "AGENT_UNREACHABLE_DURING_CANCEL") ∧
  ∃ e, AuditLog.action e = "reservation.cancel.attempt_failed"%string ∧
       r.2 = d1 <| audit_log := audit_log d1 ++ [e] |>.
Proof.
  apply (cancel_request_keeps_active (Raise AgentOfflineError) id id 100 None (sample_user 10 "alice")
           no_request running_db (hours 2) "" running_row).
  - apply running_db_ok.
  - vm_compute. reflexivity.
  - reflexivity.
  - apply running_db_ok.
  - apply running_db_ok.
Defined.

(** *** What the code does not prevent *)

(** the permission of a cancel is checked only after the agent was
    told to kill the script and confirmed it: a user who neither owns the
    reservation nor administers the server is answered 403, but the kill
    request was sent. *)
Theorem forbidden_cancel_kills_script :
  let bob := sample_user 11 "bob" in
  let s := open_session running_db (hours 2) "" in
  let r := cancel_reservation_endpoint (Ok []) id kill_confirmed 100 None bob no_request s in
  Reservation.user_id running_row ≠ User.id bob ∧ has_grant running_db (User.id bob) 1 = false ∧
  is_lab_admin bob = false ∧
  r.1 = Raise (HTTPException 403 "CANCEL_NOT_PERMITTED") ∧
  rpcs r.2 = [(1, "backend.script.cancel",
               [("reservation_id", JInt 100); ("reason", JStr "user_cancel")])]%string.
Proof. vm_compute. repeat split; discriminate. Qed.
