(* ===== verification/TelemetryService.v ===== *)
(** The agent's authentication and heartbeat, and the GPU telemetry upsert
    ([backend/corelab_backend/services/telemetry_service.py]).

    Password hashing is library code: [checkpw] and [hashpw] are bcrypt,
    [hash_setup_token] is the hash of [security.hash_setup_token]. *)

From S2P Require Import Prelude Models SessionLayer SerializableRetry Samples.

Definition set_server (srv : Server.t) : M unit := update (λ s,
  s <| db := db s <| servers := <[Server.id srv := srv]> (servers (db s)) |> |>).

Definition set_token (t : EnrollmentToken.t) : M unit := update (λ s,
  s <| db := db s <| enrollment_tokens :=
         <[EnrollmentToken.id t := t]> (enrollment_tokens (db s)) |> |>).

(** ** Authentication *)

Definition approved (srv : Server.t) : bool :=
  is_some (Server.approved_at srv) && negb (bool_decide (Server.is_active srv = 0)).

(** The row [scalar_one_or_none] finds for the hash in the server's lab;
    [uq_enroll_token_hash] allows one. *)
Definition find_token (d : Db) (token_hash : string) (lab_id : Z) : option EnrollmentToken.t :=
  head (filter (λ t, EnrollmentToken.token_hash t = token_hash ∧ EnrollmentToken.lab_id t = lab_id)
          (rows (enrollment_tokens d))).

Section agent.
Context (checkpw : string → string → bool) (hashpw hash_setup_token : string → string).

Definition authenticate_agent (server_id : Z) (plaintext_token : string) : M Server.t :=
  o ← get_server server_id ;
  server ← some_or_raise o AgentAuthError ;
  raise_if (bool_decide (Server.is_active server = 0)) AgentAuthError ;;
  match Server.agent_token_hash server with
  | Some hash =>
      raise_if (negb (checkpw plaintext_token hash)) AgentAuthError ;;
      mret server
  | None =>
      t ← gets (λ s, find_token (db s) (hash_setup_token plaintext_token) (Server.lab_id server)) ;
      token ← some_or_raise t AgentAuthError ;
      raise_if (is_some (EnrollmentToken.used_at token) &&
                negb (bool_decide (EnrollmentToken.used_by_server_id token = Some server_id)))
        AgentAuthError ;;
      at_ ← utcnow ;
      raise_if (bool_decide (EnrollmentToken.expires_at token <= at_)) AgentAuthError ;;
      let server := server <| Server.agent_token_hash := Some (hashpw plaintext_token) |> in
      set_server server ;;
      set_token (token <| EnrollmentToken.used_at := Some at_ |>
                       <| EnrollmentToken.used_by_server_id := Some server_id |>) ;;
      flush ;;
      mret server
  end.
End agent.

(** ** Heartbeat *)

(** [mark_heartbeat]; the agent's version is not modelled. *)
Definition mark_heartbeat (server_id : Z) : M bool :=
  o ← get_server server_id ;
  match o with
  | None => mret false
  | Some server =>
      at_ ← utcnow ;
      let server := server <| Server.last_heartbeat_at := Some at_ |> in
      let server := if approved server && negb (bool_decide (Server.status server = "online"%string))
                    then server <| Server.status := "online"%string |> else server in
      set_server server ;; flush ;; mret (approved server)
  end.

Definition is_server_approved (server_id : Z) : M bool :=
  gets (λ s, match servers (db s) !! server_id with Some srv => approved srv | None => false end).

(** ** Telemetry *)

Record GpuProcessSnapshot : Type := mkProcess {
  pr_pid : Z ;
  pr_linux_username : string ;
  pr_memory_mb : Z }.

Record GpuTelemetryEntry : Type := mkTelemetryEntry {
  te_gpu_index : Z ;
  te_uuid : option string ;
  te_model : option string ;
  te_memory_total_mb : option Z ;
  te_compute_capability : option string ;
  te_util_pct : Z ;
  te_memory_used_mb : option Z ;
  te_temperature_c : option Z ;
  te_power_w : option Z ;
  te_processes : list GpuProcessSnapshot }.

(** [GpuTelemetry] is the list of its entries. *)
Abbreviation GpuTelemetry := (list GpuTelemetryEntry).

Definition GpuTelemetryEntry_valid (e : GpuTelemetryEntry) : bool :=
  bool_decide (0 <= te_gpu_index e) && bool_decide (0 <= te_util_pct e <= 100).

Definition process_json (p : GpuProcessSnapshot) : json :=
  JObj [("pid", JInt (pr_pid p)); ("linux_username", JStr (pr_linux_username p));
        ("memory_mb", JInt (pr_memory_mb p))]%string.

(** The values of the INSERT. *)
Definition telemetry_row (at_ server_id : Z) (entry : GpuTelemetryEntry) (id : Z) : Gpu.t :=
  Gpu.mk id server_id (te_gpu_index entry) (te_uuid entry) (te_model entry)
    (te_memory_total_mb entry) (te_compute_capability entry) (Some (te_util_pct entry))
    (te_memory_used_mb entry) (te_temperature_c entry) (te_power_w entry)
    (JList (process_json <$> te_processes entry)) (Some at_) 1.

(** [SMALLINT(unsigned=True)] *)
Definition smallint_fits (o : option Z) : bool :=
  match o with None => true | Some z => bool_decide (0 <= z < 2 ^ 16) end.

(** The first column a telemetry row does not fit. *)
Definition gpu_row_error (r : Gpu.t) : option exn :=
  if negb (unsigned_fits (Some (Gpu.gpu_index r))) then Some (DataError "gpu_index")
  else if negb (unsigned_fits (Gpu.memory_total_mb r)) then Some (DataError "memory_total_mb")
  else if negb (unsigned_fits (Gpu.memory_used_mb r)) then Some (DataError "memory_used_mb")
  else if negb (smallint_fits (Gpu.temperature_c r)) then Some (DataError "temperature_c")
  else if negb (smallint_fits (Gpu.power_w r)) then Some (DataError "power_w")
  else None.

(** The row the unique key [uq_gpu_server_index] finds. *)
Definition find_gpu (table : gmap Z Gpu.t) (server_id index : Z) : option Gpu.t :=
  head (filter (λ g, Gpu.server_id g = server_id ∧ Gpu.gpu_index g = index) (rows table)).

(** [INSERT ... ON DUPLICATE KEY UPDATE]: every column but the key is taken
    from the report, [is_active] is set; InnoDB draws an id in both cases. *)
Definition upsert_gpu (at_ server_id : Z) (entry : GpuTelemetryEntry) : M unit := λ s,
  let id := match find_gpu (gpus (db s)) server_id (te_gpu_index entry) with
            | Some g => Gpu.id g
            | None => next_gpu_id (db s)
            end in
  let row := telemetry_row at_ server_id entry id in
  match gpu_row_error row with
  | Some e => (Raise e, s)
  | None => (Ok tt, s <| db := db s <| gpus := <[id := row]> (gpus (db s)) |>
                                    <| next_gpu_id := next_gpu_id (db s) + 1 |> |>)
  end.

Definition upsert_telemetry (server_id : Z) (payload : GpuTelemetry) : M bool :=
  ok ← is_server_approved server_id ;
  if negb (ok : bool) then mret false
  else
    at_ ← utcnow ;
    for_each payload (upsert_gpu at_ server_id) ;;
    flush ;;
    mret true.

(** Three attempts, waits from 20 ms. *)
Definition upsert_telemetry_transaction (server_id : Z) (payload : GpuTelemetry)
    (attempts : list attempt) (d : Db) : result exn bool * Db :=
  let '(r, _, (d', _)) :=
    with_serializable_retry (run_attempt (upsert_telemetry server_id payload)) 3 20 (d, attempts) in
  (r, d').

(** ** What a report does to the table *)

(** Keys agree with the [id] column, the counter is ahead of every row and
    [uq_gpu_server_index] holds. *)
Record gpu_table_ok (t : gmap Z Gpu.t) (next : Z) : Prop := {
  gpu_key k g : t !! k = Some g → Gpu.id g = k ;
  gpu_below k g : t !! k = Some g → k < next ;
  gpu_unique k k' g g' : t !! k = Some g → t !! k' = Some g' →
    Gpu.server_id g = Gpu.server_id g' → Gpu.gpu_index g = Gpu.gpu_index g' → k = k' }.

Definition gpus_ok (d : Db) : Prop := gpu_table_ok (gpus d) (next_gpu_id d).

(** The last entry about a card. *)
Definition latest (payload : GpuTelemetry) (index : Z) : option GpuTelemetryEntry :=
  last (filter (λ e, te_gpu_index e = index) payload).

(** A row after the report. *)
Definition refreshed (at_ server_id : Z) (payload : GpuTelemetry) (g : Gpu.t) : Gpu.t :=
  if decide (Gpu.server_id g = server_id)
  then match latest payload (Gpu.gpu_index g) with
       | Some e => telemetry_row at_ server_id e (Gpu.id g)
       | None => g
       end
  else g.

(** The table [t'] is [t] after the report: known cards keep their id and take
    the values of their last entry, other rows are untouched, every reported
    card that had no row has exactly one new one. *)
Record reported (at_ server_id : Z) (payload : GpuTelemetry) (t t' : gmap Z Gpu.t) : Prop := {
  rep_old k g : t !! k = Some g → t' !! k = Some (refreshed at_ server_id payload g) ;
  rep_new k g : t' !! k = Some g → t !! k = None →
    (∃ e, latest payload (Gpu.gpu_index g) = Some e ∧ g = telemetry_row at_ server_id e k) ∧
    (∀ k0 g0, t !! k0 = Some g0 → ¬ (Gpu.server_id g0 = server_id ∧ Gpu.gpu_index g0 = Gpu.gpu_index g)) ;
  rep_all index e : latest payload index = Some e →
    ∃ k, t' !! k = Some (telemetry_row at_ server_id e k) }.

Definition entry_error (e : GpuTelemetryEntry) : option exn := gpu_row_error (telemetry_row 0 0 e 0).

Lemma latest_snoc payload e index :
  latest (payload ++ [e]) index =
    if decide (te_gpu_index e = index) then Some e else latest payload index.
Proof.
  unfold latest. rewrite filter_app, filter_cons, filter_nil.
  case_decide; [by rewrite last_snoc|by rewrite app_nil_r].
Qed.

Lemma latest_index payload index e : latest payload index = Some e → te_gpu_index e = index.
Proof. intros He. apply last_Some_elem_of in He. by apply list_elem_of_filter in He as [? _]. Qed.

Lemma find_gpu_Some t server_id index g :
  find_gpu t server_id index = Some g →
  Gpu.server_id g = server_id ∧ Gpu.gpu_index g = index ∧ ∃ k, t !! k = Some g.
Proof.
  unfold find_gpu. intros [l Hl]%head_Some.
  assert (Hin : g ∈ filter (λ g, Gpu.server_id g = server_id ∧ Gpu.gpu_index g = index) (rows t))
    by (rewrite Hl; left).
  by apply list_elem_of_filter in Hin as [[? ?] ?%elem_of_rows].
Qed.

Lemma find_gpu_None t server_id index k g :
  find_gpu t server_id index = None → t !! k = Some g →
  ¬ (Gpu.server_id g = server_id ∧ Gpu.gpu_index g = index).
Proof.
  unfold find_gpu. intros Hn Hk Hg.
  assert (Hin : g ∈ filter (λ g, Gpu.server_id g = server_id ∧ Gpu.gpu_index g = index) (rows t))
    by (apply list_elem_of_filter; split; [done|by eapply rows_lookup]).
  destruct (filter _ _); [by apply elem_of_nil in Hin|done].
Qed.

(** One statement, on the table and its counter. *)
Definition upserted (at_ server_id : Z) (entry : GpuTelemetryEntry) (t : gmap Z Gpu.t * Z) :
    gmap Z Gpu.t * Z :=
  let id := match find_gpu t.1 server_id (te_gpu_index entry) with Some g => Gpu.id g | None => t.2 end in
  (<[id := telemetry_row at_ server_id entry id]> t.1, t.2 + 1).

Lemma refreshed_index at_ sid payload g :
  Gpu.server_id (refreshed at_ sid payload g) = Gpu.server_id g ∧
  Gpu.gpu_index (refreshed at_ sid payload g) = Gpu.gpu_index g ∧
  Gpu.id (refreshed at_ sid payload g) = Gpu.id g.
Proof.
  unfold refreshed. case_decide as Hs; [|done]. destruct (latest _ _) as [e|] eqn:He; [|done].
  by rewrite <- (latest_index _ _ _ He), Hs.
Qed.

Lemma refreshed_snoc at_ sid payload e g :
  refreshed at_ sid (payload ++ [e]) g =
    if decide (Gpu.server_id g = sid ∧ te_gpu_index e = Gpu.gpu_index g)
    then telemetry_row at_ sid e (Gpu.id g) else refreshed at_ sid payload g.
Proof.
  unfold refreshed. rewrite latest_snoc. repeat case_decide; naive_solver.
Qed.

Lemma upserted_ok at_ sid e t next :
  gpu_table_ok t next → gpu_table_ok (upserted at_ sid e (t, next)).1 (next + 1).
Proof.
  intros [Hk Hb Hu]. unfold upserted. simpl.
  destruct (find_gpu t sid (te_gpu_index e)) as [g0|] eqn:Hf.
  - destruct (find_gpu_Some _ _ _ _ Hf) as (Hs & Hi & k0 & Hk0). pose proof (Hk _ _ Hk0) as Hid.
    split.
    + intros k g [[<- <-]|[Hne H]]%lookup_insert_Some; [done|by apply Hk].
    + intros k g [[<- <-]|[Hne H]]%lookup_insert_Some; [apply Hb in Hk0; lia|apply Hb in H; lia].
    + intros k k' g g' [[<- <-]|[Hne H]]%lookup_insert_Some [[<- <-]|[Hne' H']]%lookup_insert_Some; simpl; intros A B.
      * done.
      * rewrite Hid. eapply Hu; [exact Hk0|exact H'|congruence..].
      * rewrite Hid. eapply Hu; [exact H|exact Hk0|congruence..].
      * by eapply Hu.
  - assert (Hfresh : t !! next = None).
    { destruct (t !! next) as [g|] eqn:Hg; [|done]. apply Hb in Hg. lia. }
    split.
    + intros k g [[<- <-]|[Hne H]]%lookup_insert_Some; [done|by apply Hk].
    + intros k g [[<- <-]|[Hne H]]%lookup_insert_Some; [lia|apply Hb in H; lia].
    + intros k k' g g' [[<- <-]|[Hne H]]%lookup_insert_Some [[<- <-]|[Hne' H']]%lookup_insert_Some; simpl; intros A B.
      * done.
      * by destruct (find_gpu_None _ _ _ _ _ Hf H').
      * by destruct (find_gpu_None _ _ _ _ _ Hf H).
      * by eapply Hu.
Qed.

(** A report, entry by entry. *)
Definition upserts (at_ server_id : Z) (payload : GpuTelemetry) (t : gmap Z Gpu.t * Z) :
    gmap Z Gpu.t * Z := foldl (λ t e, upserted at_ server_id e t) t payload.

Lemma upserts_snoc at_ sid payload e t :
  upserts at_ sid (payload ++ [e]) t = upserted at_ sid e (upserts at_ sid payload t).
Proof. unfold upserts. by rewrite foldl_app. Qed.

(** The next entry, about a card with a row or without. *)
Lemma reported_known at_ sid payload e t t' next g :
  gpu_table_ok t' next → (∀ k g, t !! k = Some g → Gpu.id g = k) →
  reported at_ sid payload t t' → find_gpu t' sid (te_gpu_index e) = Some g →
  reported at_ sid (payload ++ [e]) t (<[Gpu.id g := telemetry_row at_ sid e (Gpu.id g)]> t').
Proof.
  intros [Hk _ Hu] Hold [H1 H2 H3] Hf. destruct (find_gpu_Some _ _ _ _ Hf) as (Hs & Hi & k0 & Hk0).
  rewrite (Hk _ _ Hk0). split.
  - intros k r Hr. rewrite refreshed_snoc. pose proof (H1 _ _ Hr) as Hr'.
    destruct (refreshed_index at_ sid payload r) as (Es & Ei & Eid). case_decide as Hd.
    + assert (k = k0) as -> by (eapply Hu; [exact Hr'|exact Hk0|rewrite Es, Hs; tauto|rewrite Ei, Hi; symmetry; tauto]).
      by rewrite lookup_insert_eq, (Hold _ _ Hr).
    + rewrite lookup_insert_ne; [done|]. intros ->. rewrite Hr' in Hk0. injection Hk0 as <-.
      apply Hd. split; congruence.
  - intros k r [[<- <-]|[Hne Hr]]%lookup_insert_Some Hn; simpl.
    + split; [exists e; by rewrite latest_snoc, decide_True|].
      destruct (H2 _ _ Hk0 Hn) as [_ Ho]. intros k1 g1 Hg1. rewrite <- Hi. by eapply Ho.
    + destruct (H2 _ _ Hr Hn) as [(e1 & He1 & ->) Ho]. simpl in *. split; [|exact Ho].
      exists e1. split; [|done]. rewrite latest_snoc, decide_False; [done|]. intros E.
      destruct Hne. by eapply Hu; [exact Hk0|exact Hr|simpl; congruence..].
  - intros index e1. rewrite latest_snoc. case_decide as Hd.
    + intros [= <-]. exists k0. by rewrite lookup_insert_eq.
    + intros He1. destruct (H3 _ _ He1) as (k & Hr). exists k. rewrite lookup_insert_ne; [done|].
      intros ->. rewrite Hr in Hk0. injection Hk0 as <-. simpl in Hi.
      by rewrite (latest_index _ _ _ He1) in Hi.
Qed.

Lemma reported_unknown at_ sid payload e t t' next :
  gpu_table_ok t' next → reported at_ sid payload t t' →
  find_gpu t' sid (te_gpu_index e) = None →
  reported at_ sid (payload ++ [e]) t (<[next := telemetry_row at_ sid e next]> t').
Proof.
  intros [_ Hb _] [H1 H2 H3] Hf.
  assert (Hfresh : t' !! next = None).
  { destruct (t' !! next) as [g|] eqn:Hg; [|done]. apply Hb in Hg. lia. }
  assert (Hno : ∀ k g, t !! k = Some g → ¬ (Gpu.server_id g = sid ∧ Gpu.gpu_index g = te_gpu_index e)).
  { intros k g Hg. apply H1 in Hg. destruct (refreshed_index at_ sid payload g) as (Es & Ei & _).
    rewrite <- Es, <- Ei. by eapply find_gpu_None. }
  split.
  - intros k g Hg. rewrite refreshed_snoc, decide_False by (intros [? ?]; by eapply Hno).
    rewrite lookup_insert_ne; [by apply H1|]. intros ->. apply H1 in Hg. congruence.
  - intros k g [[<- <-]|[Hne Hg]]%lookup_insert_Some Hn; simpl.
    + split; [exists e; by rewrite latest_snoc, decide_True|exact Hno].
    + destruct (H2 _ _ Hg Hn) as [(e1 & He1 & ->) Ho]. simpl in *. split; [|exact Ho].
      exists e1. split; [|done]. rewrite latest_snoc, decide_False; [done|]. intros E.
      by destruct (find_gpu_None _ _ _ _ _ Hf Hg).
  - intros index e1. rewrite latest_snoc. case_decide as Hd.
    + intros [= <-]. exists next. by rewrite lookup_insert_eq.
    + intros He1. destruct (H3 _ _ He1) as (k & Hr). exists k. rewrite lookup_insert_ne; [done|congruence].
Qed.

Lemma upserts_reported at_ sid payload t next :
  gpu_table_ok t next →
  let r := upserts at_ sid payload (t, next) in
  gpu_table_ok r.1 r.2 ∧ reported at_ sid payload t r.1.
Proof.
  intros Hok. induction payload as [|e payload [IHok IH]] using rev_ind.
  - split; [done|]. split.
    + intros k g Hg. unfold refreshed. by case_decide.
    + intros k g ? ?. simpl in *. congruence.
    + done.
  - rewrite upserts_snoc. destruct (upserts at_ sid payload (t, next)) as [t' next'] eqn:Hr.
    simpl in IHok, IH. split; [by apply upserted_ok|].
    unfold upserted. simpl. destruct (find_gpu t' sid (te_gpu_index e)) as [g|] eqn:Hf.
    + eapply reported_known; [done|apply Hok|done..].
    + by eapply reported_unknown.
Qed.

(** ** Runs *)

Lemma upsert_gpus_run at_ sid payload s :
  match head (omap entry_error payload) with
  | Some e => ∃ s', for_each payload (upsert_gpu at_ sid) s = (Raise e, s') ∧
                    dirty s' = dirty s ∧ committed s' = committed s
  | None => let t := upserts at_ sid payload (gpus (db s), next_gpu_id (db s)) in
      for_each payload (upsert_gpu at_ sid) s =
        (Ok tt, s <| db := db s <| gpus := t.1 |> <| next_gpu_id := t.2 |> |>)
  end.
Proof.
  revert s. induction payload as [|e payload IH]; intros s; simpl omap.
  { simpl. by destruct s as [c [] dty pu no uu pk rp]. }
  simpl for_each. destruct (entry_error e) as [ex|] eqn:He; simpl.
  - exists s. split; [|done]. unfold entry_error in He. unfold mbind, prog_bind, upsert_gpu.
    cbv zeta. by rewrite (He : gpu_row_error (telemetry_row at_ sid e _) = Some ex).
  - set (t1 := upserted at_ sid e (gpus (db s), next_gpu_id (db s))).
    set (s1 := s <| db := db s <| gpus := t1.1 |> <| next_gpu_id := t1.2 |> |>).
    assert (H1 : upsert_gpu at_ sid e s = (Ok tt, s1)).
    { unfold upsert_gpu, entry_error in *. cbv zeta.
      by rewrite (He : gpu_row_error (telemetry_row at_ sid e _) = None). }
    specialize (IH s1). destruct (head _) as [ex|].
    + destruct IH as (s' & Hs' & Hd & Hc). exists s'. rewrite (bind_run _ _ _ _ _ H1). by split.
    + rewrite (bind_run _ _ _ _ _ H1).
      assert (Ht : (gpus (db s1), next_gpu_id (db s1)) = t1) by (symmetry; apply surjective_pairing).
      rewrite Ht in IH. exact IH.
Qed.

Definition approved_in (d : Db) (server_id : Z) : bool :=
  match servers d !! server_id with Some srv => approved srv | None => false end.

(** One attempt, on the durable database. *)
Lemma upsert_transaction_run sid payload d now :
  transaction (upsert_telemetry sid payload) d now =
    if approved_in d sid then
      match head (omap entry_error payload) with
      | Some e => (Raise e, d)
      | None => let t := upserts now sid payload (gpus d, next_gpu_id d) in
                (Ok true, d <| gpus := t.1 |> <| next_gpu_id := t.2 |>)
      end
    else (Ok false, d).
Proof.
  set (s := open_session d now "").
  assert (Hgate : upsert_telemetry sid payload s =
    if approved_in d sid
    then (for_each payload (upsert_gpu now sid) ;; flush ;; mret true) s else (Ok false, s)).
  { unfold upsert_telemetry. rewrite (bind_run (is_server_approved sid) _ s (approved_in d sid) s) by done.
    by destruct (approved_in d sid). }
  destruct (approved_in d sid).
  - pose proof (upsert_gpus_run now sid payload s) as Hrun.
    destruct (head (omap entry_error payload)) as [e|].
    + destruct Hrun as (s' & Hrun & _ & Hc).
      rewrite (transaction_run _ _ _ (Raise e) s'); [by simpl; rewrite Hc| |done].
      etrans; [exact Hgate|]. by rewrite (bind_run_raise _ _ _ _ _ Hrun).
    + cbv zeta in *. set (s1 := s <| db := _ |>) in Hrun.
      rewrite (transaction_run _ _ _ (Ok true) s1); [done| |done].
      etrans; [exact Hgate|]. rewrite (bind_run _ _ _ _ _ Hrun).
      by rewrite (bind_run flush _ s1 tt s1) by by apply flush_clean.
  - by rewrite (transaction_run _ _ _ (Ok false) s).
Qed.

Lemma upsert_steady sid payload d now :
  True → deadlocks (transaction (upsert_telemetry sid payload) d now).1 = false.
Proof.
  intros _. rewrite upsert_transaction_run. destruct (approved_in d sid); [|done].
  destruct (head (omap entry_error payload)) as [ex|] eqn:He; [|done]. simpl.
  apply head_Some_elem_of, list_elem_of_omap in He as (e & _ & He).
  unfold entry_error, gpu_row_error in He.
  repeat (destruct (negb _); [by injection He as <-|]). done.
Qed.

(** a telemetry report is written atomically.  Whatever
    deadlocks MySQL raises and whatever others commit in between, at most
    three attempts are made; a report of a server that is not approved, or
    with an entry its columns cannot hold, changes nothing; an accepted one
    gives every known card the values of its last entry under the card's old
    id, adds exactly one row for every unknown card and leaves every other
    row alone, so the table keeps one row per server and index. *)
Theorem upsert_telemetry_spec sid payload attempts d :
  (3 <= length attempts)%nat →
  ∃ n a, (n < 3)%nat ∧ attempts !! n = Some a ∧
    (∀ i b, (i < n)%nat → attempts !! i = Some b → deadlocked b = true) ∧
    let d1 := before attempts (S n) d in
    let r := upsert_telemetry_transaction sid payload attempts d in
    match a_fault a with
    | Some e => r = (Raise e, d1) ∧ (deadlocked a = true → n = 2%nat)
    | None =>
        if negb (approved_in d1 sid) then r = (Ok false, d1)
        else match head (omap entry_error payload) with
             | Some e => r = (Raise e, d1)
             | None => r.1 = Ok true ∧
                 ∃ t next, r.2 = d1 <| gpus := t |> <| next_gpu_id := next |> ∧
                   (gpus_ok d1 → gpus_ok r.2 ∧ reported (a_now a) sid payload (gpus d1) t)
             end
    end.
Proof.
  intros Hlen.
  destruct (retried_atomic (upsert_telemetry sid payload) (λ _, True) (upsert_steady sid payload)
    attempts 3 20 d) as (n & a & Hn & Ha & Hdead & sleeps & Hrun & Hlast); [lia|done|].
  exists n, a. split; [done|]. split; [done|]. split; [done|]. cbv zeta.
  unfold upsert_telemetry_transaction. rewrite Hrun. destruct (a_fault a) as [e|].
  - split; [done|]. intros H. specialize (Hlast H). lia.
  - rewrite upsert_transaction_run. destruct (approved_in _ sid); simpl negb; [|done].
    destruct (head (omap entry_error payload)); [done|]. split; [done|].
    do 2 eexists. split; [reflexivity|]. intros Hok. by apply upserts_reported.
Qed.

(** ** Witness *)

Definition telemetry_entry (index mem : Z) : GpuTelemetryEntry :=
  mkTelemetryEntry index None None (Some mem) None 50 (Some 10) None None
    [mkProcess 4242 "alice" 10].

(** A deadlock, then quiet; one known card, one new. *)
Definition telemetry_db : Db :=
  sample_db [] <| servers := {[1 := sample_server <| Server.approved_at := Some 0 |>]} |>.

Definition telemetry_attempts : list attempt :=
  let quiet := mkAttempt 70 (λ d, d) None in
  [mkAttempt 60 (λ d, d) (Some (OperationalError "(1213, 'Deadlock found')")); quiet; quiet].

Example telemetry_written :
  let r := upsert_telemetry_transaction 1 [telemetry_entry 0 24000; telemetry_entry 7 48000]
             telemetry_attempts telemetry_db in
  r.1 = Ok true ∧ Gpu.util_pct <$> gpus r.2 !! 1 = Some (Some 50) ∧
  Gpu.gpu_index <$> gpus r.2 !! 4 = Some 7.
Proof. vm_compute. auto. Qed.

Lemma upsert_telemetry_spec_witness :
  let p := [telemetry_entry 0 24000; telemetry_entry 7 48000] in
  ∃ n a, (n < 3)%nat ∧ telemetry_attempts !! n = Some a ∧
    (∀ i b, (i < n)%nat → telemetry_attempts !! i = Some b → deadlocked b = true) ∧
    let d1 := before telemetry_attempts (S n) telemetry_db in
    let r := upsert_telemetry_transaction 1 p telemetry_attempts telemetry_db in
    match a_fault a with
    | Some e => r = (Raise e, d1) ∧ (deadlocked a = true → n = 2%nat)
    | None =>
        if negb (approved_in d1 1) then r = (Ok false, d1)
        else match head (omap entry_error p) with
             | Some e => r = (Raise e, d1)
             | None => r.1 = Ok true ∧
                 ∃ t next, r.2 = d1 <| gpus := t |> <| next_gpu_id := next |> ∧
                   (gpus_ok d1 → gpus_ok r.2 ∧ reported (a_now a) 1 p (gpus d1) t)
             end
    end.
Proof.
  exact (upsert_telemetry_spec 1 [telemetry_entry 0 24000; telemetry_entry 7 48000]
    telemetry_attempts telemetry_db ltac:(simpl; lia)).
Defined.
