(* ===== verification/ServerService.v ===== *)
(** Servers, their capability switches, delegated administrators and
    enrolment secrets
    ([backend/corelab_backend/services/server_service.py]).

    [ci] is the key of the collation [utf8mb4_0900_ai_ci], in which MySQL
    compares hostnames and capability keys; [sha256] hashes a secret and
    [isoformat] writes an instant, both library functions.  The fresh secret
    ([secrets.token_urlsafe]) and the server's [agent_version] column are
    arguments.  The install snippet, a text returned to the browser, is left
    out. *)

From S2P Require Import Prelude PyText Models SessionLayer AuditService.
From S2P Require Import TelemetryService.

Definition DANGEROUS_CAPABILITIES : list string :=
  ["gpu.kill_process"; "linux.useradd"; "linux.userdel"]%string.

(** Key, enabled at first, dangerous. *)
Definition CAPABILITY_SEED : list (string * bool * bool) :=
  [ ("gpu.read_telemetry", true, false) ; ("gpu.kill_process", false, true) ;
    ("linux.useradd", false, true) ; ("linux.userdel", false, true) ;
    ("linux.usermod_lock", true, false) ; ("ssh.push_authorized_key", true, false) ;
    ("ssh.remove_authorized_key", true, false) ; ("ssh.verify_signature", true, false) ;
    ("pam.authenticate", true, false) ; ("script.execute_as_user", true, false) ;
    ("linux.scan_users", true, false) ]%string.

Definition opt_str (o : option string) : json := jopt JStr o.
Definition opt_text (o : option pystr) : json := jopt (λ t, JStr (utf8 t)) o.

(** ** The tables' constraints *)

Section servers.
Context (ci sha256 : string → string) (isoformat : Z → string).

(** [uq_server_lab_hostname] *)
Definition find_hostname (d : Db) (lab_id : Z) (hostname : string) : option Server.t :=
  head (filter (λ s, Server.lab_id s = lab_id ∧ ci (Server.hostname s) = ci hostname) (rows (servers d))).

Definition add_server (mk_row : Z → Server.t) : M Server.t := λ s,
  let id := next_server_id (db s) in
  let row := mk_row id in
  if negb (unsigned_fits (Server.max_reservation_hours row)) then (Raise (DataError "max_reservation_hours"), s)
  else if is_some (find_hostname (db s) (Server.lab_id row) (Server.hostname row))
  then (Raise (IntegrityError "uq_server_lab_hostname"), s)
  else (Ok row, s <| db := db s <| servers := <[id := row]> (servers (db s)) |>
                                <| next_server_id := id + 1 |> |>).

(** [ck_cap_notes_required] *)
Definition capability_row_error (c : AgentCapability.t) : option exn :=
  if bool_decide (AgentCapability.is_dangerous c = 0) || bool_decide (AgentCapability.is_enabled c = 0) ||
     match AgentCapability.notes c with Some n => bool_decide (10 <= length n)%nat | None => false end
  then None else Some (IntegrityError "ck_cap_notes_required").

(** The row [uq_capability_server_key] finds. *)
Definition find_capability (d : Db) (server_id : Z) (key : string) : option AgentCapability.t :=
  head (filter (λ c, AgentCapability.server_id c = server_id ∧
                     ci (AgentCapability.capability_key c) = ci key) (rows (agent_capabilities d))).

Definition add_capability (mk_row : Z → AgentCapability.t) : M unit := λ s,
  let id := next_agent_capability_id (db s) in
  let row := mk_row id in
  match capability_row_error row with
  | Some e => (Raise e, s)
  | None =>
      if is_some (find_capability (db s) (AgentCapability.server_id row) (AgentCapability.capability_key row))
      then (Raise (IntegrityError "uq_capability_server_key"), s)
      else (Ok tt, s <| db := db s <| agent_capabilities := <[id := row]> (agent_capabilities (db s)) |>
                                   <| next_agent_capability_id := id + 1 |> |>)
  end.

Definition set_capability (row : AgentCapability.t) : M unit := λ s,
  match capability_row_error row with
  | Some e => (Raise e, s)
  | None => (Ok tt, s <| db := db s <| agent_capabilities :=
                        <[AgentCapability.id row := row]> (agent_capabilities (db s)) |> |>)
  end.

Definition add_token (mk_row : Z → EnrollmentToken.t) : M EnrollmentToken.t := λ s,
  let id := next_enrollment_token_id (db s) in
  let row := mk_row id in
  if existsb (λ t, bool_decide (EnrollmentToken.token_hash t = EnrollmentToken.token_hash row))
       (rows (enrollment_tokens (db s)))
  then (Raise (IntegrityError "uq_enroll_token_hash"), s)
  else (Ok row, s <| db := db s <| enrollment_tokens := <[id := row]> (enrollment_tokens (db s)) |>
                                <| next_enrollment_token_id := id + 1 |> |>).

(** [uq_grant_user_server_active] and the key on [user]. *)
Definition find_grant (d : Db) (server_id user_id : Z) : option ServerAdminGrant.t :=
  head (filter (λ g, ServerAdminGrant.server_id g = server_id ∧ ServerAdminGrant.user_id g = user_id ∧
                     ServerAdminGrant.is_active g = 1) (rows (server_admin_grants d))).

Definition add_grant (mk_row : Z → ServerAdminGrant.t) : M ServerAdminGrant.t := λ s,
  let id := next_server_admin_grant_id (db s) in
  let row := mk_row id in
  if negb (is_some (users (db s) !! ServerAdminGrant.user_id row))
  then (Raise (IntegrityError "fk_grant_user"), s)
  else if is_some (find_grant (db s) (ServerAdminGrant.server_id row) (ServerAdminGrant.user_id row))
  then (Raise (IntegrityError "uq_grant_user_server_active"), s)
  else (Ok row, s <| db := db s <| server_admin_grants := <[id := row]> (server_admin_grants (db s)) |>
                                <| next_server_admin_grant_id := id + 1 |> |>).

Definition set_grant (row : ServerAdminGrant.t) : M unit := update (λ s,
  s <| db := db s <| server_admin_grants :=
         <[ServerAdminGrant.id row := row]> (server_admin_grants (db s)) |> |>).

(** ** Reading *)

Definition list_servers (lab_id : Z) : M (list Server.t) :=
  gets (λ s, order_by Server.id
               (filter (λ r, Server.lab_id r = lab_id ∧ Server.is_active r = 1) (rows (servers (db s))))).

(** [get_server] *)
Definition get_lab_server (server_id lab_id : Z) : M Server.t :=
  o ← get_server server_id ;
  server ← some_or_raise o ServerNotFoundError ;
  raise_if (negb (bool_decide (Server.lab_id server = lab_id))) ServerNotFoundError ;;
  mret server.

Definition list_admins (server_id : Z) : M (list ServerAdminGrant.t) :=
  gets (λ s, order_by ServerAdminGrant.id
               (filter (λ g, ServerAdminGrant.server_id g = server_id ∧ ServerAdminGrant.is_active g = 1)
                  (rows (server_admin_grants (db s))))).

Definition list_gpus (server_id : Z) : M (list Gpu.t) :=
  gets (λ s, order_by Gpu.gpu_index (filter (λ g, Gpu.server_id g = server_id) (rows (gpus (db s))))).

(** ** Creating and deleting *)

(** An audit entry about a server; no payload is [JNull]. *)
Definition audit_server (action : string) (actor_user_id lab_id server_id : Z) (payload : json)
    (req : RequestInfo) : M unit :=
  write action (Some actor_user_id) (Some lab_id) (Some "server"%string) (Some server_id) (Some lab_id)
    (Some server_id) payload req.

Definition new_server (lab_id actor_user_id : Z) (hostname : string) (display_name : option string)
    (max_reservation_hours : option Z) (id : Z) : Server.t :=
  Server.mk id lab_id hostname display_name None "pending" None max_reservation_hours 1 None None
    (Some actor_user_id).

Definition seeded_capability (server_id actor_user_id : Z) (seed : string * bool * bool) (id : Z) :
    AgentCapability.t :=
  AgentCapability.mk id server_id seed.1.1 (Z.b2z seed.1.2) (Z.b2z seed.2) None actor_user_id.

Definition new_token (lab_id actor_user_id expires_at : Z) (plaintext pattern : string) (id : Z) :
    EnrollmentToken.t :=
  EnrollmentToken.mk id lab_id (sha256 plaintext) expires_at None None (Some pattern) actor_user_id.

(** [expected_hostname_pattern or hostname] *)
Definition pattern_or (o : option string) (hostname : string) : string :=
  if str_truthy o then default hostname o else hostname.

(** [create_server]: the server and when its secret expires. *)
Definition create_server (plaintext hostname : string) (display_name : option string)
    (max_reservation_hours : option Z) (expected_hostname_pattern : option string)
    (lab_id actor_user_id : Z) (req : RequestInfo) : M (Server.t * Z) :=
  existing ← gets (λ s, find_hostname (db s) lab_id hostname) ;
  raise_if (is_some existing) DuplicateHostnameError ;;
  server ← add_server (new_server lab_id actor_user_id hostname display_name max_reservation_hours) ;
  for_each CAPABILITY_SEED
    (λ seed, add_capability (seeded_capability (Server.id server) actor_user_id seed)) ;;
  at_ ← utcnow ;
  let expires_at := at_ + days 7 in
  add_token (new_token lab_id actor_user_id expires_at plaintext
               (pattern_or expected_hostname_pattern hostname)) ;;
  flush ;;
  audit_server "server.create" actor_user_id lab_id (Server.id server)
    (JObj [("hostname", JStr hostname); ("display_name", opt_str display_name)]%string) req ;;
  audit_server "server.enrollment_token.generate" actor_user_id lab_id (Server.id server)
    (JObj [("expires_at", JStr (isoformat expires_at))]%string) req ;;
  mret (server, expires_at).

Definition delete_server (server_id lab_id actor_user_id : Z) (req : RequestInfo) : M Server.t :=
  server ← get_lab_server server_id lab_id ;
  let server := server <| Server.is_active := 0 |> <| Server.status := "maintenance"%string |> in
  set_server server ;; flush ;;
  audit_server "server.delete" actor_user_id lab_id server_id JNull req ;;
  mret server.

(** ** Approval *)

Definition approve_server (server_id lab_id actor_user_id : Z) (is_connected : bool)
    (agent_version : option string) (req : RequestInfo) : M Server.t :=
  server ← get_lab_server server_id lab_id ;
  raise_if (bool_decide (Server.is_active server = 0)) ServerError ;;
  raise_if (negb (is_some (Server.agent_token_hash server))) ServerError ;;
  let newly_approved := negb (is_some (Server.approved_at server)) in
  at_ ← utcnow ;
  let approved := if newly_approved
                  then server <| Server.approved_at := Some at_ |>
                              <| Server.approved_by_user_id := Some actor_user_id |>
                  else server in
  when newly_approved
    (set_server approved ;;
     audit_server "server.approve" actor_user_id lab_id server_id
       (JObj [("hostname", JStr (Server.hostname server)); ("agent_version", opt_str agent_version);
              ("last_heartbeat_at", jopt (λ t, JStr (isoformat t)) (Server.last_heartbeat_at server));
              ("connected_at_approval", JBool is_connected)]%string) req) ;;
  let final := if newly_approved || negb (bool_decide (Server.status server = "maintenance"%string))
               then approved <| Server.status := if is_connected then "online"%string else "offline"%string |>
               else approved in
  set_server final ;; flush ;;
  mret final.

(** ** Delegated administrators *)

Definition audit_grant (action : string) (actor_user_id lab_id server_id grant_id : Z) (payload : json)
    (req : RequestInfo) : M unit :=
  write action (Some actor_user_id) (Some lab_id) (Some "server_admin_grant"%string) (Some grant_id)
    (Some lab_id) (Some server_id) payload req.

Definition grant_admin (server_id user_id : Z) (notes : option pystr) (actor_user_id lab_id : Z)
    (req : RequestInfo) : M ServerAdminGrant.t :=
  grant ← add_grant (λ id, ServerAdminGrant.mk id user_id server_id 1 actor_user_id notes None None) ;
  flush ;;
  audit_grant "server.admin_grant.create" actor_user_id lab_id server_id (ServerAdminGrant.id grant)
    (JObj [("user_id", JInt user_id); ("notes", opt_text notes)]%string) req ;;
  mret grant.

Definition revoke_admin (server_id user_id actor_user_id lab_id : Z) (req : RequestInfo) :
    M (option ServerAdminGrant.t) :=
  o ← gets (λ s, find_grant (db s) server_id user_id) ;
  match o with
  | None => mret None
  | Some grant =>
      at_ ← utcnow ;
      let grant := grant <| ServerAdminGrant.is_active := 0 |>
                         <| ServerAdminGrant.revoked_by_user_id := Some actor_user_id |>
                         <| ServerAdminGrant.revoked_at := Some at_ |> in
      set_grant grant ;; flush ;;
      audit_grant "server.admin_grant.delete" actor_user_id lab_id server_id (ServerAdminGrant.id grant)
        (JObj [("user_id", JInt user_id)]%string) req ;;
      mret (Some grant)
  end.

(** ** Capabilities *)

Definition update_capability (server_id : Z) (capability_key : string) (enabled : bool)
    (notes : option pystr) (actor_user_id lab_id : Z) (req : RequestInfo) : M AgentCapability.t :=
  o ← gets (λ s, find_capability (db s) server_id capability_key) ;
  cap ← some_or_raise o ServerError ;
  raise_if (enabled && negb (bool_decide (AgentCapability.is_dangerous cap = 0)) &&
            match notes with Some n => bool_decide (length (strip n) < 10)%nat | None => true end)
    DangerousCapabilityWithoutNotesError ;;
  let cap := cap <| AgentCapability.is_enabled := Z.b2z enabled |>
                 <| AgentCapability.notes := notes |>
                 <| AgentCapability.updated_by_user_id := actor_user_id |> in
  set_capability cap ;; flush ;;
  write "capability.toggle" (Some actor_user_id) (Some lab_id) (Some "agent_capability"%string)
    (Some (AgentCapability.id cap)) (Some lab_id) (Some server_id)
    (JObj [("capability_key", JStr capability_key); ("enabled", JBool enabled);
           ("notes", opt_text notes)]%string) req ;;
  mret cap.

(** ** Enrolment secrets *)

(** The secrets a regeneration ends. *)
Definition outstanding (lab_id at_ : Z) (hostname : string) (t : EnrollmentToken.t) : bool :=
  bool_decide (EnrollmentToken.lab_id t = lab_id) &&
  bool_decide (ci <$> EnrollmentToken.expected_hostname_pattern t = Some (ci hostname)) &&
  negb (is_some (EnrollmentToken.used_at t)) && bool_decide (at_ < EnrollmentToken.expires_at t).

(** When the new secret expires, and the ids of those it replaces. *)
Definition regenerate_enrollment_token (plaintext : string) (server_id lab_id actor_user_id : Z)
    (req : RequestInfo) : M (Z * list Z) :=
  server ← get_lab_server server_id lab_id ;
  raise_if (bool_decide (Server.is_active server = 0)) ServerError ;;
  at_ ← utcnow ;
  old ← gets (λ s, filter (λ t, outstanding lab_id at_ (Server.hostname server) t = true)
                     (rows (enrollment_tokens (db s)))) ;
  for_each old (λ t, set_token (t <| EnrollmentToken.expires_at := at_ |>)) ;;
  let revoked_token_ids := EnrollmentToken.id <$> old in
  let expires_at := at_ + days 7 in
  token ← add_token (new_token lab_id actor_user_id expires_at plaintext (Server.hostname server)) ;
  flush ;;
  audit_server "server.enrollment_token.regenerate" actor_user_id lab_id server_id
    (JObj [("new_token_id", JInt (EnrollmentToken.id token));
           ("revoked_token_ids", JList (JInt <$> revoked_token_ids));
           ("expires_at", JStr (isoformat expires_at))]%string) req ;;
  mret (expires_at, revoked_token_ids).
End servers.
