(* ===== verification/PhysicalAccountService.v ===== *)
(** The registry of Linux accounts
    ([backend/corelab_backend/services/physical_account_service.py]).

    [linux_username] is compared by MySQL in the collation of the column,
    [utf8mb4_0900_ai_ci]: [ci] is the collation's key, a library function.
    The scan compares names in Python, exactly. *)

From S2P Require Import Prelude Models SessionLayer Samples AgentRpc.
From S2P Require Import AuditService NotificationService.

Definition VALID_SOURCES : list string :=
  ["agent_created"; "discovered_scan"; "admin_manual_register"]%string.

(** ** Reading *)

Definition list_for_server (server_id : Z) : M (list PhysicalAccount.t) :=
  gets (λ s, order_by PhysicalAccount.id
               (filter (λ pa, PhysicalAccount.server_id pa = server_id ∧ PhysicalAccount.is_active pa = 1)
                  (rows (physical_accounts (db s))))).

(** [get] *)
Definition get_account (pa_id lab_id : Z) : M PhysicalAccount.t :=
  o ← get_physical_account pa_id ;
  pa ← some_or_raise o PhysicalAccountNotFoundError ;
  srv ← get_server (PhysicalAccount.server_id pa) ;
  raise_if (negb (bool_decide (Server.lab_id <$> srv = Some lab_id))) PhysicalAccountNotFoundError ;;
  mret pa.

(** ** The table's constraints *)

(** Unsigned columns. *)
Definition account_row_error (pa : PhysicalAccount.t) : option exn :=
  if negb (unsigned_fits (PhysicalAccount.uid pa)) then Some (DataError "uid")
  else if negb (unsigned_fits (PhysicalAccount.gid pa)) then Some (DataError "gid")
  else None.

Section accounts.
Context (ci : string → string).

(** [uq_pa_server_user_active] between two rows. *)
Definition clash (a b : PhysicalAccount.t) : Prop :=
  PhysicalAccount.id a ≠ PhysicalAccount.id b ∧
  PhysicalAccount.is_active a = 1 ∧ PhysicalAccount.is_active b = 1 ∧
  PhysicalAccount.server_id a = PhysicalAccount.server_id b ∧
  ci (PhysicalAccount.linux_username a) = ci (PhysicalAccount.linux_username b).

#[export] Instance clash_dec a b : Decision (clash a b).
Proof. unfold clash. apply _. Defined.

(** The error a flush that leaves this table ends with; which of several
    comes first is the unit of work's choice. *)
Definition accounts_error (t : gmap Z PhysicalAccount.t) : option exn :=
  match head (omap account_row_error (rows t)) with
  | Some e => Some e
  | None => if bool_decide (Exists (λ a, Exists (clash a) (rows t)) (rows t))
            then Some (IntegrityError "uq_pa_server_user_active") else None
  end.

(** The flush of added or changed accounts. *)
Definition flush_accounts (t : gmap Z PhysicalAccount.t) (next : Z) : M unit := λ s,
  match accounts_error t with
  | Some e => (Raise e, s)
  | None => (Ok tt, s <| db := db s <| physical_accounts := t |> <| next_physical_account_id := next |> |>)
  end.

(** ** Creating and deleting *)

Definition find_active (d : Db) (server_id : Z) (linux_username : string) : option PhysicalAccount.t :=
  head (filter (λ pa, PhysicalAccount.server_id pa = server_id ∧
                      ci (PhysicalAccount.linux_username pa) = ci linux_username ∧
                      PhysicalAccount.is_active pa = 1) (rows (physical_accounts d))).

(** [create] *)
Definition create_account (server_id : Z) (linux_username source : string) (notes : option string)
    (actor_user_id lab_id : Z) (req : RequestInfo) : M PhysicalAccount.t :=
  raise_if (negb (bool_decide (source ∈ VALID_SOURCES))) InvalidSourceError ;;
  srv ← get_server server_id ;
  raise_if (negb (bool_decide (Server.lab_id <$> srv = Some lab_id))) PhysicalAccountNotFoundError ;;
  existing ← gets (λ s, find_active (db s) server_id linux_username) ;
  raise_if (is_some existing) DuplicatePhysicalAccountError ;;
  id ← gets (λ s, next_physical_account_id (db s)) ;
  t ← gets (λ s, physical_accounts (db s)) ;
  let pa := PhysicalAccount.mk id server_id linux_username None None None None source 1
              (Some actor_user_id) notes None in
  flush_accounts (<[id := pa]> t) (id + 1) ;;
  flush ;;
  write "physical_account.create" (Some actor_user_id) (Some lab_id)
    (Some "physical_account"%string) (Some id) (Some lab_id) (Some server_id)
    (JObj [("linux_username", JStr linux_username); ("source", JStr source)]%string) req ;;
  mret pa.

(** [delete]: soft. *)
Definition delete_account (pa_id actor_user_id lab_id : Z) (req : RequestInfo) : M PhysicalAccount.t :=
  pa ← get_account pa_id lab_id ;
  if bool_decide (PhysicalAccount.is_active pa = 0) then mret pa
  else
    let pa := pa <| PhysicalAccount.is_active := 0 |> in
    t ← gets (λ s, physical_accounts (db s)) ;
    next ← gets (λ s, next_physical_account_id (db s)) ;
    flush_accounts (<[PhysicalAccount.id pa := pa]> t) next ;;
    flush ;;
    write "physical_account.delete" (Some actor_user_id) (Some lab_id)
      (Some "physical_account"%string) (Some (PhysicalAccount.id pa)) (Some lab_id)
      (Some (PhysicalAccount.server_id pa))
      (JObj [("linux_username", JStr (PhysicalAccount.linux_username pa))]%string) req ;;
    mret pa.

(** ** Account scan *)

Record AccountScanEntry : Type := mkScanEntry {
  sc_linux_username : string ;
  sc_uid : option Z ;
  sc_gid : option Z ;
  sc_home_directory : option string ;
  sc_default_shell : option string }.

(** The loop's variables; [active] holds the rows by name. *)
Record scan : Type := mkScan {
  table : gmap Z PhysicalAccount.t ;
  next_id : Z ;
  active : gmap string Z ;
  created : list string ;
  backfilled : Z ;
  skipped_inactive : Z }.
#[export] Instance eta_scan : Eta scan := λ s,
  mkScan (table s) (next_id s) (active s) (created s) (backfilled s) (skipped_inactive s).

Definition merge {A} (value old : option A) : option A :=
  match value with Some _ => value | None => old end.

Definition differs {A} `{EqDecision A} (value old : option A) : bool :=
  is_some value && negb (bool_decide (old = value)).

(** A known account takes what the scan says of it. *)
Definition synced (at_ : Z) (pa : PhysicalAccount.t) (e : AccountScanEntry) : PhysicalAccount.t :=
  pa <| PhysicalAccount.uid := merge (sc_uid e) (PhysicalAccount.uid pa) |>
     <| PhysicalAccount.gid := merge (sc_gid e) (PhysicalAccount.gid pa) |>
     <| PhysicalAccount.home_directory := merge (sc_home_directory e) (PhysicalAccount.home_directory pa) |>
     <| PhysicalAccount.default_shell := merge (sc_default_shell e) (PhysicalAccount.default_shell pa) |>
     <| PhysicalAccount.last_seen_at := Some at_ |>.

Definition touched (pa : PhysicalAccount.t) (e : AccountScanEntry) : bool :=
  differs (sc_uid e) (PhysicalAccount.uid pa) || differs (sc_gid e) (PhysicalAccount.gid pa) ||
  differs (sc_home_directory e) (PhysicalAccount.home_directory pa) ||
  differs (sc_default_shell e) (PhysicalAccount.default_shell pa).

Definition discovered (at_ server_id : Z) (e : AccountScanEntry) (id : Z) : PhysicalAccount.t :=
  PhysicalAccount.mk id server_id (sc_linux_username e) (sc_uid e) (sc_gid e) (sc_home_directory e)
    (sc_default_shell e) "discovered_scan" 1 None None (Some at_).

Definition scan_entry (at_ server_id : Z) (inactive_names : gset string) (s : scan)
    (e : AccountScanEntry) : scan :=
  let name := sc_linux_username e in
  if bool_decide (name = ""%string) then s
  else match active s !! name ≫= λ k, table s !! k with
       | Some pa =>
           s <| table := <[PhysicalAccount.id pa := synced at_ pa e]> (table s) |>
             <| backfilled := backfilled s + (if touched pa e then 1 else 0) |>
       | None =>
           if decide (name ∈ inactive_names) then s <| skipped_inactive := skipped_inactive s + 1 |>
           else s <| table := <[next_id s := discovered at_ server_id e (next_id s)]> (table s) |>
                  <| next_id := next_id s + 1 |>
                  <| active := <[name := next_id s]> (active s) |>
                  <| created := created s ++ [name] |>
       end.

Definition scanned_at (at_ server_id : Z) (entries : list AccountScanEntry) (d : Db) : scan :=
  let existing := filter (λ pa, PhysicalAccount.server_id pa = server_id) (rows (physical_accounts d)) in
  let active := foldl (λ m pa, <[PhysicalAccount.linux_username pa := PhysicalAccount.id pa]> m) ∅
                  (filter (λ pa, PhysicalAccount.is_active pa = 1) existing) in
  let inactive_names := list_to_set (PhysicalAccount.linux_username <$>
                          filter (λ pa, PhysicalAccount.is_active pa ≠ 1) existing) in
  foldl (scan_entry at_ server_id inactive_names)
    (mkScan (physical_accounts d) (next_physical_account_id d) active [] 0 0) entries.

Record scan_stats : Type := mkStats {
  st_created : Z ; st_backfilled : Z ; st_skipped_inactive : Z ; st_scanned : Z }.

Definition sync_discovered (server_id lab_id : Z) (entries : list AccountScanEntry) : M scan_stats :=
  at_ ← utcnow ;
  s ← gets (λ s, scanned_at at_ server_id entries (db s)) ;
  flush_accounts (table s) (next_id s) ;;
  flush ;;
  (if bool_decide (created s = []) then skip
   else write "physical_account.discovered" None (Some lab_id) (Some "server"%string)
          (Some server_id) (Some lab_id) (Some server_id)
          (JObj [("created", JList (JStr <$> created s)); ("backfilled", JInt (backfilled s));
                 ("skipped_inactive", JInt (skipped_inactive s));
                 ("scanned", JInt (Z.of_nat (length entries)))]%string) no_request) ;;
  mret (mkStats (Z.of_nat (length (created s))) (backfilled s) (skipped_inactive s)
          (Z.of_nat (length entries))).
End accounts.

(** ** Retrying a key push *)

Definition get_entry (id : Z) : M (option AuthorizedKeyEntry.t) :=
  gets (λ s, authorized_key_entries (db s) !! id).
Definition get_key (id : Z) : M (option SshPublicKey.t) := gets (λ s, ssh_public_keys (db s) !! id).

Definition set_entry (e : AuthorizedKeyEntry.t) : M unit := update (λ s,
  s <| db := db s <| authorized_key_entries :=
         <[AuthorizedKeyEntry.id e := e]> (authorized_key_entries (db s)) |> |>).

Definition pushed_entry (e : AuthorizedKeyEntry.t) (actor_user_id at_ : Z) : AuthorizedKeyEntry.t :=
  e <| AuthorizedKeyEntry.pushed_by_user_id := actor_user_id |>
    <| AuthorizedKeyEntry.pushed_at := at_ |>
    <| AuthorizedKeyEntry.is_active := 1 |>
    <| AuthorizedKeyEntry.removed_at := None |>
    <| AuthorizedKeyEntry.removed_by_user_id := None |>.

(** The outcome of a push: what the agent answers, or why it could not be
    asked; any other exception of the RPC goes through.  [message] is the
    text of the exception. *)
Definition push_key (reply : rpc_result) (message : string) (pa : PhysicalAccount.t)
    (entry : AuthorizedKeyEntry.t) (key : SshPublicKey.t) (actor_user_id : Z) :
    M (list (string * json)) :=
  let sent := [("attempted", JBool true); ("authorized_key_entry_id", JInt (AuthorizedKeyEntry.id entry));
               ("ssh_public_key_id", JInt (SshPublicKey.id key))]%string in
  try_except
    (rpc_result ← agent_request (PhysicalAccount.server_id pa) "backend.authorized_key.push"
        [("linux_username", JStr (PhysicalAccount.linux_username pa));
         ("public_key", JStr (SshPublicKey.public_key key));
         ("label", JStr ("corelab:user=" +:+ pretty (AuthorizedKeyEntry.pushed_for_user_id entry) +:+
                         ";onboard=" +:+ pretty (PhysicalAccount.id pa) +:+ ";retry=1"))]%string reply ;
     at_ ← utcnow ;
     set_entry (pushed_entry entry actor_user_id at_) ;;
     flush ;;
     mret (sent ++
       [("ok", JBool true);
        ("installed_path", default (JStr "") (obj_get "installed_path" rpc_result));
        ("fingerprint", default (JStr "") (obj_get "fingerprint" rpc_result));
        ("mock_warning", default JNull (obj_get "mock_warning" rpc_result))]%string))
    (λ e, match e with
          | AgentOfflineError | AgentRpcTimeoutError | RpcNotYetWiredError =>
              mret (sent ++ [("ok", JBool false); ("error", JStr message)]%string)
          | _ => raise e
          end).

Definition retry_authorized_key_push (reply : rpc_result) (message : string)
    (pa_id authorized_key_entry_id actor_user_id lab_id : Z) (req : RequestInfo) :
    M (list (string * json)) :=
  pa ← get_account pa_id lab_id ;
  o ← get_entry authorized_key_entry_id ;
  entry ← some_or_raise o AuthorizedKeyEntryNotFoundError ;
  raise_if (negb (bool_decide (AuthorizedKeyEntry.physical_account_id entry = PhysicalAccount.id pa)))
    AuthorizedKeyEntryNotFoundError ;;
  k ← get_key (AuthorizedKeyEntry.ssh_public_key_id entry) ;
  key ← some_or_raise k AuthorizedKeyEntryNotFoundError ;
  raise_if (negb (bool_decide (SshPublicKey.is_active key = 1))) AuthorizedKeyEntryNotFoundError ;;
  outcome ←
    (if bool_decide (AuthorizedKeyEntry.is_active entry = 1)
     then mret [("ok", JBool true); ("attempted", JBool false); ("already_active", JBool true);
                ("authorized_key_entry_id", JInt (AuthorizedKeyEntry.id entry));
                ("ssh_public_key_id", JInt (SshPublicKey.id key))]%string
     else push_key reply message pa entry key actor_user_id) ;
  write "physical_account.authorized_key_retry" (Some actor_user_id) (Some lab_id)
    (Some "physical_account"%string) (Some (PhysicalAccount.id pa)) (Some lab_id)
    (Some (PhysicalAccount.server_id pa))
    (JObj [("linux_username", JStr (PhysicalAccount.linux_username pa));
           ("authorized_key_entry_id", JInt (AuthorizedKeyEntry.id entry));
           ("key_push_outcome", JObj outcome)]%string) req ;;
  mret outcome.

(** ** What a scan does to the table *)

Record account_table_ok (t : gmap Z PhysicalAccount.t) (next : Z) : Prop := {
  acc_key k pa : t !! k = Some pa → PhysicalAccount.id pa = k ;
  acc_below k pa : t !! k = Some pa → k < next ;
  acc_unique k k' a b : t !! k = Some a → t !! k' = Some b →
    PhysicalAccount.is_active a = 1 → PhysicalAccount.is_active b = 1 →
    PhysicalAccount.server_id a = PhysicalAccount.server_id b →
    PhysicalAccount.linux_username a = PhysicalAccount.linux_username b → k = k' }.

Definition named (name : string) (entries : list AccountScanEntry) : list AccountScanEntry :=
  filter (λ e, sc_linux_username e = name) entries.

(** An account on the scanned server after the entries about it. *)
Definition seen (at_ server_id : Z) (entries : list AccountScanEntry) (pa : PhysicalAccount.t) :
    PhysicalAccount.t :=
  if decide (PhysicalAccount.server_id pa = server_id ∧ PhysicalAccount.is_active pa = 1 ∧
             PhysicalAccount.linux_username pa ≠ ""%string)
  then foldl (synced at_) pa (named (PhysicalAccount.linux_username pa) entries) else pa.

(** A discovered account before anything is known of it. *)
Definition blank (server_id : Z) (name : string) (id : Z) : PhysicalAccount.t :=
  PhysicalAccount.mk id server_id name None None None None "discovered_scan" 1 None None None.

(** [name] is in the report and no row of the server, active or not, has it. *)
Definition unknown (t : gmap Z PhysicalAccount.t) (server_id : Z) (entries : list AccountScanEntry)
    (name : string) : Prop :=
  name ≠ ""%string ∧ named name entries ≠ [] ∧
  ∀ k pa, t !! k = Some pa → PhysicalAccount.server_id pa = server_id →
          PhysicalAccount.linux_username pa ≠ name.

(** [t'] is [t] after the report: known active accounts take what it says of
    them, other rows are untouched, each unknown name has exactly one new
    account. *)
Record scanned (at_ server_id : Z) (entries : list AccountScanEntry)
    (t t' : gmap Z PhysicalAccount.t) (new : list string) : Prop := {
  sd_old k pa : t !! k = Some pa → t' !! k = Some (seen at_ server_id entries pa) ;
  sd_new k pa : t' !! k = Some pa → t !! k = None →
    PhysicalAccount.linux_username pa ∈ new ∧
    pa = seen at_ server_id entries (blank server_id (PhysicalAccount.linux_username pa) k) ;
  sd_names name : name ∈ new ↔ unknown t server_id entries name ;
  sd_once : NoDup new ;
  sd_each name : name ∈ new → ∃ k pa, t' !! k = Some pa ∧ t !! k = None ∧
    PhysicalAccount.linux_username pa = name }.

Lemma merge_None {A} (v : option A) : merge v None = v.
Proof. by destruct v. Qed.

Lemma discovered_synced at_ sid e id :
  discovered at_ sid e id = synced at_ (blank sid (sc_linux_username e) id) e.
Proof.
  unfold discovered, synced, blank. simpl. unfold set_field. simpl.
  rewrite !merge_None.
  done.
Qed.

Definition same_account (a b : PhysicalAccount.t) : Prop :=
  PhysicalAccount.id a = PhysicalAccount.id b ∧
  PhysicalAccount.server_id a = PhysicalAccount.server_id b ∧
  PhysicalAccount.is_active a = PhysicalAccount.is_active b ∧
  PhysicalAccount.linux_username a = PhysicalAccount.linux_username b.

Lemma seen_same at_ sid entries pa : same_account (seen at_ sid entries pa) pa.
Proof.
  unfold seen. case_decide; [|done]. generalize (named (PhysicalAccount.linux_username pa) entries).
  intros l. induction l as [|e l IH] using rev_ind; [done|]. rewrite foldl_app. exact IH.
Qed.

Lemma named_snoc name entries e :
  named name (entries ++ [e]) =
    named name entries ++ (if decide (sc_linux_username e = name) then [e] else []).
Proof. unfold named. rewrite filter_app, filter_cons, filter_nil. done. Qed.

Lemma seen_snoc at_ sid entries e pa :
  seen at_ sid (entries ++ [e]) pa =
    if decide (PhysicalAccount.server_id pa = sid ∧ PhysicalAccount.is_active pa = 1 ∧
               sc_linux_username e = PhysicalAccount.linux_username pa ∧ sc_linux_username e ≠ ""%string)
    then synced at_ (seen at_ sid entries pa) e else seen at_ sid entries pa.
Proof.
  unfold seen. destruct (decide (PhysicalAccount.server_id pa = sid ∧ _)) as [(Hs & Ha & Hn)|H].
  - rewrite named_snoc, foldl_app. destruct (decide (sc_linux_username e = _)) as [He|He].
    + by rewrite decide_True by (rewrite He; auto).
    + by rewrite decide_False by tauto.
  - rewrite decide_False; [done|]. intros (? & ? & He & ?). apply H. by rewrite <- He.
Qed.

Lemma unknown_snoc t sid entries e name :
  unknown t sid (entries ++ [e]) name ↔
    unknown t sid entries name ∨
    (sc_linux_username e = name ∧ name ≠ ""%string ∧
     ∀ k pa, t !! k = Some pa → PhysicalAccount.server_id pa = sid →
             PhysicalAccount.linux_username pa ≠ name).
Proof.
  unfold unknown. rewrite named_snoc. case_decide.
  - split; [intros (? & _ & ?); by right|].
    intros [(? & _ & ?)|(_ & ? & ?)]; (split; [done|]; split; [|done]); by destruct (named _ _).
  - rewrite app_nil_r. naive_solver.
Qed.

(** The loop's invariant. *)
Record scan_inv (at_ server_id : Z) (t : gmap Z PhysicalAccount.t) (entries : list AccountScanEntry)
    (s : scan) : Prop := {
  si_scanned : scanned at_ server_id entries t (table s) (created s) ;
  si_key k pa : table s !! k = Some pa → PhysicalAccount.id pa = k ;
  si_below k pa : table s !! k = Some pa → k < next_id s ;
  si_active name k : active s !! name = Some k ↔
    ∃ pa, table s !! k = Some pa ∧ PhysicalAccount.server_id pa = server_id ∧
          PhysicalAccount.is_active pa = 1 ∧ PhysicalAccount.linux_username pa = name }.

Section scan_step.
Context (at_ server_id : Z) (t : gmap Z PhysicalAccount.t) (entries : list AccountScanEntry).
Context (e : AccountScanEntry) (s : scan).
Context (Hinv : scan_inv at_ server_id t entries s).
Context (Hname : sc_linux_username e ≠ ""%string).

(** The row the entry is about, if there is one in the table. *)
Definition about (pa : PhysicalAccount.t) : Prop :=
  PhysicalAccount.server_id pa = server_id ∧ PhysicalAccount.is_active pa = 1 ∧
  PhysicalAccount.linux_username pa = sc_linux_username e.

Lemma about_same a b : same_account a b → about a ↔ about b.
Proof using Type. clear Hinv Hname. unfold same_account, about. intros (_ & -> & -> & ->). done. Qed.

Lemma seen_about pa :
  about pa → seen at_ server_id (entries ++ [e]) pa = synced at_ (seen at_ server_id entries pa) e.
Proof using Hname. clear Hinv. intros (? & ? & ?). rewrite seen_snoc, decide_True; [done|]. split_and!; congruence. Qed.

Lemma seen_other pa :
  ¬ about pa → seen at_ server_id (entries ++ [e]) pa = seen at_ server_id entries pa.
Proof using Type. clear Hinv Hname. intros H. rewrite seen_snoc, decide_False; [done|]. unfold about in H. naive_solver. Qed.

Lemma blank_about name k : about (blank server_id name k) ↔ name = sc_linux_username e.
Proof using Type. clear Hinv Hname. unfold about. simpl. tauto. Qed.

Lemma active_about k : active s !! sc_linux_username e = Some k ↔ ∃ pa, table s !! k = Some pa ∧ about pa.
Proof using Hinv. exact (si_active _ _ _ _ _ Hinv (sc_linux_username e) k). Qed.

(** A discovered name is active. *)
Lemma new_active : sc_linux_username e ∈ created s → is_Some (active s !! sc_linux_username e).
Proof using Hinv.
  intros Hin. destruct Hinv as [Hsc _ _ _]. destruct (sd_each _ _ _ _ _ _ Hsc _ Hin) as (k & pa & Hk & Hn & Hnm).
  exists k. apply active_about. exists pa. split; [done|].
  destruct (sd_new _ _ _ _ _ _ Hsc _ _ Hk Hn) as [_ ->].
  eapply about_same; [apply seen_same|]. by apply blank_about.
Qed.

Lemma step_known k pa :
  active s !! sc_linux_username e = Some k → table s !! k = Some pa →
  scan_inv at_ server_id t (entries ++ [e])
    (s <| table := <[PhysicalAccount.id pa := synced at_ pa e]> (table s) |>
       <| backfilled := backfilled s + (if touched pa e then 1 else 0) |>).
Proof using Hinv Hname.
  intros Hact Hpa. pose proof Hinv as [Hsc Hkey Hb Ha]. rewrite (Hkey _ _ Hpa).
  assert (Hab : about pa).
  { apply active_about in Hact as (pa' & Hpa' & ?). congruence. }
  assert (Huniq : ∀ k' pa', table s !! k' = Some pa' → about pa' → k' = k).
  { intros k' pa' H1 H2. assert (active s !! sc_linux_username e = Some k') by (apply active_about; eauto).
    congruence. }
  assert (Hnew : ∀ name, unknown t server_id (entries ++ [e]) name ↔ unknown t server_id entries name).
  { intros name. rewrite unknown_snoc. split; [|by left]. intros [?|(<- & Hne & Hno)]; [done|].
    destruct (t !! k) as [pa0|] eqn:Hk.
    - pose proof (sd_old _ _ _ _ _ _ Hsc _ _ Hk) as Hk'. rewrite Hpa in Hk'. injection Hk' as ->.
      apply (about_same _ pa0 (seen_same _ _ _ _)) in Hab as (? & _ & ?). by destruct (Hno _ _ Hk).
    - destruct (sd_new _ _ _ _ _ _ Hsc _ _ Hpa Hk) as [Hin _]. destruct Hab as (_ & _ & Hnm).
      rewrite Hnm in Hin. by apply (sd_names _ _ _ _ _ _ Hsc). }
  split; simpl.
  - split.
    + intros k0 pa0 Hk0. pose proof (sd_old _ _ _ _ _ _ Hsc _ _ Hk0) as Hk0'.
      destruct (decide (k0 = k)) as [->|Hne].
      * rewrite Hpa in Hk0'. injection Hk0' as ->. rewrite lookup_insert_eq.
        rewrite seen_about; [done|]. by apply (about_same _ pa0 (seen_same at_ server_id entries pa0)).
      * rewrite lookup_insert_ne by done. rewrite seen_other; [done|]. intros Hab0. apply Hne.
        eapply Huniq; [exact Hk0'|]. by apply (about_same _ pa0 (seen_same at_ server_id entries pa0)).
    + intros k0 pa0 [[<- <-]|[Hne Hk0]]%lookup_insert_Some Hn.
      * destruct (sd_new _ _ _ _ _ _ Hsc _ _ Hpa Hn) as [Hin Heq]. split; [exact Hin|].
        change (PhysicalAccount.linux_username (synced at_ pa e)) with (PhysicalAccount.linux_username pa).
        rewrite seen_about by (apply blank_about; apply Hab). by rewrite <- Heq.
      * destruct (sd_new _ _ _ _ _ _ Hsc _ _ Hk0 Hn) as [Hin Heq]. split; [exact Hin|].
        rewrite seen_other; [exact Heq|]. rewrite blank_about. intros Hnm. apply Hne. symmetry.
        eapply Huniq; [exact Hk0|]. rewrite Heq. eapply about_same; [apply seen_same|]. by apply blank_about.
    + intros name. rewrite Hnew. apply Hsc.
    + apply Hsc.
    + intros name Hin. destruct (sd_each _ _ _ _ _ _ Hsc _ Hin) as (k0 & pa0 & H1 & H2 & H3).
      destruct (decide (k0 = k)) as [->|Hne].
      * exists k, (synced at_ pa e). rewrite lookup_insert_eq. split_and!; [done|done|].
        change (PhysicalAccount.linux_username pa = name). congruence.
      * exists k0, pa0. by rewrite lookup_insert_ne.
  - intros k0 pa0 [[<- <-]|[Hne Hk0]]%lookup_insert_Some; [exact (Hkey _ _ Hpa)|by apply Hkey].
  - intros k0 pa0 [[<- <-]|[Hne Hk0]]%lookup_insert_Some; [by eapply Hb|by eapply Hb].
  - intros name k0. rewrite Ha. split.
    + intros (pa0 & H1 & H2). destruct (decide (k0 = k)) as [->|Hne].
      * exists (synced at_ pa e). rewrite lookup_insert_eq. split; [done|]. assert (pa0 = pa) as -> by congruence. exact H2.
      * exists pa0. by rewrite lookup_insert_ne.
    + intros (pa0 & [[<- <-]|[Hne H1]]%lookup_insert_Some & H2); [by exists pa|by exists pa0].
Qed.

Lemma none_about k pa : active s !! sc_linux_username e = None → table s !! k = Some pa → ¬ about pa.
Proof using Hinv.
  intros Hn Hk Hab. assert (active s !! sc_linux_username e = Some k) by (apply active_about; eauto).
  congruence.
Qed.

(** No row changes: the entry is about none of them. *)
Lemma scanned_idle :
  active s !! sc_linux_username e = None →
  (∀ name, unknown t server_id (entries ++ [e]) name ↔ unknown t server_id entries name) →
  scanned at_ server_id (entries ++ [e]) t (table s) (created s).
Proof using Hinv.
  intros Hnone Hunk. pose proof Hinv as [[S1 S2 S3 S4 S5] _ _ _]. split; try done.
  - intros k pa Hk. pose proof (S1 _ _ Hk) as Hk'. rewrite seen_other; [done|]. intros Hab.
    apply (none_about _ _ Hnone Hk'). by apply (about_same _ pa (seen_same at_ server_id entries pa)).
  - intros k pa Hk Hn. destruct (S2 _ _ Hk Hn) as [Hin Heq]. split; [done|].
    rewrite seen_other; [done|]. rewrite blank_about. intros Hnm. apply (none_about _ _ Hnone Hk).
    rewrite Heq. eapply about_same; [apply seen_same|]. by apply blank_about.
  - intros name. by rewrite Hunk.
Qed.

Lemma step_inactive k pa :
  active s !! sc_linux_username e = None → t !! k = Some pa →
  PhysicalAccount.server_id pa = server_id → PhysicalAccount.linux_username pa = sc_linux_username e →
  scan_inv at_ server_id t (entries ++ [e]) (s <| skipped_inactive := skipped_inactive s + 1 |>).
Proof using Hinv.
  intros Hnone Hk Hs Hn. pose proof Hinv as [_ Hkey Hb Ha]. split; simpl; [|done..].
  apply scanned_idle; [done|]. intros name. rewrite unknown_snoc. split; [|by left].
  intros [?|(<- & _ & Hno)]; [done|]. by destruct (Hno _ _ Hk).
Qed.

Lemma fresh_name :
  active s !! sc_linux_username e = None → sc_linux_username e ∉ created s.
Proof using Hinv. intros Hn Hin. destruct (new_active Hin) as [k Hk]. congruence. Qed.

Lemma fresh_id : table s !! next_id s = None ∧ t !! next_id s = None.
Proof using Hinv.
  pose proof Hinv as [Hsc _ Hb _].
  assert (H : table s !! next_id s = None).
  { destruct (table s !! next_id s) as [pa|] eqn:Hk; [|done]. apply Hb in Hk. lia. }
  split; [done|]. destruct (t !! next_id s) as [pa|] eqn:Hk; [|done].
  rewrite (sd_old _ _ _ _ _ _ Hsc _ _ Hk) in H. done.
Qed.

Lemma scanned_new :
  active s !! sc_linux_username e = None →
  (∀ k pa, t !! k = Some pa → PhysicalAccount.server_id pa = server_id →
           PhysicalAccount.linux_username pa ≠ sc_linux_username e) →
  scanned at_ server_id (entries ++ [e]) t
    (<[next_id s := discovered at_ server_id e (next_id s)]> (table s))
    (created s ++ [sc_linux_username e]).
Proof using Hinv Hname.
  intros Hnone Hno. pose proof (fresh_name Hnone) as Hfn. destruct fresh_id as [Hf Hft].
  pose proof Hinv as [[S1 S2 S3 S4 S5] _ _ _].
  assert (Hempty : named (sc_linux_username e) entries = []).
  { destruct (named _ entries) as [|x l] eqn:Hl; [done|]. destruct Hfn. apply S3.
    split; [done|]. split; [by rewrite Hl|done]. }
  split.
  - intros k pa Hk. pose proof (S1 _ _ Hk) as Hk'. rewrite lookup_insert_ne by congruence.
    rewrite seen_other; [done|]. intros Hab.
    apply (none_about _ _ Hnone Hk'). by apply (about_same _ pa (seen_same at_ server_id entries pa)).
  - intros k pa [[<- <-]|[Hne Hk]]%lookup_insert_Some Hn; simpl.
    + split; [apply elem_of_app; right; by apply list_elem_of_singleton|].
      rewrite seen_about by by apply blank_about. rewrite discovered_synced. f_equal.
      unfold seen. simpl. rewrite Hempty. by case_decide.
    + destruct (S2 _ _ Hk Hn) as [Hin Heq]. split; [apply elem_of_app; by left|].
      rewrite seen_other; [done|]. rewrite blank_about. intros Hnm. apply Hfn. by rewrite <- Hnm.
  - intros name. rewrite elem_of_app, list_elem_of_singleton, unknown_snoc, S3. split.
    + intros [?| ->]; [by left|by right].
    + intros [?|(<- & _)]; [by left|by right].
  - apply NoDup_app. split; [done|]. split; [|apply NoDup_singleton].
    intros x Hx Hx'%list_elem_of_singleton. by subst x.
  - intros name [Hin|Hin%list_elem_of_singleton]%elem_of_app.
    + destruct (S5 _ Hin) as (k & pa & H1 & H2 & H3). exists k, pa.
      by rewrite lookup_insert_ne by congruence.
    + exists (next_id s). eexists. rewrite lookup_insert_eq. by split_and!.
Qed.

Lemma step_new :
  active s !! sc_linux_username e = None →
  (∀ k pa, t !! k = Some pa → PhysicalAccount.server_id pa = server_id →
           PhysicalAccount.linux_username pa ≠ sc_linux_username e) →
  scan_inv at_ server_id t (entries ++ [e])
    (s <| table := <[next_id s := discovered at_ server_id e (next_id s)]> (table s) |>
       <| next_id := next_id s + 1 |>
       <| active := <[sc_linux_username e := next_id s]> (active s) |>
       <| created := created s ++ [sc_linux_username e] |>).
Proof using Hinv Hname.
  intros Hnone Hno. destruct fresh_id as [Hf Hft]. pose proof Hinv as [_ Hkey Hb Ha].
  split; simpl; [by apply scanned_new| | |].
  - intros k pa [[<- <-]|[Hne Hk]]%lookup_insert_Some; [done|by apply Hkey].
  - intros k pa [[<- <-]|[Hne Hk]]%lookup_insert_Some; [lia|apply Hb in Hk; lia].
  - intros name k. destruct (decide (name = sc_linux_username e)) as [->|Hnm].
    + rewrite lookup_insert_eq. split.
      * intros [= <-]. eexists. rewrite lookup_insert_eq. by split_and!.
      * intros (pa & [[<- <-]|[Hne Hk]]%lookup_insert_Some & Hab); [done|].
        by destruct (none_about _ _ Hnone Hk).
    + rewrite lookup_insert_ne by done. rewrite Ha. split.
      * intros (pa & Hk & Hpa). exists pa. by rewrite lookup_insert_ne by congruence.
      * intros (pa & [[<- <-]|[Hne Hk]]%lookup_insert_Some & H1 & H2 & H3); [by destruct Hnm|by exists pa].
Qed.
End scan_step.

Definition inactive_in (t : gmap Z PhysicalAccount.t) (server_id : Z) (name : string) : Prop :=
  ∃ k pa, t !! k = Some pa ∧ PhysicalAccount.server_id pa = server_id ∧
          PhysicalAccount.is_active pa ≠ 1 ∧ PhysicalAccount.linux_username pa = name.

Lemma scan_entry_nameless at_ sid t entries e s :
  sc_linux_username e = ""%string → scan_inv at_ sid t entries s → scan_inv at_ sid t (entries ++ [e]) s.
Proof.
  intros He [[S1 S2 S3 S4 S5] Hkey Hb Ha].
  assert (Hseen : ∀ pa, seen at_ sid (entries ++ [e]) pa = seen at_ sid entries pa).
  { intros pa. rewrite seen_snoc, decide_False; [done|]. tauto. }
  split; [split|done..].
  - intros k pa Hk. rewrite Hseen. by apply S1.
  - intros k pa Hk Hn. rewrite Hseen. by apply S2.
  - intros name. rewrite S3, unknown_snoc. split; [by left|]. intros [?|(<- & ? & _)]; done.
  - done.
  - done.
Qed.

Lemma scan_entry_inv at_ sid t inactive_names entries e s :
  (∀ name, name ∈ inactive_names ↔ inactive_in t sid name) →
  scan_inv at_ sid t entries s →
  scan_inv at_ sid t (entries ++ [e]) (scan_entry at_ sid inactive_names s e).
Proof.
  intros Hin Hinv. unfold scan_entry. cbv zeta. case_bool_decide as He; [by apply scan_entry_nameless|].
  destruct (active s !! sc_linux_username e) as [k|] eqn:Hact.
  - pose proof (proj1 (si_active _ _ _ _ _ Hinv _ _) Hact) as (pa & Hpa & _).
    change (Some k ≫= λ k, table s !! k) with (table s !! k). rewrite Hpa.
    by eapply step_known.
  - change (None ≫= λ k, table s !! k) with (@None PhysicalAccount.t). cbv match.
    destruct (decide (sc_linux_username e ∈ inactive_names)) as [Hi|Hi].
    + apply Hin in Hi as (k & pa & Hk & Hs & _ & Hn). by eapply step_inactive.
    + apply step_new; [done..|]. intros k pa Hk Hs Hn.
      destruct (decide (PhysicalAccount.is_active pa = 1)) as [Ha|Ha].
      * pose proof (sd_old _ _ _ _ _ _ (si_scanned _ _ _ _ _ Hinv) _ _ Hk) as Hk'.
        eapply (none_about _ _ _ _ _ _ Hinv _ _ Hact Hk').
        apply (about_same _ _ _ pa (seen_same at_ sid entries pa)). by split_and!.
      * apply Hi, Hin. by exists k, pa.
Qed.

Lemma active_map_lookup (l : list PhysicalAccount.t) (m : gmap string Z) name k :
  (∀ a b, a ∈ l → b ∈ l → PhysicalAccount.linux_username a = PhysicalAccount.linux_username b →
          PhysicalAccount.id a = PhysicalAccount.id b) →
  foldl (λ m pa, <[PhysicalAccount.linux_username pa := PhysicalAccount.id pa]> m) m l !! name = Some k ↔
  (∃ pa, pa ∈ l ∧ PhysicalAccount.linux_username pa = name ∧ PhysicalAccount.id pa = k) ∨
  (m !! name = Some k ∧ ∀ pa, pa ∈ l → PhysicalAccount.linux_username pa ≠ name).
Proof.
  revert m. induction l as [|a l IH]; intros m Hu; simpl.
  { split; [intros H; right; split; [done|]; intros pa Hpa; by apply elem_of_nil in Hpa|].
    intros [(pa & Hpa & _)|[? _]]; [by apply elem_of_nil in Hpa|done]. }
  rewrite IH by (intros x y Hx Hy; apply Hu; by right). split.
  - intros [(pa & Hpa & H1 & H2)|[Hm Hno]]; [left; exists pa; split; [by right|done]|].
    apply lookup_insert_Some in Hm as [[H1 H2]|[Hne Hm]].
    + left. exists a. split; [left|done].
    + right. split; [done|]. intros pa [->|Hpa]%elem_of_cons; [done|by apply Hno].
  - intros [(pa & [->|Hpa]%elem_of_cons & H1 & H2)|[Hm Hno]].
    + destruct (decide (Exists (λ b, PhysicalAccount.linux_username b = name) l)) as [Hex|Hex].
      * apply Exists_exists in Hex as (b & Hb & Hnb). left. exists b. split; [done|]. split; [done|].
        rewrite <- H2. apply Hu; [by right|left|congruence].
      * right. split; [rewrite <- H1, <- H2; apply lookup_insert_eq|].
        intros pa Hpa Hn. apply Hex, Exists_exists. by exists pa.
    + left. by exists pa.
    + right. split.
      * rewrite lookup_insert_ne; [done|]. apply Hno. left.
      * intros pa Hpa. apply Hno. by right.
Qed.

Lemma scan_init at_ sid d :
  account_table_ok (physical_accounts d) (next_physical_account_id d) →
  scan_inv at_ sid (physical_accounts d) [] (scanned_at at_ sid [] d).
Proof.
  intros [Hk Hb Hu]. unfold scanned_at. simpl. split; simpl.
  - split.
    + intros k pa H. unfold seen. by case_decide.
    + intros k pa H1 H2. congruence.
    + intros name. split; [intros H; by apply elem_of_nil in H|]. intros (_ & H & _). done.
    + apply NoDup_nil_2.
    + intros name H. by apply elem_of_nil in H.
  - exact Hk.
  - exact Hb.
  - intros name k. rewrite active_map_lookup.
    + split.
      * intros [(pa & Hpa & Hn & Hid)|[H _]]; [|by rewrite lookup_empty in H].
        apply list_elem_of_filter in Hpa as [Ha Hpa]. apply list_elem_of_filter in Hpa as [Hs Hpa].
        apply elem_of_rows in Hpa as [k' Hk']. pose proof (Hk _ _ Hk') as Hid'. exists pa.
        split; [congruence|done].
      * intros (pa & Hpa & Hs & Ha & Hn). left. exists pa. split; [|split; [done|by apply Hk]].
        apply list_elem_of_filter. split; [done|]. apply list_elem_of_filter. split; [done|].
        by eapply rows_lookup.
    + intros a b Ha' Hb' Hn. apply list_elem_of_filter in Ha' as [Ha Ha'], Hb' as [Hb2 Hb'].
      apply list_elem_of_filter in Ha' as [Hsa Ha'], Hb' as [Hsb Hb'].
      apply elem_of_rows in Ha' as [ka Hka], Hb' as [kb Hkb].
      rewrite (Hk _ _ Hka), (Hk _ _ Hkb). eapply Hu; [exact Hka|exact Hkb|congruence..].
Qed.

Lemma scanned_at_inv at_ sid entries d :
  account_table_ok (physical_accounts d) (next_physical_account_id d) →
  scan_inv at_ sid (physical_accounts d) entries (scanned_at at_ sid entries d).
Proof.
  intros Hok. induction entries as [|e entries IH] using rev_ind; [by apply scan_init|].
  unfold scanned_at in *. cbv zeta in *. rewrite foldl_app. apply scan_entry_inv; [|exact IH].
  intros name. rewrite elem_of_list_to_set, list_elem_of_fmap. unfold inactive_in. split.
  - intros (pa & -> & Hpa). apply list_elem_of_filter in Hpa as [Ha Hpa].
    apply list_elem_of_filter in Hpa as [Hs [k Hk]%elem_of_rows]. by exists k, pa.
  - intros (k & pa & Hk & Hs & Ha & Hn). exists pa. split; [done|].
    apply list_elem_of_filter. split; [done|]. apply list_elem_of_filter. split; [done|].
    by eapply rows_lookup.
Qed.

Lemma scan_table_ok at_ sid t next entries s :
  account_table_ok t next → scan_inv at_ sid t entries s → account_table_ok (table s) (next_id s).
Proof.
  intros [_ _ Hu] [[S1 S2 S3 S4 S5] Hkey Hb Ha]. split; [done|done|].
  intros k k' a b Hka Hkb Hact Hbct Hs Hn.
  assert (Hold : ∀ x y, table s !! x = Some y → PhysicalAccount.server_id y ≠ sid →
    ∃ y0, t !! x = Some y0 ∧ same_account y y0).
  { intros x y Hx Hy. destruct (t !! x) as [y0|] eqn:Ht.
    - exists y0. split; [done|]. rewrite (S1 _ _ Ht) in Hx. injection Hx as <-. apply seen_same.
    - destruct (S2 _ _ Hx Ht) as [_ Heq]. destruct Hy. rewrite Heq.
      by destruct (seen_same at_ sid entries (blank sid (PhysicalAccount.linux_username y) x)) as (_ & -> & _). }
  destruct (decide (PhysicalAccount.server_id a = sid)) as [Hsid|Hsid].
  - assert (H1 : active s !! PhysicalAccount.linux_username a = Some k) by (apply Ha; by exists a).
    assert (H2 : active s !! PhysicalAccount.linux_username a = Some k')
      by (apply Ha; exists b; split_and!; congruence).
    congruence.
  - destruct (Hold _ _ Hka Hsid) as (a0 & Ha0 & (_ & E1 & E2 & E3)).
    destruct (Hold k' b Hkb) as (b0 & Hb0 & (_ & F1 & F2 & F3)); [congruence|].
    eapply Hu; [exact Ha0|exact Hb0|congruence..].
Qed.

Section sync.
Context (ci : string → string).

Lemma clash_error (t : gmap Z PhysicalAccount.t) k k' a b :
  t !! k = Some a → t !! k' = Some b → clash ci a b → ∃ e, accounts_error ci t = Some e.
Proof using Type.
  intros Ha Hb Hc. unfold accounts_error. destruct (head _) as [e|]; [by exists e|].
  rewrite bool_decide_eq_true_2; [by eexists|]. apply Exists_exists. exists a.
  split; [by eapply rows_lookup|]. apply Exists_exists. exists b. split; [by eapply rows_lookup|done].
Qed.

(** Two new names the collation identifies. *)
Lemma new_names_clash at_ sid entries t t' new a b :
  (∀ k pa, t' !! k = Some pa → PhysicalAccount.id pa = k) →
  scanned at_ sid entries t t' new → a ∈ new → b ∈ new → a ≠ b → ci a = ci b →
  ∃ e, accounts_error ci t' = Some e.
Proof using Type.
  intros Hkey [_ S2 _ _ S5] Ha Hb Hne Hci.
  destruct (S5 _ Ha) as (k & pa & H1 & H2 & H3), (S5 _ Hb) as (k' & pb & G1 & G2 & G3).
  destruct (S2 _ _ H1 H2) as [_ Ea], (S2 _ _ G1 G2) as [_ Eb].
  destruct (seen_same at_ sid entries (blank sid (PhysicalAccount.linux_username pa) k)) as (_ & As & Aa & _).
  destruct (seen_same at_ sid entries (blank sid (PhysicalAccount.linux_username pb) k')) as (_ & Bs & Ba & _).
  rewrite <- Ea in As, Aa. rewrite <- Eb in Bs, Ba.
  apply (clash_error t' k k' pa pb H1 G1). unfold clash. simpl in *.
  split_and!; [|done|done|congruence|congruence].
  rewrite (Hkey _ _ H1), (Hkey _ _ G1). intros ->. congruence.
Qed.

Lemma sync_run sid lab entries s :
  clean s →
  let sc := scanned_at (now s) sid entries (db s) in
  let st := mkStats (Z.of_nat (length (created sc))) (backfilled sc) (skipped_inactive sc)
              (Z.of_nat (length entries)) in
  match accounts_error ci (table sc) with
  | Some e => sync_discovered ci sid lab entries s = (Raise e, s)
  | None => ∃ es, AuditLog.action <$> es =
        (if bool_decide (created sc = []) then [] else ["physical_account.discovered"%string]) ∧
      sync_discovered ci sid lab entries s =
        (Ok st, s <| db := db s <| physical_accounts := table sc |>
                            <| next_physical_account_id := next_id sc |>
                            <| audit_log := audit_log (db s) ++ es |> |>)
  end.
Proof using Type.
  intros Hc. cbv zeta. set (sc := scanned_at (now s) sid entries (db s)).
  unfold sync_discovered. rewrite (bind_run utcnow _ s (now s) s) by reflexivity.
  rewrite (bind_run (gets _) _ s sc s) by reflexivity.
  destruct (accounts_error ci (table sc)) as [e|] eqn:He.
  { rewrite (bind_run_raise _ _ s e s); [done|]. unfold flush_accounts. by rewrite He. }
  set (s1 := s <| db := db s <| physical_accounts := table sc |> <| next_physical_account_id := next_id sc |> |>).
  assert (H1 : flush_accounts ci (table sc) (next_id sc) s = (Ok tt, s1)).
  { unfold flush_accounts. by rewrite He. }
  rewrite (bind_run _ _ _ _ _ H1). rewrite (bind_run flush _ s1 tt s1) by by apply flush_clean.
  case_bool_decide.
  - exists []. split; [done|]. rewrite (bind_run skip _ s1 tt s1) by reflexivity.
    unfold s1. simpl. by rewrite app_nil_r.
  - eexists [_]. split; [|rewrite (bind_run _ _ _ _ _ (write_run _ _ _ _ _ _ _ _ _ s1 Hc)); reflexivity].
    reflexivity.
Qed.

(** an account scan only adds and refreshes.  Active
    accounts of the server that the report names take its uid, gid, home and
    shell where it gives them and are stamped; every other row, the
    soft-deleted ones and other servers' among them, is left alone; each
    reported name no row of the server has -- active or soft-deleted -- gets
    exactly one new account; the scan is audited exactly when it created
    one.  A scan the table cannot hold changes nothing at all, and two new
    names that differ only in what the collation ignores are such a scan. *)
Theorem sync_discovered_spec sid lab entries s :
  clean s → account_table_ok (physical_accounts (db s)) (next_physical_account_id (db s)) →
  ∃ t next new, scanned (now s) sid entries (physical_accounts (db s)) t new ∧
    account_table_ok t next ∧
    (∀ a b, a ∈ new → b ∈ new → a ≠ b → ci a = ci b → accounts_error ci t ≠ None) ∧
    match accounts_error ci t with
    | Some e => sync_discovered ci sid lab entries s = (Raise e, s)
    | None => ∃ st es,
        AuditLog.action <$> es = (if bool_decide (new = []) then [] else ["physical_account.discovered"%string]) ∧
        st_created st = Z.of_nat (length new) ∧
        sync_discovered ci sid lab entries s =
          (Ok st, s <| db := db s <| physical_accounts := t |> <| next_physical_account_id := next |>
                                  <| audit_log := audit_log (db s) ++ es |> |>)
    end.
Proof using Type.
  intros Hc Hok. pose proof (scanned_at_inv (now s) sid entries (db s) Hok) as Hinv.
  set (sc := scanned_at (now s) sid entries (db s)) in Hinv. exists (table sc), (next_id sc), (created sc).
  split; [apply Hinv|]. split; [by eapply scan_table_ok|]. split.
  { intros a b Ha Hb Hne Hci Hn.
    destruct (new_names_clash _ _ _ _ _ _ a b (si_key _ _ _ _ _ Hinv) (si_scanned _ _ _ _ _ Hinv) Ha Hb Hne Hci).
    congruence. }
  pose proof (sync_run sid lab entries s Hc) as Hrun. fold sc in Hrun. cbv zeta in Hrun.
  destruct (accounts_error ci (table sc)); [done|]. destruct Hrun as (es & Hes & Hrun).
  eexists _, es. split; [exact Hes|]. split; [|exact Hrun]. done.
Qed.
End sync.

(** ** Witness *)

(** A known account and a new one. *)
Definition scan_report : list AccountScanEntry :=
  [mkScanEntry "alice" (Some 1001) (Some 1001) None None;
   mkScanEntry "carol" (Some 1002) (Some 1002) None None].

Definition scan_session : Session := open_session (sample_db []) 100 "".

Example scan_stored :
  match sync_discovered (λ x, x) 1 1 scan_report scan_session with
  | (Ok st, s') => st = mkStats 1 1 0 2 ∧
      PhysicalAccount.linux_username <$> physical_accounts (db s') !! 7 = Some "carol"%string ∧
      PhysicalAccount.uid <$> physical_accounts (db s') !! 5 = Some (Some 1001)
  | _ => False
  end.
Proof. vm_compute. auto. Qed.

Lemma scan_session_ok :
  account_table_ok (physical_accounts (db scan_session)) (next_physical_account_id (db scan_session)).
Proof.
  assert (H : ∀ k pa, physical_accounts (db scan_session) !! k = Some pa →
    (k = 5 ∧ pa = sample_account 5 "alice") ∨ (k = 6 ∧ pa = sample_account 6 "bob")).
  { intros k pa Hk.
    change (physical_accounts (db scan_session)) with
      ({[5 := sample_account 5 "alice"; 6 := sample_account 6 "bob"]} : gmap Z PhysicalAccount.t) in Hk.
    apply lookup_insert_Some in Hk as [[<- <-]|[_ Hk]]; [by left|].
    apply lookup_singleton_Some in Hk as [<- <-]. by right. }
  split.
  - by intros k pa [[-> ->]|[-> ->]]%H.
  - by intros k pa [[-> ->]|[-> ->]]%H.
  - intros k k' a b Ha Hb. apply H in Ha as [[-> ->]|[-> ->]], Hb as [[-> ->]|[-> ->]]; done.
Qed.

Lemma sync_discovered_spec_witness :
  ∃ t next new, scanned 100 1 scan_report (physical_accounts (db scan_session)) t new ∧
    account_table_ok t next ∧
    (∀ a b, a ∈ new → b ∈ new → a ≠ b → a = b → accounts_error (λ x, x) t ≠ None) ∧
    match accounts_error (λ x, x) t with
    | Some e => sync_discovered (λ x, x) 1 1 scan_report scan_session = (Raise e, scan_session)
    | None => ∃ st es,
        AuditLog.action <$> es = (if bool_decide (new = []) then [] else ["physical_account.discovered"%string]) ∧
        st_created st = Z.of_nat (length new) ∧
        sync_discovered (λ x, x) 1 1 scan_report scan_session =
          (Ok st, scan_session <| db := db scan_session <| physical_accounts := t |>
                    <| next_physical_account_id := next |>
                    <| audit_log := audit_log (db scan_session) ++ es |> |>)
    end.
Proof.
  exact (sync_discovered_spec (λ x, x) 1 1 scan_report scan_session eq_refl scan_session_ok).
Defined.
