(* ===== verification/SshKeyService.v ===== *)
(** Users' public keys ([services/ssh_key_helpers.py],
    [services/ssh_key_service.py] under [backend/corelab_backend]).

    [body_digest] is the unpadded base64 of the SHA-256 of a base64-decoded
    key body, [None] when the body does not decode, as in
    [AuthorizedKeys]. *)

From S2P Require Import Prelude PyText Models SessionLayer AuditService.
From S2P Require Import PhysicalAccountService Samples Schema AuthorizedKeys.

Definition ALLOWED_KEY_TYPES : list pystr :=
  u <$> ["ssh-ed25519"; "ssh-rsa"; "ecdsa-sha2-nistp256"; "ecdsa-sha2-nistp384"; "ecdsa-sha2-nistp521";
         "sk-ssh-ed25519@openssh.com"; "sk-ecdsa-sha2-nistp256@openssh.com"]%string.

(** The word a text starts with, and what follows it. *)
Fixpoint next_word (s : pystr) : pystr * pystr :=
  match s with
  | [] => ([], [])
  | c :: s' => if is_space c then ([], s) else let '(w, r) := next_word s' in (c :: w, r)
  end.

(** [s.split(maxsplit=2)] of a text without blanks around it. *)
Definition split_max2 (s : pystr) : list pystr :=
  match s with
  | [] => []
  | _ =>
      let '(a, r) := next_word s in
      match lstrip r with
      | [] => [a]
      | r => let '(b, r) := next_word r in
             match lstrip r with [] => [a; b] | r => [a; b; r] end
      end
  end.

Section digest.
Context (body_digest : pystr → option pystr).

(** Type, body and comment; the three errors are one. *)
Definition parse_public_key (raw : pystr) : result keys_error (pystr * pystr * option pystr) :=
  let cleaned := strip raw in
  if bool_decide (10 ∈ cleaned ∨ 13 ∈ cleaned)%N then Raise InvalidPublicKeyError
  else
    match split_max2 cleaned with
    | key_type :: blob :: rest =>
        if negb (bool_decide (key_type ∈ ALLOWED_KEY_TYPES)) then Raise InvalidPublicKeyError
        else match body_digest blob with
             | None => Raise InvalidPublicKeyError
             | Some _ => Ok (key_type, blob, head rest)
             end
    | _ => Raise InvalidPublicKeyError
    end.

Definition fingerprint_sha256 (blob : pystr) : option pystr :=
  d ← body_digest blob ; Some (u "SHA256:" ++ d).

(** ** The service *)

Definition list_keys (owner_user_id : Z) (active_only : bool) : M (list SshPublicKey.t) :=
  gets (λ s, order_by SshPublicKey.id
               (filter (λ k, SshPublicKey.user_id k = owner_user_id ∧
                             (active_only = true → SshPublicKey.is_active k = 1)) (rows (ssh_public_keys (db s))))).

(** The row [uq_ssh_key_user_fp] finds, removed or not. *)
Definition find_fingerprint (d : Db) (user_id : Z) (fp : string) : option SshPublicKey.t :=
  head (filter (λ k, SshPublicKey.user_id k = user_id ∧ SshPublicKey.fingerprint_sha256 k = fp)
          (rows (ssh_public_keys d))).

(** [comment] holds 255 characters. *)
Definition add_key_row (comment : option pystr) (mk_row : Z → SshPublicKey.t) : M SshPublicKey.t := λ s,
  let id := next_ssh_public_key_id (db s) in
  let row := mk_row id in
  if bool_decide (255 < length (default [] comment))%nat then (Raise (DataError "comment"), s)
  else if is_some (find_fingerprint (db s) (SshPublicKey.user_id row) (SshPublicKey.fingerprint_sha256 row))
  then (Raise (IntegrityError "uq_ssh_key_user_fp"), s)
  else (Ok row, s <| db := db s <| ssh_public_keys := <[id := row]> (ssh_public_keys (db s)) |>
                                <| next_ssh_public_key_id := id + 1 |> |>).

Definition set_key (k : SshPublicKey.t) : M unit := update (λ s,
  s <| db := db s <| ssh_public_keys := <[SshPublicKey.id k := k]> (ssh_public_keys (db s)) |> |>).

Definition audit_key (action : string) (owner_user_id lab_id key_id : Z) (payload : list (string * json))
    (req : RequestInfo) : M unit :=
  write action (Some owner_user_id) (Some lab_id) (Some "ssh_public_key"%string) (Some key_id) (Some lab_id)
    None (JObj payload) req.

(** [payload.label or comment] *)
Definition label_or (label comment : option pystr) : option pystr :=
  match label with Some (_ :: _) => label | _ => comment end.

Definition new_key (owner_user_id : Z) (public_key fp key_type : pystr) (comment : option pystr) (id : Z) :
    SshPublicKey.t :=
  SshPublicKey.mk id owner_user_id (utf8 public_key) (utf8 fp) (utf8 key_type) (utf8 <$> comment) 1 None.

Definition add_key (public_key : pystr) (label : option pystr) (owner_user_id lab_id : Z) (req : RequestInfo) :
    M SshPublicKey.t :=
  match parse_public_key public_key with
  | Raise _ => raise SshKeyError
  | Ok (key_type, blob, comment) =>
      let fp := default [] (fingerprint_sha256 blob) in
      existing ← gets (λ s, find_fingerprint (db s) owner_user_id (utf8 fp)) ;
      raise_if (is_some existing) DuplicateKeyError ;;
      let comment := label_or label comment in
      row ← add_key_row comment (new_key owner_user_id (strip public_key) fp key_type comment) ;
      flush ;;
      audit_key "ssh_key.add" owner_user_id lab_id (SshPublicKey.id row)
        [("fingerprint_sha256", JStr (utf8 fp)); ("key_type", JStr (utf8 key_type))]%string req ;;
      mret row
  end.

Definition disabled (at_ : Z) (k : SshPublicKey.t) : SshPublicKey.t :=
  k <| SshPublicKey.is_active := 0 |> <| SshPublicKey.disabled_at := Some at_ |>.

(** The row and whether it was active. *)
Definition remove_key (key_id owner_user_id lab_id : Z) (req : RequestInfo) : M (SshPublicKey.t * bool) :=
  o ← get_key key_id ;
  row ← some_or_raise o KeyNotFoundError ;
  raise_if (negb (bool_decide (SshPublicKey.user_id row = owner_user_id))) KeyNotFoundError ;;
  if bool_decide (SshPublicKey.is_active row = 0) then mret (row, false)
  else
    at_ ← utcnow ;
    let row := disabled at_ row in
    set_key row ;;
    audit_key "ssh_key.delete" owner_user_id lab_id (SshPublicKey.id row)
      [("fingerprint_sha256", JStr (SshPublicKey.fingerprint_sha256 row))]%string req ;;
    mret (row, true).

(** ** A stored key as the agent reads it *)

Lemma next_word_words s w r cur :
  next_word s = (w, r) →
  words_go cur s = match cur ++ w with [] => split r | x => x :: split r end.
Proof using Type.
  revert w r cur. induction s as [|c s IH]; intros w r cur; simpl.
  { intros [= <- <-]. rewrite app_nil_r. by destruct cur. }
  destruct (is_space c) eqn:Hc.
  - intros [= <- <-]. rewrite app_nil_r. unfold split. simpl. rewrite Hc. by destruct cur.
  - destruct (next_word s) as [w' r'] eqn:Hn. intros [= <- <-]. rewrite (IH _ _ (cur ++ [c]) eq_refl).
    rewrite <- app_assoc. simpl. by destruct cur.
Qed.

Lemma split_lstrip s : split (lstrip s) = split s.
Proof using Type.
  induction s as [|c s IH]; [done|]. simpl. destruct (is_space c) eqn:Hc; [|done].
  rewrite IH. unfold split. simpl. by rewrite Hc.
Qed.

Lemma allowed_key_type t : t ∈ ALLOWED_KEY_TYPES → _is_key_type t = true ∧ t ≠ [].
Proof using Type.
  assert (Hall : Forall (λ t, _is_key_type t = true ∧ t ≠ []) ALLOWED_KEY_TYPES)
    by (apply (bool_decide_eq_true_1 _); vm_compute; reflexivity).
  rewrite Forall_forall in Hall. apply Hall.
Qed.

(** The words of a text that has a second one. *)
Lemma split_max2_words s a b rest :
  split_max2 s = a :: b :: rest → a ≠ [] → ∃ more, split s = a :: b :: more.
Proof using Type.
  unfold split_max2. destruct s as [|c s]; [done|].
  destruct (next_word (c :: s)) as [a' r] eqn:Hn.
  destruct (lstrip r) as [|d r1] eqn:Hr; [done|].
  destruct (next_word (d :: r1)) as [b' r2] eqn:Hn2. intros Heq Ha.
  assert (a' = a ∧ b' = b) as [-> ->] by (destruct (lstrip r2); by injection Heq).
  pose proof (next_word_words _ _ _ [] Hn) as H1. pose proof (next_word_words _ _ _ [] Hn2) as H2.
  simpl app in H1, H2. exists (split r2). unfold split at 1. rewrite H1.
  destruct a as [|x a]; [done|]. f_equal. rewrite <- split_lstrip, Hr. unfold split at 1. rewrite H2.
  destruct b; [|done]. simpl in Hn2. rewrite (lstrip_head _ _ _ Hr) in Hn2.
  by destruct (next_word r1).
Qed.

Lemma parsed_fingerprint raw key_type blob comment :
  parse_public_key raw = Ok (key_type, blob, comment) →
  fingerprint_sha256 blob ≠ None ∧
  _fingerprint_for_pubkey body_digest (strip raw) = fingerprint_sha256 blob.
Proof using Type.
  unfold parse_public_key. case_bool_decide; [done|].
  destruct (split_max2 (strip raw)) as [|t [|b rest]] eqn:Hs; [done..|].
  destruct (bool_decide_reflect (t ∈ ALLOWED_KEY_TYPES)) as [Ht|]; [|done]. simpl negb. cbv iota.
  destruct (body_digest b) as [d|] eqn:Hd; [|done]. intros [= <- <- _].
  unfold fingerprint_sha256, _fingerprint_for_pubkey. rewrite !split_strip, Hd. split; [done|].
  destruct (allowed_key_type _ Ht) as [Hty Hne].
  destruct (split_max2_words _ _ _ _ Hs Hne) as [more Hw]. rewrite split_strip in Hw. rewrite Hw.
  simpl. rewrite Hty. simpl. by rewrite Hd.
Qed.
End digest.
