(* ===== verification/AccountLinkService.v ===== *)
(** The links between platform users and Linux accounts
    ([backend/corelab_backend/services/account_link_service.py]).

    [ci] is the key of the collation in which MySQL compares Linux user
    names, [isoformat] writes an instant; both are library functions.  The
    answers of the agents to the key revocations are arguments. *)

From S2P Require Import Prelude Models SessionLayer AgentRpc AuditService.
From S2P Require Import PhysicalAccountService.

(** ** Constraints of the tables *)

(** [uq_link_user_pa_active] *)
Definition find_active_link (d : Db) (user_id physical_account_id : Z) : option AccountLink.t :=
  head (filter (λ l, AccountLink.user_id l = user_id ∧ AccountLink.physical_account_id l = physical_account_id ∧
                     AccountLink.is_active l = 1) (rows (account_links d))).

Definition link_row_error (d : Db) (l : AccountLink.t) : option exn :=
  if negb (is_some (users d !! AccountLink.user_id l)) then Some (IntegrityError "fk_link_user")
  else if negb (is_some (physical_accounts d !! AccountLink.physical_account_id l))
  then Some (IntegrityError "fk_link_pa")
  else if negb (is_some (users d !! AccountLink.established_by_user_id l))
  then Some (IntegrityError "fk_link_established_by")
  else if is_some (find_active_link d (AccountLink.user_id l) (AccountLink.physical_account_id l))
  then Some (IntegrityError "uq_link_user_pa_active") else None.

(** [session.add(link); flush()] of an active link. *)
Definition add_link (mk_row : Z → AccountLink.t) : M AccountLink.t := λ s,
  let id := next_account_link_id (db s) in
  let row := mk_row id in
  match link_row_error (db s) row with
  | Some e => (Raise e, s)
  | None => (Ok row, s <| db := db s <| account_links := <[id := row]> (account_links (db s)) |>
                                     <| next_account_link_id := id + 1 |> |>)
  end.

Definition set_link (l : AccountLink.t) : M unit := update (λ s,
  s <| db := db s <| account_links := <[AccountLink.id l := l]> (account_links (db s)) |> |>).

(** ** Reading *)

Definition resolve_physical_account (ci : string → string) (server_id : Z) (linux_username : string) :
    M PhysicalAccount.t :=
  o ← gets (λ s, find_active ci (db s) server_id linux_username) ;
  some_or_raise o PhysicalAccountNotFoundError.

Definition assert_ssh_key_owned (ssh_public_key_id user_id : Z) : M SshPublicKey.t :=
  o ← get_key ssh_public_key_id ;
  match o with
  | Some key =>
      if bool_decide (SshPublicKey.user_id key = user_id ∧ SshPublicKey.is_active key = 1)
      then mret key else raise SshKeyNotOwnedByUserError
  | None => raise SshKeyNotOwnedByUserError
  end.

Definition _existing_active_link (user_id physical_account_id : Z) : M (option AccountLink.t) :=
  gets (λ s, find_active_link (db s) user_id physical_account_id).

Definition get_active_link_for_actas (user_id physical_account_id : Z) : M AccountLink.t :=
  o ← _existing_active_link user_id physical_account_id ;
  link ← some_or_raise o AccountLinkError ;
  raise_if (bool_decide (AccountLink.source link = admin_declared)) AdminDeclaredCannotActAsError ;;
  mret link.

Definition list_active_for_user (user_id : Z) : M (list AccountLink.t) :=
  gets (λ s, order_by AccountLink.id (filter (λ l, AccountLink.user_id l = user_id ∧ AccountLink.is_active l = 1)
               (rows (account_links (db s))))).

Definition list_all_for_user (user_id : Z) : M (list AccountLink.t) :=
  gets (λ s, order_by_desc AccountLink.id
               (filter (λ l, AccountLink.user_id l = user_id) (rows (account_links (db s))))).

Definition load_link_in_lab (link_id lab_id : Z) : M AccountLink.t :=
  o ← get_link link_id ;
  link ← some_or_raise o AccountLinkError ;
  p ← get_physical_account (AccountLink.physical_account_id link) ;
  pa ← some_or_raise p AccountLinkError ;
  server ← get_server (PhysicalAccount.server_id pa) ;
  raise_if (negb (bool_decide (Server.lab_id <$> server = Some lab_id))) AccountLinkError ;;
  mret link.

Definition reverse_lookup_users (ci : string → string) (server_id : Z) (linux_username : string) :
    M (list AccountLink.t) :=
  o ← gets (λ s, find_active ci (db s) server_id linux_username) ;
  match o with
  | None => mret []
  | Some pa =>
      gets (λ s, order_by AccountLink.id
                   (filter (λ l, AccountLink.physical_account_id l = PhysicalAccount.id pa ∧
                                 AccountLink.is_active l = 1) (rows (account_links (db s)))))
  end.

(** ** Establishing *)

Section writes.
Context (isoformat : Z → string).

Definition source_text (source : LinkSource) : string :=
  match source with
  | ssh_challenge => "ssh_challenge"
  | password_pam => "password_pam"
  | admin_prepared_then_ssh => "admin_prepared_then_ssh"
  | admin_declared => "admin_declared"
  end.

Definition new_link (user_id physical_account_id : Z) (source : LinkSource)
    (proof : list (string * json)) (established_by_user_id id : Z) : AccountLink.t :=
  AccountLink.mk id user_id physical_account_id source (JObj proof) established_by_user_id 1 None None None.

(** The entry every write of this module leaves. *)
Definition audit_link (action : string) (actor_user_id lab_id server_id link_id : Z)
    (payload : list (string * json)) (req : RequestInfo) : M unit :=
  write action (Some actor_user_id) (Some lab_id) (Some "account_link"%string) (Some link_id) (Some lab_id)
    (Some server_id) (JObj payload) req.

Definition establish_via_pam (user_id physical_account_id lab_id server_id : Z) (req : RequestInfo) :
    M AccountLink.t :=
  existing ← _existing_active_link user_id physical_account_id ;
  raise_if (is_some existing) LinkAlreadyActiveError ;;
  at_ ← utcnow ;
  link ← add_link (new_link user_id physical_account_id password_pam
           [("method", JStr "pam"); ("verified_at", JStr (isoformat at_))]%string user_id) ;
  flush ;;
  audit_link "account_link.established" user_id lab_id server_id (AccountLink.id link)
    [("physical_account_id", JInt physical_account_id); ("source", JStr "password_pam")]%string req ;;
  mret link.

Definition ssh_proof (challenge_id : string) (signer_fingerprint : json) (at_ : Z) : list (string * json) :=
  [("method", JStr "ssh-sign"); ("challenge_id", JStr challenge_id);
   ("signer_fingerprint", signer_fingerprint); ("verified_at", JStr (isoformat at_))]%string.

Definition establish_via_ssh_challenge (user_id physical_account_id : Z) (challenge_id : string)
    (signer_fingerprint : json) (lab_id server_id : Z) (req : RequestInfo) : M AccountLink.t :=
  existing ← _existing_active_link user_id physical_account_id ;
  raise_if (is_some existing) LinkAlreadyActiveError ;;
  at_ ← utcnow ;
  link ← add_link (new_link user_id physical_account_id ssh_challenge
           (ssh_proof challenge_id signer_fingerprint at_) user_id) ;
  flush ;;
  audit_link "account_link.established" user_id lab_id server_id (AccountLink.id link)
    [("physical_account_id", JInt physical_account_id); ("source", JStr "ssh_challenge");
     ("challenge_id", JStr challenge_id)]%string req ;;
  mret link.

Definition admin_declare_link (physical_account_id owner_user_id : Z) (reason : string)
    (declared_by_user_id lab_id server_id : Z) (req : RequestInfo) : M AccountLink.t :=
  existing ← _existing_active_link owner_user_id physical_account_id ;
  raise_if (is_some existing) LinkAlreadyActiveError ;;
  at_ ← utcnow ;
  link ← add_link (new_link owner_user_id physical_account_id admin_declared
           [("method", JStr "admin-declared"); ("declared_by", JInt declared_by_user_id);
            ("declared_at", JStr (isoformat at_)); ("reason", JStr reason)]%string declared_by_user_id) ;
  flush ;;
  audit_link "account_link.admin_declared" declared_by_user_id lab_id server_id (AccountLink.id link)
    [("owner_user_id", JInt owner_user_id); ("physical_account_id", JInt physical_account_id);
     ("reason", JStr reason)]%string req ;;
  mret link.

(** ** Revoking *)

Definition revoked (at_ actor_user_id : Z) (reason : string) (link : AccountLink.t) : AccountLink.t :=
  link <| AccountLink.is_active := 0 |> <| AccountLink.revoked_at := Some at_ |>
       <| AccountLink.revoked_by_user_id := Some actor_user_id |>
       <| AccountLink.revoke_reason := Some reason |>.

Definition removed (at_ actor_user_id : Z) (e : AuthorizedKeyEntry.t) : AuthorizedKeyEntry.t :=
  e <| AuthorizedKeyEntry.is_active := 0 |> <| AuthorizedKeyEntry.removed_at := Some at_ |>
    <| AuthorizedKeyEntry.removed_by_user_id := Some actor_user_id |>.

(** The keys CoreLab pushed for a user on an account. *)
Definition pushed_entries (d : Db) (physical_account_id user_id : Z) : list AuthorizedKeyEntry.t :=
  filter (λ e, AuthorizedKeyEntry.physical_account_id e = physical_account_id ∧
               AuthorizedKeyEntry.pushed_for_user_id e = user_id ∧
               AuthorizedKeyEntry.is_active e = 1) (rows (authorized_key_entries d)).

(** One key: the agent is asked; offline or silent, the entry ends all the
    same. *)
Definition revoke_entry (reply : Z → rpc_result) (message : Z → string) (pa : PhysicalAccount.t)
    (actor_user_id : Z) (outcomes : list json) (entry : AuthorizedKeyEntry.t) : M (list json) :=
  k ← get_key (AuthorizedKeyEntry.ssh_public_key_id entry) ;
  match k with
  | None => mret outcomes
  | Some key =>
      let eid := AuthorizedKeyEntry.id entry in
      let outcome := [("entry_id", JInt eid); ("key_id", JInt (SshPublicKey.id key))]%string in
      outcome ← try_except
        (agent_request (PhysicalAccount.server_id pa) "backend.authorized_key.revoke"
           [("linux_username", JStr (PhysicalAccount.linux_username pa));
            ("fingerprint", JStr (SshPublicKey.fingerprint_sha256 key))]%string (reply eid) ;;
         mret (outcome ++ [("ok", JBool true)]%string))
        (λ e, match e with
              | AgentOfflineError | AgentRpcTimeoutError =>
                  mret (outcome ++ [("ok", JBool false); ("error", JStr (message eid))]%string)
              | _ => raise e
              end) ;
      at_ ← utcnow ;
      set_entry (removed at_ actor_user_id entry) ;;
      mret (outcomes ++ [JObj outcome])
  end.

Definition revoke_keys (reply : Z → rpc_result) (message : Z → string) (link : AccountLink.t)
    (actor_user_id : Z) : M (list json) :=
  p ← get_physical_account (AccountLink.physical_account_id link) ;
  match p with
  | None => mret []
  | Some pa =>
      entries ← gets (λ s, pushed_entries (db s) (PhysicalAccount.id pa) (AccountLink.user_id link)) ;
      outcomes ← fold_prog (revoke_entry reply message pa actor_user_id) [] entries ;
      when (negb (bool_decide (entries = []))) flush ;;
      mret outcomes
  end.

Definition revoke_link (reply : Z → rpc_result) (message : Z → string) (link : AccountLink.t)
    (actor_user_id : Z) (reason : string) (lab_id server_id : Z) (revoke_key : bool) (req : RequestInfo) :
    M AccountLink.t :=
  raise_if (negb (bool_decide (AccountLink.is_active link = 1))) AccountLinkError ;;
  at_ ← utcnow ;
  let link := revoked at_ actor_user_id reason link in
  set_link link ;;
  flush ;;
  outcomes ← (if revoke_key then revoke_keys reply message link actor_user_id else mret []) ;
  audit_link "account_link.revoked" actor_user_id lab_id server_id (AccountLink.id link)
    [("reason", JStr reason); ("user_id", JInt (AccountLink.user_id link));
     ("physical_account_id", JInt (AccountLink.physical_account_id link));
     ("revoke_key", JBool revoke_key); ("key_revoke_outcome", JList outcomes)]%string req ;;
  mret link.

(** ** Upgrading *)

Definition upgrade_admin_declared_to_ssh (user_id physical_account_id : Z) (challenge_id : string)
    (signer_fingerprint : json) (lab_id server_id : Z) (req : RequestInfo) : M AccountLink.t :=
  o ← _existing_active_link user_id physical_account_id ;
  old ← some_or_raise o AccountLinkError ;
  raise_if (negb (bool_decide (AccountLink.source old = admin_declared))) AccountLinkError ;;
  at_ ← utcnow ;
  set_link (revoked at_ user_id "upgraded_to_verified" old) ;;
  flush ;;
  at_ ← utcnow ;
  link ← add_link (new_link user_id physical_account_id ssh_challenge
           (ssh_proof challenge_id signer_fingerprint at_ ++
            [("upgraded_from_link_id", JInt (AccountLink.id old))]%string) user_id) ;
  flush ;;
  audit_link "account_link.upgraded" user_id lab_id server_id (AccountLink.id link)
    [("old_link_id", JInt (AccountLink.id old)); ("new_link_id", JInt (AccountLink.id link));
     ("physical_account_id", JInt physical_account_id); ("challenge_id", JStr challenge_id)]%string req ;;
  mret link.
End writes.
