(* ===== verification/AccountLinkProperties.v ===== *)
(** What the links guarantee along every history of their writes, and the
    gate in front of acting as a Linux user
    ([services/account_link_service.py]). *)

From S2P Require Import Prelude Models SessionLayer Samples AgentRpc.
From S2P Require Import AuditService PhysicalAccountService AccountLinkService.

(** ** Well-formed links *)

(** Keys are ids, a user has one active link to an account, and only an
    administrator's declaration is established by somebody else. *)
Record links_ok (d : Db) : Prop := {
  lk_id k l : account_links d !! k = Some l → AccountLink.id l = k ∧ k < next_account_link_id d ;
  lk_one k k' l l' : account_links d !! k = Some l → account_links d !! k' = Some l' →
    AccountLink.is_active l = 1 → AccountLink.is_active l' = 1 →
    AccountLink.user_id l = AccountLink.user_id l' →
    AccountLink.physical_account_id l = AccountLink.physical_account_id l' → k = k' ;
  lk_own k l : account_links d !! k = Some l → AccountLink.source l ≠ admin_declared →
    AccountLink.established_by_user_id l = AccountLink.user_id l }.

(** What may become of a link: a revocation, once. *)
Definition link_life (l l' : AccountLink.t) : Prop :=
  l' = l ∨
  AccountLink.is_active l = 1 ∧ ∃ at_ actor reason, l' = revoked at_ actor reason l.

Lemma link_life_spec l l' :
  link_life l l' →
  AccountLink.id l' = AccountLink.id l ∧ AccountLink.user_id l' = AccountLink.user_id l ∧
  AccountLink.physical_account_id l' = AccountLink.physical_account_id l ∧
  AccountLink.source l' = AccountLink.source l ∧ AccountLink.proof_evidence l' = AccountLink.proof_evidence l ∧
  AccountLink.established_by_user_id l' = AccountLink.established_by_user_id l ∧
  (AccountLink.is_active l ≠ 1 → l' = l).
Proof. intros [->|(Ha & at_ & actor & reason & ->)]; [done|]. by split_and!. Qed.

(** No link disappears. *)
Definition links_evolve (d d' : Db) : Prop :=
  ∀ k l, account_links d !! k = Some l → ∃ l', account_links d' !! k = Some l' ∧ link_life l l'.

Lemma find_active_link_Some d user pa l :
  links_ok d →
  find_active_link d user pa = Some l ↔
  account_links d !! AccountLink.id l = Some l ∧ AccountLink.user_id l = user ∧
  AccountLink.physical_account_id l = pa ∧ AccountLink.is_active l = 1.
Proof.
  intros Hok. split.
  - intros [[k Hk]%elem_of_rows (Hu & Hp & Ha)]%head_filter_elem. by destruct (lk_id _ Hok _ _ Hk) as [-> _].
  - intros (Hk & Hu & Hp & Ha). apply head_filter_unique; [apply elem_of_rows; eauto|done|].
    intros l' [k' Hk']%elem_of_rows (Hu' & Hp' & Ha').
    assert (AccountLink.id l = k') as E by (eapply (lk_one _ Hok); eauto; congruence). congruence.
Qed.

Lemma find_active_link_None d user pa :
  find_active_link d user pa = None ↔
  ∀ k l, account_links d !! k = Some l → AccountLink.user_id l = user →
    AccountLink.physical_account_id l = pa → AccountLink.is_active l ≠ 1.
Proof.
  unfold find_active_link. rewrite head_filter_None. split.
  - intros H k l Hk Hu Hp Ha. apply (H l); [apply elem_of_rows; eauto|done].
  - intros H l [k Hk]%elem_of_rows (Hu & Hp & Ha). by apply (H k l).
Qed.

(** ** One new link, one changed link *)

Definition with_link (l : AccountLink.t) (d : Db) : Db :=
  d <| account_links := <[next_account_link_id d := l]> (account_links d) |>
    <| next_account_link_id := next_account_link_id d + 1 |>.

Definition changed_link (l : AccountLink.t) (d : Db) : Db :=
  d <| account_links := <[AccountLink.id l := l]> (account_links d) |>.

Lemma links_ok_frame d d' :
  account_links d' = account_links d → next_account_link_id d' = next_account_link_id d →
  links_ok d → links_ok d'.
Proof. intros H1 H2 [Ha Hb Hc]. split; rewrite ?H1, ?H2; assumption. Qed.

Lemma with_link_ok l d :
  links_ok d → AccountLink.id l = next_account_link_id d →
  (AccountLink.source l ≠ admin_declared → AccountLink.established_by_user_id l = AccountLink.user_id l) →
  find_active_link d (AccountLink.user_id l) (AccountLink.physical_account_id l) = None →
  links_ok (with_link l d) ∧ links_evolve d (with_link l d).
Proof.
  intros Hok Hid Hown Hnone. pose proof (proj1 (find_active_link_None _ _ _) Hnone) as Hnew.
  assert (Hfresh : ∀ k l', account_links d !! k = Some l' → k ≠ next_account_link_id d).
  { intros k l' Hk. destruct (lk_id _ Hok _ _ Hk). lia. }
  split; [split|].
  - intros k l'. cbn. rewrite lookup_insert. case_decide as Hk.
    + intros [= <-]. split; [congruence|lia].
    + intros Hl. destruct (lk_id _ Hok _ _ Hl). split; [done|lia].
  - intros k k' l1 l2. cbn. rewrite !lookup_insert. repeat case_decide; subst; try done.
    + intros [= <-] H2 _ Ha Hu Hp. exfalso. by eapply Hnew.
    + intros H1 [= <-] Ha _ Hu Hp. exfalso. by eapply Hnew.
    + apply (lk_one _ Hok).
  - intros k l'. cbn. rewrite lookup_insert. case_decide; [intros [= <-]; exact Hown|apply (lk_own _ Hok)].
  - intros k l' Hk. exists l'. split; [|by left]. cbn. rewrite lookup_insert_ne; [done|].
    intros Heq. symmetry in Heq. by eapply Hfresh.
Qed.

Lemma changed_link_ok l at_ actor reason d :
  links_ok d → account_links d !! AccountLink.id l = Some l → AccountLink.is_active l = 1 →
  links_ok (changed_link (revoked at_ actor reason l) d) ∧
  links_evolve d (changed_link (revoked at_ actor reason l) d).
Proof.
  intros Hok Hl Ha. split; [split|].
  - intros k l'. cbn. rewrite lookup_insert. case_decide as Hk; [|apply (lk_id _ Hok)].
    intros [= <-]. subst k. destruct (lk_id _ Hok _ _ Hl). done.
  - intros k k' l1 l2. cbn. rewrite !lookup_insert.
    repeat case_decide; subst; try done; [by intros [= <-] _ ?|by intros _ [= <-] _ ?|apply (lk_one _ Hok)].
  - intros k l'. cbn. rewrite lookup_insert. case_decide; [|apply (lk_own _ Hok)].
    intros [= <-]. apply (lk_own _ Hok _ _ Hl).
  - intros k l' Hk. cbn. rewrite lookup_insert. case_decide as Heq.
    + subst k. rewrite Hl in Hk. injection Hk as <-. eexists. split; [done|]. right. eauto.
    + exists l'. split; [done|by left].
Qed.

(** ** The operations *)

Section ops.
Context (isoformat : Z → string).

Lemma add_link_Ok mk_row s l s' :
  add_link mk_row s = (Ok l, s') →
  l = mk_row (next_account_link_id (db s)) ∧ s' = s <| db := with_link l (db s) |> ∧
  find_active_link (db s) (AccountLink.user_id l) (AccountLink.physical_account_id l) = None.
Proof using Type.
  unfold add_link, link_row_error. cbv zeta.
  destruct (negb (is_some (users (db s) !! AccountLink.user_id _))); [done|].
  destruct (negb (is_some (physical_accounts (db s) !! _))); [done|].
  destruct (negb (is_some (users (db s) !! AccountLink.established_by_user_id _))); [done|].
  destruct (find_active_link _ _ _) eqn:Hf; [done|]. by intros [= <- <-].
Qed.

Lemma audit_link_Ok action actor lab server lid payload req s r s' :
  clean s → audit_link action actor lab server lid payload req s = (r, s') →
  ∃ e, s' = s <| db := db s <| audit_log := audit_log (db s) ++ [e] |> |> ∧ r = Ok tt.
Proof using Type. intros Hc. unfold audit_link. rewrite write_run by done. intros [= <- <-]. eauto. Qed.

(** The effect of the three writes that only add a link. *)
Definition link_added (s : Session) (l : AccountLink.t) (s' : Session) : Prop :=
  ∃ e, s' = s <| db := with_link l (db s) <| audit_log := audit_log (db s) ++ [e] |> |> ∧
       AccountLink.id l = next_account_link_id (db s) ∧
       find_active_link (db s) (AccountLink.user_id l) (AccountLink.physical_account_id l) = None.

(** The exact effect of a write that only adds a link. *)
Lemma established_run user pa (mk_row : Z → Z → AccountLink.t) action actor lab server (payload : AccountLink.t → list (string * json)) req s :
  clean s →
  let link := mk_row (now s) (next_account_link_id (db s)) in
  ∃ entry, AuditLog.action entry = action ∧
  (existing ← _existing_active_link user pa ;
   raise_if (is_some existing) LinkAlreadyActiveError ;;
   at_ ← utcnow ;
   link ← add_link (mk_row at_) ;
   flush ;;
   audit_link action actor lab server (AccountLink.id link) (payload link) req ;;
   mret link) s =
    if is_some (find_active_link (db s) user pa) then (Raise LinkAlreadyActiveError, s)
    else match link_row_error (db s) link with
         | Some e => (Raise e, s)
         | None => (Ok link, s <| db := with_link link (db s) <| audit_log := audit_log (db s) ++ [entry] |> |>)
         end.
Proof using Type.
  intros Hc link. set (s1 := s <| db := with_link link (db s) |>). assert (Hc1 : clean s1) by exact Hc.
  pose proof (write_run action (Some actor) (Some lab) (Some "account_link"%string) (Some (AccountLink.id link))
    (Some lab) (Some server) (JObj (payload link)) req s1 Hc1) as Hw.
  rewrite (bind_run (_existing_active_link user pa) _ s (find_active_link (db s) user pa) s) by reflexivity.
  unfold audit_link. eexists. split; [|destruct (find_active_link (db s) user pa); [reflexivity|]].
  2:{ rewrite (bind_run (raise_if _ _) _ s tt s), (bind_run utcnow _ s (now s) s) by reflexivity. cbn [is_some].
      assert (Hadd : add_link (mk_row (now s)) s =
        match link_row_error (db s) link with Some e => (Raise e, s) | None => (Ok link, s1) end) by reflexivity.
      destruct (link_row_error (db s) link) as [e|]; [by rewrite (bind_run_raise _ _ _ _ _ Hadd)|].
      rewrite (bind_run _ _ _ _ _ Hadd), (bind_run flush _ s1 tt s1), (bind_run _ _ _ _ _ Hw) by by apply flush_clean.
      reflexivity. }
  reflexivity.
Qed.

Lemma establish_Ok user pa (mk_row : Z → Z → AccountLink.t) action actor lab server (payload : AccountLink.t → list (string * json)) req s l s' :
  (∀ at_ id, AccountLink.id (mk_row at_ id) = id) → clean s →
  (existing ← _existing_active_link user pa ;
   raise_if (is_some existing) LinkAlreadyActiveError ;;
   at_ ← utcnow ;
   link ← add_link (mk_row at_) ;
   flush ;;
   audit_link action actor lab server (AccountLink.id link) (payload link) req ;;
   mret link) s = (Ok l, s') →
  l = mk_row (now s) (next_account_link_id (db s)) ∧ link_added s l s'.
Proof using Type.
  intros Hid Hc H. apply bind_Ok in H as (ex & s1 & Hex & H).
  unfold _existing_active_link, gets in Hex. injection Hex as <- <-.
  apply bind_Ok in H as (u & s1 & Hr & H).
  destruct (find_active_link (db s) user pa); [done|]. apply ret_run in Hr as [_ ->].
  apply bind_Ok in H as (at_ & s2 & Hu & H). injection Hu as <- <-.
  apply bind_Ok in H as (l1 & s2 & Hadd & H). apply add_link_Ok in Hadd as (Hl & -> & Hnone).
  apply bind_Ok in H as (u2 & s3 & Hfl & H). rewrite flush_clean in Hfl by done. injection Hfl as _ <-.
  apply bind_Ok in H as (u3 & s4 & Ha & H). apply audit_link_Ok in Ha as (e & -> & _); [|done].
  apply ret_run in H as [[= ->] ->]. split; [done|]. exists e. split; [reflexivity|].
  split; [by rewrite Hl|]. done.
Qed.

(** *** Revoking *)

(** The entries after the agents were asked about some of them. *)
Definition end_entries (at_ actor : Z) (keys : gmap Z SshPublicKey.t) (es : list AuthorizedKeyEntry.t)
    (m : gmap Z AuthorizedKeyEntry.t) : gmap Z AuthorizedKeyEntry.t :=
  foldl (λ m e, if is_some (keys !! AuthorizedKeyEntry.ssh_public_key_id e)
                then <[AuthorizedKeyEntry.id e := removed at_ actor e]> m else m) m es.

Lemma revoke_entry_Ok reply message pa actor outcomes e s o s' :
  clean s → revoke_entry reply message pa actor outcomes e s = (Ok o, s') →
  clean s' ∧ now s' = now s ∧
  db s' = db s <| authorized_key_entries :=
            end_entries (now s) actor (ssh_public_keys (db s)) [e] (authorized_key_entries (db s)) |>.
Proof using Type.
  intros Hc. unfold revoke_entry, end_entries. simpl foldl.
  rewrite (bind_run (get_key _) _ s (ssh_public_keys (db s) !! AuthorizedKeyEntry.ssh_public_key_id e) s) by reflexivity.
  destruct (ssh_public_keys (db s) !! _) as [key|]; simpl is_some.
  2:{ intros [_ ->]%ret_run. split; [done|]. split; [done|]. by destruct s as [? []]. }
  cbv zeta. intros H. apply bind_Ok in H as (outcome & s1 & Htry & H).
  assert (Hs1 : clean s1 ∧ now s1 = now s ∧ db s1 = db s).
  { unfold try_except, mbind, prog_bind, agent_request in Htry.
    destruct (reply (AuthorizedKeyEntry.id e)) as [r|ex]; simpl in Htry; [by injection Htry as _ <-|].
    destruct ex; try done; simpl in Htry; by injection Htry as _ <-. }
  destruct Hs1 as (Hc1 & Hn1 & Hd1).
  apply bind_Ok in H as (at_ & s2 & Hu & H). injection Hu as <- <-.
  apply bind_Ok in H as (u & s2 & Hset & H). injection Hset as <- <-.
  apply ret_run in H as [_ ->]. split; [done|]. split; [done|]. simpl. by rewrite Hd1, Hn1.
Qed.

Lemma revoke_entries_Ok reply message pa actor es outcomes s o s' :
  clean s → fold_prog (revoke_entry reply message pa actor) outcomes es s = (Ok o, s') →
  clean s' ∧ now s' = now s ∧
  db s' = db s <| authorized_key_entries :=
            end_entries (now s) actor (ssh_public_keys (db s)) es (authorized_key_entries (db s)) |>.
Proof using Type.
  revert outcomes s. induction es as [|e es IH]; intros outcomes s Hc H.
  { apply ret_run in H as [_ ->]. split; [done|]. split; [done|]. by destruct s as [? []]. }
  simpl in H. apply bind_Ok in H as (o1 & s1 & He & H). apply revoke_entry_Ok in He as (Hc1 & Hn1 & Hd1); [|done].
  apply IH in H as (Hc2 & Hn2 & Hd2); [|done]. split; [done|]. split; [by rewrite Hn2|].
  rewrite Hd2, Hd1, Hn1. unfold end_entries. reflexivity.
Qed.

(** What a revocation leaves of the keys CoreLab pushed. *)
Definition revoked_keys (revoke_key : bool) (at_ actor : Z) (link : AccountLink.t) (d : Db) :
    gmap Z AuthorizedKeyEntry.t :=
  match physical_accounts d !! AccountLink.physical_account_id link with
  | Some pa =>
      if revoke_key
      then end_entries at_ actor (ssh_public_keys d)
             (pushed_entries d (PhysicalAccount.id pa) (AccountLink.user_id link)) (authorized_key_entries d)
      else authorized_key_entries d
  | None => authorized_key_entries d
  end.

Lemma revoke_link_Ok reply message link actor reason lab server revoke_key req s l s' :
  clean s → revoke_link reply message link actor reason lab server revoke_key req s = (Ok l, s') →
  AccountLink.is_active link = 1 ∧ l = revoked (now s) actor reason link ∧
  ∃ e, db s' = changed_link l (db s)
                 <| authorized_key_entries := revoked_keys revoke_key (now s) actor link (db s) |>
                 <| audit_log := audit_log (db s) ++ [e] |>.
Proof using Type.
  intros Hc H. unfold revoke_link in H. apply bind_Ok in H as (u & s1 & Hr & H).
  destruct (bool_decide_reflect (AccountLink.is_active link = 1)) as [Ha|Ha]; [|done].
  apply ret_run in Hr as [_ ->]. apply bind_Ok in H as (at_ & s1 & Hu & H). injection Hu as <- <-. cbv zeta in H.
  apply bind_Ok in H as (u2 & s1 & Hset & H). injection Hset as <- <-.
  rewrite (bind_run flush _ _ tt _) in H by by apply flush_clean.
  set (s1 := s <| db := changed_link (revoked (now s) actor reason link) (db s) |>) in *.
  change (s <| db := _ |>) with s1 in H.
  apply bind_Ok in H as (outcomes & s2 & Hk & H).
  assert (Hs2 : clean s2 ∧ db s2 = db s1 <| authorized_key_entries := revoked_keys revoke_key (now s) actor link (db s) |>).
  { unfold revoked_keys. destruct revoke_key.
    2:{ apply ret_run in Hk as [_ ->]. split; [done|]. cbn. destruct (physical_accounts (db s) !! _); by destruct (db s). }
    unfold revoke_keys in Hk.
    rewrite (bind_run (get_physical_account _) _ s1 (physical_accounts (db s) !! AccountLink.physical_account_id link) s1) in Hk by reflexivity.
    destruct (physical_accounts (db s) !! _) as [pa|].
    2:{ apply ret_run in Hk as [_ ->]. split; [done|]. by destruct (db s). }
    rewrite (bind_run (gets _) _ s1 (pushed_entries (db s) (PhysicalAccount.id pa) (AccountLink.user_id link)) s1) in Hk by reflexivity.
    apply bind_Ok in Hk as (o & s3 & Hf & Hk). apply revoke_entries_Ok in Hf as (Hc3 & _ & Hd3); [|done].
    apply bind_Ok in Hk as (u3 & s4 & Hfl & Hk). apply ret_run in Hk as [_ ->].
    assert (s4 = s3) as ->.
    { unfold when in Hfl. destruct (negb _); [|by apply ret_run in Hfl as [_ ->]].
      rewrite flush_clean in Hfl by done. by injection Hfl as _ ->. }
    split; [done|]. by rewrite Hd3. }
  destruct Hs2 as [Hc2 Hd2].
  apply bind_Ok in H as (u4 & s5 & Haud & H). apply audit_link_Ok in Haud as (e & -> & _); [|done].
  apply ret_run in H as [[= ->] ->]. split; [done|]. split; [done|]. exists e. cbn [db]. rewrite Hd2. reflexivity.
Qed.
(** *** Upgrading *)

Lemma upgrade_Ok user pa challenge signer lab server req s l s' :
  clean s → upgrade_admin_declared_to_ssh isoformat user pa challenge signer lab server req s = (Ok l, s') →
  ∃ old e, find_active_link (db s) user pa = Some old ∧ AccountLink.source old = admin_declared ∧
    let d1 := changed_link (revoked (now s) user "upgraded_to_verified" old) (db s) in
    l = new_link user pa ssh_challenge
          (ssh_proof isoformat challenge signer (now s) ++ [("upgraded_from_link_id", JInt (AccountLink.id old))]%string)
          user (next_account_link_id (db s)) ∧
    find_active_link d1 user pa = None ∧
    db s' = with_link l d1 <| audit_log := audit_log (db s) ++ [e] |>.
Proof using Type.
  intros Hc H. unfold upgrade_admin_declared_to_ssh in H.
  rewrite (bind_run (_existing_active_link user pa) _ s (find_active_link (db s) user pa) s) in H by reflexivity.
  destruct (find_active_link (db s) user pa) as [old|]; [|done].
  rewrite (bind_run (some_or_raise _ _) _ s old s) in H by reflexivity.
  apply bind_Ok in H as (u & s1 & Hr & H).
  destruct (bool_decide_reflect (AccountLink.source old = admin_declared)) as [Hsrc|]; [|done].
  apply ret_run in Hr as [_ ->].
  rewrite (bind_run utcnow _ s (now s) s) in H by reflexivity.
  apply bind_Ok in H as (u1 & s1 & Hset & H). injection Hset as <- <-.
  rewrite (bind_run flush _ _ tt _) in H by by apply flush_clean.
  set (s1 := s <| db := changed_link (revoked (now s) user "upgraded_to_verified" old) (db s) |>) in *.
  change (s <| db := _ |>) with s1 in H.
  rewrite (bind_run utcnow _ s1 (now s) s1) in H by reflexivity.
  apply bind_Ok in H as (l1 & s2 & Hadd & H). apply add_link_Ok in Hadd as (Hl & -> & Hnone).
  rewrite (bind_run flush _ _ tt _) in H by by apply flush_clean.
  apply bind_Ok in H as (u2 & s2 & Haud & H). apply audit_link_Ok in Haud as (e & -> & _); [|done].
  apply ret_run in H as [[= ->] ->]. exists old, e. split; [done|]. split; [done|]. cbv zeta.
  split; [exact Hl|]. split; [by rewrite Hl in Hnone|]. reflexivity.
Qed.

(** ** Histories *)

(** The writes of the module, with what their callers pass. *)
Inductive link_op : Type :=
| op_pam (user_id physical_account_id lab_id server_id : Z) (req : RequestInfo)
| op_ssh (user_id physical_account_id : Z) (challenge_id : string) (signer : json) (lab_id server_id : Z)
    (req : RequestInfo)
| op_declare (physical_account_id owner : Z) (reason : string) (declared_by lab_id server_id : Z)
    (req : RequestInfo)
| op_upgrade (user_id physical_account_id : Z) (challenge_id : string) (signer : json) (lab_id server_id : Z)
    (req : RequestInfo)
| op_revoke (reply : Z → rpc_result) (message : Z → string) (link_id actor : Z) (reason : string)
    (lab_id server_id : Z) (revoke_key : bool) (req : RequestInfo).

Definition run_op (op : link_op) : M AccountLink.t :=
  match op with
  | op_pam user pa lab server req => establish_via_pam isoformat user pa lab server req
  | op_ssh user pa challenge signer lab server req =>
      establish_via_ssh_challenge isoformat user pa challenge signer lab server req
  | op_declare pa owner reason by_ lab server req =>
      admin_declare_link isoformat pa owner reason by_ lab server req
  | op_upgrade user pa challenge signer lab server req =>
      upgrade_admin_declared_to_ssh isoformat user pa challenge signer lab server req
  | op_revoke reply message link_id actor reason lab server revoke_key req =>
      link ← load_link_in_lab link_id lab ;
      revoke_link reply message link actor reason lab server revoke_key req
  end.

(** A write committed, or rolled back. *)
Definition apply_op (op : link_op) (at_ : Z) (d : Db) : Db :=
  (transaction (run_op op) d at_).2.

(** Writes of this module, and changes elsewhere in the database. *)
Inductive link_history : Db → Db → Prop :=
| lh_done d : link_history d d
| lh_write d op at_ d' : link_history (apply_op op at_ d) d' → link_history d d'
| lh_other d d1 d' :
    account_links d1 = account_links d → next_account_link_id d1 = next_account_link_id d →
    link_history d1 d' → link_history d d'.

Definition good_step (d d' : Db) : Prop := links_ok d' ∧ links_evolve d d'.

Lemma links_evolve_refl d : links_evolve d d.
Proof using Type. intros k l Hk. exists l. split; [done|by left]. Qed.

Lemma links_evolve_trans d1 d2 d3 : links_evolve d1 d2 → links_evolve d2 d3 → links_evolve d1 d3.
Proof using Type.
  intros H12 H23 k l Hk. destruct (H12 _ _ Hk) as (l' & Hk' & Hl). destruct (H23 _ _ Hk') as (l'' & Hk'' & Hl').
  exists l''. split; [done|]. destruct Hl as [->|(Ha & at_ & actor & reason & ->)]; [done|].
  destruct Hl' as [->|(Ha' & _)]; [|done]. right. eauto.
Qed.

Lemma good_frame d d1 d2 :
  account_links d2 = account_links d1 → next_account_link_id d2 = next_account_link_id d1 →
  good_step d d1 → good_step d d2.
Proof using Type.
  intros H1 H2 [Hok Hev]. split; [by apply (links_ok_frame d1)|]. intros k l Hk. rewrite H1. by apply Hev.
Qed.

Lemma load_link_run link_id lab s r s' :
  load_link_in_lab link_id lab s = (r, s') →
  s' = s ∧ ∀ l, r = Ok l → account_links (db s) !! link_id = Some l.
Proof using Type.
  unfold load_link_in_lab.
  rewrite (bind_run (get_link _) _ s (account_links (db s) !! link_id) s) by reflexivity.
  destruct (account_links (db s) !! link_id) as [l|]; [|by intros [= <- <-]].
  rewrite (bind_run (some_or_raise _ _) _ s l s) by reflexivity.
  rewrite (bind_run (get_physical_account _) _ s (physical_accounts (db s) !! AccountLink.physical_account_id l) s) by reflexivity.
  destruct (physical_accounts (db s) !! _) as [pa|]; [|by intros [= <- <-]].
  rewrite (bind_run (some_or_raise _ _) _ s pa s) by reflexivity.
  rewrite (bind_run (get_server _) _ s (servers (db s) !! PhysicalAccount.server_id pa) s) by reflexivity.
  destruct (negb _); simpl; [by intros [= <- <-]|]. intros [-> ->]%ret_run. split; [done|]. by intros ? [= ->].
Qed.

Lemma run_op_good op s l s' : clean s → links_ok (db s) → run_op op s = (Ok l, s') → good_step (db s) (db s').
Proof using Type.
  intros Hc Hok. assert (Hadd : link_added s l s' →
    (AccountLink.source l ≠ admin_declared → AccountLink.established_by_user_id l = AccountLink.user_id l) →
    good_step (db s) (db s')).
  { intros (e & -> & Hid & Hnone) Hown. apply (good_frame _ (with_link l (db s))); [done..|]. by apply with_link_ok. }
  destruct op; simpl.
  - intros [Hl Ha]%(establish_Ok _ _ (λ at_, new_link user_id physical_account_id password_pam
      [("method", JStr "pam"); ("verified_at", JStr (isoformat at_))]%string user_id) _ _ _ _ (λ _, _)); [|done..].
    apply Hadd; [done|]. by rewrite Hl.
  - intros [Hl Ha]%(establish_Ok _ _ (λ at_, new_link user_id physical_account_id ssh_challenge
      (ssh_proof isoformat challenge_id signer at_) user_id) _ _ _ _ (λ _, _)); [|done..].
    apply Hadd; [done|]. by rewrite Hl.
  - intros [Hl Ha]%(establish_Ok _ _ (λ at_, new_link owner physical_account_id admin_declared
      [("method", JStr "admin-declared"); ("declared_by", JInt declared_by);
       ("declared_at", JStr (isoformat at_)); ("reason", JStr reason)]%string declared_by) _ _ _ _ (λ _, _)); [|done..].
    apply Hadd; [done|]. by rewrite Hl.
  - intros (old & e & Hold & Hsrc & Hl & Hnone & Hd)%upgrade_Ok; [|done].
    pose proof (proj1 (find_active_link_Some _ _ _ _ Hok) Hold) as (Hk & Hu & Hp & Ha).
    destruct (changed_link_ok old (now s) user_id "upgraded_to_verified" (db s) Hok Hk Ha) as [Hok1 Hev1].
    destruct (with_link_ok l _ Hok1) as [Hok2 Hev2]; [rewrite Hl; reflexivity|by rewrite Hl|rewrite Hl; exact Hnone|].
    rewrite Hd.
    apply (good_frame _ (with_link l (changed_link (revoked (now s) user_id "upgraded_to_verified" old) (db s)))); [done..|].
    split; [exact Hok2|]. by eapply links_evolve_trans.
  - intros H. apply bind_Ok in H as (link & s1 & Hload & H). apply load_link_run in Hload as [-> Hload].
    specialize (Hload _ eq_refl). apply revoke_link_Ok in H as (Ha & Hl & e & Hd); [|done].
    destruct (lk_id _ Hok _ _ Hload) as [Hid _]. rewrite <- Hid in Hload. rewrite Hd, Hl.
    apply (good_frame _ (changed_link (revoked (now s) actor reason link) (db s))); [done..|].
    by apply changed_link_ok.
Qed.

#[local] Instance tidy_write a b c d e f g p req : Tidy (write a b c d e f g p req).
Proof using Type. intros s r s' Hc. rewrite write_run by done. by intros [= <- <-]. Qed.

#[local] Instance tidy_audit_link a b c d e p req : Tidy (audit_link a b c d e p req).
Proof using Type. unfold audit_link. apply _. Qed.

#[local] Instance tidy_set_link l : Tidy (set_link l).
Proof using Type. solve_tidy_state. Qed.

#[local] Instance tidy_set_entry e : Tidy (set_entry e).
Proof using Type. solve_tidy_state. Qed.

#[local] Instance tidy_add_link mk_row : Tidy (add_link mk_row).
Proof using Type. unfold add_link. solve_tidy_state. Qed.

#[local] Instance tidy_revoke_entry reply message pa actor acc e : Tidy (revoke_entry reply message pa actor acc e).
Proof using Type.
  unfold revoke_entry, get_key. apply tidy_bind; [apply _|]. intros [key|]; [|apply _].
  apply tidy_bind; [|apply _]. apply tidy_try_except; [apply _|]. intros []; apply _.
Qed.

#[local] Instance tidy_revoke_link reply message link actor reason lab server revoke_key req :
  Tidy (revoke_link reply message link actor reason lab server revoke_key req).
Proof using Type.
  unfold revoke_link. assert (Hk : Tidy (revoke_keys reply message link actor)).
  { unfold revoke_keys, get_physical_account. apply tidy_bind; [apply _|]. intros [pa|]; apply _. }
  destruct revoke_key; apply _.
Qed.

Lemma tidy_run_op op : Tidy (run_op op).
Proof using Type.
  destruct op; simpl; unfold establish_via_pam, establish_via_ssh_challenge, admin_declare_link,
    upgrade_admin_declared_to_ssh, _existing_active_link, load_link_in_lab, get_link, get_physical_account,
    get_server; apply _.
Qed.

Lemma apply_op_good op at_ d : links_ok d → good_step d (apply_op op at_ d).
Proof using Type.
  intros Hok. pose proof (tidy_run_op op) as Ht. unfold apply_op. rewrite (tidy_transaction _).
  destruct (run_op op (open_session d at_ "")) as [[l|e] s'] eqn:Hrun; simpl.
  - by apply (run_op_good op (open_session d at_ "") l s').
  - split; [done|apply links_evolve_refl].
Qed.

(** C10: Along every history of the writes to links, with anything else
    happening to the database in between: a user never has two active links
    to one account; every link but an administrator's declaration was
    established by the user it is for; no link is deleted or changed but by
    one revocation, after which it stays as it is. *)
Theorem links_history d d' :
  links_ok d → link_history d d' → links_ok d' ∧ links_evolve d d'.
Proof using Type.
  intros Hok Hh. induction Hh as [d|d op at_ d' Hh IH|d d1 d' H1 H2 Hh IH].
  - split; [done|apply links_evolve_refl].
  - destruct (apply_op_good op at_ d Hok) as [Hok1 Hev1]. destruct (IH Hok1) as [Hok2 Hev2].
    split; [done|]. by eapply links_evolve_trans.
  - destruct (IH (links_ok_frame _ _ H1 H2 Hok)) as [Hok2 Hev2]. split; [done|].
    eapply links_evolve_trans; [|done]. intros k l Hk. exists l. rewrite H1. split; [done|by left].
Qed.

(** ** Acting as the Linux user *)

(** The gate in front of acting as a Linux user opens exactly when the
    user has an active link to the account that is not a mere declaration;
    the link it returns is that one and was established by the user; an
    administrator's declaration is refused as such, no link at all is an
    error, and nothing is written. *)
Theorem get_active_link_for_actas_spec user pa s :
  links_ok (db s) →
  match find_active_link (db s) user pa with
  | Some l =>
      (AccountLink.source l ≠ admin_declared ∧ AccountLink.established_by_user_id l = user ∧
       AccountLink.user_id l = user ∧ AccountLink.physical_account_id l = pa ∧ AccountLink.is_active l = 1 ∧
       get_active_link_for_actas user pa s = (Ok l, s)) ∨
      (AccountLink.source l = admin_declared ∧
       get_active_link_for_actas user pa s = (Raise AdminDeclaredCannotActAsError, s))
  | None => get_active_link_for_actas user pa s = (Raise AccountLinkError, s)
  end.
Proof using Type.
  intros Hok. unfold get_active_link_for_actas.
  rewrite (bind_run (_existing_active_link user pa) _ s (find_active_link (db s) user pa) s) by reflexivity.
  destruct (find_active_link (db s) user pa) as [l|] eqn:Hf; [|reflexivity].
  rewrite (bind_run (some_or_raise _ _) _ s l s) by reflexivity.
  apply (find_active_link_Some _ _ _ _ Hok) in Hf as (Hk & Hu & Hp & Ha).
  destruct (bool_decide_reflect (AccountLink.source l = admin_declared)) as [Hsrc|Hsrc]; [by right|].
  left. split_and!; try done. by rewrite (lk_own _ Hok _ _ Hk Hsrc).
Qed.

(** ** What a revocation does to the keys *)

(** Keys are ids, and the public key of an entry exists. *)
Definition entries_ok (d : Db) : Prop :=
  ∀ k e, authorized_key_entries d !! k = Some e →
    AuthorizedKeyEntry.id e = k ∧ is_some (ssh_public_keys d !! AuthorizedKeyEntry.ssh_public_key_id e) = true.

Lemma end_entries_lookup at_ actor keys es m k :
  end_entries at_ actor keys es m !! k = m !! k ∨
  ∃ e, e ∈ es ∧ AuthorizedKeyEntry.id e = k ∧ end_entries at_ actor keys es m !! k = Some (removed at_ actor e).
Proof using Type.
  revert m. induction es as [|e es IH]; intros m; [by left|]. simpl.
  destruct (is_some (keys !! AuthorizedKeyEntry.ssh_public_key_id e)).
  - destruct (IH (<[AuthorizedKeyEntry.id e := removed at_ actor e]> m)) as [Heq|(e' & He' & Hid & Heq)].
    + rewrite Heq. destruct (decide (AuthorizedKeyEntry.id e = k)) as [<-|Hne].
      * right. exists e. split_and!; [left|done|by rewrite lookup_insert_eq].
      * left. by rewrite lookup_insert_ne.
    + right. exists e'. split_and!; [by right|done|done].
  - destruct (IH m) as [Heq|(e' & He' & Hid & Heq)]; [by left|]. right. exists e'. split_and!; [by right|done|done].
Qed.

Lemma end_entries_in at_ actor keys es m e :
  e ∈ es → (∀ e', e' ∈ es → AuthorizedKeyEntry.id e' = AuthorizedKeyEntry.id e → e' = e) →
  is_some (keys !! AuthorizedKeyEntry.ssh_public_key_id e) = true →
  end_entries at_ actor keys es m !! AuthorizedKeyEntry.id e = Some (removed at_ actor e).
Proof using Type.
  revert m. induction es as [|e0 es IH]; intros m Hin Hu Hk; [by apply elem_of_nil in Hin|].
  simpl. set (m' := if is_some _ then _ else _).
  destruct (end_entries_lookup at_ actor keys es m' (AuthorizedKeyEntry.id e)) as [Heq|(e' & He' & Hid & Heq)].
  2:{ rewrite Heq. rewrite (Hu e'); [done|by right|done]. }
  apply elem_of_cons in Hin as [<-|Hin].
  - rewrite Heq. unfold m'. rewrite Hk. apply lookup_insert_eq.
  - apply IH; [done| |done]. intros e' He'. apply Hu. by right.
Qed.

(** The entries after a revocation, by key. *)
Lemma revoked_keys_lookup at_ actor link d pa k :
  entries_ok d → physical_accounts d !! AccountLink.physical_account_id link = Some pa →
  revoked_keys true at_ actor link d !! k =
    (λ e, if bool_decide (AuthorizedKeyEntry.physical_account_id e = PhysicalAccount.id pa ∧
                          AuthorizedKeyEntry.pushed_for_user_id e = AccountLink.user_id link ∧
                          AuthorizedKeyEntry.is_active e = 1)
          then removed at_ actor e else e) <$> authorized_key_entries d !! k.
Proof using Type.
  intros Hok Hpa. unfold revoked_keys. rewrite Hpa. set (es := pushed_entries _ _ _).
  assert (Hes : ∀ e, e ∈ es ↔ authorized_key_entries d !! AuthorizedKeyEntry.id e = Some e ∧
    AuthorizedKeyEntry.physical_account_id e = PhysicalAccount.id pa ∧
    AuthorizedKeyEntry.pushed_for_user_id e = AccountLink.user_id link ∧ AuthorizedKeyEntry.is_active e = 1).
  { intros e. unfold es, pushed_entries. rewrite list_elem_of_filter, elem_of_rows. split.
    - intros [? [k' Hk']]. destruct (Hok _ _ Hk') as [-> _]. done.
    - intros [Hk ?]. eauto. }
  destruct (authorized_key_entries d !! k) as [e|] eqn:He; simpl.
  - destruct (Hok _ _ He) as [Hid Hkey]. case_bool_decide as Hsel.
    + rewrite <- Hid. apply end_entries_in; [apply Hes; by rewrite Hid| |done].
      intros e' He' Hid'. apply Hes in He' as [He' _]. congruence.
    + destruct (end_entries_lookup at_ actor (ssh_public_keys d) es (authorized_key_entries d) k)
        as [Heq|(e' & He' & Hid' & _)]; [by rewrite Heq|].
      exfalso. apply Hsel. apply Hes in He' as [He' ?]. congruence.
  - destruct (end_entries_lookup at_ actor (ssh_public_keys d) es (authorized_key_entries d) k)
      as [Heq|(e' & He' & Hid' & _)]; [by rewrite Heq|]. apply Hes in He' as [He' _]. congruence.
Qed.

(** A revocation that succeeds ends exactly the loaded link, stamped with
    who, when and why; with the keys revoked too, it marks every active entry
    for a key CoreLab pushed for that user on that account as removed, and no
    other, and writes one audit entry.  The entries are marked whatever the
    agent answered, also when it was offline and the key is still on the
    host. *)
Theorem revoke_link_spec reply message link actor reason lab server req pa s l s' :
  clean s → entries_ok (db s) →
  physical_accounts (db s) !! AccountLink.physical_account_id link = Some pa →
  revoke_link reply message link actor reason lab server true req s = (Ok l, s') →
  AccountLink.is_active link = 1 ∧ l = revoked (now s) actor reason link ∧
  account_links (db s') = <[AccountLink.id link := l]> (account_links (db s)) ∧
  (∃ e, audit_log (db s') = audit_log (db s) ++ [e]) ∧
  pushed_entries (db s') (PhysicalAccount.id pa) (AccountLink.user_id link) = [] ∧
  (∀ k e, authorized_key_entries (db s) !! k = Some e →
     authorized_key_entries (db s') !! k = Some e ∨
     (AuthorizedKeyEntry.pushed_for_user_id e = AccountLink.user_id link ∧
      AuthorizedKeyEntry.physical_account_id e = PhysicalAccount.id pa ∧
      authorized_key_entries (db s') !! k = Some (removed (now s) actor e))).
Proof using Type.
  intros Hc Hok Hpa (Ha & Hl & e & Hd)%revoke_link_Ok; [|done].
  split; [done|]. split; [done|]. rewrite Hd, Hl. split; [done|]. split; [by exists e|].
  assert (Hlk : ∀ k, authorized_key_entries (changed_link (revoked (now s) actor reason link) (db s)
    <| authorized_key_entries := revoked_keys true (now s) actor link (db s) |>
    <| audit_log := audit_log (db s) ++ [e] |>) !! k = revoked_keys true (now s) actor link (db s) !! k) by done.
  split.
  - unfold pushed_entries. apply head_None. rewrite head_filter_None. intros x [k Hk]%elem_of_rows (H1 & H2 & H3).
    rewrite Hlk, (revoked_keys_lookup _ _ _ _ pa) in Hk by done.
    destruct (authorized_key_entries (db s) !! k) as [x0|]; [|done]. simpl in Hk. injection Hk as Hx.
    destruct (bool_decide_reflect (AuthorizedKeyEntry.physical_account_id x0 = PhysicalAccount.id pa ∧
      AuthorizedKeyEntry.pushed_for_user_id x0 = AccountLink.user_id link ∧
      AuthorizedKeyEntry.is_active x0 = 1)) as [Hsel|Hsel]; subst x; [done|by apply Hsel].
  - intros k x Hx. rewrite Hlk, (revoked_keys_lookup _ _ _ _ pa) by done. rewrite Hx. simpl.
    case_bool_decide as Hsel; [right|by left]. by destruct Hsel as (? & ? & _).
Qed.
End ops.

(** ** Witnesses *)

Lemma sample_links_lookup k l :
  account_links (sample_db []) !! k = Some l → k = 7 ∧ l = sample_link 7 10 5 ∨ k = 8 ∧ l = sample_link 8 11 6.
Proof.
  change (account_links (sample_db [])) with
    (<[7 := sample_link 7 10 5]> ({[8 := sample_link 8 11 6]} : gmap Z AccountLink.t)).
  intros [[<- <-]|[_ [<- <-]%lookup_singleton_Some]]%lookup_insert_Some; auto.
Qed.

Lemma sample_links_ok : links_ok (sample_db []).
Proof.
  split.
  - intros k l [[-> ->]|[-> ->]]%sample_links_lookup; done.
  - intros k k' l l' [[-> ->]|[-> ->]]%sample_links_lookup [[-> ->]|[-> ->]]%sample_links_lookup; done.
  - intros k l [[-> ->]|[-> ->]]%sample_links_lookup; done.
Qed.

Definition sample_instant (t : Z) : string := pretty t.
Definition sample_revoke : link_op :=
  op_revoke (λ _, Raise AgentOfflineError) (λ _, "offline"%string) 7 10 "self" 1 1 true no_request.
Definition sample_claim : link_op := op_pam 10 5 1 1 no_request.

(** Alice gives her account up and claims it again with its password: one
    revoked and one active link. *)
Lemma links_history_witness :
  let d := apply_op sample_instant sample_claim 20 (apply_op sample_instant sample_revoke 10 (sample_db [])) in
  links_ok d ∧ links_evolve (sample_db []) d ∧
  (AccountLink.is_active <$> account_links d !! 7) = Some 0 ∧
  (AccountLink.is_active <$> account_links d !! 9) = Some 1.
Proof.
  destruct (links_history sample_instant (sample_db [])
    (apply_op sample_instant sample_claim 20 (apply_op sample_instant sample_revoke 10 (sample_db []))))
    as [H1 H2]; [apply sample_links_ok| |].
  - apply (lh_write _ _ sample_revoke 10), (lh_write _ _ sample_claim 20), lh_done.
  - split; [exact H1|]. split; [exact H2|]. split; vm_compute; reflexivity.
Defined.

Lemma get_active_link_for_actas_spec_witness :
  ∃ l, find_active_link (sample_db []) 10 5 = Some l ∧
       get_active_link_for_actas 10 5 (open_session (sample_db []) 0 "") =
         (Ok l, open_session (sample_db []) 0 "").
Proof.
  exists (sample_link 7 10 5). split; [vm_compute; reflexivity|].
  pose proof (get_active_link_for_actas_spec 10 5 (open_session (sample_db []) 0 "") sample_links_ok) as H.
  replace (find_active_link (db (open_session (sample_db []) 0 "")) 10 5) with (Some (sample_link 7 10 5)) in H
    by (vm_compute; reflexivity).
  destruct H as [(_ & _ & _ & _ & _ & H)|[H _]]; [exact H|discriminate H].
Defined.

(** Alice's key 3, pushed to account 5 for her. *)
Definition sample_key_entry (active : Z) : AuthorizedKeyEntry.t :=
  AuthorizedKeyEntry.mk 2 5 3 11 10 0 active None None.
Definition keyed_db : Db :=
  sample_db [] <| authorized_key_entries := {[2 := sample_key_entry 1]} |>
    <| ssh_public_keys := {[3 := SshPublicKey.mk 3 10 "ssh-ed25519 AAAA" "SHA256:f" "ssh-ed25519" None 1 None]} |>.

Lemma keyed_entries_ok : entries_ok keyed_db.
Proof. intros k e Hk. apply (lookup_only _ _ _ _ _ eq_refl) in Hk as [-> ->]. split; reflexivity. Qed.

(** The agent is offline, the key stays on the host, the entry ends. *)
Lemma revoke_link_spec_witness :
  ∃ l s', revoke_link (λ _, Raise AgentOfflineError) (λ _, "offline"%string) (sample_link 7 10 5) 10 "self" 1 1 true
            no_request (open_session keyed_db 30 "") = (Ok l, s') ∧
          AccountLink.is_active l = 0 ∧ pushed_entries (db s') 5 10 = [].
Proof.
  destruct (revoke_link (λ _, Raise AgentOfflineError) (λ _, "offline"%string) (sample_link 7 10 5) 10 "self" 1 1
    true no_request (open_session keyed_db 30 "")) as [[l|e] s'] eqn:Hr; [|vm_compute in Hr; discriminate Hr].
  assert (Hc : clean (open_session keyed_db 30 "")) by done.
  destruct (revoke_link_spec _ _ (sample_link 7 10 5) _ _ _ _ _ (sample_account 5 "alice") _ _ _ Hc
    keyed_entries_ok eq_refl Hr) as (_ & -> & _ & _ & Hp & _).
  exists (revoked 30 10 "self" (sample_link 7 10 5)), s'. split; [reflexivity|]. split; [reflexivity|exact Hp].
Defined.
