(* ===== verification/AccountLinkRequestService.v ===== *)
(** Requests for a Linux account: create, approve with a key push, retry the
    push, deny, withdraw
    ([backend/corelab_backend/services/account_link_request_service.py]).

    The agent's answer to a push and the text of an exception are arguments.
    [build_request_context], the read-only bundle of the review card, is
    modelled as far as the endpoints use it (the server it names). *)

From S2P Require Import Prelude Models SessionLayer AgentRpc AuditService.
From S2P Require Import NotificationService PhysicalAccountService AccountLinkService.

(** ** Rows *)

(** A user's active keys, newest first. *)
Definition active_keys (d : Db) (user_id : Z) : list SshPublicKey.t :=
  order_by_desc SshPublicKey.id
    (filter (λ k, SshPublicKey.user_id k = user_id ∧ SshPublicKey.is_active k = 1) (rows (ssh_public_keys d))).

Definition _latest_active_key_for_user (user_id : Z) : M SshPublicKey.t :=
  o ← gets (λ s, head (active_keys (db s) user_id)) ;
  some_or_raise o NoActiveSshKeyError.

(** The row [uq_ake_pa_key] finds. *)
Definition find_key_entry (d : Db) (physical_account_id ssh_public_key_id : Z) :
    option AuthorizedKeyEntry.t :=
  head (filter (λ e, AuthorizedKeyEntry.physical_account_id e = physical_account_id ∧
                     AuthorizedKeyEntry.ssh_public_key_id e = ssh_public_key_id)
          (rows (authorized_key_entries d))).

Definition _find_key_entry (physical_account_id ssh_public_key_id : Z) : M (option AuthorizedKeyEntry.t) :=
  gets (λ s, find_key_entry (db s) physical_account_id ssh_public_key_id).

(** [session.add(entry); flush()] *)
Definition add_entry (mk_row : Z → AuthorizedKeyEntry.t) : M AuthorizedKeyEntry.t := λ s,
  let id := next_authorized_key_entry_id (db s) in
  let row := mk_row id in
  if is_some (find_key_entry (db s) (AuthorizedKeyEntry.physical_account_id row)
                (AuthorizedKeyEntry.ssh_public_key_id row))
  then (Raise (IntegrityError "uq_ake_pa_key"), s)
  else (Ok row, s <| db := db s <| authorized_key_entries := <[id := row]> (authorized_key_entries (db s)) |>
                                <| next_authorized_key_entry_id := id + 1 |> |>).

Definition add_request (mk_row : Z → AccountLinkRequest.t) : M AccountLinkRequest.t := λ s,
  let id := next_account_link_request_id (db s) in
  let row := mk_row id in
  if negb (is_some (users (db s) !! AccountLinkRequest.requester_user_id row))
  then (Raise (IntegrityError "fk_alr_requester"), s)
  else (Ok row, s <| db := db s <| account_link_requests := <[id := row]> (account_link_requests (db s)) |>
                                <| next_account_link_request_id := id + 1 |> |>).

Definition set_request (r : AccountLinkRequest.t) : M unit := update (λ s,
  s <| db := db s <| account_link_requests :=
         <[AccountLinkRequest.id r := r]> (account_link_requests (db s)) |> |>).

Definition audit_request (action : string) (actor_user_id lab_id server_id request_id : Z)
    (payload : list (string * json)) (req : RequestInfo) : M unit :=
  write action (Some actor_user_id) (Some lab_id) (Some "account_link_request"%string) (Some request_id)
    (Some lab_id) (Some server_id) (JObj payload) req.

(** ** Creating *)

Definition pending_request (d : Db) (requester_user_id physical_account_id : Z) : option AccountLinkRequest.t :=
  head (filter (λ r, AccountLinkRequest.requester_user_id r = requester_user_id ∧
                     AccountLinkRequest.physical_account_id r = physical_account_id ∧
                     AccountLinkRequest.status r = request_pending) (rows (account_link_requests d))).

Definition create_request (requester_user_id physical_account_id : Z) (request_note : option string)
    (lab_id : Z) (req : RequestInfo) : M AccountLinkRequest.t :=
  p ← get_physical_account physical_account_id ;
  pa ← some_or_raise p PhysicalAccountNotFoundError ;
  raise_if (negb (bool_decide (PhysicalAccount.is_active pa = 1))) PhysicalAccountNotFoundError ;;
  server ← get_server (PhysicalAccount.server_id pa) ;
  raise_if (negb (bool_decide (Server.lab_id <$> server = Some lab_id))) PhysicalAccountNotFoundError ;;
  existing_link ← _existing_active_link requester_user_id physical_account_id ;
  raise_if (is_some existing_link) AlreadyLinkedError ;;
  existing_pending ← gets (λ s, pending_request (db s) requester_user_id physical_account_id) ;
  raise_if (is_some existing_pending) DuplicatePendingError ;;
  row ← add_request (λ id, AccountLinkRequest.mk id requester_user_id physical_account_id request_pending
                             request_note None None None) ;
  flush ;;
  audit_request "account_link_request.created" requester_user_id lab_id (PhysicalAccount.server_id pa)
    (AccountLinkRequest.id row)
    [("physical_account_id", JInt physical_account_id);
     ("linux_username", JStr (PhysicalAccount.linux_username pa))]%string req ;;
  mret row.

Definition _load_request_in_lab (request_id lab_id : Z) :
    M (AccountLinkRequest.t * PhysicalAccount.t * Server.t) :=
  o ← gets (λ s, account_link_requests (db s) !! request_id) ;
  row ← some_or_raise o RequestNotFoundError ;
  p ← get_physical_account (AccountLinkRequest.physical_account_id row) ;
  pa ← some_or_raise p RequestNotFoundError ;
  sv ← get_server (PhysicalAccount.server_id pa) ;
  server ← some_or_raise sv RequestNotFoundError ;
  raise_if (negb (bool_decide (Server.lab_id server = lab_id))) RequestNotFoundError ;;
  mret (row, pa, server).

(** ** Deciding *)

(** The RPC both pushes send. *)
Definition push_request (reply : rpc_result) (pa : PhysicalAccount.t) (server : Server.t)
    (active_key : SshPublicKey.t) (label : string) : M (list (string * json)) :=
  agent_request (Server.id server) "backend.authorized_key.push"
    [("linux_username", JStr (PhysicalAccount.linux_username pa));
     ("public_key", JStr (SshPublicKey.public_key active_key)); ("label", JStr label)]%string reply.

Definition request_label (row : AccountLinkRequest.t) : string :=
  "corelab:user=" +:+ pretty (AccountLinkRequest.requester_user_id row) +:+
  ";link_request=" +:+ pretty (AccountLinkRequest.id row).

Definition pushed_fields (rpc_result : list (string * json)) : list (string * json) :=
  [("ok", JBool true); ("installed_path", default (JStr "") (obj_get "installed_path" rpc_result));
   ("fingerprint", default (JStr "") (obj_get "fingerprint" rpc_result));
   ("mock_warning", default JNull (obj_get "mock_warning" rpc_result))]%string.

Definition new_entry (pa_id key_id pusher user at_ id : Z) : AuthorizedKeyEntry.t :=
  AuthorizedKeyEntry.mk id pa_id key_id pusher user at_ 1 None None.

(** The push of an approval: the outcome, whose second component is [ok]. *)
Definition approval_push (reply : rpc_result) (message : string) (row : AccountLinkRequest.t)
    (pa : PhysicalAccount.t) (server : Server.t) (active_key : SshPublicKey.t) (admin_user_id : Z) :
    M (list (string * json) * bool) :=
  let attempted := [("attempted", JBool true)]%string in
  try_except
    (rpc_result ← push_request reply pa server active_key (request_label row) ;
     at_ ← utcnow ;
     entry ← add_entry (new_entry (PhysicalAccount.id pa) (SshPublicKey.id active_key) admin_user_id
                          (AccountLinkRequest.requester_user_id row) at_) ;
     flush ;;
     mret (attempted ++ pushed_fields rpc_result ++
             [("authorized_key_entry_id", JInt (AuthorizedKeyEntry.id entry))]%string, true))
    (λ e, match e with
          | AgentOfflineError | AgentRpcTimeoutError =>
              mret (attempted ++ [("ok", JBool false); ("error", JStr message)]%string, false)
          | _ => raise e
          end).

Definition decided (status : RequestStatus) (admin_user_id at_ : Z) (decision_note : option string)
    (row : AccountLinkRequest.t) : AccountLinkRequest.t :=
  row <| AccountLinkRequest.status := status |>
      <| AccountLinkRequest.decided_by_user_id := Some admin_user_id |>
      <| AccountLinkRequest.decided_at := Some at_ |>
      <| AccountLinkRequest.decision_note := decision_note |>.

(** The account as the titles of the notifications write it. *)
Definition account_at (pa : PhysicalAccount.t) (server : Server.t) : string :=
  PhysicalAccount.linux_username pa +:+ "@" +:+ Server.hostname server.

Definition notify_requester (row : AccountLinkRequest.t) (pa : PhysicalAccount.t) (server : Server.t)
    (type_ severity title : string) (extra : list (string * json)) (dedup_window_seconds : Z) :
    M Notification.t :=
  create_notification (AccountLinkRequest.requester_user_id row) type_ severity title None
    (Some ([("account_link_request_id", JInt (AccountLinkRequest.id row));
            ("physical_account_id", JInt (PhysicalAccount.id pa)); ("server_id", JInt (Server.id server));
            ("linux_username", JStr (PhysicalAccount.linux_username pa))]%string ++ extra))
    (Some "/account-link-requests"%string) dedup_window_seconds.

Definition approve_request (reply : rpc_result) (message : string) (request_id : Z)
    (decision_note : option string) (admin_user_id lab_id : Z) (req : RequestInfo) :
    M AccountLinkRequest.t :=
  loaded ← _load_request_in_lab request_id lab_id ;
  let '(row, pa, server) := loaded in
  raise_if (negb (bool_decide (AccountLinkRequest.status row = request_pending)))
    InvalidStatusTransitionError ;;
  active_key ← _latest_active_key_for_user (AccountLinkRequest.requester_user_id row) ;
  outcome ← approval_push reply message row pa server active_key admin_user_id ;
  let '(push_outcome, push_ok) := outcome in
  at_ ← utcnow ;
  let row := decided request_approved admin_user_id at_ decision_note row in
  set_request row ;;
  flush ;;
  audit_request "account_link_request.approved" admin_user_id lab_id (Server.id server)
    (AccountLinkRequest.id row)
    [("physical_account_id", JInt (PhysicalAccount.id pa));
     ("linux_username", JStr (PhysicalAccount.linux_username pa));
     ("ssh_public_key_id", JInt (SshPublicKey.id active_key)); ("push_outcome", JObj push_outcome)]%string req ;;
  notify_requester row pa server "link.prepared" (if (push_ok : bool) then "info" else "warn")
    (if push_ok
     then "Admin prepared account " +:+ account_at pa server +:+ "; run SSH challenge to claim"
     else "Admin approved " +:+ account_at pa server +:+ " but key push failed; retry")
    [("push_ok", JBool push_ok)]%string DEFAULT_DEDUP_WINDOW_SECONDS ;;
  mret row.

(** The entry of a pushed key, new or brought back. *)
Definition retried_entry (existing : option AuthorizedKeyEntry.t) (pa : PhysicalAccount.t)
    (active_key : SshPublicKey.t) (admin_user_id user at_ : Z) : M AuthorizedKeyEntry.t :=
  match existing with
  | None => add_entry (new_entry (PhysicalAccount.id pa) (SshPublicKey.id active_key) admin_user_id user at_)
  | Some e =>
      let e := pushed_entry e admin_user_id at_ <| AuthorizedKeyEntry.pushed_for_user_id := user |> in
      set_entry e ;; mret e
  end.

(** The push of a retry; here an agent that is not wired is a failure too. *)
Definition retry_push (reply : rpc_result) (message : string) (row : AccountLinkRequest.t)
    (pa : PhysicalAccount.t) (server : Server.t) (active_key : SshPublicKey.t)
    (existing : option AuthorizedKeyEntry.t) (admin_user_id : Z) : M (list (string * json) * bool) :=
  let sent := [("attempted", JBool true); ("ssh_public_key_id", JInt (SshPublicKey.id active_key))]%string in
  try_except
    (rpc_result ← push_request reply pa server active_key (request_label row +:+ ";retry=1") ;
     at_ ← utcnow ;
     entry ← retried_entry existing pa active_key admin_user_id (AccountLinkRequest.requester_user_id row) at_ ;
     flush ;;
     mret (sent ++ pushed_fields rpc_result ++
             [("authorized_key_entry_id", JInt (AuthorizedKeyEntry.id entry))]%string, true))
    (λ e, match e with
          | AgentOfflineError | AgentRpcTimeoutError | RpcNotYetWiredError =>
              mret (sent ++ [("ok", JBool false); ("error", JStr message)]%string, false)
          | _ => raise e
          end).

Definition audit_push (action : string) (row : AccountLinkRequest.t) (pa : PhysicalAccount.t) (server : Server.t)
    (admin_user_id lab_id : Z) (outcome : list (string * json)) (req : RequestInfo) : M unit :=
  audit_request action admin_user_id lab_id (Server.id server) (AccountLinkRequest.id row)
    [("physical_account_id", JInt (PhysicalAccount.id pa));
     ("linux_username", JStr (PhysicalAccount.linux_username pa)); ("push_outcome", JObj outcome)]%string req.

(** [existing_entry is not None and existing_entry.is_active == 1] *)
Definition active_entry (existing : option AuthorizedKeyEntry.t) : option AuthorizedKeyEntry.t :=
  match existing with
  | Some e => if bool_decide (AuthorizedKeyEntry.is_active e = 1) then Some e else None
  | None => None
  end.

Definition retry_push_for_request (reply : rpc_result) (message : string) (request_id admin_user_id lab_id : Z)
    (req : RequestInfo) : M (AccountLinkRequest.t * list (string * json)) :=
  loaded ← _load_request_in_lab request_id lab_id ;
  let '(row, pa, server) := loaded in
  raise_if (negb (bool_decide (AccountLinkRequest.status row = request_approved)))
    InvalidStatusTransitionError ;;
  active_key ← _latest_active_key_for_user (AccountLinkRequest.requester_user_id row) ;
  existing_entry ← _find_key_entry (PhysicalAccount.id pa) (SshPublicKey.id active_key) ;
  match active_entry existing_entry with
  | Some e =>
      let skipped_outcome := [("ok", JBool true); ("attempted", JBool false); ("already_active", JBool true);
                              ("authorized_key_entry_id", JInt (AuthorizedKeyEntry.id e));
                              ("ssh_public_key_id", JInt (SshPublicKey.id active_key))]%string in
      audit_push "account_link_request.key_push_retry.skipped" row pa server admin_user_id lab_id
        skipped_outcome req ;;
      mret (row, skipped_outcome)
  | None =>
      res ← retry_push reply message row pa server active_key existing_entry admin_user_id ;
      let '(outcome, ok) := res in
      audit_push "account_link_request.key_push_retried" row pa server admin_user_id lab_id outcome req ;;
      when ok
        (notify_requester row pa server "link.prepared" "info"
           ("Account " +:+ account_at pa server +:+ " is prepared; run SSH challenge to claim")
           [("push_ok", JBool true); ("retry", JBool true)]%string 0 ;; skip) ;;
      mret (row, outcome)
  end.

Definition deny_request (request_id : Z) (decision_note : option string) (admin_user_id lab_id : Z)
    (req : RequestInfo) : M AccountLinkRequest.t :=
  loaded ← _load_request_in_lab request_id lab_id ;
  let '(row, pa, server) := loaded in
  raise_if (negb (bool_decide (AccountLinkRequest.status row = request_pending)))
    InvalidStatusTransitionError ;;
  at_ ← utcnow ;
  let row := decided request_denied admin_user_id at_ decision_note row in
  set_request row ;;
  flush ;;
  audit_request "account_link_request.denied" admin_user_id lab_id (Server.id server) (AccountLinkRequest.id row)
    [("physical_account_id", JInt (PhysicalAccount.id pa)); ("decision_note", jopt JStr decision_note)]%string req ;;
  notify_requester row pa server "link.denied" "warn"
    ("Admin denied your request for " +:+ account_at pa server)
    [("decision_note", jopt JStr decision_note)]%string DEFAULT_DEDUP_WINDOW_SECONDS ;;
  mret row.

Definition withdrawn (at_ : Z) (row : AccountLinkRequest.t) : AccountLinkRequest.t :=
  row <| AccountLinkRequest.status := request_withdrawn |> <| AccountLinkRequest.decided_at := Some at_ |>.

Definition withdraw_request (request_id requester_user_id lab_id : Z) (req : RequestInfo) :
    M AccountLinkRequest.t :=
  loaded ← _load_request_in_lab request_id lab_id ;
  let '(row, pa, server) := loaded in
  raise_if (negb (bool_decide (AccountLinkRequest.requester_user_id row = requester_user_id)))
    AccountLinkRequestError ;;
  raise_if (negb (bool_decide (AccountLinkRequest.status row = request_pending)))
    InvalidStatusTransitionError ;;
  at_ ← utcnow ;
  let row := withdrawn at_ row in
  set_request row ;;
  flush ;;
  audit_request "account_link_request.withdrawn" requester_user_id lab_id (Server.id server)
    (AccountLinkRequest.id row) [("physical_account_id", JInt (PhysicalAccount.id pa))]%string req ;;
  mret row.

(** ** Listing *)

Definition list_for_requester (requester_user_id : Z) : M (list AccountLinkRequest.t) :=
  gets (λ s, order_by_desc AccountLinkRequest.id
               (filter (λ r, AccountLinkRequest.requester_user_id r = requester_user_id)
                  (rows (account_link_requests (db s))))).

(** The requests of a lab in a status, newest first (the two joins). *)
Definition requests_in_lab (d : Db) (lab_id : Z) (status : RequestStatus) : list AccountLinkRequest.t :=
  order_by_desc AccountLinkRequest.id (filter (λ r, AccountLinkRequest.status r = status ∧
    (pa ← physical_accounts d !! AccountLinkRequest.physical_account_id r ;
     Server.lab_id <$> servers d !! PhysicalAccount.server_id pa) = Some lab_id)
    (rows (account_link_requests d))).

Definition list_pending_in_lab (lab_id : Z) : M (list AccountLinkRequest.t) :=
  gets (λ s, requests_in_lab (db s) lab_id request_pending).

Definition needs_push (d : Db) (row : AccountLinkRequest.t) : bool :=
  match head (active_keys d (AccountLinkRequest.requester_user_id row)) with
  | None => false
  | Some active_key =>
      match find_key_entry d (AccountLinkRequest.physical_account_id row) (SshPublicKey.id active_key) with
      | Some e => negb (bool_decide (AuthorizedKeyEntry.is_active e = 1))
      | None => true
      end
  end.

Definition list_needing_key_push_in_lab (lab_id : Z) : M (list AccountLinkRequest.t) :=
  gets (λ s, filter (λ r, needs_push (db s) r = true) (requests_in_lab (db s) lab_id request_approved)).
