(* ===== verification/AuthDependencies.v ===== *)
(** Who is calling, and what they may administer
    ([auth_dependencies.py], the tokens of [security.py] under
    [backend/corelab_backend]).

    [jwt_encode] and [jwt_decode] are PyJWT with the server's secret,
    [int_str] is Python's [int] on text.  [jwt_decode] gets the clock in
    microseconds. *)

From S2P Require Import Prelude Models SessionLayer NotificationService.
From S2P Require Import ReservationsApi Samples.

(** [jwt_access_ttl_minutes] *)
Definition JWT_ACCESS_TTL_MINUTES : Z := 480.

(** [int(instant.timestamp())] *)
Definition timestamp (t : Z) : Z := t / 1000000.

(** The [Authorization] header, split: scheme and token. *)
Abbreviation Credentials := (option (string * string)).

Section jwt.
Context (jwt_encode : list (string * json) → string) (jwt_decode : Z → string → option (list (string * json))).
Context (int_str : string → option Z) (lower : string → string).

Definition token_payload (user_id lab_id : Z) (role : string) (issued_at : Z) : list (string * json) :=
  [("sub", JStr (pretty user_id)); ("lab_id", JInt lab_id); ("role", JStr role);
   ("iat", JInt (timestamp issued_at));
   ("exp", JInt (timestamp (issued_at + minutes JWT_ACCESS_TTL_MINUTES)));
   ("typ", JStr "access")]%string.

Definition issue_access_token (user_id lab_id : Z) (role : string) (now : Z) : string * Z :=
  (jwt_encode (token_payload user_id lab_id role now), now + minutes JWT_ACCESS_TTL_MINUTES).

Definition decode_access_token (now : Z) (token : string) : option (list (string * json)) :=
  jwt_decode now token.

(** [int(payload[...])] *)
Definition json_int (j : option json) : option Z :=
  match j with
  | Some (JStr s) => int_str s
  | Some (JInt z) => Some z
  | Some (JBool b) => Some (if b then 1 else 0)
  | Some (JFloat m e) => Some (if bool_decide (0 <= e) then m * 2 ^ e else Z.quot m (2 ^ - e))
  | _ => None
  end.

Definition get_current_user (credentials : Credentials) : M AuthenticatedUser :=
  match credentials with
  | None => raise (HTTPException 401 "missing or malformed Authorization header")
  | Some (scheme, token) =>
      raise_if (negb (bool_decide (lower scheme = "bearer"%string)))
        (HTTPException 401 "missing or malformed Authorization header") ;;
      at_ ← utcnow ;
      payload ← some_or_raise (decode_access_token at_ token) (HTTPException 401 "invalid token") ;
      user_id ← some_or_raise (json_int (obj_get "sub" payload)) (HTTPException 401 "token missing sub") ;
      o ← gets (λ s, users (db s) !! user_id) ;
      user ← some_or_raise o (HTTPException 401 "user not found or disabled") ;
      raise_if (bool_decide (User.is_active user = 0)) (HTTPException 401 "user not found or disabled") ;;
      mret user
  end.

Definition require_role (allowed : list string) (credentials : Credentials) : M AuthenticatedUser :=
  current ← get_current_user credentials ;
  raise_if (negb (bool_decide (User.role current ∈ allowed))) (HTTPException 403 "role not allowed") ;;
  mret current.

(** ** What a token is good for *)

(** A token is read back until its [exp]. *)
Context (decode_encode : ∀ now user lab role issued, issued <= now →
  let p := token_payload user lab role issued in
  jwt_decode now (jwt_encode p) =
    if bool_decide (now < timestamp (issued + minutes 480) * 1000000) then Some p else None).
Context (int_pretty : ∀ z, int_str (pretty z) = Some z).

(** A token admits its holder as the row the user has now: for eight
    hours, only while the account exists and is enabled, and with the role
    and the lab of the table, whatever the token says. *)
Theorem access_token_spec user_id lab_id role issued scheme s :
  lower scheme = "bearer"%string → issued <= now s →
  get_current_user (Some (scheme, (issue_access_token user_id lab_id role issued).1)) s =
    (if negb (bool_decide (now s < timestamp (issued + minutes 480) * 1000000)) then
       Raise (HTTPException 401 "invalid token")
     else match users (db s) !! user_id with
          | Some user => if bool_decide (User.is_active user = 0)
                         then Raise (HTTPException 401 "user not found or disabled") else Ok user
          | None => Raise (HTTPException 401 "user not found or disabled")
          end, s).
Proof using Type*.
  intros Hs Hle. unfold get_current_user. unfold decode_access_token.
  rewrite (bind_run (raise_if _ _) _ s tt s) by by rewrite Hs. rewrite (bind_run utcnow _ s (now s) s) by reflexivity.
  unfold issue_access_token, fst. rewrite decode_encode by done.
  destruct (bool_decide (now s < _)); [|reflexivity]. cbn [negb].
  rewrite (bind_run (some_or_raise (Some _) _) _ s (token_payload user_id lab_id role issued) s) by reflexivity.
  assert (Hsub : json_int (obj_get "sub" (token_payload user_id lab_id role issued)) = Some user_id)
    by (unfold json_int; simpl; apply int_pretty).
  rewrite Hsub, (bind_run (some_or_raise (Some _) _) _ s user_id s) by reflexivity.
  rewrite (bind_run (gets _) _ s (users (db s) !! user_id) s) by reflexivity.
  destruct (users (db s) !! user_id) as [user|]; [|reflexivity].
  rewrite (bind_run (some_or_raise (Some _) _) _ s user s) by reflexivity.
  by destruct (bool_decide _).
Qed.
End jwt.

(** ** Servers *)

Definition assert_server_admin (user : AuthenticatedUser) (server_id : Z) : M unit :=
  may ← _user_can_admin_server user server_id ;
  raise_if (negb may) (HTTPException 403 "not_server_admin").

Definition list_granted_server_ids (user : AuthenticatedUser) : M (list Z) :=
  if is_lab_admin user
  then gets (λ s, Server.id <$> filter (λ sv, Server.lab_id sv = User.lab_id user) (rows (servers (db s))))
  else gets (λ s, ServerAdminGrant.server_id <$>
              filter (λ g, ServerAdminGrant.user_id g = User.id user ∧ ServerAdminGrant.is_active g = 1)
                (rows (server_admin_grants (db s)))).

(** ** Witness *)

Definition sample_encode (p : list (string * json)) : string :=
  match p with
  | [(_, JStr sub); (_, JInt lab); (_, JStr role); (_, JInt iat); (_, JInt exp); _] =>
      binary (encode (sub, lab, role, iat, exp))
  | _ => EmptyString
  end.

Definition sample_decode (now : Z) (token : string) : option (list (string * json)) :=
  '(sub, lab, role, iat, exp) ← (decode (of_binary token) : option (string * Z * string * Z * Z)) ;
  if bool_decide (now < exp * 1000000)
  then Some [("sub", JStr sub); ("lab_id", JInt lab); ("role", JStr role); ("iat", JInt iat); ("exp", JInt exp);
             ("typ", JStr "access")]%string
  else None.

Lemma sample_decode_encode now user lab role issued :
  issued <= now → let p := token_payload user lab role issued in
  sample_decode now (sample_encode p) =
    if bool_decide (now < timestamp (issued + minutes 480) * 1000000) then Some p else None.
Proof. intros _. cbv zeta. unfold sample_decode. simpl. by rewrite of_binary_binary, decode_encode. Qed.

(** Alice's token, which calls her an administrator, an hour later. *)
Lemma access_token_spec_witness :
  get_current_user sample_decode decimal_int id
    (Some ("bearer"%string, (issue_access_token sample_encode 10 1 "lab_admin" 0).1))
    (open_session (sample_db []) (hours 1) "") =
  (Ok (sample_user 10 "alice"), open_session (sample_db []) (hours 1) "").
Proof.
  etransitivity; [apply (access_token_spec _ _ _ id sample_decode_encode decimal_int_pretty); [reflexivity|]|].
  - vm_compute. discriminate.
  - reflexivity.
Defined.
