(* ===== verification/AuthService.v ===== *)
(** Signing in, invitations and activation
    ([backend/corelab_backend/services/auth_service.py]).

    [ci] is the key of the collation in which MySQL compares names and
    addresses, [sha256_hex] the digest of [hash_setup_token], [bcrypt_hash]
    and [bcrypt_check] are bcrypt, [isoformat] writes an instant; fresh
    secrets are arguments. *)

From S2P Require Import Prelude PyText Models SessionLayer RequestLayer.
From S2P Require Import AuditService PhysicalAccountService RateLimit AuthDependencies.
From S2P Require Import AuthorizedKeys SshKeyService.

(** [setup_token_ttl_hours] *)
Definition SETUP_TOKEN_TTL_HOURS : Z := 24.

(** ** Rows *)

Section names.
Context (ci : string → string).

(** [uq_user_lab_username], [uq_user_lab_email]: another user of the lab. *)
Definition name_taken (d : Db) (id lab_id : Z) (username : string) : bool :=
  existsb (λ u, bool_decide (User.lab_id u = lab_id) && bool_decide (ci (User.username u) = ci username) &&
                negb (bool_decide (User.id u = id))) (rows (users d)).

Definition email_taken (d : Db) (id lab_id : Z) (email : string) : bool :=
  existsb (λ u, bool_decide (User.lab_id u = lab_id) && bool_decide (ci (User.email u) = ci email) &&
                negb (bool_decide (User.id u = id))) (rows (users d)).

Definition roles : list string := ["user"; "lab_admin"]%string.

Definition user_row_error (d : Db) (u : User.t) : option exn :=
  if negb (is_some (labs d !! User.lab_id u)) then Some (IntegrityError "fk_user_lab")
  else if negb (bool_decide (User.role u ∈ roles)) then Some (IntegrityError "ck_user_role")
  else if name_taken d (User.id u) (User.lab_id u) (User.username u) then Some (IntegrityError "uq_user_lab_username")
  else if email_taken d (User.id u) (User.lab_id u) (User.email u) then Some (IntegrityError "uq_user_lab_email")
  else None.

(** [session.add(user); flush()] *)
Definition add_user (mk_row : Z → User.t) : M User.t := λ s,
  let id := next_user_id (db s) in
  let row := mk_row id in
  match user_row_error (db s) row with
  | Some e => (Raise e, s)
  | None => (Ok row, s <| db := db s <| users := <[id := row]> (users (db s)) |> <| next_user_id := id + 1 |> |>)
  end.

(** Attribute changes on a user, with the flush that stores them. *)
Definition save_user (u : User.t) : M unit := λ s,
  match user_row_error (db s) u with
  | Some e => (Raise e, s)
  | None => (Ok tt, s <| db := db s <| users := <[User.id u := u]> (users (db s)) |> |>)
  end.

Definition set_setup_token (t : SetupToken.t) : M unit := update (λ s,
  s <| db := db s <| setup_tokens := <[SetupToken.id t := t]> (setup_tokens (db s)) |> |>).

Definition purposes : list string := ["activation"; "password_reset"]%string.

Definition find_setup_token (d : Db) (hashed : string) : option SetupToken.t :=
  head (filter (λ t, SetupToken.token_hash t = hashed) (rows (setup_tokens d))).

Definition add_setup_token (mk_row : Z → SetupToken.t) : M SetupToken.t := λ s,
  let id := next_setup_token_id (db s) in
  let row := mk_row id in
  if negb (is_some (users (db s) !! SetupToken.user_id row)) then (Raise (IntegrityError "fk_setup_token_user"), s)
  else if negb (bool_decide (SetupToken.purpose row ∈ purposes))
  then (Raise (IntegrityError "ck_setup_token_purpose"), s)
  else if is_some (find_setup_token (db s) (SetupToken.token_hash row))
  then (Raise (IntegrityError "uq_setup_token_hash"), s)
  else (Ok row, s <| db := db s <| setup_tokens := <[id := row]> (setup_tokens (db s)) |>
                                <| next_setup_token_id := id + 1 |> |>).

Definition set_invite (i : RegistrationInvite.t) : M unit := update (λ s,
  s <| db := db s <| registration_invites :=
         <[RegistrationInvite.id i := i]> (registration_invites (db s)) |> |>).

Definition find_invite (d : Db) (hashed : string) : option RegistrationInvite.t :=
  head (filter (λ i, RegistrationInvite.token_hash i = hashed) (rows (registration_invites d))).

Definition add_invite (mk_row : Z → RegistrationInvite.t) : M RegistrationInvite.t := λ s,
  let id := next_registration_invite_id (db s) in
  let row := mk_row id in
  if negb (is_some (labs (db s) !! RegistrationInvite.lab_id row))
  then (Raise (IntegrityError "fk_registration_invite_lab"), s)
  else if negb (bool_decide (RegistrationInvite.role row ∈ roles))
  then (Raise (IntegrityError "ck_registration_invite_role"), s)
  else if is_some (find_invite (db s) (RegistrationInvite.token_hash row))
  then (Raise (IntegrityError "uq_registration_invite_token_hash"), s)
  else (Ok row, s <| db := db s <| registration_invites := <[id := row]> (registration_invites (db s)) |>
                                <| next_registration_invite_id := id + 1 |> |>).

Definition get_user_row (id : Z) : M (option User.t) := gets (λ s, users (db s) !! id).

(** ** Signing in *)

Section passwords.
Context (bcrypt_hash : string → string) (bcrypt_check : string → string → bool).

Definition hash_password (plaintext : string) : string := bcrypt_hash plaintext.

Definition verify_password (plaintext password_hash : string) : bool :=
  negb (bool_decide (password_hash = EmptyString)) && bcrypt_check plaintext password_hash.

Context {R : Type} `{Redis R} (jwt_encode : list (string * json) → string).

(** The rows a login name selects; two of them are an error. *)
Definition login_rows (d : Db) (name : string) : list User.t :=
  filter (λ u, ci (User.username u) = ci name ∨ ci (User.email u) = ci name) (rows (users d)).

Definition find_login (name : string) : M (option User.t) := λ s,
  match login_rows (db s) name with
  | [] => (Ok None, s)
  | [u] => (Ok (Some u), s)
  | _ => (Raise MultipleResultsFound, s)
  end.

Definition lock_subject (username : string) (ip : option string) : string :=
  username +:+ ":" +:+ match ip with Some (String _ _ as ip) => ip | _ => "noip"%string end.

Definition audit_login (user : option User.t) (payload : json) (outcome : string) (err : option string)
    (req : RequestInfo) : M unit :=
  write_result "auth.login" (User.id <$> user) (User.lab_id <$> user) (Some "user"%string) (User.id <$> user)
    None None payload req outcome err.

Record LoginResponse : Type := mkLogin { access_token : string ; login_expires_at : Z ; login_user : User.t }.

(** The denied branches: audited, counted, refused. *)
Definition bad_credentials {A} (user : option User.t) (payload : json) (subject : string) (req : RequestInfo) :
    Handler R A :=
  in_session (audit_login user payload "denied" (Some "invalid_credentials"%string) req) ;;
  on_limiter (λ ms, record_failure LoginLockManager true ms subject) ;;
  raise InvalidCredentialsError.

Definition authenticate (username password : string) (req : RequestInfo) : Handler R LoginResponse :=
  let subject := lock_subject username (request_ip req) in
  locked ← on_limiter (λ ms, is_locked LoginLockManager true ms subject) ;
  raise_if locked AccountLockedError ;;
  o ← in_session (find_login username) ;
  match o with
  | None => bad_credentials None (JObj [("username_attempt", JStr username)]%string) subject req
  | Some user =>
      match User.password_hash user with
      | None => bad_credentials None (JObj [("username_attempt", JStr username)]%string) subject req
      | Some hash =>
          if negb (verify_password password hash) then bad_credentials (Some user) JNull subject req
          else if bool_decide (User.is_active user = 0) then
            in_session (audit_login (Some user) JNull "denied" (Some "account_disabled"%string) req) ;;
            raise AccountDisabledError
          else
            at_ ← in_session utcnow ;
            let '(token, expires_at) :=
              issue_access_token jwt_encode (User.id user) (User.lab_id user) (User.role user) at_ in
            at_ ← in_session utcnow ;
            let user := user <| User.last_login_at := Some at_ |> in
            in_session (save_user user) ;;
            in_session (audit_login (Some user) JNull "ok" None req) ;;
            on_limiter (λ ms l, (record_success LoginLockManager true ms subject l, tt)) ;;
            mret (mkLogin token expires_at user)
      end
  end.

Definition record_logout (actor_user_id lab_id : Z) (req : RequestInfo) : M unit :=
  write "auth.logout" (Some actor_user_id) (Some lab_id) (Some "user"%string) (Some actor_user_id) None None JNull req.

(** ** Minting *)

Context (sha256_hex : string → string) (isoformat : Z → string).

Definition hash_setup_token (plaintext : string) : string := sha256_hex plaintext.

(** The unused links of a user. *)
Definition live_tokens (d : Db) (user_id : Z) : list SetupToken.t :=
  filter (λ t, SetupToken.user_id t = user_id ∧ SetupToken.used_at t = None) (rows (setup_tokens d)).

Definition use_token (at_ : Z) (t : SetupToken.t) : SetupToken.t := t <| SetupToken.used_at := Some at_ |>.

Definition issue_setup_token (plaintext : string) (user_id : Z) (purpose : string) (actor_user_id lab_id : option Z)
    (req : RequestInfo) : M (string * Z) :=
  at_ ← utcnow ;
  prior ← gets (λ s, live_tokens (db s) user_id) ;
  for_each prior (λ old, set_setup_token (use_token at_ old)) ;;
  let hashed := hash_setup_token plaintext in
  let expires_at := at_ + hours SETUP_TOKEN_TTL_HOURS in
  add_setup_token (λ id, SetupToken.mk id user_id hashed purpose expires_at None actor_user_id) ;;
  flush ;;
  write (if bool_decide (purpose = "activation"%string) then "setup_token.invite" else "setup_token.password_reset")
    actor_user_id lab_id (Some "user"%string) (Some user_id) lab_id None
    (JObj [("purpose", JStr purpose); ("expires_at", JStr (isoformat expires_at))]%string) req ;;
  mret (plaintext, expires_at).

Definition audit_invite (action : string) (actor_user_id lab_id : Z) (invite_id : Z) (payload : list (string * json))
    (req : RequestInfo) : M unit :=
  write action (Some actor_user_id) (Some lab_id) (Some "registration_invite"%string) (Some invite_id) (Some lab_id)
    None (JObj payload) req.

Definition invite_fields (i : RegistrationInvite.t) : list (string * json) :=
  [("role", JStr (RegistrationInvite.role i));
   ("expires_at", JStr (isoformat (RegistrationInvite.expires_at i)))]%string.

Definition issue_registration_invite (plaintext : string) (lab_id : Z) (role : string) (actor_user_id : Z)
    (req : RequestInfo) : M (RegistrationInvite.t * string * Z) :=
  at_ ← utcnow ;
  let hashed := hash_setup_token plaintext in
  let expires_at := at_ + hours SETUP_TOKEN_TTL_HOURS in
  row ← add_invite (λ id, RegistrationInvite.mk id lab_id hashed role expires_at None None (Some actor_user_id)) ;
  flush ;;
  audit_invite "registration_invite.create" actor_user_id lab_id (RegistrationInvite.id row) (invite_fields row) req ;;
  mret (row, plaintext, expires_at).

(** ** Reading and revoking invitations *)

Definition _invite_status (invite : RegistrationInvite.t) (now : Z) : string :=
  match RegistrationInvite.used_at invite with
  | Some _ => if is_some (RegistrationInvite.used_by_user_id invite) then "used" else "revoked"
  | None => if bool_decide (RegistrationInvite.expires_at invite <= now) then "expired" else "active"
  end.

Record RegistrationInviteRead : Type := mkInviteRead {
  ir_invite : RegistrationInvite.t ;
  ir_status : string ;
  ir_created_by : option (Z * string * string) ;
  ir_used_by : option (Z * string * string) ;
  ir_can_revoke : bool }.

Definition _user_ref (user : option User.t) : option (Z * string * string) :=
  (λ u, (User.id u, User.username u, User.display_name u)) <$> user.

Definition _invite_read (invite : RegistrationInvite.t) (creator used_by : option User.t) (now : Z) :
    RegistrationInviteRead :=
  let invite_status := _invite_status invite now in
  mkInviteRead invite invite_status (_user_ref creator) (_user_ref used_by)
    (bool_decide (invite_status = "active"%string)).

(** The joined row. *)
Definition joined_invite (s : Session) (i : RegistrationInvite.t) : RegistrationInviteRead :=
  _invite_read i (c ← RegistrationInvite.created_by_user_id i ; users (db s) !! c)
    (c ← RegistrationInvite.used_by_user_id i ; users (db s) !! c) (now s).

Definition list_registration_invites (lab_id : Z) (limit : nat) : M (list RegistrationInviteRead) :=
  gets (λ s, joined_invite s <$> take limit (order_by_desc RegistrationInvite.id
    (filter (λ i, RegistrationInvite.lab_id i = lab_id) (rows (registration_invites (db s)))))).

Definition invite_in_lab (d : Db) (invite_id lab_id : Z) : option RegistrationInvite.t :=
  match registration_invites d !! invite_id with
  | Some i => if bool_decide (RegistrationInvite.lab_id i = lab_id) then Some i else None
  | None => None
  end.

Definition get_registration_invite (invite_id lab_id : Z) : M RegistrationInviteRead :=
  o ← gets (λ s, joined_invite s <$> invite_in_lab (db s) invite_id lab_id) ;
  some_or_raise o RegistrationInviteNotFoundError.

Definition revoke_registration_invite (invite_id lab_id actor_user_id : Z) (req : RequestInfo) :
    M RegistrationInviteRead :=
  o ← gets (λ s, invite_in_lab (db s) invite_id lab_id) ;
  invite ← some_or_raise o RegistrationInviteNotFoundError ;
  at_ ← utcnow ;
  raise_if (negb (bool_decide (_invite_status invite at_ = "active"%string))) RegistrationInviteNotRevokableError ;;
  let invite := invite <| RegistrationInvite.used_at := Some at_ |> <| RegistrationInvite.used_by_user_id := None |> in
  set_invite invite ;;
  flush ;;
  audit_invite "registration_invite.revoke" actor_user_id lab_id (RegistrationInvite.id invite)
    (invite_fields invite) req ;;
  get_registration_invite invite_id lab_id.

(** ** Redeeming *)

(** Why a link is not good; [None] when it is. *)
Definition link_refused (used_at : option Z) (expires_at now : Z) : option exn :=
  if is_some used_at then Some (InvalidActivationTokenError "token already used")
  else if bool_decide (expires_at <= now) then Some (InvalidActivationTokenError "token expired") else None.

Definition not_found : exn := InvalidActivationTokenError "token not found".

Definition lookup_active_token (token_plaintext : string) : M SetupToken.t :=
  o ← gets (λ s, find_setup_token (db s) (hash_setup_token token_plaintext)) ;
  row ← some_or_raise o not_found ;
  at_ ← utcnow ;
  match link_refused (SetupToken.used_at row) (SetupToken.expires_at row) at_ with
  | Some e => raise e
  | None => mret row
  end.

Definition lookup_active_registration_invite (token_plaintext : string) : M RegistrationInvite.t :=
  o ← gets (λ s, find_invite (db s) (hash_setup_token token_plaintext)) ;
  row ← some_or_raise o not_found ;
  at_ ← utcnow ;
  match link_refused (RegistrationInvite.used_at row) (RegistrationInvite.expires_at row) at_ with
  | Some e => raise e
  | None => mret row
  end.

(** A link of either kind: [except InvalidActivationTokenError] whose text is
    "token not found" looks among the invitations. *)
Definition either_link {A} (token : string) (with_token : SetupToken.t → M A)
    (with_invite : RegistrationInvite.t → M A) : M A :=
  row ← try_except (row ← lookup_active_token token ; mret (inl row))
          (λ e, if bool_decide (e = not_found)
                then invite ← lookup_active_registration_invite token ; mret (inr invite)
                else raise e) ;
  match row with inl row => with_token row | inr invite => with_invite invite end.

Record ActivateValidate : Type := mkValidate {
  av_user : option User.t ; av_purpose : string ; av_role : string }.

Definition no_such_user : exn := InvalidActivationTokenError "user no longer exists".

Definition validate_activation_token (token : string) : M ActivateValidate :=
  either_link token
    (λ row, o ← get_user_row (SetupToken.user_id row) ;
            user ← some_or_raise o no_such_user ;
            mret (mkValidate (Some user) (SetupToken.purpose row) (User.role user)))
    (λ invite, mret (mkValidate None "registration" (RegistrationInvite.role invite))).

Context (body_digest : pystr → option pystr).

(** What a registration form sends. *)
Record Profile : Type := mkProfile {
  pf_password : string ;
  pf_username : option string ;
  pf_email : option string ;
  pf_display_name : option string ;
  pf_ssh_key_label : option pystr ;
  pf_ssh_key_public_key : option pystr }.

Definition _validate_registration_profile (user : User.t) (username email : option string) : M unit :=
  d ← gets db ;
  match username with
  | Some n => raise_if (negb (bool_decide (n = User.username user)) && name_taken d (User.id user) (User.lab_id user) n)
                (ActivationProfileConflictError "username_taken")
  | None => skip
  end ;;
  match email with
  | Some m => raise_if (negb (bool_decide (m = User.email user)) && email_taken d (User.id user) (User.lab_id user) m)
                (ActivationProfileConflictError "email_taken")
  | None => skip
  end.

(** No row is excluded: ids are positive. *)
Definition _validate_new_registration_profile (lab_id : Z) (username email : string) : M unit :=
  d ← gets db ;
  raise_if (name_taken d 0 lab_id username) (ActivationProfileConflictError "username_taken") ;;
  raise_if (email_taken d 0 lab_id email) (ActivationProfileConflictError "email_taken").

Definition _validate_registration_ssh_key (user_id : option Z) (public_key : pystr) : M unit :=
  match parse_public_key body_digest public_key with
  | Raise _ => raise ActivationSshKeyError
  | Ok (_, blob, _) =>
      match user_id with
      | None => skip
      | Some user_id =>
          let fp := default [] (SshKeyService.fingerprint_sha256 body_digest blob) in
          existing ← gets (λ s, find_fingerprint (db s) user_id (utf8 fp)) ;
          raise_if (is_some existing) ActivationSshKeyError
      end
  end.

Definition add_profile_key (p : Profile) (user : User.t) (req : RequestInfo) : M unit :=
  match pf_ssh_key_public_key p with
  | None => skip
  | Some key => add_key body_digest key (pf_ssh_key_label p) (User.id user) (User.lab_id user) req ;; skip
  end.

Definition validate_key (p : Profile) (user_id : option Z) : M unit :=
  match pf_ssh_key_public_key p with
  | None => skip
  | Some key => _validate_registration_ssh_key user_id key
  end.

Definition _complete_registration_invite (invite : RegistrationInvite.t) (p : Profile) (req : RequestInfo) :
    M User.t :=
  match pf_username p, pf_email p, pf_display_name p with
  | Some username, Some email, Some display_name =>
      let lab_id := RegistrationInvite.lab_id invite in
      _validate_new_registration_profile lab_id username email ;;
      validate_key p None ;;
      user ← try_except
        (add_user (λ id, User.mk id lab_id username display_name (RegistrationInvite.role invite) 1 email
           (Some (hash_password (pf_password p))) None (RegistrationInvite.created_by_user_id invite)))
        (λ e, match e with
              | IntegrityError _ => raise (ActivationProfileConflictError "username_or_email_taken")
              | _ => raise e
              end) ;
      at_ ← utcnow ;
      set_invite (invite <| RegistrationInvite.used_at := Some at_ |>
                         <| RegistrationInvite.used_by_user_id := Some (User.id user) |>) ;;
      flush ;;
      add_profile_key p user req ;;
      write "user.register" (Some (User.id user)) (Some (User.lab_id user)) (Some "user"%string) (Some (User.id user))
        (Some (User.lab_id user)) None
        (JObj [("registration_invite_id", JInt (RegistrationInvite.id invite));
               ("role", JStr (User.role user))]%string) req ;;
      audit_invite "registration_invite.consume" (User.id user) (User.lab_id user) (RegistrationInvite.id invite)
        [("user_id", JInt (User.id user))]%string req ;;
      mret user
  | _, _, _ => raise (InvalidActivationTokenError "registration requires username, email and display_name")
  end.

(** The checks of a link that belongs to a user. *)
Definition check_token (row : SetupToken.t) (user : User.t) (p : Profile) : M unit :=
  if bool_decide (SetupToken.purpose row = "activation"%string) then
    raise_if (is_some (User.password_hash user)) (InvalidActivationTokenError "user already activated") ;;
    _validate_registration_profile user (pf_username p) (pf_email p) ;;
    validate_key p (Some (User.id user))
  else if bool_decide (SetupToken.purpose row = "password_reset"%string) then
    raise_if (is_some (pf_username p) || is_some (pf_email p) || is_some (pf_display_name p))
      (InvalidActivationTokenError "password reset cannot update profile") ;;
    raise_if (is_some (pf_ssh_key_public_key p) || is_some (pf_ssh_key_label p))
      (InvalidActivationTokenError "password reset cannot add ssh key")
  else raise (InvalidActivationTokenError "unsupported setup token purpose").

(** The user with what the form changes. *)
Definition activated (row : SetupToken.t) (p : Profile) (user : User.t) : User.t :=
  let user :=
    if bool_decide (SetupToken.purpose row = "activation"%string) then
      user <| User.username := default (User.username user) (pf_username p) |>
           <| User.email := default (User.email user) (pf_email p) |>
           <| User.display_name := default (User.display_name user) (pf_display_name p) |>
    else user in
  user <| User.password_hash := Some (hash_password (pf_password p)) |>.

Definition activate (token : string) (p : Profile) (req : RequestInfo) : M User.t :=
  either_link token
    (λ row,
      o ← get_user_row (SetupToken.user_id row) ;
      user ← some_or_raise o no_such_user ;
      check_token row user p ;;
      let user := activated row p user in
      at_ ← utcnow ;
      save_user user ;;
      set_setup_token (use_token at_ row) ;;
      flush ;;
      when (bool_decide (SetupToken.purpose row = "activation"%string)) (add_profile_key p user req) ;;
      write "setup_token.activate" (Some (User.id user)) (Some (User.lab_id user)) (Some "user"%string)
        (Some (User.id user)) None None JNull req ;;
      mret user)
    (λ invite, _complete_registration_invite invite p req).
End passwords.
End names.
