(* ===== verification/UserService.v ===== *)
(** Accounts of the platform: profile, role, password, disabling
    ([backend/corelab_backend/services/user_service.py]).

    The agents' answers to the key revocations of a disabled user are
    arguments, as in [AccountLinkService]. *)

From S2P Require Import Prelude Models SessionLayer AgentRpc AuditService.
From S2P Require Import PhysicalAccountService ServerService AccountLinkService AuthDependencies AuthService.

Definition list_users (lab_id : Z) : M (list User.t) :=
  gets (λ s, order_by User.id (filter (λ u, User.lab_id u = lab_id) (rows (users (db s))))).

Definition get_user (user_id lab_id : Z) : M User.t :=
  o ← get_user_row user_id ;
  user ← some_or_raise o UserNotFoundError ;
  raise_if (negb (bool_decide (User.lab_id user = lab_id))) UserNotFoundError ;;
  mret user.

(** [except IntegrityError]. *)
Definition or_duplicate {A} (m : M A) : M A :=
  try_except m (λ e, match e with IntegrityError _ => raise DuplicateUserError | _ => raise e end).

Definition audit_user (action : string) (actor_user_id lab_id user_id : Z) (payload : json) (req : RequestInfo) :
    M unit :=
  write action (Some actor_user_id) (Some lab_id) (Some "user"%string) (Some user_id) (Some lab_id) None payload req.

Section users.
Context (ci : string → string) (isoformat : Z → string).

Definition create_user (username email display_name role : string) (lab_id actor_user_id : Z) (req : RequestInfo) :
    M User.t :=
  user ← or_duplicate (add_user ci (λ id, User.mk id lab_id username display_name role 1 email None None
                                            (Some actor_user_id))) ;
  audit_user "user.create" actor_user_id lab_id (User.id user)
    (JObj [("username", JStr username); ("email", JStr email); ("role", JStr role)]%string) req ;;
  mret user.

Definition profile_json (u : User.t) : json :=
  JObj [("display_name", JStr (User.display_name u)); ("email", JStr (User.email u))]%string.

Definition update_user (user_id : Z) (display_name email : option string) (actor_user_id : Z) (actor_role : string)
    (lab_id : Z) (req : RequestInfo) : M User.t :=
  user ← get_user user_id lab_id ;
  raise_if (negb (bool_decide (actor_user_id = User.id user)) &&
            negb (bool_decide (actor_role = "lab_admin"%string))) UserError ;;
  let before := profile_json user in
  let user := user <| User.display_name := default (User.display_name user) display_name |>
                   <| User.email := default (User.email user) email |> in
  or_duplicate (save_user ci user) ;;
  audit_user "user.update" actor_user_id lab_id (User.id user)
    (JObj [("before", before); ("after", profile_json user)]%string) req ;;
  mret user.

(** The enabled administrators of a lab, the rows locked [FOR UPDATE]. *)
Definition active_admins (d : Db) (lab_id : Z) : list Z :=
  User.id <$> order_by User.id (filter (λ u, User.lab_id u = lab_id ∧ User.role u = "lab_admin"%string ∧
                                             User.is_active u = 1) (rows (users d))).

Definition _ensure_at_least_one_active_admin (exclude_user_id lab_id : Z) : M unit :=
  admins ← gets (λ s, active_admins (db s) lab_id) ;
  let remaining := filter (λ uid, uid ≠ exclude_user_id) admins in
  raise_if (bool_decide (length remaining < 1)%nat) LastAdminError.

Definition change_role (user_id : Z) (role : string) (actor_user_id lab_id : Z) (req : RequestInfo) : M User.t :=
  raise_if (bool_decide (actor_user_id = user_id)) SelfRoleChangeError ;;
  user ← get_user user_id lab_id ;
  when (bool_decide (User.role user = "lab_admin"%string) && negb (bool_decide (role = "lab_admin"%string)))
    (_ensure_at_least_one_active_admin (User.id user) lab_id) ;;
  let old_role := User.role user in
  let user := user <| User.role := role |> in
  save_user ci user ;;
  audit_user "user.role_change" actor_user_id lab_id (User.id user)
    (JObj [("before", JStr old_role); ("after", JStr role)]%string) req ;;
  mret user.

(** ** Disabling *)

(** The user's active links with the server of each. *)
Definition links_of (d : Db) (user_id : Z) : list (AccountLink.t * Z) :=
  omap (λ l, pa ← physical_accounts d !! AccountLink.physical_account_id l ; Some (l, PhysicalAccount.server_id pa))
    (filter (λ l, AccountLink.user_id l = user_id ∧ AccountLink.is_active l = 1) (rows (account_links d))).

Definition grants_of (d : Db) (user_id : Z) : list ServerAdminGrant.t :=
  filter (λ g, ServerAdminGrant.user_id g = user_id ∧ ServerAdminGrant.is_active g = 1) (rows (server_admin_grants d)).

Definition _cascade_revoke_access (reply : Z → rpc_result) (message : Z → string) (user_id actor_user_id lab_id : Z)
    (req : RequestInfo) : M unit :=
  link_rows ← gets (λ s, links_of (db s) user_id) ;
  for_each link_rows (λ '(link, server_id),
    revoke_link reply message link actor_user_id "user_disabled" lab_id server_id true req ;; skip) ;;
  grant_rows ← gets (λ s, grants_of (db s) user_id) ;
  for_each grant_rows (λ grant,
    revoke_admin (ServerAdminGrant.server_id grant) user_id actor_user_id lab_id req ;; skip).

Definition disable_user (reply : Z → rpc_result) (message : Z → string) (user_id actor_user_id lab_id : Z)
    (req : RequestInfo) : M User.t :=
  raise_if (bool_decide (actor_user_id = user_id)) SelfDisableError ;;
  user ← get_user user_id lab_id ;
  when (negb (bool_decide (User.is_active user = 0)) && bool_decide (User.role user = "lab_admin"%string))
    (_ensure_at_least_one_active_admin (User.id user) lab_id) ;;
  let user := user <| User.is_active := 0 |> in
  save_user ci user ;;
  audit_user "user.disable" actor_user_id lab_id (User.id user) JNull req ;;
  _cascade_revoke_access reply message user_id actor_user_id lab_id req ;;
  mret user.

Definition reactivate_user (user_id actor_user_id lab_id : Z) (req : RequestInfo) : M User.t :=
  user ← get_user user_id lab_id ;
  if negb (bool_decide (User.is_active user = 0)) then mret user
  else
    let user := user <| User.is_active := 1 |> in
    save_user ci user ;;
    audit_user "user.reactivate" actor_user_id lab_id (User.id user)
      (JObj [("access_restored", JBool false)]%string) req ;;
    mret user.

(** ** Passwords *)

Section passwords.
Context (bcrypt_hash : string → string) (bcrypt_check : string → string → bool) (sha256_hex : string → string).

Definition change_password (old_password new_password : string) (actor_user_id lab_id : Z) (req : RequestInfo) :
    M unit :=
  user ← get_user actor_user_id lab_id ;
  if match User.password_hash user with
     | None => true
     | Some hash => negb (verify_password bcrypt_check old_password hash)
     end
  then
    write_result "user.password_change" (Some actor_user_id) (Some lab_id) (Some "user"%string) (Some actor_user_id)
      (Some lab_id) None JNull req "denied" (Some "wrong_old_password"%string) ;;
    raise WrongPasswordError
  else
    save_user ci (user <| User.password_hash := Some (hash_password bcrypt_hash new_password) |>) ;;
    audit_user "user.password_change" actor_user_id lab_id actor_user_id JNull req.

Definition issue_password_reset (plaintext : string) (user_id actor_user_id lab_id : Z) (req : RequestInfo) :
    M (User.t * string * Z) :=
  user ← get_user user_id lab_id ;
  raise_if (negb (is_some (User.password_hash user))) UserNotActivatedError ;;
  issued ← issue_setup_token sha256_hex isoformat plaintext (User.id user) "password_reset" (Some actor_user_id)
             (Some lab_id) req ;
  mret (user, issued.1, issued.2).

Definition resend_invite (plaintext : string) (user_id actor_user_id lab_id : Z) (req : RequestInfo) :
    M (User.t * string * Z) :=
  user ← get_user user_id lab_id ;
  raise_if (is_some (User.password_hash user)) UserAlreadyActivatedError ;;
  issued ← issue_setup_token sha256_hex isoformat plaintext (User.id user) "activation" (Some actor_user_id)
             (Some lab_id) req ;
  mret (user, issued.1, issued.2).
End passwords.
End users.
