(* ===== verification/LabUrlService.v ===== *)
(** The addresses of the backend: the list kept in [lab.public_urls], what of
    it the agents get, the reachability probe and the administrator's
    endpoints ([services/lab_url_service.py],
    [services/agent_url_broadcast.py], [services/lab_url_scheduler.py],
    [api/v1/public_urls.py], [api/v1/tunnel.py] under
    [backend/corelab_backend]).

    [py_str] is [str] on a JSON value, [isoformat] and [parse_iso] write and
    read instants; what the probes find is an argument. *)

From S2P Require Import Prelude PyText Models SessionLayer RequestLayer.
From S2P Require Import AgentRpc AuditService NotificationService ReservationsApi AlertService.
From S2P Require Import AuthDependencies Schema.

Definition VALID_KINDS : list string :=
  ["lan"; "public_ip"; "custom_domain"; "cloudflare_quick"; "cloudflare_named"]%string.
Definition VALID_SOURCES : list string := ["install_sh_probe"; "manual_admin"; "tunnel_runtime"]%string.
Definition AGENT_URL_STALE_SECONDS : Z := 600.
Definition EPHEMERAL_AGENT_URL_KINDS : list string := ["cloudflare_quick"]%string.

(** The two timestamps are JSON: text when CoreLab wrote them. *)
Record UrlEntry : Type := mkUrl {
  url : string ;
  kind : string ;
  source : string ;
  verified_at : json ;
  last_reachable_at : json ;
  primary : bool }.
#[export] Instance eta_UrlEntry : Eta UrlEntry := λ e,
  mkUrl (url e) (kind e) (source e) (verified_at e) (last_reachable_at e) (primary e).

Definition to_dict (e : UrlEntry) : json :=
  JObj [("url", JStr (url e)); ("kind", JStr (kind e)); ("source", JStr (source e));
        ("verified_at", verified_at e); ("last_reachable_at", last_reachable_at e);
        ("primary", JBool (primary e))]%string.

Section urls.
Context (py_str : json → string) (isoformat : Z → string) (parse_iso : string → option Z).

(** [isinstance(e, dict) and "url" in e], then [from_dict]. *)
Definition from_dict (e : json) : option UrlEntry :=
  match e with
  | JObj o =>
      match obj_get "url" o with
      | None => None
      | Some v =>
          Some (mkUrl (py_str v) (match obj_get "kind" o with Some k => py_str k | None => "lan" end)
                  (match obj_get "source" o with Some k => py_str k | None => "manual_admin" end)
                  (default JNull (obj_get "verified_at" o)) (default JNull (obj_get "last_reachable_at" o))
                  (truthy (obj_get "primary" o)))
      end
  | _ => None
  end.

Definition load_entries (lab : Lab.t) : list UrlEntry := omap from_dict (Lab.public_urls lab).

Definition urls_only (lab : Lab.t) : list string := url <$> load_entries lab.

(** ** What agents get *)

Definition _parse_iso_datetime (value : json) : result exn (option Z) :=
  if negb (truthy (Some value)) then Ok None
  else match value with
       | JStr s => Ok (parse_iso s)
       | _ => Raise AttributeError
       end.

Definition _is_recent (value : json) (now stale_after : Z) : result exn bool :=
  match _parse_iso_datetime value with
  | Raise e => Raise e
  | Ok None => Ok false
  | Ok (Some parsed) => Ok (bool_decide (now - stale_after <= parsed))
  end.

Definition _is_agent_url_candidate (entry : UrlEntry) (now stale_after : Z) : result exn bool :=
  if negb (bool_decide (kind entry ∈ EPHEMERAL_AGENT_URL_KINDS)) then Ok true
  else if bool_decide (source entry = "tunnel_runtime"%string) && negb (truthy (Some (verified_at entry))) &&
          negb (truthy (Some (last_reachable_at entry))) then Ok true
  else match _is_recent (last_reachable_at entry) now stale_after with
       | Raise e => Raise e
       | Ok true => Ok true
       | Ok false => _is_recent (verified_at entry) now stale_after
       end.

(** The comprehension, which stops at the first error. *)
Fixpoint candidates (entries : list UrlEntry) (now stale_after : Z) : result exn (list string) :=
  match entries with
  | [] => Ok []
  | e :: entries =>
      match _is_agent_url_candidate e now stale_after, candidates entries now stale_after with
      | Raise x, _ => Raise x
      | Ok _, Raise x => Raise x
      | Ok keep, Ok rest => Ok (if keep then url e :: rest else rest)
      end
  end.

Definition agent_urls_only (lab : Lab.t) (now : Z) : result exn (list string) :=
  match load_entries lab with
  | [] => Ok []
  | entries =>
      match candidates entries now (seconds AGENT_URL_STALE_SECONDS) with
      | Raise e => Raise e
      | Ok [] => Ok (url <$> entries)
      | Ok filtered => Ok filtered
      end
  end.

(** ** Changing the list *)

Definition _persist (lab : Lab.t) (entries : list UrlEntry) : Lab.t :=
  lab <| Lab.public_urls := to_dict <$> entries |>.

Definition set_lab (lab : Lab.t) : M unit := update (λ s,
  s <| db := db s <| labs := <[Lab.id lab := lab]> (labs (db s)) |> |>).

(** [_persist(lab, entries); flush()] *)
Definition persist (lab : Lab.t) (entries : list UrlEntry) : M Lab.t :=
  let lab := _persist lab entries in
  set_lab lab ;; flush ;; mret lab.

Definition entry_valid (e : UrlEntry) : bool :=
  bool_decide (kind e ∈ VALID_KINDS) && bool_decide (source e ∈ VALID_SOURCES).

Definition replace_all (lab : Lab.t) (entries : list UrlEntry) : M Lab.t :=
  raise_if (negb (forallb entry_valid entries)) LabUrlError ;;
  persist lab entries.

Definition demote (e : UrlEntry) : UrlEntry := e <| primary := false |>.

(** The first entry with this address, rewritten; the others lose [primary]
    when it becomes the primary one. *)
Fixpoint touch (u_ kind_ source_ : string) (make_primary : bool) (entries : list UrlEntry) : list UrlEntry :=
  match entries with
  | [] => []
  | e :: rest =>
      if bool_decide (url e = u_) then
        (e <| kind := kind_ |> <| source := source_ |> <| primary := if make_primary then true else primary e |>)
          :: (if make_primary then demote <$> rest else rest)
      else (if make_primary then demote e else e) :: touch u_ kind_ source_ make_primary rest
  end.

Definition added (u_ kind_ source_ : string) (make_primary : bool) (entries : list UrlEntry) : list UrlEntry :=
  if existsb (λ e, bool_decide (url e = u_)) entries then touch u_ kind_ source_ make_primary entries
  else (if make_primary then demote <$> entries else entries) ++
       [mkUrl u_ kind_ source_ JNull JNull make_primary].

Definition add_url (lab : Lab.t) (u_ kind_ source_ : string) (make_primary : bool) : M Lab.t :=
  raise_if (negb (bool_decide (kind_ ∈ VALID_KINDS))) LabUrlError ;;
  raise_if (negb (bool_decide (source_ ∈ VALID_SOURCES))) LabUrlError ;;
  raise_if (bool_decide (u_ = EmptyString)) LabUrlError ;;
  persist lab (added u_ kind_ source_ make_primary (load_entries lab)).

Definition removed_url (u_ : string) (entries : list UrlEntry) : list UrlEntry := filter (λ e, url e ≠ u_) entries.

Definition remove_url (lab : Lab.t) (u_ : string) : M Lab.t := persist lab (removed_url u_ (load_entries lab)).

(** The stamps of a successful probe. *)
Definition reached (now : Z) (e : UrlEntry) : UrlEntry :=
  let at_ := JStr (isoformat now) in
  e <| last_reachable_at := at_ |>
    <| verified_at := match verified_at e with JNull => at_ | v => v end |>.

Fixpoint mark_first (u_ : string) (now : Z) (reachable : bool) (entries : list UrlEntry) : list UrlEntry :=
  match entries with
  | [] => []
  | e :: rest =>
      if bool_decide (url e = u_) then (if reachable then reached now e else e) :: rest
      else e :: mark_first u_ now reachable rest
  end.

Definition mark_reachable (lab : Lab.t) (u_ : string) (reachable : bool) : M Lab.t :=
  at_ ← utcnow ;
  let entries := load_entries lab in
  if existsb (λ e, bool_decide (url e = u_)) entries
  then persist lab (mark_first u_ at_ reachable entries) else mret lab.

(** [reachable u] is what [probe_one] answers; [world] is what others commit
    while the probes are under way, [later] the clock afterwards.  The
    entries read before are the ones written; the column is only written when
    they differ from what was read. *)
Definition probe_lab (reachable : string → bool) (world : Db → Db) (later : Z) (lab : Lab.t) :
    M (Lab.t * list (string * bool)) :=
  match load_entries lab with
  | [] => mret (lab, [])
  | entries =>
      update (λ s, s <| db := world (db s) |> <| now := later |>) ;;
      at_ ← utcnow ;
      let probed := (λ e, if reachable (url e) then reached at_ e else e) <$> entries in
      let docs := to_dict <$> probed in
      o ← gets (λ s, labs (db s) !! Lab.id lab) ;
      when (negb (py_eq (JList docs) (JList (Lab.public_urls lab))))
        (set_lab (default lab o <| Lab.public_urls := docs |>) ;; flush) ;;
      mret (lab <| Lab.public_urls := docs |>, (λ e, (url e, reachable (url e))) <$> entries)
  end.

(** [url_probe_tick]: one transaction over all labs. *)
Definition url_probe_tick (reachable : string → bool) (world : Db → Db) (later : Z) : M unit :=
  ls ← gets (λ s, rows (labs (db s))) ;
  for_each ls (λ lab, probe_lab reachable world later lab ;; skip) ;;
  commit.

(** ** Telling the agents *)

Definition _to_wss (address : pystr) : pystr :=
  let a := rstrip_slash address in
  let a := if startswith a (u "https://") then u "wss://" ++ drop 8 a
           else if startswith a (u "http://") then u "ws://" ++ drop 7 a else a in
  if endswith a (u "/ws/agent") then a else a ++ u "/ws/agent".

Definition ws_address (s : string) : string := utf8 (_to_wss (text_of s)).

Definition urls_frame (frame_id : string) (now : Z) (urls : list string) : json :=
  JObj [("type", JStr "backend.config.update_urls"); ("id", JStr frame_id); ("ts", JStr (isoformat now));
        ("payload", JObj [("urls", JList (JStr <$> (ws_address <$> urls)))]);
        ("correlation_id", JNull)]%string.

(** The sockets written to, with what they get; [ids] are the fresh frame
    ids. *)
Definition broadcast_update_urls (pool : AgentConnectionPool) (ids : Z → string) (now : Z) (server_ids : list Z)
    (urls : list string) : list (Z * json) :=
  if bool_decide (urls = []) then []
  else omap (λ sid, ws ← pool_get pool sid ; Some (ws, urls_frame (ids sid) now urls)) server_ids.

(** ** Endpoints *)

Definition _get_lab (lab_id : Z) : M Lab.t :=
  o ← gets (λ s, labs (db s) !! lab_id) ;
  some_or_raise o (HTTPException 404 "lab not found").

(** The frames that go out after the commit. *)
Definition _broadcast_urls_to_agents (pool : AgentConnectionPool) (ids : Z → string) (lab : Lab.t) :
    M (list (Z * json)) :=
  at_ ← utcnow ;
  match agent_urls_only lab at_ with
  | Raise e => raise e
  | Ok [] => mret []
  | Ok urls =>
      servers_ ← gets (λ s, Server.id <$> filter (λ sv, Server.lab_id sv = Lab.id lab ∧ Server.is_active sv = 1)
                              (rows (servers (db s)))) ;
      mret (broadcast_update_urls pool ids at_ (filter (λ sid, is_online pool sid = true) servers_) urls)
  end.

Definition audit_url (action : string) (current : AuthenticatedUser) (lab : Lab.t) (payload : list (string * json)) :
    M unit :=
  write action (Some (User.id current)) (Some (Lab.id lab)) (Some "lab"%string) (Some (Lab.id lab)) None None
    (JObj payload) no_request.

Definition add_public_url (pool : AgentConnectionPool) (ids : Z → string) (u_ kind_ : string) (make_primary : bool)
    (current : AuthenticatedUser) : M (Lab.t * list (Z * json)) :=
  lab ← _get_lab (User.lab_id current) ;
  lab ← mapping (add_url lab u_ kind_ "manual_admin" make_primary)
          (λ e, match e with LabUrlError => HTTPException 400 "LabUrlError" | _ => e end) ;
  audit_url "lab.public_url.add" current lab [("url", JStr u_); ("kind", JStr kind_)]%string ;;
  commit ;;
  sent ← _broadcast_urls_to_agents pool ids lab ;
  mret (lab, sent).

Definition remove_public_url (pool : AgentConnectionPool) (ids : Z → string) (u_ : string)
    (current : AuthenticatedUser) : M (Lab.t * list (Z * json)) :=
  lab ← _get_lab (User.lab_id current) ;
  let before_count := length (load_entries lab) in
  lab ← remove_url lab u_ ;
  let after_count := length (load_entries lab) in
  raise_if (bool_decide (after_count = before_count)) (HTTPException 404 "url not in this lab's public_urls") ;;
  audit_url "lab.public_url.remove" current lab [("url", JStr u_)]%string ;;
  commit ;;
  sent ← _broadcast_urls_to_agents pool ids lab ;
  mret (lab, sent).

Definition probe_now (reachable : string → bool) (world : Db → Db) (later : Z) (current : AuthenticatedUser) :
    M (Lab.t * list (string * bool)) :=
  lab ← _get_lab (User.lab_id current) ;
  res ← probe_lab reachable world later lab ;
  commit ;;
  mret res.

(** Mode, and whether a token is stored. *)
Definition tunnel_status (current : AuthenticatedUser) : M (string * bool) :=
  lab ← _get_lab (User.lab_id current) ;
  mret (Lab.tunnel_mode lab, str_truthy (Lab.tunnel_token lab)).
End urls.
