(* ===== verification/AddressFlow.v ===== *)
(** The lab's addresses, from the backend's list over the wire into the
    agents' connections and configuration files. *)

From S2P Require Import Prelude Schema PyText Models SessionLayer.
From S2P Require Import RequestLayer Samples AgentRpc Protocol AuditService.
From S2P Require Import NotificationService ReservationsApi AlertService SyncServices AgentConfig.
From S2P Require Import AgentConfigProperties AgentCaches AuthorizedKeys HostAccounts ScriptRunner.
From S2P Require Import AgentHandlers WsClient WsClientProperties SyncProperties AuthDependencies.
From S2P Require Import LabUrlService.

(** * LabUrlProperties

    The ledger of addresses: round trip, invariant, what agents get
    ([services/lab_url_service.py], [api/v1/public_urls.py]). *)


(** Addresses are distinct, and one at most is the primary. *)
Record ledger_ok (es : list UrlEntry) : Prop := {
  ld_distinct : NoDup (url <$> es) ;
  ld_primary : (length (filter (λ e, primary e = true) es) <= 1)%nat }.

Lemma url_demote (es : list UrlEntry) : url <$> (demote <$> es) = url <$> es.
Proof. rewrite <- list_fmap_compose. by apply list_fmap_ext. Qed.

Lemma filter_demote (es : list UrlEntry) : filter (λ e, primary e = true) (demote <$> es) = [].
Proof. by induction es. Qed.

Lemma touch_urls u_ k s mp (es : list UrlEntry) : url <$> touch u_ k s mp es = url <$> es.
Proof.
  induction es as [|e es IH]; [done|]. simpl. case_bool_decide as Hu.
  - rewrite fmap_cons. destruct mp; [by rewrite url_demote|done].
  - rewrite !fmap_cons, IH. by destruct mp.
Qed.

Lemma touch_primary u_ k s (es : list UrlEntry) :
  (length (filter (λ e, primary e = true) (touch u_ k s true es)) <= 1)%nat ∧
  (length (filter (λ e, primary e = true) (touch u_ k s false es)) =
   length (filter (λ e, primary e = true) es)).
Proof.
  induction es as [|e es [IH1 IH2]]; [split; simpl; lia|]. simpl. case_bool_decide as Hu; split.
  - rewrite filter_cons_True by done. rewrite filter_demote. simpl. lia.
  - rewrite !filter_cons. simpl. by destruct (decide _).
  - rewrite filter_cons_False by done. exact IH1.
  - rewrite !filter_cons. destruct (decide _); simpl; lia.
Qed.

Lemma added_ok u_ k s mp (es : list UrlEntry) : ledger_ok es → ledger_ok (added u_ k s mp es).
Proof.
  intros [Hd Hp]. unfold added. destruct (existsb _ es) eqn:Hex.
  - split; [by rewrite touch_urls|]. destruct (touch_primary u_ k s es) as [H1 H2]. destruct mp; lia.
  - assert (Hnew : u_ ∉ url <$> es).
    { intros (e & He & Hin)%list_elem_of_fmap. apply not_true_iff_false in Hex. apply Hex.
      apply existsb_exists. exists e. split; [by apply list_elem_of_In|]. by apply bool_decide_eq_true. }
    assert (Hu : url <$> (if mp then demote <$> es else es) = url <$> es) by (destruct mp; [apply url_demote|done]).
    split.
    + rewrite fmap_app, Hu. apply NoDup_app. split; [done|]. split; [|by apply NoDup_singleton].
      intros x Hx ->%list_elem_of_singleton. done.
    + rewrite filter_app, length_app. destruct mp; [by rewrite filter_demote|].
      rewrite (filter_cons_False _ (mkUrl _ _ _ _ _ _)) by done. simpl. lia.
Qed.

Lemma filter_ledger (P : UrlEntry → Prop) `{∀ e, Decision (P e)} (es : list UrlEntry) : ledger_ok es → ledger_ok (filter P es).
Proof.
  intros [Hd Hp]. split.
  - eapply sublist_NoDup; [exact Hd|]. apply sublist_fmap, sublist_filter.
  - etransitivity; [|exact Hp]. apply sublist_length. rewrite !list_filter_filter.
    rewrite (list_filter_iff _ (λ x, P x ∧ primary x = true)) by tauto. rewrite <- list_filter_filter.
    apply sublist_filter.
Qed.

(** Rewriting entries without moving [url] and [primary]. *)
Lemma stamped_ok (f : UrlEntry → UrlEntry) (es : list UrlEntry) :
  (∀ e, url (f e) = url e ∧ primary (f e) = primary e) → ledger_ok es → ledger_ok (f <$> es).
Proof.
  intros Hf [Hd Hp]. split.
  - rewrite <- list_fmap_compose. rewrite (list_fmap_ext _ url); [done|]. intros _ e _. apply Hf.
  - replace (length (filter (λ e, primary e = true) (f <$> es)))
      with (length (filter (λ e, primary e = true) es)); [done|].
    clear Hd Hp. induction es as [|e es IH]; [done|]. rewrite fmap_cons, !filter_cons.
    destruct (Hf e) as [_ ->]. destruct (decide _); simpl; congruence.
Qed.

Section urls.
Context (py_str : json → string) (isoformat : Z → string) (parse_iso : string → option Z).
Context (str_str : ∀ s, py_str (JStr s) = s).

(** What is written is read back. *)
Lemma from_to_dict e : from_dict py_str (to_dict e) = Some e.
Proof using str_str. destruct e as [a b c d f []]; simpl; by rewrite !str_str. Qed.

Lemma load_docs (es : list UrlEntry) : omap (from_dict py_str) (to_dict <$> es) = es.
Proof using str_str. 
  induction es as [|e es IH]; [done|]. rewrite fmap_cons.
  change (omap (from_dict py_str) (?a :: ?l)) with
    (match from_dict py_str a with Some x => x :: omap (from_dict py_str) l | None => omap (from_dict py_str) l end).
  by rewrite from_to_dict, IH.
Qed.

Lemma load_persist lab es : load_entries py_str (_persist lab es) = es.
Proof using str_str. apply load_docs. Qed.

(** ** The invariant *)

Definition labs_ok (d : Db) : Prop :=
  ∀ k lab, labs d !! k = Some lab → Lab.id lab = k ∧ ledger_ok (load_entries py_str lab).

Definition labs_step (d d' : Db) : Prop := labs_ok d → labs_ok d'.

#[export] Instance labs_step_pre : PreOrder labs_step.
Proof using Type. split; [intros d H; exact H|]. intros d1 d2 d3 H12 H23 H. exact (H23 (H12 H)). Qed.

Lemma set_lab_step lab s : ledger_ok (load_entries py_str lab) → moves_at labs_step (set_lab lab) s.
Proof using Type.
  intros Hl r s' Hc [= <- <-]. split; [done|]. split; [done|]. intros Hok k lab'. cbn. rewrite lookup_insert.
  case_decide as Hk; [intros [= <-]; done|apply Hok].
Qed.

Lemma persist_step lab es s : ledger_ok es → moves_at labs_step (persist lab es) s.
Proof using str_str.
  intros Hes. unfold persist. apply moves_at_bind; [apply _|apply set_lab_step; by rewrite load_persist|].
  intros u1 s1 _ _. apply moves_at_of, _.
Qed.

(** One edit of a lab's ledger, of the row as it is. *)
Inductive edit : Type :=
| edit_add (u_ kind_ source_ : string) (make_primary : bool)
| edit_remove (u_ : string)
| edit_mark (u_ : string) (reachable : bool)
| edit_probe (reachable : string → bool) (world : Db → Db) (later : Z).

Definition run_edit (e : edit) (lab : Lab.t) : M Lab.t :=
  match e with
  | edit_add u_ k s mp => add_url py_str lab u_ k s mp
  | edit_remove u_ => remove_url py_str lab u_
  | edit_mark u_ r => mark_reachable py_str isoformat lab u_ r
  | edit_probe r world later => res ← probe_lab py_str isoformat r world later lab ; mret res.1
  end.

Definition edit_lab (lab_id : Z) (e : edit) : M Lab.t := lab ← _get_lab lab_id ; run_edit e lab.

(** What others commit during a probe keeps the ledgers too. *)
Definition edit_ok (e : edit) : Prop :=
  match e with edit_probe _ world _ => ∀ d, labs_step d (world d) | _ => True end.

Lemma mark_first_ok u_ t r es : ledger_ok es → ledger_ok (mark_first isoformat u_ t r es).
Proof using Type.
  intros Hok. assert (H : ∀ es, url <$> mark_first isoformat u_ t r es = url <$> es ∧
    length (filter (λ e, primary e = true) (mark_first isoformat u_ t r es)) =
    length (filter (λ e, primary e = true) es)).
  { clear. induction es as [|e es [IH1 IH2]]; [done|]. simpl. destruct (bool_decide _); [destruct r|].
    - split; [done|]. rewrite !filter_cons. by destruct (decide _).
    - done.
    - rewrite !fmap_cons, IH1, !filter_cons. split; [done|]. destruct (decide _); simpl; congruence. }
  destruct Hok as [Hd Hp]. destruct (H es) as [H1 H2]. split; congruence.
Qed.

Lemma probe_lab_step r world later lab s :
  (∀ d, labs_step d (world d)) → ledger_ok (load_entries py_str lab) →
  moves_at labs_step (probe_lab py_str isoformat r world later lab) s.
Proof using str_str.
  intros Hw Hld. unfold probe_lab. destruct (load_entries py_str lab) as [|e0 es] eqn:Hes; [apply moves_at_of, _|].
  rewrite <- Hes. rewrite <- Hes in Hld. clear e0 es Hes.
  apply moves_at_bind; [apply _|intros r1 s' Hc [= <- <-]; split; [done|]; split; [done|]; apply Hw|].
  intros u1 s1 Hc [= <- <-]. eapply moves_at_read; [apply _|reflexivity|]. cbv zeta.
  eapply moves_at_read; [apply _|reflexivity|]. apply moves_at_bind; [apply _| |intros; apply moves_at_of, _].
  unfold when. destruct (negb _); [|apply moves_at_of, _].
  apply moves_at_bind; [apply _| |intros; apply moves_at_of, _]. apply set_lab_step.
  unfold load_entries. cbn. rewrite load_docs. apply stamped_ok; [|done]. intros e. by destruct (r (url e)).
Qed.

Lemma edit_step e lab s :
  edit_ok e → ledger_ok (load_entries py_str lab) → moves_at labs_step (run_edit e lab) s.
Proof using str_str.
  intros He Hld. destruct e; simpl run_edit.
  - unfold add_url. do 3 (apply moves_at_guard; [apply _|intros _]). by apply persist_step, added_ok.
  - by apply persist_step, filter_ledger.
  - unfold mark_reachable. eapply moves_at_read; [apply _|reflexivity|]. cbv zeta.
    destruct (existsb _ _); [|apply moves_at_of, _]. by apply persist_step, mark_first_ok.
  - apply moves_at_bind; [apply _|by apply probe_lab_step|]. intros [l b] s1 _ _. apply moves_at_of, _.
Qed.

Lemma get_lab_run lab_id s :
  _get_lab lab_id s = some_or_raise (labs (db s) !! lab_id) (HTTPException 404 "lab not found") s.
Proof using Type. reflexivity. Qed.

Lemma edit_lab_step lab_id e s : edit_ok e → labs_ok (db s) → moves_at labs_step (edit_lab lab_id e) s.
Proof using str_str.
  intros He Hok. unfold edit_lab. destruct (labs (db s) !! lab_id) as [lab|] eqn:Hl.
  - apply moves_at_read with lab; [apply _| |apply edit_step; [done|apply (Hok _ _ Hl)]].
    by rewrite get_lab_run, Hl.
  - apply moves_at_bind; [apply _|apply moves_at_of, _|].
    intros lab s1 _ Hrun. by rewrite get_lab_run, Hl in Hrun.
Qed.

(** A history of edits, a transaction each. *)
Fixpoint edits (es : list (Z * edit)) (now : Z) (uuid : string) (d : Db) : Db :=
  match es with
  | [] => d
  | (lab_id, e) :: es => edits es now uuid (get_session (edit_lab lab_id e) d now uuid).2
  end.

(** whatever sequence of additions, removals, reachability marks and
    probes runs on the labs, whatever they are refused, the addresses of a lab
    stay distinct with at most one primary, and what others commit while a
    probe is under way does not change that if it keeps the same rule. *)
Theorem ledger_history es now uuid d :
  Forall (λ p, edit_ok p.2) es → labs_ok d → labs_ok (edits es now uuid d).
Proof using str_str.
  intros Hes. revert d. induction Hes as [|[lab_id e] es He Hes IH]; intros d Hd; [done|].
  simpl. apply IH. refine (moves_at_get_session labs_step _ _ _ _ _ Hd). by apply edit_lab_step.
Qed.

(** ** What agents get *)

Definition text_or_null (v : json) : Prop := v = JNull ∨ ∃ t, v = JStr t.

(** Stamps as this module writes them. *)
Definition stamped (e : UrlEntry) : Prop := text_or_null (verified_at e) ∧ text_or_null (last_reachable_at e).

(** The instant a stamp holds is not older than [now - 10 min]. *)
Definition fresh (now : Z) (v : json) : bool :=
  match v with
  | JStr t => match (if bool_decide (t = EmptyString) then None else parse_iso t) with
              | Some at_ => bool_decide (now - seconds AGENT_URL_STALE_SECONDS <= at_)
              | None => false
              end
  | _ => false
  end.

Definition never_probed (v : json) : bool := negb (truthy (Some v)).

(** An address worth giving out. *)
Definition offered (now : Z) (e : UrlEntry) : bool :=
  negb (bool_decide (kind e ∈ EPHEMERAL_AGENT_URL_KINDS)) ||
  (bool_decide (source e = "tunnel_runtime"%string) && never_probed (verified_at e) &&
   never_probed (last_reachable_at e)) ||
  fresh now (last_reachable_at e) || fresh now (verified_at e).

Lemma is_recent_typed v now : text_or_null v → _is_recent parse_iso v now (seconds AGENT_URL_STALE_SECONDS) = Ok (fresh now v).
Proof using Type.
  intros [->|[t ->]]; [done|]. unfold _is_recent, _parse_iso_datetime. simpl.
  destruct (bool_decide _); simpl; [done|]. by destruct (parse_iso t).
Qed.

Lemma candidate_typed e now :
  stamped e → _is_agent_url_candidate parse_iso e now (seconds AGENT_URL_STALE_SECONDS) = Ok (offered now e).
Proof using Type.
  intros [Hv Hl]. unfold _is_agent_url_candidate, offered, never_probed.
  destruct (bool_decide (kind e ∈ _)); [|done]. simpl negb. simpl orb.
  destruct (bool_decide _ && _ && _); [done|]. simpl. rewrite !is_recent_typed by done. by destruct (fresh now _).
Qed.

Lemma candidates_typed (es : list UrlEntry) now :
  Forall stamped es →
  candidates parse_iso es now (seconds AGENT_URL_STALE_SECONDS) = Ok (url <$> filter (λ e, offered now e = true) es).
Proof using Type.
  induction 1 as [|e es He _ IH]; [done|]. simpl. rewrite candidate_typed, IH by done.
  rewrite filter_cons. by destruct (offered now e); simpl.
Qed.

(** with stamps the module itself wrote, what the agents are given is in
    the order of the ledger the addresses that are not those of an ephemeral
    tunnel, that tunnel's when it has just been opened and was never probed,
    and those whose last successful probe is at most ten minutes old; when
    none is left, all of them.  So a lab with an address never leaves its
    agents without one. *)
Theorem agent_urls_only_spec lab now :
  Forall stamped (load_entries py_str lab) →
  let good := filter (λ e, offered now e = true) (load_entries py_str lab) in
  agent_urls_only py_str parse_iso lab now =
    Ok (if bool_decide (good = []) then urls_only py_str lab else url <$> good) ∧
  (agent_urls_only py_str parse_iso lab now = Ok [] ↔ urls_only py_str lab = []).
Proof using Type.
  intros Hs good. unfold agent_urls_only, urls_only, good. clear good.
  assert (Hc := candidates_typed _ now Hs). destruct (load_entries py_str lab) as [|e es]; [by simpl|].
  rewrite Hc. clear. destruct (filter _ (e :: es)) as [|e' good]; by simpl.
Qed.
End urls.

(** ** Closed instances *)

Definition sample_str (v : json) : string := match v with JStr s => s | _ => "?"%string end.
Definition sample_iso (t : Z) : string := pretty t.
Definition sample_parse (s : string) : option Z := if bool_decide (s = "0"%string) then Some 0 else None.

Definition quick : UrlEntry :=
  mkUrl "https://q.trycloudflare.com" "cloudflare_quick" "tunnel_runtime" (JStr "0") (JStr "0") false.
Definition lan : UrlEntry := mkUrl "http://10.0.0.5" "lan" "manual_admin" JNull JNull true.

Lemma quick_stamped : stamped quick.
Proof. split; right; by eexists. Qed.

Lemma lan_stamped : stamped lan.
Proof. split; by left. Qed.

Definition url_lab (es : list UrlEntry) : Lab.t := Lab.mk 1 "lab" "lab" (to_dict <$> es) "none" None.
Definition url_db (es : list UrlEntry) : Db := sample_db [] <| labs := {[1 := url_lab es]} |>.

Lemma url_db_ok es : ledger_ok es → labs_ok sample_str (url_db es).
Proof.
  intros Hes k lab Hl. change (({[1 := url_lab es]} : gmap Z Lab.t) !! k = Some lab) in Hl.
  apply lookup_singleton_Some in Hl as [<- <-]. split; [done|].
  unfold load_entries. cbn. by rewrite load_docs.
Qed.

Lemma quick_lan_ok : ledger_ok [quick; lan].
Proof. split; [|by vm_compute]. repeat constructor; set_solver. Qed.

Definition sample_edits : list (Z * edit) :=
  [(1, edit_add "https://x.org" "custom_domain" "manual_admin" true);
   (1, edit_add "https://x.org" "lan" "manual_admin" false); (2, edit_remove "http://10.0.0.5");
   (1, edit_probe (λ u, bool_decide (u = "https://x.org"%string)) id 60); (1, edit_mark "http://10.0.0.5" true)].

Lemma ledger_history_witness :
  labs_ok sample_str (url_db [quick; lan]) ∧
  labs_ok sample_str (edits sample_str sample_iso sample_edits 7 "u" (url_db [quick; lan])).
Proof.
  assert (H : labs_ok sample_str (url_db [quick; lan])) by apply url_db_ok, quick_lan_ok.
  split; [exact H|]. apply ledger_history; [done| |exact H].
  repeat (apply Forall_cons_2; [first [exact I | intros d Hd; exact Hd]|]). apply Forall_nil_2.
Defined.

Lemma agent_urls_only_spec_witness :
  agent_urls_only sample_str sample_parse (url_lab [quick; lan]) (seconds 601) = Ok ["http://10.0.0.5"%string] ∧
  agent_urls_only sample_str sample_parse (url_lab [quick]) (seconds 601) = Ok ["https://q.trycloudflare.com"%string].
Proof.
  split.
  - eapply eq_trans; [|reflexivity].
    refine (proj1 (agent_urls_only_spec sample_str sample_parse (url_lab [quick; lan]) (seconds 601) _)).
    change (Forall stamped [quick; lan]).
    eauto using Forall_cons_2, Forall_nil_2, quick_stamped, lan_stamped.
  - eapply eq_trans; [|reflexivity].
    refine (proj1 (agent_urls_only_spec sample_str sample_parse (url_lab [quick]) (seconds 601) _)).
    change (Forall stamped [quick]).
    eauto using Forall_cons_2, Forall_nil_2, quick_stamped, lan_stamped.
Defined.

(** While the probes of a tick are under way, an administrator removes an
    address; the tick writes back the list it had read, address included. *)
Definition admin_removes (d : Db) : Db :=
  (get_session (edit_lab sample_str sample_iso 1 (edit_remove "http://10.0.0.5")) d 60 "u").2.

Example probe_undoes_a_removal :
  let d := (get_session (url_probe_tick sample_str sample_iso (λ _, true) admin_removes 60)
              (url_db [quick; lan]) 7 "u").2 in
  urls_only sample_str <$> (labs (admin_removes (url_db [quick; lan])) !! 1) = Some ["https://q.trycloudflare.com"%string] ∧
  urls_only sample_str <$> (labs d !! 1) = Some ["https://q.trycloudflare.com"; "http://10.0.0.5"]%string.
Proof. by vm_compute. Qed.

#[local] Open Scope N_scope.

(** ** Normal form *)

Definition slash_free_end (s : pystr) : Prop := match rev s with c :: _ => c ≠ 47 | [] => True end.

Lemma rstrip_slash_end s : slash_free_end (rstrip_slash s).
Proof.
  unfold slash_free_end, rstrip_slash. rewrite rev_involutive. induction (rev s) as [|c r IH]; [done|]. simpl.
  destruct (N.eqb_spec c 47); done.
Qed.

Lemma rstrip_slash_id s : slash_free_end s → rstrip_slash s = s.
Proof.
  unfold slash_free_end, rstrip_slash. intros H. rewrite <- (rev_involutive s) at 2. f_equal.
  destruct (rev s) as [|c r]; [done|]. by destruct (N.eqb_spec c 47).
Qed.

Lemma slash_free_app a b : b ≠ [] → slash_free_end b → slash_free_end (a ++ b).
Proof.
  unfold slash_free_end. rewrite rev_app_distr. destruct (rev b) as [|c r] eqn:Hb; [|done].
  intros Hn. destruct Hn. by rewrite <- (rev_involutive b), Hb.
Qed.

Lemma startswith_split s p : startswith s p = true ↔ ∃ r, s = p ++ r.
Proof.
  revert s. induction p as [|c p IH]; intros s; [rewrite startswith_nil; split; [by exists s|done]|].
  destruct s as [|d s]; simpl; [split; [done|by intros (r & ?)]|].
  rewrite andb_true_iff, bool_decide_eq_true, IH. split.
  - intros [-> (r & ->)]. by exists r.
  - intros (r & [= <- ->]). eauto.
Qed.

Lemma endswith_app a b : endswith (a ++ b) b = true.
Proof. unfold endswith. rewrite rev_app_distr. apply startswith_split. by exists (rev a). Qed.

(** What the backend makes of an address: it has no web scheme, and ends in
    the path. *)
Definition normal (a : pystr) : Prop :=
  startswith a (u "https://") = false ∧ startswith a (u "http://") = false ∧
  endswith a (u "/ws/agent") = true ∧ slash_free_end a.

(** A prefix of two texts in a row ends in the first or goes on in the
    second. *)
Lemma startswith_app_cases a b p :
  startswith (a ++ b) p = true →
  startswith a p = true ∨ (length a < length p)%nat ∧ a = take (length a) p ∧ startswith b (drop (length a) p) = true.
Proof.
  revert a. induction p as [|c p IH]; intros a H; [left; apply startswith_nil|].
  destruct a as [|d a]; simpl in *; [right; split; [lia|done]|].
  apply andb_true_iff in H as [->%bool_decide_eq_true H]. rewrite bool_decide_eq_true_2 by done.
  destruct (IH a H) as [->|(H1 & H2 & H3)]; [by left|right]. split; [lia|]. split; [by f_equal|done].
Qed.

(** Appending the path makes no web scheme out of what was none. *)
Lemma no_scheme_app a p :
  slash_free_end a → p = u "https://" ∨ p = u "http://" → startswith a p = false →
  startswith (a ++ u "/ws/agent") p = false.
Proof.
  intros Hend Hp Hs. apply not_true_iff_false.
  intros [Hs'|(Hlen & Ha & Hb)]%startswith_app_cases; [congruence|].
  revert Hend Hlen Ha Hb. generalize (length a). intros k Hend Hlen ->.
  destruct Hp as [-> | ->]; revert Hend Hlen; do 8 (destruct k as [|k]; [by vm_compute|]); simpl; lia.
Qed.

Lemma to_wss_normal a : normal (_to_wss a).
Proof.
  unfold _to_wss. set (s := rstrip_slash a). pose proof (rstrip_slash_end a) as Hend. fold s in Hend.
  set (t := if startswith s (u "https://") then _ else _).
  assert (Ht : startswith t (u "https://") = false ∧ startswith t (u "http://") = false ∧ slash_free_end t).
  { unfold t. destruct (startswith s (u "https://")) eqn:H1.
    - apply startswith_split in H1 as (r & Hr). rewrite Hr.
      change (drop 8 (u "https://" ++ r)) with r. split_and!; [done|done|]. clear t. clearbody s. subst s.
      destruct (decide (r = [])) as [->|Hn]; [by vm_compute in Hend|].
      apply slash_free_app; [done|]. unfold slash_free_end in *. rewrite rev_app_distr in Hend.
      destruct (rev r) as [|c q] eqn:Hq; [done|exact Hend].
    - destruct (startswith s (u "http://")) eqn:H2; [|done].
      apply startswith_split in H2 as (r & Hr). rewrite Hr.
      change (drop 7 (u "http://" ++ r)) with r. split_and!; [done|done|]. clear t H1. clearbody s. subst s.
      destruct (decide (r = [])) as [->|Hn]; [by vm_compute in Hend|].
      apply slash_free_app; [done|]. unfold slash_free_end in *. rewrite rev_app_distr in Hend.
      destruct (rev r) as [|c q] eqn:Hq; [done|exact Hend]. }
  destruct Ht as (H1 & H2 & H3). destruct (endswith t (u "/ws/agent")) eqn:He; [done|].
  split_and!; [by apply no_scheme_app; auto|by apply no_scheme_app; auto|apply endswith_app|].
  apply slash_free_app; [done|by vm_compute].
Qed.

(** The query the agent adds. *)
Definition query (c : AgentConfig) : pystr :=
  match (if str_truthy (token_of c) then [u "token=" ++ text_of (default ""%string (token_of c))] else []) ++
        (match server_id c with Some i => [u "server_id=" ++ decimal_text i] | None => [] end) with
  | [] => []
  | params => u "?" ++ PyText.join (u "&") params
  end.

Lemma connect_url_normal c a : normal a → _build_connect_url_from_base c a = a ++ query c.
Proof.
  intros (H1 & H2 & H3 & H4). unfold _build_connect_url_from_base. rewrite (rstrip_slash_id _ H4), H1, H2, H3.
  unfold query. destruct (_ ++ _); by rewrite ?app_nil_r.
Qed.

Lemma to_wss_valid a :
  Forall (λ c, scalar_value c = true) a → Forall (λ c, scalar_value c = true) (_to_wss a).
Proof.
  intros H. unfold _to_wss.
  assert (Hs : Forall (λ c, scalar_value c = true) (rstrip_slash a)).
  { unfold rstrip_slash. apply Forall_rev. apply Forall_rev in H. induction H as [|c r Hc Hr IH]; [done|].
    destruct (c =? 47); [done|by apply Forall_cons]. }
  set (t := if startswith (rstrip_slash a) (u "https://") then _ else _).
  assert (Ht : Forall (λ c, scalar_value c = true) t).
  { unfold t. destruct (startswith _ _); [|destruct (startswith _ _); [|done]];
      (apply Forall_app; split; [chars|by apply Forall_drop]). }
  destruct (endswith _ _); [done|]. apply Forall_app. split; [done|chars].
Qed.

(** ** The list on its way *)

(** The acknowledgement: [error] is that of writing the file. *)
Definition urls_ack (applied : list string) (error : option string) : json :=
  match error with
  | None => JObj [("ok", JBool true); ("applied_urls", JList (JStr <$> applied)); ("error", JNull)]%string
  | Some m => JObj [("ok", JBool false); ("applied_urls", JList []);
                    ("error", JStr ("persist failed: " +:+ m))]%string
  end.

Section push.
Context {coerce : scalar → json → option json} {isoformat : Z → string} `{!ScalarLaws coerce isoformat}.
Context (int_of_str : string → option Z) {S : Type} (h : surroundings S).

Definition urls_payload (urls : list string) : json := JObj [("urls", JList (JStr <$> urls))]%string.


Lemma urls_payload_typed urls : typed BackendConfigUpdateUrlsRequest (urls_payload urls) = true.
Proof using Type.
  apply typed_model. split; [done|]. repeat constructor. cbn. apply forallb_elem.
  by intros v (a & -> & _)%list_elem_of_fmap.
Qed.

Lemma parse_urls_frame env id ts urls :
  parse_envelope coerce env (urls_frame isoformat id ts urls) =
    Ok (make_envelope isoformat "backend.config.update_urls" id ts (urls_payload (ws_address <$> urls)) None,
        urls_payload (ws_address <$> urls)).
Proof using ScalarLaws0.
  destruct (parse_connect_frame (isoformat := isoformat) env "backend.config.update_urls"
              BackendConfigUpdateUrlsRequest (urls_payload (ws_address <$> urls)) id ts)
    as (o & Ho & Hp); [apply (bool_decide_unpack _); by vm_compute|done|apply urls_payload_typed|].
  rewrite <- Hp. f_equal. unfold connect_frame, urls_frame. repeat f_equal.
  enough (to_wire isoformat (urls_payload (ws_address <$> urls)) = urls_payload (ws_address <$> urls)) as Hw
    by (rewrite Hw in Ho; unfold urls_payload in Ho; by injection Ho as <-).
  cbn. unfold urls_payload. do 4 f_equal. rewrite <- list_fmap_compose. apply list_fmap_ext. done.
Qed.

Lemma text_wrapped (l : list string) : text <$> (JStr <$> l) = l.
Proof using Type. rewrite <- list_fmap_compose. by apply list_fmap_id. Qed.

(** What the handler does with a list of addresses. *)
Lemma handle_urls urls c :
  urls ≠ [] →
  let c1 := c <| config := config c <| backend_urls := urls |> |> in
  handle_update_urls h (urls_payload urls) c =
    match config_file c with
    | None => (Some ("agent.config.update_urls.ack"%string, urls_ack urls None), c1)
    | Some file =>
        match write_error h with
        | Some m => (Some ("agent.config.update_urls.ack"%string, urls_ack urls (Some m)), c1)
        | None => (Some ("agent.config.update_urls.ack"%string, urls_ack urls None),
                   c1 <| config_file := Some (Some (_rewrite_backend_urls_in_toml (default [] file)
                                                      (text_of <$> urls))) |>)
        end
    end.
Proof using Type.
  intros Hn. unfold handle_update_urls.
  change (items (get_field "urls" (urls_payload urls))) with (JStr <$> urls). rewrite text_wrapped.
  destruct urls as [|a urls]; [done|]. cbn zeta. change (config_file (c <| config := _ |>)) with (config_file c).
  unfold _persist_backend_urls. destruct (config_file c) as [file|]; [|done]. by destruct (write_error h).
Qed.

Lemma dispatch_urls f id ts urls c :
  rx_raw f = Some (urls_frame isoformat id ts urls) → rx_sent f = true → urls ≠ [] →
  dispatch coerce isoformat int_of_str h f c =
    match handle_update_urls h (urls_payload (ws_address <$> urls)) c with
    | (None, c) => (raised, c)
    | (Some r, c) => (replied (to_wire isoformat (make_envelope isoformat r.1 (rx_reply_id f) (rx_now f) r.2 (Some id))) [], c)
    end.
Proof using ScalarLaws0.
  intros Hr Hs Hn. unfold dispatch, AgentHandlers._maybe_dispatch_rpc. rewrite Hr, parse_urls_frame. cbn zeta.
  change (envelope_type (make_envelope _ "backend.config.update_urls" _ _ _ _)) with "backend.config.update_urls"%string.
  change (invoke_other h (rx_sent f) (rx_now f) "backend.config.update_urls" ?p c) with (handle_update_urls h p c).
  rewrite Hs. done.
Qed.
End push.

(** C28: An address list that the backend pushes is the one its agent uses.
    The frame for the addresses an administrator keeps is accepted by the
    agent, whose connections from then on go to these addresses in their
    order, with the websocket scheme and path; nothing else it knows changes.
    When the configuration file can be written, the acknowledgement is a
    success, and a restart with the new file finds the same addresses and the
    other settings as they were -- if the addresses need no escape in TOML and
    the old file was one of those that [read_toml] reads: one setting to a
    line.  When it cannot, the
    acknowledgement is a failure, and the running agent uses the addresses all
    the same. *)
Theorem urls_push_applied {coerce isoformat} `{!ScalarLaws coerce isoformat} int_of_str {S}
    (h : surroundings S) f id ts us (c : Client S) :
  us ≠ [] → Forall (Forall (λ a, scalar_value a = true)) us →
  rx_raw f = Some (urls_frame isoformat id ts (utf8 <$> us)) → rx_sent f = true →
  let urls := _to_wss <$> us in
  let failure := match config_file c with Some _ => write_error h | None => None end in
  ∃ file',
    let c' := c <| config := config c <| backend_urls := utf8 <$> urls |> |> <| config_file := file' |> in
    dispatch coerce isoformat int_of_str h f c =
      (replied (to_wire isoformat (make_envelope isoformat "agent.config.update_urls.ack" (rx_reply_id f) (rx_now f)
                                     (urls_ack (utf8 <$> urls) failure) (Some id))) [], c') ∧
    build_connect_urls (config c') = (λ a, a ++ query (config c)) <$> urls ∧
    (is_Some failure → file' = config_file c) ∧
    (failure = None → ∀ text saved, config_file c = Some (Some text) →
       load_config coerce text = Some saved → Forall clean_url urls →
       ∃ text' legacy, file' = Some (Some text') ∧
         load_config coerce text' = Some (saved <| backend_urls := utf8 <$> urls |> <| backend_url := legacy |>)).
Proof.
  intros Hn Hv Hr Hs urls failure.
  assert (Hws : ws_address <$> (utf8 <$> us) = utf8 <$> urls).
  { unfold urls. rewrite <- !list_fmap_compose. apply list_fmap_ext. intros i a Ha. unfold compose, ws_address.
    rewrite text_of_utf8; [done|]. by eapply (proj1 (Forall_lookup _ us)). }
  assert (Hback : text_of <$> (utf8 <$> urls) = urls).
  { unfold urls. rewrite <- !list_fmap_compose. apply list_fmap_ext. intros i a Ha. unfold compose.
    apply text_of_utf8, to_wss_valid. by eapply (proj1 (Forall_lookup _ us)). }
  assert (Hne : utf8 <$> urls ≠ []) by (unfold urls; by destruct us).
  rewrite (dispatch_urls int_of_str h f id ts _ c Hr Hs) by by destruct us. rewrite Hws, handle_urls by done.
  assert (Hb : ∀ file', build_connect_urls (config (c <| config := config c <| backend_urls := utf8 <$> urls |> |>
                                              <| config_file := file' |>)) =
                (λ a, a ++ query (config c)) <$> urls).
  { intros file'. unfold build_connect_urls. cbn [config backend_urls].
    change (backend_urls (config (c <| config := config c <| backend_urls := utf8 <$> urls |> |>
              <| config_file := file' |>))) with (utf8 <$> urls).
    rewrite <- list_fmap_compose. apply list_fmap_ext. intros i a Ha. unfold compose.
    unfold urls in Ha. apply list_lookup_fmap_Some in Ha as (b & -> & Hb). rewrite text_of_utf8.
    - by rewrite (connect_url_normal _ _ (to_wss_normal _)).
    - apply to_wss_valid. by eapply (proj1 (Forall_lookup _ us)). }
  assert (Hsame : ∀ g, c <| config := g |> = c <| config := g |> <| config_file := config_file c |>) by by destruct c.
  unfold failure. destruct (config_file c) as [file|] eqn:Hf; [destruct (write_error h) as [m|]|].
  - exists (Some file). rewrite Hsame. split; [reflexivity|]. split; [apply Hb|]. done.
  - eexists. split; [reflexivity|]. split; [apply Hb|]. split; [by intros [? ?]|].
    intros _ text saved [= ->] Hl Hc. rewrite Hback.
    destruct (rewritten_loads (isoformat := isoformat) text urls saved) as [legacy Hrl]; [by destruct us|done..|].
    eauto.
  - exists None. rewrite Hsame. split; [reflexivity|]. split; [apply Hb|]. split; [by intros [? ?]|]. done.
Qed.

(** ** Closed instance *)

(** The laboratory moved behind a tunnel: its address is pushed to an agent
    installed with others. *)
Definition tunnel : pystr := u "https://tunnel.example/".

Definition tunnel_frame : json := urls_frame decimal_isoformat "f00d" 7 (utf8 <$> [tunnel]).

Definition installed_client : Client unit :=
  sample_client two_urls <| config_file := Some (Some installed_config) |>.

Lemma urls_push_applied_witness :
  ∃ c' text' saved legacy,
    (dispatch exact_scalars decimal_isoformat (λ _, None) bare_host (arrived tunnel_frame) installed_client).2 = c' ∧
    build_connect_urls (config c') = [u "wss://tunnel.example/ws/agent?token=secret&server_id=3"] ∧
    config_file c' = Some (Some text') ∧ load_config exact_scalars installed_config = Some saved ∧
    load_config exact_scalars text' =
      Some (saved <| backend_urls := ["wss://tunnel.example/ws/agent"%string] |> <| backend_url := legacy |>).
Proof.
  destruct (load_config exact_scalars installed_config) as [saved|] eqn:Hc; [|by vm_compute in Hc].
  destruct (urls_push_applied (λ _, None) bare_host (arrived tunnel_frame) "f00d" 7 [tunnel] installed_client)
    as (file' & Hd & Hb & _ & Hs); [done|by apply Forall_singleton; chars|reflexivity|reflexivity|].
  destruct (Hs eq_refl installed_config saved eq_refl Hc) as (text' & legacy & -> & Hl).
  { apply Forall_singleton. unfold clean_url. chars. }
  exists (installed_client <| config := config installed_client <| backend_urls := utf8 <$> (_to_wss <$> [tunnel]) |> |>
            <| config_file := Some (Some text') |>), text', saved, legacy.
  split; [by rewrite Hd|]. split; [rewrite Hb; by vm_compute|]. split; [done|]. split; [done|].
  rewrite Hl. reflexivity.
Defined.
