(* ===== verification/SetupService.v ===== *)
(** The first run: one laboratory and its first administrator
    ([services/setup_service.py], [api/v1/setup.py], [schemas/setup.py] and
    the patterns of [schemas/user.py] under [backend/corelab_backend]).

    [ci] is the key of the collation, [py_lower] is [str.lower], [token] what
    [secrets.token_hex(4)] gives, [loads] is [json.loads] on what Redis
    answers ([None] when either decoding fails), [public_url] the setting
    [backend_public_url].  A request works on the session and on Redis. *)

From S2P Require Import Prelude PyText Models SessionLayer RequestLayer.
From S2P Require Import RateLimit AuditService AuthService LabUrlService.

#[local] Open Scope N_scope.

(** * Names *)

Definition in_range (lo hi c : N) : bool := (lo <=? c) && (c <=? hi).
Definition lower_letter (c : N) : bool := in_range 97 122 c.
Definition upper_letter (c : N) : bool := in_range 65 90 c.
Definition digit (c : N) : bool := in_range 48 57 c.
Definition hyphen : N := 45.
Definition alnum (c : N) : bool := lower_letter c || upper_letter c || digit c.

(** [LabSlugPattern], [^[a-z][a-z0-9-]{1,49}$], matched in full. *)
Definition slug_char (c : N) : bool := lower_letter c || digit c || (c =? hyphen).
Definition matches_slug (s : pystr) : bool :=
  match s with
  | c :: rest => lower_letter c && forallb slug_char rest &&
                 (1 <=? length rest)%nat && (length rest <=? 49)%nat
  | [] => false
  end.

(** [UsernamePattern], [^[a-z][a-z0-9_-]{2,63}$], matched in full. *)
Definition username_char (c : N) : bool := slug_char c || (c =? 95).
Definition matches_username (s : pystr) : bool :=
  match s with
  | c :: rest => lower_letter c && forallb username_char rest &&
                 (2 <=? length rest)%nat && (length rest <=? 63)%nat
  | [] => false
  end.

(** [\s] of a regular expression on text. *)
Definition regex_space (c : N) : bool :=
  in_range 9 13 c || in_range 8192 8202 c ||
  bool_decide (c ∈ [32; 133; 160; 5760; 8232; 8233; 8239; 8287; 12288]).

(** The text before and after the first [@]. *)
Fixpoint split_at (s : pystr) : option (pystr * pystr) :=
  match s with
  | [] => None
  | c :: s => if c =? 64 then Some ([], s) else '(a, b) ← split_at s ; Some (c :: a, b)
  end.

Definition email_char (c : N) : bool := negb (c =? 64) && negb (regex_space c).

(** [^[^@\s]+@[^@\s]+\.[^@\s]+$] *)
Definition matches_email (s : pystr) : bool :=
  match split_at s with
  | Some (name, domain) =>
      negb (bool_decide (name = [])) && forallb email_char name && forallb email_char domain &&
      existsb (λ c, c =? 46) (removelast (tail domain))
  | None => false
  end.

(** ** A slug from the name of the laboratory *)

(** [re.sub("[^a-zA-Z0-9]+", "-", s)]; [run] says that the characters before
    are being replaced. *)
Fixpoint hyphenate (run : bool) (s : pystr) : pystr :=
  match s with
  | [] => []
  | c :: s => if alnum c then c :: hyphenate false s
              else if run then hyphenate true s else hyphen :: hyphenate true s
  end.

(** [s.strip("-")] *)
Fixpoint lstrip_hyphen (s : pystr) : pystr :=
  match s with
  | c :: s' => if c =? hyphen then lstrip_hyphen s' else s
  | [] => []
  end.
Definition strip_hyphen (s : pystr) : pystr := rev (lstrip_hyphen (rev (lstrip_hyphen s))).

Section setup.
Context (py_lower : pystr → pystr).

Definition derive_slug (token lab_name : pystr) : pystr :=
  let cleaned := strip_hyphen (hyphenate false (py_lower lab_name)) in
  let cleaned := match cleaned with
                 | c :: _ => if lower_letter c || upper_letter c then cleaned else u "lab-" ++ cleaned
                 | [] => cleaned
                 end in
  let cleaned := take 50 cleaned in
  if (length cleaned <? 2)%nat then u "lab-" ++ token else cleaned.

(** * The request *)

Record SetupInitRequest : Type := mkSetup {
  si_lab_name : pystr ;
  si_lab_slug : option pystr ;
  si_admin_username : pystr ;
  si_admin_email : pystr ;
  si_admin_display_name : pystr ;
  si_admin_password : pystr }.
#[export] Instance eta_SetupInitRequest : Eta SetupInitRequest := λ r,
  mkSetup (si_lab_name r) (si_lab_slug r) (si_admin_username r) (si_admin_email r) (si_admin_display_name r)
    (si_admin_password r).

Definition sized (lo hi : nat) (s : pystr) : bool := (lo <=? length s)%nat && (length s <=? hi)%nat.

(** [_slug_pattern]: an empty text counts as none; [None] is a refusal. *)
Definition _slug_pattern (v : option pystr) : option (option pystr) :=
  match v with
  | None | Some [] => Some None
  | Some s => if matches_slug s then Some (Some s) else None
  end.

(** What the class makes of the fields: 422 when it refuses them. *)
Definition validate_setup (r : SetupInitRequest) : option SetupInitRequest :=
  if sized 1 100 (si_lab_name r) &&
     match si_lab_slug r with Some s => sized 0 50 s | None => true end &&
     sized 3 64 (si_admin_username r) && matches_username (si_admin_username r) &&
     sized 3 255 (si_admin_email r) && matches_email (si_admin_email r) &&
     sized 1 100 (si_admin_display_name r) && sized 8 256 (si_admin_password r)
  then slug ← _slug_pattern (si_lab_slug r) ; Some (r <| si_lab_slug := slug |>)
  else None.

(** * The staged addresses *)

Definition SEED_URLS_REDIS_KEY : string := "corelab:install:seed_urls".

Context (py_str : json → string) (loads : string → option json).

(** [GET] *)
Definition get_key {R} `{Redis R} (now : Z) (key : string) (r : R) : option string := RateLimit.text_of (peek now r key).

Definition mark_primary (entries : list UrlEntry) : list UrlEntry :=
  match entries with
  | e :: rest => if existsb primary entries then entries else e <| primary := true |> :: rest
  | [] => []
  end.

(** [reads] and [deletes] say whether the two commands reach Redis. *)
Definition _load_seed_urls {R} `{Redis R} (reads deletes : bool) : Handler R (list UrlEntry) := λ w,
  match client w.2 with
  | None => (Ok [], w)
  | Some r =>
      if negb reads then (Ok [], w)
      else match get_key (now_ms w.1) SEED_URLS_REDIS_KEY r with
           | None => (Ok [], w)
           | Some raw =>
               match loads raw with
               | Some (JList data) =>
                   let r := if deletes then delete_key (now_ms w.1) SEED_URLS_REDIS_KEY r else r in
                   (Ok (mark_primary (omap (from_dict py_str) data)), (w.1, w.2 <| client := Some r |>))
               | _ => (Ok [], w)
               end
           end
  end.

Definition _fallback_seed_url (public_url : string) : list UrlEntry :=
  if bool_decide (public_url = EmptyString) then []
  else
    let lowered := lower (PyText.text_of public_url) in
    let kind := if contains lowered (u "localhost") || contains lowered (u "127.0.0.1")
                then "lan"%string else "public_ip"%string in
    [mkUrl public_url kind "install_sh_probe" JNull JNull true].

(** * The laboratory and its administrator *)

Context (ci : string → string) (bcrypt_hash : string → string).

Definition is_initialized : M bool := gets (λ s, negb (bool_decide (labs (db s) = ∅))).

(** [uq_lab_slug] *)
Definition slug_taken (d : Db) (slug : string) : bool :=
  existsb (λ l, bool_decide (ci (Lab.slug l) = ci slug)) (rows (labs d)).

(** [session.add(lab); flush()] *)
Definition add_lab (name slug : string) : M Lab.t := λ s,
  let id := next_lab_id (db s) in
  let row := Lab.mk id name slug [] "none" None in
  if slug_taken (db s) slug then (Raise (IntegrityError "uq_lab_slug"), s)
  else (Ok row, s <| db := db s <| labs := <[id := row]> (labs (db s)) |> <| next_lab_id := (id + 1)%Z |> |>).

(** [except IntegrityError as exc: raise SetupError] *)
Definition or_setup_error {A} (m : M A) : M A :=
  mapping m (λ e, match e with IntegrityError _ => SetupError | _ => e end).

Definition new_admin (lab_id : Z) (p : SetupInitRequest) (id : Z) : User.t :=
  User.mk id lab_id (utf8 (si_admin_username p)) (utf8 (si_admin_display_name p)) "lab_admin" 1
    (utf8 (si_admin_email p)) (Some (hash_password bcrypt_hash (utf8 (si_admin_password p)))) None None.

Context (token : pystr) (public_url : string).

Definition setup_slug (p : SetupInitRequest) : pystr :=
  match si_lab_slug p with Some (c :: s) => c :: s | _ => derive_slug token (si_lab_name p) end.

(** [initialize], after its check. *)
Definition install {R} `{Redis R} (reads deletes : bool) (p : SetupInitRequest) (req : RequestInfo) :
    Handler R (Lab.t * User.t) :=
  lab ← in_session (or_setup_error (add_lab (utf8 (si_lab_name p)) (utf8 (setup_slug p)))) ;
  seed_entries ← _load_seed_urls reads deletes ;
  let seed_entries := if bool_decide (seed_entries = []) then _fallback_seed_url public_url else seed_entries in
  lab ← (if bool_decide (seed_entries = []) then mret lab else in_session (replace_all lab seed_entries)) ;
  admin ← in_session (or_setup_error (add_user ci (new_admin (Lab.id lab) p))) ;
  in_session (write "setup.init" (Some (User.id admin)) (Some (Lab.id lab)) (Some "lab"%string) (Some (Lab.id lab))
    None None
    (JObj [("lab_slug", JStr (Lab.slug lab)); ("admin_username", JStr (User.username admin));
           ("admin_email", JStr (User.email admin))]%string) req) ;;
  mret (lab, admin).

Definition initialize {R} `{Redis R} (reads deletes : bool) (p : SetupInitRequest) (req : RequestInfo) :
    Handler R (Lab.t * User.t) :=
  initialized ← in_session is_initialized ;
  raise_if initialized AlreadyInitializedError ;;
  install reads deletes p req.

(** * Endpoints *)

(** A flush that fails ends the session's transaction, and SQLAlchemy refuses
    to go on with it until it is rolled back.  An answer prepared after such
    a failure is therefore lost: [get_session] commits on [HTTPException], and
    that commit raises. *)
Definition after_failed_flush (answer : exn) : exn := PendingRollbackError.

Definition setup_error (e : exn) : exn :=
  match e with
  | AlreadyInitializedError => HTTPException 409 "already_initialized"
  | SetupError => after_failed_flush (HTTPException 409 "SetupError")
  | _ => e
  end.

Definition hmapping {R A} (h : Handler R A) (f : exn → exn) : Handler R A := try_except h (λ e, raise (f e)).

Definition init {R} `{Redis R} (reads deletes : bool) (p : SetupInitRequest) (req : RequestInfo) :
    Handler R (Lab.t * User.t) :=
  hmapping (initialize reads deletes p req) setup_error.

Definition status_endpoint : M bool := is_initialized.

(** [{"slug": ...}]; the name has 1 to 100 characters. *)
Definition suggest_slug (name : pystr) : option (list (string * json)) :=
  if sized 1 100 name then Some [("slug"%string, JStr (utf8 (derive_slug token name)))] else None.
End setup.
