(* ===== verification/AccountLinksApi.v ===== *)
(** Claiming a Linux account: the challenge store and the endpoints
    ([services/ssh_challenge.py], [api/v1/account_links.py],
    [api/v1/account_link_requests.py] under [backend/corelab_backend]).

    A handler's state is the session and the rate-limit store, whose Redis
    also keeps the challenges; the clock of both is the session's.  Redis
    answers when it is configured.  Fresh random strings, the agents' answers
    and the JSON text of a challenge ([dumps], [loads]) are arguments. *)

From S2P Require Import Prelude Models SessionLayer AgentRpc AuditService.
From S2P Require Import NotificationService PhysicalAccountService ReservationsApi AlertService AccountLinkService.
From S2P Require Import AccountLinkRequestService RateLimit RequestLayer.

Definition SIGNING_NAMESPACE : string := "corelab".
Definition TTL_SECONDS : Z := 300.
Definition _REDIS_PREFIX : string := "ssh-challenge:".

Record ChallengeContext : Type := mkContext {
  cc_user_id : Z ;
  cc_server_id : Z ;
  cc_physical_account_id : Z ;
  cc_ssh_public_key_id : Z ;
  cc_nonce : string ;
  cc_challenge_id : string }.

Record IssuedChallenge : Type := mkIssued {
  ic_challenge_id : string ; ic_nonce : string ; ic_expires_at : Z ; ic_sign_command : string }.

Definition _sign_command (quote nonce : string) : string :=
  "echo " +:+ quote +:+ nonce +:+ quote +:+ " | ssh-keygen -Y sign -n " +:+ SIGNING_NAMESPACE +:+
  " -f ~/.ssh/id_ed25519".

(** The character U+0022. *)
Definition quotation_mark : string := String (Ascii.ascii_of_nat 34) EmptyString.

Section links.
Context {R : Type} `{Redis R} (ci : string → string) (isoformat : Z → string).
Context (dumps : json → string) (loads : string → option json).

Abbreviation Handler := (Handler R).

(** ** Challenges *)

Definition challenge_data (user_id server_id physical_account_id ssh_public_key_id : Z) (nonce : string) : json :=
  JObj [("user_id", JInt user_id); ("server_id", JInt server_id);
        ("physical_account_id", JInt physical_account_id); ("ssh_public_key_id", JInt ssh_public_key_id);
        ("nonce", JStr nonce)]%string.

Definition mint (nonce challenge_id : string) (user_id server_id physical_account_id ssh_public_key_id : Z) :
    Handler IssuedChallenge := λ w,
  match client w.2 with
  | None => (Raise RedisUnavailableError, w)
  | Some r =>
      let payload := dumps (challenge_data user_id server_id physical_account_id ssh_public_key_id nonce) in
      let r := setex (now_ms w.1) (_REDIS_PREFIX +:+ challenge_id) TTL_SECONDS payload r in
      (Ok (mkIssued challenge_id nonce (now w.1 + seconds TTL_SECONDS) (_sign_command quotation_mark nonce)),
       (w.1, w.2 <| client := Some r |>))
  end.

(** [data[key]] *)
Definition item (key : string) (data : json) : option json :=
  match data with JObj o => obj_get key o | _ => None end.

Definition as_int (o : option json) : option Z := match o with Some (JInt z) => Some z | _ => None end.
Definition as_str (o : option json) : option string := match o with Some (JStr s) => Some s | _ => None end.

(** The challenge a stored text is, [json.loads] and the five lookups. *)
Definition read_challenge (challenge_id raw : string) : option ChallengeContext :=
  data ← loads raw ;
  user_id ← as_int (item "user_id" data) ;
  server_id ← as_int (item "server_id" data) ;
  physical_account_id ← as_int (item "physical_account_id" data) ;
  ssh_public_key_id ← as_int (item "ssh_public_key_id" data) ;
  nonce ← as_str (item "nonce" data) ;
  Some (mkContext user_id server_id physical_account_id ssh_public_key_id nonce challenge_id).

Definition consume (challenge_id : string) (actor_user_id : Z) : Handler ChallengeContext := λ w,
  match client w.2 with
  | None => (Raise RedisUnavailableError, w)
  | Some r =>
      let '(r, raw) := getdel (now_ms w.1) (_REDIS_PREFIX +:+ challenge_id) r in
      let w := (w.1, w.2 <| client := Some r |>) in
      match raw with
      | None => (Raise ChallengeExpiredOrUsedError, w)
      | Some raw =>
          match read_challenge challenge_id raw with
          | None => (Raise KeyError, w)
          | Some ctx =>
              if bool_decide (cc_user_id ctx = actor_user_id) then (Ok ctx, w)
              else (Raise ActorMismatchError, w)
          end
      end
  end.

(** ** Asking for a challenge *)

Definition lock_subject (current : AuthenticatedUser) : string := pretty (User.id current).

(** 429 while the user is locked. *)
Definition check_lock (current : AuthenticatedUser) : Handler unit :=
  locked ← on_limiter (λ ms, is_locked SshChallengeLockManager true ms (lock_subject current)) ;
  raise_if locked (HTTPException 429 "SSH_CHALLENGE_LOCKED").

Definition account_on_server (server_id : Z) (linux_username : string) (current : AuthenticatedUser) :
    M PhysicalAccount.t :=
  server ← get_server server_id ;
  raise_if (negb (bool_decide (Server.lab_id <$> server = Some (User.lab_id current))))
    (HTTPException 404 "server_not_found") ;;
  mapping (resolve_physical_account ci server_id linux_username)
    (λ e, match e with
          | PhysicalAccountNotFoundError => HTTPException 404 "PhysicalAccountNotFoundError"
          | _ => e
          end).

Definition create_challenge (nonce challenge_id : string) (server_id : Z) (linux_username : string)
    (ssh_public_key_id : Z) (current : AuthenticatedUser) (req : RequestInfo) : Handler IssuedChallenge :=
  check_lock current ;;
  pa ← in_session (account_on_server server_id linux_username current) ;
  in_session (mapping (assert_ssh_key_owned ssh_public_key_id (User.id current))
    (λ e, match e with
          | SshKeyNotOwnedByUserError => HTTPException 403 "SshKeyNotOwnedByUserError"
          | _ => e
          end)) ;;
  issued ← try_except
    (mint nonce challenge_id (User.id current) server_id (PhysicalAccount.id pa) ssh_public_key_id)
    (λ e, raise (match e with RedisUnavailableError => HTTPException 503 "redis_unavailable" | _ => e end)) ;
  in_session (write "account_link.challenge.create" (Some (User.id current)) (Some (User.lab_id current))
    (Some "physical_account"%string) (Some (PhysicalAccount.id pa)) (Some (User.lab_id current)) (Some server_id)
    (JObj [("challenge_id", JStr (ic_challenge_id issued)); ("linux_username", JStr linux_username);
           ("ssh_public_key_id", JInt ssh_public_key_id)]%string) req) ;;
  mret issued.

(** ** Verifying *)

(** A failed consumption is audited and counts towards the lock. *)
Definition verify_failed {A} (reason challenge_id : string) (answer : exn) (current : AuthenticatedUser)
    (req : RequestInfo) : Handler A :=
  in_session (write "account_link.verify_failed" (Some (User.id current)) (Some (User.lab_id current))
    (Some "ssh_challenge"%string) None (Some (User.lab_id current)) None
    (JObj [("reason", JStr reason); ("challenge_id", JStr challenge_id)]%string) req) ;;
  on_limiter (λ ms, record_failure SshChallengeLockManager true ms (lock_subject current)) ;;
  raise answer.

Definition consumed (challenge_id : string) (current : AuthenticatedUser) (req : RequestInfo) :
    Handler ChallengeContext :=
  try_except (consume challenge_id (User.id current))
    (λ e, match e with
          | ChallengeExpiredOrUsedError =>
              verify_failed "expired_or_used" challenge_id (HTTPException 410 "challenge_expired_or_used") current req
          | ActorMismatchError =>
              verify_failed "actor_mismatch" challenge_id (HTTPException 403 "actor_mismatch") current req
          | RedisUnavailableError => raise (HTTPException 503 "redis_unavailable")
          | _ => raise e
          end).

Definition agent_error (e : exn) : exn :=
  match e with
  | RpcNotYetWiredError => HTTPException 503 "agent_rpc_not_implemented"
  | AgentOfflineError => HTTPException 503 "AgentOfflineError"
  | AgentRpcTimeoutError => HTTPException 504 "AgentRpcTimeoutError"
  | _ => e
  end.

(** The agent checks the signature against the account's key file; the result
    is the signer's fingerprint it names. *)
Definition verified_signer (reply : rpc_result) (ctx : ChallengeContext) (signature_armored : string) : M json :=
  p ← get_physical_account (cc_physical_account_id ctx) ;
  pa ← some_or_raise p (HTTPException 404 "physical_account_gone") ;
  rpc_result ← mapping
    (agent_request (cc_server_id ctx) "backend.ssh.verify_sig"
       [("linux_username", JStr (PhysicalAccount.linux_username pa)); ("nonce", JStr (cc_nonce ctx));
        ("namespace", JStr SIGNING_NAMESPACE); ("signature_armored", JStr signature_armored)]%string reply)
    agent_error ;
  raise_if (negb (truthy (obj_get "ok" rpc_result))) (HTTPException 401 "signature_verification_failed") ;;
  mret (default (JStr "unknown") (obj_get "signer_fingerprint" rpc_result)).

(** The entry that a claim with a key CoreLab pushed leaves. *)
Definition flag_platform_key (ctx : ChallengeContext) (current : AuthenticatedUser) (req : RequestInfo) : M unit :=
  o ← _find_key_entry (cc_physical_account_id ctx) (cc_ssh_public_key_id ctx) ;
  match active_entry o with
  | None => skip
  | Some e =>
      write "account_link.verify.platform_pushed_key" (Some (User.id current)) (Some (User.lab_id current))
        (Some "account_link"%string) None (Some (User.lab_id current)) (Some (cc_server_id ctx))
        (JObj [("challenge_id", JStr (cc_challenge_id ctx));
               ("authorized_key_entry_id", JInt (AuthorizedKeyEntry.id e));
               ("note", JStr "user verified via a key CoreLab itself pushed")]%string) req
  end.

Definition already_active (e : exn) : exn :=
  match e with LinkAlreadyActiveError => HTTPException 409 "LinkAlreadyActiveError" | _ => e end.

Definition verify_challenge (reply : rpc_result) (challenge_id signature_armored : string)
    (current : AuthenticatedUser) (req : RequestInfo) : Handler (AccountLink.t * json) :=
  check_lock current ;;
  ctx ← consumed challenge_id current req ;
  signer_fp ← in_session (verified_signer reply ctx signature_armored) ;
  in_session (flag_platform_key ctx current req) ;;
  link ← in_session (mapping
    (establish_via_ssh_challenge isoformat (cc_user_id ctx) (cc_physical_account_id ctx) (cc_challenge_id ctx)
       signer_fp (User.lab_id current) (cc_server_id ctx) req) already_active) ;
  mret (link, signer_fp).

(** [POST /account-links/try] *)
Definition try_password (reply : rpc_result) (server_id : Z) (linux_username password : string)
    (current : AuthenticatedUser) (req : RequestInfo) : M AccountLink.t :=
  pa ← account_on_server server_id linux_username current ;
  rpc_result ← mapping
    (agent_request server_id "backend.pam.verify"
       [("linux_username", JStr linux_username); ("password", JStr password)]%string reply) agent_error ;
  if negb (truthy (obj_get "verify_ok" rpc_result)) then
    write "account_link.pam_failed" (Some (User.id current)) (Some (User.lab_id current))
      (Some "physical_account"%string) (Some (PhysicalAccount.id pa)) (Some (User.lab_id current)) (Some server_id)
      (JObj [("linux_username", JStr linux_username); ("reason", JStr "pam_reject")]%string) req ;;
    raise (HTTPException 401 "pam_verify_failed")
  else
    mapping (establish_via_pam isoformat (User.id current) (PhysicalAccount.id pa) (User.lab_id current)
               server_id req) already_active.

(** ** Reading and revoking a link *)

Definition link_error (code : Z) (e : exn) : exn :=
  match e with
  | AccountLinkError | LinkAlreadyActiveError | AdminDeclaredCannotActAsError => HTTPException code "AccountLinkError"
  | _ => e
  end.

Definition get_link_endpoint (link_id : Z) (current : AuthenticatedUser) : M AccountLink.t :=
  link ← mapping (load_link_in_lab link_id (User.lab_id current)) (link_error 404) ;
  raise_if (negb (is_lab_admin current) && negb (bool_decide (AccountLink.user_id link = User.id current)))
    (HTTPException 403 "not_owner") ;;
  mret link.

(** Whether a caller may give a reason. *)
Definition reason_refused (reason : string) (is_self is_admin : bool) : option exn :=
  if bool_decide (reason = "self"%string) && negb is_self then Some (HTTPException 403 "not_owner")
  else if bool_decide (reason = "admin_force"%string) && negb is_admin then Some (HTTPException 403 "not_admin")
  else if bool_decide (reason ∈ ["user_disabled"; "pa_disabled"]%string) && negb is_admin
  then Some (HTTPException 403 "not_admin") else None.

Definition revoke_link_endpoint (reply : Z → rpc_result) (message : Z → string) (link_id : Z) (reason : string)
    (revoke_key : bool) (current : AuthenticatedUser) (req : RequestInfo) : M AccountLink.t :=
  link ← mapping (load_link_in_lab link_id (User.lab_id current)) (link_error 404) ;
  match reason_refused reason (bool_decide (AccountLink.user_id link = User.id current)) (is_lab_admin current) with
  | Some e => raise e
  | None =>
      pa ← get_physical_account (AccountLink.physical_account_id link) ;
      let server_id := match pa with Some pa => PhysicalAccount.server_id pa | None => 0 end in
      mapping (revoke_link reply message link (User.id current) reason (User.lab_id current) server_id
                 revoke_key req) (link_error 409)
  end.

(** [POST /account-links/{id}/upgrade-via-challenge] *)
Definition upgrade_via_challenge (reply : rpc_result) (link_id : Z) (challenge_id signature_armored : string)
    (current : AuthenticatedUser) (req : RequestInfo) : Handler (AccountLink.t * json) :=
  link ← in_session (mapping (load_link_in_lab link_id (User.lab_id current)) (link_error 404)) ;
  raise_if (negb (bool_decide (AccountLink.user_id link = User.id current))) (HTTPException 403 "not_owner") ;;
  raise_if (negb (bool_decide (AccountLink.source link = admin_declared)))
    (HTTPException 409 "only admin_declared can upgrade") ;;
  ctx ← try_except (consume challenge_id (User.id current))
    (λ e, raise (match e with
                 | ChallengeExpiredOrUsedError => HTTPException 410 "challenge_expired_or_used"
                 | ActorMismatchError => HTTPException 403 "actor_mismatch"
                 | RedisUnavailableError => HTTPException 503 "redis_unavailable"
                 | _ => e
                 end)) ;
  raise_if (negb (bool_decide (cc_physical_account_id ctx = AccountLink.physical_account_id link)))
    (HTTPException 400 "challenge_pa_mismatch") ;;
  signer_fp ← in_session (verified_signer reply ctx signature_armored) ;
  new_link ← in_session (mapping
    (upgrade_admin_declared_to_ssh isoformat (User.id current) (cc_physical_account_id ctx) (cc_challenge_id ctx)
       signer_fp (User.lab_id current) (cc_server_id ctx) req) (link_error 409)) ;
  mret (new_link, signer_fp).
End links.
