(* ===== verification/AccountLinkRequestsApi.v ===== *)
(** The endpoints of the account requests
    ([api/v1/account_link_requests.py] under [backend/corelab_backend]) and
    the review card they gate on ([build_request_context] of
    [services/account_link_request_service.py]). *)

From S2P Require Import Prelude Models SessionLayer AgentRpc AuditService.
From S2P Require Import NotificationService PhysicalAccountService ReservationsApi AccountLinkRequestService.
From S2P Require Import RequestLayer AuthDependencies.

(** ** The review card *)

Record LateralItem : Type := mkLateral {
  lt_fingerprint : string ; lt_label : option string ; lt_physical_account_id : Z ;
  lt_linux_username : string ; lt_server_hostname : string ; lt_pushed_at : Z }.

Record RequestContext : Type := mkRequestContext {
  rc_request : AccountLinkRequest.t ;
  rc_requester : User.t ;
  rc_account : PhysicalAccount.t ;
  rc_server : Server.t ;
  rc_is_first_time_for_this_pa : bool ;
  rc_total : Z ; rc_approved : Z ; rc_denied : Z ; rc_withdrawn : Z ;
  rc_active_keys : list SshPublicKey.t ;
  rc_lateral_surface : list LateralItem }.

Definition requests_of (d : Db) (user_id : Z) (status : RequestStatus) : Z :=
  Z.of_nat (length (filter (λ r, AccountLinkRequest.requester_user_id r = user_id ∧
                                 AccountLinkRequest.status r = status) (rows (account_link_requests d)))).

(** The joined row of an entry. *)
Definition lateral_item (d : Db) (lab_id user_id : Z) (e : AuthorizedKeyEntry.t) : option LateralItem :=
  k ← ssh_public_keys d !! AuthorizedKeyEntry.ssh_public_key_id e ;
  p ← physical_accounts d !! AuthorizedKeyEntry.physical_account_id e ;
  s ← servers d !! PhysicalAccount.server_id p ;
  if bool_decide (AuthorizedKeyEntry.pushed_for_user_id e = user_id ∧ AuthorizedKeyEntry.is_active e = 1 ∧
                  Server.lab_id s = lab_id)
  then Some (mkLateral (SshPublicKey.fingerprint_sha256 k) (SshPublicKey.comment k) (PhysicalAccount.id p)
               (PhysicalAccount.linux_username p) (Server.hostname s) (AuthorizedKeyEntry.pushed_at e))
  else None.

Definition build_request_context (request_id lab_id : Z) : M RequestContext :=
  loaded ← _load_request_in_lab request_id lab_id ;
  let '(row, pa, server) := loaded in
  let user_id := AccountLinkRequest.requester_user_id row in
  o ← gets (λ s, users (db s) !! user_id) ;
  requester ← some_or_raise o AssertionError ;
  d ← gets db ;
  let prior := filter (λ l, AccountLink.user_id l = user_id ∧
                 AccountLink.physical_account_id l = AccountLinkRequest.physical_account_id row)
                 (rows (account_links d)) in
  let approved := requests_of d user_id request_approved in
  let denied := requests_of d user_id request_denied in
  let withdrawn := requests_of d user_id request_withdrawn in
  let keys := active_keys d user_id in
  mret (mkRequestContext row requester pa server (bool_decide (prior = []))
          (approved + denied + withdrawn + requests_of d user_id request_pending) approved denied withdrawn keys
          (if bool_decide (keys = []) then []
           else omap (lateral_item d lab_id user_id) (rows (authorized_key_entries d)))).

(** ** Errors *)

Definition request_not_found (e : exn) : exn :=
  match e with RequestNotFoundError => HTTPException 404 "RequestNotFoundError" | _ => e end.

Definition decision_error (e : exn) : exn :=
  match e with
  | RequestNotFoundError => HTTPException 404 "RequestNotFoundError"
  | InvalidStatusTransitionError => HTTPException 409 "InvalidStatusTransitionError"
  | _ => e
  end.

Definition push_error (e : exn) : exn :=
  match e with
  | NoActiveSshKeyError => HTTPException 422 "NoActiveSshKeyError"
  | _ => decision_error e
  end.

Definition create_error (e : exn) : exn :=
  match e with
  | PhysicalAccountNotFoundError => HTTPException 404 "PhysicalAccountNotFoundError"
  | AlreadyLinkedError => HTTPException 409 "AlreadyLinkedError"
  | DuplicatePendingError => HTTPException 409 "DuplicatePendingError"
  | _ => e
  end.

(** [AccountLinkRequestError] is the superclass of the service's errors. *)
Definition withdraw_error (e : exn) : exn :=
  match e with
  | AccountLinkRequestError | AlreadyLinkedError | DuplicatePendingError | NoActiveSshKeyError
  | PhysicalAccountNotFoundError => HTTPException 403 "AccountLinkRequestError"
  | _ => decision_error e
  end.

(** ** Endpoints *)

Definition create_request_endpoint (physical_account_id : Z) (request_note : option string)
    (current : AuthenticatedUser) (req : RequestInfo) : M AccountLinkRequest.t :=
  mapping (create_request (User.id current) physical_account_id request_note (User.lab_id current) req)
    create_error.

(** The rows an administrator of some servers sees. *)
Definition _filter_rows_for_current_admin (current : AuthenticatedUser) (requests : list AccountLinkRequest.t) :
    M (list AccountLinkRequest.t) :=
  if is_lab_admin current then mret requests
  else
    granted ← list_granted_server_ids current ;
    gets (λ s, filter (λ r,
      (PhysicalAccount.server_id <$> physical_accounts (db s) !! AccountLinkRequest.physical_account_id r)
        ∈ (Some <$> granted)) requests).

Definition list_pending (current : AuthenticatedUser) : M (list AccountLinkRequest.t) :=
  requests ← list_pending_in_lab (User.lab_id current) ;
  _filter_rows_for_current_admin current requests.

Definition list_needs_push (current : AuthenticatedUser) : M (list AccountLinkRequest.t) :=
  requests ← list_needing_key_push_in_lab (User.lab_id current) ;
  _filter_rows_for_current_admin current requests.

(** The gate in front of the decisions. *)
Definition request_context (request_id : Z) (current : AuthenticatedUser) : M RequestContext :=
  ctx ← mapping (build_request_context request_id (User.lab_id current)) request_not_found ;
  assert_server_admin current (Server.id (rc_server ctx)) ;;
  mret ctx.

Definition approve (reply : rpc_result) (message : string) (request_id : Z) (decision_note : option string)
    (current : AuthenticatedUser) (req : RequestInfo) : M AccountLinkRequest.t :=
  request_context request_id current ;;
  mapping (approve_request reply message request_id decision_note (User.id current) (User.lab_id current) req)
    push_error.

Definition retry_push_endpoint (reply : rpc_result) (message : string) (request_id : Z)
    (current : AuthenticatedUser) (req : RequestInfo) : M (AccountLinkRequest.t * list (string * json)) :=
  request_context request_id current ;;
  mapping (retry_push_for_request reply message request_id (User.id current) (User.lab_id current) req)
    push_error.

Definition deny (request_id : Z) (decision_note : option string) (current : AuthenticatedUser)
    (req : RequestInfo) : M AccountLinkRequest.t :=
  request_context request_id current ;;
  mapping (deny_request request_id decision_note (User.id current) (User.lab_id current) req) decision_error.

Definition withdraw (request_id : Z) (current : AuthenticatedUser) (req : RequestInfo) :
    M AccountLinkRequest.t :=
  mapping (withdraw_request request_id (User.id current) (User.lab_id current) req) withdraw_error.
