(* ===== verification/AccountLinkRequestProperties.v ===== *)
(** The life of an account request, and what an approval does
    ([services/account_link_request_service.py],
    [api/v1/account_link_requests.py]). *)

From S2P Require Import Prelude Models SessionLayer Samples AgentRpc.
From S2P Require Import AuditService NotificationService PhysicalAccountService ReservationsApi AccountLinkService.
From S2P Require Import RequestLayer AccountLinkProperties AccountLinkRequestService AuthDependencies AccountLinkRequestsApi.

(** ** Well-formed requests *)

(** Keys are ids, a user has one pending request per account, and a request
    is stamped exactly when it is no longer pending. *)
Record requests_ok (d : Db) : Prop := {
  rq_id k r : account_link_requests d !! k = Some r →
    AccountLinkRequest.id r = k ∧ k < next_account_link_request_id d ;
  rq_one k k' r r' : account_link_requests d !! k = Some r → account_link_requests d !! k' = Some r' →
    AccountLinkRequest.status r = request_pending → AccountLinkRequest.status r' = request_pending →
    AccountLinkRequest.requester_user_id r = AccountLinkRequest.requester_user_id r' →
    AccountLinkRequest.physical_account_id r = AccountLinkRequest.physical_account_id r' → k = k' ;
  rq_stamp k r : account_link_requests d !! k = Some r →
    is_some (AccountLinkRequest.decided_at r) =
      negb (bool_decide (AccountLinkRequest.status r = request_pending)) ∧
    is_some (AccountLinkRequest.decided_by_user_id r) =
      bool_decide (AccountLinkRequest.status r = request_approved ∨ AccountLinkRequest.status r = request_denied) }.

(** What may become of a request: one decision, or its withdrawal. *)
Definition request_life (r r' : AccountLinkRequest.t) : Prop :=
  r' = r ∨
  AccountLinkRequest.status r = request_pending ∧
  ((∃ status admin at_ note, (status = request_approved ∨ status = request_denied) ∧
      r' = decided status admin at_ note r) ∨
   ∃ at_, r' = withdrawn at_ r).

Lemma request_life_final r r' :
  request_life r r' → AccountLinkRequest.status r ≠ request_pending → r' = r.
Proof. intros [->|[Hp _]]; done. Qed.

Lemma request_life_trans r1 r2 r3 : request_life r1 r2 → request_life r2 r3 → request_life r1 r3.
Proof.
  intros [->|(Hp & Hl)] H23; [done|]. assert (AccountLinkRequest.status r2 ≠ request_pending).
  { destruct Hl as [(st & a & t & n & [->| ->] & ->)|(t & ->)]; done. }
  rewrite (request_life_final _ _ H23) by done. by right.
Qed.

Definition requests_evolve (d d' : Db) : Prop :=
  ∀ k r, account_link_requests d !! k = Some r → ∃ r', account_link_requests d' !! k = Some r' ∧ request_life r r'.

(** What every write has to do. *)
Definition requests_step (d d' : Db) : Prop := requests_ok d → requests_ok d' ∧ requests_evolve d d'.

(** Code about other tables. *)
Definition requests_same (d d' : Db) : Prop :=
  account_link_requests d' = account_link_requests d ∧
  next_account_link_request_id d' = next_account_link_request_id d.

#[export] Instance requests_same_pre : PreOrder requests_same.
Proof. split; [by intros d|]. intros d1 d2 d3 [H1 H2] [H3 H4]. split; congruence. Qed.
#[export] Instance requests_same_log : LogFree requests_same.
Proof. by intros d l. Qed.
#[export] Instance requests_same_note : NoteFree requests_same.
Proof. by intros d l. Qed.

Lemma requests_evolve_refl d : requests_evolve d d.
Proof. intros k r Hk. exists r. split; [done|by left]. Qed.

#[export] Instance requests_step_pre : PreOrder requests_step.
Proof.
  split; [intros d Hok; split; [done|apply requests_evolve_refl]|].
  intros d1 d2 d3 H12 H23 Hok. destruct (H12 Hok) as [Hok2 He2]. destruct (H23 Hok2) as [Hok3 He3].
  split; [done|]. intros k r Hk. destruct (He2 _ _ Hk) as (r2 & Hk2 & Hl2). destruct (He3 _ _ Hk2) as (r3 & Hk3 & Hl3).
  exists r3. split; [done|]. by eapply request_life_trans.
Qed.

Lemma requests_same_step d d' : requests_same d d' → requests_step d d'.
Proof.
  intros [H1 H2] [Ha Hb Hc]. split; [split; rewrite ?H1, ?H2; assumption|].
  intros k r. rewrite H1. apply requests_evolve_refl.
Qed.

#[export] Instance requests_step_log : LogFree requests_step.
Proof. intros d l. by apply requests_same_step. Qed.
#[export] Instance requests_step_note : NoteFree requests_step.
Proof. intros d l. by apply requests_same_step. Qed.

Lemma pending_request_None d user pa :
  pending_request d user pa = None ↔
  ∀ k r, account_link_requests d !! k = Some r → AccountLinkRequest.requester_user_id r = user →
    AccountLinkRequest.physical_account_id r = pa → AccountLinkRequest.status r ≠ request_pending.
Proof.
  unfold pending_request. rewrite head_filter_None. split.
  - intros H k r Hk Hu Hp Hs. apply (H r); [apply elem_of_rows; eauto|done].
  - intros H r [k Hk]%elem_of_rows (Hu & Hp & Hs). by apply (H k r).
Qed.

(** A new pending request. *)
Lemma add_request_step d user pa note :
  pending_request d user pa = None →
  let id := next_account_link_request_id d in
  requests_step d (d <| account_link_requests :=
                          <[id := AccountLinkRequest.mk id user pa request_pending note None None None]>
                            (account_link_requests d) |>
                     <| next_account_link_request_id := id + 1 |>).
Proof.
  intros Hnone id Hok. pose proof (proj1 (pending_request_None _ _ _) Hnone) as Hnew. split; [split|].
  - intros k r. cbn. rewrite lookup_insert. case_decide as Hk.
    + intros [= <-]. split; [done|lia].
    + intros Hr. destruct (rq_id _ Hok _ _ Hr). split; [done|lia].
  - intros k k' r r'. cbn. rewrite !lookup_insert. repeat case_decide; subst; try done.
    + intros [= <-] H2 _ Hs Hu Hp. exfalso. by eapply Hnew.
    + intros H1 [= <-] Hs _ Hu Hp. exfalso. by eapply Hnew.
    + apply (rq_one _ Hok).
  - intros k r. cbn. rewrite lookup_insert. case_decide; [by intros [= <-]|apply (rq_stamp _ Hok)].
  - intros k r Hk. exists r. split; [|by left]. cbn. rewrite lookup_insert_ne; [done|].
    intros <-. destruct (rq_id _ Hok _ _ Hk). lia.
Qed.

(** The end of a pending request. *)
Lemma end_request_step d k r r' :
  account_link_requests d !! k = Some r → AccountLinkRequest.status r = request_pending →
  request_life r r' → AccountLinkRequest.status r' ≠ request_pending →
  requests_step d (d <| account_link_requests := <[AccountLinkRequest.id r' := r']> (account_link_requests d) |>).
Proof.
  intros Hk Hp Hlife Hend Hok. destruct (rq_id _ Hok _ _ Hk) as [Hid Hlt].
  assert (Hid' : AccountLinkRequest.id r' = k).
  { destruct Hlife as [->|(_ & [(st & a & t & n & _ & ->)|(t & ->)])]; done. }
  assert (Hst : is_some (AccountLinkRequest.decided_at r') =
      negb (bool_decide (AccountLinkRequest.status r' = request_pending)) ∧
    is_some (AccountLinkRequest.decided_by_user_id r') =
      bool_decide (AccountLinkRequest.status r' = request_approved ∨ AccountLinkRequest.status r' = request_denied)).
  { destruct (rq_stamp _ Hok _ _ Hk) as [_ Hby]. rewrite Hp in Hby.
    destruct Hlife as [->|(_ & [(st & a & t & n & [->| ->] & ->)|(t & ->)])]; done. }
  rewrite Hid'. split; [split|].
  - intros k1 r1. cbn. rewrite lookup_insert. destruct (decide (k = k1)); [|apply (rq_id _ Hok)].
    intros [= <-]. subst. done.
  - intros k1 k2 r1 r2. cbn. rewrite !lookup_insert. destruct (decide (k = k1)), (decide (k = k2)); subst; try done;
      [by intros [= <-]|by intros _ [= <-]|apply (rq_one _ Hok)].
  - intros k1 r1. cbn. rewrite lookup_insert. destruct (decide (k = k1)); [by intros [= <-]|apply (rq_stamp _ Hok)].
  - intros k1 r1 H1. cbn. rewrite lookup_insert. destruct (decide (k = k1)); [|exists r1; split; [done|by left]].
    subst k1. rewrite Hk in H1. injection H1 as <-. by exists r'.
Qed.

(** ** The writes *)

#[export] Instance same_set_entry e : Moves requests_same (set_entry e).
Proof. solve_moves. Qed.
#[export] Instance same_add_entry mk_row : Moves requests_same (add_entry mk_row).
Proof. unfold add_entry. solve_moves. Qed.

Lemma moves_step {A} (m : M A) : Moves requests_same m → Moves requests_step m.
Proof. apply moves_mono, requests_same_step. Qed.

#[export] Instance step_set_entry e : Moves requests_step (set_entry e).
Proof. apply moves_step, _. Qed.

(** The request a decision is about, as it is in the table. *)
Definition target (d : Db) (request_id lab_id : Z) : option (AccountLinkRequest.t * PhysicalAccount.t * Server.t) :=
  row ← account_link_requests d !! request_id ;
  pa ← physical_accounts d !! AccountLinkRequest.physical_account_id row ;
  server ← servers d !! PhysicalAccount.server_id pa ;
  if bool_decide (Server.lab_id server = lab_id) then Some (row, pa, server) else None.

Lemma load_request_run request_id lab_id s :
  _load_request_in_lab request_id lab_id s =
    (match target (db s) request_id lab_id with Some t => Ok t | None => Raise RequestNotFoundError end, s).
Proof.
  unfold _load_request_in_lab, target.
  rewrite (bind_run (gets _) _ s (account_link_requests (db s) !! request_id) s) by reflexivity.
  destruct (account_link_requests (db s) !! request_id) as [row|]; [|reflexivity].
  rewrite (bind_run (some_or_raise _ _) _ s row s) by reflexivity.
  rewrite (bind_run (get_physical_account _) _ s
    (physical_accounts (db s) !! AccountLinkRequest.physical_account_id row) s) by reflexivity.
  cbn [mbind option_bind]. destruct (physical_accounts (db s) !! _) as [pa|]; [|reflexivity].
  rewrite (bind_run (some_or_raise _ _) _ s pa s) by reflexivity.
  rewrite (bind_run (get_server _) _ s (servers (db s) !! PhysicalAccount.server_id pa) s) by reflexivity.
  cbn [mbind option_bind]. destruct (servers (db s) !! _) as [server|]; [|reflexivity].
  rewrite (bind_run (some_or_raise _ _) _ s server s) by reflexivity.
  cbn [mbind option_bind]. by destruct (bool_decide _).
Qed.

Lemma target_row d request_id lab_id row pa server :
  target d request_id lab_id = Some (row, pa, server) → account_link_requests d !! request_id = Some row.
Proof.
  unfold target. destruct (account_link_requests d !! request_id) as [r|]; [|done].
  cbn [mbind option_bind]. destruct (physical_accounts d !! _) as [p|]; [|done].
  cbn [mbind option_bind]. destruct (servers d !! _) as [sv|]; [|done]. cbn [mbind option_bind].
  destruct (bool_decide _); [|done]. by intros [= -> _ _].
Qed.

(** A decision: load, check, do other things, write, record. *)
Lemma decision_moves {A} request_id lab_id (body : AccountLinkRequest.t → PhysicalAccount.t → Server.t → M A) :
  (∀ row pa server s, account_link_requests (db s) !! request_id = Some row →
     moves_at requests_step (body row pa server) s) →
  Moves requests_step (loaded ← _load_request_in_lab request_id lab_id ;
                       let '(row, pa, server) := loaded in body row pa server).
Proof.
  intros Hb. apply moves_at_all. intros s. apply moves_at_bind; [apply _| |].
  - intros r s' Hc. rewrite load_request_run. by intros [= <- <-].
  - intros [[row pa] server] s1 _. rewrite load_request_run.
    destruct (target (db s) request_id lab_id) as [t|] eqn:Ht; [|done]. intros [= -> <-].
    apply Hb. by eapply target_row.
Qed.

(** Storing the decided row, whatever else happened to other tables. *)
Lemma set_request_moves r r' k s :
  account_link_requests (db s) !! k = Some r → AccountLinkRequest.status r = request_pending →
  request_life r r' → AccountLinkRequest.status r' ≠ request_pending → moves_at requests_step (set_request r') s.
Proof.
  intros Hk Hp Hl He res s' Hc [= <- <-]. split; [done|]. split; [done|]. by eapply end_request_step.
Qed.

#[export] Instance create_moves user pa note lab req : Moves requests_step (create_request user pa note lab req).
Proof.
  apply moves_at_all. intros s. unfold create_request.
  eapply moves_at_read; [apply _|reflexivity|]. apply moves_at_some; [apply _|]. intros account _.
  apply moves_at_guard; [apply _|]. intros _. eapply moves_at_read; [apply _|reflexivity|].
  apply moves_at_guard; [apply _|]. intros _. eapply moves_at_read; [apply _|reflexivity|].
  apply moves_at_guard; [apply _|]. intros _. eapply moves_at_read; [apply _|reflexivity|].
  apply moves_at_guard; [apply _|]. intros Hnone.
  apply moves_at_bind; [apply _| |intros a s1 _ _; apply moves_at_of; unfold audit_request; apply _].
  intros r s' Hc. unfold add_request. destruct (negb _); [by intros [= <- <-]|]. intros [= <- <-].
  split; [done|]. split; [done|]. apply add_request_step. by destruct (pending_request _ _ _).
Qed.

#[export] Instance retry_push_moves reply message row pa server key existing admin :
  Moves requests_same (retry_push reply message row pa server key existing admin).
Proof.
  unfold retry_push, push_request, retried_entry. apply moves_try_except; [apply _| |].
  - repeat (apply moves_bind; [apply _|apply _|intros ?]); [|apply _..]. destruct existing; apply _.
  - intros []; apply _.
Qed.

#[export] Instance approval_push_moves reply message row pa server key admin :
  Moves requests_same (approval_push reply message row pa server key admin).
Proof.
  unfold approval_push, push_request. apply moves_try_except; [apply _|apply _|]. intros []; apply _.
Qed.

#[export] Instance approve_moves reply message id note admin lab req :
  Moves requests_step (approve_request reply message id note admin lab req).
Proof.
  apply decision_moves. intros row pa server s Hrow.
  apply moves_at_guard; [apply _|]. intros Hp. apply negb_false_iff, bool_decide_eq_true in Hp.
  apply moves_at_bind; [apply _|apply moves_at_of, _|]. intros key s1 Hc Hkey.
  assert (s1 = s) as ->.
  { unfold _latest_active_key_for_user in Hkey. apply bind_Ok in Hkey as (o & s2 & [= <- <-] & Hkey).
    by apply some_or_raise_Ok in Hkey as [_ ->]. }
  apply moves_at_bind; [apply _|apply moves_at_of, moves_step, _|]. intros [outcome ok] s2 _ Hpush.
  destruct (approval_push_moves _ _ _ _ _ _ _ _ _ _ Hc Hpush) as (_ & _ & [Htable _]).
  eapply moves_at_read; [apply _|reflexivity|]. cbv zeta.
  apply moves_at_bind; [apply _| |].
  - apply set_request_moves with row id; [by rewrite Htable|done| |done]. right. split; [done|]. left. eauto 10.
  - intros u s3 _ _. apply moves_at_of. unfold audit_request, notify_requester. apply _.
Qed.

#[export] Instance retry_moves reply message id admin lab req :
  Moves requests_step (retry_push_for_request reply message id admin lab req).
Proof.
  apply decision_moves. intros row pa server s Hrow. apply moves_at_of.
  apply moves_bind; [apply _|apply _|]. intros _.
  apply moves_bind; [apply _|unfold _latest_active_key_for_user; apply _|]. intros key.
  apply moves_bind; [apply _|unfold _find_key_entry; apply _|]. intros existing.
  unfold audit_push, audit_request, notify_requester. destruct (active_entry existing); [apply _|].
  apply moves_bind; [apply _|apply moves_step, _|]. intros [outcome ok]. apply _.
Qed.

#[export] Instance deny_moves id note admin lab req : Moves requests_step (deny_request id note admin lab req).
Proof.
  apply decision_moves. intros row pa server s Hrow.
  apply moves_at_guard; [apply _|]. intros Hp. apply negb_false_iff, bool_decide_eq_true in Hp.
  eapply moves_at_read; [apply _|reflexivity|]. cbv zeta. apply moves_at_bind; [apply _| |].
  - apply set_request_moves with row id; [done|done| |done]. right. split; [done|]. left. eauto 10.
  - intros u s3 _ _. apply moves_at_of. unfold audit_request, notify_requester. apply _.
Qed.

#[export] Instance withdraw_moves id user lab req : Moves requests_step (withdraw_request id user lab req).
Proof.
  apply decision_moves. intros row pa server s Hrow.
  apply moves_at_guard; [apply _|]. intros _.
  apply moves_at_guard; [apply _|]. intros Hp. apply negb_false_iff, bool_decide_eq_true in Hp.
  eapply moves_at_read; [apply _|reflexivity|]. cbv zeta. apply moves_at_bind; [apply _| |].
  - apply set_request_moves with row id; [done|done| |done]. right. split; [done|]. right. eauto.
  - intros u s3 _ _. apply moves_at_of. unfold audit_request. apply _.
Qed.

(** ** Histories *)

(** The requests to the endpoints, with the outcomes of the world. *)
Inductive request_call : Type :=
| call_create (physical_account_id : Z) (note : option string) (user : AuthenticatedUser) (req : RequestInfo)
| call_approve (reply : rpc_result) (message : string) (request_id : Z) (note : option string)
    (user : AuthenticatedUser) (req : RequestInfo)
| call_retry (reply : rpc_result) (message : string) (request_id : Z) (user : AuthenticatedUser) (req : RequestInfo)
| call_deny (request_id : Z) (note : option string) (user : AuthenticatedUser) (req : RequestInfo)
| call_withdraw (request_id : Z) (user : AuthenticatedUser) (req : RequestInfo).

(** The durable database after the call. *)
Definition after_call (c : request_call) (at_ : Z) (uuid : string) (d : Db) : Db :=
  match c with
  | call_create pa note user req => (get_session (create_request_endpoint pa note user req) d at_ uuid).2
  | call_approve reply message id note user req =>
      (get_session (approve reply message id note user req) d at_ uuid).2
  | call_retry reply message id user req => (get_session (retry_push_endpoint reply message id user req) d at_ uuid).2
  | call_deny id note user req => (get_session (deny id note user req) d at_ uuid).2
  | call_withdraw id user req => (get_session (withdraw id user req) d at_ uuid).2
  end.

Inductive request_history : Db → Db → Prop :=
| rh_done d : request_history d d
| rh_call d c at_ uuid d' : request_history (after_call c at_ uuid d) d' → request_history d d'
| rh_other d d1 d' : requests_same d d1 → request_history d1 d' → request_history d d'.

#[export] Instance context_moves id user : Moves requests_step (request_context id user).
Proof.
  unfold request_context, build_request_context, assert_server_admin, _user_can_admin_server, _load_request_in_lab,
    get_physical_account, get_server.
  apply moves_bind; [apply _| |].
  - apply moves_mapping; [apply _|]. apply moves_bind; [apply _|apply _|]. intros [[row pa] server]. apply _.
  - intros ctx. apply moves_bind; [apply _| |apply _]. apply moves_bind; [apply _| |apply _].
    destruct (is_lab_admin user); apply _.
Qed.

Lemma after_call_step c at_ uuid d : requests_step d (after_call c at_ uuid d).
Proof.
  destruct c; apply (moves_get_session requests_step);
    unfold create_request_endpoint, approve, retry_push_endpoint, deny, withdraw; apply _.
Qed.

(** C11: Along every history of the endpoints for account requests, with
    anything else happening in between and whatever the agents answer: a
    user never has two pending requests for one account; no request
    disappears or changes hands; a pending one is decided or withdrawn once,
    with the time and the decider on record, and stays as it is from then
    on. *)
Theorem requests_history d d' :
  requests_ok d → request_history d d' → requests_ok d' ∧ requests_evolve d d'.
Proof.
  intros Hok Hh. revert Hok. change (requests_step d d').
  induction Hh as [d|d c at_ uuid d' _ IH|d d1 d' Hs _ IH].
  - reflexivity.
  - etransitivity; [apply after_call_step|exact IH].
  - etransitivity; [by apply requests_same_step|exact IH].
Qed.

(** ** An approval *)

(** The message to the agent. *)
Definition push_rpc (row : AccountLinkRequest.t) (pa : PhysicalAccount.t) (server : Server.t) (key : SshPublicKey.t) :
    Z * string * list (string * json) :=
  (Server.id server, "backend.authorized_key.push"%string,
   [("linux_username", JStr (PhysicalAccount.linux_username pa));
    ("public_key", JStr (SshPublicKey.public_key key)); ("label", JStr (request_label row))]%string).

(** The entry of the pushed key. *)
Definition approved_entry (d : Db) (row : AccountLinkRequest.t) (pa : PhysicalAccount.t) (key : SshPublicKey.t)
    (admin at_ : Z) : AuthorizedKeyEntry.t :=
  new_entry (PhysicalAccount.id pa) (SshPublicKey.id key) admin (AccountLinkRequest.requester_user_id row) at_
    (next_authorized_key_entry_id d).

Lemma approval_push_run reply message row pa server key admin s :
  clean s →
  ∃ outcome, approval_push reply message row pa server key admin s =
    match reply with
    | Ok _ =>
        let sent := s <| rpcs := rpcs s ++ [push_rpc row pa server key] |> in
        if is_some (find_key_entry (db s) (PhysicalAccount.id pa) (SshPublicKey.id key))
        then (Raise (IntegrityError "uq_ake_pa_key"), sent)
        else (Ok (outcome, true), sent <| db := db s
                <| authorized_key_entries := <[next_authorized_key_entry_id (db s) :=
                     approved_entry (db s) row pa key admin (now s)]> (authorized_key_entries (db s)) |>
                <| next_authorized_key_entry_id := next_authorized_key_entry_id (db s) + 1 |> |>)
    | Raise AgentOfflineError => (Ok (outcome, false), s)
    | Raise AgentRpcTimeoutError => (Ok (outcome, false), s <| rpcs := rpcs s ++ [push_rpc row pa server key] |>)
    | Raise e => (Raise e, s <| rpcs := rpcs s ++ [push_rpc row pa server key] |>)
    end.
Proof.
  intros Hc. unfold approval_push, push_request, try_except.
  destruct reply as [fields|e].
  2:{ destruct e; try (exists []; reflexivity); eexists; reflexivity. }
  cbv zeta.
  set (sent := s <| rpcs := rpcs s ++ [push_rpc row pa server key] |>).
  rewrite (bind_run (agent_request _ _ _ (Ok fields)) _ s fields sent) by reflexivity.
  rewrite (bind_run utcnow _ sent (now s) sent) by reflexivity.
  unfold mbind at 1, prog_bind at 1, add_entry at 1. cbv zeta.
  change (db sent) with (db s). cbn [new_entry AuthorizedKeyEntry.physical_account_id AuthorizedKeyEntry.ssh_public_key_id].
  destruct (is_some _); [by exists []|].
  rewrite (bind_run flush _ _ tt _) by (apply flush_clean; exact Hc).
  eexists (_ ++ _). reflexivity.
Qed.

(** The approved row. *)
Abbreviation approved admin at_ note row := (decided request_approved admin at_ note row).

(** What a recorded approval left. *)
Definition approval_recorded (row : AccountLinkRequest.t) (s s' : Session) (row' : AccountLinkRequest.t) : Prop :=
  account_link_requests (db s') = <[AccountLinkRequest.id row := row']> (account_link_requests (db s)) ∧
  account_links (db s') = account_links (db s) ∧
  (∃ e, audit_log (db s') = audit_log (db s) ++ [e] ∧ AuditLog.action e = "account_link_request.approved"%string) ∧
  ∃ n, n ∈ notifications (db s') ∧ Notification.ntype n = "link.prepared"%string ∧
    Notification.recipient_user_id n = AccountLinkRequest.requester_user_id row.

(** The end of an approval, after the push. *)
Lemma approve_record row pa server key outcome ok note admin lab req s res s' :
  clean s →
  (at_ ← utcnow ;
   let row := decided request_approved admin at_ note row in
   set_request row ;;
   flush ;;
   audit_request "account_link_request.approved" admin lab (Server.id server) (AccountLinkRequest.id row)
     [("physical_account_id", JInt (PhysicalAccount.id pa));
      ("linux_username", JStr (PhysicalAccount.linux_username pa));
      ("ssh_public_key_id", JInt (SshPublicKey.id key)); ("push_outcome", JObj outcome)]%string req ;;
   notify_requester row pa server "link.prepared" (if (ok : bool) then "info" else "warn")
     (if ok
      then "Admin prepared account " +:+ account_at pa server +:+ "; run SSH challenge to claim"
      else "Admin approved " +:+ account_at pa server +:+ " but key push failed; retry")
     [("push_ok", JBool ok)]%string DEFAULT_DEDUP_WINDOW_SECONDS ;;
   mret row) s = (res, s') →
  res = Ok (approved admin (now s) note row) ∧ rpcs s' = rpcs s ∧
  authorized_key_entries (db s') = authorized_key_entries (db s) ∧
  approval_recorded row s s' (approved admin (now s) note row).
Proof.
  intros Hc. rewrite (bind_run utcnow _ s (now s) s) by reflexivity. cbv zeta.
  set (row' := decided request_approved admin (now s) note row).
  set (s1 := s <| db := db s <| account_link_requests :=
                  <[AccountLinkRequest.id row' := row']> (account_link_requests (db s)) |> |>).
  assert (Hc1 : clean s1) by exact Hc.
  rewrite (bind_run (set_request row') _ s tt s1), (bind_run flush _ s1 tt s1) by (reflexivity || by apply flush_clean).
  unfold audit_request. erewrite bind_run by (by apply write_run). set (s2 := s1 <| db := _ |>).
  unfold notify_requester at 1.
  match goal with |- context [?m ≫= _] => destruct (m s2) as [r s3] eqn:Hn end.
  assert (Hc2 : clean s2) by exact Hc.
  destruct (create_notification_told _ _ _ _ _ _ _ _ _ _ _ Hc2 Hn) as (n & -> & Hin & Hto & Hty & Hs3).
  rewrite (bind_run _ _ _ _ _ Hn). intros [= <- <-]. split; [done|].
  assert (Hsame : rpcs s3 = rpcs s2 ∧ authorized_key_entries (db s3) = authorized_key_entries (db s2) ∧
    account_link_requests (db s3) = account_link_requests (db s2) ∧ account_links (db s3) = account_links (db s2) ∧
    audit_log (db s3) = audit_log (db s2)) by (destruct Hs3 as [->| ->]; done).
  destruct Hsame as (-> & -> & Hr & Hl & Ha). split; [done|]. split; [done|].
  unfold approval_recorded. rewrite Hr, Hl, Ha. split; [done|]. split; [done|].
  split; [eexists; split; [reflexivity|done]|by exists n].
Qed.

(** An approval needs a pending request of the administrator's lab and an
    active key of the requester.  The agent is asked to install the
    requester's newest key; if it answers, or is offline or silent, the
    request is approved, stamped and told to the requester, an answer also
    being recorded as the pushed key, and no link comes from it: the account
    still has to be claimed.  But if there is a record for this key on this
    account already, as after an earlier approval and a revocation, the key
    is pushed and the approval fails: the request stays pending. *)
Theorem approve_request_spec reply message request_id note admin lab req s res s' :
  clean s → approve_request reply message request_id note admin lab req s = (res, s') →
  match target (db s) request_id lab with
  | None => res = Raise RequestNotFoundError ∧ s' = s
  | Some (row, pa, server) =>
      if negb (bool_decide (AccountLinkRequest.status row = request_pending))
      then res = Raise InvalidStatusTransitionError ∧ s' = s
      else
        match head (active_keys (db s) (AccountLinkRequest.requester_user_id row)) with
        | None => res = Raise NoActiveSshKeyError ∧ s' = s
        | Some key =>
            let sent := match reply with Raise AgentOfflineError => [] | _ => [push_rpc row pa server key] end in
            rpcs s' = rpcs s ++ sent ∧
            match reply, find_key_entry (db s) (PhysicalAccount.id pa) (SshPublicKey.id key) with
            | Ok _, Some _ => res = Raise (IntegrityError "uq_ake_pa_key") ∧ db s' = db s
            | Ok _, None | Raise AgentOfflineError, _ | Raise AgentRpcTimeoutError, _ =>
                res = Ok (approved admin (now s) note row) ∧
                authorized_key_entries (db s') =
                  (if is_ok reply then <[next_authorized_key_entry_id (db s) :=
                     approved_entry (db s) row pa key admin (now s)]> (authorized_key_entries (db s))
                   else authorized_key_entries (db s)) ∧
                approval_recorded row s s' (approved admin (now s) note row)
            | Raise e, _ => res = Raise e ∧ db s' = db s
            end
        end
  end.
Proof.
  intros Hc. unfold approve_request. pose proof (load_request_run request_id lab s) as Hload.
  destruct (target (db s) request_id lab) as [[[row pa] server]|] eqn:Ht.
  2:{ rewrite (bind_run_raise _ _ _ _ _ Hload). by intros [= <- <-]. }
  rewrite (bind_run _ _ _ _ _ Hload).
  destruct (bool_decide_reflect (AccountLinkRequest.status row = request_pending)) as [Hp|Hp]; cbn [negb];
    [|by intros [= <- <-]].
  rewrite (bind_run (raise_if false _) _ s tt s) by reflexivity.
  assert (Hk : _latest_active_key_for_user (AccountLinkRequest.requester_user_id row) s =
    (match head (active_keys (db s) (AccountLinkRequest.requester_user_id row)) with
     | Some key => Ok key | None => Raise NoActiveSshKeyError end, s)).
  { unfold _latest_active_key_for_user.
    rewrite (bind_run (gets _) _ s (head (active_keys (db s) (AccountLinkRequest.requester_user_id row))) s)
      by reflexivity. by destruct (head _). }
  destruct (head (active_keys _ _)) as [key|].
  2:{ rewrite (bind_run_raise _ _ _ _ _ Hk). by intros [= <- <-]. }
  rewrite (bind_run _ _ _ _ _ Hk). clear Hk. cbv zeta.
  destruct (approval_push_run reply message row pa server key admin s Hc) as [outcome Hpush].
  destruct reply as [fields|e]; [destruct (find_key_entry _ _ _) eqn:He|destruct e]; cbn [is_some] in Hpush;
    try (rewrite (bind_run_raise _ _ _ _ _ Hpush); intros [= <- <-]; split; [done|]; split; done);
    rewrite (bind_run _ _ _ _ _ Hpush); intros Hrun; apply approve_record in Hrun as (-> & Hrpc & Hent & Hrec);
    try exact Hc.
  - split; [exact Hrpc|]. split; [done|]. split; [exact Hent|]. exact Hrec.
  - split; [by rewrite Hrpc, app_nil_r|]. split; [done|]. split; [exact Hent|]. exact Hrec.
  - split; [exact Hrpc|]. split; [done|]. split; [exact Hent|]. exact Hrec.
Qed.

(** ** Witnesses *)

Definition sample_admin : AuthenticatedUser := sample_user 9 "carol" <| User.role := "lab_admin"%string |>.

(** Alice with a key, and bob's account 6 she asks for. *)
Definition asking_db : Db :=
  sample_db [] <| ssh_public_keys :=
    {[3 := SshPublicKey.mk 3 10 "ssh-ed25519 AAAA" "SHA256:f" "ssh-ed25519" None 1 None]} |>.
Definition installed : rpc_result := Ok [("ok", JBool true)]%string.

Lemma asking_ok : requests_ok asking_db.
Proof. by split. Qed.

Definition asked_db : Db := after_call (call_create 6 None (sample_user 10 "alice") no_request) 10 "" asking_db.
Definition granted_db : Db := after_call (call_approve installed "" 1 None sample_admin no_request) 20 "" asked_db.

Lemma requests_history_witness :
  requests_ok granted_db ∧ requests_evolve asking_db granted_db ∧
  (AccountLinkRequest.status <$> account_link_requests asked_db !! 1) = Some request_pending ∧
  (AccountLinkRequest.status <$> account_link_requests granted_db !! 1) = Some request_approved.
Proof.
  destruct (requests_history asking_db granted_db) as [H1 H2]; [apply asking_ok| |].
  - apply (rh_call _ (call_create 6 None (sample_user 10 "alice") no_request) 10 "").
    apply (rh_call _ (call_approve installed "" 1 None sample_admin no_request) 20 ""), rh_done.
  - split; [exact H1|]. split; [exact H2|]. split; vm_compute; reflexivity.
Defined.

Lemma approve_request_spec_witness :
  ∃ row s', approve_request installed "" 1 None 9 1 no_request (open_session asked_db 20 "") = (Ok row, s') ∧
            AccountLinkRequest.status row = request_approved ∧ account_links (db s') = account_links asked_db.
Proof.
  set (s := open_session asked_db 20 "").
  destruct (approve_request installed "" 1 None 9 1 no_request s) as [[row|e] s'] eqn:Hr;
    [|exfalso; vm_compute in Hr; discriminate Hr].
  assert (Hc : clean s) by done.
  pose proof (approve_request_spec installed "" 1 None 9 1 no_request s (Ok row) s' Hc Hr) as H.
  destruct (target (db s) 1 1) as [[[row0 pa] server]|]; [|destruct H as [H _]; discriminate H].
  destruct (negb _); [destruct H as [H _]; discriminate H|].
  destruct (head _) as [key|]; [|destruct H as [H _]; discriminate H].
  destruct H as [_ H]. destruct (find_key_entry _ _ _); [destruct H as [H _]; discriminate H|].
  destruct H as (Hrow & _ & _ & Hl & _). injection Hrow as ->.
  eexists _, s'. split; [reflexivity|]. split; [reflexivity|exact Hl].
Defined.

(** The account was prepared for alice before and taken away again: the next
    approval pushes her key and fails, and the request is still pending. *)
Definition prepared_before_db : Db :=
  asked_db <| authorized_key_entries := {[2 := AuthorizedKeyEntry.mk 2 6 3 9 10 0 0 (Some 5) (Some 9)]} |>
           <| next_authorized_key_entry_id := 3 |>.

Example second_approval_fails :
  (get_session (approve installed "" 1 None sample_admin no_request) prepared_before_db 20 "").1 =
    Raise (IntegrityError "uq_ake_pa_key") ∧
  (AccountLinkRequest.status <$>
     account_link_requests (after_call (call_approve installed "" 1 None sample_admin no_request) 20 ""
                              prepared_before_db) !! 1) = Some request_pending.
Proof. split; vm_compute; reflexivity. Qed.
