(* ===== verification/ChallengeProperties.v ===== *)
(** Claiming an account by a signed challenge: what a challenge is good for,
    and what a verification does on every outcome
    ([services/ssh_challenge.py], [api/v1/account_links.py]). *)

From S2P Require Import Prelude Models SessionLayer Samples AgentRpc.
From S2P Require Import NotificationService ReservationsApi AlertService AuditService AccountLinkService.
From S2P Require Import AccountLinkProperties AccountLinkRequestService RateLimit RequestLayer.
From S2P Require Import AccountLinksApi.

Lemma now_ms_le (s s' : Session) : now s <= now s' → now_ms s <= now_ms s'.
Proof. intros. unfold now_ms. apply Z.div_le_mono; lia. Qed.

Section redis.
Context {R : Type} `{RedisLaws R} (isoformat : Z → string).
Context (dumps : json → string) (loads : string → option json).

Abbreviation Handler := (Handler R).

Definition challenge_key (challenge_id : string) : string := _REDIS_PREFIX +:+ challenge_id.

(** Taking a challenge out of the store. *)
Lemma consume_run challenge_id actor s (l : Limiter R) r :
  client l = Some r → is_text (peek (now_ms s) r (challenge_key challenge_id)) = true →
  ∃ r', only_key (now_ms s) (challenge_key challenge_id) None r r' ∧
    consume loads challenge_id actor (s, l) =
      (match text_of (peek (now_ms s) r (challenge_key challenge_id)) with
       | None => Raise ChallengeExpiredOrUsedError
       | Some raw =>
           match read_challenge loads challenge_id raw with
           | None => Raise KeyError
           | Some ctx => if bool_decide (cc_user_id ctx = actor) then Ok ctx else Raise ActorMismatchError
           end
       end, (s, l <| client := Some r' |>)).
Proof using Type*.
  intros Hl Ht. unfold consume. simpl. rewrite Hl. fold (challenge_key challenge_id).
  destruct (getdel_law _ _ _ Ht) as [Honly Hres].
  destruct (getdel (now_ms s) (challenge_key challenge_id) r) as [r' raw]. simpl in *. subst raw.
  exists r'. split; [done|].
  destruct (text_of _) as [raw|]; [|done]. destruct (read_challenge loads challenge_id raw) as [ctx|]; [|done].
  by destruct (bool_decide _).
Qed.

Lemma consume_gone challenge_id actor s (l : Limiter R) r :
  client l = Some r → peek (now_ms s) r (challenge_key challenge_id) = None →
  (consume loads challenge_id actor (s, l)).1 = Raise ChallengeExpiredOrUsedError.
Proof using Type*.
  intros Hl Hn. destruct (consume_run challenge_id actor s l r Hl) as (r' & _ & ->); [by rewrite Hn|].
  by rewrite Hn.
Qed.

(** An account check on the request's session. *)
Lemma in_session_Ok {A} (m : M A) (w w' : Session * Limiter R) a :
  in_session m w = (Ok a, w') → m w.1 = (Ok a, w'.1) ∧ w'.2 = w.2.
Proof using Type. unfold in_session. destruct (m w.1) as [r s']. by intros [= -> <-]. Qed.

Lemma mapping_Ok {A} (m : M A) f s a s' : mapping m f s = (Ok a, s') → m s = (Ok a, s').
Proof using Type. rewrite mapping_run. destruct (m s) as [[b|e] s1]; [|done]. by intros [= -> ->]. Qed.

Lemma verify_failed_raises {A} reason challenge_id answer current req (w w' : Session * Limiter R) (a : A) :
  (verify_failed reason challenge_id answer current req : Handler A) w ≠ (Ok a, w').
Proof using Type.
  unfold verify_failed. intros Hv. apply bind_Ok in Hv as (? & ? & _ & Hv). by apply bind_Ok in Hv as (? & ? & _ & ?).
Qed.

Lemma check_lock_run current s (l : Limiter R) r :
  client l = Some r →
  check_lock current (s, l) =
    (if is_some (peek (now_ms s) r (_lock_key SshChallengeLockManager (lock_subject current)))
     then Raise (HTTPException 429 "SSH_CHALLENGE_LOCKED") else Ok tt, (s, l)).
Proof using Type*.
  intros Hl. unfold check_lock, on_limiter, is_locked, mbind, prog_bind. simpl. rewrite Hl, exists_law.
  by destruct (is_some _).
Qed.

(** ** Verifying *)

Section verifying.

Abbreviation fails_key current := (_count_key SshChallengeLockManager (lock_subject current)).
Abbreviation locked_key current := (_lock_key SshChallengeLockManager (lock_subject current)).




Context (reply : rpc_result) (signature : string) (current : AuthenticatedUser) (req : RequestInfo).

(** What the verification does with a challenge that is good: the agent is
    asked, and its answer decides. *)
Definition claim (ctx : ChallengeContext) : M (AccountLink.t * json) :=
  signer_fp ← verified_signer reply ctx signature ;
  flag_platform_key ctx current req ;;
  link ← mapping
    (establish_via_ssh_challenge isoformat (cc_user_id ctx) (cc_physical_account_id ctx) (cc_challenge_id ctx)
       signer_fp (User.lab_id current) (cc_server_id ctx) req) already_active ;
  mret (link, signer_fp).

Lemma claim_in_session ctx s (l : Limiter R) :
  (signer_fp ← in_session (verified_signer reply ctx signature) ;
   in_session (flag_platform_key ctx current req) ;;
   link ← in_session (mapping
     (establish_via_ssh_challenge isoformat (cc_user_id ctx) (cc_physical_account_id ctx) (cc_challenge_id ctx)
        signer_fp (User.lab_id current) (cc_server_id ctx) req) already_active) ;
   mret (link, signer_fp)) (s, l) =
  (let '(r, s') := claim ctx s in (r, (s', l))).
Proof using Type.
  unfold claim, in_session, mbind, prog_bind. simpl.
  destruct (verified_signer _ _ _ s) as [[fp|e] s1]; [|done]. simpl.
  destruct (flag_platform_key _ _ _ s1) as [[[]|e] s2]; [|done]. simpl.
  by destruct (mapping _ _ s2) as [[link|e] s3].
Qed.

(** The question the agent gets. *)
Definition verify_rpc (ctx : ChallengeContext) (pa : PhysicalAccount.t) : Z * string * list (string * json) :=
  (cc_server_id ctx, "backend.ssh.verify_sig"%string,
   [("linux_username", JStr (PhysicalAccount.linux_username pa)); ("nonce", JStr (cc_nonce ctx));
    ("namespace", JStr SIGNING_NAMESPACE); ("signature_armored", JStr signature)]%string).

Lemma verified_signer_run ctx s :
  verified_signer reply ctx signature s =
    match physical_accounts (db s) !! cc_physical_account_id ctx with
    | None => (Raise (HTTPException 404 "physical_account_gone"), s)
    | Some pa =>
        match reply with
        | Ok fields =>
            (if truthy (obj_get "ok" fields) then Ok (default (JStr "unknown") (obj_get "signer_fingerprint" fields))
             else Raise (HTTPException 401 "signature_verification_failed"),
             s <| rpcs := rpcs s ++ [verify_rpc ctx pa] |>)
        | Raise AgentOfflineError => (Raise (agent_error AgentOfflineError), s)
        | Raise e => (Raise (agent_error e), s <| rpcs := rpcs s ++ [verify_rpc ctx pa] |>)
        end
    end.
Proof using Type.
  unfold verified_signer.
  rewrite (bind_run (get_physical_account _) _ s (physical_accounts (db s) !! cc_physical_account_id ctx) s)
    by reflexivity.
  destruct (physical_accounts (db s) !! _) as [pa|]; [|reflexivity].
  unfold mapping, try_except, mbind, prog_bind, agent_request. simpl. fold (verify_rpc ctx pa).
  destruct reply as [fields|e]; simpl; [by destruct (truthy _)|]. by destruct e.
Qed.

(** The actions of the audit entries a good challenge leaves. *)
Definition flagged (d : Db) (ctx : ChallengeContext) : list string :=
  if is_some (active_entry (find_key_entry d (cc_physical_account_id ctx) (cc_ssh_public_key_id ctx)))
  then ["account_link.verify.platform_pushed_key"%string] else [].

(** The database but for entries of these actions in the audit log. *)
Definition logged (actions : list string) (d d' : Db) : Prop :=
  ∃ log, AuditLog.action <$> log = actions ∧ d' = d <| audit_log := audit_log d ++ log |>.

Lemma flag_run ctx s :
  clean s → ∃ log, AuditLog.action <$> log = flagged (db s) ctx ∧
    flag_platform_key ctx current req s =
      (Ok tt, s <| db := db s <| audit_log := audit_log (db s) ++ log |> |>).
Proof using Type.
  intros Hc. unfold flag_platform_key, _find_key_entry, flagged.
  rewrite (bind_run (gets _) _ s (find_key_entry (db s) (cc_physical_account_id ctx) (cc_ssh_public_key_id ctx)) s)
    by reflexivity.
  destruct (active_entry _) as [e|].
  - rewrite write_run by done. eexists. split; [|reflexivity]. reflexivity.
  - exists []. split; [done|]. rewrite app_nil_r. by destruct s as [? []].
Qed.

(** The user has an active link to the account. *)
Definition linked (d : Db) (user pa : Z) : Prop :=
  ∃ k link, account_links d !! k = Some link ∧ AccountLink.user_id link = user ∧
    AccountLink.physical_account_id link = pa ∧ AccountLink.is_active link = 1.

Lemma linked_found d user pa : linked d user pa ↔ is_some (find_active_link d user pa) = true.
Proof using Type.
  destruct (find_active_link d user pa) as [l|] eqn:Hf; simpl.
  - split; [done|]. intros _. unfold find_active_link in Hf. apply head_Some_elem_of in Hf.
    apply list_elem_of_filter in Hf as [(Hu & Hp & Ha) Hin]. apply elem_of_rows in Hin as [k Hk]. by exists k, l.
  - split; [|done]. intros (k & l & Hk & Hu & Hp & Ha). by eapply find_active_link_None in Hf.
Qed.

(** The link an accepted signature makes. *)
Definition signed_link (ctx : ChallengeContext) (fp : json) (s : Session) : AccountLink.t :=
  new_link (cc_user_id ctx) (cc_physical_account_id ctx) ssh_challenge
    (ssh_proof isoformat (cc_challenge_id ctx) fp (now s)) (cc_user_id ctx) (next_account_link_id (db s)).

(** What becomes of a good challenge, by what the agent answers. *)
Definition claimed (ctx : ChallengeContext) (s : Session) (res : result exn (AccountLink.t * json)) (s' : Session) :
    Prop :=
  match physical_accounts (db s) !! cc_physical_account_id ctx with
  | None => res = Raise (HTTPException 404 "physical_account_gone") ∧ s' = s
  | Some pa =>
      match reply with
      | Raise e =>
          db s' = db s ∧
          rpcs s' = rpcs s ++ (if bool_decide (e = AgentOfflineError) then [] else [verify_rpc ctx pa]) ∧
          res = Raise (if bool_decide (e = RpcNotYetWiredError) then HTTPException 503 "agent_rpc_not_implemented"
                       else if bool_decide (e = AgentOfflineError) then HTTPException 503 "AgentOfflineError"
                       else if bool_decide (e = AgentRpcTimeoutError) then HTTPException 504 "AgentRpcTimeoutError"
                       else e)
      | Ok fields =>
          rpcs s' = rpcs s ++ [verify_rpc ctx pa] ∧
          if negb (truthy (obj_get "ok" fields)) then
            res = Raise (HTTPException 401 "signature_verification_failed") ∧ db s' = db s
          else
            let fp := default (JStr "unknown") (obj_get "signer_fingerprint" fields) in
            (linked (db s) (cc_user_id ctx) (cc_physical_account_id ctx) →
               res = Raise (HTTPException 409 "LinkAlreadyActiveError") ∧ logged (flagged (db s) ctx) (db s) (db s')) ∧
            (¬ linked (db s) (cc_user_id ctx) (cc_physical_account_id ctx) →
               if is_some (users (db s) !! cc_user_id ctx) then
                 res = Ok (signed_link ctx fp s, fp) ∧
                 logged (flagged (db s) ctx ++ ["account_link.established"%string])
                   (with_link (signed_link ctx fp s) (db s)) (db s')
               else
                 res = Raise (IntegrityError "fk_link_user") ∧ logged (flagged (db s) ctx) (db s) (db s'))
      end
  end.

(** The link is made for the challenge's user and account, by that user. *)
Lemma signed_run ctx fp (s : Session) pa :
  clean s → physical_accounts (db s) !! cc_physical_account_id ctx = Some pa →
  ∃ entry, AuditLog.action entry = "account_link.established"%string ∧
  mapping
    (establish_via_ssh_challenge isoformat (cc_user_id ctx) (cc_physical_account_id ctx) (cc_challenge_id ctx)
       fp (User.lab_id current) (cc_server_id ctx) req) already_active s =
    if is_some (find_active_link (db s) (cc_user_id ctx) (cc_physical_account_id ctx))
    then (Raise (HTTPException 409 "LinkAlreadyActiveError"), s)
    else if is_some (users (db s) !! cc_user_id ctx)
    then (Ok (signed_link ctx fp s),
          s <| db := with_link (signed_link ctx fp s) (db s) <| audit_log := audit_log (db s) ++ [entry] |> |>)
    else (Raise (IntegrityError "fk_link_user"), s).
Proof using Type.
  intros Hc Hpa. rewrite mapping_run.
  destruct (established_run (cc_user_id ctx) (cc_physical_account_id ctx)
    (λ at_, new_link (cc_user_id ctx) (cc_physical_account_id ctx) ssh_challenge
       (ssh_proof isoformat (cc_challenge_id ctx) fp at_) (cc_user_id ctx))
    "account_link.established" (cc_user_id ctx) (User.lab_id current) (cc_server_id ctx)
    (λ _, [("physical_account_id", JInt (cc_physical_account_id ctx)); ("source", JStr "ssh_challenge");
           ("challenge_id", JStr (cc_challenge_id ctx))]%string) req s Hc) as (entry & Hact & Hrun).
  exists entry. split; [done|]. unfold establish_via_ssh_challenge. rewrite Hrun.
  destruct (find_active_link (db s) _ _) eqn:Hf; [done|]. simpl. unfold link_row_error. simpl. rewrite Hpa, Hf. simpl.
  by destruct (users (db s) !! cc_user_id ctx).
Qed.

Lemma claim_spec ctx s res s' : clean s → claim ctx s = (res, s') → claimed ctx s res s'.
Proof using Type.
  intros Hc Hrun. unfold claimed. unfold claim in Hrun. pose proof (verified_signer_run ctx s) as Hv.
  destruct (physical_accounts (db s) !! cc_physical_account_id ctx) as [pa|] eqn:Hpa.
  2:{ rewrite (bind_run_raise _ _ _ _ _ Hv) in Hrun. by injection Hrun as <- <-. }
  destruct reply as [fields|e0].
  2:{ destruct e0; rewrite (bind_run_raise _ _ _ _ _ Hv) in Hrun; injection Hrun as <- <-;
        rewrite ?bool_decide_eq_true_2, ?bool_decide_eq_false_2, ?app_nil_r by done; done. }
  destruct (truthy (obj_get "ok" fields)) eqn:Hok; simpl negb; cbv iota.
  2:{ rewrite (bind_run_raise _ _ _ _ _ Hv) in Hrun. by injection Hrun as <- <-. }
  rewrite (bind_run _ _ _ _ _ Hv) in Hrun.
  set (fp := default _ _) in *. set (s1 := s <| rpcs := _ |>) in *.
  destruct (flag_run ctx s1) as (log & Hlog & Hf); [done|].
  rewrite (bind_run _ _ _ _ _ Hf) in Hrun. set (s2 := s1 <| db := _ |>) in *.
  destruct (signed_run ctx fp s2 pa) as (entry & Hact & Hs); [done..|].
  change (find_active_link (db s2)) with (find_active_link (db s)) in Hs.
  change (users (db s2)) with (users (db s)) in Hs. change (signed_link ctx fp s2) with (signed_link ctx fp s) in Hs.
  rewrite linked_found. destruct (is_some (find_active_link (db s) _ _)).
  { rewrite (bind_run_raise _ _ _ _ _ Hs) in Hrun. injection Hrun as <- <-. split; [done|].
    split; [|done]. intros _. split; [done|]. by exists log. }
  destruct (is_some (users (db s) !! cc_user_id ctx)).
  - rewrite (bind_run _ _ _ _ _ Hs) in Hrun. injection Hrun as <- <-. split; [done|]. split; [done|]. intros _.
    split; [done|]. exists (log ++ [entry]). rewrite fmap_app, Hlog. simpl. rewrite Hact. split; [done|].
    by rewrite (app_assoc _ log).
  - rewrite (bind_run_raise _ _ _ _ _ Hs) in Hrun. injection Hrun as <- <-. split; [done|].
    split; [done|]. intros _. split; [done|]. by exists log.
Qed.



(** ** What a consumed challenge allows *)

(** A link made by an accepted signature is the challenge's. *)
Lemma verified_for challenge_id s (l l2 : Limiter R) r c link fp w' :
  clean s → client l = Some r →
  consume loads challenge_id (User.id current) (s, l) = (c, (s, l2)) →
  verify_challenge isoformat loads reply challenge_id signature current req (s, l) = (Ok (link, fp), w') →
  ∃ ctx, c = Ok ctx ∧ AccountLink.user_id link = cc_user_id ctx ∧
    AccountLink.physical_account_id link = cc_physical_account_id ctx.
Proof using Type*.
  intros Hc Hl Hcon Hv. unfold verify_challenge in Hv. apply bind_Ok in Hv as (u & w0 & Hlock & Hv).
  rewrite (check_lock_run _ _ _ r Hl) in Hlock. destruct (is_some _); [done|]. injection Hlock as _ <-.
  apply bind_Ok in Hv as (ctx & w1 & Hk & Hv). exists ctx. unfold consumed, try_except in Hk. rewrite Hcon in Hk.
  destruct c as [c|e]; [|destruct e; try done; by apply verify_failed_raises in Hk]. injection Hk as -> <-.
  rewrite claim_in_session in Hv. destruct (claim ctx s) as [res s1] eqn:Hcl. injection Hv as -> <-.
  apply claim_spec in Hcl; [|done]. unfold claimed in Hcl.
  destruct (physical_accounts (db s) !! _); [|by destruct Hcl]. destruct reply as [fields|e]; [|by destruct Hcl as (_ & _ & ?)].
  destruct Hcl as [_ Hcl]. destruct (negb _); [by destruct Hcl|]. destruct Hcl as [Hyes Hno].
  rewrite linked_found in Hyes, Hno. destruct (is_some (find_active_link _ _ _)); [by destruct Hyes|].
  destruct (is_some (users _ !! _)); (destruct Hno as [Hres _]; [done|]); [|done]. by injection Hres as -> _.
Qed.

Lemma verified_signer_db ctx s fp s' :
  clean s → verified_signer reply ctx signature s = (Ok fp, s') → clean s' ∧ db s' = db s.
Proof using Type.
  intros Hc. rewrite verified_signer_run. destruct (physical_accounts (db s) !! _); [|done].
  destruct reply as [fields|[]]; try done. by intros [= _ <-].
Qed.

(** An upgrade is of the caller's own declared link to the challenge's
    account. *)
Lemma upgraded_for link_id challenge_id s (l l2 : Limiter R) c link fp w' :
  clean s → consume loads challenge_id (User.id current) (s, l) = (c, (s, l2)) →
  upgrade_via_challenge isoformat loads reply link_id challenge_id signature current req (s, l) =
    (Ok (link, fp), w') →
  ∃ ctx old, c = Ok ctx ∧ account_links (db s) !! link_id = Some old ∧
    AccountLink.user_id old = User.id current ∧ AccountLink.source old = admin_declared ∧
    AccountLink.physical_account_id old = cc_physical_account_id ctx ∧
    AccountLink.user_id link = User.id current ∧ AccountLink.physical_account_id link = cc_physical_account_id ctx.
Proof using Type.
  intros Hc Hcon Hv. unfold upgrade_via_challenge in Hv.
  apply bind_Ok in Hv as (old & [s0 l0] & Hload & Hv). apply in_session_Ok in Hload as [Hload Hl0]. simpl in Hl0. subst l0.
  apply mapping_Ok, load_link_run in Hload as [Hs0 Hold]. simpl in Hs0. subst s0. simpl in Hold.
  apply bind_Ok in Hv as (u1 & w1 & Hr1 & Hv).
  destruct (bool_decide_reflect (AccountLink.user_id old = User.id current)) as [Hu|]; [|done].
  injection Hr1 as _ <-. apply bind_Ok in Hv as (u2 & w2 & Hr2 & Hv).
  destruct (bool_decide_reflect (AccountLink.source old = admin_declared)) as [Hsrc|]; [|done].
  injection Hr2 as _ <-. apply bind_Ok in Hv as (ctx & w3 & Hk & Hv). unfold try_except in Hk. rewrite Hcon in Hk.
  destruct c as [c|e]; [|by destruct e]. injection Hk as -> <-.
  apply bind_Ok in Hv as (u4 & w4 & Hr4 & Hv).
  destruct (bool_decide_reflect (cc_physical_account_id ctx = AccountLink.physical_account_id old)) as [Hpa|]; [|done].
  injection Hr4 as _ <-. apply bind_Ok in Hv as (fp1 & [s5 l5] & Hs & Hv). apply in_session_Ok in Hs as [Hs _].
  apply verified_signer_db in Hs as [Hc5 _]; [|done]. simpl in Hc5.
  apply bind_Ok in Hv as (link1 & w6 & Hup & Hv). apply ret_run in Hv as [[= -> ->] _].
  apply in_session_Ok in Hup as [Hup _]. apply mapping_Ok, upgrade_Ok in Hup as (old1 & e & _ & _ & -> & _); [|done].
  exists ctx, old. by specialize (Hold old eq_refl).
Qed.

End verifying.

Section json.
Context (loads_dumps : ∀ user server pa key nonce,
  let data := challenge_data user server pa key nonce in loads (dumps data) = Some data).

(** A minted challenge, taken out later. *)
Lemma minted_consumed nonce challenge_id user server pa key s l issued l1 s2 :
  mint dumps nonce challenge_id user server pa key (s, l) = (Ok issued, (s, l1)) → now s <= now s2 →
  is_some (client l1) = true ∧
  ∀ actor, ∃ l2,
    consume loads challenge_id actor (s2, l1) =
      (if bool_decide (now_ms s + 300000 <= now_ms s2) then Raise ChallengeExpiredOrUsedError
       else if bool_decide (user = actor) then Ok (mkContext user server pa key nonce challenge_id)
       else Raise ActorMismatchError, (s2, l2)) ∧
    ∀ s3 actor', now s2 <= now s3 →
      (consume loads challenge_id actor' (s3, l2)).1 = Raise ChallengeExpiredOrUsedError.
Proof using Type*.
  intros Hm Hle. unfold mint in Hm. simpl in Hm. destruct (client l) as [r|]; [|done].
  injection Hm as _ <-. split; [done|]. intros actor. fold (challenge_key challenge_id).
  set (data := dumps _). set (r1 := setex _ _ _ _ r).
  assert (Hpeek : peek (now_ms s2) r1 (challenge_key challenge_id) =
    if bool_decide (now_ms s + 300000 <= now_ms s2) then None else Some (text data, Some (now_ms s + 300 * 1000))).
  { rewrite (peek_later _ _ _ _ (now_ms_le _ _ Hle)).
    destruct (setex_law (now_ms s) (challenge_key challenge_id) TTL_SECONDS data r) as [Hset _]; [done|].
    fold r1 in Hset. by rewrite Hset. }
  destruct (consume_run challenge_id actor s2 (l <| client := Some r1 |>) r1) as (r2 & [Hgone _] & Hc); [done| |].
  { rewrite Hpeek. by destruct (bool_decide _). }
  exists (l <| client := Some r1 |> <| client := Some r2 |>). split.
  - etransitivity; [exact Hc|]. rewrite Hpeek. destruct (bool_decide _); [done|]. simpl text_of. cbv iota.
    unfold read_challenge, data. by rewrite loads_dumps.
  - intros s3 actor' Hle3. apply (consume_gone _ _ _ _ r2); [done|].
    by rewrite (peek_later _ _ _ _ (now_ms_le _ _ Hle3)), Hgone.
Qed.

(** C22: A challenge is good once, for the user and the account it was minted
    for and for 300 seconds.  Consumed by that user in time it gives back
    what was minted; anybody else is turned away, and in every case a second
    attempt finds nothing, whoever makes it.  A verification with it succeeds
    only for that user, in time, and its link is to the account of the
    challenge.  An upgrade with it succeeds only for that user, in time, on
    the user's own declared link to that account: with a link to another
    account it is refused. *)
Theorem challenge_single_use nonce challenge_id user server pa key s l issued l1 s2 actor :
  mint dumps nonce challenge_id user server pa key (s, l) = (Ok issued, (s, l1)) → now s <= now s2 →
  (∃ l2,
    consume loads challenge_id actor (s2, l1) =
      (if bool_decide (now_ms s + 300000 <= now_ms s2) then Raise ChallengeExpiredOrUsedError
       else if bool_decide (user = actor) then Ok (mkContext user server pa key nonce challenge_id)
       else Raise ActorMismatchError, (s2, l2)) ∧
    ∀ s3 actor', now s2 <= now s3 →
      (consume loads challenge_id actor' (s3, l2)).1 = Raise ChallengeExpiredOrUsedError) ∧
  (clean s2 → ∀ reply signature current req link fp w',
    verify_challenge isoformat loads reply challenge_id signature current req (s2, l1) = (Ok (link, fp), w') →
    User.id current = user ∧ now_ms s2 < now_ms s + 300000 ∧
    AccountLink.user_id link = user ∧ AccountLink.physical_account_id link = pa) ∧
  (clean s2 → ∀ reply link_id signature current req link fp w',
    upgrade_via_challenge isoformat loads reply link_id challenge_id signature current req (s2, l1) =
      (Ok (link, fp), w') →
    User.id current = user ∧ now_ms s2 < now_ms s + 300000 ∧
    AccountLink.user_id link = user ∧ AccountLink.physical_account_id link = pa ∧
    ∃ old, account_links (db s2) !! link_id = Some old ∧ AccountLink.user_id old = user ∧
      AccountLink.source old = admin_declared ∧ AccountLink.physical_account_id old = pa).
Proof using Type*.
  intros Hm Hle. destruct (minted_consumed _ _ _ _ _ _ _ _ _ _ _ Hm Hle) as [Hcl Hcon].
  destruct (client l1) as [r1|] eqn:Hl1; [|done].
  assert (Hgood : ∀ current ctx l2, consume loads challenge_id (User.id current) (s2, l1) = (Ok ctx, (s2, l2)) →
    User.id current = user ∧ now_ms s2 < now_ms s + 300000 ∧ ctx = mkContext user server pa key nonce challenge_id).
  { intros current ctx l2 Hk. destruct (Hcon (User.id current)) as (l3 & Hk' & _). rewrite Hk' in Hk.
    case_bool_decide; [done|]. case_bool_decide as Hu; [|done]. injection Hk as <- _. split_and!; [done|lia|done]. }
  split; [apply Hcon|]. split.
  - intros Hc reply signature current req link fp w' Hv. destruct (Hcon (User.id current)) as (l2 & Hk & _).
    destruct (verified_for _ _ _ _ _ _ _ _ _ _ _ _ _ Hc Hl1 Hk Hv) as (ctx & He & Hu & Hp). rewrite He in Hk.
    destruct (Hgood _ _ _ Hk) as (-> & ? & ->). done.
  - intros Hc reply link_id signature current req link fp w' Hv. destruct (Hcon (User.id current)) as (l2 & Hk & _).
    destruct (upgraded_for _ _ _ _ _ _ _ _ _ _ _ _ _ Hc Hk Hv) as (ctx & old & He & Hold & Huo & Hsrc & Hpo & Hu & Hp).
    rewrite He in Hk. destruct (Hgood _ _ _ Hk) as (<- & ? & ->). split_and!; [done..|]. by exists old.
Qed.
End json.

End redis.

(** ** Witnesses *)

(** The text of a challenge, in binary. *)
Definition sample_dumps (v : json) : string :=
  match v with
  | JObj [(_, JInt u); (_, JInt sv); (_, JInt pa); (_, JInt k); (_, JStr n)] => binary (encode (u, sv, pa, k, n))
  | _ => EmptyString
  end.

Definition sample_loads (s : string) : option json :=
  '(u, sv, pa, k, n) ← (decode (of_binary s) : option (Z * Z * Z * Z * string)) ;
  Some (challenge_data u sv pa k n).

Lemma sample_loads_dumps u sv pa k n :
  let data := challenge_data u sv pa k n in sample_loads (sample_dumps data) = Some data.
Proof. cbv zeta. unfold sample_loads. simpl. by rewrite of_binary_binary, decode_encode. Qed.

Definition empty_limiter : Limiter Store := mkLimiter (mkInProcess ∅ ∅) (Some ∅).
Definition sample_member : AuthenticatedUser := sample_user 10 "alice".

Definition at_second (t : Z) : Session := open_session (sample_db []) (seconds t) "".

(** Alice's challenge of second 0, for bob's account. *)
Definition sample_issued : IssuedChallenge :=
  mkIssued "c" "n" (seconds 300) (_sign_command quotation_mark "n").
Definition sample_minted : Store :=
  put (challenge_key "c") (Some (text (sample_dumps (challenge_data 10 1 6 3 "n")), Some 300000)) ∅.

Lemma sample_mint :
  mint (R := Store) sample_dumps "n" "c" 10 1 6 3 (at_second 0, empty_limiter) =
    (Ok sample_issued, (at_second 0, mkLimiter (mkInProcess ∅ ∅) (Some sample_minted))).
Proof. reflexivity. Qed.

(** What she is answered when the agent accepts her signature. *)
Definition sample_verified : result exn (AccountLink.t * json) * (Session * Limiter Store) :=
  verify_challenge sample_instant sample_loads (Ok [("ok", JBool true)]%string) "c" "sig" sample_member no_request
    (at_second 1, mkLimiter (mkInProcess ∅ ∅) (Some sample_minted)).

Definition sample_ssh_link : AccountLink.t :=
  new_link 10 6 ssh_challenge (ssh_proof sample_instant "c" (JStr "unknown") (seconds 1)) 10 9.

Lemma sample_verified_Ok : sample_verified = (Ok (sample_ssh_link, JStr "unknown"), sample_verified.2).
Proof. vm_compute. reflexivity. Qed.

(** Used by her at second 1, it is used up; the link it makes is for bob's
    account. *)
Lemma challenge_single_use_witness :
  (∃ l2,
    consume sample_loads "c" 10 (at_second 1, mkLimiter (mkInProcess ∅ ∅) (Some sample_minted)) =
      (Ok (mkContext 10 1 6 3 "n" "c"), (at_second 1, l2)) ∧
    (consume sample_loads "c" 10 (at_second 1, l2)).1 = Raise ChallengeExpiredOrUsedError) ∧
  AccountLink.user_id sample_ssh_link = 10 ∧ AccountLink.physical_account_id sample_ssh_link = 6.
Proof.
  assert (Hle : now (at_second 0) <= now (at_second 1)) by done.
  assert (Hc : clean (at_second 1)) by done.
  destruct (challenge_single_use sample_instant sample_dumps sample_loads sample_loads_dumps _ _ _ _ _ _ _ _ _ _
    (at_second 1) 10 sample_mint Hle) as ((l2 & Hcon & Hagain) & Hverify & _).
  destruct (Hverify Hc _ _ _ _ _ _ _ sample_verified_Ok) as (_ & _ & Hu & Hp).
  split; [|done]. exists l2. split; [exact Hcon|]. apply (Hagain (at_second 1) 10). reflexivity.
Defined.

