(* ===== verification/PhysicalAccountsApi.v ===== *)
(** The endpoints of the account registry
    ([api/v1/physical_accounts.py] under [backend/corelab_backend]) with the
    two inventories of pushed keys they show: the table's
    ([list_authorized_key_inventory]) and the host's
    ([read_authorized_keys_from_host], both of
    [services/physical_account_service.py]).

    [ci] is the key of the collation of user names, [isoformat] writes an
    instant, [int_text] is Python's [int] of a text.  The agents' answers and
    the texts of exceptions are arguments. *)

From S2P Require Import Prelude PyText Models SessionLayer AgentRpc.
From S2P Require Import AuditService NotificationService PhysicalAccountService AlertService AccountLinkService.
From S2P Require Import ReservationsApi AccountLinkRequestService RequestLayer AuthDependencies.

#[local] Open Scope Z_scope.

(** ** Requests *)

(** [LINUX_USERNAME_PATTERN] *)
Definition name_first (c : N) : bool := between 97 122 c || bool_decide (c = 95%N).
Definition name_char (c : N) : bool := name_first c || between 48 57 c || bool_decide (c = 45%N).

Definition linux_username_valid (name : string) : bool :=
  match text_of name with
  | c :: rest => name_first c && forallb name_char rest && bool_decide (length rest <= 31)%nat
  | [] => false
  end.

Record PhysicalAccountCreate : Type := mkAccountCreate {
  pc_linux_username : string ;
  pc_source : string ;
  pc_notes : option string }.

Definition PhysicalAccountCreate_valid (p : PhysicalAccountCreate) : bool :=
  linux_username_valid (pc_linux_username p) && bool_decide (pc_source p ∈ VALID_SOURCES) &&
  match pc_notes p with Some s => bool_decide (length (text_of s) <= 255)%nat | None => true end.

Definition reason_valid (reason : string) : bool := bool_decide (20 <= length (text_of reason) <= 500)%nat.

Record OnboardUserRequest : Type := mkOnboardUser {
  ob_linux_username : string ;
  ob_owner_user_id : Z ;
  ob_ssh_public_key_id : Z ;
  ob_reason : string }.

Definition OnboardUserRequest_valid (p : OnboardUserRequest) : bool :=
  linux_username_valid (ob_linux_username p) && reason_valid (ob_reason p).

(** ** The table's inventory *)

Definition _authorized_key_entry_status (entry : AuthorizedKeyEntry.t) : string :=
  if bool_decide (AuthorizedKeyEntry.is_active entry = 1) then "active"
  else if is_some (AuthorizedKeyEntry.removed_at entry) then "removed" else "push_failed".

Record InventoryEntry : Type := mkInventory {
  iv_entry : AuthorizedKeyEntry.t ;
  iv_account : PhysicalAccount.t ;
  iv_key : SshPublicKey.t ;
  iv_pushed_for : User.t ;
  iv_pushed_by : User.t ;
  iv_removed_by : option User.t ;
  iv_status : string ;
  iv_can_retry : bool }.

(** The joined row of an entry, [None] when an inner join drops it. *)
Definition inventory_entry (d : Db) (server_id lab_id : Z) (entry : AuthorizedKeyEntry.t) : option InventoryEntry :=
  pa ← physical_accounts d !! AuthorizedKeyEntry.physical_account_id entry ;
  server ← servers d !! PhysicalAccount.server_id pa ;
  key ← ssh_public_keys d !! AuthorizedKeyEntry.ssh_public_key_id entry ;
  for_user ← users d !! AuthorizedKeyEntry.pushed_for_user_id entry ;
  by_user ← users d !! AuthorizedKeyEntry.pushed_by_user_id entry ;
  let removed_user := id ← AuthorizedKeyEntry.removed_by_user_id entry ; users d !! id in
  let status := _authorized_key_entry_status entry in
  if bool_decide (Server.id server = server_id ∧ Server.lab_id server = lab_id)
  then Some (mkInventory entry pa key for_user by_user removed_user status
               (bool_decide (status = "push_failed"%string ∧ SshPublicKey.is_active key = 1 ∧
                             PhysicalAccount.is_active pa = 1)))
  else None.

Section api.
Context (ci : string → string) (isoformat : Z → string) (int_text : string → option Z).

(** [ORDER BY linux_username, id] *)
Definition inventory_le (a b : InventoryEntry) : Prop :=
  let x := ci (PhysicalAccount.linux_username (iv_account a)) in
  let y := ci (PhysicalAccount.linux_username (iv_account b)) in
  if bool_decide (x = y) then AuthorizedKeyEntry.id (iv_entry a) <= AuthorizedKeyEntry.id (iv_entry b)
  else text_le x y.
#[export] Instance inventory_le_dec : RelDecision inventory_le.
Proof using Type. intros a b. unfold inventory_le. destruct (bool_decide _); apply _. Defined.

Definition list_authorized_key_inventory (server_id lab_id : Z) : M (list InventoryEntry) :=
  gets (λ s, merge_sort inventory_le
               (omap (inventory_entry (db s) server_id lab_id) (rows (authorized_key_entries (db s))))).

(** ** The host's inventory *)

Record HostKey : Type := mkHostKey {
  hk_line_number : Z ;
  hk_fingerprint_sha256 : string ;
  hk_key_type : json ;
  hk_comment : json }.

Record ManagedEntry : Type := mkManaged {
  mg_entry : AuthorizedKeyEntry.t ;
  mg_key : SshPublicKey.t ;
  mg_user : User.t ;
  mg_present_on_host : bool }.

Record Readback : Type := mkReadback {
  rb_account : PhysicalAccount.t ;
  rb_ok : bool ;
  rb_error : json ;
  rb_authorized_keys_path : json ;
  rb_line_count : Z ;
  rb_invalid_line_count : Z ;
  rb_host_keys : list HostKey ;
  rb_managed_entries : list ManagedEntry ;
  rb_unknown_host_keys : list HostKey ;
  rb_mock_warning : json }.

(** What the [try] block takes from the answer. *)
Record HostReport : Type := mkHostReport {
  hr_ok : bool ;
  hr_error : json ;
  hr_authorized_keys_path : json ;
  hr_line_count : Z ;
  hr_invalid_line_count : Z ;
  hr_mock_warning : json ;
  hr_keys : list HostKey }.

(** [int(v or 0)], [None] when it raises. *)
Definition int_or_zero (o : option json) : option Z :=
  if negb (truthy o) then Some 0
  else match o with
       | Some (JInt z) => Some z
       | Some (JBool b) => Some (Z.b2z b)
       | Some (JFloat m e) => Some (if bool_decide (0 <= e) then m * 2 ^ e else Z.quot m (2 ^ (- e)))
       | Some (JStr s) => int_text s
       | _ => None
       end.

(** [for raw in v or []]: what is no object is skipped. *)
Definition iterated (o : option json) : option (list json) :=
  if negb (truthy o) then Some []
  else match o with
       | Some (JList l) => Some l
       | Some (JStr _) | Some (JObj _) => Some []
       | _ => None
       end.

Definition host_key (raw : json) : option HostKey :=
  match raw with
  | JObj o =>
      match obj_get "fingerprint_sha256" o, is_int (obj_get "line_number" o) with
      | Some (JStr fp), Some n =>
          Some (mkHostKey (match n with JInt z => z | JBool b => Z.b2z b | _ => 0 end) fp
                  (default JNull (obj_get "key_type" o)) (default JNull (obj_get "comment" o)))
      | _, _ => None
      end
  | _ => None
  end.

(** [None]: a [TypeError] or a [ValueError]. *)
Definition host_report (rpc_result : list (string * json)) : option HostReport :=
  let get k := default JNull (obj_get k rpc_result) in
  let ok := match obj_get "ok" rpc_result with Some (JBool b) => b | _ => false end in
  line_count ← int_or_zero (obj_get "line_count" rpc_result) ;
  invalid_line_count ← int_or_zero (obj_get "invalid_line_count" rpc_result) ;
  raws ← iterated (obj_get "keys" rpc_result) ;
  Some (mkHostReport ok (if ok then JNull else get "error") (get "authorized_keys_path") line_count
          invalid_line_count (get "mock_warning") (omap host_key raws)).

(** The report of an agent that could not be asked. *)
Definition no_report (message : string) : HostReport := mkHostReport false (JStr message) JNull 0 0 JNull [].

(** The rows of an account's keys: entry, key, holder. *)
Definition managed_row (d : Db) (pa_id : Z) (entry : AuthorizedKeyEntry.t) :
    option (AuthorizedKeyEntry.t * SshPublicKey.t * User.t) :=
  key ← ssh_public_keys d !! AuthorizedKeyEntry.ssh_public_key_id entry ;
  user ← users d !! AuthorizedKeyEntry.pushed_for_user_id entry ;
  if bool_decide (AuthorizedKeyEntry.physical_account_id entry = pa_id ∧ AuthorizedKeyEntry.is_active entry = 1 ∧
                  SshPublicKey.is_active key = 1)
  then Some (entry, key, user) else None.

Definition managed_rows (d : Db) (pa_id : Z) : list (AuthorizedKeyEntry.t * SshPublicKey.t * User.t) :=
  order_by (λ row, AuthorizedKeyEntry.id row.1.1) (omap (managed_row d pa_id) (rows (authorized_key_entries d))).

Definition managed_entry (host_fingerprints : list string) (row : AuthorizedKeyEntry.t * SshPublicKey.t * User.t) :
    ManagedEntry :=
  let '(entry, key, user) := row in
  mkManaged entry key user (bool_decide (SshPublicKey.fingerprint_sha256 key ∈ host_fingerprints)).

(** What the report is compared with. *)
Definition readback (pa : PhysicalAccount.t) (managed : list (AuthorizedKeyEntry.t * SshPublicKey.t * User.t))
    (report : HostReport) : Readback :=
  let host_fingerprints := hk_fingerprint_sha256 <$> hr_keys report in
  let managed_fingerprints := (λ row, SshPublicKey.fingerprint_sha256 row.1.2) <$> managed in
  mkReadback pa (hr_ok report) (hr_error report) (hr_authorized_keys_path report) (hr_line_count report)
    (hr_invalid_line_count report) (hr_keys report) (managed_entry host_fingerprints <$> managed)
    (filter (λ k, hk_fingerprint_sha256 k ∉ managed_fingerprints) (hr_keys report)) (hr_mock_warning report).

Definition read_authorized_keys_from_host (reply : rpc_result) (message : string) (pa_id actor_user_id lab_id : Z)
    (req : RequestInfo) : M Readback :=
  pa ← get_account pa_id lab_id ;
  managed ← gets (λ s, managed_rows (db s) (PhysicalAccount.id pa)) ;
  report ← try_except
    (rpc_result ← agent_request (PhysicalAccount.server_id pa) "backend.authorized_key.read"
        [("linux_username", JStr (PhysicalAccount.linux_username pa))]%string reply ;
     some_or_raise (host_report rpc_result) TypeError)
    (λ e, match e with
          | AgentOfflineError | AgentRpcTimeoutError | RpcNotYetWiredError | UnexpectedResponseTypeError =>
              mret (no_report message)
          | _ => raise e
          end) ;
  let response := readback pa managed report in
  write "physical_account.authorized_key_readback" (Some actor_user_id) (Some lab_id)
    (Some "physical_account"%string) (Some (PhysicalAccount.id pa)) (Some lab_id)
    (Some (PhysicalAccount.server_id pa))
    (JObj [("linux_username", JStr (PhysicalAccount.linux_username pa)); ("ok", JBool (rb_ok response));
           ("error", rb_error response); ("line_count", JInt (rb_line_count response));
           ("invalid_line_count", JInt (rb_invalid_line_count response));
           ("managed_entry_count", JInt (Z.of_nat (length (rb_managed_entries response))));
           ("missing_managed_count",
             JInt (Z.of_nat (length (filter (λ e, mg_present_on_host e = false) (rb_managed_entries response)))));
           ("unknown_host_key_count", JInt (Z.of_nat (length (rb_unknown_host_keys response))))]%string) req ;;
  mret response.

(** ** Gates and errors *)

Definition _assert_server_in_lab (server : option Server.t) (lab_id : Z) : M Server.t :=
  match server with
  | Some sv => if bool_decide (Server.lab_id sv = lab_id) then mret sv else raise (HTTPException 404 "server_not_found")
  | None => raise (HTTPException 404 "server_not_found")
  end.

Definition account_not_found (e : exn) : exn :=
  match e with PhysicalAccountNotFoundError => HTTPException 404 "PhysicalAccountNotFoundError" | _ => e end.

Definition create_error (e : exn) : exn :=
  match e with
  | DuplicatePhysicalAccountError => HTTPException 409 "DuplicatePhysicalAccountError"
  | InvalidSourceError => HTTPException 422 "InvalidSourceError"
  | _ => account_not_found e
  end.

Definition duplicate_error (e : exn) : exn :=
  match e with
  | DuplicatePhysicalAccountError => HTTPException 409 "DuplicatePhysicalAccountError"
  | _ => e
  end.

Definition declare_error (e : exn) : exn :=
  match e with LinkAlreadyActiveError => HTTPException 409 "LinkAlreadyActiveError" | _ => e end.

Definition retry_error (e : exn) : exn :=
  match e with
  | AuthorizedKeyEntryNotFoundError => HTTPException 404 "AuthorizedKeyEntryNotFoundError"
  | _ => e
  end.

(** The account, in front of the gate of its server. *)
Definition administered_account (pa_id : Z) (current : AuthenticatedUser) : M PhysicalAccount.t :=
  pa ← mapping (get_account pa_id (User.lab_id current)) account_not_found ;
  assert_server_admin current (PhysicalAccount.server_id pa) ;;
  mret pa.

(** ** Endpoints *)

Definition list_pas (server_id : Z) (current : AuthenticatedUser) : M (list PhysicalAccount.t) :=
  server ← get_server server_id ;
  _assert_server_in_lab server (User.lab_id current) ;;
  list_for_server server_id.

Definition list_authorized_key_entries (server_id : Z) (current : AuthenticatedUser) : M (list InventoryEntry) :=
  server ← get_server server_id ;
  _assert_server_in_lab server (User.lab_id current) ;;
  assert_server_admin current server_id ;;
  list_authorized_key_inventory server_id (User.lab_id current).

Definition create_pa (server_id : Z) (p : PhysicalAccountCreate) (current : AuthenticatedUser) (req : RequestInfo) :
    M PhysicalAccount.t :=
  assert_server_admin current server_id ;;
  mapping (create_account ci server_id (pc_linux_username p) (pc_source p) (pc_notes p) (User.id current)
             (User.lab_id current) req) create_error.

Definition get_pa (pa_id : Z) (current : AuthenticatedUser) : M PhysicalAccount.t :=
  mapping (get_account pa_id (User.lab_id current)) account_not_found.

Definition delete_pa (pa_id : Z) (current : AuthenticatedUser) (req : RequestInfo) : M PhysicalAccount.t :=
  administered_account pa_id current ;;
  mapping (delete_account ci pa_id (User.id current) (User.lab_id current) req) account_not_found.

Definition retry_authorized_key_push_endpoint (reply : rpc_result) (message : string) (pa_id entry_id : Z)
    (current : AuthenticatedUser) (req : RequestInfo) : M (list (string * json)) :=
  administered_account pa_id current ;;
  mapping (retry_authorized_key_push reply message pa_id entry_id (User.id current) (User.lab_id current) req)
    retry_error.

(** [AuthorizedKeyReadbackResponse.model_validate] *)
Definition opt_text (j : json) : bool := match j with JNull | JStr _ => true | _ => false end.
Definition host_key_valid (k : HostKey) : bool := opt_text (hk_key_type k) && opt_text (hk_comment k).
Definition readback_valid (r : Readback) : bool :=
  opt_text (rb_error r) && opt_text (rb_authorized_keys_path r) && opt_text (rb_mock_warning r) &&
  forallb host_key_valid (rb_host_keys r).

Definition read_authorized_keys_endpoint (reply : rpc_result) (message : string) (pa_id : Z)
    (current : AuthenticatedUser) (req : RequestInfo) : M Readback :=
  administered_account pa_id current ;;
  result ← read_authorized_keys_from_host reply message pa_id (User.id current) (User.lab_id current) req ;
  raise_if (negb (readback_valid result)) ValidationError ;;
  mret result.

(** A user of the administrator's laboratory. *)
Definition owner_in_lab (owner_user_id : Z) (detail : string) (current : AuthenticatedUser) : M User.t :=
  o ← gets (λ s, users (db s) !! owner_user_id) ;
  owner ← some_or_raise o (HTTPException 404 detail) ;
  raise_if (negb (bool_decide (User.lab_id owner = User.lab_id current))) (HTTPException 404 detail) ;;
  mret owner.

Definition declare_owner (server_id pa_id owner_user_id : Z) (reason : string) (current : AuthenticatedUser)
    (req : RequestInfo) : M AccountLink.t :=
  assert_server_admin current server_id ;;
  server ← get_server server_id ;
  _assert_server_in_lab server (User.lab_id current) ;;
  pa ← mapping (get_account pa_id (User.lab_id current)) account_not_found ;
  raise_if (negb (bool_decide (PhysicalAccount.server_id pa = server_id))) (HTTPException 400 "pa_server_mismatch") ;;
  owner_in_lab owner_user_id "owner_user_not_in_lab" current ;;
  mapping (admin_declare_link isoformat pa_id owner_user_id reason (User.id current) (User.lab_id current)
             server_id req) declare_error.

(** The linked users of an account, and whether there are several. *)
Definition reverse_lookup_via_pa (server_id pa_id : Z) (current : AuthenticatedUser) :
    M (list AccountLink.t * bool) :=
  pa ← mapping (get_account pa_id (User.lab_id current)) account_not_found ;
  raise_if (negb (bool_decide (PhysicalAccount.server_id pa = server_id))) (HTTPException 400 "pa_server_mismatch") ;;
  links ← reverse_lookup_users ci server_id (PhysicalAccount.linux_username pa) ;
  mret (links, bool_decide (1 < length links)%nat).

(** *** Onboarding *)

(** [d.update(o)] *)
Definition dict_update {V} (d o : list (string * V)) : list (string * V) :=
  foldl (λ d kv, dict_set kv.1 kv.2 d) d o.

(** One RPC and the outcome recorded of it. *)
Definition attempt (reply : rpc_result) (message : string) (server_id : Z) (frame_type : string)
    (fields : list (string * json)) : M (list (string * json)) :=
  let outcome := [("attempted", JBool true)]%string in
  try_except
    (rpc_result ← agent_request server_id frame_type fields reply ;
     mret (dict_set "ok" (JBool true) (dict_update outcome rpc_result)))
    (λ e, match e with
          | AgentOfflineError | AgentRpcTimeoutError | RpcNotYetWiredError =>
              mret (dict_update outcome [("ok", JBool false); ("error", JStr message)]%string)
          | _ => raise e
          end).

(** Values for nullable columns.  The answer's frame has been validated, so
    that it holds an integer, a text or null. *)
Definition int_column (column : string) (o : option json) : result exn (option Z) :=
  match o with
  | None | Some JNull => Ok None
  | Some (JInt z) => Ok (Some z)
  | _ => Raise (DataError column)
  end.

Definition text_column (column : string) (width : nat) (o : option json) : result exn (option string) :=
  match o with
  | None | Some JNull => Ok None
  | Some (JStr s) => if bool_decide (length (text_of s) <= width)%nat then Ok (Some s) else Raise (DataError column)
  | _ => Raise (DataError column)
  end.

(** What the agent says of the Linux user it created. *)
Definition host_fields (pa : PhysicalAccount.t) (outcome : list (string * json)) : result exn PhysicalAccount.t :=
  match int_column "uid" (obj_get "uid" outcome), int_column "gid" (obj_get "gid" outcome),
        text_column "home_directory" 255 (obj_get "home_directory" outcome),
        text_column "default_shell" 100 (obj_get "default_shell" outcome) with
  | Ok uid, Ok gid, Ok home, Ok shell =>
      Ok (pa <| PhysicalAccount.uid := uid |> <| PhysicalAccount.gid := gid |>
             <| PhysicalAccount.home_directory := home |> <| PhysicalAccount.default_shell := shell |>)
  | Raise e, _, _, _ | _, Raise e, _, _ | _, _, Raise e, _ | _, _, _, Raise e => Raise e
  end.

Definition take_host_fields (pa : PhysicalAccount.t) (outcome : list (string * json)) : M PhysicalAccount.t :=
  match host_fields pa outcome with
  | Raise e => raise e
  | Ok pa =>
      t ← gets (λ s, physical_accounts (db s)) ;
      next ← gets (λ s, next_physical_account_id (db s)) ;
      flush_accounts ci (<[PhysicalAccount.id pa := pa]> t) next ;;
      flush ;;
      mret pa
  end.

Record OnboardUserResponse : Type := mkOnboarded {
  or_physical_account_id : Z ;
  or_account_link_id : Z ;
  or_authorized_key_entry_id : Z ;
  or_useradd_outcome : list (string * json) ;
  or_key_push_outcome : list (string * json) }.

(** The key a user owns and has not removed. *)
Definition onboarding_key (ssh_public_key_id : Z) (owner : User.t) : M SshPublicKey.t :=
  k ← get_key ssh_public_key_id ;
  key ← some_or_raise k (HTTPException 404 "ssh_key_not_owned_or_inactive") ;
  raise_if (negb (bool_decide (SshPublicKey.user_id key = User.id owner)) || bool_decide (SshPublicKey.is_active key = 0))
    (HTTPException 404 "ssh_key_not_owned_or_inactive") ;;
  mret key.

Definition onboard_entry (pa : PhysicalAccount.t) (key : SshPublicKey.t) (actor owner at_ : Z)
    (outcome : list (string * json)) (id : Z) : AuthorizedKeyEntry.t :=
  AuthorizedKeyEntry.mk id (PhysicalAccount.id pa) (SshPublicKey.id key) actor owner at_
    (if truthy (obj_get "ok" outcome) then 1 else 0) None None.

(** Steps 3 and 4 of [onboard_user], for the account [pa]. *)
Definition push_and_declare (push_reply : rpc_result) (push_message : string) (server : Server.t) (owner : User.t)
    (key : SshPublicKey.t) (p : OnboardUserRequest) (pa : PhysicalAccount.t)
    (useradd_outcome : list (string * json)) (current : AuthenticatedUser) (req : RequestInfo) :
    M OnboardUserResponse :=
  push_outcome ← attempt push_reply push_message (Server.id server) "backend.authorized_key.push"
    [("linux_username", JStr (ob_linux_username p)); ("public_key", JStr (SshPublicKey.public_key key));
     ("label", JStr ("corelab:user=" +:+ pretty (User.id owner) +:+ ";onboard=" +:+
                     pretty (PhysicalAccount.id pa)))]%string ;
  at_ ← utcnow ;
  entry ← add_entry (onboard_entry pa key (User.id current) (User.id owner) at_ push_outcome) ;
  flush ;;
  link ← mapping (admin_declare_link isoformat (PhysicalAccount.id pa) (User.id owner) (ob_reason p)
           (User.id current) (User.lab_id current) (Server.id server) req) declare_error ;
  write "physical_account.onboard_user" (Some (User.id current)) (Some (User.lab_id current))
    (Some "physical_account"%string) (Some (PhysicalAccount.id pa)) (Some (User.lab_id current))
    (Some (Server.id server))
    (JObj [("linux_username", JStr (ob_linux_username p)); ("owner_user_id", JInt (User.id owner));
           ("ssh_public_key_id", JInt (SshPublicKey.id key)); ("reason", JStr (ob_reason p));
           ("useradd_outcome", JObj useradd_outcome); ("key_push_outcome", JObj push_outcome)]%string) req ;;
  mret (mkOnboarded (PhysicalAccount.id pa) (AccountLink.id link) (AuthorizedKeyEntry.id entry) useradd_outcome
          push_outcome).

Definition onboarding_notes (owner : User.t) : string :=
  "onboarded for user " +:+ pretty (User.id owner) +:+ " (" +:+ User.username owner +:+ ")".

(** [onboard_user], after the checks. *)
Definition onboard (useradd_reply push_reply : rpc_result) (useradd_message push_message : string)
    (server : Server.t) (owner : User.t) (key : SshPublicKey.t) (p : OnboardUserRequest)
    (current : AuthenticatedUser) (req : RequestInfo) : M OnboardUserResponse :=
  useradd_outcome ← attempt useradd_reply useradd_message (Server.id server) "backend.linux.useradd"
    [("linux_username", JStr (ob_linux_username p))]%string ;
  pa ← mapping (create_account ci (Server.id server) (ob_linux_username p) "admin_manual_register"
         (Some (onboarding_notes owner)) (User.id current) (User.lab_id current) req) duplicate_error ;
  pa ← (if truthy (obj_get "ok" useradd_outcome) then take_host_fields pa useradd_outcome else mret pa) ;
  push_and_declare push_reply push_message server owner key p pa useradd_outcome current req.

Definition onboard_user (useradd_reply push_reply : rpc_result) (useradd_message push_message : string)
    (server_id : Z) (p : OnboardUserRequest) (current : AuthenticatedUser) (req : RequestInfo) :
    M OnboardUserResponse :=
  assert_server_admin current server_id ;;
  sv ← get_server server_id ;
  server ← _assert_server_in_lab sv (User.lab_id current) ;
  owner ← owner_in_lab (ob_owner_user_id p) "owner_not_found" current ;
  key ← onboarding_key (ob_ssh_public_key_id p) owner ;
  onboard useradd_reply push_reply useradd_message push_message server owner key p current req.
End api.
