(* ===== verification/AccountRegistryProperties.v ===== *)
(** The registry of Linux accounts over time, onboarding, and what the
    readback of a host's keys shows ([api/v1/physical_accounts.py],
    [services/physical_account_service.py]). *)

From S2P Require Import Prelude PyText Models SessionLayer Samples.
From S2P Require Import AgentRpc AuditService NotificationService PhysicalAccountService AlertService.
From S2P Require Import AccountLinkService AccountLinkRequestService RequestLayer ReservationsApi AuthDependencies.
From S2P Require Import PhysicalAccountsApi.

#[local] Open Scope Z_scope.

Section registry.
Context (ci : string → string) (isoformat : Z → string) (int_text : string → option Z).

(** ** Well-formed registries *)

(** Keys are ids, and the active accounts of a server have different names,
    as the collation compares them. *)
Record registry_ok (d : Db) : Prop := {
  rg_id k pa : physical_accounts d !! k = Some pa →
    PhysicalAccount.id pa = k ∧ k < next_physical_account_id d ;
  rg_one k k' a b : physical_accounts d !! k = Some a → physical_accounts d !! k' = Some b →
    PhysicalAccount.is_active a = 1 → PhysicalAccount.is_active b = 1 →
    PhysicalAccount.server_id a = PhysicalAccount.server_id b →
    ci (PhysicalAccount.linux_username a) = ci (PhysicalAccount.linux_username b) → k = k' }.

(** What may become of an account: it is refreshed, or deleted for good. *)
Record account_life (a b : PhysicalAccount.t) : Prop := {
  al_id : PhysicalAccount.id b = PhysicalAccount.id a ;
  al_server : PhysicalAccount.server_id b = PhysicalAccount.server_id a ;
  al_name : PhysicalAccount.linux_username b = PhysicalAccount.linux_username a ;
  al_source : PhysicalAccount.source b = PhysicalAccount.source a ;
  al_creator : PhysicalAccount.created_by_user_id b = PhysicalAccount.created_by_user_id a ;
  al_notes : PhysicalAccount.notes b = PhysicalAccount.notes a ;
  al_active : PhysicalAccount.is_active b = PhysicalAccount.is_active a ∨ PhysicalAccount.is_active b = 0 }.

#[export] Instance account_life_pre : PreOrder account_life.
Proof using Type.
  split; [by intros a; split; try done; left|].
  intros a b c [H1 H2 H3 H4 H5 H6 H7] [G1 G2 G3 G4 G5 G6 G7]. split; try congruence.
  destruct G7 as [->|]; [exact H7|by right].
Qed.

Definition evolves (t t' : gmap Z PhysicalAccount.t) : Prop :=
  ∀ k a, t !! k = Some a → ∃ b, t' !! k = Some b ∧ account_life a b.

#[export] Instance evolves_pre : PreOrder evolves.
Proof using Type.
  split; [intros t k a Hk; by exists a|]. intros t1 t2 t3 H12 H23 k a Hk.
  destruct (H12 _ _ Hk) as (b & Hb & Hab). destruct (H23 _ _ Hb) as (c & Hc & Hbc). exists c. split; [done|].
  by etransitivity.
Qed.

(** What every write has to do. *)
Definition registry_step (d d' : Db) : Prop :=
  registry_ok d → registry_ok d' ∧ evolves (physical_accounts d) (physical_accounts d').

#[export] Instance registry_step_pre : PreOrder registry_step.
Proof using Type.
  split; [intros d Hok; split; [exact Hok|reflexivity]|].
  intros d1 d2 d3 H12 H23 Hok. destruct (H12 Hok) as [Hok2 He2]. destruct (H23 Hok2) as [Hok3 He3].
  split; [done|]. by etransitivity.
Qed.

(** Code about other tables. *)
Definition registry_same (d d' : Db) : Prop :=
  physical_accounts d' = physical_accounts d ∧ next_physical_account_id d' = next_physical_account_id d.

#[export] Instance registry_same_pre : PreOrder registry_same.
Proof using Type. split; [by intros d|]. intros d1 d2 d3 [H1 H2] [H3 H4]. split; congruence. Qed.
#[export] Instance registry_same_log : LogFree registry_same.
Proof using Type. by intros d l. Qed.

Lemma registry_same_step d d' : registry_same d d' → registry_step d d'.
Proof using Type.
  intros [H1 H2] [Ha Hb]. split; [split; rewrite ?H1, ?H2; assumption|]. by rewrite H1.
Qed.

#[export] Instance registry_step_log : LogFree registry_step.
Proof using Type. intros d l. by apply registry_same_step. Qed.

Lemma moves_registry {A} (m : M A) : Moves registry_same m → Moves registry_step m.
Proof using Type. apply moves_mono, registry_same_step. Qed.

(** ** Flushing accounts *)

Lemma no_clash t k k' a b :
  accounts_error ci t = None → (∀ k a, t !! k = Some a → PhysicalAccount.id a = k) →
  t !! k = Some a → t !! k' = Some b →
  PhysicalAccount.is_active a = 1 → PhysicalAccount.is_active b = 1 →
  PhysicalAccount.server_id a = PhysicalAccount.server_id b →
  ci (PhysicalAccount.linux_username a) = ci (PhysicalAccount.linux_username b) → k = k'.
Proof using Type.
  intros He Hid Ha Hb H1 H2 H3 H4. destruct (decide (k = k')) as [|Hne]; [done|exfalso].
  destruct (clash_error ci t k k' a b Ha Hb) as [e He']; [|congruence].
  unfold clash. rewrite (Hid _ _ Ha), (Hid _ _ Hb). done.
Qed.

(** A flush is a step when the table it writes is keyed and evolved. *)
Lemma flush_accounts_step t next s :
  (registry_ok (db s) → (∀ k a, t !! k = Some a → PhysicalAccount.id a = k ∧ k < next) ∧
                        evolves (physical_accounts (db s)) t) →
  moves_at registry_step (flush_accounts ci t next) s.
Proof using Type.
  intros Ht r s' Hc. unfold flush_accounts. destruct (accounts_error ci t) as [e|] eqn:He; intros [= <- <-].
  { split; [done|]. split; [done|]. cbn. reflexivity. }
  split; [done|]. split; [done|]. intros Hok. destruct (Ht Hok) as [Hk Hev]. split; [|exact Hev]. split.
  - exact Hk.
  - intros k k' a b. cbn. apply no_clash; [done|]. intros k0 a0 H0. by apply Hk.
Qed.

(** A changed row. *)
Lemma change_account_step d k a b :
  physical_accounts d !! k = Some a → account_life a b → registry_ok d →
  (∀ i x, <[PhysicalAccount.id b := b]> (physical_accounts d) !! i = Some x →
          PhysicalAccount.id x = i ∧ i < next_physical_account_id d) ∧
  evolves (physical_accounts d) (<[PhysicalAccount.id b := b]> (physical_accounts d)).
Proof using Type.
  intros Hk Hl Hok. destruct (rg_id _ Hok _ _ Hk) as [Hid Hlt].
  assert (Hb : PhysicalAccount.id b = k) by (rewrite (al_id _ _ Hl); exact Hid). rewrite Hb. split.
  - intros i x. rewrite lookup_insert. case_decide as Hi; [intros [= <-]; subst; done|apply (rg_id _ Hok)].
  - intros i x Hx. rewrite lookup_insert. case_decide as Hi; [|by exists x]. subst i.
    rewrite Hk in Hx. injection Hx as <-. by exists b.
Qed.

(** A new row. *)
Lemma new_account_step d b :
  PhysicalAccount.id b = next_physical_account_id d → registry_ok d →
  (∀ i x, <[next_physical_account_id d := b]> (physical_accounts d) !! i = Some x →
          PhysicalAccount.id x = i ∧ i < next_physical_account_id d + 1) ∧
  evolves (physical_accounts d) (<[next_physical_account_id d := b]> (physical_accounts d)).
Proof using Type.
  intros Hid Hok. split.
  - intros i x. rewrite lookup_insert. case_decide as Hi.
    + intros [= <-]. subst i. split; [done|lia].
    + intros Hx. destruct (rg_id _ Hok _ _ Hx). split; [done|lia].
  - intros i x Hx. rewrite lookup_insert_ne; [by exists x|]. intros <-. destruct (rg_id _ Hok _ _ Hx). lia.
Qed.

(** ** The operations *)

Lemma get_account_Ok pa_id lab s pa s' :
  get_account pa_id lab s = (Ok pa, s') → s' = s ∧ physical_accounts (db s) !! pa_id = Some pa ∧
    (Server.lab_id <$> servers (db s) !! PhysicalAccount.server_id pa) = Some lab.
Proof using Type.
  unfold get_account. intros H. apply bind_Ok in H as (o & s1 & [= <- <-] & H).
  apply bind_Ok in H as (p & s1 & Ho & H). apply some_or_raise_Ok in Ho as [Ho ->].
  apply bind_Ok in H as (sv & s1 & [= <- <-] & H). apply bind_Ok in H as (u & s1 & Hg & H).
  apply raise_if_Ok in Hg as [Hg ->]. apply ret_run in H as [[= ->] ->].
  apply negb_false_iff, bool_decide_eq_true in Hg. done.
Qed.

#[export] Instance create_account_moves server_id name source notes actor lab req :
  Moves registry_step (create_account ci server_id name source notes actor lab req).
Proof using Type.
  apply moves_at_all. intros s. unfold create_account.
  apply moves_at_guard; [apply _|]. intros _. eapply moves_at_read; [apply _|reflexivity|].
  apply moves_at_guard; [apply _|]. intros _. eapply moves_at_read; [apply _|reflexivity|].
  apply moves_at_guard; [apply _|]. intros _. do 2 (eapply moves_at_read; [apply _|reflexivity|]). cbv zeta.
  apply moves_at_bind; [apply _| |intros u s1 _ _; apply moves_at_of, _].
  apply flush_accounts_step. intros Hok. by apply new_account_step.
Qed.

(** Deactivation. *)
Lemma deactivated a : account_life a (a <| PhysicalAccount.is_active := 0 |>).
Proof using Type. split; try done. by right. Qed.

#[export] Instance delete_account_moves pa_id actor lab req :
  Moves registry_step (delete_account ci pa_id actor lab req).
Proof using Type.
  apply moves_at_all. intros s. unfold delete_account.
  apply moves_at_bind; [apply _|apply moves_at_of; unfold get_account, get_physical_account, get_server; apply _|].
  intros pa s1 _ Hget. apply get_account_Ok in Hget as (-> & Hpa & _).
  destruct (bool_decide _); [apply moves_at_of, _|]. cbv zeta.
  do 2 (eapply moves_at_read; [apply _|reflexivity|]).
  apply moves_at_bind; [apply _| |intros u s1 _ _; apply moves_at_of, _].
  apply flush_accounts_step. apply (change_account_step _ _ _ _ Hpa), deactivated.
Qed.

(** The scan. *)
Lemma synced_life at_ pa e : account_life pa (synced at_ pa e).
Proof using Type. split; try done. by left. Qed.

Lemma seen_life at_ sid entries pa : account_life pa (seen at_ sid entries pa).
Proof using Type.
  unfold seen. case_decide; [|reflexivity]. generalize (named (PhysicalAccount.linux_username pa) entries).
  intros l. induction l as [|e l IH] using rev_ind; [reflexivity|]. rewrite foldl_app. simpl.
  etransitivity; [exact IH|apply synced_life].
Qed.

Lemma registry_table d : registry_ok d → account_table_ok (physical_accounts d) (next_physical_account_id d).
Proof using Type.
  intros [Hid Hone]. split.
  - intros k pa Hk. by apply Hid.
  - intros k pa Hk. by eapply Hid.
  - intros k k' a b Ha Hb H1 H2 H3 H4. apply (Hone k k' a b); [done..|by rewrite H4].
Qed.

#[export] Instance sync_discovered_moves sid lab entries :
  Moves registry_step (sync_discovered ci sid lab entries).
Proof using Type.
  apply moves_at_all. intros s. unfold sync_discovered.
  do 2 (eapply moves_at_read; [apply _|reflexivity|]).
  apply moves_at_bind; [apply _| |].
  - apply flush_accounts_step. intros Hok.
    pose proof (scanned_at_inv (now s) sid entries (db s) (registry_table _ Hok)) as [Hsc Hkey Hb _]. split.
    + intros k a Hk. split; [by apply Hkey|by eapply Hb].
    + intros k a Hk. exists (seen (now s) sid entries a). split; [by apply (sd_old _ _ _ _ _ _ Hsc)|apply seen_life].
  - intros u s1 _ _. apply moves_at_of. apply moves_bind; [apply _|apply _|]. intros _.
    destruct (bool_decide _); apply _.
Qed.

#[export] Instance same_set_entry e : Moves registry_same (set_entry e).
Proof using Type. solve_moves. Qed.
#[export] Instance same_add_entry mk_row : Moves registry_same (add_entry mk_row).
Proof using Type. unfold add_entry. solve_moves. Qed.
#[export] Instance same_add_link mk_row : Moves registry_same (add_link mk_row).
Proof using Type. unfold add_link. solve_moves. Qed.

#[export] Instance declare_moves pa owner reason admin lab server req :
  Moves registry_same (admin_declare_link isoformat pa owner reason admin lab server req).
Proof using Type. unfold admin_declare_link, _existing_active_link, audit_link. apply _. Qed.

#[export] Instance retry_push_moves reply message pa_id entry_id actor lab req :
  Moves registry_same (retry_authorized_key_push reply message pa_id entry_id actor lab req).
Proof using Type.
  unfold retry_authorized_key_push, get_account, get_physical_account, get_server, get_entry, get_key, push_key.
  moves.
Qed.

#[export] Instance readback_moves reply message pa_id actor lab req :
  Moves registry_same (read_authorized_keys_from_host int_text reply message pa_id actor lab req).
Proof using Type.
  unfold read_authorized_keys_from_host, get_account, get_physical_account, get_server. moves.
Qed.

(** *** Onboarding, step by step *)

Lemma obj_get_set k (v : json) d : obj_get k (dict_set k v d) = Some v.
Proof using Type.
  unfold obj_get. induction d as [|[k' w] d IH]; simpl; [by rewrite filter_cons_True|].
  case_bool_decide as Hk; [by rewrite filter_cons_True|]. by rewrite filter_cons_False by (simpl; congruence).
Qed.

(** The outcome of an RPC, as recorded. *)
Definition outcome_of (reply : rpc_result) (message : string) : result exn (list (string * json)) :=
  match reply with
  | Ok fields => Ok (dict_set "ok" (JBool true) (dict_update [("attempted", JBool true)] fields))%string
  | Raise AgentOfflineError | Raise AgentRpcTimeoutError | Raise RpcNotYetWiredError =>
      Ok [("attempted", JBool true); ("ok", JBool false); ("error", JStr message)]%string
  | Raise e => Raise e
  end.

Lemma outcome_ok reply message o : outcome_of reply message = Ok o → truthy (obj_get "ok" o) = is_ok reply.
Proof using Type.
  destruct reply as [fields|[]]; try done; intros [= <-]; [|done..]. by rewrite obj_get_set.
Qed.

(** On the wire unless the agent is offline. *)
Definition sent_rpc (reply : rpc_result) (rpc : Z * string * list (string * json)) (s : Session) : Session :=
  match reply with
  | Raise AgentOfflineError => s
  | _ => s <| rpcs := rpcs s ++ [rpc] |>
  end.

Lemma attempt_run reply message sid ty fields s :
  attempt reply message sid ty fields s = (outcome_of reply message, sent_rpc reply (sid, ty, fields) s).
Proof using Type. unfold attempt, try_except. destruct reply as [r|[]]; reflexivity. Qed.

Lemma sent_rpc_db reply rpc s : db (sent_rpc reply rpc s) = db s ∧ dirty (sent_rpc reply rpc s) = dirty s ∧
  committed (sent_rpc reply rpc s) = committed s ∧ now (sent_rpc reply rpc s) = now s.
Proof using Type. by destruct reply as [|[]]. Qed.

(** The account an administrator registers. *)
Definition registered (id server_id : Z) (name source : string) (notes : option string) (actor : Z) :
    PhysicalAccount.t :=
  PhysicalAccount.mk id server_id name None None None None source 1 (Some actor) notes None.

(** The database with an account and its entry in the log. *)
Definition with_account (d : Db) (pa : PhysicalAccount.t) (next : Z) : Db :=
  d <| physical_accounts := <[PhysicalAccount.id pa := pa]> (physical_accounts d) |>
    <| next_physical_account_id := next |>.

Lemma create_account_run server_id name source notes actor lab req s :
  clean s → source ∈ VALID_SOURCES →
  let pa := registered (next_physical_account_id (db s)) server_id name source notes actor in
  let d1 := with_account (db s) pa (next_physical_account_id (db s) + 1) in
  create_account ci server_id name source notes actor lab req s =
    if negb (bool_decide (Server.lab_id <$> servers (db s) !! server_id = Some lab))
    then (Raise PhysicalAccountNotFoundError, s)
    else if is_some (find_active ci (db s) server_id name) then (Raise DuplicatePhysicalAccountError, s)
    else match accounts_error ci (physical_accounts d1) with
         | Some e => (Raise e, s)
         | None => (Ok pa, s <| db := d1 <| audit_log := audit_log (db s) ++
             [audit_entry (s <| db := d1 |>) "physical_account.create" (Some actor) (Some lab)
                (Some "physical_account"%string) (Some (PhysicalAccount.id pa)) (Some lab) (Some server_id)
                (JObj [("linux_username", JStr name); ("source", JStr source)]%string) req "ok" None] |> |>)
         end.
Proof using Type.
  intros Hc Hsrc pa d1. unfold create_account. rewrite bool_decide_eq_true_2 by done. cbn [negb].
  rewrite (bind_run (raise_if false _) _ s tt s) by reflexivity.
  rewrite (bind_run (get_server _) _ s (servers (db s) !! server_id) s) by reflexivity.
  destruct (negb _); [reflexivity|]. rewrite (bind_run (raise_if false _) _ s tt s) by reflexivity.
  rewrite (bind_run (gets _) _ s (find_active ci (db s) server_id name) s) by reflexivity.
  destruct (is_some _); [reflexivity|]. rewrite (bind_run (raise_if false _) _ s tt s) by reflexivity.
  rewrite (bind_run (gets _) _ s (next_physical_account_id (db s)) s) by reflexivity.
  rewrite (bind_run (gets _) _ s (physical_accounts (db s)) s) by reflexivity. cbv zeta.
  change (PhysicalAccount.mk _ _ _ _ _ _ _ _ _ _ _ _) with pa.
  change (<[next_physical_account_id (db s) := pa]> (physical_accounts (db s))) with (physical_accounts d1).
  destruct (accounts_error ci (physical_accounts d1)) as [e|] eqn:He.
  { rewrite (bind_run_raise _ _ s e s); [done|]. unfold flush_accounts. by rewrite He. }
  set (s1 := s <| db := d1 |>).
  rewrite (bind_run (flush_accounts _ _ _) _ s tt s1) by (unfold flush_accounts; by rewrite He).
  assert (Hc1 : clean s1) by exact Hc. rewrite (bind_run flush _ s1 tt s1) by by apply flush_clean.
  rewrite (bind_run _ _ _ _ _ (write_run _ _ _ _ _ _ _ _ _ s1 Hc1)). reflexivity.
Qed.

Lemma host_fields_life pa outcome pa' : host_fields pa outcome = Ok pa' → account_life pa pa'.
Proof using Type.
  unfold host_fields. repeat match goal with |- context [match ?x with _ => _ end] => destruct x; try done end.
  intros [= <-]. split; try done. by left.
Qed.

Lemma take_host_fields_moves pa outcome s :
  physical_accounts (db s) !! PhysicalAccount.id pa = Some pa →
  moves_at registry_step (take_host_fields ci pa outcome) s.
Proof using Type.
  intros Hpa. unfold take_host_fields. destruct (host_fields pa outcome) as [pa'|e] eqn:Hh;
    [|apply moves_at_raise, _].
  do 2 (eapply moves_at_read; [apply _|reflexivity|]).
  apply moves_at_bind; [apply _| |intros u s1 _ _; apply moves_at_of, _].
  apply flush_accounts_step. apply (change_account_step _ _ _ _ Hpa). by eapply host_fields_life.
Qed.

#[export] Instance attempt_moves reply message sid ty fields :
  Moves registry_same (attempt reply message sid ty fields).
Proof using Type. unfold attempt. moves. Qed.

#[export] Instance onboard_moves ur pr um pm server owner key p current req :
  Moves registry_step (onboard ci isoformat ur pr um pm server owner key p current req).
Proof using Type.
  apply moves_at_all. intros s. unfold onboard.
  apply moves_at_bind; [apply _|apply moves_at_of, moves_registry, _|]. intros outcome s1 Hc H1.
  rewrite attempt_run in H1. injection H1 as _ <-.
  assert (Hc1 : clean (sent_rpc ur (Server.id server, "backend.linux.useradd",
            [("linux_username", JStr (ob_linux_username p))])%string s))
    by (unfold clean; by rewrite (proj1 (proj2 (sent_rpc_db _ _ _)))).
  apply moves_at_bind; [apply _|apply moves_at_of, _|]. intros pa s2 _ H2.
  rewrite mapping_run, create_account_run in H2; [|done|apply (bool_decide_unpack _); by vm_compute].
  assert (Hpa : physical_accounts (db s2) !! PhysicalAccount.id pa = Some pa).
  { destruct (negb _); [done|]. destruct (is_some _); [done|]. destruct (accounts_error _ _); [done|].
    injection H2 as <- <-. cbn. apply lookup_insert_eq. }
  clear H2. apply moves_at_bind; [apply _| |].
  - destruct (truthy _); [by apply take_host_fields_moves|apply moves_at_of, _].
  - intros pa' s3 _ _. apply moves_at_of, moves_registry. unfold push_and_declare. apply _.
Qed.

(** ** Histories *)

(** The requests that write, with what the agents answer. *)
Inductive account_call : Type :=
| call_create (server_id : Z) (p : PhysicalAccountCreate)
| call_onboard (useradd_reply push_reply : rpc_result) (useradd_message push_message : string) (server_id : Z)
    (p : OnboardUserRequest)
| call_delete (pa_id : Z)
| call_retry (reply : rpc_result) (message : string) (pa_id entry_id : Z)
| call_readback (reply : rpc_result) (message : string) (pa_id : Z)
| call_declare (server_id pa_id owner_user_id : Z) (reason : string).

(** The durable database after the call. *)
Definition after_account_call (c : account_call) (user : AuthenticatedUser) (req : RequestInfo) (at_ : Z)
    (uuid : string) (d : Db) : Db :=
  match c with
  | call_create sid p => (get_session (create_pa ci sid p user req) d at_ uuid).2
  | call_onboard ur pr um pm sid p => (get_session (onboard_user ci isoformat ur pr um pm sid p user req) d at_ uuid).2
  | call_delete pa => (get_session (delete_pa ci pa user req) d at_ uuid).2
  | call_retry reply message pa entry =>
      (get_session (retry_authorized_key_push_endpoint reply message pa entry user req) d at_ uuid).2
  | call_readback reply message pa =>
      (get_session (read_authorized_keys_endpoint int_text reply message pa user req) d at_ uuid).2
  | call_declare sid pa owner reason => (get_session (declare_owner isoformat sid pa owner reason user req) d at_ uuid).2
  end.

Inductive registry_history : Db → Db → Prop :=
| gh_done d : registry_history d d
| gh_call d c user req at_ uuid d' :
    registry_history (after_account_call c user req at_ uuid d) d' → registry_history d d'
| gh_scan d sid lab entries at_ d' :
    registry_history (transaction (sync_discovered ci sid lab entries) d at_).2 d' → registry_history d d'
| gh_other d d1 d' : registry_same d d1 → registry_history d1 d' → registry_history d d'.

#[export] Instance gate_moves R `{!PreOrder R} user sid : Moves R (assert_server_admin user sid).
Proof using Type. unfold assert_server_admin, _user_can_admin_server. moves. Qed.
#[export] Instance in_lab_moves R `{!PreOrder R} sv lab : Moves R (_assert_server_in_lab sv lab).
Proof using Type. unfold _assert_server_in_lab. moves. Qed.
#[export] Instance administered_moves R `{!PreOrder R} pa user : Moves R (administered_account pa user).
Proof using Type. unfold administered_account, get_account, get_physical_account, get_server. moves. Qed.
#[export] Instance owner_moves R `{!PreOrder R} id detail user : Moves R (owner_in_lab id detail user).
Proof using Type. unfold owner_in_lab. moves. Qed.
#[export] Instance onboarding_key_moves R `{!PreOrder R} id user : Moves R (onboarding_key id user).
Proof using Type. unfold onboarding_key, get_key. moves. Qed.

Lemma after_account_call_step c user req at_ uuid d : registry_step d (after_account_call c user req at_ uuid d).
Proof using Type.
  destruct c; apply (moves_get_session registry_step).
  - unfold create_pa. apply _.
  - unfold onboard_user, get_server. apply _.
  - unfold delete_pa. apply _.
  - unfold retry_authorized_key_push_endpoint. apply moves_registry, _.
  - unfold read_authorized_keys_endpoint. apply moves_registry, _.
  - unfold declare_owner, get_account, get_physical_account, get_server. apply moves_registry. moves.
Qed.

Lemma scan_step sid lab entries at_ d : registry_step d (transaction (sync_discovered ci sid lab entries) d at_).2.
Proof using Type.
  pose proof (moves_tidy _ _ (sync_discovered_moves sid lab entries)). rewrite (tidy_transaction _).
  destruct (sync_discovered ci sid lab entries (open_session d at_ "")) as [r s] eqn:Hrun.
  destruct (sync_discovered_moves sid lab entries (open_session d at_ "") r s) as (_ & _ & Hs); [done|exact Hrun|].
  destruct (is_ok r); [exact Hs|reflexivity].
Qed.

(** C12: Along every history of the registry's endpoints and of account scans,
    whatever the agents answer and whatever else happens in between: the
    active accounts of a server have different names, also as the database
    compares them; no account disappears or changes its server, its name or
    where it came from; and a deleted account stays deleted, a scan that
    reports its name included. *)
Theorem registry_history_spec d d' :
  registry_ok d → registry_history d d' → registry_ok d' ∧ evolves (physical_accounts d) (physical_accounts d').
Proof using Type.
  intros Hok Hh. revert Hok. change (registry_step d d').
  induction Hh as [d|d c user req at_ uuid d' _ IH|d sid lab entries at_ d' _ IH|d d1 d' Hs _ IH].
  - reflexivity.
  - etransitivity; [apply after_account_call_step|exact IH].
  - etransitivity; [apply scan_step|exact IH].
  - etransitivity; [by apply registry_same_step|exact IH].
Qed.
End registry.

(** ** Closed instances *)

Definition registrar : AuthenticatedUser := sample_user 9 "carol" <| User.role := "lab_admin"%string |>.

(** "research" is registered, deleted, and reported by the next scan. *)
Definition registered_db : Db :=
  after_account_call no_case pretty decimal_int
    (call_create 1 (mkAccountCreate "research" "admin_manual_register" None)) registrar no_request 10 "" (sample_db []).
Definition deleted_db : Db :=
  after_account_call no_case pretty decimal_int (call_delete 7) registrar no_request 20 "" registered_db.
Definition scanned_db : Db :=
  (transaction (sync_discovered no_case 1 1 [mkScanEntry "research" (Some 1005) None None None]) deleted_db 30).2.

Lemma sample_registry_ok : registry_ok no_case (sample_db []).
Proof.
  assert (H : ∀ k pa, physical_accounts (sample_db []) !! k = Some pa →
    k = 5 ∧ pa = sample_account 5 "alice" ∨ k = 6 ∧ pa = sample_account 6 "bob").
  { intros k pa H. change ((<[5 := sample_account 5 "alice"]> {[6 := sample_account 6 "bob"]} : gmap Z PhysicalAccount.t) !! k = Some pa) in H.
    apply lookup_insert_Some in H as [[<- <-]|[_ [<- <-]%lookup_singleton_Some]]; auto. }
  split.
  - intros k pa [[-> ->]|[-> ->]]%H; done.
  - intros k k' a b [[-> ->]|[-> ->]]%H [[-> ->]|[-> ->]]%H _ _ _ Hn; done.
Qed.

Lemma registered_history : registry_history no_case pretty decimal_int (sample_db []) registered_db.
Proof.
  unfold registered_db.
  apply (gh_call _ _ _ _ (call_create 1 (mkAccountCreate "research" "admin_manual_register" None)) registrar no_request
           10 ""). apply gh_done.
Qed.

Lemma scanned_history : registry_history no_case pretty decimal_int registered_db scanned_db.
Proof.
  unfold scanned_db, deleted_db. generalize registered_db. intros d.
  apply (gh_call _ _ _ _ (call_delete 7) registrar no_request 20 "").
  apply (gh_scan _ _ _ _ 1 1 [mkScanEntry "research" (Some 1005) None None None] 30). apply gh_done.
Qed.

Lemma registry_history_spec_witness :
  registry_ok no_case scanned_db ∧ evolves (physical_accounts registered_db) (physical_accounts scanned_db) ∧
  (PhysicalAccount.is_active <$> physical_accounts registered_db !! 7) = Some 1 ∧
  (PhysicalAccount.is_active <$> physical_accounts scanned_db !! 7) = Some 0.
Proof.
  assert (H0 : registry_ok no_case registered_db)
    by apply (registry_history_spec no_case pretty decimal_int (sample_db []) registered_db
                sample_registry_ok registered_history).
  destruct (registry_history_spec no_case pretty decimal_int registered_db scanned_db H0 scanned_history) as [H1 H2].
  refine (conj H1 (conj H2 (conj _ _))); vm_compute; reflexivity.
Defined.
