(* ===== verification/OnboardingProperties.v ===== *)
(** What the one-stop onboarding of a user records
    ([onboard_user] of [api/v1/physical_accounts.py]): everything or nothing,
    and what it believes of the agent's answers. *)

From S2P Require Import Prelude PyText Models SessionLayer Samples.
From S2P Require Import NotificationService AgentRpc AuditService PhysicalAccountService AlertService AccountLinkService.
From S2P Require Import AccountLinkRequestService RequestLayer ReservationsApi AuthDependencies PhysicalAccountsApi.
From S2P Require Import AccountLinkProperties AccountRegistryProperties.

#[local] Open Scope Z_scope.

Section onboarding.
Context (ci : string → string) (isoformat : Z → string).

(** ** The steps *)

Lemma accounts_error_kind t e : accounts_error ci t = Some e → ∃ c, e = DataError c ∨ e = IntegrityError c.
Proof using Type.
  unfold accounts_error. destruct (head _) as [e'|] eqn:Hh.
  - intros [= ->]. apply head_Some_elem_of, list_elem_of_omap in Hh as (pa & _ & Hpa).
    unfold account_row_error in Hpa. repeat case_match; simplify_eq; eauto.
  - case_bool_decide; [|done]. intros [= <-]. eauto.
Qed.

Lemma host_fields_kind pa o e : host_fields pa o = Raise e → is_HTTPException e = false.
Proof using Type.
  unfold host_fields, int_column, text_column. intros H. repeat (case_match; simplify_eq; try done).
Qed.

Lemma take_host_fields_run pa o s :
  clean s →
  take_host_fields ci pa o s =
    match host_fields pa o with
    | Raise e => (Raise e, s)
    | Ok pa =>
        match accounts_error ci (<[PhysicalAccount.id pa := pa]> (physical_accounts (db s))) with
        | Some e => (Raise e, s)
        | None => (Ok pa, s <| db := with_account (db s) pa (next_physical_account_id (db s)) |>)
        end
    end.
Proof using Type.
  intros Hc. unfold take_host_fields. destruct (host_fields pa o) as [pa'|e]; [|done].
  rewrite (bind_run (gets _) _ s (physical_accounts (db s)) s) by reflexivity.
  rewrite (bind_run (gets _) _ s (next_physical_account_id (db s)) s) by reflexivity.
  destruct (accounts_error ci _) as [e|] eqn:He.
  { rewrite (bind_run_raise _ _ s e s); [done|]. unfold flush_accounts. by rewrite He. }
  set (s1 := s <| db := with_account (db s) pa' (next_physical_account_id (db s)) |>).
  rewrite (bind_run (flush_accounts _ _ _) _ s tt s1) by (unfold flush_accounts; by rewrite He).
  assert (Hc1 : clean s1) by exact Hc. by rewrite (bind_run flush _ s1 tt s1) by by apply flush_clean.
Qed.

Definition declared_proof (actor at_ : Z) (reason : string) : list (string * json) :=
  [("method", JStr "admin-declared"); ("declared_by", JInt actor); ("declared_at", JStr (isoformat at_));
   ("reason", JStr reason)]%string.

Lemma link_row_error_kind d l e : link_row_error d l = Some e → ∃ c, e = IntegrityError c.
Proof using Type. unfold link_row_error. intros H. repeat case_match; simplify_eq; eauto. Qed.

Lemma declare_run pa owner reason actor lab server req s :
  clean s → find_active_link (db s) owner pa = None →
  let link := new_link owner pa admin_declared (declared_proof actor (now s) reason) actor (next_account_link_id (db s)) in
  match link_row_error (db s) link with
  | Some e => admin_declare_link isoformat pa owner reason actor lab server req s = (Raise e, s)
  | None => ∃ entry, AuditLog.action entry = "account_link.admin_declared"%string ∧
      admin_declare_link isoformat pa owner reason actor lab server req s =
        (Ok link, s <| db := db s <| account_links := <[next_account_link_id (db s) := link]> (account_links (db s)) |>
                               <| next_account_link_id := next_account_link_id (db s) + 1 |>
                               <| audit_log := audit_log (db s) ++ [entry] |> |>)
  end.
Proof using Type.
  intros Hc Hn link. unfold admin_declare_link, _existing_active_link.
  rewrite (bind_run (gets _) _ s None s) by (unfold gets; by rewrite Hn).
  rewrite (bind_run (raise_if _ _) _ s tt s) by reflexivity.
  rewrite (bind_run utcnow _ s (now s) s) by reflexivity.
  destruct (link_row_error (db s) link) as [e|] eqn:He.
  { rewrite (bind_run_raise _ _ s e s); [done|]. unfold add_link. cbv zeta. change (link_row_error (db s) _) with (link_row_error (db s) link). by rewrite He. }
  set (s1 := s <| db := db s <| account_links := <[next_account_link_id (db s) := link]> (account_links (db s)) |>
                             <| next_account_link_id := next_account_link_id (db s) + 1 |> |>).
  rewrite (bind_run (add_link _) _ s link s1).
  2:{ unfold add_link. cbv zeta. change (link_row_error (db s) _) with (link_row_error (db s) link). by rewrite He. }
  assert (Hc1 : clean s1) by exact Hc. rewrite (bind_run flush _ s1 tt s1) by by apply flush_clean.
  unfold audit_link. rewrite (bind_run _ _ _ _ _ (write_run _ _ _ _ _ _ _ _ _ s1 Hc1)).
  eexists. split; [|reflexivity]. reflexivity.
Qed.

(** ** What a success records *)

Section spec.
Context (server : Server.t) (owner : User.t) (key : SshPublicKey.t) (p : OnboardUserRequest).
Context (current : AuthenticatedUser) (at_ : Z).

(** The key's entry, active exactly when the agent answered, and the
    declared link. *)
Record access_recorded (pushed : bool) (pa_id : Z) (d d' : Db) (r : OnboardUserResponse) : Prop := {
  ar_account : or_physical_account_id r = pa_id ;
  ar_entry_id : or_authorized_key_entry_id r = next_authorized_key_entry_id d ;
  ar_entry : authorized_key_entries d' =
    <[next_authorized_key_entry_id d :=
        AuthorizedKeyEntry.mk (next_authorized_key_entry_id d) pa_id (SshPublicKey.id key) (User.id current)
          (User.id owner) at_ (if pushed then 1 else 0) None None]> (authorized_key_entries d) ;
  ar_link_id : or_account_link_id r = next_account_link_id d ;
  ar_link : account_links d' =
    <[next_account_link_id d :=
        new_link (User.id owner) pa_id admin_declared (declared_proof (User.id current) at_ (ob_reason p))
          (User.id current) (next_account_link_id d)]> (account_links d) ;
  ar_accounts : physical_accounts d' = physical_accounts d ;
  ar_log : AuditLog.action <$> audit_log d' =
    (AuditLog.action <$> audit_log d) ++ ["account_link.admin_declared"; "physical_account.onboard_user"]%string }.

Lemma outcome_of_raise reply message e : outcome_of reply message = Raise e → reply = Raise e.
Proof using Type. destruct reply as [|[]]; try done; by intros [= <-]. Qed.

Lemma push_and_declare_spec pr pm pa o req s res s' :
  clean s → now s = at_ → find_active_link (db s) (User.id owner) (PhysicalAccount.id pa) = None →
  (∀ e, pr = Raise e → is_HTTPException e = false) →
  push_and_declare isoformat pr pm server owner key p pa o current req s = (res, s') →
  clean s' ∧ committed s' = committed s ∧
  match res with
  | Raise e => is_HTTPException e = false
  | Ok r => access_recorded (is_ok pr) (PhysicalAccount.id pa) (db s) (db s') r
  end.
Proof using Type.
  intros Hc Hnow Hnone Hpr. unfold push_and_declare. unfold mbind at 1, prog_bind at 1. rewrite attempt_run.
  match goal with |- context [sent_rpc pr ?x s] => set (s1 := sent_rpc pr x s); destruct (sent_rpc_db pr x s) as (Hdb & Hd & Hk & Hn) end.
  fold s1 in Hdb, Hd, Hk, Hn. assert (Hc1 : clean s1) by (unfold clean; by rewrite Hd).
  destruct (outcome_of pr pm) as [out|e] eqn:Hout.
  2:{ intros [= <- <-]. split; [done|]. split; [done|]. by apply Hpr, outcome_of_raise with pm. }
  rewrite (bind_run utcnow _ s1 at_ s1) by (unfold utcnow, gets; by rewrite Hn, Hnow).
  unfold mbind at 1, prog_bind at 1, add_entry at 1. cbv zeta. rewrite Hdb.
  destruct (is_some _); [by intros [= <- <-]|].
  set (entry := onboard_entry pa key (User.id current) (User.id owner) at_ out (next_authorized_key_entry_id (db s))).
  set (s2 := s1 <| db := _ |>). assert (Hc2 : clean s2) by exact Hc1.
  rewrite (bind_run flush _ s2 tt s2) by by apply flush_clean.
  unfold mbind at 1, prog_bind at 1. rewrite mapping_run.
  pose proof (declare_run (PhysicalAccount.id pa) (User.id owner) (ob_reason p) (User.id current)
    (User.lab_id current) (Server.id server) req s2 Hc2 Hnone) as H.
  cbv zeta in H. destruct (link_row_error (db s2) _) as [e|] eqn:He.
  { rewrite H. intros [= <- <-]. split; [done|]. split; [done|]. by apply link_row_error_kind in He as [c ->]. }
  destruct H as (log1 & Hlog1 & H). rewrite H. cbn [fst snd]. set (s3 := s2 <| db := _ |>).
  assert (Hc3 : clean s3) by exact Hc2. rewrite (bind_run _ _ _ _ _ (write_run _ _ _ _ _ _ _ _ _ s3 Hc3)).
  intros [= <- <-]. split; [done|]. split; [done|]. split; try reflexivity.
  - cbn. unfold entry, onboard_entry. by rewrite (outcome_ok _ _ _ Hout).
  - cbn. unfold s2. cbn. by rewrite Hn, Hnow.
  - cbn. rewrite !fmap_app. cbn. rewrite Hlog1, <- app_assoc. done.
Qed.

(** The account as it is registered. *)
Definition new_account (d : Db) : PhysicalAccount.t :=
  registered (next_physical_account_id d) (Server.id server) (ob_linux_username p) "admin_manual_register"
    (Some (onboarding_notes owner)) (User.id current).

(** It takes what the agent says of it, when the agent answers at all. *)
Definition account_after (ur : rpc_result) (um : string) (pa : PhysicalAccount.t) : result exn PhysicalAccount.t :=
  match outcome_of ur um with
  | Ok outcome => if is_ok ur then host_fields pa outcome else Ok pa
  | Raise e => Raise e
  end.

(** A name no active account has gets one account, one entry for the key and
    one link, and three entries in the log. *)
Definition onboarded (ur pr : rpc_result) (um : string) (d d' : Db) (r : OnboardUserResponse) : Prop :=
  find_active ci d (Server.id server) (ob_linux_username p) = None ∧
  ∃ pa e, account_after ur um (new_account d) = Ok pa ∧ AuditLog.action e = "physical_account.create"%string ∧
    access_recorded (is_ok pr) (next_physical_account_id d)
      (with_account d pa (next_physical_account_id d + 1) <| audit_log := audit_log d ++ [e] |>) d' r.

Lemma no_link_yet d user pa :
  (∀ k l, account_links d !! k = Some l → AccountLink.physical_account_id l ≠ pa) → find_active_link d user pa = None.
Proof using Type.
  intros H. apply find_active_link_None. intros k l Hk _ Hp _. by eapply H.
Qed.

Lemma onboard_spec ur pr um pm req s res s' :
  clean s → now s = at_ →
  (∀ k l, account_links (db s) !! k = Some l → AccountLink.physical_account_id l < next_physical_account_id (db s)) →
  (∀ e, pr = Raise e → is_HTTPException e = false) →
  onboard ci isoformat ur pr um pm server owner key p current req s = (res, s') →
  clean s' ∧ committed s' = committed s ∧
  match res with
  | Raise e => db s' = db s ∨ is_HTTPException e = false
  | Ok r => onboarded ur pr um (db s) (db s') r
  end.
Proof using Type.
  intros Hc Hnow Hbelow Hpr. unfold onboard. unfold mbind at 1, prog_bind at 1. rewrite attempt_run.
  match goal with |- context [sent_rpc ur ?x s] => set (s1 := sent_rpc ur x s); destruct (sent_rpc_db ur x s) as (Hdb & Hd & Hk & Hn) end.
  fold s1 in Hdb, Hd, Hk, Hn. assert (Hc1 : clean s1) by (unfold clean; by rewrite Hd).
  destruct (outcome_of ur um) as [out|e] eqn:Hout; [|by intros [= <- <-]; auto].
  unfold mbind at 1, prog_bind at 1. rewrite mapping_run, create_account_run by
    (done || (apply (bool_decide_unpack _); by vm_compute)).
  rewrite Hdb. destruct (negb _); [intros [= <- <-]; auto|].
  destruct (find_active ci (db s) (Server.id server) (ob_linux_username p)) eqn:Hfree; cbn [is_some];
    [intros [= <- <-]; auto|].
  fold (new_account (db s)). destruct (accounts_error ci _) as [e|] eqn:He.
  { intros [= <- <-]. split; [done|]. split; [done|]. right. by apply accounts_error_kind in He as [c [-> | ->]]. }
  cbn [fst snd]. set (s2 := s1 <| db := _ |>). assert (Hc2 : clean s2) by exact Hc1.
  rewrite (outcome_ok _ _ _ Hout).
  match goal with |- context [?m ≫= _] => assert (Htake : ∀ r s3, m s2 = (r, s3) → clean s3 ∧ committed s3 = committed s ∧
    now s3 = at_ ∧ match r with
    | Raise e => is_HTTPException e = false
    | Ok pa => account_after ur um (new_account (db s)) = Ok pa ∧ PhysicalAccount.id pa = next_physical_account_id (db s) ∧
        ∃ e, AuditLog.action e = "physical_account.create"%string ∧
          db s3 = with_account (db s) pa (next_physical_account_id (db s) + 1) <| audit_log := audit_log (db s) ++ [e] |>
    end) end.
  { unfold account_after. rewrite Hout. intros r s3. destruct (is_ok ur).
    - rewrite take_host_fields_run by done. destruct (host_fields (new_account (db s)) out) as [pa|e] eqn:Hh.
      + pose proof (al_id _ _ (host_fields_life _ _ _ Hh)) as Hid.
        match goal with |- context [accounts_error ci ?t] => destruct (accounts_error ci t) as [e|] eqn:He2 end;
          intros [= <- <-]; (split; [done|]; split; [exact Hk|]; split; [cbn; congruence|]).
        * by apply accounts_error_kind in He2 as [c [-> | ->]].
        * split; [done|]. split; [exact Hid|]. eexists. split; [|unfold with_account; cbn; rewrite Hid; cbn;
            rewrite insert_insert_eq; reflexivity]. reflexivity.
      + intros [= <- <-]. split; [done|]. split; [exact Hk|]. split; [cbn; congruence|]. by eapply host_fields_kind.
    - intros [= <- <-]. split; [done|]. split; [exact Hk|]. split; [cbn; congruence|]. split; [done|]. split; [done|].
      eexists. split; [|reflexivity]. reflexivity. }
  unfold mbind at 1, prog_bind at 1.
  match goal with |- context [?m s2] => destruct (m s2) as [[pa|e] s3] eqn:Hrun end;
    specialize (Htake _ _ eq_refl) as (Hc3 & Hk3 & Hn3 & Htake); [|intros [= <- <-]; auto].
  destruct Htake as (Hafter & Hid & e & Hact & Hdb3). intros Hrest.
  eapply push_and_declare_spec in Hrest as (Hc' & Hk' & H); [|done|done| |done].
  - split; [done|]. split; [congruence|]. destruct res as [r|e']; [|by right]. split; [exact Hfree|].
    exists pa, e. rewrite Hid, Hdb3 in H. done.
  - apply no_link_yet. rewrite Hid, Hdb3. cbn. intros k l Hl. specialize (Hbelow k l Hl). lia.
Qed.
End spec.

(** ** The request *)

(** Who may administer a server. *)
Definition may_administer (d : Db) (user : AuthenticatedUser) (server_id : Z) : bool :=
  is_lab_admin user || has_grant d (User.id user) server_id.

(** The checks only read. *)
Lemma gate_run user server_id s :
  assert_server_admin user server_id s =
    (if may_administer (db s) user server_id then Ok tt else Raise (HTTPException 403 "not_server_admin"), s).
Proof using Type.
  unfold assert_server_admin, _user_can_admin_server, may_administer. destruct (is_lab_admin user); [reflexivity|].
  rewrite (bind_run (gets _) _ s (has_grant (db s) (User.id user) server_id) s) by reflexivity. by destruct (has_grant _ _ _).
Qed.

Lemma checks_run sv lab s :
  _assert_server_in_lab sv lab s =
    (match sv with
     | Some server => if bool_decide (Server.lab_id server = lab) then Ok server else Raise (HTTPException 404 "server_not_found")
     | None => Raise (HTTPException 404 "server_not_found")
     end, s).
Proof using Type. unfold _assert_server_in_lab. destruct sv as [server|]; [|done]. by destruct (bool_decide _). Qed.

Lemma owner_run id detail current s :
  owner_in_lab id detail current s =
    (match users (db s) !! id with
     | Some owner => if bool_decide (User.lab_id owner = User.lab_id current) then Ok owner else Raise (HTTPException 404 detail)
     | None => Raise (HTTPException 404 detail)
     end, s).
Proof using Type.
  unfold owner_in_lab. rewrite (bind_run (gets _) _ s (users (db s) !! id) s) by reflexivity.
  destruct (users (db s) !! id) as [owner|]; [|done]. rewrite (bind_run (some_or_raise _ _) _ s owner s) by reflexivity.
  by destruct (bool_decide _).
Qed.

Lemma onboarding_key_run id owner s :
  onboarding_key id owner s =
    (match ssh_public_keys (db s) !! id with
     | Some key => if bool_decide (SshPublicKey.user_id key = User.id owner) && negb (bool_decide (SshPublicKey.is_active key = 0))
                   then Ok key else Raise (HTTPException 404 "ssh_key_not_owned_or_inactive")
     | None => Raise (HTTPException 404 "ssh_key_not_owned_or_inactive")
     end, s).
Proof using Type.
  unfold onboarding_key. rewrite (bind_run (get_key _) _ s (ssh_public_keys (db s) !! id) s) by reflexivity.
  destruct (ssh_public_keys (db s) !! id) as [key|]; [|done].
  rewrite (bind_run (some_or_raise _ _) _ s key s) by reflexivity.
  by destruct (bool_decide (SshPublicKey.user_id key = _)), (bool_decide (SshPublicKey.is_active key = 0)).
Qed.

(** C13: Onboarding records everything or nothing.  A request that fails, for
    whatever reason and at whatever step, leaves the database as it was.  One
    that succeeds is an administrator's of the server, for a user of the
    laboratory and a key he owns and has not removed; the name was free on
    the server; and exactly one account, one key entry and one declared link
    are added: the account with what the agent said of the Linux user if it
    answered, the entry active exactly when the agent answered the push, the
    link for the owner to this account. *)
Theorem onboard_user_spec ur pr um pm server_id p current req d at_ uuid :
  (∀ k l, account_links d !! k = Some l → AccountLink.physical_account_id l < next_physical_account_id d) →
  (∀ e, pr = Raise e → is_HTTPException e = false) →
  let '(res, d') := get_session (onboard_user ci isoformat ur pr um pm server_id p current req) d at_ uuid in
  match res with
  | Raise _ => d' = d
  | Ok r => ∃ server owner key,
      may_administer d current server_id = true ∧
      servers d !! server_id = Some server ∧ Server.lab_id server = User.lab_id current ∧
      users d !! ob_owner_user_id p = Some owner ∧ User.lab_id owner = User.lab_id current ∧
      ssh_public_keys d !! ob_ssh_public_key_id p = Some key ∧ SshPublicKey.user_id key = User.id owner ∧
      SshPublicKey.is_active key ≠ 0 ∧
      onboarded server owner key p current at_ ur pr um d d' r
  end.
Proof using Type.
  intros Hbelow Hpr. set (s := open_session d at_ uuid). assert (Hc : clean s) by done.
  destruct (onboard_user ci isoformat ur pr um pm server_id p current req s) as [res s'] eqn:Hrun.
  assert (Hgoal : clean s' ∧ committed s' = d ∧ match res with
    | Raise e => db s' = d ∨ is_HTTPException e = false
    | Ok r => ∃ server owner key,
        may_administer d current server_id = true ∧
        servers d !! server_id = Some server ∧ Server.lab_id server = User.lab_id current ∧
        users d !! ob_owner_user_id p = Some owner ∧ User.lab_id owner = User.lab_id current ∧
        ssh_public_keys d !! ob_ssh_public_key_id p = Some key ∧ SshPublicKey.user_id key = User.id owner ∧
        SshPublicKey.is_active key ≠ 0 ∧ onboarded server owner key p current at_ ur pr um d (db s') r
    end).
  2:{ destruct Hgoal as (Hc' & Hk' & H). rewrite (get_session_clean _ _ _ _ _ _ Hrun Hc').
      destruct res as [r|e]; [exact H|]. destruct (is_HTTPException e); [by destruct H|done]. }
  unfold onboard_user in Hrun. unfold mbind at 1, prog_bind at 1 in Hrun.
  rewrite gate_run in Hrun. change (db s) with d in Hrun.
  destruct (may_administer d current server_id) eqn:Hmay; [|injection Hrun as <- <-; auto].
  rewrite (bind_run (get_server _) _ s (servers d !! server_id) s) in Hrun by reflexivity.
  unfold mbind at 1, prog_bind at 1 in Hrun. rewrite checks_run in Hrun.
  destruct (servers d !! server_id) as [server|] eqn:Hsv; [|injection Hrun as <- <-; auto].
  destruct (bool_decide_reflect (Server.lab_id server = User.lab_id current)) as [Hlab|]; [|injection Hrun as <- <-; auto].
  unfold mbind at 1, prog_bind at 1 in Hrun. rewrite owner_run in Hrun. change (db s) with d in Hrun.
  destruct (users d !! _) as [owner|] eqn:Ho; [|injection Hrun as <- <-; auto].
  destruct (bool_decide_reflect (User.lab_id owner = User.lab_id current)) as [Holab|]; [|injection Hrun as <- <-; auto].
  unfold mbind at 1, prog_bind at 1 in Hrun. rewrite onboarding_key_run in Hrun. change (db s) with d in Hrun.
  destruct (ssh_public_keys d !! _) as [key|] eqn:Hkey; [|injection Hrun as <- <-; auto].
  destruct (bool_decide_reflect (SshPublicKey.user_id key = User.id owner)) as [Hown|]; [|injection Hrun as <- <-; auto].
  destruct (bool_decide_reflect (SshPublicKey.is_active key = 0)) as [|Hact]; [injection Hrun as <- <-; auto|].
  cbn [andb negb] in Hrun.
  destruct (onboard_spec server owner key p current at_ ur pr um pm req s res s' Hc eq_refl Hbelow Hpr Hrun) as (H1 & H2 & H3).
  split; [done|]. split; [done|]. destruct res as [r|e]; [|done]. exists server, owner, key. done.
Qed.
End onboarding.

(** ** Closed instances *)

Definition admin : AuthenticatedUser := sample_user 9 "carol" <| User.role := "lab_admin"%string |>.

(** Alice has a key; her laboratory's administrator onboards her as "research". *)
Definition keyed_db : Db :=
  sample_db [] <| users := <[9 := admin]> (users (sample_db [])) |>
    <| ssh_public_keys := {[3 := SshPublicKey.mk 3 10 "ssh-ed25519 AAAA" "SHA256:f" "ssh-ed25519" None 1 None]} |>.

Definition sample_onboarding : OnboardUserRequest := mkOnboardUser "research" 10 3 "joins the vision project".

Definition added : rpc_result := Ok [("ok", JBool true); ("uid", JInt 1005)]%string.
Definition refused : rpc_result := Ok [("ok", JBool false); ("error", JStr "useradd: group research exists")]%string.
Definition installed : rpc_result := Ok [("installed_path", JStr "/home/research/.ssh/authorized_keys")]%string.

Definition iso (t : Z) : string := pretty t.

Definition onboarding (ur pr : rpc_result) (p : OnboardUserRequest) (d : Db) : result exn OnboardUserResponse * Db :=
  get_session (onboard_user no_case iso ur pr "" "" 1 p admin no_request) d 100 "".

Lemma keyed_links k l :
  account_links keyed_db !! k = Some l → AccountLink.physical_account_id l < next_physical_account_id keyed_db.
Proof.
  intros H. apply (map_Forall_lookup_1 (λ (_ : Z) l, AccountLink.physical_account_id l < 7) (account_links keyed_db) k l); [|exact H].
  apply (bool_decide_unpack _). by vm_compute.
Qed.

Lemma onboard_user_spec_witness :
  ∃ r pa, (onboarding added installed sample_onboarding keyed_db).1 = Ok r ∧
    physical_accounts (onboarding added installed sample_onboarding keyed_db).2 !! 7 = Some pa ∧
    PhysicalAccount.uid pa = Some 1005.
Proof.
  pose proof (onboard_user_spec no_case iso added installed "" "" 1 sample_onboarding admin no_request keyed_db 100 ""
    keyed_links ltac:(done)) as H.
  fold (onboarding added installed sample_onboarding keyed_db) in H.
  assert (Hok : is_ok (onboarding added installed sample_onboarding keyed_db).1 = true) by (vm_compute; reflexivity).
  destruct (onboarding added installed sample_onboarding keyed_db) as [[r|e] d']; [|discriminate Hok].
  destruct H as (server & owner & key & _ & Hsv & _ & Ho & _ & Hkey & _ & _ & _ & pa & entry & Hafter & _ & Hrec).
  exists r, pa. split; [reflexivity|].
  assert (Hpa : PhysicalAccount.id pa = 7 ∧ PhysicalAccount.uid pa = Some 1005)
    by (vm_compute in Hafter; injection Hafter as <-; done).
  destruct Hpa as [Hid Huid]. split; [|exact Huid].
  cbn [fst snd]. rewrite (ar_accounts _ _ _ _ _ _ _ _ _ _ _ Hrec).
  change (<[PhysicalAccount.id pa := pa]> (physical_accounts keyed_db) !! 7 = Some pa).
  rewrite Hid. apply lookup_insert_eq.
Defined.

(** An agent that does not answer is recorded: the account stays, the key entry
    is not active. *)
Example silent_agent_is_recorded :
  let r := onboarding (Raise AgentRpcTimeoutError) (Raise AgentOfflineError) sample_onboarding keyed_db in
  is_ok r.1 = true ∧ PhysicalAccount.uid <$> physical_accounts r.2 !! 7 = Some None ∧
  (AuthorizedKeyEntry.is_active <$> authorized_key_entries r.2 !! next_authorized_key_entry_id keyed_db) = Some 0.
Proof. by vm_compute. Qed.

(** An answer of another type to the push is an error: the Linux user has been
    created, and nothing is stored. *)
Example unexpected_answer_loses_rows :
  let m := onboard_user no_case iso added (Raise UnexpectedResponseTypeError) "" "" 1 sample_onboarding admin no_request in
  (λ r : Z * string * list (string * json), r.1.2) <$> rpcs (m (open_session keyed_db 100 "")).2 =
    ["backend.linux.useradd"; "backend.authorized_key.push"]%string ∧
  get_session m keyed_db 100 "" = (Raise UnexpectedResponseTypeError, keyed_db).
Proof. by vm_compute. Qed.

(** The agent refuses to create the Linux user; the outcome is overwritten
    and the account is registered, active, with a link to it. *)
Example refusal_accepted :
  (match (onboarding refused installed sample_onboarding keyed_db).1 with
   | Ok r => obj_get "ok" (or_useradd_outcome r)
   | Raise _ => None
   end) = Some (JBool true) ∧
  (PhysicalAccount.is_active <$> physical_accounts (onboarding refused installed sample_onboarding keyed_db).2 !! 7)
    = Some 1.
Proof. refine (conj _ _); vm_compute; reflexivity. Qed.

(** A name that is taken is noticed after the agent has been asked to create
    the user; the request leaves no entry in the log. *)
Definition duplicated : result exn OnboardUserResponse * Session :=
  onboard_user no_case iso added installed "" "" 1 (mkOnboardUser "bob" 10 3 "joins the vision project") admin no_request
    (open_session keyed_db 100 "").

Example duplicate_after_useradd :
  duplicated.1 = Raise (HTTPException 409 "DuplicatePhysicalAccountError") ∧
  (λ r : Z * string * list (string * json), r.1.2) <$> rpcs duplicated.2 = ["backend.linux.useradd"%string] ∧
  audit_log (db duplicated.2) = [].
Proof. refine (conj _ (conj _ _)); vm_compute; reflexivity. Qed.

(** The retry of a failed push takes any record for its own: here of a key
    that was removed with its link, on an account that has been deleted.  The
    inventory offers no retry for it, and the key is back. *)
Definition removed_entry : AuthorizedKeyEntry.t := AuthorizedKeyEntry.mk 2 5 3 9 10 0 0 (Some 50) (Some 9).
Definition removed_db : Db :=
  keyed_db <| authorized_key_entries := {[2 := removed_entry]} |>
    <| physical_accounts := <[5 := sample_account 5 "alice" <| PhysicalAccount.is_active := 0 |>]>
                              (physical_accounts keyed_db) |>.

Example retry_restores_removed_key :
  (iv_status <$> omap (inventory_entry removed_db 1 1) [removed_entry],
   iv_can_retry <$> omap (inventory_entry removed_db 1 1) [removed_entry]) = (["removed"%string], [false]) ∧
  (AuthorizedKeyEntry.is_active <$> authorized_key_entries
     (get_session (retry_authorized_key_push_endpoint installed "" 5 2 admin no_request) removed_db 100 "").2 !! 2)
    = Some 1.
Proof. refine (conj _ _); vm_compute; reflexivity. Qed.
