(* ===== verification/KeyReadback.v ===== *)
(** Reading an account's keys back, from the host's file to the page: the
    agent's handler ([_invoke_handler] of [agent/corelab_agent/ws_client.py],
    [authorized_keys.py]) composed with the backend's comparison
    ([services/physical_account_service.py]). *)

From S2P Require Import Prelude PyText Models SessionLayer Samples.
From S2P Require Import AgentRpc AuditService NotificationService PhysicalAccountService AlertService.
From S2P Require Import RequestLayer AuthDependencies PhysicalAccountsApi AccountRegistryProperties.
From S2P Require Import AgentCaches SshKeyService AuthorizedKeys ScriptRunner WsClient.
From S2P Require Import WsClientProperties.

#[local] Open Scope Z_scope.

(** ** The agent's answer *)

(** Reading on a host that does what it is told. *)
Lemma read_run body_digest lookup_user name files :
  read body_digest obey lookup_user name false files =
    if negb (_validate_username name) then (Raise InvalidUsernameError, files)
    else match lookup_user name with
         | None => (Raise UserNotFoundError, files)
         | Some info =>
             match _authorized_key_paths info with
             | Raise e => (Raise e, files)
             | Ok (_, path) =>
                 let '(ks, count, invalid) := _summarize_authorized_keys body_digest (text_at path files) in
                 (Ok (mkReadResult path count invalid ks false), files)
             end
         end.
Proof.
  unfold read, mbind, prog_bind. destruct (_validate_username name); [|done]. cbn [negb raise_if].
  unfold skip, mret, prog_ret. destruct (lookup_user name) as [info|]; [|done]. cbn [some_or_raise].
  unfold mret, prog_ret, of_result. destruct (_authorized_key_paths info) as [[dir path]|e]; [|done].
  rewrite read_obey. by destruct (_summarize_authorized_keys _ _) as [[ks count] invalid].
Qed.

(** What a result says of the file. *)
Definition reads_file (body_digest : pystr → option pystr) (files : Files) (r : ReadResult) : Prop :=
  fingerprint_sha256 <$> keys r = file_keys body_digest (text_at (authorized_keys_path r) files) ∧
  line_count r = Z.of_nat (length (keys r)) + invalid_line_count r ∧ read_mocked r = false.

Lemma summarized_reads body_digest path files :
  let '(ks, count, invalid) := _summarize_authorized_keys body_digest (text_at path files) in
  reads_file body_digest files (mkReadResult path count invalid ks false).
Proof.
  unfold _summarize_authorized_keys. pose proof (summarize_spec body_digest 1 (splitlines (text_at path files))) as H.
  destruct (summarize _ _ _) as [[ks count] invalid]. destruct H as (H1 & H2 & _). done.
Qed.

(** Reading reports, or refuses; the capability switches play no part. *)
Lemma read_cases body_digest lookup_user name files :
  (∃ e, e ≠ CapabilityDisabledError ∧ read body_digest obey lookup_user name false files = (Raise e, files)) ∨
  ∃ r, read body_digest obey lookup_user name false files = (Ok r, files) ∧ reads_file body_digest files r.
Proof.
  rewrite read_run. destruct (negb _); [left; eexists; split; [|reflexivity]; done|].
  destruct (lookup_user name) as [info|]; [|left; eexists; split; [|reflexivity]; done].
  destruct (_authorized_key_paths info) as [[dir path]|e] eqn:Hp.
  - right. pose proof (summarized_reads body_digest path files) as H.
    destruct (_summarize_authorized_keys _ _) as [[ks count] invalid]. by eexists.
  - left. exists e. split; [|done]. unfold _authorized_key_paths in Hp. intros ->. by repeat case_match.
Qed.

(** The fields of an answer, as the backend takes them. *)
Definition read_fields (r : ReadResult) : list (string * json) :=
  [("ok", JBool true); ("authorized_keys_path", jtext (authorized_keys_path r));
   ("line_count", JInt (line_count r)); ("invalid_line_count", JInt (invalid_line_count r));
   ("keys", JList (key_json <$> keys r)); ("mock_warning", mocked (read_mocked r)); ("error", JNull)]%string.

Definition refusal_fields (message : string) : list (string * json) :=
  [("ok", JBool false); ("authorized_keys_path", JNull); ("line_count", JInt 0); ("invalid_line_count", JInt 0);
   ("keys", JList []); ("mock_warning", JNull); ("error", JStr message)]%string.

Definition reported_key (k : ReadKeyEntry) : HostKey :=
  mkHostKey (line_number k) (utf8 (fingerprint_sha256 k)) (jtext (key_type k)) (jopt jtext (comment k)).

Section report.
Context (int_text : string → option Z).

Lemma int_or_zero_int z : int_or_zero int_text (Some (JInt z)) = Some z.
Proof using Type. unfold int_or_zero. simpl. case_bool_decide; simpl; congruence. Qed.

Lemma iterated_list l : iterated (Some (JList l)) = Some l.
Proof using Type. by destruct l. Qed.

Lemma host_keys_of (ks : list ReadKeyEntry) : omap host_key (key_json <$> ks) = reported_key <$> ks.
Proof using Type.
  induction ks as [|k ks IH]; [done|].
  change (omap host_key (key_json <$> k :: ks)) with (reported_key k :: omap host_key (key_json <$> ks)).
  by rewrite IH.
Qed.

Lemma read_report r :
  host_report int_text (read_fields r) =
    Some (mkHostReport true JNull (jtext (authorized_keys_path r)) (line_count r) (invalid_line_count r)
            (mocked (read_mocked r)) (reported_key <$> keys r)).
Proof using Type.
  unfold host_report.
  change (obj_get "line_count" (read_fields r)) with (Some (JInt (line_count r))).
  change (obj_get "invalid_line_count" (read_fields r)) with (Some (JInt (invalid_line_count r))).
  change (obj_get "keys" (read_fields r)) with (Some (JList (key_json <$> keys r))).
  rewrite !int_or_zero_int, iterated_list. cbn [mbind option_bind]. by rewrite host_keys_of.
Qed.

Lemma refusal_report message :
  host_report int_text (refusal_fields message) = Some (mkHostReport false (JStr message) JNull 0 0 JNull []).
Proof using Type. reflexivity. Qed.

(** ** The comparison *)

Lemma get_account_run pa_id lab pa s :
  (get_account pa_id lab s).1 = Ok pa → get_account pa_id lab s = (Ok pa, s).
Proof using Type.
  destruct (get_account pa_id lab s) as [r s'] eqn:H. cbn. intros ->.
  by apply get_account_Ok in H as (-> & _).
Qed.

Lemma read_back_run fields report message pa_id actor lab req pa s :
  clean s → (get_account pa_id lab s).1 = Ok pa → host_report int_text fields = Some report →
  ∃ e s', read_authorized_keys_from_host int_text (Ok fields) message pa_id actor lab req s =
      (Ok (readback pa (managed_rows (db s) (PhysicalAccount.id pa)) report), s') ∧
    db s' = db s <| audit_log := audit_log (db s) ++ [e] |> ∧
    AuditLog.action e = "physical_account.authorized_key_readback"%string.
Proof using Type.
  intros Hc Hpa Hrep. unfold read_authorized_keys_from_host.
  rewrite (bind_run _ _ _ _ _ (get_account_run _ _ _ _ Hpa)).
  rewrite (bind_run (gets _) _ s (managed_rows (db s) (PhysicalAccount.id pa)) s) by reflexivity.
  set (s1 := s <| rpcs := rpcs s ++ [(PhysicalAccount.server_id pa, "backend.authorized_key.read"%string,
               [("linux_username", JStr (PhysicalAccount.linux_username pa))]%string)] |>).
  rewrite (bind_run (try_except _ _) _ s report s1).
  2:{ unfold try_except. rewrite (bind_run (agent_request _ _ _ _) _ s fields s1) by reflexivity. by rewrite Hrep. }
  cbv zeta. assert (Hc1 : clean s1) by exact Hc. rewrite (bind_run _ _ _ _ _ (write_run _ _ _ _ _ _ _ _ _ s1 Hc1)).
  eexists _, _. split; [reflexivity|]. split; reflexivity.
Qed.

Lemma unknown_fingerprints pa rows report :
  hk_fingerprint_sha256 <$> rb_unknown_host_keys (readback pa rows report) =
    filter (λ fp, fp ∉ ((λ m, SshPublicKey.fingerprint_sha256 (mg_key m)) <$> rb_managed_entries (readback pa rows report)))
      (hk_fingerprint_sha256 <$> hr_keys report).
Proof using Type.
  assert (He : (λ row : AuthorizedKeyEntry.t * SshPublicKey.t * User.t, SshPublicKey.fingerprint_sha256 row.1.2) <$> rows =
    (λ m, SshPublicKey.fingerprint_sha256 (mg_key m)) <$> rb_managed_entries (readback pa rows report)).
  { cbn. rewrite <- list_fmap_compose. apply list_fmap_ext. by intros i [[e k] v] _. }
  rewrite <- He. unfold readback. cbn [rb_unknown_host_keys].
  generalize ((λ row : AuthorizedKeyEntry.t * SshPublicKey.t * User.t, SshPublicKey.fingerprint_sha256 row.1.2) <$> rows).
  intros fps. exact (fmap_filter hk_fingerprint_sha256 (λ fp, fp ∉ fps) (hr_keys report)).
Qed.

(** What a readback shows of a file: its keys in order, of each managed entry
    whether its key is among them, and the keys no managed entry has. *)
Record shows_file (digest : pystr → option pystr) (text : pystr) (rb : Readback) : Prop := {
  sf_keys : hk_fingerprint_sha256 <$> rb_host_keys rb = utf8 <$> file_keys digest text ;
  sf_managed m : m ∈ rb_managed_entries rb →
    mg_present_on_host m = bool_decide (SshPublicKey.fingerprint_sha256 (mg_key m) ∈ (utf8 <$> file_keys digest text)) ;
  sf_unknown : hk_fingerprint_sha256 <$> rb_unknown_host_keys rb =
    filter (λ fp, fp ∉ ((λ m, SshPublicKey.fingerprint_sha256 (mg_key m)) <$> rb_managed_entries rb))
      (utf8 <$> file_keys digest text) ;
  sf_count : rb_line_count rb = Z.of_nat (length (rb_host_keys rb)) + rb_invalid_line_count rb }.

Lemma shows_report digest pa rows r text :
  fingerprint_sha256 <$> keys r = file_keys digest text →
  line_count r = Z.of_nat (length (keys r)) + invalid_line_count r →
  shows_file digest text
    (readback pa rows (mkHostReport true JNull (jtext (authorized_keys_path r)) (line_count r) (invalid_line_count r)
                         (mocked (read_mocked r)) (reported_key <$> keys r))).
Proof using Type.
  intros Hk Hn.
  assert (Hfp : hk_fingerprint_sha256 <$> (reported_key <$> keys r) = utf8 <$> file_keys digest text).
  { rewrite <- Hk, <- !list_fmap_compose. done. }
  split.
  - exact Hfp.
  - cbn. intros m ([[e k] v] & -> & _)%list_elem_of_fmap. cbn. by rewrite Hfp.
  - rewrite unknown_fingerprints. cbn [hr_keys]. by rewrite Hfp.
  - cbn. by rewrite length_fmap.
Qed.

(** C14: A readback shows what is in the host's file.  When the agent reads
    the file of the account and answers, the backend takes the answer for a
    valid one and shows: the keys of the file in order; each key CoreLab
    believes to be installed as present exactly when it is in the file; as
    unknown exactly the keys of the file it has no active record of; and line
    counts that add up.  When the agent refuses, no key is shown and every
    record counts as missing.  The file is not touched, and the only thing
    written is the entry in the log. *)
Theorem readback_sees_host (h : surroundings Files) (c : Client Files) message pa_id actor lab req pa s :
  key_runner h = obey → clean s → (get_account pa_id lab s).1 = Ok pa →
  ∃ fields rb s' e,
    handle_key_read h false (JObj [("linux_username", JStr (PhysicalAccount.linux_username pa))]%string) c =
      (Some ("agent.authorized_key.read.response"%string, JObj fields), c) ∧
    read_authorized_keys_from_host int_text (Ok fields) message pa_id actor lab req s = (Ok rb, s') ∧
    readback_valid rb = true ∧
    db s' = db s <| audit_log := audit_log (db s) ++ [e] |> ∧
    ((∃ path, rb_ok rb = true ∧ rb_authorized_keys_path rb = jtext path ∧
        shows_file (body_digest h) (text_at path (on_host c)) rb) ∨
     rb_ok rb = false ∧ rb_host_keys rb = [] ∧
     ∀ m, m ∈ rb_managed_entries rb → mg_present_on_host m = false).
Proof using Type.
  intros Hobey Hc Hpa. unfold handle_key_read. rewrite Hobey.
  change (text_field "linux_username" (JObj _)) with (text_of (PhysicalAccount.linux_username pa)).
  assert (Hsame : c <| on_host := on_host c |> = c) by by destruct c.
  destruct (read_cases (body_digest h) (key_user h (on_host c)) (text_of (PhysicalAccount.linux_username pa))
    (on_host c)) as [(e & Hne & ->)|(r & -> & Hk & Hn & Hm)]; rewrite Hsame.
  - destruct (read_back_run _ _ message pa_id actor lab req pa s Hc Hpa (refusal_report (keys_message h e)))
      as (entry & s' & Hrun & Hdb & _).
    eexists (refusal_fields (keys_message h e)), _, s', entry. split; [by destruct e|].
    split; [exact Hrun|]. split; [reflexivity|]. split; [exact Hdb|]. right. split; [done|]. split; [done|].
    cbn. intros m ([[en k] v] & -> & _)%list_elem_of_fmap. cbn. by rewrite bool_decide_eq_false_2 by apply not_elem_of_nil.
  - destruct (read_back_run _ _ message pa_id actor lab req pa s Hc Hpa (read_report r)) as (entry & s' & Hrun & Hdb & _).
    eexists (read_fields r), _, s', entry. split; [done|]. split; [exact Hrun|]. split.
    { unfold readback_valid. cbn. rewrite Hm. cbn. apply forallb_forall. intros k Hin.
      apply list_elem_of_In, list_elem_of_fmap in Hin as (x & -> & _). unfold host_key_valid. cbn. by destruct (comment x). }
    split; [exact Hdb|]. left. exists (authorized_keys_path r). split; [done|]. split; [done|].
    by apply shows_report.
Qed.

(** ** A pushed key *)

Lemma push_plan_inv digest lookup agent name pk label path line fp :
  push_plan digest lookup agent name pk label = Ok (path, line, fp) →
  _validate_username name = true ∧ _fingerprint_for_pubkey digest pk = Some fp ∧
  ∃ info dir, lookup name = Some info ∧ _authorized_key_paths info = Ok (dir, path).
Proof using Type.
  unfold push_plan. destruct (negb (is_enabled _ _ _)); [done|]. destruct (_validate_username name); [|done]. cbn [negb].
  destruct (_fingerprint_for_pubkey digest pk) as [fp'|]; [|done].
  destruct (_authorized_key_line digest pk label) as [line'|]; [|done].
  destruct (lookup name) as [info|]; [|done].
  destruct (_authorized_key_paths info) as [[dir path']|] eqn:Hp; [|done]. intros [= <- <- <-]. eauto 10.
Qed.

(** The row that stores a key the user pasted. *)
Definition stores_key (digest : pystr → option pystr) (raw : pystr) (key : SshPublicKey.t) : Prop :=
  ∃ key_type blob comment fp,
    parse_public_key digest raw = Ok (key_type, blob, comment) ∧
    SshKeyService.fingerprint_sha256 digest blob = Some fp ∧
    SshPublicKey.public_key key = utf8 (strip raw) ∧ SshPublicKey.fingerprint_sha256 key = utf8 fp.

Lemma scalar_strip raw : Forall (λ c, scalar_value c = true) raw → Forall (λ c, scalar_value c = true) (strip raw).
Proof using Type.
  intros H. unfold strip. destruct (lstrip_decomp raw) as (ws & _ & Hl), (rstrip_decomp (lstrip raw)) as (ws' & _ & Hr).
  rewrite Hl in H. apply Forall_app in H as [_ H]. rewrite Hr in H. by apply Forall_app in H as [H _].
Qed.

(** C15: A key whose installation the agent confirmed reads back as present:
    the user's paste, the row it is stored in, the push, the editing of the
    host's file, the reading of the file and the comparison on the page agree
    on the key. *)
Theorem pushed_key_read_back (h : surroundings Files) (c c1 : Client Files) answer raw label key entry user
    message pa_id actor lab req pa s :
  key_runner h = obey → (∀ f f', key_user h f = key_user h f') →
  stores_key (body_digest h) raw key → Forall (λ c, scalar_value c = true) raw →
  clean_key (strip raw) (text_of label) →
  clean s → (get_account pa_id lab s).1 = Ok pa → (entry, key, user) ∈ managed_rows (db s) (PhysicalAccount.id pa) →
  handle_key_push h false
    (JObj [("linux_username", JStr (PhysicalAccount.linux_username pa));
           ("public_key", JStr (SshPublicKey.public_key key)); ("label", JStr label)]%string) c = (Some answer, c1) →
  ∃ fields rb s',
    handle_key_read h false (JObj [("linux_username", JStr (PhysicalAccount.linux_username pa))]%string) c1 =
      (Some ("agent.authorized_key.read.response"%string, JObj fields), c1) ∧
    read_authorized_keys_from_host int_text (Ok fields) message pa_id actor lab req s = (Ok rb, s') ∧
    rb_ok rb = true ∧ mkManaged entry key user true ∈ rb_managed_entries rb.
Proof using Type.
  intros Hobey Huser (ty & blob & comment & fp & Hparse & Hfp & Hpub & Hdb) Hraw Hclean Hc Hpa Hin.
  destruct (parsed_fingerprint _ _ _ _ _ Hparse) as [_ Hsame]. rewrite Hfp in Hsame.
  unfold handle_key_push. rewrite Hobey.
  change (text_field "linux_username" (JObj _)) with (text_of (PhysicalAccount.linux_username pa)).
  change (text_field "public_key" (JObj _)) with (text_of (SshPublicKey.public_key key)).
  change (text_field "label" (JObj _)) with (text_of label).
  rewrite Hpub, text_of_utf8 by by apply scalar_strip.
  set (name := text_of (PhysicalAccount.linux_username pa)).
  pose proof (authorized_key_push_spec (body_digest h) (key_user h (on_host c)) (group_name h) (agent c) name (strip raw)
    (text_of label) (on_host c) Hclean) as H. cbv zeta in H.
  destruct (push_plan _ _ _ _ _ _) as [[[path line] fp']|e] eqn:Hplan; [|rewrite H; by destruct e].
  apply push_plan_inv in Hplan as (Hname & Hfp' & info & dir & Hinfo & Hpath).
  assert (fp' = fp) as -> by congruence.
  destruct H as (files' & -> & _ & _ & Hkeys & _). intros [= _ <-].
  pose proof (summarized_reads (body_digest h) path files') as Hreads.
  pose proof (read_run (body_digest h) (key_user h files') name files') as Hread.
  rewrite Hname, (Huser files' (on_host c)), Hinfo, Hpath in Hread. cbn [negb] in Hread.
  destruct (_summarize_authorized_keys _ _) as [[ks count] invalid].
  destruct Hreads as (Hk & Hn & _). set (r := mkReadResult path count invalid ks false) in *.
  destruct (read_back_run _ _ message pa_id actor lab req pa s Hc Hpa (read_report r)) as (e & s' & Hrun & _ & _).
  exists (read_fields r), (readback pa (managed_rows (db s) (PhysicalAccount.id pa))
    (mkHostReport true JNull (jtext (authorized_keys_path r)) (line_count r) (invalid_line_count r)
       (mocked (read_mocked r)) (reported_key <$> keys r))), s'. split; [|split; [exact Hrun|split; [done|]]].
  - unfold handle_key_read. rewrite Hobey. change (text_field "linux_username" (JObj _)) with name.
    cbn [on_host]. change (on_host (c <| on_host := files' |>)) with files'. rewrite (Huser files' (on_host c)), Hread.
    by destruct c.
  - cbn. apply list_elem_of_fmap. exists (entry, key, user). split; [|exact Hin]. cbn. f_equal. symmetry.
    apply bool_decide_eq_true. rewrite <- list_fmap_compose.
    assert (Hfile : fp ∈ file_keys (body_digest h) (text_at path files')).
    { rewrite Hkeys. case_decide as Hold; [done|]. apply elem_of_app. right. by left. }
    change (text_at path files') with (text_at (authorized_keys_path r) files') in Hfile. rewrite <- Hk in Hfile.
    apply list_elem_of_fmap in Hfile as (k & -> & Hkin). rewrite Hdb. apply list_elem_of_fmap. by exists k.
Qed.
End report.

(** ** Closed instances *)

(** A host that keeps alice's key file, on which nothing else works. *)
Definition key_host : surroundings Files :=
  mkSurroundings Files (kill_host bare_host) obey (λ _, sample_lookup) sample_group Some
    (λ _ s, (mkCommandResult 1 [] [], s)) (λ _ _, None) (λ _, None) (authenticate bare_host) (ssh_keygen bare_host) []
    (scripts bare_host) (terminate bare_host) ("Linux", "6.8", "linux")%string 1 (λ _, "refused"%string) None.

Definition key_client : Client Files :=
  mkClient fresh_agent (sample_config []) (Some None) None fresh_runner sample_files.

(** Alice's key, the record that it is installed on her account 5, and the
    key of her file that CoreLab does not know. *)
Definition alice_key : SshPublicKey.t :=
  SshPublicKey.mk 3 10 "ssh-ed25519 BBBB alice@pc" "SHA256:BBBB" "ssh-ed25519" (Some "alice@pc"%string) 1 None.
Definition alice_entry : AuthorizedKeyEntry.t := AuthorizedKeyEntry.mk 2 5 3 10 10 0 1 None None.
Definition read_db : Db :=
  sample_db [] <| ssh_public_keys := {[3 := alice_key]} |> <| authorized_key_entries := {[2 := alice_entry]} |>.

Definition alice_raw : pystr := u " ssh-ed25519 BBBB alice@pc".

Lemma alice_stored : stores_key Some alice_raw alice_key.
Proof. exists (u "ssh-ed25519"), (u "BBBB"), (Some (u "alice@pc")), (u "SHA256:BBBB"). repeat split; vm_compute; reflexivity. Qed.

Lemma readback_sees_host_witness :
  ∃ rb, (rb_ok rb = true → ∃ path, shows_file Some (text_at path sample_files) rb) ∧ readback_valid rb = true.
Proof.
  destruct (readback_sees_host decimal_int key_host key_client "" 5 9 1 no_request (sample_account 5 "alice")
    (open_session read_db 10 "") eq_refl eq_refl eq_refl) as (fields & rb & s' & e & _ & _ & Hv & _ & H).
  exists rb. split; [|exact Hv]. intros Hok. destruct H as [(path & _ & _ & Hs)|(Hno & _)]; [by exists path|].
  rewrite Hok in Hno. discriminate Hno.
Defined.

Definition pushed : option AgentHandlers.reply * Client Files :=
  handle_key_push key_host false
    (JObj [("linux_username", JStr "alice"); ("public_key", JStr "ssh-ed25519 BBBB alice@pc");
           ("label", JStr "corelab-10")]%string) key_client.

Lemma pushed_key_read_back_witness :
  ∃ rb, rb_ok rb = true ∧ mkManaged alice_entry alice_key (sample_user 10 "alice") true ∈ rb_managed_entries rb.
Proof.
  destruct pushed as [[answer|] c1] eqn:Hp; [|exfalso; vm_compute in Hp; discriminate Hp].
  destruct (pushed_key_read_back decimal_int key_host key_client c1 answer alice_raw "corelab-10" alice_key alice_entry
    (sample_user 10 "alice") "" 5 9 1 no_request (sample_account 5 "alice") (open_session read_db 10 "")
    eq_refl ltac:(done) alice_stored) as (fields & rb & s' & _ & _ & Hok & Hin).
  - apply (bool_decide_eq_true_1 _). vm_compute. reflexivity.
  - destruct sample_clean as (H1 & H2 & H3). split; [exact H1|]. split; [exact H2|exact H3].
  - reflexivity.
  - reflexivity.
  - assert (Hrows : managed_rows read_db 5 = [(alice_entry, alice_key, sample_user 10 "alice")]) by by vm_compute.
    change (db (open_session read_db 10 "")) with read_db. change (PhysicalAccount.id (sample_account 5 "alice")) with 5.
    rewrite Hrows. by left.
  - exact Hp.
  - by exists rb.
Defined.
