(* ===== verification/UsageService.v ===== *)
(** Usage statistics and the pages that show them
    ([services/usage_service.py], [api/v1/usage.py]; a card's:
    [api/v1/gpus.py]; the laboratory's: [api/v1/lab_overview.py]).

    [ci] is the sort key of the collation in which MySQL orders host names.
    Floats are summed from left to right, as Python 3.11 does. *)

From S2P Require Import Prelude PyFloat PyText Models SessionLayer.
From S2P Require Import ReservationsApi AuthDependencies.

(** * The monthly summary, windows and rankings

    SQL sums whole seconds per row; [hours] of a sum is the float the
    database and Python make of it.  A grouped query is [group_by] over the
    joined rows; [digit] gives the value of a Unicode decimal digit. *)

#[local] Open Scope Z_scope.

(** ** Grouping *)

(** The rows of each key, keys in the order in which they come first. *)
Definition group_by {K R} `{EqDecision K} (key : R → K) (l : list R) : list (K * list R) :=
  (λ k, (k, filter (λ r, key r = k) l)) <$> remove_dups (key <$> l).

(** ** The calendar *)

Definition is_leap (y : Z) : bool := bool_decide (y mod 4 = 0) && (bool_decide (y mod 100 ≠ 0) || bool_decide (y mod 400 = 0)).

Definition days_in_month (y m : Z) : Z :=
  if bool_decide (m = 2) then (if is_leap y then 29 else 28)
  else if bool_decide (m ∈ [4; 6; 9; 11]) then 30 else 31.

(** Days before the first of January of a year, counted from the year 1. *)
Definition days_before_year (y : Z) : Z := let y := y - 1 in y * 365 + y / 4 - y / 100 + y / 400.

Definition days_before_month (y m : Z) : Z :=
  Zsum ((λ i, days_in_month y (Z.of_nat i)) <$> seq 1 (Z.to_nat m - 1)).

(** [datetime(y, m, 1)] as an instant, [None] out of range. *)
Definition first_of_month (y m : Z) : option Z :=
  if bool_decide (1 <= y <= 9999) && bool_decide (1 <= m <= 12)
  then Some (days (days_before_year y + days_before_month y m - 719162)) else None.

(** ** Windows *)

Definition _COUNTED_STATUSES : list ReservationStatus := [STATUS_ACTIVE; STATUS_COMPLETED].
Definition _TERMINAL_STATUSES : list ReservationStatus := [STATUS_COMPLETED; STATUS_FAILED; STATUS_CANCELLED].

(** [TIMESTAMPDIFF(SECOND, a, b)] *)
Definition timestampdiff (a b : Z) : Z := Z.quot (b - a) 1000000.

(** [_windowed_seconds_expr] *)
Definition windowed_seconds (window_start window_end now : Z) (r : Reservation.t) : Z :=
  timestampdiff (Z.max (Reservation.start_at r) window_start) (Z.min (Z.min (Reservation.end_at r) now) window_end).

Definition touches (window_start window_end : Z) (r : Reservation.t) : Prop :=
  Reservation.start_at r < window_end ∧ window_start < Reservation.end_at r.
#[export] Instance touches_dec a b r : Decision (touches a b r).
Proof. unfold touches. apply _. Defined.

Definition counted (window_start window_end : Z) (r : Reservation.t) : Prop :=
  Reservation.status r ∈ _COUNTED_STATUSES ∧ touches window_start window_end r.
#[export] Instance counted_dec a b r : Decision (counted a b r).
Proof. unfold counted. apply _. Defined.

(** [SUM(...) / 3600.0] *)
Definition hours_of (seconds : Z) : spec_float := float_div (float_of_int seconds) (float_of_int 3600).

Definition rounded_hours (seconds : Z) : spec_float := py_round 2 (hours_of seconds).

(** A sum per row. *)
Definition total {R} (f : R → Z) (l : list R) : Z := Zsum (f <$> l).

(** ** Monthly summary *)

Section month.
Context (digit : N → option Z).

(** [int] on the two parts of a text that [_MONTH_RE] matches; the pattern's
    end lets a line feed through. *)
Definition read_month (month : pystr) : option (Z * Z) :=
  match month with
  | a :: b :: c :: d :: 45%N :: m1 :: m2 :: rest =>
      if bool_decide (rest = [] ∨ rest = [10%N]) then
        match digit a, digit b, digit c, digit d with
        | Some a, Some b, Some c, Some d =>
            let y := 1000 * a + 100 * b + 10 * c + d in
            if bool_decide (m1 = 48%N) && (between 49 57 m2)%N then Some (y, Z.of_N m2 - 48)
            else if bool_decide (m1 = 49%N) && (between 48 50 m2)%N then Some (y, 10 + (Z.of_N m2 - 48))
            else None
        | _, _, _, _ => None
        end
      else None
  | _ => None
  end.
End month.

(** [None]: a [ValueError]. *)
Definition month_boundaries (year month_num : Z) : option (Z * Z) :=
  start ← first_of_month year month_num ;
  end_ ← (if bool_decide (month_num = 12) then first_of_month (year + 1) 1
          else first_of_month year (month_num + 1)) ;
  Some (start, end_).

Record Usage : Type := mkUsage {
  gpu_hours_used : spec_float ;
  completion_rate : spec_float ;
  reservation_count : Z ;
  by_server : list (Z * string * spec_float) ;
  by_pa : list (Z * string * string * spec_float) ;
  alerts_received : Z ;
  compliance_violations : Z }.

Section queries.
Context (d : Db).

Definition of_user (user_id : Z) (P : Reservation.t → Prop) `{∀ r, Decision (P r)} : list Reservation.t :=
  filter (λ r, Reservation.user_id r = user_id ∧ P r) (rows (reservations d)).

(** The joins: a row without its partner drops out. *)
Definition with_server (r : Reservation.t) : option (Server.t * Reservation.t) :=
  sv ← servers d !! Reservation.server_id r ; Some (sv, r).

Definition with_account (r : Reservation.t) : option (PhysicalAccount.t * Server.t * Reservation.t) :=
  link ← account_links d !! Reservation.account_link_id r ;
  pa ← physical_accounts d !! AccountLink.physical_account_id link ;
  sv ← servers d !! Reservation.server_id r ;
  Some (pa, sv, r).

Definition with_card (r : Reservation.t) : option (Gpu.t * Server.t * Reservation.t) :=
  g ← Reservation.gpu_id r ;
  gpu ← gpus d !! g ;
  sv ← servers d !! Gpu.server_id gpu ;
  Some (gpu, sv, r).

Definition with_user (r : Reservation.t) : option (User.t * Reservation.t) :=
  user ← users d !! Reservation.user_id r ; Some (user, r).

(** Seconds per server, and per account and host name. *)
Definition server_seconds (window_start window_end now : Z) (rs : list Reservation.t) : list (Z * string * Z) :=
  (λ g, (g.1, total (windowed_seconds window_start window_end now) (snd <$> g.2))) <$>
    group_by (λ x, (Server.id x.1, Server.hostname x.1)) (omap with_server rs).

Definition account_seconds (window_start window_end now : Z) (rs : list Reservation.t) :
    list (Z * string * string * Z) :=
  (λ g, (g.1, total (windowed_seconds window_start window_end now) (snd <$> g.2))) <$>
    group_by (λ x, (PhysicalAccount.id x.1.1, PhysicalAccount.linux_username x.1.1, Server.hostname x.1.2))
      (omap with_account rs).

Definition _governance_counts (user_id month_start month_end : Z) : Z * Z :=
  let mine (P : Notification.t → bool) :=
    Z.of_nat (length (filter (λ n, Notification.recipient_user_id n = user_id ∧
      month_start <= Notification.created_at n < month_end ∧ P n = true) (notifications d))) in
  (mine (λ n, bool_decide (Notification.severity n ∈ ["warn"; "error"]%string)),
   mine (λ n, String.prefix "compliance." (Notification.ntype n))).

(** [float(completed) / total], or 0.0 *)
Definition completion (rs : list Reservation.t) : spec_float :=
  let n (st : ReservationStatus) := Z.of_nat (length (filter (λ r, Reservation.status r = st) rs)) in
  let total_terminal := n STATUS_COMPLETED + n STATUS_FAILED + n STATUS_CANCELLED in
  if bool_decide (0 < total_terminal) then float_div (float_of_int (n STATUS_COMPLETED)) (float_of_int total_terminal)
  else S754_zero false.

Definition month_usage (user_id month_start month_end now : Z) : Usage :=
  let rs := of_user user_id (counted month_start month_end) in
  let '(alerts, violations) := _governance_counts user_id month_start month_end in
  mkUsage
    (py_round 2 (hours_of (total (windowed_seconds month_start month_end now) rs)))
    (py_round 4 (completion (of_user user_id (λ r, Reservation.status r ∈ _TERMINAL_STATUSES ∧
                                                  touches month_start month_end r))))
    (Z.of_nat (length (of_user user_id (touches month_start month_end))))
    ((λ g, (g.1, hours_of g.2)) <$> server_seconds month_start month_end now rs)
    ((λ g, (g.1, hours_of g.2)) <$> account_seconds month_start month_end now rs)
    alerts violations.

(** ** Windows of a user *)

Definition gpu_hours_for_user_in_window (user_id window_start window_end now : Z) : spec_float :=
  hours_of (total (windowed_seconds window_start window_end now) (of_user user_id (counted window_start window_end))).

(** Seconds per card: id, index, server, host name. *)
Definition card_seconds (window_start window_end now : Z) (rs : list Reservation.t) :
    list (Z * Z * Z * string * Z) :=
  (λ g, (g.1, total (windowed_seconds window_start window_end now) (snd <$> g.2))) <$>
    group_by (λ x, (Gpu.id x.1.1, Gpu.gpu_index x.1.1, Server.id x.1.2, Server.hostname x.1.2)) (omap with_card rs).

(** [ORDER BY hours DESC] *)
Definition gpu_ranking_for_user_in_window (user_id window_start window_end now : Z) (limit : nat) :
    list (Z * Z * Z * string * spec_float) :=
  (λ g, (g.1, rounded_hours g.2)) <$>
    take limit (order_by_desc snd (card_seconds window_start window_end now
                                     (of_user user_id (counted window_start window_end)))).

Record ReservationItem : Type := mkReservationItem {
  ri_id : Z ;
  ri_gpu_id : option Z ;
  ri_gpu_index : option Z ;
  ri_server_id : Z ;
  ri_server_hostname : string ;
  ri_start_at : Z ;
  ri_end_at : Z ;
  ri_status : ReservationStatus ;
  ri_hours : spec_float ;
  ri_has_script : bool ;
  ri_script_status : option ScriptStatus }.

Definition reservation_item (window_start window_end now : Z) (x : Server.t * Reservation.t) : ReservationItem :=
  let '(sv, r) := x in
  mkReservationItem (Reservation.id r) (Reservation.gpu_id r)
    (g ← Reservation.gpu_id r ; Gpu.gpu_index <$> gpus d !! g) (Server.id sv) (Server.hostname sv)
    (Reservation.start_at r) (Reservation.end_at r) (Reservation.status r)
    (rounded_hours (windowed_seconds window_start window_end now r)) (is_some (Reservation.script r))
    (Reservation.script_status r).

Definition user_reservations_window (user_id window_start window_end now : Z) : list ReservationItem :=
  reservation_item window_start window_end now <$>
    order_by_desc (Reservation.start_at ∘ snd)
      (omap with_server (of_user user_id (touches window_start window_end))).
End queries.

(** [monthly_usage] *)
Definition monthly_usage (user_id year month_num : Z) : M Usage :=
  '(month_start, month_end) ← some_or_raise (month_boundaries year month_num) ValueError ;
  at_ ← utcnow ;
  gets (λ s, month_usage (db s) user_id month_start month_end at_).

Definition my_usage (digit : N → option Z) (month : pystr) (current : AuthenticatedUser) : M Usage :=
  '(y, m) ← some_or_raise (read_month digit month) (HTTPException 422 "INVALID_MONTH") ;
  monthly_usage (User.id current) y m.

#[local] Open Scope Z_scope.

(** ** Orders *)

(** [ORDER BY a, b DESC, ...]: the first key that differs decides. *)
Fixpoint keys_le (a b : list Z) : bool :=
  match a, b with
  | x :: a, y :: b => bool_decide (x < y) || bool_decide (x = y) && keys_le a b
  | _, _ => true
  end.

Definition keyed_list_le {R} (key : R → list Z) (a b : R) : Prop := keys_le (key a) (key b) = true.
#[export] Instance keyed_list_le_dec {R} (key : R → list Z) : RelDecision (keyed_list_le key).
Proof. intros a b. unfold keyed_list_le. apply _. Defined.

Definition order_by_keys {R} (key : R → list Z) (l : list R) : list R := merge_sort (keyed_list_le key) l.

(** ** Cards *)

Inductive usage_range : Type := today | last_7d | last_30d.

Definition _range_window (r : usage_range) (now : Z) : Z * Z :=
  match r with
  | today => let start := now - now mod days 1 in (start, start + days 1)
  | last_7d => (now - days 7, now)
  | last_30d => (now - days 30, now)
  end.

Definition _load_gpu_or_404 (gpu_id lab_id : Z) : M (Gpu.t * Server.t) :=
  o ← gets (λ s, gpu ← gpus (db s) !! gpu_id ; sv ← servers (db s) !! Gpu.server_id gpu ;
                 if bool_decide (Server.lab_id sv = lab_id) then Some (gpu, sv) else None) ;
  some_or_raise o (HTTPException 404 "gpu_not_found").

(** The gate of the three endpoints. *)
Definition card_page (gpu_id : Z) (current : AuthenticatedUser) : M Z :=
  '(_, srv) ← _load_gpu_or_404 gpu_id (User.lab_id current) ;
  assert_server_admin current (Server.id srv) ;;
  utcnow.

Definition on_card (d : Db) (gpu_id : Z) (P : Reservation.t → Prop) `{∀ r, Decision (P r)} : list Reservation.t :=
  filter (λ r, Reservation.gpu_id r = Some gpu_id ∧ P r) (rows (reservations d)).

(** Seconds per user: id and name. *)
Definition user_seconds (d : Db) (window_start window_end now : Z) (rs : list Reservation.t) :
    list (Z * string * Z) :=
  (λ g, (g.1, total (windowed_seconds window_start window_end now) (snd <$> g.2))) <$>
    group_by (λ x, (User.id x.1, User.username x.1)) (omap (with_user d) rs).

Definition positive (f : spec_float) : bool := SFltb (S754_zero false) f.

(** [total_seconds()] *)
Definition total_seconds (span : Z) : spec_float := float_div (float_of_int span) (float_of_int 1000000).

(** [min(round(total_hours * 100.0 / window_hours, 1), 100.0)], with
    [window_hours = max(..., 1.0)] *)
Definition busy_pct (total_hours : spec_float) (span : Z) : spec_float :=
  let window_hours := float_div (total_seconds span) (float_of_int 3600) in
  let window_hours := if SFltb window_hours (float_of_int 1) then float_of_int 1 else window_hours in
  let pct := py_round 1 (float_div (SFmul 53 1024 total_hours (float_of_int 100)) window_hours) in
  if SFltb (float_of_int 100) pct then float_of_int 100 else pct.

Record GpuUsageNow : Type := mkUsageNow {
  un_reservation_id : Z ;
  un_user_id : Z ;
  un_username : string ;
  un_started_at : Z ;
  un_ends_at : Z ;
  un_minutes_in : Z ;
  un_is_cron : bool }.

Record GpuUsageResponse : Type := mkGpuUsage {
  gu_window_start : Z ;
  gu_window_end : Z ;
  gu_total_hours : spec_float ;
  gu_busy_pct : spec_float ;
  gu_distinct_users : Z ;
  gu_by_user : list (Z * string * spec_float) ;
  gu_now : option GpuUsageNow }.

Definition usage_now (now : Z) (x : User.t * Reservation.t) : GpuUsageNow :=
  let '(user, r) := x in
  mkUsageNow (Reservation.id r) (User.id user) (User.username user) (Reservation.start_at r) (Reservation.end_at r)
    (Z.max ((now - Reservation.start_at r) / minutes 1) 0) (negb (is_some (Reservation.gpu_id r))).

Definition card_usage (d : Db) (gpu_id win_start win_end now : Z) : GpuUsageResponse :=
  let rs := on_card d gpu_id (counted win_start win_end) in
  let total_hours := hours_of (total (windowed_seconds win_start win_end now) rs) in
  let by_user := (λ g, (g.1, rounded_hours g.2)) <$> order_by_desc snd (user_seconds d win_start win_end now rs) in
  mkGpuUsage win_start win_end (py_round 2 total_hours) (busy_pct total_hours (win_end - win_start))
    (Z.of_nat (length (filter (λ x, positive x.2 = true) by_user))) by_user
    (usage_now now <$>
       head (order_by (Reservation.start_at ∘ snd)
               (omap (with_user d)
                  (on_card d gpu_id (λ r, Reservation.status r = STATUS_ACTIVE ∧ Reservation.start_at r <= now ∧
                                          now < Reservation.end_at r))))).

Definition gpu_usage (gpu_id : Z) (range_ : usage_range) (current : AuthenticatedUser) : M GpuUsageResponse :=
  at_ ← card_page gpu_id current ;
  let '(win_start, win_end) := _range_window range_ at_ in
  gets (λ s, card_usage (db s) gpu_id win_start win_end at_).

Record GpuTimelineItem : Type := mkTimelineItem {
  ti_reservation_id : Z ;
  ti_user_id : Z ;
  ti_username : string ;
  ti_start_at : Z ;
  ti_end_at : Z ;
  ti_status : ReservationStatus ;
  ti_is_cron : bool ;
  ti_has_script : bool }.

Definition timeline_item (x : User.t * Reservation.t) : GpuTimelineItem :=
  let '(user, r) := x in
  mkTimelineItem (Reservation.id r) (User.id user) (User.username user) (Reservation.start_at r)
    (Reservation.end_at r) (Reservation.status r) (negb (is_some (Reservation.gpu_id r)))
    (is_some (Reservation.script r)).

Definition gpu_timeline (gpu_id hours_ahead : Z) (current : AuthenticatedUser) : M (Z * Z * list GpuTimelineItem) :=
  at_ ← card_page gpu_id current ;
  gets (λ s, (at_, at_ + hours hours_ahead, timeline_item <$>
    order_by (Reservation.start_at ∘ snd)
      (omap (with_user (db s))
         (on_card (db s) gpu_id (λ r, Reservation.status r ∈ [STATUS_SCHEDULED; STATUS_ACTIVE] ∧
                                      touches at_ (at_ + hours hours_ahead) r))))).

Definition _first_script_line (script : option pystr) : option pystr :=
  match script with
  | None => None
  | Some script =>
      match splitlines (strip script) with
      | first :: _ => if bool_decide (strip script = []) then None else Some (take 120 first)
      | [] => None
      end
  end.

Record GpuScriptItem : Type := mkScriptItem {
  si_reservation_id : Z ;
  si_user_id : Z ;
  si_username : string ;
  si_script_first_line : option pystr ;
  si_start_at : Z ;
  si_started_at : option Z ;
  si_finished_at : option Z ;
  si_status : option ScriptStatus ;
  si_exit_code : option Z }.

Definition script_item (x : User.t * Reservation.t) : GpuScriptItem :=
  let '(user, r) := x in
  mkScriptItem (Reservation.id r) (User.id user) (User.username user) (_first_script_line (Reservation.script r))
    (Reservation.start_at r) (Reservation.script_started_at r) (Reservation.script_finished_at r)
    (Reservation.script_status r) (Reservation.script_exit_code r).

(** Started ones first, the latest of them first, then by the booking. *)
Definition script_order (x : User.t * Reservation.t) : list Z :=
  match Reservation.script_started_at x.2 with
  | Some t => [0; - t; - Reservation.start_at x.2]
  | None => [1; 0; - Reservation.start_at x.2]
  end.

Definition gpu_recent_scripts (gpu_id : Z) (limit : nat) (current : AuthenticatedUser) : M (list GpuScriptItem) :=
  _ ← card_page gpu_id current ;
  gets (λ s, script_item <$>
    take limit (order_by_keys script_order
      (omap (with_user (db s)) (on_card (db s) gpu_id (λ r, is_some (Reservation.script r) = true))))).

(** ** The laboratory *)

Section overview.
Context (ci : string → string).

Definition ci_le (a b : string) : Prop := text_le (ci a) (ci b).
#[export] Instance ci_le_dec : RelDecision ci_le.
Proof using Type. intros a b. unfold ci_le. apply _. Defined.

Record SecurityKeyEntry : Type := mkKeyEntry {
  ke_key : SshPublicKey.t ;
  ke_username : string ;
  ke_server_hostnames : list string }.

Record SecurityGrantEntry : Type := mkGrantEntry {
  ge_user_id : Z ;
  ge_username : string ;
  ge_server_hostnames : list string }.

(** The servers a key was pushed to. *)
Definition key_hostnames (d : Db) (key : SshPublicKey.t) : list string :=
  omap (λ e, pa ← physical_accounts d !! AuthorizedKeyEntry.physical_account_id e ;
             Server.hostname <$> servers d !! PhysicalAccount.server_id pa)
    (filter (λ e, AuthorizedKeyEntry.ssh_public_key_id e = SshPublicKey.id key ∧ AuthorizedKeyEntry.is_active e = 1)
       (rows (authorized_key_entries d))).

(** [sorted] of the set. *)
Definition key_entry (d : Db) (key : SshPublicKey.t) : option SecurityKeyEntry :=
  user ← users d !! SshPublicKey.user_id key ;
  Some (mkKeyEntry key (User.username user) (merge_sort text_le (remove_dups (key_hostnames d key)))).

Definition lab_keys (d : Db) (lab_id : Z) : list SshPublicKey.t :=
  filter (λ k, SshPublicKey.is_active k = 1 ∧
               (User.lab_id <$> users d !! SshPublicKey.user_id k) = Some lab_id) (rows (ssh_public_keys d)).

(** The sort is stable on rows by descending id. *)
Definition key_order (e : SecurityKeyEntry) : list Z :=
  [ - Z.of_nat (length (ke_server_hostnames e)); SshPublicKey.user_id (ke_key e); - SshPublicKey.id (ke_key e) ].

Definition security_keys (d : Db) (lab_id : Z) : list SecurityKeyEntry :=
  order_by_keys key_order (omap (key_entry d) (lab_keys d lab_id)).

(** The active grants of a laboratory's users on its servers. *)
Definition granted (d : Db) (lab_id : Z) : list (User.t * string) :=
  omap (λ g, user ← users d !! ServerAdminGrant.user_id g ;
             sv ← servers d !! ServerAdminGrant.server_id g ;
             if bool_decide (ServerAdminGrant.is_active g = 1 ∧ Server.lab_id sv = lab_id ∧ User.lab_id user = lab_id)
             then Some (user, Server.hostname sv) else None)
    (rows (server_admin_grants d)).

Definition grant_entry (g : Z * string * list (User.t * string)) : SecurityGrantEntry :=
  mkGrantEntry g.1.1 g.1.2 (merge_sort ci_le (snd <$> g.2)).

Definition grant_order (e : SecurityGrantEntry) : list Z :=
  [ - Z.of_nat (length (ge_server_hostnames e)); ge_user_id e ].

Definition security_grants (d : Db) (lab_id : Z) : list SecurityGrantEntry :=
  order_by_keys grant_order (grant_entry <$> group_by (λ x, (User.id x.1, User.username x.1)) (granted d lab_id)).

Record SecurityMapResponse : Type := mkSecurityMap {
  total_active_keys : Z ;
  total_active_grants : Z ;
  keys : list SecurityKeyEntry ;
  grants : list SecurityGrantEntry }.

Definition security_map (d : Db) (lab_id : Z) : SecurityMapResponse :=
  let keys := security_keys d lab_id in
  let grants := security_grants d lab_id in
  mkSecurityMap (Z.of_nat (length keys)) (Zsum ((λ g, Z.of_nat (length (ge_server_hostnames g))) <$> grants))
    keys grants.

Definition lab_security_map (current : AuthenticatedUser) : M SecurityMapResponse :=
  gets (λ s, security_map (db s) (User.lab_id current)).

(** [sum] of floats. *)
Definition float_sum (l : list spec_float) : spec_float := foldl (SFadd 53 1024) (S754_zero false) l.

Definition lab_items (d : Db) (lab_id now : Z) : list (Z * string * spec_float) :=
  (λ g, (g.1, rounded_hours g.2)) <$>
    order_by_desc snd
      (user_seconds d (now - days 7) now now
         (filter (λ r, counted (now - days 7) now r ∧
                       (User.lab_id <$> users d !! Reservation.user_id r) = Some lab_id) (rows (reservations d)))).

Definition lab_usage_7d (current : AuthenticatedUser) : M (spec_float * list (Z * string * spec_float)) :=
  at_ ← utcnow ;
  gets (λ s, let items := lab_items (db s) (User.lab_id current) at_ in
             (py_round 2 (float_sum (snd <$> items)), items)).

Record OnboardingStatus : Type := mkOnboarding {
  servers_count : Z ;
  online_servers_count : Z ;
  users_count : Z ;
  links_count : Z ;
  reservations_count : Z ;
  all_done : bool }.

Definition count {R} (P : R → Prop) `{∀ r, Decision (P r)} (t : gmap Z R) : Z := Z.of_nat (length (filter P (rows t))).

Definition lab_of_server (d : Db) (server_id : Z) : option Z := Server.lab_id <$> servers d !! server_id.

Definition onboarding (d : Db) (lab_id : Z) : OnboardingStatus :=
  let servers_count := count (λ sv, Server.lab_id sv = lab_id ∧ Server.is_active sv = 1) (servers d) in
  let online_servers_count := count (λ sv, Server.lab_id sv = lab_id ∧ Server.is_active sv = 1 ∧
                                           Server.status sv = "online"%string) (servers d) in
  let users_count := count (λ u, User.lab_id u = lab_id ∧ User.is_active u = 1) (users d) in
  let links_count := count (λ l, AccountLink.is_active l = 1 ∧
    (pa ← physical_accounts d !! AccountLink.physical_account_id l ; lab_of_server d (PhysicalAccount.server_id pa))
      = Some lab_id) (account_links d) in
  let reservations_count := count (λ r, lab_of_server d (Reservation.server_id r) = Some lab_id) (reservations d) in
  mkOnboarding servers_count online_servers_count users_count links_count reservations_count
    (bool_decide (0 < servers_count) && bool_decide (0 < online_servers_count) && bool_decide (1 < users_count) &&
     bool_decide (0 < links_count) && bool_decide (0 < reservations_count)).

Definition onboarding_status (current : AuthenticatedUser) : M OnboardingStatus :=
  gets (λ s, onboarding (db s) (User.lab_id current)).
End overview.
