(* ===== verification/UsageProperties.v ===== *)
(** What the usage pages show: seconds per row are the instants of the
    booking that lie in the window and in the past, breakdowns add up to the
    totals, months follow each other without gap, a card in exclusive use is
    never used for more than the window. *)

From S2P Require Import Prelude PyFloat PyText Models SessionLayer.
From S2P Require Import ReservationsApi UsageService Samples.

#[local] Open Scope Z_scope.

(** ** Groups *)

Lemma total_filter {R} (f : R → Z) (P : R → Prop) `{∀ r, Decision (P r)} l :
  total f (filter P l) = Zsum ((λ r, if decide (P r) then f r else 0) <$> l).
Proof. apply Zsum_filter. Qed.

Lemma total_cons {R} (f : R → Z) x l : total f (x :: l) = f x + total f l.
Proof. done. Qed.

Lemma sum_of_keys {K R} `{EqDecision K} (key : R → K) (f : R → Z) ks l :
  NoDup ks → (∀ r, r ∈ l → key r ∈ ks) → Zsum ((λ k, total f (filter (λ r, key r = k) l)) <$> ks) = total f l.
Proof.
  intros Hnd. induction l as [|x l IH]; intros Hin.
  { rewrite (list_fmap_ext _ (λ _, 0)) by done. clear. by induction ks. }
  rewrite total_cons, <- IH by (intros; apply Hin; by right).
  assert (Hx : key x ∈ ks) by (apply Hin; left). clear IH Hin.
  assert (H1 : ∀ k, total f (filter (λ r, key r = k) (x :: l)) =
                    (if decide (key x = k) then f x else 0) + total f (filter (λ r, key r = k) l)).
  { intros k. rewrite filter_cons. by destruct (decide (key x = k)). }
  rewrite (list_fmap_ext _ (λ k, (if decide (key x = k) then f x else 0) + total f (filter (λ r, key r = k) l)))
    by auto. clear H1.
  assert (Hone : ∀ ks, NoDup ks →
    Zsum ((λ k, (if decide (key x = k) then f x else 0) + total f (filter (λ r, key r = k) l)) <$> ks) =
    (if decide (key x ∈ ks) then f x else 0) + Zsum ((λ k, total f (filter (λ r, key r = k) l)) <$> ks)).
  { clear. induction 1 as [|k ks Hk _ IH]; [by rewrite decide_False by apply not_elem_of_nil|].
    rewrite !fmap_cons, !Zsum_cons, IH. destruct (decide (key x = k)) as [<-|Hne].
    - rewrite (decide_True (P := key x ∈ key x :: ks)), (decide_False (P := key x ∈ ks)) by (done || left). lia.
    - destruct (decide (key x ∈ ks)) as [Hi|Hi].
      + rewrite decide_True by by right. lia.
      + rewrite decide_False by (rewrite elem_of_cons; tauto). lia. }
  rewrite Hone by done. by rewrite decide_True.
Qed.

Lemma group_by_total {K R} `{EqDecision K} (key : R → K) (f : R → Z) l :
  Zsum ((λ g, total f g.2) <$> group_by key l) = total f l.
Proof.
  unfold group_by. rewrite <- list_fmap_compose. apply sum_of_keys; [apply NoDup_remove_dups|].
  intros r Hr. apply elem_of_remove_dups, list_elem_of_fmap. eauto.
Qed.

Lemma group_by_keys {K R} `{EqDecision K} (key : R → K) (l : list R) : NoDup ((group_by key l).*1).
Proof.
  unfold group_by. rewrite <- list_fmap_compose. rewrite (list_fmap_ext _ id) by done. rewrite list_fmap_id.
  apply NoDup_remove_dups.
Qed.

(** A join that loses no row. *)
Lemma join_total {R Q} (f : R → Z) (j : R → option (Q * R)) l :
  (∀ r, r ∈ l → ∃ q, j r = Some (q, r)) → total f (snd <$> omap j l) = total f l.
Proof.
  intros H. induction l as [|x l IH]; [done|]. rewrite total_cons, <- IH by (intros; apply H; by right).
  destruct (H x ltac:(left)) as [q Hq]. simpl. by rewrite Hq.
Qed.

(** The sums per group of joined rows. *)
Definition per_group {K R Q} `{EqDecision K} (f : R → Z) (key : Q * R → K) (j : R → option (Q * R)) (l : list R) :
    list (K * Z) :=
  (λ g, (g.1, total f (snd <$> g.2))) <$> group_by key (omap j l).

Lemma per_group_total {K R Q} `{EqDecision K} (f : R → Z) (key : Q * R → K) (j : R → option (Q * R)) l :
  (∀ r, r ∈ l → ∃ q, j r = Some (q, r)) → Zsum (snd <$> per_group f key j l) = total f l.
Proof.
  intros H. rewrite <- (join_total f j l H). unfold per_group. rewrite <- list_fmap_compose.
  rewrite (list_fmap_ext _ (λ g, total (f ∘ snd) g.2)).
  - rewrite group_by_total. unfold total. by rewrite <- list_fmap_compose.
  - intros i g _. unfold total, compose. simpl. by rewrite <- list_fmap_compose.
Qed.

Lemma per_group_keys {K R Q} `{EqDecision K} (f : R → Z) (key : Q * R → K) (j : R → option (Q * R)) l :
  NoDup ((per_group f key j l).*1).
Proof.
  unfold per_group. rewrite <- list_fmap_compose. rewrite (list_fmap_ext _ fst) by done. apply group_by_keys.
Qed.

(** ** Months *)

Lemma days_before_year_next y : days_before_year (y + 1) = days_before_year y + 365 + (if is_leap y then 1 else 0).
Proof.
  unfold days_before_year, is_leap. replace (y + 1 - 1) with (y - 1 + 1) by lia. set (z := y - 1).
  replace y with (z + 1) by lia. clearbody z.
  repeat case_bool_decide; simpl; Z.div_mod_to_equations; lia.
Qed.

Lemma days_before_month_next y m : 1 <= m → days_before_month y (m + 1) = days_before_month y m + days_in_month y m.
Proof.
  intros Hm. unfold days_before_month. replace (Z.to_nat (m + 1) - 1)%nat with (S (Z.to_nat m - 1)) by lia.
  rewrite seq_S, fmap_app, Zsum_app. simpl. replace (Z.of_nat (S (Z.to_nat m - 1))) with m by lia. lia.
Qed.

Lemma days_of_year y : days_before_month y 12 + days_in_month y 12 = 365 + (if is_leap y then 1 else 0).
Proof. unfold days_before_month. cbn. unfold days_in_month. cbn. by destruct (is_leap y). Qed.

Lemma month_boundaries_spec y m :
  month_boundaries y m =
    if bool_decide (1 <= y <= 9999) && bool_decide (1 <= m <= 12) && negb (bool_decide (y = 9999 ∧ m = 12)) then
      let start := days (days_before_year y + days_before_month y m - 719162) in
      Some (start, start + days (days_in_month y m))
    else None.
Proof.
  unfold month_boundaries, first_of_month.
  destruct (bool_decide_reflect (1 <= y <= 9999)) as [Hy|Hy]; [|done].
  destruct (bool_decide_reflect (1 <= m <= 12)) as [Hm|Hm]; [|done]. cbn [andb mbind option_bind].
  destruct (bool_decide_reflect (m = 12)) as [->|Hne].
  - destruct (bool_decide_reflect (y = 9999 ∧ 12 = 12)) as [[-> _]|Hn]; [done|].
    rewrite bool_decide_eq_true_2 by lia. cbn [andb negb]. rewrite (bool_decide_eq_true_2 (1 <= 1 <= 12)) by lia.
    cbn [andb mbind option_bind]. do 2 f_equal. unfold days, hours, minutes, seconds. rewrite days_before_year_next.
    pose proof (days_of_year y). change (days_before_month (y + 1) 1) with 0. lia.
  - rewrite (bool_decide_eq_false_2 (y = 9999 ∧ m = 12)) by tauto.
    rewrite (bool_decide_eq_true_2 (1 <= m + 1 <= 12)) by lia. cbn [andb negb mbind option_bind].
    do 2 f_equal. unfold days, hours, minutes, seconds. rewrite days_before_month_next by lia. lia.
Qed.

(** ** Seconds *)

(** The instants of a booking that lie in the window and in the past. *)
Definition used_from (window_start : Z) (r : Reservation.t) : Z := Z.max (Reservation.start_at r) window_start.
Definition used_to (window_end now : Z) (r : Reservation.t) : Z := Z.min (Z.min (Reservation.end_at r) now) window_end.
Definition used_at (window_start window_end now t : Z) (r : Reservation.t) : bool :=
  bool_decide (Reservation.start_at r <= t < Reservation.end_at r) && bool_decide (window_start <= t < window_end) &&
  bool_decide (t < now).

(** How many of the instants from [a] on satisfy [P]. *)
Definition instants (a : Z) (n : nat) (P : Z → bool) : Z := Zsum ((λ i, Z.b2z (P (a + Z.of_nat i))) <$> seq 0 n).

Lemma instants_S a n P : instants a (S n) P = instants a n P + Z.b2z (P (a + Z.of_nat n)).
Proof. unfold instants. rewrite seq_S, fmap_app, Zsum_app. simpl. lia. Qed.

Lemma instants_interval a n lo hi :
  instants a n (λ t, bool_decide (lo <= t < hi)) = Z.max 0 (Z.min hi (a + Z.of_nat n) - Z.max lo a).
Proof.
  induction n as [|n IH]; [unfold instants; simpl; lia|]. rewrite instants_S, IH.
  case_bool_decide; simpl; lia.
Qed.

Lemma instants_ext a n P Q : (∀ t, a <= t < a + Z.of_nat n → P t = Q t) → instants a n P = instants a n Q.
Proof.
  intros H. induction n as [|n IH]; [done|]. rewrite !instants_S, IH by (intros; apply H; lia).
  by rewrite H by lia.
Qed.

(** A booking whose use has begun: an active one runs, a completed one has
    run.  Its end comes after its start (a CHECK of the table). *)
Definition begun (now : Z) (r : Reservation.t) : Prop :=
  Reservation.start_at r <= now ∧ Reservation.start_at r < Reservation.end_at r.

Lemma windowed_seconds_instants ws we now r :
  ws <= now → ws <= we → begun now r → touches ws we r →
  windowed_seconds ws we now r = instants ws (Z.to_nat (we - ws)) (λ t, used_at ws we now t r) / 1000000 ∧
  0 <= used_to we now r - used_from ws r.
Proof.
  unfold begun, touches, used_to, used_from. intros Hnow Hw [Hb1 Hb2] [Ht1 Ht2].
  assert (Hpos : 0 <= Z.min (Z.min (Reservation.end_at r) now) we - Z.max (Reservation.start_at r) ws) by lia.
  split; [|done]. unfold windowed_seconds, timestampdiff. rewrite Z.quot_div_nonneg by lia. f_equal.
  rewrite (instants_ext _ _ _ (λ t, bool_decide (Reservation.start_at r <= t < Z.min (Reservation.end_at r) now))).
  - rewrite instants_interval. lia.
  - intros t Hrange. unfold used_at. repeat case_bool_decide; simpl; lia.
Qed.

Lemma sum_exchange {R} (l : list R) a n (P : Z → R → bool) :
  Zsum ((λ r, instants a n (λ t, P t r)) <$> l) =
  Zsum ((λ i, Zsum ((λ r, Z.b2z (P (a + Z.of_nat i) r)) <$> l)) <$> seq 0 n).
Proof.
  induction n as [|n IH].
  - unfold instants. simpl. induction l; [done|]. by rewrite fmap_cons, Zsum_cons, IHl.
  - rewrite seq_S, fmap_app, Zsum_app, <- IH. simpl. rewrite Z.add_0_r. clear IH.
    induction l as [|x l IHl]; [done|]. rewrite !fmap_cons, !Zsum_cons, IHl, instants_S. lia.
Qed.

(** Bookings of which no two are used at one instant. *)
Definition alone (l : list Reservation.t) : Prop :=
  ∀ i j r1 r2 t, l !! i = Some r1 → l !! j = Some r2 → i ≠ j →
    ¬ (Reservation.start_at r1 <= t < Reservation.end_at r1 ∧ Reservation.start_at r2 <= t < Reservation.end_at r2).

Lemma alone_cons x l : alone (x :: l) → alone l ∧
  ∀ r t, r ∈ l → ¬ (Reservation.start_at x <= t < Reservation.end_at x ∧ Reservation.start_at r <= t < Reservation.end_at r).
Proof.
  intros H. split.
  - intros i j r1 r2 t H1 H2 Hne. apply (H (S i) (S j)); [done|done|lia].
  - intros r t [k Hk]%list_elem_of_lookup. by apply (H 0%nat (S k)).
Qed.

Lemma alone_at ws we now t l : alone l → Zsum ((λ r, Z.b2z (used_at ws we now t r)) <$> l) <= 1.
Proof.
  induction l as [|x l IH]; intros H; [simpl; lia|]. apply alone_cons in H as [Hl Hx]. rewrite fmap_cons, Zsum_cons.
  destruct (used_at ws we now t x) eqn:Hu; simpl; [|auto].
  enough (Zsum ((λ r, Z.b2z (used_at ws we now t r)) <$> l) = 0) by lia.
  assert (Hz : ∀ r, r ∈ l → Z.b2z (used_at ws we now t r) = 0).
  { intros r Hr. specialize (Hx r t Hr). unfold used_at in *.
    repeat (case_bool_decide; simpl in *; try done). tauto. }
  clear -Hz. induction l as [|r l IH]; [done|]. rewrite fmap_cons, Zsum_cons, IH by (intros; apply Hz; by right).
  rewrite Hz by left. lia.
Qed.

Lemma sum_le_length (f : nat → Z) n : (∀ i, f i <= 1) → Zsum (f <$> seq 0 n) <= Z.of_nat n.
Proof.
  intros H. induction n as [|n IH]; [done|]. rewrite seq_S, fmap_app, Zsum_app. simpl. specialize (H n). lia.
Qed.

Lemma sum_of_quotients {R} (f : R → Z) (l : list R) k :
  0 < k → Zsum ((λ r, f r / k) <$> l) <= Zsum (f <$> l) / k.
Proof.
  intros Hk. induction l as [|x l IH]; [simpl; by rewrite Z.div_0_l by lia|]. rewrite !fmap_cons, !Zsum_cons.
  etrans; [apply Z.add_le_mono_l, IH|]. apply Z.div_le_lower_bound; [done|].
  pose proof (Z.mul_div_le (f x) k Hk). pose proof (Z.mul_div_le (Zsum (f <$> l)) k Hk). lia.
Qed.

Lemma total_ext {R} (f g : R → Z) l : (∀ r, r ∈ l → f r = g r) → total f l = total g l.
Proof.
  intros H. unfold total. f_equal. apply list_fmap_ext. intros i r Hr. apply H, list_elem_of_lookup. eauto.
Qed.

Lemma alone_total ws we now l :
  ws <= now → ws <= we → alone l → (∀ r, r ∈ l → begun now r ∧ touches ws we r) →
  total (windowed_seconds ws we now) l <= timestampdiff ws we.
Proof.
  intros Hnow Hw Ha Hl.
  rewrite (total_ext _ (λ r, instants ws (Z.to_nat (we - ws)) (λ t, used_at ws we now t r) / 1000000))
    by (intros r Hr; destruct (Hl r Hr); by apply windowed_seconds_instants).
  unfold total, timestampdiff. rewrite Z.quot_div_nonneg by lia.
  etrans; [apply sum_of_quotients; lia|]. apply Z.div_le_mono; [lia|]. rewrite sum_exchange.
  etrans; [apply sum_le_length; intros i; by apply alone_at|]. lia.
Qed.

(** ** Splitting a window *)

(** A row's share of a window, zero outside. *)
Definition share (ws we now : Z) (r : Reservation.t) : Z :=
  if decide (touches ws we r) then windowed_seconds ws we now r else 0.

Lemma share_split a b c now r :
  a <= b → b <= c → b <= now → begun now r →
  share a b now r + share b c now r <= share a c now r <=
  share a b now r + share b c now r + (if decide (Reservation.start_at r < b < Reservation.end_at r) then 1 else 0).
Proof.
  intros Hab Hbc Hnow [Hb1 Hb2]. unfold share, touches, windowed_seconds, timestampdiff.
  repeat case_decide; rewrite ?Z.quot_div_nonneg by lia; try lia; Z.div_mod_to_equations; lia.
Qed.

(** The seconds of a user in a window, of which the pages show the hours. *)
Definition user_total (d : Db) (user_id ws we now : Z) : Z :=
  total (windowed_seconds ws we now) (of_user d user_id (counted ws we)).

Definition counted_rows (d : Db) (user_id : Z) : list Reservation.t :=
  filter (λ r, Reservation.user_id r = user_id ∧ Reservation.status r ∈ _COUNTED_STATUSES) (rows (reservations d)).

Lemma user_total_shares d user_id ws we now :
  user_total d user_id ws we now = total (share ws we now) (counted_rows d user_id).
Proof.
  unfold user_total, of_user, counted_rows. rewrite !total_filter. f_equal. apply list_fmap_ext. intros i r _.
  unfold share, counted. repeat case_decide; tauto.
Qed.

Lemma total_add {R} (f g : R → Z) l : total (λ r, f r + g r) l = total f l + total g l.
Proof. induction l as [|x l IH]; [done|]. rewrite !total_cons, IH. lia. Qed.

Lemma total_le {R} (f g : R → Z) l : (∀ r, r ∈ l → f r <= g r) → total f l <= total g l.
Proof. apply Zsum_le. Qed.

Lemma total_count {R} (P : R → Prop) `{∀ r, Decision (P r)} l :
  total (λ r, if decide (P r) then 1 else 0) l = Z.of_nat (length (filter P l)).
Proof.
  induction l as [|x l IH]; [done|]. rewrite total_cons, filter_cons, IH. destruct (decide (P x)); simpl; lia.
Qed.

(** GPU hours add up over time: the seconds of a window that is cut at an
    instant of the past are those of the two parts, up to one second (the
    database drops fractions of a second) for each booking that is cut. *)
Theorem usage_split d user_id a b c now :
  a <= b → b <= c → b <= now → (∀ r, r ∈ counted_rows d user_id → begun now r) →
  let parts := user_total d user_id a b now + user_total d user_id b c now in
  parts <= user_total d user_id a c now <=
    parts + Z.of_nat (length (filter (λ r, Reservation.start_at r < b < Reservation.end_at r) (counted_rows d user_id))).
Proof.
  intros Hab Hbc Hnow Hall parts. unfold parts. rewrite !user_total_shares, <- total_count, <- !total_add.
  split; apply total_le; intros r Hr; by apply (share_split a b c now r Hab Hbc Hnow), Hall.
Qed.

(** ** The pages *)

(** Every booking has its server, its account and its card. *)
Definition joined (d : Db) (r : Reservation.t) : Prop :=
  is_Some (with_server d r) ∧ is_Some (with_account d r).

Lemma with_server_row d r : is_Some (with_server d r) → ∃ q, with_server d r = Some (q, r).
Proof. unfold with_server. intros [x H]. destruct (servers d !! _); [|done]. simpl. eauto. Qed.

Lemma with_account_row d r : is_Some (with_account d r) → ∃ q, with_account d r = Some (q, r).
Proof.
  unfold with_account. intros [x H]. destruct (account_links d !! _); [|done]. simpl in *.
  destruct (physical_accounts d !! _); [|done]. simpl in *. destruct (servers d !! _); [|done]. simpl. eauto.
Qed.

(** C33: The monthly summary, of a month that has begun, for a user whose
    counted bookings have their servers and accounts and have begun.  The month
    is the half-open span of its days.  The hours are those of the seconds of
    these bookings inside the month and in the past; the breakdown per server
    has one entry per server, the one per account one per account and host, and
    each adds up to these seconds. *)
Theorem monthly_usage_spec d user_id y m now month_start month_end :
  month_boundaries y m = Some (month_start, month_end) →
  (∀ r, r ∈ counted_rows d user_id → joined d r ∧ begun now r) → month_start <= now →
  let u := month_usage d user_id month_start month_end now in
  let secs := user_total d user_id month_start month_end now in
  month_end = month_start + days (days_in_month y m) ∧
  secs = Zsum ((λ r, instants month_start (Z.to_nat (month_end - month_start))
                       (λ t, used_at month_start month_end now t r) / 1000000)
                 <$> of_user d user_id (counted month_start month_end)) ∧
  gpu_hours_used u = py_round 2 (hours_of secs) ∧
  ∃ per_server per_account,
    by_server u = (λ g, (g.1, hours_of g.2)) <$> per_server ∧ NoDup per_server.*1 ∧ Zsum per_server.*2 = secs ∧
    by_pa u = (λ g, (g.1, hours_of g.2)) <$> per_account ∧ NoDup per_account.*1 ∧ Zsum per_account.*2 = secs.
Proof.
  intros Hm Hall Hnow u secs.
  assert (Hend : month_end = month_start + days (days_in_month y m)).
  { rewrite month_boundaries_spec in Hm. destruct (_ && _); [|done]. by injection Hm as <- <-. }
  assert (Hpos : 0 <= days_in_month y m).
  { unfold days_in_month. repeat case_bool_decide; destruct (is_leap y); lia. }
  assert (Hin : ∀ r, r ∈ of_user d user_id (counted month_start month_end) →
            r ∈ counted_rows d user_id ∧ touches month_start month_end r).
  { unfold of_user, counted_rows, counted. intros r [(H1 & H2 & H3) H4]%list_elem_of_filter. split; [|done].
    by apply list_elem_of_filter. }
  split; [done|]. split; [|split].
  - unfold secs, user_total. apply (total_ext _ (λ r, _)). intros r [Hr Ht]%Hin. destruct (Hall r Hr) as [_ Hb].
    apply windowed_seconds_instants; [done| |done|done]. rewrite Hend. unfold days, hours, minutes, seconds. lia.
  - unfold u, month_usage. by destruct (_governance_counts _ _ _ _).
  - exists (server_seconds d month_start month_end now (of_user d user_id (counted month_start month_end))),
      (account_seconds d month_start month_end now (of_user d user_id (counted month_start month_end))).
    assert (Hu : by_server u = (λ g, (g.1, hours_of g.2)) <$> server_seconds d month_start month_end now
                   (of_user d user_id (counted month_start month_end)) ∧
                 by_pa u = (λ g, (g.1, hours_of g.2)) <$> account_seconds d month_start month_end now
                   (of_user d user_id (counted month_start month_end)))
      by (unfold u, month_usage; by destruct (_governance_counts _ _ _ _)).
    destruct Hu as [-> ->]. split; [done|]. split; [apply per_group_keys|]. split; [|split; [done|]].
    + apply per_group_total. intros r [Hr _]%Hin. by apply with_server_row, Hall.
    + split; [apply per_group_keys|]. apply per_group_total. intros r [Hr _]%Hin. by apply with_account_row, Hall.
Qed.

(** A card in exclusive use is never shown to be used for longer than the
    window that has passed: the seconds on its page are those between the
    window's start and its end, at most, and the shares of the users add up
    to them. *)
Theorem card_usage_bounded d gpu_id range_ now :
  let '(ws, we) := _range_window range_ now in
  let rs := on_card d gpu_id (counted ws we) in
  alone rs → (∀ r, r ∈ rs → begun now r ∧ is_Some (users d !! Reservation.user_id r)) →
  ∃ secs per_user,
    gu_total_hours (card_usage d gpu_id ws we now) = py_round 2 (hours_of secs) ∧
    gu_by_user (card_usage d gpu_id ws we now) = (λ g, (g.1, rounded_hours g.2)) <$> per_user ∧
    NoDup per_user.*1 ∧ Zsum per_user.*2 = secs ∧ secs <= (we - ws) / 1000000.
Proof.
  destruct (_range_window range_ now) as [ws we] eqn:Hw. intros rs Ha Hall.
  assert (Hws : ws <= now ∧ ws <= we).
  { destruct range_; injection Hw as <- <-; unfold days, hours, minutes, seconds; Z.div_mod_to_equations; lia. }
  exists (total (windowed_seconds ws we now) rs), (order_by_desc snd (user_seconds d ws we now rs)).
  split; [done|]. split; [done|].
  assert (Hp : order_by_desc snd (user_seconds d ws we now rs) ≡ₚ user_seconds d ws we now rs)
    by apply merge_sort_Permutation.
  split; [by rewrite Hp; apply per_group_keys|]. split.
  - rewrite Hp. apply per_group_total. intros r Hr. destruct (Hall r Hr) as [_ [user Hu]].
    unfold with_user. rewrite Hu. simpl. eauto.
  - etrans; [apply alone_total; [apply Hws|apply Hws|done|]|].
    + intros r Hr. split; [by apply Hall|]. unfold rs, on_card, counted in Hr.
      apply list_elem_of_filter in Hr. tauto.
    + unfold timestampdiff. rewrite Z.quot_div_nonneg by lia. done.
Qed.

(** ** Closed instances *)

(** Instants of June 2026, by day and hour. *)
Definition june : Z := days (days_before_year 2026 + days_before_month 2026 6 - 719162).
Definition at_june (day hour : Z) : Z := june + days (day - 1) + hours hour.

Definition ran (id gpu start_at end_at : Z) : Reservation.t :=
  sample_reservation id gpu start_at end_at None <| Reservation.status := STATUS_COMPLETED |>.

(** Alice ran over the turn of the month, and twice on another card. *)
Definition usage_db : Db :=
  sample_db [ ran 100 1 (june - hours 2) (june + hours 3); ran 101 2 (at_june 2 0) (at_june 2 10) ;
              ran 102 2 (at_june 2 10) (at_june 2 12) ].

#[export] Instance begun_dec now r : Decision (begun now r).
Proof. unfold begun. apply _. Defined.
#[export] Instance joined_dec d r : Decision (joined d r).
Proof. unfold joined. apply _. Defined.

(** Two bookings one after the other. *)
Lemma alone_pair r1 r2 : Reservation.end_at r1 <= Reservation.start_at r2 ∨ Reservation.end_at r2 <= Reservation.start_at r1 →
  alone [r1; r2].
Proof.
  intros H i j x y t Hi Hj Hne.
  destruct i as [|[|i]], j as [|[|j]]; simpl in Hi, Hj; try done; injection Hi as <-; injection Hj as <-; lia.
Qed.

Lemma monthly_usage_spec_witness :
  let u := month_usage usage_db 10 june (june + days 30) (at_june 15 0) in
  month_boundaries 2026 6 = Some (june, june + days 30) ∧
  gpu_hours_used u = float_of_int 15 ∧
  ∃ per_server, by_server u = (λ g, (g.1, hours_of g.2)) <$> per_server ∧ Zsum per_server.*2 = 15 * 3600.
Proof.
  assert (Hm : month_boundaries 2026 6 = Some (june, june + days 30)) by by vm_compute.
  assert (Hall : ∀ r, r ∈ counted_rows usage_db 10 → joined usage_db r ∧ begun (at_june 15 0) r).
  { apply Forall_forall. apply (bool_decide_unpack _). by vm_compute. }
  destruct (monthly_usage_spec usage_db 10 2026 6 (at_june 15 0) _ _ Hm Hall ltac:(by vm_compute))
    as (_ & _ & Hg & per_server & _ & Hs & _ & Hsum & _).
  assert (Ht : user_total usage_db 10 june (june + days 30) (at_june 15 0) = 15 * 3600) by by vm_compute.
  cbn zeta. split; [done|]. split; [rewrite Hg, Ht; by vm_compute|]. exists per_server.
  refine (conj Hs _). rewrite Hsum. exact Ht.
Defined.

Lemma usage_split_witness :
  user_total usage_db 10 (june - days 30) (june + days 30) (at_june 15 0) = 17 * 3600 ∧
  user_total usage_db 10 (june - days 30) june (at_june 15 0) + user_total usage_db 10 june (june + days 30) (at_june 15 0)
    <= 17 * 3600.
Proof.
  assert (Ht : user_total usage_db 10 (june - days 30) (june + days 30) (at_june 15 0) = 17 * 3600) by by vm_compute.
  split; [done|]. rewrite <- Ht.
  refine (proj1 (usage_split usage_db 10 (june - days 30) june (june + days 30) (at_june 15 0) _ _ _ _)).
  - by vm_compute.
  - by vm_compute.
  - by vm_compute.
  - apply Forall_forall. apply (bool_decide_unpack _). by vm_compute.
Defined.

Lemma june_pair : ∃ r1 r2, on_card usage_db 2 (counted (at_june 1 0) (at_june 8 0)) = [r1; r2] ∧
  (Reservation.end_at r1 <= Reservation.start_at r2 ∨ Reservation.end_at r2 <= Reservation.start_at r1).
Proof.
  destruct (on_card usage_db 2 (counted (at_june 1 0) (at_june 8 0))) as [|r1 [|r2 [|r3 l]]] eqn:He;
    vm_compute in He; try discriminate. injection He as <- <-. do 2 eexists. split; [done|]. vm_compute. by left + by right.
Qed.

Lemma card_usage_bounded_witness :
  gu_total_hours (card_usage usage_db 2 (at_june 1 0) (at_june 8 0) (at_june 8 0)) = float_of_int 12 ∧
  ∃ (secs : Z) (per_user : list (Z * string * Z)),
    float_of_int 12 = py_round 2 (hours_of secs) ∧ Zsum per_user.*2 = secs ∧ secs <= 7 * 24 * 3600.
Proof.
  split; [by vm_compute|].
  destruct (card_usage_bounded usage_db 2 last_7d (at_june 8 0)) as (secs & per_user & Ht & _ & _ & Hsum & Hle).
  - destruct june_pair as (r1 & r2 & He & Hr). refine (eq_ind_r alone _ He). by apply alone_pair.
  - apply Forall_forall. apply (bool_decide_unpack _). by vm_compute.
  - exists secs, per_user. split; [|split; [done|exact Hle]]. rewrite <- Ht. by vm_compute.
Defined.

(** Hours are counted up to now even for a booking that has not begun: the
    "upcoming" list of a user's page shows minus a day for tomorrow's. *)
Example upcoming_hours_negative :
  ri_hours <$> user_reservations_window (sample_db [sample_reservation 100 1 (at_june 3 0) (at_june 3 5) None]) 10
                 (at_june 2 0) (at_june 2 0 + days 60) (at_june 2 0) = [float_of_int (- 24)].
Proof. by vm_compute. Qed.

(** And the summary of a month to come is negative for a booking that runs
    into it. *)
Example next_month_negative :
  gpu_hours_used (month_usage
    (sample_db [ran 100 1 (june - hours 2) (june + hours 3) <| Reservation.status := STATUS_ACTIVE |>]) 10
    june (june + days 30) (june - hours 1)) = float_of_int (- 1).
Proof. by vm_compute. Qed.

(** The pattern lets a year pass that the calendar has not. *)
Definition ascii_digit (c : N) : option Z := if between 48 57 c then Some (Z.of_N c - 48) else None.

Example year_zero_raises :
  read_month ascii_digit (u "0000-01") = Some (0, 1) ∧ month_boundaries 0 1 = None ∧
  read_month ascii_digit (u "9999-12") = Some (9999, 12) ∧ month_boundaries 9999 12 = None.
Proof. split_and!; by vm_compute. Qed.
