(* ===== verification/ScheduleRecommender.v ===== *)
(** The earliest free window for a number of cards
    ([backend/corelab_backend/services/schedule_recommender.py]).

    [after] is the instant the caller wrote, its zone dropped as the code
    drops it. *)

From S2P Require Import Prelude Models SessionLayer ReservationService.

Definition HORIZON_DAYS : Z := 7.
Definition DEFAULT_TOP_K : Z := 3.

Record Candidate : Type := mkCandidate {
  server_id : Z ;
  gpu_ids : list Z ;
  start_at : Z ;
  end_at : Z }.

(** [busy_by_gpu]: half-open intervals. *)
Definition Busy : Type := gmap Z (list (Z * Z)).

Definition busy_of (busy : Busy) (gpu_id : Z) : list (Z * Z) := default [] (busy !! gpu_id).

(** [b_start <= t < b_end] *)
Definition within (t : Z) (b : Z * Z) : bool := bool_decide (b.1 <= t) && bool_decide (t < b.2).

Definition busy_at (busy : Busy) (t gpu_id : Z) : bool := existsb (within t) (busy_of busy gpu_id).

(** Stops at the [n]-th. *)
Fixpoint pick (picked : list Z) (gids : list Z) (n : Z) (busy : Busy) (at_time : Z) : list Z :=
  match gids with
  | [] => picked
  | g :: gids =>
      if busy_at busy at_time g then pick picked gids n busy at_time
      else
        let picked := picked ++ [g] in
        if bool_decide (Z.of_nat (length picked) = n) then picked else pick picked gids n busy at_time
  end.

Definition _pick_first_n (gids : list Z) (n : Z) (busy : Busy) (at_time : Z) : list Z :=
  pick [] gids n busy at_time.

(** ** The sweep *)

(** Time, -1 on leaving the free set or +1 on entering it, card. *)
Record event : Type := mkEvent { ev_time : Z ; ev_delta : Z ; ev_gpu : Z }.

Definition event_le (e e' : event) : Prop :=
  ev_time e < ev_time e' ∨ ev_time e = ev_time e' ∧ ev_delta e <= ev_delta e'.
#[export] Instance event_le_dec : RelDecision event_le.
Proof. intros e e'. unfold event_le. apply _. Defined.

Definition gpu_events (busy : Busy) (g : Z) : list event :=
  concat ((λ b, [mkEvent b.1 (-1) g; mkEvent b.2 1 g]) <$> busy_of busy g).

Definition events (busy : Busy) (gids : list Z) : list event :=
  merge_sort event_le (concat (gpu_events busy <$> gids)).

(** [free_set] before the first event. *)
Definition free_initially (busy : Busy) (gids : list Z) (window_start : Z) : gset Z :=
  foldl (λ free g, if busy_at busy window_start g then free ∖ {[g]} else free) (list_to_set gids) gids.

Definition apply_event (free : gset Z) (e : event) : gset Z :=
  if bool_decide (ev_delta e = -1) then free ∖ {[ev_gpu e]} else {[ev_gpu e]} ∪ free.

Definition enough (gpu_count : Z) (free : gset Z) : bool := bool_decide (gpu_count <= Z.of_nat (size free)).

(** The loop: the start of a span that lasted, or [candidate_start] at its
    end. *)
Fixpoint sweep (gpu_count duration window_end : Z) (free : gset Z) (candidate_start : option Z)
    (evs : list event) : Z + option Z :=
  match evs with
  | [] => inr candidate_start
  | e :: evs =>
      let free := apply_event free e in
      let continue cs :=
        if bool_decide (window_end <= ev_time e) then inr cs
        else sweep gpu_count duration window_end free cs evs in
      match candidate_start with
      | None => continue (if enough gpu_count free then Some (ev_time e) else None)
      | Some c =>
          if enough gpu_count free then continue (Some c)
          else if bool_decide (duration <= ev_time e - c) then inl c
          else continue None
      end
  end.

(** The span that lasted until it was closed, or until the horizon. *)
Definition span_start (swept : Z + option Z) (window_end duration : Z) : option Z :=
  match swept with
  | inl c => Some c
  | inr (Some c) => if bool_decide (duration <= window_end - c) then Some c else None
  | inr None => None
  end.

Definition _earliest_window_for_server (gids : list Z) (busy : Busy) (window_start window_end gpu_count duration : Z) :
    option (list Z * Z * Z) :=
  let free := free_initially busy gids window_start in
  let candidate_start := if enough gpu_count free then Some window_start else None in
  (λ c, (_pick_first_n gids gpu_count busy c, c, c + duration)) <$>
    span_start (sweep gpu_count duration window_end free candidate_start (events busy gids)) window_end duration.

(** ** The query *)

(** [d.setdefault(k, []).append(v)]: insertion order. *)
Fixpoint append_to {V} (k : Z) (v : V) (d : list (Z * list V)) : list (Z * list V) :=
  match d with
  | [] => [(k, [v])]
  | (k', vs) :: d => if bool_decide (k' = k) then (k', vs ++ [v]) :: d else (k', vs) :: append_to k v d
  end.

Definition gpu_le (a b : Gpu.t) : Prop :=
  Gpu.server_id a < Gpu.server_id b ∨
  Gpu.server_id a = Gpu.server_id b ∧ Gpu.gpu_index a <= Gpu.gpu_index b.
#[export] Instance gpu_le_dec : RelDecision gpu_le.
Proof. intros a b. unfold gpu_le. apply _. Defined.

(** The active cards of the lab's active servers. *)
Definition lab_gpus (d : Db) (lab_id : Z) : list Gpu.t :=
  merge_sort gpu_le
    (filter (λ g, Gpu.is_active g = 1 ∧
       (match servers d !! Gpu.server_id g with
        | Some sv => bool_decide (Server.lab_id sv = lab_id) && bool_decide (Server.is_active sv = 1) &&
                     bool_decide (Server.status sv ∈ ["online"; "offline"]%string)
        | None => false
        end) = true) (rows (gpus d))).

Definition gpus_by_server (d : Db) (lab_id : Z) : list (Z * list Z) :=
  foldl (λ acc g, append_to (Gpu.server_id g) (Gpu.id g) acc) [] (lab_gpus d lab_id).

Definition booking_le (a b : Z * Reservation.t) : Prop :=
  a.1 < b.1 ∨ a.1 = b.1 ∧ Reservation.start_at a.2 <= Reservation.start_at b.2.
#[export] Instance booking_le_dec : RelDecision booking_le.
Proof. intros a b. unfold booking_le. apply _. Defined.

(** The bookings of these cards that meet the search window, with the card. *)
Definition busy_rows (d : Db) (gids : list Z) (search_start horizon_end : Z) : list (Z * Reservation.t) :=
  merge_sort booking_le
    (omap (λ r, g ← Reservation.gpu_id r ;
                if bool_decide (g ∈ gids) && bool_decide (Reservation.status r ∈ ACTIVE_STATUSES) &&
                   bool_decide (Reservation.start_at r < horizon_end) &&
                   bool_decide (search_start < Reservation.end_at r)
                then Some (g, r) else None) (rows (reservations d))).

(** Clipped to the search window. *)
Definition clip (search_start horizon_end : Z) (r : Reservation.t) : Z * Z :=
  (Z.max (Reservation.start_at r) search_start, Z.min (Reservation.end_at r) horizon_end).

Definition busy_by_gpu (d : Db) (gids : list Z) (search_start horizon_end : Z) : Busy :=
  foldl (λ acc p, <[p.1 := busy_of acc p.1 ++ [clip search_start horizon_end p.2]]> acc) ∅
    (busy_rows d gids search_start horizon_end).

Definition recommend (lab_id gpu_count time_limit_seconds : Z) (after : option Z) (top_k : Z) : M (list Candidate) :=
  raise_if (bool_decide (gpu_count < 1)) ValueError ;;
  raise_if (bool_decide (time_limit_seconds < 60)) ValueError ;;
  now ← utcnow ;
  let search_start := Z.max (default now after) now in
  let horizon_end := search_start + days HORIZON_DAYS in
  let duration := seconds time_limit_seconds in
  by_server ← gets (λ s, gpus_by_server (db s) lab_id) ;
  let eligible := filter (λ p, gpu_count <= Z.of_nat (length p.2)) by_server in
  if bool_decide (eligible = []) then mret []
  else
    busy ← gets (λ s, busy_by_gpu (db s) (concat eligible.*2) search_start horizon_end) ;
    let candidates := omap (λ p,
      '(gids, b, e) ← _earliest_window_for_server p.2 busy search_start horizon_end gpu_count duration ;
      Some (mkCandidate p.1 gids b e)) eligible in
    mret (take (Z.to_nat top_k) (order_by start_at candidates)).

(** ** The endpoint *)

Record RecommendRequest : Type := mkRecommend {
  rr_gpu_count : Z ;
  rr_time_limit_seconds : Z ;
  rr_after : option Z ;
  rr_top_k : Z }.

(** The bounds of the fields. *)
Definition recommend_valid (p : RecommendRequest) : bool :=
  bool_decide (1 <= rr_gpu_count p <= 8) && bool_decide (60 <= rr_time_limit_seconds p <= 86400) &&
  bool_decide (1 <= rr_top_k p <= 10).

Definition recommend_reservation (p : RecommendRequest) (lab_id : Z) : M (list Candidate) :=
  raise_if (negb (recommend_valid p)) (HTTPException 422 "validation error") ;;
  try_except (recommend lab_id (rr_gpu_count p) (rr_time_limit_seconds p) (rr_after p) (rr_top_k p))
    (λ e, match e with ValueError => raise (HTTPException 422 "ValueError") | _ => raise e end).
