(* ===== verification/RecommenderProperties.v ===== *)
(** What the recommender promises: the sweep over the events of a server
    meets a specification by instants, and what that is worth
    ([services/schedule_recommender.py]). *)

From S2P Require Import Prelude Models SessionLayer ReservationService Samples.
From S2P Require Import ScheduleRecommender.

Lemma elem_of_concat {A} (x : A) ls : x ∈ concat ls ↔ ∃ l, x ∈ l ∧ l ∈ ls.
Proof.
  rewrite list_elem_of_In, in_concat. setoid_rewrite list_elem_of_In. naive_solver.
Qed.

(** ** The loop, for any events *)

Section loop.
Context (gpu_count duration window_end : Z).
Context (Hduration : 0 < duration).

Notation en := (enough gpu_count).

(** Enough cards after every event before [b]. *)
Fixpoint runs_to (free : gset Z) (evs : list event) (b : Z) : Prop :=
  match evs with
  | [] => True
  | e :: evs => (ev_time e < b → en (apply_event free e) = true) ∧ runs_to (apply_event free e) evs b
  end.

(** The window [[a, b)] when [free] is what is left of the events so far. *)
Fixpoint good (free : gset Z) (evs : list event) (a b : Z) : Prop :=
  match evs with
  | [] => en free = true
  | e :: evs' => if bool_decide (ev_time e <= a) then good (apply_event free e) evs' a b
                 else en free = true ∧ runs_to free evs b
  end.

Definition before (e e' : event) : Prop := ev_time e <= ev_time e'.

Definition upcoming (t : Z) (evs : list event) : Prop :=
  StronglySorted before evs ∧ ∀ e, e ∈ evs → t <= ev_time e <= window_end.

Lemma upcoming_cons t e evs : upcoming t (e :: evs) → t <= ev_time e <= window_end ∧ upcoming (ev_time e) evs.
Proof using Type.
  intros [Hs Hall]. apply StronglySorted_inv in Hs as [Hs Hle]. split; [apply Hall; left|]. split; [done|].
  intros e' He'. rewrite Forall_forall in Hle. specialize (Hle e' He'). split; [exact Hle|]. apply Hall. by right.
Qed.

Lemma runs_to_late free evs b t : upcoming t evs → b <= t → runs_to free evs b.
Proof using Type.
  revert free t. induction evs as [|e evs IH]; intros free t Hup Hb; [done|].
  apply upcoming_cons in Hup as [Ht Hup]. split; [lia|]. eapply IH; [done|lia].
Qed.

Lemma runs_to_good free evs a b :
  en free = true → runs_to free evs b → a < b → good free evs a b.
Proof using Type.
  revert free. induction evs as [|e evs IH]; intros free Hen Hr Hab; [done|].
  simpl. case_bool_decide; [|done]. destruct Hr as [He Hr]. apply IH; [apply He; lia|done..].
Qed.

(** An open span does not last. *)
Definition lost (cand : option Z) (free : gset Z) (evs : list event) : Prop :=
  ∀ c, cand = Some c → ¬ (runs_to free evs (c + duration) ∧ c + duration <= window_end).

Definition none_from (t : Z) (free : gset Z) (evs : list event) : Prop :=
  ∀ a, t <= a → a + duration <= window_end → ¬ good free evs a (a + duration).

(** The open span, or the first good window from [t] on. *)
Definition first_good (t : Z) (cand : option Z) (free : gset Z) (evs : list event) (r : option Z) : Prop :=
  match r with
  | Some c =>
      (cand = Some c ∧ runs_to free evs (c + duration) ∧ c + duration <= window_end) ∨
      (lost cand free evs ∧ t <= c ∧ c + duration <= window_end ∧ good free evs c (c + duration) ∧
       ∀ a, t <= a < c → ¬ good free evs a (a + duration))
  | None => lost cand free evs ∧ none_from t free evs
  end.

Definition tracked (t : Z) (cand : option Z) (free : gset Z) : Prop :=
  match cand with Some c => en free = true ∧ c <= t | None => en free = false end.

(** A window that starts between two events. *)
Lemma good_between e evs free a b :
  a < ev_time e → good free (e :: evs) a b ↔ en free = true ∧ runs_to free (e :: evs) b.
Proof using Type. intros Ha. simpl. rewrite bool_decide_false by lia. done. Qed.

Lemma good_after e evs free a b :
  ev_time e <= a → good free (e :: evs) a b ↔ good (apply_event free e) evs a b.
Proof using Type. intros Ha. simpl. by rewrite bool_decide_true by lia. Qed.

(** One event, the loop going on. *)
Lemma first_good_cons t e evs free cand cand' r :
  t <= ev_time e → tracked t cand free →
  (cand' = cand ∨ cand = None ∧ cand' = Some (ev_time e) ∨ cand' = None ∧ lost cand free (e :: evs)) →
  (cand' = None → en (apply_event free e) = false) → (cand' ≠ None → en (apply_event free e) = true) →
  first_good (ev_time e) cand' (apply_event free e) evs r → first_good t cand free (e :: evs) r.
Proof using Hduration.
  intros Ht Htr Hcand Hdown Hup H.
  (* windows that start before the event *)
  assert (Hearly : lost cand free (e :: evs) → ∀ a, t <= a < ev_time e → a + duration <= window_end →
    ¬ good free (e :: evs) a (a + duration)).
  { intros Hlost a Ha Hend. rewrite good_between by lia. intros [Hen Hr]. destruct cand as [c|]; simpl in Htr; [|congruence].
    destruct Htr as [_ Hc]. apply (Hlost c eq_refl). split; [|lia].
    revert Hr. generalize (e :: evs) free. clear -Hc Ha. intros evs free. revert free.
    induction evs as [|e' evs IH]; intros free; [done|]. intros [H1 H2]. split; [intros Hlt; apply H1; lia|by apply IH]. }
  assert (Hlost : lost cand' (apply_event free e) evs → lost cand free (e :: evs)).
  { intros Hl. destruct Hcand as [->|[[-> ->]|[-> Hl']]]; [|by intros ?|done].
    intros c -> [[_ Hr] Hend]. by apply (Hl c). }
  destruct r as [c|].
  - destruct H as [(-> & Hr & Hend)|(Hl & Hc & Hend & Hg & Hmin)].
    + destruct Hcand as [<-|[[-> [= ->]]|[? _]]]; [| |done].
      * left. split; [done|]. split; [|done]. split; [intros _; by apply Hup|done].
      * right. split; [by intros ?|]. split; [done|]. split; [done|]. split.
        -- apply good_after; [lia|]. apply runs_to_good; [by apply Hup|done|lia].
        -- intros a Ha. apply Hearly; [by intros ?|done|lia].
    + right. apply Hlost in Hl. split; [done|]. split; [lia|]. split; [done|]. split; [by apply good_after|].
      intros a Ha. destruct (decide (a < ev_time e)); [apply Hearly; [done|lia|lia]|].
      rewrite good_after by lia. apply Hmin. lia.
  - destruct H as [Hl Hnone]. apply Hlost in Hl. split; [done|]. intros a Ha Hend.
    destruct (decide (a < ev_time e)); [apply Hearly; [done|lia|lia]|]. rewrite good_after by lia. apply Hnone; lia.
Qed.

Lemma first_good_end t cand free evs :
  t <= window_end → upcoming t evs → (evs = [] ∨ t = window_end) → tracked t cand free →
  first_good t cand free evs (span_start (inr cand) window_end duration).
Proof using Hduration.
  intros Hwe Hup Hor Htr.
  assert (Hnone : (∀ c, cand = Some c → window_end < c + duration) → none_from t free evs).
  { intros Hc a Ha Hend Hg. destruct Hor as [->| ->]; [|lia]. simpl in Hg. destruct cand as [c|]; simpl in Htr; [|congruence].
    specialize (Hc c eq_refl). lia. }
  destruct cand as [c|]; simpl; [case_bool_decide|].
  - left. split; [done|]. split; [|lia]. destruct Hor as [->|He]; [done|]. eapply runs_to_late; [done|lia].
  - split; [intros ? [= <-] [_ ?]; lia|]. apply Hnone. intros ? [= <-]. lia.
  - split; [by intros ?|]. by apply Hnone.
Qed.

Lemma sweep_first_good t cand free evs :
  t <= window_end → upcoming t evs → tracked t cand free →
  first_good t cand free evs
    (span_start (sweep gpu_count duration window_end free cand evs) window_end duration).
Proof using Hduration.
  revert t cand free. induction evs as [|e evs IH]; intros t cand free Hwe Hup Htr.
  - apply first_good_end; auto.
  - pose proof Hup as Hall. apply upcoming_cons in Hup as [[Ht Hle] Hup]. simpl. set (free' := apply_event free e).
    assert (Hcont : ∀ cs, tracked (ev_time e) cs free' → first_good (ev_time e) cs free' evs
      (span_start (if bool_decide (window_end <= ev_time e) then inr cs
                   else sweep gpu_count duration window_end free' cs evs) window_end duration)).
    { intros cs Hcs. case_bool_decide; [|by apply IH]. apply first_good_end; [done..| |done]. right. lia. }
    destruct cand as [c|]; simpl in Htr.
    + destruct Htr as [Hen Hc]. destruct (enough gpu_count free') eqn:Hen'.
      * eapply first_good_cons with (cand' := Some c); [done|done|by left|done|done|]. apply Hcont. split; [done|lia].
      * destruct (bool_decide_reflect (duration <= ev_time e - c)) as [Hlast|Hlast]; simpl.
        -- left. split; [done|]. split; [|lia]. change (runs_to free (e :: evs) (c + duration)).
           split; [intros; lia|]. eapply runs_to_late; [done|lia].
        -- eapply first_good_cons with (cand' := None); [done|done| |done|done|by apply Hcont].
           right. right. split; [done|]. intros c' [= <-] [[He _] _]. fold free' in He. rewrite Hen' in He.
           specialize (He ltac:(lia)). done.
    + destruct (enough gpu_count free') eqn:Hen'.
      * eapply first_good_cons with (cand' := Some (ev_time e)); [done|done|right; by left|done|done|].
        apply Hcont. split; [done|lia].
      * eapply first_good_cons with (cand' := None); [done|done|by left|done|done|by apply Hcont].
Qed.

(** From the start: the first good window there is. *)
Lemma sweep_spec t free evs :
  t <= window_end → upcoming t evs →
  match span_start (sweep gpu_count duration window_end free (if en free then Some t else None) evs)
          window_end duration with
  | Some c => t <= c ∧ c + duration <= window_end ∧ good free evs c (c + duration) ∧
              ∀ a, t <= a < c → ¬ good free evs a (a + duration)
  | None => none_from t free evs
  end.
Proof using Hduration.
  intros Hwe Hup.
  assert (Htr : tracked t (if en free then Some t else None) free) by (destruct (en free) eqn:He; simpl; [split; [done|lia]|done]).
  pose proof (sweep_first_good t _ free evs Hwe Hup Htr) as H. destruct (span_start _ _ _) as [c|].
  - destruct H as [(Hc & Hr & Hend)|(_ & H)]; [|exact H]. destruct (en free) eqn:Hen; [|done]. injection Hc as ->.
    split; [lia|]. split; [done|]. split; [apply runs_to_good; [done..|lia]|lia].
  - apply H.
Qed.
End loop.

(** ** Prefixes of the events *)

Definition after (free : gset Z) (evs : list event) : gset Z := foldl apply_event free evs.

Lemma after_snoc free p e : after free (p ++ [e]) = apply_event (after free p) e.
Proof. unfold after. by rewrite foldl_app. Qed.

Lemma runs_to_prefixes n free evs b :
  runs_to n free evs b ↔
  ∀ p e s, evs = p ++ e :: s → ev_time e < b → enough n (after free (p ++ [e])) = true.
Proof.
  revert free. induction evs as [|e evs IH]; intros free; simpl.
  - split; [|done]. intros _ p e s H. by destruct p.
  - rewrite IH. split.
    + intros [He Hr] [|e' p] e1 s [= -> ->] Hb; [by apply He|]. by apply (Hr p e1 s).
    + intros H. split; [intros Hb; by apply (H [] e evs)|]. intros p e1 s -> Hb. by apply (H (e :: p) e1 s).
Qed.

(** The events are split where the window starts. *)
Lemma good_split n free evs a b :
  StronglySorted before evs →
  ∃ p s, evs = p ++ s ∧ (∀ e, e ∈ p → ev_time e <= a) ∧ (∀ e, e ∈ s → a < ev_time e) ∧
    (good n free evs a b ↔ enough n (after free p) = true ∧ runs_to n (after free p) s b).
Proof.
  revert free. induction evs as [|e evs IH]; intros free Hs.
  - exists [], []. split; [done|]. split; [set_solver|]. split; [set_solver|]. simpl. tauto.
  - apply StronglySorted_inv in Hs as [Hs Hle]. simpl. case_bool_decide as Hea.
    + destruct (IH (apply_event free e) Hs) as (p & s & -> & Hp & Hs' & Hg).
      exists (e :: p), s. split; [done|]. split; [set_solver|]. split; [done|]. exact Hg.
    + exists [], (e :: evs). split; [done|]. split; [set_solver|]. split; [|done].
      intros e' [->|He']%elem_of_cons; [lia|]. rewrite Forall_forall in Hle. specialize (Hle e' He').
      unfold before in Hle. lia.
Qed.

(** ** The specification, by instants *)

Section instants.
Context (gids : list Z) (busy : Busy) (window_start window_end gpu_count duration : Z).

(** The card is in no booking at [t]; [t] is not even the end of one. *)
Definition free_at (t g : Z) : bool := negb (busy_at busy t g).
Definition clear_at (t g : Z) : bool :=
  negb (existsb (λ b, bool_decide (b.1 <= t) && bool_decide (t <= b.2)) (busy_of busy g)).

Definition count (p : Z → bool) : Z := Z.of_nat (length (filter (λ g, p g = true) gids)).

(** A window of [duration] from [a]: enough cards free when it starts, and
    enough at every instant of it, cards that change hands at that instant
    not counted. *)
Definition fits (a : Z) : Prop :=
  window_start <= a ∧ a + duration <= window_end ∧ gpu_count <= count (free_at a) ∧
  ∀ t, a < t < a + duration → gpu_count <= count (clear_at t).

(** Cards are listed once; the bookings of one neither overlap nor touch. *)
Definition separated : Prop :=
  NoDup gids ∧
  ∀ g b, g ∈ gids → b ∈ busy_of busy g →
    window_start <= b.1 ∧ b.1 < b.2 ∧ b.2 <= window_end ∧
    ∀ b', b' ∈ busy_of busy g → b' = b ∨ b'.2 < b.1 ∨ b.2 < b'.1.

Lemma busy_at_spec t g : busy_at busy t g = true ↔ ∃ b, b ∈ busy_of busy g ∧ b.1 <= t < b.2.
Proof using Type.
  unfold busy_at, within. rewrite existsb_exists. split.
  - intros (b & Hin & H). exists b. rewrite list_elem_of_In, andb_true_iff, !bool_decide_eq_true in *. tauto.
  - intros (b & Hin & H). exists b. rewrite <- list_elem_of_In, andb_true_iff, !bool_decide_eq_true. tauto.
Qed.

Lemma free_at_spec t g : free_at t g = true ↔ ∀ b, b ∈ busy_of busy g → t < b.1 ∨ b.2 <= t.
Proof using Type.
  unfold free_at. rewrite negb_true_iff, <- not_true_iff_false, busy_at_spec. split.
  - intros H b Hb. destruct (decide (t < b.1 ∨ b.2 <= t)); [done|]. exfalso. apply H. exists b. split; [done|lia].
  - intros H (b & Hb & Hin). destruct (H b Hb); lia.
Qed.

Lemma clear_at_spec t g : clear_at t g = true ↔ ∀ b, b ∈ busy_of busy g → t < b.1 ∨ b.2 < t.
Proof using Type.
  unfold clear_at. rewrite negb_true_iff, <- not_true_iff_false, existsb_exists. split.
  - intros H b Hb. destruct (decide (t < b.1 ∨ b.2 < t)); [done|]. exfalso. apply H. exists b.
    rewrite <- list_elem_of_In, andb_true_iff, !bool_decide_eq_true. split; [done|lia].
  - intros H (b & Hb & Hin). rewrite andb_true_iff, !bool_decide_eq_true in Hin.
    apply list_elem_of_In in Hb. destruct (H b Hb); lia.
Qed.

Definition start_of (g : Z) (b : Z * Z) : event := mkEvent b.1 (-1) g.
Definition end_of (g : Z) (b : Z * Z) : event := mkEvent b.2 1 g.

Lemma elem_of_events e :
  e ∈ events busy gids ↔ ∃ g b, g ∈ gids ∧ b ∈ busy_of busy g ∧ (e = start_of g b ∨ e = end_of g b).
Proof using Type.
  unfold events. rewrite merge_sort_Permutation, elem_of_concat.
  split.
  - intros (l & Hin & (g & -> & Hg)%list_elem_of_fmap). unfold gpu_events in Hin.
    apply elem_of_concat in Hin as (l' & He & (b & -> & Hb)%list_elem_of_fmap).
    exists g, b. rewrite !elem_of_cons, elem_of_nil in He. unfold start_of, end_of. tauto.
  - intros (g & b & Hg & Hb & He). exists (gpu_events busy g). split; [|by apply list_elem_of_fmap_2].
    unfold gpu_events. apply elem_of_concat. eexists. split; [|by apply list_elem_of_fmap_2].
    simpl. unfold start_of, end_of in He. set_solver.
Qed.

Lemma events_sorted : StronglySorted event_le (events busy gids).
Proof using Type.
  unfold events. apply StronglySorted_merge_sort; [|].
  - intros [t d g] [t' d' g'] [t2 d2 g2]. unfold event_le. simpl. lia.
  - intros [t d g] [t' d' g']. unfold event_le. simpl. lia.
Qed.

(** A booking that has begun and not ended after the events [p]. *)
Definition open (p : list event) (g : Z) (b : Z * Z) : Prop :=
  (b.1 = window_start ∨ start_of g b ∈ p) ∧ end_of g b ∉ p.

Lemma free_initially_elem g :
  g ∈ free_initially busy gids window_start ↔ g ∈ gids ∧ busy_at busy window_start g = false.
Proof using Type.
  unfold free_initially. assert (H : ∀ gs (X : gset Z),
    g ∈ foldl (λ free g, if busy_at busy window_start g then free ∖ {[g]} else free) X gs ↔
    g ∈ X ∧ (g ∈ gs → busy_at busy window_start g = false)).
  { induction gs as [|g' gs IH]; intros X; simpl; [set_solver|]. rewrite IH.
    destruct (busy_at busy window_start g') eqn:Hb; [|set_solver].
    rewrite elem_of_difference, elem_of_singleton, elem_of_cons. destruct (decide (g = g')); [subst|tauto].
    rewrite Hb. naive_solver. }
  rewrite H, elem_of_list_to_set. tauto.
Qed.

Section link.
Context (Hsep : separated).

Lemma split_order p e s e' :
  events busy gids = p ++ e :: s → e' ∈ events busy gids → e' ∉ p → event_le e e'.
Proof using Type.
  intros Heq Hin Hp. pose proof events_sorted as Hs. rewrite Heq in Hs, Hin.
  apply StronglySorted_app in Hs as (_ & _ & Hs). apply StronglySorted_inv in Hs as [_ Hs].
  rewrite Forall_forall in Hs. apply elem_of_app in Hin as [Hin|[->|Hin]%elem_of_cons]; [done| |by apply Hs].
  unfold event_le. lia.
Qed.

Lemma prefix_order p e s e' : events busy gids = p ++ e :: s → e' ∈ p → event_le e' e.
Proof using Type.
  intros Heq Hp. pose proof events_sorted as Hs. rewrite Heq in Hs.
  apply StronglySorted_app in Hs as (Hs & _ & _). apply (Hs e' e Hp). left.
Qed.

(** After any events, the free set is the cards without an open booking. *)
Lemma free_set_spec p s g :
  events busy gids = p ++ s →
  g ∈ after (free_initially busy gids window_start) p ↔
  g ∈ gids ∧ ∀ b, b ∈ busy_of busy g → ¬ open p g b.
Proof using Hsep.
  destruct Hsep as [_ Hb]. revert s g. induction p as [|e p IH] using rev_ind; intros s g Heq.
  - unfold after. simpl. rewrite free_initially_elem. split; intros [Hg H]; (split; [done|]).
    + intros b Hin [[Hs|Hs] _]; [|by apply elem_of_nil in Hs]. apply not_true_iff_false in H. apply H, busy_at_spec.
      destruct (Hb g b Hg Hin) as (? & ? & _). exists b. split; [done|lia].
    + apply not_true_iff_false. rewrite busy_at_spec. intros (b & Hin & Hw).
      destruct (Hb g b Hg Hin) as (? & ? & _). apply (H b Hin). split; [left; lia|set_solver].
  - rewrite <- app_assoc in Heq. simpl in Heq. specialize (IH _ g Heq). rewrite after_snoc.
    assert (He : e ∈ events busy gids) by (rewrite Heq; set_solver).
    apply elem_of_events in He as (g0 & b0 & Hg0 & Hb0 & [->| ->]); unfold apply_event; simpl.
    + (* a booking begins *)
      rewrite elem_of_difference, elem_of_singleton, IH. split.
      * intros [[Hg H] Hne]. split; [done|]. intros b Hin [Hst Hen]. apply (H b Hin).
        split; [|set_solver]. destruct Hst as [?|[?|Heq']%elem_of_app]; [by left|by right|].
        apply list_elem_of_singleton in Heq' as [= _ Hg']. congruence.
      * intros [Hg H]. split; [split; [done|]|].
        -- intros b Hin [Hst Hen]. apply (H b Hin). split; [set_solver|].
           intros [?|Heq']%elem_of_app; [done|by apply list_elem_of_singleton in Heq'].
        -- intros ->. apply (H b0 Hb0). split; [right; set_solver|]. intros [Hp|Heq']%elem_of_app; [|by apply list_elem_of_singleton in Heq'].
           apply (prefix_order _ _ _ _ Heq) in Hp. destruct (Hb g0 b0 Hg0 Hb0) as (? & ? & _).
           unfold event_le in Hp. simpl in Hp. lia.
    + (* a booking ends *)
      rewrite elem_of_union, elem_of_singleton, IH. split.
      * intros [->|[Hg H]].
        -- split; [done|]. intros b Hin [Hst Hen].
           destruct (Hb g0 b0 Hg0 Hb0) as (? & ? & _ & Hdis). destruct (Hdis b Hin) as [->|[Hlt|Hlt]].
           ++ apply Hen. set_solver.
           ++ assert (Hle : event_le (end_of g0 b0) (end_of g0 b)).
              { apply (split_order _ _ _ _ Heq); [apply elem_of_events; eauto 6|set_solver]. }
              unfold event_le in Hle. simpl in Hle. lia.
           ++ destruct Hst as [Hst|[Hp|Heq']%elem_of_app]; [lia| |by apply list_elem_of_singleton in Heq'].
              apply (prefix_order _ _ _ _ Heq) in Hp. unfold event_le in Hp. simpl in Hp. lia.
        -- split; [done|]. intros b Hin [Hst Hen]. apply (H b Hin). split; [|set_solver].
           destruct Hst as [?|[?|Heq']%elem_of_app]; [by left|by right|by apply list_elem_of_singleton in Heq'].
      * intros [Hg H]. destruct (decide (g = g0)) as [|Hne]; [by left|right]. split; [done|].
        intros b Hin [Hst Hen]. apply (H b Hin). split; [set_solver|].
        intros [?|Heq']%elem_of_app; [done|apply list_elem_of_singleton in Heq' as [= _ Hg']; congruence].
Qed.

(** The number of cards of a set given by a test. *)
Lemma size_count (X : gset Z) p : (∀ g, g ∈ X ↔ g ∈ gids ∧ p g = true) → Z.of_nat (size X) = count p.
Proof using Hsep.
  intros HX. destruct Hsep as [Hnd _]. unfold count. f_equal.
  rewrite <- (size_list_to_set (C := gset Z)) by by apply NoDup_filter. f_equal. apply set_eq. intros g.
  rewrite HX, elem_of_list_to_set, list_elem_of_filter. tauto.
Qed.

Lemma count_le p q : (∀ g, g ∈ gids → p g = true → q g = true) → count p <= count q.
Proof using Type.
  intros H. unfold count. apply Nat2Z.inj_le. clear Hsep. induction gids as [|g gs IH]; [done|].
  rewrite !filter_cons. specialize (H g ltac:(left)) as Hg. assert (IH' := IH (λ g' Hg', H g' ltac:(by right))).
  repeat case_decide; simpl; try lia. tauto.
Qed.
Notation after0 := (after (free_initially busy gids window_start)).

Lemma after_app free p q : after (after free p) q = after free (p ++ q).
Proof using Type. unfold after. by rewrite foldl_app. Qed.

(** A set that is left after a prefix, counted. *)
Lemma size_after p s : events busy gids = p ++ s → Z.of_nat (size (after0 p)) = count (λ g, bool_decide (g ∈ after0 p)).
Proof using Hsep.
  intros Heq. apply size_count. intros g. rewrite bool_decide_eq_true, (free_set_spec p s g Heq). tauto.
Qed.

Lemma size_free p s a :
  events busy gids = p ++ s → window_start <= a → (∀ e, e ∈ p → ev_time e <= a) → (∀ e, e ∈ s → a < ev_time e) →
  Z.of_nat (size (after0 p)) = count (free_at a).
Proof using Hsep.
  intros Heq Ha Hp Hs. apply size_count. intros g. rewrite (free_set_spec p s g Heq), free_at_spec.
  assert (Hin : ∀ e, e ∈ events busy gids → e ∈ p ↔ ev_time e <= a).
  { intros e He. rewrite Heq in He. split; [by apply Hp|]. intros Hle.
    apply elem_of_app in He as [He|He]; [done|]. specialize (Hs e He). lia. }
  split; intros [Hg H]; (split; [done|]); intros b Hb.
  - destruct (decide (a < b.1 ∨ b.2 <= a)); [done|]. exfalso. apply (H b Hb). split.
    + right. apply Hin; [apply elem_of_events; eauto 6|simpl; lia].
    + rewrite Hin by (apply elem_of_events; eauto 6). simpl. lia.
  - intros [Hst Hen]. rewrite Hin in Hen by (apply elem_of_events; eauto 6). simpl in Hen.
    assert (b.1 <= a); [|destruct (H b Hb); lia]. destruct Hst as [->|Hst]; [lia|].
    apply Hin in Hst; [done|apply elem_of_events; eauto 6].
Qed.

(** The events up to the departures at [t]. *)
Lemma events_until t :
  ∃ q r, events busy gids = q ++ r ∧
    (∀ e, e ∈ q → ev_time e < t ∨ ev_time e = t ∧ ev_delta e <= -1) ∧
    (∀ e, e ∈ r → t < ev_time e ∨ ev_time e = t ∧ -1 < ev_delta e).
Proof using Type.
  clear Hsep. pose proof events_sorted as Hs. induction (events busy gids) as [|e es IH]; [exists [], []; set_solver|].
  apply StronglySorted_inv in Hs as [Hs Hle]. destruct (IH Hs) as (q & r & -> & Hq & Hr).
  destruct (decide (ev_time e < t ∨ ev_time e = t ∧ ev_delta e <= -1)) as [He|He].
  - exists (e :: q), r. split; [done|]. split; [set_solver|done].
  - exists [], (e :: q ++ r). split; [done|]. split; [set_solver|]. rewrite Forall_forall in Hle.
    intros e' [->|He']%elem_of_cons; [lia|]. specialize (Hle e' He'). unfold event_le in Hle. lia.
Qed.

(** What is left then is clear at [t]. *)
Lemma until_clear t q r :
  events busy gids = q ++ r →
  (∀ e, e ∈ q → ev_time e < t ∨ ev_time e = t ∧ ev_delta e <= -1) →
  (∀ e, e ∈ r → t < ev_time e ∨ ev_time e = t ∧ -1 < ev_delta e) →
  Z.of_nat (size (after0 q)) <= count (clear_at t).
Proof using Hsep.
  intros Heq Hq Hr. rewrite (size_after q r Heq). apply count_le. intros g Hg Hin.
  apply bool_decide_eq_true in Hin. apply (free_set_spec q r g Heq) in Hin as [_ Hno]. apply clear_at_spec. intros b Hb.
  destruct (decide (t < b.1 ∨ b.2 < t)); [done|]. exfalso. apply (Hno b Hb).
  assert (Hst : start_of g b ∈ events busy gids) by (apply elem_of_events; eauto 6). split.
  - right. rewrite Heq in Hst. apply elem_of_app in Hst as [?|Hst]; [done|]. apply Hr in Hst. simpl in Hst. lia.
  - intros Hen. apply Hq in Hen. simpl in Hen. lia.
Qed.

(** A card that is clear when an event happens is free right after it. *)
Lemma clear_after p e s :
  events busy gids = p ++ e :: s → window_start <= ev_time e →
  count (clear_at (ev_time e)) <= Z.of_nat (size (after0 (p ++ [e]))).
Proof using Hsep.
  intros Heq He. assert (Heq' : events busy gids = (p ++ [e]) ++ s) by by rewrite <- app_assoc.
  rewrite (size_after _ _ Heq'). apply count_le. intros g Hg Hc. apply bool_decide_eq_true.
  apply (free_set_spec _ _ g Heq'). split; [done|]. intros b Hb [Hst Hen]. rewrite clear_at_spec in Hc.
  assert (Hle : b.1 <= ev_time e).
  { destruct Hst as [->|[Hst|Hst]%elem_of_app]; [done| |].
    - apply (prefix_order _ _ _ _ Heq) in Hst. unfold event_le in Hst. simpl in Hst. lia.
    - apply list_elem_of_singleton in Hst. rewrite <- Hst. simpl. lia. }
  assert (Hge : event_le e (end_of g b)).
  { apply (split_order _ _ _ _ Heq); [apply elem_of_events; eauto 6|set_solver]. }
  unfold event_le in Hge. simpl in Hge. destruct (Hc b Hb); lia.
Qed.

Lemma events_before : StronglySorted before (events busy gids).
Proof using Type.
  pose proof events_sorted as Hs. induction Hs as [|e es Hs IH Hle]; constructor; [done|].
  rewrite Forall_forall in *. intros e' He'. specialize (Hle e' He'). unfold event_le, before in *. lia.
Qed.

Lemma good_fits a :
  window_start <= a → 0 < duration →
  good gpu_count (free_initially busy gids window_start) (events busy gids) a (a + duration) ↔
  gpu_count <= count (free_at a) ∧ ∀ t, a < t < a + duration → gpu_count <= count (clear_at t).
Proof using Hsep.
  intros Ha Hd.
  destruct (good_split gpu_count (free_initially busy gids window_start) (events busy gids) a (a + duration) events_before)
    as (p & s & Heq & Hp & Hs & ->).
  unfold enough at 1. rewrite bool_decide_eq_true, (size_free p s a Heq Ha Hp Hs), runs_to_prefixes.
  setoid_rewrite after_app. unfold enough. setoid_rewrite bool_decide_eq_true. split; intros [Hn H]; (split; [done|]).
  - intros t Ht. destruct (events_until t) as (q & r & Heq' & Hq & Hr).
    etransitivity; [|by apply (until_clear t q r)].
    assert (Hpq : ∃ l, q = p ++ l ∧ s = l ++ r).
    { rewrite Heq in Heq'. apply app_eq_app in Heq' as (l & [[-> ->]|[-> ->]]); [|eauto].
      destruct l as [|e l]; [exists []; by rewrite !app_nil_r|]. exfalso.
      specialize (Hp e ltac:(set_solver)). specialize (Hr e ltac:(set_solver)). lia. }
    destruct Hpq as (l & -> & Hsl). destruct l as [|e l _] using rev_ind.
    + rewrite app_nil_r, (size_free p s a Heq Ha Hp Hs). done.
    + rewrite <- app_assoc in Hsl. apply (H l e r Hsl). specialize (Hq e ltac:(set_solver)). lia.
  - intros p' e s' -> Hb. specialize (Hs e ltac:(set_solver)). rewrite app_assoc. etransitivity; [apply (H (ev_time e)); lia|].
    apply (clear_after (p ++ p') e s'); [by rewrite Heq, app_assoc|lia].
Qed.
End link.

(** The cards picked. *)
Lemma pick_spec n picked gs at_ :
  (length picked < n)%nat →
  pick picked gs (Z.of_nat n) busy at_ = take n (picked ++ filter (λ g, free_at at_ g = true) gs).
Proof using Type.
  revert picked. induction gs as [|g gs IH]; intros picked Hl; simpl.
  - by rewrite filter_nil, app_nil_r, take_ge by lia.
  - destruct (busy_at busy at_ g) eqn:Hb.
    { rewrite filter_cons_False by (unfold free_at; by rewrite Hb). by apply IH. }
    rewrite filter_cons_True by (unfold free_at; by rewrite Hb).
    case_bool_decide as Hn; rewrite length_app in Hn; simpl in Hn.
    + rewrite (cons_middle g picked (filter _ gs)), app_assoc, take_app_length'; [done|]. rewrite length_app. simpl. lia.
    + rewrite IH by (rewrite length_app; simpl; lia). by rewrite <- app_assoc.
Qed.

Lemma window_cases :
  separated → 1 <= gpu_count → 0 < duration → window_start <= window_end →
  match _earliest_window_for_server gids busy window_start window_end gpu_count duration with
  | Some (gs, a, b) =>
      b = a + duration ∧ fits a ∧ (∀ a', a' < a → ¬ fits a') ∧
      gs = take (Z.to_nat gpu_count) (filter (λ g, free_at a g = true) gids) ∧ Z.of_nat (length gs) = gpu_count
  | None => ∀ a, ¬ fits a
  end.
Proof using Type.
  intros Hsep Hn Hd Hw. unfold _earliest_window_for_server.
  assert (Hup : upcoming window_end window_start (events busy gids)).
  { split; [apply events_before|]. intros e He. apply elem_of_events in He as (g & b & Hg & Hb & He).
    destruct Hsep as [_ Hsep']. destruct (Hsep' g b Hg Hb) as (? & ? & ? & _).
    unfold start_of, end_of in He. destruct He as [-> | ->]; simpl; lia. }
  pose proof (sweep_spec gpu_count duration window_end Hd window_start (free_initially busy gids window_start)
    (events busy gids) Hw Hup) as H.
  destruct (span_start _ _ _) as [a|]; simpl.
  - destruct H as (Ha & Hend & Hg & Hmin). rewrite good_fits in Hg by done. destruct Hg as [Hfree Hclear].
    assert (Hpick : _pick_first_n gids gpu_count busy a =
      take (Z.to_nat gpu_count) (filter (λ g, free_at a g = true) gids)).
    { unfold _pick_first_n. rewrite <- (Z2Nat.id gpu_count) at 1 by lia. apply (pick_spec _ []). simpl. lia. }
    split; [done|]. split; [done|]. split; [|split; [done|]].
    + intros a' Ha' (H1 & H2 & H3). apply (Hmin a'); [lia|]. by apply good_fits.
    + rewrite Hpick, length_take. unfold count in Hfree. lia.
  - intros a (H1 & H2 & H3). apply (H a); [done..|]. by apply good_fits.
Qed.
Lemma window_found gs a b :
  separated → 1 <= gpu_count → 0 < duration → window_start <= window_end →
  _earliest_window_for_server gids busy window_start window_end gpu_count duration = Some (gs, a, b) →
  b = a + duration ∧ fits a ∧ (∀ a', a' < a → ¬ fits a') ∧
  gs = take (Z.to_nat gpu_count) (filter (λ g, free_at a g = true) gids) ∧ Z.of_nat (length gs) = gpu_count.
Proof using Type. intros H1 H2 H3 H4 He. pose proof (window_cases H1 H2 H3 H4) as H. by rewrite He in H. Qed.

(** A window as the bookings have it, which end before the instant they end at:
    enough cards free at every instant. *)
Definition available (a : Z) : Prop :=
  window_start <= a ∧ a + duration <= window_end ∧
  ∀ t, a <= t < a + duration → gpu_count <= count (free_at t).

(** Inside the window, at one instant, the booking of one card ends and that of
    another begins. *)
Definition handover (a : Z) : Prop :=
  ∃ t g g' b b', a < t < a + duration ∧ g ∈ gids ∧ g' ∈ gids ∧
    b ∈ busy_of busy g ∧ b.2 = t ∧ b' ∈ busy_of busy g' ∧ b'.1 = t.

Lemma fits_available a : fits a → available a.
Proof using Type.
  intros (H1 & H2 & H3 & H4). split; [done|]. split; [done|]. intros t Ht.
  destruct (decide (t = a)) as [->|Hne]; [done|]. etransitivity; [apply (H4 t); lia|].
  apply count_le. intros g _. rewrite clear_at_spec, free_at_spec. intros H b Hb. specialize (H b Hb). lia.
Qed.

Lemma available_fits a : 0 < duration → available a → handover a ∨ fits a.
Proof using Type.
  intros Hd (H1 & H2 & H3).
  set (ends t := existsb (λ g, existsb (λ b, bool_decide (b.2 = t)) (busy_of busy g)) gids).
  set (begins t := existsb (λ g, existsb (λ b, bool_decide (b.1 = t)) (busy_of busy g)) gids).
  assert (Hends : ∀ t, ends t = true ↔ ∃ g b, g ∈ gids ∧ b ∈ busy_of busy g ∧ b.2 = t).
  { intros t. unfold ends. rewrite existsb_exists. setoid_rewrite existsb_exists.
    setoid_rewrite bool_decide_eq_true. setoid_rewrite <- list_elem_of_In. naive_solver. }
  assert (Hbegins : ∀ t, begins t = true ↔ ∃ g b, g ∈ gids ∧ b ∈ busy_of busy g ∧ b.1 = t).
  { intros t. unfold begins. rewrite existsb_exists. setoid_rewrite existsb_exists.
    setoid_rewrite bool_decide_eq_true. setoid_rewrite <- list_elem_of_In. naive_solver. }
  destruct (decide (Exists (λ t, a < t < a + duration ∧ begins t = true)
                      ((λ b : Z * Z, b.2) <$> (gids ≫= busy_of busy)))) as [Hh|Hh].
  - left. apply Exists_exists in Hh as (t & (b & -> & (g & Hb & Hg)%list_elem_of_bind)%list_elem_of_fmap & Ht & (g' & b' & Hg' & Hb' & He)%Hbegins).
    by exists b.2, g, g', b, b'.
  - right. split; [done|]. split; [done|]. split; [apply H3; lia|]. intros t Ht.
    destruct (ends t) eqn:Ee.
    + assert (Hb : begins t ≠ true).
      { intros Hb. apply Hh, Exists_exists. exists t. split; [|done]. apply Hends in Ee as (g & b & Hg & Hb' & <-).
        apply list_elem_of_fmap. exists b. split; [done|]. apply list_elem_of_bind. by exists g. }
      etransitivity; [apply (H3 (t - 1)); lia|]. apply count_le. intros g Hg. rewrite free_at_spec, clear_at_spec.
      intros H b Hb'. specialize (H b Hb'). destruct (decide (b.1 = t)); [|lia].
      exfalso. apply Hb, Hbegins. by exists g, b.
    + etransitivity; [apply (H3 t); lia|]. apply count_le. intros g Hg. rewrite free_at_spec, clear_at_spec.
      intros H b Hb. specialize (H b Hb). destruct (decide (b.2 = t)); [|lia].
      exfalso. assert (ends t = true) by (apply Hends; by exists g, b). congruence.
Qed.

(** C7: on a server whose cards' bookings neither overlap nor touch on one
    card, the sweep answers with a window of the asked length, in the horizon,
    at every instant of which enough cards are free, and with the first of the
    cards free at its start; every such window that starts earlier, and every
    one when it answers with none, has a handover inside: an instant at which
    the booking of one card ends and that of another begins.  (Which cards are
    free may change within the window; a handover, where the half-open
    bookings leave the number of free cards as it is, makes the sweep drop the
    window.) *)
Theorem earliest_window_spec :
  separated → 1 <= gpu_count → 0 < duration → window_start <= window_end →
  match _earliest_window_for_server gids busy window_start window_end gpu_count duration with
  | Some (gs, a, b) =>
      b = a + duration ∧ available a ∧ (∀ a', a' < a → available a' → handover a') ∧
      gs = take (Z.to_nat gpu_count) (filter (λ g, free_at a g = true) gids) ∧ Z.of_nat (length gs) = gpu_count
  | None => ∀ a, available a → handover a
  end.
Proof using Type.
  intros H1 H2 H3 H4. pose proof (window_cases H1 H2 H3 H4) as H.
  destruct (_earliest_window_for_server _ _ _ _ _ _) as [[[gs a] b]|].
  - destruct H as (Hb & Hf & Hmin & Hgs). split; [done|]. split; [by apply fits_available|]. split; [|done].
    intros a' Ha' Hav. destruct (available_fits a' H3 Hav) as [|Hf']; [done|]. by destruct (Hmin a').
  - intros a Hav. destruct (available_fits a H3 Hav) as [|Hf']; [done|]. by destruct (H a).
Qed.
End instants.

Lemma fits_ext gids busy busy' ws we n dur a :
  (∀ g b, g ∈ gids → b ∈ busy_of busy g ↔ b ∈ busy_of busy' g) →
  fits gids busy ws we n dur a ↔ fits gids busy' ws we n dur a.
Proof.
  intros H. assert (Hc : ∀ p q : Z → bool, (∀ g, g ∈ gids → p g = q g) → count gids p = count gids q).
  { intros p q Hpq. unfold count. f_equal. f_equal. induction gids as [|g gs IH]; [done|].
    rewrite !filter_cons, (Hpq g) by left. rewrite IH; [done|set_solver|]. intros g' Hg'. apply Hpq. by right. }
  assert (Hf : ∀ t, count gids (free_at busy t) = count gids (free_at busy' t)).
  { intros t. apply Hc. intros g Hg. apply eq_true_iff_eq. rewrite !free_at_spec. naive_solver. }
  assert (Hl : ∀ t, count gids (clear_at busy t) = count gids (clear_at busy' t)).
  { intros t. apply Hc. intros g Hg. apply eq_true_iff_eq. rewrite !clear_at_spec. naive_solver. }
  unfold fits. rewrite Hf. setoid_rewrite Hl. done.
Qed.

(** ** The tables behind it *)

Lemma append_to_elem {V} k (v : V) d k' vs :
  NoDup d.*1 → (k', vs) ∈ append_to k v d →
  (k' ≠ k ∧ (k', vs) ∈ d) ∨ (k' = k ∧ ((∃ old, (k, old) ∈ d ∧ vs = old ++ [v]) ∨ k ∉ d.*1 ∧ vs = [v])).
Proof.
  induction d as [|[k1 v1] d IH]; simpl; intros Hnd Hin.
  - apply list_elem_of_singleton in Hin as [= -> ->]. right. split; [done|]. right. split; [apply not_elem_of_nil|done].
  - apply NoDup_cons in Hnd as [Hk1 Hnd]. simpl in *. case_bool_decide as Hk; [subst k1|].
    + apply elem_of_cons in Hin as [[= -> ->]|Hin].
      * right. split; [done|]. left. exists v1. split; [left|done].
      * left. split; [|by right]. intros ->. apply Hk1. apply list_elem_of_fmap. by exists (k, vs).
    + apply elem_of_cons in Hin as [[= -> ->]|Hin]; [left; split; [done|left]|].
      destruct (IH Hnd Hin) as [[Hne H]|[-> [(old & H & ->)|[Hn ->]]]].
      * left. split; [done|by right].
      * right. split; [done|]. left. exists old. split; [by right|done].
      * right. split; [done|]. right. split; [|done]. by apply not_elem_of_cons.
Qed.

Lemma append_to_keys {V} k (v : V) d : (append_to k v d).*1 = if bool_decide (k ∈ d.*1) then d.*1 else d.*1 ++ [k].
Proof.
  induction d as [|[k1 v1] d IH]; [done|]. cbn [append_to]. rewrite fmap_cons.
  destruct (bool_decide_reflect (k1 = k)) as [->|Hne]; rewrite fmap_cons; cbn [fst].
  - by rewrite bool_decide_true by left.
  - rewrite IH. destruct (bool_decide_reflect (k ∈ d.*1)).
    + by rewrite bool_decide_true by by right.
    + rewrite bool_decide_false; [done|]. by apply not_elem_of_cons.
Qed.

(** The groups are the rows of each key, in order. *)
Lemma groups_spec l sid gs :
  (sid, gs) ∈ foldl (λ acc g, append_to (Gpu.server_id g) (Gpu.id g) acc) [] l →
  gs = Gpu.id <$> filter (λ g, Gpu.server_id g = sid) l.
Proof.
  intros Hin. enough (H : let d := foldl (λ acc g, append_to (Gpu.server_id g) (Gpu.id g) acc) [] l in
    NoDup d.*1 ∧ (∀ g, g ∈ l → Gpu.server_id g ∈ d.*1) ∧
    ∀ sid gs, (sid, gs) ∈ d → gs = Gpu.id <$> filter (λ g, Gpu.server_id g = sid) l) by by apply H.
  clear. induction l as [|g l IH] using rev_ind; cbv zeta; [split; [constructor|]; set_solver|].
  rewrite foldl_app. simpl. destruct IH as (Hnd & Hk & Hg). split; [|split].
  - rewrite append_to_keys. case_bool_decide; [done|]. apply NoDup_app. split; [done|]. split; [|apply NoDup_singleton].
    intros x Hx ->%list_elem_of_singleton. done.
  - intros g' Hin. rewrite append_to_keys. apply elem_of_app in Hin as [Hin|Hin]; [|apply list_elem_of_singleton in Hin as ->];
      case_bool_decide; set_solver.
  - intros sid gs [[Hne H]|[-> [(old & H & ->)|[Hn ->] ] ] ]%append_to_elem; [| | |done];
      rewrite filter_app, fmap_app.
    + rewrite (filter_cons_False _ g) by done. rewrite filter_nil. simpl. rewrite app_nil_r. by apply Hg.
    + rewrite (filter_cons_True _ g) by done. rewrite (Hg _ _ H). done.
    + rewrite (filter_cons_True _ g) by done. replace (filter (λ g', Gpu.server_id g' = Gpu.server_id g) l) with (@nil Gpu.t); [done|].
      symmetry. destruct (filter _ l) as [|g' l'] eqn:Hf; [done|]. exfalso. apply Hn.
      assert (Hin : g' ∈ filter (λ g', Gpu.server_id g' = Gpu.server_id g) l) by (rewrite Hf; left).
      apply list_elem_of_filter in Hin as [<- Hin]. by apply Hk.
Qed.

Lemma busy_of_insert busy k l g : busy_of (<[k := l]> busy) g = if decide (k = g) then l else busy_of busy g.
Proof. unfold busy_of, Busy in *. rewrite lookup_insert. by case_decide. Qed.

(** A booking of card [g] that meets the search window. *)
Definition meets (d : Db) (gids : list Z) (ss he g : Z) (r : Reservation.t) : Prop :=
  r ∈ rows (reservations d) ∧ Reservation.gpu_id r = Some g ∧ g ∈ gids ∧
  Reservation.status r ∈ ACTIVE_STATUSES ∧ Reservation.start_at r < he ∧ ss < Reservation.end_at r.

Lemma busy_by_gpu_spec d gids ss he g b :
  b ∈ busy_of (busy_by_gpu d gids ss he) g ↔ ∃ r, meets d gids ss he g r ∧ b = clip ss he r.
Proof.
  unfold busy_by_gpu.
  assert (H : ∀ l (acc : Busy), b ∈ busy_of (foldl (λ acc p, <[p.1 := busy_of acc p.1 ++ [clip ss he p.2]]> acc) acc l) g ↔
    b ∈ busy_of acc g ∨ ∃ r, (g, r) ∈ l ∧ b = clip ss he r).
  { induction l as [|[g' r'] l IH]; intros acc; simpl; [split; [auto|intros [?|(r & Hr & _)]; [done|by apply elem_of_nil in Hr]]|].
    rewrite IH, busy_of_insert. case_decide as Hg; simpl.
    - subst. rewrite elem_of_app, list_elem_of_singleton. split.
      + intros [[?| ->]|(r & ? & ->)]; [by left|right; exists r'; split; [left|done]|right; exists r; split; [by right|done]].
      + intros [?|(r & [[= <-]|?]%elem_of_cons & ->)]; [auto|auto|right; eauto].
    - split.
      + intros [?|(r & ? & ->)]; [by left|right; exists r; split; [by right|done]].
      + intros [?|(r & [[= -> <-]|?]%elem_of_cons & ->)]; [auto|done|right; eauto]. }
  rewrite H. change (busy_of ∅ g) with (@nil (Z * Z)).
  assert (Hr : ∀ r, (g, r) ∈ busy_rows d gids ss he ↔ meets d gids ss he g r).
  { intros r. unfold busy_rows, meets. rewrite merge_sort_Permutation, list_elem_of_omap. split.
    - intros (r' & Hin & Hsome). destruct (Reservation.gpu_id r') as [g'|] eqn:Hg; [|done]. simpl in Hsome.
      destruct (bool_decide_reflect (g' ∈ gids)); [|done]. destruct (bool_decide_reflect (Reservation.status r' ∈ ACTIVE_STATUSES)); [|done].
      destruct (bool_decide_reflect (Reservation.start_at r' < he)); [|done].
      destruct (bool_decide_reflect (ss < Reservation.end_at r')); [|done]. by injection Hsome as <- <-.
    - intros (Hin & Hg & ? & ? & ? & ?). exists r. split; [done|]. rewrite Hg. simpl. by rewrite !bool_decide_true. }
  setoid_rewrite Hr. split; [intros [Hnil|?]; [by apply elem_of_nil in Hnil|done]|auto].
Qed.

(** ** What the user is told *)

(** Bookings that hold the same card keep away from each other. *)
Definition apart (d : Db) : Prop :=
  ∀ r r' g, r ∈ rows (reservations d) → r' ∈ rows (reservations d) →
    Reservation.gpu_id r = Some g → Reservation.gpu_id r' = Some g →
    Reservation.status r ∈ ACTIVE_STATUSES → Reservation.status r' ∈ ACTIVE_STATUSES →
    Reservation.start_at r < Reservation.end_at r ∧
    (r' = r ∨ Reservation.end_at r < Reservation.start_at r' ∨ Reservation.end_at r' < Reservation.start_at r).

Definition gpus_keyed (d : Db) : Prop := ∀ k g, gpus d !! k = Some g → Gpu.id g = k.

(** The cards of a server that the lab can use, in the order of their
    index. *)
Definition server_gpus (d : Db) (lab_id sid : Z) : list Z :=
  Gpu.id <$> filter (λ g, Gpu.server_id g = sid) (lab_gpus d lab_id).

Lemma server_gpus_NoDup d lab sid : gpus_keyed d → NoDup (server_gpus d lab sid).
Proof.
  intros Hk. unfold server_gpus. assert (H : NoDup (Gpu.id <$> lab_gpus d lab)).
  { unfold lab_gpus. rewrite merge_sort_Permutation. eapply sublist_NoDup; [by apply (rows_ids_NoDup Gpu.id)|].
    apply sublist_fmap, sublist_filter. }
  eapply sublist_NoDup; [exact H|]. apply sublist_fmap, sublist_filter.
Qed.

Lemma busy_separated d lab sid gids ss he :
  gpus_keyed d → apart d → ss < he → separated (server_gpus d lab sid) (busy_by_gpu d gids ss he) ss he.
Proof.
  intros Hk Hap Hle. split; [by apply server_gpus_NoDup|]. intros g b Hg (r & (Hr & Hgr & _ & Hst & Hlo & Hhi) & ->)%busy_by_gpu_spec.
  destruct (Hap r r g) as [Hlen _]; [done..|]. unfold clip. simpl. split; [lia|]. split; [lia|]. split; [lia|].
  intros b' (r' & (Hr' & Hgr' & _ & Hst' & Hlo' & Hhi') & ->)%busy_by_gpu_spec. simpl.
  destruct (Hap r r' g) as [_ [->|[?|?]]]; [done..|by left| |]; right; lia.
Qed.

(** Every card free means no booking in the way. *)
Lemma all_free d lab sid gids ss he dur a n g r :
  fits (server_gpus d lab sid) (busy_by_gpu d gids ss he) ss he n dur a → 0 < dur →
  Z.of_nat (length (server_gpus d lab sid)) = n → g ∈ server_gpus d lab sid → g ∈ gids →
  r ∈ rows (reservations d) → Reservation.gpu_id r = Some g → Reservation.status r ∈ ACTIVE_STATUSES →
  Reservation.start_at r < Reservation.end_at r → Reservation.end_at r <= a ∨ a + dur <= Reservation.start_at r.
Proof.
  intros (Ha & Hend & Hfree & Hclear) Hd Hn Hg Hgs Hr Hgr Hst Hlen.
  assert (Hall : ∀ p, n <= count (server_gpus d lab sid) p → p g = true).
  { intros p Hp. unfold count in Hp. rewrite <- Hn in Hp.
    destruct (p g) eqn:Hpg; [done|exfalso].
    assert (length (filter (λ g, p g = true) (server_gpus d lab sid)) < length (server_gpus d lab sid))%nat; [|lia].
    eapply length_filter_lt; [exact Hg|]. by rewrite Hpg. }
  destruct (decide (Reservation.start_at r < he ∧ ss < Reservation.end_at r)) as [[Hlo Hhi]|?]; [|lia].
  assert (Hb : clip ss he r ∈ busy_of (busy_by_gpu d gids ss he) g) by (apply busy_by_gpu_spec; by exists r).
  apply Hall in Hfree. rewrite free_at_spec in Hfree. specialize (Hfree _ Hb). unfold clip in *. simpl in *.
  destruct (decide (a < Z.max (Reservation.start_at r) ss < a + dur)) as [Hin|]; [|lia].
  specialize (Hclear _ Hin). apply Hall in Hclear. rewrite clear_at_spec in Hclear. specialize (Hclear _ Hb). simpl in Hclear. lia.
Qed.

Definition search_start (after : option Z) (s : Session) : Z := Z.max (default (now s) after) (now s).

(** with the bookings of every card apart, a request gets an answer, of
    at most [top_k] windows, the earliest first.  Each lies in the week from
    the asked instant, lasts what was asked, and names as many cards as were
    asked, of one server the lab can use, each of them free when the window
    starts; it is the earliest that server has by the count of free cards.
    When the server has no more cards than were asked, no booking of them
    meets the window, so it can be booked. *)
Theorem recommend_spec lab n secs after top_k s :
  gpus_keyed (db s) → apart (db s) → 1 <= n → 60 <= secs →
  ∃ cs, recommend lab n secs after top_k s = (Ok cs, s) ∧ (length cs <= Z.to_nat top_k)%nat ∧
    StronglySorted (keyed_le start_at) cs ∧
    ∀ c, c ∈ cs →
      let gids := server_gpus (db s) lab (server_id c) in
      let ss := search_start after s in
      let dur := seconds secs in
      let busy := busy_by_gpu (db s) gids ss (ss + days 7) in
      end_at c = start_at c + dur ∧
        fits gids busy ss (ss + days 7) n dur (start_at c) ∧
        (∀ a, a < start_at c → ¬ fits gids busy ss (ss + days 7) n dur a) ∧
        Z.of_nat (length (gpu_ids c)) = n ∧ sublist (gpu_ids c) gids ∧
        (∀ g r, g ∈ gpu_ids c → r ∈ rows (reservations (db s)) → Reservation.gpu_id r = Some g →
           Reservation.status r ∈ ACTIVE_STATUSES →
           (Reservation.end_at r <= start_at c ∨ start_at c < Reservation.start_at r) ∧
           (Z.of_nat (length gids) = n →
              Reservation.end_at r <= start_at c ∨ end_at c <= Reservation.start_at r)).
Proof.
  intros Hk Hap Hn Hsecs. unfold recommend.
  rewrite (bind_run (raise_if _ _) _ s tt s) by by rewrite bool_decide_false by lia.
  rewrite (bind_run (raise_if _ _) _ s tt s) by by rewrite bool_decide_false by lia.
  rewrite (bind_run utcnow _ s (now s) s) by reflexivity. cbv zeta.
  rewrite (bind_run (gets _) _ s (gpus_by_server (db s) lab) s) by reflexivity.
  set (eligible := filter _ (gpus_by_server (db s) lab)). fold (search_start after s). set (ss := search_start after s).
  destruct (bool_decide_reflect (eligible = [])) as [|_].
  { exists []. split; [done|]. split; [simpl; lia|]. split; [constructor|]. intros c Hc. by apply elem_of_nil in Hc. }
  rewrite (bind_run (gets _) _ s (busy_by_gpu (db s) (concat eligible.*2) ss (ss + days HORIZON_DAYS)) s) by reflexivity.
  set (busy := busy_by_gpu _ _ _ _). eexists. split; [reflexivity|]. split; [rewrite length_take; lia|].
  split.
  { match goal with |- context [take ?k (order_by ?key ?l)] =>
      assert (Hs : StronglySorted (keyed_le key) (order_by key l)) by
        (apply StronglySorted_merge_sort; intros x y; [intros z|]; unfold keyed_le; lia);
      rewrite <- (take_drop k (order_by key l)) in Hs end.
    by apply StronglySorted_app in Hs as (_ & Hs & _). }
  intros c Hc. apply elem_of_take in Hc as (i & Hc & _). apply list_elem_of_lookup_2 in Hc.
  apply order_by_elem, list_elem_of_omap in Hc as ([sid gs] & Hin & Hw). simpl in Hw.
  destruct (_earliest_window_for_server gs busy ss (ss + days HORIZON_DAYS) n (seconds secs)) as [[[gs' a] b]|] eqn:He; [|done].
  simpl in Hw. injection Hw as <-. cbn [server_id gpu_ids start_at end_at].
  set (gids := server_gpus (db s) lab sid) in *. set (busy' := busy_by_gpu (db s) gids ss (ss + days 7)).
  assert (Hgs : gs = gids ∧ ∀ g, g ∈ gs → g ∈ concat eligible.*2).
  { split.
    - apply list_elem_of_filter in Hin as [_ Hin]. by apply groups_spec in Hin.
    - intros g Hg. apply elem_of_concat. exists gs. split; [done|]. apply list_elem_of_fmap. by exists (sid, gs). }
  destruct Hgs as [-> Hconc].
  assert (Hd : 0 < seconds secs) by (unfold seconds; lia).
  assert (Hh : ss < ss + days HORIZON_DAYS) by (change (days HORIZON_DAYS) with 604800000000; lia).
  assert (Hsep : separated gids busy ss (ss + days HORIZON_DAYS)) by by apply busy_separated.
  pose proof (window_found gids busy ss (ss + days HORIZON_DAYS) n (seconds secs) gs' a b Hsep Hn Hd ltac:(lia) He)
    as (-> & Hfit & Hmin & Hpick & Hlen).
  assert (Hext : ∀ x, fits gids busy ss (ss + days 7) n (seconds secs) x ↔ fits gids busy' ss (ss + days 7) n (seconds secs) x).
  { intros x. apply fits_ext. intros g' b Hg'. unfold busy, busy'. rewrite !busy_by_gpu_spec. unfold meets.
    split; intros (r & ? & ->); exists r; (split; [|done]); naive_solver. }
  split; [done|]. split; [by apply Hext|]. split; [intros x Hx; rewrite <- Hext; by apply Hmin|]. split; [done|].
  assert (Hsub : sublist gs' gids) by (rewrite Hpick; etransitivity; [apply sublist_take|apply sublist_filter]).
  split; [done|]. intros g r Hg Hr Hgr Hst.
  rewrite Hpick in Hg. apply elem_of_take in Hg as (j & Hg & _).
  apply list_elem_of_lookup_2, list_elem_of_filter in Hg as [Hg Hg'].
  split.
  - rewrite free_at_spec in Hg. destruct Hfit as (Ha & Hend & _).
    destruct (decide (Reservation.start_at r < ss + days HORIZON_DAYS ∧ ss < Reservation.end_at r)) as [[Hlo Hhi]|?]; [|lia].
    assert (Hb : clip ss (ss + days HORIZON_DAYS) r ∈ busy_of busy g)
      by (apply busy_by_gpu_spec; exists r; split; [|done]; split_and!; auto).
    specialize (Hg _ Hb). unfold clip in Hg. simpl in Hg. lia.
  - intros Hall. eapply (all_free (db s) lab sid (concat eligible.*2)); eauto. by apply (Hap r r g).
Qed.

(** ** Closed instances *)

Definition hour : Z := hours 1.

(** Two cards: the first is booked later, the second at once. *)
Definition relay : Busy := {[1 := [(2 * hour, 9 * hour)]; 2 := [(0, hour)]]}.

Lemma relay_separated : separated [1; 2] relay 0 (9 * hour).
Proof.
  split; [by apply (bool_decide_eq_true_1 _)|]. intros g b Hg Hb.
  rewrite !elem_of_cons in Hg. destruct Hg as [->|[->|Hg]]; [| |by apply elem_of_nil in Hg].
  - change (b ∈ [(2 * hour, 9 * hour)]) in Hb. apply list_elem_of_singleton in Hb as ->.
    unfold hour. change (hours 1) with 3600000000. simpl. split_and!; [lia..|].
    intros b' Hb'. left. by apply list_elem_of_singleton in Hb'.
  - change (b ∈ [(0, hour)]) in Hb. apply list_elem_of_singleton in Hb as ->.
    unfold hour. change (hours 1) with 3600000000. simpl. split_and!; [lia..|].
    intros b' Hb'. left. by apply list_elem_of_singleton in Hb'.
Qed.

(** Both cards for an hour: the gap between the two bookings. *)
Lemma earliest_window_spec_witness :
  _earliest_window_for_server [1; 2] relay 0 (9 * hour) 2 hour = Some ([1; 2], hour, 2 * hour) ∧
  available [1; 2] relay 0 (9 * hour) 2 hour hour ∧
  ∀ a, a < hour → available [1; 2] relay 0 (9 * hour) 2 hour a → handover [1; 2] relay hour a.
Proof.
  assert (He : _earliest_window_for_server [1; 2] relay 0 (9 * hour) 2 hour = Some ([1; 2], hour, 2 * hour))
    by (vm_compute; reflexivity).
  pose proof (earliest_window_spec [1; 2] relay 0 (9 * hour) 2 hour relay_separated ltac:(done) ltac:(done) ltac:(done)) as H.
  rewrite He in H. destruct H as (_ & Hav & Hmin & _). split; [exact He|]. split; [exact Hav|exact Hmin].
Defined.

(** One card is free at every instant: the first from the second hour on, the
    second until then.  The sweep, asked for one card for two hours, sees none
    at the instant of the handover and starts the window there. *)
Definition swapped : Busy := {[1 := [(0, hour)]; 2 := [(hour, 2 * hour)]]}.

Example handover_is_skipped :
  _earliest_window_for_server [1; 2] swapped 0 (9 * hour) 1 (2 * hour) = Some ([1], hour, 3 * hour) ∧
  available [1; 2] swapped 0 (9 * hour) 1 (2 * hour) 0.
Proof.
  split; [by vm_compute|]. split; [done|]. split; [done|]. intros t Ht.
  destruct (decide (t < hour)) as [Hl|Hl].
  - assert (H : free_at swapped t 2 = true).
    { apply free_at_spec. intros b Hb. change (b ∈ [(hour, 2 * hour)]) in Hb. apply list_elem_of_singleton in Hb as ->. simpl. lia. }
    unfold count. rewrite !filter_cons, H. destruct (decide (free_at swapped t 1 = true)); rewrite decide_True by done; simpl; lia.
  - assert (H : free_at swapped t 1 = true).
    { apply free_at_spec. intros b Hb. change (b ∈ [(0, hour)]) in Hb. apply list_elem_of_singleton in Hb as ->. simpl. lia. }
    unfold count. rewrite filter_cons, H, decide_True by done. simpl. lia.
Qed.

Definition booked_db : Db := sample_db [sample_reservation 101 1 (2 * hour) (3 * hour) None].

Lemma booked_rows r : r ∈ rows (reservations booked_db) → r = sample_reservation 101 1 (2 * hour) (3 * hour) None.
Proof. intros [k Hk]%elem_of_rows. by apply (lookup_only _ _ _ _ _ eq_refl) in Hk as [_ ->]. Qed.

Lemma booked_keyed : gpus_keyed booked_db.
Proof.
  intros k g. change (gpus booked_db) with (<[1 := sample_gpu 1 0]> ({[2 := sample_gpu 2 1]} : gmap Z Gpu.t)).
  by intros [[<- <-]|[_ [<- <-]%lookup_singleton_Some]]%lookup_insert_Some.
Qed.

Lemma booked_apart : apart booked_db.
Proof.
  intros r r' g ->%booked_rows ->%booked_rows _ _ _ _. split; [done|by left].
Qed.

(** Both cards for three hours: after the booking. *)
Lemma recommend_spec_witness :
  ∃ cs, recommend 1 2 10800 None 3 (open_session booked_db hour "") = (Ok cs, open_session booked_db hour "") ∧
        StronglySorted (keyed_le start_at) cs.
Proof.
  destruct (recommend_spec 1 2 10800 None 3 (open_session booked_db hour "") booked_keyed booked_apart ltac:(done)
    ltac:(done)) as (cs & Hrun & _ & Hs & _).
  exists cs. split; [exact Hrun|exact Hs].
Defined.

Example recommend_after_booking :
  (recommend 1 2 10800 None 3 (open_session booked_db hour "")).1 = Ok [mkCandidate 1 [1; 2] (3 * hour) (6 * hour)].
Proof. by vm_compute. Qed.

(** Where the hypothesis fails the answer is wrong: of two bookings back to
    back, or two that share a card, the end of the one makes the card count
    as free during the other, and the window comes without a card. *)
Definition back_to_back : Busy := {[1 := [(0, hour); (hour, 2 * hour)]]}.
Definition sharing : Busy := {[1 := [(0, 3 * hour); (hour, 2 * hour)]]}.

Example touching_counts_as_free :
  _earliest_window_for_server [1] back_to_back 0 (9 * hour) 1 hour = Some ([], hour, 2 * hour) ∧
  _earliest_window_for_server [1] sharing 0 (9 * hour) 1 hour = Some ([], 2 * hour, 3 * hour) ∧
  busy_at back_to_back hour 1 = true ∧ busy_at sharing (2 * hour) 1 = true.
Proof. by vm_compute. Qed.

(** Free cards are counted, not followed: one card for three hours is
    answered with the card that is booked in two. *)
Example relay_names_a_booked_card :
  _earliest_window_for_server [1; 2] relay 0 (9 * hour) 1 (3 * hour) = Some ([1], 0, 3 * hour) ∧
  busy_at relay (2 * hour) 1 = true.
Proof. by vm_compute. Qed.
