(* ===== verification/UserProperties.v ===== *)
(** What the accounts of the platform guarantee: rows along every history of
    their writes, the administrator a lab keeps, what disabling takes away
    ([services/user_service.py], [services/auth_service.py]). *)

From S2P Require Import Prelude Models SessionLayer RequestLayer Samples.
From S2P Require Import AgentRpc AuditService PhysicalAccountService ServerService RateLimit.
From S2P Require Import RateLimit AuthDependencies AuthService UserService AccountLinkService.
From S2P Require Import AccountLinkProperties SshKeyService RateLimitProperties.

Definition is_admin (u : User.t) : Prop := User.role u = "lab_admin"%string ∧ User.is_active u = 1.

(** The lab has an enabled administrator. *)
Definition administered (d : Db) (lab : Z) : Prop :=
  ∃ k u, users d !! k = Some u ∧ User.lab_id u = lab ∧ is_admin u.

(** Code about other tables. *)
Definition users_same (d d' : Db) : Prop := users d' = users d ∧ next_user_id d' = next_user_id d.

#[export] Instance users_same_pre : PreOrder users_same.
Proof. split; [by intros d|]. intros d1 d2 d3 [H1 H2] [H3 H4]. split; congruence. Qed.
#[export] Instance users_same_log : LogFree users_same.
Proof. by intros d l. Qed.

#[export] Instance same_set_link l : Moves users_same (set_link l).
Proof. solve_moves. Qed.
#[export] Instance same_set_entry e : Moves users_same (set_entry e).
Proof. solve_moves. Qed.
#[export] Instance same_set_grant g : Moves users_same (set_grant g).
Proof. solve_moves. Qed.
#[export] Instance same_set_setup_token t : Moves users_same (set_setup_token t).
Proof. solve_moves. Qed.
#[export] Instance same_add_setup_token f : Moves users_same (add_setup_token f).
Proof. unfold add_setup_token. solve_moves. Qed.
#[export] Instance same_set_invite i : Moves users_same (set_invite i).
Proof. solve_moves. Qed.
#[export] Instance same_add_invite f : Moves users_same (add_invite f).
Proof. unfold add_invite. solve_moves. Qed.

(** ** Rows and steps *)

Section users.
Context (ci : string → string).

(** Keys are ids, roles are known, names and addresses are taken once in a
    lab. *)
Record users_ok (d : Db) : Prop := {
  us_id k u : users d !! k = Some u → User.id u = k ∧ k < next_user_id d ;
  us_role k u : users d !! k = Some u → User.role u ∈ roles ;
  us_name k k' u u' : users d !! k = Some u → users d !! k' = Some u' → User.lab_id u = User.lab_id u' →
    ci (User.username u) = ci (User.username u') ∨ ci (User.email u) = ci (User.email u') → k = k' }.

(** What every write has to do: rows stay good, no row disappears or changes
    lab, and a lab that has an enabled administrator keeps one. *)
Definition users_step (d d' : Db) : Prop :=
  users_ok d → users_ok d' ∧
  (∀ k u, users d !! k = Some u → ∃ u', users d' !! k = Some u' ∧ User.lab_id u' = User.lab_id u) ∧
  ∀ lab, administered d lab → administered d' lab.

#[export] Instance users_step_pre : PreOrder users_step.
Proof using Type.
  split; [intros d Hok; split; [done|]; split; [eauto|done]|].
  intros d1 d2 d3 H12 H23 Hok. destruct (H12 Hok) as (Hok2 & He2 & Ha2). destruct (H23 Hok2) as (Hok3 & He3 & Ha3).
  split; [done|]. split; [|auto]. intros k u Hk. destruct (He2 _ _ Hk) as (u2 & Hk2 & Hl2).
  destruct (He3 _ _ Hk2) as (u3 & Hk3 & Hl3). exists u3. split; [done|congruence].
Qed.

Lemma users_same_step d d' : users_same d d' → users_step d d'.
Proof using Type.
  intros [H1 H2] [Ha Hb Hc]. split; [split; rewrite ?H1, ?H2; assumption|].
  unfold administered. rewrite H1. eauto.
Qed.

#[export] Instance users_step_log : LogFree users_step.
Proof using Type. intros d l. by apply users_same_step. Qed.

Lemma moves_users {A} (m : M A) : Moves users_same m → Moves users_step m.
Proof using Type. apply moves_mono, users_same_step. Qed.

(** What the unique indexes rule out. *)
Lemma row_error_None d u k u' :
  users_ok d → user_row_error ci d u = None → users d !! k = Some u' → User.lab_id u' = User.lab_id u →
  ci (User.username u') = ci (User.username u) ∨ ci (User.email u') = ci (User.email u) → k = User.id u.
Proof using Type.
  intros Hok H Hk Hlab Hor. unfold user_row_error in H.
  destruct (negb _); [done|]. destruct (negb _); [done|].
  destruct (name_taken _ _ _ _ _) eqn:Hn; [done|]. destruct (email_taken _ _ _ _ _) eqn:He; [done|].
  destruct (us_id _ Hok _ _ Hk) as [Hid _]. destruct (decide (k = User.id u)) as [|Hne]; [done|exfalso].
  assert (Hin : In u' (rows (users d))) by (apply list_elem_of_In, elem_of_rows; eauto).
  unfold name_taken, email_taken in *. destruct Hor as [Hor|Hor];
    [apply not_true_iff_false in Hn; apply Hn|apply not_true_iff_false in He; apply He];
    apply existsb_exists; exists u'; (split; [done|]); rewrite !andb_true_iff, negb_true_iff, !bool_decide_eq_true,
      bool_decide_eq_false; (split; [done|congruence]).
Qed.

Lemma row_error_role d u : user_row_error ci d u = None → User.role u ∈ roles.
Proof using Type.
  unfold user_row_error. destruct (negb (is_some _)); [done|].
  destruct (bool_decide_reflect (User.role u ∈ roles)); done.
Qed.

(** A row written under its id: a new one, or an existing one that leaves an
    administrator behind. *)
Lemma put_user_step d u next :
  user_row_error ci d u = None → next_user_id d <= next → User.id u < next →
  (match users d !! User.id u with
   | Some old => User.lab_id u = User.lab_id old ∧
       (is_admin old → is_admin u ∨
         ∃ k o, k ≠ User.id u ∧ users d !! k = Some o ∧ User.lab_id o = User.lab_id u ∧ is_admin o)
   | None => True
   end) →
  users_step d (d <| users := <[User.id u := u]> (users d) |> <| next_user_id := next |>).
Proof using Type.
  intros Herr Hnext Hlt Hold Hok. split; [split|split].
  - intros k u1. cbn. rewrite lookup_insert. case_decide as Hk; [intros [= <-]; by subst|].
    intros H1. destruct (us_id _ Hok _ _ H1). split; [done|lia].
  - intros k u1. cbn. rewrite lookup_insert. case_decide; [intros [= <-]; by eapply row_error_role|apply (us_role _ Hok)].
  - intros k k' u1 u2. cbn. rewrite !lookup_insert. repeat case_decide; subst; try done.
    + intros [= <-] H2 Hlab Hor. symmetry. eapply row_error_None; [done..| |]; [done|naive_solver].
    + intros H1 [= <-] Hlab Hor. by eapply row_error_None.
    + apply (us_name _ Hok).
  - intros k u1 H1. cbn. rewrite lookup_insert. case_decide as Hk; [|eauto].
    subst k. rewrite H1 in Hold. destruct Hold. eauto.
  - intros lab (k & u1 & H1 & Hlab & Ha). unfold administered. cbn.
    destruct (decide (User.id u = k)) as [Hk|Hk].
    + subst k. rewrite H1 in Hold. destruct Hold as [Hl Hor]. destruct (Hor Ha) as [Hau|(k' & o & Hne & Ho & Hlo & Hao)].
      * exists (User.id u), u. rewrite lookup_insert, decide_True by done. split_and!; [done|congruence|done..|].
        apply Hau.
      * exists k', o. rewrite lookup_insert_ne by done. split_and!; [done|congruence|done..|]. apply Hao.
    + exists k, u1. by rewrite lookup_insert_ne by done.
Qed.

Lemma add_user_moves mk_row : (∀ id, User.id (mk_row id) = id) → Moves users_step (add_user ci mk_row).
Proof using Type.
  intros Hid. apply moves_at_all. intros s r s' Hc H. unfold add_user in H. cbv zeta in H.
  destruct (user_row_error _ _ _) eqn:He; injection H as <- <-; [done|].
  split; [done|]. split; [done|]. intros Hok. set (id := next_user_id (db s)) in *.
  pose proof (put_user_step (db s) (mk_row id) (id + 1) He) as P. rewrite Hid in P. apply P; [lia|lia| |done].
  destruct (users (db s) !! id) eqn:Hl; [|done]. destruct (us_id _ Hok _ _ Hl). lia.
Qed.

(** A row as it was read, changed. *)
Lemma save_user_moves k u old s :
  users (db s) !! k = Some old → User.id u = User.id old → User.lab_id u = User.lab_id old →
  (users_ok (db s) → is_admin old → is_admin u ∨
    ∃ k' o, k' ≠ k ∧ users (db s) !! k' = Some o ∧ User.lab_id o = User.lab_id u ∧ is_admin o) →
  moves_at users_step (save_user ci u) s.
Proof using Type.
  intros Hold Hid Hlab Hadm r s' Hc H. unfold save_user in H.
  destruct (user_row_error _ _ _) eqn:He; injection H as <- <-; [done|].
  split; [done|]. split; [done|]. intros Hok. destruct (us_id _ Hok _ _ Hold) as [Hk Hlt].
  pose proof (put_user_step (db s) u (next_user_id (db s)) He) as P. rewrite Hid, Hk, Hold in P.
  assert (Hd : users_step (db s) (db s <| users := <[k := u]> (users (db s)) |>)) by (apply P; [lia|lia|]; auto).
  rewrite Hid, Hk. by apply Hd.
Qed.

Lemma get_user_run id lab s :
  get_user id lab s =
    match users (db s) !! id with
    | Some u => if bool_decide (User.lab_id u = lab) then (Ok u, s) else (Raise UserNotFoundError, s)
    | None => (Raise UserNotFoundError, s)
    end.
Proof using Type.
  unfold get_user. rewrite (bind_run (get_user_row id) _ s (users (db s) !! id) s) by reflexivity.
  destruct (users (db s) !! id) as [u|]; [|reflexivity].
  rewrite (bind_run (some_or_raise _ _) _ s u s) by reflexivity.
  destruct (bool_decide (User.lab_id u = lab)); reflexivity.
Qed.

(** Code that starts by loading a user of the lab. *)
Lemma moves_at_get_user (R : relation Db) `{!PreOrder R} {A} id lab (f : User.t → M A) s :
  (∀ u, users (db s) !! id = Some u → User.lab_id u = lab → moves_at R (f u) s) → moves_at R (get_user id lab ≫= f) s.
Proof using Type.
  intros Hf. destruct (get_user id lab s) as [[u|e] s1] eqn:Hrun.
  - pose proof Hrun as H. rewrite get_user_run in H. destruct (users (db s) !! id) as [u'|] eqn:Hu; [|done].
    destruct (bool_decide_reflect (User.lab_id u' = lab)); [|done]. injection H as -> ->.
    by apply moves_at_read with u; [done|done|apply Hf].
  - intros r s' Hc H. rewrite (bind_run_raise _ _ _ _ _ Hrun) in H. injection H as <- <-.
    rewrite get_user_run in Hrun.
    destruct (users (db s) !! id); [destruct (bool_decide _); [done|]|]; by injection Hrun as _ <-.
Qed.

(** ** The operations *)

Context (isoformat : Z → string).

Lemma or_duplicate_moves {A} (m : M A) s : moves_at users_step m s → moves_at users_step (or_duplicate m) s.
Proof using Type.
  intros Hm r s' Hc H. unfold or_duplicate, try_except in H. destruct (m s) as [[a|e] s1] eqn:Hrun.
  - injection H as <- <-. by apply Hm in Hrun.
  - apply Hm in Hrun; [|done]. destruct e; by injection H as <- <-.
Qed.

#[export] Instance create_user_moves a b c e lab actor req : Moves users_step (create_user ci a b c e lab actor req).
Proof using Type.
  unfold create_user, audit_user. apply moves_bind; [apply _| |intros; apply _].
  apply moves_at_all. intros s. apply or_duplicate_moves. apply moves_at_of. by apply add_user_moves.
Qed.

#[export] Instance update_user_moves id name email actor role lab req :
  Moves users_step (update_user ci id name email actor role lab req).
Proof using Type.
  apply moves_at_all. intros s. unfold update_user, audit_user. apply moves_at_get_user; [apply _|]. intros u Hu Hlab.
  apply moves_at_guard; [apply _|]. intros _. cbv zeta. apply moves_at_bind; [apply _| |intros; apply moves_at_of, _].
  apply or_duplicate_moves, (save_user_moves id _ u); [done..|]. by left.
Qed.

(** The guard in front of taking an administrator away. *)
Lemma ensure_admin_left A (m : M A) id lab s :
  ((users_ok (db s) → ∃ k o, k ≠ id ∧ users (db s) !! k = Some o ∧ User.lab_id o = lab ∧ is_admin o) →
   moves_at users_step m s) →
  moves_at users_step (_ensure_at_least_one_active_admin id lab ;; m) s.
Proof using Type.
  intros Hm. unfold _ensure_at_least_one_active_admin.
  destruct (filter (λ uid, uid ≠ id) (active_admins (db s) lab)) as [|k l] eqn:Hrem.
  - intros r s' Hc H. unfold mbind, prog_bind, gets, raise_if in H. rewrite Hrem in H. by injection H as <- <-.
  - apply moves_at_read with tt; [apply _|unfold mbind, prog_bind, gets, raise_if; by rewrite Hrem|].
    apply Hm. intros Hok. assert (Hin : k ∈ filter (λ uid, uid ≠ id) (active_admins (db s) lab)) by (rewrite Hrem; left).
    apply list_elem_of_filter in Hin as [Hne Hin]. apply list_elem_of_fmap in Hin as (o & -> & Hin).
    apply order_by_elem, list_elem_of_filter in Hin as [(Hl & Hr & Ha) [k Hk]%elem_of_rows].
    exists k, o. destruct (us_id _ Hok _ _ Hk). subst k. done.
Qed.

(** [when b guard ;; m]. *)
Lemma when_admin_left A (m : M A) b id lab s :
  ((b = true → users_ok (db s) → ∃ k o, k ≠ id ∧ users (db s) !! k = Some o ∧ User.lab_id o = lab ∧ is_admin o) →
   moves_at users_step m s) →
  moves_at users_step (when b (_ensure_at_least_one_active_admin id lab) ;; m) s.
Proof using Type.
  intros Hm. destruct b; [apply ensure_admin_left; auto|].
  apply moves_at_read with tt; [apply _|done|]. by apply Hm.
Qed.

#[export] Instance change_role_moves id role actor lab req : Moves users_step (change_role ci id role actor lab req).
Proof using Type.
  apply moves_at_all. intros s. unfold change_role, audit_user. apply moves_at_guard; [apply _|]. intros _.
  apply moves_at_get_user; [apply _|]. intros u Hu Hlab. apply when_admin_left. intros Hrem. cbv zeta.
  apply moves_at_bind; [apply _| |intros; apply moves_at_of, _].
  apply (save_user_moves id _ u); [done..|]. intros Hok [Hr Ha].
  destruct (us_id _ Hok _ _ Hu) as [Hid _].
  destruct (decide (role = "lab_admin"%string)) as [Hra|Hra]; [by left|right].
  destruct Hrem as (k & o & Hne & Ho & Hlo & Hao); [|done|].
  - by rewrite (bool_decide_true (User.role u = _)), bool_decide_false.
  - exists k, o. split; [congruence|]. split; [done|]. split; [by transitivity lab|done].
Qed.

#[export] Instance same_revoke_entry reply message pa actor o e :
  Moves users_same (revoke_entry reply message pa actor o e).
Proof using Type. unfold revoke_entry, get_key. moves. Qed.

#[export] Instance same_revoke_link reply message link actor reason lab server rk req :
  Moves users_same (revoke_link reply message link actor reason lab server rk req).
Proof using Type. unfold revoke_link, revoke_keys, get_physical_account, audit_link. moves. Qed.

#[export] Instance same_revoke_admin server user actor lab req : Moves users_same (revoke_admin server user actor lab req).
Proof using Type. unfold revoke_admin, audit_grant. moves. Qed.

#[export] Instance same_cascade reply message user actor lab req :
  Moves users_same (_cascade_revoke_access reply message user actor lab req).
Proof using Type. unfold _cascade_revoke_access. moves. Qed.

#[local] Instance step_cascade reply message user actor lab req :
  Moves users_step (_cascade_revoke_access reply message user actor lab req).
Proof using Type. apply moves_users, _. Qed.

#[export] Instance disable_user_moves reply message id actor lab req :
  Moves users_step (disable_user ci reply message id actor lab req).
Proof using Type.
  apply moves_at_all. intros s. unfold disable_user, audit_user. apply moves_at_guard; [apply _|]. intros _.
  apply moves_at_get_user; [apply _|]. intros u Hu Hlab. apply when_admin_left. intros Hrem. cbv zeta.
  apply moves_at_bind; [apply _| |intros; apply moves_at_of; apply _].
  apply (save_user_moves id _ u); [done..|]. intros Hok [Hr Ha]. destruct (us_id _ Hok _ _ Hu) as [Hid _]. right.
  destruct Hrem as (k & o & Hne & Ho & Hlo & Hao); [|done|].
  - by rewrite (bool_decide_false (User.is_active u = 0)), bool_decide_true by (done || lia).
  - exists k, o. split; [congruence|]. split; [done|]. split; [by transitivity lab|done].
Qed.

#[export] Instance reactivate_user_moves id actor lab req : Moves users_step (reactivate_user ci id actor lab req).
Proof using Type.
  apply moves_at_all. intros s. unfold reactivate_user, audit_user. apply moves_at_get_user; [apply _|].
  intros u Hu Hlab. destruct (negb _); [apply moves_at_of, _|]. cbv zeta.
  apply moves_at_bind; [apply _| |intros; apply moves_at_of, _].
  apply (save_user_moves id _ u); [done..|]. intros Hok [Hr Ha]. left. done.
Qed.

Section passwords.
Context (bcrypt_hash : string → string) (bcrypt_check : string → string → bool) (sha256_hex : string → string).
Context (body_digest : pystr → option pystr).

#[export] Instance change_password_moves old new actor lab req :
  Moves users_step (change_password ci bcrypt_hash bcrypt_check old new actor lab req).
Proof using Type.
  apply moves_at_all. intros s. unfold change_password, audit_user. apply moves_at_get_user; [apply _|].
  intros u Hu Hlab. destruct (User.password_hash u) as [hash|]; [|apply moves_at_of, _].
  destruct (negb _); [apply moves_at_of, _|].
  apply moves_at_bind; [apply _| |intros; apply moves_at_of, _]. apply (save_user_moves actor _ u); [done..|]. by left.
Qed.

#[export] Instance same_issue_setup_token p id purpose actor lab req :
  Moves users_same (issue_setup_token sha256_hex isoformat p id purpose actor lab req).
Proof using Type. unfold issue_setup_token. moves. Qed.

#[export] Instance same_get_user id lab : Moves users_same (get_user id lab).
Proof using Type. unfold get_user, get_user_row. moves. Qed.

#[export] Instance issue_password_reset_moves p id actor lab req :
  Moves users_step (issue_password_reset isoformat sha256_hex p id actor lab req).
Proof using Type. apply moves_users. unfold issue_password_reset. moves. Qed.

#[export] Instance resend_invite_moves p id actor lab req :
  Moves users_step (resend_invite isoformat sha256_hex p id actor lab req).
Proof using Type. apply moves_users. unfold resend_invite. moves. Qed.

#[export] Instance issue_registration_invite_moves p lab role actor req :
  Moves users_step (issue_registration_invite sha256_hex isoformat p lab role actor req).
Proof using Type. apply moves_users. unfold issue_registration_invite, audit_invite. moves. Qed.

#[export] Instance revoke_registration_invite_moves id lab actor req :
  Moves users_step (revoke_registration_invite isoformat id lab actor req).
Proof using Type. apply moves_users. unfold revoke_registration_invite, audit_invite, get_registration_invite. moves. Qed.

(** *** Redeeming a link *)

#[export] Instance eq_lookup_active_token t : Moves eq (lookup_active_token sha256_hex t).
Proof using Type. unfold lookup_active_token. moves. Qed.

#[export] Instance eq_lookup_active_invite t : Moves eq (lookup_active_registration_invite sha256_hex t).
Proof using Type. unfold lookup_active_registration_invite. moves. Qed.

#[export] Instance eq_validate_key p id : Moves eq (validate_key body_digest p id).
Proof using Type. unfold validate_key, _validate_registration_ssh_key. moves. Qed.

#[export] Instance eq_check_token row user p : Moves eq (check_token ci body_digest row user p).
Proof using Type. unfold check_token, _validate_registration_profile. moves. Qed.

Lemma moves_eq (R : relation Db) `{!PreOrder R} {A} (m : M A) : Moves eq m → Moves R m.
Proof using Type. apply moves_mono. by intros d ? <-. Qed.

Lemma either_link_moves {A} t with_token with_invite :
  (∀ row, Moves users_step (with_token row : M A)) → (∀ i, Moves users_step (with_invite i)) →
  Moves users_step (either_link sha256_hex t with_token with_invite).
Proof using Type.
  intros H1 H2. unfold either_link.
  pose proof (moves_eq users_step _ (eq_lookup_active_token t)).
  pose proof (moves_eq users_step _ (eq_lookup_active_invite t)). moves.
Qed.

#[export] Instance same_add_profile_key p user req : Moves users_same (add_profile_key body_digest p user req).
Proof using Type.
  unfold add_profile_key, add_key, audit_key. pose proof (λ c f, ltac:(unfold add_key_row; solve_moves)
    : Moves users_same (add_key_row c f)). moves.
Qed.

#[local] Instance step_add_profile_key p user req : Moves users_step (add_profile_key body_digest p user req).
Proof using Type. apply moves_users, _. Qed.

#[local] Instance step_set_setup_token t : Moves users_step (set_setup_token t).
Proof using Type. apply moves_users, _. Qed.

#[local] Instance step_set_invite i : Moves users_step (set_invite i).
Proof using Type. apply moves_users, _. Qed.

Lemma add_new_user_moves b c d e f g h i j :
  Moves users_step (add_user ci (λ id, User.mk id b c d e f g h i j)).
Proof using Type. by apply add_user_moves. Qed.

Lemma complete_invite_moves i p req :
  Moves users_step (_complete_registration_invite ci bcrypt_hash body_digest i p req).
Proof using Type.
  pose proof (moves_eq users_step _ (eq_validate_key p None)). pose proof add_new_user_moves.
  unfold _complete_registration_invite, _validate_new_registration_profile, audit_invite.
  destruct (pf_username p), (pf_email p), (pf_display_name p); moves.
Qed.

#[export] Instance activate_moves t p req :
  Moves users_step (activate ci bcrypt_hash sha256_hex body_digest t p req).
Proof using Type.
  apply either_link_moves; [|intros; apply complete_invite_moves]. intros row. apply moves_at_all. intros s.
  eapply moves_at_read; [apply _|reflexivity|]. apply moves_at_some; [apply _|]. intros u Hu.
  apply moves_at_bind; [apply _|apply moves_at_of, moves_eq; apply _|]. intros u1 s1 Hc1 Hrun. cbv zeta.
  destruct (eq_check_token row u p _ _ _ Hc1 Hrun) as (_ & _ & Hd). apply moves_at_read with (now s1); [apply _|done|].
  apply moves_at_bind; [apply _| |intros; apply moves_at_of; moves].
  rewrite Hd in Hu. apply (save_user_moves (SetupToken.user_id row) _ u); [done|..]; unfold activated;
    destruct (bool_decide _); try done; by left.
Qed.
(** *** Signing in *)

Context {R : Type} `{Redis R} (jwt_encode : list (string * json) → string).

Lemma find_login_run name s r s' :
  find_login ci name s = (r, s') → s' = s ∧ ∀ u, r = Ok (Some u) → ∃ k, users (db s) !! k = Some u.
Proof using Type.
  unfold find_login. destruct (login_rows ci (db s) name) as [|u [|]] eqn:Hl; intros [= <- <-]; (split; [done|]); [done| |done].
  intros u' [= <-]. apply elem_of_rows. assert (Hin : u ∈ login_rows ci (db s) name) by (rewrite Hl; left).
  by apply list_elem_of_filter in Hin as [_ ?].
Qed.

Lemma bad_credentials_moves {A} user payload subject req w :
  hmoves_at users_step (bad_credentials user payload subject req : Handler R A) w.
Proof using Type.
  unfold bad_credentials, audit_login. apply hmoves_at_bind; [apply _|apply hmoves_at_in_session, moves_at_of, _|].
  intros _ w1 _ _. apply hmoves_at_bind; [apply _|apply hmoves_at_on_limiter, _|].
  intros. apply hmoves_at_raise, _.
Qed.

Lemma authenticate_moves username password req w :
  hmoves_at users_step (authenticate ci bcrypt_check jwt_encode username password req : Handler R LoginResponse) w.
Proof using Type.
  unfold authenticate. cbv zeta. apply hmoves_at_bind; [apply _|apply hmoves_at_on_limiter, _|]. intros b w1 _ _.
  apply hmoves_at_guard; [apply _|]. apply hmoves_at_bind; [apply _|apply hmoves_at_in_session, moves_at_of|].
  { intros s r s' Hc [-> _]%find_login_run. done. }
  intros o w2 Hc Hrun. unfold in_session in Hrun. destruct (find_login ci username w1.1) as [r s1] eqn:Hf.
  injection Hrun as -> <-. apply find_login_run in Hf as [-> Hf].
  destruct o as [u|]; [|apply bad_credentials_moves]. destruct (Hf u eq_refl) as [k Hk].
  destruct (User.password_hash u) as [hash|]; [|apply bad_credentials_moves].
  destruct (negb _); [apply bad_credentials_moves|]. destruct (bool_decide _).
  - apply hmoves_at_bind; [apply _|apply hmoves_at_in_session, moves_at_of; unfold audit_login; apply _|].
    intros. apply hmoves_at_raise, _.
  - apply hmoves_at_bind; [apply _|apply hmoves_at_in_session, moves_at_of, _|]. intros t w3 _ [= <- <-].
    destruct (issue_access_token _ _ _ _ _) as [token expires].
    apply hmoves_at_bind; [apply _|apply hmoves_at_in_session, moves_at_of, _|]. intros t w3 _ [= <- <-].
    apply hmoves_at_bind; [apply _| |].
    { apply hmoves_at_in_session, (save_user_moves k _ u); [done..|]. by left. }
    intros u1 w3 _ _. apply hmoves_at_bind; [apply _|apply hmoves_at_in_session, moves_at_of; unfold audit_login; apply _|].
    intros u2 w4 _ _. apply hmoves_at_bind; [apply _|apply hmoves_at_on_limiter, _|]. intros. apply hmoves_at_ret, _.
Qed.
#[local] Hint Opaque create_user update_user change_role disable_user reactivate_user change_password
  issue_password_reset resend_invite issue_registration_invite revoke_registration_invite activate : typeclass_instances.

(** ** Histories *)

(** The operations on accounts, with what their callers pass. *)
Inductive user_op : Type :=
| uo_login (username password : string) (req : RequestInfo)
| uo_create (username email display_name role : string) (lab_id actor : Z) (req : RequestInfo)
| uo_update (id : Z) (display_name email : option string) (actor : Z) (actor_role : string) (lab_id : Z)
    (req : RequestInfo)
| uo_role (id : Z) (role : string) (actor lab_id : Z) (req : RequestInfo)
| uo_disable (reply : Z → rpc_result) (message : Z → string) (id actor lab_id : Z) (req : RequestInfo)
| uo_reactivate (id actor lab_id : Z) (req : RequestInfo)
| uo_password (old new : string) (actor lab_id : Z) (req : RequestInfo)
| uo_reset (plaintext : string) (id actor lab_id : Z) (req : RequestInfo)
| uo_resend (plaintext : string) (id actor lab_id : Z) (req : RequestInfo)
| uo_invite (plaintext : string) (lab_id : Z) (role : string) (actor : Z) (req : RequestInfo)
| uo_revoke_invite (invite_id lab_id actor : Z) (req : RequestInfo)
| uo_activate (token : string) (p : Profile) (req : RequestInfo).

Definition run_user_op (op : user_op) : Handler R unit :=
  match op with
  | uo_login username password req => authenticate ci bcrypt_check jwt_encode username password req ;; mret tt
  | uo_create a b c e lab actor req => in_session (create_user ci a b c e lab actor req ;; mret tt)
  | uo_update id name email actor role lab req => in_session (update_user ci id name email actor role lab req ;; mret tt)
  | uo_role id role actor lab req => in_session (change_role ci id role actor lab req ;; mret tt)
  | uo_disable reply message id actor lab req =>
      in_session (disable_user ci reply message id actor lab req ;; mret tt)
  | uo_reactivate id actor lab req => in_session (reactivate_user ci id actor lab req ;; mret tt)
  | uo_password old new actor lab req =>
      in_session (change_password ci bcrypt_hash bcrypt_check old new actor lab req)
  | uo_reset p id actor lab req =>
      in_session (issue_password_reset isoformat sha256_hex p id actor lab req ;; mret tt)
  | uo_resend p id actor lab req => in_session (resend_invite isoformat sha256_hex p id actor lab req ;; mret tt)
  | uo_invite p lab role actor req =>
      in_session (issue_registration_invite sha256_hex isoformat p lab role actor req ;; mret tt)
  | uo_revoke_invite id lab actor req => in_session (revoke_registration_invite isoformat id lab actor req ;; mret tt)
  | uo_activate t p req => in_session (activate ci bcrypt_hash sha256_hex body_digest t p req ;; mret tt)
  end.

Lemma run_user_op_moves op w : hmoves_at users_step (run_user_op op) w.
Proof using Type.
  destruct op; cbn [run_user_op]; [|apply hmoves_at_in_session, moves_at_of, _..].
  apply hmoves_at_bind; [apply _|apply authenticate_moves|]. intros. apply hmoves_at_ret, _.
Qed.

(** Requests one after the other, each in a transaction of its own. *)
Fixpoint requests (ops : list (user_op * Z)) (uuid : string) (w : Db * Limiter R) : Db * Limiter R :=
  match ops with
  | [] => w
  | (op, at_) :: ops =>
      let '(_, d, l) := get_world_session (run_user_op op) w.1 w.2 at_ uuid in requests ops uuid (d, l)
  end.

(** C8: whatever sequence of sign-ins, creations, edits, role changes,
    disablings, reactivations, password changes, invitations and redeemed links
    runs, with whatever is refused rolled back: account rows keep their ids
    and labs and a known role, no two users of a lab share a login name or an
    address, and a lab that has an enabled administrator always has one. *)
Theorem users_history ops uuid d l :
  users_ok d →
  let d' := (requests ops uuid (d, l)).1 in
  users_ok d' ∧
  (∀ k u, users d !! k = Some u → ∃ u', users d' !! k = Some u' ∧ User.lab_id u' = User.lab_id u) ∧
  ∀ lab, administered d lab → administered d' lab.
Proof using Type.
  intros Hok d'. enough (users_step d d') by auto. clear Hok. subst d'. revert d l.
  induction ops as [|[op at_] ops IH]; intros d l; [reflexivity|]. simpl.
  pose proof (hmoves_get_session users_step (run_user_op op) d l at_ uuid (run_user_op_moves _ _)) as Hstep.
  destruct (get_world_session _ _ _ _ _) as [[r d1] l1]. etransitivity; [exact Hstep|apply IH].
Qed.
End passwords.

(** ** Disabling takes the access away *)

(** Keys are ids; one active grant for a user on a server. *)
Record grants_ok (d : Db) : Prop := {
  gr_id k g : server_admin_grants d !! k = Some g → ServerAdminGrant.id g = k ;
  gr_one k k' g g' : server_admin_grants d !! k = Some g → server_admin_grants d !! k' = Some g' →
    ServerAdminGrant.is_active g = 1 → ServerAdminGrant.is_active g' = 1 →
    ServerAdminGrant.server_id g = ServerAdminGrant.server_id g' →
    ServerAdminGrant.user_id g = ServerAdminGrant.user_id g' → k = k' }.

(** The active grants are among those of before, less the ones that [gone]
    names. *)
Definition grants_left (gone : ServerAdminGrant.t → Prop) (d d' : Db) : Prop :=
  grants_ok d' ∧
  ∀ k g, server_admin_grants d' !! k = Some g → ServerAdminGrant.is_active g = 1 →
    server_admin_grants d !! k = Some g ∧ ¬ gone g.

Lemma revoke_admin_left server user actor lab req s o s' :
  clean s → grants_ok (db s) → revoke_admin server user actor lab req s = (Ok o, s') →
  grants_left (λ g, ServerAdminGrant.server_id g = server ∧ ServerAdminGrant.user_id g = user) (db s) (db s') ∧
  account_links (db s') = account_links (db s).
Proof using Type.
  intros Hc Hok H. unfold revoke_admin in H. apply bind_Ok in H as (f & s1 & Hf & H). injection Hf as <- <-.
  destruct (find_grant (db s) server user) as [g|] eqn:Hg.
  - apply bind_Ok in H as (t & s1 & Ht & H). injection Ht as <- <-. cbv zeta in H.
    apply bind_Ok in H as (u1 & s1 & Hset & H). injection Hset as <- <-.
    rewrite (bind_run flush _ _ tt _) in H by by apply flush_clean.
    unfold audit_grant in H. apply bind_Ok in H as (u2 & s2 & Hw & H). rewrite write_run in Hw by done.
    injection Hw as <- <-. apply ret_run in H as [_ ->]. split; [|done].
    apply head_filter_elem in Hg as [[k0 Hk0]%elem_of_rows (Hs & Hu & Ha)].
    pose proof (gr_id _ Hok _ _ Hk0) as Hid. split; [split|].
    + intros k g1. cbn. rewrite lookup_insert. case_decide; [intros [= <-]; done|apply (gr_id _ Hok)].
    + intros k k' g1 g2. cbn. rewrite !lookup_insert.
      repeat case_decide; subst; try done; [by intros [= <-]|by intros _ [= <-]|apply (gr_one _ Hok)].
    + intros k g1. cbn. rewrite lookup_insert. case_decide as Hk; [by intros [= <-]|].
      intros H1 Ha1. split; [done|]. intros [Hs1 Hu1]. apply Hk. rewrite Hid.
      apply (gr_one _ Hok _ _ _ _ Hk0 H1); congruence.
  - apply ret_run in H as [_ ->]. split; [|done]. split; [done|]. intros k g1 H1 Ha1. split; [done|].
    intros [Hs Hu]. unfold find_grant in Hg. rewrite head_filter_None in Hg.
    apply (Hg g1); [apply elem_of_rows; eauto|done].
Qed.

Lemma revoke_admins_left user actor lab req gs s o s' :
  clean s → grants_ok (db s) →
  for_each gs (λ grant, revoke_admin (ServerAdminGrant.server_id grant) user actor lab req ;; skip) s = (Ok o, s') →
  grants_left (λ g, ServerAdminGrant.user_id g = user ∧ ServerAdminGrant.server_id g ∈ ServerAdminGrant.server_id <$> gs)
    (db s) (db s') ∧
  account_links (db s') = account_links (db s).
Proof using Type.
  clear isoformat ci. revert s. induction gs as [|g gs IH]; intros s Hc Hok H.
  { apply ret_run in H as [_ ->]. split; [|done]. split; [done|]. intros k g1 H1 _. split; [done|]. set_solver. }
  simpl in H. apply bind_Ok in H as (u1 & s1 & H1 & H). apply bind_Ok in H1 as (o1 & s2 & H1 & H2).
  apply ret_run in H2 as [_ ->]. destruct (same_revoke_admin _ _ _ _ _ _ _ _ Hc H1) as (Hc1 & _ & _).
  apply revoke_admin_left in H1 as [[Hok1 H1] Hl1]; [|done..]. apply IH in H as [[Hok2 H2] Hl2]; [|done..].
  split; [split; [done|]|congruence]. intros k g2 Hg2 Ha2. destruct (H2 _ _ Hg2 Ha2) as [Hg1 Hn1].
  destruct (H1 _ _ Hg1 Ha2) as [Hg0 Hn0]. split; [done|]. rewrite fmap_cons, elem_of_cons. naive_solver.
Qed.

Lemma revoke_links_left reply message actor reason lab req ls s o s' :
  clean s →
  for_each ls (λ '(link, server_id),
    revoke_link reply message link actor reason lab server_id true req ;; skip) s = (Ok o, s') →
  clean s' ∧ server_admin_grants (db s') = server_admin_grants (db s) ∧
  ∀ k l, account_links (db s') !! k = Some l → AccountLink.is_active l = 1 →
    account_links (db s) !! k = Some l ∧ k ∉ (λ p : AccountLink.t * Z, AccountLink.id p.1) <$> ls.
Proof using Type.
  revert s. induction ls as [|[link server] ls IH]; intros s Hc H.
  { apply ret_run in H as [_ ->]. split; [done|]. split; [done|]. intros k l Hk _. split; [done|]. set_solver. }
  simpl in H. apply bind_Ok in H as (u1 & s1 & H1 & H). apply bind_Ok in H1 as (o1 & s2 & H1 & H2).
  apply ret_run in H2 as [_ ->]. destruct (same_revoke_link _ _ _ _ _ _ _ _ _ _ _ _ Hc H1) as (Hc1 & _ & _).
  apply revoke_link_Ok in H1 as (_ & -> & e & Hd); [|done]. apply IH in H as (Hc2 & Hg & Hl); [|done].
  split; [done|]. split; [by rewrite Hg, Hd|]. intros k l Hk Ha. destruct (Hl _ _ Hk Ha) as [Hk1 Hn].
  rewrite Hd in Hk1. cbn in Hk1. rewrite lookup_insert in Hk1. case_decide as Heq; [by injection Hk1 as <-|].
  split; [done|]. rewrite fmap_cons, not_elem_of_cons. simpl. by split; [intros ->|].
Qed.

(** Every link is to an account of the table, under its own id. *)
Definition links_keyed (d : Db) : Prop :=
  ∀ k l, account_links d !! k = Some l →
    AccountLink.id l = k ∧ is_Some (physical_accounts d !! AccountLink.physical_account_id l).

Definition access_gone (d : Db) (user : Z) : Prop :=
  (∀ k l, account_links d !! k = Some l → AccountLink.user_id l = user → AccountLink.is_active l ≠ 1) ∧
  ∀ k g, server_admin_grants d !! k = Some g → ServerAdminGrant.user_id g = user → ServerAdminGrant.is_active g ≠ 1.

Lemma cascade_spec reply message user actor lab req s o s' :
  clean s → links_keyed (db s) → grants_ok (db s) →
  _cascade_revoke_access reply message user actor lab req s = (Ok o, s') →
  access_gone (db s') user ∧
  (∀ k l, account_links (db s') !! k = Some l → AccountLink.is_active l = 1 → account_links (db s) !! k = Some l) ∧
  (∀ k g, server_admin_grants (db s') !! k = Some g → ServerAdminGrant.is_active g = 1 →
     server_admin_grants (db s) !! k = Some g).
Proof using Type.
  intros Hc Hkey Hgr H. unfold _cascade_revoke_access in H.
  apply bind_Ok in H as (ls & s1 & Hls & H). injection Hls as <- <-.
  apply bind_Ok in H as (u1 & s1 & Hl & H). apply revoke_links_left in Hl as (Hc1 & Hg1 & Hl); [|done].
  apply bind_Ok in H as (gs & s2 & Hgs & H). injection Hgs as <- <-.
  apply revoke_admins_left in H as [[Hok Hg] Hl2]; [|done|].
  2:{ destruct Hgr. split; intros *; rewrite Hg1; eauto. }
  rewrite Hg1 in Hg. unfold grants_of in Hg. rewrite Hg1 in Hg. rewrite <- Hl2 in Hl. split; [split|split].
  - intros k l Hk Hu Ha. destruct (Hl _ _ Hk Ha) as [Hk0 Hn]. apply Hn. apply list_elem_of_fmap.
    destruct (Hkey _ _ Hk0) as [Hid [pa Hpa]]. exists (l, PhysicalAccount.server_id pa). split; [done|].
    apply list_elem_of_omap. exists l. split; [|by rewrite Hpa]. apply list_elem_of_filter. split; [done|].
    apply elem_of_rows. eauto.
  - intros k g Hk Hu Ha. destruct (Hg _ _ Hk Ha) as [Hk0 Hn]. apply Hn. split; [done|].
    apply list_elem_of_fmap. exists g. split; [done|]. apply list_elem_of_filter. split; [done|].
    apply elem_of_rows. eauto.
  - intros k l Hk Ha. by apply Hl.
  - intros k g Hk Ha. by apply Hg.
Qed.

(** C25: when disabling a user succeeds, somebody else did it, the user is
    of the lab and is disabled and otherwise unchanged, no link and no server
    grant of his is active any more, no link or grant of anybody has come to
    life, and if he was an enabled administrator the lab has another one.
    (With every link to an account of the table, as its foreign key demands.) *)
Theorem disable_user_spec reply message user actor lab req s u' s' :
  clean s → users_ok (db s) → links_keyed (db s) → grants_ok (db s) →
  disable_user ci reply message user actor lab req s = (Ok u', s') →
  actor ≠ user ∧
  (∃ u, users (db s) !! user = Some u ∧ User.lab_id u = lab ∧ u' = u <| User.is_active := 0 |> ∧
        users (db s') = <[user := u']> (users (db s)) ∧ (is_admin u → administered (db s') lab)) ∧
  access_gone (db s') user ∧
  (∀ k l, account_links (db s') !! k = Some l → AccountLink.is_active l = 1 → account_links (db s) !! k = Some l) ∧
  (∀ k g, server_admin_grants (db s') !! k = Some g → ServerAdminGrant.is_active g = 1 →
     server_admin_grants (db s) !! k = Some g).
Proof using Type.
  intros Hc Hok Hkey Hgr Hrun. destruct (disable_user_moves _ _ _ _ _ _ _ _ _ Hc Hrun) as (_ & _ & Hstep).
  destruct (Hstep Hok) as (_ & _ & Hadm). clear Hstep. unfold disable_user in Hrun.
  apply bind_Ok in Hrun as (u0 & s1 & Hr & H). apply raise_if_Ok in Hr as [Hne ->]. apply bool_decide_eq_false in Hne.
  apply bind_Ok in H as (u & s1 & Hget & H). rewrite get_user_run in Hget.
  destruct (users (db s) !! user) as [u1|] eqn:Hu; [|done]. destruct (bool_decide_reflect (User.lab_id u1 = lab)); [|done].
  injection Hget as -> <-. apply bind_Ok in H as (u2 & s1 & Hw & H).
  assert (s1 = s) as ->.
  { unfold when, _ensure_at_least_one_active_admin, mbind, prog_bind, gets, raise_if in Hw.
    destruct (_ && _); [destruct (bool_decide _)|]; by injection Hw. }
  cbv zeta in H. apply bind_Ok in H as (u3 & s1 & Hsave & H). unfold save_user in Hsave.
  destruct (user_row_error _ _ _); [done|]. injection Hsave as _ <-.
  apply bind_Ok in H as (u4 & s1 & Haud & H). unfold audit_user in Haud. rewrite write_run in Haud by done.
  injection Haud as _ <-. apply bind_Ok in H as (u5 & s2 & Hcas & H). apply ret_run in H as [[= ->] ->].
  destruct (us_id _ Hok _ _ Hu) as [Hid _].
  match type of Hcas with _ ?s3 = _ => assert (Hc3 : clean s3) by exact Hc end.
  destruct (same_cascade _ _ _ _ _ _ _ _ _ Hc3 Hcas) as (_ & _ & [Hus _]).
  apply cascade_spec in Hcas as (H1 & H2 & H3); [|done|exact Hkey|by destruct Hgr]. split; [done|]. split; [|done].
  exists u. split; [done|]. split; [done|]. split; [done|]. split; [rewrite Hus; cbn; by rewrite Hid|].
  intros Ha. apply Hadm. exists user, u. done.
Qed.
End users.

(** ** Closed instances *)

(** Alice and Carol run the lab, Bob has a link and a grant. *)
Definition boss (id : Z) (name : string) : User.t := sample_user id name <| User.role := "lab_admin"%string |>.
Definition staff_db : Db :=
  sample_db [] <| users := {[10 := boss 10 "alice"; 11 := sample_user 11 "bob"; 12 := boss 12 "carol"]} |>
               <| next_user_id := 13 |>
               <| server_admin_grants := {[4 := ServerAdminGrant.mk 4 11 1 1 10 None None None]} |>.

Lemma staff_lookup k u :
  users staff_db !! k = Some u →
  k = 10 ∧ u = boss 10 "alice" ∨ k = 11 ∧ u = sample_user 11 "bob" ∨ k = 12 ∧ u = boss 12 "carol".
Proof.
  change (users staff_db) with
    (<[10 := boss 10 "alice"]> (<[11 := sample_user 11 "bob"]> ({[12 := boss 12 "carol"]} : gmap Z User.t))).
  intros [[<- <-]|[_ [[<- <-]|[_ [<- <-]%lookup_singleton_Some]]%lookup_insert_Some]]%lookup_insert_Some; auto.
Qed.

Lemma staff_ok : users_ok no_case staff_db.
Proof.
  split.
  - intros k u [[-> ->]|[[-> ->]|[-> ->]]]%staff_lookup; done.
  - intros k u [[-> ->]|[[-> ->]|[-> ->]]]%staff_lookup; by apply (bool_decide_eq_true_1 _).
  - intros k k' u u' [[-> ->]|[[-> ->]|[-> ->]]]%staff_lookup [[-> ->]|[[-> ->]|[-> ->]]]%staff_lookup; try done;
      by intros _ [].
Qed.

Lemma staff_links : links_keyed staff_db.
Proof.
  intros k l. change (account_links staff_db) with (account_links (sample_db [])).
  intros [[-> ->]|[-> ->]]%sample_links_lookup; by split; [|eexists].
Qed.

Lemma staff_grants : grants_ok staff_db.
Proof.
  split.
  - intros k g Hk. by apply (lookup_only _ _ _ _ _ eq_refl) in Hk as [-> ->].
  - intros k k' g g' Hk Hk'. apply (lookup_only _ _ _ _ _ eq_refl) in Hk as [-> ->].
    by apply (lookup_only _ _ _ _ _ eq_refl) in Hk' as [-> ->].
Qed.

(** Alice is demoted by Carol, nobody is left to demote Carol. *)
Definition staff_ops : list (user_op * Z) :=
  [(uo_role 10 "user" 12 1 no_request, 5); (uo_role 12 "user" 10 1 no_request, 6);
   (uo_disable (λ _, Raise AgentOfflineError) (λ _, ""%string) 12 10 1 no_request, 7);
   (uo_login "BOB" "secret" no_request, 8)].

Lemma users_history_witness :
  let d' := (requests no_case (λ _, "now"%string) open_hash open_check id (λ _, None) sample_encode staff_ops ""
               (staff_db, stored)).1 in
  administered staff_db 1 ∧ administered d' 1.
Proof.
  assert (H : administered staff_db 1) by (exists 12, (boss 12 "carol"); done).
  intros d'. split; [exact H|].
  destruct (users_history no_case (λ _, "now"%string) open_hash open_check id (λ _, None) sample_encode staff_ops ""
              staff_db stored staff_ok) as (_ & _ & Ha).
  apply Ha, H.
Defined.

Lemma disable_user_spec_witness :
  ∃ u' s', disable_user no_case (λ _, Raise AgentOfflineError) (λ _, ""%string) 11 10 1 no_request
             (open_session staff_db 30 "") = (Ok u', s') ∧
           User.is_active u' = 0 ∧ access_gone (db s') 11.
Proof.
  destruct (disable_user no_case (λ _, Raise AgentOfflineError) (λ _, ""%string) 11 10 1 no_request
              (open_session staff_db 30 "")) as [[u'|e] s'] eqn:Hr; [|vm_compute in Hr; discriminate Hr].
  assert (Hc : clean (open_session staff_db 30 "")) by done.
  destruct (disable_user_spec no_case _ _ _ _ _ _ _ _ _ Hc staff_ok staff_links staff_grants Hr)
    as (_ & (u & _ & _ & -> & _) & Hgone & _).
  exists (u <| User.is_active := 0 |>), s'. split; [reflexivity|]. split; [reflexivity|exact Hgone].
Defined.
