(* ===== verification/UsersApi.v ===== *)
(** The endpoints of accounts: signing in, profiles, roles, invitations,
    links of the user ([api/v1/users.py], [api/v1/auth.py], the two
    activation endpoints of [api/v1/setup.py], [schemas/user.py] under
    [backend/corelab_backend]).

    [jwt_decode] and [jwt_encode] are PyJWT with the server's secret, [int_str]
    is [int] on text, [lower_str] lower-cases a scheme, [ci] is the key of the
    collation; fresh secrets and the agents' answers are arguments. *)

From S2P Require Import Prelude PyText PyFloat Models SessionLayer RequestLayer.
From S2P Require Import RateLimit AgentRpc AuditService AuthDependencies AuthService.
From S2P Require Import UserService SetupService AccountLinkService AccountLinkRequestService ServerService.
From S2P Require Import UsageService ReservationsApi.

(** * Addresses in links *)

(** What the request says of the address the browser used. *)
Record UrlRequest : Type := mkUrlRequest {
  ur_forwarded_host : option pystr ;
  ur_host : option pystr ;
  ur_forwarded_proto : option pystr ;
  ur_scheme : pystr }.

(** [a or b] on optional text. *)
Definition first_truthy (a b : option pystr) : option pystr :=
  match a with Some (_ :: _) => a | _ => match b with Some (_ :: _) => b | _ => None end end.

Definition _public_base_url (public_url : pystr) (r : UrlRequest) : pystr :=
  let configured := rstrip_slash public_url in
  if negb (bool_decide (configured ∈ [u "http://localhost"; u "http://127.0.0.1"])) then configured
  else match first_truthy (ur_forwarded_host r) (ur_host r) with
       | None => configured
       | Some host =>
           let proto := default (ur_scheme r) (first_truthy (ur_forwarded_proto r) None) in
           rstrip_slash (proto ++ u "://" ++ host)
       end.

Definition _registration_url (public_url : pystr) (r : UrlRequest) (token : string) : pystr :=
  _public_base_url public_url r ++ u "/register?token=" ++ u token.

Definition _password_reset_url (public_url : pystr) (r : UrlRequest) (token : string) : pystr :=
  _public_base_url public_url r ++ u "/activate?token=" ++ u token ++ u "&mode=reset".

(** * Answers *)

Record UserInviteResponse : Type := mkInvited {
  iv_user : option User.t ;
  iv_invitation_id : option Z ;
  iv_role : string ;
  iv_setup_token : string ;
  iv_activation_url : pystr ;
  iv_expires_at : Z }.

Record PasswordResetResponse : Type := mkReset {
  pr_user : User.t ;
  pr_setup_token : string ;
  pr_reset_url : pystr ;
  pr_expires_at : Z }.

Record MyGrantItem : Type := mkGrantItem {
  mg_server_id : Z ;
  mg_hostname : string ;
  mg_display_name : option string ;
  mg_notes : option pystr }.

Record ProfileLinkItem : Type := mkProfileLink {
  pl_link_id : Z ;
  pl_physical_account_id : Z ;
  pl_linux_username : string ;
  pl_server_hostname : string ;
  pl_source : LinkSource ;
  pl_is_active : bool ;
  pl_revoked_at : option Z }.

Record ProfilePendingRequest : Type := mkProfilePending {
  pp_request_id : Z ;
  pp_physical_account_id : Z ;
  pp_linux_username : string ;
  pp_server_hostname : string ;
  pp_request_note : option string }.

Record ProfileReservationStats : Type := mkStats {
  ps_active_count : Z ;
  ps_last_30d_count : Z ;
  ps_gpu_hours_7d : spec_float ;
  ps_gpu_hours_30d : spec_float }.

Record UserProfileSummary : Type := mkSummary {
  sm_user : User.t ;
  sm_active_links : list ProfileLinkItem ;
  sm_revoked_links : list ProfileLinkItem ;
  sm_pending_requests : list ProfilePendingRequest ;
  sm_ssh_keys : list SshPublicKey.t ;
  sm_reservation_stats : ProfileReservationStats ;
  sm_top_gpu_7d : list (Z * Z * Z * string * spec_float) ;
  sm_recent_audit : list AuditItem }.

Record UserReservationsResponse : Type := mkUserReservations {
  rs_upcoming : list ReservationItem ;
  rs_last_30d : list ReservationItem ;
  rs_gpu_hours_30d : spec_float ;
  rs_gpu_hours_by_server_30d : list (Z * Z * Z * string * spec_float) }.

(** * Errors *)

Definition user_not_found (e : exn) : exn :=
  match e with UserNotFoundError => HTTPException 404 "user_not_found" | _ => e end.

(** The 409 follows a flush that failed. *)
Definition update_error (e : exn) : exn :=
  match e with
  | DuplicateUserError => after_failed_flush (HTTPException 409 "DuplicateUserError")
  | UserError => HTTPException 403 "UserError"
  | _ => user_not_found e
  end.

Definition admin_error (self : exn) (detail : string) (e : exn) : exn :=
  if bool_decide (e = self) then HTTPException 400 detail
  else match e with
       | LastAdminError => HTTPException 409 "must_keep_one_active_admin"
       | _ => user_not_found e
       end.

Definition password_error (e : exn) : exn :=
  match e with WrongPasswordError => HTTPException 400 "wrong_old_password" | _ => e end.

Definition reset_error (e : exn) : exn :=
  match e with UserNotActivatedError => HTTPException 409 "user_not_activated" | _ => user_not_found e end.

Definition resend_error (e : exn) : exn :=
  match e with UserAlreadyActivatedError => HTTPException 409 "user_already_activated" | _ => user_not_found e end.

Definition invite_error (e : exn) : exn :=
  match e with
  | RegistrationInviteNotFoundError => HTTPException 404 "registration_invite_not_found"
  | RegistrationInviteNotRevokableError => HTTPException 409 "registration_invite_not_revokable"
  | _ => e
  end.

Definition login_error (e : exn) : exn :=
  match e with
  | AccountLockedError => HTTPException 429 "ACCOUNT_LOCKED"
  | AccountDisabledError => HTTPException 403 "account_disabled"
  | InvalidCredentialsError => HTTPException 401 "invalid_credentials"
  | _ => e
  end.

Definition link_error (e : exn) : exn :=
  match e with InvalidActivationTokenError reason => HTTPException 400 reason | _ => e end.

(** The last conflict is found by a flush, the others before it. *)
Definition activate_error (e : exn) : exn :=
  match e with
  | ActivationProfileConflictError reason =>
      if bool_decide (reason = "username_or_email_taken"%string) then after_failed_flush (HTTPException 409 reason)
      else HTTPException 409 reason
  | ActivationSshKeyError => HTTPException 400 "ActivationSshKeyError"
  | _ => link_error e
  end.

(** * Endpoints *)

Section endpoints.
Context (ci : string → string) (isoformat : Z → string).
Context (bcrypt_hash : string → string) (bcrypt_check : string → string → bool) (sha256_hex : string → string).
Context (public_url : pystr).

Definition list_users_endpoint (current : AuthenticatedUser) : M (list User.t) := list_users (User.lab_id current).

(** [create_registration_invite]; the deprecated [invite_user] does the same
    with the role of its body. *)
Definition create_registration_invite (plaintext role : string) (url : UrlRequest) (current : AuthenticatedUser)
    (req : RequestInfo) : M UserInviteResponse :=
  '(invite, plaintext, expires_at) ←
    issue_registration_invite sha256_hex isoformat plaintext (User.lab_id current) role (User.id current) req ;
  mret (mkInvited None (Some (RegistrationInvite.id invite)) (RegistrationInvite.role invite) plaintext
          (_registration_url public_url url plaintext) expires_at).

Definition invite_user := create_registration_invite.

(** [limit] is between 1 and 200. *)
Definition list_registration_invites_endpoint (limit : nat) (current : AuthenticatedUser) :
    M (list RegistrationInviteRead) :=
  list_registration_invites (User.lab_id current) limit.

Definition revoke_registration_invite_endpoint (invite_id : Z) (current : AuthenticatedUser) (req : RequestInfo) :
    M RegistrationInviteRead :=
  mapping (revoke_registration_invite isoformat invite_id (User.lab_id current) (User.id current) req) invite_error.

Definition list_my_account_links (include_history : bool) (current : AuthenticatedUser) : M (list AccountLink.t) :=
  if include_history then list_all_for_user (User.id current) else list_active_for_user (User.id current).

Definition list_my_account_link_requests (current : AuthenticatedUser) : M (list AccountLinkRequest.t) :=
  list_for_requester (User.id current).

(** [server_service.list_grants_for_user] *)
Definition hostname_le (a b : ServerAdminGrant.t * Server.t) : Prop :=
  text_le (ci (Server.hostname a.2)) (ci (Server.hostname b.2)).
#[export] Instance hostname_le_dec : RelDecision hostname_le.
Proof. intros a b. unfold hostname_le. apply _. Defined.

Definition list_grants_for_user (user_id lab_id : Z) : M (list (ServerAdminGrant.t * Server.t)) :=
  gets (λ s, merge_sort hostname_le (omap (λ g,
    sv ← servers (db s) !! ServerAdminGrant.server_id g ;
    if bool_decide (Server.lab_id sv = lab_id) then Some (g, sv) else None) (grants_of (db s) user_id))).

Definition via_role : pystr := u "via lab_admin role".

Definition list_my_grants (current : AuthenticatedUser) : M (list MyGrantItem) :=
  if bool_decide (User.role current = "lab_admin"%string) then
    servers_ ← list_servers (User.lab_id current) ;
    mret ((λ sv, mkGrantItem (Server.id sv) (Server.hostname sv) (Server.display_name sv) (Some via_role)) <$> servers_)
  else
    pairs ← list_grants_for_user (User.id current) (User.lab_id current) ;
    mret ((λ p, mkGrantItem (Server.id p.2) (Server.hostname p.2) (Server.display_name p.2)
                  (ServerAdminGrant.notes p.1)) <$> pairs).

Definition me (current : AuthenticatedUser) : M User.t := mret current.

Definition change_password_endpoint (old_password new_password : string) (current : AuthenticatedUser)
    (req : RequestInfo) : M unit :=
  mapping (change_password ci bcrypt_hash bcrypt_check old_password new_password (User.id current)
             (User.lab_id current) req) password_error.

Definition get_user_endpoint (user_id : Z) (current : AuthenticatedUser) : M User.t :=
  mapping (get_user user_id (User.lab_id current)) user_not_found.

(** ** The page about a user *)

(** A link or a request with its account and the server of that, in the lab. *)
Definition in_lab_join {A} (d : Db) (lab_id pa_id : Z) (row : A) : option (A * PhysicalAccount.t * Server.t) :=
  pa ← physical_accounts d !! pa_id ;
  sv ← servers d !! PhysicalAccount.server_id pa ;
  if bool_decide (Server.lab_id sv = lab_id) then Some (row, pa, sv) else None.

Definition link_rows (d : Db) (user_id lab_id : Z) : list (AccountLink.t * PhysicalAccount.t * Server.t) :=
  omap (λ l, in_lab_join d lab_id (AccountLink.physical_account_id l) l)
    (order_by_desc AccountLink.id (filter (λ l, AccountLink.user_id l = user_id) (rows (account_links d)))).

Definition link_item (x : AccountLink.t * PhysicalAccount.t * Server.t) : ProfileLinkItem :=
  let '(link, pa, srv) := x in
  mkProfileLink (AccountLink.id link) (PhysicalAccount.id pa) (PhysicalAccount.linux_username pa)
    (Server.hostname srv) (AccountLink.source link) (negb (bool_decide (AccountLink.is_active link = 0)))
    (AccountLink.revoked_at link).

Definition pending_rows (d : Db) (user_id lab_id : Z) : list (AccountLinkRequest.t * PhysicalAccount.t * Server.t) :=
  omap (λ r, in_lab_join d lab_id (AccountLinkRequest.physical_account_id r) r)
    (order_by_desc AccountLinkRequest.id
       (filter (λ r, AccountLinkRequest.requester_user_id r = user_id ∧ AccountLinkRequest.status r = request_pending)
          (rows (account_link_requests d)))).

Definition pending_item (x : AccountLinkRequest.t * PhysicalAccount.t * Server.t) : ProfilePendingRequest :=
  let '(r, pa, srv) := x in
  mkProfilePending (AccountLinkRequest.id r) (PhysicalAccount.id pa) (PhysicalAccount.linux_username pa)
    (Server.hostname srv) (AccountLinkRequest.request_note r).

Definition keys_of (d : Db) (user_id : Z) : list SshPublicKey.t :=
  order_by_desc SshPublicKey.id (filter (λ k, SshPublicKey.user_id k = user_id) (rows (ssh_public_keys d))).

(** [SELECT COUNT] over the user's bookings. *)
Definition count_reservations (d : Db) (user_id : Z) (P : Reservation.t → Prop) `{∀ r, Decision (P r)} : Z :=
  Z.of_nat (length (filter (λ r, Reservation.user_id r = user_id ∧ P r) (rows (reservations d)))).

Definition reservation_stats (d : Db) (user_id now : Z) : ProfileReservationStats :=
  let window_30d := now - days 30 in
  let window_7d := now - days 7 in
  mkStats
    (count_reservations d user_id (λ r, Reservation.status r ∈ [STATUS_SCHEDULED; STATUS_ACTIVE] ∧
                                        now < Reservation.end_at r))
    (count_reservations d user_id (λ r, Reservation.start_at r < now ∧ window_30d < Reservation.end_at r))
    (py_round 2 (gpu_hours_for_user_in_window d user_id window_7d now now))
    (py_round 2 (gpu_hours_for_user_in_window d user_id window_30d now now)).

Definition is_active_item (i : ProfileLinkItem) : bool := pl_is_active i.

Definition get_user_profile_summary (user_id : Z) (current : AuthenticatedUser) : M UserProfileSummary :=
  let lab_id := User.lab_id current in
  user ← mapping (get_user user_id lab_id) user_not_found ;
  d ← gets db ;
  let items := link_item <$> link_rows d user_id lab_id in
  at_ ← utcnow ;
  audit ← list_logs lab_id (mkAuditAccessContext scope_all [] None)
            (mkAuditFilters (Some user_id) None None None None None) 1 5 ;
  mret (mkSummary user (filter (λ i, is_active_item i = true) items) (filter (λ i, is_active_item i = false) items)
          (pending_item <$> pending_rows d user_id lab_id) (keys_of d user_id) (reservation_stats d user_id at_)
          (gpu_ranking_for_user_in_window d user_id (at_ - days 7) at_ at_ 5) audit.1).

Definition get_user_reservations (user_id : Z) (current : AuthenticatedUser) : M UserReservationsResponse :=
  mapping (get_user user_id (User.lab_id current)) user_not_found ;;
  d ← gets db ;
  at_ ← utcnow ;
  let past_30d := at_ - days 30 in
  let next_60d := at_ + days 60 in
  mret (mkUserReservations (user_reservations_window d user_id at_ next_60d at_)
          (user_reservations_window d user_id past_30d at_ at_)
          (py_round 2 (gpu_hours_for_user_in_window d user_id past_30d at_ at_))
          (gpu_ranking_for_user_in_window d user_id past_30d at_ at_ 10)).

(** ** Changing accounts *)

Definition update_user_endpoint (user_id : Z) (display_name email : option string) (current : AuthenticatedUser)
    (req : RequestInfo) : M User.t :=
  mapping (update_user ci user_id display_name email (User.id current) (User.role current) (User.lab_id current) req)
    update_error.

Definition change_role_endpoint (user_id : Z) (role : string) (current : AuthenticatedUser) (req : RequestInfo) :
    M User.t :=
  mapping (change_role ci user_id role (User.id current) (User.lab_id current) req)
    (admin_error SelfRoleChangeError "cannot_change_own_role").

Definition disable_user_endpoint (reply : Z → rpc_result) (message : Z → string) (user_id : Z)
    (current : AuthenticatedUser) (req : RequestInfo) : M User.t :=
  mapping (disable_user ci reply message user_id (User.id current) (User.lab_id current) req)
    (admin_error SelfDisableError "cannot_disable_self").

Definition reactivate_user_endpoint (user_id : Z) (current : AuthenticatedUser) (req : RequestInfo) : M User.t :=
  mapping (reactivate_user ci user_id (User.id current) (User.lab_id current) req) user_not_found.

Definition reset_user_password (plaintext : string) (user_id : Z) (url : UrlRequest) (current : AuthenticatedUser)
    (req : RequestInfo) : M PasswordResetResponse :=
  '(user, plaintext, expires_at) ←
    mapping (issue_password_reset isoformat sha256_hex plaintext user_id (User.id current) (User.lab_id current) req)
      reset_error ;
  mret (mkReset user plaintext (_password_reset_url public_url url plaintext) expires_at).

Definition resend_invite_endpoint (plaintext : string) (user_id : Z) (url : UrlRequest) (current : AuthenticatedUser)
    (req : RequestInfo) : M UserInviteResponse :=
  '(user, plaintext, expires_at) ←
    mapping (resend_invite isoformat sha256_hex plaintext user_id (User.id current) (User.lab_id current) req)
      resend_error ;
  mret (mkInvited (Some user) None (User.role user) plaintext (_registration_url public_url url plaintext) expires_at).

(** ** Signing in and out, redeeming links *)

Context {R : Type} `{Redis R} (jwt_encode : list (string * json) → string) (body_digest : pystr → option pystr).

Definition login (username password : string) (req : RequestInfo) : Handler R LoginResponse :=
  hmapping (authenticate ci bcrypt_check jwt_encode username password req) login_error.

Definition logout (current : AuthenticatedUser) (req : RequestInfo) : M unit :=
  record_logout (User.id current) (User.lab_id current) req.

Definition activate_validate (token : string) : M ActivateValidate :=
  mapping (validate_activation_token sha256_hex token) link_error.

Definition activate_endpoint (token : string) (p : Profile) (req : RequestInfo) : M User.t :=
  mapping (activate ci bcrypt_hash sha256_hex body_digest token p req) activate_error.
End endpoints.

(** ** The form of a registration *)

Record ActivateSubmit : Type := mkSubmit {
  as_token : pystr ;
  as_username : option pystr ;
  as_email : option pystr ;
  as_display_name : option pystr ;
  as_password : pystr ;
  as_ssh_key_label : option pystr ;
  as_ssh_key_public_key : option pystr }.

(** [_blank_to_none]: runs before the lengths are checked. *)
Definition _blank_to_none (v : option pystr) : option pystr :=
  match v with
  | Some s => match strip s with [] => None | t => Some t end
  | None => None
  end.

Definition opt_ok (p : pystr → bool) (v : option pystr) : bool := match v with Some s => p s | None => true end.

Definition validate_submit (r : ActivateSubmit) : option (string * Profile) :=
  let label := _blank_to_none (as_ssh_key_label r) in
  let key := _blank_to_none (as_ssh_key_public_key r) in
  if sized 8 128 (as_token r) &&
     opt_ok (λ s, sized 3 64 s && matches_username s) (as_username r) &&
     opt_ok (λ s, sized 3 255 s && matches_email s) (as_email r) &&
     opt_ok (sized 1 100) (as_display_name r) && sized 8 256 (as_password r) &&
     opt_ok (sized 0 255) label && opt_ok (sized 20 8192) key
  then Some (utf8 (as_token r),
             mkProfile (utf8 (as_password r)) (utf8 <$> as_username r) (utf8 <$> as_email r)
               (utf8 <$> as_display_name r) label key)
  else None.

(** * Requests *)

(** A request of the account pages.  [credentials] is the header of the
    request, where the endpoint depends on it. *)
Inductive account_call : Type :=
| ac_list_users
| ac_invite (plaintext role : string) (url : UrlRequest)
| ac_list_invites (limit : nat)
| ac_revoke_invite (invite_id : Z)
| ac_my_links (include_history : bool)
| ac_my_requests
| ac_my_grants
| ac_me
| ac_password (old_password new_password : string)
| ac_get (user_id : Z)
| ac_profile (user_id : Z)
| ac_reservations (user_id : Z)
| ac_update (user_id : Z) (display_name email : option string)
| ac_role (user_id : Z) (role : string)
| ac_disable (reply : Z → rpc_result) (message : Z → string) (user_id : Z)
| ac_reactivate (user_id : Z)
| ac_reset (plaintext : string) (user_id : Z) (url : UrlRequest)
| ac_resend (plaintext : string) (user_id : Z) (url : UrlRequest)
| ac_logout.

Inductive account_request : Type :=
| ar_login (username password : string)
| ar_validate (token : string)
| ar_activate (token : string) (p : Profile)
| ar_call (credentials : Credentials) (call : account_call).

(** The endpoints with [require_role("lab_admin")] in front. *)
Definition for_admins (call : account_call) : bool :=
  match call with
  | ac_invite _ _ _ | ac_list_invites _ | ac_revoke_invite _ | ac_profile _ | ac_reservations _ | ac_role _ _
  | ac_disable _ _ _ | ac_reactivate _ | ac_reset _ _ _ | ac_resend _ _ _ => true
  | _ => false
  end.

Section requests.
Context (ci : string → string) (isoformat : Z → string).
Context (bcrypt_hash : string → string) (bcrypt_check : string → string → bool) (sha256_hex : string → string).
Context (public_url : pystr) (body_digest : pystr → option pystr).
Context (jwt_encode : list (string * json) → string) (jwt_decode : Z → string → option (list (string * json))).
Context (int_str : string → option Z) (lower_str : string → string).

(** The dependency of a call. *)
Definition caller (credentials : Credentials) (call : account_call) : M AuthenticatedUser :=
  if for_admins call then require_role jwt_decode int_str lower_str ["lab_admin"%string] credentials
  else get_current_user jwt_decode int_str lower_str credentials.

Definition answer_call (call : account_call) (current : AuthenticatedUser) (req : RequestInfo) : M unit :=
  match call with
  | ac_list_users => list_users_endpoint current ;; skip
  | ac_invite plaintext role url =>
      create_registration_invite isoformat sha256_hex public_url plaintext role url current req ;; skip
  | ac_list_invites limit => list_registration_invites_endpoint limit current ;; skip
  | ac_revoke_invite id => revoke_registration_invite_endpoint isoformat id current req ;; skip
  | ac_my_links h => list_my_account_links h current ;; skip
  | ac_my_requests => list_my_account_link_requests current ;; skip
  | ac_my_grants => list_my_grants ci current ;; skip
  | ac_me => me current ;; skip
  | ac_password old new => change_password_endpoint ci bcrypt_hash bcrypt_check old new current req
  | ac_get id => get_user_endpoint id current ;; skip
  | ac_profile id => get_user_profile_summary id current ;; skip
  | ac_reservations id => get_user_reservations id current ;; skip
  | ac_update id name email => update_user_endpoint ci id name email current req ;; skip
  | ac_role id role => change_role_endpoint ci id role current req ;; skip
  | ac_disable reply message id => disable_user_endpoint ci reply message id current req ;; skip
  | ac_reactivate id => reactivate_user_endpoint ci id current req ;; skip
  | ac_reset plaintext id url => reset_user_password isoformat sha256_hex public_url plaintext id url current req ;; skip
  | ac_resend plaintext id url =>
      resend_invite_endpoint isoformat sha256_hex public_url plaintext id url current req ;; skip
  | ac_logout => logout current req
  end.

Context {R : Type} `{Redis R}.

Definition answer (rq : account_request) (req : RequestInfo) : Handler R unit :=
  match rq with
  | ar_login username password =>
      login ci bcrypt_check jwt_encode username password req ;; mret tt
  | ar_validate token => in_session (activate_validate sha256_hex token ;; skip)
  | ar_activate token p => in_session (activate_endpoint ci bcrypt_hash sha256_hex body_digest token p req ;; skip)
  | ar_call credentials call =>
      in_session (current ← caller credentials call ; answer_call call current req)
  end.

(** The requests of the account pages one after the other. *)
Definition handle (rq : account_request) (req : RequestInfo) (at_ : Z) (uuid : string) (w : Db * Limiter R) :
    Db * Limiter R :=
  let '(_, d, l) := get_world_session (answer rq req) w.1 w.2 at_ uuid in (d, l).
End requests.
