(* ===== verification/SetupProperties.v ===== *)
(** What the first run guarantees: a usable slug for every name, one
    laboratory with an administrator and never a second one
    ([services/setup_service.py]). *)

From S2P Require Import Prelude PyText Models SessionLayer RequestLayer.
From S2P Require Import RateLimit RateLimitProperties AuditService PhysicalAccountService AuthService.
From S2P Require Import LabUrlService SetupService UserService UserProperties AccountLinkService.
From S2P Require Import AuthDependencies Samples SshKeyService ServerService AgentRpc.

(** ** Slugs *)

Section slugs.
Local Open Scope N_scope.

Definition no_upper (s : pystr) : Prop := Forall (λ c, upper_letter c = false) s.
Definition slug_chars (s : pystr) : Prop := Forall (λ c, slug_char c = true) s.

Lemma alnum_slug c : alnum c = true → upper_letter c = false → slug_char c = true.
Proof. unfold alnum, slug_char. intros H Hu. by rewrite Hu, orb_false_r in H; rewrite H. Qed.

Lemma hyphenate_chars run s : no_upper s → slug_chars (hyphenate run s).
Proof.
  intros H. revert run. induction H as [|c s Hc Hs IH]; intros run; simpl; [constructor|].
  destruct (alnum c) eqn:Ha; [constructor; [by apply alnum_slug|apply IH]|].
  destruct run; [apply IH|]. constructor; [done|apply IH].
Qed.

Lemma lstrip_hyphen_suffix s : ∃ h, s = h ++ lstrip_hyphen s.
Proof.
  induction s as [|c s [h IH]]; [by exists []|]. simpl. destruct (c =? hyphen)%N; [|by exists []].
  exists (c :: h). simpl. by rewrite <- IH.
Qed.

Lemma lstrip_hyphen_head s c r : lstrip_hyphen s = c :: r → (c =? hyphen) = false.
Proof. induction s as [|c' s IH]; [done|]. simpl. destruct (c' =? hyphen) eqn:Hc; [done|]. by intros [= <- <-]. Qed.

Lemma strip_hyphen_prefix s : ∃ t, lstrip_hyphen s = strip_hyphen s ++ t.
Proof.
  unfold strip_hyphen. destruct (lstrip_hyphen_suffix (rev (lstrip_hyphen s))) as [h Hh]. exists (rev h).
  apply (f_equal (@rev N)) in Hh. by rewrite rev_involutive, rev_app_distr in Hh.
Qed.

Lemma strip_hyphen_chars s : slug_chars s → slug_chars (strip_hyphen s).
Proof.
  unfold slug_chars. intros H. destruct (lstrip_hyphen_suffix s) as [h Hh]. rewrite Hh, Forall_app in H.
  destruct H as [_ H]. destruct (strip_hyphen_prefix s) as [t Ht]. rewrite Ht, Forall_app in H. apply H.
Qed.

Lemma strip_hyphen_head s c r : strip_hyphen s = c :: r → (c =? hyphen) = false.
Proof.
  intros H. destruct (strip_hyphen_prefix s) as [t Ht]. rewrite H in Ht. by eapply lstrip_hyphen_head.
Qed.

Lemma matches_slug_chars c rest :
  lower_letter c = true → slug_chars rest → (1 <= length rest <= 49)%nat → matches_slug (c :: rest) = true.
Proof.
  intros Hc Hr [H1 H2]. unfold matches_slug. rewrite Hc.
  assert (forallb slug_char rest = true) as -> by (apply forallb_forall; intros x ?%list_elem_of_In; by eapply Forall_forall in Hr).
  apply Nat.leb_le in H1, H2. by rewrite H1, H2.
Qed.

Lemma token_slug token : length token = 8%nat → slug_chars token → matches_slug (u "lab-" ++ token) = true.
Proof.
  intros Htl Htk. change (u "lab-" ++ token) with (108 :: [97; 98; 45] ++ token). apply matches_slug_chars; [done| |].
  - apply Forall_app. split; [by repeat constructor|done].
  - rewrite length_app, Htl. simpl. lia.
Qed.

(** A text that begins like a slug, cut to fifty characters. *)
Lemma cut_slug token c s :
  lower_letter c = true → slug_chars s →
  length token = 8%nat → slug_chars token →
  let cut := take 50 (c :: s) in
  matches_slug (if (length cut <? 2)%nat then u "lab-" ++ token else cut) = true.
Proof.
  intros Hc Hs Htl Htk. cbv zeta. destruct (length (take 50 (c :: s)) <? 2)%nat eqn:Hlen.
  - by apply token_slug.
  - apply Nat.ltb_ge in Hlen. change (take 50 (c :: s)) with (c :: take 49 s) in *. simpl in Hlen.
    rewrite length_take in Hlen. apply matches_slug_chars; [done|by apply Forall_take|].
    rewrite length_take. lia.
Qed.

(** C40: the slug derived from the name of a laboratory, whatever the name,
    is one the schema accepts: a lower-case letter followed by up to 49
    lower-case letters, digits and hyphens, and at least one.  (Lower-cased
    text has no upper-case letter, and [token_hex(4)] is eight hexadecimal
    digits.) *)
Theorem derive_slug_matches py_lower token name :
  no_upper (py_lower name) → length token = 8%nat → slug_chars token →
  matches_slug (derive_slug py_lower token name) = true.
Proof.
  intros Hup Htl Htk. unfold derive_slug. cbv zeta.
  pose proof (strip_hyphen_chars _ (hyphenate_chars false _ Hup)) as Hch.
  pose proof (strip_hyphen_head (hyphenate false (py_lower name))) as Hh.
  assert (Hno : Forall (λ c, upper_letter c = true → c = hyphen) (strip_hyphen (hyphenate false (py_lower name)))).
  { apply Forall_forall. intros c Hc Hupc. eapply Forall_forall in Hch; [|exact Hc].
    unfold slug_char, lower_letter, upper_letter, digit, in_range, hyphen in *.
    rewrite ?orb_true_iff, ?andb_true_iff, ?N.leb_le, ?N.eqb_eq in *. lia. }
  destruct (strip_hyphen _) as [|c s]; [by apply token_slug|].
  specialize (Hh c s eq_refl). apply Forall_cons in Hch as [Hc Hs]. apply Forall_cons in Hno as [Hnc _].
  destruct (lower_letter c || upper_letter c) eqn:Hl.
  - apply cut_slug; [|done..]. destruct (lower_letter c) eqn:Hlc; [done|]. simpl in Hl.
    rewrite (Hnc Hl) in Hh. done.
  - apply (cut_slug token 108 ([97; 98; 45] ++ c :: s)); [done| |done..].
    apply Forall_app. split; [by repeat constructor|by constructor].
Qed.
End slugs.

(** ** One run *)

(** Every user is of a laboratory of the table. *)
Definition users_in_labs (d : Db) : Prop := ∀ k u, users d !! k = Some u → is_Some (labs d !! User.lab_id u).

Section run.
Context {R : Type} `{RedisLaws R} (py_lower : pystr → pystr) (py_str : json → string) (loads : string → option json).
Context (ci bcrypt_hash : string → string) (token : pystr) (public_url : string).

Abbreviation load := (_load_seed_urls py_str loads).
Abbreviation init := (init py_lower py_str loads ci bcrypt_hash token public_url).
Abbreviation install := (install py_lower py_str loads ci bcrypt_hash token public_url).

(** The staged addresses, and the store afterwards. *)
Definition staged (reads deletes : bool) (at_ms : Z) (l : Limiter R) : list UrlEntry * Limiter R :=
  match client l with
  | None => ([], l)
  | Some r =>
      if negb reads then ([], l)
      else match get_key at_ms SEED_URLS_REDIS_KEY r ≫= loads with
           | Some (JList data) =>
               (mark_primary (omap (from_dict py_str) data),
                l <| client := Some (if deletes then delete_key at_ms SEED_URLS_REDIS_KEY r else r) |>)
           | _ => ([], l)
           end
  end.

Lemma load_run reads deletes s l :
  load reads deletes (s, l) =
    (Ok (staged reads deletes (now_ms s) l).1, (s, (staged reads deletes (now_ms s) l).2)).
Proof using Type.
  unfold _load_seed_urls, staged. cbn [fst snd]. destruct (client l) as [r|]; [|done]. destruct reads; [|done].
  simpl negb. cbv iota. destruct (get_key (now_ms s) SEED_URLS_REDIS_KEY r) as [raw|]; [|done]. simpl.
  by destruct (loads raw) as [[]|].
Qed.

(** What the laboratory's list starts as. *)
Definition first_urls (reads deletes : bool) (at_ms : Z) (l : Limiter R) : list UrlEntry :=
  match (staged reads deletes at_ms l).1 with [] => _fallback_seed_url public_url | entries => entries end.

Lemma mark_primary_marks entries : mark_primary entries = [] ∨ existsb primary (mark_primary entries) = true.
Proof using Type.
  destruct entries as [|e rest]; [by left|]. right. unfold mark_primary. by destruct (existsb primary (e :: rest)) eqn:He.
Qed.

Lemma first_urls_primary reads deletes at_ms l :
  first_urls reads deletes at_ms l = [] ∨ existsb primary (first_urls reads deletes at_ms l) = true.
Proof using Type.
  assert (Hf : _fallback_seed_url public_url = [] ∨ existsb primary (_fallback_seed_url public_url) = true).
  { unfold _fallback_seed_url. case_bool_decide; [by left|by right]. }
  unfold first_urls, staged. destruct (client l) as [r|]; [|exact Hf]. destruct (negb reads); [exact Hf|].
  destruct (get_key at_ms SEED_URLS_REDIS_KEY r ≫= loads) as [[]|]; try exact Hf. cbn [fst].
  match goal with |- context [mark_primary ?es] => destruct (mark_primary_marks es) as [->|Hm] end; [exact Hf|].
  destruct (mark_primary _) eqn:He; [exact Hf|by right].
Qed.

Definition first_lab (id : Z) (p : SetupInitRequest) (entries : list UrlEntry) : Lab.t :=
  Lab.mk id (utf8 (si_lab_name p)) (utf8 (setup_slug py_lower token p)) (to_dict <$> entries) "none" None.

Definition first_admin (id lab_id : Z) (p : SetupInitRequest) : User.t :=
  User.mk id lab_id (utf8 (si_admin_username p)) (utf8 (si_admin_display_name p)) "lab_admin" 1
    (utf8 (si_admin_email p)) (Some (bcrypt_hash (utf8 (si_admin_password p)))) None None.

Definition with_lab (lab : Lab.t) (d : Db) : Db :=
  d <| labs := {[Lab.id lab := lab]} |> <| next_lab_id := Lab.id lab + 1 |>.
Definition with_admin (u : User.t) (d : Db) : Db :=
  d <| users := {[User.id u := u]} |> <| next_user_id := User.id u + 1 |>.

Definition installed_db (p : SetupInitRequest) (entries : list UrlEntry) (e : AuditLog.t) (d : Db) : Db :=
  let d' := with_admin (first_admin (next_user_id d) (next_lab_id d) p)
              (with_lab (first_lab (next_lab_id d) p entries) d) in
  d' <| audit_log := audit_log d' ++ [e] |>.

Lemma add_first_lab (l : Limiter R) name slug s :
  labs (db s) = ∅ →
  let lab := Lab.mk (next_lab_id (db s)) name slug [] "none" None in
  in_session (or_setup_error (add_lab ci name slug)) (s, l) = (Ok lab, (s <| db := with_lab lab (db s) |>, l)).
Proof using Type.
  intros Hl. cbv zeta. apply in_session_ok. unfold or_setup_error, mapping, try_except, add_lab, slug_taken, with_lab.
  by rewrite Hl, insert_empty.
Qed.

Lemma add_first_user (l : Limiter R) mk_row s :
  let row := mk_row (next_user_id (db s)) in
  User.id row = next_user_id (db s) → users (db s) = ∅ → is_Some (labs (db s) !! User.lab_id row) →
  User.role row = "lab_admin"%string →
  in_session (or_setup_error (add_user ci mk_row)) (s, l) = (Ok row, (s <| db := with_admin row (db s) |>, l)).
Proof using Type.
  intros row Hid Hu [lab Hlab] Hr. apply in_session_ok.
  unfold or_setup_error, mapping, try_except, add_user, user_row_error, name_taken, email_taken, with_admin.
  cbv zeta. fold row. by rewrite Hlab, Hr, Hid, Hu, insert_empty.
Qed.

(** The list of the laboratory just stored, when there is something to store. *)
Lemma write_urls_run lab entries s d (l : Limiter R) :
  clean s →
  let lab' := if bool_decide (entries = []) then lab else _persist lab entries in
  (if bool_decide (entries = []) then mret lab else in_session (replace_all lab entries))
    (s <| db := with_lab lab d |>, l) =
    if forallb entry_valid entries then (Ok lab', (s <| db := with_lab lab' d |>, l))
    else (Raise LabUrlError, (s <| db := with_lab lab d |>, l)).
Proof using Type.
  intros Hc lab'. destruct entries as [|e es]; [done|]. unfold lab'. clear lab'.
  rewrite !(bool_decide_false (_ = [])) by done. unfold in_session, replace_all. cbn [fst snd].
  destruct (forallb entry_valid (e :: es)) eqn:Hv; [|done].
  set (s0 := s <| db := with_lab lab d |>). cbn [negb]. unfold raise_if.
  rewrite (bind_run skip _ s0 tt s0) by reflexivity. unfold persist. cbv zeta.
  assert (Hset : set_lab (_persist lab (e :: es)) s0 = (Ok tt, s <| db := with_lab (_persist lab (e :: es)) d |>)).
  { unfold set_lab, update, s0, with_lab. cbn. by rewrite insert_singleton_eq. }
  rewrite (bind_run _ _ _ _ _ Hset). set (s1 := s <| db := with_lab (_persist lab (e :: es)) d |>).
  assert (Hc1 : clean s1) by exact Hc. by rewrite (bind_run flush _ s1 tt s1) by by apply flush_clean.
Qed.

(** The administrator and the entry, for the laboratory stored before. *)
Lemma finish_run (l : Limiter R) lab p req s d :
  clean s → users d = ∅ →
  let uid := next_user_id d in
  let admin := new_admin bcrypt_hash (Lab.id lab) p uid in
  let d' := with_admin admin (with_lab lab d) in
  ∃ e,
    (admin ← in_session (or_setup_error (add_user ci (new_admin bcrypt_hash (Lab.id lab) p))) ;
     in_session (write "setup.init" (Some (User.id admin)) (Some (Lab.id lab)) (Some "lab"%string) (Some (Lab.id lab))
       None None
       (JObj [("lab_slug", JStr (Lab.slug lab)); ("admin_username", JStr (User.username admin));
              ("admin_email", JStr (User.email admin))]%string) req) ;;
     mret (lab, admin)) (s <| db := with_lab lab d |>, l) =
      (Ok (lab, admin), (s <| db := d' <| audit_log := audit_log d' ++ [e] |> |>, l)) ∧
    AuditLog.action e = "setup.init"%string ∧ AuditLog.target_id e = Some (Lab.id lab) ∧
    AuditLog.actor_user_id e = Some uid.
Proof using Type.
  intros Hc Hu uid admin d'. set (s0 := s <| db := with_lab lab d |>).
  assert (Hadm := add_first_user l (new_admin bcrypt_hash (Lab.id lab) p) s0 eq_refl Hu). cbv zeta in Hadm.
  rewrite (bind_run _ _ _ _ _ (Hadm ltac:(exists lab; apply lookup_singleton_eq) eq_refl)). clear Hadm.
  change (new_admin bcrypt_hash (Lab.id lab) p (next_user_id (db s0))) with admin.
  change (s0 <| db := with_admin admin (db s0) |>) with (s <| db := d' |>).
  set (s1 := s <| db := d' |>). assert (Hc1 : clean s1) by exact Hc.
  exists (audit_entry s1 "setup.init" (Some uid) (Some (Lab.id lab)) (Some "lab"%string) (Some (Lab.id lab)) None None
    (JObj [("lab_slug", JStr (Lab.slug lab)); ("admin_username", JStr (User.username admin));
           ("admin_email", JStr (User.email admin))]%string) req "ok" None).
  split; [|done]. by rewrite (bind_run _ _ _ _ _ (in_session_ok _ _ _ _ l (write_run _ _ _ _ _ _ _ _ _ s1 Hc1))).
Qed.

Lemma install_run reads deletes p req s l :
  clean s → labs (db s) = ∅ → users (db s) = ∅ →
  let entries := first_urls reads deletes (now_ms s) l in
  let l' := (staged reads deletes (now_ms s) l).2 in
  if forallb entry_valid entries then
    ∃ e, let d' := installed_db p entries e (db s) in
      install reads deletes p req (s, l) =
        (Ok (first_lab (next_lab_id (db s)) p entries,
             new_admin bcrypt_hash (next_lab_id (db s)) p (next_user_id (db s))), (s <| db := d' |>, l')) ∧
      AuditLog.action e = "setup.init"%string ∧ AuditLog.target_id e = Some (next_lab_id (db s)) ∧
      AuditLog.actor_user_id e = Some (next_user_id (db s))
  else ∃ s', install reads deletes p req (s, l) = (Raise LabUrlError, (s', l')) ∧ committed s' = committed s ∧ clean s'.
Proof using Type.
  intros Hc Hl Hu entries l'. set (d := db s). set (name := utf8 (si_lab_name p)).
  set (slug := utf8 (setup_slug py_lower token p)). set (lab0 := Lab.mk (next_lab_id d) name slug [] "none" None).
  unfold SetupService.install. rewrite (bind_run _ _ _ _ _ (add_first_lab l name slug s Hl)). fold d lab0.
  rewrite (bind_run _ _ _ _ _ (load_run reads deletes (s <| db := with_lab lab0 d |>) l)).
  change (now_ms (s <| db := with_lab lab0 d |>)) with (now_ms s). fold l'.
  assert (Hent : (if bool_decide ((staged reads deletes (now_ms s) l).1 = []) then _fallback_seed_url public_url
                  else (staged reads deletes (now_ms s) l).1) = entries).
  { unfold entries, first_urls. by destruct (staged reads deletes (now_ms s) l).1. }
  cbv zeta. rewrite Hent. clear Hent. clearbody entries l'.
  pose proof (write_urls_run lab0 entries s d l' Hc) as Hw. cbv zeta in Hw.
  destruct (forallb entry_valid entries).
  - rewrite (bind_run _ _ _ _ _ Hw).
    assert (Hlab : (if bool_decide (entries = []) then lab0 else _persist lab0 entries) = first_lab (next_lab_id d) p entries)
      by by destruct entries.
    rewrite Hlab. exact (finish_run l' (first_lab (next_lab_id d) p entries) p req s d Hc Hu).
  - exists (s <| db := with_lab lab0 d |>). split; [|done]. by rewrite (bind_run_raise _ _ _ _ _ Hw).
Qed.

(** A list that was staged is taken once. *)
Lemma staged_consumed reads at_ms at_ms' l :
  at_ms <= at_ms' → (staged reads true at_ms l).1 ≠ [] →
  (staged reads true at_ms' (staged reads true at_ms l).2).1 = [].
Proof using Type*.
  intros Hle. unfold staged. destruct (client l) as [r|] eqn:Hcl; [|done]. destruct reads; [|done]. simpl negb. cbv iota.
  destruct (get_key at_ms SEED_URLS_REDIS_KEY r ≫= loads) as [[]|]; try done. intros _. simpl. unfold get_key.
  destruct (delete_law at_ms SEED_URLS_REDIS_KEY r) as [Hp _].
  by rewrite (peek_later at_ms at_ms'), Hp by done.
Qed.

Lemma users_of_no_lab d : users_in_labs d → labs d = ∅ → users d = ∅.
Proof using Type.
  intros Hin Hl. apply map_empty. intros k. destruct (users d !! k) as [u|] eqn:Hu; [|done].
  destruct (Hin _ _ Hu) as [lab Hlab]. by rewrite Hl, lookup_empty in Hlab.
Qed.

Lemma init_again reads deletes p req s l :
  labs (db s) ≠ ∅ → init reads deletes p req (s, l) = (Raise (HTTPException 409 "already_initialized"), (s, l)).
Proof using Type.
  intros Hl. unfold SetupService.init, hmapping, try_except, initialize.
  rewrite (bind_run _ _ _ _ _ (in_session_ok is_initialized s _ s l eq_refl)).
  by rewrite (bool_decide_false (labs (db s) = ∅)).
Qed.

Lemma init_blank reads deletes p req s l r w :
  labs (db s) = ∅ → install reads deletes p req (s, l) = (r, w) →
  init reads deletes p req (s, l) = (match r with Ok a => Ok a | Raise e => Raise (setup_error e) end, w).
Proof using Type.
  intros Hl Hi. unfold SetupService.init, hmapping, try_except, initialize.
  rewrite (bind_run _ _ _ _ _ (in_session_ok is_initialized s _ s l eq_refl)).
  rewrite (bool_decide_true (labs (db s) = ∅)) by done. unfold negb, raise_if.
  rewrite (bind_run skip _ (s, l) tt (s, l)) by reflexivity. rewrite Hi. by destruct r.
Qed.

Lemma init_cases reads deletes p req d l now uuid :
  users_in_labs d →
  let entries := first_urls reads deletes (now / 1000) l in
  let l' := (staged reads deletes (now / 1000) l).2 in
  let run := get_world_session (init reads deletes p req) d l now uuid in
  (labs d ≠ ∅ → run = (Raise (HTTPException 409 "already_initialized"), d, l)) ∧
  (labs d = ∅ → forallb entry_valid entries = true → ∃ e,
     run = (Ok (first_lab (next_lab_id d) p entries, first_admin (next_user_id d) (next_lab_id d) p),
            installed_db p entries e d, l') ∧
     AuditLog.action e = "setup.init"%string ∧ AuditLog.target_id e = Some (next_lab_id d) ∧
     AuditLog.actor_user_id e = Some (next_user_id d)) ∧
  (labs d = ∅ → forallb entry_valid entries = false → run = (Raise LabUrlError, d, l')).
Proof using Type*.
  intros Hin. cbv zeta. set (s := open_session d now uuid). assert (Hc : clean s) by done.
  split; [|split]; intros Hl; [|intros Hv..].
  - by rewrite (get_world_run _ d l now uuid _ _ _ (init_again reads deletes p req s l Hl) Hc).
  - pose proof (install_run reads deletes p req s l Hc Hl (users_of_no_lab d Hin Hl)) as Hi. cbv zeta in Hi.
    change (now_ms s) with (now / 1000) in Hi. rewrite Hv in Hi. destruct Hi as (e & Hrun & He). exists e. split; [|exact He].
    by rewrite (get_world_run _ d l now uuid _ _ _ (init_blank reads deletes p req s l _ _ Hl Hrun) Hc).
  - pose proof (install_run reads deletes p req s l Hc Hl (users_of_no_lab d Hin Hl)) as Hi. cbv zeta in Hi.
    change (now_ms s) with (now / 1000) in Hi. rewrite Hv in Hi. destruct Hi as (s' & Hrun & Hk & Hc').
    rewrite (get_world_run _ d l now uuid _ _ _ (init_blank reads deletes p req s l _ _ Hl Hrun) Hc').
    cbn [setup_error is_HTTPException]. by rewrite Hk.
Qed.

(** C39: the first run on every branch.  When there is a laboratory the
    answer is 409 and neither the database nor the staged addresses change.
    Otherwise exactly one laboratory with the requested name and one enabled
    administrator with the requested name and address are stored, with one
    audit entry about them, the list of addresses is the staged one or, when
    nothing usable is staged, the configured address, with a main entry unless
    it is empty; and a staged address of an unknown kind fails the request,
    which leaves the database as it was. *)
Theorem init_spec reads deletes p req d l now uuid :
  users_in_labs d →
  let entries := first_urls reads deletes (now / 1000) l in
  let l' := (staged reads deletes (now / 1000) l).2 in
  let run := get_world_session (init reads deletes p req) d l now uuid in
  (entries = [] ∨ existsb primary entries = true) ∧
  (labs d ≠ ∅ → run = (Raise (HTTPException 409 "already_initialized"), d, l)) ∧
  (labs d = ∅ → forallb entry_valid entries = true → ∃ e,
     run = (Ok (first_lab (next_lab_id d) p entries, first_admin (next_user_id d) (next_lab_id d) p),
            installed_db p entries e d, l') ∧
     AuditLog.action e = "setup.init"%string ∧ AuditLog.target_id e = Some (next_lab_id d) ∧
     AuditLog.actor_user_id e = Some (next_user_id d)) ∧
  (labs d = ∅ → forallb entry_valid entries = false → run = (Raise LabUrlError, d, l')).
Proof using Type*.
  intros Hin. split; [apply first_urls_primary|by apply init_cases].
Qed.
End run.

(** ** Along every history *)

(** Laboratories are left alone, users are of a laboratory of the table. *)
Definition lab_step (d d' : Db) : Prop :=
  labs d' = labs d ∧ next_lab_id d' = next_lab_id d ∧ (users_in_labs d → users_in_labs d').

#[export] Instance lab_step_pre : PreOrder lab_step.
Proof. split; [by intros d|]. intros d1 d2 d3 (H1 & H2 & H3) (H4 & H5 & H6). split_and!; [congruence..|auto]. Qed.
#[export] Instance lab_step_log : LogFree lab_step.
Proof. by intros d l. Qed.

Section history.
Context (ci : string → string) (isoformat : Z → string).
Context (bcrypt_hash : string → string) (bcrypt_check : string → string → bool) (sha256_hex : string → string).
Context (body_digest : pystr → option pystr).

Lemma row_error_lab d u : user_row_error ci d u = None → is_Some (labs d !! User.lab_id u).
Proof using Type. unfold user_row_error. destruct (labs d !! User.lab_id u); [by eexists|done]. Qed.

Lemma put_user_lab d k u next :
  is_Some (labs d !! User.lab_id u) → lab_step d (d <| users := <[k := u]> (users d) |> <| next_user_id := next |>).
Proof using Type.
  intros Hl. split; [done|]. split; [done|]. intros Hin k' u'. cbn. rewrite lookup_insert.
  case_decide; [by intros [= <-]|apply Hin].
Qed.

#[local] Instance lab_add_user f : Moves lab_step (add_user ci f).
Proof using Type.
  apply moves_state. intros s r s' H. unfold add_user in H. cbv zeta in H.
  destruct (user_row_error _ _ _) eqn:He; injection H as <- <-; [done|].
  split; [done|]. split; [done|]. by apply put_user_lab, row_error_lab.
Qed.

#[local] Instance lab_save_user u : Moves lab_step (save_user ci u).
Proof using Type.
  apply moves_state. intros s r s' H. unfold save_user in H.
  destruct (user_row_error _ _ _) eqn:He; injection H as <- <-; [done|].
  split; [done|]. split; [done|]. exact (put_user_lab (db s) (User.id u) u (next_user_id (db s)) (row_error_lab _ _ He)).
Qed.

(** Writes of other tables. *)
#[local] Instance lab_set_link l : Moves lab_step (set_link l).
Proof using Type. solve_moves. Qed.
#[local] Instance lab_set_entry e : Moves lab_step (set_entry e).
Proof using Type. solve_moves. Qed.
#[local] Instance lab_set_grant g : Moves lab_step (set_grant g).
Proof using Type. solve_moves. Qed.
#[local] Instance lab_set_setup_token t : Moves lab_step (set_setup_token t).
Proof using Type. solve_moves. Qed.
#[local] Instance lab_add_setup_token f : Moves lab_step (add_setup_token f).
Proof using Type. unfold add_setup_token. solve_moves. Qed.
#[local] Instance lab_set_invite i : Moves lab_step (set_invite i).
Proof using Type. solve_moves. Qed.
#[local] Instance lab_add_invite f : Moves lab_step (add_invite f).
Proof using Type. unfold add_invite. solve_moves. Qed.
#[local] Instance lab_add_key_row c f : Moves lab_step (add_key_row c f).
Proof using Type. unfold add_key_row. solve_moves. Qed.

#[local] Instance lab_get_user id lab : Moves lab_step (get_user id lab).
Proof using Type. unfold get_user, get_user_row. moves. Qed.

#[local] Instance lab_or_duplicate {A} (m : M A) : Moves lab_step m → Moves lab_step (or_duplicate m).
Proof using Type. intros Hm. unfold or_duplicate. moves. Qed.

#[local] Instance lab_ensure id lab : Moves lab_step (_ensure_at_least_one_active_admin id lab).
Proof using Type. unfold _ensure_at_least_one_active_admin. moves. Qed.

#[local] Instance lab_revoke_entry reply message pa actor o e : Moves lab_step (revoke_entry reply message pa actor o e).
Proof using Type. unfold revoke_entry, get_key. moves. Qed.

#[local] Instance lab_revoke_link reply message link actor reason lab server rk req :
  Moves lab_step (revoke_link reply message link actor reason lab server rk req).
Proof using Type. unfold revoke_link, revoke_keys, get_physical_account, audit_link. moves. Qed.

#[local] Instance lab_revoke_admin server user actor lab req : Moves lab_step (revoke_admin server user actor lab req).
Proof using Type. unfold revoke_admin, audit_grant. moves. Qed.

#[local] Instance lab_cascade reply message user actor lab req :
  Moves lab_step (_cascade_revoke_access reply message user actor lab req).
Proof using Type. unfold _cascade_revoke_access. moves. Qed.

#[local] Instance lab_issue_setup_token p id purpose actor lab req :
  Moves lab_step (issue_setup_token sha256_hex isoformat p id purpose actor lab req).
Proof using Type. unfold issue_setup_token. moves. Qed.

#[local] Instance lab_add_profile_key p user req : Moves lab_step (add_profile_key body_digest p user req).
Proof using Type. unfold add_profile_key, add_key, audit_key. moves. Qed.

#[local] Instance lab_lookup_token t : Moves lab_step (lookup_active_token sha256_hex t).
Proof using Type. unfold lookup_active_token. moves. Qed.

#[local] Instance lab_lookup_invite t : Moves lab_step (lookup_active_registration_invite sha256_hex t).
Proof using Type. unfold lookup_active_registration_invite. moves. Qed.

#[local] Instance lab_validate_key p id : Moves lab_step (validate_key body_digest p id).
Proof using Type. unfold validate_key, _validate_registration_ssh_key. moves. Qed.

#[local] Instance lab_check_token row user p : Moves lab_step (check_token ci body_digest row user p).
Proof using Type. unfold check_token, _validate_registration_profile. moves. Qed.

#[local] Instance lab_complete_invite i p req :
  Moves lab_step (_complete_registration_invite ci bcrypt_hash body_digest i p req).
Proof using Type.
  unfold _complete_registration_invite, _validate_new_registration_profile, audit_invite.
  destruct (pf_username p), (pf_email p), (pf_display_name p); moves.
Qed.

#[local] Instance lab_activate t p req : Moves lab_step (activate ci bcrypt_hash sha256_hex body_digest t p req).
Proof using Type. unfold activate, either_link, get_user_row. moves. Qed.

Context {R : Type} `{RedisLaws R} (jwt_encode : list (string * json) → string).

Lemma lab_bad_credentials {A} user payload subject req w :
  hmoves_at lab_step (bad_credentials user payload subject req : Handler R A) w.
Proof using Type.
  unfold bad_credentials, audit_login. apply hmoves_at_bind; [apply _|apply hmoves_at_in_session, moves_at_of, _|].
  intros _ w1 _ _. apply hmoves_at_bind; [apply _|apply hmoves_at_on_limiter, _|].
  intros. apply hmoves_at_raise, _.
Qed.

Lemma lab_authenticate username password req w :
  hmoves_at lab_step (authenticate ci bcrypt_check jwt_encode username password req : Handler R LoginResponse) w.
Proof using Type.
  unfold authenticate. cbv zeta. apply hmoves_at_bind; [apply _|apply hmoves_at_on_limiter, _|]. intros b w1 _ _.
  apply hmoves_at_guard; [apply _|]. apply hmoves_at_bind; [apply _|apply hmoves_at_in_session, moves_at_of|].
  { intros s r s' Hc [-> _]%find_login_run. done. }
  intros o w2 _ _. destruct o as [u|]; [|apply lab_bad_credentials].
  destruct (User.password_hash u) as [hash|]; [|apply lab_bad_credentials].
  destruct (negb _); [apply lab_bad_credentials|]. destruct (bool_decide _).
  { apply hmoves_at_bind; [apply _|apply hmoves_at_in_session, moves_at_of; unfold audit_login; apply _|].
    intros. apply hmoves_at_raise, _. }
  do 4 (apply hmoves_at_bind; [apply _|apply hmoves_at_in_session, moves_at_of; unfold audit_login; apply _|intros ? ? _ _];
        cbv zeta; try destruct (issue_access_token _ _ _ _ _) as [token expires]).
  apply hmoves_at_bind; [apply _|apply hmoves_at_on_limiter, _|]. intros. apply hmoves_at_ret, _.
Qed.

Lemma run_user_op_lab op w :
  hmoves_at lab_step (run_user_op ci isoformat bcrypt_hash bcrypt_check sha256_hex body_digest jwt_encode op) w.
Proof using Type.
  destruct op; cbn [run_user_op]; [|apply hmoves_at_in_session, moves_at_of..].
  - apply hmoves_at_bind; [apply _|apply lab_authenticate|]. intros. apply hmoves_at_ret, _.
  - unfold create_user, audit_user. moves.
  - unfold update_user, audit_user. moves.
  - unfold change_role, audit_user. moves.
  - unfold disable_user, audit_user. moves.
  - unfold reactivate_user, audit_user. moves.
  - unfold change_password, audit_user. moves.
  - unfold issue_password_reset. moves.
  - unfold resend_invite. moves.
  - unfold issue_registration_invite, audit_invite. moves.
  - unfold revoke_registration_invite, audit_invite, get_registration_invite. moves.
  - moves.
Qed.

(** *** The system, as far as laboratories and users go *)

Context (py_lower : pystr → pystr) (py_str : json → string) (loads : string → option json) (public_url : string).

Inductive lab_op : Type :=
| lo_init (token : pystr) (reads deletes : bool) (p : SetupInitRequest) (req : RequestInfo)
| lo_account (op : user_op)
| lo_other (change : Db → Db) (store : Limiter R → Limiter R).   (* anything else; see [others_ok] *)

(** What the rest of the system does: it rewrites rows of [lab] in place and
    leaves the users alone. *)
Definition other_ok (change : Db → Db) : Prop :=
  ∀ d, users_same d (change d) ∧ dom (labs (change d)) = dom (labs d) ∧ next_lab_id (change d) = next_lab_id d.

Definition run_lab_op (op : lab_op) (at_ : Z) (uuid : string) (w : Db * Limiter R) : Db * Limiter R :=
  match op with
  | lo_init token reads deletes p req =>
      let '(_, d, l) := get_world_session
        (SetupService.init py_lower py_str loads ci bcrypt_hash token public_url reads deletes p req) w.1 w.2 at_ uuid
      in (d, l)
  | lo_account op =>
      let '(_, d, l) := get_world_session
        (run_user_op ci isoformat bcrypt_hash bcrypt_check sha256_hex body_digest jwt_encode op) w.1 w.2 at_ uuid
      in (d, l)
  | lo_other change store => (change w.1, store w.2)
  end.

Definition runs (ops : list (lab_op * Z * string)) (w : Db * Limiter R) : Db * Limiter R :=
  foldl (λ w op, run_lab_op op.1.1 op.1.2 op.2 w) w ops.

(** Nobody and nothing; or one laboratory with an enabled administrator. *)
Definition blank (d : Db) : Prop := labs d = ∅ ∧ users d = ∅.
Definition one_lab (lab_id : Z) (d : Db) : Prop := dom (labs d) = {[lab_id]} ∧ administered d lab_id.
Definition setup_inv (d : Db) : Prop :=
  users_ok ci d ∧ users_in_labs d ∧ (blank d ∨ ∃ lab_id, one_lab lab_id d).

(** One step: the invariant, and that the laboratory stays. *)
Definition setup_step (d d' : Db) : Prop :=
  setup_inv d → setup_inv d' ∧ ∀ lab_id, one_lab lab_id d → one_lab lab_id d'.

#[export] Instance setup_step_pre : PreOrder setup_step.
Proof using Type.
  split; [by intros d Hi|]. intros d1 d2 d3 H12 H23 H1. destruct (H12 H1) as [H2 Hl2].
  destruct (H23 H2) as [H3 Hl3]. split; [done|]. auto.
Qed.

Lemma account_setup_step d d' : users_step ci d d' → lab_step d d' → setup_step d d'.
Proof using Type.
  intros Hu (Hl & _ & Hin) (Hok & Hil & Hcase). destruct (Hu Hok) as (Hok' & _ & Hadm).
  assert (Hone : ∀ lab_id, one_lab lab_id d → one_lab lab_id d').
  { intros lab_id [H1 H2]. split; [by rewrite Hl|auto]. }
  split; [|exact Hone]. split; [done|]. split; [auto|]. destruct Hcase as [[Hb1 Hb2]|[lab_id Hone1]]; [left|right; eauto].
  split; [by rewrite Hl|]. apply users_of_no_lab; [auto|by rewrite Hl].
Qed.

Lemma other_setup_step change d : other_ok change → setup_step d (change d).
Proof using Type.
  intros Hch (Hok & Hin & Hcase). destruct (Hch d) as ([Hu1 Hu2] & Hd & Hn).
  assert (Hadm : ∀ lab, administered d lab → administered (change d) lab).
  { unfold administered. by rewrite Hu1. }
  assert (Hone : ∀ lab_id, one_lab lab_id d → one_lab lab_id (change d)).
  { intros lab_id [H1 H2]. split; [by rewrite Hd|auto]. }
  split; [|exact Hone]. split; [by apply (users_same_step ci d)|]. split.
  - intros k u. rewrite Hu1. intros Hk. apply elem_of_dom. rewrite Hd. apply elem_of_dom. by eapply Hin.
  - destruct Hcase as [[Hb1 Hb2]|[lab_id Hone1]]; [left|right; eauto]. split; [|by rewrite Hu1].
    apply dom_empty_inv_L. by rewrite Hd, Hb1, dom_empty_L.
Qed.

Lemma installed_setup_step token p entries e d :
  labs d = ∅ → setup_step d (installed_db py_lower bcrypt_hash token p entries e d).
Proof using Type.
  intros Hl (Hok & Hin & _). set (lab_id := next_lab_id d). set (uid := next_user_id d).
  assert (Hu : users d = ∅) by by apply users_of_no_lab.
  set (d' := installed_db py_lower bcrypt_hash token p entries e d).
  assert (Hus : ∀ k u, users d' !! k = Some u → k = uid ∧ u = new_admin bcrypt_hash lab_id p uid).
  { intros k u Hk. apply (lookup_only (users d') uid (new_admin bcrypt_hash lab_id p uid) k u) in Hk; [done|reflexivity]. }
  split; [split; [split|split; [|right; exists lab_id; split]]|].
  - intros k u [-> ->]%Hus. split; [done|]. change (uid < uid + 1). lia.
  - intros k u [-> ->]%Hus. by apply (bool_decide_eq_true_1 _).
  - intros k k' u u' [-> _]%Hus [-> _]%Hus. done.
  - intros k u [-> ->]%Hus. exists (first_lab py_lower token lab_id p entries). apply lookup_singleton_eq.
  - apply dom_singleton_L.
  - exists uid, (new_admin bcrypt_hash lab_id p uid). split; [apply lookup_singleton_eq|done].
  - intros lab [Hd _]. rewrite Hl, dom_empty_L in Hd. set_solver.
Qed.

Lemma run_lab_op_step op at_ uuid w :
  (∀ change store, op = lo_other change store → other_ok change) → setup_step w.1 (run_lab_op op at_ uuid w).1.
Proof using Type*.
  intros Hop Hi. destruct op as [token reads deletes p req|op|change store]; cbn [run_lab_op].
  - pose proof Hi as (_ & Hin & _).
    destruct (init_cases py_lower py_str loads ci bcrypt_hash token public_url reads deletes p req w.1 w.2 at_ uuid Hin)
      as (Hagain & Hgood & Hbad).
    destruct (decide (labs w.1 = ∅)) as [Hl|Hl]; [|by rewrite (Hagain Hl)].
    destruct (forallb entry_valid _) eqn:Hv; [|by rewrite (Hbad Hl eq_refl)].
    destruct (Hgood Hl eq_refl) as (e & Hrun & _). rewrite Hrun. by apply installed_setup_step.
  - set (h := run_user_op ci isoformat bcrypt_hash bcrypt_check sha256_hex body_digest jwt_encode op).
    pose proof (hmoves_get_session (users_step ci) h w.1 w.2 at_ uuid (run_user_op_moves _ _ _ _ _ _ _ _ _)) as H1.
    pose proof (hmoves_get_session lab_step h w.1 w.2 at_ uuid (run_user_op_lab _ _)) as H2.
    destruct (get_world_session h w.1 w.2 at_ uuid) as [[r d] l]. by apply (account_setup_step w.1).
  - apply other_setup_step; [|done]. by apply (Hop change store).
Qed.

(** C24: installed once, and never left without an administrator.  From a
    blank database on, whatever sequence of set-up requests, account
    operations and other work runs: as long as there is no laboratory there
    is no user either, and once there is one, it is the only one for good,
    and there is always an enabled administrator in it.  (The rest of the
    system rewrites laboratories in place and leaves the users alone; set-up
    requests run one after the other.) *)
Theorem one_lab_history ops before after d l :
  ops = before ++ after → Forall (λ op, ∀ change store, op.1.1 = lo_other change store → other_ok change) ops →
  blank d →
  let d1 := (runs before (d, l)).1 in
  let d2 := (runs ops (d, l)).1 in
  (blank d1 ∨ ∃ lab_id, one_lab lab_id d1) ∧ ∀ lab_id, one_lab lab_id d1 → one_lab lab_id d2.
Proof using Type*.
  intros -> [Hb Ha]%Forall_app Hbl. cbv zeta. unfold runs. rewrite foldl_app.
  assert (Hstep : ∀ ops w, Forall (λ op : lab_op * Z * string, ∀ change store,
             op.1.1 = lo_other change store → other_ok change) ops →
           setup_step w.1 (foldl (λ w op, run_lab_op op.1.1 op.1.2 op.2 w) w ops).1).
  { intros ops. induction ops as [|op ops IH]; intros w Hf; [reflexivity|]. apply Forall_cons in Hf as [H1 H2].
    simpl. etransitivity; [by apply (run_lab_op_step op.1.1 op.1.2 op.2 w)|by apply IH]. }
  assert (Hinv : setup_inv d).
  { destruct Hbl as [Hl Hu]. split; [split|split; [unfold users_in_labs|left; done]]; intros *; by rewrite Hu, lookup_empty. }
  destruct (Hstep before (d, l) Hb Hinv) as [(Hok1 & Hin1 & Hcase) _]. split; [exact Hcase|].
  apply (Hstep after _ Ha). by split.
Qed.
End history.

(** ** Closed instances *)

Definition text_form (j : json) : string := match j with JStr s => s | _ => EmptyString end.

Definition setup_form (slug : option pystr) : SetupInitRequest :=
  mkSetup (u "Vision Lab") slug (u "alice") (u "alice@lab.org") (u "Alice") (u "correct horse").

Definition blank_db : Db :=
  sample_db [] <| labs := ∅ |> <| next_lab_id := 1 |> <| users := ∅ |> <| next_user_id := 1 |>.

Lemma blank_db_blank : blank blank_db.
Proof. split; reflexivity. Qed.

Lemma blank_users : users_in_labs blank_db.
Proof. intros k u0 Hk. by rewrite (proj2 blank_db_blank), lookup_empty in Hk. Qed.

(** What the installer staged: one address of an unknown kind. *)
Definition vpn_seed (_ : string) : option json :=
  Some (JList [JObj [("url", JStr "http://10.8.0.1"); ("kind", JStr "vpn")]])%string.

Definition staged_store : Limiter Store :=
  mkLimiter (mkInProcess ∅ ∅) (Some {[SEED_URLS_REDIS_KEY := (text "list", None)]}).

Abbreviation sample_init loads := 
  (init lower text_form loads no_case open_hash (u "0123abcd") "http://localhost:8080").
Abbreviation sample_install loads := 
  (install lower text_form loads no_case open_hash (u "0123abcd") "http://localhost:8080").

Lemma derive_slug_matches_witness :
  derive_slug lower (u "0123abcd") (u "3D Vision & Robotics") = u "lab-3d-vision-robotics" ∧
  matches_slug (derive_slug lower (u "0123abcd") (u "3D Vision & Robotics")) = true.
Proof.
  split; [by vm_compute|]. apply derive_slug_matches; [|reflexivity|].
  - apply (bool_decide_unpack _). by vm_compute.
  - apply (bool_decide_unpack _). by vm_compute.
Defined.

Lemma init_spec_witness :
  ∃ e, (get_world_session (sample_init (λ _, None) true true (setup_form None) no_request) blank_db staged_store 5 "").1.2 =
    installed_db lower open_hash (u "0123abcd") (setup_form None) (_fallback_seed_url "http://localhost:8080") e blank_db.
Proof.
  destruct (init_spec lower text_form (λ _, None) no_case open_hash (u "0123abcd") "http://localhost:8080" true true
              (setup_form None) no_request blank_db staged_store 5 "" blank_users) as (_ & _ & Hgood & _).
  destruct (Hgood (proj1 blank_db_blank)) as (e & Hrun & _); [by vm_compute|]. exists e.
  exact (f_equal (λ x, x.1.2) Hrun).
Defined.

(** Alice installs, signs in, a second set-up is refused. *)
Definition first_day : list (lab_op (R := Store) * Z * string) :=
  [(lo_init (u "0123abcd") true true (setup_form None) no_request, 5, ""%string)].
Definition second_day : list (lab_op (R := Store) * Z * string) :=
  [(lo_account (uo_login "alice" "correct horse" no_request), 6, ""%string);
   (lo_other (λ d, d) id, 7, ""%string);
   (lo_init (u "0123abcd") true true (setup_form (Some (u "other"))) no_request, 8, ""%string)].

Abbreviation sample_runs ops := 
  (runs no_case (λ _, "now"%string) open_hash open_check id (λ _, None) sample_encode lower text_form (λ _, None)
     "http://localhost:8080" ops (blank_db, staged_store)).

Lemma one_lab_history_witness :
  ∃ lab_id, one_lab lab_id (sample_runs first_day).1 ∧ one_lab lab_id (sample_runs (first_day ++ second_day)).1.
Proof.
  destruct (one_lab_history no_case (λ _, "now"%string) open_hash open_check id (λ _, None) sample_encode lower
              text_form (λ _, None) "http://localhost:8080" (first_day ++ second_day) first_day second_day blank_db
              staged_store eq_refl) as [Hcase Hstay].
  - repeat apply Forall_cons_2; try apply Forall_nil_2; intros change store; try discriminate.
    by intros [= <- _].
  - exact blank_db_blank.
  - destruct Hcase as [[Hl _]|[lab_id Hone]].
    + exfalso. apply (f_equal size) in Hl. vm_compute in Hl. discriminate Hl.
    + exists lab_id. split; [exact Hone|by apply Hstay].
Defined.

(** A list with an unknown kind of address: the first attempt fails and uses
    the list up, the second one succeeds with the configured address. *)
Example bad_seed_spent :
  let first := get_world_session (sample_init vpn_seed true true (setup_form None) no_request) blank_db staged_store 5 "" in
  first.1.1 = Raise LabUrlError ∧ first.1.2 = blank_db ∧
  let second := get_world_session (sample_init vpn_seed true true (setup_form None) no_request) first.1.2 first.2 6 "" in
  (Lab.public_urls <$> rows (labs second.1.2)) =
    [[to_dict (mkUrl "http://localhost:8080" "lan" "install_sh_probe" JNull JNull true)]].
Proof. split_and!; by vm_compute. Qed.

(** Two set-up requests that have both passed the check: nothing in the
    database keeps the second one from installing a laboratory of its own. *)
Example concurrent_setups :
  let a := get_world_session (sample_install (λ _, None) true true (setup_form None) no_request) blank_db staged_store 5 "" in
  let b := get_world_session (sample_install (λ _, None) true true (setup_form (Some (u "other"))) no_request)
             a.1.2 a.2 5 "" in
  (is_initialized (open_session blank_db 5 "")).1 = Ok false ∧
  size (labs b.1.2) = 2%nat ∧
  (λ u, (User.lab_id u, User.role u)) <$> users b.1.2 = {[1 := (1, "lab_admin"); 2 := (2, "lab_admin")]}%string.
Proof. split_and!; by vm_compute. Qed.
