(* ===== verification/AuthProperties.v ===== *)
(** Who gets in: the verdict on a sign-in, and what is left of a link once it
    was redeemed ([services/auth_service.py]). *)

From S2P Require Import Prelude Models SessionLayer RequestLayer Samples.
From S2P Require Import AuditService RateLimit AuthDependencies AuthService.
From S2P Require Import SshKeyService RateLimitProperties UserService UserProperties.

(** The rows of [ts] used up. *)
Definition use_all (at_ : Z) (ts : list SetupToken.t) (m : gmap Z SetupToken.t) : gmap Z SetupToken.t :=
  foldl (λ m t, <[SetupToken.id t := use_token at_ t]> m) m ts.

Lemma use_all_run at_ ts s :
  for_each ts (λ old, set_setup_token (use_token at_ old)) s =
    (Ok tt, s <| db := db s <| setup_tokens := use_all at_ ts (setup_tokens (db s)) |> |>).
Proof.
  revert s. induction ts as [|t ts IH]; intros s; [by destruct s as [? []]|].
  exact (IH (s <| db := db s <| setup_tokens := <[SetupToken.id t := use_token at_ t]> (setup_tokens (db s)) |> |>)).
Qed.

Lemma use_all_lookup at_ ts m k t' :
  use_all at_ ts m !! k = Some t' →
  (∃ t, t ∈ ts ∧ SetupToken.id t = k ∧ t' = use_token at_ t) ∨ (k ∉ SetupToken.id <$> ts ∧ m !! k = Some t').
Proof.
  revert m. induction ts as [|t ts IH]; intros m H; [right; split; [set_solver|done]|].
  apply IH in H as [(t0 & Hin & Hk & ->)|[Hn H]]; [left; exists t0; set_solver|].
  rewrite lookup_insert in H. case_decide as Hk; [left; exists t; injection H as <-; set_solver|].
  right. rewrite fmap_cons. set_solver.
Qed.

Lemma use_all_keep at_ ts m k : k ∉ SetupToken.id <$> ts → use_all at_ ts m !! k = m !! k.
Proof.
  revert m. induction ts as [|t ts IH]; intros m H; [done|]. rewrite fmap_cons, not_elem_of_cons in H.
  simpl. rewrite IH by apply H. rewrite lookup_insert_ne; [done|]. naive_solver.
Qed.

Section auth.
Context (ci : string → string) (bcrypt_hash : string → string) (bcrypt_check : string → string → bool).

(** ** Signing in *)

Section login.
Context {R : Type} `{Redis R} (jwt_encode : list (string * json) → string).

(** Who a name and a password are. *)
Definition verdict (d : Db) (username password : string) : result exn User.t :=
  match login_rows ci d username with
  | [] => Raise InvalidCredentialsError
  | [u] =>
      match User.password_hash u with
      | None => Raise InvalidCredentialsError
      | Some hash =>
          if negb (verify_password bcrypt_check password hash) then Raise InvalidCredentialsError
          else if bool_decide (User.is_active u = 0) then Raise AccountDisabledError
          else Ok u
      end
  | _ => Raise MultipleResultsFound
  end.

(** One audit entry with this outcome. *)
Definition audited (outcome : string) (d d' : Db) : Prop :=
  ∃ e, audit_log d' = audit_log d ++ [e] ∧ AuditLog.action e = "auth.login"%string ∧ AuditLog.audit_result e = outcome.

Lemma bad_credentials_run {A} user payload subject req s (l : Limiter R) :
  clean s →
  ∃ s', (bad_credentials user payload subject req : Handler R A) (s, l) =
          (Raise InvalidCredentialsError,
           (s', (record_failure LoginLockManager true (now_ms s) subject l).1)) ∧
        audited "denied" (db s) (db s') ∧ users (db s') = users (db s).
Proof using Type.
  intros Hc. unfold bad_credentials, audit_login. eexists. split; [|split].
  - unfold mbind, prog_bind, in_session. cbn [fst snd]. rewrite write_result_run by done.
    unfold on_limiter. cbn [fst snd]. change (now_ms (s <| db := _ |>)) with (now_ms s).
    by destruct (record_failure _ _ _ _ _) as [l' b].
  - by eexists.
  - done.
Qed.
Lemma find_login_verdict username s :
  find_login ci username s =
    match login_rows ci (db s) username with
    | [] => (Ok None, s) | [u] => (Ok (Some u), s) | _ => (Raise MultipleResultsFound, s)
    end.
Proof using Type. reflexivity. Qed.

(** What the branch of a good password does. *)
Definition signed_in (s : Session) (l : Limiter R) (subject : string) (u : User.t)
    (out : result exn LoginResponse * World R) : Prop :=
  let u' := u <| User.last_login_at := Some (now s) |> in
  let '(token, expires) := issue_access_token jwt_encode (User.id u) (User.lab_id u) (User.role u) (now s) in
  ∃ s', out = (Ok (mkLogin token expires u'), (s', record_success LoginLockManager true (now_ms s) subject l)) ∧
        users (db s') = <[User.id u := u']> (users (db s)) ∧ audited "ok" (db s) (db s').

(** What a refusal does. *)
Definition refused (s : Session) (l : Limiter R) (subject : string) (e : exn)
    (out : result exn LoginResponse * World R) : Prop :=
  let l' := if bool_decide (e = InvalidCredentialsError)
            then (record_failure LoginLockManager true (now_ms s) subject l).1 else l in
  ∃ s', out = (Raise e, (s', l')) ∧ users (db s') = users (db s) ∧
        (e = MultipleResultsFound ∧ s' = s ∨ audited "denied" (db s) (db s')).

(** C31: a sign-in, on every branch.  A locked subject (the name as it was
    typed, with the address) is refused before anything is read.  Otherwise a
    name or address that selects no user, or one without a password or with
    another one, is refused, audited and counted against the subject; two users
    selected by the name is an error; a disabled user is refused and audited,
    not counted; and the right password of an enabled user stamps his row and
    no other, forgets the failures, is audited, and gives the token for his
    id, lab and role. *)
Theorem authenticate_spec username password req s (l : Limiter R) :
  clean s → (∀ u, u ∈ login_rows ci (db s) username → user_row_error ci (db s) u = None) →
  let subject := lock_subject username (request_ip req) in
  let locked := is_locked LoginLockManager true (now_ms s) subject l in
  let out := authenticate ci bcrypt_check jwt_encode username password req (s, l) in
  if locked.2 then out = (Raise AccountLockedError, (s, locked.1))
  else match verdict (db s) username password with
       | Ok u => signed_in s locked.1 subject u out
       | Raise e => refused s locked.1 subject e out
       end.
Proof using Type.
  intros Hc Hrow subject locked out. subst out. unfold authenticate. fold subject.
  assert (Hl : on_limiter (λ ms, is_locked LoginLockManager true ms subject) (s, l) = (Ok locked.2, (s, locked.1))).
  { unfold on_limiter. cbn [fst snd]. fold locked. by destruct locked. }
  rewrite (bind_run _ _ _ _ _ Hl). clear Hl. destruct locked as [l1 [|]]; cbn [fst snd]; [reflexivity|].
  rewrite (bind_run (raise_if _ _) _ _ tt (s, l1)) by reflexivity. unfold verdict.
  assert (Hf : in_session (find_login ci username) (s, l1) =
    (match login_rows ci (db s) username with
     | [] => Ok None | [u] => Ok (Some u) | _ => Raise MultipleResultsFound end, (s, l1))).
  { rewrite in_session_run, find_login_verdict. by destruct (login_rows ci (db s) username) as [|? []]. }
  assert (Hbad : ∀ user payload, refused s l1 subject InvalidCredentialsError (bad_credentials user payload subject req (s, l1))).
  { intros user payload. destruct (bad_credentials_run (A := LoginResponse) user payload subject req s l1 Hc)
      as (s' & -> & Ha & Hu). exists s'. rewrite bool_decide_true by done. auto. }
  destruct (login_rows ci (db s) username) as [|u [|u2 us]] eqn:Hrows.
  - rewrite (bind_run _ _ _ _ _ Hf). apply Hbad.
  - rewrite (bind_run _ _ _ _ _ Hf). specialize (Hrow u ltac:(left)).
    destruct (User.password_hash u) as [hash|]; [|apply Hbad]. destruct (negb _); [apply Hbad|].
    destruct (bool_decide _).
    + unfold audit_login, mbind, prog_bind, in_session. cbn [fst snd]. rewrite write_result_run by done.
      eexists. split; [reflexivity|]. split; [done|]. right. by eexists.
    + unfold signed_in. rewrite (bind_run (in_session utcnow) _ _ (now s) (s, l1)) by reflexivity.
      destruct (issue_access_token _ _ _ _ _) as [token expires].
      rewrite (bind_run (in_session utcnow) _ _ (now s) (s, l1)) by reflexivity. cbv zeta.
      unfold mbind, prog_bind, in_session, save_user. cbn [fst snd].
      change (user_row_error ci (db s) (u <| User.last_login_at := _ |>)) with (user_row_error ci (db s) u).
      rewrite Hrow. unfold audit_login. rewrite write_result_run by done.
      eexists. split; [reflexivity|]. split; [done|]. by eexists.
  - rewrite (bind_run_raise _ _ _ _ _ Hf). eexists. split; [reflexivity|]. auto.
Qed.
End login.

(** ** Links *)

Section links.
Context (sha256_hex : string → string) (isoformat : Z → string) (body_digest : pystr → option pystr).

(** Keys are ids, digests are stored once. *)
Record tokens_ok (d : Db) : Prop := {
  tk_id k t : setup_tokens d !! k = Some t → SetupToken.id t = k ∧ k < next_setup_token_id d ;
  tk_hash k k' t t' : setup_tokens d !! k = Some t → setup_tokens d !! k' = Some t' →
    SetupToken.token_hash t = SetupToken.token_hash t' → k = k' ;
  iv_id k i : registration_invites d !! k = Some i → RegistrationInvite.id i = k ;
  iv_hash k k' i i' : registration_invites d !! k = Some i → registration_invites d !! k' = Some i' →
    RegistrationInvite.token_hash i = RegistrationInvite.token_hash i' → k = k' }.

Lemma find_setup_token_spec d hashed t :
  tokens_ok d → find_setup_token d hashed = Some t ↔
  setup_tokens d !! SetupToken.id t = Some t ∧ SetupToken.token_hash t = hashed.
Proof using Type.
  intros Hok. split.
  - intros [[k Hk]%elem_of_rows Hh]%head_filter_elem. by destruct (tk_id _ Hok _ _ Hk) as [-> _].
  - intros [Hk Hh]. apply head_filter_unique; [apply elem_of_rows; eauto|done|].
    intros t' [k' Hk']%elem_of_rows Hh'. rewrite (tk_hash _ Hok k' _ _ _ Hk' Hk) in Hk' by congruence. congruence.
Qed.

Lemma find_invite_spec d hashed i :
  tokens_ok d → find_invite d hashed = Some i ↔
  registration_invites d !! RegistrationInvite.id i = Some i ∧ RegistrationInvite.token_hash i = hashed.
Proof using Type.
  intros Hok. split.
  - intros [[k Hk]%elem_of_rows Hh]%head_filter_elem. by rewrite (iv_id _ Hok _ _ Hk).
  - intros [Hk Hh]. apply head_filter_unique; [apply elem_of_rows; eauto|done|].
    intros t' [k' Hk']%elem_of_rows Hh'. rewrite (iv_hash _ Hok k' _ _ _ Hk' Hk) in Hk' by congruence. congruence.
Qed.

(** Code about other tables. *)
Definition links_same (d d' : Db) : Prop :=
  setup_tokens d' = setup_tokens d ∧ next_setup_token_id d' = next_setup_token_id d ∧
  registration_invites d' = registration_invites d.

#[export] Instance links_same_pre : PreOrder links_same.
Proof using Type. split; [by intros d|]. intros d1 d2 d3 (? & ? & ?) (? & ? & ?). split_and!; congruence. Qed.
#[export] Instance links_same_log : LogFree links_same.
Proof using Type. by intros d l. Qed.

#[local] Instance links_add_key p user req : Moves links_same (add_profile_key body_digest p user req).
Proof using Type.
  unfold add_profile_key, add_key, audit_key. pose proof (λ c f, ltac:(unfold add_key_row; solve_moves)
    : Moves links_same (add_key_row c f)). moves.
Qed.

#[local] Instance links_save_user u : Moves links_same (save_user ci u).
Proof using Type. unfold save_user. solve_moves. Qed.
#[local] Instance links_add_user f : Moves links_same (add_user ci f).
Proof using Type. unfold add_user. solve_moves. Qed.

(** The row of a redeemed link, stamped. *)
Definition redeemed (d d' : Db) (hashed : string) : Prop :=
  (∃ t at_, find_setup_token d hashed = Some t ∧
     setup_tokens d' = <[SetupToken.id t := use_token at_ t]> (setup_tokens d) ∧
     registration_invites d' = registration_invites d) ∨
  (find_setup_token d hashed = None ∧ ∃ i at_ user, find_invite d hashed = Some i ∧
     registration_invites d' = <[RegistrationInvite.id i :=
       i <| RegistrationInvite.used_at := Some at_ |> <| RegistrationInvite.used_by_user_id := Some user |>]>
       (registration_invites d) ∧
     setup_tokens d' = setup_tokens d).

Lemma redeemed_refuses d d' hashed :
  tokens_ok d → redeemed d d' hashed →
  (∃ t, find_setup_token d' hashed = Some t ∧ is_some (SetupToken.used_at t) = true) ∨
  (find_setup_token d' hashed = None ∧
   ∃ i, find_invite d' hashed = Some i ∧ is_some (RegistrationInvite.used_at i) = true).
Proof using Type.
  intros Hok [(t & at_ & Hf & Ht & Hi)|(Hn & i & at_ & user & Hf & Hi & Ht)].
  - left. apply find_setup_token_spec in Hf as [Hk Hh]; [|done].
    exists (use_token at_ t). split; [|done]. apply head_filter_unique; [|done|].
    + apply elem_of_rows. exists (SetupToken.id t). by rewrite Ht, lookup_insert, decide_True.
    + intros t' [k' Hk']%elem_of_rows Hh'. rewrite Ht, lookup_insert in Hk'. case_decide as Heq; [by injection Hk'|].
      exfalso. apply Heq, (tk_hash _ Hok _ _ _ _ Hk Hk'). congruence.
  - right. split; [unfold find_setup_token; by rewrite Ht|]. apply find_invite_spec in Hf as [Hk Hh]; [|done].
    exists (i <| RegistrationInvite.used_at := Some at_ |> <| RegistrationInvite.used_by_user_id := Some user |>).
    split; [|done]. apply head_filter_unique; [|exact Hh|].
    + apply elem_of_rows. exists (RegistrationInvite.id i). by rewrite Hi, lookup_insert, decide_True.
    + intros t' [k' Hk']%elem_of_rows Hh'. rewrite Hi, lookup_insert in Hk'. case_decide as Heq; [by injection Hk'|].
      exfalso. apply Heq, (iv_hash _ Hok _ _ _ _ Hk Hk'). congruence.
Qed.

(** What looking a link up finds. *)
Definition link_row (d : Db) (now : Z) (token : string) : result exn (SetupToken.t + RegistrationInvite.t) :=
  match find_setup_token d (sha256_hex token) with
  | Some t => match link_refused (SetupToken.used_at t) (SetupToken.expires_at t) now with
              | Some e => Raise e | None => Ok (inl t) end
  | None =>
      match find_invite d (sha256_hex token) with
      | Some i => match link_refused (RegistrationInvite.used_at i) (RegistrationInvite.expires_at i) now with
                  | Some e => Raise e | None => Ok (inr i) end
      | None => Raise not_found
      end
  end.

Lemma link_refused_not_found u e n x : link_refused u e n = Some x → bool_decide (x = not_found) = false.
Proof using Type.
  unfold link_refused. destruct (is_some u); [by intros [= <-]|]. destruct (bool_decide _); [by intros [= <-]|done].
Qed.

Lemma either_link_run {A} token (f : SetupToken.t → M A) (g : RegistrationInvite.t → M A) s :
  either_link sha256_hex token f g s =
    match link_row (db s) (now s) token with
    | Raise e => (Raise e, s) | Ok (inl t) => f t s | Ok (inr i) => g i s
    end.
Proof using Type.
  unfold either_link, link_row, lookup_active_token, lookup_active_registration_invite.
  unfold try_except, mbind, prog_bind, some_or_raise, gets, utcnow, hash_setup_token. cbn.
  destruct (find_setup_token (db s) (sha256_hex token)) as [t|]; cbn.
  - unfold gets. destruct (link_refused (SetupToken.used_at t) _ _) eqn:He; cbn; [|done].
    by rewrite (link_refused_not_found _ _ _ _ He).
  - rewrite bool_decide_true by done. destruct (find_invite (db s) (sha256_hex token)) as [i|]; cbn; [|done].
    unfold gets. by destruct (link_refused (RegistrationInvite.used_at i) _ _).
Qed.

Lemma activate_redeems token p req s u s' :
  clean s → activate ci bcrypt_hash sha256_hex body_digest token p req s = (Ok u, s') →
  redeemed (db s) (db s') (sha256_hex token).
Proof using Type.
  intros Hc H. unfold activate in H. rewrite either_link_run in H. unfold link_row in H.
  destruct (find_setup_token (db s) (sha256_hex token)) as [t|] eqn:Ht.
  - left. destruct (link_refused _ _ _); [done|]. exists t.
    apply bind_Ok in H as (o & s1 & Ho & H). injection Ho as <- <-.
    apply bind_Ok in H as (u1 & s1 & Ho & H). destruct (users (db s) !! _); [|done]. injection Ho as <- <-.
    apply bind_Ok in H as (x & s1 & Hck & H).
    destruct (eq_check_token ci body_digest _ _ _ _ _ _ Hc Hck) as (Hc1 & _ & Hd1). cbv zeta in H.
    apply bind_Ok in H as (at_ & s2 & Hat & H). injection Hat as <- <-. exists (now s1). split; [done|].
    apply bind_Ok in H as (x2 & s2 & Hsv & H). apply links_save_user in Hsv as (Hc2 & _ & H1 & H2 & H3); [|done].
    apply bind_Ok in H as (x3 & s3 & Hst & H). injection Hst as <- <-.
    rewrite (bind_run flush _ _ tt _) in H by by apply flush_clean.
    assert (Hrest : Moves links_same (when (bool_decide (SetupToken.purpose t = "activation"%string))
      (add_profile_key body_digest p (activated bcrypt_hash t p t0) req) ;;
      write "setup_token.activate" (Some (User.id (activated bcrypt_hash t p t0)))
        (Some (User.lab_id (activated bcrypt_hash t p t0))) (Some "user"%string)
        (Some (User.id (activated bcrypt_hash t p t0))) None None JNull req ;;
      mret (activated bcrypt_hash t p t0))) by moves.
    apply Hrest in H as (_ & _ & E1 & _ & E3); [|exact Hc2]. cbn in E1, E3. rewrite E1, E3, H1, H3, Hd1. done.
  - right. split; [done|]. destruct (find_invite (db s) (sha256_hex token)) as [i|] eqn:Hi; [|done].
    destruct (link_refused _ _ _); [done|].
    exists i. unfold _complete_registration_invite in H.
    destruct (pf_username p) as [un|]; [|done]. destruct (pf_email p) as [em|]; [|done].
    destruct (pf_display_name p) as [dn|]; [|done]. cbv zeta in H.
    apply bind_Ok in H as (x & s1 & Hv & H).
    assert (Hm : Moves eq (_validate_new_registration_profile ci (RegistrationInvite.lab_id i) un em))
      by (unfold _validate_new_registration_profile; moves).
    apply Hm in Hv as (Hc1 & _ & Hd1); [|done]. apply bind_Ok in H as (x1 & s2 & Hv & H).
    apply (eq_validate_key body_digest p None) in Hv as (Hc2 & _ & Hd2); [|done].
    apply bind_Ok in H as (nu & s3 & Hadd & H).
    assert (Hm2 : ∀ f h, (∀ e, Moves links_same (h e : M User.t)) → Moves links_same (try_except (add_user ci f) h)) by (intros; moves).
    apply Hm2 in Hadd as (Hc3 & _ & H1 & H2 & H3); [|intros []; apply _|done].
    apply bind_Ok in H as (at_ & s4 & Hat & H). injection Hat as <- <-. exists (now s3), (User.id nu). split; [done|].
    apply bind_Ok in H as (x3 & s4 & Hst & H). injection Hst as <- <-.
    rewrite (bind_run flush _ _ tt _) in H by by apply flush_clean.
    match type of H with ?m _ = _ => assert (Hrest : Moves links_same m) by (unfold audit_invite; moves) end.
    apply Hrest in H as (_ & _ & E1 & _ & E3); [|exact Hc3]. cbn in E1, E3. rewrite E1, E3, H1, H3.
    rewrite <- Hd2, <- Hd1. done.
Qed.

(** C23: a link, of either kind, is good once.  After a redemption succeeded,
    whoever presents the same text again, with whatever form, at whatever
    time, is told it was used, and nothing changes. *)
Theorem activation_single_use token p req s u s' p2 req2 s2 :
  clean s → tokens_ok (db s) →
  activate ci bcrypt_hash sha256_hex body_digest token p req s = (Ok u, s') → db s2 = db s' →
  activate ci bcrypt_hash sha256_hex body_digest token p2 req2 s2 =
    (Raise (InvalidActivationTokenError "token already used"), s2).
Proof using Type.
  intros Hc Hok Hrun Hdb. apply activate_redeems in Hrun; [|done].
  apply (redeemed_refuses _ _ _ Hok) in Hrun. unfold activate. rewrite either_link_run. unfold link_row. rewrite Hdb.
  destruct Hrun as [(t & -> & Hu)|(-> & i & -> & Hu)]; unfold link_refused; by rewrite Hu.
Qed.

(** *** Issuing *)

Lemma use_all_ok at_ d user :
  tokens_ok d → tokens_ok (d <| setup_tokens := use_all at_ (live_tokens d user) (setup_tokens d) |>).
Proof using Type.
  intros Hok. assert (Hpre : ∀ k t, use_all at_ (live_tokens d user) (setup_tokens d) !! k = Some t →
    ∃ t0, setup_tokens d !! k = Some t0 ∧ SetupToken.id t = SetupToken.id t0 ∧
          SetupToken.token_hash t = SetupToken.token_hash t0).
  { intros k t [(t0 & Hin & <- & ->)|[_ H]]%use_all_lookup; [|by exists t].
    apply list_elem_of_filter in Hin as [_ [k0 Hk0]%elem_of_rows]. destruct (tk_id _ Hok _ _ Hk0) as [-> _].
    by exists t0. }
  split; cbn.
  - intros k t (t0 & H0 & -> & _)%Hpre. by apply (tk_id _ Hok).
  - intros k k' t t' (t0 & H0 & _ & ->)%Hpre (t1 & H1 & _ & ->)%Hpre. by apply (tk_hash _ Hok).
  - apply (iv_id _ Hok).
  - apply (iv_hash _ Hok).
Qed.

(** when a setup link is issued to a user, it is the only unused one he
    has, stored by its digest alone with the purpose, good for 24 hours; his
    other unused links are used up, and the links of others are untouched. *)
Theorem issue_setup_token_spec plaintext user purpose actor lab req s out s' :
  clean s → tokens_ok (db s) →
  issue_setup_token sha256_hex isoformat plaintext user purpose actor lab req s = (Ok out, s') →
  out = (plaintext, now s + hours 24) ∧ tokens_ok (db s') ∧
  (∀ t, t ∈ live_tokens (db s') user ↔
     t = SetupToken.mk (next_setup_token_id (db s)) user (sha256_hex plaintext) purpose (now s + hours 24) None actor) ∧
  (∀ k t, setup_tokens (db s) !! k = Some t → SetupToken.user_id t ≠ user → setup_tokens (db s') !! k = Some t) ∧
  (∃ e, audit_log (db s') = audit_log (db s) ++ [e]).
Proof using Type.
  intros Hc Hok H. unfold issue_setup_token in H. rewrite (bind_run utcnow _ s (now s) s) in H by reflexivity.
  rewrite (bind_run (gets _) _ s (live_tokens (db s) user) s) in H by reflexivity.
  rewrite (bind_run _ _ _ _ _ (use_all_run _ _ _)) in H. cbv zeta in H.
  apply (use_all_ok (now s) _ user) in Hok as Hok1. set (d1 := db s <| setup_tokens := _ |>) in *.
  apply bind_Ok in H as (row & s1 & Hadd & H). unfold add_setup_token in Hadd. cbn [SetupToken.user_id SetupToken.purpose SetupToken.token_hash] in Hadd.
  destruct (negb _); [done|]. destruct (negb _); [done|].
  change (db (s <| db := d1 |>)) with d1 in Hadd. unfold hash_setup_token in *.
  destruct (find_setup_token d1 (sha256_hex plaintext)) eqn:Hfree; [done|]. cbv zeta in Hadd. injection Hadd as <- <-.
  rewrite (bind_run flush _ _ tt _) in H by by apply flush_clean.
  apply bind_Ok in H as (x & s2 & Hw & H). rewrite write_run in Hw by done. injection Hw as _ <-.
  apply ret_run in H as [[= ->] ->]. cbn [db audit_log]. split; [done|].
  unfold find_setup_token in Hfree. rewrite head_filter_None in Hfree.
  assert (Hnew : ∀ k t, setup_tokens d1 !! k = Some t → k ≠ next_setup_token_id (db s)).
  { intros k t Hk. destruct (tk_id _ Hok1 _ _ Hk) as [_ Hlt]. cbn in Hlt. lia. }
  split; [|split; [|split]].
  - split; cbn.
    + intros k t. rewrite lookup_insert. case_decide; [intros [= <-]; subst; split; [done|lia]|].
      intros Hk. destruct (tk_id _ Hok1 _ _ Hk) as [? Hlt]. cbn in Hlt. split; [done|lia].
    + intros k k' t t'. rewrite !lookup_insert. repeat case_decide; subst; try done.
      * intros [= <-] Hk Hh. exfalso. apply (Hfree t'); [apply elem_of_rows; eauto|done].
      * intros Hk [= <-] Hh. exfalso. apply (Hfree t); [apply elem_of_rows; eauto|done].
      * apply (tk_hash _ Hok1).
    + apply (iv_id _ Hok1).
    + apply (iv_hash _ Hok1).
  - intros t. unfold live_tokens. rewrite list_elem_of_filter, elem_of_rows. cbn. split.
    + intros [[Hu Hun] [k Hk]]. rewrite lookup_insert in Hk. case_decide; [by injection Hk as <-|exfalso].
      apply use_all_lookup in Hk as [(t0 & _ & _ & ->)|[Hn Hk]]; [done|]. apply Hn, list_elem_of_fmap. exists t.
      destruct (tk_id _ Hok _ _ Hk) as [-> _]. split; [done|]. apply list_elem_of_filter. split; [done|].
      apply elem_of_rows. eauto.
    + intros ->. split; [done|]. exists (next_setup_token_id (db s)). by rewrite lookup_insert, decide_True.
  - intros k t Hk Hu. cbn. rewrite lookup_insert_ne.
    2:{ intros <-. destruct (tk_id _ Hok _ _ Hk). lia. }
    rewrite use_all_keep; [done|]. intros (t0 & -> & Hin)%list_elem_of_fmap.
    apply list_elem_of_filter in Hin as [[Hu0 _] [k0 Hk0]%elem_of_rows]. destruct (tk_id _ Hok _ _ Hk0) as [Heq _].
    rewrite <- Heq in Hk0. congruence.
  - by eexists.
Qed.
End links.
End auth.

(** ** Closed instances *)

Definition caller : RequestInfo := no_request.
Definition login (username : string) (password : string) : Handler (gmap string entry) LoginResponse :=
  authenticate no_case open_check sample_encode username password caller.

(** Bob, by his address in capitals. *)
Lemma authenticate_spec_witness :
  ∃ s', (login "BOB@LAB.ORG" "secret" (open_session staff_db 30 "", stored)).2.1 = s' ∧
        audited "ok" staff_db (db s').
Proof.
  assert (Hc : clean (open_session staff_db 30 "")) by done.
  assert (Hrow : ∀ u, u ∈ login_rows no_case (db (open_session staff_db 30 "")) "BOB@LAB.ORG" →
    user_row_error no_case (db (open_session staff_db 30 "")) u = None).
  { intros u Hu%list_elem_of_singleton. by subst u. }
  destruct (authenticate_spec no_case open_check sample_encode "BOB@LAB.ORG" "secret" caller _ stored Hc Hrow)
    as (s' & Hout & _ & Ha).
  exists s'. split; [|exact Ha]. unfold login. by rewrite Hout.
Defined.

Definition sha (p : string) : string := ("sha:" +:+ p)%string.
Definition token_db : Db :=
  staff_db <| setup_tokens := {[2 := SetupToken.mk 2 11 (sha "old") "password_reset" 1000000 None None]} |>
           <| next_setup_token_id := 3 |>.

Lemma token_db_ok : tokens_ok token_db.
Proof.
  assert (E : registration_invites token_db = ∅) by reflexivity. split; rewrite ?E.
  - intros k t Hk. by apply (lookup_only _ _ _ _ _ eq_refl) in Hk as [-> ->].
  - intros k k' t t' Hk Hk'. apply (lookup_only _ _ _ _ _ eq_refl) in Hk as [-> ->].
    by apply (lookup_only _ _ _ _ _ eq_refl) in Hk' as [-> ->].
  - intros k i Hk. by apply lookup_empty_Some in Hk.
  - intros k k' i i' Hk. by apply lookup_empty_Some in Hk.
Qed.

Lemma issue_setup_token_spec_witness :
  ∃ out s', issue_setup_token sha (λ _, "now"%string) "fresh" 11 "password_reset" (Some 10) (Some 1) no_request
              (open_session token_db 30 "") = (Ok out, s') ∧ tokens_ok (db s').
Proof.
  destruct (issue_setup_token sha (λ _, "now"%string) "fresh" 11 "password_reset" (Some 10) (Some 1) no_request
              (open_session token_db 30 "")) as [[out|e] s'] eqn:Hr; [|vm_compute in Hr; discriminate Hr].
  assert (Hc : clean (open_session token_db 30 "")) by done.
  destruct (issue_setup_token_spec sha _ _ _ _ _ _ _ _ _ _ Hc token_db_ok Hr) as (_ & Hok & _).
  exists out, s'. split; [reflexivity|exact Hok].
Defined.

Definition reset_form : Profile := mkProfile "n3w" None None None None None.

Lemma activation_single_use_witness :
  ∃ s', (activate no_case open_hash sha (λ _, None) "old" reset_form no_request (open_session token_db 30 "")).2 = s' ∧
        activate no_case open_hash sha (λ _, None) "old" reset_form no_request s' =
          (Raise (InvalidActivationTokenError "token already used"), s').
Proof.
  destruct (activate no_case open_hash sha (λ _, None) "old" reset_form no_request (open_session token_db 30 ""))
    as [[u|e] s'] eqn:Hr; [|vm_compute in Hr; discriminate Hr].
  assert (Hc : clean (open_session token_db 30 "")) by done.
  exists s'. split; [reflexivity|].
  exact (activation_single_use no_case open_hash sha (λ _, None) "old" _ _ _ _ _ reset_form no_request s' Hc
           token_db_ok Hr eq_refl).
Defined.

(** The lock counts names as they are typed, MySQL compares them without
    case: three wrong passwords lock "bob" out, and "BOB" still gets in. *)
Definition three_wrong : Handler (gmap string entry) unit :=
  let wrong := try_except (login "bob" "wrong" ;; mret tt) (λ _, mret tt) in wrong ;; wrong ;; wrong.

Example lock_evaded :
  (three_wrong ;; login "bob" "secret") (open_session staff_db 30 "", stored) =
    (Raise AccountLockedError, (three_wrong (open_session staff_db 30 "", stored)).2) ∧
  (match ((three_wrong ;; login "BOB" "secret") (open_session staff_db 30 "", stored)).1 with
   | Ok answer => User.id (login_user answer) = 11
   | Raise _ => False
   end).
Proof. split; vm_compute; reflexivity. Qed.
