(* ===== verification/AuthorityProperties.v ===== *)
(** Who may change what about an account: every request of the account pages
    against a specification of its authority ([api/v1/users.py],
    [api/v1/auth.py], [api/v1/setup.py]). *)

From S2P Require Import Prelude PyText Models SessionLayer RequestLayer.
From S2P Require Import RateLimit RateLimitProperties AgentRpc AuditService AuthDependencies.
From S2P Require Import AuthService UserService UserProperties AuthProperties SetupService.
From S2P Require Import Samples SshKeyService AccountLinkProperties AccountLinkService AccountLinkRequestService.
From S2P Require Import ServerService UsageService ReservationsApi UsersApi SetupProperties.

(** ** Changes of single rows *)

Section touched.
Context (P : Z → option User.t → option User.t → Prop).

(** Every user is as before or has changed as [P] says. *)
Definition touched (d d' : Db) : Prop :=
  ∀ k, users d' !! k = users d !! k ∨ P k (users d !! k) (users d' !! k).

Lemma touched_same d d' : users_same d d' → touched d d'.
Proof using Type. intros [Hu _] k. left. by rewrite Hu. Qed.

Lemma at_before {A B} (m : M A) (f : A → M B) s :
  Moves users_same m →
  (∀ a s1, clean s1 → m s = (Ok a, s1) → now s1 = now s → users (db s1) = users (db s) → moves_at touched (f a) s1) →
  (∀ s r s', m s = (r, s') → now s' = now s) →
  moves_at touched (m ≫= f) s.
Proof using Type.
  intros Hm Hf Hnow [b|e] s' Hc H.
  - apply bind_Ok in H as (a & s1 & H1 & H). destruct (Hm _ _ _ Hc H1) as (Hc1 & Hk1 & [Hu1 Hn1]).
    destruct (Hf a s1 Hc1 H1 (Hnow _ _ _ H1) Hu1 _ _ Hc1 H) as (Hc2 & Hk2 & HR2). split; [done|].
    split; [congruence|]. intros k. rewrite <- Hu1. apply HR2.
  - apply bind_Raise in H as [H|(a & s1 & H1 & H)].
    + destruct (Hm _ _ _ Hc H) as (Hc1 & Hk1 & Hu). split; [done|]. split; [done|]. by apply touched_same.
    + destruct (Hm _ _ _ Hc H1) as (Hc1 & Hk1 & [Hu1 Hn1]).
      destruct (Hf a s1 Hc1 H1 (Hnow _ _ _ H1) Hu1 _ _ Hc1 H) as (Hc2 & Hk2 & HR2). split; [done|].
      split; [congruence|]. intros k. rewrite <- Hu1. apply HR2.
Qed.

Lemma at_after {A B} (m : M A) (f : A → M B) s :
  moves_at touched m s → (∀ a, Moves users_same (f a)) → moves_at touched (m ≫= f) s.
Proof using Type.
  intros Hm Hf [b|e] s' Hc H.
  - apply bind_Ok in H as (a & s1 & H1 & H). destruct (Hm _ _ Hc H1) as (Hc1 & Hk1 & HR1).
    destruct (Hf a _ _ _ Hc1 H) as (Hc2 & Hk2 & [Hu _]). split; [done|]. split; [congruence|].
    intros k. rewrite Hu. apply HR1.
  - apply bind_Raise in H as [H|(a & s1 & H1 & H)]; [by apply (Hm _ _ Hc H)|].
    destruct (Hm _ _ Hc H1) as (Hc1 & Hk1 & HR1). destruct (Hf a _ _ _ Hc1 H) as (Hc2 & Hk2 & [Hu _]).
    split; [done|]. split; [congruence|]. intros k. rewrite Hu. apply HR1.
Qed.

Lemma at_same {A} (m : M A) s : Moves users_same m → moves_at touched m s.
Proof using Type.
  intros Hm r s' Hc H. destruct (Hm _ _ _ Hc H) as (Hc1 & Hk & Hu). split; [done|]. split; [done|].
  by apply touched_same.
Qed.

(** A step that only reads. *)
Lemma at_read {A B} (m : M A) (f : A → M B) s a : m s = (Ok a, s) → moves_at touched (f a) s → moves_at touched (m ≫= f) s.
Proof using Type. intros Hm Hf r s' Hc H. rewrite (bind_run _ _ _ _ _ Hm) in H. exact (Hf _ _ Hc H). Qed.

Lemma at_raise {A} e s : moves_at touched (raise e : M A) s.
Proof using Type. intros r s' Hc [= <- <-]. split; [done|]. split; [done|]. intros k. by left. Qed.

Lemma at_guard {A} b e (m : M A) s : (b = false → moves_at touched m s) → moves_at touched (raise_if b e ;; m) s.
Proof using Type.
  intros Hm. destruct b; [|by apply at_read with tt; [done|apply Hm]]. intros r s' Hc [= <- <-].
  split; [done|]. split; [done|]. intros k. by left.
Qed.

Lemma at_some {A B} (o : option A) e (f : A → M B) s :
  (∀ a, o = Some a → moves_at touched (f a) s) → moves_at touched (some_or_raise o e ≫= f) s.
Proof using Type.
  intros Hf. destruct o as [a|]; [by apply at_read with a; [done|apply Hf]|]. intros r s' Hc [= <- <-].
  split; [done|]. split; [done|]. intros k. by left.
Qed.

Lemma at_get_user {A} id lab (f : User.t → M A) s :
  (∀ u, users (db s) !! id = Some u → User.lab_id u = lab → moves_at touched (f u) s) →
  moves_at touched (get_user id lab ≫= f) s.
Proof using Type.
  intros Hf. pose proof (get_user_run id lab s) as Hrun. destruct (users (db s) !! id) as [u|] eqn:Hu.
  - destruct (bool_decide_reflect (User.lab_id u = lab)) as [Hl|Hl].
    + apply at_read with u; [done|by apply Hf].
    + intros r s' Hc H. rewrite (bind_run_raise _ _ _ _ _ Hrun) in H. injection H as <- <-.
      split; [done|]. split; [done|]. intros k. by left.
  - intros r s' Hc H. rewrite (bind_run_raise _ _ _ _ _ Hrun) in H. injection H as <- <-.
    split; [done|]. split; [done|]. intros k. by left.
Qed.

Lemma at_save ci u old s :
  users (db s) !! User.id u = Some old → P (User.id u) (Some old) (Some u) → moves_at touched (save_user ci u) s.
Proof using Type.
  intros Hold HP r s' Hc H. unfold save_user in H. destruct (user_row_error _ _ _); injection H as <- <-.
  - split; [done|]. split; [done|]. intros k. by left.
  - split; [done|]. split; [done|]. intros k. cbn. rewrite lookup_insert. case_decide as Hk; [|by left].
    subst k. right. by rewrite Hold.
Qed.

Lemma at_mapping {A} (m : M A) f s : moves_at touched m s → moves_at touched (mapping m f) s.
Proof using Type.
  intros Hm r s' Hc H. rewrite mapping_run in H. destruct (m s) as [r1 s1] eqn:Hrun. injection H as <- <-.
  by apply (Hm r1 s1).
Qed.

Lemma at_or_duplicate {A} (m : M A) s : moves_at touched m s → moves_at touched (or_duplicate m) s.
Proof using Type.
  intros Hm r s' Hc H. unfold or_duplicate, try_except in H. destruct (m s) as [[a|e] s1] eqn:Hrun.
  - injection H as <- <-. by apply Hm in Hrun.
  - apply Hm in Hrun; [|done]. destruct e; by injection H as <- <-.
Qed.

(** The request as a whole. *)
Lemma touched_request {R A} (h : Handler R A) d l at_ uuid :
  (∀ r w', h (open_session d at_ uuid, l) = (r, w') →
     clean w'.1 ∧ committed w'.1 = d ∧ touched d (db w'.1)) →
  touched d (get_world_session h d l at_ uuid).1.2.
Proof using Type.
  intros Hh. destruct (h (open_session d at_ uuid, l)) as [r [s l']] eqn:Hrun.
  destruct (Hh _ _ eq_refl) as (Hc & Hk & Ht). simpl in *. rewrite (get_world_run h d l at_ uuid r s l' Hrun Hc). simpl.
  destruct r as [a|e]; [exact Ht|]. destruct (is_HTTPException e); [exact Ht|]. rewrite Hk. intros k. by left.
Qed.
End touched.

(** ** The operations *)

Definition with_profile (name email : option string) (u : User.t) : User.t :=
  u <| User.display_name := default (User.display_name u) name |> <| User.email := default (User.email u) email |>.

Definition with_role (role : string) (u : User.t) : User.t := u <| User.role := role |>.
Definition with_active (a : Z) (u : User.t) : User.t := u <| User.is_active := a |>.
Definition with_password (hash : string) (u : User.t) : User.t := u <| User.password_hash := Some hash |>.
Definition signed_in (t : Z) (u : User.t) : User.t := u <| User.last_login_at := Some t |>.

Section operations.
Context (P : Z → option User.t → option User.t → Prop) (ci : string → string).

(** The row of a user of the lab. *)
Definition row_of (d : Db) (id lab : Z) (u : User.t) : Prop := users d !! id = Some u ∧ User.lab_id u = lab.

Lemma row_id d k u : users_ok ci d → users d !! k = Some u → User.id u = k.
Proof using Type. intros Hok Hk. by destruct (us_id _ _ Hok _ _ Hk). Qed.

(** [row.a = v; flush], on a row that was read. *)
Lemma at_save_row f k u s :
  users_ok ci (db s) → users (db s) !! k = Some u → User.id (f u) = User.id u → P k (Some u) (Some (f u)) →
  moves_at (touched P) (save_user ci (f u)) s.
Proof using Type.
  intros Hok Hu Hid HP. pose proof (row_id _ _ _ Hok Hu) as Hk. apply (at_save P ci (f u) u); rewrite Hid, Hk; done.
Qed.

Lemma update_touched id name email actor role lab req s :
  users_ok ci (db s) →
  (∀ u, row_of (db s) id lab u → actor = id ∨ role = "lab_admin"%string → P id (Some u) (Some (with_profile name email u))) →
  moves_at (touched P) (update_user ci id name email actor role lab req) s.
Proof using Type.
  intros Hok HP. unfold update_user, audit_user. apply at_get_user. intros u Hu Hlab. apply at_guard. intros Hg. cbv zeta.
  apply at_after; [|intros; apply _]. apply at_or_duplicate. apply (at_save_row (with_profile name email) id u); [done..|].
  apply HP; [done|]. rewrite (row_id _ _ _ Hok Hu) in Hg.
  destruct (bool_decide_reflect (actor = id)); [by left|]. destruct (bool_decide_reflect (role = "lab_admin"%string)); [by right|done].
Qed.

Lemma ensure_reads id lab s : (_ensure_at_least_one_active_admin id lab s).2 = s.
Proof using Type.
  unfold _ensure_at_least_one_active_admin, mbind, prog_bind, gets, raise_if. by destruct (bool_decide _).
Qed.

(** [when b ensure ;; m]. *)
Lemma at_ensure {A} b id lab (m : M A) s :
  moves_at (touched P) m s → moves_at (touched P) (when b (_ensure_at_least_one_active_admin id lab) ;; m) s.
Proof using Type.
  intros Hm r s' Hc H. unfold when in H. destruct b; [|exact (Hm _ _ Hc H)].
  pose proof (ensure_reads id lab s) as Hs. unfold mbind, prog_bind in H.
  destruct (_ensure_at_least_one_active_admin id lab s) as [[[]|e] s1]; simpl in Hs; subst s1; [exact (Hm _ _ Hc H)|].
  injection H as <- <-. split; [done|]. split; [done|]. intros k. by left.
Qed.

Lemma role_touched id role actor lab req s :
  users_ok ci (db s) →
  (∀ u, actor ≠ id → row_of (db s) id lab u → P id (Some u) (Some (with_role role u))) →
  moves_at (touched P) (change_role ci id role actor lab req) s.
Proof using Type.
  intros Hok HP. unfold change_role, audit_user. apply at_guard. intros Hne%bool_decide_eq_false. apply at_get_user.
  intros u Hu Hlab. apply at_ensure. cbv zeta. apply at_after; [|intros; apply _].
  by apply (at_save_row (with_role role) id u); [..|apply HP].
Qed.

Lemma disable_touched reply message id actor lab req s :
  users_ok ci (db s) →
  (∀ u, actor ≠ id → row_of (db s) id lab u → P id (Some u) (Some (with_active 0 u))) →
  moves_at (touched P) (disable_user ci reply message id actor lab req) s.
Proof using Type.
  intros Hok HP. unfold disable_user, audit_user. apply at_guard. intros Hne%bool_decide_eq_false. apply at_get_user.
  intros u Hu Hlab. apply at_ensure. cbv zeta. apply at_after; [|intros; apply _].
  by apply (at_save_row (with_active 0) id u); [..|apply HP].
Qed.

Lemma reactivate_touched id actor lab req s :
  users_ok ci (db s) →
  (∀ u, row_of (db s) id lab u → User.is_active u = 0 → P id (Some u) (Some (with_active 1 u))) →
  moves_at (touched P) (reactivate_user ci id actor lab req) s.
Proof using Type.
  intros Hok HP. unfold reactivate_user, audit_user. apply at_get_user. intros u Hu Hlab.
  destruct (bool_decide_reflect (User.is_active u = 0)) as [Ha|Ha]; [|apply at_same, _]. simpl negb. cbv iota zeta.
  apply at_after; [|intros; apply _]. by apply (at_save_row (with_active 1) id u); [..|apply HP].
Qed.

Lemma password_touched bcrypt_hash bcrypt_check old new actor lab req s :
  users_ok ci (db s) →
  (∀ u hash, row_of (db s) actor lab u → User.password_hash u = Some hash →
     verify_password bcrypt_check old hash = true →
     P actor (Some u) (Some (with_password (hash_password bcrypt_hash new) u))) →
  moves_at (touched P) (change_password ci bcrypt_hash bcrypt_check old new actor lab req) s.
Proof using Type.
  intros Hok HP. unfold change_password, audit_user. apply at_get_user. intros u Hu Hlab.
  destruct (User.password_hash u) as [hash|] eqn:Hh; [|apply at_same, _].
  destruct (verify_password bcrypt_check old hash) eqn:Hv; [|apply at_same, _]. simpl negb. cbv iota.
  apply at_after; [|intros; apply _].
  by apply (at_save_row (with_password (hash_password bcrypt_hash new)) actor u);
    [..|apply (HP _ hash)].
Qed.

(** *** Links *)

Context (bcrypt_hash sha256_hex : string → string) (body_digest : pystr → option pystr).

(** Code that does not write users and does not move the clock. *)
Lemma validate_key_now p id s r s' : validate_key body_digest p id s = (r, s') → s' = s.
Proof using Type.
  unfold validate_key, _validate_registration_ssh_key. destruct (pf_ssh_key_public_key p); [|by intros [= <- <-]].
  destruct (parse_public_key _ _) as [[[? ?] ?]|]; [|by intros [= <- <-]]. destruct id; [|by intros [= <- <-]].
  unfold mbind, prog_bind, gets, raise_if. destruct (is_some _); by intros [= <- <-].
Qed.

Lemma check_token_reads row user p s r s' : check_token ci body_digest row user p s = (r, s') → s' = s.
Proof using Type.
  unfold check_token, _validate_registration_profile, mbind, prog_bind, gets, raise_if.
  destruct (bool_decide _); [|destruct (bool_decide _); [|by intros [= <- <-]]].
  - destruct (is_some _); [by intros [= <- <-]|]. cbn.
    destruct (pf_username p); [destruct (_ && _); [by intros [= <- <-]|]|]; cbn;
      (destruct (pf_email p); [destruct (_ && _); [by intros [= <- <-]|]|]; cbn; apply validate_key_now).
  - destruct (_ || _); [by intros [= <- <-]|]. cbn. destruct (_ || _); by intros [= <- <-].
Qed.

(** A prefix that only reads. *)
Lemma at_reads {A B} (m : M A) (f : A → M B) s :
  (∀ r s', m s = (r, s') → s' = s) → (∀ a, m s = (Ok a, s) → moves_at (touched P) (f a) s) →
  moves_at (touched P) (m ≫= f) s.
Proof using Type.
  intros Hm Hf r s' Hc H. unfold mbind, prog_bind in H. destruct (m s) as [[a|e] s1] eqn:Hrun.
  - pose proof (Hm _ _ eq_refl) as ->. exact (Hf a eq_refl _ _ Hc H).
  - pose proof (Hm _ _ eq_refl) as ->. injection H as <- <-. split; [done|]. split; [done|]. intros k. by left.
Qed.

Lemma at_add_user mk_row s :
  users_ok ci (db s) → (∀ id, User.id (mk_row id) = id) → (∀ id, P id None (Some (mk_row id))) →
  moves_at (touched P) (add_user ci mk_row) s.
Proof using Type.
  intros Hok Hid HP r s' Hc H. unfold add_user in H. cbv zeta in H. set (id := next_user_id (db s)) in *.
  destruct (user_row_error _ _ _); injection H as <- <-.
  { split; [done|]. split; [done|]. intros k. by left. }
  split; [done|]. split; [done|]. intros k. cbn. rewrite lookup_insert. case_decide as Hk; [|by left]. subst k. right.
  destruct (users (db s) !! id) as [u|] eqn:Hu; [|apply HP]. destruct (us_id _ _ Hok _ _ Hu). lia.
Qed.

Lemma complete_touched i p req s :
  users_ok ci (db s) →
  (∀ id u', User.id u' = id → User.lab_id u' = RegistrationInvite.lab_id i → User.role u' = RegistrationInvite.role i →
     User.is_active u' = 1 → P id None (Some u')) →
  moves_at (touched P) (_complete_registration_invite ci bcrypt_hash body_digest i p req) s.
Proof using Type.
  intros Hok HP. unfold _complete_registration_invite, _validate_new_registration_profile, audit_invite.
  destruct (pf_username p) as [username|]; [|apply at_raise]. destruct (pf_email p) as [email|]; [|apply at_raise].
  destruct (pf_display_name p) as [name|]; [|apply at_raise]. cbv zeta.
  apply at_reads; [|intros _ _].
  { intros r s'. unfold mbind, prog_bind, gets, raise_if. destruct (name_taken _ _ _ _ _); [by intros [= <- <-]|].
    cbn. destruct (email_taken _ _ _ _ _); by intros [= <- <-]. }
  apply at_reads; [intros r s'; apply validate_key_now|intros _ _].
  apply at_after; [|intros; apply _].
  match goal with |- moves_at _ (try_except ?m _) _ => assert (Ha : moves_at (touched P) m s) end.
  { apply at_add_user; [done|done|]. intros id. by apply HP. }
  intros r s' Hc H. unfold try_except in H. destruct (add_user ci _ s) as [[a|e] s1] eqn:Hrun.
  - injection H as <- <-. exact (Ha _ _ Hc Hrun).
  - destruct e; injection H as <- <-; exact (Ha _ _ Hc Hrun).
Qed.

Lemma activate_touched token p req s :
  users_ok ci (db s) →
  (∀ row u, link_row sha256_hex (db s) (now s) token = Ok (inl row) → users (db s) !! SetupToken.user_id row = Some u →
     P (SetupToken.user_id row) (Some u) (Some (activated bcrypt_hash row p u))) →
  (∀ i id u', link_row sha256_hex (db s) (now s) token = Ok (inr i) → User.id u' = id →
     User.lab_id u' = RegistrationInvite.lab_id i → User.role u' = RegistrationInvite.role i →
     User.is_active u' = 1 → P id None (Some u')) →
  moves_at (touched P) (activate ci bcrypt_hash sha256_hex body_digest token p req) s.
Proof using Type.
  intros Hok H1 H2 r s' Hc H. unfold activate in H. rewrite either_link_run in H.
  destruct (link_row sha256_hex (db s) (now s) token) as [[row|i]|e] eqn:Hl.
  - revert r s' Hc H. change (moves_at (touched P) (o ← get_user_row (SetupToken.user_id row) ;
      user ← some_or_raise o no_such_user ; check_token ci body_digest row user p ;;
      let user := activated bcrypt_hash row p user in at_ ← utcnow ; save_user ci user ;;
      set_setup_token (use_token at_ row) ;; flush ;;
      when (bool_decide (SetupToken.purpose row = "activation"%string)) (add_profile_key body_digest p user req) ;;
      write "setup_token.activate" (Some (User.id user)) (Some (User.lab_id user)) (Some "user"%string)
        (Some (User.id user)) None None JNull req ;; mret user) s).
    apply at_read with (users (db s) !! SetupToken.user_id row); [done|]. apply at_some. intros u Hu.
    apply at_reads; [intros r s'; apply check_token_reads|intros _ _]. cbv zeta.
    apply at_read with (now s); [done|]. apply at_after; [|intros; apply _].
    apply (at_save_row (activated bcrypt_hash row p) (SetupToken.user_id row) u); [done|done| |by apply H1].
    unfold activated. by destruct (bool_decide _).
  - revert r s' Hc H. apply complete_touched; [done|]. intros id u'. by apply (H2 i).
  - injection H as <- <-. split; [done|]. split; [done|]. intros k. by left.
Qed.

(** *** Signing in *)

Context {R : Type} `{Redis R} (jwt_encode : list (string * json) → string) (bcrypt_check : string → string → bool).

Abbreviation htouched := (hmoves_at (touched P)).

Lemma hat_same {A} (h : Handler R A) w : hmoves_at users_same h w → htouched h w.
Proof using Type.
  intros Hh r w' Hc Hrun. destruct (Hh _ _ Hc Hrun) as (Hc' & Hk & Hu). split; [done|]. split; [done|]. by apply touched_same.
Qed.

(** A step that leaves the session alone. *)
Lemma hat_read {A B} (h : Handler R A) (f : A → Handler R B) w :
  (∀ r w', h w = (r, w') → w'.1 = w.1) → (∀ a w1, w1.1 = w.1 → h w = (Ok a, w1) → htouched (f a) w1) → htouched (h ≫= f) w.
Proof using Type.
  intros Hh Hf r w' Hc Hrun. unfold mbind, prog_bind in Hrun. destruct (h w) as [[a|e] w1] eqn:He.
  - pose proof (Hh _ _ eq_refl) as H1. assert (Hc1 : clean w1.1) by by rewrite H1.
    destruct (Hf a w1 H1 eq_refl _ _ Hc1 Hrun) as (Hc' & Hk & Ht). rewrite H1 in *. done.
  - pose proof (Hh _ _ eq_refl) as H1. injection Hrun as <- <-. rewrite H1. split; [done|]. split; [done|]. intros k. by left.
Qed.

Lemma hat_after {A B} (m : M A) (f : A → Handler R B) w :
  moves_at (touched P) m w.1 → (∀ a w1, hmoves_at users_same (f a) w1) → htouched (in_session m ≫= f) w.
Proof using Type.
  intros Hm Hf r w' Hc Hrun. unfold mbind, prog_bind, in_session in Hrun. destruct (m w.1) as [[a|e] s1] eqn:He; cbn in Hrun.
  - destruct (Hm _ _ Hc He) as (Hc1 & Hk1 & Ht1). destruct (Hf a (s1, w.2) r w' Hc1 Hrun) as (Hc' & Hk & [Hu _]).
    split; [done|]. split; [cbn in Hk; congruence|]. intros k. rewrite Hu. apply Ht1.
  - injection Hrun as <- <-. exact (Hm _ _ Hc He).
Qed.

Lemma bad_credentials_same {A} user payload subject req w :
  hmoves_at users_same (bad_credentials user payload subject req : Handler R A) w.
Proof using Type.
  unfold bad_credentials, audit_login. apply hmoves_at_bind; [apply _|apply hmoves_at_in_session, moves_at_of, _|].
  intros _ w1 _ _. apply hmoves_at_bind; [apply _|apply hmoves_at_on_limiter, _|].
  intros. apply hmoves_at_raise, _.
Qed.

Lemma authenticate_touched username password req w :
  users_ok ci (db w.1) →
  (∀ k u hash, users (db w.1) !! k = Some u → User.password_hash u = Some hash →
     verify_password bcrypt_check password hash = true → User.is_active u ≠ 0 →
     P k (Some u) (Some (signed_in (now w.1) u))) →
  htouched (authenticate ci bcrypt_check jwt_encode username password req : Handler R LoginResponse) w.
Proof using Type.
  intros Hok HP. unfold authenticate. cbv zeta.
  apply hat_read; [intros r w'; unfold on_limiter; destruct (is_locked _ _ _ _ _); by intros [= <- <-]|].
  intros b w1 Hw1 _. apply hat_read; [intros r w'; unfold raise_if; by destruct b; intros [= <- <-]|].
  intros _ w2 Hw2 _. rewrite <- Hw1, <- Hw2 in *. clear Hw1 Hw2 w w1. apply hat_read.
  { intros r w'. unfold in_session. destruct (find_login ci username w2.1) as [r1 s1] eqn:Hf.
    apply find_login_run in Hf as [-> _]. by intros [= <- <-]. }
  intros o w3 Hw3 Hrun. unfold in_session in Hrun. destruct (find_login ci username w2.1) as [r1 s1] eqn:Hf.
  injection Hrun as -> <-. apply find_login_run in Hf as [-> Hf]. clear Hw3.
  destruct o as [u|]; [|apply hat_same, bad_credentials_same]. destruct (Hf u eq_refl) as [k Hk].
  destruct (User.password_hash u) as [hash|] eqn:Hh; [|apply hat_same, bad_credentials_same].
  destruct (verify_password bcrypt_check password hash) eqn:Hv; [|apply hat_same, bad_credentials_same].
  simpl negb. cbv iota. destruct (bool_decide_reflect (User.is_active u = 0)) as [Ha|Ha].
  { apply hat_same, hmoves_at_bind; [apply _|apply hmoves_at_in_session, moves_at_of; unfold audit_login; apply _|].
    intros. apply hmoves_at_raise, _. }
  apply hat_read; [by intros r w' [= <- <-]|]. intros t w4 Hw4 [= <- <-].
  destruct (issue_access_token _ _ _ _ _) as [token expires].
  apply hat_read; [by intros r w' [= <- <-]|]. intros t w4 Hw5 [= <- <-]. clear Hw4 Hw5. cbv zeta. apply hat_after.
  - exact (at_save_row (signed_in (now w2.1)) k u w2.1 Hok Hk eq_refl (HP k u hash Hk Hh Hv Ha)).
  - intros _ w4. apply hmoves_at_bind; [apply _|apply hmoves_at_in_session, moves_at_of; unfold audit_login; apply _|].
    intros _ w5 _ _. apply hmoves_at_bind; [apply _|apply hmoves_at_on_limiter, _|]. intros. apply hmoves_at_ret, _.
Qed.
End operations.

(** ** The specification *)

Section authority.
Context (ci : string → string) (isoformat : Z → string).
Context (bcrypt_hash : string → string) (bcrypt_check : string → string → bool) (sha256_hex : string → string).
Context (public_url : pystr) (body_digest : pystr → option pystr).
Context (jwt_encode : list (string * json) → string) (jwt_decode : Z → string → option (list (string * json))).
Context (int_str : string → option Z) (lower_str : string → string).

(** The enabled user a header speaks for. *)
Definition speaks_for (d : Db) (t : Z) (credentials : Credentials) (c : User.t) : Prop :=
  (get_current_user jwt_decode int_str lower_str credentials (open_session d t "")).1 = Ok c.

Definition lab_admin (c : User.t) : Prop := User.role c = "lab_admin"%string.

(** An administrator changes another user of his laboratory. *)
Definition by_admin (f : User.t → User.t) (id : Z) (c : User.t) (k : Z) (o o' : option User.t) : Prop :=
  lab_admin c ∧ k = id ∧ k ≠ User.id c ∧
  ∃ u, o = Some u ∧ User.lab_id u = User.lab_id c ∧ o' = Some (f u).

(** Everything that may happen to the row of user [k], by request: [o]
    before, [o'] after. *)
Definition may_change (rq : account_request) (d : Db) (t k : Z) (o o' : option User.t) : Prop :=
  match rq with
  | ar_login _ password => ∃ u hash,
      o = Some u ∧ User.password_hash u = Some hash ∧ verify_password bcrypt_check password hash = true ∧
      User.is_active u ≠ 0 ∧ o' = Some (signed_in t u)
  | ar_validate _ => False
  | ar_activate token p =>
      (∃ row u, link_row sha256_hex d t token = Ok (inl row) ∧ SetupToken.user_id row = k ∧ o = Some u ∧
         o' = Some (activated bcrypt_hash row p u)) ∨
      (∃ i u', link_row sha256_hex d t token = Ok (inr i) ∧ o = None ∧ o' = Some u' ∧
         User.lab_id u' = RegistrationInvite.lab_id i ∧ User.role u' = RegistrationInvite.role i ∧
         User.is_active u' = 1)
  | ar_call credentials call => ∃ c, speaks_for d t credentials c ∧
      match call with
      | ac_password old new => k = User.id c ∧ ∃ hash,
          o = Some c ∧ User.password_hash c = Some hash ∧ verify_password bcrypt_check old hash = true ∧
          o' = Some (with_password (hash_password bcrypt_hash new) c)
      | ac_update id name email => k = id ∧ (k = User.id c ∨ lab_admin c) ∧ ∃ u,
          o = Some u ∧ User.lab_id u = User.lab_id c ∧ o' = Some (with_profile name email u)
      | ac_role id role => by_admin (with_role role) id c k o o'
      | ac_disable _ _ id => by_admin (with_active 0) id c k o o'
      | ac_reactivate id => by_admin (with_active 1) id c k o o'
      | _ => False
      end
  end.

(** *** The dependency *)

Lemma get_current_user_at credentials s :
  get_current_user jwt_decode int_str lower_str credentials s =
    ((get_current_user jwt_decode int_str lower_str credentials (open_session (db s) (now s) "")).1, s).
Proof using Type.
  unfold get_current_user. destruct credentials as [[scheme token]|]; [|done].
  unfold mbind, prog_bind, raise_if, utcnow, gets, some_or_raise. destruct (negb _); [done|]. cbn.
  destruct (decode_access_token _ _ _) as [payload|]; [|done]. cbn. destruct (json_int _ _) as [uid|]; [|done]. cbn.
  destruct (users (db s) !! uid) as [user|]; [|done]. cbn. by destruct (bool_decide _).
Qed.

Lemma speaks_for_row d t credentials c :
  speaks_for d t credentials c → ∃ k, users d !! k = Some c ∧ User.is_active c ≠ 0.
Proof using Type.
  unfold speaks_for, get_current_user. destruct credentials as [[scheme token]|]; [|done].
  unfold mbind, prog_bind, raise_if, utcnow, gets, some_or_raise. destruct (negb _); [done|]. cbn.
  destruct (decode_access_token _ _ _) as [payload|]; [|done]. cbn. destruct (json_int _ _) as [uid|]; [|done]. cbn.
  destruct (users d !! uid) as [user|] eqn:Hu; [|done]. cbn. destruct (bool_decide_reflect (User.is_active user = 0)); [done|].
  cbn. intros [= <-]. eauto.
Qed.

Lemma caller_run credentials call s r s' :
  caller jwt_decode int_str lower_str credentials call s = (r, s') →
  s' = s ∧ ∀ c, r = Ok c →
    speaks_for (db s) (now s) credentials c ∧ (for_admins call = true → lab_admin c).
Proof using Type.
  unfold caller. destruct (for_admins call).
  - unfold require_role, mbind, prog_bind. rewrite get_current_user_at.
    destruct (get_current_user _ _ _ _ _).1 as [c|e] eqn:Hc; [|by intros [= <- <-]]. unfold raise_if.
    destruct (bool_decide_reflect (User.role c ∈ ["lab_admin"%string])) as [Hr|Hr]; cbn; intros [= <- <-]; split; try done.
    intros c' [= <-]. split; [done|]. intros _. by apply list_elem_of_singleton in Hr.
  - rewrite get_current_user_at. intros [= <- <-]. split; [done|]. by intros c Hc.
Qed.

(** *** The endpoints *)

#[local] Hint Opaque list_users list_logs get_user_profile_summary get_user_reservations list_my_grants get_user
  issue_registration_invite revoke_registration_invite issue_password_reset resend_invite : typeclass_instances.

#[local] Instance same_list_users lab : Moves users_same (list_users lab).
Proof using Type. unfold list_users. apply _. Qed.

#[local] Instance same_list_logs a b c e f : Moves users_same (list_logs a b c e f).
Proof using Type. apply moves_state. intros s r s'. unfold list_logs. destruct (_apply_scope _ _ _ _); by intros [= <- <-]. Qed.

#[local] Instance same_page id c : Moves users_same (get_user_profile_summary id c).
Proof using Type. unfold get_user_profile_summary. do 4 (apply moves_bind; [apply _|apply _|intros ?]). apply _. Qed.

#[local] Instance same_bookings id c : Moves users_same (get_user_reservations id c).
Proof using Type. unfold get_user_reservations. do 3 (apply moves_bind; [apply _|apply _|intros ?]). apply _. Qed.

#[local] Instance same_grants c : Moves users_same (list_my_grants ci c).
Proof using Type. unfold list_my_grants, list_servers, list_grants_for_user. moves. Qed.

#[local] Instance same_issue_invite p lab role actor req :
  Moves users_same (issue_registration_invite sha256_hex isoformat p lab role actor req).
Proof using Type. unfold issue_registration_invite, audit_invite. moves. Qed.

#[local] Instance same_revoke_invite id lab actor req :
  Moves users_same (revoke_registration_invite isoformat id lab actor req).
Proof using Type. unfold revoke_registration_invite, audit_invite, get_registration_invite. moves. Qed.

#[local] Instance same_reset p id actor lab req : Moves users_same (issue_password_reset isoformat sha256_hex p id actor lab req).
Proof using Type. unfold issue_password_reset. moves. Qed.

#[local] Instance same_resend p id actor lab req : Moves users_same (resend_invite isoformat sha256_hex p id actor lab req).
Proof using Type. unfold resend_invite. moves. Qed.

Abbreviation answer_call := (answer_call ci isoformat bcrypt_hash bcrypt_check sha256_hex public_url).

Lemma call_touched d t credentials call c req s :
  users_ok ci d → db s = d → now s = t → speaks_for d t credentials c → (for_admins call = true → lab_admin c) →
  moves_at (touched (may_change (ar_call credentials call) d t)) (answer_call call c req) s.
Proof using Type.
  intros Hok <- <- Hc Hadm. destruct (speaks_for_row _ _ _ _ Hc) as (kc & Hkc & Hact).
  pose proof (row_id _ _ _ _ Hok Hkc) as Hid. subst kc.
  destruct call; cbn [UsersApi.answer_call];
    try (apply at_same; unfold list_users_endpoint, create_registration_invite, list_registration_invites_endpoint,
           list_registration_invites, revoke_registration_invite_endpoint, list_my_account_links, list_all_for_user,
           list_active_for_user, list_my_account_link_requests, list_for_requester, me, get_user_endpoint,
           reset_user_password, resend_invite_endpoint, logout, record_logout; by moves);
    try (apply at_after; [|intros; apply _]); unfold change_password_endpoint, update_user_endpoint, change_role_endpoint, disable_user_endpoint,
      reactivate_user_endpoint; apply at_mapping.
  - apply password_touched; [done|]. intros u hash [Hu Hlab] Hh Hv. rewrite Hkc in Hu. injection Hu as <-.
    exists c. split; [done|]. split; [done|]. by exists hash.
  - apply update_touched; [done|]. intros u [Hu Hlab] Hor. exists c. split; [done|]. split; [done|].
    split; [destruct Hor as [->|Hor]; [by left|by right]|]. by exists u.
  - apply role_touched; [done|]. intros u Hne [Hu Hlab]. exists c. split; [done|]. split; [by apply Hadm|].
    split; [done|]. split; [done|]. by exists u.
  - apply disable_touched; [done|]. intros u Hne [Hu Hlab]. exists c. split; [done|]. split; [by apply Hadm|].
    split; [done|]. split; [done|]. by exists u.
  - apply reactivate_touched; [done|]. intros u [Hu Hlab] Ha. exists c. split; [done|]. split; [by apply Hadm|].
    split; [done|]. split; [intros ->; rewrite Hkc in Hu; by injection Hu as <-|]. by exists u.
Qed.

Context {R : Type} `{Redis R}.

Abbreviation handle := (handle (R := R) ci isoformat bcrypt_hash bcrypt_check sha256_hex public_url body_digest
  jwt_encode jwt_decode int_str lower_str).

(** C9: who may change what about an account.  Whatever request of the
    account pages arrives, with whatever header, every user's row is afterwards
    as it was or changed in the one way the request is entitled to: role and
    enabling only by an enabled administrator of the user's laboratory, and
    never the administrator's own; name and address by such an administrator
    or the user; the password by the user who gave the old one, or by a live
    link of the user's; the time of the last sign-in by the right password of
    an enabled account; and a new row comes only from a live invitation, with
    its laboratory and role. *)
Theorem account_authority rq req d l t uuid :
  users_ok ci d →
  let d' := (handle rq req t uuid (d, l)).1 in
  ∀ k, users d' !! k = users d !! k ∨ may_change rq d t k (users d !! k) (users d' !! k).
Proof using Type.
  intros Hok d'. subst d'. unfold UsersApi.handle.
  match goal with |- context [get_world_session ?h (d, l).1 (d, l).2 t uuid] =>
    enough (Ht : touched (may_change rq d t) d (get_world_session h d l t uuid).1.2);
      [intros k; specialize (Ht k); cbn [fst snd]; by destruct (get_world_session h d l t uuid) as [[? ?] ?]|] end.
  apply touched_request. set (s := open_session d t uuid). assert (Hc : clean s) by done.
  assert (Hses : ∀ (m : M unit), moves_at (touched (may_change rq d t)) m s → ∀ r w', in_session m (s, l) = (r, w') →
     clean w'.1 ∧ committed w'.1 = d ∧ touched (may_change rq d t) d (db w'.1)).
  { intros m Hm r w' Hrun. unfold in_session in Hrun. cbn in Hrun. destruct (m s) as [r1 s1] eqn:He.
    injection Hrun as <- <-. exact (Hm _ _ Hc He). }
  destruct rq as [username password|token|token p|credentials call]; cbn [answer].
  - intros r w' Hrun. unfold login, hmapping, try_except in Hrun. unfold mbind, prog_bind in Hrun.
    destruct (authenticate ci bcrypt_check jwt_encode username password req (s, l)) as [r1 w1] eqn:Hrun1.
    assert (Hw : w' = w1) by (destruct r1; by injection Hrun as _ <-). subst w'.
    apply (authenticate_touched (may_change (ar_login username password) d t)) in Hrun1; [exact Hrun1|exact Hok| |exact Hc].
    intros k u hash Hk Hh Hv Ha. by exists u, hash.
  - apply Hses. apply at_after; [|intros; apply _]. apply at_mapping, at_same.
    pose proof (moves_eq users_same _ (eq_lookup_active_token sha256_hex token)).
    pose proof (moves_eq users_same _ (eq_lookup_active_invite sha256_hex token)).
    unfold validate_activation_token, either_link, get_user_row. moves.
  - apply Hses. apply at_after; [|intros; apply _]. apply at_mapping, activate_touched; [exact Hok| |].
    + intros row u Hl Hu. left. by exists row, u.
    + intros i id u' Hl Hid Hlab Hr Ha. right. by exists i, u'.
  - apply Hses. intros r s' Hc' Hrun. unfold mbind, prog_bind in Hrun.
    destruct (caller jwt_decode int_str lower_str credentials call s) as [[c|e] s1] eqn:Hcall;
      apply caller_run in Hcall as [-> Hcall].
    + destruct (Hcall c eq_refl) as [Hsp Hadm].
      exact (call_touched d t credentials call c req s Hok eq_refl eq_refl Hsp Hadm _ _ Hc' Hrun).
    + injection Hrun as <- <-. split; [done|]. split; [done|]. intros k. by left.
Qed.
End authority.

(** ** Closed instances *)

Definition bearer (id : Z) (role : string) : Credentials :=
  Some ("bearer"%string, (issue_access_token sample_encode id 1 role 0).1).

Abbreviation sample_handle :=
  (handle no_case (λ _, "now"%string) open_hash open_check id (u "https://gpu.lab.org") (λ _, None) sample_encode
     sample_decode decimal_int id).

(** Alice, who runs the lab, makes Bob an administrator. *)
Definition promote_bob : account_request := ar_call (bearer 10 "lab_admin") (ac_role 11 "lab_admin").

Lemma account_authority_witness :
  ∃ c, speaks_for sample_decode decimal_int id staff_db (hours 1) (bearer 10 "lab_admin") c ∧ lab_admin c ∧
    users (sample_handle promote_bob no_request (hours 1) "" (staff_db, stored)).1 !! 11 =
      Some (with_role "lab_admin" (sample_user 11 "bob")).
Proof.
  destruct (account_authority no_case (λ _, "now"%string) open_hash open_check id (u "https://gpu.lab.org") (λ _, None)
              sample_encode sample_decode decimal_int id promote_bob no_request staff_db stored (hours 1) "" staff_ok 11)
    as [Heq|(c & Hc & Hadm & _ & _ & v & Hv & _ & Hv')].
  - exfalso. apply (f_equal (fmap User.role)) in Heq. vm_compute in Heq. discriminate Heq.
  - exists c. split; [exact Hc|]. split; [exact Hadm|]. rewrite Hv'. f_equal. f_equal.
    assert (Hb : users staff_db !! 11 = Some (sample_user 11 "bob")) by reflexivity. rewrite Hb in Hv.
    by injection Hv as <-.
Defined.

(** The same request with Bob's own header is refused and changes nothing,
    whatever role his token claims. *)
Example bob_cannot_promote :
  get_world_session (answer no_case (λ _, "now"%string) open_hash open_check id (u "https://gpu.lab.org") (λ _, None)
      sample_encode sample_decode decimal_int id
      (ar_call (bearer 11 "lab_admin") (ac_role 11 "lab_admin")) no_request) staff_db stored (hours 1) "" =
    (Raise (HTTPException 403 "role not allowed"), staff_db, stored).
Proof. by vm_compute. Qed.

(** Bob takes Alice's address: the conflict is found by the flush, the 409
    prepared for it is lost in the commit that follows. *)
Example taken_address_is_a_server_error :
  get_world_session (answer no_case (λ _, "now"%string) open_hash open_check id (u "https://gpu.lab.org") (λ _, None)
      sample_encode sample_decode decimal_int id
      (ar_call (bearer 11 "user") (ac_update 11 None (Some "ALICE@lab.org"))) no_request) staff_db stored (hours 1) "" =
    (Raise PendingRollbackError, staff_db, stored).
Proof. by vm_compute. Qed.

(** Behind the default address, links point where the browser came from. *)
Example link_behind_proxy :
  _registration_url (u "http://localhost/") (mkUrlRequest (Some (u "gpu.lab.org")) (Some (u "backend:8000"))
    (Some (u "https")) (u "http")) "abc" = u "https://gpu.lab.org/register?token=abc".
Proof. by vm_compute. Qed.
