(* ===== verification/ComplianceMonitor.v ===== *)
(** What an agent finds on its cards and what it does about it
    ([src/agent/corelab_agent/compliance_monitor.py], [violations.py];
    [policy_handlers.py], [grace_tracker.py] and the callbacks [__main__.py]
    wires to them). *)

From S2P Require Import Prelude PyFloat Schema AgentCaches ProcessKiller.
From S2P Require Import ComplianceIngest TelemetryService.

(** * The monitor

    The monitor reads the agent's caches only.  The ISO-8601 parser and the
    parser of [int(str)] are Python library functions and are arguments;
    floats are the binary64 numbers of [SpecFloat]. *)

(** [violations.Violation] *)
Record Violation : Type := mkViolation {
  policy_key : string ;
  server_id : Z ;
  gpu_id_local : Z ;
  linux_username : option string ;
  pid : option Z ;
  linked_user_ids : list Z ;
  payload : list (string * json) }.

(** What leaves a tick early; [_run] logs it and waits for the next. *)
Inductive monitor_error : Type := ValueOrTypeError.

(** The two clocks: [datetime.now(UTC)] and [time.monotonic()]. *)
Record clocks : Type := mkClocks { wall : Z ; mono : Z }.

(** ** Numbers *)

(** [z > f], which Python decides exactly. *)
Definition int_gt_float (z : Z) (f : spec_float) : bool :=
  match f with
  | S754_zero _ => bool_decide (0 < z)
  | S754_infinity s => s
  | S754_nan => false
  | S754_finite s m e =>
      let v := if s then Z.neg m else Z.pos m in
      if 0 <=? e then bool_decide (v * 2 ^ e < z) else bool_decide (v < z * 2 ^ (- e))
  end.

(** [quota_mb * (1 + pct / 100.0)] *)
Definition memory_limit (quota_mb pct : Z) : spec_float :=
  SFmul 53 1024 (float_of_int quota_mb)
    (SFadd 53 1024 (float_of_int 1) (float_div (float_of_int pct) (float_of_int 100))).

Section monitor.
Context (fromisoformat : string → option Z) (int_of_str : string → option Z).

(** [int(v)] on a decoded document. *)
Definition py_int (v : json) : result monitor_error Z :=
  match v with
  | JInt z => Ok z
  | JBool b => Ok (Z.b2z b)
  | JFloat m e => Ok (if 0 <=? e then m * 2 ^ e else Z.quot m (2 ^ (- e)))
  | JStr s => match int_of_str s with Some z => Ok z | None => Raise ValueOrTypeError end
  | _ => Raise ValueOrTypeError
  end.

(** [int(entry.threshold_value.get(key, default))], the default when there is
    no policy or its threshold is no dict. *)
Definition threshold_field (sid : Z) (policy key : string) (default_ : Z) (s : AgentState) :
    result monitor_error Z :=
  match policy_get sid policy s with
  | Some entry =>
      match pe_threshold_value entry with
      | Some (JObj o) => match assoc key o with Some v => py_int v | None => Ok default_ end
      | _ => Ok default_
      end
  | None => Ok default_
  end.

Definition _GPU_HANG_DEFAULT_UTIL_ZERO_S : Z := 600.
Definition _GPU_HANG_DEFAULT_MEM_FLOOR_MB : Z := 1024.
Definition _MEMORY_OVERUSE_DEFAULT_PCT : Z := 20.
Definition _GPU_TEMP_HIGH_DEFAULT_C : Z := 85.

Definition _memory_overuse_threshold_pct (sid : Z) (s : AgentState) : result monitor_error Z :=
  threshold_field sid "memory_overuse" "value" _MEMORY_OVERUSE_DEFAULT_PCT s.

Definition _reservation_overlaps_now (start_at end_at : string) (now : Z) : bool :=
  match fromisoformat start_at, fromisoformat end_at with
  | Some start, Some end_ => bool_decide (start <= now) && bool_decide (now < end_)
  | _, _ => false
  end.

(** A booking that lets its holder use the card now. *)
Definition entitles (gpu_index now : Z) (res : ActiveReservation) : bool :=
  bool_decide (ar_gpu_id res = gpu_index) &&
  negb (bool_decide (ar_source res = "admin_declared"%string)) &&
  _reservation_overlaps_now (ar_start_at res) (ar_end_at res) now.

(** The bookings cached for an account's users, in the order they are tried. *)
Definition reservations_of (sid : Z) (name : string) (s : AgentState) : list ActiveReservation :=
  flat_map (λ uid, lookup_active_reservations sid name uid s) (lookup_user_ids sid name s).

Definition own_reservation (sid gpu_index : Z) (name : string) (now : Z) (s : AgentState) :
    option ActiveReservation :=
  head (filter (λ r, entitles gpu_index now r = true) (reservations_of sid name s)).

(** [_cache_keys_for_server] *)
Definition _cache_keys_for_server (sid : Z) (s : AgentState) : list string :=
  (λ p : Z * string * CacheEntry, p.1.2) <$> map_to_list (slice sid (links s)).

Definition other_holder (sid gpu_index : Z) (name : string) (now : Z) (s : AgentState) : bool :=
  existsb (λ other, negb (bool_decide (other = name)) &&
                    existsb (entitles gpu_index now) (reservations_of sid other s))
    (_cache_keys_for_server sid s).

(** [_evaluate_process] *)
Definition _evaluate_process (sid gpu_index : Z) (name : string) (pid memory_used_mb : Z)
    (now : Z) (s : AgentState) : result monitor_error (option Violation) :=
  let found key users extra :=
    Some (mkViolation key sid gpu_index (Some name) (Some pid) users
            ([("memory_used_mb"%string, JInt memory_used_mb)] ++ extra)) in
  let linked := lookup_user_ids sid name s in
  match linked with
  | [] => Ok (found "unlinked_user_occupy"%string [] [])
  | _ =>
      match own_reservation sid gpu_index name now s with
      | Some res =>
          match ar_gpu_memory_mb res with
          | None => Ok None
          | Some quota_mb =>
              match _memory_overuse_threshold_pct sid s with
              | Raise e => Raise e
              | Ok pct =>
                  if int_gt_float memory_used_mb (memory_limit quota_mb pct)
                  then Ok (found "memory_overuse"%string linked
                             [("memory_quota_mb", JInt quota_mb);
                              ("reservation_id", JInt (ar_reservation_id res))]%string)
                  else Ok None
              end
          end
      | None =>
          if other_holder sid gpu_index name now s
          then Ok (found "preempt_others_reservation"%string linked [])
          else Ok (found "no_reservation_occupy"%string linked [])
      end
  end.

(** [_gpu_state] and the update of the streak. *)
Definition track_util (sid gpu_index util_pct now : Z) (s : AgentState) : AgentState :=
  if bool_decide (util_pct = 0) then
    match util_zero_since s !! (sid, gpu_index) with
    | Some _ => s
    | None => s <| util_zero_since := <[(sid, gpu_index) := now]> (util_zero_since s) |>
    end
  else s <| util_zero_since := delete (sid, gpu_index) (util_zero_since s) |>.

(** [_evaluate_gpu] *)
Definition _evaluate_gpu (sid : Z) (entry : GpuTelemetryEntry) (now : Z) (s : AgentState) :
    result monitor_error (list Violation) * AgentState :=
  let gpu_index := te_gpu_index entry in
  let memory_used_mb := or0 (te_memory_used_mb entry) in
  let temperature_c := or0 (te_temperature_c entry) in
  let s := track_util sid gpu_index (te_util_pct entry) now s in
  match threshold_field sid "gpu_hang" "util_zero_seconds" _GPU_HANG_DEFAULT_UTIL_ZERO_S s,
        threshold_field sid "gpu_hang" "mem_floor_mb" _GPU_HANG_DEFAULT_MEM_FLOOR_MB s,
        threshold_field sid "gpu_temp_high" "value" _GPU_TEMP_HIGH_DEFAULT_C s with
  | Ok threshold_s, Ok mem_floor_mb, Ok temp_threshold =>
      let hang := match util_zero_since s !! (sid, gpu_index) with
        | Some since =>
            if bool_decide (mem_floor_mb <= memory_used_mb) &&
               bool_decide (seconds threshold_s <= now - since)
            then [mkViolation "gpu_hang" sid gpu_index None None []
                    [("util_zero_for_s", JInt ((now - since) / 1000000));
                     ("memory_used_mb", JInt memory_used_mb); ("mem_floor_mb", JInt mem_floor_mb);
                     ("threshold_value_s", JInt threshold_s)]%string]
            else []
        | None => []
        end in
      let hot := if bool_decide (temp_threshold < temperature_c)
        then [mkViolation "gpu_temp_high" sid gpu_index None None []
                [("temperature_c", JInt temperature_c); ("threshold_c", JInt temp_threshold)]%string]
        else [] in
      (Ok (hang ++ hot), s)
  | _, _, _ => (Raise ValueOrTypeError, s)
  end.

(** ** One tick *)

(** The agent's caches and what it did to the outside: signals sent,
    violation events handed to the connection, notify callbacks made. *)
Record Monitor : Type := mkMonitor {
  ag : AgentState ;
  signals : list (Z * Signal) ;
  events : list ComplianceViolationEvent ;
  notified : list (Violation * string) }.

Definition on_agent (f : AgentState → AgentState) (m : Monitor) : Monitor :=
  mkMonitor (f (ag m)) (signals m) (events m) (notified m).

Section tick.
Context (dispatcher : Violation → Monitor → Monitor) (sid : Z) (now : clocks).

(** [try: await dispatcher(v) except Exception: log; n += 1] *)
Definition dispatch_one (v : Violation) : prog Monitor monitor_error unit := update (dispatcher v).

Definition check_process (gpu_index : Z) (n : Z) (proc : GpuProcessSnapshot) :
    prog Monitor monitor_error Z := λ m,
  match _evaluate_process sid gpu_index (pr_linux_username proc) (pr_pid proc) (pr_memory_mb proc)
          (wall now) (ag m) with
  | Raise e => (Raise e, m)
  | Ok None => (Ok n, m)
  | Ok (Some v) => (dispatch_one v ;; mret (n + 1)) m
  end.

Definition check_gpu (n : Z) (gpu : GpuTelemetryEntry) : prog Monitor monitor_error Z := λ m,
  match fold_prog (check_process (te_gpu_index gpu)) n (te_processes gpu) m with
  | (Raise e, m1) => (Raise e, m1)
  | (Ok n1, m1) =>
      let '(r, s) := _evaluate_gpu sid gpu (mono now) (ag m1) in
      let m2 := on_agent (λ _, s) m1 in
      match r with
      | Raise e => (Raise e, m2)
      | Ok vs => (for_each vs dispatch_one ;; mret (n1 + Z.of_nat (length vs))) m2
      end
  end.

(** [run_tick] *)
Definition run_tick (telemetry : GpuTelemetry) : prog Monitor monitor_error Z :=
  fold_prog check_gpu 0 telemetry.
End tick.
End monitor.

(** ** The dispatcher *)

Definition _AUTO_KILL_ALLOWED_KEYS : list string :=
  ["preempt_others_reservation"; "script_overrun_grace"]%string.

(** The callbacks a dispatcher is built with: [notify] is [None] in
    [__main__.py], the other two are the websocket client's methods. *)
Record wiring : Type := mkWiring {
  w_notify : bool ;
  w_kill : bool ;
  w_violation_event : bool ;
  w_mock_mode : bool ;
  w_host : host }.

Definition production (mock_mode : bool) (h : host) : wiring := mkWiring false true true mock_mode h.

Section dispatcher.
Context (w : wiring) (own_server_id : Z) (now : clocks).

Definition _do_notify (v : Violation) (severity : string) (m : Monitor) : Monitor :=
  if w_notify w then mkMonitor (ag m) (signals m) (events m) (notified m ++ [(v, severity)]) else m.

(** [{**payload, "action_taken": "killed", "killed": killed}] *)
Definition with_action (v : Violation) (killed : bool) : Violation :=
  mkViolation (policy_key v) (server_id v) (gpu_id_local v) (linux_username v) (pid v)
    (linked_user_ids v)
    (filter (λ p : string * json, p.1 ∉ ["action_taken"; "killed"]%string) (payload v) ++
     [("action_taken", JStr "killed"); ("killed", JBool killed)]%string).

(** [_route] *)
Definition _route (severity : string) (v : Violation) (m : Monitor) : string * Monitor :=
  if bool_decide (severity = "log_only"%string) then ("log_only"%string, m)
  else if bool_decide (severity = "notify"%string) then ("notify"%string, _do_notify v severity m)
  else if bool_decide (severity = "warn"%string) then ("warn"%string, _do_notify v severity m)
  else if bool_decide (severity = "auto_kill"%string) then
    let '(killed, sent) := match pid v with
                           | Some p => if w_kill w then kill_process_for_policy (w_host w) (w_mock_mode w) p (ag m)
                                       else (false, [])
                           | None => (false, [])
                           end in
    let m := mkMonitor (ag m) (signals m ++ sent) (events m) (notified m) in
    (if killed : bool then "kill"%string else "kill_downgraded_to_warn"%string,
     _do_notify (with_action v killed) severity m)
  else ("log_only"%string, m).

(** [WsClient.push_compliance_violation]: the frame's constructor refuses a
    severity it does not know, which the dispatcher logs. *)
Definition push_compliance_violation (v : Violation) (severity action_taken : string)
    (downgraded_from : option string) (m : Monitor) : Monitor :=
  if w_violation_event w && bool_decide (severity ∈ ["log_only"; "notify"; "warn"; "auto_kill"]%string)
  then mkMonitor (ag m) (signals m)
         (events m ++ [ComplianceIngest.mkViolation own_server_id (gpu_id_local v) (policy_key v)
                        severity (linux_username v) (pid v) (linked_user_ids v) [] action_taken
                        None None None downgraded_from None]) (notified m)
  else m.

Definition grace_of (v : Violation) : grace_key :=
  mkGraceKey (policy_key v) (server_id v) (Some (gpu_id_local v)) (linux_username v) (pid v).

(** The severity after the two guards, and whether it was lowered. *)
Definition effective_severity (entry : PolicyEntry) (key : string) (s : AgentState) :
    string * option string :=
  let '(effective, downgraded_from) :=
    if bool_decide (pe_severity entry = "auto_kill"%string) &&
       negb (bool_decide (key ∈ _AUTO_KILL_ALLOWED_KEYS))
    then ("warn"%string, Some "auto_kill"%string) else (pe_severity entry, None) in
  if bool_decide (effective = "auto_kill"%string) && negb (is_enabled _KILL_CAPABILITY false s)
  then ("warn"%string, Some "auto_kill"%string) else (effective, downgraded_from).

(** [PolicyDispatcher.__call__]: the severity applied. *)
Definition dispatch (v : Violation) (m : Monitor) : string * Monitor :=
  match policy_get own_server_id (policy_key v) (ag m) with
  | None => ("log_only"%string, m)
  | Some entry =>
      if negb (pe_enabled entry) then ("log_only"%string, m)
      else
        let '(should_act, s) := record (grace_of v) (pe_grace_period_seconds entry) (mono now) (ag m) in
        let m := on_agent (λ _, s) m in
        if negb should_act then ("deferred"%string, m)
        else
          let '(effective, downgraded_from) := effective_severity entry (policy_key v) (ag m) in
          let '(action_taken, m) := _route effective v m in
          (effective, push_compliance_violation v effective action_taken downgraded_from m)
  end.

Definition dispatcher (v : Violation) (m : Monitor) : Monitor := (dispatch v m).2.
End dispatcher.

(** One pass of [ComplianceMonitor._run]: an exception is logged and the next
    tick starts from the state reached. *)
Definition monitor_tick (fromisoformat int_of_str : string → option Z) (w : wiring) (sid : Z)
    (now : clocks) (telemetry : GpuTelemetry) (m : Monitor) : Monitor :=
  (run_tick fromisoformat int_of_str (dispatcher w sid now) sid now telemetry m).2.
