(* ===== verification/MonitorProperties.v ===== *)
(** When an agent kills, along every history of pushes and ticks
    ([compliance_monitor.py], [policy_handlers.py], [grace_tracker.py]), and
    what being entitled to a card means: the agent's test on its link cache,
    read in the tables the backend composed that cache from
    ([link_cache_sync_service.py]). *)

From S2P Require Import Prelude Schema Models SessionLayer Samples.
From S2P Require Import Protocol AlertService AgentPolicyService SyncServices AgentCaches.
From S2P Require Import ProcessKiller AgentHandlers SyncProperties ComplianceIngest TelemetryService.
From S2P Require Import ComplianceMonitor.
From Stdlib Require Import DecimalString.

(** ** One violation *)

(** The caches a dispatch reads but never writes. *)
Definition same_caches (s s' : AgentState) : Prop :=
  policies s' = policies s ∧ links s' = links s ∧ capability s' = capability s.

(** Why a violation of an enabled policy may be answered with a kill. *)
Record may_kill (w : wiring) (sid : Z) (now : clocks) (v : Violation) (s : AgentState) (p : Z) : Prop := {
  mk_pid : pid v = Some p ;
  mk_mock : w_mock_mode w = false ;
  mk_key : policy_key v ∈ _AUTO_KILL_ALLOWED_KEYS ;
  mk_capability : capability s !! _KILL_CAPABILITY = Some true ;
  mk_policy : ∃ entry, policy_get sid (policy_key v) s = Some entry ∧ pe_enabled entry = true ∧
    pe_severity entry = "auto_kill"%string ∧
    (0 < or0 (pe_grace_period_seconds entry) → ∃ first, pending s !! grace_of v = Some first ∧
       seconds (or0 (pe_grace_period_seconds entry)) <= mono now - first_seen_monotonic first) }.

Lemma record_caches k g now s : same_caches s (record k g now s).2.
Proof. unfold record. repeat case_match; by split_and!. Qed.

Lemma record_pending k g now s k' pd :
  pending (record k g now s).2 !! k' = Some pd →
  (∃ pd0, pending s !! k' = Some pd0 ∧ first_seen_monotonic pd = first_seen_monotonic pd0) ∨
  (k' = k ∧ pending s !! k' = None ∧ first_seen_monotonic pd = now).
Proof.
  unfold record. case_bool_decide; simpl; [eauto|].
  destruct (pending s !! k) as [p|] eqn:Hp; simpl; rewrite lookup_insert; case_decide; subst.
  - intros [= <-]. left. eauto.
  - eauto.
  - intros [= <-]. right. auto.
  - eauto.
Qed.

Section dispatching.
Context (w : wiring) (sid : Z) (now : clocks).

Lemma do_notify_same v sev m :
  ag (_do_notify w v sev m) = ag m ∧ signals (_do_notify w v sev m) = signals m.
Proof using Type. unfold _do_notify. by destruct (w_notify w). Qed.

Lemma push_same v a b c m :
  ag (push_compliance_violation w sid v a b c m) = ag m ∧
  signals (push_compliance_violation w sid v a b c m) = signals m.
Proof using Type. unfold push_compliance_violation. case_match; split; reflexivity. Qed.

(** Routing sends signals for [auto_kill] alone, and only to the offender. *)
Lemma route_signals severity v m :
  ag (_route w severity v m).2 = ag m ∧
  ∃ sent, signals (_route w severity v m).2 = signals m ++ sent ∧
    (sent ≠ [] → severity = "auto_kill"%string ∧ w_mock_mode w = false ∧
       is_enabled _KILL_CAPABILITY false (ag m) = true ∧
       ∃ p, pid v = Some p ∧ ∀ x, x ∈ sent → x.1 = p).
Proof using Type.
  unfold _route. repeat case_bool_decide; simpl;
    try (split; [by apply do_notify_same|]; exists []; rewrite app_nil_r; split; [by apply do_notify_same|done]).
  - split; [done|]. exists []. by rewrite app_nil_r.
  - destruct (pid v) as [p|]; [destruct (w_kill w)|].
    + unfold kill_process_for_policy.
      destruct (kill_pid (w_host w) (w_mock_mode w) p (ag m)) as [r sent] eqn:Hk. simpl.
      split; [by rewrite (proj1 (do_notify_same _ _ _))|]. exists sent.
      split; [by rewrite (proj2 (do_notify_same _ _ _))|]. intros Hs.
      pose proof (kill_pid_gated (w_host w) (w_mock_mode w) p (ag m)) as Hg.
      pose proof (kill_pid_signals (w_host w) (w_mock_mode w) p (ag m)) as Hin. rewrite Hk in Hg, Hin.
      cbn [snd] in Hg, Hin.
      split; [assumption|]. split; [apply not_true_iff_false; intros Hm; apply Hs, Hg; by right|].
      split; [apply not_false_iff_true; intros Hm; apply Hs, Hg; by left|].
      exists p. split; [reflexivity|]. clear -Hin. intros x Hx.
      repeat (apply elem_of_cons in Hin as [->|Hin]; [set_solver|]). by apply elem_of_nil in Hin.
    + simpl. rewrite app_nil_r. split; [by rewrite (proj1 (do_notify_same _ _ _))|]. exists [].
      rewrite app_nil_r.
      split; [by rewrite (proj2 (do_notify_same _ _ _))|done].
    + simpl. rewrite app_nil_r. split; [by rewrite (proj1 (do_notify_same _ _ _))|]. exists [].
      rewrite app_nil_r.
      split; [by rewrite (proj2 (do_notify_same _ _ _))|done].
  - split; [done|]. exists []. by rewrite app_nil_r.
Qed.

Lemma effective_auto_kill entry key s o :
  effective_severity entry key s = ("auto_kill"%string, o) →
  pe_severity entry = "auto_kill"%string ∧ key ∈ _AUTO_KILL_ALLOWED_KEYS ∧
  capability s !! _KILL_CAPABILITY = Some true.
Proof using Type.
  unfold effective_severity.
  destruct (bool_decide_reflect (pe_severity entry = "auto_kill"%string)) as [Hs|Hs]; simpl.
  - destruct (bool_decide_reflect (key ∈ _AUTO_KILL_ALLOWED_KEYS)) as [Hk|Hk]; simpl; [|done].
    rewrite Hs. simpl. unfold is_enabled.
    destruct (capability s !! _KILL_CAPABILITY) as [[]|]; simpl; done.
  - rewrite bool_decide_eq_false_2 by done. simpl. by intros [= ? _].
Qed.

(** What one dispatch does to the agent and to the host. *)
Lemma dispatch_effect v m :
  let m' := (dispatch w sid now v m).2 in
  same_caches (ag m) (ag m') ∧
  (∀ k pd, pending (ag m') !! k = Some pd →
     (∃ pd0, pending (ag m) !! k = Some pd0 ∧ first_seen_monotonic pd = first_seen_monotonic pd0) ∨
     (k = grace_of v ∧ pending (ag m) !! k = None ∧ first_seen_monotonic pd = mono now)) ∧
  ∃ sent, signals m' = signals m ++ sent ∧
    (∀ x, x ∈ sent → may_kill w sid now v (ag m) x.1).
Proof using Type.
  unfold dispatch.
  assert (Hnone : same_caches (ag m) (ag m) ∧
    (∀ k pd, pending (ag m) !! k = Some pd →
     (∃ pd0, pending (ag m) !! k = Some pd0 ∧ first_seen_monotonic pd = first_seen_monotonic pd0) ∨
     (k = grace_of v ∧ pending (ag m) !! k = None ∧ first_seen_monotonic pd = mono now)) ∧
    ∃ sent, signals m = signals m ++ sent ∧ (∀ x, x ∈ sent → may_kill w sid now v (ag m) x.1)).
  { split; [by split_and!|]. split; [eauto|]. exists []. rewrite app_nil_r. split; [done|].
    intros x Hx. by apply elem_of_nil in Hx. }
  destruct (policy_get sid (policy_key v) (ag m)) as [entry|] eqn:He; [|done].
  destruct (pe_enabled entry) eqn:Hen; [|done]. simpl negb. cbv iota. clear Hnone.
  destruct (record (grace_of v) (pe_grace_period_seconds entry) (mono now) (ag m)) as [act s] eqn:Hr.
  assert (Hs : s = (record (grace_of v) (pe_grace_period_seconds entry) (mono now) (ag m)).2) by by rewrite Hr.
  assert (Hc : same_caches (ag m) s) by (rewrite Hs; apply record_caches).
  assert (Hp : ∀ k pd, pending s !! k = Some pd →
     (∃ pd0, pending (ag m) !! k = Some pd0 ∧ first_seen_monotonic pd = first_seen_monotonic pd0) ∨
     (k = grace_of v ∧ pending (ag m) !! k = None ∧ first_seen_monotonic pd = mono now))
    by (rewrite Hs; intros k pd; apply record_pending).
  destruct act; simpl.
  2:{ split; [done|]. split; [done|]. exists []. rewrite app_nil_r. split; [done|].
      intros x Hx. by apply elem_of_nil in Hx. }
  destruct (effective_severity entry (policy_key v) s) as [eff dg] eqn:Heff.
  destruct (route_signals eff v (on_agent (λ _, s) m)) as (Hra & sent & Hrs & Hsent).
  destruct (_route w eff v (on_agent (λ _, s) m)) as [action m1] eqn:Hroute.
  cbn [fst snd] in *. rewrite (proj1 (push_same _ _ _ _ _)), (proj2 (push_same _ _ _ _ _)), Hra.
  split; [done|]. split; [done|]. exists sent. split; [done|]. intros x Hx.
  destruct Hsent as (-> & Hmock & _ & p & Hpid & Hall); [intros ->; by apply elem_of_nil in Hx|].
  apply effective_auto_kill in Heff as (Hsev & Hkey & Hcap). rewrite (Hall _ Hx).
  destruct Hc as (Hc1 & Hc2 & Hc3). split; [done|done|done|by rewrite <- Hc3|].
  exists entry. split_and!; [done..|]. intros Hg. unfold record in Hr.
  rewrite bool_decide_eq_false_2 in Hr by lia.
  destruct (pending (ag m) !! grace_of v) as [first|]; [|done]. injection Hr as Hact _.
  exists first. split; [done|]. by apply bool_decide_eq_true_1 in Hact.
Qed.
End dispatching.

(** ** One tick *)

Section ticking.
Context (fromisoformat int_of_str : string → option Z).

Lemma evaluate_same sid i name p mem t s s' :
  same_caches s s' →
  _evaluate_process fromisoformat int_of_str sid i name p mem t s' =
  _evaluate_process fromisoformat int_of_str sid i name p mem t s.
Proof using Type.
  intros (Hp & Hl & _). destruct s, s'. simpl in Hp, Hl. subst. reflexivity.
Qed.

(** A process of the report that the agent holds to be a violation. *)
Definition reported (sid : Z) (now : clocks) (telemetry : GpuTelemetry) (s : AgentState)
    (v : Violation) : Prop :=
  ∃ gpu proc, gpu ∈ telemetry ∧ proc ∈ te_processes gpu ∧
    _evaluate_process fromisoformat int_of_str sid (te_gpu_index gpu) (pr_linux_username proc)
      (pr_pid proc) (pr_memory_mb proc) (wall now) s = Ok (Some v).

(** What a violation a machine may act on says: the account is linked, none
    of its users holds the card now, and somebody else does. *)
Lemma preemption_means sid i name p mem t s v :
  _evaluate_process fromisoformat int_of_str sid i name p mem t s = Ok (Some v) →
  pid v = Some p ∧ linux_username v = Some name ∧ gpu_id_local v = i ∧ server_id v = sid ∧
  (policy_key v ∈ _AUTO_KILL_ALLOWED_KEYS →
     policy_key v = "preempt_others_reservation"%string ∧
     lookup_user_ids sid name s ≠ [] ∧
     own_reservation fromisoformat sid i name t s = None ∧
     other_holder fromisoformat sid i name t s = true).
Proof using Type.
  unfold _evaluate_process. cbv zeta.
  destruct (lookup_user_ids sid name s) eqn:Hl.
  { intros [= <-]. split_and!; [done..|]. intros H. simpl in H. set_solver. }
  destruct (own_reservation _ _ _ _ _ _) eqn:Ho.
  - destruct (ar_gpu_memory_mb a); [|done].
    destruct (_memory_overuse_threshold_pct _ _ _); [|done].
    destruct (int_gt_float _ _); [|done]. intros [= <-]. split_and!; [done..|].
    intros H. simpl in H. set_solver.
  - destruct (other_holder _ _ _ _ _ _) eqn:Hh; intros [= <-]; (split_and!; [done..|]);
      intros H; simpl in H; [done|set_solver].
Qed.

Context (w : wiring) (sid : Z) (now : clocks) (telemetry : GpuTelemetry) (m0 : Monitor).

(** What holds all along a tick that starts in [m0]. *)
Record tick_inv (m : Monitor) : Prop := {
  ti_caches : same_caches (ag m0) (ag m) ;
  ti_pending k pd : pending (ag m) !! k = Some pd → is_Some (gk_pid k) →
    (∃ pd0, pending (ag m0) !! k = Some pd0 ∧ first_seen_monotonic pd = first_seen_monotonic pd0) ∨
    (first_seen_monotonic pd = mono now ∧
     ∃ v, reported sid now telemetry (ag m0) v ∧ k = grace_of v) ;
  ti_signals x : x ∈ signals m → x ∈ signals m0 ∨
    ∃ v, reported sid now telemetry (ag m0) v ∧ may_kill w sid now v (ag m0) x.1 }.

Lemma tick_inv_start : tick_inv m0.
Proof using Type. split; [by split_and!|eauto|eauto]. Qed.

Lemma may_kill_start v m p :
  tick_inv m → may_kill w sid now v (ag m) p → may_kill w sid now v (ag m0) p.
Proof using Type.
  intros [(Hp & Hl & Hc) Hpend _] [H1 H2 H3 H4 (entry & He & Hen & Hs & Hg)].
  split; [done|done|done|by rewrite <- Hc|]. exists entry.
  unfold policy_get in *. rewrite <- Hp. split_and!; [done..|]. intros Hpos.
  destruct (Hg Hpos) as (first & Hf & Hle).
  destruct (Hpend _ _ Hf) as [(pd0 & Hpd & Heq)|[Heq _]]; [simpl; rewrite H1; by eexists| |].
  - exists pd0. rewrite <- Heq. done.
  - unfold seconds in Hle. lia.
Qed.

Lemma dispatch_tick_inv v m :
  tick_inv m → reported sid now telemetry (ag m0) v ∨ pid v = None →
  tick_inv (dispatcher w sid now v m).
Proof using Type.
  intros Hm Hv. pose proof Hm as [(Hp & Hl & Hc) Hpend Hsig]. unfold dispatcher.
  destruct (dispatch_effect w sid now v m) as ((Ep & El & Ec) & Epend & sent & Esig & Ekill).
  split.
  - split_and!; congruence.
  - intros k pd Hk Hpid. apply Epend in Hk as [(pd1 & Hk & Heq)|(-> & _ & Heq)].
    + rewrite Heq. by eapply Hpend.
    + right. split; [done|]. destruct Hv as [Hv|Hv]; [by exists v|].
      destruct Hpid as [q Hq]. simpl in Hq. congruence.
  - intros x. rewrite Esig. intros [Hx|Hx]%elem_of_app; [by apply Hsig|].
    right. apply Ekill in Hx. destruct Hv as [Hv|Hv].
    + exists v. split; [done|]. by eapply may_kill_start.
    + destruct Hx as [Hx _ _ _ _]. congruence.
Qed.

Lemma on_agent_inv f m :
  tick_inv m → same_caches (ag m) (f (ag m)) → pending (f (ag m)) = pending (ag m) →
  tick_inv (on_agent f m).
Proof using Type.
  intros [(Hp & Hl & Hc) Hpend Hsig] (Ep & El & Ec) Epend. split; simpl.
  - split_and!; congruence.
  - rewrite Epend. exact Hpend.
  - exact Hsig.
Qed.

Lemma for_each_inv vs m :
  tick_inv m → Forall (λ v, pid v = None) vs →
  tick_inv (for_each vs (dispatch_one (dispatcher w sid now)) m).2.
Proof using Type.
  intros Hm Hvs. revert m Hm. induction Hvs as [|v vs Hv _ IH]; intros m Hm; [done|].
  simpl. unfold mbind, prog_bind, dispatch_one, update. apply IH. apply dispatch_tick_inv; auto.
Qed.

Lemma fold_prog_inv {A B} (f : B → A → prog Monitor monitor_error B) b l m :
  tick_inv m → (∀ b x m, x ∈ l → tick_inv m → tick_inv (f b x m).2) →
  tick_inv (fold_prog f b l m).2.
Proof using Type.
  intros Hm Hf. revert b m Hm. induction l as [|x l IH]; intros b m Hm; [done|].
  simpl. unfold mbind, prog_bind. pose proof (Hf b x m ltac:(left) Hm) as Hx.
  destruct (f b x m) as [[b'|e] m1]; [|done]. apply IH; [|done].
  intros b1 y m2 Hy. apply Hf. by right.
Qed.

Lemma check_process_inv gpu n proc m :
  gpu ∈ telemetry → proc ∈ te_processes gpu → tick_inv m →
  tick_inv (check_process fromisoformat int_of_str (dispatcher w sid now) sid now
              (te_gpu_index gpu) n proc m).2.
Proof using Type.
  intros Hg Hproc Hm. unfold check_process.
  rewrite (evaluate_same _ _ _ _ _ _ (ag m0) (ag m)) by apply Hm.
  destruct (_evaluate_process _ _ _ _ _ _ _ _ _) as [[v|]|] eqn:He; [|done|done].
  simpl. apply dispatch_tick_inv; [done|]. left. by exists gpu, proc.
Qed.

Lemma evaluate_gpu_effect gpu s :
  let '(r, s') := _evaluate_gpu int_of_str sid gpu (mono now) s in
  same_caches s s' ∧ pending s' = pending s ∧
  match r with Ok vs => Forall (λ v, pid v = None) vs | Raise _ => True end.
Proof using Type.
  unfold _evaluate_gpu. cbv zeta.
  set (s1 := track_util _ _ _ _ s).
  assert (Hs : same_caches s s1 ∧ pending s1 = pending s).
  { unfold s1, track_util. repeat case_match; by split_and!. }
  destruct Hs as [Hc Hp].
  destruct (threshold_field int_of_str sid "gpu_hang" "util_zero_seconds" _ s1); [|done].
  destruct (threshold_field int_of_str sid "gpu_hang" "mem_floor_mb" _ s1); [|done].
  destruct (threshold_field int_of_str sid "gpu_temp_high" _ _ s1); [|done].
  split; [done|]. split; [done|]. apply Forall_app. split.
  - destruct (util_zero_since s1 !! _); [|done]. destruct (_ && _); [|done]. by repeat constructor.
  - case_bool_decide; by repeat constructor.
Qed.

Lemma check_gpu_inv n gpu m :
  gpu ∈ telemetry → tick_inv m →
  tick_inv (check_gpu fromisoformat int_of_str (dispatcher w sid now) sid now n gpu m).2.
Proof using Type.
  intros Hg Hm. unfold check_gpu.
  pose proof (fold_prog_inv (check_process fromisoformat int_of_str (dispatcher w sid now) sid now
                (te_gpu_index gpu)) n (te_processes gpu) m Hm) as H1.
  destruct (fold_prog _ n (te_processes gpu) m) as [[n1|e] m1].
  2:{ apply H1. intros b x m2 Hx Hm2. by apply check_process_inv. }
  assert (Hm1 : tick_inv m1) by (apply H1; intros b x m2 Hx Hm2; by apply check_process_inv).
  pose proof (evaluate_gpu_effect gpu (ag m1)) as He.
  destruct (_evaluate_gpu int_of_str sid gpu (mono now) (ag m1)) as [r s].
  destruct He as (Hc & Hp & Hr).
  assert (Hm2 : tick_inv (on_agent (λ _, s) m1)) by by apply on_agent_inv.
  destruct r as [vs|]; [|done]. unfold mbind, prog_bind.
  pose proof (for_each_inv vs _ Hm2 Hr) as Hm3.
  by destruct (for_each vs _ _) as [[?|?] ?].
Qed.

Lemma monitor_tick_inv :
  tick_inv (monitor_tick fromisoformat int_of_str w sid now telemetry m0).
Proof using Type.
  unfold monitor_tick, run_tick. apply fold_prog_inv; [apply tick_inv_start|].
  intros b x m Hx Hm. by apply check_gpu_inv.
Qed.
End ticking.

(** ** Histories of an agent *)

(** What reaches an agent, for any server the frames name. *)
Inductive agent_step : Type :=
| policies_pushed (sid : Z) (entries : list PolicyEntry) (etag : string)
| links_pushed (sid : Z) (entries : list (string * CacheEntry)) (at_ : Z)
| links_changed (sid : Z) (entries : list (string * CacheEntry)) (removed : list string)
| capabilities_pushed (entries : list (string * bool))
| ticked (now : clocks) (telemetry : GpuTelemetry).

Section history.
Context (fromisoformat int_of_str : string → option Z) (w : wiring) (sid : Z).

Definition step_agent (st : agent_step) (m : Monitor) : Monitor :=
  match st with
  | policies_pushed s es etag => on_agent (λ a, (apply_sync s es etag a).2) m
  | links_pushed s es at_ => on_agent (λ a, (apply_full_snapshot s es at_ a).2) m
  | links_changed s es rm => on_agent (λ a, (apply_incremental s es rm a).2) m
  | capabilities_pushed es => on_agent (apply_capabilities es) m
  | ticked now telemetry => monitor_tick fromisoformat int_of_str w sid now telemetry m
  end.

(** The agent after a history, from its start. *)
Definition run_agent (hist : list agent_step) : Monitor :=
  foldl (λ m st, step_agent st m) (mkMonitor fresh_agent [] [] []) hist.

(** A tick of the history at which the process was found to violate [key]. *)
Definition seen_at (hist : list agent_step) (key : grace_key) (at_ : Z) : Prop :=
  ∃ pre now telemetry post v, hist = pre ++ ticked now telemetry :: post ∧ mono now = at_ ∧
    reported fromisoformat int_of_str sid now telemetry (ag (run_agent pre)) v ∧ key = grace_of v.

(** *** The reasons, in the agent's tables *)

(** The cache has a booking of the card for a user of the account, not merely
    declared, that covers the moment. *)
Definition holds (s : AgentState) (name : string) (i t uid : Z) (r : ActiveReservation) : Prop :=
  ∃ entry rs start end_,
    links s !! (sid, name) = Some entry ∧ uid ∈ ce_user_ids entry ∧
    ce_active_reservations entry !! uid = Some rs ∧ r ∈ rs ∧
    ar_gpu_id r = i ∧ ar_source r ≠ "admin_declared"%string ∧
    fromisoformat (ar_start_at r) = Some start ∧ fromisoformat (ar_end_at r) = Some end_ ∧ start <= t < end_.

(** The account is linked, none of its users holds the card through it, and
    another account has a user that does. *)
Record preempts (s : AgentState) (name : string) (i t : Z) : Prop := {
  pr_linked : ∃ entry, links s !! (sid, name) = Some entry ∧ ce_user_ids entry ≠ [] ;
  pr_none : ∀ uid r, ¬ holds s name i t uid r ;
  pr_other : ∃ other uid r, other ≠ name ∧ holds s other i t uid r }.

(** The report has the process, of the account, on the card. *)
Definition occupies (telemetry : GpuTelemetry) (p : Z) (name : string) (i : Z) : Prop :=
  ∃ gpu proc, gpu ∈ telemetry ∧ te_gpu_index gpu = i ∧ proc ∈ te_processes gpu ∧
    pr_pid proc = p ∧ pr_linux_username proc = name.

(** A tick of the history that found the process preempting. *)
Definition caught_at (hist : list agent_step) (p : Z) (name : string) (i at_ : Z) : Prop :=
  ∃ pre now telemetry post, hist = pre ++ ticked now telemetry :: post ∧ mono now = at_ ∧
    occupies telemetry p name i ∧ preempts (ag (run_agent pre)) name i (wall now).

(** A signal of the history and its reasons, at the tick that sent it. *)
Record justified (hist : list agent_step) (p : Z) : Prop := {
  ju_reasons : ∃ pre now telemetry post name i,
    hist = pre ++ ticked now telemetry :: post ∧
    let s := ag (run_agent pre) in
    occupies telemetry p name i ∧ preempts s name i (wall now) ∧
    (* the admins allow it *)
    capability s !! _KILL_CAPABILITY = Some true ∧ w_mock_mode w = false ∧
    ∃ entry, policies s !! (sid, "preempt_others_reservation"%string) = Some entry ∧
      pe_enabled entry = true ∧ pe_severity entry = "auto_kill"%string ∧
      (* the grace period has passed since an earlier sighting *)
      (0 < or0 (pe_grace_period_seconds entry) →
       ∃ at_, caught_at pre p name i at_ ∧
         at_ + seconds (or0 (pe_grace_period_seconds entry)) <= mono now) }.

Lemma entitles_holds s name i t r :
  (r ∈ reservations_of sid name s ∧ entitles fromisoformat i t r = true) ↔ ∃ uid, holds s name i t uid r.
Proof using Type.
  unfold reservations_of, holds, entitles, _reservation_overlaps_now, lookup_user_ids, lookup_active_reservations.
  rewrite list_elem_of_In, in_flat_map. setoid_rewrite <- list_elem_of_In.
  rewrite !andb_true_iff, negb_true_iff, bool_decide_eq_true, bool_decide_eq_false.
  split.
  - intros ((uid & Hu & Hr) & ((Hi & Hs) & Ht)). exists uid.
    destruct (links s !! (sid, name)) as [entry|] eqn:Hl; [|by apply elem_of_nil in Hu].
    destruct (ce_active_reservations entry !! uid) as [rs|] eqn:Hrs; [|by apply elem_of_nil in Hr].
    destruct (fromisoformat (ar_start_at r)) as [t0|] eqn:H0, (fromisoformat (ar_end_at r)) as [t1|] eqn:H1; try done.
    apply andb_true_iff in Ht as [Ha Hb]. apply bool_decide_eq_true in Ha, Hb.
    exists entry, rs, t0, t1. by split_and!.
  - intros (uid & entry & rs & t0 & t1 & Hl & Hu & Hrs & Hr & Hi & Hs & H0 & H1 & Ht).
    split; [exists uid; rewrite Hl, Hrs; done|]. split; [done|]. rewrite H0, H1, !bool_decide_eq_true_2 by lia. done.
Qed.

(** What the evaluator looks up, in these terms. *)
Lemma evaluated_preempts s name i t :
  lookup_user_ids sid name s ≠ [] → own_reservation fromisoformat sid i name t s = None →
  other_holder fromisoformat sid i name t s = true → preempts s name i t.
Proof using Type.
  intros Hl Ho Hh. split.
  - unfold lookup_user_ids in Hl. destruct (links s !! _) as [entry|]; [|done]. by exists entry.
  - intros uid r H. assert (Hr : r ∈ filter (λ r, entitles fromisoformat i t r = true) (reservations_of sid name s)).
    { apply list_elem_of_filter. destruct (proj2 (entitles_holds s name i t r)); [by exists uid|done]. }
    unfold own_reservation in Ho. destruct (filter _ _); [by apply elem_of_nil in Hr|done].
  - unfold other_holder in Hh. apply existsb_exists in Hh as (other & _ & H). apply andb_true_iff in H as [Hne H].
    apply negb_true_iff, bool_decide_eq_false in Hne. apply existsb_exists in H as (r & Hr & He).
    apply list_elem_of_In in Hr. destruct (proj1 (entitles_holds s other i t r) (conj Hr He)) as [uid Hu].
    by exists other, uid, r.
Qed.

Lemma seen_caught hist p name i at_ v :
  seen_at hist (grace_of v) at_ → pid v = Some p → linux_username v = Some name → gpu_id_local v = i →
  policy_key v ∈ _AUTO_KILL_ALLOWED_KEYS → caught_at hist p name i at_.
Proof using Type.
  intros (pre & now & tel & post & v' & -> & <- & (gpu & proc & Hg & Hp & Hev) & Hk) Hpid Hname Hi Hkey.
  unfold grace_of in Hk. injection Hk as K1 K2 K3 K4 K5. rewrite K1 in Hkey.
  destruct (preemption_means _ _ _ _ _ _ _ _ _ _ Hev) as (P1 & P2 & P3 & _ & Hpre).
  destruct (Hpre Hkey) as (_ & Hl & Ho & Hh).
  assert (pr_pid proc = p) by congruence. assert (pr_linux_username proc = name) by congruence.
  assert (H1 : te_gpu_index gpu = i) by congruence. subst p name i.
  exists pre, now, tel, post. split; [done|]. split; [done|]. split; [by exists gpu, proc|].
  rewrite <- H1. by apply evaluated_preempts.
Qed.

Lemma run_agent_snoc hist st : run_agent (hist ++ [st]) = step_agent st (run_agent hist).
Proof using Type. unfold run_agent. by rewrite foldl_app. Qed.

Lemma seen_at_mono hist hist' k t : seen_at hist k t → seen_at (hist ++ hist') k t.
Proof using Type.
  intros (pre & now & tel & post & v & -> & H). exists pre, now, tel, (post ++ hist'), v.
  by rewrite <- app_assoc.
Qed.

Lemma justified_mono hist hist' p : justified hist p → justified (hist ++ hist') p.
Proof using Type.
  intros [(pre & now & tel & post & name & i & -> & H)]. split.
  exists pre, now, tel, (post ++ hist'), name, i. by rewrite <- app_assoc.
Qed.

Lemma pushes_keep_pending st m :
  (∀ now tel, st ≠ ticked now tel) →
  pending (ag (step_agent st m)) = pending (ag m) ∧ signals (step_agent st m) = signals m.
Proof using Type.
  destruct st; simpl; intros H; try done; [|by destruct (H now telemetry)].
  split; [|done]. unfold apply_capabilities. clear H.
  generalize (ag m). induction entries as [|e es IH]; intros a; [done|]. simpl. by rewrite IH.
Qed.

Lemma history_inv hist :
  (∀ k pd, pending (ag (run_agent hist)) !! k = Some pd → is_Some (gk_pid k) →
     seen_at hist k (first_seen_monotonic pd)) ∧
  (∀ x, x ∈ signals (run_agent hist) → justified hist x.1).
Proof using Type.
  induction hist as [|st hist [IHp IHs]] using rev_ind.
  { split; simpl; [intros k pd H; by rewrite lookup_empty in H|].
    intros x Hx. by apply elem_of_nil in Hx. }
  rewrite run_agent_snoc.
  assert ((∃ now tel, st = ticked now tel) ∨ ∀ now tel, st ≠ ticked now tel) as [(now & tel & ->)|Ht].
  { destruct st; [by right..|left; eauto]. }
  2:{ destruct (pushes_keep_pending st (run_agent hist) Ht) as [-> ->]. split.
      - intros k pd Hk Hp. apply seen_at_mono. by apply IHp.
      - intros x Hx. apply justified_mono. by apply IHs. }
  destruct (monitor_tick_inv fromisoformat int_of_str w sid now tel (run_agent hist)) as [_ Hpend Hsig].
  split.
  - intros k pd Hk Hp. destruct (Hpend _ _ Hk Hp) as [(pd0 & Hk0 & Heq)|(Heq & v & Hv & ->)].
    + rewrite Heq. apply seen_at_mono. by apply IHp.
    + exists hist, now, tel, [], v. done.
  - intros x Hx. apply Hsig in Hx as [Hx|(v & Hv & Hk)]; [apply justified_mono; by apply IHs|].
    split. pose proof Hv as (gpu & proc & Hg & Hp & Hev).
    destruct (preemption_means _ _ _ _ _ _ _ _ _ _ Hev) as (Hpid & Hname & Hi & _ & Hpre).
    destruct Hk as [K1 K2 K3 K4 (entry & K5 & K6 & K7 & K8)].
    destruct (Hpre K3) as (Hkey & Hl & Ho & Hh). rewrite Hkey in K5.
    exists hist, now, tel, [], (pr_linux_username proc), (te_gpu_index gpu).
    split; [done|]. cbv zeta. split; [exists gpu, proc; split_and!; [done..|congruence|done]|].
    split; [by apply evaluated_preempts|]. split_and!; [done..|]. exists entry. split_and!; [done..|].
    intros Hpos. destruct (K8 Hpos) as (first & Hf & Hle). exists (first_seen_monotonic first). split; [|lia].
    apply (seen_caught _ _ _ _ _ v); [|done..]. apply IHp; [done|]. simpl. rewrite K1. by eexists.
Qed.
End history.

(** C19: whatever is pushed to an agent and whatever its cards report, every
    signal it ever sends on its own goes to a process that its report of the
    tick has on a card, of an account that is linked, while the agent's cache
    holds no booking of that card, now, for a user of this account, and one
    for a user of another account; a booking is one not merely declared, whose
    [gpu_id] is the card's index.  Its [preempt_others_reservation] policy is
    then enabled at [auto_kill], the kill capability is on, the agent is not in
    mock mode, and when the policy has a grace period an earlier tick, at least
    that long before, found the same process at the same.  No other finding --
    memory, temperature, hang, missing booking, unlinked account -- ever
    kills. *)
Theorem auto_kill_justified fromisoformat int_of_str w sid hist p sig :
  (p, sig) ∈ signals (run_agent fromisoformat int_of_str w sid hist) →
  justified fromisoformat int_of_str w sid hist p.
Proof. intros H. exact (proj2 (history_inv _ _ _ _ _) _ H). Qed.

(** ** Witnesses *)

Definition decimal_instant (s : string) : option Z := Z.of_int <$> NilZero.int_of_string s.

(** Alice holds card 0 from 0 to 1000 s; Bob is linked and books nothing. *)
Definition alice_entry : CacheEntry :=
  mkCacheEntry [10] {[10 := [mkActiveReservation 1 0 "0" "1000000000" "active" None None "ssh_challenge"]]}.
Definition bob_entry : CacheEntry := mkCacheEntry [11] ∅.

Definition strict_setup : list agent_step :=
  [capabilities_pushed [("gpu.kill_process"%string, true)];
   policies_pushed 1 [mkPolicyEntry "preempt_others_reservation" true "auto_kill" None (Some 60) true] "e";
   links_pushed 1 [("alice"%string, alice_entry); ("bob"%string, bob_entry)] 1].

Definition card_of (procs : list GpuProcessSnapshot) : GpuTelemetry :=
  [mkTelemetryEntry 0 None None None None 90 None None None procs].
Definition bob_process : GpuProcessSnapshot := mkProcess 4242 "bob" 2048.
Definition alice_process : GpuProcessSnapshot := mkProcess 7 "alice" 2048.

Definition at_s (z : Z) : clocks := mkClocks (seconds z) (seconds z).

Definition lab_host : wiring :=
  production false (mkHost (λ _ _, delivered) (λ _ _, sudo_not_found) (λ _, ProcessLookupError)).

Definition kill_story : list agent_step :=
  strict_setup ++ [ticked (at_s 1) (card_of [alice_process; bob_process]);
                   ticked (at_s 61) (card_of [alice_process; bob_process])].

Example kill_story_signals :
  signals (run_agent decimal_instant decimal_instant lab_host 1 kill_story) = [(4242, SIGTERM)].
Proof. vm_compute. reflexivity. Qed.

Lemma auto_kill_justified_witness :
  justified decimal_instant decimal_instant lab_host 1 kill_story 4242.
Proof.
  apply (auto_kill_justified decimal_instant decimal_instant lab_host 1 kill_story 4242 SIGTERM).
  rewrite kill_story_signals. left.
Defined.

(** Alice books through one account and runs a process under her other one:
    the cache has her for both, and the process is killed for preempting
    somebody else. *)
Definition own_setup : list agent_step :=
  take 2 strict_setup ++
  [links_pushed 1 [("alice"%string, alice_entry); ("alice2"%string, mkCacheEntry [10] ∅)] 1].

Example own_booking_is_preempted :
  signals (run_agent decimal_instant decimal_instant lab_host 1
    (own_setup ++ [ticked (at_s 1) (card_of [mkProcess 4242 "alice2" 2048]);
                   ticked (at_s 61) (card_of [mkProcess 4242 "alice2" 2048])])) = [(4242, SIGTERM)].
Proof. vm_compute. reflexivity. Qed.

(** the grace period is measured from the first sighting although the
    violation went away in between: Bob's process is seen once, is gone at
    the next tick, and is killed on the spot when it comes back. *)
Theorem grace_ignores_gaps :
  signals (run_agent decimal_instant decimal_instant lab_host 1
    (strict_setup ++ [ticked (at_s 1) (card_of [bob_process]);
                      ticked (at_s 61) (card_of []);
                      ticked (at_s 121) (card_of [bob_process])])) = [(4242, SIGTERM)].
Proof. vm_compute. reflexivity. Qed.

(** the tolerance is computed in floating point: 115 MB on a quota
    of 100 MB with a tolerance of 15% is reported although it does not exceed
    the quota by more than the tolerance. *)
Theorem memory_limit_rounds_down :
  int_gt_float 115 (memory_limit 100 15) = true ∧ 100 * 115 = 100 * (100 + 15).
Proof. vm_compute. done. Qed.

(** ** Being entitled to a card *)

(** [sorted] keeps the elements. *)
Lemma linked_users_elem ls u : u ∈ linked_users ls ↔ ∃ l, l ∈ ls ∧ AccountLink.user_id l = u.
Proof.
  unfold linked_users. rewrite merge_sort_Permutation, elem_of_remove_dups, list_elem_of_fmap. naive_solver.
Qed.

Lemma link_source_declared l :
  link_source_text (AccountLink.source l) = "admin_declared"%string ↔
  AccountLink.source l = admin_declared.
Proof. by destruct (AccountLink.source l). Qed.

Section entitlement.
Context {isoformat : Z → string} (fromisoformat : string → option Z).
Context (iso_inverse : ∀ z, fromisoformat (isoformat z) = Some z).

Lemma entitles_reservation gpu_index now l r :
  entitles fromisoformat gpu_index now (reservation_of (isoformat := isoformat) l r) = true ↔
  default 0 (Reservation.gpu_id r) = gpu_index ∧ AccountLink.source l ≠ admin_declared ∧
  Reservation.start_at r <= now < Reservation.end_at r.
Proof using iso_inverse.
  unfold entitles, _reservation_overlaps_now. cbn [ar_gpu_id ar_source ar_start_at ar_end_at reservation_of].
  rewrite !iso_inverse, !andb_true_iff, negb_true_iff, bool_decide_eq_false, !bool_decide_eq_true,
    link_source_declared. lia || tauto.
Qed.

(** The bookings the agent tries for an account are the live ones of its links. *)
Lemma cached_bookings d sid at_ s pa res :
  answers_from isoformat d sid at_ s →
  pa ∈ rows (physical_accounts d) → PhysicalAccount.server_id pa = sid → PhysicalAccount.is_active pa = 1 →
  res ∈ reservations_of sid (PhysicalAccount.linux_username pa) s ↔
  ∃ l r, l ∈ active_links d (PhysicalAccount.id pa) ∧ r ∈ live_reservations d (AccountLink.id l) at_ ∧
         res = reservation_of (isoformat := isoformat) l r.
Proof using Type.
  intros [Hans _] Hpa Hsid Hact. destruct (Hans pa Hpa Hsid Hact) as [Hu Hr].
  unfold reservations_of. rewrite Hu, list_elem_of_In, in_flat_map. split.
  - intros (u & _ & Hres). apply list_elem_of_In in Hres. rewrite Hr in Hres.
    apply list_elem_of_fmap in Hres as ([l r] & -> & [_ Hlr]%list_elem_of_filter).
    apply link_bookings_elem in Hlr as [Hl1 Hr1]. eauto.
  - intros (l & r & Hl & Hrr & ->). exists (AccountLink.user_id l). split.
    + apply list_elem_of_In, linked_users_elem. eauto.
    + apply list_elem_of_In. rewrite Hr. apply list_elem_of_fmap. exists (l, r). split; [done|].
      apply list_elem_of_filter. split; [done|]. by apply link_bookings_elem.
Qed.
End entitlement.

Lemma head_filter_Some {A} (P : A → Prop) `{∀ x, Decision (P x)} l :
  is_Some (head (filter P l)) ↔ ∃ x, x ∈ l ∧ P x.
Proof.
  split.
  - intros [x Hx]. destruct (filter P l) as [|y k] eqn:Hf; [done|]. injection Hx as ->.
    assert (Hin : x ∈ filter P l) by (rewrite Hf; left). apply list_elem_of_filter in Hin as [??]. eauto.
  - intros (x & Hx & HP). destruct (filter P l) as [|y k] eqn:Hf; [|eauto].
    assert (Hin : x ∈ filter P l) by by apply list_elem_of_filter. rewrite Hf in Hin.
    by apply elem_of_nil in Hin.
Qed.

(** C29: an agent whose cache answers for the backend's tables takes a process
    of an account for its owner's exactly when some active link on the
    account, not merely declared by an administrator, carries a scheduled or
    active booking that covers the moment and whose [gpu_id] -- the key of
    the card's row, whatever the card's index on the server is -- equals the
    index the driver reports the process under. *)
Theorem agent_entitlement (isoformat : Z → string) fromisoformat d sid at_ s pa gpu_index now :
  (∀ z, fromisoformat (isoformat z) = Some z) →
  answers_from isoformat d sid at_ s → ¬ cpu_booking d sid at_ →
  pa ∈ rows (physical_accounts d) → PhysicalAccount.server_id pa = sid → PhysicalAccount.is_active pa = 1 →
  is_Some (own_reservation fromisoformat sid gpu_index (PhysicalAccount.linux_username pa) now s) ↔
  ∃ l r, l ∈ active_links d (PhysicalAccount.id pa) ∧ AccountLink.source l ≠ admin_declared ∧
    r ∈ live_reservations d (AccountLink.id l) at_ ∧ Reservation.gpu_id r = Some gpu_index ∧
    Reservation.start_at r <= now < Reservation.end_at r.
Proof.
  intros Hiso Hans Hno Hpa Hsid Hact. unfold own_reservation. rewrite head_filter_Some. split.
  - intros (res & Hres & He). apply (cached_bookings d sid at_ s pa res Hans Hpa Hsid Hact) in Hres as (l & r & Hl & Hr & ->).
    apply (entitles_reservation fromisoformat Hiso) in He as (Hg & Hs & Ht). exists l, r. split_and!; try done; try lia.
    destruct (Reservation.gpu_id r) as [g|] eqn:Hg'; [by rewrite <- Hg|].
    destruct Hno. exists pa, l, r. by split_and!.
  - intros (l & r & Hl & Hs & Hr & Hg & Ht). exists (reservation_of (isoformat := isoformat) l r). split.
    + apply (cached_bookings d sid at_ s pa _ Hans Hpa Hsid Hact). eauto.
    + apply (entitles_reservation fromisoformat Hiso). by rewrite Hg.
Qed.

(** ** Witnesses *)

Lemma decimal_instant_inverse z : decimal_instant (decimal_isoformat z) = Some z.
Proof.
  pose proof (coerce_wire (coerce := exact_scalars) (isoformat := decimal_isoformat) KDatetime (JTime z) eq_refl) as H.
  simpl in H. unfold decimal_instant. destruct (DecimalString.NilZero.int_of_string _); [|done].
  injection H as H. simpl. by f_equal.
Qed.

Lemma agent_entitlement_witness :
  is_Some (own_reservation decimal_instant 1 2 "alice" 100 (synced links_db).2).
Proof.
  refine (proj2 (agent_entitlement decimal_isoformat decimal_instant links_db 1 100 _ (sample_account 5 "alice")
    2 100 decimal_instant_inverse _ _ _ eq_refl eq_refl) _).
  - apply (snapshot_answers (isoformat := decimal_isoformat) decimal_int decimal_int_pretty links_db 1 100 7 fresh_agent).
    apply names_unique_by_test. by vm_compute.
  - intros Hc%cpu_booking_by_test. by vm_compute in Hc.
  - apply elem_of_rows. exists 5. by vm_compute.
  - exists (sample_link 7 10 5), (sample_reservation 50 2 0 900 None). split_and!; [| done| |done|done|done].
    + apply list_elem_of_filter. split; [by split_and!|]. apply elem_of_rows. exists 7. by vm_compute.
    + apply list_elem_of_filter. split; [split_and!; [done|by left|done]|].
      apply elem_of_rows. exists 50. by vm_compute.
Defined.

(** the row key and the driver's index are different numbers.  Alice holds the
    sample server's first card, whose index is 0 and whose row is number 1:
    her process on it is reported as occupying a card without a booking,
    while one on the second card, which she never booked, passes. *)
Theorem owner_reported :
  let s := (synced (sample_db [sample_reservation 50 1 0 900 None])).2 in
  Gpu.gpu_index (sample_gpu 1 0) = 0 ∧
  _evaluate_process decimal_instant decimal_instant 1 0 "alice" 4242 512 100 s =
    Ok (Some (mkViolation "no_reservation_occupy" 1 0 (Some "alice"%string) (Some 4242) [10]
                [("memory_used_mb"%string, JInt 512)])) ∧
  _evaluate_process decimal_instant decimal_instant 1 1 "alice" 4242 512 100 s = Ok None.
Proof. vm_compute. done. Qed.
