(* ===== verification/UserHub.v ===== *)
(** The browsers' websocket registries
    ([backend/corelab_backend/api/ws_user.py]) and the telemetry fan-out that
    uses them ([services/gpu_broker.py]).

    A socket is a number; [dead] says on which sockets a send fails now.
    The registries are process-wide dicts of sets.  [Session.pushed] logs
    what services ask to push; here is what a push does. *)

From S2P Require Import Prelude Models SessionLayer TelemetryService.

Record UserHub : Type := mkUserHub {
  _user_connections : gmap Z (gset Z) ;   (* user -> sockets *)
  _gpu_subscribers : gmap Z (gset Z) ;    (* server -> users *)
  _throttle : gmap Z Z ;                  (* server -> monotonic instant *)
  sent : list (Z * frame) }.              (* what went out, per socket *)
#[export] Instance eta_UserHub : Eta UserHub := λ h,
  mkUserHub (_user_connections h) (_gpu_subscribers h) (_throttle h) (sent h).

(** ** Registries *)

Definition connections_of (h : UserHub) (user_id : Z) : gset Z :=
  default ∅ (_user_connections h !! user_id).

Definition _register_connection (user_id ws : Z) (h : UserHub) : UserHub :=
  h <| _user_connections := <[user_id := {[ws]} ∪ connections_of h user_id]> (_user_connections h) |>.

(** The user leaves every subscription once the last socket is gone. *)
Definition _unregister_connection (user_id ws : Z) (h : UserHub) : UserHub :=
  match _user_connections h !! user_id with
  | None => h
  | Some sockets =>
      let left := sockets ∖ {[ws]} in
      if decide (left = ∅)
      then h <| _user_connections := delete user_id (_user_connections h) |>
             <| _gpu_subscribers := (λ subs, subs ∖ {[user_id]}) <$> _gpu_subscribers h |>
      else h <| _user_connections := <[user_id := left]> (_user_connections h) |>
  end.

Definition gpu_subscribers (h : UserHub) (server_id : Z) : gset Z :=
  default ∅ (_gpu_subscribers h !! server_id).

Definition add_gpu_subscriber (server_id user_id : Z) (h : UserHub) : UserHub :=
  h <| _gpu_subscribers := <[server_id := {[user_id]} ∪ gpu_subscribers h server_id]> (_gpu_subscribers h) |>.

Definition remove_gpu_subscriber (server_id user_id : Z) (h : UserHub) : UserHub :=
  match _gpu_subscribers h !! server_id with
  | None => h
  | Some subs =>
      let left := subs ∖ {[user_id]} in
      h <| _gpu_subscribers := if decide (left = ∅) then delete server_id (_gpu_subscribers h)
                               else <[server_id := left]> (_gpu_subscribers h) |>
  end.

(** [push_to_user]: the frame goes to every live socket, a dead one leaves
    the set (its entry stays, possibly empty). *)
Definition push_frame (dead : Z → bool) (user_id : Z) (f : frame) (h : UserHub) : Z * UserHub :=
  let sockets := connections_of h user_id in
  if decide (sockets = ∅) then (0, h)
  else
    let live := filter (λ ws, dead ws = false) (elements sockets) in
    (Z.of_nat (length live),
     h <| _user_connections := <[user_id := list_to_set live]> (_user_connections h) |>
       <| sent := sent h ++ ((λ ws, (ws, f)) <$> live) |>).

(** ** Client frames *)

Inductive client_frame : Type :=
| client_ping (payload : list (string * json))
| client_subscribe (server_id : option Z)      (* [None]: not an int *)
| client_unsubscribe (server_id : option Z)
| client_other.

Definition _handle_client_frame (ws user_id : Z) (f : client_frame) (h : UserHub) : UserHub :=
  match f with
  | client_ping payload => h <| sent := sent h ++ [(ws, Frame "pong" payload)] |>
  | client_subscribe (Some server_id) => add_gpu_subscriber server_id user_id h
  | client_unsubscribe (Some server_id) => remove_gpu_subscriber server_id user_id h
  | _ => h
  end.

(** ** Telemetry fan-out *)

(** Microseconds. *)
Definition _min_interval : Z := seconds 1.

Definition live_update (server_id : Z) (payload : GpuTelemetry) (at_ : Z) : frame :=
  Frame "gpu.live_update"
    [("server_id", JInt server_id);
     ("gpus", JList ((λ e, JObj [("gpu_index", JInt (te_gpu_index e)); ("uuid", jopt JStr (te_uuid e));
        ("model", jopt JStr (te_model e)); ("memory_total_mb", jopt JInt (te_memory_total_mb e));
        ("compute_capability", jopt JStr (te_compute_capability e));
        ("util_pct", JInt (te_util_pct e)); ("memory_used_mb", jopt JInt (te_memory_used_mb e));
        ("temperature_c", jopt JInt (te_temperature_c e)); ("power_w", jopt JInt (te_power_w e));
        ("processes", JList (process_json <$> te_processes e))]) <$> payload));
     ("sampled_at", JTime at_)]%string.

(** [clock] is [time.monotonic()], [at_] the wall clock. *)
Definition fan_out (dead : Z → bool) (server_id : Z) (payload : GpuTelemetry) (clock at_ : Z)
    (h : UserHub) : Z * UserHub :=
  let last := default 0 (_throttle h !! server_id) in
  if bool_decide (clock - last < _min_interval) then (0, h)
  else
    let h := h <| _throttle := <[server_id := clock]> (_throttle h) |> in
    let f := live_update server_id payload at_ in
    foldl (λ acc user_id, let '(n, h') := push_frame dead user_id f acc.2 in (acc.1 + n, h'))
      (0, h) (elements (gpu_subscribers h server_id)).

(** ** The life of the browsers' sockets *)

(** The registries and the running handlers: socket, user. *)
Record Browsers : Type := mkBrowsers {
  bhub : UserHub ;
  bhandlers : gmap Z Z }.

(** A handler registers, dispatches a client frame, or ends ([finally]); any
    service pushes to any user, any report is fanned out.  A socket a send
    has failed on delivers no further frames. *)
Inductive browser_step : Browsers → Browsers → Prop :=
| browser_open b ws user_id :
    bhandlers b !! ws = None →
    browser_step b (mkBrowsers (_register_connection user_id ws (bhub b)) (<[ws := user_id]> (bhandlers b)))
| browser_frame b ws user_id f :
    bhandlers b !! ws = Some user_id → ws ∈ connections_of (bhub b) user_id →
    browser_step b (mkBrowsers (_handle_client_frame ws user_id f (bhub b)) (bhandlers b))
| browser_close b ws user_id :
    bhandlers b !! ws = Some user_id →
    browser_step b (mkBrowsers (_unregister_connection user_id ws (bhub b)) (delete ws (bhandlers b)))
| browser_push b dead user_id f :
    browser_step b (mkBrowsers (push_frame dead user_id f (bhub b)).2 (bhandlers b))
| browser_fan_out b dead server_id payload clock at_ :
    browser_step b (mkBrowsers (fan_out dead server_id payload clock at_ (bhub b)).2 (bhandlers b)).

Definition subscribed (h : UserHub) (user_id : Z) : Prop :=
  ∃ server_id, user_id ∈ gpu_subscribers h server_id.

(** Registered sockets have handlers, a registered user has one, and so has
    a subscribed one. *)
Record browsers_ok (b : Browsers) : Prop := {
  br_socket u ws : ws ∈ connections_of (bhub b) u → bhandlers b !! ws = Some u ;
  br_user u : is_Some (_user_connections (bhub b) !! u) → ∃ ws, bhandlers b !! ws = Some u ;
  br_subscribed u : subscribed (bhub b) u → is_Some (_user_connections (bhub b) !! u) }.

(** A push only takes sockets out of the sets. *)
Record thinner (h h' : UserHub) : Prop := {
  th_sockets u : connections_of h' u ⊆ connections_of h u ;
  th_users u : is_Some (_user_connections h' !! u) ↔ is_Some (_user_connections h !! u) ;
  th_subs : _gpu_subscribers h' = _gpu_subscribers h }.

#[export] Instance thinner_PreOrder : PreOrder thinner.
Proof.
  split; [by intros h; split|]. intros h1 h2 h3 [A1 A2 A3] [B1 B2 B3]. split.
  - intros u. etrans; [apply B1|apply A1].
  - intros u. by rewrite B2, A2.
  - congruence.
Qed.

Lemma push_thinner dead u f h : thinner h (push_frame dead u f h).2.
Proof.
  unfold push_frame. case_decide as He; [done|]. split; simpl.
  - intros v. unfold connections_of. simpl. destruct (decide (v = u)) as [->|Hv].
    + rewrite lookup_insert_eq. simpl. intros ws Hws.
      apply elem_of_list_to_set, list_elem_of_filter in Hws as [_ Hws]. by apply elem_of_elements in Hws.
    + by rewrite lookup_insert_ne.
  - intros v. destruct (decide (v = u)) as [->|Hv]; [|by rewrite lookup_insert_ne].
    rewrite lookup_insert_eq. split; [|by eexists]. intros _. unfold connections_of in He.
    destruct (_user_connections h !! u); [by eexists|]. by destruct He.
  - done.
Qed.

Lemma fan_out_thinner dead sid payload clock at_ h :
  thinner h (fan_out dead sid payload clock at_ h).2.
Proof.
  unfold fan_out. cbv zeta. case_bool_decide; [done|]. set (h0 := h <| _throttle := _ |>).
  assert (H0 : thinner h h0) by (split; done). clearbody h0. generalize 0.
  generalize (elements (gpu_subscribers h0 sid)). intros users. revert h0 H0.
  induction users as [|u users IH]; intros h0 H0 n; [done|]. simpl.
  pose proof (push_thinner dead u (live_update sid payload at_) h0) as Hp.
  destruct (push_frame dead u _ h0) as [m h1]. apply IH. by etrans.
Qed.

Lemma thinner_ok h h' t : thinner h h' → browsers_ok (mkBrowsers h t) → browsers_ok (mkBrowsers h' t).
Proof.
  intros [T1 T2 T3] [H1 H2 H3]. simpl in *. split; simpl.
  - intros u ws Hws. by apply H1, T1.
  - intros u Hu. by apply H2, T2.
  - intros u [sid Hs]. apply T2, H3. exists sid. unfold gpu_subscribers in *. by rewrite <- T3.
Qed.

Lemma subscribed_add h sid u v :
  subscribed (add_gpu_subscriber sid u h) v → v = u ∨ subscribed h v.
Proof.
  intros [sid' Hs]. unfold gpu_subscribers, add_gpu_subscriber in Hs. simpl in Hs.
  destruct (decide (sid' = sid)) as [->|Hne].
  - rewrite lookup_insert_eq in Hs. simpl in Hs. apply elem_of_union in Hs as [?%elem_of_singleton|Hs]; [by left|].
    right. by exists sid.
  - rewrite lookup_insert_ne in Hs by done. right. by exists sid'.
Qed.

Lemma subscribed_remove h sid u v :
  subscribed (remove_gpu_subscriber sid u h) v → subscribed h v.
Proof.
  unfold remove_gpu_subscriber. destruct (_gpu_subscribers h !! sid) as [subs|] eqn:Hsub; [|done].
  cbv zeta. intros [sid' Hs]. unfold gpu_subscribers in Hs. simpl in Hs.
  destruct (decide (sid' = sid)) as [->|Hne].
  - exists sid. unfold gpu_subscribers. rewrite Hsub. case_decide.
    + by rewrite lookup_delete_eq in Hs.
    + rewrite lookup_insert_eq in Hs. simpl in *. set_solver.
  - exists sid'. unfold gpu_subscribers. case_decide;
      [by rewrite lookup_delete_ne in Hs|by rewrite lookup_insert_ne in Hs].
Qed.

Lemma unregister_ok h t u ws :
  browsers_ok (mkBrowsers h t) → t !! ws = Some u →
  browsers_ok (mkBrowsers (_unregister_connection u ws h) (delete ws t)).
Proof.
  intros [H1 H2 H3] Hws. simpl in *. unfold _unregister_connection.
  assert (Hdel : ∀ v x, x ∈ connections_of h v → x ≠ ws → delete ws t !! x = Some v)
    by (intros v x Hx Hne; rewrite lookup_delete_ne by done; by apply H1).
  assert (Hother : ∀ v, v ≠ u → is_Some (_user_connections h !! v) → ∃ x, delete ws t !! x = Some v).
  { intros v Hv Hs. destruct (H2 v Hs) as (x & Hx). exists x. rewrite lookup_delete_ne; congruence. }
  destruct (_user_connections h !! u) as [sockets|] eqn:Hu.
  - assert (Hconn : connections_of h u = sockets) by (unfold connections_of; by rewrite Hu).
    cbv zeta. case_decide as Hl; split; unfold connections_of, subscribed, gpu_subscribers; simpl.
    + intros v x. destruct (decide (v = u)) as [->|Hv]; [by rewrite lookup_delete_eq|].
      rewrite lookup_delete_ne by done. intros Hx. rewrite lookup_delete_ne; [by apply H1|].
      intros <-. specialize (H1 _ _ Hx). congruence.
    + intros v. destruct (decide (v = u)) as [->|Hv]; [rewrite lookup_delete_eq; by intros []|].
      rewrite lookup_delete_ne by done. by apply Hother.
    + intros v [sid Hs]. rewrite lookup_fmap in Hs.
      assert (Hv : v ≠ u ∧ subscribed h v).
      { destruct (_gpu_subscribers h !! sid) as [subs|] eqn:Hsub; simpl in Hs; [|set_solver].
        split; [set_solver|]. exists sid. unfold gpu_subscribers. rewrite Hsub. simpl. set_solver. }
      rewrite lookup_delete_ne by (destruct Hv; congruence). apply H3, Hv.
    + intros v x. destruct (decide (v = u)) as [->|Hv].
      * rewrite lookup_insert_eq. simpl. intros Hx. apply Hdel; [rewrite Hconn|]; set_solver.
      * rewrite lookup_insert_ne by done. intros Hx. rewrite lookup_delete_ne; [by apply H1|].
        intros <-. specialize (H1 _ _ Hx). congruence.
    + intros v Hs. destruct (decide (v = u)) as [->|Hv].
      * apply set_choose_L in Hl as [x Hx]. exists x. apply Hdel; [rewrite Hconn|]; set_solver.
      * rewrite lookup_insert_ne in Hs by done. by apply Hother.
    + intros v Hs. destruct (decide (v = u)) as [->|Hv]; [by rewrite lookup_insert_eq|].
      rewrite lookup_insert_ne by done. by apply H3.
  - split; simpl.
    + intros v x Hx. rewrite lookup_delete_ne; [by apply H1|]. intros <-.
      specialize (H1 _ _ Hx). assert (v = u) as -> by congruence.
      unfold connections_of in Hx. rewrite Hu in Hx. set_solver.
    + intros v Hs. apply Hother; [|done]. intros ->. rewrite Hu in Hs. by destruct Hs.
    + exact H3.
Qed.

Lemma register_ok h t u ws :
  browsers_ok (mkBrowsers h t) → t !! ws = None →
  browsers_ok (mkBrowsers (_register_connection u ws h) (<[ws := u]> t)).
Proof.
  intros [H1 H2 H3] Hnew. simpl in *. split; unfold connections_of; simpl.
  - intros v x Hx. destruct (decide (x = ws)) as [->|Hne].
    + rewrite lookup_insert_eq. destruct (decide (v = u)) as [->|Hv]; [done|].
      rewrite lookup_insert_ne in Hx by done. specialize (H1 v ws Hx). congruence.
    + rewrite lookup_insert_ne by done. apply H1. unfold connections_of.
      destruct (decide (v = u)) as [->|Hv]; [|by rewrite lookup_insert_ne in Hx].
      rewrite lookup_insert_eq in Hx. simpl in Hx. unfold connections_of in Hx. set_solver.
  - intros v Hs. destruct (decide (v = u)) as [->|Hv]; [exists ws; by rewrite lookup_insert_eq|].
    rewrite lookup_insert_ne in Hs by done. destruct (H2 v Hs) as (x & Hx). exists x.
    rewrite lookup_insert_ne; [done|congruence].
  - intros v Hs. destruct (decide (v = u)) as [->|Hv]; [by rewrite lookup_insert_eq|].
    rewrite lookup_insert_ne by done. by apply H3.
Qed.

Lemma client_frame_ok h t u ws f :
  browsers_ok (mkBrowsers h t) → ws ∈ connections_of h u →
  browsers_ok (mkBrowsers (_handle_client_frame ws u f h) t).
Proof.
  intros [H1 H2 H3] Hws. simpl in *.
  assert (Hu : is_Some (_user_connections h !! u)).
  { unfold connections_of in Hws. destruct (_user_connections h !! u); [by eexists|set_solver]. }
  assert (Hconn : ∀ h', _user_connections h' = _user_connections h →
    (∀ v, subscribed h' v → v = u ∨ subscribed h v) → browsers_ok (mkBrowsers h' t)).
  { intros h' Hc Hsub. split; unfold connections_of; simpl; rewrite Hc; [exact H1|exact H2|].
    intros v [->|Hs]%Hsub; [done|by apply H3]. }
  destruct f as [p|[sid|]|[sid|]|]; simpl; try (apply Hconn; [done|by intros v Hv; right]).
  - apply Hconn; [done|apply subscribed_add].
  - apply Hconn; [|intros v Hv; right; by eapply subscribed_remove].
    unfold remove_gpu_subscriber. by destruct (_gpu_subscribers h !! sid).
Qed.

Lemma browser_step_ok b b' : browser_step b b' → browsers_ok b → browsers_ok b'.
Proof.
  intros Hs Hok. destruct Hs as [[h t] ws u Hnew|[h t] ws u f _ Hws|[h t] ws u Hws|[h t] dead u f|[h t] dead sid p c a].
  - by apply register_ok.
  - by apply client_frame_ok.
  - by apply unregister_ok.
  - eapply thinner_ok; [apply push_thinner|done].
  - eapply thinner_ok; [apply fan_out_thinner|done].
Qed.

(** however browsers connect, subscribe, drop and are
    pushed to, whoever is subscribed to a server's telemetry has a running
    connection, every registered socket belongs to the user its handler
    authenticated, and when the last handler of a user has ended nothing is
    registered for that user. *)
Theorem subscriptions_end b u :
  rtc browser_step (mkBrowsers (mkUserHub ∅ ∅ ∅ []) ∅) b →
  (∀ ws, ws ∈ connections_of (bhub b) u → bhandlers b !! ws = Some u) ∧
  (subscribed (bhub b) u → ∃ ws, bhandlers b !! ws = Some u) ∧
  ((∀ ws, bhandlers b !! ws ≠ Some u) → _user_connections (bhub b) !! u = None ∧ ¬ subscribed (bhub b) u).
Proof.
  intros Hrun.
  assert (Hok : browsers_ok b).
  { assert (H0 : browsers_ok (mkBrowsers (mkUserHub ∅ ∅ ∅ []) ∅)).
    { split; unfold connections_of, subscribed, gpu_subscribers; simpl.
      - intros u' ws. rewrite lookup_empty. set_solver.
      - intros u'. rewrite lookup_empty. by intros [].
      - intros u' [sid Hs]. rewrite lookup_empty in Hs. set_solver. }
    revert H0. induction Hrun; [done|]. eauto using browser_step_ok. }
  destruct Hok as [H1 H2 H3]. split; [apply H1|]. split; [intros Hs; by apply H2, H3|].
  intros Hno. split.
  - destruct (_user_connections (bhub b) !! u) eqn:Hu; [|done].
    destruct (H2 u) as (ws & Hws); [by eexists|]. by destruct (Hno ws).
  - intros Hs. destruct (H2 u (H3 u Hs)) as (ws & Hws). by destruct (Hno ws).
Qed.

(** A browser connects, subscribes to server 1, and closes. *)
Definition browser_run : Browsers :=
  let b0 := mkBrowsers (mkUserHub ∅ ∅ ∅ []) ∅ in
  let b1 := mkBrowsers (_register_connection 10 50 (bhub b0)) (<[50 := 10]> (bhandlers b0)) in
  let b2 := mkBrowsers (_handle_client_frame 50 10 (client_subscribe (Some 1)) (bhub b1)) (bhandlers b1) in
  mkBrowsers (_unregister_connection 10 50 (bhub b2)) (delete 50 (bhandlers b2)).

Lemma browser_run_reached : rtc browser_step (mkBrowsers (mkUserHub ∅ ∅ ∅ []) ∅) browser_run.
Proof.
  eapply rtc_l; [by apply (browser_open (mkBrowsers (mkUserHub ∅ ∅ ∅ []) ∅) 50 10)|].
  eapply rtc_l; [apply (browser_frame _ 50 10 (client_subscribe (Some 1))); [vm_compute; reflexivity|]|].
  { apply (bool_decide_unpack _). vm_compute. exact I. }
  eapply rtc_l; [apply (browser_close _ 50 10); vm_compute; reflexivity|]. apply rtc_refl.
Qed.

Lemma subscriptions_end_witness :
  _user_connections (bhub browser_run) !! 10 = None ∧ ¬ subscribed (bhub browser_run) 10.
Proof.
  apply (proj2 (proj2 (subscriptions_end browser_run 10 browser_run_reached))).
  intros ws. replace (bhandlers browser_run) with (∅ : gmap Z Z) by (vm_compute; reflexivity).
  by rewrite lookup_empty.
Defined.
