(* ===== verification/AgentWs.v ===== *)
(** The agents' websocket ([backend/corelab_backend/api/agent_ws.py]).

    A socket is a number.  A frame carries what the outside world does while
    it is handled: the attempts MySQL grants a telemetry transaction, the
    browser sockets that are dead, the monotonic clock. *)

From S2P Require Import Prelude Models SessionLayer Samples AgentRpc.
From S2P Require Import AuditService NotificationService ReservationService ReservationLifecycle ScriptLifecycleService.
From S2P Require Import ReservationsApi AlertService ComplianceIngest SerializableRetry TelemetryService.
From S2P Require Import PhysicalAccountService UserHub.

(** The process: the durable database, the connection pool, the pending RPCs,
    the pending kills and the browsers' registries. *)
Record Hub : Type := mkHub {
  hdb : Db ;
  hpool : AgentConnectionPool ;
  hrpc : RpcState ;
  hkills : Kills ;
  hbrowsers : UserHub }.
#[export] Instance eta_Hub : Eta Hub := λ h,
  mkHub (hdb h) (hpool h) (hrpc h) (hkills h) (hbrowsers h).

(** [async with factory() as session: m(session); await session.commit()];
    an exception leaves the block and rolls back, but what it did to the
    process's registry stays. *)
Definition run_in {A} (m : M A) (now : Z) (h : Hub) : result exn A * Hub :=
  match m (open_session (hdb h) now "" <| pending_kills := hkills h |>) with
  | (Ok a, s) =>
      match commit s with
      | (Ok _, s') => (Ok a, h <| hdb := committed s' |> <| hkills := pending_kills s' |>)
      | (Raise e, s') => (Raise e, h <| hdb := committed s' |> <| hkills := pending_kills s' |>)
      end
  | (Raise e, s) => (Raise e, h <| hdb := committed s |> <| hkills := pending_kills s |>)
  end.

Section agent.
Context (checkpw : string → string → bool) (hashpw hash_setup_token : string → string).

(** ** Connecting *)

(** Phase 2: heartbeat and audit. *)
Definition announce (server_id lab_id : Z) : M bool :=
  ok ← mark_heartbeat server_id ;
  write (if ok : bool then "server.online" else "server.phone_home_pending_approval") None
    (Some lab_id) (Some "server"%string) (Some server_id) (Some lab_id) (Some server_id) JNull
    no_request ;;
  mret ok.

Inductive connection : Type :=
| refused                      (* closed with 4401 before the accept *)
| accepted (lab_id : Z)        (* in the receive loop *)
| torn (lab_id : Z) (e : exn). (* an exception between accept and loop *)

(** Phase 1. *)
Definition check_in (server_id : Z) (token : string) (now : Z) (h : Hub) : result exn Z * Hub :=
  run_in (server ← authenticate_agent checkpw hashpw hash_setup_token server_id token ;
          mret (Server.lab_id server)) now h.

(** Phase 2; [fault] is what the database raises during it, if it does: the
    transaction is rolled back, and no handler catches it. *)
Definition announce_in (fault : option exn) (server_id lab_id now : Z) (h : Hub) : result exn bool * Hub :=
  match fault with
  | Some e => (Raise e, h)
  | None => run_in (announce server_id lab_id) now h
  end.

(** Both, and the registration between them, when nothing else runs.  The
    frames the backend pushes on connect (URLs, capabilities, policies, link
    cache) are left out here: they write nothing, and what they raise is
    caught. *)
Definition connect (fault : option exn) (ws server_id : Z) (token : string) (now : Z) (h : Hub) : connection * Hub :=
  match check_in server_id token now h with
  | (Raise _, h1) => (refused, h1)
  | (Ok lab_id, h1) =>
      match announce_in fault server_id lab_id now
              (h1 <| hpool := pool_register (hpool h1) server_id ws |>) with
      | (Ok _, h2) => (accepted lab_id, h2)
      | (Raise e, h2) => (torn lab_id e, h2)
      end
  end.
End agent.

(** ** The receive loop *)

Inductive agent_frame : Type :=
| frame_invalid                                   (* not JSON, or not a valid envelope *)
| frame_unexpected                                (* a type agents may not send *)
| frame_heartbeat
| frame_pong
| frame_response (f : incoming)
| frame_script_started (p : ScriptStartedEvent)
| frame_script_output (p : ScriptOutputChunkEvent)
| frame_script_finished (p : ScriptFinishedEvent)
| frame_violation (event : ComplianceViolationEvent)
| frame_telemetry (p : GpuTelemetry) (attempts : list attempt) (dead : Z → bool) (clock : Z)
| frame_account_scan (entries : list AccountScanEntry)
| frame_reverse_lookup.                           (* allowed, but no branch handles it *)

Definition alert_payload (event : ComplianceViolationEvent) : json :=
  JObj [("policy_key", JStr (cv_policy_key event)); ("severity", JStr (cv_severity event));
        ("linux_username", jopt JStr (cv_linux_username event));
        ("linux_pid", jopt JInt (cv_linux_pid event));
        ("action_taken", JStr (cv_action_taken event));
        ("downgraded_from", jopt JStr (cv_downgraded_from event));
        ("memory_used_mb", jopt JInt (cv_memory_used_mb event));
        ("memory_declared_mb", jopt JInt (cv_memory_declared_mb event));
        ("util_pct", jopt JInt (cv_util_pct event)); ("details", jopt JStr (cv_details event))]%string.

Definition violation_alert (event : ComplianceViolationEvent) : M AlertEvent.t :=
  create_alert (cv_server_id event) ("compliance." +:+ cv_policy_key event)
    (alert_severity_for (cv_severity event)) (Some (cv_gpu_id event)) None
    (Some (alert_payload event)) ALERT_DEDUP_WINDOW_SECONDS.

(** [_handle_gpu_telemetry]: an [OperationalError] is logged, any other error
    leaves; an accepted report is fanned out. *)
Definition _handle_gpu_telemetry (server_id : Z) (p : GpuTelemetry) (attempts : list attempt)
    (dead : Z → bool) (clock now : Z) (h : Hub) : bool * Hub :=
  let '(r, d) := upsert_telemetry_transaction server_id p attempts (hdb h) in
  let h := h <| hdb := d |> in
  match r with
  | Ok true => (true, h <| hbrowsers := (fan_out dead server_id p clock now (hbrowsers h)).2 |>)
  | Ok false | Raise (OperationalError _) => (true, h)
  | Raise _ => (false, h)
  end.

Section loop.
Context (ci : string → string).

(** An operational frame of an approved server: does the loop go on? *)
Definition handle_frame (server_id lab_id : Z) (f : agent_frame) (now : Z) (h : Hub) : bool * Hub :=
  match f with
  | frame_response i => (true, h <| hrpc := (deliver_response i (hrpc h)).2 |>)
  | frame_telemetry p attempts dead clock =>
      _handle_gpu_telemetry server_id p attempts dead clock now h
  | frame_account_scan entries =>
      let '(r, h') := run_in (sync_discovered ci server_id lab_id entries) now h in (is_ok r, h')
  | frame_script_started p => let '(r, h') := run_in (on_script_started p lab_id) now h in (is_ok r, h')
  | frame_script_output p => let '(r, h') := run_in (on_script_output_chunk p) now h in (is_ok r, h')
  | frame_script_finished p => let '(r, h') := run_in (on_script_finished p lab_id) now h in (is_ok r, h')
  | frame_violation event =>
      match run_in (handle_violation event lab_id) now h with
      | (Raise _, h1) => (false, h1)
      | (Ok _, h1) => let '(r, h2) := run_in (violation_alert event) now h1 in (is_ok r, h2)
      end
  | _ => (true, h)
  end.

(** One iteration of the loop; an exception leaves it. *)
Definition receive (server_id lab_id : Z) (f : agent_frame) (now : Z) (h : Hub) : bool * Hub :=
  match f with
  | frame_invalid | frame_unexpected => (false, h)
  | frame_heartbeat => let '(r, h') := run_in (mark_heartbeat server_id) now h in (is_ok r, h')
  | frame_pong => (true, h)
  | _ =>
      match run_in (is_server_approved server_id) now h with
      | (Ok true, h1) => handle_frame server_id lab_id f now h1
      | (Ok false, h1) => (true, h1)
      | (Raise _, h1) => (false, h1)
      end
  end.
End loop.

(** ** Disconnecting *)

Definition _mark_offline (server_id lab_id : Z) : M unit :=
  o ← get_server server_id ;
  match o with
  | None => skip
  | Some server =>
      if negb (is_some (Server.approved_at server)) then skip
      else if bool_decide (Server.status server = "online"%string) then
        set_server (server <| Server.status := "offline"%string |>) ;;
        at_ ← utcnow ;
        write "server.offline" None (Some lab_id) (Some "server"%string) (Some server_id)
          (Some lab_id) (Some server_id) (JObj [("at", JTime at_)]%string) no_request
      else skip
  end.

(** The [finally] block. *)
Definition disconnect (ws server_id lab_id now : Z) (h : Hub) : Hub :=
  (run_in (_mark_offline server_id lab_id) now
     (h <| hpool := pool_unregister (hpool h) server_id ws |>)).2.

(** ** Lemmas *)

Lemma run_in_run {A} (m : M A) now h r s :
  m (open_session (hdb h) now "" <| pending_kills := hkills h |>) = (r, s) →
  (is_ok r = true → clean s) →
  run_in m now h = (r, h <| hdb := if is_ok r then db s else committed s |>
                         <| hkills := pending_kills s |>).
Proof.
  intros Hm Hc. unfold run_in. rewrite Hm. destruct r as [a|e]; [|done].
  by rewrite commit_clean by by apply Hc.
Qed.

(** Reading only. *)
Lemma run_in_read {A} (m : M A) now h r :
  m (open_session (hdb h) now "" <| pending_kills := hkills h |>) =
    (r, open_session (hdb h) now "" <| pending_kills := hkills h |>) →
  run_in m now h = (r, h).
Proof.
  intros Hm. rewrite (run_in_run _ _ _ _ _ Hm) by done. destruct h, r; reflexivity.
Qed.

(** The heartbeat of a stored server. *)
Definition beaten (srv : Server.t) (at_ : Z) : Server.t :=
  let srv := srv <| Server.last_heartbeat_at := Some at_ |> in
  if approved srv then srv <| Server.status := "online"%string |> else srv.

Lemma mark_heartbeat_run sid s :
  clean s →
  mark_heartbeat sid s =
    match servers (db s) !! sid with
    | None => (Ok false, s)
    | Some srv => (Ok (approved srv), s <| db := db s <| servers :=
                     <[Server.id srv := beaten srv (now s)]> (servers (db s)) |> |>)
    end.
Proof.
  intros Hc. unfold mark_heartbeat, get_server. rewrite (bind_run (gets _) _ _ _ _) by reflexivity.
  cbv beta. destruct (servers (db s) !! sid) as [srv|]; [|done].
  rewrite (bind_run utcnow _ s (now s) s) by reflexivity. cbv zeta.
  set (srv' := if _ && _ then _ else _).
  assert (Hb : srv' = beaten srv (now s)).
  { unfold srv', beaten. cbv zeta. destruct (approved _); [|done]. simpl andb.
    case_bool_decide as Hs; [|done]. unfold set_field. simpl in *. by rewrite <- Hs. }
  assert (Ha : approved srv' = approved srv) by (rewrite Hb; unfold beaten; by destruct (approved _) eqn:E).
  assert (Hid : Server.id srv' = Server.id srv) by (rewrite Hb; unfold beaten; by destruct (approved _)).
  set (s1 := s <| db := db s <| servers := <[Server.id srv' := srv']> (servers (db s)) |> |>).
  rewrite (bind_run (set_server srv') _ s tt s1) by reflexivity.
  rewrite (bind_run flush _ s1 tt s1) by by apply flush_clean.
  unfold s1. clearbody srv'.
  by rewrite Ha, Hid, Hb.
Qed.

Lemma mark_offline_run sid lab s :
  clean s →
  ∃ s', _mark_offline sid lab s = (Ok tt, s') ∧ clean s' ∧ pending_kills s' = pending_kills s ∧
    match servers (db s) !! sid with
    | Some srv =>
        if is_some (Server.approved_at srv) && bool_decide (Server.status srv = "online"%string)
        then ∃ e, AuditLog.action e = "server.offline"%string ∧ AuditLog.target_id e = Some sid ∧
             db s' = db s <| servers := <[Server.id srv := srv <| Server.status := "offline"%string |>]>
                                          (servers (db s)) |>
                          <| audit_log := audit_log (db s) ++ [e] |>
        else s' = s
    | None => s' = s
    end.
Proof.
  intros Hc. unfold _mark_offline, get_server. rewrite (bind_run (gets _) _ _ _ _) by reflexivity.
  cbv beta. destruct (servers (db s) !! sid) as [srv|]; [|by exists s].
  destruct (is_some (Server.approved_at srv)); [|by exists s]. simpl.
  case_bool_decide; [|by exists s].
  set (s1 := s <| db := db s <| servers :=
    <[Server.id srv := srv <| Server.status := "offline"%string |>]> (servers (db s)) |> |>).
  rewrite (bind_run (set_server _) _ s tt s1) by reflexivity.
  rewrite (bind_run utcnow _ s1 (now s1) s1) by reflexivity.
  rewrite (write_run _ _ _ _ _ _ _ _ _ s1 Hc). eexists. split; [reflexivity|].
  split_and!; [done|done|]. eexists (audit_entry s1 _ _ _ _ _ _ _ _ _ _ _). split_and!; [..|reflexivity]; reflexivity.
Qed.

(** ** Authentication *)

(** The secret is good for this server at this instant. *)
Definition credential_ok (checkpw : string → string → bool) (hash_setup_token : string → string)
    (d : Db) (now server_id : Z) (token : string) : Prop :=
  ∃ srv, servers d !! server_id = Some srv ∧ Server.is_active srv ≠ 0 ∧
    match Server.agent_token_hash srv with
    | Some hash => checkpw token hash = true
    | None => ∃ t, find_token d (hash_setup_token token) (Server.lab_id srv) = Some t ∧
                   (EnrollmentToken.used_at t = None ∨
                    EnrollmentToken.used_by_server_id t = Some server_id) ∧
                   now < EnrollmentToken.expires_at t
    end.

(** The database after a successful authentication: unchanged, or the secret
    is bound to the server. *)
Definition authenticated (hashpw hash_setup_token : string → string) (d : Db) (now server_id : Z)
    (token : string) (srv : Server.t) : Db :=
  match Server.agent_token_hash srv, find_token d (hash_setup_token token) (Server.lab_id srv) with
  | None, Some t =>
      d <| servers := <[Server.id srv := srv <| Server.agent_token_hash := Some (hashpw token) |>]>
             (servers d) |>
        <| enrollment_tokens := <[EnrollmentToken.id t :=
             t <| EnrollmentToken.used_at := Some now |>
               <| EnrollmentToken.used_by_server_id := Some server_id |>]> (enrollment_tokens d) |>
  | _, _ => d
  end.

Section authentication.
Context (checkpw : string → string → bool) (hashpw hash_setup_token : string → string).

Lemma authenticate_run sid token s :
  clean s →
  (credential_ok checkpw hash_setup_token (db s) (now s) sid token ∧
   ∃ srv srv', servers (db s) !! sid = Some srv ∧ Server.lab_id srv' = Server.lab_id srv ∧
     authenticate_agent checkpw hashpw hash_setup_token sid token s =
       (Ok srv', s <| db := authenticated hashpw hash_setup_token (db s) (now s) sid token srv |>)) ∨
  (¬ credential_ok checkpw hash_setup_token (db s) (now s) sid token ∧
   authenticate_agent checkpw hashpw hash_setup_token sid token s = (Raise AgentAuthError, s)).
Proof using Type.
  intros Hc. unfold authenticate_agent, get_server, credential_ok, authenticated.
  rewrite (bind_run (gets _) _ _ _ _) by reflexivity. cbv beta.
  destruct (servers (db s) !! sid) as [srv|] eqn:Hs; [|right; split; [by intros (? & ? & _)|done]].
  simpl some_or_raise. rewrite (bind_run (mret srv) _ s srv s) by reflexivity.
  case_bool_decide as Hact; [right; split; [|done]; by intros (? & [= <-] & ? & _)|].
  rewrite (bind_run (raise_if false _) _ s tt s) by reflexivity.
  destruct (Server.agent_token_hash srv) as [hash|] eqn:Hh.
  - destruct (checkpw token hash) eqn:Hp.
    + left. split; [exists srv; by rewrite Hh|]. exists srv, srv. split_and!; [done..|].
      rewrite Hh. by destruct s.
    + right. split; [|done]. intros (? & [= <-] & _ & H). rewrite Hh in H. congruence.
  - rewrite (bind_run (gets _) _ _ _ _) by reflexivity. cbv beta.
    destruct (find_token (db s) _ _) as [t|] eqn:Ht.
    2:{ right. split; [|done]. intros (? & [= <-] & _ & H). rewrite Hh, Ht in H. by destruct H as (? & ? & _). }
    simpl some_or_raise. rewrite (bind_run (mret t) _ s t s) by reflexivity.
    destruct (is_some (EnrollmentToken.used_at t) && _) eqn:Hu.
    { right. split; [|done]. intros (? & [= <-] & _ & H). rewrite Hh, Ht in H.
      destruct H as (? & [= <-] & [Hn|Hn] & _); rewrite Hn in Hu; [done|].
      rewrite bool_decide_eq_true_2, andb_false_r in Hu by done. done. }
    rewrite (bind_run (raise_if false _) _ s tt s), (bind_run utcnow _ s (now s) s) by reflexivity.
    destruct (bool_decide_reflect (EnrollmentToken.expires_at t <= now s)) as [He|He].
    { right. split; [|done]. intros (? & [= <-] & _ & H). rewrite Hh, Ht in H.
      destruct H as (? & [= <-] & _ & ?). lia. }
    left. split.
    + exists srv. rewrite Hh. split_and!; [done|done|]. exists t. split_and!; [done| |lia].
      destruct (EnrollmentToken.used_at t); [right|by left]. simpl in Hu.
      by apply negb_false_iff, bool_decide_eq_true in Hu.
    + eexists srv, _. split_and!; [done| |rewrite Hh, Ht].
      2:{ cbv zeta. set (srv' := srv <| Server.agent_token_hash := _ |>).
          set (t' := t <| EnrollmentToken.used_at := _ |> <| EnrollmentToken.used_by_server_id := _ |>).
          set (s1 := s <| db := db s <| servers := <[Server.id srv' := srv']> (servers (db s)) |> |>).
          set (s2 := s1 <| db := db s1 <| enrollment_tokens :=
                 <[EnrollmentToken.id t' := t']> (enrollment_tokens (db s1)) |> |>).
          rewrite (bind_run (raise_if false _) _ s tt s) by reflexivity.
          rewrite (bind_run (set_server srv') _ s tt s1) by reflexivity.
          rewrite (bind_run (set_token t') _ s1 tt s2) by reflexivity.
          rewrite (bind_run flush _ s2 tt s2) by by apply flush_clean.
          reflexivity. }
      reflexivity.
Qed.
End authentication.
