(* ===== verification/ScriptFlow.v ===== *)
(** A script from the host to the booking: what the agent's runner pushes
    ([ScriptRunner]), received by the backend ([AgentWs]), leaves in the
    reservation. *)

From S2P Require Import Prelude PyText Models SessionLayer AgentRpc.
From S2P Require Import ReservationService ReservationLifecycle ScriptLifecycleService LifecycleProperties.
From S2P Require Import TelemetryService UserHub AgentWs AgentCaches ProcessKiller.
From S2P Require Import ScriptRunner ScriptRunnerProperties Samples.

(** An event as the backend reads its frame. *)
Definition frame_of (e : event) : agent_frame :=
  match e with
  | Started i pid t path => frame_script_started (mkScriptStartedEvent i pid t (Some path))
  | OutputChunk i text _ => frame_script_output (mkScriptOutputChunkEvent i text)
  | Finished i code t0 t1 size path killed reason =>
      frame_script_finished (mkScriptFinishedEvent i code t1 (t1 - t0) size (Some path) killed reason)
  end.

Section flow.
Context (ci : string → string) (server_id lab_id : Z).

(** Frames in the order they were sent, each at its instant. *)
Fixpoint receive_all (fs : list (agent_frame * Z)) (h : Hub) : bool * Hub :=
  match fs with
  | [] => (true, h)
  | (f, now) :: fs =>
      match receive ci server_id lab_id f now h with
      | (true, h) => receive_all fs h
      | (false, h) => (false, h)
      end
  end.

(** The row after an event. *)
Definition recorded (e : event) (row : Reservation.t) : Reservation.t :=
  match e with
  | Started i pid t path => started_row row (mkScriptStartedEvent i pid t (Some path))
  | OutputChunk _ text _ =>
      row <| Reservation.script_log_tail_text := Some (tail_of row ++ text) |>
          <| Reservation.script_log_tail_truncated :=
               if bool_decide (Reservation.script_log_tail_truncated row ≠ 0) then 1 else 0 |>
  | Finished i code t0 t1 size path killed reason =>
      finished_row row (mkScriptFinishedEvent i code t1 (t1 - t0) size (Some path) killed reason)
  end.

Definition output_fits (row : Reservation.t) (e : event) : Prop :=
  match e with
  | Started _ _ _ _ => True
  | OutputChunk _ text _ => text ≠ [] ∧ utf8_length (tail_of row ++ text) <= TEXT_MAX_BYTES
  | Finished _ code _ _ size _ _ _ => signed_fits code = true ∧ unsigned_fits (Some size) = true
  end.

(** The backend with the server approved and the row at hand. *)
Record expects (rid : Z) (row : Reservation.t) (h : Hub) : Prop := {
  ex_db : db_ok (hdb h) ;
  ex_approved : ∃ srv, servers (hdb h) !! server_id = Some srv ∧ approved srv = true ;
  ex_row : reservations (hdb h) !! rid = Some row }.

Lemma updated_kills s s' row acts k : updated s s' row acts → updated s (s' <| pending_kills := k |>) row acts.
Proof using Type. intros [H1 H2 H3 H4]. by split. Qed.

Lemma receive_updated (m : M unit) f now h h1 rid row row' s s' acts :
  receive ci server_id lab_id f now h = handle_frame ci server_id lab_id f now h1 →
  handle_frame ci server_id lab_id f now h1 = (let '(r, h') := run_in m now h1 in (is_ok r, h')) →
  h1 = h → s = open_session (hdb h) now "" <| pending_kills := hkills h |> →
  m s = (Ok tt, s') → updated s (s' <| pending_kills := pending_kills s |>) row' acts →
  expects rid row h → Reservation.id row' = rid → reservation_row_ok row' →
  ∃ h', receive ci server_id lab_id f now h = (true, h') ∧ expects rid row' h' ∧
        reservations (hdb h') = <[rid := row']> (reservations (hdb h)).
Proof using Type.
  intros Hf Hm -> Hs Hr Hu [Hdb (srv & Hsrv & Ha) Hrow] Hid Hok.
  assert (Hs' : session_ok s) by (subst s; by split).
  assert (Hk' : session_ok (s' <| pending_kills := pending_kills s |>)).
  { eapply updated_ok; [exact Hs'| |exact Hok|exact Hu]. subst s. rewrite Hid. by eexists. }
  assert (Hrun : run_in m now h = (Ok tt, h <| hdb := db s' |> <| hkills := pending_kills s' |>)).
  { erewrite run_in_run; [|rewrite <- Hs; exact Hr|]; [done|]. intros _. apply Hk'. }
  rewrite Hf, Hm, Hrun. eexists. split; [done|].
  pose proof (updated_reservations _ _ _ _ Hu) as Hres. rewrite Hid in Hres. split.
  - split.
    + apply Hk'.
    + exists srv. split; [|done]. destruct Hu as [_ _ _ (es & ns & _ & Hdb')].
      change (db (s' <| pending_kills := pending_kills s |>)) with (db s') in Hdb'.
      change (servers (db s') !! server_id = Some srv). rewrite Hdb'. by subst s.
    + change (reservations (db s') !! rid = Some row').
      change (reservations (db s') = <[rid := row']> (reservations (db s))) in Hres. rewrite Hres. apply lookup_insert_eq.
  - change (reservations (db s') = <[rid := row']> (reservations (db s))) in Hres. simpl. rewrite Hres. by subst s.
Qed.

Lemma recorded_slot rid row e h :
  expects rid row h → output_fits row e →
  Reservation.id (recorded e row) = rid ∧ reservation_row_ok (recorded e row).
Proof using Type.
  intros [Hdb _ Hrow] Hfit. pose proof (db_ok_id _ _ _ Hdb Hrow) as Hid. pose proof (db_ok_row _ _ _ Hdb Hrow) as Hok.
  destruct e as [i pid t path|i text ts|i code t0 t1 size path killed reason]; cbn [recorded].
  - split; [|by apply started_row_ok]. unfold started_row.
    destruct (Reservation.script_status row) as [[]|]; rewrite ?with_log_path_id; try done.
    by rewrite (proj1 (acked_row_slot row _)).
  - split; [done|]. destruct Hfit as [_ Hfit].
    pose proof (utf8_length_ge (tail_of row ++ text)) as Hge.
    pose proof (tail_row_error row text Hok) as Herr. rewrite bool_decide_eq_true_2 in Herr by done.
    rewrite appended_tail_short in Herr by (unfold TEXT_MAX_BYTES, SCRIPT_LOG_TAIL_MAX_CHARS in *; lia).
    by apply reservation_row_error_None in Herr.
  - set (p := mkScriptFinishedEvent _ _ _ _ _ _ _ _). destruct (finished_row_slot row p) as [H1 H2]. split; [congruence|]. apply H2; [|done].
    unfold finish_fits. cbn [fi_exit_code fi_output_size_bytes p]. destruct Hfit as [-> ->]. done.
Qed.

(** The handler of an event, on a row whose script runs. *)
Lemma recorded_run rid row e h now :
  event_reservation e = rid → expects rid row h → Reservation.script_status row = Some SCRIPT_RUNNING →
  output_fits row e →
  ∃ h', receive ci server_id lab_id (frame_of e) now h = (true, h') ∧ expects rid (recorded e row) h' ∧
        reservations (hdb h') = <[rid := recorded e row]> (reservations (hdb h)).
Proof using Type.
  intros Hi Hex Hst Hfit. pose proof Hex as [Hdb (srv & Hsrv & Ha) Hrow].
  destruct (recorded_slot _ _ _ _ Hex Hfit) as [Hid Hok].
  set (s := open_session (hdb h) now "" <| pending_kills := hkills h |>).
  assert (Hs : session_ok s) by done.
  assert (Hgate : run_in (is_server_approved server_id) now h = (Ok true, h)).
  { apply run_in_read. unfold is_server_approved, gets. simpl. by rewrite Hsrv, Ha. }
  assert (Hf : receive ci server_id lab_id (frame_of e) now h = handle_frame ci server_id lab_id (frame_of e) now h).
  { unfold receive. rewrite Hgate. by destruct e. }
  destruct e as [i pid t path|i text ts|i code t0 t1 size path killed reason]; simpl in Hi; subst i.
  - destruct (started_run (mkScriptStartedEvent rid pid t (Some path)) lab_id s Hs) as (s' & Hr & Hu).
    cbn [st_reservation_id] in Hu. change (reservations (db s)) with (reservations (hdb h)) in Hu.
    rewrite Hrow, Hst in Hu.
    exact (receive_updated _ _ _ _ h _ _ _ _ _ _ Hf eq_refl eq_refl eq_refl Hr (updated_kills _ _ _ _ _ Hu) Hex Hid Hok).
  - pose proof (output_chunk_run (mkScriptOutputChunkEvent rid text) row s Hs Hrow (proj1 Hfit)) as Hw.
    unfold wp in Hw. destruct (on_script_output_chunk _ s) as [res s'] eqn:Hr. cbn [oc_text fst snd] in Hw.
    rewrite (bool_decide_eq_true_2 (utf8_length (tail_of row ++ text) <= TEXT_MAX_BYTES)) in Hw by apply Hfit.
    destruct Hw as [-> Hu].
    exact (receive_updated _ _ _ _ h _ _ _ _ _ _ Hf eq_refl eq_refl eq_refl Hr (updated_kills _ _ _ _ _ Hu) Hex Hid Hok).
  - destruct (finished_run (mkScriptFinishedEvent rid code t1 (t1 - t0) size (Some path) killed reason) lab_id row s
                Hs Hrow) as (s' & Hr & _ & Hu).
    { intros _. unfold finish_fits. cbn [fi_exit_code fi_output_size_bytes]. destruct Hfit as [-> ->]. done. }
    rewrite bool_decide_eq_true_2 in Hu by done.
    exact (receive_updated _ _ _ _ h _ _ _ _ _ _ Hf eq_refl eq_refl eq_refl Hr Hu Hex Hid Hok).
Qed.

(** Events that find the script running, and room for their output. *)
Fixpoint flows (row : Reservation.t) (evs : list event) : Prop :=
  match evs with
  | [] => True
  | e :: evs => Reservation.script_status row = Some SCRIPT_RUNNING ∧ output_fits row e ∧ flows (recorded e row) evs
  end.

Definition record_all (row : Reservation.t) (evs : list event) : Reservation.t := foldl (λ row e, recorded e row) row evs.

Lemma flows_run rid row evs times h :
  Forall (λ e, event_reservation e = rid) evs → length times = length evs →
  expects rid row h → flows row evs →
  ∃ h', receive_all (zip (frame_of <$> evs) times) h = (true, h') ∧ expects rid (record_all row evs) h' ∧
        reservations (hdb h') = <[rid := record_all row evs]> (reservations (hdb h)).
Proof using Type.
  intros He. revert row times h. induction He as [|e evs Hi _ IH]; intros row times h Hlen Hex Hfl.
  { exists h. destruct times; [|done]. split; [done|]. split; [done|]. cbn. by rewrite insert_id by apply Hex. }
  destruct times as [|now times]; [done|]. destruct Hfl as (Hst & Hfit & Hfl). simpl in Hlen.
  destruct (recorded_run rid row e h now Hi Hex Hst Hfit) as (h1 & Hr & Hex1 & Hres1).
  destruct (IH (recorded e row) times h1) as (h2 & Hr2 & Hex2 & Hres2); [lia|done|done|].
  exists h2. cbn [fmap list_fmap zip zip_with receive_all]. rewrite Hr. split; [done|]. split; [done|].
  change (record_all row (e :: evs)) with (record_all (recorded e row) evs).
  by rewrite Hres2, Hres1, insert_insert_eq.
Qed.
End flow.

(** ** One run of a script *)

Definition is_start (e : event) : bool := match e with Started _ _ _ _ => true | _ => false end.
Definition is_output (e : event) : bool := match e with OutputChunk _ _ _ => true | _ => false end.
Definition starts (evs : list event) : nat := length (filter (λ e, is_start e = true) evs).

(** What the script printed. *)
Definition output (evs : list event) : pystr :=
  flat_map (λ e, match e with OutputChunk _ text _ => text | _ => [] end) evs.

Definition nonempty_output (e : event) : Prop := match e with OutputChunk _ text _ => text ≠ [] | _ => False end.

(** A story that goes on after a start, without another, to its end. *)
Lemma story_to_end t path evs :
  story false (Some (t, path), 0%nat) evs = Some (None, 0%nat) → starts evs = 0%nat →
  ∃ chunks i code t1 size killed reason,
    evs = chunks ++ [Finished i (Some code) t t1 size path killed reason] ∧ Forall nonempty_output chunks.
Proof.
  induction evs as [|[i pid t0 p|i text ts|i code t0 t1 size p killed reason] evs IH]; simpl; [done|done| |].
  - case_bool_decide; [done|]. simpl. intros Hs Hn.
    destruct (IH Hs Hn) as (chunks & j & code & t1 & size & killed & reason & -> & Hc).
    exists (OutputChunk i text ts :: chunks), j, code, t1, size, killed, reason. split; [done|]. by apply Forall_cons.
  - case_bool_decide as Hb; [|by cbn]. injection Hb as <- <-.
    destruct code as [code|]; [|done]. simpl. destruct (negb killed || _); [|done]. intros Hs Hn.
    exists [], i, code, t1, size, killed, reason. split; [|by apply Forall_nil_2]. simpl. f_equal.
    destruct evs as [|[| |] evs]; done.
Qed.

Lemma one_run evs :
  story false (None, 0%nat) evs = Some (None, 0%nat) → starts evs = 1%nat →
  ∃ i pid t path chunks j code t1 size killed reason,
    evs = Started i pid t path :: chunks ++ [Finished j (Some code) t t1 size path killed reason] ∧
    Forall nonempty_output chunks.
Proof.
  destruct evs as [|[i pid t path|i text ts|i code t0 t1 size p killed reason] evs]; simpl; try done.
  intros Hs [= Hn]. destruct (story_to_end t path evs Hs Hn) as (chunks & j & code & t1 & size & killed & reason & -> & Hc).
  by exists i, pid, t, path, chunks, j, code, t1, size, killed, reason.
Qed.

Lemma utf8_length_app a b : utf8_length (a ++ b) = utf8_length a + utf8_length b.
Proof. induction a as [|c a IH]; [done|]. cbn [app]. unfold utf8_length in *. cbn [foldr]. lia. Qed.

Lemma output_app a b : output (a ++ b) = output a ++ output b.
Proof. apply flat_map_app. Qed.

(** The row while output comes in. *)
Lemma record_output row chunks :
  Forall nonempty_output chunks → Reservation.script_status row = Some SCRIPT_RUNNING →
  utf8_length (tail_of row ++ output chunks) <= TEXT_MAX_BYTES →
  flows row chunks ∧ Reservation.script_status (record_all row chunks) = Some SCRIPT_RUNNING ∧
  tail_of (record_all row chunks) = tail_of row ++ output chunks.
Proof.
  intros H. revert row. induction H as [|e chunks He _ IH]; intros row Hst Hfit.
  { split; [done|]. split; [done|]. by rewrite app_nil_r. }
  destruct e as [|i text ts|]; [done| |done].
  assert (Ht : tail_of (recorded (OutputChunk i text ts) row) = tail_of row ++ text) by done.
  destruct (IH (recorded (OutputChunk i text ts) row)) as (Hf & Hs & Ho); [done| |].
  { rewrite Ht, <- app_assoc. exact Hfit. }
  change (record_all row (OutputChunk i text ts :: chunks)) with (record_all (recorded (OutputChunk i text ts) row) chunks).
  split; [|split; [done|by rewrite Ho, Ht, <- app_assoc]].
  split; [done|]. split; [|done]. split; [done|]. change (output (OutputChunk i text ts :: chunks)) with (text ++ output chunks) in Hfit.
  rewrite app_assoc, utf8_length_app in Hfit. pose proof (utf8_length_ge (output chunks)). lia.
Qed.

Lemma with_log_path_tail row o : tail_of (with_log_path row o) = tail_of row.
Proof. unfold with_log_path. by destruct (str_truthy o). Qed.

Lemma with_log_path_status row o :
  Reservation.script_status (with_log_path row o) = Reservation.script_status row ∧
  Reservation.script_exit_code (with_log_path row o) = Reservation.script_exit_code row ∧
  Reservation.script_finished_at (with_log_path row o) = Reservation.script_finished_at row.
Proof. unfold with_log_path. by destruct (str_truthy o). Qed.

Lemma finished_row_fields row p :
  tail_of (finished_row row p) = tail_of row ∧
  Reservation.script_status (finished_row row p) = Some (finished_status p) ∧
  Reservation.script_exit_code (finished_row row p) = or_keep (fi_exit_code p) (Reservation.script_exit_code row) ∧
  Reservation.script_finished_at (finished_row row p) = Some (fi_finished_at p).
Proof.
  unfold finished_row, with_output. cbv zeta. rewrite with_log_path_tail.
  match goal with |- context [with_log_path ?r ?o] => destruct (with_log_path_status r o) as (-> & -> & ->) end.
  by destruct (bool_decide _).
Qed.

Lemma acked_row_fields row p :
  tail_of (acked_row row p) = tail_of row ∧
  Reservation.script_status (acked_row row p) = Reservation.script_status row.
Proof.
  unfold acked_row. cbv zeta. rewrite with_log_path_tail, (proj1 (with_log_path_status _ _)).
  by destruct (Reservation.script_started_at _).
Qed.

(** The last row of one run. *)
Lemma record_run row i pid t path chunks j code t1 size killed reason :
  Forall nonempty_output chunks → Reservation.script_status row = Some SCRIPT_RUNNING → tail_of row = [] →
  utf8_length (output chunks) <= TEXT_MAX_BYTES → signed_fits (Some code) = true → unsigned_fits (Some size) = true →
  let evs := Started i pid t path :: chunks ++ [Finished j (Some code) t t1 size path killed reason] in
  flows row evs ∧
  tail_of (record_all row evs) = output chunks ∧
  Reservation.script_status (record_all row evs) =
    Some (if killed then SCRIPT_KILLED else if bool_decide (code = 0) then SCRIPT_COMPLETED else SCRIPT_FAILED) ∧
  Reservation.script_exit_code (record_all row evs) = Some code ∧
  Reservation.script_finished_at (record_all row evs) = Some t1.
Proof.
  intros Hc Hst Ht Hfit Hcode Hsize evs. set (row1 := recorded (Started i pid t path) row).
  assert (Hrow1 : row1 = acked_row row (mkScriptStartedEvent i pid t (Some path))).
  { unfold row1, recorded, started_row. by rewrite Hst. }
  destruct (acked_row_fields row (mkScriptStartedEvent i pid t (Some path))) as [Ha1 Ha2].
  rewrite <- Hrow1 in Ha1, Ha2. rewrite Ht in Ha1. rewrite Hst in Ha2.
  destruct (record_output row1 chunks Hc Ha2) as (Hf & Hs & Ho); [by rewrite Ha1|].
  rewrite Ha1 in Ho. set (e := Finished j (Some code) t t1 size path killed reason) in *.
  assert (Hall : record_all row evs = recorded e (record_all row1 chunks)).
  { unfold record_all, evs. cbn [foldl]. fold row1. by rewrite foldl_app. }
  rewrite Hall. split.
  - split; [done|]. split; [done|]. fold row1. clearbody row1. clear - Hf Hs Hcode Hsize. revert row1 Hf Hs.
    induction chunks as [|c chunks IH]; intros row1 Hf Hs; simpl; [done|].
    destruct Hf as (H1 & H2 & H3). split; [done|]. split; [done|]. by apply IH.
  - unfold recorded, e. set (p := mkScriptFinishedEvent _ _ _ _ _ _ _ _).
    destruct (finished_row_fields (record_all row1 chunks) p) as (-> & -> & -> & ->).
    split; [done|]. split; [|done]. unfold finished_status, p. cbn. destruct killed; [done|].
    do 2 case_bool_decide; congruence.
Qed.

(** The events of a reservation that were sent. *)
Definition sent_events (rid : Z) (r : Runner) : list event :=
  filter (λ e, event_reservation e = rid) (filter (λ p, p.2 = true) (pushed r)).*1.

Lemma sent_all rid r :
  Forall (λ p, event_reservation p.1 = rid → p.2 = true) (pushed r) → sent_events rid r = events_of rid r.
Proof.
  unfold sent_events, events_of. induction 1 as [|[e sent] ps Hp _ IH]; [done|].
  cbn [fst snd] in Hp. rewrite (filter_cons _ (e, sent)). cbn [snd]. destruct sent.
  - rewrite decide_True, !fmap_cons, !filter_cons by done. cbn [fst]. by rewrite IH.
  - rewrite decide_False, fmap_cons, filter_cons by done. cbn [fst].
    by rewrite decide_False by (intros H%Hp; done).
Qed.

Definition is_report (e : event) : bool := match e with Finished _ _ _ _ _ _ _ _ => true | _ => false end.

Lemma story_report m st evs e st' : story m st (evs ++ [e]) = Some st' → is_report e = true → st'.1 = None.
Proof.
  rewrite story_app. destruct (story m st evs); [|done]. destruct e; try done. simpl.
  destruct (_ && _); [|done]. by intros [= <-].
Qed.

(** The log while the events come in: before the report the row runs, and its
    log is the output so far. *)
Lemma record_prefix row i pid t path chunks k :
  Forall nonempty_output chunks → Reservation.script_status row = Some SCRIPT_RUNNING → tail_of row = [] →
  utf8_length (output chunks) <= TEXT_MAX_BYTES →
  let evs := take k (Started i pid t path :: chunks) in
  flows row evs ∧ Reservation.script_status (record_all row evs) = Some SCRIPT_RUNNING ∧
  tail_of (record_all row evs) = output evs.
Proof.
  intros Hc Hst Ht Hfit. destruct k as [|k]; [by cbn|]. cbn [take].
  destruct (acked_row_fields row (mkScriptStartedEvent i pid t (Some path))) as [Ha1 Ha2].
  set (row1 := recorded (Started i pid t path) row).
  assert (Hrow1 : row1 = acked_row row (mkScriptStartedEvent i pid t (Some path))).
  { unfold row1, recorded, started_row. by rewrite Hst. }
  rewrite <- Hrow1, Ht in Ha1. rewrite <- Hrow1, Hst in Ha2.
  destruct (record_output row1 (take k chunks)) as (Hf & Hs & Ho); [by apply Forall_take|done| |].
  - rewrite Ha1. cbn [app]. rewrite <- (take_drop k chunks), output_app, utf8_length_app in Hfit.
    pose proof (utf8_length_ge (output (drop k chunks))). lia.
  - rewrite Ha1 in Ho. split; [by split|]. done.
Qed.

(** The numbers of a report have room in their columns. *)
Definition report_fits (e : event) : Prop :=
  match e with
  | Finished _ code _ _ size _ _ _ => signed_fits code = true ∧ unsigned_fits (Some size) = true
  | _ => True
  end.

(** How a run ended: [killed] by the platform, or with its exit code. *)
Definition verdict (killed : bool) (code : Z) : ScriptStatus :=
  if killed then SCRIPT_KILLED else if bool_decide (code = 0) then SCRIPT_COMPLETED else SCRIPT_FAILED.

(** C6: From the host to the booking, for a script that ran once on an agent,
    its runner's tasks in any order, to its report, over a connection that
    held.  The backend, reading the frames in the order they were sent, accepts
    every one and touches the row of that reservation only.  After each frame
    the log is all that the script has printed so far; until the report the row
    runs, and with it ends completed, failed or killed as the exit code and the
    platform's kill say, with the exit code and the end.  The row was running
    with an empty log, and what is recorded fits: the output its 65,535 bytes,
    exit code and size their columns. *)
Theorem script_run_recorded ci pf ap ls r rid sid lab row h times :
  steps false pf ap ls fresh_runner = Some r →
  Forall (λ p, event_reservation p.1 = rid → p.2 = true) (pushed r) →
  let evs := sent_events rid r in
  starts evs = 1%nat → (∃ m, last evs = Some m ∧ is_report m = true) → length times = length evs →
  expects sid rid row h → Reservation.script_status row = Some SCRIPT_RUNNING → tail_of row = [] →
  utf8_length (output evs) <= TEXT_MAX_BYTES → Forall report_fits evs →
  ∃ code t0 t1 size path killed reason,
    last evs = Some (Finished rid (Some code) t0 t1 size path killed reason) ∧
    ∀ k, (k <= length evs)%nat → ∃ h' row',
      receive_all ci sid lab (take k (zip (frame_of <$> evs) times)) h = (true, h') ∧
      reservations (hdb h') = <[rid := row']> (reservations (hdb h)) ∧
      tail_of row' = output (take k evs) ∧
      if bool_decide (k = length evs) then
        Reservation.script_status row' = Some (verdict killed code) ∧
        Reservation.script_exit_code row' = Some code ∧ Reservation.script_finished_at row' = Some t1
      else Reservation.script_status row' = Some SCRIPT_RUNNING.
Proof.
  intros Hsteps Hsent evs Hn (m & Hlast & Hm) Hlen Hex Hst Ht Hfit Hnum.
  assert (Hstory : story false (None, 0%nat) evs = Some (None, 0%nat)).
  { unfold evs in *. rewrite (sent_all _ _ Hsent) in *.
    destruct (steps_ok _ _ _ _ _ _ Hsteps (fresh_ok _) rid) as [_ Hd (cur & Hs & _)]. rewrite (Hd eq_refl) in Hs.
    apply last_Some in Hlast as [l Hl]. rewrite Hl in Hs |- *. pose proof (story_report _ _ _ _ _ Hs Hm) as Hc.
    cbn [fst] in Hc. by rewrite Hc in Hs. }
  assert (Hrid : Forall (λ e, event_reservation e = rid) evs).
  { apply Forall_forall. intros e He. unfold evs, sent_events in He. by apply list_elem_of_filter in He as [? _]. }
  destruct (one_run evs Hstory Hn) as (i & pid & t & path & chunks & j & code & t1 & size & killed & reason & Hevs & Hc).
  clearbody evs. clear Hsteps Hsent Hlast Hm m Hn Hstory r.
  assert (Hj : j = rid).
  { rewrite Hevs in Hrid. apply Forall_cons in Hrid as [_ Hr]. apply Forall_app in Hr as [_ Hr].
    by apply Forall_cons in Hr as [? _]. }
  assert (Ho : output evs = output chunks).
  { rewrite Hevs. change (output (chunks ++ [Finished j (Some code) t t1 size path killed reason]) = output chunks).
    rewrite output_app. apply app_nil_r. }
  rewrite Ho in Hfit.
  assert (Hnum' : signed_fits (Some code) = true ∧ unsigned_fits (Some size) = true).
  { rewrite Hevs, app_comm_cons in Hnum. apply Forall_app in Hnum as [_ Hr]. by apply Forall_cons in Hr as [? _]. }
  destruct Hnum' as [Hcode Hsize].
  destruct (record_run row i pid t path chunks j code t1 size killed reason Hc Hst Ht Hfit Hcode Hsize)
    as (Hfl & H1 & H2 & H3 & H4). rewrite <- Hevs in Hfl, H1, H2, H3, H4.
  exists code, t, t1, size, path, killed, reason. split; [rewrite Hevs, app_comm_cons, last_snoc; by subst j|].
  intros k Hk. destruct (bool_decide_reflect (k = length evs)) as [Hall|Hall].
  - subst k. destruct (flows_run ci sid lab rid row evs times h Hrid Hlen Hex Hfl) as (h' & Hr & _ & Hres).
    exists h', (record_all row evs). rewrite !take_ge by (rewrite ?length_zip_with, ?length_fmap; lia).
    rewrite Ho. by split_and!.
  - assert (Htk : take k evs = take k (Started i pid t path :: chunks)).
    { rewrite Hevs, app_comm_cons, take_app_le; [done|]. rewrite Hevs in Hall, Hk. cbn [length] in *. rewrite length_app in *.
      cbn [length] in *. lia. }
    destruct (record_prefix row i pid t path chunks k Hc Hst Ht Hfit) as (Hf & Hs & Hot). rewrite <- Htk in Hf, Hs, Hot.
    destruct (flows_run ci sid lab rid row (take k evs) (take k times) h) as (h' & Hr & _ & Hres);
      [by apply Forall_take|rewrite !length_take; lia|done|done|].
    exists h', (record_all row (take k evs)). rewrite zip_with_take, <- fmap_take. done.
Qed.

(** ** A closed instance: the cancelled run, on Alice's reservation. *)

Definition flow_hub : Hub :=
  mkHub (running_db <| servers := {[1 := sample_server <| Server.approved_at := Some 10 |>]} |>)
    (mkPool ∅ []) (mkRpcState ∅ []) no_kills (mkUserHub ∅ ∅ ∅ []).

Lemma flow_expects : expects 1 100 running_row flow_hub.
Proof.
  split; [|by eexists|by vm_compute]. apply db_ok_by_test. vm_compute. reflexivity.
Qed.

Lemma script_run_recorded_witness :
  ∃ r h' row', run cancelled_run fresh_runner = Some r ∧ sent_events 100 r = cancelled_events ∧
    receive_all id 1 1 (zip (frame_of <$> cancelled_events) [6; 7; 9]) flow_hub = (true, h') ∧
    reservations (hdb h') !! 100 = Some row' ∧ tail_of row' = u "hi" ∧
    Reservation.script_status row' = Some SCRIPT_KILLED ∧ Reservation.script_exit_code row' = Some (-15).
Proof.
  destruct (run cancelled_run fresh_runner) as [r|] eqn:Hr; [|by vm_compute in Hr].
  assert (He : sent_events 100 r = cancelled_events) by (vm_compute in Hr; by injection Hr as <-).
  assert (Hp : Forall (λ p, event_reservation p.1 = 100 → p.2 = true) (pushed r)).
  { vm_compute in Hr. injection Hr as <-. by repeat constructor. }
  assert (Hf : Forall report_fits cancelled_events) by by repeat constructor.
  pose proof (script_run_recorded id _ _ _ r 100 1 1 running_row flow_hub [6; 7; 9] Hr Hp) as H.
  cbv zeta in H. rewrite He in H.
  destruct (H eq_refl (ex_intro _ _ (conj eq_refl eq_refl)) eq_refl flow_expects eq_refl eq_refl ltac:(by vm_compute) Hf)
    as (code & t0 & t1 & size & path & killed & reason & Hl & Hk). clear H.
  destruct (Hk 3%nat (le_n 3)) as (h' & row' & Hrec & Hres & Ht & Hs & Hc & _).
  injection Hl as <- <- <- <- <- <- <-. exists r, h', row'.
  refine (conj eq_refl (conj He (conj Hrec (conj _ (conj Ht (conj Hs Hc)))))).
  rewrite Hres. apply lookup_insert_eq.
Defined.

(** A log of four gigabytes: its size has no room in the row, the report of a
    script that ended well is refused, and the row stays running. *)
Definition huge_report : event :=
  Finished 100 (Some 0) 5 8 (2 ^ 32) "/home/alice/.corelab/jobs/100.log" false None.

Example huge_log_unreported :
  (receive id 1 1 (frame_of huge_report) 9 flow_hub).1 = false ∧
  reservations (hdb (receive id 1 1 (frame_of huge_report) 9 flow_hub).2) !! 100 = Some running_row ∧
  Reservation.script_status running_row = Some SCRIPT_RUNNING.
Proof. by vm_compute. Qed.
