(* ===== verification/AgentWsProperties.v ===== *)
(** What the agents' websocket promises: who may connect, what an unapproved
    server can do, and which socket speaks for a server. *)

From S2P Require Import Prelude Models SessionLayer Samples AgentRpc.
From S2P Require Import AuditService ScriptLifecycleService AlertService ComplianceIngest SerializableRetry.
From S2P Require Import TelemetryService UserHub AgentWs.

(** Keys agree with the [id] columns, and [uq_enroll_token_hash]. *)
Definition servers_ok (d : Db) : Prop := ∀ k r, servers d !! k = Some r → Server.id r = k.

Record tokens_ok (d : Db) : Prop := {
  token_key k t : enrollment_tokens d !! k = Some t → EnrollmentToken.id t = k ;
  token_unique k k' t t' :
    enrollment_tokens d !! k = Some t → enrollment_tokens d !! k' = Some t' →
    EnrollmentToken.token_hash t = EnrollmentToken.token_hash t' → k = k' }.

(** ** Connecting *)

Lemma find_token_Some d hash lab t :
  find_token d hash lab = Some t →
  EnrollmentToken.token_hash t = hash ∧ EnrollmentToken.lab_id t = lab ∧
  ∃ k, enrollment_tokens d !! k = Some t.
Proof.
  unfold find_token. intros [l Hl]%head_Some.
  assert (Hin : t ∈ filter (λ t, EnrollmentToken.token_hash t = hash ∧ EnrollmentToken.lab_id t = lab)
                       (rows (enrollment_tokens d))) by (rewrite Hl; left).
  by apply list_elem_of_filter in Hin as [[? ?] ?%elem_of_rows].
Qed.

Lemma beaten_id srv at_ : Server.id (beaten srv at_) = Server.id srv.
Proof. unfold beaten. by destruct (approved _). Qed.

Lemma beaten_pending srv at_ :
  approved srv = false → beaten srv at_ = srv <| Server.last_heartbeat_at := Some at_ |>.
Proof.
  intros Ha. unfold beaten. cbv zeta.
  by replace (approved (srv <| Server.last_heartbeat_at := Some at_ |>)) with (approved srv);
    [rewrite Ha|].
Qed.

Lemma beaten_approved srv at_ :
  approved srv = true →
  beaten srv at_ = srv <| Server.last_heartbeat_at := Some at_ |> <| Server.status := "online"%string |>.
Proof.
  intros Ha. unfold beaten. cbv zeta.
  by replace (approved (srv <| Server.last_heartbeat_at := Some at_ |>)) with (approved srv);
    [rewrite Ha|].
Qed.

Section connecting.
Context (checkpw : string → string → bool) (hashpw hash_setup_token : string → string).

(** The audit entry of a connection. *)
Definition announces (e : AuditLog.t) (sid : Z) (srv : Server.t) : Prop :=
  AuditLog.action e = (if approved srv then "server.online"
                       else "server.phone_home_pending_approval")%string ∧
  AuditLog.lab_id e = Some (Server.lab_id srv) ∧ AuditLog.target_id e = Some sid ∧
  AuditLog.target_server_id e = Some sid.

(** The database once a server that was authenticated is announced. *)
Definition announced (d : Db) (sid : Z) (srv : Server.t) (at_ : Z) (e : AuditLog.t) : Db :=
  d <| servers := <[sid := beaten srv at_]> (servers d) |>
    <| audit_log := audit_log d ++ [e] |>.

Lemma announce_run sid srv s :
  clean s → servers (db s) !! sid = Some srv → Server.id srv = sid →
  ∃ e, announces e sid srv ∧
    announce sid (Server.lab_id srv) s =
      (Ok (approved srv), s <| db := announced (db s) sid srv (now s) e |>).
Proof using Type.
  intros Hc Hs Hid. unfold announce. pose proof (mark_heartbeat_run sid s Hc) as Hm.
  rewrite Hs, Hid in Hm. rewrite (bind_run _ _ _ _ _ Hm).
  set (s1 := s <| db := db s <| servers := _ |> |>).
  assert (Hc1 : clean s1) by exact Hc.
  rewrite (bind_run _ _ _ _ _ (write_run _ _ _ _ _ _ _ _ _ s1 Hc1)).
  eexists. split; [|reflexivity]. unfold announces. simpl. by destruct (approved srv).
Qed.

(** The row of a server that [token] authenticated. *)
Definition bound (srv : Server.t) (token : string) : Server.t :=
  match Server.agent_token_hash srv with
  | None => srv <| Server.agent_token_hash := Some (hashpw token) |>
  | Some _ => srv
  end.

Lemma authenticated_server d at_ sid token srv :
  credential_ok checkpw hash_setup_token d at_ sid token →
  servers d !! sid = Some srv → Server.id srv = sid →
  servers (authenticated hashpw hash_setup_token d at_ sid token srv) !! sid = Some (bound srv token).
Proof using Type.
  intros (srv' & Hs' & _ & Hcred) Hs Hid. rewrite Hs in Hs'. injection Hs' as <-.
  unfold authenticated, bound. destruct (Server.agent_token_hash srv); [done|].
  destruct Hcred as (t & -> & _). simpl. by rewrite Hid, lookup_insert_eq.
Qed.

Definition connected (ws sid : Z) (token : string) (srv : Server.t) (at_ : Z) (e : AuditLog.t)
    (h : Hub) : Hub :=
  h <| hpool := pool_register (hpool h) sid ws |>
    <| hdb := announced (authenticated hashpw hash_setup_token (hdb h) at_ sid token srv)
                sid (bound srv token) at_ e |>.

Lemma connect_run ws sid token at_ h :
  servers_ok (hdb h) →
  (¬ credential_ok checkpw hash_setup_token (hdb h) at_ sid token ∧
   connect checkpw hashpw hash_setup_token None ws sid token at_ h = (refused, h)) ∨
  (credential_ok checkpw hash_setup_token (hdb h) at_ sid token ∧
   ∃ srv e, servers (hdb h) !! sid = Some srv ∧ announces e sid srv ∧
     connect checkpw hashpw hash_setup_token None ws sid token at_ h =
       (accepted (Server.lab_id srv), connected ws sid token srv at_ e h)).
Proof using Type.
  intros Hok. unfold connect, check_in, announce_in.
  set (s := open_session (hdb h) at_ "" <| pending_kills := hkills h |>).
  destruct (authenticate_run checkpw hashpw hash_setup_token sid token s) as
    [(Hcred & srv & srv' & Hs & Hlab & Hrun)|(Hcred & Hrun)]; [done| |].
  - right. split; [done|]. pose proof (Hok _ _ Hs) as Hid.
    set (d1 := authenticated hashpw hash_setup_token (hdb h) at_ sid token srv) in *.
    assert (Hfirst : run_in (server ← authenticate_agent checkpw hashpw hash_setup_token sid token ;
                             mret (Server.lab_id server)) at_ h =
                     (Ok (Server.lab_id srv), h <| hdb := d1 |>)).
    { erewrite run_in_run; [|by rewrite (bind_run _ _ _ _ _ Hrun)|done]. by rewrite Hlab. }
    rewrite Hfirst.
    set (h1 := h <| hdb := d1 |> <| hpool := pool_register _ sid ws |>).
    destruct (announce_run sid (bound srv token)
      (open_session (hdb h1) at_ "" <| pending_kills := hkills h1 |>)) as (e & He & Hann).
    { done. } { by apply authenticated_server. }
    { unfold bound. by destruct (Server.agent_token_hash srv). }
    assert (Hblab : Server.lab_id (bound srv token) = Server.lab_id srv)
      by (unfold bound; by destruct (Server.agent_token_hash srv)).
    assert (Hbapp : approved (bound srv token) = approved srv)
      by (unfold bound; by destruct (Server.agent_token_hash srv)).
    rewrite Hblab in Hann. rewrite (run_in_run _ _ _ _ _ Hann) by done.
    exists srv, e. split_and!; [done| |done].
    unfold announces in *. by rewrite Hblab, Hbapp in He.
  - left. split; [done|]. rewrite (run_in_read _ _ _ (Raise AgentAuthError)); [done|].
    by rewrite (bind_run_raise _ _ _ _ _ Hrun).
Qed.

(** a connection is accepted exactly when the secret is good:
    the server exists and is active and either the bcrypt hash it is bound to
    matches, or, on a first connection, the secret is an enrolment of its lab,
    unexpired and not used by another server.  A refused connection changes
    nothing at all.  An accepted one registers the socket, kicks the previous
    one, binds the secret, records the heartbeat, puts an approved server
    online and writes one audit entry that says which of the two it was. *)
Theorem connect_spec ws sid token at_ h :
  servers_ok (hdb h) →
  (¬ credential_ok checkpw hash_setup_token (hdb h) at_ sid token ∧
   connect checkpw hashpw hash_setup_token None ws sid token at_ h = (refused, h)) ∨
  (credential_ok checkpw hash_setup_token (hdb h) at_ sid token ∧
   ∃ srv e, servers (hdb h) !! sid = Some srv ∧ announces e sid srv ∧
     connect checkpw hashpw hash_setup_token None ws sid token at_ h =
       (accepted (Server.lab_id srv), connected ws sid token srv at_ e h)).
Proof using Type. apply connect_run. Qed.

(** ** Enrolment *)

Lemma bound_hash srv token : ∃ hash, Server.agent_token_hash (bound srv token) = Some hash.
Proof using Type.
  unfold bound. destruct (Server.agent_token_hash srv) as [hash|] eqn:Hh; eexists; [exact Hh|done].
Qed.

(** the first connection with an enrolment secret binds it to
    the server.  From then on the server's agent authenticates with that
    secret at any time, past the enrolment's expiry too, and no other server
    can enrol with it. *)
Theorem enrolment_binds ws sid token at_ h lab h' srv :
  (∀ p, checkpw p (hashpw p) = true) →
  servers_ok (hdb h) → tokens_ok (hdb h) →
  servers (hdb h) !! sid = Some srv → Server.agent_token_hash srv = None →
  connect checkpw hashpw hash_setup_token None ws sid token at_ h = (accepted lab, h') →
  (∀ later, credential_ok checkpw hash_setup_token (hdb h') later sid token) ∧
  (∀ sid' srv' later, sid' ≠ sid → servers (hdb h') !! sid' = Some srv' →
     Server.agent_token_hash srv' = None →
     ¬ credential_ok checkpw hash_setup_token (hdb h') later sid' token).
Proof using Type.
  intros Hlaw Hsok [Htk Htu] Hsrv Hnone Hrun.
  destruct (connect_run ws sid token at_ h Hsok) as [[_ Hr]|(Hcred & srv0 & e & Hs & _ & Hr)];
    rewrite Hr in Hrun; [done|]. injection Hrun as _ <-. rewrite Hsrv in Hs. injection Hs as <-.
  destruct Hcred as (? & Hs & Hact & Hcred). rewrite Hsrv in Hs. injection Hs as <-.
  rewrite Hnone in Hcred. destruct Hcred as (t & Ht & _ & _).
  destruct (find_token_Some _ _ _ _ Ht) as (Hhash & Hlab & k & Hk).
  unfold connected, authenticated, bound. rewrite Hnone, Ht. simpl. split.
  - intros later. exists (beaten (srv <| Server.agent_token_hash := Some (hashpw token) |>) at_).
    unfold announced. simpl. rewrite lookup_insert_eq. unfold beaten.
    by destruct (approved _); split_and!; try done; simpl; apply Hlaw.
  - intros sid' srv' later Hne Hs' Hn (srv2 & Hs2 & _ & Hc2). pose proof (eq_trans (eq_sym Hs') Hs2) as [= <-].
    rewrite Hn in Hc2. destruct Hc2 as (t2 & Ht2 & Hused & _).
    destruct (find_token_Some _ _ _ _ Ht2) as (Hh2 & _ & k2 & Hk2). simpl in Hk2.
    assert (Hkt : EnrollmentToken.id t = k) by by eapply Htk.
    destruct (decide (k2 = k)) as [->|Hk2k].
    + rewrite Hkt, lookup_insert_eq in Hk2. injection Hk2 as <-. simpl in Hused.
      by destruct Hused as [?|[= ?]].
    + rewrite Hkt, lookup_insert_ne in Hk2 by done. destruct Hk2k.
      eapply Htu; [exact Hk2|exact Hk|congruence].
Qed.
End connecting.

(** ** Unapproved servers *)

(** until a lab admin approves it, a server's agent can
    only report that it is alive: a heartbeat stores its time and leaves the
    status alone, a frame that is not of the protocol ends the connection,
    and every other frame changes nothing. *)
Theorem pending_frames_ignored ci sid lab f at_ h srv :
  servers_ok (hdb h) → servers (hdb h) !! sid = Some srv → approved srv = false →
  receive ci sid lab f at_ h =
    match f with
    | frame_invalid | frame_unexpected => (false, h)
    | frame_heartbeat =>
        (true, h <| hdb := hdb h <| servers :=
           <[sid := srv <| Server.last_heartbeat_at := Some at_ |>]> (servers (hdb h)) |> |>)
    | _ => (true, h)
    end.
Proof.
  intros Hok Hs Ha. pose proof (Hok _ _ Hs) as Hid.
  assert (Hread : run_in (is_server_approved sid) at_ h = (Ok false, h)).
  { apply run_in_read. unfold is_server_approved, gets. simpl. by rewrite Hs, Ha. }
  unfold receive. rewrite Hread. destruct f; try done.
  set (s := open_session (hdb h) at_ "" <| pending_kills := hkills h |>).
  pose proof (mark_heartbeat_run sid s ltac:(done)) as Hm.
  replace (servers (db s) !! sid) with (Some srv) in Hm by done.
  rewrite (run_in_run _ _ _ _ _ Hm) by done. rewrite Ha, (beaten_pending _ _ Ha).
  by subst sid.
Qed.

(** ** The socket that speaks for a server *)

Lemma run_in_pool {A} (m : M A) now h : hpool (run_in m now h).2 = hpool h.
Proof. unfold run_in. destruct (m _) as [[a|e] s]; [|done]. by destruct (commit s) as [[] s']. Qed.

Lemma handle_frame_pool ci sid lab f now h : hpool (handle_frame ci sid lab f now h).2 = hpool h.
Proof.
  assert (Hsingle : ∀ A (m : M A), hpool (let '(r, h') := run_in m now h in (is_ok r, h')).2 = hpool h).
  { intros A m. pose proof (run_in_pool m now h) as Hp. by destruct (run_in m now h). }
  destruct f; simpl handle_frame; try apply Hsingle; try done.
  - pose proof (run_in_pool (handle_violation event lab) now h) as Hp.
    destruct (run_in _ now h) as [[v|e] h1]; simpl in *; [|done]. rewrite <- Hp.
    pose proof (run_in_pool (violation_alert event) now h1) as Hp1.
    by destruct (run_in _ now h1).
  - unfold _handle_gpu_telemetry. by destruct (upsert_telemetry_transaction _ _ _ _) as [[[]|[]] d].
Qed.

Lemma receive_pool ci sid lab f now h : hpool (receive ci sid lab f now h).2 = hpool h.
Proof.
  assert (Hgate : hpool (match run_in (is_server_approved sid) now h with
                         | (Ok true, h1) => handle_frame ci sid lab f now h1
                         | (Ok false, h1) => (true, h1)
                         | (Raise _, h1) => (false, h1)
                         end).2 = hpool h).
  { pose proof (run_in_pool (is_server_approved sid) now h) as Hp.
    destruct (run_in _ now h) as [[[]|e] h1]; simpl in *; [|done..]. by rewrite handle_frame_pool. }
  destruct f; simpl receive; try apply Hgate; try done.
  pose proof (run_in_pool (mark_heartbeat sid) now h) as Hp. clear Hgate.
  by destruct (run_in _ now h).
Qed.

(** How far the handler of a socket is: accepted; in [register], closing the
    socket that it found; past it, in phase 2; in the receive loop. *)
Inductive stage : Type :=
| CheckedIn
| Closing (existing : Z)
| Announcing
| Serving.

(** The process: the running handlers (server, lab and stage of each socket),
    every socket there ever was, and two histories: the sockets whose handler
    an exception ended between the registration and the loop, with their
    servers, and those whose entry was overwritten by a registration that had
    looked before they took it. *)
Record Net : Type := mkNet {
  hub : Hub ;
  handlers : gmap Z (Z * Z * stage) ;
  seen : gset Z ;
  torn_sockets : gmap Z Z ;
  overtaken : gset Z }.
#[export] Instance eta_Net : Eta Net := λ n,
  mkNet (hub n) (handlers n) (seen n) (torn_sockets n) (overtaken n).

Definition with_pool (p : AgentConnectionPool) (n : Net) : Net := n <| hub := hub n <| hpool := p |> |>.

Definition at_stage (ws sid lab : Z) (st : stage) (n : Net) : Net :=
  n <| handlers := <[ws := (sid, lab, st)]> (handlers n) |>.

Definition overtakes (existing : Z) (entry : option Z) : gset Z :=
  match entry with
  | Some x => if bool_decide (x = existing) then ∅ else {[x]}
  | None => ∅
  end.

Definition disconnected (n : Net) (ws sid lab now : Z) (h : Hub) : Net :=
  n <| hub := disconnect ws sid lab now h |> <| handlers := delete ws (handlers n) |>.

Section net.
Context (ci : string → string) (checkpw : string → string → bool) (hashpw hash_setup_token : string → string).

(** One step of the process as the handlers see it: what one of them does
    between two awaits, a socket that is found closed, or some other request
    that changes the database. *)
Inductive net_step : Net → Net → Prop :=
| step_refuse n sid token now e h' :
    check_in checkpw hashpw hash_setup_token sid token now (hub n) = (Raise e, h') →
    net_step n (n <| hub := h' |>)
| step_admit n ws sid token now lab h' :
    ws ∉ seen n →
    check_in checkpw hashpw hash_setup_token sid token now (hub n) = (Ok lab, h') →
    net_step n (at_stage ws sid lab CheckedIn (n <| hub := h' |> <| seen := {[ws]} ∪ seen n |>))
| step_register n ws sid lab :
    handlers n !! ws = Some (sid, lab, CheckedIn) → pool_get (hpool (hub n)) sid = None →
    net_step n (at_stage ws sid lab Announcing (with_pool (pool_register (hpool (hub n)) sid ws) n))
| step_kick n ws sid lab existing :
    handlers n !! ws = Some (sid, lab, CheckedIn) → pool_get (hpool (hub n)) sid = Some existing →
    net_step n (at_stage ws sid lab (Closing existing) (with_pool (pool_kick (hpool (hub n)) sid ws) n))
| step_put n ws sid lab existing :
    handlers n !! ws = Some (sid, lab, Closing existing) →
    net_step n (at_stage ws sid lab Announcing (with_pool (pool_put (hpool (hub n)) sid ws) n)
                  <| overtaken := overtakes existing (pool_get (hpool (hub n)) sid) ∪ overtaken n |>)
| step_announce n ws sid lab fault now b h' :
    handlers n !! ws = Some (sid, lab, Announcing) →
    announce_in fault sid lab now (hub n) = (Ok b, h') →
    net_step n (at_stage ws sid lab Serving (n <| hub := h' |>))
| step_torn n ws sid lab fault now e h' :
    handlers n !! ws = Some (sid, lab, Announcing) →
    announce_in fault sid lab now (hub n) = (Raise e, h') →
    net_step n (n <| hub := h' |> <| handlers := delete ws (handlers n) |>
                  <| torn_sockets := <[ws := sid]> (torn_sockets n) |>)
| step_receive n ws sid lab f now h' :
    handlers n !! ws = Some (sid, lab, Serving) →
    receive ci sid lab f now (hub n) = (true, h') →
    net_step n (n <| hub := h' |>)
| step_leave n ws sid lab f now now' h' :
    handlers n !! ws = Some (sid, lab, Serving) →
    receive ci sid lab f now (hub n) = (false, h') →
    net_step n (disconnected n ws sid lab now' h')
| step_drop n ws sid lab now :
    handlers n !! ws = Some (sid, lab, Serving) →
    net_step n (disconnected n ws sid lab now (hub n))
| step_other n h' :
    hpool h' = hpool (hub n) → net_step n (n <| hub := h' |>).

(** The handler has put its socket in the pool and runs. *)
Definition registered (n : Net) (sid ws : Z) : Prop :=
  ∃ lab st, handlers n !! ws = Some (sid, lab, st) ∧ (st = Announcing ∨ st = Serving).

(** Some registration has closed the socket and is about to replace it. *)
Definition replacing (n : Net) (sid ws : Z) : Prop :=
  ∃ ws' lab, handlers n !! ws' = Some (sid, lab, Closing ws).

Abbreviation entry n sid := (_connections (hpool (hub n)) !! sid).

Record net_ok (n : Net) : Prop := {
  ok_entry sid ws : entry n sid = Some ws → registered n sid ws ∨ torn_sockets n !! ws = Some sid ;
  ok_closed sid ws : entry n sid = Some ws → ws ∈ closed (hpool (hub n)) → replacing n sid ws ;
  ok_overtaken sid ws : entry n sid = Some ws → ws ∉ overtaken n ;
  ok_registered sid ws :
    registered n sid ws → ws ∉ closed (hpool (hub n)) → ws ∉ overtaken n → entry n sid = Some ws ;
  ok_torn ws : is_Some (torn_sockets n !! ws) → handlers n !! ws = None ;
  ok_new ws sid lab st : handlers n !! ws = Some (sid, lab, st) → (st = CheckedIn ∨ ∃ x, st = Closing x) →
    ws ∉ closed (hpool (hub n)) ∧ ws ∉ overtaken n ;
  ok_closing ws sid lab x : handlers n !! ws = Some (sid, lab, Closing x) → x ∈ closed (hpool (hub n)) ;
  ok_seen ws :
    ws ∈ closed (hpool (hub n)) ∨ ws ∈ overtaken n ∨ is_Some (handlers n !! ws) ∨
    is_Some (torn_sockets n !! ws) → ws ∈ seen n }.

Lemma entry_server n sid sid' ws :
  net_ok n → entry n sid = Some ws → entry n sid' = Some ws → sid = sid'.
Proof using Type.
  intros Hok H H'.
  destruct (ok_entry _ Hok _ _ H) as [(l & st & Hl & _)|Ht], (ok_entry _ Hok _ _ H') as [(l' & st' & Hl' & _)|Ht'].
  - congruence.
  - rewrite (ok_torn _ Hok ws) in Hl by by eexists. done.
  - rewrite (ok_torn _ Hok ws) in Hl' by by eexists. done.
  - congruence.
Qed.

(** A new socket is not in the pool. *)
Lemma entry_new n ws sid lab st :
  net_ok n → handlers n !! ws = Some (sid, lab, st) → (st = CheckedIn ∨ ∃ x, st = Closing x) →
  ∀ sid', entry n sid' ≠ Some ws.
Proof using Type.
  intros Hok Hws Hst sid' H. destruct (ok_entry _ Hok _ _ H) as [(l & st' & Hl & Hs)|Ht].
  - rewrite Hws in Hl. destruct Hst as [-> | [x ->]], Hs; congruence.
  - rewrite (ok_torn _ Hok ws) in Hws by by eexists. done.
Qed.

Lemma registered_at ws sid lab st n sid' ws' :
  registered (at_stage ws sid lab st n) sid' ws' ↔
  (ws' = ws ∧ sid' = sid ∧ (st = Announcing ∨ st = Serving)) ∨ (ws' ≠ ws ∧ registered n sid' ws').
Proof using Type.
  unfold registered, at_stage. cbn. destruct (decide (ws' = ws)) as [->|Hw].
  - rewrite lookup_insert_eq. naive_solver.
  - rewrite lookup_insert_ne by done. naive_solver.
Qed.

Lemma replacing_at ws sid lab st st0 n sid' x :
  handlers n !! ws = Some (sid, lab, st0) → st0 ≠ Closing x →
  replacing n sid' x → replacing (at_stage ws sid lab st n) sid' x.
Proof using Type.
  intros Hws Hst (w & l & Hw). exists w, l. cbn. rewrite lookup_insert_ne; [done|]. intros ->. congruence.
Qed.

Lemma closed_kick n ws sid existing :
  entry n sid = Some existing → existing ≠ ws →
  pool_kick (hpool (hub n)) sid ws =
    mkPool (_connections (hpool (hub n))) (closed (hpool (hub n)) ++ [existing]).
Proof using Type. intros H Hne. unfold pool_kick. rewrite H. by rewrite bool_decide_eq_false_2. Qed.

(** A handler goes on without touching the pool. *)
Lemma net_ok_at n ws sid lab st st' :
  net_ok n → handlers n !! ws = Some (sid, lab, st) →
  (st = Announcing ∨ st = Serving) → (st' = Announcing ∨ st' = Serving) →
  net_ok (at_stage ws sid lab st' n).
Proof using Type.
  intros Hok Hws Hst Hst'.
  assert (Hr : ∀ sid' ws', registered (at_stage ws sid lab st' n) sid' ws' ↔ registered n sid' ws').
  { intros sid' ws'. rewrite registered_at. split; [|intros H].
    - intros [(-> & -> & _)|[_ ?]]; [|done]. by exists lab, st.
    - destruct (decide (ws' = ws)) as [->|]; [left|by right].
      destruct H as (l & st1 & Hl & _). rewrite Hws in Hl. by injection Hl as -> -> ->. }
  destruct Hok as [H1 H2 H3 H4 H5 H6 H8 H7]. split.
  - intros sid' ws' H. rewrite Hr. by apply H1.
  - intros sid' ws' H Hc. eapply replacing_at; [exact Hws|by destruct Hst as [-> | ->]|]. by apply H2.
  - done.
  - intros sid' ws' H. apply Hr in H. by apply H4.
  - intros ws' H. cbn. rewrite lookup_insert_ne; [by apply H5|]. intros <-. apply H5 in H. congruence.
  - intros ws' sid' lab' st1. cbn. intros [[<- [= <- <- <-]]|[Hne H]]%lookup_insert_Some Hs; [|by eapply H6].
    destruct Hst' as [-> | ->], Hs as [?|[? ?]]; done.
  - intros ws' sid' lab' x. cbn. intros [[<- [= <- <- ->]]|[Hne H]]%lookup_insert_Some; [|by eapply H8].
    by destruct Hst'.
  - intros ws' H. apply H7. cbn in H. rewrite lookup_insert_is_Some' in H.
    destruct H as [?|[?|[[<-|?]|?]]]; auto.
Qed.

Lemma net_ok_hub n h : net_ok n → hpool h = hpool (hub n) → net_ok (n <| hub := h |>).
Proof using Type. intros [] Hp. by split; cbn; rewrite ?Hp. Qed.
Lemma net_ok_check_in n ws sid lab :
  net_ok n → ws ∉ seen n → net_ok (at_stage ws sid lab CheckedIn (n <| seen := {[ws]} ∪ seen n |>)).
Proof using Type.
  intros [H1 H2 H3 H4 H5 H6 H8 H7] Hws. assert (Hnone : handlers n !! ws = None).
  { apply eq_None_not_Some. intros H. apply Hws, H7. auto. }
  split; cbn.
  - intros sid' ws' H. destruct (H1 _ _ H) as [Hr|]; [left|by right]. apply registered_at. right. split; [|done].
    intros ->. destruct Hr as (l & st & Hl & _). congruence.
  - intros sid' ws' H Hc. destruct (H2 _ _ H Hc) as (w & l & Hw). exists w, l. cbn.
    rewrite lookup_insert_ne by congruence. done.
  - done.
  - intros sid' ws' H. apply registered_at in H as [(_ & _ & [?|?])|[_ H]]; [done..|]. by apply H4.
  - intros ws' H. rewrite lookup_insert_ne; [by apply H5|]. intros <-. apply Hws, H7. auto.
  - intros ws' sid' lab' st'. intros [[<- _]|[Hne H]]%lookup_insert_Some Hs; [|by eapply H6].
    split; intros H; apply Hws, H7; auto.
  - intros ws' sid' lab' x [[_ [=]]|[_ H]]%lookup_insert_Some. by eapply H8.
  - intros ws' H. rewrite lookup_insert_is_Some' in H. destruct (decide (ws' = ws)) as [->|Hne]; [set_solver|].
    apply elem_of_union_r, H7. destruct H as [?|[?|[[?|?]|?]]]; auto. done.
Qed.

Lemma net_ok_kick n ws sid lab existing :
  net_ok n → handlers n !! ws = Some (sid, lab, CheckedIn) → entry n sid = Some existing →
  net_ok (at_stage ws sid lab (Closing existing) (with_pool (pool_kick (hpool (hub n)) sid ws) n)).
Proof using Type.
  intros Hok Hws He.
  assert (Hne : existing ≠ ws) by (intros ->; by eapply (entry_new _ _ _ _ _ Hok Hws); eauto).
  rewrite (closed_kick _ _ _ _ He Hne). pose proof Hok as [H1 H2 H3 H4 H5 H6 H8 H7].
  assert (Hnr : ∀ sid', ¬ registered n sid' ws).
  { intros sid' (l & st & Hl & [-> | ->]); congruence. }
  split; cbn.
  - intros sid' ws' H. destruct (H1 _ _ H) as [Hr|]; [left|by right]. apply registered_at. right. split; [|done].
    intros ->. by eapply Hnr.
  - intros sid' ws' H Hc. apply elem_of_app in Hc as [Hc| ->%list_elem_of_singleton].
    + eapply (replacing_at _ _ _ _ CheckedIn); [exact Hws|done|]. by apply H2.
    + rewrite (entry_server _ _ _ _ Hok H He). exists ws, lab. apply lookup_insert_eq.
  - done.
  - intros sid' ws' H. apply registered_at in H as [(_ & _ & [?|?])|[_ H]]; [done..|].
    intros Hc Ho. apply H4; [done| |done]. set_solver.
  - intros ws' H. rewrite lookup_insert_ne; [by apply H5|]. intros <-. apply H5 in H. congruence.
  - intros ws' sid' lab' st'. intros [[<- _]|[Hne' H]]%lookup_insert_Some Hs.
    + destruct (H6 _ _ _ _ Hws) as [Hc Ho]; [by left|]. split; [set_solver|done].
    + destruct (H6 _ _ _ _ H Hs) as [Hc Ho]. split; [|done].
      intros [?| ->%list_elem_of_singleton]%elem_of_app; [done|]. by eapply (entry_new _ _ _ _ _ Hok H Hs).
  - intros ws' sid' lab' x [[_ [= _ _ <-]]|[_ H]]%lookup_insert_Some; apply elem_of_app.
    + right. by apply list_elem_of_singleton.
    + left. by eapply H8.
  - intros ws' H. rewrite lookup_insert_is_Some' in H.
    destruct H as [[Hc| ->%list_elem_of_singleton]%elem_of_app|[?|[[<-|?]|?]]]; auto.
    + destruct (H1 _ _ He) as [(l & st & Hl & _)|Ht]; apply H7; eauto.
Qed.

(** The entry of the server is now this socket. *)
Lemma net_ok_put n ws sid lab st (gone : gset Z) :
  net_ok n → handlers n !! ws = Some (sid, lab, st) → (st = CheckedIn ∨ ∃ x, st = Closing x) →
  (∀ x, x ∈ gone → entry n sid = Some x) →
  (∀ x, entry n sid = Some x → x ∈ gone ∨ x ∈ closed (hpool (hub n))) →
  net_ok (at_stage ws sid lab Announcing (with_pool (pool_put (hpool (hub n)) sid ws) n)
            <| overtaken := gone ∪ overtaken n |>).
Proof using Type.
  intros Hok Hws Hst Hgone Hleft. pose proof Hok as [H1 H2 H3 H4 H5 H6 H8 H7].
  destruct (H6 _ _ _ _ Hws Hst) as [Hnc Hno]. pose proof (entry_new _ _ _ _ _ Hok Hws Hst) as Hnew.
  assert (Hnr : ∀ sid', ¬ registered n sid' ws).
  { intros sid' (l & st' & Hl & Hs). rewrite Hws in Hl. destruct Hst as [-> | [x ->]], Hs; congruence. }
  split; cbn.
  - intros sid' ws' [[<- <-]|[Hs H]]%lookup_insert_Some.
    + left. apply registered_at. left. auto.
    + destruct (H1 _ _ H) as [Hr|]; [left|by right]. apply registered_at. right. split; [|done].
      intros ->. by eapply Hnr.
  - intros sid' ws' [[<- <-]|[Hs H]]%lookup_insert_Some Hc; [done|].
    destruct (H2 _ _ H Hc) as (w & l & Hw). exists w, l. cbn. rewrite lookup_insert_ne; [done|]. congruence.
  - intros sid' ws' [[<- <-]|[Hs H]]%lookup_insert_Some.
    + intros [Hg|?]%elem_of_union; [|done]. by apply Hgone, Hnew in Hg.
    + intros [Hg|?]%elem_of_union; [|by eapply H3]. apply Hgone in Hg. by apply Hs, (entry_server _ _ _ _ Hok Hg H).
  - intros sid' ws' H Hc Ho. apply registered_at in H as [(-> & -> & _)|[Hw H]]; [apply lookup_insert_eq|].
    assert (He : entry n sid' = Some ws') by (apply H4; set_solver).
    rewrite lookup_insert_ne; [done|]. intros <-. destruct (Hleft _ He); set_solver.
  - intros ws' H. rewrite lookup_insert_ne; [by apply H5|]. intros <-. apply H5 in H. congruence.
  - intros ws' sid' lab' st'. intros [[<- [= <- <- <-]]|[Hne' H]]%lookup_insert_Some Hs.
    + destruct Hs as [?|[? ?]]; done.
    + destruct (H6 _ _ _ _ H Hs) as [Hc Ho]. split; [done|].
      intros [Hg|?]%elem_of_union; [|done]. apply Hgone in Hg. by eapply (entry_new _ _ _ _ _ Hok H Hs).
  - intros ws' sid' lab' x [[_ [=]]|[_ H]]%lookup_insert_Some. by eapply H8.
  - intros ws' H. rewrite lookup_insert_is_Some' in H. destruct H as [?|[Ho|[[<-|?]|?]]]; auto.
    + apply elem_of_union in Ho as [Hg|?]; [|auto]. apply Hgone in Hg.
      destruct (H1 _ _ Hg) as [(l & st' & Hl & _)|Ht]; apply H7; eauto.
Qed.

Lemma net_ok_torn n ws sid lab :
  net_ok n → handlers n !! ws = Some (sid, lab, Announcing) →
  net_ok (n <| handlers := delete ws (handlers n) |> <| torn_sockets := <[ws := sid]> (torn_sockets n) |>).
Proof using Type.
  intros Hok Hws. pose proof Hok as [H1 H2 H3 H4 H5 H6 H8 H7]. split; cbn.
  - intros sid' ws' H. destruct (decide (ws' = ws)) as [->|Hne].
    + right. rewrite lookup_insert_eq. f_equal. destruct (H1 _ _ H) as [(l & st & Hl & _)|Ht]; [congruence|].
      rewrite (H5 ws) in Hws by by eexists. done.
    + destruct (H1 _ _ H) as [(l & st & Hl & Hs)|Ht]; [left|right; by rewrite lookup_insert_ne].
      exists l, st. cbn. by rewrite lookup_delete_ne.
  - intros sid' ws' H Hc. destruct (H2 _ _ H Hc) as (w & l & Hw). exists w, l. cbn.
    rewrite lookup_delete_ne; [done|]. congruence.
  - done.
  - intros sid' ws' (l & st & Hl & Hs). cbn in Hl. apply lookup_delete_Some in Hl as [Hne Hl]. apply H4. by exists l, st.
  - intros ws' H. apply lookup_insert_is_Some in H as [<-|[_ H]]; [apply lookup_delete_eq|].
    apply lookup_delete_None. right. by apply H5.
  - intros ws' sid' lab' st [_ H]%lookup_delete_Some. by eapply H6.
  - intros ws' sid' lab' x [_ H]%lookup_delete_Some. by eapply H8.
  - intros ws' H. apply H7. rewrite lookup_delete_is_Some, lookup_insert_is_Some' in H.
    destruct H as [?|[?|[[_ ?]|[<-|?]]]]; auto.
Qed.

Lemma net_ok_disconnected n ws sid lab now h :
  net_ok n → handlers n !! ws = Some (sid, lab, Serving) → hpool h = hpool (hub n) →
  net_ok (disconnected n ws sid lab now h).
Proof using Type.
  intros Hok Hws Hp. unfold disconnected, disconnect. set (h1 := (run_in _ now _).2).
  assert (H0 : hpool h1 = pool_unregister (hpool (hub n)) sid ws).
  { unfold h1. rewrite run_in_pool. simpl. by rewrite Hp. }
  clearbody h1. pose proof Hok as [H1 H2 H3 H4 H5 H6 H8 H7].
  assert (Hconn : ∀ sid' x, _connections (hpool h1) !! sid' = Some x ↔ entry n sid' = Some x ∧ x ≠ ws).
  { intros sid' x. rewrite H0. unfold pool_unregister. case_bool_decide as Hc; cbn.
    - rewrite lookup_delete_Some. split.
      + intros [Hs H]. split; [done|]. intros ->. by apply Hs, (entry_server _ _ _ _ Hok Hc H).
      + intros [H Hx]. split; [|done]. intros <-. congruence.
    - split; [|tauto]. intros Hx. split; [done|]. intros ->. destruct (H1 _ _ Hx) as [(l & st & Hl & _)|Ht].
      + congruence.
      + rewrite (H5 ws) in Hws by by eexists. done. }
  assert (Hcl : closed (hpool h1) = closed (hpool (hub n))).
  { rewrite H0. unfold pool_unregister. by case_bool_decide. }
  split; cbn; rewrite ?Hcl.
  - intros sid' ws' [H Hne]%Hconn. destruct (H1 _ _ H) as [(l & st & Hl & Hs)|]; [left|by right].
    exists l, st. cbn. by rewrite lookup_delete_ne.
  - intros sid' ws' [H Hne]%Hconn Hc. destruct (H2 _ _ H Hc) as (w & l & Hw). exists w, l. cbn.
    rewrite lookup_delete_ne; [done|]. congruence.
  - intros sid' ws' [H Hne]%Hconn. by eapply H3.
  - intros sid' ws' (l & st & Hl & Hs) Hc Ho. cbn in Hl. apply lookup_delete_Some in Hl as [Hne Hl]. apply Hconn. split; [|done].
    apply H4; [by exists l, st|done|done].
  - intros ws' H. apply lookup_delete_None. right. by apply H5.
  - intros ws' sid' lab' st [_ H]%lookup_delete_Some. by eapply H6.
  - intros ws' sid' lab' x [_ H]%lookup_delete_Some. by eapply H8.
  - intros ws' H. apply H7. rewrite lookup_delete_is_Some in H. destruct H as [?|[?|[[_ ?]|?]]]; auto.
Qed.

Lemma check_in_pool sid token now h : hpool (check_in checkpw hashpw hash_setup_token sid token now h).2 = hpool h.
Proof using Type. apply run_in_pool. Qed.

Lemma announce_pool fault sid lab now h : hpool (announce_in fault sid lab now h).2 = hpool h.
Proof using Type. destruct fault; [done|]. apply run_in_pool. Qed.

Lemma net_step_ok n n' : net_step n n' → net_ok n → net_ok n'.
Proof using Type.
  intros Hs Hok.
  destruct Hs as [n sid token now e h' Ha|n ws sid token now lab h' Hnew Ha|n ws sid lab Hws He
    |n ws sid lab x Hws He|n ws sid lab x Hws|n ws sid lab fault now b h' Hws Ha
    |n ws sid lab fault now e h' Hws Ha|n ws sid lab f now h' Hws Hr|n ws sid lab f now now' h' Hws Hr
    |n ws sid lab now Hws|n h' Hp].
  - apply net_ok_hub; [done|]. pose proof (check_in_pool sid token now (hub n)) as Hp. by rewrite Ha in Hp.
  - pose proof (check_in_pool sid token now (hub n)) as Hp. rewrite Ha in Hp.
    exact (net_ok_check_in (n <| hub := h' |>) ws sid lab (net_ok_hub _ _ Hok Hp) Hnew).
  - pose proof (net_ok_put n ws sid lab CheckedIn ∅ Hok Hws (or_introl eq_refl) ltac:(set_solver)) as H.
    rewrite (left_id_L ∅ (∪)) in H. unfold pool_register, pool_kick. unfold pool_get in He. rewrite He.
    apply H. intros x Hx. congruence.
  - by apply net_ok_kick.
  - apply (net_ok_put n ws sid lab (Closing x)); [done|done|by eauto|..]; unfold overtakes, pool_get.
    + intros y. destruct (entry n sid) as [z|]; [|set_solver]. case_bool_decide; set_solver.
    + intros y ->. case_bool_decide as Hy; [|set_solver]. subst y. right. by eapply ok_closing.
  - pose proof (announce_pool fault sid lab now (hub n)) as Hp. rewrite Ha in Hp.
    apply (net_ok_at (n <| hub := h' |>) ws sid lab Announcing); auto. by apply net_ok_hub.
  - pose proof (announce_pool fault sid lab now (hub n)) as Hp. rewrite Ha in Hp.
    exact (net_ok_torn (n <| hub := h' |>) ws sid lab (net_ok_hub _ _ Hok Hp) Hws).
  - apply net_ok_hub; [done|]. pose proof (receive_pool ci sid lab f now (hub n)) as Hp. by rewrite Hr in Hp.
  - apply net_ok_disconnected; [done..|]. pose proof (receive_pool ci sid lab f now (hub n)) as Hp. by rewrite Hr in Hp.
  - by apply net_ok_disconnected.
  - by apply net_ok_hub.
Qed.

Definition no_sockets (h : Hub) : Net := mkNet h ∅ ∅ ∅ ∅.

Lemma reached_ok d k rpc browsers n :
  rtc net_step (no_sockets (mkHub d (mkPool ∅ []) rpc k browsers)) n → net_ok n.
Proof using Type.
  intros Hrun. assert (H0 : net_ok (no_sockets (mkHub d (mkPool ∅ []) rpc k browsers))).
  { split; cbn; try done.
    - intros sid ws (l & st & Hl & _). done.
    - intros ws [?|[?|[[? ?]|[? ?]]]]; [set_solver|set_solver|done|done]. }
  revert H0. induction Hrun; [done|]. eauto using net_step_ok.
Qed.

(** C36: Which socket speaks for a server, however sockets connect, are
    kicked, read, fail and drop, and however their registrations interleave
    with each other's closing of the previous socket.  The pool's entry is the
    socket of a running handler of that server -- or of one that an exception
    ended before its loop, which nothing takes out; if it was closed, a
    registration that closed it is about to put its own there.  And a running
    handler that registered its socket, which was not closed and whose entry
    no overlapping registration overwrote, has the entry: two such handlers of
    one server are the same. *)
Theorem one_socket_per_server d k rpc browsers n sid ws :
  rtc net_step (no_sockets (mkHub d (mkPool ∅ []) rpc k browsers)) n →
  (pool_get (hpool (hub n)) sid = Some ws →
     (registered n sid ws ∨ torn_sockets n !! ws = Some sid) ∧ ws ∉ overtaken n ∧
     (ws ∈ closed (hpool (hub n)) → replacing n sid ws)) ∧
  (registered n sid ws → ws ∉ closed (hpool (hub n)) → ws ∉ overtaken n →
     pool_get (hpool (hub n)) sid = Some ws ∧
     ∀ ws', registered n sid ws' → ws' ∉ closed (hpool (hub n)) → ws' ∉ overtaken n → ws' = ws).
Proof using Type.
  intros Hok%reached_ok. unfold pool_get. split.
  - intros H. split; [by apply ok_entry|]. split; [by eapply ok_overtaken|by apply ok_closed].
  - intros H Hc Ho. split; [by apply ok_registered|]. intros ws' H' Hc' Ho'.
    pose proof (ok_registered _ Hok _ _ H Hc Ho). pose proof (ok_registered _ Hok _ _ H' Hc' Ho'). congruence.
Qed.

(** A connection that nothing interrupts. *)
Lemma connect_steps n ws sid token now lab h' :
  net_ok n → ws ∉ seen n →
  connect checkpw hashpw hash_setup_token None ws sid token now (hub n) = (accepted lab, h') →
  rtc net_step n (at_stage ws sid lab Serving n <| hub := h' |> <| seen := {[ws]} ∪ seen n |>).
Proof using Type.
  intros Hok Hnew. unfold connect. destruct (check_in _ _ _ _ _ _ _) as [[lab'|e] h1] eqn:Ha; [|done].
  set (h2 := h1 <| hpool := _ |>). destruct (announce_in None sid lab' now h2) as [[b|e] h3] eqn:Hann; [|done].
  intros [= -> ->]. pose proof (step_admit n ws sid token now lab h1 Hnew Ha) as S1.
  set (n1 := at_stage _ _ _ _ _) in S1. eapply rtc_l; [exact S1|].
  pose proof (net_step_ok _ _ S1 Hok) as Hok1.
  assert (Hat : ∀ st, handlers (at_stage ws sid lab st n) !! ws = Some (sid, lab, st)) by (intros; apply lookup_insert_eq).
  assert (Hlast : ∀ n2, hub n2 = h2 → handlers n2 = handlers (at_stage ws sid lab Announcing n) →
                  seen n2 = {[ws]} ∪ seen n → torn_sockets n2 = torn_sockets n → overtaken n2 = overtaken n →
                  net_step n2 (at_stage ws sid lab Serving n <| hub := h' |> <| seen := {[ws]} ∪ seen n |>)).
  { intros n2 E1 E2 E3 E4 E5.
    pose proof (step_announce n2 ws sid lab None now b h') as S3. rewrite E1, E2 in S3.
    specialize (S3 (Hat _) Hann). destruct n2. cbn in *. subst.
    unfold at_stage in S3. cbn in S3. by rewrite insert_insert_eq in S3. }
  destruct (pool_get (hpool h1) sid) as [old|] eqn:Hp.
  - pose proof (step_kick n1 ws sid lab old (Hat _) Hp) as S2. set (n2 := at_stage _ _ _ _ _) in S2.
    eapply rtc_l; [exact S2|].
    eapply rtc_l; [apply (step_put n2 ws sid lab old); apply lookup_insert_eq|]. apply rtc_once, Hlast; try done.
    + cbn. by rewrite !insert_insert_eq.
    + cbn. unfold pool_get, pool_kick. unfold pool_get in Hp. rewrite Hp.
      assert (Hne : bool_decide (old = ws) = false).
      { apply bool_decide_eq_false_2. intros ->.
        by eapply (entry_new n1 ws sid lab CheckedIn Hok1 (Hat _)); [left|exact Hp]. }
      rewrite Hne. cbn. rewrite Hp. unfold overtakes. rewrite bool_decide_eq_true_2 by done. by rewrite (left_id_L ∅ (∪)).
  - eapply rtc_l; [apply (step_register n1 ws sid lab); [apply lookup_insert_eq|exact Hp]|]. apply rtc_once, Hlast; try done.
    cbn. by rewrite insert_insert_eq.
Qed.
End net.

(** ** A late clean-up *)

Lemma disconnect_run ws sid lab now h srv :
  servers_ok (hdb h) → servers (hdb h) !! sid = Some srv →
  hpool (disconnect ws sid lab now h) = pool_unregister (hpool h) sid ws ∧
  servers (hdb (disconnect ws sid lab now h)) =
    (if is_some (Server.approved_at srv) && bool_decide (Server.status srv = "online"%string)
     then <[sid := srv <| Server.status := "offline"%string |>]> (servers (hdb h))
     else servers (hdb h)).
Proof.
  intros Hok Hs. pose proof (Hok _ _ Hs) as Hid. unfold disconnect.
  set (h1 := h <| hpool := _ |>). split; [by rewrite run_in_pool|].
  destruct (mark_offline_run sid lab (open_session (hdb h1) now "" <| pending_kills := hkills h1 |>)
              ltac:(done)) as (s' & Hrun & Hcl & _ & Hdb).
  rewrite (run_in_run _ _ _ _ _ Hrun) by done. simpl.
  replace (servers (db _) !! sid) with (Some srv) in Hdb by done.
  destruct (is_some (Server.approved_at srv) && _).
  - destruct Hdb as (e & _ & _ & ->). simpl. by subst sid.
  - by rewrite Hdb.
Qed.

(** when an approved server reconnects, the
    handler of the socket that was kicked still runs its clean-up.  It leaves
    the new socket in the pool but writes "offline" on the server, which is
    then offline for every reader of the table although its agent is connected,
    until the next heartbeat puts it back. *)
Theorem stale_disconnect_marks_offline ci ws old sid lab now later h srv :
  servers_ok (hdb h) → servers (hdb h) !! sid = Some srv →
  approved srv = true → Server.status srv = "online"%string →
  pool_get (hpool h) sid = Some ws → old ≠ ws →
  let h' := disconnect old sid lab now h in
  is_online (hpool h') sid = true ∧ pool_get (hpool h') sid = Some ws ∧
  Server.status <$> servers (hdb h') !! sid = Some "offline"%string ∧
  Server.status <$> servers (hdb (receive ci sid lab frame_heartbeat later h').2) !! sid =
    Some "online"%string.
Proof.
  intros Hok Hs Ha Hst Hp Hne h'. destruct (disconnect_run old sid lab now h srv Hok Hs) as [H1 H2].
  pose proof (Hok _ _ Hs) as Hid. fold h' in H1, H2. clearbody h'. unfold is_online, pool_get in *.
  assert (Hp' : pool_unregister (hpool h) sid old = hpool h).
  { unfold pool_unregister. rewrite bool_decide_eq_false_2; [done|congruence]. }
  assert (Hap : is_some (Server.approved_at srv) = true)
    by (unfold approved in Ha; by apply andb_true_iff in Ha as [? _]).
  rewrite Hap, bool_decide_eq_true_2 in H2 by done. simpl in H2.
  rewrite H1, Hp', Hp. split_and!; [done..|by rewrite H2, lookup_insert_eq|].
  set (s := open_session (hdb h') later "" <| pending_kills := hkills h' |>).
  pose proof (mark_heartbeat_run sid s ltac:(done)) as Hm.
  replace (servers (db s) !! sid) with (Some (srv <| Server.status := "offline"%string |>)) in Hm
    by (change (db s) with (hdb h'); by rewrite H2, lookup_insert_eq).
  simpl. rewrite (run_in_run _ _ _ _ _ Hm) by done. simpl. rewrite Hid, lookup_insert_eq.
  rewrite beaten_approved by exact Ha. done.
Qed.

(** ** Witnesses *)

(** A server that never connected, and an enrolment secret of its lab. *)
Definition enrol_hub : Hub :=
  mkHub (sample_db [] <| enrollment_tokens := {[3 := EnrollmentToken.mk 3 1 "secret-1" 100 None None None 10]} |>)
    (mkPool ∅ []) (mkRpcState ∅ []) no_kills (mkUserHub ∅ ∅ ∅ []).

Lemma enrol_servers_ok : servers_ok (hdb enrol_hub).
Proof. intros k r Hk. by apply (lookup_only _ _ _ _ _ eq_refl) in Hk as [-> ->]. Qed.

Lemma enrol_tokens_ok : tokens_ok (hdb enrol_hub).
Proof.
  split.
  - intros k t Hk. by apply (lookup_only _ _ _ _ _ eq_refl) in Hk as [-> ->].
  - intros k k' t t' Hk Hk' _. apply (lookup_only _ _ _ _ _ eq_refl) in Hk as [-> _].
    by apply (lookup_only _ _ _ _ _ eq_refl) in Hk' as [-> _].
Qed.

Definition enrol (ws : Z) (h : Hub) : connection * Hub :=
  connect open_check open_hash open_hash None ws 1 "secret-1" 50 h.

Example enrol_accepted : (enrol 40 enrol_hub).1 = accepted 1.
Proof. vm_compute. reflexivity. Qed.

Lemma connect_spec_witness :
  credential_ok open_check open_hash (hdb enrol_hub) 50 1 "secret-1" ∧
  ∃ srv e, servers (hdb enrol_hub) !! 1 = Some srv ∧ announces e 1 srv ∧
     connect open_check open_hash open_hash None 40 1 "secret-1" 50 enrol_hub =
       (accepted (Server.lab_id srv), connected open_hash open_hash 40 1 "secret-1" srv 50 e enrol_hub).
Proof.
  destruct (connect_spec open_check open_hash open_hash 40 1 "secret-1" 50 enrol_hub enrol_servers_ok)
    as [[_ Hc]|H]; [|exact H].
  exfalso. pose proof enrol_accepted as Ha. unfold enrol in Ha. rewrite Hc in Ha. discriminate.
Defined.

Lemma enrolment_binds_witness :
  ∃ h', connect open_check open_hash open_hash None 40 1 "secret-1" 50 enrol_hub = (accepted 1, h') ∧
  (∀ later, credential_ok open_check open_hash (hdb h') later 1 "secret-1").
Proof.
  assert (Hrun : connect open_check open_hash open_hash None 40 1 "secret-1" 50 enrol_hub =
                 (accepted 1, (enrol 40 enrol_hub).2)).
  { fold (enrol 40 enrol_hub). rewrite <- enrol_accepted. by destruct (enrol 40 enrol_hub). }
  eexists. split; [exact Hrun|].
  apply (proj1 (enrolment_binds open_check open_hash open_hash 40 1 "secret-1" 50 enrol_hub 1 _ sample_server
    open_law enrol_servers_ok enrol_tokens_ok eq_refl eq_refl Hrun)).
Defined.

Lemma pending_frames_ignored_witness :
  receive open_hash 1 1 (frame_script_finished (mkScriptFinishedEvent 100 (Some 0) 55 0 0 None false None)) 60 enrol_hub =
    (true, enrol_hub).
Proof.
  exact (pending_frames_ignored open_hash 1 1
    (frame_script_finished (mkScriptFinishedEvent 100 (Some 0) 55 0 0 None false None)) 60 enrol_hub
    sample_server enrol_servers_ok eq_refl eq_refl).
Defined.

(** Two sockets connect for one server; the second kicks the first. *)
Definition enrolled (ws : Z) (n : Net) : Net :=
  at_stage ws 1 1 Serving n <| hub := (enrol ws (hub n)).2 |> <| seen := {[ws]} ∪ seen n |>.

Abbreviation reaches := (rtc (net_step open_hash open_check open_hash open_hash)).
Abbreviation enrol_net := (no_sockets enrol_hub).

Lemma enrolled_reached n ws :
  reaches enrol_net n → ws ∉ seen n → (enrol ws (hub n)).1 = accepted 1 → reaches enrol_net (enrolled ws n).
Proof.
  intros Hr Hs Ha. etransitivity; [exact Hr|]. apply (connect_steps _ _ _ _ n ws 1 "secret-1" 50); [|done|].
  - exact (reached_ok _ _ _ _ _ _ _ _ _ Hr).
  - fold (enrol ws (hub n)). rewrite <- Ha. apply surjective_pairing.
Qed.

Definition two_sockets : Net := enrolled 41 (enrolled 40 enrol_net).

Lemma two_sockets_reached : reaches enrol_net two_sockets.
Proof. repeat (apply enrolled_reached; [|set_solver|by vm_compute]). apply rtc_refl. Qed.

Lemma one_socket_per_server_witness :
  pool_get (hpool (hub two_sockets)) 1 = Some 41 ∧ 40 ∈ closed (hpool (hub two_sockets)) ∧
  registered two_sockets 1 41 ∧ registered two_sockets 1 40.
Proof.
  assert (H : registered two_sockets 1 41) by (exists 1, Serving; split; [by vm_compute|by right]).
  split; [|split; [|split]].
  - apply (proj2 (one_socket_per_server open_hash open_check open_hash open_hash (hdb enrol_hub) (hkills enrol_hub)
      (hrpc enrol_hub) (hbrowsers enrol_hub) two_sockets 1 41 two_sockets_reached)); [exact H| |].
    + assert (Hc : closed (hpool (hub two_sockets)) = [40]) by (vm_compute; reflexivity). rewrite Hc. by intros ?%list_elem_of_singleton.
    + assert (Ho : overtaken two_sockets = ∅) by (vm_compute; reflexivity). rewrite Ho. apply not_elem_of_empty.
  - vm_compute. left.
  - exact H.
  - exists 1, Serving. split; [by vm_compute|by right].
Defined.

(** Three agents claim one server.  The second and the third both find the
    first in the pool; each closes it and puts its own socket there.  Nothing
    closes the second: its handler serves on, past the pool. *)
Definition admitted (ws : Z) (n : Net) : Net :=
  at_stage ws 1 1 CheckedIn (n <| hub := (check_in open_check open_hash open_hash 1 "secret-1" 50 (hub n)).2 |>
                              <| seen := {[ws]} ∪ seen n |>).
Definition kicking (ws old : Z) (n : Net) : Net :=
  at_stage ws 1 1 (Closing old) (with_pool (pool_kick (hpool (hub n)) 1 ws) n).
Definition put (ws old : Z) (n : Net) : Net :=
  at_stage ws 1 1 Announcing (with_pool (pool_put (hpool (hub n)) 1 ws) n)
    <| overtaken := overtakes old (pool_get (hpool (hub n)) 1) ∪ overtaken n |>.
Definition serving (ws : Z) (n : Net) : Net :=
  at_stage ws 1 1 Serving (n <| hub := (announce_in None 1 1 50 (hub n)).2 |>).

Lemma admitted_reached n ws :
  reaches enrol_net n → ws ∉ seen n →
  (check_in open_check open_hash open_hash 1 "secret-1" 50 (hub n)).1 = Ok 1 → reaches enrol_net (admitted ws n).
Proof.
  intros Hr Hs Ha. eapply rtc_r; [exact Hr|]. eapply step_admit; [done|]. rewrite <- Ha. apply surjective_pairing.
Qed.

Lemma kicking_reached n ws old :
  reaches enrol_net n → handlers n !! ws = Some (1, 1, CheckedIn) → pool_get (hpool (hub n)) 1 = Some old →
  reaches enrol_net (kicking ws old n).
Proof. intros Hr Hw Hp. eapply rtc_r; [exact Hr|]. by apply step_kick. Qed.

Lemma put_reached n ws old :
  reaches enrol_net n → handlers n !! ws = Some (1, 1, Closing old) → reaches enrol_net (put ws old n).
Proof. intros Hr Hw. eapply rtc_r; [exact Hr|]. by apply step_put. Qed.

Lemma serving_reached n ws :
  reaches enrol_net n → handlers n !! ws = Some (1, 1, Announcing) →
  is_ok (announce_in None 1 1 50 (hub n)).1 = true → reaches enrol_net (serving ws n).
Proof.
  intros Hr Hw Ha. eapply rtc_r; [exact Hr|]. unfold serving.
  destruct (announce_in None 1 1 50 (hub n)) as [[b|e] h'] eqn:E; [|done]. by eapply step_announce.
Qed.

Definition overlapping : Net :=
  serving 42 (serving 41 (put 42 40 (put 41 40 (kicking 42 40 (kicking 41 40
    (admitted 42 (admitted 41 (enrolled 40 enrol_net)))))))).

Example overtaken_socket_stays_open :
  reaches enrol_net overlapping ∧
  handlers overlapping !! 41 = Some (1, 1, Serving) ∧ handlers overlapping !! 42 = Some (1, 1, Serving) ∧
  closed (hpool (hub overlapping)) = [40; 40] ∧ pool_get (hpool (hub overlapping)) 1 = Some 42 ∧
  overtaken overlapping = {[41]}.
Proof.
  split; [|by vm_compute]. unfold overlapping. do 2 (apply serving_reached; [|by vm_compute..]).
  do 2 (apply put_reached; [|by vm_compute]). do 2 (apply kicking_reached; [|by vm_compute..]).
  do 2 (apply admitted_reached; [|apply (bool_decide_unpack _); by vm_compute|by vm_compute..]).
  apply enrolled_reached; [apply rtc_refl|set_solver|by vm_compute].
Qed.

(** The database fails when a socket is announced: its handler ends, and the
    socket, which nobody reads, speaks for the server until the next one comes. *)
Definition lone : Net :=
  at_stage 40 1 1 Announcing (with_pool (pool_register (hpool (hub (admitted 40 enrol_net))) 1 40) (admitted 40 enrol_net)).

Definition torn_net : Net :=
  lone <| hub := hub lone |> <| handlers := delete 40 (handlers lone) |>
       <| torn_sockets := <[40 := 1]> (torn_sockets lone) |>.

Example torn_socket_stays_in_pool :
  reaches enrol_net torn_net ∧ handlers torn_net !! 40 = None ∧
  is_online (hpool (hub torn_net)) 1 = true ∧ pool_get (hpool (hub torn_net)) 1 = Some 40.
Proof.
  split; [|by vm_compute].
  assert (H1 : reaches enrol_net (admitted 40 enrol_net)).
  { apply admitted_reached; [apply rtc_refl|set_solver|by vm_compute..]. }
  apply (rtc_r _ lone); [eapply rtc_r; [exact H1|]|].
  - by apply (step_register _ _ _ _ _ 40 1 1).
  - by apply (step_torn _ _ _ _ lone 40 1 1 (Some (OperationalError "gone")) 50 (OperationalError "gone")).
Qed.

(** An approved server whose agent reconnected. *)
Definition online_hub : Hub :=
  enrol_hub <| hdb := hdb enrol_hub <| servers :=
                 {[1 := sample_server <| Server.approved_at := Some 10 |>]} |> |>
            <| hpool := mkPool {[1 := 41]} [40] |>.

Lemma stale_disconnect_marks_offline_witness :
  let h' := disconnect 40 1 1 60 online_hub in
  is_online (hpool h') 1 = true ∧ pool_get (hpool h') 1 = Some 41 ∧
  Server.status <$> servers (hdb h') !! 1 = Some "offline"%string ∧
  Server.status <$> servers (hdb (receive open_hash 1 1 frame_heartbeat 70 h').2) !! 1 = Some "online"%string.
Proof.
  assert (Hok : servers_ok (hdb online_hub)).
  { intros k r Hk. by apply (lookup_only _ _ _ _ _ eq_refl) in Hk as [-> ->]. }
  refine (stale_disconnect_marks_offline open_hash 41 40 1 1 60 70 online_hub
    (sample_server <| Server.approved_at := Some 10 |>) Hok eq_refl eq_refl eq_refl eq_refl _).
  discriminate.
Defined.
