(* ===== verification/ServerProperties.v ===== *)
(** The life of a server before it serves: creation with its capability
    switches and its secret, enrolment, approval, new secrets, and the gate on
    dangerous capabilities ([services/server_service.py] with
    [services/telemetry_service.py]). *)

From S2P Require Import Prelude PyText Models SessionLayer Samples.
From S2P Require Import AuditService TelemetryService ServerService UserHub AgentWs.

Section fleet.
Context (ci sha256 : string → string) (isoformat : Z → string).

(** The tables of this component, well formed. *)
Record fleet_ok (d : Db) : Prop := {
  fo_server k r : servers d !! k = Some r → Server.id r = k ∧ k < next_server_id d ;
  fo_hostname k k' r r' : servers d !! k = Some r → servers d !! k' = Some r' →
    Server.lab_id r = Server.lab_id r' → ci (Server.hostname r) = ci (Server.hostname r') → k = k' ;
  fo_cap k c : agent_capabilities d !! k = Some c →
    AgentCapability.id c = k ∧ k < next_agent_capability_id d ∧
    capability_row_error c = None ∧ AgentCapability.server_id c < next_server_id d ;
  fo_cap_key k k' c c' : agent_capabilities d !! k = Some c → agent_capabilities d !! k' = Some c' →
    AgentCapability.server_id c = AgentCapability.server_id c' →
    ci (AgentCapability.capability_key c) = ci (AgentCapability.capability_key c') → k = k' ;
  fo_token k t : enrollment_tokens d !! k = Some t →
    EnrollmentToken.id t = k ∧ k < next_enrollment_token_id d ;
  fo_token_hash k k' t t' : enrollment_tokens d !! k = Some t → enrollment_tokens d !! k' = Some t' →
    EnrollmentToken.token_hash t = EnrollmentToken.token_hash t' → k = k' }.

Lemma find_capability_Some d sid key c :
  fleet_ok d →
  find_capability ci d sid key = Some c ↔
  agent_capabilities d !! AgentCapability.id c = Some c ∧ AgentCapability.server_id c = sid ∧
  ci (AgentCapability.capability_key c) = ci key.
Proof using Type.
  intros Hok. split.
  - intros [[k Hk]%elem_of_rows [Hs Hc]]%head_filter_elem. by destruct (fo_cap _ Hok _ _ Hk) as (-> & _).
  - intros (Hk & Hs & Hc). apply head_filter_unique; [apply elem_of_rows; eauto|done|].
    intros c' [k' Hk']%elem_of_rows [Hs' Hc'].
    assert (AgentCapability.id c = k') as E by (eapply (fo_cap_key _ Hok); eauto; congruence). congruence.
Qed.

Lemma find_capability_None d sid key :
  find_capability ci d sid key = None ↔
  ∀ k c, agent_capabilities d !! k = Some c → AgentCapability.server_id c = sid →
    ci (AgentCapability.capability_key c) ≠ ci key.
Proof using Type.
  unfold find_capability. rewrite head_filter_None. split.
  - intros H k c Hk Hs Hc. apply (H c); [apply elem_of_rows; eauto|done].
  - intros H c [k Hk]%elem_of_rows [Hs Hc]. by apply (H k c).
Qed.

(** ** Seeding the switches of a new server *)

Definition with_capability (sid actor : Z) (d : Db) (seed : string * bool * bool) : Db :=
  let id := next_agent_capability_id d in
  d <| agent_capabilities := <[id := seeded_capability sid actor seed id]> (agent_capabilities d) |>
    <| next_agent_capability_id := id + 1 |>.

Definition with_capabilities (sid actor : Z) (seeds : list (string * bool * bool)) (d : Db) : Db :=
  foldl (with_capability sid actor) d seeds.

(** A switch that starts enabled is not dangerous. *)
Definition harmless (seed : string * bool * bool) : bool := negb (seed.1.2 && seed.2).

Lemma seeded_row_ok sid actor seed id :
  harmless seed = true → capability_row_error (seeded_capability sid actor seed id) = None.
Proof using Type. by destruct seed as [[key []] []]. Qed.

Lemma with_capability_ok sid actor seed d :
  fleet_ok d → sid < next_server_id d → harmless seed = true →
  find_capability ci d sid seed.1.1 = None → fleet_ok (with_capability sid actor d seed).
Proof using Type.
  intros Hok Hsid Hs Hnone. pose proof (proj1 (find_capability_None _ _ _) Hnone) as Hnew.
  split; [apply (fo_server _ Hok)|apply (fo_hostname _ Hok)| | |apply (fo_token _ Hok)|apply (fo_token_hash _ Hok)].
  - intros k c. cbn. rewrite lookup_insert. case_decide as Hk.
    + intros [= <-]. split_and!; [done|simpl; lia|by apply seeded_row_ok|done].
    + intros Hc. destruct (fo_cap _ Hok _ _ Hc) as (H1 & H2 & H3 & H4). split_and!; try done. simpl. lia.
  - intros k k' c c'. cbn. rewrite !lookup_insert. repeat case_decide; subst; try done.
    + intros [= <-] Hc' He Hci. exfalso. eapply Hnew; [exact Hc'|by symmetry|by symmetry].
    + intros Hc [= <-] He Hci. exfalso. by eapply Hnew.
    + intros Hc Hc'. by eapply (fo_cap_key _ Hok).
Qed.

(** The switches present for a server. *)
Definition seeded (sid : Z) (seeds : list (string * bool * bool)) (d d' : Db) : Prop :=
  (∀ seed, seed ∈ seeds → ∃ c, find_capability ci d' sid seed.1.1 = Some c ∧
     AgentCapability.is_enabled c = Z.b2z seed.1.2 ∧ AgentCapability.is_dangerous c = Z.b2z seed.2 ∧
     AgentCapability.notes c = None) ∧
  (∀ k c, agent_capabilities d' !! k = Some c →
     agent_capabilities d !! k = Some c ∨
     AgentCapability.server_id c = sid ∧ ∃ seed, seed ∈ seeds ∧ AgentCapability.capability_key c = seed.1.1) ∧
  (∀ k c, agent_capabilities d !! k = Some c → agent_capabilities d' !! k = Some c) ∧
  d' <| agent_capabilities := agent_capabilities d |>
     <| next_agent_capability_id := next_agent_capability_id d |> = d.

Lemma with_capabilities_run sid actor seeds s :
  fleet_ok (db s) → sid < next_server_id (db s) →
  NoDup ((λ seed : string * bool * bool, ci seed.1.1) <$> seeds) → forallb harmless seeds = true →
  (∀ seed, seed ∈ seeds → find_capability ci (db s) sid seed.1.1 = None) →
  let d' := with_capabilities sid actor seeds (db s) in
  for_each seeds (λ seed, add_capability ci (seeded_capability sid actor seed)) s = (Ok tt, s <| db := d' |>) ∧
  fleet_ok d' ∧ seeded sid seeds (db s) d'.
Proof using Type.
  revert s. induction seeds as [|seed seeds IH]; intros s Hok Hsid Hnd Hh Hnew.
  { cbv zeta. split; [by destruct s|]. split; [done|]. split_and!; [by intros ? ?%elem_of_nil|auto|done|].
    by destruct (db s). }
  rewrite fmap_cons in Hnd. apply NoDup_cons in Hnd as [Hfresh Hnd].
  simpl in Hh. apply andb_true_iff in Hh as [Hh1 Hh]. cbv zeta.
  set (d1 := with_capability sid actor (db s) seed). set (s1 := s <| db := d1 |>).
  assert (Hnone : find_capability ci (db s) sid seed.1.1 = None) by (apply Hnew; left).
  pose proof (with_capability_ok sid actor seed (db s) Hok Hsid Hh1 Hnone) as Hok1.
  assert (Hrun : add_capability ci (seeded_capability sid actor seed) s = (Ok tt, s1)).
  { unfold add_capability. rewrite seeded_row_ok by done. cbn [AgentCapability.server_id seeded_capability
      AgentCapability.capability_key]. by rewrite Hnone. }
  assert (Hfresh1 : agent_capabilities (db s) !! next_agent_capability_id (db s) = None).
  { destruct (agent_capabilities (db s) !! _) eqn:E; [|done]. apply (fo_cap _ Hok) in E. lia. }
  destruct (IH s1) as (Hrun2 & Hok2 & H1 & H2 & H3 & H4); [done|done|done|done| |].
  { intros seed' Hs'. apply find_capability_None. intros k c. cbn. rewrite lookup_insert. case_decide.
    - intros [= <-] _ Hci. apply Hfresh, list_elem_of_fmap. by exists seed'.
    - apply find_capability_None. apply Hnew. by right. }
  change (db s1) with d1 in *. 
  change (with_capabilities sid actor (seed :: seeds) (db s)) with (with_capabilities sid actor seeds d1).
  set (d2 := with_capabilities sid actor seeds d1) in *. clearbody d2.
  split; [simpl; rewrite (bind_run _ _ _ _ _ Hrun); exact Hrun2|]. split; [exact Hok2|].
  split_and!.
  - intros seed' [->|Hs']%elem_of_cons; [|by apply H1].
    exists (seeded_capability sid actor seed (next_agent_capability_id (db s))).
    split_and!; [|done..].
    + apply find_capability_Some; [done|]. split; [|split; reflexivity].
      apply H3. cbn. by rewrite lookup_insert_eq.
  - intros k c Hk. apply H2 in Hk as [Hk|(Hs & seed' & Hs' & Hkey)].
    + cbn in Hk. rewrite lookup_insert in Hk. case_decide; [|by left].
      injection Hk as <-. right. split; [done|]. exists seed. split; [by left|done].
    + right. split; [done|]. exists seed'. split; [by right|done].
  - intros k c Hk. apply H3. cbn. rewrite lookup_insert_ne; [done|]. intros <-. congruence.
  - transitivity (d1 <| agent_capabilities := agent_capabilities (db s) |>
                     <| next_agent_capability_id := next_agent_capability_id (db s) |>); [|by destruct (db s)].
    rewrite <- H4 at 1. by destruct d2.
Qed.

(** ** Creating a server *)

Definition token_known (d : Db) (hash : string) : bool :=
  existsb (λ t, bool_decide (EnrollmentToken.token_hash t = hash)) (rows (enrollment_tokens d)).

Lemma token_unknown d hash :
  token_known d hash = false → ∀ k t, enrollment_tokens d !! k = Some t → EnrollmentToken.token_hash t ≠ hash.
Proof using Type.
  intros Hn k t Hk He. unfold token_known in Hn. apply not_true_iff_false in Hn. apply Hn, existsb_exists.
  exists t. split; [apply list_elem_of_In, elem_of_rows; eauto|by apply bool_decide_eq_true_2].
Qed.

Lemma find_hostname_None d lab h :
  find_hostname ci d lab h = None ↔
  ∀ k r, servers d !! k = Some r → Server.lab_id r = lab → ci (Server.hostname r) ≠ ci h.
Proof using Type.
  unfold find_hostname. rewrite head_filter_None. split.
  - intros H k r Hk Hl Hh. apply (H r); [apply elem_of_rows; eauto|done].
  - intros H r [k Hk]%elem_of_rows [Hl Hh]. by apply (H k r).
Qed.

Definition with_server (d : Db) (srv : Server.t) : Db :=
  d <| servers := <[next_server_id d := srv]> (servers d) |> <| next_server_id := next_server_id d + 1 |>.

Lemma with_server_ok d srv :
  fleet_ok d → Server.id srv = next_server_id d →
  find_hostname ci d (Server.lab_id srv) (Server.hostname srv) = None → fleet_ok (with_server d srv).
Proof using Type.
  intros Hok Hid Hnone. pose proof (proj1 (find_hostname_None _ _ _) Hnone) as Hnew.
  split; [| | |apply (fo_cap_key _ Hok)|apply (fo_token _ Hok)|apply (fo_token_hash _ Hok)].
  - intros k r. cbn. rewrite lookup_insert. case_decide as Hk.
    + intros [= <-]. split; [congruence|lia].
    + intros Hr. destruct (fo_server _ Hok _ _ Hr). split; [done|lia].
  - intros k k' r r'. cbn. rewrite !lookup_insert. repeat case_decide; subst; try done.
    + intros [= <-] Hr' Hl Hh. exfalso. eapply Hnew; [exact Hr'|by symmetry|by symmetry].
    + intros Hr [= <-] Hl Hh. exfalso. by eapply Hnew.
    + intros Hr Hr'. by eapply (fo_hostname _ Hok).
  - intros k c Hc. destruct (fo_cap _ Hok _ _ Hc) as (? & ? & ? & ?). split_and!; try done. cbn. lia.
Qed.

Definition with_token (d : Db) (t : EnrollmentToken.t) : Db :=
  d <| enrollment_tokens := <[next_enrollment_token_id d := t]> (enrollment_tokens d) |>
    <| next_enrollment_token_id := next_enrollment_token_id d + 1 |>.

Lemma with_token_ok d t :
  fleet_ok d → EnrollmentToken.id t = next_enrollment_token_id d →
  token_known d (EnrollmentToken.token_hash t) = false → fleet_ok (with_token d t).
Proof using Type.
  intros Hok Hid Hnew. pose proof (token_unknown _ _ Hnew) as Hun.
  split; [apply (fo_server _ Hok)|apply (fo_hostname _ Hok)|apply (fo_cap _ Hok)|apply (fo_cap_key _ Hok)| |].
  - intros k t'. cbn. rewrite lookup_insert. case_decide as Hk.
    + intros [= <-]. split; [congruence|lia].
    + intros Ht. destruct (fo_token _ Hok _ _ Ht). split; [done|lia].
  - intros k k' t1 t2. cbn. rewrite !lookup_insert. repeat case_decide; subst; try done.
    + intros [= <-] Ht Hh. exfalso. by eapply Hun.
    + intros Ht [= <-] Hh. exfalso. by eapply Hun.
    + by apply (fo_token_hash _ Hok).
Qed.

(** A secret that was just added is found. *)
Lemma find_token_added d t :
  fleet_ok (with_token d t) →
  find_token (with_token d t) (EnrollmentToken.token_hash t) (EnrollmentToken.lab_id t) = Some t.
Proof using Type.
  intros Hok. apply head_filter_unique; [|done|].
  - apply elem_of_rows. exists (next_enrollment_token_id d). cbn. by rewrite lookup_insert_eq.
  - intros t' [k Hk]%elem_of_rows [Hh _].
    assert (Hn : enrollment_tokens (with_token d t) !! next_enrollment_token_id d = Some t)
      by (cbn; by rewrite lookup_insert_eq).
    assert (k = next_enrollment_token_id d) as -> by (eapply (fo_token_hash _ Hok); eauto). congruence.
Qed.

(** The entries a creation leaves. *)
Definition creation_entries (es : list AuditLog.t) (sid : Z) : Prop :=
  AuditLog.action <$> es = ["server.create"; "server.enrollment_token.generate"]%string ∧
  Forall (λ e, AuditLog.target_id e = Some sid) es.

Lemma audit_server_run action actor lab sid p req s :
  clean s → ∃ e, AuditLog.action e = action ∧ AuditLog.target_id e = Some sid ∧
    audit_server action actor lab sid p req s =
      (Ok tt, s <| db := db s <| audit_log := audit_log (db s) ++ [e] |> |>).
Proof using Type.
  intros Hc. unfold audit_server. rewrite (write_run _ _ _ _ _ _ _ _ _ s Hc).
  eexists. split_and!; [| |reflexivity]; reflexivity.
Qed.

Definition seeds_distinct : Prop :=
  NoDup ((λ seed : string * bool * bool, ci seed.1.1) <$> CAPABILITY_SEED).

Lemma add_token_run mk_row s :
  token_known (db s) (EnrollmentToken.token_hash (mk_row (next_enrollment_token_id (db s)))) = false →
  add_token mk_row s =
    (Ok (mk_row (next_enrollment_token_id (db s))),
     s <| db := with_token (db s) (mk_row (next_enrollment_token_id (db s))) |>).
Proof using Type. unfold add_token, token_known. intros H. cbv zeta. by rewrite H. Qed.

(** The second half of a creation: the secret and the two entries. *)
Lemma first_secret_run plaintext hostname display pattern lab actor req (srv : Server.t) s :
  clean s → token_known (db s) (sha256 plaintext) = false →
  let t := new_token sha256 lab actor (now s + days 7) plaintext (pattern_or pattern hostname)
             (next_enrollment_token_id (db s)) in
  ∃ es, (at_ ← utcnow ;
         let expires_at := at_ + days 7 in
         add_token (new_token sha256 lab actor expires_at plaintext (pattern_or pattern hostname)) ;;
         flush ;;
         audit_server "server.create" actor lab (Server.id srv)
           (JObj [("hostname", JStr hostname); ("display_name", opt_str display)]%string) req ;;
         audit_server "server.enrollment_token.generate" actor lab (Server.id srv)
           (JObj [("expires_at", JStr (isoformat expires_at))]%string) req ;;
         mret (srv, expires_at)) s =
      (Ok (srv, now s + days 7),
       s <| db := with_token (db s) t <| audit_log := audit_log (db s) ++ es |> |>) ∧
    creation_entries es (Server.id srv).
Proof using Type.
  intros Hc Htok t.
  set (s3 := s <| db := with_token (db s) t |>).
  destruct (audit_server_run "server.create" actor lab (Server.id srv)
    (JObj [("hostname", JStr hostname); ("display_name", opt_str display)]%string) req s3 Hc) as (e1 & He1 & He1' & Hr1).
  set (s4 := s3 <| db := db s3 <| audit_log := audit_log (db s3) ++ [e1] |> |>) in *.
  destruct (audit_server_run "server.enrollment_token.generate" actor lab (Server.id srv)
    (JObj [("expires_at", JStr (isoformat (now s + days 7)))]%string) req s4 Hc) as (e2 & He2 & He2' & Hr2).
  exists [e1; e2]. split; [|split; [by rewrite <- He1, <- He2|by repeat constructor]].
  rewrite (bind_run utcnow _ s (now s) s) by reflexivity. cbv zeta.
  rewrite (bind_run (add_token _) _ s t s3) by by apply add_token_run.
  rewrite (bind_run flush _ s3 tt s3) by by apply flush_clean.
  rewrite (bind_run _ _ _ _ _ Hr1), (bind_run _ _ _ _ _ Hr2).
  unfold mret, prog_ret. f_equal. unfold s4, s3. cbn. by rewrite <- app_assoc.
Qed.

Lemma add_server_run mk_row s :
  let srv := mk_row (next_server_id (db s)) in
  unsigned_fits (Server.max_reservation_hours srv) = true →
  find_hostname ci (db s) (Server.lab_id srv) (Server.hostname srv) = None →
  add_server ci mk_row s = (Ok srv, s <| db := with_server (db s) srv |>).
Proof using Type. intros srv Hfit Hnone. unfold add_server. cbv zeta. fold srv. by rewrite Hfit, Hnone. Qed.

(** Seeding leaves the other tables alone. *)
Lemma seeded_frame sid seeds d d' :
  seeded sid seeds d d' →
  enrollment_tokens d' = enrollment_tokens d ∧
  next_enrollment_token_id d' = next_enrollment_token_id d ∧
  audit_log d' = audit_log d ∧ servers d' = servers d.
Proof using Type.
  intros (_ & _ & _ & Heq).
  by apply (f_equal (λ d, (enrollment_tokens d, next_enrollment_token_id d, audit_log d, servers d))) in Heq as [= -> -> -> ->].
Qed.

(** What a creation leaves, from the database before it. *)
Definition created (plaintext hostname : string) (display : option string) (hours : option Z)
    (pattern : option string) (lab actor at_ : Z) (d d' : Db) : Prop :=
  let sid := next_server_id d in
  let d1 := with_server d (new_server lab actor hostname display hours sid) in
  ∃ d2 es, seeded sid CAPABILITY_SEED d1 d2 ∧ creation_entries es sid ∧
    let d3 := with_token d2 (new_token sha256 lab actor (at_ + days 7) plaintext (pattern_or pattern hostname)
                (next_enrollment_token_id d)) in
    fleet_ok d3 ∧ d' = d3 <| audit_log := audit_log d ++ es |>.

Lemma create_run plaintext hostname display hours pattern lab actor req s :
  clean s → fleet_ok (db s) → seeds_distinct → unsigned_fits hours = true →
  token_known (db s) (sha256 plaintext) = false →
  find_hostname ci (db s) lab hostname = None →
  ∃ d', create_server ci sha256 isoformat plaintext hostname display hours pattern lab actor req s =
      (Ok (new_server lab actor hostname display hours (next_server_id (db s)), now s + days 7),
       s <| db := d' |>) ∧
    created plaintext hostname display hours pattern lab actor (now s) (db s) d'.
Proof using Type.
  intros Hc Hok Hnd Hfit Htok Hnone.
  set (sid := next_server_id (db s)). set (srv := new_server lab actor hostname display hours sid).
  set (d1 := with_server (db s) srv).
  assert (Hok1 : fleet_ok d1) by by apply with_server_ok.
  assert (Hcaps : ∀ k c, agent_capabilities d1 !! k = Some c → AgentCapability.server_id c ≠ sid).
  { intros k c Hk. destruct (fo_cap _ Hok _ _ Hk) as (_ & _ & _ & Hlt). lia. }
  destruct (with_capabilities_run sid actor CAPABILITY_SEED (s <| db := d1 |>)) as (Hcr & Hok2 & Hseed);
    [done|unfold d1; cbn; lia|done|done| |].
  { intros seed _. apply find_capability_None. intros k c Hk Hs. by apply Hcaps in Hk. }
  change (db (s <| db := d1 |>)) with d1 in *. revert Hcr Hok2 Hseed.
  generalize (with_capabilities sid actor CAPABILITY_SEED d1). intros d2 Hcr Hok2 Hseed.
  destruct (seeded_frame _ _ _ _ Hseed) as (Ht1 & Ht2 & Ht3 & _).
  assert (Htok2 : token_known d2 (sha256 plaintext) = false) by (unfold token_known in *; by rewrite Ht1).
  destruct (first_secret_run plaintext hostname display pattern lab actor req srv (s <| db := d2 |>))
    as (es & Hrun & Hes); [done|done|].
  change (db (s <| db := d2 |>)) with d2 in *. rewrite Ht2, Ht3 in Hrun.
  eexists. split; cycle 1.
  { exists d2, es. split; [exact Hseed|]. split; [exact Hes|]. split; [by apply with_token_ok|reflexivity]. }
  unfold create_server.
  rewrite (bind_run (gets _) _ s (find_hostname ci (db s) lab hostname) s) by reflexivity.
  rewrite Hnone, (bind_run (raise_if _ _) _ s tt s) by reflexivity.
  rewrite (bind_run _ _ _ _ _ (add_server_run (new_server lab actor hostname display hours) s Hfit Hnone)).
  change (Server.id (new_server lab actor hostname display hours (next_server_id (db s)))) with sid.
  rewrite (bind_run _ _ _ _ _ Hcr). exact Hrun.
Qed.
(** *** What the creation means for the agent *)

Lemma fleet_ok_audit d l : fleet_ok d → fleet_ok (d <| audit_log := l |>).
Proof using Type. intros []. by split. Qed.

Lemma created_credential plaintext hostname display hours pattern lab actor at_ d d' checkpw later :
  created plaintext hostname display hours pattern lab actor at_ d d' →
  credential_ok checkpw sha256 d' later (next_server_id d) plaintext ↔ later < at_ + days 7.
Proof using Type.
  intros (d2 & es & Hseed & _ & Hok & ->). destruct (seeded_frame _ _ _ _ Hseed) as (_ & Hid & _ & Hsrv).
  set (t := new_token _ _ _ _ _ _ _) in *.
  assert (Hs : servers (with_token d2 t <| audit_log := audit_log d ++ es |>) !! next_server_id d =
               Some (new_server lab actor hostname display hours (next_server_id d))).
  { cbn. rewrite Hsrv. cbn. by rewrite lookup_insert_eq. }
  assert (Ht : find_token (with_token d2 t <| audit_log := audit_log d ++ es |>) (sha256 plaintext) lab = Some t).
  { exact (find_token_added d2 t Hok). }
  split.
  - intros (srv & Hs' & _ & Hc). pose proof (eq_trans (eq_sym Hs) Hs') as [= <-].
    destruct Hc as (t' & Ht' & _ & Hlt). pose proof (eq_trans (eq_sym Ht) Ht') as [= <-]. exact Hlt.
  - intros Hlt. exists (new_server lab actor hostname display hours (next_server_id d)).
    split; [exact Hs|]. split; [done|]. exists t. split; [exact Ht|]. split; [by left|exact Hlt].
Qed.

Definition off_when_dangerous (d : Db) (sid : Z) : Prop :=
  ∀ key, key ∈ DANGEROUS_CAPABILITIES → ∃ c, find_capability ci d sid key = Some c ∧
    AgentCapability.is_dangerous c = 1 ∧ AgentCapability.is_enabled c = 0.

Lemma dangerous_seeded key : key ∈ DANGEROUS_CAPABILITIES → (key, false, true) ∈ CAPABILITY_SEED.
Proof using Type.
  intros Hk. repeat (apply elem_of_cons in Hk as [->|Hk]);
    [by apply (bool_decide_eq_true_1 _); vm_compute..|by apply elem_of_nil in Hk].
Qed.

(** Creating a server refuses a hostname the lab already has (as the
    collation compares it) and then changes nothing.  Otherwise it stores a
    server that is pending, unbound and unapproved, gives it every seeded
    capability switch with its initial position, the three dangerous ones
    switched off, writes the two audit entries, keeps the tables well formed,
    and hands out a secret with which an agent can enrol as this server
    exactly during the next seven days. *)
Theorem create_server_spec plaintext hostname display hours pattern lab actor req s :
  clean s → fleet_ok (db s) → seeds_distinct → unsigned_fits hours = true →
  token_known (db s) (sha256 plaintext) = false →
  match find_hostname ci (db s) lab hostname with
  | Some _ =>
      create_server ci sha256 isoformat plaintext hostname display hours pattern lab actor req s =
        (Raise DuplicateHostnameError, s)
  | None => ∃ d' es,
      let sid := next_server_id (db s) in
      create_server ci sha256 isoformat plaintext hostname display hours pattern lab actor req s =
        (Ok (new_server lab actor hostname display hours sid, now s + days 7), s <| db := d' |>) ∧
      servers d' = <[sid := new_server lab actor hostname display hours sid]> (servers (db s)) ∧
      (∀ seed, seed ∈ CAPABILITY_SEED → ∃ c, find_capability ci d' sid seed.1.1 = Some c ∧
         AgentCapability.is_enabled c = Z.b2z seed.1.2 ∧ AgentCapability.is_dangerous c = Z.b2z seed.2) ∧
      off_when_dangerous d' sid ∧
      (∀ k c, agent_capabilities (db s) !! k = Some c → agent_capabilities d' !! k = Some c) ∧
      audit_log d' = audit_log (db s) ++ es ∧ creation_entries es sid ∧ fleet_ok d' ∧
      (∀ checkpw later, credential_ok checkpw sha256 d' later sid plaintext ↔ later < now s + days 7)
  end.
Proof using Type.
  intros Hc Hok Hnd Hfit Htok. destruct (find_hostname ci (db s) lab hostname) as [old|] eqn:Hfind.
  { unfold create_server. rewrite (bind_run (gets _) _ s (Some old) s) by (unfold gets; by rewrite Hfind). reflexivity. }
  destruct (create_run plaintext hostname display hours pattern lab actor req s) as (d' & Hrun & Hcre);
    [done..|]. pose proof Hcre as (d2 & es & Hseed & Hes & Hok3 & Hd').
  exists d', es. cbv zeta. split; [exact Hrun|].
  destruct (seeded_frame _ _ _ _ Hseed) as (_ & _ & Haud & Hsrv).
  assert (Hsw : ∀ seed, seed ∈ CAPABILITY_SEED → ∃ c, find_capability ci d' (next_server_id (db s)) seed.1.1 = Some c ∧
            AgentCapability.is_enabled c = Z.b2z seed.1.2 ∧ AgentCapability.is_dangerous c = Z.b2z seed.2).
  { intros seed Hs. destruct Hseed as (Hseed & _). destruct (Hseed _ Hs) as (c & Hf & H1 & H2 & _).
    exists c. subst d'. split; [exact Hf|done]. }
  split; [subst d'; cbn; by rewrite Hsrv|]. split; [exact Hsw|]. split.
  { intros key Hk. destruct (Hsw _ (dangerous_seeded _ Hk)) as (c & Hf & H1 & H2). by exists c. }
  split; [subst d'; apply Hseed|]. split; [by subst d'|]. split; [exact Hes|].
  split; [subst d'; by apply fleet_ok_audit|]. intros checkpw later. by eapply created_credential.
Qed.
(** ** Capability switches *)

Definition toggled (enabled : bool) (notes : option pystr) (actor : Z) (cap : AgentCapability.t) :
    AgentCapability.t :=
  cap <| AgentCapability.is_enabled := Z.b2z enabled |> <| AgentCapability.notes := notes |>
      <| AgentCapability.updated_by_user_id := actor |>.

(** What the code asks before it enables a dangerous switch. *)
Definition explained (notes : option pystr) : Prop :=
  ∃ n, notes = Some n ∧ (10 <= length (strip n))%nat.

Lemma unexplained notes :
  match notes with Some n => bool_decide (length (strip n) < 10)%nat | None => true end = true ↔
  ¬ explained notes.
Proof using Type.
  unfold explained. destruct notes as [n|]; [|split; [intros _ (? & ? & _)|]; done].
  rewrite bool_decide_eq_true. split; [intros H (? & [= <-] & ?); lia|].
  intros H. destruct (decide (length (strip n) < 10)%nat); [done|]. exfalso. apply H. exists n. split; [done|lia].
Qed.

Lemma toggled_row_ok enabled notes actor cap :
  (enabled = true → AgentCapability.is_dangerous cap ≠ 0 → explained notes) →
  capability_row_error (toggled enabled notes actor cap) = None.
Proof using Type.
  intros H. unfold capability_row_error, toggled. simpl.
  destruct (bool_decide_reflect (AgentCapability.is_dangerous cap = 0)); [done|].
  destruct enabled; [simpl|done]. destruct (H eq_refl n) as (t & -> & Ht).
  pose proof (strip_length t). by rewrite bool_decide_eq_true_2 by lia.
Qed.

Lemma toggled_ok d cap enabled notes actor :
  fleet_ok d → agent_capabilities d !! AgentCapability.id cap = Some cap →
  capability_row_error (toggled enabled notes actor cap) = None →
  fleet_ok (d <| agent_capabilities := <[AgentCapability.id cap := toggled enabled notes actor cap]>
                   (agent_capabilities d) |>).
Proof using Type.
  intros Hok Hcap Hrow.
  split; [apply (fo_server _ Hok)|apply (fo_hostname _ Hok)| | |apply (fo_token _ Hok)|apply (fo_token_hash _ Hok)].
  - intros k c. cbn. rewrite lookup_insert. case_decide as Hk.
    + intros [= <-]. subst k. destruct (fo_cap _ Hok _ _ Hcap) as (? & ? & _ & ?). by split_and!.
    + apply (fo_cap _ Hok).
  - intros k k' c c'. cbn. rewrite !lookup_insert. repeat case_decide; subst; try done.
    + intros [= <-] Hc'. exact (fo_cap_key _ Hok _ _ _ _ Hcap Hc').
    + intros Hc [= <-]. exact (fo_cap_key _ Hok _ _ _ _ Hc Hcap).
    + apply (fo_cap_key _ Hok).
Qed.

(** Switching a capability: a switch the server does not have is an
    error; enabling a dangerous one without at least ten characters of
    explanation (blanks around it not counted) is refused; both change
    nothing.  Otherwise exactly that row takes the new position, notes and
    author, one audit entry is written, and the tables stay well formed, so
    that the database's own check never fires: whatever switches a database
    has been through, an enabled dangerous switch carries an explanation. *)
Theorem update_capability_spec sid key enabled notes actor lab req s :
  clean s → fleet_ok (db s) →
  match find_capability ci (db s) sid key with
  | None => update_capability ci sid key enabled notes actor lab req s = (Raise ServerError, s)
  | Some cap =>
      (enabled = true ∧ AgentCapability.is_dangerous cap ≠ 0 ∧ ¬ explained notes ∧
       update_capability ci sid key enabled notes actor lab req s =
         (Raise DangerousCapabilityWithoutNotesError, s)) ∨
      ((enabled = true → AgentCapability.is_dangerous cap ≠ 0 → explained notes) ∧
       ∃ e, let cap' := toggled enabled notes actor cap in
         let d' := db s <| agent_capabilities := <[AgentCapability.id cap := cap']> (agent_capabilities (db s)) |>
                        <| audit_log := audit_log (db s) ++ [e] |> in
         update_capability ci sid key enabled notes actor lab req s = (Ok cap', s <| db := d' |>) ∧
         AuditLog.action e = "capability.toggle"%string ∧ AuditLog.target_id e = Some (AgentCapability.id cap) ∧
         fleet_ok d' ∧ find_capability ci d' sid key = Some cap')
  end.
Proof using Type.
  intros Hc Hok. destruct (find_capability ci (db s) sid key) as [cap|] eqn:Hf; unfold update_capability;
    [|rewrite (bind_run (gets _) _ s None s) by (unfold gets; by rewrite Hf); reflexivity].
  rewrite (bind_run (gets _) _ s (Some cap) s) by (unfold gets; by rewrite Hf).
  rewrite (bind_run (some_or_raise _ _) _ s cap s) by reflexivity.
  pose proof (proj1 (find_capability_Some _ _ _ _ Hok) Hf) as (Hcap & Hs & Hkey).
  match goal with |- context [raise_if ?b] => destruct b eqn:Hb end.
  - left. rewrite !andb_true_iff, negb_true_iff, bool_decide_eq_false, unexplained in Hb.
    destruct Hb as [[? ?] ?]. done.
  - right. assert (Hex : enabled = true → AgentCapability.is_dangerous cap ≠ 0 → explained notes).
    { intros -> Hd. destruct (decide (AgentCapability.is_dangerous cap = 0)); [done|].
      rewrite bool_decide_eq_false_2 in Hb by done. simpl in Hb. destruct notes as [t|]; [|done].
      apply bool_decide_eq_false in Hb. exists t. split; [done|lia]. }
    split; [done|]. pose proof (toggled_row_ok enabled notes actor cap Hex) as Hrow.
    rewrite (bind_run (raise_if _ _) _ s tt s) by reflexivity. cbv zeta. fold (toggled enabled notes actor cap).
    set (s1 := s <| db := db s <| agent_capabilities := <[AgentCapability.id cap := toggled enabled notes actor cap]>
                                    (agent_capabilities (db s)) |> |>).
    rewrite (bind_run (set_capability _) _ s tt s1) by (unfold set_capability; by rewrite Hrow).
    rewrite (bind_run flush _ s1 tt s1) by by apply flush_clean.
    erewrite bind_run; [|by apply write_run]. eexists. split; [reflexivity|]. split; [done|]. split; [done|].
    assert (Hok' : fleet_ok (db s1)) by by apply toggled_ok.
    split; [by apply (fleet_ok_audit (db s1))|].
    apply (find_capability_Some (db s1)); [done|]. cbn. rewrite lookup_insert_eq. by split_and!.
Qed.
(** ** Approval *)

Definition reachable_status (is_connected : bool) : string := if is_connected then "online" else "offline".

Lemma get_lab_server_run sid lab s :
  get_lab_server sid lab s =
    (match servers (db s) !! sid with
     | Some srv => if bool_decide (Server.lab_id srv = lab) then Ok srv else Raise ServerNotFoundError
     | None => Raise ServerNotFoundError
     end, s).
Proof using Type.
  unfold get_lab_server. rewrite (bind_run (get_server sid) _ s (servers (db s) !! sid) s) by reflexivity.
  destruct (servers (db s) !! sid) as [srv|]; [|reflexivity].
  rewrite (bind_run (some_or_raise _ _) _ s srv s) by reflexivity.
  by destruct (bool_decide_reflect (Server.lab_id srv = lab)).
Qed.

(** The server after an approval of a server that had none, or had one. *)
Definition approved_first (actor at_ : Z) (conn : bool) (srv : Server.t) : Server.t :=
  srv <| Server.approved_at := Some at_ |> <| Server.approved_by_user_id := Some actor |>
      <| Server.status := reachable_status conn |>.

Definition approved_again (conn : bool) (srv : Server.t) : Server.t :=
  if bool_decide (Server.status srv = "maintenance"%string) then srv
  else srv <| Server.status := reachable_status conn |>.

Definition with_row (srv : Server.t) (d : Db) : Db :=
  d <| servers := <[Server.id srv := srv]> (servers d) |>.

(** Approving a server: one that does not exist or belongs to another lab
    is not found, one that is deleted or that no agent has enrolled as yet is
    refused, and nothing changes.  The first approval stamps who and when,
    sets the status from the live connection and leaves one audit entry; a
    repeated one never moves the stamp, writes no entry and only refreshes the
    status, which a server under maintenance keeps. *)
Theorem approve_server_spec sid lab actor conn version req s :
  clean s →
  approve_server isoformat sid lab actor conn version req s =
    match servers (db s) !! sid with
    | None => (Raise ServerNotFoundError, s)
    | Some srv =>
        if negb (bool_decide (Server.lab_id srv = lab)) then (Raise ServerNotFoundError, s)
        else if bool_decide (Server.is_active srv = 0) || negb (is_some (Server.agent_token_hash srv))
        then (Raise ServerError, s)
        else match Server.approved_at srv with
             | Some _ => (Ok (approved_again conn srv), s <| db := with_row (approved_again conn srv) (db s) |>)
             | None =>
                 let entry := audit_entry s "server.approve" (Some actor) (Some lab) (Some "server"%string)
                   (Some sid) (Some lab) (Some sid)
                   (JObj [("hostname", JStr (Server.hostname srv)); ("agent_version", opt_str version);
                          ("last_heartbeat_at", jopt (λ t, JStr (isoformat t)) (Server.last_heartbeat_at srv));
                          ("connected_at_approval", JBool conn)]%string) req "ok" None in
                 (Ok (approved_first actor (now s) conn srv),
                  s <| db := with_row (approved_first actor (now s) conn srv) (db s)
                                <| audit_log := audit_log (db s) ++ [entry] |> |>)
             end
    end.
Proof using Type.
  intros Hc. unfold approve_server. pose proof (get_lab_server_run sid lab s) as Hget.
  destruct (servers (db s) !! sid) as [srv|] eqn:Hs; [|by rewrite (bind_run_raise _ _ _ _ _ Hget)].
  destruct (bool_decide_reflect (Server.lab_id srv = lab)) as [Hlab|Hlab];
    [|by rewrite (bind_run_raise _ _ _ _ _ Hget)].
  rewrite (bind_run _ _ _ _ _ Hget). simpl negb.
  destruct (bool_decide_reflect (Server.is_active srv = 0)) as [Ha|Ha]; [done|].
  rewrite (bind_run (raise_if _ _) _ s tt s) by reflexivity. simpl orb.
  destruct (is_some (Server.agent_token_hash srv)); [|done].
  rewrite (bind_run (raise_if _ _) _ s tt s) by reflexivity. simpl negb. cbv zeta.
  rewrite (bind_run utcnow _ s (now s) s) by reflexivity.
  destruct (Server.approved_at srv) as [t|] eqn:Happ; simpl is_some; cbv iota.
  - rewrite (bind_run (when _ _) _ s tt s) by reflexivity. unfold approved_again, reachable_status.
    destruct (bool_decide (Server.status srv = "maintenance"%string)); simpl orb; cbv iota;
      (erewrite bind_run; [|reflexivity]); (erewrite bind_run; [|by apply flush_clean]); done.
  - simpl when. erewrite bind_run; [|erewrite bind_run; [|reflexivity]; by apply write_run].
    simpl orb. cbv iota.
    erewrite bind_run; [|reflexivity]. erewrite bind_run; [|by apply flush_clean].
    unfold mret, prog_ret. f_equal. unfold with_row. cbn. by rewrite insert_insert_eq.
Qed.
(** ** A new secret *)

Definition ended (at_ : Z) (t : EnrollmentToken.t) : EnrollmentToken.t :=
  t <| EnrollmentToken.expires_at := at_ |>.

Definition end_all (at_ : Z) (ts : list EnrollmentToken.t) (m : gmap Z EnrollmentToken.t) :
    gmap Z EnrollmentToken.t :=
  foldl (λ m t, <[EnrollmentToken.id t := ended at_ t]> m) m ts.

Lemma end_all_run at_ ts s :
  for_each ts (λ t, set_token (ended at_ t)) s =
    (Ok tt, s <| db := db s <| enrollment_tokens := end_all at_ ts (enrollment_tokens (db s)) |> |>).
Proof using Type.
  revert s. induction ts as [|t ts IH]; intros s.
  { unfold end_all. simpl. by destruct s as [? [] ? ? ? ? ? ?]. }
  simpl. erewrite bind_run; [|reflexivity]. by rewrite IH.
Qed.

Lemma end_all_lookup at_ ts m k :
  end_all at_ ts m !! k = m !! k ∨ ∃ t, t ∈ ts ∧ EnrollmentToken.id t = k ∧ end_all at_ ts m !! k = Some (ended at_ t).
Proof using Type.
  revert m. induction ts as [|t ts IH]; intros m; [by left|]. simpl.
  destruct (IH (<[EnrollmentToken.id t := ended at_ t]> m)) as [Heq|(t' & Hin & Hid & Heq)].
  - rewrite Heq. destruct (decide (EnrollmentToken.id t = k)) as [<-|Hne].
    + right. exists t. split_and!; [left|done|by rewrite lookup_insert_eq].
    + left. by rewrite lookup_insert_ne.
  - right. exists t'. split_and!; [by right|done|done].
Qed.

Lemma end_all_in at_ ts m t :
  t ∈ ts → (∀ t', t' ∈ ts → EnrollmentToken.id t' = EnrollmentToken.id t → t' = t) →
  end_all at_ ts m !! EnrollmentToken.id t = Some (ended at_ t).
Proof using Type.
  revert m. induction ts as [|t0 ts IH]; intros m Hin Hu; [by apply elem_of_nil in Hin|]. simpl.
  destruct (end_all_lookup at_ ts (<[EnrollmentToken.id t0 := ended at_ t0]> m) (EnrollmentToken.id t))
    as [Heq|(t' & Ht' & Hid & Heq)]; [|rewrite Heq; rewrite (Hu t'); [done|by right|done]].
  apply elem_of_cons in Hin as [->|Hin]; [by rewrite Heq, lookup_insert_eq|].
  apply IH; [done|]. intros t' Ht'. apply Hu. by right.
Qed.

(** The tokens after a regeneration, by key. *)
Definition superseded (lab at_ : Z) (hostname : string) (m : gmap Z EnrollmentToken.t) :
    gmap Z EnrollmentToken.t :=
  (λ t, if outstanding ci lab at_ hostname t then ended at_ t else t) <$> m.

Definition outstanding_rows (lab at_ : Z) (hostname : string) (d : Db) : list EnrollmentToken.t :=
  filter (λ t, outstanding ci lab at_ hostname t = true) (rows (enrollment_tokens d)).

Lemma superseded_run lab at_ hostname d :
  fleet_ok d →
  end_all at_ (outstanding_rows lab at_ hostname d) (enrollment_tokens d) =
    superseded lab at_ hostname (enrollment_tokens d).
Proof using Type.
  intros Hok. apply map_eq. intros k. unfold superseded. rewrite lookup_fmap.
  destruct (end_all_lookup at_ (outstanding_rows lab at_ hostname d) (enrollment_tokens d) k)
    as [Heq|(t & Hin & <- & Heq)].
  - rewrite Heq. destruct (enrollment_tokens d !! k) as [t|] eqn:Ht; [simpl|done].
    destruct (outstanding ci lab at_ hostname t) eqn:Ho; [|done].
    destruct (fo_token _ Hok _ _ Ht) as [<- _]. rewrite <- Heq. apply end_all_in.
    + apply list_elem_of_filter. split; [done|]. apply elem_of_rows; eauto.
    + intros t' [_ [k' Hk']%elem_of_rows]%list_elem_of_filter Hid.
      destruct (fo_token _ Hok _ _ Hk') as [<- _]. rewrite Hid in Hk'. congruence.
  - rewrite Heq. apply list_elem_of_filter in Hin as [Ho [k Hk]%elem_of_rows].
    destruct (fo_token _ Hok _ _ Hk) as [-> _]. rewrite Hk. simpl. by rewrite Ho.
Qed.

Lemma superseded_ok lab at_ hostname d :
  fleet_ok d → fleet_ok (d <| enrollment_tokens := superseded lab at_ hostname (enrollment_tokens d) |>).
Proof using Type.
  intros Hok.
  assert (Hrow : ∀ k t, superseded lab at_ hostname (enrollment_tokens d) !! k = Some t →
    ∃ t0, enrollment_tokens d !! k = Some t0 ∧ EnrollmentToken.id t = EnrollmentToken.id t0 ∧
          EnrollmentToken.token_hash t = EnrollmentToken.token_hash t0).
  { intros k t. unfold superseded. rewrite lookup_fmap. destruct (enrollment_tokens d !! k) as [t0|]; [|done].
    intros [= <-]. exists t0. by destruct (outstanding ci lab at_ hostname t0). }
  split; [apply (fo_server _ Hok)|apply (fo_hostname _ Hok)|apply (fo_cap _ Hok)|apply (fo_cap_key _ Hok)| |].
  - intros k t (t0 & H0 & -> & _)%Hrow. by apply (fo_token _ Hok).
  - intros k k' t t' (t0 & H0 & _ & ->)%Hrow (t0' & H0' & _ & ->)%Hrow Hh. by eapply (fo_token_hash _ Hok).
Qed.

Lemma superseded_known lab at_ hostname d hash :
  token_known d hash = false →
  token_known (d <| enrollment_tokens := superseded lab at_ hostname (enrollment_tokens d) |>) hash = false.
Proof using Type.
  intros Hn. pose proof (token_unknown _ _ Hn) as Hu. unfold token_known. apply not_true_iff_false.
  intros (t & Hin & Hh)%existsb_exists. apply bool_decide_eq_true in Hh.
  apply list_elem_of_In, elem_of_rows in Hin as [k Hk]. cbn in Hk. unfold superseded in Hk.
  rewrite lookup_fmap in Hk. destruct (enrollment_tokens d !! k) as [t0|] eqn:H0; [|done].
  injection Hk as <-. apply (Hu _ _ H0). by destruct (outstanding ci lab at_ hostname t0).
Qed.
(** The tokens' rows after a regeneration. *)
Definition regenerated (plaintext : string) (lab actor at_ : Z) (hostname : string) (d : Db) : Db :=
  let d1 := d <| enrollment_tokens := superseded lab at_ hostname (enrollment_tokens d) |> in
  with_token d1 (new_token sha256 lab actor (at_ + days 7) plaintext hostname (next_enrollment_token_id d)).

Lemma regenerated_ok plaintext lab actor at_ hostname d :
  fleet_ok d → token_known d (sha256 plaintext) = false →
  fleet_ok (regenerated plaintext lab actor at_ hostname d).
Proof using Type.
  intros Hok Hn. apply with_token_ok; [by apply superseded_ok|done|by apply superseded_known].
Qed.

Lemma find_token_unique d k t :
  fleet_ok d → enrollment_tokens d !! k = Some t →
  find_token d (EnrollmentToken.token_hash t) (EnrollmentToken.lab_id t) = Some t.
Proof using Type.
  intros Hok Hk. apply head_filter_unique; [apply elem_of_rows; eauto|done|].
  intros t' [k' Hk']%elem_of_rows [Hh _].
  assert (k' = k) as -> by by eapply (fo_token_hash _ Hok). congruence.
Qed.

(** Whether a secret of a stored token opens a server that is not bound yet. *)
Lemma unbound_credential checkpw d later sid srv k t secret :
  fleet_ok d → servers d !! sid = Some srv → Server.is_active srv ≠ 0 → Server.agent_token_hash srv = None →
  enrollment_tokens d !! k = Some t → EnrollmentToken.lab_id t = Server.lab_id srv →
  EnrollmentToken.token_hash t = sha256 secret → EnrollmentToken.used_at t = None →
  credential_ok checkpw sha256 d later sid secret ↔ later < EnrollmentToken.expires_at t.
Proof using Type.
  intros Hok Hs Ha Hn Hk Hl Hh Hu. pose proof (find_token_unique _ _ _ Hok Hk) as Hf. rewrite Hh, Hl in Hf.
  unfold credential_ok. split.
  - intros (srv' & Hs' & _ & Hc). rewrite Hs in Hs'. injection Hs' as <-. rewrite Hn in Hc.
    destruct Hc as (t' & Ht' & _ & Hlt). congruence.
  - intros Hlt. exists srv. rewrite Hn. split_and!; [done..|]. exists t. split_and!; [done|by left|done].
Qed.

Lemma regenerate_run plaintext sid lab actor req s srv :
  clean s → fleet_ok (db s) → token_known (db s) (sha256 plaintext) = false →
  servers (db s) !! sid = Some srv → Server.lab_id srv = lab → Server.is_active srv ≠ 0 →
  ∃ e, AuditLog.action e = "server.enrollment_token.regenerate"%string ∧ AuditLog.target_id e = Some sid ∧
    regenerate_enrollment_token ci sha256 isoformat plaintext sid lab actor req s =
      (Ok (now s + days 7, EnrollmentToken.id <$> outstanding_rows lab (now s) (Server.hostname srv) (db s)),
       s <| db := regenerated plaintext lab actor (now s) (Server.hostname srv) (db s)
                    <| audit_log := audit_log (db s) ++ [e] |> |>).
Proof using Type.
  intros Hc Hok Hn Hs Hlab Ha. unfold regenerate_enrollment_token.
  pose proof (get_lab_server_run sid lab s) as Hget. rewrite Hs, bool_decide_eq_true_2 in Hget by done.
  rewrite (bind_run _ _ _ _ _ Hget). rewrite bool_decide_eq_false_2 by done.
  rewrite (bind_run (raise_if _ _) _ s tt s) by reflexivity.
  rewrite (bind_run utcnow _ s (now s) s) by reflexivity.
  rewrite (bind_run (gets _) _ s (outstanding_rows lab (now s) (Server.hostname srv) (db s)) s) by reflexivity.
  fold (ended (now s)). set (old := outstanding_rows lab (now s) (Server.hostname srv) (db s)).
  set (s1 := s <| db := db s <| enrollment_tokens :=
         superseded lab (now s) (Server.hostname srv) (enrollment_tokens (db s)) |> |>).
  rewrite (bind_run _ _ s tt s1).
  2:{ etransitivity; [exact (end_all_run (now s) old s)|]. unfold old. by rewrite superseded_run. }
  cbv zeta.
  set (s2 := s <| db := regenerated plaintext lab actor (now s) (Server.hostname srv) (db s) |>).
  set (t := new_token sha256 lab actor (now s + days 7) plaintext (Server.hostname srv)
              (next_enrollment_token_id (db s))).
  rewrite (bind_run _ _ s1 t s2) by (apply add_token_run, superseded_known, Hn).
  rewrite (bind_run flush _ s2 tt s2) by by apply flush_clean.
  destruct (audit_server_run "server.enrollment_token.regenerate" actor lab sid
    (JObj [("new_token_id", JInt (EnrollmentToken.id t));
           ("revoked_token_ids", JList (JInt <$> (EnrollmentToken.id <$> old)));
           ("expires_at", JStr (isoformat (now s + days 7)))]%string) req s2 Hc) as (e & He & He' & Hrun).
  exists e. split; [done|]. split; [done|]. by rewrite (bind_run _ _ _ _ _ Hrun).
Qed.

(** Regenerating a server's secret works on a live server of the lab only
    and otherwise changes nothing.  It expires at once every unused secret of
    the lab issued for that hostname, stores a new one and writes one entry.
    While no agent has enrolled as the server, the new secret admits one
    exactly for seven days and none of the ended ones admits any from now on.
    Once an agent has enrolled, whether a secret is accepted still depends on
    the hash bound then and on nothing this operation changed. *)
Theorem regenerate_enrollment_token_spec plaintext sid lab actor req s :
  clean s → fleet_ok (db s) → token_known (db s) (sha256 plaintext) = false →
  match servers (db s) !! sid with
  | Some srv =>
      if negb (bool_decide (Server.lab_id srv = lab))
      then regenerate_enrollment_token ci sha256 isoformat plaintext sid lab actor req s =
             (Raise ServerNotFoundError, s)
      else if bool_decide (Server.is_active srv = 0)
      then regenerate_enrollment_token ci sha256 isoformat plaintext sid lab actor req s = (Raise ServerError, s)
      else ∃ e, let old := outstanding_rows lab (now s) (Server.hostname srv) (db s) in
        let d' := regenerated plaintext lab actor (now s) (Server.hostname srv) (db s)
                    <| audit_log := audit_log (db s) ++ [e] |> in
        regenerate_enrollment_token ci sha256 isoformat plaintext sid lab actor req s =
          (Ok (now s + days 7, EnrollmentToken.id <$> old), s <| db := d' |>) ∧
        fleet_ok d' ∧
        match Server.agent_token_hash srv with
        | None => ∀ checkpw later,
            (credential_ok checkpw sha256 d' later sid plaintext ↔ later < now s + days 7) ∧
            (∀ t secret, t ∈ old → sha256 secret = EnrollmentToken.token_hash t → now s <= later →
               ¬ credential_ok checkpw sha256 d' later sid secret)
        | Some hash => ∀ checkpw later secret,
            credential_ok checkpw sha256 d' later sid secret ↔ checkpw secret hash = true
        end
  | None => regenerate_enrollment_token ci sha256 isoformat plaintext sid lab actor req s =
              (Raise ServerNotFoundError, s)
  end.
Proof using Type.
  intros Hc Hok Hn. pose proof (get_lab_server_run sid lab s) as Hget.
  destruct (servers (db s) !! sid) as [srv|] eqn:Hs;
    [|unfold regenerate_enrollment_token; by rewrite (bind_run_raise _ _ _ _ _ Hget)].
  destruct (bool_decide_reflect (Server.lab_id srv = lab)) as [Hlab|Hlab];
    [|unfold regenerate_enrollment_token; by rewrite (bind_run_raise _ _ _ _ _ Hget)]. simpl negb.
  destruct (bool_decide_reflect (Server.is_active srv = 0)) as [Ha|Ha].
  { unfold regenerate_enrollment_token. rewrite (bind_run _ _ _ _ _ Hget).
    by rewrite bool_decide_eq_true_2 by done. }
  cbv iota. destruct (regenerate_run plaintext sid lab actor req s srv) as (e & _ & _ & Hrun); [done..|].
  exists e. split; [exact Hrun|].
  pose proof (regenerated_ok plaintext lab actor (now s) (Server.hostname srv) (db s) Hok Hn) as Hok'.
  apply (fleet_ok_audit _ (audit_log (db s) ++ [e])) in Hok'. split; [exact Hok'|].
  destruct (Server.agent_token_hash srv) as [hash|] eqn:Hh; intros checkpw later.
  - intros secret. unfold credential_ok. split.
    + intros (srv' & Hs' & _ & Hcred). pose proof (eq_trans (eq_sym Hs) Hs') as [= <-]. by rewrite Hh in Hcred.
    + intros Hcred. exists srv. by rewrite Hh.
  - split.
    + apply (unbound_credential checkpw _ later sid srv (next_enrollment_token_id (db s))
        (new_token sha256 lab actor (now s + days 7) plaintext (Server.hostname srv)
           (next_enrollment_token_id (db s)))); try done.
      cbn. by rewrite lookup_insert_eq.
    + intros t secret [Ho [k Hk]%elem_of_rows]%list_elem_of_filter Hsec Hle Hcred.
      pose proof Ho as Ho'. unfold outstanding in Ho'.
      rewrite !andb_true_iff, !bool_decide_eq_true, negb_true_iff in Ho'. destruct Ho' as [[[Hl _] Hu] _].
      assert (Hk' : enrollment_tokens (regenerated plaintext lab actor (now s) (Server.hostname srv) (db s)
                <| audit_log := audit_log (db s) ++ [e] |>) !! k = Some (ended (now s) t)).
      { cbn. rewrite lookup_insert_ne by (destruct (fo_token _ Hok _ _ Hk); lia).
        unfold superseded. rewrite lookup_fmap, Hk. simpl. by rewrite Ho. }
      apply (unbound_credential checkpw _ later sid srv k (ended (now s) t)) in Hcred;
        [simpl in Hcred; lia|done..|simpl; congruence|by symmetry|].
      simpl. by destruct (EnrollmentToken.used_at t).
Qed.
End fleet.

(** ** Instances *)

(** The sample lab with one dangerous switch and an unused secret of the
    sample server, which no agent has enrolled as yet. *)
Definition kill_switch : AgentCapability.t :=
  AgentCapability.mk 7 1 "gpu.kill_process" 0 1 None 10.
Definition fleet_db : Db :=
  sample_db [] <| agent_capabilities := {[7 := kill_switch]} |> <| next_agent_capability_id := 8 |>
    <| enrollment_tokens := {[3 := EnrollmentToken.mk 3 1 "leaked" 100 None None (Some "gpu-01"%string) 10]} |>.
Definition fleet_session : Session := open_session fleet_db 50 "u".

Lemma fleet_db_ok : fleet_ok open_hash fleet_db.
Proof.
  split.
  - intros k r Hk. by apply (lookup_only _ _ _ _ _ eq_refl) in Hk as [-> ->].
  - intros k k' r r' Hk Hk' _ _. apply (lookup_only _ _ _ _ _ eq_refl) in Hk as [-> _].
    by apply (lookup_only _ _ _ _ _ eq_refl) in Hk' as [-> _].
  - intros k c Hk. by apply (lookup_only _ _ _ _ _ eq_refl) in Hk as [-> ->].
  - intros k k' c c' Hk Hk' _ _. apply (lookup_only _ _ _ _ _ eq_refl) in Hk as [-> _].
    by apply (lookup_only _ _ _ _ _ eq_refl) in Hk' as [-> _].
  - intros k t Hk. by apply (lookup_only _ _ _ _ _ eq_refl) in Hk as [-> ->].
  - intros k k' t t' Hk Hk' _. apply (lookup_only _ _ _ _ _ eq_refl) in Hk as [-> _].
    by apply (lookup_only _ _ _ _ _ eq_refl) in Hk' as [-> _].
Qed.

Lemma seeds_distinct_here : seeds_distinct open_hash.
Proof. apply (bool_decide_eq_true_1 _). vm_compute. reflexivity. Qed.

Definition no_iso (_ : Z) : string := "".

Lemma create_server_spec_witness :
  create_server open_hash open_hash no_iso "fresh" "gpu-01" None None None 1 10 no_request fleet_session =
    (Raise DuplicateHostnameError, fleet_session) ∧
  ∃ d', create_server open_hash open_hash no_iso "fresh" "gpu-02" None None None 1 10 no_request fleet_session =
    (Ok (new_server 1 10 "gpu-02" None None 2, 50 + days 7), fleet_session <| db := d' |>) ∧
    ∀ later, credential_ok open_check open_hash d' later 2 "fresh" ↔ later < 50 + days 7.
Proof.
  split.
  - apply (create_server_spec open_hash open_hash no_iso "fresh" "gpu-01" None None None 1 10 no_request fleet_session
      eq_refl fleet_db_ok seeds_distinct_here eq_refl eq_refl).
  - destruct (create_server_spec open_hash open_hash no_iso "fresh" "gpu-02" None None None 1 10 no_request fleet_session
      eq_refl fleet_db_ok seeds_distinct_here eq_refl eq_refl)
      as (d' & es & Hrun & _ & _ & _ & _ & _ & _ & _ & Hcred).
    exists d'. split; [exact Hrun|]. intros later. exact (Hcred open_check later).
Defined.

(** Ten letters. *)
Definition reason : pystr := [97; 98; 99; 100; 101; 102; 103; 104; 105; 106]%N.

Lemma update_capability_spec_witness :
  ∃ d', update_capability open_hash 1 "gpu.kill_process" true (Some reason) 10 1 no_request fleet_session =
    (Ok (toggled true (Some reason) 10 kill_switch), fleet_session <| db := d' |>) ∧ fleet_ok open_hash d'.
Proof.
  destruct (update_capability_spec open_hash 1 "gpu.kill_process" true (Some reason) 10 1 no_request
    fleet_session eq_refl fleet_db_ok) as [(_ & _ & Hno & _)|(_ & e & Hrun & _ & _ & Hok & _)].
  - destruct Hno. exists reason. split; [reflexivity|]. vm_compute. lia.
  - eexists. split; [exact Hrun|exact Hok].
Defined.

Lemma approve_server_spec_witness :
  approve_server no_iso 1 1 10 true None no_request fleet_session = (Raise ServerError, fleet_session).
Proof.
  rewrite (approve_server_spec no_iso 1 1 10 true None no_request fleet_session eq_refl). reflexivity.
Defined.

Lemma regenerate_enrollment_token_spec_witness :
  ∃ d', regenerate_enrollment_token open_hash open_hash no_iso "fresh" 1 1 10 no_request fleet_session =
    (Ok (50 + days 7, [3]), fleet_session <| db := d' |>) ∧
    credential_ok open_check open_hash d' 60 1 "fresh" ∧ ¬ credential_ok open_check open_hash d' 60 1 "leaked".
Proof.
  destruct (regenerate_enrollment_token_spec open_hash open_hash no_iso "fresh" 1 1 10 no_request fleet_session
    eq_refl fleet_db_ok eq_refl) as (e & Hrun & _ & Hcred).
  eexists. split; [exact Hrun|]. destruct (Hcred open_check 60) as [Hnew Hold]. split.
  - apply Hnew. reflexivity.
  - eapply Hold; [left|reflexivity|]. vm_compute. discriminate.
Defined.
