(* ===== verification/ReservationScheduler.v ===== *)
(** The reservation scheduler's tick
    ([backend/corelab_backend/services/reservation_scheduler.py]): promote,
    close, dispatch, watchdog, in one SERIALIZABLE transaction, then the
    RPCs. *)

From S2P Require Import Prelude Models SessionLayer AgentRpc AuditService.
From S2P Require Import NotificationService ReservationService ReservationLifecycle SerializableRetry.

Definition WATCHDOG_STUCK_SECONDS : Z := 60.
Definition WATCHDOG_MAX_DISPATCH_ATTEMPTS : Z := 3.

Definition _server_lab_id (server_id : Z) : M (option Z) :=
  server ← get_server server_id ;
  mret (Server.lab_id <$> server).

(** Rows of a query, processed in turn; the identity map shows each row's
    current state.  A row whose server is gone is skipped. *)
Definition for_rows {B} (l : list Reservation.t) (f : B → Reservation.t → Z → M B) (b : B) : M B :=
  fold_prog (λ acc row,
    lab ← _server_lab_id (Reservation.server_id row) ;
    match lab with
    | None => mret acc
    | Some lab_id => f acc row lab_id
    end) b l.

(** ** 1. Promote *)

Definition due_scheduled (at_ : Z) (r : Reservation.t) : bool :=
  bool_decide (Reservation.status r = STATUS_SCHEDULED) &&
  bool_decide (Reservation.start_at r <= at_).

Definition promote_row (at_ promoted : Z) (row : Reservation.t) (lab_id : Z) : M Z :=
  transition_to_active row lab_id "scheduler_start_at" None at_ ;;
  mret (promoted + 1).

Definition _promote_due_scheduled (at_ : Z) : M Z :=
  rs ← select_reservations (due_scheduled at_) ;
  for_rows rs (promote_row at_) 0.

(** ** 2. Close *)

Definition due_active (at_ : Z) (r : Reservation.t) : bool :=
  bool_decide (Reservation.status r = STATUS_ACTIVE) &&
  bool_decide (Reservation.end_at r <= at_).

Definition script_unclean (r : Reservation.t) : option ScriptStatus :=
  match Reservation.script_status r with
  | Some SCRIPT_FAILED => Some SCRIPT_FAILED
  | Some SCRIPT_KILLED => Some SCRIPT_KILLED
  | _ => None
  end.

(** (completed, failed) *)
Definition close_row (at_ : Z) (acc : Z * Z) (row : Reservation.t) (lab_id : Z) : M (Z * Z) :=
  match script_unclean row with
  | Some st =>
      transition_to_failed row lab_id ("script_" +:+ script_status_text st) "scheduler_end_at"
        None at_ ;;
      mret (acc.1, acc.2 + 1)
  | None =>
      transition_to_completed row lab_id "scheduler_end_at" None at_ ;;
      mret (acc.1 + 1, acc.2)
  end.

Definition _close_due_active (at_ : Z) : M (Z * Z) :=
  rs ← select_reservations (due_active at_) ;
  for_rows rs (close_row at_) (0, 0).

(** ** 3. Dispatch *)

(** [ExecuteScriptRequest], as built by [_build_execute_payload]. *)
Record ExecuteScriptRequest : Type := mkExecuteScriptRequest {
  ex_reservation_id : Z ;
  ex_linux_username : string ;
  ex_script : pystr ;
  ex_max_runtime_seconds : option Z ;
  ex_stdout_log_path_hint : string }.

Definition _build_execute_payload (row : Reservation.t) (linux_username : string) :
    M ExecuteScriptRequest :=
  script ← some_or_raise (Reservation.script row) AssertionError ;
  mret (mkExecuteScriptRequest (Reservation.id row) linux_username script
          (Reservation.script_max_runtime_seconds row)
          ("/home/" +:+ linux_username +:+ "/.corelab/jobs/" +:+
           pretty (Reservation.id row) +:+ ".log")).

(** A queued RPC: reservation, server, payload. *)
Abbreviation queued := (Z * Z * ExecuteScriptRequest)%type.

Definition due_script (at_ : Z) (r : Reservation.t) : bool :=
  bool_decide (Reservation.status r = STATUS_ACTIVE) &&
  is_some (Reservation.script r) &&
  match Reservation.script_scheduled_start_at r with
  | Some t => bool_decide (t <= at_)
  | None => false
  end &&
  bool_decide (Reservation.script_status r = None).

(** The join [reservation -> account_link -> physical_account]. *)
Definition linux_username_of (d : Db) (account_link_id : Z) : option string :=
  match account_links d !! account_link_id with
  | Some l => PhysicalAccount.linux_username <$>
                physical_accounts d !! AccountLink.physical_account_id l
  | None => None
  end.

(** One row of the joined query; a row without an account is not in it. *)
Definition dispatch_row (d : Db) (at_ : Z) (pending : list queued) (row : Reservation.t)
    (lab_id : Z) : M (list queued) :=
  match linux_username_of d (Reservation.account_link_id row) with
  | None => mret pending
  | Some linux_username =>
      row ← mark_script_dispatched row lab_id at_ None ;
      payload ← _build_execute_payload row linux_username ;
      mret (pending ++ [(Reservation.id row, Reservation.server_id row, payload)])
  end.

Definition _dispatch_due_scripts (at_ : Z) : M (list queued) :=
  d ← gets db ;
  rs ← select_reservations (due_script at_) ;
  for_rows rs (dispatch_row d at_) [].

(** ** 4. Watchdog *)

(** Audit rows of one action about one reservation. *)
Definition audit_count (action : string) (reservation_id : Z) (d : Db) : Z :=
  Z.of_nat (length (filter (λ e,
    AuditLog.action e = action ∧ AuditLog.target_type e = Some "reservation"%string ∧
    AuditLog.target_id e = Some reservation_id) (audit_log d))).

Definition _count_dispatch_failures (reservation_id : Z) : M Z :=
  gets (λ s, audit_count "reservation.script.dispatch_attempt_failed" reservation_id (db s)).

Definition _lifecycle_started_seen (reservation_id : Z) : M bool :=
  gets (λ s, bool_decide
    (0 < audit_count "reservation.script.lifecycle.started" reservation_id (db s))).

Definition stuck (at_ : Z) (r : Reservation.t) : bool :=
  bool_decide (Reservation.status r = STATUS_ACTIVE) &&
  bool_decide (Reservation.script_status r = Some SCRIPT_RUNNING) &&
  match Reservation.script_dispatch_started_at r with
  | Some t => bool_decide (t < at_ - seconds WATCHDOG_STUCK_SECONDS)
  | None => false
  end.

Definition giveup_reason : string :=
  "dispatch_" +:+ pretty WATCHDOG_MAX_DISPATCH_ATTEMPTS +:+ "x_failed_after_" +:+
  pretty WATCHDOG_STUCK_SECONDS +:+ "s".

(** The counters and the queue the watchdog's loop accumulates. *)
Record watchdog_acc : Type := mkWatchdog {
  cleared : Z ;
  retried : Z ;
  watchdog_failed : Z ;
  pending_retry : list queued }.
#[export] Instance eta_watchdog_acc : Eta watchdog_acc := λ a,
  mkWatchdog (cleared a) (retried a) (watchdog_failed a) (pending_retry a).

(** The retry of one stuck dispatch: the timer is bumped, the same payload
    queued again. *)
Definition watchdog_retry (at_ : Z) (acc : watchdog_acc) (row : Reservation.t) (lab_id attempts : Z)
    (linux_username : string) : M watchdog_acc :=
  payload ← _build_execute_payload row linux_username ;
  let row := row <| Reservation.script_dispatch_started_at := Some at_ |> in
  (set_reservation row ;; flush) ;;
  write "reservation.script.dispatch_retry" None (Some lab_id)
    (Some "reservation"%string) (Some (Reservation.id row)) (Some lab_id)
    (Some (Reservation.server_id row))
    (JObj [("attempt_number", JInt (attempts + 1)); ("dispatch_started_at", JTime at_);
           ("trigger", JStr "watchdog")]%string) no_request ;;
  mret (acc <| retried := retried acc + 1 |>
            <| pending_retry := pending_retry acc ++
                 [(Reservation.id row, Reservation.server_id row, payload)] |>).

Definition watchdog_row (at_ : Z) (acc : watchdog_acc) (row : Reservation.t) (lab_id : Z) :
    M watchdog_acc :=
  seen ← _lifecycle_started_seen (Reservation.id row) ;
  if (seen : bool) then
    (set_reservation (row <| Reservation.script_dispatch_started_at := None |>) ;; flush) ;;
    mret (acc <| cleared := cleared acc + 1 |>)
  else
    attempts ← _count_dispatch_failures (Reservation.id row) ;
    if bool_decide (WATCHDOG_MAX_DISPATCH_ATTEMPTS <= attempts) then
      transition_to_failed row lab_id giveup_reason "scheduler_watchdog_dispatch_giveup" None at_ ;;
      mret (acc <| watchdog_failed := watchdog_failed acc + 1 |>)
    else
      name ← gets (λ s, linux_username_of (db s) (Reservation.account_link_id row)) ;
      match name with
      | None => mret acc
      | Some linux_username => watchdog_retry at_ acc row lab_id attempts linux_username
      end.

Definition _retry_stuck_dispatches (at_ : Z) : M watchdog_acc :=
  rs ← select_reservations (stuck at_) ;
  for_rows rs (watchdog_row at_) (mkWatchdog 0 0 0 []).

(** ** The tick *)

(** The transaction of [_tick_body]: the RPCs to fire after the commit. *)
Definition tick_transaction : M (list queued * list queued) :=
  at_ ← utcnow ;
  _promote_due_scheduled at_ ;;
  _close_due_active at_ ;;
  pending_dispatch ← _dispatch_due_scripts at_ ;
  acc ← _retry_stuck_dispatches at_ ;
  mret (pending_dispatch, pending_retry acc).

(** [_tick_body] opens its own session on the durable database. *)
Definition _tick_body : prog (Db * list attempt) exn (list queued * list queued) :=
  run_attempt tick_transaction.

(** [_record_dispatch_attempt_failed], in its own transaction. *)
Definition _record_dispatch_attempt_failed (reservation_id server_id : Z)
    (error_class error_message : string) : M unit :=
  lab_id ← _server_lab_id server_id ;
  write "reservation.script.dispatch_attempt_failed" None lab_id (Some "reservation"%string)
    (Some reservation_id) lab_id (Some server_id)
    (JObj [("reason", JStr error_message); ("error_class", JStr error_class)]%string) no_request.

Definition obj_lookup (k : string) (p : list (string * json)) : option json :=
  snd <$> head (filter (λ kv, kv.1 = k) p).

Definition json_true (o : option json) : bool :=
  match o with Some (JBool true) => true | _ => false end.

(** [_dispatch_one], given the outcome of the RPC: did the attempt fail, and
    with which class; an exception it does not catch ends the task. *)
Definition dispatch_failure (reply : rpc_result) : option string :=
  match reply with
  | Raise AgentOfflineError => Some "AgentOfflineError"%string
  | Raise AgentRpcTimeoutError => Some "AgentRpcTimeoutError"%string
  | Raise UnexpectedResponseTypeError => Some "UnexpectedResponseTypeError"%string
  | Raise _ => None
  | Ok response =>
      if json_true (obj_lookup "ok" response) && json_true (obj_lookup "started" response)
      then None else Some "AgentRejectedScriptExecution"%string
  end.

Definition _dispatch_one (q : queued) (reply : rpc_result) (message : string) (at_ : Z) (d : Db) : Db :=
  let '(reservation_id, server_id, _) := q in
  match dispatch_failure reply with
  | Some cls =>
      (transaction (_record_dispatch_attempt_failed reservation_id server_id cls message) d at_).2
  | None => d
  end.

(** [reservation_tick]: the retried transaction, then the queue of RPCs. *)
Definition reservation_tick (attempts : list attempt) (d : Db) : result exn (list queued) * Db :=
  let '(r, _, (d', _)) := with_serializable_retry _tick_body 5 50 (d, attempts) in
  match r with
  | Ok (pending_dispatch, pending_retry) => (Ok (pending_dispatch ++ pending_retry), d')
  | Raise e => (Raise e, d')
  end.
