(* ===== verification/SchedulerProperties.v ===== *)
(** The tick refines a per-row specification.

    [tick_row] says what one tick does to one reservation; the theorems show
    that the transaction of [ReservationScheduler] rewrites the whole table
    by exactly that function, that it never raises, that a second tick at
    the same instant does nothing, and that a dispatch is queued once. *)

From S2P Require Import Prelude Models SessionLayer Samples AgentRpc.
From S2P Require Import AuditService NotificationService ReservationService ReservationLifecycle SerializableRetry.
From S2P Require Import ReservationScheduler.

(** ** How a phase of the tick changes the session

    Only the reservation table is rewritten; the audit log grows by entries
    of the given actions, the notifications grow. *)
Record evolves (acts : list string) (s s' : Session) : Prop := mkEvolves {
  ev_committed : committed s' = committed s ;
  ev_clean : clean s' ;
  ev_now : now s' = now s ;
  ev_db : ∃ tbl es ns,
    db s' = db s <| reservations := tbl |> <| audit_log := audit_log (db s) ++ es |>
                 <| notifications := notifications (db s) ++ ns |> ∧
    Forall (λ e, AuditLog.action e ∈ acts) es }.

Lemma evolves_refl acts s : clean s → evolves acts s s.
Proof.
  intros H. split; [done..|]. exists (reservations (db s)), [], [].
  split; [|done]. rewrite !app_nil_r. by destruct s as [? [] ?].
Qed.

Lemma evolves_trans acts s1 s2 s3 : evolves acts s1 s2 → evolves acts s2 s3 → evolves acts s1 s3.
Proof.
  intros [H1 _ H2 (t & es & ns & Hd & Ha)] [H1' Hc H2' (t' & es' & ns' & Hd' & Ha')].
  split; [congruence|done|congruence|]. exists t', (es ++ es'), (ns ++ ns').
  split; [rewrite Hd', Hd; simpl; by rewrite !app_assoc|]. by apply Forall_app.
Qed.

Lemma evolves_mono acts acts' s s' : acts ⊆ acts' → evolves acts s s' → evolves acts' s s'.
Proof.
  intros Hs [H1 H2 H3 (t & es & ns & Hd & Ha)]. split; [done..|]. exists t, es, ns.
  split; [done|]. eapply Forall_impl; [exact Ha|]. simpl. set_solver.
Qed.

Lemma updated_evolves s s' row acts : updated s s' row acts → evolves acts s s'.
Proof.
  intros [H1 H2 [H3 _] (es & ns & He & Hd)]. split; [done..|].
  exists (<[Reservation.id row := row]> (reservations (db s))), es, ns. split; [done|].
  apply Forall_forall. intros e Hin. rewrite <- He. by apply list_elem_of_fmap_2.
Qed.

Lemma evolves_servers acts s s' : evolves acts s s' → servers (db s') = servers (db s).
Proof. by intros [_ _ _ (? & ? & ? & -> & _)]. Qed.

Lemma evolves_linux_username acts s s' l :
  evolves acts s s' → linux_username_of (db s') l = linux_username_of (db s) l.
Proof. by intros [_ _ _ (? & ? & ? & -> & _)]. Qed.

Lemma evolves_audit acts s s' : evolves acts s s' → audit_extends (db s) (db s').
Proof. intros [_ _ _ (? & es & ? & -> & _)]. by exists es. Qed.

(** The counts the watchdog reads are not moved by the tick's own entries. *)
Lemma evolves_audit_count acts s s' action k :
  evolves acts s s' → action ∉ acts → audit_count action k (db s') = audit_count action k (db s).
Proof.
  intros [_ _ _ (? & es & ? & -> & Ha)] Hn. unfold audit_count. simpl.
  rewrite filter_app, length_app.
  assert (filter (λ e, AuditLog.action e = action ∧ AuditLog.target_type e = Some "reservation"%string ∧
    AuditLog.target_id e = Some k) es = []) as ->; [|simpl; lia].
  induction Ha as [|e es He _ IH]; [done|]. rewrite filter_cons_False; [done|].
  intros [<- _]. done.
Qed.

(** ** One query, one loop *)

Definition has_server (d : Db) (r : Reservation.t) : bool :=
  is_some (servers d !! Reservation.server_id r).

Definition applies (d : Db) (P : Reservation.t → bool) (r : Reservation.t) : bool :=
  P r && has_server d r.

(** What the loop does to the table. *)
Definition rewrite_rows (d : Db) (P : Reservation.t → bool) (h : Reservation.t → Reservation.t) :
    gmap Z Reservation.t → gmap Z Reservation.t :=
  fmap (λ r, if applies d P r then h r else r).

Lemma _server_lab_id_run k s :
  _server_lab_id k s = (Ok (Server.lab_id <$> servers (db s) !! k), s).
Proof. done. Qed.

Lemma NoDup_fmap_filter {A C} (q : A → C) (Q : A → Prop) `{∀ x, Decision (Q x)} l :
  NoDup (q <$> l) → NoDup (q <$> filter Q l).
Proof.
  induction l as [|x l IH]; [done|]. rewrite fmap_cons. intros [Hx Hl]%NoDup_cons.
  rewrite filter_cons. case_decide; [|auto]. rewrite fmap_cons. apply NoDup_cons. split; [|auto].
  intros (y & Hy & [_ Hin]%list_elem_of_filter)%list_elem_of_fmap. apply Hx. rewrite Hy.
  by apply list_elem_of_fmap_2.
Qed.

Lemma NoDup_ids_filter d (Q : Reservation.t → Prop) `{∀ x, Decision (Q x)} :
  db_ok d → NoDup (Reservation.id <$> filter Q (rows (reservations d))).
Proof.
  intros Hdb. apply NoDup_fmap_filter, rows_ids_NoDup. intros k r. by apply db_ok_id.
Qed.

Section apply.
Context (h : Reservation.t → Reservation.t).
Hypothesis h_id : ∀ r, Reservation.id (h r) = Reservation.id r.

Definition apply_rows (l : list Reservation.t) (t : gmap Z Reservation.t) :
    gmap Z Reservation.t :=
  foldl (λ t r, <[Reservation.id r := h r]> t) t l.

(** The loop over the result of a query rewrites the table pointwise. *)
Lemma lookup_apply_rows l t k :
  NoDup (Reservation.id <$> l) →
  (∀ r, r ∈ l → t !! Reservation.id r = Some r) →
  (∀ k r, t !! k = Some r → Reservation.id r = k) →
  apply_rows l t !! k = (λ r, if decide (r ∈ l) then h r else r) <$> t !! k.
Proof using h_id.
  revert t. induction l as [|r l IH]; intros t Hnd Hl Hid.
  { simpl apply_rows. destruct (t !! k) as [r|]; [|done]. apply (f_equal Some).
    case_decide as Hin; [by apply elem_of_nil in Hin|done]. }
  rewrite fmap_cons in Hnd. apply NoDup_cons in Hnd as [Hr Hnd]. simpl.
  assert (Hlr : t !! Reservation.id r = Some r) by (apply Hl; left).
  rewrite IH; [|done|..].
  - rewrite lookup_insert. case_decide as Hk.
    + subst k. rewrite Hlr. apply (f_equal Some).
      destruct (decide (r ∈ r :: l)) as [_|Hn]; [|exfalso; apply Hn; left].
      case_decide as Hin; [|done]. exfalso. apply Hr. rewrite <- (h_id r).
      by apply list_elem_of_fmap_2.
    + destruct (t !! k) as [r'|] eqn:Hk'; [|done]. apply (f_equal Some).
      assert (r' ≠ r) by (intros ->; apply Hk; by eapply Hid).
      apply decide_ext. set_solver.
  - intros r' Hr'. rewrite lookup_insert_ne; [apply Hl; by right|].
    intros Heq. apply Hr. rewrite Heq. by apply list_elem_of_fmap_2.
  - intros k' r'. rewrite lookup_insert. case_decide; [|apply Hid].
    intros [= <-]. by rewrite h_id.
Qed.
End apply.

Section loop.
Context {B : Type} (acts : list string) (f : B → Reservation.t → Z → M B)
  (P : Reservation.t → bool) (Q : Reservation.t → Prop)
  (h : Reservation.t → Reservation.t) (g : B → Reservation.t → B) (s0 : Session).
Hypothesis h_id : ∀ r, Reservation.id (h r) = Reservation.id r.

(** The body, run on a stored row of the query. *)
Hypothesis f_run : ∀ b r lab s,
  evolves acts s0 s → session_ok s → reservations (db s) !! Reservation.id r = Some r →
  P r = true → Q r →
  ∃ s', f b r lab s = (Ok (g b r), s') ∧ evolves acts s s' ∧ session_ok s' ∧
        reservations (db s') = <[Reservation.id r := h r]> (reservations (db s)).

Definition visited (l : list Reservation.t) : list Reservation.t :=
  filter (λ r, has_server (db s0) r = true) l.

Lemma for_rows_run l b s :
  evolves acts s0 s → session_ok s → NoDup (Reservation.id <$> l) →
  (∀ r, r ∈ l → reservations (db s) !! Reservation.id r = Some r ∧ P r = true ∧ Q r) →
  ∃ s', for_rows l f b s = (Ok (foldl g b (visited l)), s') ∧
        evolves acts s0 s' ∧ session_ok s' ∧
        reservations (db s') = apply_rows h (visited l) (reservations (db s)).
Proof using h_id f_run.
  revert b s. induction l as [|r l IH]; intros b s He Hs Hnd Hl.
  { exists s. split_and!; done. }
  apply NoDup_cons in Hnd as [Hr Hnd].
  destruct (Hl r) as (Hrow & HP & HQ); [left|].
  unfold for_rows. simpl.
  unfold visited. rewrite filter_cons. fold (visited l).
  assert (Hsrv : has_server (db s0) r = is_some (servers (db s) !! Reservation.server_id r)).
  { unfold has_server. by rewrite (evolves_servers _ _ _ He). }
  destruct (servers (db s) !! Reservation.server_id r) as [srv|] eqn:Hsv.
  - rewrite Hsrv. simpl. destruct (f_run b r (Server.lab_id srv) s) as (s1 & Hf & He1 & Hs1 & Ht1);
      [done..|].
    destruct (IH (g b r) s1) as (s' & Hrun & He' & Hs' & Ht').
    + by eapply evolves_trans.
    + done.
    + done.
    + intros r' Hr'. split; [|apply Hl; by right]. rewrite Ht1, lookup_insert_ne.
      * apply Hl. by right.
      * intros Heq. apply Hr. rewrite Heq. by apply list_elem_of_fmap_2.
    + exists s'. split_and!; [|done|done|by rewrite Ht', Ht1].
      rewrite (bind_run _ _ s (g b r) s1); [exact Hrun|].
      rewrite (bind_run _ _ _ _ _ (_server_lab_id_run _ _)), Hsv. exact Hf.
  - rewrite Hsrv. simpl. destruct (IH b s) as (s' & Hrun & He' & Hs' & Ht'); [done..| |].
    { intros r' Hr'. apply Hl. by right. }
    exists s'. split_and!; [|done..].
    rewrite (bind_run _ _ s b s); [exact Hrun|].
    by rewrite (bind_run _ _ _ _ _ (_server_lab_id_run _ _)), Hsv.
Qed.

Lemma query_loop_run b s :
  evolves acts s0 s → session_ok s →
  (∀ k r, reservations (db s) !! k = Some r → Q r) →
  ∃ l s', (rs ← select_reservations P ; for_rows rs f b) s = (Ok (foldl g b l), s') ∧
    evolves acts s0 s' ∧ session_ok s' ∧
    (∀ r, r ∈ l ↔ applies (db s0) P r = true ∧ ∃ k, reservations (db s) !! k = Some r) ∧
    NoDup (Reservation.id <$> l) ∧
    reservations (db s') = rewrite_rows (db s0) P h (reservations (db s)).
Proof using h_id f_run.
  intros He Hs HQ. pose proof Hs as [Hc Hdb].
  set (l := filter (λ r, P r = true) (rows (reservations (db s)))).
  assert (Hin : ∀ r, r ∈ l ↔ P r = true ∧ ∃ k, reservations (db s) !! k = Some r).
  { intros r. unfold l. by rewrite list_elem_of_filter, elem_of_rows. }
  assert (Hstored : ∀ r, r ∈ l → reservations (db s) !! Reservation.id r = Some r ∧ P r = true ∧ Q r).
  { intros r [HP [k Hk]]%Hin. split; [by eapply db_ok_lookup_id|eauto]. }
  assert (Hnd : NoDup (Reservation.id <$> l)) by by apply NoDup_ids_filter.
  destruct (for_rows_run l b s He Hs Hnd Hstored) as (s' & Hrun & He' & Hs' & Ht').
  exists (visited l), s'. split_and!; [|done|done| | |].
  - rewrite (bind_run _ _ s l s); [exact Hrun|]. by apply select_clean.
  - intros r. unfold visited, applies. rewrite list_elem_of_filter, Hin, andb_true_iff. tauto.
  - unfold visited. by apply NoDup_fmap_filter.
  - rewrite Ht'. apply map_eq. intros k. unfold rewrite_rows. rewrite lookup_fmap.
    rewrite (lookup_apply_rows h h_id).
    + destruct (reservations (db s) !! k) as [r|] eqn:Hk; [|done]. simpl. f_equal.
      unfold applies. destruct (decide (r ∈ visited l)) as [Hv|Hv].
      * unfold visited in Hv. apply list_elem_of_filter in Hv as [Hv [HP _]%Hin].
        by rewrite HP, Hv.
      * destruct (P r && has_server (db s0) r) eqn:Ha; [|done].
        apply andb_true_iff in Ha as [HP Hv']. exfalso. apply Hv.
        unfold visited. apply list_elem_of_filter. split; [done|]. apply Hin. eauto.
    + unfold visited. by apply NoDup_fmap_filter.
    + intros r Hr. apply Hstored. unfold visited in Hr. by apply list_elem_of_filter in Hr as [_ ?].
    + intros k' r. by apply db_ok_id.
Qed.
End loop.

(** ** The phases *)

(** The actions the tick writes. *)
Definition tick_actions : list string :=
  ["reservation.transition"; "reservation.script.dispatched";
   "reservation.script.dispatch_retry"]%string.

Lemma updated_run s s' row acts k r :
  session_ok s → updated s s' row acts → acts ⊆ tick_actions →
  reservations (db s) !! k = Some r → Reservation.id row = k → reservation_row_ok row →
  evolves tick_actions s s' ∧ session_ok s' ∧
  reservations (db s') = <[k := row]> (reservations (db s)).
Proof.
  intros Hs Hu Ha Hk <- Hok. split_and!.
  - eapply evolves_mono; [exact Ha|by eapply updated_evolves].
  - eapply updated_ok; eauto.
  - by eapply updated_reservations.
Qed.

(** [scheduled -> active] when the start has arrived. *)
Definition promoted (r : Reservation.t) : Reservation.t :=
  r <| Reservation.status := STATUS_ACTIVE |>.

(** [active -> completed / failed] when the end has arrived. *)
Definition closed (r : Reservation.t) : Reservation.t :=
  match script_unclean r with
  | Some st => failed_row r ("script_" +:+ script_status_text st)
  | None => r <| Reservation.status := STATUS_COMPLETED |>
  end.

(** The dispatch mark. *)
Definition dispatched (at_ : Z) (r : Reservation.t) : Reservation.t :=
  r <| Reservation.script_status := Some SCRIPT_RUNNING |>
    <| Reservation.script_dispatch_started_at := Some at_ |>.

(** The RPC queued for a row: its owner's account and its script. *)
Definition execute_request (d : Db) (r : Reservation.t) : option queued :=
  match linux_username_of d (Reservation.account_link_id r), Reservation.script r with
  | Some u, Some body =>
      Some (Reservation.id r, Reservation.server_id r,
            mkExecuteScriptRequest (Reservation.id r) u body
              (Reservation.script_max_runtime_seconds r)
              ("/home/" +:+ u +:+ "/.corelab/jobs/" +:+ pretty (Reservation.id r) +:+ ".log"))
  | _, _ => None
  end.

Inductive watchdog_verdict : Type := self_heal | giveup | retry | leave.

Definition watchdog_decides (d : Db) (r : Reservation.t) : watchdog_verdict :=
  if bool_decide (0 < audit_count "reservation.script.lifecycle.started" (Reservation.id r) d)
  then self_heal
  else if bool_decide (WATCHDOG_MAX_DISPATCH_ATTEMPTS <=
            audit_count "reservation.script.dispatch_attempt_failed" (Reservation.id r) d)
  then giveup
  else if is_some (linux_username_of d (Reservation.account_link_id r)) then retry else leave.

Definition watched (d : Db) (at_ : Z) (r : Reservation.t) : Reservation.t :=
  match watchdog_decides d r with
  | self_heal => r <| Reservation.script_dispatch_started_at := None |>
  | giveup => failed_row r giveup_reason
  | retry => r <| Reservation.script_dispatch_started_at := Some at_ |>
  | leave => r
  end.

Lemma promote_run at_ s0 s :
  evolves tick_actions s0 s → session_ok s →
  ∃ n s', _promote_due_scheduled at_ s = (Ok n, s') ∧ evolves tick_actions s0 s' ∧ session_ok s' ∧
    reservations (db s') = rewrite_rows (db s0) (due_scheduled at_) promoted (reservations (db s)).
Proof.
  intros He Hs.
  edestruct (query_loop_run tick_actions (promote_row at_) (due_scheduled at_) (λ _, True)
    promoted (λ n _, n + 1) s0) with (b := 0) (s := s)
    as (l & s' & Hrun & He' & Hs' & _ & _ & Ht);
    [done| |exact He|exact Hs|done|eexists _, s'; split_and!; [exact Hrun|done..]].
  intros b r lab s1 He1 Hs1 Hrow [Hst _]%andb_true_iff _. apply bool_decide_eq_true in Hst.
  pose proof (db_ok_row _ _ _ (proj2 Hs1) Hrow) as Hok. unfold promote_row.
  destruct (transition_to_active_run r lab "scheduler_start_at" None at_ s1 Hs1 Hok Hst)
    as (s2 & Hr & Hu).
  exists s2. split; [by rewrite (bind_run _ _ _ _ _ Hr)|].
  eapply updated_run; [exact Hs1|exact Hu|set_solver|exact Hrow|done|exact Hok].
Qed.

Lemma closed_id r : Reservation.id (closed r) = Reservation.id r.
Proof. unfold closed, failed_row. destruct (script_unclean r); [|done]. by destruct (str_truthy _). Qed.

Lemma failed_row_ok r reason : reservation_row_ok r → reservation_row_ok (failed_row r reason).
Proof. unfold failed_row. by destruct (str_truthy _). Qed.

Lemma close_run at_ s0 s :
  evolves tick_actions s0 s → session_ok s →
  ∃ n s', _close_due_active at_ s = (Ok n, s') ∧ evolves tick_actions s0 s' ∧ session_ok s' ∧
    reservations (db s') = rewrite_rows (db s0) (due_active at_) closed (reservations (db s)).
Proof.
  intros He Hs.
  edestruct (query_loop_run tick_actions (close_row at_) (due_active at_) (λ _, True) closed
    (λ acc r, match script_unclean r with
              | Some _ => (acc.1, acc.2 + 1) | None => (acc.1 + 1, acc.2) end) s0 closed_id)
    with (b := (0, 0)) (s := s) as (l & s' & Hrun & He' & Hs' & _ & _ & Ht);
    [|exact He|exact Hs|done|eexists _, s'; split_and!; [exact Hrun|done..]].
  intros b r lab s1 He1 Hs1 Hrow [Hst _]%andb_true_iff _. apply bool_decide_eq_true in Hst.
  pose proof (db_ok_row _ _ _ (proj2 Hs1) Hrow) as Hok. unfold closed, close_row.
  destruct (script_unclean r) as [st|] eqn:Hsu.
  - destruct (transition_to_failed_run r lab ("script_" +:+ script_status_text st)
      "scheduler_end_at" None at_ s1 Hs1 Hok Hst) as (s2 & Hr & Hu).
    exists s2. split; [by rewrite (bind_run _ _ _ _ _ Hr)|].
    pose proof (closed_id r) as Hid. unfold closed in Hid. rewrite Hsu in Hid.
    eapply updated_run; [exact Hs1|exact Hu|set_solver|exact Hrow|exact Hid|].
    by apply failed_row_ok.
  - destruct (transition_to_completed_run r lab "scheduler_end_at" None at_ s1 Hs1 Hok Hst)
      as (s2 & Hr & Hu).
    exists s2. split; [by rewrite (bind_run _ _ _ _ _ Hr)|].
    eapply updated_run; [exact Hs1|exact Hu|set_solver|exact Hrow|done|exact Hok].
Qed.

Lemma foldl_queue {A C} (q : A → option C) (l : list A) (b : list C) :
  foldl (λ b r, match q r with Some x => b ++ [x] | None => b end) b l = b ++ omap q l.
Proof.
  revert b. induction l as [|x l IH]; intros b; simpl; [by rewrite app_nil_r|].
  rewrite IH. destruct (q x); [by rewrite <- app_assoc|done].
Qed.

(** The dispatch query, with the inner join. *)
Definition dispatches (d : Db) (at_ : Z) (r : Reservation.t) : bool :=
  due_script at_ r && is_some (linux_username_of d (Reservation.account_link_id r)).

Definition dispatch_mark (d : Db) (at_ : Z) (r : Reservation.t) : Reservation.t :=
  if is_some (linux_username_of d (Reservation.account_link_id r)) then dispatched at_ r else r.

Lemma dispatch_mark_id d at_ r : Reservation.id (dispatch_mark d at_ r) = Reservation.id r.
Proof. unfold dispatch_mark. by destruct (is_some _). Qed.

Lemma due_script_spec at_ r :
  due_script at_ r = true ↔
  Reservation.status r = STATUS_ACTIVE ∧ is_Some (Reservation.script r) ∧
  (∃ t, Reservation.script_scheduled_start_at r = Some t ∧ t <= at_) ∧
  Reservation.script_status r = None.
Proof.
  unfold due_script. rewrite !andb_true_iff, !bool_decide_eq_true.
  destruct (Reservation.script r), (Reservation.script_scheduled_start_at r); simpl;
    rewrite ?bool_decide_eq_true; naive_solver.
Qed.

Lemma dispatch_run at_ s0 s :
  evolves tick_actions s0 s → session_ok s →
  ∃ l s', _dispatch_due_scripts at_ s = (Ok (omap (execute_request (db s0)) l), s') ∧
    evolves tick_actions s0 s' ∧ session_ok s' ∧
    (∀ r, r ∈ l ↔ applies (db s0) (due_script at_) r = true ∧ ∃ k, reservations (db s) !! k = Some r) ∧
    NoDup (Reservation.id <$> l) ∧
    reservations (db s') =
      rewrite_rows (db s0) (due_script at_) (dispatch_mark (db s0) at_) (reservations (db s)).
Proof.
  intros He Hs. unfold _dispatch_due_scripts. rewrite (bind_run (gets db) _ s (db s) s) by done.
  edestruct (query_loop_run tick_actions (dispatch_row (db s) at_) (due_script at_) (λ _, True)
    (dispatch_mark (db s0) at_)
    (λ b r, match execute_request (db s0) r with Some x => b ++ [x] | None => b end) s0)
    with (b := @nil queued) (s := s) as (l & s' & Hrun & He' & Hs' & Hl & Hnd & Ht);
    [apply dispatch_mark_id| |exact He|exact Hs|done|
     exists l, s'; split_and!; [by rewrite Hrun, foldl_queue|done..]].
  intros b r lab s1 He1 Hs1 Hrow Hdue _.
  apply due_script_spec in Hdue as (Hst & [body Hb] & _ & Hss).
  pose proof (db_ok_row _ _ _ (proj2 Hs1) Hrow) as Hok.
  unfold dispatch_row, dispatch_mark, execute_request.
  rewrite (evolves_linux_username _ _ _ _ He), Hb.
  destruct (linux_username_of (db s0) (Reservation.account_link_id r)) as [u|]; simpl is_some.
  2:{ exists s1. split; [done|]. split; [by apply evolves_refl, Hs1|]. split; [done|].
      by rewrite insert_id. }
  destruct (mark_script_dispatched_run r lab at_ None s1 Hs1 Hok Hst Hss) as (s2 & Hr & Hu).
  exists s2. split.
  - rewrite (bind_run _ _ _ _ _ Hr). unfold _build_execute_payload. simpl. by rewrite Hb.
  - eapply updated_run; [exact Hs1|exact Hu|set_solver|exact Hrow|done|exact Hok].
Qed.

(** A dispatched row has a script to send again. *)
Definition dispatch_has_script (r : Reservation.t) : Prop :=
  is_Some (Reservation.script_dispatch_started_at r) → is_Some (Reservation.script r).

Lemma stuck_spec at_ r :
  stuck at_ r = true ↔
  Reservation.status r = STATUS_ACTIVE ∧ Reservation.script_status r = Some SCRIPT_RUNNING ∧
  ∃ t, Reservation.script_dispatch_started_at r = Some t ∧ t < at_ - seconds WATCHDOG_STUCK_SECONDS.
Proof.
  unfold stuck. rewrite !andb_true_iff, !bool_decide_eq_true.
  destruct (Reservation.script_dispatch_started_at r); [rewrite bool_decide_eq_true|]; naive_solver.
Qed.

Lemma watched_id d at_ r : Reservation.id (watched d at_ r) = Reservation.id r.
Proof.
  unfold watched, failed_row. destruct (watchdog_decides d r); [done| |done..].
  by destruct (str_truthy _).
Qed.

(** The counters and the queue after one row. *)
Definition watchdog_tally (d : Db) (acc : watchdog_acc) (r : Reservation.t) : watchdog_acc :=
  match watchdog_decides d r with
  | self_heal => acc <| cleared := cleared acc + 1 |>
  | giveup => acc <| watchdog_failed := watchdog_failed acc + 1 |>
  | retry => match execute_request d r with
             | Some q => acc <| retried := retried acc + 1 |>
                             <| pending_retry := pending_retry acc ++ [q] |>
             | None => acc
             end
  | leave => acc
  end.

Definition retry_request (d : Db) (r : Reservation.t) : option queued :=
  match watchdog_decides d r with retry => execute_request d r | _ => None end.

Lemma foldl_tally d l acc :
  pending_retry (foldl (watchdog_tally d) acc l) = pending_retry acc ++ omap (retry_request d) l.
Proof.
  revert acc. induction l as [|r l IH]; intros acc; simpl; [by rewrite app_nil_r|].
  rewrite IH. unfold watchdog_tally, retry_request.
  destruct (watchdog_decides d r); [done..| |done].
  destruct (execute_request d r); [simpl; by rewrite <- app_assoc|done].
Qed.

Lemma watchdog_row_cases at_ acc r lab s :
  watchdog_row at_ acc r lab s =
    match watchdog_decides (db s) r with
    | self_heal =>
        (set_reservation (r <| Reservation.script_dispatch_started_at := None |>) ;; flush) ;;
        mret (acc <| cleared := cleared acc + 1 |>)
    | giveup =>
        transition_to_failed r lab giveup_reason "scheduler_watchdog_dispatch_giveup" None at_ ;;
        mret (acc <| watchdog_failed := watchdog_failed acc + 1 |>)
    | retry =>
        watchdog_retry at_ acc r lab
          (audit_count "reservation.script.dispatch_attempt_failed" (Reservation.id r) (db s))
          (default "" (linux_username_of (db s) (Reservation.account_link_id r)))%string
    | leave => mret acc
    end s.
Proof.
  unfold watchdog_row, watchdog_decides, _lifecycle_started_seen, _count_dispatch_failures.
  rewrite (bind_run (gets _) _ s _ s) by reflexivity. case_bool_decide; [done|].
  rewrite (bind_run (gets _) _ s _ s) by reflexivity. case_bool_decide; [done|].
  rewrite (bind_run (gets _) _ s _ s) by reflexivity. by destruct (linux_username_of _ _).
Qed.

Lemma watchdog_decides_evolves s0 s r :
  evolves tick_actions s0 s → watchdog_decides (db s) r = watchdog_decides (db s0) r.
Proof.
  intros He. unfold watchdog_decides.
  rewrite (evolves_linux_username _ _ _ _ He), !(evolves_audit_count _ _ _ _ _ He);
    [done|clear; set_solver..].
Qed.

Lemma retry_has_name d r :
  watchdog_decides d r = retry → is_Some (linux_username_of d (Reservation.account_link_id r)).
Proof.
  unfold watchdog_decides. repeat case_bool_decide; [done..|].
  destruct (linux_username_of _ _); [by eexists|done].
Qed.

Section watchdog.
Context (at_ : Z) (s0 s : Session) (acc : watchdog_acc) (r : Reservation.t) (lab : Z).
Hypothesis He : evolves tick_actions s0 s.
Hypothesis Hs : session_ok s.
Hypothesis Hrow : reservations (db s) !! Reservation.id r = Some r.
Hypothesis Hok : reservation_row_ok r.
Hypothesis Hst : Reservation.status r = STATUS_ACTIVE.

Definition row_saved {A} (m : M A) (a : A) : Prop :=
  ∃ s', m s = (Ok a, s') ∧ evolves tick_actions s s' ∧ session_ok s' ∧
    reservations (db s') = <[Reservation.id r := watched (db s0) at_ r]> (reservations (db s)).

Lemma row_saved_bind {A} (m : M A) a (b : watchdog_acc) :
  row_saved m a → row_saved (m ;; mret b) b.
Proof using. intros (s' & H & H'). exists s'. by rewrite (bind_run _ _ _ _ _ H). Qed.

Lemma heal_run :
  watchdog_decides (db s0) r = self_heal →
  row_saved (set_reservation (r <| Reservation.script_dispatch_started_at := None |>) ;; flush) tt.
Proof using Hs Hrow Hok.
  intros Hd. unfold row_saved, watched. rewrite Hd.
  destruct (save_updated (r <| Reservation.script_dispatch_started_at := None |>) s)
    as (s1 & Hr & Hu); [apply Hs|exact Hok|].
  exists s1. split; [exact Hr|].
  eapply updated_run; [exact Hs|exact Hu|clear; set_solver|exact Hrow|done|exact Hok].
Qed.

Lemma giveup_run :
  watchdog_decides (db s0) r = giveup →
  row_saved (transition_to_failed r lab giveup_reason "scheduler_watchdog_dispatch_giveup" None at_)
    (failed_row r giveup_reason).
Proof using Hs Hrow Hok Hst.
  intros Hd. unfold row_saved.
  pose proof (watched_id (db s0) at_ r) as Hid. unfold watched in *. rewrite Hd in *.
  destruct (transition_to_failed_run r lab giveup_reason "scheduler_watchdog_dispatch_giveup"
    None at_ s Hs Hok Hst) as (s1 & Hr & Hu).
  exists s1. split; [exact Hr|].
  eapply updated_run; [exact Hs|exact Hu|clear; set_solver|exact Hrow|exact Hid|].
  by apply failed_row_ok.
Qed.

Lemma retry_run attempts u body :
  watchdog_decides (db s0) r = retry →
  linux_username_of (db s0) (Reservation.account_link_id r) = Some u →
  Reservation.script r = Some body →
  row_saved (watchdog_retry at_ acc r lab attempts u) (watchdog_tally (db s0) acc r).
Proof using Hs Hrow Hok.
  intros Hd Hu Hb. unfold row_saved, watchdog_tally, watched, execute_request.
  rewrite Hd, Hu, Hb. unfold watchdog_retry, _build_execute_payload. rewrite Hb.
  rewrite (bind_run _ _ s _ s) by reflexivity. cbv zeta.
  destruct (save_updated (r <| Reservation.script_dispatch_started_at := Some at_ |>) s)
    as (s1 & Hr & Hu1); [apply Hs|exact Hok|].
  rewrite (bind_run _ _ _ _ _ Hr). run_step.
  eexists. split; [reflexivity|].
  eapply updated_run; [exact Hs|exact Hu0|clear; set_solver|exact Hrow|done|exact Hok].
Qed.

Lemma watchdog_row_run :
  dispatch_has_script r → is_Some (Reservation.script_dispatch_started_at r) →
  row_saved (watchdog_row at_ acc r lab) (watchdog_tally (db s0) acc r).
Proof using He Hs Hrow Hok Hst.
  intros Hsc Hd. destruct (Hsc Hd) as [body Hb]. unfold row_saved.
  rewrite watchdog_row_cases, (watchdog_decides_evolves _ _ _ He).
  pose proof heal_run as Hheal. pose proof giveup_run as Hgive. pose proof retry_run as Hretry.
  pose proof (retry_has_name (db s0) r) as Hname.
  unfold watchdog_tally at 1. destruct (watchdog_decides (db s0) r) eqn:Hdec.
  - by eapply row_saved_bind, Hheal.
  - by eapply row_saved_bind, Hgive.
  - destruct (Hname eq_refl) as [u Hu]. rewrite (evolves_linux_username _ _ _ _ He), Hu.
    specialize (Hretry (audit_count "reservation.script.dispatch_attempt_failed"
      (Reservation.id r) (db s)) u body eq_refl Hu Hb).
    unfold row_saved, watchdog_tally in Hretry. rewrite Hdec in Hretry. exact Hretry.
  - exists s. split_and!; [done|by apply evolves_refl, Hs|done|].
    unfold watched. rewrite Hdec. by rewrite insert_id.
Qed.
End watchdog.

Lemma watchdog_run at_ s0 s :
  evolves tick_actions s0 s → session_ok s →
  (∀ k r, reservations (db s) !! k = Some r → dispatch_has_script r) →
  ∃ acc l s', _retry_stuck_dispatches at_ s = (Ok acc, s') ∧
    pending_retry acc = omap (retry_request (db s0)) l ∧
    evolves tick_actions s0 s' ∧ session_ok s' ∧
    (∀ r, r ∈ l ↔ applies (db s0) (stuck at_) r = true ∧ ∃ k, reservations (db s) !! k = Some r) ∧
    NoDup (Reservation.id <$> l) ∧
    reservations (db s') =
      rewrite_rows (db s0) (stuck at_) (watched (db s0) at_) (reservations (db s)).
Proof.
  intros He Hs Hsc.
  edestruct (query_loop_run tick_actions (watchdog_row at_) (stuck at_) dispatch_has_script
    (watched (db s0) at_) (watchdog_tally (db s0)) s0)
    with (b := mkWatchdog 0 0 0 []) (s := s) as (l & s' & Hrun & He' & Hs' & Hl & Hnd & Ht);
    [apply watched_id| |exact He|exact Hs|exact Hsc|
     eexists _, l, s'; split_and!; [exact Hrun|by rewrite foldl_tally|done..]].
  intros b r lab s1 He1 Hs1 Hrow (Hst & _ & t & Hd & _)%stuck_spec Hr.
  apply (watchdog_row_run at_ s0 s1 b r lab He1 Hs1 Hrow (db_ok_row _ _ _ (proj2 Hs1) Hrow) Hst Hr).
  by exists t.
Qed.

(** ** The specification of a tick *)

(** What one tick at [at_] does to one row, given the rest of the database
    [d]. *)
Definition after_promote (at_ : Z) (r : Reservation.t) : Reservation.t :=
  if due_scheduled at_ r then promoted r else r.
Definition after_close (at_ : Z) (r : Reservation.t) : Reservation.t :=
  if due_active at_ r then closed r else r.
Definition after_dispatch (d : Db) (at_ : Z) (r : Reservation.t) : Reservation.t :=
  if due_script at_ r then dispatch_mark d at_ r else r.
Definition after_watchdog (d : Db) (at_ : Z) (r : Reservation.t) : Reservation.t :=
  if stuck at_ r then watched d at_ r else r.

Definition tick_row (d : Db) (at_ : Z) (r : Reservation.t) : Reservation.t :=
  if has_server d r then
    after_watchdog d at_ (after_dispatch d at_ (after_close at_ (after_promote at_ r)))
  else r.

(** The dispatch a row gets: when promotion and closing leave it due. *)
Definition tick_dispatch (d : Db) (at_ : Z) (r : Reservation.t) : option queued :=
  let r := after_close at_ (after_promote at_ r) in
  if applies d (due_script at_) r then execute_request d r else None.

Definition tick_retry (d : Db) (at_ : Z) (r : Reservation.t) : option queued :=
  let r := after_dispatch d at_ (after_close at_ (after_promote at_ r)) in
  if applies d (stuck at_) r then retry_request d r else None.

Definition same_server (h : Reservation.t → Reservation.t) : Prop :=
  ∀ r, Reservation.server_id (h r) = Reservation.server_id r.

Lemma after_promote_server at_ : same_server (after_promote at_).
Proof. intros r. unfold after_promote. by destruct (due_scheduled at_ r). Qed.
Lemma closed_server : same_server closed.
Proof. intros r. unfold closed, failed_row. destruct (script_unclean r); [|done]. by destruct (str_truthy _). Qed.
Lemma after_close_server at_ : same_server (after_close at_).
Proof. intros r. unfold after_close. destruct (due_active at_ r); [apply closed_server|done]. Qed.
Lemma after_dispatch_server d at_ : same_server (after_dispatch d at_).
Proof.
  intros r. unfold after_dispatch, dispatch_mark.
  destruct (due_script at_ r); [|done]. by destruct (is_some _).
Qed.

Lemma rewrite_rows_apply d P h t :
  rewrite_rows d P h t = (λ r, if has_server d r then (if P r then h r else r) else r) <$> t.
Proof.
  unfold rewrite_rows, applies. apply map_fmap_ext. intros k r _.
  by destruct (P r), (has_server d r).
Qed.

(** The first two and the first three phases, as functions of the stored row. *)
Definition guarded (d : Db) (h : Reservation.t → Reservation.t) (r : Reservation.t) : Reservation.t :=
  if has_server d r then h r else r.

Definition closed_table (d : Db) (at_ : Z) : gmap Z Reservation.t :=
  guarded d (λ r, after_close at_ (after_promote at_ r)) <$> reservations d.
Definition dispatched_table (d : Db) (at_ : Z) : gmap Z Reservation.t :=
  guarded d (λ r, after_dispatch d at_ (after_close at_ (after_promote at_ r))) <$> reservations d.

Lemma rewrite_rows_guarded d P h h' t :
  same_server h' →
  rewrite_rows d P h (guarded d h' <$> t) =
    guarded d (λ r, if P (h' r) then h (h' r) else h' r) <$> t.
Proof.
  intros Hs. rewrite rewrite_rows_apply, <- map_fmap_compose. apply map_fmap_ext.
  intros k r _. unfold guarded. simpl. destruct (has_server d r) eqn:Hr; [|by rewrite Hr].
  unfold has_server in *. by rewrite Hs, Hr.
Qed.

Lemma rewrite_rows_first d P h t :
  rewrite_rows d P h t = guarded d (λ r, if P r then h r else r) <$> t.
Proof. apply rewrite_rows_apply. Qed.

Lemma closed_same_script r :
  Reservation.script (closed r) = Reservation.script r ∧
  Reservation.script_dispatch_started_at (closed r) = Reservation.script_dispatch_started_at r.
Proof. unfold closed, failed_row. destruct (script_unclean r); [|done]. by destruct (str_truthy _). Qed.

Lemma after_close_has_script at_ r :
  dispatch_has_script r → dispatch_has_script (after_close at_ (after_promote at_ r)).
Proof.
  intros H. assert (Hp : dispatch_has_script (after_promote at_ r)).
  { unfold after_promote. by destruct (due_scheduled at_ r). }
  unfold after_close. destruct (due_active at_ _); [|done]. unfold dispatch_has_script.
  by destruct (closed_same_script (after_promote at_ r)) as [-> ->].
Qed.

Lemma after_dispatch_has_script d at_ r :
  dispatch_has_script r →
  dispatch_has_script (after_dispatch d at_ (after_close at_ (after_promote at_ r))).
Proof.
  intros H%(after_close_has_script at_). unfold after_dispatch, dispatch_mark.
  destruct (due_script at_ _) eqn:Hdue; [|done]. destruct (is_some _); [|done].
  intros _. by apply due_script_spec in Hdue as (_ & ? & _).
Qed.

Lemma dispatched_has_script d at_ :
  (∀ k r, reservations d !! k = Some r → dispatch_has_script r) →
  ∀ k r, dispatched_table d at_ !! k = Some r → dispatch_has_script r.
Proof.
  intros H k r. unfold dispatched_table. rewrite lookup_fmap. intros (r0 & Hr0 & ->)%fmap_Some.
  specialize (H k r0 Hr0). unfold guarded. destruct (has_server d r0); [|done].
  by apply after_dispatch_has_script.
Qed.

(** Queues: what is in them, by the rows of the table the phase starts from. *)
Lemma queue_spec {A} (d : Db) (P : Reservation.t → bool) (q : Reservation.t → option A)
    (h : Reservation.t → Reservation.t) (l : list Reservation.t) x :
  same_server h →
  (∀ r, r ∈ l ↔ applies d P r = true ∧ ∃ k, (guarded d h <$> reservations d) !! k = Some r) →
  x ∈ omap q l ↔
  ∃ k r, reservations d !! k = Some r ∧ (if applies d P (h r) then q (h r) else None) = Some x.
Proof.
  intros Hs Hl. rewrite list_elem_of_omap. split.
  - intros (r & [Ha [k Hk]]%Hl & Hq). rewrite lookup_fmap in Hk.
    apply fmap_Some in Hk as (r0 & Hr0 & ->). exists k, r0. split; [done|].
    unfold guarded in *. destruct (has_server d r0) eqn:Hsv; [by rewrite Ha|].
    unfold applies in Ha. by rewrite Hsv, andb_false_r in Ha.
  - intros (k & r & Hr & Hx). destruct (applies d P (h r)) eqn:Ha; [|done].
    exists (h r). split; [|done]. apply Hl. split; [done|]. exists k. rewrite lookup_fmap, Hr.
    simpl. unfold guarded. unfold applies, has_server in Ha. rewrite Hs in Ha.
    apply andb_true_iff in Ha as [_ Ha]. unfold has_server. by rewrite Ha.
Qed.

Lemma execute_request_id d r q : execute_request d r = Some q → ex_reservation_id q.2 = Reservation.id r.
Proof.
  unfold execute_request. destruct (linux_username_of _ _), (Reservation.script r); naive_solver.
Qed.

Lemma queued_once d l :
  NoDup (Reservation.id <$> l) → NoDup (ex_reservation_id ∘ snd <$> omap (execute_request d) l).
Proof.
  induction l as [|r l IH]; [constructor|]. rewrite fmap_cons. intros [Hr Hl]%NoDup_cons. simpl.
  destruct (execute_request d r) as [q|] eqn:Hq; [|auto]. simpl. apply NoDup_cons.
  split; [|auto]. rewrite (execute_request_id _ _ _ Hq).
  intros (q' & Hid & (r' & Hr' & Hq')%list_elem_of_omap)%list_elem_of_fmap. apply Hr.
  simpl in Hid. rewrite Hid, (execute_request_id _ _ _ Hq'). by apply list_elem_of_fmap_2.
Qed.

(** The run of a whole tick. *)
Lemma tick_run s :
  session_ok s →
  (∀ k r, reservations (db s) !! k = Some r → dispatch_has_script r) →
  ∃ pd pr s', tick_transaction s = (Ok (pd, pr), s') ∧
    reservations (db s') = tick_row (db s) (now s) <$> reservations (db s) ∧
    (∀ q, q ∈ pd ↔ ∃ k r, reservations (db s) !! k = Some r ∧
                          tick_dispatch (db s) (now s) r = Some q) ∧
    NoDup (ex_reservation_id ∘ snd <$> pd) ∧
    (∀ q, q ∈ pr ↔ ∃ k r, reservations (db s) !! k = Some r ∧
                          tick_retry (db s) (now s) r = Some q) ∧
    session_ok s' ∧ evolves tick_actions s s'.
Proof.
  intros Hs Hsc. pose proof (evolves_refl tick_actions s (proj1 Hs)) as He0.
  unfold tick_transaction. rewrite (bind_run utcnow _ s (now s) s) by reflexivity.
  destruct (promote_run (now s) s s He0 Hs) as (n & s1 & Hr1 & He1 & Hs1 & Ht1).
  rewrite (bind_run _ _ _ _ _ Hr1), rewrite_rows_first in *.
  destruct (close_run (now s) s s1 He1 Hs1) as (m & s2 & Hr2 & He2 & Hs2 & Ht2).
  rewrite (bind_run _ _ _ _ _ Hr2), Ht1, rewrite_rows_guarded in * by apply after_promote_server.
  change (reservations (db s2) = closed_table (db s) (now s)) in Ht2.
  destruct (dispatch_run (now s) s s2 He2 Hs2) as (l3 & s3 & Hr3 & He3 & Hs3 & Hl3 & Hnd3 & Ht3).
  rewrite (bind_run _ _ _ _ _ Hr3), Ht2 in *. unfold closed_table in Ht3.
  rewrite rewrite_rows_guarded in Ht3
    by (intros r; by rewrite after_close_server, after_promote_server).
  change (reservations (db s3) = dispatched_table (db s) (now s)) in Ht3.
  destruct (watchdog_run (now s) s s3 He3 Hs3) as (acc & l4 & s4 & Hr4 & Hacc & He4 & Hs4 & Hl4 & Hnd4 & Ht4).
  { rewrite Ht3. by apply dispatched_has_script. }
  rewrite (bind_run _ _ _ _ _ Hr4), Ht3 in *. unfold dispatched_table in Ht4.
  assert (Hsv : same_server (λ r, after_dispatch (db s) (now s) (after_close (now s) (after_promote (now s) r)))).
  { intros r. by rewrite after_dispatch_server, after_close_server, after_promote_server. }
  rewrite rewrite_rows_guarded in Ht4 by exact Hsv.
  eexists _, _, s4. split; [rewrite Hacc; reflexivity|]. split; [exact Ht4|].
  split_and!; [| | |done|done].
  - intros q. refine (queue_spec (db s) (due_script (now s)) (execute_request (db s))
      (λ r, after_close (now s) (after_promote (now s) r)) l3 q _ Hl3).
    intros r. by rewrite after_close_server, after_promote_server.
  - by apply queued_once.
  - intros q. exact (queue_spec (db s) (stuck (now s)) (retry_request (db s)) _ l4 q Hsv Hl4).
Qed.

(** ** Consequences *)

Lemma due_scheduled_spec at_ r :
  due_scheduled at_ r = true ↔ Reservation.status r = STATUS_SCHEDULED ∧ Reservation.start_at r <= at_.
Proof. unfold due_scheduled. by rewrite andb_true_iff, !bool_decide_eq_true. Qed.

Lemma due_active_spec at_ r :
  due_active at_ r = true ↔ Reservation.status r = STATUS_ACTIVE ∧ Reservation.end_at r <= at_.
Proof. unfold due_active. by rewrite andb_true_iff, !bool_decide_eq_true. Qed.

(** A row no phase moves again: not due for promotion, closing, dispatch or
    retry. *)
Record settled (d : Db) (at_ : Z) (r : Reservation.t) : Prop := mkSettled {
  not_overdue : due_scheduled at_ r = false ;
  not_expired : due_active at_ r = false ;
  not_dispatched : dispatches d at_ r = false ;
  not_watched : stuck at_ r = true → watchdog_decides d r = leave }.

Lemma after_promote_settled at_ r : due_scheduled at_ (after_promote at_ r) = false.
Proof. unfold after_promote. by destruct (due_scheduled at_ r) eqn:H. Qed.

(** Marks that leave the status and the window alone keep it so. *)
Definition same_status (r r' : Reservation.t) : Prop :=
  Reservation.status r' = Reservation.status r ∧ Reservation.start_at r' = Reservation.start_at r ∧
  Reservation.end_at r' = Reservation.end_at r.

Lemma same_status_due at_ r r' :
  same_status r r' →
  due_scheduled at_ r' = due_scheduled at_ r ∧ due_active at_ r' = due_active at_ r.
Proof. intros (H1 & H2 & H3). unfold due_scheduled, due_active. by rewrite H1, H2, H3. Qed.

Lemma closed_terminal r : Reservation.status (closed r) ∈ TERMINAL_STATUSES.
Proof.
  unfold closed, failed_row. destruct (script_unclean r); [|simpl; set_solver].
  destruct (str_truthy _); simpl; set_solver.
Qed.

Lemma failed_row_status r reason : Reservation.status (failed_row r reason) = STATUS_FAILED.
Proof. unfold failed_row. by destruct (str_truthy _). Qed.

(** A terminal row is due for nothing. *)
Lemma terminal_not_due at_ r :
  Reservation.status r ∈ TERMINAL_STATUSES →
  due_scheduled at_ r = false ∧ due_active at_ r = false ∧ due_script at_ r = false ∧
  stuck at_ r = false.
Proof.
  intros H. unfold due_scheduled, due_active, due_script, stuck, TERMINAL_STATUSES in *.
  destruct (Reservation.status r); try done; set_solver.
Qed.

Lemma terminal_settled d at_ r : Reservation.status r ∈ TERMINAL_STATUSES → settled d at_ r.
Proof.
  intros H. destruct (terminal_not_due at_ r H) as (H1 & H2 & H3 & H4).
  split; [done..| |by rewrite H4]. unfold dispatches. by rewrite H3.
Qed.

Lemma closed_settled at_ r :
  due_scheduled at_ r = false →
  let r' := after_close at_ r in due_scheduled at_ r' = false ∧ due_active at_ r' = false.
Proof.
  intros H. unfold after_close. destruct (due_active at_ r) eqn:Ha; [|done]. simpl.
  by destruct (terminal_not_due at_ _ (closed_terminal r)) as (? & ? & _).
Qed.

Lemma after_dispatch_same_status d at_ r : same_status r (after_dispatch d at_ r).
Proof.
  unfold after_dispatch, dispatch_mark. destruct (due_script at_ r); [|done]. by destruct (is_some _).
Qed.

Lemma after_dispatch_settled d at_ r : dispatches d at_ (after_dispatch d at_ r) = false.
Proof.
  unfold after_dispatch, dispatch_mark, dispatches. destruct (due_script at_ r) eqn:Hd; [|by rewrite Hd].
  destruct (is_some _) eqn:Hn; [|by rewrite Hn, andb_false_r].
  unfold due_script. simpl. by rewrite andb_false_r.
Qed.

Lemma after_watchdog_settled d at_ r :
  due_scheduled at_ r = false → due_active at_ r = false → dispatches d at_ r = false →
  settled d at_ (after_watchdog d at_ r).
Proof.
  intros H1 H2 H3. unfold after_watchdog. destruct (stuck at_ r) eqn:Hs; [|by split; rewrite ?Hs].
  apply stuck_spec in Hs as (Hst & Hrun & _).
  assert (Hd : ∀ o, dispatches d at_ (r <| Reservation.script_dispatch_started_at := o |>) = false).
  { intros o. unfold dispatches, due_script. simpl. by rewrite Hrun, andb_false_r. }
  unfold watched. destruct (watchdog_decides d r) eqn:Hdec.
  - split; [done..|apply Hd|]. by intros (_ & _ & t & [=] & _)%stuck_spec.
  - apply terminal_settled. rewrite failed_row_status. set_solver.
  - split; [done..|apply Hd|]. intros (_ & _ & t & [= <-] & Ht)%stuck_spec. unfold seconds in Ht. simpl in Ht.
    unfold WATCHDOG_STUCK_SECONDS in Ht. lia.
  - by split.
Qed.

Lemma tick_row_settled d at_ r : has_server d r = true → settled d at_ (tick_row d at_ r).
Proof.
  intros Hsv. unfold tick_row. rewrite Hsv.
  pose proof (closed_settled at_ _ (after_promote_settled at_ r)) as [H1 H2].
  set (r2 := after_close at_ (after_promote at_ r)) in *.
  destruct (same_status_due at_ _ _ (after_dispatch_same_status d at_ r2)) as [E1 E2].
  apply after_watchdog_settled; [by rewrite E1|by rewrite E2|apply after_dispatch_settled].
Qed.

(** A settled row is a fixed point and queues nothing. *)
Lemma settled_fixed d at_ r :
  settled d at_ r →
  tick_row d at_ r = r ∧ tick_dispatch d at_ r = None ∧ tick_retry d at_ r = None.
Proof.
  intros [H1 H2 H3 H4].
  assert (Hp : after_promote at_ r = r) by (unfold after_promote; by rewrite H1).
  assert (Hc : after_close at_ r = r) by (unfold after_close; by rewrite H2).
  assert (Hd : after_dispatch d at_ r = r).
  { unfold after_dispatch, dispatch_mark, dispatches in *. destruct (due_script at_ r); [|done].
    simpl in H3. by rewrite H3. }
  unfold tick_row, tick_dispatch, tick_retry. rewrite Hp, Hc, Hd. split_and!.
  - destruct (has_server d r); [|done]. unfold after_watchdog, watched.
    destruct (stuck at_ r); [|done]. by rewrite H4.
  - unfold applies. destruct (due_script at_ r && has_server d r) eqn:Ha; [|done].
    apply andb_true_iff in Ha as [Hdue _]. unfold dispatches in H3. rewrite Hdue in H3. simpl in H3.
    unfold execute_request. by destruct (linux_username_of _ _).
  - unfold applies, retry_request. destruct (stuck at_ r) eqn:Hs; [|done]. simpl.
    rewrite H4 by done. by destruct (has_server d r).
Qed.

(** The specification of a tick only depends on what the tick leaves alone. *)
Lemma tick_row_evolves s0 s at_ r :
  evolves tick_actions s0 s →
  tick_row (db s) at_ r = tick_row (db s0) at_ r ∧
  tick_dispatch (db s) at_ r = tick_dispatch (db s0) at_ r ∧
  tick_retry (db s) at_ r = tick_retry (db s0) at_ r.
Proof.
  intros He.
  assert (Hsv : ∀ r, has_server (db s) r = has_server (db s0) r).
  { intros r'. unfold has_server. by rewrite (evolves_servers _ _ _ He). }
  assert (Hx : ∀ r, execute_request (db s) r = execute_request (db s0) r).
  { intros r'. unfold execute_request. by rewrite (evolves_linux_username _ _ _ _ He). }
  assert (Hd : ∀ r, after_dispatch (db s) at_ r = after_dispatch (db s0) at_ r).
  { intros r'. unfold after_dispatch, dispatch_mark. by rewrite (evolves_linux_username _ _ _ _ He). }
  split_and!.
  - unfold tick_row. rewrite Hsv, Hd. destruct (has_server (db s0) r); [|done].
    unfold after_watchdog, watched. by rewrite (watchdog_decides_evolves _ _ _ He).
  - unfold tick_dispatch, applies. by rewrite Hsv, Hx.
  - unfold tick_retry, applies, retry_request. by rewrite Hd, Hsv, Hx, (watchdog_decides_evolves _ _ _ He).
Qed.

Lemma watched_server d at_ : same_server (watched d at_).
Proof.
  intros r. unfold watched, failed_row. destruct (watchdog_decides d r); [done| |done..].
  by destruct (str_truthy _).
Qed.

Lemma tick_row_server d at_ : same_server (tick_row d at_).
Proof.
  intros r. unfold tick_row. destruct (has_server d r); [|done]. unfold after_watchdog.
  rewrite <- (after_promote_server at_ r), <- (after_close_server at_ (after_promote at_ r)),
    <- (after_dispatch_server d at_ (after_close at_ (after_promote at_ r))).
  destruct (stuck at_ _); [apply watched_server|done].
Qed.

Lemma tick_row_has_server d at_ r : has_server d (tick_row d at_ r) = has_server d r.
Proof. unfold has_server. by rewrite tick_row_server. Qed.

Lemma watched_has_script d at_ r :
  is_Some (Reservation.script r) → is_Some (Reservation.script (watched d at_ r)).
Proof.
  unfold watched, failed_row. destruct (watchdog_decides d r); [done| |done..].
  by destruct (str_truthy _).
Qed.

Lemma tick_row_has_script d at_ r : dispatch_has_script r → dispatch_has_script (tick_row d at_ r).
Proof.
  intros H. unfold tick_row. destruct (has_server d r); [|done].
  pose proof (after_dispatch_has_script d at_ r H) as H3. unfold after_watchdog.
  destruct (stuck at_ _) eqn:Hs; [|done]. apply stuck_spec in Hs as (_ & _ & t & Ht & _).
  intros _. apply watched_has_script, H3. by eexists.
Qed.

Lemma tick_has_script s s' :
  (∀ k r, reservations (db s) !! k = Some r → dispatch_has_script r) →
  reservations (db s') = tick_row (db s) (now s) <$> reservations (db s) →
  ∀ k r, reservations (db s') !! k = Some r → dispatch_has_script r.
Proof.
  intros H Ht k r. rewrite Ht, lookup_fmap. intros (r0 & Hr0 & ->)%fmap_Some.
  by eapply tick_row_has_script, H.
Qed.

(** The second tick on a row. *)
Lemma tick_row_twice d at_ r :
  tick_row d at_ (tick_row d at_ r) = tick_row d at_ r ∧
  tick_dispatch d at_ (tick_row d at_ r) = None ∧ tick_retry d at_ (tick_row d at_ r) = None.
Proof.
  destruct (has_server d r) eqn:Hsv; [by apply settled_fixed, tick_row_settled|].
  assert (Hr : tick_row d at_ r = r) by (unfold tick_row; by rewrite Hsv).
  rewrite !Hr. split; [done|].
  unfold tick_dispatch, tick_retry, applies, has_server in *. cbv zeta.
  rewrite after_dispatch_server, after_close_server, after_promote_server, Hsv.
  by rewrite !andb_false_r.
Qed.

Lemma empty_queue {A} (l : list A) : (∀ q, ¬ q ∈ l) → l = [].
Proof. destruct l as [|q l]; [done|]. intros H. destruct (H q). left. Qed.

(** ** The retried tick *)

(** What a tick needs of the database it runs on. *)
Definition tick_ready (d : Db) : Prop :=
  db_ok d ∧ ∀ k r, reservations d !! k = Some r → dispatch_has_script r.

Lemma tick_steady d now : tick_ready d → deadlocks (transaction tick_transaction d now).1 = false.
Proof.
  intros [Hdb Hsc]. destruct (tick_run (open_session d now "")) as (pd & pr & s' & Hr & _ & _ & _ & _ & [Hc _] & _);
    [by apply open_session_ok|exact Hsc|].
  unfold transaction. by rewrite Hr, commit_clean.
Qed.

(** *** Properties *)

(** C5: one tick never raises and rewrites every reservation by
    [tick_row] -- promote, then close, then dispatch, then watchdog, each
    phase seeing the rows the previous one left -- skipping the rows whose
    server is gone; it queues exactly the dispatches and retries of
    [tick_dispatch] and [tick_retry], a reservation at most once, and only appends its own actions to the
    audit log.  The precondition is that a row being dispatched has a
    script; otherwise the payload's assertion would abort the tick. *)
Theorem tick_transaction_spec s :
  session_ok s →
  (∀ k r, reservations (db s) !! k = Some r → dispatch_has_script r) →
  ∃ pd pr s', tick_transaction s = (Ok (pd, pr), s') ∧
    reservations (db s') = tick_row (db s) (now s) <$> reservations (db s) ∧
    (∀ q, q ∈ pd ↔ ∃ k r, reservations (db s) !! k = Some r ∧
                          tick_dispatch (db s) (now s) r = Some q) ∧
    NoDup (ex_reservation_id ∘ snd <$> pd) ∧
    (∀ q, q ∈ pr ↔ ∃ k r, reservations (db s) !! k = Some r ∧
                          tick_retry (db s) (now s) r = Some q) ∧
    session_ok s' ∧ evolves tick_actions s s'.
Proof. apply tick_run. Qed.

(** A reservation that starts now, with a script due at once. *)
Definition tick_sample : Session :=
  open_session (sample_db [sample_reservation 100 1 (hours 1) (hours 3) (Some sample_script);
                           sample_reservation 101 2 (hours 2) (hours 3) None]) (hours 1) "".

Lemma tick_sample_ok : session_ok tick_sample.
Proof. apply open_session_ok, db_ok_by_test. vm_compute. reflexivity. Qed.

Lemma tick_sample_scripts k r :
  reservations (db tick_sample) !! k = Some r → dispatch_has_script r.
Proof.
  apply (rows_by_test dispatch_has_script
    (λ r, negb (is_some (Reservation.script_dispatch_started_at r)))); [|vm_compute; reflexivity].
  unfold dispatch_has_script. intros r'. destruct (Reservation.script_dispatch_started_at r'); [done|].
  by intros _ [? ?].
Qed.

(** It is promoted and dispatched by one tick; the other row is left alone. *)
Lemma tick_transaction_spec_witness :
  (∃ pd pr s', tick_transaction tick_sample = (Ok (pd, pr), s') ∧
    reservations (db s') = tick_row (db tick_sample) (now tick_sample) <$> reservations (db tick_sample) ∧
    (∀ q, q ∈ pd ↔ ∃ k r, reservations (db tick_sample) !! k = Some r ∧
                          tick_dispatch (db tick_sample) (now tick_sample) r = Some q) ∧
    NoDup (ex_reservation_id ∘ snd <$> pd) ∧
    (∀ q, q ∈ pr ↔ ∃ k r, reservations (db tick_sample) !! k = Some r ∧
                          tick_retry (db tick_sample) (now tick_sample) r = Some q) ∧
    session_ok s' ∧ evolves tick_actions tick_sample s') ∧
  (λ r, (Reservation.status r, Reservation.script_status r)) <$>
    rows (tick_row (db tick_sample) (now tick_sample) <$> reservations (db tick_sample)) ≡ₚ
    [(STATUS_ACTIVE, Some SCRIPT_RUNNING); (STATUS_SCHEDULED, None)].
Proof.
  split; [exact (tick_transaction_spec tick_sample tick_sample_ok tick_sample_scripts)|].
  vm_compute. first [reflexivity | apply Permutation_swap].
Defined.

(** a second tick at the same instant queues nothing and leaves every
    reservation as it is: no script is dispatched or retried twice, no row
    is promoted or closed twice. *)
Theorem tick_idempotent s :
  session_ok s →
  (∀ k r, reservations (db s) !! k = Some r → dispatch_has_script r) →
  ∃ q s' s'', tick_transaction s = (Ok q, s') ∧ tick_transaction s' = (Ok ([], []), s'') ∧
    reservations (db s'') = reservations (db s').
Proof.
  intros Hs Hsc.
  destruct (tick_run s Hs Hsc) as (pd & pr & s' & Hr & Ht & _ & _ & _ & Hs' & He).
  destruct (tick_run s' Hs') as (pd2 & pr2 & s2 & Hr2 & Ht2 & Hd2 & _ & Hw2 & _ & _).
  { by eapply tick_has_script. }
  exists (pd, pr), s', s2. split; [done|].
  assert (Hq : ∀ k r, reservations (db s') !! k = Some r →
    tick_row (db s') (now s') r = r ∧ tick_dispatch (db s') (now s') r = None ∧
    tick_retry (db s') (now s') r = None).
  { intros k r. rewrite Ht, lookup_fmap. intros (r0 & _ & ->)%fmap_Some.
    destruct (tick_row_evolves _ _ (now s') (tick_row (db s) (now s) r0) He) as (-> & -> & ->).
    rewrite (ev_now _ _ _ He). apply tick_row_twice. }
  assert (pd2 = []) as ->.
  { apply empty_queue. intros q (k & r & Hk & Hx)%Hd2. destruct (Hq k r Hk) as (_ & ? & _). congruence. }
  assert (pr2 = []) as ->.
  { apply empty_queue. intros q (k & r & Hk & Hx)%Hw2. destruct (Hq k r Hk) as (_ & _ & ?). congruence. }
  split; [done|]. rewrite Ht2. apply map_eq. intros k. rewrite lookup_fmap.
  destruct (reservations (db s') !! k) as [r|] eqn:Hk; [|done]. simpl. by rewrite (proj1 (Hq k r Hk)).
Qed.

Lemma tick_idempotent_witness :
  ∃ q s' s'', tick_transaction tick_sample = (Ok q, s') ∧
    tick_transaction s' = (Ok ([], []), s'') ∧ reservations (db s'') = reservations (db s').
Proof. exact (tick_idempotent tick_sample tick_sample_ok tick_sample_scripts). Defined.

(** after a tick no reservation is overdue: what is still scheduled
    starts later, what is still active ends later, no script of an active
    reservation is left due, and a dispatch older than the watchdog's limit
    remains only when there is no account to retry with.  Finished
    reservations are never touched. *)
Theorem tick_settles s :
  session_ok s →
  (∀ k r, reservations (db s) !! k = Some r → dispatch_has_script r) →
  ∃ q s', tick_transaction s = (Ok q, s') ∧
    ∀ k r', reservations (db s') !! k = Some r' →
      (has_server (db s) r' = true → settled (db s) (now s) r') ∧
      ∃ r, reservations (db s) !! k = Some r ∧
           (Reservation.status r ∈ TERMINAL_STATUSES → r' = r).
Proof.
  intros Hs Hsc. destruct (tick_run s Hs Hsc) as (pd & pr & s' & Hr & Ht & _).
  exists (pd, pr), s'. split; [done|]. intros k r'. rewrite Ht, lookup_fmap.
  intros (r & Hk & ->)%fmap_Some. split.
  - rewrite tick_row_has_server. apply tick_row_settled.
  - exists r. split; [done|]. intros Hterm. by apply settled_fixed, terminal_settled.
Qed.

Lemma tick_settles_witness :
  ∃ q s', tick_transaction tick_sample = (Ok q, s') ∧
    ∀ k r', reservations (db s') !! k = Some r' →
      (has_server (db tick_sample) r' = true → settled (db tick_sample) (now tick_sample) r') ∧
      ∃ r, reservations (db tick_sample) !! k = Some r ∧
           (Reservation.status r ∈ TERMINAL_STATUSES → r' = r).
Proof. exact (tick_settles tick_sample tick_sample_ok tick_sample_scripts). Defined.

(** the retried tick is atomic.  Whatever deadlocks MySQL raises and
    whatever others commit in between, at most five attempts are made; either
    exactly one whole tick takes effect, on the database as the last attempt
    found it, and its queues are fired; or no part of any tick takes effect
    and the last error is raised, a deadlock only when all five attempts
    deadlocked. *)
Theorem reservation_tick_atomic attempts d :
  (5 <= length attempts)%nat →
  (∀ a d, a ∈ attempts → tick_ready (a_world a d)) →
  ∃ n a, (n < 5)%nat ∧ attempts !! n = Some a ∧
    (∀ i b, (i < n)%nat → attempts !! i = Some b → deadlocked b = true) ∧
    match a_fault a with
    | Some e => reservation_tick attempts d = (Raise e, before attempts (S n) d) ∧
                (deadlocked a = true → n = 4%nat)
    | None => ∃ pd pr s',
        tick_transaction (open_session (before attempts (S n) d) (a_now a) "") = (Ok (pd, pr), s') ∧
        reservation_tick attempts d = (Ok (pd ++ pr), db s')
    end.
Proof.
  intros Hlen Hready.
  destruct (retried_atomic tick_transaction tick_ready tick_steady attempts 5 50 d) as
    (n & a & Hn & Ha & Hdead & sleeps & Hrun & Hlast); [lia|done|].
  exists n, a. split; [done|]. split; [done|]. split; [done|].
  unfold reservation_tick, _tick_body. rewrite Hrun. destruct (a_fault a) as [e|].
  - split; [done|]. intros H. specialize (Hlast H). lia.
  - assert (Hr : tick_ready (before attempts (S n) d)).
    { rewrite (before_S _ _ _ _ Ha). by eapply Hready, list_elem_of_lookup_2. }
    destruct Hr as [Hdb Hsc].
    destruct (tick_run (open_session (before attempts (S n) d) (a_now a) ""))
      as (pd & pr & s' & Ht & _ & _ & _ & _ & [Hc _] & _); [by apply open_session_ok|exact Hsc|].
    exists pd, pr, s'. split; [exact Ht|]. unfold transaction. by rewrite Ht, commit_clean.
Qed.

(** Two deadlocks, then a tick. *)
Definition tick_attempts : list attempt :=
  let deadlock := mkAttempt (hours 1) (λ _, db tick_sample) (Some (OperationalError "(1213, 'Deadlock found')")) in
  let quiet := mkAttempt (hours 1) (λ _, db tick_sample) None in
  [deadlock; deadlock; quiet; quiet; quiet].

Lemma reservation_tick_atomic_witness :
  ∃ n a, (n < 5)%nat ∧ tick_attempts !! n = Some a ∧
    (∀ i b, (i < n)%nat → tick_attempts !! i = Some b → deadlocked b = true) ∧
    match a_fault a with
    | Some e => reservation_tick tick_attempts (sample_db []) =
                  (Raise e, before tick_attempts (S n) (sample_db [])) ∧
                (deadlocked a = true → n = 4%nat)
    | None => ∃ pd pr s',
        tick_transaction (open_session (before tick_attempts (S n) (sample_db [])) (a_now a) "") =
          (Ok (pd, pr), s') ∧
        reservation_tick tick_attempts (sample_db []) = (Ok (pd ++ pr), db s')
    end.
Proof.
  apply (reservation_tick_atomic tick_attempts (sample_db [])); [simpl; lia|].
  assert (Hready : tick_ready (db tick_sample)).
  { split; [exact (proj2 tick_sample_ok)|exact tick_sample_scripts]. }
  intros a d Ha. unfold tick_attempts in Ha. rewrite !elem_of_cons in Ha.
  destruct Ha as [->|[->|[->|[->|[->|Ha]]]]]; try exact Hready. by apply elem_of_nil in Ha.
Defined.
