(* ===== verification/GroupProperties.v ===== *)
(** Cancelling a whole group ([reservation_service.cancel_group]): all of its
    scheduled and active rows or none. *)

From S2P Require Import Prelude Models SessionLayer Samples AuditService.
From S2P Require Import NotificationService ReservationService ReservationLifecycle SchedulerProperties.

(** ** Saving several objects with one flush *)

Lemma set_all_run l s :
  for_each l set_reservation s = (Ok tt, s <| dirty := store_rows l (dirty s) |>).
Proof.
  revert s. induction l as [|r l IH]; intros s; [by destruct s|]. simpl.
  rewrite (bind_run _ _ s tt (s <| dirty := <[Reservation.id r := r]> (dirty s) |>)) by reflexivity.
  by rewrite IH.
Qed.

(** What is pending after the loop is exactly the given objects. *)
Lemma lookup_pending l k :
  NoDup (Reservation.id <$> l) →
  ∀ r, store_rows l ∅ !! k = Some r ↔ r ∈ l ∧ Reservation.id r = k.
Proof.
  intros Hnd r. split.
  - intros H. destruct (decide (k ∈ Reservation.id <$> l)) as [Hin|Hout].
    + apply list_elem_of_fmap in Hin as (r' & -> & Hr'). rewrite (store_rows_in l ∅ r') in H by done.
      by injection H as ->.
    + by rewrite store_rows_not_in, lookup_empty in H.
  - intros [Hr <-]. by apply store_rows_in.
Qed.

Lemma flush_all_run l s :
  clean s → NoDup (Reservation.id <$> l) → Forall reservation_row_ok l →
  (for_each l set_reservation ;; flush) s =
    (Ok tt, s <| db := db s <| reservations := store_rows l ∅ ∪ reservations (db s) |> |>).
Proof.
  intros Hc Hnd Hall. rewrite (bind_run _ _ _ _ _ (set_all_run l s)). unfold clean in Hc. rewrite Hc.
  unfold flush. simpl.
  assert (dirty_error (store_rows l ∅) = None) as ->.
  { apply dirty_error_None. intros k r [Hr _]%lookup_pending; [|done].
    by apply (proj1 (Forall_forall _ _) Hall). }
  by destruct s; simpl in *; subst.
Qed.

(** ** The members of a group *)

Definition in_group (group_id : string) (r : Reservation.t) : bool :=
  bool_decide (Reservation.group_id r = Some group_id) &&
  bool_decide (Reservation.status r ∈ ACTIVE_STATUSES).

Definition members (group_id : string) (d : Db) : list Reservation.t :=
  filter (λ r, in_group group_id r = true) (rows (reservations d)).

(** Rewriting the members of a query and nothing else. *)
Lemma union_rewrite (P : Reservation.t → bool) (h : Reservation.t → Reservation.t) d :
  db_ok d → (∀ r, Reservation.id (h r) = Reservation.id r) →
  let l := filter (λ r, P r = true) (rows (reservations d)) in
  store_rows (h <$> l) ∅ ∪ reservations d = (λ r, if P r then h r else r) <$> reservations d.
Proof.
  intros Hdb Hid l.
  assert (Hnd : NoDup (Reservation.id <$> (h <$> l))).
  { rewrite <- list_fmap_compose. rewrite (list_fmap_ext _ Reservation.id); [by apply NoDup_ids_filter|].
    intros i r _. apply Hid. }
  apply map_eq. intros k. rewrite lookup_fmap.
  destruct (reservations d !! k) as [r|] eqn:Hk; simpl.
  - pose proof (db_ok_id _ _ _ Hdb Hk) as Hrk. destruct (P r) eqn:HP.
    + apply lookup_union_Some_l. apply lookup_pending; [done|]. rewrite Hid. split; [|done].
      apply list_elem_of_fmap_2. apply list_elem_of_filter. split; [done|]. by eapply rows_lookup.
    + rewrite lookup_union_r; [done|]. apply eq_None_not_Some. intros [r' Hr'].
      apply lookup_pending in Hr' as [Hin Hk']; [|done].
      apply list_elem_of_fmap in Hin as (r0 & -> & [HP0 [k0 Hk0]%elem_of_rows]%list_elem_of_filter).
      rewrite Hid, (db_ok_id _ _ _ Hdb Hk0) in Hk'. subst k0. congruence.
  - rewrite lookup_union_r; [done|]. apply eq_None_not_Some. intros [r' Hr'].
    apply lookup_pending in Hr' as [Hin Hk']; [|done].
    apply list_elem_of_fmap in Hin as (r0 & -> & [_ [k0 Hk0]%elem_of_rows]%list_elem_of_filter).
    rewrite Hid, (db_ok_id _ _ _ Hdb Hk0) in Hk'. subst k0. congruence.
Qed.

Lemma push_all_run (f : Reservation.t → Z * frame) l (s : Session) :
  ∃ s', for_each l (λ r, push_to_user (f r).1 (f r).2) s = (Ok tt, s') ∧ db s' = db s ∧
        dirty s' = dirty s ∧ committed s' = committed s ∧ now s' = now s.
Proof.
  revert s. induction l as [|r l IH]; intros s; simpl; [by exists s|].
  rewrite (bind_run (push_to_user _ _) _ s tt
    (s <| pushed := pushed s ++ [((f r).1, (f r).2)] |>)) by reflexivity.
  destruct (IH (s <| pushed := pushed s ++ [((f r).1, (f r).2)] |>)) as (s' & H1 & H2 & H3 & H4 & H5).
  exists s'. done.
Qed.

(** The table and the log after the group was cancelled. *)
Definition group_cancelled (g : string) (at_ actor : Z) (reason : option string) (d d' : Db) : Prop :=
  ∃ e, AuditLog.action e = "reservation.cancel.group"%string ∧
    d' = d <| reservations := (λ r, if in_group g r then cancelled_row r at_ actor reason else r) <$>
                                reservations d |>
           <| audit_log := audit_log d ++ [e] |>.

Lemma members_stored g d r : r ∈ members g d → ∃ k, reservations d !! k = Some r.
Proof. intros [_ Hr]%list_elem_of_filter. by apply elem_of_rows. Qed.

(** The writing half of the call: save, audit, push. *)
Lemma save_group_run {A} g actor reason lab tgt sid payload req (a : A) s :
  session_ok s →
  let rs' := (λ r, cancelled_row r (now s) actor reason) <$> members g (db s) in
  ∃ s', (for_each rs' set_reservation ;; flush ;;
         write "reservation.cancel.group" (Some actor) (Some lab) tgt None (Some lab) sid payload req ;;
         for_each rs' (λ r, _push_reservation_lifecycle r change_cancelled) ;; mret a) s = (Ok a, s') ∧
    group_cancelled g (now s) actor reason (db s) (db s') ∧ clean s' ∧ committed s' = committed s.
Proof.
  intros [Hc Hdb]. set (h := λ r, cancelled_row r (now s) actor reason). intros rs'.
  assert (Hnd : NoDup (Reservation.id <$> rs')).
  { unfold rs'. rewrite <- list_fmap_compose. rewrite (list_fmap_ext _ Reservation.id); [|done].
    by apply NoDup_ids_filter. }
  assert (Hall : Forall reservation_row_ok rs').
  { apply Forall_fmap, Forall_forall. intros r [k Hk]%members_stored. exact (db_ok_row _ _ _ Hdb Hk). }
  pose proof (flush_all_run rs' s Hc Hnd Hall) as Hf. unfold rs' at 2, members in Hf.
  rewrite (union_rewrite (in_group g) h (db s) Hdb ltac:(done)) in Hf.
  apply bind_Ok in Hf as ([] & s1 & Hset & Hflush).
  rewrite (bind_run _ _ _ _ _ Hset), (bind_run _ _ _ _ _ Hflush).
  set (s2 := s <| db := _ |>). rewrite (bind_run _ _ _ _ _ (write_run _ _ _ _ _ _ _ _ _ s2 Hc)).
  match goal with |- context [mbind _ (for_each _ _) ?s3] =>
    destruct (push_all_run (λ r, (Reservation.user_id r, lifecycle_frame r change_cancelled))
      rs' s3) as (s4 & Hp & Hd4 & Hc4 & Hcm4 & _) end.
  rewrite (bind_run _ _ _ _ _ Hp). exists s4. split; [done|]. split; [|split].
  - rewrite Hd4. eexists. split; [|reflexivity]. done.
  - unfold clean. by rewrite Hc4.
  - exact Hcm4.
Qed.

Lemma cancel_group_run g actor admin reason lab req s :
  session_ok s →
  wp (cancel_group g actor admin reason lab req) (λ res s',
    match head (members g (db s)) with
    | None => res = Raise ReservationNotFoundError ∧ s' = s
    | Some first =>
        if negb admin && negb (bool_decide (Reservation.user_id first = actor))
        then res = Raise CancelNotPermittedError ∧ s' = s
        else
          let running := filter (λ r, script_running r = true) (members g (db s)) in
          if negb (bool_decide (running = []))
          then res = Raise (GroupCancelRunningScriptError (Reservation.id <$> running)) ∧ s' = s
          else res = Ok ((λ r, cancelled_row r (now s) actor reason) <$> members g (db s)) ∧
               group_cancelled g (now s) actor reason (db s) (db s') ∧
               clean s' ∧ committed s' = committed s
    end) s.
Proof.
  intros Hs. pose proof Hs as [Hc Hdb]. unfold cancel_group, wp.
  rewrite (bind_run _ _ _ _ _ (select_populate_clean _ s Hc)).
  change (filter _ (rows (reservations (db s)))) with (members g (db s)). cbv beta.
  destruct (head (members g (db s))) as [first|]; [|done]. simpl some_or_raise.
  rewrite (bind_run (mret first) _ s first s) by reflexivity. cbv zeta.
  destruct (negb admin && _); [done|]. rewrite (bind_run (raise_if false _) _ s tt s) by reflexivity.
  set (running := filter _ (members g (db s))).
  assert (bool_decide (Reservation.id <$> running = []) = bool_decide (running = [])) as ->.
  { apply bool_decide_ext. by destruct running. }
  destruct (negb (bool_decide (running = []))); [done|].
  rewrite (bind_run (raise_if false _) _ s tt s) by reflexivity.
  rewrite (bind_run utcnow _ s (now s) s) by reflexivity.
  match goal with |- context [write _ _ _ ?tgt _ _ ?sid ?pl _] =>
    destruct (save_group_run g actor reason lab tgt sid pl req
      ((λ r, cancelled_row r (now s) actor reason) <$> members g (db s)) s Hs) as (s' & Hr & H) end.
  by rewrite Hr.
Qed.

(** *** Properties *)

(** a group is cancelled as a whole or not at all: an empty group, a
    caller who is neither owner nor administrator, and a running script are
    refused and change nothing; otherwise every scheduled or active row of the
    group becomes cancelled, with the actor, instant and reason, all other
    rows stay, and one audit entry is written. *)
Theorem cancel_group_spec g actor admin reason lab req s :
  session_ok s →
  wp (cancel_group g actor admin reason lab req) (λ res s',
    match head (members g (db s)) with
    | None => res = Raise ReservationNotFoundError ∧ s' = s
    | Some first =>
        if negb admin && negb (bool_decide (Reservation.user_id first = actor))
        then res = Raise CancelNotPermittedError ∧ s' = s
        else
          let running := filter (λ r, script_running r = true) (members g (db s)) in
          if negb (bool_decide (running = []))
          then res = Raise (GroupCancelRunningScriptError (Reservation.id <$> running)) ∧ s' = s
          else res = Ok ((λ r, cancelled_row r (now s) actor reason) <$> members g (db s)) ∧
               group_cancelled g (now s) actor reason (db s) (db s') ∧
               clean s' ∧ committed s' = committed s
    end) s.
Proof. apply cancel_group_run. Qed.

(** Two scheduled bookings of one group. *)
Definition group_sample : Session :=
  open_session (sample_db [sample_reservation 100 1 (hours 1) (hours 3) None;
                           sample_reservation 101 2 (hours 1) (hours 3) None]) 0 "".

Lemma cancel_group_spec_witness :
  wp (cancel_group "g" 10 false None 1 no_request) (λ res s',
    match head (members "g" (db group_sample)) with
    | None => res = Raise ReservationNotFoundError ∧ s' = group_sample
    | Some first =>
        if negb false && negb (bool_decide (Reservation.user_id first = 10))
        then res = Raise CancelNotPermittedError ∧ s' = group_sample
        else
          let running := filter (λ r, script_running r = true) (members "g" (db group_sample)) in
          if negb (bool_decide (running = []))
          then res = Raise (GroupCancelRunningScriptError (Reservation.id <$> running)) ∧ s' = group_sample
          else res = Ok ((λ r, cancelled_row r 0 10 None) <$> members "g" (db group_sample)) ∧
               group_cancelled "g" 0 10 None (db group_sample) (db s') ∧
               clean s' ∧ committed s' = committed group_sample
    end) group_sample ∧
  length (members "g" (db group_sample)) = 2%nat.
Proof.
  split; [|vm_compute; reflexivity].
  apply (cancel_group_spec "g" 10 false None 1 no_request group_sample).
  apply open_session_ok, db_ok_by_test. vm_compute. reflexivity.
Defined.
