(* ===== verification/History.v ===== *)
(** The life of a reservation across requests, agent events, ticks and what
    the other services do in between: a step relation over the durable
    database, the invariant every step keeps and the two-state relation every
    history satisfies. *)

From S2P Require Import Prelude Models SessionLayer Samples AgentRpc.
From S2P Require Import AuditService NotificationService ReservationService ReservationLifecycle SerializableRetry.
From S2P Require Import ScriptLifecycleService ReservationsApi ReservationScheduler BookingProperties ModifyProperties.
From S2P Require Import LifecycleProperties SchedulerProperties GroupProperties.

(** ** One row *)

Definition status_step (a b : ReservationStatus) : Prop := b ∈ _ALLOWED_TRANSITIONS a.
Definition script_step (a b : option ScriptStatus) : Prop :=
  ∃ c, b = Some c ∧ c ∈ _ALLOWED_SCRIPT_TRANSITIONS a.

(** The columns fixed once a reservation has started. *)
Definition plan (r : Reservation.t) : Z * Z * option pystr :=
  (Reservation.start_at r, Reservation.end_at r, Reservation.script r).

(** The columns a cancellation or a failure writes. *)
Definition verdict (r : Reservation.t) : option Z * option Z * option string :=
  (Reservation.cancelled_at r, Reservation.cancelled_by_user_id r, Reservation.cancellation_reason r).

(** [r'] is a later state of the row [r]. *)
Record lives (r r' : Reservation.t) : Prop := mkLives {
  lv_booked : booked r' = booked r ;
  lv_status : rtc status_step (Reservation.status r) (Reservation.status r') ;
  lv_script : rtc script_step (Reservation.script_status r) (Reservation.script_status r') ;
  lv_plan : Reservation.status r ≠ STATUS_SCHEDULED → plan r' = plan r ;
  lv_verdict : Reservation.status r ∈ TERMINAL_STATUSES → verdict r' = verdict r ;
  lv_dispatch : dispatch_has_script r → dispatch_has_script r' }.

Lemma status_step_terminal a b :
  a ∈ TERMINAL_STATUSES → rtc status_step a b → b = a.
Proof.
  intros Ha H. destruct H as [|x y z Hxy _]; [done|]. unfold status_step in Hxy.
  exfalso. destruct x; set_solver.
Qed.

Lemma status_step_started a b :
  a ≠ STATUS_SCHEDULED → rtc status_step a b → b ≠ STATUS_SCHEDULED.
Proof.
  intros Ha H. induction H as [|x y z Hxy _ IH]; [done|]. apply IH. unfold status_step in Hxy.
  destruct x, y; set_solver.
Qed.

#[export] Instance lives_PreOrder : PreOrder lives.
Proof.
  split; [intros r; by split|].
  intros r1 r2 r3 [A1 A2 A3 A4 A5 A6] [B1 B2 B3 B4 B5 B6]. split.
  - congruence.
  - by etrans.
  - by etrans.
  - intros H. rewrite B4 by eauto using status_step_started. by apply A4.
  - intros H. rewrite B5; [by apply A5|]. by rewrite (status_step_terminal _ _ H A2).
  - auto.
Qed.

(** A transition of the status. *)
Lemma lives_transition r r' :
  booked r' = booked r → status_step (Reservation.status r) (Reservation.status r') →
  Reservation.script_status r' = Reservation.script_status r → plan r' = plan r →
  Reservation.script_dispatch_started_at r' = Reservation.script_dispatch_started_at r →
  lives r r'.
Proof.
  intros H1 H2 H3 H4 H5. split; [done|by apply rtc_once|by rewrite H3|done| |].
  - intros H. unfold status_step in H2. exfalso. destruct (Reservation.status r); set_solver.
  - unfold dispatch_has_script. rewrite H5. unfold plan in H4. by injection H4 as _ _ ->.
Qed.

(** A change of the script's columns. *)
Lemma lives_script_change r r' :
  booked r' = booked r → Reservation.status r' = Reservation.status r → plan r' = plan r →
  verdict r' = verdict r → rtc script_step (Reservation.script_status r) (Reservation.script_status r') →
  (dispatch_has_script r → dispatch_has_script r') → lives r r'.
Proof. intros H1 H2 H3 H4 H5 H6. split; [done|by rewrite H2|done..]. Qed.

(** ** The state changes of the services *)

Lemma lives_edited r r' :
  Reservation.status r = STATUS_SCHEDULED → only_edited r r' → lives r r'.
Proof.
  intros Hs [H1 H2 H3 H4 H5]. split; [done|by rewrite H2|by rewrite H3|done| |].
  - rewrite Hs. set_solver.
  - unfold dispatch_has_script. rewrite H4. auto.
Qed.

Lemma lives_cancelled r at_ actor reason :
  Reservation.status r ∉ TERMINAL_STATUSES → lives r (cancelled_row r at_ actor reason).
Proof.
  intros H. apply lives_transition; try done. unfold status_step. simpl.
  destruct (Reservation.status r); set_solver.
Qed.

Lemma lives_failed r reason : Reservation.status r = STATUS_ACTIVE → lives r (failed_row r reason).
Proof.
  intros H. apply lives_transition; unfold failed_row; try by destruct (str_truthy _).
  rewrite H. unfold status_step. destruct (str_truthy _); set_solver.
Qed.

Lemma lives_promoted r : Reservation.status r = STATUS_SCHEDULED → lives r (promoted r).
Proof. intros H. apply lives_transition; try done. rewrite H. unfold status_step. set_solver. Qed.

Lemma lives_closed r : Reservation.status r = STATUS_ACTIVE → lives r (closed r).
Proof.
  intros H. unfold closed. destruct (script_unclean r); [by apply lives_failed|].
  apply lives_transition; try done. rewrite H. unfold status_step. set_solver.
Qed.

Lemma lives_dispatched at_ r :
  Reservation.script_status r = None → is_Some (Reservation.script r) → lives r (dispatched at_ r).
Proof.
  intros Hn Hs. apply lives_script_change; [done..| |by intros _ _].
  apply rtc_once. rewrite Hn. exists SCRIPT_RUNNING. split; [done|]. set_solver.
Qed.

Lemma lives_watched d at_ r : stuck at_ r = true → lives r (watched d at_ r).
Proof.
  intros (Hst & _ & t & Ht & _)%stuck_spec. unfold watched.
  destruct (watchdog_decides d r); [|by apply lives_failed| |done].
  - apply lives_script_change; [done..|]. by intros _ [? ?].
  - apply lives_script_change; [done..|]. intros H _. apply H. by eexists.
Qed.

Lemma lives_tick d at_ r : lives r (tick_row d at_ r).
Proof.
  unfold tick_row. destruct (has_server d r); [|done].
  trans (after_promote at_ r).
  { unfold after_promote. destruct (due_scheduled at_ r) eqn:H; [|done].
    apply due_scheduled_spec in H as [H _]. by apply lives_promoted. }
  generalize (after_promote at_ r). clear r. intros r. trans (after_close at_ r).
  { unfold after_close. destruct (due_active at_ r) eqn:H; [|done].
    apply due_active_spec in H as [H _]. by apply lives_closed. }
  generalize (after_close at_ r). clear r. intros r. trans (after_dispatch d at_ r).
  { unfold after_dispatch, dispatch_mark. destruct (due_script at_ r) eqn:H; [|done].
    apply due_script_spec in H as (_ & Hs & _ & Hn). destruct (is_some _); [|done].
    by apply lives_dispatched. }
  unfold after_watchdog. destruct (stuck at_ _) eqn:H; [|done]. by apply lives_watched.
Qed.

(** ** The database *)

(** A row as it is booked. *)
Definition fresh_row (r : Reservation.t) : Prop :=
  Reservation.status r = STATUS_SCHEDULED ∧ Reservation.script_status r = None ∧
  Reservation.script_dispatch_started_at r = None ∧ verdict r = (None, None, None).

Record history (d d' : Db) : Prop := mkHistory {
  hi_rows : ∀ k r, reservations d !! k = Some r →
    ∃ r', reservations d' !! k = Some r' ∧ lives r r' ;
  hi_new : ∀ k r', reservations d' !! k = Some r' → reservations d !! k = None →
    next_reservation_id d <= k ∧ ∃ r, fresh_row r ∧ lives r r' ;
  hi_audit : audit_extends d d' ;
  hi_next : next_reservation_id d <= next_reservation_id d' }.

#[export] Instance history_PreOrder : PreOrder history.
Proof.
  split.
  - intros d. split; [|intros; congruence|done|done].
    intros k r Hk. by exists r.
  - intros d1 d2 d3 [A1 A2 A3 A4] [B1 B2 B3 B4]. split.
    + intros k r (r2 & H2 & L2)%A1. apply B1 in H2 as (r3 & H3 & L3).
      exists r3. split; [done|by etrans].
    + intros k r3 H3 H1. destruct (reservations d2 !! k) as [r2|] eqn:H2.
      * destruct (B1 _ _ H2) as (r3' & H3' & L). assert (r3' = r3) as -> by congruence.
        destruct (A2 _ _ H2 H1) as (Hk & r & Hf & L'). split; [done|]. exists r.
        split; [done|by etrans].
      * destruct (B2 _ _ H3 H2) as (Hk & H). split; [lia|done].
    + by etrans.
    + lia.
Qed.

(** The table rewritten row by row. *)
Lemma history_rewrite d d' (h : Reservation.t → Reservation.t) :
  reservations d' = h <$> reservations d →
  (∀ k r, reservations d !! k = Some r → lives r (h r)) →
  audit_extends d d' → next_reservation_id d <= next_reservation_id d' → history d d'.
Proof.
  intros Ht Hl Ha Hn. split; [| |done|done].
  - intros k r Hk. exists (h r). rewrite Ht, lookup_fmap, Hk. split; [done|by eapply Hl].
  - intros k r'. rewrite Ht, lookup_fmap. intros Hk Hk'. by rewrite Hk' in Hk.
Qed.

(** One row rewritten. *)
Lemma history_insert d d' k r row :
  reservations d !! k = Some r → lives r row →
  reservations d' = <[k := row]> (reservations d) →
  audit_extends d d' → next_reservation_id d <= next_reservation_id d' → history d d'.
Proof.
  intros Hk Hl Ht Ha Hn. split; [| |done|done].
  - intros k' r'. rewrite Ht, lookup_insert. case_decide as Heq.
    2:{ intros Hk'. by exists r'. }
    subst k'. intros Hk'. exists row. split; [done|]. by assert (r' = r) as -> by congruence.
  - intros k' r'. rewrite Ht, lookup_insert. case_decide; [|by intros; congruence]. intros. congruence.
Qed.

Lemma history_saved d d' r row acts :
  db_ok d → reservations d !! Reservation.id r = Some r → lives r row → saved d d' row acts →
  history d d'.
Proof.
  intros Hdb Hr Hl (es & ns & _ & ->).
  apply (history_insert d _ (Reservation.id r) r row Hr Hl); simpl; [|by exists es|done].
  by rewrite (booked_id _ _ (lv_booked _ _ Hl)).
Qed.

(** What every step guarantees. *)
Definition advances (d d' : Db) : Prop := db_ok d' ∧ history d d'.

Lemma advances_ready d d' : tick_ready d → advances d d' → tick_ready d'.
Proof.
  intros [_ Hd] [Hdb [H1 H2 _ _]]. split; [done|]. intros k r' Hk.
  destruct (reservations d !! k) as [r|] eqn:Hr.
  - destruct (H1 _ _ Hr) as (r2 & Hk2 & L). assert (r2 = r') as -> by congruence.
    by eapply lv_dispatch, Hd.
  - destruct (H2 _ _ Hk Hr) as (_ & r & (_ & _ & Hn & _) & L). apply (lv_dispatch _ _ L).
    unfold dispatch_has_script. rewrite Hn. by intros [? ?].
Qed.

Lemma advances_refl d : db_ok d → advances d d.
Proof. by split. Qed.

Lemma advances_trans d1 d2 d3 : advances d1 d2 → advances d2 d3 → advances d1 d3.
Proof. intros [_ H1] [H2 H3]. split; [done|by etrans]. Qed.

Lemma advances_saved d d' r row acts :
  db_ok d → reservations d !! Reservation.id r = Some r → lives r row → reservation_row_ok row →
  saved d d' row acts → advances d d'.
Proof.
  intros Hdb Hr Hl Hok Hs. split; [|by eapply history_saved].
  destruct Hs as (es & ns & _ & ->).
  destruct (session_ok_insert (open_session d 0 "") row) as [_ H].
  - by apply open_session_ok.
  - by rewrite (booked_id _ _ (lv_booked _ _ Hl)).
  - done.
  - exact H.
Qed.

(** Nothing but audit entries. *)
Lemma advances_logged d es : db_ok d → advances d (d <| audit_log := audit_log d ++ es |>).
Proof.
  intros Hdb. split; [exact Hdb|].
  apply (history_rewrite d _ id); simpl; [by rewrite map_fmap_id|done|by exists es|done].
Qed.

(** ** Requests *)

Section requests.
Context (d : Db) (now : Z) (uuid : string).
Hypothesis Hd : tick_ready d.

Lemma batch_rows_ids mk idx items id :
  (∀ i it id, Reservation.id (mk i it id) = id) →
  NoDup (Reservation.id <$> batch_rows mk idx items id) ∧
  ∀ r, r ∈ batch_rows mk idx items id →
    id <= Reservation.id r ∧ ∃ i it k, r = mk i it k.
Proof using Type.
  intros Hid. revert idx id. induction items as [|it items IH]; intros idx id; simpl.
  { split; [constructor|]. intros r Hr. by apply elem_of_nil in Hr. }
  destruct (IH (S idx) (id + 1)) as [Hnd Hin]. split.
  - apply NoDup_cons. split; [|done]. rewrite Hid. intros (r & Hr & Hrin)%list_elem_of_fmap.
    apply Hin in Hrin as [? _]. lia.
  - intros r [->|Hr]%elem_of_cons; [rewrite Hid; split; [lia|by eauto]|].
    apply Hin in Hr as [? ?]. split; [lia|done].
Qed.

(** The outcome of a booking request. *)
Lemma create_advances items user lab script sst smr share req :
  advances d (get_session (mapping_errors (create_reservation_batch items user lab script sst smr
                share now req)) d now uuid).2.
Proof using Hd.
  destruct Hd as [Hdb _]. set (s := open_session d now uuid).
  assert (Hs : session_ok s) by done.
  pose proof (create_checks_inserts items user lab script sst smr share now req s Hs) as H.
  unfold get_session. fold s. rewrite mapping_errors_run. unfold wp in H.
  destruct (create_reservation_batch _ _ _ _ _ _ _ _ _ s) as [[[g rs]|e] s1]; simpl in H.
  - destruct H as (_ & _ & -> & _ & Ht & [Hc Hok] & _ & es & Hes & _).
    rewrite commit_clean by done. simpl. split; [done|].
    set (rs := planned_rows items user script sst smr share s) in *.
    destruct (batch_rows_ids (new_row user uuid script sst smr share) 0 items
      (next_reservation_id d)) as [Hnd Hin]; [done|].
    fold rs in Hnd, Hin.
    assert (Hlk : ∀ k r, store_rows rs (reservations d) !! k = Some r →
      reservations d !! k = Some r ∨ (r ∈ rs ∧ Reservation.id r = k)).
    { intros k r Hk. destruct (decide (k ∈ Reservation.id <$> rs)) as [Hr|Hr].
      - apply list_elem_of_fmap in Hr as (r' & -> & Hr'). rewrite store_rows_in in Hk by done.
        right. by injection Hk as <-.
      - left. by rewrite store_rows_not_in in Hk. }
    change (reservations (db s)) with (reservations d) in Ht. split.
    + intros k r Hk. exists r. split; [|done]. rewrite Ht, store_rows_not_in; [done|].
      intros (r' & -> & [Hr' _]%Hin)%list_elem_of_fmap. apply Hdb in Hk as (_ & ? & _). lia.
    + intros k r. rewrite Ht. intros [Hk|[Hr <-]]%Hlk Hnone; [congruence|].
      apply Hin in Hr as (Hge & i & it & k' & ->). split; [done|]. eexists. split; [|done]. done.
    + exists es. by rewrite Hes.
    + rewrite Hes. simpl. lia.
  - destruct H as [(_ & Hre & ->)|(_ & Hcm & r & _ & Herr)].
    + rewrite Hre, map_service_error_http, commit_clean by done. by apply advances_refl.
    + destruct (row_error_not_http _ _ Herr) as [-> ->]. rewrite Hcm. by apply advances_refl.
Qed.
End requests.

(** Reading first does not matter to what the request leaves behind. *)
Lemma get_session_read {A B} (m : M A) (f : A → M B) d now uuid a :
  m (open_session d now uuid) = (Ok a, open_session d now uuid) →
  get_session (m ≫= f) d now uuid = get_session (f a) d now uuid.
Proof. intros H. unfold get_session. by rewrite (bind_run _ _ _ _ _ H). Qed.

(** What a request leaves when its handler ends with nothing pending. *)
Lemma get_session_advances {A} (m : M A) d0 d now uuid s :
  (m (open_session d0 now uuid)).2 = s → clean s → committed s = d → advances d (db s) → db_ok d →
  advances d (get_session m d0 now uuid).2.
Proof.
  intros Hm Hc Hcm Ha Hd. destruct (m _) as [r s'] eqn:E. simpl in Hm. subst s'. rename E into Hm.
  rewrite (get_session_clean _ _ _ _ _ _ Hm Hc). simpl.
  destruct r as [a|e]; [done|]. destruct (is_HTTPException e); [done|]. rewrite Hcm.
  by apply advances_refl.
Qed.

Lemma mapping_errors_state {A} (m : M A) s : (mapping_errors m s).2 = (m s).2.
Proof. rewrite mapping_errors_run. by destruct (m s) as [[?|?] ?]. Qed.

Lemma create_request_advances p user req d now uuid :
  tick_ready d → advances d (get_session (create_reservations p user req) d now uuid).2.
Proof.
  intros Hd. unfold create_reservations. rewrite (get_session_read _ _ _ _ _ now) by done.
  by apply create_advances.
Qed.

Lemma create_for_pa_advances pa p user req d now uuid :
  tick_ready d → advances d (get_session (create_reservations_for_pa pa p user req) d now uuid).2.
Proof.
  intros Hd. unfold create_reservations_for_pa.
  destruct (_resolve_link_owned_by pa (User.id user) (open_session d now uuid)) as [[l|e] s] eqn:Hl;
    unfold _resolve_link_owned_by in Hl.
  - assert (s = open_session d now uuid) as -> by (inv_prog; by subst).
    rewrite (get_session_read _ _ _ _ _ l) by exact Hl.
    rewrite (get_session_read _ _ _ _ _ now) by done. by apply create_advances.
  - assert (s = open_session d now uuid ∧ e = HTTPException 404 "no_active_link_for_pa") as [-> ->].
    { apply bind_Raise in Hl as [Hl|(? & ? & ? & Hl)]; [done|]. inv_prog. by subst. }
    rewrite (get_session_clean _ _ _ _ _ _ (bind_run_raise _ _ _ _ _ Hl)) by done.
    apply advances_refl, Hd.
Qed.

Lemma modify_advances rid p user req d now uuid :
  tick_ready d → advances d (get_session (modify_reservation_endpoint rid p user req) d now uuid).2.
Proof.
  intros [Hdb _]. destruct (reservations d !! rid) as [row|] eqn:Hrow.
  - pose proof (db_ok_id _ _ _ Hdb Hrow) as Hid.
    destruct (modify_request_run rid p user req d now uuid row Hdb Hrow) as [Hok H].
    set (r := get_session _ _ _ _) in *. split; [done|].
    assert (Hedit : ∀ r', Reservation.status row = STATUS_SCHEDULED → only_edited row r' →
      reservations r.2 = <[rid := r']> (reservations d) → audit_extends d r.2 →
      next_reservation_id d <= next_reservation_id r.2 → history d r.2).
    { intros r' Hst Hoe Ht Ha Hn. by apply (history_insert d _ rid row r' Hrow (lives_edited _ _ Hst Hoe)). }
    destruct (r.1) as [row'|e].
    + destruct H as ([Hst _ _ _ _ _ _] & -> & es & ns & _ & Hdb'). 
      apply (Hedit (edited_row row p)); [done|apply edited_row_edited| | |]; rewrite Hdb'; simpl.
      * by rewrite (only_edited_id _ _ (edited_row_edited row p)), Hid.
      * by exists es.
      * done.
    + destruct (is_HTTPException e); [|by rewrite H].
      destruct H as [_ [->|(r' & (Hst & _ & Hoe) & _ & Hdb')]]; [done|].
      apply (Hedit r'); [done|done| | |]; rewrite Hdb'; [done|by exists []; rewrite app_nil_r|done].
  - unfold modify_reservation_endpoint. rewrite (get_session_read _ _ _ _ _ now) by done.
    set (s := open_session d now uuid). assert (Hs : session_ok s) by done.
    pose proof (modify_run rid (User.id user) p (User.lab_id user) now req s Hs) as Hm.
    unfold wp in Hm. change (db s) with d in Hm. rewrite Hrow in Hm. destruct Hm as [Hr Hs'].
    destruct (modify_reservation _ _ _ _ _ _ _ _ _ _ s) as [res s'] eqn:E. simpl in *. subst res s'.
    eapply (get_session_advances _ d d now uuid s); [|by apply Hs|done|by apply advances_refl|done].
    fold s. by rewrite mapping_errors_state, E.
Qed.

Lemma not_terminal (st : ReservationStatus) :
  bool_decide (st ∈ TERMINAL_STATUSES) = false → st ∉ TERMINAL_STATUSES.
Proof. by rewrite bool_decide_eq_false. Qed.

Lemma cancel_advances rid actor admin reason lab req d now uuid :
  tick_ready d →
  advances d (get_session (mapping_errors (cancel_reservation rid actor admin reason lab req))
                d now uuid).2.
Proof.
  intros [Hdb _]. set (s := open_session d now uuid).
  pose proof (cancel_run rid actor admin reason lab req s (open_session_ok d now uuid Hdb)) as H.
  unfold wp in H. destruct (cancel_reservation _ _ _ _ _ _ s) as [res s1] eqn:E. simpl in H.
  assert (Hout : clean s1 ∧ committed s1 = d ∧ advances d (db s1)).
  { destruct (reservations d !! rid) as [row|] eqn:Hrow;
      [|destruct H as [-> ->]; by split_and!; [..|apply advances_refl]].
    destruct (bool_decide _) eqn:Ht in H; [destruct H as [-> ->]; by split_and!; [..|apply advances_refl]|].
    destruct (negb admin && _); [destruct H as [-> ->]; by split_and!; [..|apply advances_refl]|].
    destruct H as [-> Hu]. split_and!; [apply Hu|apply (upd_committed _ _ _ _ Hu)|].
    eapply (advances_saved d _ row (cancelled_row row now actor reason)); [done|by eapply db_ok_lookup_id| |exact (db_ok_row _ _ _ Hdb Hrow)|].
    - by apply lives_cancelled, not_terminal.
    - exact (upd_db _ _ _ _ Hu). }
  destruct Hout as (Hc & Hcm & Ha).
  apply (get_session_advances _ d d now uuid s1); [|done..].
  fold s. by rewrite mapping_errors_state, E.
Qed.

Lemma group_advances g at_ actor reason d d' :
  db_ok d → group_cancelled g at_ actor reason d d' → advances d d'.
Proof.
  intros Hdb (e & _ & ->). split.
  - intros k r. simpl. rewrite lookup_fmap. intros (r0 & Hr0 & ->)%fmap_Some.
    destruct (Hdb k r0 Hr0) as (H1 & H2 & H3). by destruct (in_group g r0).
  - eapply history_rewrite; [reflexivity| |by exists [e]|done]. intros k r _. simpl.
    destruct (in_group g r) eqn:Hin; [|done]. apply andb_true_iff in Hin as [_ Hin%bool_decide_eq_true].
    apply lives_cancelled. destruct (Reservation.status r); set_solver.
Qed.

Lemma cancel_group_advances g reason user req d now uuid :
  tick_ready d → advances d (get_session (cancel_group_endpoint g reason user req) d now uuid).2.
Proof.
  intros [Hdb _]. set (s := open_session d now uuid). assert (Hs : session_ok s) by done.
  unfold cancel_group_endpoint.
  rewrite (get_session_read _ _ _ _ _ _ (select_clean _ s (proj1 Hs))).
  match goal with |- context [get_session (?m ≫= _)] => set (jur := m) end.
  assert (Hj : ∃ b, jur s = (Ok b, s)).
  { unfold jur. destruct (head _); [apply can_admin_run|by eexists]. }
  destruct Hj as [b Hb]. rewrite (get_session_read _ _ _ _ _ _ Hb).
  pose proof (cancel_group_run g (User.id user) b reason (User.lab_id user) req s Hs) as H.
  unfold wp in H. destruct (cancel_group _ _ _ _ _ _ s) as [res s1] eqn:E. simpl in H.
  apply (get_session_advances _ d d now uuid s1); [fold s; by rewrite mapping_errors_state, E|..|done];
    change (db s) with d in H; (destruct (head (members g d)) as [first|]; [|by destruct H as [_ ->]]);
    (destruct (negb b && _); [by destruct H as [_ ->]|]);
    (destruct (negb (bool_decide _)) in H; [by destruct H as [_ ->]|]);
    destruct H as (_ & Hg & Hc & Hcm); [done|done|]. by eapply group_advances.
Qed.

(** Others commit [d'] while a task awaits; the registry changes by [f]. *)
Definition world_to (d' : Db) (f : Kills → Kills) : world := λ '(_, pk), (d', f pk).

(** The cancel that awaits the agent advances the database as it was last
    seen. *)
Lemma outcome_advances reply sg d1 d2 rid actor admin reason at_ res s' :
  cancel_outcome reply sg d1 d2 rid actor admin reason at_ res s' → db_ok d1 → db_ok d2 →
  clean s' ∧ ∃ d, (d = d1 ∨ d = d2) ∧ committed s' = d ∧ advances d (db s').
Proof.
  assert (Haud : ∀ d act, db_ok d → only_audited d act s' →
    clean s' ∧ committed s' = d ∧ advances d (db s')).
  { intros d act Hd (Hc & Hcm & e & _ & Hdb). split_and!; [done|done|]. rewrite Hdb.
    by apply advances_logged. }
  assert (Hsame : ∀ d, db_ok d → db s' = d ∧ committed s' = d ∧ clean s' →
    clean s' ∧ committed s' = d ∧ advances d (db s')).
  { intros d Hd (-> & ? & ?). by split_and!; [..|apply advances_refl]. }
  intros H H1 H2. unfold cancel_outcome in H. destruct reply as [r|e].
  - assert (clean s' ∧ committed s' = d2 ∧ advances d2 (db s')) as (? & ? & ?); [|by eauto 6].
    destruct sg; [|destruct H as [_ H]; by eapply Haud].
    destruct (reservations d2 !! rid) as [row|] eqn:Hrow; [|destruct H as [_ H]; by apply Hsame].
    destruct (bool_decide _) eqn:Ht in H; [destruct H as [_ H]; by apply Hsame|].
    destruct (negb admin && _); [destruct H as [_ H]; by apply Hsame|].
    destruct H as (_ & Hcm & Hc & Hs). split_and!; [done|done|].
    eapply (advances_saved d2 _ row (cancelled_row row at_ actor reason));
      [done|by eapply db_ok_lookup_id| |exact (db_ok_row _ _ _ H2 Hrow)|exact Hs].
    by apply lives_cancelled, not_terminal.
  - assert (clean s' ∧ committed s' = d1 ∧ advances d1 (db s')) as (? & ? & ?); [|by eauto 6].
    case_bool_decide; [destruct H as [_ H]; by eapply Haud|]. destruct H as [_ H]. by apply Hsame.
Qed.

Lemma mapping_cancel_errors_state {A} (m : M A) s : (mapping_cancel_errors m s).2 = (m s).2.
Proof.
  unfold mapping_cancel_errors, try_except. destruct (m s) as [[a|e] s']; [done|].
  destruct e; simpl; try done; by destruct (is_ReservationError _).
Qed.

Lemma cancel_request_advances reply d1 f1 d2 f2 rid reason user req d now uuid :
  tick_ready d → advances d d1 → advances d1 d2 →
  advances d (get_session (cancel_reservation_endpoint reply (world_to d1 f1) (world_to d2 f2) rid
                reason user req) d now uuid).2.
Proof.
  intros Hd H1 H2. pose proof Hd as [Hdb _]. set (s := open_session d now uuid).
  assert (Hs : session_ok s) by done. unfold cancel_reservation_endpoint.
  rewrite (get_session_read _ _ _ _ _ _ (get_reservation_run rid s Hs)).
  change (reservations (db s)) with (reservations d).
  destruct (reservations d !! rid) as [row|] eqn:Hrow; simpl some_or_raise.
  2:{ by apply (get_session_advances _ d d now uuid s). }
  rewrite (get_session_read (mret row) _ _ _ _ row) by done.
  destruct (can_admin_run user (Reservation.server_id row) s) as [admin Hadm].
  rewrite (get_session_read _ _ _ _ _ _ Hadm).
  destruct (script_running row); [|by apply cancel_advances].
  set (ar := if admin && _ then _ else _).
  pose proof (cancel_running_run reply (world_to d1 f1) (world_to d2 f2) row (User.id user) admin reason
    (User.lab_id user) ar req s eq_refl (proj1 H1) (proj1 H2)) as [Hout _].
  destruct (cancel_active_with_running_script _ _ _ _ _ _ _ _ _ _ s) as [res s'] eqn:E.
  destruct (outcome_advances _ _ _ _ _ _ _ _ _ _ _ Hout (proj1 H1) (proj1 H2))
    as (Hc & d' & Hd' & Hcm & Ha). simpl in Hd', Hcm, Ha, Hc.
  apply (advances_trans d d').
  { destruct Hd' as [->| ->]; [done|by eapply advances_trans]. }
  apply (get_session_advances _ d d' now uuid s'); [|done..|by destruct Hd' as [->| ->]; [apply H1|apply H2]].
  fold s. by rewrite mapping_cancel_errors_state, E.
Qed.

(** ** Agent events *)

(** What a transaction leaves behind: what it wrote, or nothing. *)
Lemma lives_started row p :
  Reservation.script_status row = None ∨ Reservation.script_status row = Some SCRIPT_RUNNING →
  lives row (started_row row p).
Proof.
  intros H. unfold started_row, acked_row, with_log_path.
  destruct H as [H|H]; rewrite H; cbv zeta.
  - apply lives_script_change; try by destruct (str_truthy _).
    rewrite H. apply rtc_once. exists SCRIPT_RUNNING. split; [by destruct (str_truthy _)|set_solver].
  - destruct (Reservation.script_started_at _) eqn:Hst; simpl in Hst;
      destruct (str_truthy (st_log_path p)); apply lives_script_change; try done;
      by intros _ [? ?].
Qed.

Lemma lives_finished row p :
  Reservation.script_status row = Some SCRIPT_RUNNING → lives row (finished_row row p).
Proof.
  intros H. unfold finished_row, with_output, with_log_path.
  apply lives_script_change; try by destruct (bool_decide _), (str_truthy _).
  rewrite H. apply rtc_once. exists (finished_status p). split.
  - by destruct (bool_decide _), (str_truthy _).
  - unfold finished_status. destruct (fi_killed_by_corelab p); [set_solver|].
    case_bool_decide; set_solver.
Qed.

Lemma started_advances p lab d now :
  tick_ready d → advances d (transaction (on_script_started p lab) d now).2.
Proof.
  intros [Hdb _]. set (s := open_session d now ""). assert (Hs : session_ok s) by done.
  destruct (started_run p lab s Hs) as (s' & Hr & H). change (reservations (db s)) with (reservations d) in H.
  rewrite (transaction_db _ _ _ _ _ Hr); simpl.
  - destruct (reservations d !! st_reservation_id p) as [row|] eqn:Hrow; [|by rewrite H].
    pose proof (db_ok_lookup_id _ _ _ Hdb Hrow) as Hid. pose proof (db_ok_row _ _ _ Hdb Hrow) as Hok.
    assert (Hsave : ∀ acts, (Reservation.script_status row = None ∨ Reservation.script_status row = Some SCRIPT_RUNNING) →
      updated s s' (started_row row p) acts → advances d (db s')).
    { intros acts Hst Hu. eapply advances_saved; [done|exact Hid|by apply lives_started| |apply Hu].
      by apply started_row_ok. }
    destruct (Reservation.script_status row) as [[]|]; try (by rewrite H); eapply Hsave, H; auto.
  - intros _. destruct (reservations d !! st_reservation_id p) as [row|]; [|by rewrite H].
    destruct (Reservation.script_status row) as [[]|]; try (by rewrite H); apply H.
Qed.

Lemma output_advances p d now :
  tick_ready d → advances d (transaction (on_script_output_chunk p) d now).2.
Proof.
  intros [Hdb _]. set (s := open_session d now ""). assert (Hs : session_ok s) by done.
  destruct (reservations d !! oc_reservation_id p) as [row|] eqn:Hrow.
  - destruct (oc_text p) as [|c text] eqn:Htext.
    + rewrite (transaction_db _ _ _ (Ok tt) s); [by apply advances_refl| |done].
      unfold on_script_output_chunk. rewrite (bind_run _ _ _ _ _ (get_reservation_run _ s Hs)).
      change (reservations (db s)) with (reservations d). by rewrite Hrow, Htext.
    + assert (Hne : oc_text p ≠ []) by by rewrite Htext.
      pose proof (output_chunk_run p row s Hs Hrow Hne) as H. unfold wp in H.
      destruct (on_script_output_chunk p s) as [res s'] eqn:E. simpl in H.
      destruct (bool_decide _) eqn:Hfit in H.
      * destruct H as [-> Hu]. rewrite (transaction_db _ _ _ _ _ E) by (intros; apply Hu). simpl.
        match type of Hu with updated _ _ ?r _ => eapply (advances_saved d _ row r) end;
          [done|by eapply db_ok_lookup_id| | |apply Hu].
        -- by apply lives_script_change.
        -- apply reservation_row_error_None. 
           etrans; [exact (row_error_tail row _ _ (db_ok_row _ _ _ Hdb Hrow))|]. by rewrite Hfit.
      * destruct H as (-> & Hd & Hcm). rewrite (transaction_db _ _ _ _ _ E) by done. simpl.
        rewrite Hcm. by apply advances_refl.
  - rewrite (transaction_db _ _ _ (Ok tt) s); [by apply advances_refl| |done].
    unfold on_script_output_chunk. rewrite (bind_run _ _ _ _ _ (get_reservation_run _ s Hs)).
    change (reservations (db s)) with (reservations d). by rewrite Hrow.
Qed.

Lemma finished_advances p lab d now :
  tick_ready d → advances d (transaction (on_script_finished p lab) d now).2.
Proof.
  intros [Hdb _]. set (s := open_session d now ""). assert (Hs : session_ok s) by done.
  destruct (reservations d !! fi_reservation_id p) as [row|] eqn:Hrow.
  - destruct (decide (Reservation.script_status row = Some SCRIPT_RUNNING ∧ finish_fits p = false)) as [[Hst Hfit]|Hfit].
    { destruct (finished_unfit p lab row s Hs Hrow Hst Hfit) as (col & s' & Hr & Hcm).
      rewrite (transaction_db _ _ _ _ _ Hr) by done. simpl. rewrite Hcm. by apply advances_refl. }
    assert (Hfit' : Reservation.script_status row = Some SCRIPT_RUNNING → finish_fits p = true).
    { intros Hst. apply not_false_iff_true. tauto. }
    destruct (finished_run p lab row s Hs Hrow Hfit') as (s' & Hr & _ & H).
    case_bool_decide as Hst.
    + pose proof H as [_ Hc _ Hsv]. rewrite (transaction_db _ _ _ _ _ Hr) by (intros; exact Hc). simpl.
      eapply (advances_saved d _ row); [done|by eapply db_ok_lookup_id|by apply lives_finished| |exact Hsv].
      apply finished_row_slot; [auto|]. exact (db_ok_row _ _ _ Hdb Hrow).
    + subst s'. rewrite (transaction_db _ _ _ _ _ Hr) by done. by apply advances_refl.
  - rewrite (transaction_db _ _ _ (Ok tt) s); [by apply advances_refl| |done].
    unfold on_script_finished. rewrite (bind_run _ _ _ _ _ (get_reservation_run _ s Hs)).
    change (reservations (db s)) with (reservations d). by rewrite Hrow.
Qed.

(** ** The scheduler *)

Lemma tick_advances d now : tick_ready d → advances d (transaction tick_transaction d now).2.
Proof.
  intros [Hdb Hsc]. set (s := open_session d now ""). assert (Hs : session_ok s) by done.
  destruct (tick_run s Hs Hsc) as (pd & pr & s' & Hr & Ht & _ & _ & _ & [Hc Hok] & He).
  rewrite (transaction_db _ _ _ _ _ Hr) by done. simpl. split; [done|].
  eapply (history_rewrite d (db s') (tick_row d now)); [exact Ht|intros; apply lives_tick| |].
  - exact (evolves_audit _ _ _ He).
  - by destruct He as [_ _ _ (? & ? & ? & -> & _)].
Qed.

Lemma dispatch_reply_advances q reply msg now d :
  tick_ready d → advances d (_dispatch_one q reply msg now d).
Proof.
  intros [Hdb _]. destruct q as [[rid sid] p]. unfold _dispatch_one.
  destruct (dispatch_failure reply) as [cls|]; [|by apply advances_refl].
  set (s := open_session d now ""). assert (Hc : clean s) by done.
  unfold _record_dispatch_attempt_failed.
  erewrite transaction_db; [|rewrite (bind_run _ _ _ _ _ (_server_lab_id_run sid _));
                              by rewrite write_run|done].
  simpl. by apply advances_logged.
Qed.

(** ** The system

    One step is one request, one agent event, one committed tick, the
    record of one failed dispatch, or anything other services do to the
    other tables.  A [DELETE] that waits for the agent lets other steps happen
    during both waits. *)
Inductive step : Db → Db → Prop :=
| step_create p user req d now uuid :
    step d (get_session (create_reservations p user req) d now uuid).2
| step_create_for_pa pa p user req d now uuid :
    step d (get_session (create_reservations_for_pa pa p user req) d now uuid).2
| step_modify rid p user req d now uuid :
    step d (get_session (modify_reservation_endpoint rid p user req) d now uuid).2
| step_cancel reply f1 f2 rid reason user req d d1 d2 now uuid :
    steps d d1 → steps d1 d2 →
    step d (get_session (cancel_reservation_endpoint reply (world_to d1 f1) (world_to d2 f2) rid
                           reason user req) d now uuid).2
| step_cancel_group g reason user req d now uuid :
    step d (get_session (cancel_group_endpoint g reason user req) d now uuid).2
| step_started p lab d now : step d (transaction (on_script_started p lab) d now).2
| step_output p d now : step d (transaction (on_script_output_chunk p) d now).2
| step_finished p lab d now : step d (transaction (on_script_finished p lab) d now).2
| step_tick d now : step d (transaction tick_transaction d now).2
| step_dispatch_reply q reply msg d now : step d (_dispatch_one q reply msg now d)
| step_others d d' :
    reservations d' = reservations d → next_reservation_id d' = next_reservation_id d →
    audit_extends d d' → step d d'
with steps : Db → Db → Prop :=
| steps_refl d : steps d d
| steps_next d d1 d2 : steps d d1 → step d1 d2 → steps d d2.

Scheme step_mut := Minimality for step Sort Prop
with steps_mut := Minimality for steps Sort Prop.
Combined Scheme step_steps_ind from step_mut, steps_mut.

Lemma steps_advance_all :
  (∀ d d', step d d' → tick_ready d → advances d d') ∧
  (∀ d d', steps d d' → tick_ready d → advances d d').
Proof.
  apply step_steps_ind.
  - intros. by apply create_request_advances.
  - intros. by apply create_for_pa_advances.
  - intros. by apply modify_advances.
  - intros reply f1 f2 rid reason user req d d1 d2 now uuid _ H1 _ H2 Hd.
    pose proof (H1 Hd) as A1. pose proof (H2 (advances_ready _ _ Hd A1)) as A2.
    by apply cancel_request_advances.
  - intros. by apply cancel_group_advances.
  - intros. by apply started_advances.
  - intros. by apply output_advances.
  - intros. by apply finished_advances.
  - intros. by apply tick_advances.
  - intros. by apply dispatch_reply_advances.
  - intros d d' Hr Hn Ha [Hdb _]. split.
    + intros k r. rewrite Hr, Hn. apply Hdb.
    + apply (history_rewrite d d' id); [by rewrite map_fmap_id|done|done|lia].
  - intros d [Hd _]. by apply advances_refl.
  - intros d d1 d2 _ H1 _ H2 Hd. pose proof (H1 Hd) as A1.
    exact (advances_trans _ _ _ A1 (H2 (advances_ready _ _ Hd A1))).
Qed.

Lemma steps_advance d d' : tick_ready d → steps d d' → tick_ready d' ∧ history d d'.
Proof.
  intros Hd Hs. pose proof (proj2 steps_advance_all d d' Hs Hd) as A.
  split; [by eapply advances_ready|apply A].
Qed.

(** *** Properties *)

(** C1: along every history of the system -- bookings, edits, cancels
    with other steps during their waits, agent events, ticks, and anything the
    other services do to the other tables -- the table stays well formed, no
    booking is ever deleted or renumbered, what identifies it never changes,
    its status and its script's status only move along the code's transition
    tables, its window and script are fixed once it has started, new rows are
    born scheduled under fresh ids, and the audit log only grows. *)
Theorem reservation_history d d' :
  tick_ready d → steps d d' → tick_ready d' ∧ history d d'.
Proof. apply steps_advance. Qed.

(** C2: a completed, cancelled or failed reservation stays exactly as it
    ended: no later request, event or tick changes its status, its window, its
    script, who cancelled it or why. *)
Theorem finished_is_final d d' k r :
  tick_ready d → steps d d' → reservations d !! k = Some r →
  Reservation.status r ∈ TERMINAL_STATUSES →
  ∃ r', reservations d' !! k = Some r' ∧ booked r' = booked r ∧
        Reservation.status r' = Reservation.status r ∧ plan r' = plan r ∧ verdict r' = verdict r.
Proof.
  intros Hd Hs Hr Ht. destruct (steps_advance _ _ Hd Hs) as [_ [H _ _ _]].
  destruct (H _ _ Hr) as (r' & Hr' & [H1 H2 _ H4 H5 _]). exists r'. split_and!; [done|done| | |auto].
  - by apply status_step_terminal.
  - apply H4. destruct (Reservation.status r); set_solver.
Qed.

(** C3: on every database the system can reach, a tick of the scheduler
    succeeds: the assertion on a dispatched row's script never fires, and
    afterwards nothing is overdue. *)
Theorem tick_never_stuck d d' now :
  tick_ready d → steps d d' →
  ∃ q d'', transaction tick_transaction d' now = (Ok q, d'') ∧ tick_ready d'' ∧
    ∀ k r, reservations d'' !! k = Some r → has_server d' r = true → settled d' now r.
Proof.
  intros Hd Hs. destruct (steps_advance _ _ Hd Hs) as [Hr' _]. pose proof Hr' as [Hdb Hsc].
  set (s := open_session d' now ""). assert (Hs' : session_ok s) by done.
  destruct (tick_run s Hs' Hsc) as (pd & pr & s1 & Hr & Ht & _ & _ & _ & [Hc Hok] & He).
  exists (pd, pr), (db s1). split; [|split].
  - unfold transaction. fold s. rewrite Hr, commit_clean by done. done.
  - split; [done|]. by eapply (tick_has_script s s1).
  - intros k r. rewrite Ht, lookup_fmap. intros (r0 & _ & ->)%fmap_Some.
    change (db s) with d'. rewrite tick_row_has_server. apply tick_row_settled.
Qed.

(** Alice books a card with a script; the scheduler starts the booking and
    dispatches the script; the agent reports its start and its end; the
    booking ends. *)
Definition story_user : User.t := sample_user 10 "alice".
Definition story_booking : ReservationCreateRequest :=
  mkCreateRequest [mkItemDraft 1 (Some 1) (hours 1) (hours 2) 7 None None] (Some sample_script)
    None (Some 600) false.
Definition story_start : Db := sample_db [].
Definition story_booked : Db :=
  (get_session (create_reservations story_booking story_user no_request) story_start 0 "g").2.
Definition story_running : Db := (transaction tick_transaction story_booked (hours 1)).2.
Definition story_started : Db :=
  (transaction (on_script_started (mkScriptStartedEvent 200 4242 (hours 1) None) 1) story_running
     (hours 1)).2.
Definition story_done : Db :=
  (transaction (on_script_finished
     (mkScriptFinishedEvent 200 (Some 0) (hours 1) (seconds 5) 2 None false None) 1)
     story_started (hours 1)).2.
Definition story_end : Db := (transaction tick_transaction story_done (hours 2)).2.

Lemma story_ready : tick_ready story_start.
Proof.
  split; [apply db_ok_by_test; vm_compute; reflexivity|]. intros k r Hk.
  change (reservations story_start) with (∅ : gmap Z Reservation.t) in Hk.
  by rewrite lookup_empty in Hk.
Qed.

Lemma story_steps : steps story_start story_end.
Proof.
  eapply steps_next; [|apply step_tick]. eapply steps_next; [|apply step_finished].
  eapply steps_next; [|apply step_started]. eapply steps_next; [|apply step_tick].
  eapply steps_next; [|apply step_create]. apply steps_refl.
Qed.

(** Where the story's booking stands. *)
Definition story_state (d : Db) : option (ReservationStatus * option ScriptStatus) :=
  (λ r, (Reservation.status r, Reservation.script_status r)) <$> reservations d !! 200.

Lemma reservation_history_witness :
  (tick_ready story_end ∧ history story_start story_end) ∧
  story_state <$> [story_start; story_booked; story_running; story_done; story_end] =
    [None; Some (STATUS_SCHEDULED, None); Some (STATUS_ACTIVE, Some SCRIPT_RUNNING);
     Some (STATUS_ACTIVE, Some SCRIPT_COMPLETED); Some (STATUS_COMPLETED, Some SCRIPT_COMPLETED)].
Proof.
  split; [exact (reservation_history _ _ story_ready story_steps)|vm_compute; reflexivity].
Defined.

Lemma tick_never_stuck_witness :
  ∃ q d'', transaction tick_transaction story_end (hours 3) = (Ok q, d'') ∧ tick_ready d'' ∧
    ∀ k r, reservations d'' !! k = Some r → has_server story_end r = true →
      settled story_end (hours 3) r.
Proof. exact (tick_never_stuck _ _ (hours 3) story_ready story_steps). Defined.

(** A cancelled booking of bob, and the rest of the story around it. *)
Definition cancelled_sample : Reservation.t :=
  cancelled_row (sample_reservation 100 2 (hours 1) (hours 3) None) 0 11 (Some "mistake"%string).
Definition final_start : Db := sample_db [cancelled_sample].

Lemma final_ready : tick_ready final_start.
Proof.
  split; [apply db_ok_by_test; vm_compute; reflexivity|].
  apply (rows_by_test dispatch_has_script
    (λ r, negb (is_some (Reservation.script_dispatch_started_at r)))); [|vm_compute; reflexivity].
  unfold dispatch_has_script. intros r'. destruct (Reservation.script_dispatch_started_at r'); [done|].
  by intros _ [? ?].
Qed.

Lemma finished_is_final_witness :
  ∃ r', reservations (transaction tick_transaction final_start (hours 2)).2 !! 100 = Some r' ∧
        booked r' = booked cancelled_sample ∧
        Reservation.status r' = Reservation.status cancelled_sample ∧ plan r' = plan cancelled_sample ∧
        verdict r' = verdict cancelled_sample.
Proof.
  apply (finished_is_final final_start _ 100 cancelled_sample final_ready).
  - eapply steps_next; [apply steps_refl|apply step_tick].
  - vm_compute. reflexivity.
  - vm_compute. set_solver.
Defined.
